(* ===== verification/_CoqProject ===== *)
-Q . S2P
Prelude.v
Bitmap.v
Klist.v
V4l2.v
UsbUrb.v
UsbFlush.v
UsbMsg.v
V4l2Ioctl.v
VideoDev.v
UvcParams.v
UvcQueue.v
UvcDecode.v
UvcStream.v
UvcDriver.v
UsbHost.v
PicOps.v
Disp.v
PicFmt.v
Float32.v
Convert.v
Videobuf.v
VideobufRead.v
Vivi.v
Cmos.v
Uda1341.v
Iis.v
Render.v
VideoApp.v
SysNode.v
DriverTables.v
UvcModule.v
AppDrivers.v
