(* ===== verification/Prelude.v ===== *)
(** Verification of the camera drivers and the display program of this repository.

    * The programs

    The repository holds a USB camera driver ([src/myuvc/10_th/uvc.c]), a virtual
    camera driver ([src/myvivi/6_th/vivi.c]), a program that shows the pictures of a
    camera on a framebuffer ([src/video2lcd]), a CMOS camera driver
    ([src/CMOS/5_th/cmos_ov7740_drv.c]), audio drivers ([src/Alsa/8_th]), and the
    Linux 3.4.2 sources that the drivers are built against. Earlier stages of each
    program lie beside the last one; the last one is modelled. Of the display
    program the directory [1_th] has the drawing and the picture files, and [Test]
    has the finished capture, conversion and main loop.

    The USB camera driver talks to the camera with control requests, keeps the
    buffers of the application in two kernel lists, and puts the packets of
    isochronous transfers together into frames; the USB core queues the transfers
    for the host controller, counts their references and gives them back. Each driver
    registers a video device with the kernel; a system call of a program goes through
    the registrar of video devices to the dispatcher of requests, which copies the
    structure of the request, and from there to the function of the driver. The
    virtual camera leaves the buffers to the kernel's videobuf framework and fills them
    from a timer. The
    display program sets a camera up, takes frame after frame from it, converts,
    scales and merges it into the framebuffer; its other half reads BMP and JPEG
    files and draws text and pages. The CMOS driver
    computes and programs the scaler of the camera interface, which writes pictures
    into four blocks of pages. The audio codec is set over three pins that the
    driver switches one by one, with a cache of its registers, and the I2S
    controller gets the prescaler for the wanted rate.

    * The files

    - [Prelude]: integers of fixed width, byte memory, tactics, shared lemmas.
    - [Bitmap]: the search for a clear bit of a bitmap ([lib/find_next_bit.c]).
    - [Klist]: the lists of [include/linux/list.h]: the pointer code ([Ptr]), the
      sequences the drivers think of ([Seq]), and the simulation between them.
    - [V4l2]: structures and constants of [include/linux/videodev2.h], unaligned
      accesses.
    - [UsbUrb]: URBs of the USB core ([urb.c], [hcd.c]): reference counts, submission,
      linking, giving back, unlinking and killing.
    - [UsbFlush]: emptying the queue of an endpoint ([hcd.c]), step by step, with the
      steps of drivers, handlers and the controller between its own.
    - [UsbMsg]: control messages and the settings of interfaces ([message.c],
      [usb.c]) on top of it.
    - [V4l2Ioctl]: the dispatcher of V4L2 requests ([v4l2-ioctl.c]), with the numbers
      of the requests and the copies from and to the program.
    - [VideoDev]: the registrar of video devices ([v4l2-dev.c]) as a machine: the
      table of devices, their references, the open files and the calls for them.
    - [UvcParams], [UvcQueue], [UvcDecode], [UvcStream], [UvcDriver]: [uvc.c], in
      this order its control requests, its buffer queue, its completion handler,
      its URBs with streaming, and the driver as a machine with one event per entry
      point.
    - [UsbHost]: the driver on the modelled USB core, with the transfers of the host
      controller as events.
    - [PicOps]: [render/operation/merge.c] and [zoom.c] of the display program.
    - [Disp]: [display/fb.c] and [display/disp_manager.c].
    - [PicFmt]: [render/format/bmp.c], [jpg.c] and [picfmt_manager.c].
    - [Float32]: the binary32 arithmetic of the scale, on ratios of integers.
    - [Convert]: the converters of [src/video2lcd/Test/convert] with their colour
      tables and the memory source for libjpeg.
    - [Videobuf]: [videobuf-core.c] and [videobuf-vmalloc.c] of the kernel.
    - [VideobufRead]: reading a stream from it with [read].
    - [Vivi]: [vivi.c] on top of it, as a machine, and the image bounds of
      [v4l2-common.c].
    - [Cmos]: [cmos_ov7740_drv.c], with the orders of page blocks ([fls.h],
      [getorder.h]).
    - [Uda1341]: [codec/uda1341.c], with a receiver of the L3 bus and the registers
      of the codec as its specification.
    - [Iis]: [platform/s3c2440_iis.c] and the trigger of [s3c2440_dma.c].
    - [Render]: [render/render.c] on top of [PicOps], [Disp] and [PicFmt].
    - [VideoApp]: [Test/video/v4l2.c], [Test/video/video_manager.c] and [Test/main.c]
      against the interface of a camera.
    - [SysNode]: a driver under that interface, once with its functions called
      directly and once by system calls, and the simulation between the two.
    - [DriverTables]: the tables of requests and file operations that the three camera
      drivers register.
    - [UvcModule]: [probe] and [disconnect] of [uvc.c] with the registration of its
      device, and the module in the kernel as a machine.
    - [AppDrivers]: the display program on the three camera drivers.

    * How code is modelled

    A function of the source is a definition of the same name where the name is
    free. State is passed explicitly; the static variables of a source file are a
    record. An error code is an ordinary result. [None] is undefined behaviour: an
    access outside a block, a NULL pointer, a list that was never initialised. A
    loop is a [Fixpoint] over the number of its rounds. Locks are left out: each
    call, tick and completion is one step, in any order; where a call can be interrupted
    while it waits for a lock, whether it is is an argument. What lies outside the
    modelled code (allocation, time, the host controller, libjpeg, answers of the
    framebuffer) is an argument of a definition or a class with laws: [UsbCore]
    and [UsbLaws] for the USB core, with the instance [sim_usb] and the modelled
    core of [UsbHost], [CaptureSetup], [CaptureStream] and [CameraLaws] for a camera
    under the display program, with a simulated camera and the three drivers,
    [VideobufOps] and [VideobufLaws] for a driver under videobuf, with the
    instance of [Vivi] (and [ReaderLaws] for one that can be read), and [PageOps] and
    [PageLaws] for the page allocator, with the instance [sim_page_ops]. What the
    registrar asks of a driver is the record [fops_good] for the laws [driver_laws],
    which the UVC driver keeps ([uvc_good]); what the display program asks of a table
    is [v4l2_driver], which all three keep. Fonts and encodings of [Render] and the
    macro [ABS] of [Iis] are section variables.

    * What the theorems show

    - Lists: the pointer code implements the sequences ([klist_refines]).
    - Bitmaps: the search by words is the search bit by bit ([find_next_words_spec]).
    - Requests: what [video_ioctl2] passes to a driver, refuses and gives back, on every
      error of the copies included ([ioctl_dispatch]).
    - Registrar: no freed device is used, files keep their device, numbers are not
      shared ([videodev_safe]); when a registration succeeds and which numbers the
      device gets: the first free ones ([register_spec]).
    - The UVC driver in the kernel: no call faults from [insmod] on, in an environment
      that keeps to [mallowed] ([uvc_module_safe]): the camera is not unplugged while
      it is open, DQBUF and poll come after REQBUFS, and URBs complete while a buffer
      is queued for each of their packets.
    - USB core: no allowed sequence of calls and completions faults or uses
      a freed URB ([usb_core_safe]); killing an URB and flushing a disabled endpoint end
      under every interleaving ([kill_terminates], [flush_terminates]), and the
      flush that the control messages call is one of its runs ([flush_is_run]); which isochronous URBs are taken ([iso_submit_spec]); a
      control message leaves no URB behind ([control_msg_clean]).
    - USB camera on the core: the driver and the core together are safe
      ([system_safe]), and STREAMON leaves its URBs queued ([streamon_queues]).
    - USB camera: the completion handler implements a frame assembler
      ([video_complete_refines], [frame_end_to_end]); the queue invariant holds in
      every reachable state and the driver does not fault there under the stated
      conditions ([driver_invariant], [driver_safe]); buffers come back in order
      ([buffers_in_order]); what starting a stream allocates and stopping it frees
      ([streamon_resources], [streamoff_resources]); the layout of the URBs, the
      buffer requests, and the codecs of the control data.
    - Virtual camera: invariant and order in every reachable state
      ([vivi_invariant], [vivi_order]), the behaviour of DQBUF and of the timer
      on every branch, the delivery of every queued buffer to a process that waits for
      it ([vivi_delivers]), and the bounds of the formats.
    - Reading through videobuf: the device is a byte stream, across buffers, calls
      that sleep, signals and failed pictures ([reading_is_a_stream]), and what one
      call does ([read_stream_bytes]).
    - CMOS camera: REQBUFS fails in every reachable state, whatever can be allocated,
      and what it leaves behind ([reqbufs_never_succeeds]); the scaler is set to the closed form of its ratios
      ([scaler_equiv]); what S_FMT and STREAMON leave in the fields of the registers
      ([camera_setup]); the order of an allocation ([get_order_spec]).
    - Audio: what the driver does to the pins is what a receiver gets
      ([l3_roundtrip]); the register cache mirrors the chip ([cache_in_sync]); the
      prescaler is the best of all ([iis_hw_params_spec]).
    - Showing a camera: with a camera that keeps its contract, the program sets the
      device up and runs without a fault, and after a round the screen has a frame of
      the camera, converted, scaled to fit and centred ([video_shown]); what the converters do to
      every pixel ([convert_spec], [mjpeg_spec]), the colours ([color_roundtrip]) and
      the memory source ([skip_spec]).
    - Display program: what merging, zooming, drawing and clearing do to every
      pixel; starting the display; which page is taken and kept; what the readers
      of BMP and JPEG files produce; drawing text ends and stays in its rectangle,
      down to the screen ([draw_text_shown]); the two ways to clear a rectangle
      agree ([clear_rectangle_equiv]); a button pressed and released leaves the
      screen as it was ([press_release_roundtrip]).
    - Faults: inputs on which the code runs into undefined behaviour, loses data or
      never succeeds ([reqbufs_overrun], [unallocated_faults], [toggle_discards],
      [merge_overrun], [alloc_unselected_faults], [poll_timer_faults],
      [s_fmt_overrun], [reqbufs_fails], [restream_stale], [tiny_picture_faults],
      [string_height_wrong], [failed_submit_faults], and the second part of
      [jpg_spec]). The program cannot start on any driver of the repository
      ([drivers_not_started]), a camera that is unplugged while it is open leaves files
      that refer to freed memory ([uvc_unplugged_in_use]), one that is plugged in again
      is not seen ([uvc_replugged]), a YUYV camera is never shown, or faults the program
      if its frames are larger than the screen, and a RGB565 camera ends the program on a screen of 32 bits ([formats_not_shown]), and two colour coefficients are exchanged
      ([green_exchanged_spec]).

    * Bounds and fuel

    Integers of the kernel code that the code lets wrap are wrapped. The sizes of
    pictures are bounded by 2^16 or 2^15 in the theorems about them; the number of
    bytes of a picture, which the display program computes as a product of sizes, is
    a product of integers of no fixed width, so that the theorems speak of the machine
    for pictures of less than 2^31 bytes. [fill_while] runs with one round more than there are
    bytes, which [fill_while_spec] shows to be enough. The loops over the
    sixteen bits of a control value take at least one bit per round and have 17
    rounds. [map_pages] has a round for each
    byte of the mapping, and each round maps a page. The fuel of [align_loop] is
    not used by the driver. A pass over a string has a round more than the string
    has bytes, which is enough because each character takes a byte
    ([draw_text_shown]). A [read] has a round for each slot of the queue and one more:
    a round that does not end the call gives a finished buffer back to the driver
    ([fuel_enough]). Waiting for a killed URB has a round for each use of it, and
    flushing an endpoint in one go one for each URB queued. Skipping input and enumerating
    formats have more rounds than the loops of the code can take. The search for a clear
    bit has a round for each bit, the search by words one for each whole word. The search for the prescaler has the 32 rounds of the
    code.

    * What is not modelled

    Of the USB core: anchors, the root hub, the mapping of buffers for DMA, bandwidth,
    runtime power, sysfs, descriptors and configurations, bulk messages. Of the
    dispatcher of requests: entries that no driver here fills, priorities, control
    handlers and debugging output. Of the registrar: [write], the parent device
    [v4l2_device], the media controller and the sysfs attributes. The network
    client of the display program, the [module_init] functions of the virtual camera and
    of the CMOS camera, the [read] of single
    frames in videobuf ([videobuf_read_one], which no driver here calls), and the
    rest of the kernel. The audio DMA programs no transfer at this stage: its
    interrupt and its prepare are empty. The machine file of the audio drivers is a
    table of names. *)

From stdpp Require Export prelude list gmap strings.
From Stdlib Require Export ZArith Lia.

#[global] Open Scope Z_scope.
#[global] Set Default Goal Selector "!".

(** * Machine integers

    The programs run on 32-bit ARM: [int], [unsigned int], [long] and pointers
    are 32 bits wide.  A value of a C integer type is a [Z] in the range of the
    type; the wrapping conversions are written out where the code performs
    them. *)

Definition u8 (z : Z) : Z := z mod 2 ^ 8.
Definition u16 (z : Z) : Z := z mod 2 ^ 16.
Definition u32 (z : Z) : Z := z mod 2 ^ 32.
Definition s32 (z : Z) : Z := (z + 2 ^ 31) mod 2 ^ 32 - 2 ^ 31.

Definition is_u8 (z : Z) : Prop := 0 <= z < 2 ^ 8.
Definition is_u16 (z : Z) : Prop := 0 <= z < 2 ^ 16.
Definition is_u32 (z : Z) : Prop := 0 <= z < 2 ^ 32.
Definition is_s32 (z : Z) : Prop := - 2 ^ 31 <= z < 2 ^ 31.

(** C truth value of an [int]. *)
Definition truth (z : Z) : bool := negb (z =? 0).
(** The [int] a C comparison yields. *)
Definition of_bool (b : bool) : Z := if b then 1 else 0.

(** The bit test [x & mask] used as a condition. *)
Definition bit_set (x mask : Z) : bool := truth (Z.land x mask).

(** Error numbers, include/asm-generic/errno-base.h. *)
Definition EIO : Z := 5.
Definition EAGAIN : Z := 11.
Definition ENOMEM : Z := 12.
Definition EFAULT : Z := 14.
Definition EBUSY : Z := 16.
Definition ENODEV : Z := 19.
Definition EINVAL : Z := 22.
Definition ENFILE : Z := 23.
Definition ENOTTY : Z := 25.
(** include/linux/errno.h *)
Definition ERESTARTSYS : Z := 512.

(** * Pages *)

Definition PAGE_SHIFT : Z := 12.
Definition PAGE_SIZE : Z := 4096.

(** [PAGE_ALIGN(x)]: round an [unsigned int] up to a multiple of the page
    size, in 32-bit arithmetic. *)
Definition PAGE_ALIGN (x : Z) : Z :=
  Z.land (u32 (x + (PAGE_SIZE - 1))) (u32 (Z.lnot (PAGE_SIZE - 1))).

(** [DIV_ROUND_UP(n, d)] of two [unsigned int]s. *)
Definition DIV_ROUND_UP (n d : Z) : Z := u32 (n + d - 1) / d.

(** * Tactics *)

(** Split boolean conjunctions and disjunctions that come from C conditions
    into propositions. *)
Ltac bool_props :=
  repeat match goal with
  | H : _ && _ = true |- _ => apply andb_true_iff in H; destruct H
  | H : _ && _ = false |- _ => apply andb_false_iff in H
  | H : _ || _ = true |- _ => apply orb_true_iff in H
  | H : _ || _ = false |- _ => apply orb_false_iff in H; destruct H
  | H : negb _ = true |- _ => apply negb_true_iff in H
  | H : negb _ = false |- _ => apply negb_false_iff in H
  | H : (_ =? _)%Z = true |- _ => apply Z.eqb_eq in H
  | H : (_ =? _)%Z = false |- _ => apply Z.eqb_neq in H
  | H : (_ <=? _)%Z = true |- _ => apply Z.leb_le in H
  | H : (_ <=? _)%Z = false |- _ => apply Z.leb_gt in H
  | H : (_ <? _)%Z = true |- _ => apply Z.ltb_lt in H
  | H : (_ <? _)%Z = false |- _ => apply Z.ltb_ge in H
  | H : (_ >=? _)%Z = _ |- _ => rewrite Z.geb_leb in H
  | H : (_ >? _)%Z = _ |- _ => rewrite Z.gtb_ltb in H
  | H : bool_decide _ = true |- _ => apply bool_decide_eq_true in H
  | H : bool_decide _ = false |- _ => apply bool_decide_eq_false in H
  end.

(** Arithmetic with a C condition among the hypotheses. *)
Ltac bool_lia :=
  repeat match goal with
  | H : @eq bool _ _ |- _ =>
      progress rewrite ?orb_true_iff, ?orb_false_iff, ?andb_true_iff, ?andb_false_iff,
        ?negb_true_iff, ?negb_false_iff, ?Z.gtb_ltb, ?Z.geb_leb, ?Z.ltb_lt, ?Z.ltb_ge,
        ?Z.leb_le, ?Z.leb_gt, ?Z.eqb_eq, ?Z.eqb_neq in H
  end; lia.

(** Case analysis on the conditions of a C function until none is left, in a
    hypothesis and in the goal. *)
Ltac case_if_in H :=
  match type of H with
  | context [ if ?b then _ else _ ] => let E := fresh "Hif" in destruct b eqn:E
  end.
Ltac case_if :=
  match goal with
  | |- context [ if ?b then _ else _ ] => let E := fresh "Hif" in destruct b eqn:E
  end.

(** Peel the binds of the option monad off an equation [m = Some r]. *)
Ltac peel H :=
  repeat (apply bind_Some in H; let x := fresh "r" in let E := fresh "Hb" in
          destruct H as (x & E & H)).

(** * Byte memory

    A block of memory is the list of its bytes.  Reading or writing outside
    the block is undefined behaviour in C and yields [None]; every definition
    of the development that touches memory returns an [option] for that
    reason, and [Some] of its result otherwise.  C error codes are ordinary
    results. *)

Abbreviation mem := (list Z).

Definition zlen {A} (l : list A) : Z := Z.of_nat (length l).

Definition in_block (m : mem) (off n : Z) : bool :=
  (0 <=? off) && (0 <=? n) && (off + n <=? zlen m).

Definition mem_read (m : mem) (off n : Z) : option mem :=
  if in_block m off n
  then Some (take (Z.to_nat n) (drop (Z.to_nat off) m)) else None.

Definition mem_write (m : mem) (off : Z) (bs : mem) : option mem :=
  if in_block m off (zlen bs)
  then Some (take (Z.to_nat off) m ++ bs ++ drop (Z.to_nat off + length bs) m)
  else None.

(** One byte, [p[i]]. *)
Definition byte_at (m : mem) (i : Z) : option Z :=
  if 0 <=? i then m !! Z.to_nat i else None.

(** [memset(p, c, n)]: [n] times the low byte of [c]. *)
Definition memset_bytes (c n : Z) : mem := replicate (Z.to_nat n) (u8 c).

Lemma in_block_spec m off n :
  in_block m off n = true <-> 0 <= off /\ 0 <= n /\ off + n <= zlen m.
Proof. unfold in_block. rewrite !andb_true_iff, !Z.leb_le. tauto. Qed.

Lemma zlen_nonneg {A} (l : list A) : 0 <= zlen l.
Proof. unfold zlen. lia. Qed.

Lemma zlen_app {A} (l k : list A) : zlen (l ++ k) = zlen l + zlen k.
Proof. unfold zlen. rewrite length_app. lia. Qed.

Lemma zlen_cons {A} (x : A) l : zlen (x :: l) = 1 + zlen l.
Proof. unfold zlen. cbn [length]. lia. Qed.

Lemma zlen_replicate {A} n (x : A) : zlen (replicate n x) = Z.of_nat n.
Proof. unfold zlen. by rewrite length_replicate. Qed.

Lemma zlen_map {A B} (f : A -> B) l : zlen (map f l) = zlen l.
Proof. unfold zlen. by rewrite length_map. Qed.

Lemma mem_read_Some m off n bs :
  mem_read m off n = Some bs ->
  0 <= off /\ 0 <= n /\ off + n <= zlen m /\
  bs = take (Z.to_nat n) (drop (Z.to_nat off) m).
Proof.
  unfold mem_read. destruct (in_block m off n) eqn:E; [|done].
  apply in_block_spec in E. intros [= <-]. tauto.
Qed.

Lemma mem_read_in m off n :
  0 <= off -> 0 <= n -> off + n <= zlen m ->
  mem_read m off n = Some (take (Z.to_nat n) (drop (Z.to_nat off) m)).
Proof.
  intros. unfold mem_read. by rewrite (proj2 (in_block_spec m off n)).
Qed.

Lemma mem_read_length m off n bs : mem_read m off n = Some bs -> zlen bs = n.
Proof.
  intros (? & ? & Hl & ->)%mem_read_Some. unfold zlen in *.
  rewrite length_take, length_drop. lia.
Qed.

Lemma mem_write_Some m off bs m' :
  mem_write m off bs = Some m' ->
  0 <= off /\ off + zlen bs <= zlen m /\
  m' = take (Z.to_nat off) m ++ bs ++ drop (Z.to_nat off + length bs) m.
Proof.
  unfold mem_write. destruct (in_block m off (zlen bs)) eqn:E; [|done].
  apply in_block_spec in E. intros [= <-]. tauto.
Qed.

Lemma mem_write_in m off bs :
  0 <= off -> off + zlen bs <= zlen m ->
  mem_write m off bs
  = Some (take (Z.to_nat off) m ++ bs ++ drop (Z.to_nat off + length bs) m).
Proof.
  intros. unfold mem_write. rewrite (proj2 (in_block_spec m off (zlen bs))); [done|].
  pose proof (zlen_nonneg bs). lia.
Qed.

Lemma mem_write_length m off bs m' : mem_write m off bs = Some m' -> zlen m' = zlen m.
Proof.
  intros (? & Hl & ->)%mem_write_Some. unfold zlen in *.
  rewrite !length_app, length_take, length_drop. lia.
Qed.

(** Pointwise view of a write. *)
Lemma mem_write_lookup m off bs m' i :
  mem_write m off bs = Some m' ->
  m' !! i = if decide (Z.of_nat i < off \/ off + zlen bs <= Z.of_nat i)
            then m !! i else bs !! (i - Z.to_nat off)%nat.
Proof.
  intros (? & Hl & ->)%mem_write_Some. unfold zlen in *.
  case_decide as Hd.
  - destruct Hd.
    + rewrite lookup_app_l by (rewrite length_take; lia).
      by rewrite lookup_take_lt by lia.
    + rewrite lookup_app_r by (rewrite length_take; lia).
      rewrite length_take, lookup_app_r by lia.
      rewrite lookup_drop. f_equal. lia.
  - rewrite lookup_app_r by (rewrite length_take; lia).
    rewrite length_take, lookup_app_l by lia. f_equal. lia.
Qed.

Lemma mem_read_lookup m off n bs i :
  mem_read m off n = Some bs ->
  bs !! i = if decide (Z.of_nat i < n) then m !! (Z.to_nat off + i)%nat else None.
Proof.
  intros (? & ? & Hl & ->)%mem_read_Some. case_decide.
  - rewrite lookup_take_lt by lia. by rewrite lookup_drop.
  - apply lookup_ge_None. rewrite length_take. lia.
Qed.

Lemma mem_read_write_same m off bs m' :
  mem_write m off bs = Some m' -> mem_read m' off (zlen bs) = Some bs.
Proof.
  intros Hw. pose proof (mem_write_length _ _ _ _ Hw) as Hl.
  pose proof (mem_write_Some _ _ _ _ Hw) as (? & ? & _).
  pose proof (zlen_nonneg bs).
  assert (Hr : mem_read m' off (zlen bs)
               = Some (take (Z.to_nat (zlen bs)) (drop (Z.to_nat off) m')))
    by (apply mem_read_in; lia).
  rewrite Hr. f_equal. apply list_eq. intros i.
  rewrite (mem_read_lookup _ _ _ _ i Hr), (mem_write_lookup _ _ _ _ _ Hw).
  unfold zlen in *. repeat case_decide; try lia.
  - f_equal. lia.
  - symmetry. apply lookup_ge_None. lia.
Qed.

Lemma mem_read_write_disjoint m off bs m' off' n :
  mem_write m off bs = Some m' ->
  off' + n <= off \/ off + zlen bs <= off' ->
  mem_read m' off' n = mem_read m off' n.
Proof.
  intros Hw Hd. pose proof (mem_write_length _ _ _ _ Hw) as Hl.
  unfold mem_read, in_block. rewrite Hl.
  destruct ((0 <=? off') && (0 <=? n) && (off' + n <=? zlen m)) eqn:E; [|done].
  f_equal. bool_props. apply list_eq. intros i.
  destruct (decide (i < Z.to_nat n)%nat).
  - rewrite !lookup_take_lt, !lookup_drop by lia.
    rewrite (mem_write_lookup _ _ _ _ _ Hw). case_decide; [done|lia].
  - rewrite !lookup_take_ge by lia. done.
Qed.

(** Reading two adjacent areas. *)
Lemma mem_read_app m off n k bs1 bs2 :
  mem_read m off n = Some bs1 -> mem_read m (off + n) k = Some bs2 ->
  mem_read m off (n + k) = Some (bs1 ++ bs2).
Proof.
  intros (? & ? & ? & ->)%mem_read_Some (? & ? & ? & ->)%mem_read_Some.
  rewrite mem_read_in by lia. f_equal.
  rewrite !Z2Nat.inj_add by lia. rewrite <- drop_drop. symmetry. apply list_eq. intros i.
  destruct (decide (i < Z.to_nat n)%nat).
  - rewrite lookup_app_l; [|rewrite length_take, length_drop; unfold zlen in *; lia].
    rewrite !lookup_take_lt by lia. done.
  - rewrite lookup_app_r; [|rewrite length_take; lia].
    rewrite length_take, length_drop.
    destruct (decide (i < Z.to_nat n + Z.to_nat k)%nat).
    + rewrite !lookup_take_lt by (unfold zlen in *; lia). rewrite !lookup_drop.
      f_equal. unfold zlen in *. lia.
    + rewrite !lookup_take_ge by (unfold zlen in *; lia). done.
Qed.

Lemma mem_read_zero m off : 0 <= off <= zlen m -> mem_read m off 0 = Some [].
Proof. intros. rewrite mem_read_in by lia. done. Qed.

(** * Lists *)

Lemma NoDup_snoc {A} (l : list A) x : NoDup l -> x ∉ l -> NoDup (l ++ [x]).
Proof.
  intros Hl Hx. apply NoDup_app. split; [done|]. split; [|apply NoDup_singleton].
  intros y Hy ->%list_elem_of_singleton. contradiction.
Qed.

(** Filtering out an element that is not there. *)
Lemma filter_ne_id (l : list nat) i : i ∉ l -> filter (.≠ i) l = l.
Proof.
  induction l as [|j l IH]; intros Hi; [done|].
  rewrite filter_cons_True by set_solver. f_equal. apply IH. set_solver.
Qed.

Lemma filter_none {A} (P : A -> Prop) `{forall x, Decision (P x)} l :
  Forall (fun x => ~ P x) l -> filter P l = [].
Proof. induction 1; [done|]. by rewrite filter_cons_False. Qed.

(** * Bits *)

Lemma testbit_mod z n i :
  0 <= n -> 0 <= i -> Z.testbit (z mod 2 ^ n) i = (i <? n) && Z.testbit z i.
Proof.
  intros. destruct (Z.ltb_spec i n).
  - by rewrite Z.mod_pow2_bits_low by lia.
  - by rewrite Z.mod_pow2_bits_high by lia.
Qed.

(** Two integers with the same bits are equal; the bits of shifts, masks,
    unions and truncations are computed. *)
Lemma testbit_shiftr z n i : 0 <= i -> Z.testbit (Z.shiftr z n) i = Z.testbit z (i + n).
Proof. apply Z.shiftr_spec. Qed.

Lemma testbit_shiftl z n i :
  0 <= i -> Z.testbit (Z.shiftl z n) i = (n <=? i) && Z.testbit z (i - n).
Proof.
  intros. rewrite Z.shiftl_spec by done. destruct (Z.leb_spec n i); [done|].
  by rewrite Z.testbit_neg_r by lia.
Qed.

Ltac bits_eq :=
  apply Z.bits_inj'; let i := fresh "i" in intros i ?;
  repeat first
    [ progress rewrite ?Z.lor_spec, ?Z.land_spec
    | rewrite testbit_mod by lia
    | rewrite testbit_shiftl by lia | rewrite testbit_shiftr by lia
    | match goal with
      | |- context [ (?a <? ?b)%Z ] => destruct (Z.ltb_spec a b); try lia
      | |- context [ (?a <=? ?b)%Z ] => destruct (Z.leb_spec a b); try lia
      end
    | progress cbn [andb orb] ];
  rewrite ?orb_false_r, ?andb_true_r, ?andb_false_r; try done; try (f_equal; lia).

Lemma u8_small z : is_u8 z -> u8 z = z.
Proof. apply Z.mod_small. Qed.
Lemma u16_small z : is_u16 z -> u16 z = z.
Proof. apply Z.mod_small. Qed.
Lemma u32_small z : is_u32 z -> u32 z = z.
Proof. apply Z.mod_small. Qed.
Lemma s32_small z : is_s32 z -> s32 z = z.
Proof. unfold is_s32, s32. intros. rewrite Z.mod_small by lia. lia. Qed.

Lemma u8_range z : is_u8 (u8 z).
Proof. by apply Z.mod_pos_bound. Qed.
Lemma u16_range z : is_u16 (u16 z).
Proof. by apply Z.mod_pos_bound. Qed.
Lemma u32_range z : is_u32 (u32 z).
Proof. by apply Z.mod_pos_bound. Qed.
Lemma s32_range z : is_s32 (s32 z).
Proof. unfold is_s32, s32. pose proof (Z.mod_pos_bound (z + 2 ^ 31) (2 ^ 32) eq_refl). lia. Qed.

(** Splitting a word into bytes and joining them again. *)
Lemma le16_join v :
  Z.lor (u8 v) (Z.shiftl (u8 (Z.shiftr v 8)) 8) = u16 v.
Proof. unfold u8, u16. bits_eq. Qed.

Lemma le32_join v :
  Z.lor (Z.lor (Z.lor (u8 (u16 v)) (Z.shiftl (u8 (Z.shiftr (u16 v) 8)) 8))
               (Z.shiftl (u8 (u16 (Z.shiftr v 16))) 16))
        (Z.shiftl (u8 (Z.shiftr (u16 (Z.shiftr v 16)) 8)) 24) = u32 v.
Proof. unfold u8, u16, u32. bits_eq. Qed.

Create HintDb widths.
Create Rewrite HintDb widths.
#[export] Hint Resolve u8_range u16_range u32_range s32_range : widths.
#[export] Hint Rewrite u8_small u16_small u32_small s32_small
  using (unfold is_u8, is_u16, is_u32, is_s32 in *; lia) : widths.

(** Taking bytes out of a joined word. *)
Lemma byte_bits b i : is_u8 b -> 8 <= i -> Z.testbit b i = false.
Proof.
  intros Hb ?. rewrite <- (u8_small b Hb). unfold u8.
  rewrite testbit_mod by lia. destruct (Z.ltb_spec i 8); [lia|done].
Qed.

Ltac byte_eq :=
  unfold u8, u16, u32; bits_eq;
  rewrite ?byte_bits by (done || lia); rewrite ?orb_false_r, ?orb_false_l;
  try done; try (f_equal; lia).

Lemma le16_split b0 b1 : is_u8 b0 -> is_u8 b1 ->
  let v := Z.lor b0 (Z.shiftl b1 8) in
  is_u16 v /\ u8 v = b0 /\ u8 (Z.shiftr v 8) = b1.
Proof.
  intros H0 H1 v. split_and!.
  - enough (v = u16 v) as -> by auto with widths. unfold v. byte_eq.
  - transitivity (u8 b0); [unfold v; byte_eq | by apply u8_small].
  - transitivity (u8 b1); [unfold v; byte_eq | by apply u8_small].
Qed.

Lemma le32_split b0 b1 b2 b3 : is_u8 b0 -> is_u8 b1 -> is_u8 b2 -> is_u8 b3 ->
  let v := Z.lor (Z.lor (Z.lor b0 (Z.shiftl b1 8)) (Z.shiftl b2 16)) (Z.shiftl b3 24) in
  is_u32 v /\ u8 (u16 v) = b0 /\ u8 (Z.shiftr (u16 v) 8) = b1 /\
  u8 (u16 (Z.shiftr v 16)) = b2 /\ u8 (Z.shiftr (u16 (Z.shiftr v 16)) 8) = b3.
Proof.
  intros H0 H1 H2 H3 v. split_and!.
  - enough (v = u32 v) as -> by auto with widths. unfold v. byte_eq.
  - transitivity (u8 b0); [unfold v; byte_eq | by apply u8_small].
  - transitivity (u8 b1); [unfold v; byte_eq | by apply u8_small].
  - transitivity (u8 b2); [unfold v; byte_eq | by apply u8_small].
  - transitivity (u8 b3); [unfold v; byte_eq | by apply u8_small].
Qed.

(** * Memory outside an area *)

Lemma mem_read_prefix m off n k bs : mem_read m off n = Some bs -> 0 <= k <= n ->
  mem_read m off k = Some (take (Z.to_nat k) bs).
Proof.
  intros (? & ? & ? & ->)%mem_read_Some Hk. rewrite mem_read_in by lia. f_equal.
  rewrite take_take. f_equal. lia.
Qed.

(** Same size and same bytes outside [lo, hi). *)
Definition same_outside (lo hi : Z) (m m' : mem) : Prop :=
  zlen m' = zlen m /\
  forall off n, off + n <= lo \/ hi <= off -> mem_read m' off n = mem_read m off n.

#[export] Instance same_outside_preorder lo hi : PreOrder (same_outside lo hi).
Proof.
  split.
  - intros m. by split.
  - intros m1 m2 m3 [L1 H1] [L2 H2]. split; [congruence|]. intros. by rewrite H2, H1.
Qed.

Lemma same_outside_widen lo hi lo' hi' m m' :
  lo' <= lo -> hi <= hi' -> same_outside lo hi m m' -> same_outside lo' hi' m m'.
Proof. intros ? ? [L H]. split; [done|]. intros. apply H. lia. Qed.

Lemma mem_write_outside m off bs m' :
  mem_write m off bs = Some m' -> same_outside off (off + zlen bs) m m'.
Proof.
  intros Hw. split; [by eapply mem_write_length|].
  intros. by eapply mem_read_write_disjoint.
Qed.

Lemma mem_write_ok m off bs : 0 <= off -> off + zlen bs <= zlen m ->
  exists m', mem_write m off bs = Some m' /\ same_outside off (off + zlen bs) m m' /\
  mem_read m' off (zlen bs) = Some bs.
Proof.
  intros. eexists. split; [by apply mem_write_in|]. split.
  - eapply mem_write_outside, mem_write_in; lia.
  - eapply mem_read_write_same, mem_write_in; lia.
Qed.

#[export] Hint Resolve zlen_nonneg : core.
