(* ===== verification/Bitmap.v ===== *)
(** Bitmaps: the search for a clear bit of lib/find_next_bit.c and
    include/asm-generic/bitops/__ffs.h in linux-3.4.2, word by word, and the bit by bit
    search that it implements. *)
From S2P Require Import Prelude.
Open Scope Z_scope.

(** * Bit by bit *)

Fixpoint find_zero (used : Z -> bool) (n : nat) (from : Z) : Z :=
  match n with
  | O => from
  | S n => if used from then find_zero used n (from + 1) else from
  end.

(** The first clear bit from [from] on, or [size]. *)
Definition find_next_zero_bit (used : Z -> bool) (size from : Z) : Z :=
  if size <=? from then size else find_zero used (Z.to_nat (size - from)) from.

(** * Word by word *)

Definition BITS_PER_LONG : Z := 32.
Definition ULONG_MAX : Z := 0xffffffff.

(** [if ((word & mask) == 0) { num += n; word >>= n; }] *)
Definition ffs_step (mask n : Z) (x : Z * Z) : Z * Z :=
  let '(num, word) := x in
  if Z.land word mask =? 0 then (num + n, Z.shiftr word n) else (num, word).

Definition __ffs (word : Z) : Z :=
  let x := ffs_step 0xffff 16 (0, word) in
  let x := ffs_step 0xff 8 x in
  let x := ffs_step 0xf 4 x in
  let x := ffs_step 0x3 2 x in
  (ffs_step 0x1 1 x).1.

Definition ffz (x : Z) : Z := __ffs (Z.lxor x ULONG_MAX).

(** The labels [found_first] and [found_middle]. *)
Definition found_middle (tmp result : Z) : Z := result + ffz tmp.
Definition found_first (tmp size result : Z) : Z :=
  let tmp := Z.lor tmp (u32 (Z.shiftl ULONG_MAX size)) in
  if tmp =? ULONG_MAX then result + size else found_middle tmp result.

(** The loop over whole words and what follows it; [n] words are whole. Reading past
    the end of the array is undefined. *)
Fixpoint whole_words (n : nat) (addr : list Z) (p : nat) (size result : Z) : option Z :=
  match n with
  | S n =>
      tmp ← addr !! p;
      if negb (tmp =? ULONG_MAX) then Some (found_middle tmp result)
      else whole_words n addr (S p) (size - BITS_PER_LONG) (result + BITS_PER_LONG)
  | O =>
      if size =? 0 then Some result
      else tmp ← addr !! p; Some (found_first tmp size result)
  end.

Definition find_next_zero_bit_words (addr : list Z) (size offset : Z) : option Z :=
  let p := Z.to_nat (offset / BITS_PER_LONG) in
  let result := Z.land offset (Z.lxor (BITS_PER_LONG - 1) ULONG_MAX) in
  if offset >=? size then Some size
  else
    let size := size - result in
    let offset := offset mod BITS_PER_LONG in
    let loop p size result := whole_words (Z.to_nat (size / BITS_PER_LONG)) addr p size result in
    if negb (offset =? 0) then
      tmp ← addr !! p;
      let tmp := Z.lor tmp (Z.shiftr ULONG_MAX (BITS_PER_LONG - offset)) in
      if size <? BITS_PER_LONG then Some (found_first tmp size result)
      else if negb (tmp =? ULONG_MAX) then Some (found_middle tmp result)
      else loop (S p) (size - BITS_PER_LONG) (result + BITS_PER_LONG)
    else loop p size result.

(** A bit of the array. *)
Definition bit_of (addr : list Z) (i : Z) : bool :=
  Z.testbit (default 0 (addr !! Z.to_nat (i / BITS_PER_LONG))) (i mod BITS_PER_LONG).

(** * Lemmas *)

Lemma find_zero_spec used : forall n from, let r := find_zero used n from in
  from <= r <= from + Z.of_nat n /\ (forall k, from <= k < r -> used k = true) /\
  (r < from + Z.of_nat n -> used r = false).
Proof.
  induction n as [|n IH]; intros from; cbn; [split_and!; [lia | lia | lia | lia]|].
  destruct (used from) eqn:E.
  - destruct (IH (from + 1)) as (Hr & Hu & Hf). split; [lia|]. split; [|intros; apply Hf; lia].
    intros k Hk. destruct (decide (k = from)) as [->|]; [done|]. apply Hu. lia.
  - split; [lia|]. split; [lia|done].
Qed.

Lemma find_next_spec used size from : 0 <= size -> let r := find_next_zero_bit used size from in
  r <= size /\ (r < size -> from <= r /\ used r = false) /\ (forall k, from <= k < r -> r < size \/ k < size -> used k = true).
Proof.
  intros Hs. unfold find_next_zero_bit. cbv zeta. destruct (Z.leb_spec size from).
  - split_and!; [lia | lia | lia].
  - destruct (find_zero_spec used (Z.to_nat (size - from)) from) as (Hr & Hu & Hf).
    rewrite Z2Nat.id in * by lia. split; [lia|]. split; [intros; split; [lia | apply Hf; lia]|].
    intros k Hk _. by apply Hu.
Qed.

(** What the searches find. *)
Record is_next (used : Z -> bool) (size from r : Z) : Prop := mk_next {
  nx_range : from <= r <= size;
  nx_used : forall k, from <= k < r -> used k = true;
  nx_clear : r < size -> used r = false
}.

Lemma find_next_is_next used size from r : from < size -> is_next used size from r ->
  r = find_next_zero_bit used size from.
Proof.
  intros Hlt [Hr Hu Hc]. unfold find_next_zero_bit. destruct (Z.leb_spec size from); [lia|].
  destruct (find_zero_spec used (Z.to_nat (size - from)) from) as (Hr' & Hu' & Hc').
  set (r' := find_zero _ _ _) in *. rewrite Z2Nat.id in * by lia. destruct (Z.lt_trichotomy r r') as [Hl|[|Hl]]; [|done|].
  - specialize (Hu' r ltac:(lia)). rewrite Hc in Hu' by lia. done.
  - specialize (Hu r' ltac:(lia)). rewrite Hc' in Hu by lia. done.
Qed.

(** [(num, word)] is [orig] without its first [num] bits, which are clear; one of the next
    [b] bits is set. *)
Record ffs_inv (orig b : Z) (x : Z * Z) : Prop := {
  fi_num : 0 <= x.1 /\ x.1 + b <= 32;
  fi_low : forall k, 0 <= k < x.1 -> Z.testbit orig k = false;
  fi_word : forall k, 0 <= k -> Z.testbit x.2 k = Z.testbit orig (x.1 + k);
  fi_some : exists k, 0 <= k < b /\ Z.testbit x.2 k = true
}.

Lemma ffs_step_inv orig n x : 0 < n -> ffs_inv orig (2 * n) x -> ffs_inv orig n (ffs_step (Z.ones n) n x).
Proof.
  intros Hn [[H0 H1] Hlow Hword (k & Hk & Hb)]. destruct x as [num word]. cbn [fst snd] in *. unfold ffs_step.
  rewrite Z.land_ones by lia. destruct (Z.eqb_spec (word mod 2 ^ n) 0) as [E|E].
  - assert (forall j, 0 <= j < n -> Z.testbit word j = false) as Hz.
    { intros j Hj. rewrite <- (Z.mod_pow2_bits_low word n j) by lia. rewrite E. apply Z.bits_0. }
    split; cbn [fst snd]; [lia | | |].
    + intros j Hj. destruct (decide (j < num)); [apply Hlow; lia|].
      specialize (Hword (j - num) ltac:(lia)). rewrite Hz in Hword by lia. by replace (num + (j - num)) with j in Hword by lia.
    + intros j Hj. rewrite Z.shiftr_spec, Hword by lia. f_equal. lia.
    + exists (k - n). destruct (decide (k < n)); [rewrite Hz in Hb by lia; done|]. split; [lia|].
      rewrite Z.shiftr_spec by lia. by replace (k - n + n) with k by lia.
  - split; cbn [fst snd]; [lia | done | done |]. pose proof (Z.mod_pos_bound word (2 ^ n) ltac:(lia)) as Hm.
    exists (Z.log2 (word mod 2 ^ n)). pose proof (Z.log2_nonneg (word mod 2 ^ n)).
    assert (Z.log2 (word mod 2 ^ n) < n) by (apply Z.log2_lt_pow2; lia). split; [lia|].
    rewrite <- (Z.mod_pow2_bits_low word n) by lia. apply Z.bit_log2. lia.
Qed.

Lemma ffs_spec word : is_u32 word -> word <> 0 ->
  0 <= __ffs word < 32 /\ Z.testbit word (__ffs word) = true /\
  forall k, 0 <= k < __ffs word -> Z.testbit word k = false.
Proof.
  intros Hw Hne. assert (ffs_inv word 32 (0, word)) as H.
  { split; cbn [fst snd]; [lia | lia | done |]. exists (Z.log2 word). pose proof (Z.log2_nonneg word).
    assert (Z.log2 word < 32) by (apply Z.log2_lt_pow2; unfold is_u32 in Hw; lia). split; [lia|].
    apply Z.bit_log2. unfold is_u32 in Hw. lia. }
  apply (ffs_step_inv _ 16), (ffs_step_inv _ 8), (ffs_step_inv _ 4), (ffs_step_inv _ 2), (ffs_step_inv _ 1) in H;
    [|lia..]. change (ffs_step _ 1 _) with (ffs_step 0x1 1 (ffs_step 0x3 2 (ffs_step 0xf 4
      (ffs_step 0xff 8 (ffs_step 0xffff 16 (0, word)))))) in H.
  unfold __ffs. set (x := ffs_step 0x1 1 _) in *. destruct H as [Hn Hlow Hword (k & Hk & Hb)].
  split; [lia|]. split; [|done]. assert (k = 0) as -> by lia. rewrite Hword in Hb by lia. by rewrite Z.add_0_r in Hb.
Qed.

Lemma ulong_bits k : 0 <= k < 32 -> Z.testbit ULONG_MAX k = true.
Proof. intros Hk. change ULONG_MAX with (Z.ones 32). by apply Z.ones_spec_low. Qed.

Lemma u32_high x k : is_u32 x -> 32 <= k -> Z.testbit x k = false.
Proof.
  intros Hu Hk. rewrite <- (u32_small x Hu). apply Z.mod_pow2_bits_high. lia.
Qed.

Lemma bits_u32 x : (forall k, 32 <= k -> Z.testbit x k = false) -> is_u32 x.
Proof.
  intros Hh. replace x with (u32 x); [apply u32_range|]. apply Z.bits_inj'. intros k Hk. unfold u32.
  destruct (decide (k < 32)); [by apply Z.mod_pow2_bits_low|]. rewrite Z.mod_pow2_bits_high, Hh by lia. done.
Qed.

Lemma lor_u32 x y : is_u32 x -> is_u32 y -> is_u32 (Z.lor x y).
Proof. intros Hx Hy. apply bits_u32. intros k Hk. by rewrite Z.lor_spec, !u32_high. Qed.

Lemma all_ones tmp : is_u32 tmp -> tmp = ULONG_MAX <-> forall k, 0 <= k < 32 -> Z.testbit tmp k = true.
Proof.
  intros Hu. split; [intros ->; apply ulong_bits|]. intros Hall. apply Z.bits_inj'. intros k Hk.
  destruct (decide (k < 32)); [rewrite Hall, ulong_bits by lia; done|].
  rewrite (u32_high tmp), (u32_high ULONG_MAX) by (done || lia). done.
Qed.

Lemma ffz_spec tmp : is_u32 tmp -> tmp <> ULONG_MAX ->
  0 <= ffz tmp < 32 /\ Z.testbit tmp (ffz tmp) = false /\ forall k, 0 <= k < ffz tmp -> Z.testbit tmp k = true.
Proof.
  intros Hu Hne. destruct (ffs_spec (Z.lxor tmp ULONG_MAX)) as (Hr & Hb & Hl).
  - apply bits_u32. intros k Hk. by rewrite Z.lxor_spec, !u32_high.
  - by intros ->%Z.lxor_eq.
  - fold (ffz tmp) in *. rewrite Z.lxor_spec, ulong_bits, xorb_true_r in Hb by done.
    split; [done|]. split; [by apply negb_true_iff|]. intros k Hk. specialize (Hl k Hk).
    rewrite Z.lxor_spec, ulong_bits, xorb_true_r in Hl by lia. by apply negb_false_iff.
Qed.

(** * The words of an array *)

Section Words.
Context (addr : list Z) (size from : Z).
Context (Hwords : Forall is_u32 addr) (Hfrom : 0 <= from < size) (Hlen : size <= 32 * Z.of_nat (length addr)).

(** The word at [p], its bits below [from] set. *)
Definition seen (p : nat) (tmp : Z) : Prop := is_u32 tmp /\ forall k, 0 <= k < 32 ->
  Z.testbit tmp k = ((32 * Z.of_nat p + k <? from) || bit_of addr (32 * Z.of_nat p + k))%bool.

Lemma bit_of_word p tmp k : addr !! p = Some tmp -> 0 <= k < 32 -> bit_of addr (32 * Z.of_nat p + k) = Z.testbit tmp k.
Proof.
  intros Hp Hk. unfold bit_of, BITS_PER_LONG.
  rewrite <- (Z.div_unique (32 * Z.of_nat p + k) 32 (Z.of_nat p) k) by lia.
  rewrite <- (Z.mod_unique (32 * Z.of_nat p + k) 32 (Z.of_nat p) k) by lia.
  by rewrite Nat2Z.id, Hp.
Qed.

(** Everything before the word [p] is set. *)
Definition before (p : nat) : Prop := forall k, from <= k < 32 * Z.of_nat p -> bit_of addr k = true.

Lemma middle_next p tmp : before p -> seen p tmp -> tmp <> ULONG_MAX -> 32 * Z.of_nat p + 32 <= size ->
  is_next (bit_of addr) size from (found_middle tmp (32 * Z.of_nat p)).
Proof.
  intros Hb [Hu Hs] Hne Hsz. destruct (ffz_spec tmp Hu Hne) as (Hr & Hz & Hl). unfold found_middle.
  rewrite Hs in Hz by lia. apply orb_false_iff in Hz as [Hz1%Z.ltb_ge Hz2]. split; [lia | | done].
  intros k Hk. destruct (decide (k < 32 * Z.of_nat p)); [apply Hb; lia|].
  specialize (Hl (k - 32 * Z.of_nat p) ltac:(lia)). rewrite Hs in Hl by lia.
  replace (32 * Z.of_nat p + (k - 32 * Z.of_nat p)) with k in Hl by lia.
  apply orb_true_iff in Hl as [Hl%Z.ltb_lt|]; [lia|done].
Qed.

Lemma skip_word p : before p -> seen p ULONG_MAX -> before (S p).
Proof.
  intros Hb [_ Hs] k Hk. destruct (decide (k < 32 * Z.of_nat p)); [apply Hb; lia|].
  specialize (Hs (k - 32 * Z.of_nat p) ltac:(lia)). rewrite ulong_bits in Hs by lia.
  replace (32 * Z.of_nat p + (k - 32 * Z.of_nat p)) with k in Hs by lia.
  symmetry in Hs. apply orb_true_iff in Hs as [Hs%Z.ltb_lt|]; [lia|done].
Qed.

Lemma first_next p tmp : before p -> seen p tmp -> 0 < size - 32 * Z.of_nat p < 32 ->
  is_next (bit_of addr) size from (found_first tmp (size - 32 * Z.of_nat p) (32 * Z.of_nat p)).
Proof.
  intros Hb [Hu Hs] Hsz. unfold found_first. set (n := size - 32 * Z.of_nat p) in *.
  set (tmp' := Z.lor tmp _). assert (is_u32 tmp') as Hu' by (apply lor_u32; [done|apply u32_range]).
  assert (forall k, 0 <= k < 32 -> Z.testbit tmp' k = (Z.testbit tmp k || (n <=? k))%bool) as Hbits.
  { intros k Hk. unfold tmp'. rewrite Z.lor_spec. f_equal. unfold u32. rewrite Z.mod_pow2_bits_low, Z.shiftl_spec by lia.
    destruct (Z.leb_spec n k); [apply ulong_bits; lia | apply Z.testbit_neg_r; lia]. }
  destruct (Z.eqb_spec tmp' ULONG_MAX) as [E|E].
  - rewrite all_ones in E by done. split; [lia | | lia]. intros k Hk.
    destruct (decide (k < 32 * Z.of_nat p)); [apply Hb; lia|]. specialize (E (k - 32 * Z.of_nat p) ltac:(lia)).
    rewrite Hbits, Hs in E by lia. replace (32 * Z.of_nat p + (k - 32 * Z.of_nat p)) with k in E by lia.
    apply orb_true_iff in E as [[Hl%Z.ltb_lt|]%orb_true_iff|Hl%Z.leb_le]; [lia | done | lia].
  - destruct (ffz_spec tmp' Hu' E) as (Hr & Hz & Hl). unfold found_middle. rewrite Hbits, Hs in Hz by lia.
    apply orb_false_iff in Hz as [[Hz1%Z.ltb_ge Hz2]%orb_false_iff Hz3%Z.leb_gt]. split; [lia | | done].
    intros k Hk. destruct (decide (k < 32 * Z.of_nat p)); [apply Hb; lia|].
    specialize (Hl (k - 32 * Z.of_nat p) ltac:(lia)). rewrite Hbits, Hs in Hl by lia.
    replace (32 * Z.of_nat p + (k - 32 * Z.of_nat p)) with k in Hl by lia.
    apply orb_true_iff in Hl as [[Hl%Z.ltb_lt|]%orb_true_iff|Hl%Z.leb_le]; [lia | done | lia].
Qed.

(** A whole word after [from]. *)
Lemma seen_word p : 32 * Z.of_nat p < size -> from <= 32 * Z.of_nat p -> exists tmp, addr !! p = Some tmp /\ seen p tmp.
Proof.
  intros Hp Hf. destruct (lookup_lt_is_Some_2 addr p) as [tmp E]; [lia|]. exists tmp. split; [done|].
  split; [by eapply Forall_lookup_1|]. intros k Hk. rewrite (bit_of_word p tmp k E Hk).
  rewrite (proj2 (Z.ltb_ge _ _)) by lia. done.
Qed.

Lemma whole_words_next : forall n p, before p -> from <= 32 * Z.of_nat p <= size ->
  n = Z.to_nat ((size - 32 * Z.of_nat p) / 32) ->
  exists r, whole_words n addr p (size - 32 * Z.of_nat p) (32 * Z.of_nat p) = Some r /\ is_next (bit_of addr) size from r.
Proof.
  induction n as [|n IH]; intros p Hb Hp Hn; cbn [whole_words].
  - assert (size - 32 * Z.of_nat p < 32).
    { pose proof (Z_div_mod_eq_full (size - 32 * Z.of_nat p) 32). pose proof (Z.mod_pos_bound (size - 32 * Z.of_nat p) 32).
      pose proof (Z.div_pos (size - 32 * Z.of_nat p) 32). lia. }
    destruct (Z.eqb_spec (size - 32 * Z.of_nat p) 0) as [E|E].
    + eexists. split; [reflexivity|]. split; [lia | done | lia].
    + destruct (seen_word p) as (tmp & -> & Hs); [lia | lia |]. eexists. split; [reflexivity|]. by apply first_next; [| |lia].
  - assert (32 <= size - 32 * Z.of_nat p).
    { destruct (decide (size - 32 * Z.of_nat p < 32)); [|lia]. rewrite Z.div_small in Hn by lia. done. }
    destruct (seen_word p) as (tmp & -> & Hs); [lia | lia |]. cbn [mbind option_bind].
    destruct (Z.eqb_spec tmp ULONG_MAX) as [->|E]; cbn [negb].
    + unfold BITS_PER_LONG. replace (size - 32 * Z.of_nat p - 32) with (size - 32 * Z.of_nat (S p)) by lia.
      replace (32 * Z.of_nat p + 32) with (32 * Z.of_nat (S p)) by lia. apply IH; [by apply skip_word | lia |].
      replace (size - 32 * Z.of_nat (S p)) with (size - 32 * Z.of_nat p + (-1) * 32) by lia. rewrite Z.div_add by lia. lia.
    + eexists. split; [reflexivity|]. apply middle_next; [done | done | done | lia].
Qed.
End Words.

Lemma word_start offset : is_u32 offset ->
  Z.land offset (Z.lxor (BITS_PER_LONG - 1) ULONG_MAX) = 32 * (offset / 32).
Proof.
  intros Hu. transitivity (Z.ldiff offset (Z.ones 5)).
  - apply Z.bits_inj'. intros k Hk. rewrite Z.land_spec, Z.ldiff_spec, Z.lxor_spec.
    destruct (decide (k < 32)); [|by rewrite (u32_high offset) by (done || lia)].
    by rewrite ulong_bits, xorb_true_r by lia.
  - rewrite Z.ldiff_ones_r, Z.shiftl_mul_pow2, Z.shiftr_div_pow2 by lia. change (2 ^ 5) with 32. lia.
Qed.

(** The word that [from] is in. *)
Lemma seen_partial addr from p o tmp : addr !! p = Some tmp -> is_u32 tmp -> from = 32 * Z.of_nat p + o -> 0 < o < 32 ->
  seen addr from p (Z.lor tmp (Z.shiftr ULONG_MAX (BITS_PER_LONG - o))).
Proof.
  intros Hp Hu -> Ho. assert (forall k, 0 <= k -> Z.testbit (Z.shiftr ULONG_MAX (BITS_PER_LONG - o)) k = (k <? o)) as Hm.
  { intros k Hk. rewrite Z.shiftr_spec by lia. unfold BITS_PER_LONG. destruct (Z.ltb_spec k o).
    - apply ulong_bits. lia.
    - apply u32_high; [done|lia]. }
  split.
  - apply lor_u32; [done|]. apply bits_u32. intros k Hk. rewrite Hm by lia. apply Z.ltb_ge. lia.
  - intros k Hk. rewrite Z.lor_spec, Hm, (bit_of_word addr p tmp k Hp Hk), orb_comm by lia. f_equal.
    destruct (Z.ltb_spec k o), (Z.ltb_spec (32 * Z.of_nat p + k) (32 * Z.of_nat p + o)); lia || done.
Qed.

(** * The search by words *)

(** C28. The search for a clear bit in an array of 32-bit words, which masks the first
    and the last word, skips words without a clear bit and halves the word it finds,
    reads no word past the end of the bitmap and gives what the search bit by bit gives:
    the first clear bit from [offset] on, or the size. *)
Theorem find_next_words_spec addr size offset : Forall is_u32 addr -> is_u32 offset ->
  0 <= size <= 32 * Z.of_nat (length addr) ->
  find_next_zero_bit_words addr size offset = Some (find_next_zero_bit (bit_of addr) size offset).
Proof.
  intros Hw Ho Hs. unfold find_next_zero_bit_words. rewrite word_start by done. destruct (Z.geb_spec offset size) as [Hge|Hlt].
  { unfold find_next_zero_bit. by rewrite (proj2 (Z.leb_le _ _)). }
  set (p := Z.to_nat (offset / BITS_PER_LONG)). unfold is_u32 in Ho.
  assert (Hp : 32 * (offset / 32) = 32 * Z.of_nat p)
    by (unfold p, BITS_PER_LONG; rewrite Z2Nat.id; [done|apply Z.div_pos; lia]).
  assert (Hmod : offset = 32 * Z.of_nat p + offset mod 32) by (rewrite <- Hp; apply Z_div_mod_eq_full).
  pose proof (Z.mod_pos_bound offset 32 ltac:(lia)) as Hm. rewrite Hp. unfold BITS_PER_LONG at 1 2.
  assert (forall r, is_next (bit_of addr) size offset r -> Some r = Some (find_next_zero_bit (bit_of addr) size offset)) as Hdone
    by (intros r Hr; f_equal; by apply find_next_is_next; [lia|]).
  assert (before addr offset p) as Hb by (intros k Hk; lia).
  destruct (Z.eqb_spec (offset mod 32) 0) as [E|E]; cbn [negb].
  { destruct (whole_words_next addr size offset Hw ltac:(lia) ltac:(lia) _ p Hb ltac:(lia) eq_refl) as (r & E' & Hr).
    unfold BITS_PER_LONG. rewrite E'. by apply Hdone. }
  destruct (lookup_lt_is_Some_2 addr p) as [tmp Et]; [lia|]. rewrite Et. cbn [mbind option_bind].
  pose proof (seen_partial addr offset p (offset mod 32) tmp Et ltac:(by eapply Forall_lookup_1) Hmod ltac:(lia)) as Hseen.
  unfold BITS_PER_LONG in *. set (t := Z.lor tmp _) in *. destruct (Z.ltb_spec (size - 32 * Z.of_nat p) 32).
  { apply Hdone, first_next; done || lia. }
  destruct (Z.eqb_spec t ULONG_MAX) as [Eu|Eu]; cbn [negb]; [|apply Hdone, middle_next; done || lia].
  replace (size - 32 * Z.of_nat p - 32) with (size - 32 * Z.of_nat (S p)) by lia.
  replace (32 * Z.of_nat p + 32) with (32 * Z.of_nat (S p)) by lia. rewrite Eu in Hseen.
  destruct (whole_words_next addr size offset Hw ltac:(lia) ltac:(lia) _ (S p) (skip_word addr offset p Hb Hseen)
    ltac:(lia) eq_refl) as (r & E' & Hr). rewrite E'. by apply Hdone.
Qed.

Lemma find_next_words_spec_witness :
  find_next_zero_bit_words [0xffffffff; 0x000000ff] 64 5 = Some 40 /\
  find_next_zero_bit_words [0xffffffff; 0x000000ff] 64 5 =
    Some (find_next_zero_bit (bit_of [0xffffffff; 0x000000ff]) 64 5).
Proof.
  split; [by vm_compute|].
  apply (find_next_words_spec [0xffffffff; 0x000000ff] 64 5); [by repeat constructor | done | done].
Defined.
