(* ===== verification/Klist.v ===== *)
(** The kernel's intrusive lists (include/linux/list.h).

    Two levels.  [Module Ptr] is the code as written: a heap of [list_head]
    nodes with [next] and [prev] pointers, and the pointer assignments of
    [__list_add] and [list_del] in their order.  [Module Seq] is what the
    drivers rely on: a list head is either zeroed memory or the sequence of its
    entries.  The representation predicate [Ptr.ring] and the simulation
    lemmas connect the two, so the driver models use [Seq]. *)

From S2P Require Import Prelude.
Open Scope Z_scope.

(** * Sequences of entries *)

Module Seq.

(** A list head: [None] is a head whose memory was zeroed and never given to
    [INIT_LIST_HEAD]; [Some l] is an initialised head with entries [l]. *)
Abbreviation list_head := (option (list nat)).

Definition INIT_LIST_HEAD : list_head := Some [].

(** [head->next == head]: false on a zeroed head. *)
Definition list_empty (h : list_head) : bool :=
  match h with Some [] => true | _ => false end.

(** [list_first_entry]: the entry is about to be dereferenced, so a zeroed
    head (a pointer computed from NULL) and an empty one are faults. *)
Definition list_first_entry (h : list_head) : option nat :=
  match h with Some (i :: _) => Some i | _ => None end.

(** Adding an entry that is already linked corrupts the list. *)
Definition list_add_tail (i : nat) (h : list_head) : option list_head :=
  l ← h; if bool_decide (i ∈ l) then None else Some (Some (l ++ [i])).

Definition list_del (i : nat) (h : list_head) : option list_head :=
  l ← h; if bool_decide (i ∈ l) then Some (Some (filter (.≠ i) l)) else None.

Lemma list_del_head i l :
  i ∉ l -> list_del i (Some (i :: l)) = Some (Some l).
Proof.
  intros Hi. unfold list_del. cbn [mbind option_bind].
  rewrite bool_decide_eq_true_2 by constructor.
  rewrite filter_cons_False by naive_solver.
  by rewrite filter_ne_id.
Qed.

Lemma list_add_tail_fresh i l :
  i ∉ l -> list_add_tail i (Some l) = Some (Some (l ++ [i])).
Proof.
  intros. unfold list_add_tail. cbn [mbind option_bind].
  by rewrite bool_decide_eq_false_2.
Qed.

End Seq.

(** * Pointers *)

Module Ptr.

(** Node address to [(next, prev)].  Address 0 (NULL) is never in the heap. *)
Abbreviation heap := (gmap Z (Z * Z)).

Definition LIST_POISON1 : Z := 0x00100100.
Definition LIST_POISON2 : Z := 0x00200200.

Definition get_next (h : heap) (a : Z) : option Z := fst <$> h !! a.
Definition get_prev (h : heap) (a : Z) : option Z := snd <$> h !! a.
Definition set_next (a v : Z) (h : heap) : option heap :=
  c ← h !! a; Some (<[a := (v, snd c)]> h).
Definition set_prev (a v : Z) (h : heap) : option heap :=
  c ← h !! a; Some (<[a := (fst c, v)]> h).

Definition init_list_head (a : Z) (h : heap) : option heap :=
  h ← set_next a a h; set_prev a a h.

Definition __list_add (new prev next : Z) (h : heap) : option heap :=
  h ← set_prev next new h;
  h ← set_next new next h;
  h ← set_prev new prev h;
  set_next prev new h.

Definition list_add_tail (new head : Z) (h : heap) : option heap :=
  p ← get_prev h head; __list_add new p head h.

Definition __list_del (prev next : Z) (h : heap) : option heap :=
  h ← set_prev next prev h; set_next prev next h.

Definition list_del (entry : Z) (h : heap) : option heap :=
  p ← get_prev h entry;
  n ← get_next h entry;
  h ← __list_del p n h;
  h ← set_next entry LIST_POISON1 h;
  set_prev entry LIST_POISON2 h.

Definition list_empty (head : Z) (h : heap) : option bool :=
  n ← get_next h head; Some (n =? head).

(** [seg h a l z]: following [next] from [a] visits exactly [l] and then
    reaches [z], and the [prev] pointers lead back. *)
Fixpoint seg (h : heap) (a : Z) (l : list Z) (z : Z) : Prop :=
  match l with
  | [] => get_next h a = Some z /\ get_prev h z = Some a
  | x :: l => get_next h a = Some x /\ get_prev h x = Some a /\ seg h x l z
  end.

Definition ring (h : heap) (head : Z) (l : list Z) : Prop :=
  seg h head l head /\ NoDup (head :: l).

Fixpoint lastof (a : Z) (l : list Z) : Z :=
  match l with [] => a | x :: l => lastof x l end.

Lemma seg_app h a l x k z : seg h a (l ++ x :: k) z <-> seg h a l x /\ seg h x k z.
Proof.
  revert a. induction l as [|y l IH]; intros a; cbn.
  - destruct k; cbn; tauto.
  - rewrite IH. tauto.
Qed.

Lemma seg_prev_end h a l z : seg h a l z -> get_prev h z = Some (lastof a l).
Proof.
  revert a. induction l as [|y l IH]; intros a; cbn; [tauto|].
  intros (_ & _ & Hs). by apply IH.
Qed.

Lemma lastof_in a l : lastof a l ∈ a :: l.
Proof.
  revert a. induction l as [|x l IH]; intros a; cbn; [set_solver|].
  specialize (IH x). set_solver.
Qed.

(** Redirecting the end of a segment: only the [next] of the last node and the
    [prev] of the new end matter. *)
Lemma seg_redirect h h' a l z w :
  seg h a l z -> NoDup (a :: l) ->
  (forall x, x ∈ a :: l -> x <> lastof a l -> get_next h' x = get_next h x) ->
  (forall x, x ∈ l -> get_prev h' x = get_prev h x) ->
  get_next h' (lastof a l) = Some w -> get_prev h' w = Some (lastof a l) ->
  seg h' a l w.
Proof.
  revert a. induction l as [|x l IH]; intros a; cbn; [tauto|].
  intros (Hn & Hp & Hs) Hd Hnext Hprev Hl Hw.
  assert (a <> lastof x l) by (pose proof (lastof_in x l); apply NoDup_cons in Hd; set_solver).
  split; [rewrite Hnext by set_solver; done|].
  split; [rewrite Hprev by set_solver; done|].
  apply NoDup_cons in Hd as [_ Hd].
  apply IH; try done; intros; [apply Hnext|apply Hprev]; set_solver.
Qed.

(** A segment untouched by an update keeps its shape. *)
Lemma seg_frame h h' a l z :
  seg h a l z ->
  (forall x, x ∈ a :: l -> get_next h' x = get_next h x) ->
  (forall x, x ∈ l ++ [z] -> get_prev h' x = get_prev h x) ->
  seg h' a l z.
Proof.
  revert a. induction l as [|x l IH]; intros a; cbn.
  - intros (? & ?) Hn Hp. rewrite Hn, Hp by set_solver. done.
  - intros (? & ? & ?) Hn Hp. rewrite Hn, Hp by set_solver.
    repeat split; try done. apply IH; [done| |]; intros; [apply Hn|apply Hp]; set_solver.
Qed.

(** Read-after-write of the node fields. *)
Lemma set_next_spec a v h h' :
  set_next a v h = Some h' ->
  (forall x, get_next h' x = if decide (x = a) then Some v else get_next h x) /\
  (forall x, get_prev h' x = get_prev h x).
Proof.
  unfold set_next, get_next, get_prev. intros (c & Hc & [= <-])%bind_Some.
  split; intros x; rewrite lookup_insert; repeat case_decide; simplify_eq; try done.
  by rewrite Hc.
Qed.

Lemma set_prev_spec a v h h' :
  set_prev a v h = Some h' ->
  (forall x, get_prev h' x = if decide (x = a) then Some v else get_prev h x) /\
  (forall x, get_next h' x = get_next h x).
Proof.
  unfold set_prev, get_next, get_prev. intros (c & Hc & [= <-])%bind_Some.
  split; intros x; rewrite lookup_insert; repeat case_decide; simplify_eq; try done.
  by rewrite Hc.
Qed.

Lemma set_next_total a v h : is_Some (get_next h a) -> is_Some (set_next a v h).
Proof. unfold get_next, set_next. destruct (h !! a) as [c|]; cbn; [eauto|]. by intros []. Qed.

Lemma set_prev_total a v h : is_Some (get_next h a) -> is_Some (set_prev a v h).
Proof. unfold get_next, set_prev. destruct (h !! a) as [c|]; cbn; [eauto|]. by intros []. Qed.

Lemma get_prev_next h a : is_Some (get_prev h a) <-> is_Some (get_next h a).
Proof. unfold get_prev, get_next. by rewrite !fmap_is_Some. Qed.

(** The nodes of the heap: no assignment creates or destroys one. *)
Definition same_nodes (h h' : heap) : Prop :=
  forall x, is_Some (get_next h' x) <-> is_Some (get_next h x).

Lemma set_next_nodes a v h h' : set_next a v h = Some h' -> same_nodes h h'.
Proof.
  unfold set_next, same_nodes, get_next. intros (c & Hc & [= <-])%bind_Some x.
  rewrite !fmap_is_Some, lookup_insert. case_decide; [subst; rewrite Hc|done]. by split; eauto.
Qed.

Lemma set_prev_nodes a v h h' : set_prev a v h = Some h' -> same_nodes h h'.
Proof.
  unfold set_prev, same_nodes, get_next. intros (c & Hc & [= <-])%bind_Some x.
  rewrite !fmap_is_Some, lookup_insert. case_decide; [subst; rewrite Hc|done]. by split; eauto.
Qed.

#[export] Instance same_nodes_preorder : PreOrder same_nodes.
Proof. split; [done|]. intros ??? H1 H2 x. by rewrite (H2 x), (H1 x). Qed.

(** Run one assignment: it succeeds because the node exists, and its effect on
    every field is recorded in the context. *)
Ltac store :=
  match goal with
  | |- context [ set_next ?a ?v ?h ] =>
      let h' := fresh "h" in let E := fresh "E" in
      destruct (set_next_total a v h) as [h' E];
      [ | let N := fresh "N" in let P := fresh "P" in
          rewrite E; destruct (set_next_spec _ _ _ _ E) as [N P]; cbn [mbind option_bind] ]
  | |- context [ set_prev ?a ?v ?h ] =>
      let h' := fresh "h" in let E := fresh "E" in
      destruct (set_prev_total a v h) as [h' E];
      [ | let N := fresh "N" in let P := fresh "P" in
          rewrite E; destruct (set_prev_spec _ _ _ _ E) as [P N]; cbn [mbind option_bind] ]
  end.
Ltac nodes :=
  repeat match goal with
  | E : set_next _ _ _ = Some ?h |- same_nodes _ ?h =>
      etransitivity; [|exact (set_next_nodes _ _ _ _ E)]; clear E
  | E : set_prev _ _ _ = Some ?h |- same_nodes _ ?h =>
      etransitivity; [|exact (set_prev_nodes _ _ _ _ E)]; clear E
  end; reflexivity.
Ltac fields :=
  repeat match goal with
  | N : forall x, get_next ?h x = _ |- context [ get_next ?h _ ] => rewrite N
  | P : forall x, get_prev ?h x = _ |- context [ get_prev ?h _ ] => rewrite P
  end; repeat case_decide; try congruence; try done;
  try (exfalso;
       match goal with H : ?x ∈ _, E : ?x = _ |- _ => rewrite E in H; contradiction end).

Lemma seg_next_some h a l z x : seg h a l z -> x ∈ a :: l -> is_Some (get_next h x).
Proof.
  revert a. induction l as [|y l IH]; intros a; cbn.
  - intros (Hn & _) ->%list_elem_of_singleton. rewrite Hn. by eexists.
  - intros (Hn & _ & Hs) [->|Hx]%elem_of_cons; [rewrite Hn; by eexists|]. by eapply IH.
Qed.

(** * The pointer code implements the sequence operations *)

(** Adding a node that exists and is not linked appends it. *)
Lemma list_add_tail_ring h head l new :
  ring h head l -> new ∉ head :: l -> is_Some (get_next h new) ->
  exists h', list_add_tail new head h = Some h' /\ ring h' head (l ++ [new])
             /\ same_nodes h h'.
Proof.
  intros [Hs Hd] Hnew Hx. unfold list_add_tail, __list_add.
  rewrite (seg_prev_end _ _ _ _ Hs). cbn [mbind option_bind].
  pose proof (lastof_in head l) as Hlast. set (p := lastof head l) in *.
  assert (p <> new) by (intros ->; done).
  assert (Hne : head <> new /\ new ∉ l) by set_solver. destruct Hne as [Hne Hnl].
  assert (Hhl : head ∉ l) by (by apply NoDup_cons in Hd as [? _]).
  assert (Hp : is_Some (get_next h p)) by (eapply seg_next_some; eauto).
  assert (Hh : is_Some (get_next h head)) by (eapply seg_next_some; [done|constructor]).
  store; [done|]. store; [fields|]. store; [fields|]. store; [fields|].
  eexists; split; [done|]. split; [|nodes].
  split; [|rewrite app_comm_cons; by apply NoDup_snoc].
  apply seg_app. split; [|split; fields].
  eapply (seg_redirect h); [exact Hs|exact Hd| | | |]; fold p; intros; fields.
Qed.

(** Unlinking an entry closes the gap it leaves. *)
Lemma ring_unlink h h' head l1 e l2 p n :
  ring h head (l1 ++ e :: l2) ->
  p = lastof head l1 -> n = match l2 with [] => head | x :: _ => x end ->
  (forall x, x <> e -> get_next h' x = if decide (x = p) then Some n else get_next h x) ->
  (forall x, x <> e -> get_prev h' x = if decide (x = n) then Some p else get_prev h x) ->
  ring h' head (l1 ++ l2).
Proof.
  intros [Hs Hd] -> -> HN HP. apply seg_app in Hs as [Hs1 Hs2].
  rewrite app_comm_cons in Hd. apply NoDup_app in Hd as (Hd1 & Hd12 & Hd2).
  apply NoDup_cons in Hd2 as [He2 Hd2].
  pose proof (lastof_in head l1) as Hlast.
  assert (He1 : e ∉ head :: l1) by (intros Hin; apply (Hd12 e Hin); constructor).
  assert (Hh1 : head ∉ l1) by (by apply NoDup_cons in Hd1 as [? _]).
  assert (Hpe : lastof head l1 <> e) by congruence.
  split; [|rewrite app_comm_cons; apply NoDup_app; set_solver].
  destruct l2 as [|x l2]; cbn in Hs2.
  - rewrite app_nil_r. assert (head <> e) by set_solver.
    eapply (seg_redirect h); [exact Hs1|exact Hd1| | | |]; intros;
      rewrite ?HN, ?HP by set_solver; repeat case_decide; subst; done.
  - destruct Hs2 as (_ & _ & Hs2). apply seg_app. assert (x <> e) by set_solver.
    apply NoDup_cons in Hd2 as [Hx2 Hd2].
    assert (Hx1 : x ∉ head :: l1) by set_solver. split.
    + eapply (seg_redirect h); [exact Hs1|exact Hd1| | | |]; intros;
        rewrite ?HN, ?HP by set_solver; repeat case_decide; subst; set_solver.
    + eapply (seg_frame h); [exact Hs2| |]; intros y Hy.
      * rewrite HN by set_solver. case_decide; [subst|done]. exfalso.
        apply (Hd12 _ Hlast). set_solver.
      * assert (y <> x) by set_solver. rewrite HP by set_solver.
        by rewrite decide_False.
Qed.

Lemma list_del_ring h head l1 e l2 :
  ring h head (l1 ++ e :: l2) ->
  exists h', list_del e h = Some h' /\ ring h' head (l1 ++ l2) /\ same_nodes h h'.
Proof.
  intros Hr. pose proof Hr as [Hs Hd]. pose proof Hs as [Hs1 Hs2]%seg_app.
  rewrite app_comm_cons in Hd. apply NoDup_app in Hd as (_ & Hd12 & Hd2).
  apply NoDup_cons in Hd2 as [He2 _].
  unfold list_del. rewrite (seg_prev_end _ _ _ _ Hs1). cbn [mbind option_bind].
  pose proof (lastof_in head l1) as Hlast. set (p := lastof head l1) in *.
  set (n := match l2 with [] => head | x :: _ => x end).
  assert (Hpe : p <> e) by (intros ->; apply (Hd12 e Hlast); constructor).
  assert (Hne : n <> e).
  { unfold n. destruct l2; [|set_solver]. intros ->. apply (Hd12 e); constructor. }
  assert (Hn : get_next h e = Some n) by (unfold n; destruct l2; cbn in Hs2; tauto).
  rewrite Hn. cbn [mbind option_bind]. unfold __list_del.
  assert (Hpn : is_Some (get_next h p)) by (eapply seg_next_some; [exact Hs1|done]).
  assert (Hnn : is_Some (get_next h n)).
  { unfold n. destruct l2; eapply seg_next_some; [exact Hs|set_solver|exact Hs|set_solver]. }
  assert (Hee : is_Some (get_next h e)) by (rewrite Hn; eauto).
  store; [done|]. store; [fields|]. store; [fields|]. store; [fields|].
  eexists; split; [done|]. split; [|nodes].
  apply (ring_unlink h _ head l1 e l2 p n); try done; intros x ?; fields.
Qed.

Lemma list_empty_ring h head l :
  ring h head l -> list_empty head h = Some (bool_decide (l = [])).
Proof.
  intros [Hs Hd]. unfold list_empty. destruct l as [|x l]; cbn in Hs.
  - destruct Hs as [-> _]. cbn. by rewrite Z.eqb_refl.
  - destruct Hs as [-> _]. cbn [mbind option_bind].
    rewrite bool_decide_eq_false_2 by done. f_equal.
    apply Z.eqb_neq. apply NoDup_cons in Hd as [? _]. set_solver.
Qed.

End Ptr.

(** * Refinement *)

Section Refinement.
Context (addr : nat -> Z) (head : Z) (N : nat).
Context {addr_inj : Inj (=) (=) addr}.
Context (head_fresh : forall i, addr i <> head).

Inductive list_op := OpAddTail (i : nat) | OpDel (i : nat).

(** The operations concern the [N] nodes [addr 0 .. addr (N - 1)]. *)
Definition op_in (o : list_op) : Prop :=
  match o with OpAddTail i | OpDel i => (i < N)%nat end.

Definition seq_op (o : list_op) (l : Seq.list_head) : option Seq.list_head :=
  match o with OpAddTail i => Seq.list_add_tail i l | OpDel i => Seq.list_del i l end.

Definition ptr_op (o : list_op) (h : Ptr.heap) : option Ptr.heap :=
  match o with
  | OpAddTail i => Ptr.list_add_tail (addr i) head h
  | OpDel i => Ptr.list_del (addr i) h
  end.

Fixpoint run {A} (op : list_op -> A -> option A) (os : list list_op) (a : A) : option A :=
  match os with [] => Some a | o :: os => a ← op o a; run op os a end.

Definition rep (h : Ptr.heap) (l : list nat) : Prop :=
  Ptr.ring h head (addr <$> l) /\ forall i, (i < N)%nat -> is_Some (Ptr.get_next h (addr i)).

Lemma op_refines o h l l' :
  rep h l -> op_in o -> seq_op o (Some l) = Some l' ->
  exists h' k, l' = Some k /\ ptr_op o h = Some h' /\ rep h' k.
Proof using addr_inj head_fresh.
  intros [Hr Hn] Hin. destruct o as [i|i]; cbn [seq_op ptr_op op_in] in *;
    unfold Seq.list_add_tail, Seq.list_del; cbn [mbind option_bind];
    case_bool_decide as Hi; intros [= <-].
  - destruct (Ptr.list_add_tail_ring h head (addr <$> l) (addr i)) as (h' & E & Hr' & Hs);
      [done| |by apply Hn|].
    { pose proof (head_fresh i). apply not_elem_of_cons. split; [done|].
      by intros (j & ->%addr_inj & ?)%list_elem_of_fmap. }
    exists h', (l ++ [i]). rewrite E. split; [done|]. split; [done|].
    split; [by rewrite fmap_app|]. intros j Hj. by apply Hs, Hn.
  - apply list_elem_of_split in Hi as (l1 & l2 & ->).
    rewrite fmap_app, fmap_cons in Hr.
    destruct (Ptr.list_del_ring _ _ _ _ _ Hr) as (h' & E & Hr' & Hs).
    exists h', (filter (.≠ i) (l1 ++ i :: l2)). rewrite E. split; [done|]. split; [done|].
    split; [|intros j Hj; by apply Hs, Hn].
    assert (Hd : NoDup (l1 ++ i :: l2)).
    { destruct Hr as [_ Hd]. apply NoDup_cons in Hd as [_ Hd].
      rewrite <- fmap_cons, <- fmap_app in Hd. by apply NoDup_fmap in Hd. }
    replace (filter (.≠ i) (l1 ++ i :: l2)) with (l1 ++ l2);
      [by rewrite fmap_app|].
    apply NoDup_app in Hd as (_ & Hd & [? _]%NoDup_cons).
    rewrite filter_app, filter_cons_False by naive_solver.
    rewrite !filter_ne_id; [done|done|]. intros Hi. apply (Hd i Hi). constructor.
Qed.

(** C17. Every sequence of list operations that is legal on sequences runs on
    the pointer structure without a fault and leaves the ring of the resulting
    sequence. *)
Theorem klist_refines (os : list list_op) (h : Ptr.heap) (l : list nat) l' :
  rep h l -> Forall op_in os -> run seq_op os (Some l) = Some l' ->
  exists h' k, l' = Some k /\ run ptr_op os h = Some h' /\ rep h' k.
Proof using addr_inj head_fresh.
  revert h l. induction os as [|o os IH]; intros h l Hr Hos; cbn [run].
  - intros [= <-]. eauto.
  - apply Forall_cons in Hos as [Hin Hos]. intros (m & Ho & Hrun)%bind_Some.
    destruct (op_refines _ _ _ _ Hr Hin Ho) as (h1 & k & -> & E & Hr1).
    rewrite E. cbn [mbind option_bind]. by apply (IH h1 k).
Qed.

End Refinement.

(** Two buffers at addresses 1000 and 1001, the head at 1: queue both, take the
    first out. *)
Lemma klist_refines_witness :
  let h : Ptr.heap := list_to_map [(1, (1, 1)); (1000, (0, 0)); (1001, (0, 0))] in
  let os := [OpAddTail 0; OpAddTail 1; OpDel 0] in
  exists h' k, Some [1%nat] = Some k /\
    run (ptr_op (fun i => 1000 + Z.of_nat i) 1) os h = Some h' /\
    rep (fun i => 1000 + Z.of_nat i) 1 2 h' k.
Proof.
  intros h os.
  assert (Hinj : Inj (=) (=) (fun i => 1000 + Z.of_nat i)) by (intros ?? ?; lia).
  apply (klist_refines (fun i => 1000 + Z.of_nat i) 1 2 ltac:(intros ? ?; lia) os h []).
  - split; [split; [done|apply NoDup_singleton]|]. intros i Hi.
    destruct i as [|[|i]]; [by eexists|by eexists|lia].
  - repeat constructor.
  - vm_compute. reflexivity.
Defined.
