(* ===== verification/V4l2.v ===== *)
(** Data of the V4L2 API shared by the drivers and the application
    (include/linux/videodev2.h, include/media/videobuf-core.h) and the small
    kernel helpers they call (unaligned accesses).

    Enumerations that user space fills in ([v4l2_buf_type], [v4l2_field],
    [v4l2_memory], pixel formats) are [Z]: an application may pass any value and
    the drivers compare with the constants.  [videobuf_state], which only the
    kernel writes, is an inductive type.  [timecode] and [reserved] of
    [struct v4l2_buffer], which no code here touches, are left out. *)

From S2P Require Import Prelude.
Open Scope Z_scope.

(** * Constants *)

Definition v4l2_fourcc (a b c d : Z) : Z :=
  Z.lor (Z.lor (Z.lor a (Z.shiftl b 8)) (Z.shiftl c 16)) (Z.shiftl d 24).

Definition V4L2_PIX_FMT_RGB565 : Z := v4l2_fourcc 0x52 0x47 0x42 0x50.
Definition V4L2_PIX_FMT_RGB24 : Z := v4l2_fourcc 0x52 0x47 0x42 0x33.
Definition V4L2_PIX_FMT_RGB32 : Z := v4l2_fourcc 0x52 0x47 0x42 0x34.
Definition V4L2_PIX_FMT_YUYV : Z := v4l2_fourcc 0x59 0x55 0x59 0x56.
Definition V4L2_PIX_FMT_MJPEG : Z := v4l2_fourcc 0x4d 0x4a 0x50 0x47.

Definition V4L2_BUF_TYPE_VIDEO_CAPTURE : Z := 1.
Definition V4L2_BUF_TYPE_VIDEO_OUTPUT : Z := 2.
Definition V4L2_BUF_TYPE_VBI_OUTPUT : Z := 5.
Definition V4L2_BUF_TYPE_SLICED_VBI_OUTPUT : Z := 7.

Definition V4L2_MEMORY_MMAP : Z := 1.
Definition V4L2_MEMORY_USERPTR : Z := 2.
Definition V4L2_MEMORY_OVERLAY : Z := 3.

Definition V4L2_FIELD_ANY : Z := 0.
Definition V4L2_FIELD_NONE : Z := 1.
Definition V4L2_FIELD_TOP : Z := 2.
Definition V4L2_FIELD_BOTTOM : Z := 3.
Definition V4L2_FIELD_INTERLACED : Z := 4.
Definition V4L2_FIELD_ALTERNATE : Z := 7.

Definition V4L2_COLORSPACE_SRGB : Z := 8.

Definition V4L2_BUF_FLAG_MAPPED : Z := 0x0001.
Definition V4L2_BUF_FLAG_QUEUED : Z := 0x0002.
Definition V4L2_BUF_FLAG_DONE : Z := 0x0004.
Definition V4L2_BUF_FLAG_ERROR : Z := 0x0040.
Definition V4L2_BUF_FLAG_INPUT : Z := 0x0200.

Definition V4L2_CAP_VIDEO_CAPTURE : Z := 0x00000001.
Definition V4L2_CAP_READWRITE : Z := 0x01000000.
Definition V4L2_CAP_STREAMING : Z := 0x04000000.

Definition V4L2_CID_BRIGHTNESS : Z := 0x00980900.
Definition V4L2_CTRL_TYPE_INTEGER : Z := 1.

Definition VIDEO_MAX_FRAME : Z := 32.

Definition POLLIN : Z := 0x0001.
Definition POLLERR : Z := 0x0008.
Definition POLLRDNORM : Z := 0x0040.

(** * Structures *)

Record v4l2_capability := mk_cap {
  cap_driver : string;
  cap_card : string;
  cap_version : Z;
  cap_capabilities : Z;
}.

Record v4l2_fmtdesc := mk_fmtdesc {
  fd_index : Z;
  fd_type : Z;
  fd_flags : Z;
  fd_description : string;
  fd_pixelformat : Z;
}.

Record v4l2_pix_format := mk_pix {
  pix_width : Z;
  pix_height : Z;
  pix_pixelformat : Z;
  pix_field : Z;
  pix_bytesperline : Z;
  pix_sizeimage : Z;
  pix_colorspace : Z;
  pix_priv : Z;
}.

(** [struct v4l2_format] with the [pix] member of its union, the only one the
    programs use. *)
Record v4l2_format := mk_format {
  fmt_type : Z;
  fmt_pix : v4l2_pix_format;
}.

Definition zero_format : v4l2_format := mk_format 0 (mk_pix 0 0 0 0 0 0 0 0).

Record v4l2_requestbuffers := mk_reqbufs {
  rb_count : Z;
  rb_type : Z;
  rb_memory : Z;
}.

Record v4l2_buffer := mk_vbuf {
  vb_index : Z;
  vb_type : Z;
  vb_bytesused : Z;
  vb_flags : Z;
  vb_field : Z;
  vb_timestamp : Z * Z;
  vb_sequence : Z;
  vb_memory : Z;
  vb_m : Z;          (* the union [m]: offset or userptr *)
  vb_length : Z;
  vb_input : Z;
}.

Definition zero_buffer : v4l2_buffer := mk_vbuf 0 0 0 0 0 (0, 0) 0 0 0 0 0.

Definition set_vb_flags (v : Z) (b : v4l2_buffer) : v4l2_buffer :=
  mk_vbuf (vb_index b) (vb_type b) (vb_bytesused b) v (vb_field b) (vb_timestamp b)
          (vb_sequence b) (vb_memory b) (vb_m b) (vb_length b) (vb_input b).
Definition set_vb_bytesused (v : Z) (b : v4l2_buffer) : v4l2_buffer :=
  mk_vbuf (vb_index b) (vb_type b) v (vb_flags b) (vb_field b) (vb_timestamp b)
          (vb_sequence b) (vb_memory b) (vb_m b) (vb_length b) (vb_input b).

Record v4l2_queryctrl := mk_queryctrl {
  qc_id : Z;
  qc_type : Z;
  qc_name : string;
  qc_minimum : Z;
  qc_maximum : Z;
  qc_step : Z;
  qc_default_value : Z;
  qc_flags : Z;
}.

Record v4l2_control := mk_control {
  ctl_id : Z;
  ctl_value : Z;
}.

Inductive videobuf_state :=
  | VIDEOBUF_NEEDS_INIT
  | VIDEOBUF_PREPARED
  | VIDEOBUF_QUEUED
  | VIDEOBUF_ACTIVE
  | VIDEOBUF_DONE
  | VIDEOBUF_ERROR
  | VIDEOBUF_IDLE.

#[export] Instance videobuf_state_eq_dec : EqDecision videobuf_state.
Proof. solve_decision. Defined.

Definition state_eqb (s t : videobuf_state) : bool := bool_decide (s = t).

(** * Unaligned little-endian accesses (include/linux/unaligned/le_byteshift.h) *)

Definition get_unaligned_le16 (p : mem) (i : Z) : option Z :=
  b0 ← byte_at p i; b1 ← byte_at p (i + 1);
  Some (Z.lor b0 (Z.shiftl b1 8)).

Definition get_unaligned_le32 (p : mem) (i : Z) : option Z :=
  b0 ← byte_at p i; b1 ← byte_at p (i + 1);
  b2 ← byte_at p (i + 2); b3 ← byte_at p (i + 3);
  Some (Z.lor (Z.lor (Z.lor b0 (Z.shiftl b1 8)) (Z.shiftl b2 16)) (Z.shiftl b3 24)).

(** [*p++ = val; *p++ = val >> 8] on a [u16] value. *)
Definition put_unaligned_le16 (v : Z) (i : Z) (p : mem) : option mem :=
  p ← mem_write p i [u8 v]; mem_write p (i + 1) [u8 (Z.shiftr v 8)].

Definition put_unaligned_le32 (v : Z) (i : Z) (p : mem) : option mem :=
  p ← put_unaligned_le16 (u16 (Z.shiftr v 16)) (i + 2) p;
  put_unaligned_le16 (u16 v) i p.

Definition put_u8 (v : Z) (i : Z) (p : mem) : option mem := mem_write p i [u8 v].
