(* ===== verification/UsbUrb.v ===== *)
(** The USB request blocks of the kernel: the reference counts of
    [include/linux/kref.h], the pipes and endpoints of [include/linux/usb.h] and
    [include/linux/usb/ch9.h], the life of an URB in [drivers/usb/core/urb.c], and
    its way to the host controller driver and back in [drivers/usb/core/hcd.c].

    URBs, endpoints and transfer buffers are objects named by handles. The host
    controller driver is a parameter, a record of its answers; what it does with
    the queue of an endpoint follows the rules that [hcd.c] gives it. One device
    is modelled, and it is not the root hub. *)
From S2P Require Import Prelude.
Open Scope Z_scope.

(** Error numbers, [include/asm-generic/errno-base.h] and [errno.h]. *)
Definition EPERM : Z := 1.
Definition ENOENT : Z := 2.
Definition ENOEXEC : Z := 8.
Definition EXDEV : Z := 18.
Definition EPIPE : Z := 32.
Definition EIDRM : Z := 43.
Definition EMSGSIZE : Z := 90.
Definition ECONNRESET : Z := 104.
Definition ESHUTDOWN : Z := 108.
Definition ETIMEDOUT : Z := 110.
Definition EHOSTUNREACH : Z := 113.
Definition EINPROGRESS : Z := 115.
Definition EREMOTEIO : Z := 121.
Definition INT_MAX : Z := 2 ^ 31 - 1.

(** * Endpoints and pipes *)

Definition USB_DIR_OUT : Z := 0.
Definition USB_DIR_IN : Z := 0x80.
Definition USB_RECIP_INTERFACE : Z := 0x01.
Definition USB_ENDPOINT_NUMBER_MASK : Z := 0x0f.
Definition USB_ENDPOINT_DIR_MASK : Z := 0x80.
Definition USB_ENDPOINT_XFERTYPE_MASK : Z := 0x03.
Definition USB_ENDPOINT_XFER_CONTROL : Z := 0.
Definition USB_ENDPOINT_XFER_ISOC : Z := 1.
Definition USB_ENDPOINT_XFER_BULK : Z := 2.
Definition USB_ENDPOINT_XFER_INT : Z := 3.

Record usb_endpoint_descriptor := mk_epd {
  bEndpointAddress : Z;
  bmAttributes : Z;
  epd_wMaxPacketSize : Z
}.

Definition usb_endpoint_num (epd : usb_endpoint_descriptor) : Z :=
  Z.land (bEndpointAddress epd) USB_ENDPOINT_NUMBER_MASK.
Definition usb_endpoint_type (epd : usb_endpoint_descriptor) : Z :=
  Z.land (bmAttributes epd) USB_ENDPOINT_XFERTYPE_MASK.
Definition usb_endpoint_dir_out (epd : usb_endpoint_descriptor) : bool :=
  Z.land (bEndpointAddress epd) USB_ENDPOINT_DIR_MASK =? USB_DIR_OUT.
Definition usb_endpoint_maxp (epd : usb_endpoint_descriptor) : Z := epd_wMaxPacketSize epd.

(** [struct usb_host_endpoint]; [urb_list] is the queue of the URBs submitted. *)
Record usb_host_endpoint := mk_ep {
  ep_desc : usb_endpoint_descriptor;
  ss_bMaxBurst : Z;
  ss_bmAttributes : Z;
  ep_enabled : bool;
  ep_urb_list : list nat
}.

Inductive usb_device_speed :=
  USB_SPEED_UNKNOWN | USB_SPEED_LOW | USB_SPEED_FULL | USB_SPEED_HIGH
| USB_SPEED_WIRELESS | USB_SPEED_SUPER.

#[export] Instance usb_device_speed_eq_dec : EqDecision usb_device_speed.
Proof. solve_decision. Defined.

Definition USB_STATE_UNAUTHENTICATED : Z := 4.
Definition USB_STATE_CONFIGURED : Z := 7.
Definition USB_STATE_SUSPENDED : Z := 8.

(** [struct usb_device]: the endpoint tables name endpoints. *)
Record usb_device := mk_udev {
  ud_state : Z;
  ud_speed : usb_device_speed;
  ud_devnum : Z;
  ud_can_submit : bool;
  ud_ep_in : list (option nat);
  ud_ep_out : list (option nat);
  ud_urbnum : Z
}.

Definition PIPE_ISOCHRONOUS : Z := 0.
Definition PIPE_CONTROL : Z := 2.

Definition usb_pipein (pipe : Z) : bool := bit_set pipe USB_DIR_IN.
Definition usb_pipeendpoint (pipe : Z) : Z := Z.land (Z.shiftr pipe 15) 0xf.
Definition __create_pipe (dev : usb_device) (endpoint : Z) : Z :=
  Z.lor (u32 (Z.shiftl (ud_devnum dev) 8)) (u32 (Z.shiftl endpoint 15)).
Definition usb_sndctrlpipe (dev : usb_device) (endpoint : Z) : Z :=
  Z.lor (Z.shiftl PIPE_CONTROL 30) (__create_pipe dev endpoint).
Definition usb_rcvctrlpipe (dev : usb_device) (endpoint : Z) : Z :=
  Z.lor (Z.lor (Z.shiftl PIPE_CONTROL 30) (__create_pipe dev endpoint)) USB_DIR_IN.
Definition usb_rcvisocpipe (dev : usb_device) (endpoint : Z) : Z :=
  Z.lor (Z.lor (Z.shiftl PIPE_ISOCHRONOUS 30) (__create_pipe dev endpoint)) USB_DIR_IN.

Definition usb_pipe_endpoint (dev : usb_device) (pipe : Z) : option (option nat) :=
  (if usb_pipein pipe then ud_ep_in dev else ud_ep_out dev) !! Z.to_nat (usb_pipeendpoint pipe).

(** * URBs *)

Definition URB_SHORT_NOT_OK : Z := 0x0001.
Definition URB_ISO_ASAP : Z := 0x0002.
Definition URB_NO_TRANSFER_DMA_MAP : Z := 0x0004.
Definition URB_FREE_BUFFER : Z := 0x0100.
Definition URB_DIR_IN : Z := 0x0200.
Definition URB_DIR_OUT : Z := 0.
Definition URB_DIR_MASK : Z := URB_DIR_IN.
Definition URB_DMA_MAP_SINGLE : Z := 0x00010000.
Definition URB_DMA_MAP_PAGE : Z := 0x00020000.
Definition URB_DMA_MAP_SG : Z := 0x00040000.
Definition URB_MAP_LOCAL : Z := 0x00080000.
Definition URB_SETUP_MAP_SINGLE : Z := 0x00100000.
Definition URB_SETUP_MAP_LOCAL : Z := 0x00200000.
Definition URB_DMA_SG_COMBINED : Z := 0x00400000.

(** [struct usb_iso_packet_descriptor]. *)
Record usb_iso_packet_descriptor := mk_packet {
  ip_offset : Z;
  ip_length : Z;
  ip_actual_length : Z;
  ip_status : Z
}.

(** [struct usb_ctrlrequest], the setup packet of a control transfer. *)
Record usb_ctrlrequest := mk_ctrl {
  cr_bRequestType : Z;
  cr_bRequest : Z;
  cr_wValue : Z;
  cr_wIndex : Z;
  cr_wLength : Z
}.

(** The members of [struct urb] that describe the transfer. [io_dev] tells whether
    the device is set. Of the completion handler the core sees whether it submits
    the URB again, which the handler decides by the status. *)
Record urb_io := mk_io {
  io_dev : bool;
  io_ep : option nat;
  io_pipe : Z;
  io_status : Z;
  io_transfer_flags : Z;
  io_transfer_buffer : option nat;
  io_transfer_buffer_length : Z;
  io_actual_length : Z;
  io_setup_packet : option usb_ctrlrequest;
  io_number_of_packets : Z;
  io_interval : Z;
  io_complete : option (Z -> bool);
  io_frame_desc : list usb_iso_packet_descriptor
}.

(** [struct urb]: the counters of the core, whether the node [urb_list] is in a
    list, and the transfer. *)
Record urb := mk_urb {
  u_kref : Z;
  u_hcpriv : bool;
  u_use_count : Z;
  u_reject : Z;
  u_unlinked : Z;
  u_linked : bool;
  u_io : urb_io
}.

Definition set_u_kref (v : Z) (u : urb) : urb :=
  mk_urb v (u_hcpriv u) (u_use_count u) (u_reject u) (u_unlinked u) (u_linked u) (u_io u).
Definition set_u_hcpriv (v : bool) (u : urb) : urb :=
  mk_urb (u_kref u) v (u_use_count u) (u_reject u) (u_unlinked u) (u_linked u) (u_io u).
Definition set_u_use_count (v : Z) (u : urb) : urb :=
  mk_urb (u_kref u) (u_hcpriv u) v (u_reject u) (u_unlinked u) (u_linked u) (u_io u).
Definition set_u_reject (v : Z) (u : urb) : urb :=
  mk_urb (u_kref u) (u_hcpriv u) (u_use_count u) v (u_unlinked u) (u_linked u) (u_io u).
Definition set_u_unlinked (v : Z) (u : urb) : urb :=
  mk_urb (u_kref u) (u_hcpriv u) (u_use_count u) (u_reject u) v (u_linked u) (u_io u).
Definition set_u_linked (v : bool) (u : urb) : urb :=
  mk_urb (u_kref u) (u_hcpriv u) (u_use_count u) (u_reject u) (u_unlinked u) v (u_io u).
Definition set_u_io (v : urb_io) (u : urb) : urb :=
  mk_urb (u_kref u) (u_hcpriv u) (u_use_count u) (u_reject u) (u_unlinked u) (u_linked u) v.

Definition set_io_started (e : nat) (io : urb_io) : urb_io :=
  mk_io (io_dev io) (Some e) (io_pipe io) (- EINPROGRESS) (io_transfer_flags io)
    (io_transfer_buffer io) (io_transfer_buffer_length io) 0 (io_setup_packet io)
    (io_number_of_packets io) (io_interval io) (io_complete io) (io_frame_desc io).
Definition set_io_flags (v : Z) (io : urb_io) : urb_io :=
  mk_io (io_dev io) (io_ep io) (io_pipe io) (io_status io) v
    (io_transfer_buffer io) (io_transfer_buffer_length io) (io_actual_length io)
    (io_setup_packet io) (io_number_of_packets io) (io_interval io) (io_complete io)
    (io_frame_desc io).
Definition set_io_desc (v : list usb_iso_packet_descriptor) (io : urb_io) : urb_io :=
  mk_io (io_dev io) (io_ep io) (io_pipe io) (io_status io) (io_transfer_flags io)
    (io_transfer_buffer io) (io_transfer_buffer_length io) (io_actual_length io)
    (io_setup_packet io) (io_number_of_packets io) (io_interval io) (io_complete io) v.
Definition set_io_interval (v : Z) (io : urb_io) : urb_io :=
  mk_io (io_dev io) (io_ep io) (io_pipe io) (io_status io) (io_transfer_flags io)
    (io_transfer_buffer io) (io_transfer_buffer_length io) (io_actual_length io)
    (io_setup_packet io) (io_number_of_packets io) v (io_complete io) (io_frame_desc io).
Definition set_io_result (status actual : Z) (io : urb_io) : urb_io :=
  mk_io (io_dev io) (io_ep io) (io_pipe io) status (io_transfer_flags io)
    (io_transfer_buffer io) (io_transfer_buffer_length io) actual
    (io_setup_packet io) (io_number_of_packets io) (io_interval io) (io_complete io)
    (io_frame_desc io).

(** The bus: the device, whether the root hub runs, the objects, and the URBs
    whose completion handler is running. *)
Record ubus := mk_ubus {
  ub_dev : usb_device;
  ub_rh_running : bool;
  ub_eps : gmap nat usb_host_endpoint;
  ub_urbs : gmap nat urb;
  ub_bufs : gset nat;
  ub_handlers : list nat
}.

Definition set_ub_dev (v : usb_device) (b : ubus) : ubus :=
  mk_ubus v (ub_rh_running b) (ub_eps b) (ub_urbs b) (ub_bufs b) (ub_handlers b).
Definition set_ub_eps (v : gmap nat usb_host_endpoint) (b : ubus) : ubus :=
  mk_ubus (ub_dev b) (ub_rh_running b) v (ub_urbs b) (ub_bufs b) (ub_handlers b).
Definition set_ub_urbs (v : gmap nat urb) (b : ubus) : ubus :=
  mk_ubus (ub_dev b) (ub_rh_running b) (ub_eps b) v (ub_bufs b) (ub_handlers b).
Definition set_ub_bufs (v : gset nat) (b : ubus) : ubus :=
  mk_ubus (ub_dev b) (ub_rh_running b) (ub_eps b) (ub_urbs b) v (ub_handlers b).
Definition set_ub_handlers (v : list nat) (b : ubus) : ubus :=
  mk_ubus (ub_dev b) (ub_rh_running b) (ub_eps b) (ub_urbs b) (ub_bufs b) v.
Definition set_ud_urbnum (v : Z) (d : usb_device) : usb_device :=
  mk_udev (ud_state d) (ud_speed d) (ud_devnum d) (ud_can_submit d) (ud_ep_in d) (ud_ep_out d) v.
Definition set_ep_urb_list (v : list nat) (e : usb_host_endpoint) : usb_host_endpoint :=
  mk_ep (ep_desc e) (ss_bMaxBurst e) (ss_bmAttributes e) (ep_enabled e) v.
Definition set_ep_enabled (v : bool) (e : usb_host_endpoint) : usb_host_endpoint :=
  mk_ep (ep_desc e) (ss_bMaxBurst e) (ss_bmAttributes e) v (ep_urb_list e).

(** Writing members of an URB; an URB that is gone is a fault. *)
Definition with_urb (h : nat) (f : urb -> urb) (b : ubus) : option ubus :=
  u ← ub_urbs b !! h; Some (set_ub_urbs (<[h := f u]> (ub_urbs b)) b).

(** * References *)

(** [urb_destroy], called when the last reference goes. *)
Definition urb_destroy (h : nat) (b : ubus) : option ubus :=
  u ← ub_urbs b !! h;
  let bufs := if bit_set (io_transfer_flags (u_io u)) URB_FREE_BUFFER
              then match io_transfer_buffer (u_io u) with
                   | Some x => ub_bufs b ∖ {[x]} | None => ub_bufs b end
              else ub_bufs b in
  Some (set_ub_urbs (delete h (ub_urbs b)) (set_ub_bufs bufs b)).

Definition kref_get (h : nat) (b : ubus) : option ubus :=
  with_urb h (fun u => set_u_kref (u_kref u + 1) u) b.

Definition kref_sub (count : Z) (h : nat) (b : ubus) : option ubus :=
  b ← with_urb h (fun u => set_u_kref (u_kref u - count) u) b;
  u ← ub_urbs b !! h;
  if u_kref u =? 0 then urb_destroy h b else Some b.

Definition kref_put (h : nat) (b : ubus) : option ubus := kref_sub 1 h b.

(** [usb_init_urb]: everything zero but the reference count. The packet
    descriptors behind the structure are not touched. *)
Definition usb_init_urb (desc : list usb_iso_packet_descriptor) : urb :=
  mk_urb 1 false 0 0 0 false
    (mk_io false None 0 0 0 None 0 0 None 0 0 None desc).

(** [usb_alloc_urb]: [block] is the block that [kmalloc] returned, if any, and
    what the room for the packet descriptors in it contains. *)
Definition usb_alloc_urb (block : option (nat * list usb_iso_packet_descriptor)) (b : ubus) : option nat * ubus :=
  match block with
  | None => (None, b)
  | Some (h, desc) => (Some h, set_ub_urbs (<[h := usb_init_urb desc]> (ub_urbs b)) b)
  end.

Definition usb_free_urb (urb : option nat) (b : ubus) : option ubus :=
  match urb with None => Some b | Some h => kref_put h b end.

Definition usb_get_urb (urb : option nat) (b : ubus) : option ubus :=
  match urb with None => Some b | Some h => kref_get h b end.

(** * The checks of [usb_submit_urb] *)

(** Whether data goes out; [None] for a control transfer without setup packet. *)
Definition is_out (ep : usb_host_endpoint) (io : urb_io) : option bool :=
  if usb_endpoint_type (ep_desc ep) =? USB_ENDPOINT_XFER_CONTROL then
    match io_setup_packet io with
    | None => None
    | Some setup =>
        Some (negb (bit_set (cr_bRequestType setup) USB_DIR_IN) || negb (truth (cr_wLength setup)))
    end
  else Some (usb_endpoint_dir_out (ep_desc ep)).

(** The transfer flags with the internal ones cleared and the direction cached. *)
Definition submit_flags (out : bool) (flags : Z) : Z :=
  let internal := Z.lor (Z.lor (Z.lor (Z.lor (Z.lor (Z.lor (Z.lor URB_DIR_MASK
                    URB_DMA_MAP_SINGLE) URB_DMA_MAP_PAGE) URB_DMA_MAP_SG) URB_MAP_LOCAL)
                    URB_SETUP_MAP_SINGLE) URB_SETUP_MAP_LOCAL) URB_DMA_SG_COMBINED in
  Z.lor (Z.land flags (Z.lnot internal)) (if out then URB_DIR_OUT else URB_DIR_IN).

Definition USB_SS_MULT (p : Z) : Z := 1 + Z.land p 0x3.

(** The most bytes of one isochronous packet. *)
Definition iso_max (speed : usb_device_speed) (ep : usb_host_endpoint) (max : Z) : Z :=
  match speed with
  | USB_SPEED_SUPER => max * (1 + ss_bMaxBurst ep) * USB_SS_MULT (ss_bmAttributes ep)
  | USB_SPEED_HIGH => Z.land max 0x07ff * (1 + Z.land (Z.shiftr max 11) 0x03)
  | _ => max
  end.

(** The loop over the packets: 0 with their results reset, or [-EMSGSIZE] with
    those before the bad one reset. *)
Fixpoint iso_init (todo n : nat) (max : Z) (desc : list usb_iso_packet_descriptor)
    : option (Z * list usb_iso_packet_descriptor) :=
  match todo with
  | O => Some (0, desc)
  | S todo =>
      p ← desc !! n;
      let len := s32 (ip_length p) in
      if (len <? 0) || (len >? max) then Some (- EMSGSIZE, desc)
      else iso_init todo (S n) max
             (<[n := mk_packet (ip_offset p) (ip_length p) 0 (- EXDEV)]> desc)
  end.

Definition iso_checks (speed : usb_device_speed) (ep : usb_host_endpoint) (max : Z)
    (io : urb_io) : option (Z * urb_io) :=
  if io_number_of_packets io <=? 0 then Some (- EINVAL, io)
  else '(ret, desc) ← iso_init (Z.to_nat (io_number_of_packets io)) 0
                        (iso_max speed ep max) (io_frame_desc io);
       Some (ret, set_io_desc desc io).

(** The interval of a periodic transfer, a power of two; [None] if it is refused. *)
Definition urb_interval (speed : usb_device_speed) (xfertype interval : Z) : option Z :=
  let round max i := Z.min max (Z.shiftl 1 (Z.log2 i)) in
  let too_small := match speed with
                   | USB_SPEED_WIRELESS => interval <? 6
                   | _ => interval <=? 0
                   end in
  if too_small then None else
  match speed with
  | USB_SPEED_SUPER =>
      if interval >? Z.shiftl 1 15 then None else Some (round (Z.shiftl 1 15) interval)
  | USB_SPEED_WIRELESS => if interval >? 16 then None else Some interval
  | USB_SPEED_HIGH =>
      let i := if interval >? 1024 * 8 then 1024 * 8 else interval in
      Some (round (1024 * 8) i)
  | USB_SPEED_FULL | USB_SPEED_LOW =>
      if xfertype =? USB_ENDPOINT_XFER_INT then
        if interval >? 255 then None else Some (round 128 interval)
      else
        let i := if interval >? 1024 then 1024 else interval in
        Some (round 1024 i)
  | USB_SPEED_UNKNOWN => None
  end.

Definition periodic (xfertype : Z) : bool :=
  (xfertype =? USB_ENDPOINT_XFER_ISOC) || (xfertype =? USB_ENDPOINT_XFER_INT).

(** What [usb_submit_urb] does once it knows the endpoint, up to the hand over to
    the host controller: 0, or the error with what was already written. *)
Definition endpoint_checks (dev : usb_device) (ep : usb_host_endpoint) (io : urb_io)
    : option (Z * urb_io) :=
  let xfertype := usb_endpoint_type (ep_desc ep) in
  match is_out ep io with
  | None => Some (- ENOEXEC, io)
  | Some out =>
      let io := set_io_flags (submit_flags out (io_transfer_flags io)) io in
      if negb (xfertype =? USB_ENDPOINT_XFER_CONTROL) && (ud_state dev <? USB_STATE_CONFIGURED)
      then Some (- ENODEV, io) else
      let max := usb_endpoint_maxp (ep_desc ep) in
      if max <=? 0 then Some (- EMSGSIZE, io) else
      '(ret, io) ← (if xfertype =? USB_ENDPOINT_XFER_ISOC
                    then iso_checks (ud_speed dev) ep max io else Some (0, io));
      if truth ret then Some (ret, io) else
      if io_transfer_buffer_length io >? INT_MAX then Some (- EMSGSIZE, io) else
      if periodic xfertype then
        match urb_interval (ud_speed dev) xfertype (io_interval io) with
        | None => Some (- EINVAL, io)
        | Some i => Some (0, set_io_interval i io)
        end
      else Some (0, io)
  end.

Definition submit_checks (dev : usb_device) (eps : gmap nat usb_host_endpoint) (io : urb_io)
    : option (Z * urb_io) :=
  if negb (io_dev io) || (ud_state dev <? USB_STATE_UNAUTHENTICATED)
  then Some (- ENODEV, io) else
  slot ← usb_pipe_endpoint dev (io_pipe io);
  match slot with
  | None => Some (- ENOENT, io)
  | Some e => ep ← eps !! e; endpoint_checks dev ep (set_io_started e io)
  end.

(** * The host controller *)

(** The answers of the host controller driver: whether mapping the buffer and
    queueing the transfer fail, and whether the driver keeps private data with a
    queued URB. *)
Record hcd_driver := mk_hcd {
  hc_map_urb : nat -> ubus -> Z;
  hc_urb_enqueue : nat -> ubus -> Z;
  hc_hcpriv : nat -> bool
}.

(** [usb_hcd_link_urb_to_ep]. Adding a node that is in a list already is a fault. *)
Definition usb_hcd_link_urb_to_ep (h : nat) (b : ubus) : option (Z * ubus) :=
  u ← ub_urbs b !! h;
  e ← io_ep (u_io u);
  ep ← ub_eps b !! e;
  if truth (u_reject u) then Some (- EPERM, b) else
  if negb (ep_enabled ep) then Some (- ENOENT, b) else
  if negb (ud_can_submit (ub_dev b)) then Some (- EHOSTUNREACH, b) else
  if ub_rh_running b then
    if u_linked u then None else
    b ← with_urb h (fun u => set_u_linked true (set_u_unlinked 0 u)) b;
    Some (0, set_ub_eps (<[e := set_ep_urb_list (ep_urb_list ep ++ [h]) ep]> (ub_eps b)) b)
  else Some (- ESHUTDOWN, b).

Definition usb_hcd_check_unlink_urb (h : nat) (status : Z) (b : ubus) : option (Z * ubus) :=
  u ← ub_urbs b !! h;
  e ← io_ep (u_io u);
  ep ← ub_eps b !! e;
  if bool_decide (h ∉ ep_urb_list ep) then Some (- EIDRM, b) else
  if truth (u_unlinked u) then Some (- EBUSY, b) else
  b ← with_urb h (set_u_unlinked status) b;
  Some (0, b).

Definition usb_hcd_unlink_urb_from_ep (h : nat) (b : ubus) : option ubus :=
  u ← ub_urbs b !! h;
  e ← io_ep (u_io u);
  ep ← ub_eps b !! e;
  if u_linked u then
    b ← with_urb h (set_u_linked false) b;
    Some (set_ub_eps (<[e := set_ep_urb_list (filter (.≠ h) (ep_urb_list ep)) ep]> (ub_eps b)) b)
  else None.

(** [urb_enqueue] of the host controller driver, by the rules of [hcd.c]: it links
    the URB, fails if that fails, and unlinks it if it fails later. *)
Definition urb_enqueue (hc : hcd_driver) (h : nat) (b : ubus) : option (Z * ubus) :=
  '(rc, b) ← usb_hcd_link_urb_to_ep h b;
  if truth rc then Some (rc, b) else
  let r := hc_urb_enqueue hc h b in
  if truth r then b ← usb_hcd_unlink_urb_from_ep h b; Some (r, b)
  else b ← with_urb h (set_u_hcpriv (hc_hcpriv hc h)) b; Some (0, b).

Definition count_urb (n : Z) (b : ubus) : ubus :=
  set_ub_dev (set_ud_urbnum (ud_urbnum (ub_dev b) + n) (ub_dev b)) b.

(** The error path of [usb_hcd_submit_urb]. *)
Definition submit_failed (h : nat) (b : ubus) : option ubus :=
  b ← with_urb h (fun u => set_u_use_count (u_use_count u - 1)
                             (set_u_linked false (set_u_hcpriv false u))) b;
  usb_free_urb (Some h) (count_urb (-1) b).

Definition usb_hcd_submit_urb (hc : hcd_driver) (h : nat) (b : ubus) : option (Z * ubus) :=
  b ← usb_get_urb (Some h) b;
  b ← with_urb h (fun u => set_u_use_count (u_use_count u + 1) u) b;
  let b := count_urb 1 b in
  let status := hc_map_urb hc h b in
  '(status, b) ← (if truth status then Some (status, b) else urb_enqueue hc h b);
  if truth status then b ← submit_failed h b; Some (status, b)
  else Some (0, b).

Definition usb_submit_urb (hc : hcd_driver) (urb : option nat) (b : ubus) : option (Z * ubus) :=
  match urb with
  | None => Some (- EINVAL, b)
  | Some h =>
      u ← ub_urbs b !! h;
      if u_hcpriv u || bool_decide (io_complete (u_io u) = None) then Some (- EINVAL, b) else
      '(ret, io) ← submit_checks (ub_dev b) (ub_eps b) (u_io u);
      b ← with_urb h (set_u_io io) b;
      if truth ret then Some (ret, b) else usb_hcd_submit_urb hc h b
  end.

(** [usb_hcd_unlink_urb] with [unlink1]: [urb_dequeue] of the host controller
    driver begins with [usb_hcd_check_unlink_urb]; the URB comes back later. *)
Definition usb_hcd_unlink_urb (h : nat) (status : Z) (b : ubus) : option (Z * ubus) :=
  u ← ub_urbs b !! h;
  if u_use_count u >? 0 then
    '(retval, b) ← usb_hcd_check_unlink_urb h status b;
    Some (if retval =? 0 then - EINPROGRESS else retval, b)
  else Some (- EIDRM, b).

Definition usb_unlink_urb (urb : option nat) (b : ubus) : option (Z * ubus) :=
  match urb with
  | None => Some (- EINVAL, b)
  | Some h =>
      u ← ub_urbs b !! h;
      if negb (io_dev (u_io u)) then Some (- ENODEV, b) else
      if bool_decide (io_ep (u_io u) = None) then Some (- EIDRM, b) else
      usb_hcd_unlink_urb h (- ECONNRESET) b
  end.

(** What a transfer brought: its status and length, and the length and status of
    each packet. *)
Record transfer := mk_transfer {
  x_status : Z;
  x_actual_length : Z;
  x_packets : list (Z * Z)
}.

Definition packet_results (desc : list usb_iso_packet_descriptor) (rs : list (Z * Z)) : list usb_iso_packet_descriptor :=
  imap (fun i p => match rs !! i with
                   | Some (n, s) => mk_packet (ip_offset p) (ip_length p) n s
                   | None => p
                   end) desc.

(** The controller moves the data, and the driver takes the URB off its queue.
    A transfer into a buffer that is gone is a fault. *)
Definition hcd_transfer (h : nat) (x : transfer) (b : ubus) : option ubus :=
  u ← ub_urbs b !! h;
  if (io_transfer_buffer_length (u_io u) =? 0)
     || bool_decide (is_Some (y ← io_transfer_buffer (u_io u);
                              guard (y ∈ ub_bufs b);; Some y))
  then b ← with_urb h (fun u => set_u_io (set_io_desc
              (packet_results (io_frame_desc (u_io u)) (x_packets x))
              (set_io_result (io_status (u_io u)) (x_actual_length x) (u_io u))) u) b;
       usb_hcd_unlink_urb_from_ep h b
  else None.

(** The status that [usb_hcd_giveback_urb] reports. *)
Definition giveback_status (status : Z) (u : urb) : Z :=
  if truth (u_unlinked u) then u_unlinked u
  else if bit_set (io_transfer_flags (u_io u)) URB_SHORT_NOT_OK
          && (io_actual_length (u_io u) <? io_transfer_buffer_length (u_io u))
          && negb (truth status)
  then - EREMOTEIO else status.

(** [usb_hcd_giveback_urb] up to the call of the completion handler, and after it. *)
Definition giveback_begin (h : nat) (status : Z) (b : ubus) : option ubus :=
  b ← with_urb h (fun u =>
        let u := set_u_hcpriv false u in
        set_u_io (set_io_result (giveback_status status u) (io_actual_length (u_io u)) (u_io u)) u) b;
  Some (set_ub_handlers (h :: ub_handlers b) b).

Fixpoint remove_one (h : nat) (l : list nat) : list nat :=
  match l with
  | [] => []
  | x :: l => if decide (x = h) then l else x :: remove_one h l
  end.

Definition giveback_end (h : nat) (b : ubus) : option ubus :=
  if decide (h ∈ ub_handlers b) then
    b ← with_urb h (fun u => set_u_use_count (u_use_count u - 1) u)
          (set_ub_handlers (remove_one h (ub_handlers b)) b);
    usb_free_urb (Some h) b
  else None.

(** The completion handler of an URB, as far as the core is concerned. *)
Definition run_handler (hc : hcd_driver) (h : nat) (b : ubus) : option ubus :=
  u ← ub_urbs b !! h;
  f ← io_complete (u_io u);
  if f (io_status (u_io u)) : bool then snd <$> usb_submit_urb hc (Some h) b else Some b.

Definition usb_hcd_giveback_urb (hc : hcd_driver) (h : nat) (status : Z) (b : ubus)
    : option ubus :=
  b ← giveback_begin h status b;
  b ← run_handler hc h b;
  giveback_end h b.

(** One transfer from the queue to the end of the completion handler. *)
Definition hcd_complete (hc : hcd_driver) (h : nat) (x : transfer) (b : ubus) : option ubus :=
  b ← hcd_transfer h x b;
  usb_hcd_giveback_urb hc h (x_status x) b.

(** [usb_block_urb] and [usb_unpoison_urb]. *)
Definition usb_block_urb (urb : option nat) (b : ubus) : option ubus :=
  match urb with
  | None => Some b
  | Some h => with_urb h (fun u => set_u_reject (u_reject u + 1) u) b
  end.

Definition usb_unpoison_urb (urb : option nat) (b : ubus) : option ubus :=
  match urb with
  | None => Some b
  | Some h => with_urb h (fun u => set_u_reject (u_reject u - 1) u) b
  end.

(** [usb_kill_urb] up to its wait: further submissions are refused, and the
    transfer is to come back with [-ENOENT]. *)
Definition kill_begin (h : nat) (b : ubus) : option ubus :=
  b ← usb_block_urb (Some h) b;
  snd <$> usb_hcd_unlink_urb h (- ENOENT) b.

(** The wait for the use count to drop to 0: while it is not 0, a handler that
    runs comes to its end, or the controller gives the URB back. *)
Fixpoint kill_wait (fuel : nat) (hc : hcd_driver) (x : transfer) (h : nat) (b : ubus)
    : option ubus :=
  u ← ub_urbs b !! h;
  if u_use_count u =? 0 then Some b else
  match fuel with
  | O => None
  | S fuel =>
      b ← (if decide (h ∈ ub_handlers b) then giveback_end h b else hcd_complete hc h x b);
      kill_wait fuel hc x h b
  end.

(** [usb_poison_urb]; the wait has a round for each use. *)
Definition usb_poison_urb (hc : hcd_driver) (x : transfer) (urb : option nat) (b : ubus)
    : option ubus :=
  match urb with
  | None => Some b
  | Some h =>
      u ← ub_urbs b !! h;
      if io_dev (u_io u) && bool_decide (is_Some (io_ep (u_io u))) then
        b ← kill_begin h b;
        kill_wait (Z.to_nat (u_use_count u)) hc x h b
      else Some b
  end.

Definition usb_kill_urb (hc : hcd_driver) (x : transfer) (urb : option nat) (b : ubus)
    : option ubus :=
  match urb with
  | None => Some b
  | Some h =>
      u ← ub_urbs b !! h;
      if io_dev (u_io u) && bool_decide (is_Some (io_ep (u_io u))) then
        b ← kill_begin h b;
        b ← kill_wait (Z.to_nat (u_use_count u)) hc x h b;
        usb_unpoison_urb (Some h) b
      else Some b
  end.

(** * The invariant of the bus *)

(** How often [h] occurs in [l]. *)
Definition occurrences (h : nat) (l : list nat) : Z := zlen (filter (.= h) l).

(** Whether the transfer buffer of an URB is there. *)
Definition buffer_live (bufs : gset nat) (io : urb_io) : Prop :=
  io_transfer_buffer_length io = 0 \/ exists y, io_transfer_buffer io = Some y /\ y ∈ bufs.

(** The buffer an URB takes with it when it is destroyed. *)
Definition owned_buffer (io : urb_io) : option nat :=
  if bit_set (io_transfer_flags io) URB_FREE_BUFFER then io_transfer_buffer io else None.

(** One URB. [R] are the references that drivers hold, [S] the uses that are
    neither in a queue nor in a handler, which occur only inside the functions of
    the core. *)
Record urb_ok (R S : nat -> Z) (eps : gmap nat usb_host_endpoint) (bufs : gset nat)
    (handlers : list nat) (h : nat) (u : urb) : Prop := mk_urb_ok {
  uo_refs : 0 <= R h;
  uo_spare : 0 <= S h;
  uo_alive : 0 < u_kref u;
  uo_kref : u_kref u = R h + u_use_count u;
  uo_use : u_use_count u = of_bool (u_linked u) + occurrences h handlers + S h;
  uo_reject : 0 <= u_reject u;
  uo_hcpriv : u_hcpriv u = true -> u_linked u = true \/ 0 < S h;
  uo_ep e : io_ep (u_io u) = Some e -> is_Some (eps !! e);
  uo_linked : u_linked u = true -> exists e ep,
    io_ep (u_io u) = Some e /\ eps !! e = Some ep /\ h ∈ ep_urb_list ep;
  uo_packets : (Z.to_nat (io_number_of_packets (u_io u)) <= length (io_frame_desc (u_io u)))%nat;
  uo_complete : 0 < u_use_count u -> is_Some (io_complete (u_io u));
  uo_dev : 0 < u_use_count u -> io_dev (u_io u) = true /\ is_Some (io_ep (u_io u));
  uo_buffer : u_linked u = true -> buffer_live bufs (u_io u)
}.

Definition table_ok (eps : gmap nat usb_host_endpoint) (t : list (option nat)) : Prop :=
  length t = 16%nat /\ forall e, Some e ∈ t -> is_Some (eps !! e).

Record bus_ok (R S : nat -> Z) (b : ubus) : Prop := mk_bus_ok {
  bo_urb h u : ub_urbs b !! h = Some u ->
    urb_ok R S (ub_eps b) (ub_bufs b) (ub_handlers b) h u;
  bo_gone h : ub_urbs b !! h = None -> R h = 0 /\ S h = 0;
  bo_queue e ep : ub_eps b !! e = Some ep -> NoDup (ep_urb_list ep) /\
    forall h, h ∈ ep_urb_list ep ->
    exists u, ub_urbs b !! h = Some u /\ u_linked u = true /\ io_ep (u_io u) = Some e;
  bo_handlers h : h ∈ ub_handlers b -> is_Some (ub_urbs b !! h);
  bo_own h1 h2 u1 u2 y : h1 <> h2 -> ub_urbs b !! h1 = Some u1 -> ub_urbs b !! h2 = Some u2 ->
    owned_buffer (u_io u1) = Some y -> io_transfer_buffer (u_io u2) <> Some y;
  bo_in : table_ok (ub_eps b) (ud_ep_in (ub_dev b));
  bo_out : table_ok (ub_eps b) (ud_ep_out (ub_dev b))
}.

(** The counts as functions: the invariant does not depend on how they are
    written. *)
Definition bump (h : nat) (n : Z) (R : nat -> Z) : nat -> Z :=
  fun x => if decide (x = h) then R x + n else R x.

Definition none : nat -> Z := fun _ => 0.

#[export] Instance urb_ok_proper :
  Proper (pointwise_relation nat eq ==> pointwise_relation nat eq ==>
          eq ==> eq ==> eq ==> eq ==> eq ==> iff) urb_ok.
Proof.
  intros R R' HR S S' HS eps _ <- bufs _ <- hs _ <- h _ <- u _ <-.
  split; intros []; (split; rewrite ?HR, ?HS in *); done || (rewrite <- ?HR, <- ?HS; done).
Qed.

#[export] Instance bus_ok_proper :
  Proper (pointwise_relation nat eq ==> pointwise_relation nat eq ==> eq ==> iff) bus_ok.
Proof.
  intros R R' HR S S' HS b _ <-.
  split; intros []; split; try done; intros h;
    [intros u; rewrite <- HR, <- HS | rewrite <- HR, <- HS |
     intros u; rewrite HR, HS | rewrite HR, HS]; eauto.
Qed.

Lemma bump_eq h n R : bump h n R h = R h + n.
Proof. unfold bump. by rewrite decide_True. Qed.

Lemma bump_ne h n R x : x <> h -> bump h n R x = R x.
Proof. intros. unfold bump. by rewrite decide_False. Qed.

Lemma bump_bump h n m R : pointwise_relation nat eq (bump h n (bump h m R)) (bump h (m + n) R).
Proof. intros x. unfold bump. case_decide; lia. Qed.

Lemma bump_0 h R : pointwise_relation nat eq (bump h 0 R) R.
Proof. intros x. unfold bump. case_decide; lia. Qed.

Definition put_urb (h : nat) (u : urb) (b : ubus) : ubus := set_ub_urbs (<[h := u]> (ub_urbs b)) b.

Lemma with_urb_Some h f b u : ub_urbs b !! h = Some u -> with_urb h f b = Some (put_urb h (f u) b).
Proof. intros E. unfold with_urb. by rewrite E. Qed.

(** An URB is fine as long as its own counts, its endpoint and its buffer are. *)
Lemma urb_ok_frame R S R' S' eps eps' bufs bufs' hs hs' h u :
  urb_ok R S eps bufs hs h u ->
  R' h = R h -> S' h = S h -> occurrences h hs' = occurrences h hs ->
  (forall e ep, io_ep (u_io u) = Some e -> eps !! e = Some ep ->
     exists ep', eps' !! e = Some ep' /\ (h ∈ ep_urb_list ep -> h ∈ ep_urb_list ep')) ->
  (forall y, io_transfer_buffer (u_io u) = Some y -> y ∈ bufs -> y ∈ bufs') ->
  urb_ok R' S' eps' bufs' hs' h u.
Proof.
  intros [] HR HS Hh He Hb. split; rewrite ?HR, ?HS, ?Hh; try done.
  - intros e E. destruct (uo_ep0 e E) as [ep E']. destruct (He e ep E E') as (? & ? & _). eauto.
  - intros Hl. destruct (uo_linked0 Hl) as (e & ep & E & E' & Hin).
    destruct (He e ep E E') as (ep' & ? & ?). eauto 10.
  - intros Hl. destruct (uo_buffer0 Hl) as [|(y & E & Hy)]; [by left|]. right. eauto.
Qed.

Lemma bus_ok_upd R S R' S' b h u u' : bus_ok R S b -> ub_urbs b !! h = Some u ->
  (forall x, x <> h -> R' x = R x /\ S' x = S x) ->
  urb_ok R' S' (ub_eps b) (ub_bufs b) (ub_handlers b) h u' ->
  u_linked u' = u_linked u -> (u_linked u = true -> io_ep (u_io u') = io_ep (u_io u)) ->
  io_transfer_buffer (u_io u') = io_transfer_buffer (u_io u) ->
  owned_buffer (u_io u') = owned_buffer (u_io u) ->
  bus_ok R' S' (put_urb h u' b).
Proof.
  intros [] Hu Hx Hok Hl He Hb Ho. split; cbn; try done.
  - intros x v Hv. destruct (decide (x = h)) as [->|Hne].
    + rewrite lookup_insert_eq in Hv. by injection Hv as <-.
    + rewrite lookup_insert_ne in Hv by done. destruct (Hx x Hne).
      eapply urb_ok_frame; eauto.
  - intros x Hv. destruct (decide (x = h)) as [->|Hne]; [by rewrite lookup_insert_eq in Hv|].
    rewrite lookup_insert_ne in Hv by done. destruct (Hx x Hne) as [-> ->]. auto.
  - intros e ep E. destruct (bo_queue0 e ep E) as [? Hq]. split; [done|]. intros x Hin.
    destruct (Hq x Hin) as (v & Ev & Lv & Pv). destruct (decide (x = h)) as [->|Hne].
    + rewrite lookup_insert_eq. assert (v = u) as -> by congruence.
      exists u'. rewrite Hl, He; done.
    + rewrite lookup_insert_ne by done. eauto.
  - intros x Hin. destruct (decide (x = h)) as [->|Hne]; [by rewrite lookup_insert_eq; eauto|].
    rewrite lookup_insert_ne by done. auto.
  - intros h1 h2 u1 u2 y Hne E1 E2 Hown.
    apply lookup_insert_Some in E1 as [[<- <-]|[? E1]];
      apply lookup_insert_Some in E2 as [[<- <-]|[? E2]];
      try done; rewrite ?Ho in Hown; rewrite ?Hb; eauto.
Qed.

(** Changing the place of one URB in the queue of its endpoint. *)
Lemma bus_ok_relink R S R' S' b h u u' e ep l : bus_ok R S b -> ub_urbs b !! h = Some u ->
  io_ep (u_io u) = Some e -> ub_eps b !! e = Some ep ->
  (forall x, x <> h -> R' x = R x /\ S' x = S x) ->
  let eps := <[e := set_ep_urb_list l ep]> (ub_eps b) in
  urb_ok R' S' eps (ub_bufs b) (ub_handlers b) h u' -> u_io u' = u_io u ->
  NoDup l -> (forall x, x <> h -> x ∈ l <-> x ∈ ep_urb_list ep) ->
  (h ∈ l -> u_linked u' = true) -> 
  bus_ok R' S' (set_ub_eps eps (put_urb h u' b)).
Proof.
  intros [] Hu Ee Eep Hx eps Hok Hio Hnd Hl Hlk.
  assert (forall x, is_Some (ub_eps b !! x) -> is_Some (eps !! x)) as Heps.
  { intros x Hs. unfold eps. destruct (decide (x = e)) as [->|].
    - rewrite lookup_insert_eq. eauto.
    - by rewrite lookup_insert_ne. }
  split; cbn.
  - intros x v Hv. destruct (decide (x = h)) as [->|Hne].
    + rewrite lookup_insert_eq in Hv. by injection Hv as <-.
    + rewrite lookup_insert_ne in Hv by done. destruct (Hx x Hne).
      eapply urb_ok_frame; eauto. intros e' ep' _ E'. unfold eps.
      destruct (decide (e' = e)) as [->|].
      * rewrite lookup_insert_eq. eexists; split; [done|]. cbn. rewrite Hl by done. congruence.
      * rewrite lookup_insert_ne by done. eauto.
  - intros x Hv. destruct (decide (x = h)) as [->|Hne]; [by rewrite lookup_insert_eq in Hv|].
    rewrite lookup_insert_ne in Hv by done. destruct (Hx x Hne) as [-> ->]. auto.
  - intros e' ep' E'. unfold eps in E'. destruct (decide (e' = e)) as [->|He'].
    + rewrite lookup_insert_eq in E'. injection E' as <-. split; [done|]. cbn. intros x Hin.
      destruct (decide (x = h)) as [->|Hne].
      * rewrite lookup_insert_eq. exists u'. rewrite Hio. auto.
      * rewrite lookup_insert_ne by done. apply (proj2 (bo_queue0 e ep Eep)). by apply Hl.
    + rewrite lookup_insert_ne in E' by done. destruct (bo_queue0 e' ep' E') as [? Hq].
      split; [done|]. intros x Hin. destruct (Hq x Hin) as (v & Ev & Lv & Pv).
      destruct (decide (x = h)) as [->|Hne]; [congruence|]. rewrite lookup_insert_ne by done. eauto.
  - intros x Hin. destruct (decide (x = h)) as [->|Hne]; [by rewrite lookup_insert_eq; eauto|].
    rewrite lookup_insert_ne by done. auto.
  - intros h1 h2 u1 u2 y Hne E1 E2 Hown.
    apply lookup_insert_Some in E1 as [[<- <-]|[? E1]];
      apply lookup_insert_Some in E2 as [[<- <-]|[? E2]];
      try done; rewrite ?Hio in *; eauto.
  - destruct bo_in0 as [? Ht]. split; auto.
  - destruct bo_out0 as [? Ht]. split; auto.
Qed.

(** The counts of the other URBs stay. *)
Ltac others := let x := fresh in let Hx := fresh in intros x Hx; split; by rewrite ?bump_ne.

(** An URB after an update of its counters. *)
Ltac counters H := destruct H; split; cbn; rewrite ?bump_eq; unfold of_bool in *; try done; try lia; auto.

Lemma put_urb_put h u u' b : put_urb h u' (put_urb h u b) = put_urb h u' b.
Proof. unfold put_urb, set_ub_urbs. cbn. by rewrite insert_insert_eq. Qed.

Lemma put_lookup h u b : ub_urbs (put_urb h u b) !! h = Some u.
Proof. cbn. apply lookup_insert_eq. Qed.

Lemma kref_get_ok R S b h u : bus_ok R S b -> ub_urbs b !! h = Some u ->
  bus_ok (bump h 1 R) S (put_urb h (set_u_kref (u_kref u + 1) u) b).
Proof.
  intros Hb Hu. pose proof (bo_urb _ _ _ Hb h u Hu) as Ho.
  eapply bus_ok_upd; eauto; [others|]. counters Ho.
Qed.

(** A reference and a use for the host controller. *)
Lemma acquire_ok R S b h u : bus_ok R S b -> ub_urbs b !! h = Some u ->
  is_Some (io_complete (u_io u)) -> io_dev (u_io u) = true -> is_Some (io_ep (u_io u)) ->
  bus_ok R (bump h 1 S)
    (put_urb h (set_u_use_count (u_use_count u + 1) (set_u_kref (u_kref u + 1) u)) b).
Proof.
  intros Hb Hu Hc Hd He. pose proof (bo_urb _ _ _ Hb h u Hu) as Ho.
  eapply bus_ok_upd; eauto; [others|]. counters Ho.
Qed.

(** The use is over, the reference is still there. *)
Lemma unuse_ok R S b h u : bus_ok R S b -> ub_urbs b !! h = Some u -> 0 < S h ->
  (u_hcpriv u = true -> u_linked u = true) ->
  bus_ok (bump h 1 R) (bump h (-1) S) (put_urb h (set_u_use_count (u_use_count u - 1) u) b).
Proof.
  intros Hb Hu Hs Hp. pose proof (bo_urb _ _ _ Hb h u Hu) as Ho.
  eapply bus_ok_upd; eauto; [others|]. destruct Ho; split; cbn; rewrite ?bump_eq; try done; try lia.
  - auto.
  - intros. apply uo_complete0. lia.
  - intros. apply uo_dev0. lia.
Qed.

Lemma set_reject_ok R S b h u n : bus_ok R S b -> ub_urbs b !! h = Some u -> 0 <= n ->
  bus_ok R S (put_urb h (set_u_reject n u) b).
Proof.
  intros Hb Hu Hn. pose proof (bo_urb _ _ _ Hb h u Hu) as Ho.
  eapply bus_ok_upd; eauto. counters Ho.
Qed.

Lemma set_unlinked_ok R S b h u n : bus_ok R S b -> ub_urbs b !! h = Some u ->
  bus_ok R S (put_urb h (set_u_unlinked n u) b).
Proof.
  intros Hb Hu. pose proof (bo_urb _ _ _ Hb h u Hu) as Ho.
  eapply bus_ok_upd; eauto. counters Ho.
Qed.

Lemma set_hcpriv_ok R S b h u v : bus_ok R S b -> ub_urbs b !! h = Some u ->
  (v = true -> u_linked u = true) -> bus_ok R S (put_urb h (set_u_hcpriv v u) b).
Proof.
  intros Hb Hu Hv. pose proof (bo_urb _ _ _ Hb h u Hu) as Ho.
  eapply bus_ok_upd; eauto. counters Ho.
Qed.

(** Members of the transfer that the core writes. *)
Lemma set_io_ok R S b h u io : bus_ok R S b -> ub_urbs b !! h = Some u ->
  (u_linked u = true -> io_ep io = io_ep (u_io u)) ->
  (forall e, io_ep io = Some e -> is_Some (ub_eps b !! e)) ->
  io_dev io = io_dev (u_io u) -> (is_Some (io_ep (u_io u)) -> is_Some (io_ep io)) ->
  io_transfer_buffer io = io_transfer_buffer (u_io u) ->
  io_transfer_buffer_length io = io_transfer_buffer_length (u_io u) ->
  owned_buffer io = owned_buffer (u_io u) ->
  io_number_of_packets io = io_number_of_packets (u_io u) ->
  length (io_frame_desc io) = length (io_frame_desc (u_io u)) ->
  io_complete io = io_complete (u_io u) ->
  bus_ok R S (put_urb h (set_u_io io u) b).
Proof.
  intros Hb Hu He Hv Hd Hs E1 E2 E3 E4 E5 E6. pose proof (bo_urb _ _ _ Hb h u Hu) as Ho.
  eapply bus_ok_upd; eauto. destruct Ho; split; cbn; try done.
  - intros Hl. rewrite He by done. eauto.
  - by rewrite E4, E5.
  - by rewrite E6.
  - rewrite Hd. intros Hp. destruct (uo_dev0 Hp). auto.
  - unfold buffer_live. rewrite E1, E2. done.
Qed.

Lemma count_urb_ok R S n b : bus_ok R S b -> bus_ok R S (count_urb n b).
Proof. intros []. by split. Qed.

(** * References *)

Lemma bus_ok_delete R S b h u : bus_ok R S b -> ub_urbs b !! h = Some u -> R h = 1 ->
  u_use_count u = 0 ->
  exists b', urb_destroy h b = Some b' /\ bus_ok (bump h (-1) R) S b' /\
    ub_urbs b' = delete h (ub_urbs b) /\ ub_dev b' = ub_dev b /\ ub_eps b' = ub_eps b /\
    ub_handlers b' = ub_handlers b /\ ub_rh_running b' = ub_rh_running b.
Proof.
  intros Hb Hu HR H0. pose proof (bo_urb _ _ _ Hb h u Hu) as Ho.
  unfold urb_destroy. rewrite Hu. cbn [mbind option_bind].
  set (bufs := if bit_set _ _ then _ else _).
  eexists. split; [done|]. split; [|done].
  assert (forall x v y, x <> h -> ub_urbs b !! x = Some v ->
            io_transfer_buffer (u_io v) = Some y -> y ∈ ub_bufs b -> y ∈ bufs) as Hbufs.
  { intros x v y Hx Hv Ev Hy. pose proof (bo_own _ _ _ Hb h x u v) as Hown. unfold bufs.
    unfold owned_buffer in Hown. destruct (bit_set _ _); [|done].
    destruct (io_transfer_buffer (u_io u)) as [z|]; [|done].
    specialize (Hown z (not_eq_sym Hx) Hu Hv eq_refl). set_solver. }
  assert (u_linked u = false /\ (h ∉ ub_handlers b) /\ S h = 0) as (Hl & Hh & Hs).
  { pose proof (uo_use _ _ _ _ _ _ _ Ho) as Hus. pose proof (uo_spare _ _ _ _ _ _ _ Ho).
    pose proof (zlen_nonneg (filter (.= h) (ub_handlers b))).
    unfold occurrences, of_bool in Hus. destruct (u_linked u); [lia|]. split; [done|].
    split; [|lia]. intros Hin. assert (filter (.= h) (ub_handlers b) = []) as E0
      by (apply length_zero_iff_nil; unfold zlen in *; lia).
    assert (h ∈ filter (.= h) (ub_handlers b)) as Hf by (by apply list_elem_of_filter).
    rewrite E0 in Hf. by apply elem_of_nil in Hf. }
  destruct Hb. split; cbn; try done.
  - intros x v (Hx & Hv)%lookup_delete_Some. eapply urb_ok_frame; eauto. by rewrite bump_ne.
  - intros x [->|Hx]%lookup_delete_None; [rewrite bump_eq; lia|].
    destruct (decide (x = h)) as [->|]; [rewrite bump_eq; lia|]. rewrite bump_ne by done. auto.
  - intros e ep E. destruct (bo_queue0 e ep E) as [? Hq]. split; [done|]. intros x Hin.
    destruct (Hq x Hin) as (v & Ev & Lv & Pv). exists v.
    rewrite lookup_delete_ne by (intros ->; congruence). done.
  - intros x Hin. rewrite lookup_delete_ne by (intros ->; done). auto.
  - intros h1 h2 u1 u2 y Hne (? & E1)%lookup_delete_Some (? & E2)%lookup_delete_Some. eauto.
Qed.

(** What an operation on one URB leaves alone: the other URBs, the endpoints but
    for the place of this URB in the queues, and the device but for its count. *)
Definition same_ep (h : nat) (o o' : option usb_host_endpoint) : Prop :=
  match o, o' with
  | None, None => True
  | Some ep, Some ep' =>
      filter (.≠ h) (ep_urb_list ep') = filter (.≠ h) (ep_urb_list ep) /\
      ep' = set_ep_urb_list (ep_urb_list ep') ep
  | _, _ => False
  end.

Record only (h : nat) (b b' : ubus) : Prop := mk_only {
  on_urbs x : x <> h -> ub_urbs b' !! x = ub_urbs b !! x;
  on_owned u' : ub_urbs b' !! h = Some u' ->
    exists u, ub_urbs b !! h = Some u /\ owned_buffer (u_io u') = owned_buffer (u_io u);
  on_eps e : same_ep h (ub_eps b !! e) (ub_eps b' !! e);
  on_dev : ub_dev b' = set_ud_urbnum (ud_urbnum (ub_dev b')) (ub_dev b);
  on_rh : ub_rh_running b' = ub_rh_running b;
  on_bufs : ub_bufs b' ⊆ ub_bufs b;
  on_kept y : y ∈ ub_bufs b -> y ∉ ub_bufs b' -> ub_urbs b' !! h = None /\
    exists u, ub_urbs b !! h = Some u /\ owned_buffer (u_io u) = Some y;
  on_handlers : filter (.≠ h) (ub_handlers b') = filter (.≠ h) (ub_handlers b)
}.

#[export] Instance only_preorder h : PreOrder (only h).
Proof.
  split.
  - intros b. split; try done.
    + eauto.
    + intros e. unfold same_ep. destruct (ub_eps b !! e) as [[]|]; done.
    + by destruct b as [[] ? ? ? ? ?].
  - intros b1 b2 b3 [U1 G1 E1 D1 R1 B1 K1 H1] [U2 G2 E2 D2 R2 B2 K2 H2]. split.
    + intros x Hx. by rewrite U2, U1.
    + intros u3 H3. destruct (G2 u3 H3) as (u2 & Hu2 & E23). destruct (G1 u2 Hu2) as (u1 & ? & ?).
      exists u1. split; [done|congruence].
    + intros e. specialize (E1 e). specialize (E2 e). unfold same_ep in *.
      destruct (ub_eps b1 !! e), (ub_eps b2 !! e), (ub_eps b3 !! e); try done.
      destruct E1 as [F1 S1], E2 as [F2 S2]. split; [congruence|].
      rewrite S2 at 1. by rewrite S1.
    + rewrite D2 at 1. by rewrite D1.
    + congruence.
    + set_solver.
    + intros y Hy Hn. destruct (decide (y ∈ ub_bufs b2)) as [Hy2|Hy2].
      * destruct (K2 y Hy2 Hn) as (? & u2 & Hu2 & E2'). split; [done|].
        destruct (G1 u2 Hu2) as (u1 & ? & ?). exists u1. split; [done|congruence].
      * destruct (K1 y Hy Hy2) as (Hg & u1 & Hu1). split; [|by exists u1].
        destruct (ub_urbs b3 !! h) as [u3|] eqn:E3; [|done].
        destruct (G2 u3 eq_refl) as (u2 & ? & _). congruence.
    + congruence.
Qed.

Lemma only_put h u v b : ub_urbs b !! h = Some v ->
  owned_buffer (u_io u) = owned_buffer (u_io v) -> only h b (put_urb h u b).
Proof.
  intros Hv Ho. split; cbn; try done.
  - intros x Hx. by rewrite lookup_insert_ne.
  - intros u'. rewrite lookup_insert_eq. intros [= <-]. by exists v.
  - intros e. unfold same_ep. by destruct (ub_eps b !! e) as [[]|].
  - by destruct b as [[] ? ? ? ? ?].
Qed.

Lemma only_bufs h b b' : only h b b' -> is_Some (ub_urbs b' !! h) -> ub_bufs b' = ub_bufs b.
Proof.
  intros Hon [u Hu]. apply set_eq. intros y. split; [apply (on_bufs _ _ _ Hon)|]. intros Hy.
  destruct (decide (y ∈ ub_bufs b')) as [|Hn]; [done|].
  destruct (on_kept _ _ _ Hon y Hy Hn) as [Hg _]. congruence.
Qed.

(** Dropping a reference: the URB goes with the last one, and not while it is in
    use. *)
Lemma kref_put_ok R S b h u : bus_ok R S b -> ub_urbs b !! h = Some u -> 0 < R h ->
  exists b', kref_put h b = Some b' /\ bus_ok (bump h (-1) R) S b' /\ only h b b' /\
    ub_handlers b' = ub_handlers b /\ ub_eps b' = ub_eps b /\
    (1 < u_kref u -> b' = put_urb h (set_u_kref (u_kref u - 1) u) b) /\
    (u_kref u = 1 -> ub_urbs b' = delete h (ub_urbs b)).
Proof.
  intros Hb Hu HR. pose proof (bo_urb _ _ _ Hb h u Hu) as Ho.
  unfold kref_put, kref_sub. rewrite (with_urb_Some _ _ _ _ Hu). cbn [mbind option_bind].
  rewrite put_lookup. cbn [mbind option_bind u_kref set_u_kref].
  pose proof (uo_kref _ _ _ _ _ _ _ Ho) as Hk. pose proof (uo_use _ _ _ _ _ _ _ Ho) as Hus.
  pose proof (uo_spare _ _ _ _ _ _ _ Ho). pose proof (zlen_nonneg (filter (.= h) (ub_handlers b))).
  unfold occurrences, of_bool in Hus.
  assert (0 <= u_use_count u) by (destruct (u_linked u); lia).
  destruct (Z.eqb_spec (u_kref u - 1) 0) as [E1|E1].
  - unfold urb_destroy. rewrite put_lookup. cbn [mbind option_bind].
    destruct (bus_ok_delete R S b h u Hb Hu) as (b' & Hd & Hok & Hurbs & Hdev & Heps & Hhs & Hrh);
      [lia..|].
    unfold urb_destroy in Hd. rewrite Hu in Hd. cbn [mbind option_bind] in Hd.
    injection Hd as <-. cbn in *. unfold put_urb, set_ub_urbs, set_ub_bufs. cbn.
    rewrite delete_insert_eq. eexists. split; [done|]. split; [done|]. split; [|split_and!; done || lia].
    split; cbn; try done.
    + intros x Hx. by rewrite lookup_delete_ne.
    + intros u'. by rewrite lookup_delete_eq.
    + intros e. unfold same_ep. by destruct (ub_eps b !! e) as [[]|].
    + by destruct (ub_dev b).
    + destruct (bit_set _ _); [|done]. destruct (io_transfer_buffer (u_io u)); set_solver.
    + intros y Hy Hn. rewrite lookup_delete_eq. split; [done|]. exists u. split; [done|].
      unfold owned_buffer. destruct (bit_set _ _); [|done].
      destruct (io_transfer_buffer (u_io u)) as [z|]; [|done].
      destruct (decide (y = z)) as [->|]; [done|]. set_solver.
  - eexists. split; [done|].
    split; [|split_and!; try done; [by eapply only_put | lia]].
    eapply bus_ok_upd; eauto; [others|]. counters Ho.
Qed.

(** * Submission *)

(** What the checks leave as the driver set it. *)
Record same_request (io io' : urb_io) : Prop := mk_same_request {
  sr_dev : io_dev io' = io_dev io;
  sr_pipe : io_pipe io' = io_pipe io;
  sr_buffer : io_transfer_buffer io' = io_transfer_buffer io;
  sr_length : io_transfer_buffer_length io' = io_transfer_buffer_length io;
  sr_owned : owned_buffer io' = owned_buffer io;
  sr_setup : io_setup_packet io' = io_setup_packet io;
  sr_packets : io_number_of_packets io' = io_number_of_packets io;
  sr_complete : io_complete io' = io_complete io;
  sr_layout : (fun p => (ip_offset p, ip_length p)) <$> io_frame_desc io' =
              (fun p => (ip_offset p, ip_length p)) <$> io_frame_desc io
}.

#[export] Instance same_request_preorder : PreOrder same_request.
Proof. split; [by intros io|]. intros ? ? ? [] []. split; congruence. Qed.

Lemma same_request_desc io io' : same_request io io' ->
  length (io_frame_desc io') = length (io_frame_desc io).
Proof. intros [? ? ? ? ? ? ? ? E]. apply (f_equal length) in E. by rewrite !length_fmap in E. Qed.

(** The flag that gives the buffer to the URB is not an internal one. *)
Lemma submit_flags_free out flags :
  bit_set (submit_flags out flags) URB_FREE_BUFFER = bit_set flags URB_FREE_BUFFER.
Proof.
  unfold bit_set. f_equal. unfold submit_flags. rewrite Z.land_lor_distr_l, <- Z.land_assoc.
  by replace (Z.land (if out then URB_DIR_OUT else URB_DIR_IN) URB_FREE_BUFFER) with 0
    by (by destruct out); rewrite Z.lor_0_r.
Qed.

Lemma iso_init_total max todo : forall n desc, (n + todo <= length desc)%nat ->
  exists ret desc', iso_init todo n max desc = Some (ret, desc') /\
    (ret = 0 \/ ret = - EMSGSIZE) /\
    (fun p => (ip_offset p, ip_length p)) <$> desc' =
    (fun p => (ip_offset p, ip_length p)) <$> desc.
Proof.
  induction todo as [|todo IH]; intros n desc Hn; cbn [iso_init]; [by eauto 10|].
  destruct (lookup_lt_is_Some_2 desc n ltac:(lia)) as [p Hp]. rewrite Hp. cbn [mbind option_bind].
  case_if; [by eauto 10|]. set (d1 := <[n := _]> desc).
  destruct (IH (S n) d1) as (ret & desc' & E & Hr & Hm);
    [unfold d1; rewrite length_insert; lia|].
  exists ret, desc'. split_and!; [done|done|]. rewrite Hm. unfold d1.
  rewrite list_fmap_insert. cbn. apply list_insert_id. by rewrite list_lookup_fmap, Hp.
Qed.

(** A branch of the checks that ends the call. *)
Ltac verdict := eexists _, _; split_and!; first [done | by vm_compute | by eauto | idtac].

(** An URB with room for its packets gets through the checks with 0 or an error,
    and keeps what the driver asked for. *)
Lemma endpoint_checks_total dev ep io :
  (Z.to_nat (io_number_of_packets io) <= length (io_frame_desc io))%nat ->
  exists ret io', endpoint_checks dev ep io = Some (ret, io') /\ ret <= 0 /\
    same_request io io' /\ io_ep io' = io_ep io.
Proof.
  intros Hn. unfold endpoint_checks. destruct (is_out ep io) as [out|]; [|by verdict].
  set (io1 := set_io_flags _ _).
  assert (same_request io io1) as H1.
  { split; try done. unfold owned_buffer. cbn. by rewrite submit_flags_free. }
  case_if; [by verdict|]. case_if; [by verdict|].
  assert (exists ret io2, (if usb_endpoint_type (ep_desc ep) =? USB_ENDPOINT_XFER_ISOC
            then iso_checks (ud_speed dev) ep (usb_endpoint_maxp (ep_desc ep)) io1
            else Some (0, io1)) = Some (ret, io2) /\ ret <= 0 /\ same_request io io2 /\
            io_ep io2 = io_ep io) as (ret & io2 & -> & Hr & H2 & He).
  { case_if; [|by verdict]. unfold iso_checks. case_if; [by verdict|].
    destruct (iso_init_total (iso_max (ud_speed dev) ep (usb_endpoint_maxp (ep_desc ep)))
                (Z.to_nat (io_number_of_packets io1)) 0 (io_frame_desc io1))
      as (ret & desc & -> & Hr & Hm); [done|].
    cbn [mbind option_bind]. eexists _, _. split; [done|].
    split; [unfold EMSGSIZE in *; lia|]. split; [|done].
    destruct H1. by split. }
  cbn [mbind option_bind]. case_if; [by verdict|]. case_if; [by verdict|].
  case_if; [|by verdict]. destruct (urb_interval _ _ _); [|by verdict].
  eexists _, _. split_and!; [done|done| |done]. destruct H2. by split.
Qed.

Lemma table_lookup eps t pipe : table_ok eps t ->
  exists o, t !! Z.to_nat (usb_pipeendpoint pipe) = Some o /\
    forall e, o = Some e -> is_Some (eps !! e).
Proof.
  intros [Hl Hin].
  assert (0 <= usb_pipeendpoint pipe < 16).
  { unfold usb_pipeendpoint. change 0xf with (Z.ones 4). rewrite Z.land_ones by lia.
    apply Z.mod_pos_bound. lia. }
  destruct (lookup_lt_is_Some_2 t (Z.to_nat (usb_pipeendpoint pipe))) as [o Ho]; [lia|].
  exists o. split; [done|]. intros e ->. apply Hin. by eapply list_elem_of_lookup_2.
Qed.

Lemma submit_checks_total R S b io : bus_ok R S b ->
  (Z.to_nat (io_number_of_packets io) <= length (io_frame_desc io))%nat ->
  (forall e, io_ep io = Some e -> is_Some (ub_eps b !! e)) ->
  exists ret io', submit_checks (ub_dev b) (ub_eps b) io = Some (ret, io') /\ ret <= 0 /\
    same_request io io' /\ (forall e, io_ep io' = Some e -> is_Some (ub_eps b !! e)) /\
    (is_Some (io_ep io) -> is_Some (io_ep io')) /\
    (ret = 0 -> io_dev io' = true /\ is_Some (io_ep io')).
Proof.
  intros Hb Hn He. unfold submit_checks.
  destruct (negb (io_dev io) || _) eqn:Hdev; [by verdict|].
  apply orb_false_iff in Hdev as [Hdev%negb_false_iff _].
  assert (table_ok (ub_eps b) (if usb_pipein (io_pipe io) then ud_ep_in (ub_dev b)
                               else ud_ep_out (ub_dev b))) as Ht
    by (case_if; apply Hb).
  destruct (table_lookup _ _ (io_pipe io) Ht) as (o & Ho & Hs). unfold usb_pipe_endpoint.
  rewrite Ho. cbn [mbind option_bind]. destruct o as [e|]; [|by verdict].
  destruct (Hs e eq_refl) as [ep Hep]. rewrite Hep. cbn [mbind option_bind].
  destruct (endpoint_checks_total (ub_dev b) ep (set_io_started e io) Hn)
    as (ret & io' & E & Hr & Hsr & Hep').
  cbn in Hep'. exists ret, io'. split_and!; try done.
  - etrans; [|done]. by split.
  - intros e' E'. assert (e' = e) as -> by congruence. eauto.
  - intros _. rewrite Hep'. split; [|by eauto]. by rewrite (sr_dev _ _ Hsr).
Qed.

(** Why an URB is not put into the queue of its endpoint; 0 if it is. *)
Definition link_error (u : urb) (ep : usb_host_endpoint) (b : ubus) : Z :=
  if truth (u_reject u) then - EPERM
  else if negb (ep_enabled ep) then - ENOENT
  else if negb (ud_can_submit (ub_dev b)) then - EHOSTUNREACH
  else if ub_rh_running b then 0 else - ESHUTDOWN.

Definition linked_urb (u : urb) : urb := set_u_linked true (set_u_unlinked 0 u).

Definition linked_bus (h e : nat) (u : urb) (ep : usb_host_endpoint) (b : ubus) : ubus :=
  set_ub_eps (<[e := set_ep_urb_list (ep_urb_list ep ++ [h]) ep]> (ub_eps b))
    (put_urb h (linked_urb u) b).

Lemma not_queued R S b h u e ep : bus_ok R S b -> ub_urbs b !! h = Some u ->
  u_linked u = false -> ub_eps b !! e = Some ep -> h ∉ ep_urb_list ep.
Proof.
  intros Hb Hu Hl He Hin. destruct (bo_queue _ _ _ Hb e ep He) as [_ Hq].
  destruct (Hq h Hin) as (v & ? & ? & _). congruence.
Qed.

Lemma filter_not_in (h : nat) (l : list nat) : h ∉ l -> filter (.≠ h) l = l.
Proof.
  induction l as [|x l IH]; [done|]. intros [Hx Hl]%not_elem_of_cons.
  rewrite filter_cons_True by done. by rewrite IH.
Qed.

Lemma link_spec h b u e ep : ub_urbs b !! h = Some u -> io_ep (u_io u) = Some e ->
  ub_eps b !! e = Some ep -> u_linked u = false ->
  usb_hcd_link_urb_to_ep h b =
    Some (link_error u ep b, if link_error u ep b =? 0 then linked_bus h e u ep b else b).
Proof.
  intros Hu He Hep Hl. unfold usb_hcd_link_urb_to_ep, link_error.
  rewrite Hu. cbn [mbind option_bind]. rewrite He. cbn [mbind option_bind]. rewrite Hep.
  cbn [mbind option_bind]. rewrite Hl, (with_urb_Some _ _ _ _ Hu). by repeat case_if.
Qed.

Lemma linked_ok R S b h u e ep : bus_ok R S b -> ub_urbs b !! h = Some u ->
  io_ep (u_io u) = Some e -> ub_eps b !! e = Some ep -> u_linked u = false ->
  0 < S h -> buffer_live (ub_bufs b) (u_io u) ->
  bus_ok R (bump h (-1) S) (linked_bus h e u ep b) /\ only h b (linked_bus h e u ep b).
Proof.
  intros Hb Hu He Hep Hl Hs Hbuf. pose proof (bo_urb _ _ _ Hb h u Hu) as Ho.
  pose proof (not_queued _ _ _ _ _ _ _ Hb Hu Hl Hep) as Hq.
  destruct (bo_queue _ _ _ Hb e ep Hep) as [Hnd _]. unfold linked_bus. split.
  - eapply bus_ok_relink; eauto; [others| |..]; try done.
    + destruct Ho; split; cbn; rewrite ?bump_eq, ?Hl in *; unfold of_bool in *; try done; try lia.
      * intros e'. rewrite He. intros [= <-]. by rewrite lookup_insert_eq.
      * intros _. eexists e, _. rewrite lookup_insert_eq. split_and!; try done.
        cbn. apply elem_of_app. right. by left.
    + apply NoDup_app. split_and!; [done| |apply NoDup_singleton]. intros x Hx ->%list_elem_of_singleton. done.
    + intros x Hx. rewrite elem_of_app, list_elem_of_singleton. naive_solver.
  - split; cbn; try done.
    + intros x Hx. by rewrite lookup_insert_ne.
    + intros u'. rewrite lookup_insert_eq. intros [= <-]. by exists u.
    + intros e'. unfold same_ep. destruct (decide (e' = e)) as [->|].
      * rewrite Hep, lookup_insert_eq. cbn. rewrite filter_app, filter_cons_False by naive_solver.
        by rewrite app_nil_r.
      * rewrite lookup_insert_ne by done. by destruct (ub_eps b !! e') as [[]|].
    + by destruct (ub_dev b).
Qed.

Definition unlinked_bus (h e : nat) (u : urb) (ep : usb_host_endpoint) (b : ubus) : ubus :=
  set_ub_eps (<[e := set_ep_urb_list (filter (.≠ h) (ep_urb_list ep)) ep]> (ub_eps b))
    (put_urb h (set_u_linked false u) b).

Lemma unlink_spec h b u e ep : ub_urbs b !! h = Some u -> io_ep (u_io u) = Some e ->
  ub_eps b !! e = Some ep -> u_linked u = true ->
  usb_hcd_unlink_urb_from_ep h b = Some (unlinked_bus h e u ep b).
Proof.
  intros Hu He Hep Hl. unfold usb_hcd_unlink_urb_from_ep.
  rewrite Hu. cbn [mbind option_bind]. rewrite He. cbn [mbind option_bind]. rewrite Hep.
  cbn [mbind option_bind]. by rewrite Hl, (with_urb_Some _ _ _ _ Hu).
Qed.

Lemma unlinked_ok R S b h u e ep : bus_ok R S b -> ub_urbs b !! h = Some u ->
  io_ep (u_io u) = Some e -> ub_eps b !! e = Some ep -> u_linked u = true ->
  bus_ok R (bump h 1 S) (unlinked_bus h e u ep b) /\ only h b (unlinked_bus h e u ep b).
Proof.
  intros Hb Hu He Hep Hl. pose proof (bo_urb _ _ _ Hb h u Hu) as Ho.
  destruct (bo_queue _ _ _ Hb e ep Hep) as [Hnd _]. unfold unlinked_bus. split.
  - eapply bus_ok_relink; eauto; [others| |..]; try done.
    + destruct Ho; split; cbn; rewrite ?bump_eq, ?Hl in *; unfold of_bool in *; try done; try lia.
      intros e'. rewrite He. intros [= <-]. by rewrite lookup_insert_eq.
    + by apply NoDup_filter.
    + intros x Hx. rewrite list_elem_of_filter. naive_solver.
    + intros [? _]%list_elem_of_filter. done.
  - split; cbn; try done.
    + intros x Hx. by rewrite lookup_insert_ne.
    + intros u'. rewrite lookup_insert_eq. intros [= <-]. by exists u.
    + intros e'. unfold same_ep. destruct (decide (e' = e)) as [->|].
      * rewrite Hep, lookup_insert_eq. cbn. split; [|done].
        rewrite list_filter_filter. apply list_filter_iff. naive_solver.
      * rewrite lookup_insert_ne by done. by destruct (ub_eps b !! e') as [[]|].
    + by destruct (ub_dev b).
Qed.

(** The host controller driver answers with error codes. *)
Record hcd_ok (hc : hcd_driver) : Prop := mk_hcd_ok {
  ho_map h b : hc_map_urb hc h b <= 0;
  ho_enqueue h b : hc_urb_enqueue hc h b <= 0
}.

Lemma only_count h n b : only h b (count_urb n b).
Proof.
  split; cbn; try done; [by eauto|]. intros e. unfold same_ep. by destruct (ub_eps b !! e) as [[]|].
Qed.

(** An URB as a failed submission leaves it. *)
Definition still_idle (u u' : urb) : Prop :=
  u_io u' = u_io u /\ u_kref u' = u_kref u /\ u_use_count u' = u_use_count u /\
  u_reject u' = u_reject u /\ u_linked u' = false /\ u_hcpriv u' = false.

(** The tail of a failed submission: the use and the reference go. *)
Lemma submit_undo R S b h u : bus_ok R (bump h 1 S) b -> ub_urbs b !! h = Some u ->
  0 <= S h -> u_linked u = false -> 0 < R h \/ 1 < u_use_count u ->
  exists b', submit_failed h b = Some b' /\
    bus_ok R S b' /\ only h b b' /\ ub_handlers b' = ub_handlers b /\ ub_eps b' = ub_eps b /\
    ub_urbs b' !! h = Some (set_u_kref (u_kref u - 1)
                              (set_u_use_count (u_use_count u - 1) (set_u_hcpriv false u))).
Proof.
  intros Hb Hu HS Hl Hr. pose proof (bo_urb _ _ _ Hb h u Hu) as Ho.
  unfold submit_failed. rewrite (with_urb_Some _ _ _ _ Hu). cbn [mbind option_bind].
  assert (set_u_linked false (set_u_hcpriv false u) = set_u_hcpriv false u) as ->
    by (destruct u; cbn in *; by subst).
  set (u0 := set_u_hcpriv false u). set (u1 := set_u_use_count _ _).
  assert (bus_ok R (bump h 1 S) (put_urb h u0 b)) as H0 by (by apply set_hcpriv_ok).
  assert (bus_ok (bump h 1 R) S (put_urb h u1 (put_urb h u0 b))) as H1.
  { rewrite <- (bump_0 h S). rewrite <- (bump_bump h (-1) 1 S).
    apply (unuse_ok _ _ _ h u0 H0); [apply put_lookup | rewrite bump_eq; lia | done]. }
  rewrite put_urb_put in H1. apply (count_urb_ok _ _ (-1)) in H1.
  destruct Ho. rewrite bump_eq in uo_use0. unfold of_bool in *.
  pose proof (zlen_nonneg (filter (.= h) (ub_handlers b))). unfold occurrences in *.
  destruct (kref_put_ok _ _ _ h u1 H1) as (b' & E & Hok & Hon & Hhs & Heps & Hput & _);
    [apply put_lookup | rewrite bump_eq; lia |].
  rewrite Hput in * by (cbn; destruct (u_linked u); lia).
  eexists. split; [exact E|]. split; [|split_and!; try done].
  - revert Hok. by rewrite bump_bump, bump_0.
  - etrans; [|done]. etrans; [by eapply (only_put h u1 u)|]. apply only_count.
  - apply put_lookup.
Qed.

(** An URB that the host controller has taken. *)
Definition taken_urb (hc : hcd_driver) (h : nat) (u : urb) : urb :=
  set_u_hcpriv (hc_hcpriv hc h) (linked_urb
    (set_u_use_count (u_use_count u + 1) (set_u_kref (u_kref u + 1) u))).

(** [urb_enqueue] takes the URB, with what is spare of its uses, or leaves the
    queue as it was. *)
Lemma urb_enqueue_ok hc R S b h u e ep : hcd_ok hc -> bus_ok R S b -> ub_urbs b !! h = Some u ->
  io_ep (u_io u) = Some e -> ub_eps b !! e = Some ep -> u_linked u = false ->
  0 < S h -> buffer_live (ub_bufs b) (u_io u) ->
  exists r b', urb_enqueue hc h b = Some (r, b') /\ r <= 0 /\ only h b b' /\
    ub_handlers b' = ub_handlers b /\
    ((forall b, hc_urb_enqueue hc h b = 0) -> r = link_error u ep b) /\
    (r = 0 -> link_error u ep b = 0 /\ bus_ok R (bump h (-1) S) b' /\
       ub_urbs b' !! h = Some (set_u_hcpriv (hc_hcpriv hc h) (linked_urb u)) /\
       ub_eps b' = <[e := set_ep_urb_list (ep_urb_list ep ++ [h]) ep]> (ub_eps b)) /\
    (r <> 0 -> bus_ok R S b' /\ ub_eps b' = ub_eps b /\
       exists z, ub_urbs b' !! h = Some (set_u_unlinked z u)).
Proof.
  intros Hhc Hb Hu He Hep Hl Hs Hbuf. unfold urb_enqueue.
  rewrite (link_spec _ _ _ _ _ Hu He Hep Hl). cbn [mbind option_bind].
  assert (set_u_unlinked (u_unlinked u) u = u) as Hun by by destruct u.
  assert (link_error u ep b <= 0) as Hle by (unfold link_error; by repeat case_if).
  unfold truth at 1. destruct (Z.eqb_spec (link_error u ep b) 0) as [E0|E0]; cbn [negb].
  2:{ eexists _, _. split_and!; try done. intros _. split_and!; try done. eexists. by rewrite Hun. }
  destruct (linked_ok _ _ _ _ _ _ _ Hb Hu He Hep Hl Hs Hbuf) as [Hok Hon].
  set (b1 := linked_bus h e u ep b) in *. set (u1 := linked_urb u).
  assert (ub_urbs b1 !! h = Some u1) as Hu1 by apply put_lookup.
  assert (ub_eps b1 !! e = Some (set_ep_urb_list (ep_urb_list ep ++ [h]) ep)) as Hep1
    by apply lookup_insert_eq.
  pose proof (ho_enqueue _ Hhc h b1) as Hr. unfold truth.
  destruct (Z.eqb_spec (hc_urb_enqueue hc h b1) 0) as [Er|Er]; cbn [negb].
  - rewrite (with_urb_Some _ _ _ _ Hu1). cbn [mbind option_bind].
    eexists _, _. split; [done|]. split_and!; try done.
    + etrans; [done|]. by eapply only_put.
    + intros _. split_and!; try done; [by apply set_hcpriv_ok | apply put_lookup].
  - rewrite (unlink_spec _ _ _ _ _ Hu1 He Hep1 eq_refl). cbn [mbind option_bind].
    destruct (unlinked_ok _ _ _ _ _ _ _ Hok Hu1 He Hep1 eq_refl) as [Hok2 Hon2].
    eexists _, _. split; [done|]. split_and!; try done.
    + by etrans.
    + intros Hz. by rewrite Hz in Er.
    + intros _. split_and!.
      * revert Hok2. by rewrite bump_bump, bump_0.
      * cbn. rewrite insert_insert_eq. apply insert_id. rewrite Hep.
        f_equal. rewrite filter_app, filter_cons_False by naive_solver.
        rewrite app_nil_r, filter_not_in by (exact (not_queued _ _ _ _ _ _ _ Hb Hu Hl Hep)). by destruct ep.
      * exists 0. unfold unlinked_bus. etrans; [apply put_lookup|]. f_equal. unfold u1. destruct u. cbn in Hl. by subst.
Qed.

(** A submission that passed the checks. *)
Lemma hcd_submit_ok hc R S b h u e ep : hcd_ok hc -> bus_ok R S b -> ub_urbs b !! h = Some u ->
  io_ep (u_io u) = Some e -> ub_eps b !! e = Some ep ->
  u_linked u = false -> u_hcpriv u = false ->
  is_Some (io_complete (u_io u)) -> buffer_live (ub_bufs b) (u_io u) -> io_dev (u_io u) = true ->
  exists r b', usb_hcd_submit_urb hc h b = Some (r, b') /\ r <= 0 /\ bus_ok R S b' /\
    only h b b' /\ ub_handlers b' = ub_handlers b /\
    ((forall b, hc_map_urb hc h b = 0) -> (forall b, hc_urb_enqueue hc h b = 0) ->
     r = link_error u ep b) /\
    (r = 0 -> link_error u ep b = 0 /\ ub_urbs b' !! h = Some (taken_urb hc h u) /\
       ub_eps b' = <[e := set_ep_urb_list (ep_urb_list ep ++ [h]) ep]> (ub_eps b)) /\
    (r <> 0 -> ub_eps b' = ub_eps b /\ exists u', ub_urbs b' !! h = Some u' /\ still_idle u u').
Proof.
  intros Hhc Hb Hu He Hep Hl Hp Hc Hbuf Hd. pose proof (bo_urb _ _ _ Hb h u Hu) as Ho.
  unfold usb_hcd_submit_urb, usb_get_urb, kref_get.
  rewrite (with_urb_Some _ _ _ _ Hu). cbn [mbind option_bind].
  rewrite (with_urb_Some _ _ _ _ (put_lookup _ _ _)), put_urb_put. cbn [mbind option_bind].
  pose proof (acquire_ok _ _ _ _ _ Hb Hu Hc Hd ltac:(eauto)) as Hok.
  set (u1 := set_u_use_count _ _) in *. set (b1 := count_urb 1 _).
  apply (count_urb_ok _ _ 1) in Hok. fold b1 in Hok.
  assert (ub_urbs b1 !! h = Some u1) as Hu1 by apply put_lookup.
  assert (only h b b1) as Hon1 by (etrans; [by apply (only_put h u1 u)|apply only_count]).
  assert (forall z b2, bus_ok R (bump h 1 S) b2 -> only h b1 b2 ->
            ub_urbs b2 !! h = Some (set_u_unlinked z u1) -> ub_handlers b2 = ub_handlers b ->
            ub_eps b2 = ub_eps b ->
            exists b', submit_failed h b2 = Some b' /\ bus_ok R S b' /\ only h b b' /\
              ub_handlers b' = ub_handlers b /\ ub_eps b' = ub_eps b /\
              exists u', ub_urbs b' !! h = Some u' /\ still_idle u u') as Hfail.
  { intros z b2 Hok2 Hon2 Hu2 Hh2 He2. destruct Ho.
    destruct (submit_undo R S b2 h _ Hok2 Hu2) as (b' & E & Hok' & Hon' & Hh' & He' & Hu');
      [done|done| |].
    { cbn. lia. }
    exists b'. split_and!; [done|done| |congruence|congruence|].
    - by do 2 (etrans; [done|]).
    - eexists. split; [done|]. unfold still_idle. cbn. split_and!; try done; lia. }
  pose proof (ho_map _ Hhc h b1) as Hm. unfold truth.
  destruct (Z.eqb_spec (hc_map_urb hc h b1) 0) as [Em|Em]; cbn [negb].
  2:{ cbn [mbind option_bind]. rewrite (proj2 (Z.eqb_neq _ _) Em). cbn [negb].
      destruct (Hfail (u_unlinked u1) b1) as (b' & -> & ? & ? & ? & ? & ?); try done.
      cbn [mbind option_bind]. eexists _, _. split_and!; try done. by intros Hz; rewrite Hz in Em. }
  destruct (urb_enqueue_ok hc R (bump h 1 S) b1 h u1 e ep Hhc Hok Hu1 He Hep Hl)
    as (r & b2 & -> & Hr & Hon2 & Hh2 & Hx & H0 & Hn).
  { rewrite bump_eq. destruct Ho. lia. }
  { done. }
  cbn [mbind option_bind]. destruct (Z.eqb_spec r 0) as [->|Er]; cbn [negb].
  - destruct (H0 eq_refl) as (Hle & Hok2 & Hu2 & He2). eexists _, _.
    split; [done|]. split_and!; try done.
    + revert Hok2. by rewrite bump_bump, bump_0.
    + by etrans.
  - destruct (Hn Er) as (Hok2 & He2 & z & Hu2).
    destruct (Hfail z b2) as (b' & -> & ? & ? & ? & ? & ?); try done.
    cbn [mbind option_bind]. eexists _, _. by split_and!.
Qed.

(** What a submission needs: the URB is not in a queue, or the core can tell that
    it is; and its buffer is there. *)
Definition submittable (b : ubus) (u : urb) : Prop :=
  u_hcpriv u = true \/ u_linked u = false /\ buffer_live (ub_bufs b) (u_io u).

Lemma submit_ok hc R b h u : hcd_ok hc -> bus_ok R none b -> ub_urbs b !! h = Some u ->
  submittable b u ->
  exists r b', usb_submit_urb hc (Some h) b = Some (r, b') /\ r <= 0 /\ bus_ok R none b' /\
    only h b b' /\ ub_handlers b' = ub_handlers b /\
    exists u', ub_urbs b' !! h = Some u' /\ u_reject u' = u_reject u /\
      same_request (u_io u) (u_io u') /\
      (r <> 0 -> u_linked u' = u_linked u /\ u_use_count u' = u_use_count u /\
                 u_kref u' = u_kref u) /\
      (r = 0 -> u_reject u = 0 /\ u_linked u' = true).
Proof.
  intros Hhc Hb Hu Hs. pose proof (bo_urb _ _ _ Hb h u Hu) as Ho. cbn [usb_submit_urb].
  rewrite Hu. cbn [mbind option_bind].
  destruct (u_hcpriv u || bool_decide (io_complete (u_io u) = None)) eqn:E.
  { eexists _, _. split_and!; try done. exists u. by split_and!. }
  apply orb_false_iff in E as [Ep Ec]. destruct Hs as [|[Hl Hbuf]]; [congruence|].
  destruct (submit_checks_total _ _ _ (u_io u) Hb) as (r & io & -> & Hr & Hsr & Hv & Hs & H0);
    [apply Ho..|].
  cbn [mbind option_bind]. rewrite (with_urb_Some _ _ _ _ Hu). cbn [mbind option_bind].
  assert (bus_ok R none (put_urb h (set_u_io io u) b)) as Hok.
  { apply set_io_ok; auto; try apply Hsr; [congruence|by apply same_request_desc]. }
  assert (only h b (put_urb h (set_u_io io u) b)) as Hon by (eapply only_put; [done|apply Hsr]).
  unfold truth. destruct (Z.eqb_spec r 0) as [->|Er]; cbn [negb].
  2:{ eexists _, _. split_and!; try done. eexists. split; [apply put_lookup|]. by split_and!. }
  destruct (H0 eq_refl) as [Hd [e He]]. destruct (Hv e He) as [ep Hep].
  destruct (hcd_submit_ok hc R none _ h _ e ep Hhc Hok (put_lookup _ _ _) He Hep Hl Ep)
    as (r & b' & E & Hr' & Hok' & Hon' & Hh' & _ & Hz & Hn).
  { cbn. rewrite (sr_complete _ _ Hsr). bool_props. by apply not_eq_None_Some. }
  { cbn. unfold buffer_live. rewrite (sr_buffer _ _ Hsr), (sr_length _ _ Hsr). exact Hbuf. }
  { done. }
  exists r, b'. split_and!; try done; [by etrans|].
  destruct (decide (r = 0)) as [->|Hne].
  - destruct (Hz eq_refl) as (Hle & Hu' & _). eexists. split; [done|]. split_and!; try done.
    intros _. split; [|done]. revert Hle. unfold link_error, truth. cbn.
    by destruct (Z.eqb_spec (u_reject u) 0).
  - destruct (Hn Hne) as (_ & u' & Hu' & Hio & ? & ? & ? & Hl' & _). exists u'.
    split; [done|]. rewrite Hio, Hl'. cbn in *. split_and!; try done; congruence.
Qed.

(** What a submission does to the queues: it leaves them, or adds the URB to the
    queue of an endpoint that takes transfers. *)
Lemma submit_outcome hc R b h u r b' : hcd_ok hc -> bus_ok R none b -> ub_urbs b !! h = Some u ->
  submittable b u -> usb_submit_urb hc (Some h) b = Some (r, b') ->
  (exists u', ub_urbs b' !! h = Some u' /\ (is_Some (io_ep (u_io u)) -> is_Some (io_ep (u_io u')))) /\
  (r <> 0 /\ ub_eps b' = ub_eps b /\ (b' = b \/ u_linked u = false) \/
   r = 0 /\ u_linked u = false /\ exists e ep, ub_eps b !! e = Some ep /\ ep_enabled ep = true /\
     ub_eps b' = <[e := set_ep_urb_list (ep_urb_list ep ++ [h]) ep]> (ub_eps b)).
Proof.
  intros Hhc Hb Hu Hs. pose proof (bo_urb _ _ _ Hb h u Hu) as Ho. cbn [usb_submit_urb].
  rewrite Hu. cbn [mbind option_bind].
  destruct (u_hcpriv u || bool_decide (io_complete (u_io u) = None)) eqn:E.
  { intros [= <- <-]. split; [by exists u|]. left. split; [done|]. split; [done|by left]. }
  apply orb_false_iff in E as [Ep Ec]. destruct Hs as [|[Hl Hbuf]]; [congruence|].
  destruct (submit_checks_total _ _ _ (u_io u) Hb) as (q & io & -> & Hr & Hsr & Hv & Hs & H0);
    [apply Ho..|].
  cbn [mbind option_bind]. rewrite (with_urb_Some _ _ _ _ Hu). cbn [mbind option_bind].
  unfold truth. destruct (Z.eqb_spec q 0) as [->|Er]; cbn [negb].
  2:{ intros [= <- <-]. split; [|left; by split_and!; [| |right]].
      exists (set_u_io io u). by split; [apply put_lookup|]. }
  destruct (H0 eq_refl) as [Hd [e He]]. destruct (Hv e He) as [ep Hep].
  assert (bus_ok R none (put_urb h (set_u_io io u) b)) as Hok.
  { apply set_io_ok; auto; try apply Hsr; [congruence|by apply same_request_desc]. }
  destruct (hcd_submit_ok hc R none _ h _ e ep Hhc Hok (put_lookup _ _ _) He Hep Hl Ep)
    as (q & b2 & -> & _ & _ & _ & _ & _ & Hz & Hn); [| |done|].
  { cbn. rewrite (sr_complete _ _ Hsr). bool_props. by apply not_eq_None_Some. }
  { cbn. unfold buffer_live. rewrite (sr_buffer _ _ Hsr), (sr_length _ _ Hsr). exact Hbuf. }
  intros [= <- <-]. destruct (decide (q = 0)) as [->|Hne].
  - destruct (Hz eq_refl) as (Hle & Hu' & Heps). split; [eexists; split; [exact Hu'|by eauto]|].
    right. split_and!; [done|done|]. exists e, ep. split_and!; [done| |done].
    revert Hle. unfold link_error. case_if; [done|]. by destruct (ep_enabled ep).
  - destruct (Hn Hne) as (Heps & u' & Hu' & Hio & _). split.
    + exists u'. split; [done|]. rewrite Hio. auto.
    + left. split_and!; [done|done|by right].
Qed.

Lemma refused_stays hc R b h u r b' u' : hcd_ok hc -> bus_ok R none b -> ub_urbs b !! h = Some u ->
  u_linked u = false -> buffer_live (ub_bufs b) (u_io u) ->
  usb_submit_urb hc (Some h) b = Some (r, b') -> ub_urbs b' !! h = Some u' -> r <> 0 ->
  ub_eps b' = ub_eps b /\ u_linked u' = false /\ u_use_count u' = u_use_count u /\
  u_kref u' = u_kref u.
Proof.
  intros Hhc Hb Hu Hl Hbuf E Hu' Hr. assert (submittable b u) as Hs by (by right).
  destruct (submit_ok hc R b h u Hhc Hb Hu Hs) as (r2 & b2 & E2 & _ & _ & _ & _ & v & Hv & _ & _ & Hn & _).
  rewrite E in E2. injection E2 as <- <-. assert (v = u') as -> by congruence.
  destruct (Hn Hr) as (Hl' & ? & ?).
  destruct (submit_outcome hc R b h u r b' Hhc Hb Hu Hs E) as [_ [(_ & Heps & _)|(? & _)]]; [|done].
  split_and!; [done|congruence|done|done].
Qed.

(** * Completion *)

Lemma occurrences_cons_eq h l : occurrences h (h :: l) = occurrences h l + 1.
Proof. unfold occurrences. rewrite filter_cons_True by done. rewrite zlen_cons. lia. Qed.

Lemma occurrences_cons_ne h x l : x <> h -> occurrences x (h :: l) = occurrences x l.
Proof. intros. unfold occurrences. by rewrite filter_cons_False. Qed.

Lemma occurrences_nonneg h l : 0 <= occurrences h l.
Proof. apply zlen_nonneg. Qed.

Lemma occurrences_pos h l : h ∈ l <-> 0 < occurrences h l.
Proof.
  induction l as [|x l IH]; [by split; [intros ?%elem_of_nil|]|].
  pose proof (occurrences_nonneg h l). rewrite elem_of_cons. destruct (decide (x = h)) as [->|Hx].
  - rewrite occurrences_cons_eq. split; [lia|by left].
  - rewrite occurrences_cons_ne by done. rewrite <- IH. naive_solver.
Qed.

Lemma remove_one_eq h l : h ∈ l -> occurrences h (remove_one h l) = occurrences h l - 1.
Proof.
  induction l as [|x l IH]; [by intros ?%elem_of_nil|]. intros Hin. cbn [remove_one].
  case_decide as Hx; [subst; rewrite occurrences_cons_eq; lia|].
  apply elem_of_cons in Hin as [->|Hin]; [done|].
  rewrite !occurrences_cons_ne by done. auto.
Qed.

Lemma remove_one_ne h l : filter (.≠ h) (remove_one h l) = filter (.≠ h) l.
Proof.
  induction l as [|x l IH]; [done|]. cbn [remove_one]. case_decide as Hx.
  - subst. by rewrite filter_cons_False by naive_solver.
  - by rewrite !filter_cons_True, IH by done.
Qed.

Lemma occurrences_filter x h l : x <> h -> occurrences x (filter (.≠ h) l) = occurrences x l.
Proof.
  intros Hx. unfold occurrences. rewrite list_filter_filter. f_equal.
  apply list_filter_iff. naive_solver.
Qed.

(** A use moves into a handler or out of it. *)
Lemma bus_ok_handlers R S S' b h u hs : bus_ok R S b -> ub_urbs b !! h = Some u ->
  (forall x, x <> h -> S' x = S x) -> filter (.≠ h) hs = filter (.≠ h) (ub_handlers b) ->
  occurrences h hs + S' h = occurrences h (ub_handlers b) + S h -> 0 <= S' h ->
  (u_hcpriv u = true -> u_linked u = true \/ 0 < S' h) ->
  bus_ok R S' (set_ub_handlers hs b).
Proof.
  intros [] Hu HS Hf Hsum Hpos Hp.
  assert (forall x, x <> h -> occurrences x hs = occurrences x (ub_handlers b)) as Hocc.
  { intros x Hx. by rewrite <- (occurrences_filter x h hs), Hf, occurrences_filter. }
  split; cbn; try done.
  - intros x v Hv. destruct (decide (x = h)) as [->|Hne].
    + assert (v = u) as -> by congruence. destruct (bo_urb0 h u Hu). split; try done; lia.
    + eapply urb_ok_frame; eauto.
  - intros x Hv. rewrite HS by congruence. auto.
  - intros x Hin. destruct (decide (x = h)) as [->|Hne]; [by eauto|].
    apply bo_handlers0. apply occurrences_pos. rewrite <- Hocc by done. by apply occurrences_pos.
Qed.

Lemma only_handlers h hs b : filter (.≠ h) hs = filter (.≠ h) (ub_handlers b) ->
  only h b (set_ub_handlers hs b).
Proof.
  intros Hf. split; cbn; try done.
  - eauto.
  - intros e. unfold same_ep. by destruct (ub_eps b !! e) as [[]|].
  - by destruct (ub_dev b).
Qed.

Lemma packet_results_layout desc rs :
  (fun p => (ip_offset p, ip_length p)) <$> packet_results desc rs =
  (fun p => (ip_offset p, ip_length p)) <$> desc.
Proof.
  unfold packet_results. apply list_eq. intros i. rewrite !list_lookup_fmap, list_lookup_imap.
  destruct (desc !! i); [|done]. cbn. by destruct (rs !! i) as [[]|].
Qed.

(** From the queue into the completion handler: the transfer has moved its data
    and the URB is in no queue. *)
Lemma complete_begin_ok R b h u x : bus_ok R none b -> ub_urbs b !! h = Some u ->
  u_linked u = true ->
  exists b' u', (b1 ← hcd_transfer h x b; giveback_begin h (x_status x) b1) = Some b' /\
    bus_ok R none b' /\ only h b b' /\ ub_handlers b' = h :: ub_handlers b /\
    ub_urbs b' !! h = Some u' /\ u_linked u' = false /\ u_hcpriv u' = false /\
    u_reject u' = u_reject u /\ u_use_count u' = u_use_count u /\ u_kref u' = u_kref u /\
    same_request (u_io u) (u_io u') /\ io_ep (u_io u') = io_ep (u_io u) /\
    io_status (u_io u') = giveback_status (x_status x)
      (set_u_io (set_io_result 0 (x_actual_length x) (u_io u)) u) /\
    (exists e ep, io_ep (u_io u) = Some e /\ ub_eps b !! e = Some ep /\
     ub_eps b' = <[e := set_ep_urb_list (filter (.≠ h) (ep_urb_list ep)) ep]> (ub_eps b)) /\
    io_frame_desc (u_io u') = packet_results (io_frame_desc (u_io u)) (x_packets x).
Proof.
  intros Hb Hu Hl. pose proof (bo_urb _ _ _ Hb h u Hu) as Ho. unfold hcd_transfer.
  rewrite Hu. cbn [mbind option_bind].
  destruct (uo_linked _ _ _ _ _ _ _ Ho Hl) as (e & ep & He & Hep & _).
  assert ((io_transfer_buffer_length (u_io u) =? 0)
     || bool_decide (is_Some (y ← io_transfer_buffer (u_io u);
                              guard (y ∈ ub_bufs b);; Some y)) = true) as ->.
  { apply orb_true_iff. destruct (uo_buffer _ _ _ _ _ _ _ Ho Hl) as [->|(y & -> & Hy)]; [by left|].
    right. apply bool_decide_eq_true. cbn. rewrite option_guard_True by done. by eexists. }
  rewrite (with_urb_Some _ _ _ _ Hu). cbn [mbind option_bind]. set (io1 := set_io_desc _ _).
  assert (same_request (u_io u) io1) as Hsr1 by (split; try done; apply packet_results_layout).
  assert (bus_ok R none (put_urb h (set_u_io io1 u) b)) as H1.
  { apply set_io_ok; auto; try apply Hsr1; [apply Ho|by apply same_request_desc]. }
  set (b1 := put_urb _ _ _) in *. set (u1 := set_u_io io1 u).
  rewrite (unlink_spec h b1 u1 e ep (put_lookup _ _ _) He Hep Hl). cbn [mbind option_bind].
  destruct (unlinked_ok _ _ _ h u1 e ep H1 (put_lookup _ _ _) He Hep Hl) as [H2 Hon2].
  set (b2 := unlinked_bus h e u1 ep b1) in *. set (u2 := set_u_linked false u1).
  assert (ub_urbs b2 !! h = Some u2) as Hu2 by apply put_lookup.
  unfold giveback_begin. rewrite (with_urb_Some _ _ _ _ Hu2). cbn [mbind option_bind].
  set (st := giveback_status _ _). set (u3 := set_u_io _ _).
  assert (bus_ok R (bump h 1 none) (put_urb h u3 b2)) as H3.
  { assert (put_urb h u3 b2 = put_urb h u3 (put_urb h (set_u_hcpriv false u2) b2)) as ->
      by (by rewrite put_urb_put).
    eapply set_io_ok; [by eapply set_hcpriv_ok|apply put_lookup|..]; try done.
    intros e' E'. apply (uo_ep _ _ _ _ _ _ _ (bo_urb _ _ _ H2 h u2 Hu2) e' E'). }
  eexists _, u3. split; [done|]. split_and!; try done.
  - eapply bus_ok_handlers; [exact H3|apply put_lookup|..]; try done.
    + intros y Hy. by rewrite bump_ne.
    + by rewrite filter_cons_False by naive_solver.
    + rewrite occurrences_cons_eq, bump_eq. unfold none. cbn. lia.
  - etrans; [eapply (only_put h (set_u_io io1 u)); [done|apply Hsr1]|]. etrans; [exact Hon2|].
    etrans; [by eapply (only_put h u3)|]. apply only_handlers.
    by rewrite filter_cons_False by naive_solver.
  - cbn. by rewrite lookup_insert_eq.
  - etrans; [exact Hsr1|]. by split.
  - exists e, ep. by split_and!.
Qed.

(** The end of a completion handler: the use is over, and the URB goes if this was
    the last reference. *)
Lemma giveback_end_ok R b h u : bus_ok R none b -> ub_urbs b !! h = Some u ->
  h ∈ ub_handlers b ->
  exists b', giveback_end h b = Some b' /\ bus_ok R none b' /\ only h b b' /\
    ub_handlers b' = remove_one h (ub_handlers b) /\ ub_eps b' = ub_eps b /\
    (0 < R h \/ 1 < u_use_count u -> ub_urbs b' !! h =
       Some (set_u_kref (u_kref u - 1) (set_u_use_count (u_use_count u - 1) u))) /\
    (R h = 0 -> u_use_count u = 1 -> ub_urbs b' !! h = None).
Proof.
  intros Hb Hu Hin. pose proof (bo_urb _ _ _ Hb h u Hu) as Ho. unfold giveback_end.
  rewrite decide_True by done. set (b1 := set_ub_handlers _ b).
  assert (u_hcpriv u = true -> u_linked u = true) as Hp.
  { intros E. destruct (uo_hcpriv _ _ _ _ _ _ _ Ho E) as [|Hz]; [done|]. unfold none in Hz. lia. }
  assert (bus_ok R (bump h 1 none) b1) as H1.
  { eapply bus_ok_handlers; eauto.
    - intros x Hx. by rewrite bump_ne.
    - apply remove_one_ne.
    - rewrite remove_one_eq, bump_eq by done. lia.
    - rewrite bump_eq. unfold none. lia. }
  assert (ub_urbs b1 !! h = Some u) as Hu1 by done.
  rewrite (with_urb_Some _ _ _ _ Hu1). cbn [mbind option_bind usb_free_urb].
  pose proof (unuse_ok _ _ _ _ _ H1 Hu1 ltac:(rewrite bump_eq; unfold none; lia) Hp) as H2.
  rewrite bump_bump, bump_0 in H2. set (u2 := set_u_use_count _ _) in *.
  set (b2 := put_urb h u2 b1) in *. destruct Ho. pose proof (occurrences_nonneg h (ub_handlers b)).
  destruct (kref_put_ok _ _ _ h u2 H2 (put_lookup _ _ _)) as (b' & E & Hok & Hon & Hhs & Heps & Hgt & H1').
  { rewrite bump_eq. lia. }
  rewrite bump_bump, bump_0 in Hok. cbn in Hgt, H1'.
  assert (0 < u_use_count u) by (apply occurrences_pos in Hin; unfold of_bool, none in *;
    destruct (u_linked u); lia).
  exists b'. split_and!; try done.
  - etrans; [|done]. etrans; [apply (only_handlers h); apply remove_one_ne|].
    by eapply only_put.
  - intros Hr. rewrite Hgt by lia. apply put_lookup.
  - intros HR Huse. rewrite H1' by lia. cbn. by rewrite lookup_delete_eq.
Qed.

(** A handler that never submits its URB again. *)
Definition declines (io : urb_io) : Prop := forall f st, io_complete io = Some f -> f st = false.

(** The handler itself: it leaves the URB alone or submits it again. *)
Lemma run_handler_ok hc R b h u : hcd_ok hc -> bus_ok R none b -> ub_urbs b !! h = Some u ->
  is_Some (io_complete (u_io u)) -> submittable b u ->
  exists b', run_handler hc h b = Some b' /\ bus_ok R none b' /\ only h b b' /\
    ub_handlers b' = ub_handlers b /\
    exists u', ub_urbs b' !! h = Some u' /\ u_reject u' = u_reject u /\
      same_request (u_io u) (u_io u') /\
      (0 < u_reject u \/ declines (u_io u) ->
       u_linked u' = u_linked u /\ u_use_count u' = u_use_count u).
Proof.
  intros Hhc Hb Hu [f Hf] Hs. unfold run_handler. rewrite Hu. cbn [mbind option_bind].
  rewrite Hf. cbn [mbind option_bind]. destruct (f (io_status (u_io u))) eqn:Ef.
  - destruct (submit_ok hc R b h u Hhc Hb Hu Hs)
      as (r & b' & -> & _ & Hok & Hon & Hhs & u' & Hu' & Hrej & Hsr & Hn & Hz).
    exists b'. split_and!; try done. exists u'. split_and!; try done. intros [Hpos|Hd];
      [|by rewrite (Hd f (io_status (u_io u)) Hf) in Ef].
    destruct (decide (r = 0)) as [->|Hne]; [destruct (Hz eq_refl); lia|]. by destruct (Hn Hne) as (? & ? & _).
  - exists b. split_and!; try done. exists u. by split_and!.
Qed.

(** One transfer from the queue to the end of the completion handler. *)
Lemma hcd_complete_ok hc R b h u x : hcd_ok hc -> bus_ok R none b -> ub_urbs b !! h = Some u ->
  u_linked u = true ->
  exists b', hcd_complete hc h x b = Some b' /\ bus_ok R none b' /\ only h b b' /\
    ub_handlers b' = ub_handlers b /\
    (0 < R h -> exists u', ub_urbs b' !! h = Some u' /\ u_reject u' = u_reject u /\
       same_request (u_io u) (u_io u') /\
       (0 < u_reject u \/ declines (u_io u) ->
        u_linked u' = false /\ u_use_count u' = u_use_count u - 1)).
Proof.
  intros Hhc Hb Hu Hl. pose proof (bo_urb _ _ _ Hb h u Hu) as Ho.
  destruct (complete_begin_ok R b h u x Hb Hu Hl)
    as (b1 & u1 & E1 & Hok1 & Hon1 & Hh1 & Hu1 & Hl1 & Hp1 & Hrej1 & Huse1 & _ & Hsr1 & _).
  pose proof (bo_urb _ _ _ Hok1 h u1 Hu1) as Ho1.
  assert (is_Some (io_complete (u_io u1))) as Hc1.
  { apply (uo_complete _ _ _ _ _ _ _ Ho1). destruct Ho.
    pose proof (occurrences_nonneg h (ub_handlers b)). unfold of_bool, none in *. rewrite Hl in *. lia. }
  assert (submittable b1 u1) as Hs1.
  { right. split; [done|]. unfold buffer_live.
    rewrite (sr_buffer _ _ Hsr1), (sr_length _ _ Hsr1), (only_bufs _ _ _ Hon1) by eauto.
    by apply Ho. }
  destruct (run_handler_ok hc R b1 h u1 Hhc Hok1 Hu1 Hc1 Hs1)
    as (b2 & E2 & Hok2 & Hon2 & Hh2 & u2 & Hu2 & Hrej2 & Hsr2 & Hq2).
  destruct (giveback_end_ok R b2 h u2 Hok2 Hu2) as (b3 & E3 & Hok3 & Hon3 & Hh3 & _ & Hk3 & _).
  { rewrite Hh2, Hh1. by left. }
  exists b3. split_and!.
  - unfold hcd_complete, usb_hcd_giveback_urb. destruct (hcd_transfer h x b) as [b0|]; [|done].
    cbn [mbind option_bind] in E1 |- *. rewrite E1. cbn [mbind option_bind]. rewrite E2. exact E3.
  - done.
  - etrans; [exact Hon1|]. by etrans.
  - rewrite Hh3, Hh2, Hh1. cbn. by rewrite decide_True.
  - intros HR. eexists. split; [apply Hk3; by left|]. cbn. split_and!; [congruence|by etrans|].
    intros Hpos. destruct Hq2 as [-> ->].
    + destruct Hpos as [?|Hd]; [left; lia|right]. intros f st. rewrite (sr_complete _ _ Hsr1). apply Hd.
    + by rewrite Huse1.
Qed.

(** * Killing *)

Lemma put_id h u b : ub_urbs b !! h = Some u -> put_urb h u b = b.
Proof. intros Hu. unfold put_urb. rewrite insert_id by done. by destruct b. Qed.

(** Unlinking marks the URB, if it is in a queue and not marked yet. *)
Lemma hcd_unlink_spec R b h u e status : bus_ok R none b -> ub_urbs b !! h = Some u ->
  io_ep (u_io u) = Some e ->
  usb_hcd_unlink_urb h status b =
    Some (if u_linked u then if truth (u_unlinked u) then - EBUSY else - EINPROGRESS else - EIDRM,
          if u_linked u && negb (truth (u_unlinked u))
          then put_urb h (set_u_unlinked status u) b else b).
Proof.
  intros Hb Hu He. pose proof (bo_urb _ _ _ Hb h u Hu) as Ho.
  destruct (uo_ep _ _ _ _ _ _ _ Ho e He) as [ep Hep].
  unfold usb_hcd_unlink_urb, usb_hcd_check_unlink_urb. rewrite Hu. cbn [mbind option_bind].
  rewrite He. cbn [mbind option_bind]. rewrite Hep, (with_urb_Some _ _ _ _ Hu).
  cbn [mbind option_bind]. destruct (u_linked u) eqn:Hl; cbn [andb].
  - destruct (uo_linked _ _ _ _ _ _ _ Ho Hl) as (e' & ep' & ? & ? & Hin).
    assert ((u_use_count u >? 0) = true) as ->.
    { destruct Ho. pose proof (occurrences_nonneg h (ub_handlers b)).
      rewrite Hl in *. unfold of_bool, none in *. lia. }
    rewrite bool_decide_eq_false_2 by (simplify_eq; by intros ?).
    by destruct (truth (u_unlinked u)).
  - rewrite bool_decide_eq_true_2 by (exact (not_queued _ _ _ _ _ _ _ Hb Hu Hl Hep)).
    by destruct (u_use_count u >? 0).
Qed.

Lemma block_ok R b h u n : bus_ok R none b -> ub_urbs b !! h = Some u -> 0 <= u_reject u + n ->
  exists b', with_urb h (fun u => set_u_reject (u_reject u + n) u) b = Some b' /\
    bus_ok R none b' /\ only h b b' /\ b' = put_urb h (set_u_reject (u_reject u + n) u) b.
Proof.
  intros Hb Hu Hn. rewrite (with_urb_Some _ _ _ _ Hu). eexists. split_and!; try done.
  - by apply set_reject_ok.
  - by eapply only_put.
Qed.

Lemma kill_begin_ok R b h u : bus_ok R none b -> ub_urbs b !! h = Some u ->
  is_Some (io_ep (u_io u)) ->
  exists z, kill_begin h b =
      Some (put_urb h (set_u_unlinked z (set_u_reject (u_reject u + 1) u)) b) /\
    bus_ok R none (put_urb h (set_u_unlinked z (set_u_reject (u_reject u + 1) u)) b).
Proof.
  intros Hb Hu [e He]. pose proof (bo_urb _ _ _ Hb h u Hu) as Ho. unfold kill_begin.
  cbn [usb_block_urb].
  destruct (block_ok R b h u 1 Hb Hu) as (b1 & -> & Hok & Hon & ->); [destruct Ho; lia|].
  cbn [mbind option_bind]. set (u1 := set_u_reject _ _) in *.
  rewrite (hcd_unlink_spec R _ h u1 e _ Hok (put_lookup _ _ _) He).
  cbn [fmap option_fmap option_map snd]. rewrite put_urb_put.
  destruct (_ && _).
  - exists (- ENOENT). split; [done|]. rewrite <- (put_urb_put h u1). by apply set_unlinked_ok, put_lookup.
  - exists (u_unlinked u1). by replace (set_u_unlinked (u_unlinked u1) u1) with u1 by (by destruct u1).
Qed.

(** While submissions are refused, every round of the wait ends one use of the
    URB, whatever its completion handler does: the wait ends. *)
Lemma kill_wait_ok hc R x h : hcd_ok hc -> 0 < R h -> forall fuel b u,
  bus_ok R none b -> ub_urbs b !! h = Some u -> 0 < u_reject u ->
  u_use_count u <= Z.of_nat fuel ->
  exists b' u', kill_wait fuel hc x h b = Some b' /\ bus_ok R none b' /\ only h b b' /\
    ub_urbs b' !! h = Some u' /\ u_use_count u' = 0 /\ u_reject u' = u_reject u /\
    same_request (u_io u) (u_io u').
Proof.
  intros Hhc HR. induction fuel as [|fuel IH]; intros b u Hb Hu Hrej Huse;
    cbn [kill_wait]; rewrite Hu; cbn [mbind option_bind];
    (destruct (Z.eqb_spec (u_use_count u) 0) as [E0|E0];
      [by exists b, u; split_and!|]); pose proof (bo_urb _ _ _ Hb h u Hu) as Ho;
    pose proof (occurrences_nonneg h (ub_handlers b)).
  { destruct Ho. unfold none, of_bool in *. destruct (u_linked u); lia. }
  assert (exists b1 u1, (if decide (h ∈ ub_handlers b) then giveback_end h b
                         else hcd_complete hc h x b) = Some b1 /\
            bus_ok R none b1 /\ only h b b1 /\ ub_urbs b1 !! h = Some u1 /\
            u_use_count u1 = u_use_count u - 1 /\ u_reject u1 = u_reject u /\
            same_request (u_io u) (u_io u1)) as (b1 & u1 & -> & Hok1 & Hon1 & Hu1 & Hus1 & Hr1 & Hs1).
  { case_decide as Hin.
    - destruct (giveback_end_ok R b h u Hb Hu Hin) as (b1 & E & Hok & Hon & _ & _ & Hk & _).
      eexists b1, _. split_and!; [done|done|done|apply Hk; by left|done..].
    - destruct (hcd_complete_ok hc R b h u x Hhc Hb Hu) as (b1 & E & Hok & Hon & _ & Hk).
      { destruct (u_linked u) eqn:El; [done|]. exfalso. apply Hin, occurrences_pos.
        destruct Ho. rewrite El in *. unfold none, of_bool in *. lia. }
      destruct (Hk HR) as (u1 & ? & ? & ? & Hq). destruct (Hq (or_introl Hrej)). by exists b1, u1; split_and!. }
  cbn [mbind option_bind].
  destruct (IH b1 u1 Hok1 Hu1) as (b' & u' & E & Hok & Hon & Hu' & Huse' & Hrej' & Hs'); [lia..|].
  exists b', u'. split_and!; try done; [by etrans|congruence|by etrans].
Qed.

(** [usb_kill_urb] returns, and the URB is idle. *)
Lemma kill_ok hc R x b h u : hcd_ok hc -> bus_ok R none b -> 0 < R h -> ub_urbs b !! h = Some u ->
  exists b' u', usb_kill_urb hc x (Some h) b = Some b' /\ bus_ok R none b' /\ only h b b' /\
    ub_urbs b' !! h = Some u' /\ u_use_count u' = 0 /\ u_reject u' = u_reject u /\
    same_request (u_io u) (u_io u').
Proof.
  intros Hhc Hb HR Hu. pose proof (bo_urb _ _ _ Hb h u Hu) as Ho.
  pose proof (occurrences_nonneg h (ub_handlers b)).
  assert (0 <= u_use_count u) by (destruct Ho; unfold none, of_bool in *; destruct (u_linked u); lia).
  cbn [usb_kill_urb]. rewrite Hu. cbn [mbind option_bind].
  destruct (io_dev (u_io u) && bool_decide (is_Some (io_ep (u_io u)))) eqn:E.
  - bool_props. destruct (kill_begin_ok R b h u Hb Hu) as (z & -> & Hok1); [done|].
    cbn [mbind option_bind]. set (u1 := set_u_unlinked _ _) in *. set (b1 := put_urb h u1 b) in *.
    destruct (kill_wait_ok hc R x h Hhc HR (Z.to_nat (u_use_count u)) b1 u1 Hok1 (put_lookup _ _ _))
      as (b2 & u2 & -> & Hok2 & Hon2 & Hu2 & Huse2 & Hrej2 & Hs2); [cbn; destruct Ho; lia..|].
    cbn [mbind option_bind usb_unpoison_urb]. destruct Ho. cbn in Hrej2.
    destruct (block_ok R b2 h u2 (-1) Hok2 Hu2) as (b3 & E3 & Hok3 & Hon3 & ->); [lia|].
    eexists _, _. split_and!; [exact E3|done| |apply put_lookup|done|cbn; lia|done].
    etrans; [by eapply (only_put h u1)|]. by etrans.
  - exists b, u. split_and!; try done. destruct (decide (u_use_count u = 0)); [done|].
    destruct (uo_dev _ _ _ _ _ _ _ Ho) as [Hd He]; [lia|]. rewrite Hd, bool_decide_eq_true_2 in E; done.
Qed.

(** * Drivers *)

Lemma alloc_urb_ok R b h desc : bus_ok R none b -> ub_urbs b !! h = None ->
  bus_ok (bump h 1 R) none (put_urb h (usb_init_urb desc) b).
Proof.
  intros Hb Hn. destruct Hb.
  assert (h ∉ ub_handlers b) as Hh.
  { intros Hin. apply bo_handlers0 in Hin as [? ?]. congruence. }
  split; cbn; try done.
  - intros x v Hv. apply lookup_insert_Some in Hv as [[<- <-]|[Hne Hv]].
    + destruct (bo_gone0 h Hn) as [HR _].
      assert (occurrences h (ub_handlers b) = 0).
      { pose proof (occurrences_nonneg h (ub_handlers b)).
        destruct (decide (0 < occurrences h (ub_handlers b))); [|lia]. by rewrite <- occurrences_pos in *. }
      split; cbn; rewrite ?bump_eq, ?HR; unfold none; done || lia.
    + eapply urb_ok_frame; eauto. by rewrite bump_ne.
  - intros x [Hx Hne]%lookup_insert_None. rewrite bump_ne by done. auto.
  - intros e ep E. destruct (bo_queue0 e ep E) as [? Hq]. split; [done|]. intros x Hin.
    destruct (Hq x Hin) as (v & Ev & ? & ?). exists v. rewrite lookup_insert_ne; [done|]. congruence.
  - intros x Hin. rewrite lookup_insert_ne by (intros ->; done). auto.
  - intros h1 h2 u1 u2 y Hne [[<- <-]|[? E1]]%lookup_insert_Some [[<- <-]|[? E2]]%lookup_insert_Some;
      try done. eauto.
Qed.

(** The members a driver may write, while the URB is idle. *)
Record may_fill (b : ubus) (h : nat) (u : urb) (io : urb_io) : Prop := mk_may_fill {
  mf_idle : u_use_count u = 0;
  mf_ep : io_ep io = io_ep (u_io u);
  mf_packets : (Z.to_nat (io_number_of_packets io) <= length (io_frame_desc io))%nat;
  mf_taken h' u' y : h' <> h -> ub_urbs b !! h' = Some u' ->
    owned_buffer (u_io u') = Some y -> io_transfer_buffer io <> Some y;
  mf_own h' u' y : h' <> h -> ub_urbs b !! h' = Some u' ->
    owned_buffer io = Some y -> io_transfer_buffer (u_io u') <> Some y
}.

Lemma fill_ok R b h u io : bus_ok R none b -> ub_urbs b !! h = Some u -> may_fill b h u io ->
  bus_ok R none (put_urb h (set_u_io io u) b).
Proof.
  intros Hb Hu [Hid He Hn Ht Hw]. pose proof (bo_urb _ _ _ Hb h u Hu) as Ho.
  assert (u_linked u = false) as Hl.
  { destruct Ho. pose proof (occurrences_nonneg h (ub_handlers b)).
    unfold none, of_bool in *. by destruct (u_linked u); [lia|]. }
  destruct Hb. split; cbn; try done.
  - intros x v [[<- <-]|[Hne Hv]]%lookup_insert_Some; [|by eauto].
    destruct Ho; split; cbn; rewrite ?Hl in *; try done; [by rewrite He | lia | lia].
  - intros x [Hx Hne]%lookup_insert_None. auto.
  - intros e ep E. destruct (bo_queue0 e ep E) as [? Hq]. split; [done|]. intros x Hin.
    destruct (Hq x Hin) as (v & Ev & ? & ?). exists v. rewrite lookup_insert_ne; [done|]. congruence.
  - intros x Hin. destruct (decide (x = h)) as [->|]; [by rewrite lookup_insert_eq|].
    rewrite lookup_insert_ne by done. auto.
  - intros h1 h2 u1 u2 y Hne [[<- <-]|[? E1]]%lookup_insert_Some [[<- <-]|[? E2]]%lookup_insert_Some;
      try done; cbn; eauto.
Qed.

Lemma buffer_free_ok R b y : bus_ok R none b ->
  (forall h u, ub_urbs b !! h = Some u -> u_linked u = true ->
     io_transfer_buffer_length (u_io u) = 0 \/ io_transfer_buffer (u_io u) <> Some y) ->
  bus_ok R none (set_ub_bufs (ub_bufs b ∖ {[y]}) b).
Proof.
  intros [] Hy. split; cbn; try done. intros h u Hu. destruct (bo_urb0 h u Hu). split; try done.
  intros Hl. destruct (uo_buffer0 Hl) as [|(z & Ez & Hz)]; [by left|].
  destruct (Hy h u Hu Hl) as [|Hne]; [by left|]. right. exists z.
  split; [done|]. apply elem_of_difference. split; [done|]. by intros ->%elem_of_singleton.
Qed.

Lemma buffer_alloc_ok R b X : bus_ok R none b -> bus_ok R none (set_ub_bufs (X ∪ ub_bufs b) b).
Proof.
  intros []. split; cbn; try done. intros h u Hu. eapply urb_ok_frame; eauto. set_solver.
Qed.

(** * Drivers, handlers and the controller, interleaved

    What can happen on the bus, one step at a time. A call that waits is two steps,
    and so is a transfer: the controller hands the URB to its handler, and later
    the handler returns. *)
Inductive uevent :=
| U_alloc (block : option (nat * list usb_iso_packet_descriptor))
| U_fill (h : nat) (io : urb_io)
| U_get (h : nat)
| U_free (h : nat)
| U_submit (h : nat)
| U_unlink (h : nat)
| U_begin (h : nat) (x : transfer)
| U_end (h : nat)
| U_kill (h : nat)
| U_killed (h : nat)
| U_buffer_alloc (y : nat)
| U_buffer_free (y : nat).

Definition ustate : Type := (nat -> Z) * ubus.

Definition do_event (hc : hcd_driver) (ev : uevent) (s : ustate) : option ustate :=
  let '(R, b) := s in
  match ev with
  | U_alloc block =>
      let '(r, b') := usb_alloc_urb block b in
      Some (match r with Some h => bump h 1 R | None => R end, b')
  | U_fill h io => b' ← with_urb h (set_u_io io) b; Some (R, b')
  | U_get h => b' ← usb_get_urb (Some h) b; Some (bump h 1 R, b')
  | U_free h => b' ← usb_free_urb (Some h) b; Some (bump h (-1) R, b')
  | U_submit h => '(_, b') ← usb_submit_urb hc (Some h) b; Some (R, b')
  | U_unlink h => '(_, b') ← usb_unlink_urb (Some h) b; Some (R, b')
  | U_begin h x => b' ← hcd_transfer h x b; b' ← giveback_begin h (x_status x) b'; Some (R, b')
  | U_end h => b' ← giveback_end h b; Some (R, b')
  | U_kill h => b' ← kill_begin h b; Some (R, b')
  | U_killed h => b' ← usb_unpoison_urb (Some h) b; Some (R, b')
  | U_buffer_alloc y => Some (R, set_ub_bufs ({[y]} ∪ ub_bufs b) b)
  | U_buffer_free y => Some (R, set_ub_bufs (ub_bufs b ∖ {[y]}) b)
  end.

(** When each can happen. Drivers work on URBs they have a reference of, or that
    their handler was called with; they do not submit an URB that is in a queue
    unless the controller marks those, and do not free the buffer of an URB that is
    in a queue. [usb_kill_urb] returns when no use is left. *)
Definition allowed (s : ustate) (ev : uevent) : Prop :=
  let R := s.1 in let b := s.2 in
  match ev with
  | U_alloc block => forall h desc, block = Some (h, desc) -> ub_urbs b !! h = None
  | U_buffer_alloc _ => True
  | U_fill h io => 0 < R h /\ exists u, ub_urbs b !! h = Some u /\ may_fill b h u io
  | U_get h | U_unlink h => 0 < R h \/ h ∈ ub_handlers b
  | U_free h => 0 < R h
  | U_submit h => (0 < R h \/ h ∈ ub_handlers b) /\
      exists u, ub_urbs b !! h = Some u /\ submittable b u
  | U_begin h x => exists e ep, ub_eps b !! e = Some ep /\ h ∈ ep_urb_list ep
  | U_end h => h ∈ ub_handlers b
  | U_kill h => 0 < R h /\ exists u, ub_urbs b !! h = Some u /\ is_Some (io_ep (u_io u))
  | U_killed h => 0 < R h /\ exists u, ub_urbs b !! h = Some u /\ u_use_count u = 0 /\ 0 < u_reject u
  | U_buffer_free y => forall h u, ub_urbs b !! h = Some u -> u_linked u = true ->
      io_transfer_buffer_length (u_io u) = 0 \/ io_transfer_buffer (u_io u) <> Some y
  end.

Inductive usteps (hc : hcd_driver) : ustate -> list uevent -> ustate -> Prop :=
| usteps_nil s : usteps hc s [] s
| usteps_cons s ev s1 evs s2 :
    allowed s ev -> do_event hc ev s = Some s1 -> usteps hc s1 evs s2 ->
    usteps hc s (ev :: evs) s2.

(** A device that has just been configured: nothing is allocated or queued. *)
Definition fresh_bus (b : ubus) : Prop :=
  ub_urbs b = ∅ /\ ub_handlers b = [] /\
  (forall e ep, ub_eps b !! e = Some ep -> ep_urb_list ep = []) /\
  table_ok (ub_eps b) (ud_ep_in (ub_dev b)) /\ table_ok (ub_eps b) (ud_ep_out (ub_dev b)).

Lemma fresh_bus_ok b : fresh_bus b -> bus_ok none none b.
Proof.
  intros (Hu & Hh & Hq & Hi & Ho). split; try done; rewrite ?Hu, ?Hh; try done.
  - intros e ep E. rewrite (Hq e ep E). split; [apply NoDup_nil_2|by intros h ?%elem_of_nil].
  - by intros h ?%elem_of_nil.
Qed.

(** A reference, or a handler that runs, keeps an URB. *)
Lemma reachable_urb R b h : bus_ok R none b -> 0 < R h \/ h ∈ ub_handlers b ->
  exists u, ub_urbs b !! h = Some u.
Proof.
  intros Hb [HR|Hin]; [|by apply (bo_handlers _ _ _ Hb)].
  destruct (ub_urbs b !! h) as [u|] eqn:E; [by eauto|]. apply (bo_gone _ _ _ Hb) in E. lia.
Qed.

(** The uses of an URB, with a transfer in the queue counted twice: once for the
    controller and once for the handler. *)
Definition pending (h : nat) (b : ubus) : Z :=
  match ub_urbs b !! h with
  | Some u => 2 * of_bool (u_linked u) + occurrences h (ub_handlers b)
  | None => 0
  end.

(** The steps that bring an URB forward. *)
Definition advances (h : nat) (ev : uevent) : Z :=
  match ev with
  | U_begin x _ | U_end x => if decide (x = h) then 1 else 0
  | _ => 0
  end.

(** Submissions of [h] are refused. *)
Definition blocked (h : nat) (b : ubus) : Prop :=
  exists u, ub_urbs b !! h = Some u /\ 0 < u_reject u.

Lemma only_other h t b b' : only t b b' -> t <> h ->
  ub_urbs b' !! h = ub_urbs b !! h /\ pending h b' = pending h b.
Proof.
  intros Hon Hne. pose proof (on_urbs _ _ _ Hon h (not_eq_sym Hne)) as E. split; [done|].
  unfold pending. rewrite E. destruct (ub_urbs b !! h); [|done]. f_equal.
  rewrite <- (occurrences_filter h t), (on_handlers _ _ _ Hon); [|done].
  by apply occurrences_filter.
Qed.

(** What a step does to a blocked URB. *)
Definition calms (h : nat) (ev : uevent) (b b' : ubus) : Prop :=
  blocked h b -> ev <> U_killed h -> ev <> U_free h ->
  blocked h b' /\ pending h b' + advances h ev <= pending h b.

Lemma calms_other h t ev b b' : only t b b' -> t <> h -> advances h ev = 0 -> calms h ev b b'.
Proof.
  intros Hon Hne Ha (u & Hu & Hr) _ _. destruct (only_other h t b b' Hon Hne) as [E ->].
  split; [|lia]. exists u. by rewrite E.
Qed.

(** An update of the URB that neither queues nor unblocks it. *)
Lemma calms_put h t ev b u u' : ub_urbs b !! t = Some u -> advances h ev = 0 ->
  u_linked u' = u_linked u -> u_reject u <= u_reject u' -> calms h ev b (put_urb t u' b).
Proof.
  intros Hu Ha Hl Hr. destruct (decide (t = h)) as [->|Hne].
  - intros (v & Hv & Hrv) _ _. assert (v = u) as -> by congruence. split.
    + exists u'. split; [apply put_lookup|lia].
    + unfold pending. rewrite put_lookup, Hu, Hl. cbn. lia.
  - intros (v & Hv & Hrv) _ _. assert (ub_urbs (put_urb t u' b) !! h = Some v) as Hv'
      by (cbn; by rewrite lookup_insert_ne).
    split; [by exists v|]. unfold pending. rewrite Hv', Hv. cbn. lia.
Qed.

Lemma calms_same h ev b b' : ub_urbs b' = ub_urbs b -> ub_handlers b' = ub_handlers b ->
  advances h ev = 0 -> calms h ev b b'.
Proof.
  intros Eu Eh Ha Hb _ _. unfold blocked, pending in *. rewrite Eu, Eh. split; [done|lia].
Qed.

Lemma calms_submit h t hc R b u b' r : hcd_ok hc -> bus_ok R none b -> ub_urbs b !! t = Some u ->
  submittable b u -> usb_submit_urb hc (Some t) b = Some (r, b') ->
  calms h (U_submit t) b b'.
Proof.
  intros Hhc Hb Hu Hs E.
  destruct (submit_ok hc R b t u Hhc Hb Hu Hs)
    as (r' & b2 & E' & _ & _ & Hon & Hh & u' & Hu' & Hrej & _ & Hn & Hz).
  rewrite E in E'. injection E' as <- <-.
  destruct (decide (t = h)) as [->|Hne]; [|by apply (calms_other h t)].
  intros (v & Hv & Hrv) _ _. assert (v = u) as -> by congruence.
  assert (r <> 0) as Hr by (intros ->; destruct (Hz eq_refl); lia).
  destruct (Hn Hr) as (Hl & _ & _). split; [exists u'; split; [done|lia]|].
  unfold pending. rewrite Hu', Hu, Hl, Hh. cbn. lia.
Qed.

Lemma calms_begin h t x R b b' : bus_ok R none b -> is_Some (ub_urbs b !! t) ->
  (forall u, ub_urbs b !! t = Some u -> u_linked u = true) ->
  (b1 ← hcd_transfer t x b; giveback_begin t (x_status x) b1) = Some b' ->
  calms h (U_begin t x) b b'.
Proof.
  intros Hb [u Hu] Hl E.
  destruct (complete_begin_ok R b t u x Hb Hu (Hl u Hu))
    as (b2 & u2 & E2 & _ & Hon & Hh & Hu2 & Hl2 & _ & Hrej & _).
  rewrite E in E2. injection E2 as <-.
  destruct (decide (t = h)) as [->|Hne].
  - intros (v & Hv & Hrv) _ _. assert (v = u) as -> by congruence.
    split; [exists u2; split; [done|lia]|]. unfold pending, advances.
    rewrite Hu2, Hu, Hh, Hl2, (Hl u Hu), occurrences_cons_eq, decide_True by done. cbn. lia.
  - apply (calms_other h t); [done|done|]. unfold advances. by rewrite decide_False.
Qed.

Lemma calms_end h t R b b' : bus_ok R none b -> t ∈ ub_handlers b -> (t = h -> 0 < R h) ->
  giveback_end t b = Some b' -> calms h (U_end t) b b'.
Proof.
  intros Hb Hin HR E. destruct (bo_handlers _ _ _ Hb t Hin) as [u Hu].
  destruct (giveback_end_ok R b t u Hb Hu Hin) as (b2 & E2 & _ & Hon & Hh & _ & Hk & _).
  rewrite E in E2. injection E2 as <-.
  destruct (decide (t = h)) as [->|Hne].
  - intros (v & Hv & Hrv) _ _. assert (v = u) as -> by congruence.
    assert (Hu' := Hk (or_introl (HR eq_refl))).
    split; [eexists; split; [exact Hu'|done]|]. unfold pending, advances.
    rewrite Hu', Hu, Hh, remove_one_eq, decide_True by done. cbn. lia.
  - apply (calms_other h t); [done|done|]. unfold advances. by rewrite decide_False.
Qed.

(** A step succeeds, keeps the invariant, and does not bring a blocked URB back. *)
Definition event_good (hc : hcd_driver) (R : nat -> Z) (b : ubus) (ev : uevent) : Prop :=
  exists R' b', do_event hc ev (R, b) = Some (R', b') /\ bus_ok R' none b' /\
    forall h, 0 < R h -> calms h ev b b' /\ (ev <> U_free h -> R h <= R' h).

Section Events.
Context (hc : hcd_driver) (Hhc : hcd_ok hc) (R : nat -> Z) (b : ubus) (Hb : bus_ok R none b).

Lemma alloc_event block : allowed (R, b) (U_alloc block) -> event_good hc R b (U_alloc block).
Proof.
  intros Ha. unfold event_good. cbn [do_event allowed fst snd] in *.
  destruct block as [[t desc]|].
  - specialize (Ha t desc eq_refl). pose proof (alloc_urb_ok R b t desc Hb Ha) as Hok.
    exists (bump t 1 R), (put_urb t (usb_init_urb desc) b).
    split; [done|]. split; [done|]. intros h HR.
    assert (t <> h) as Hne by (intros <-; apply (bo_gone _ _ _ Hb) in Ha; lia).
    split; [|intros _; by rewrite bump_ne].
    intros (u & Hu & Hr) _ _. assert (ub_urbs (put_urb t (usb_init_urb desc) b) !! h = Some u) as Hu'
      by (cbn; by rewrite lookup_insert_ne).
    split; [by exists u|]. unfold pending. rewrite Hu', Hu. cbn. lia.
  - eexists _, _. split; [done|]. split; [done|]. intros h _. split; [by apply calms_same|done].
Qed.

Lemma fill_event h io : allowed (R, b) (U_fill h io) -> event_good hc R b (U_fill h io).
Proof.
  intros Ha. unfold event_good. cbn [do_event allowed fst snd] in *.
  destruct Ha as (HR & u & Hu & Hf). rewrite (with_urb_Some _ _ _ _ Hu). eexists _, _.
  split; [done|]. split; [by apply fill_ok|]. intros h' _. split; [|done].
  by eapply calms_put.
Qed.

Lemma get_event h : allowed (R, b) (U_get h) -> event_good hc R b (U_get h).
Proof.
  intros Ha. unfold event_good. cbn [do_event allowed fst snd] in *.
  destruct (reachable_urb R b h Hb Ha) as [u Hu]. cbn [usb_get_urb]. unfold kref_get.
  rewrite (with_urb_Some _ _ _ _ Hu). eexists _, _. split; [done|].
  split; [by apply kref_get_ok|]. intros h' _. split; [by eapply calms_put|].
  intros _. unfold bump. case_decide; lia.
Qed.

Lemma free_event h : allowed (R, b) (U_free h) -> event_good hc R b (U_free h).
Proof.
  intros Ha. unfold event_good. cbn [do_event allowed fst snd] in *.
  destruct (reachable_urb R b h Hb (or_introl Ha)) as [u Hu].
  destruct (kref_put_ok R none b h u Hb Hu Ha) as (b' & E & Hok & Hon & _). cbn [usb_free_urb].
  rewrite E. eexists _, _. split; [done|]. split; [done|]. intros h' _. split.
  - destruct (decide (h = h')) as [->|Hne]; [by intros ? ? ?|]. by eapply calms_other.
  - intros Hne. rewrite bump_ne; [done|]. congruence.
Qed.

Lemma submit_event h : allowed (R, b) (U_submit h) -> event_good hc R b (U_submit h).
Proof.
  intros Ha. unfold event_good. cbn [do_event allowed fst snd] in *.
  destruct Ha as (_ & u & Hu & Hs).
  destruct (submit_ok hc R b h u Hhc Hb Hu Hs) as (r & b' & E & _ & Hok & _).
  rewrite E. eexists _, _. split; [done|]. split; [done|]. intros h' _. split; [|done].
  by eapply calms_submit.
Qed.

Lemma unlink_event h : allowed (R, b) (U_unlink h) -> event_good hc R b (U_unlink h).
Proof.
  intros Ha. unfold event_good. cbn [do_event allowed fst snd] in *.
  destruct (reachable_urb R b h Hb Ha) as [u Hu]. cbn [usb_unlink_urb]. rewrite Hu.
  cbn [mbind option_bind].
  assert (forall h', calms h' (U_unlink h) b b) as Hc by (intros; by apply calms_same).
  case_if; [by eexists _, _|]. destruct (io_ep (u_io u)) as [e|] eqn:He;
    [|by eexists _, _].
  rewrite (hcd_unlink_spec R b h u e _ Hb Hu He). eexists _, _. split; [done|].
  split; [case_if; [by apply set_unlinked_ok|done]|]. intros h' _. split; [|done].
  case_if; [by eapply calms_put|done].
Qed.

Lemma begin_event h x : allowed (R, b) (U_begin h x) -> event_good hc R b (U_begin h x).
Proof.
  intros Ha. unfold event_good. cbn [do_event allowed fst snd] in *.
  destruct Ha as (e & ep & Hep & Hin). destruct (bo_queue _ _ _ Hb e ep Hep) as [_ Hq].
  destruct (Hq h Hin) as (u & Hu & Hl & _).
  destruct (complete_begin_ok R b h u x Hb Hu Hl) as (b' & u' & E & Hok & _).
  assert (forall h', calms h' (U_begin h x) b b') as Hc.
  { intros h'. eapply calms_begin; eauto. intros v Hv. congruence. }
  destruct (hcd_transfer h x b) as [b1|]; [|done]. cbn [mbind option_bind] in E |- *. rewrite E.
  eexists _, _. split; [done|]. by split.
Qed.

Lemma end_event h : allowed (R, b) (U_end h) -> event_good hc R b (U_end h).
Proof.
  intros Ha. unfold event_good. cbn [do_event allowed fst snd] in *.
  destruct (bo_handlers _ _ _ Hb h Ha) as [u Hu].
  destruct (giveback_end_ok R b h u Hb Hu Ha) as (b' & E & Hok & _). rewrite E.
  eexists _, _. split; [done|]. split; [done|]. intros h' HR. split; [|done].
  eapply calms_end; eauto.
Qed.

Lemma kill_event h : allowed (R, b) (U_kill h) -> event_good hc R b (U_kill h).
Proof.
  intros Ha. unfold event_good. cbn [do_event allowed fst snd] in *.
  destruct Ha as (HR & u & Hu & He). destruct (kill_begin_ok R b h u Hb Hu He) as (z & E & Hok).
  rewrite E. eexists _, _. split; [done|]. split; [done|]. intros h' _. split; [|done].
  eapply calms_put; eauto; cbn; lia.
Qed.

Lemma killed_event h : allowed (R, b) (U_killed h) -> event_good hc R b (U_killed h).
Proof.
  intros Ha. unfold event_good. cbn [do_event allowed fst snd] in *.
  destruct Ha as (HR & u & Hu & H0 & Hr). cbn [usb_unpoison_urb].
  destruct (block_ok R b h u (-1) Hb Hu) as (b' & E & Hok & Hon & _); [lia|].
  change (fun u => set_u_reject (u_reject u - 1) u) with (fun u => set_u_reject (u_reject u + -1) u).
  rewrite E. eexists _, _. split; [done|]. split; [done|]. intros h' _. split; [|done].
  destruct (decide (h = h')) as [->|Hne]; [by intros ? ? ?|]. by eapply calms_other.
Qed.

Lemma buffer_alloc_event y : allowed (R, b) (U_buffer_alloc y) -> event_good hc R b (U_buffer_alloc y).
Proof.
  intros Ha. unfold event_good. cbn [do_event allowed fst snd] in *.
  eexists _, _. split; [done|]. split; [by apply buffer_alloc_ok|]. intros h _.
  split; [by apply calms_same|done].
Qed.

Lemma buffer_free_event y : allowed (R, b) (U_buffer_free y) -> event_good hc R b (U_buffer_free y).
Proof.
  intros Ha. unfold event_good. cbn [do_event allowed fst snd] in *.
  eexists _, _. split; [done|]. split; [by apply buffer_free_ok|]. intros h _.
  split; [by apply calms_same|done].
Qed.

End Events.

(** Every step that is allowed is good. *)
Lemma event_ok hc R b ev : hcd_ok hc -> bus_ok R none b -> allowed (R, b) ev ->
  event_good hc R b ev.
Proof.
  intros Hhc Hb Ha.
  destruct ev; auto using alloc_event, fill_event, get_event, free_event, submit_event,
    unlink_event, begin_event, end_event, kill_event, killed_event, buffer_alloc_event,
    buffer_free_event.
Qed.

Lemma steps_ok hc R b evs s' : hcd_ok hc -> bus_ok R none b -> usteps hc (R, b) evs s' ->
  bus_ok s'.1 none s'.2 /\
  forall h, 0 < R h -> blocked h b -> U_killed h ∉ evs -> U_free h ∉ evs ->
    0 < s'.1 h /\ blocked h s'.2 /\
    pending h s'.2 + foldr Z.add 0 (advances h <$> evs) <= pending h b.
Proof.
  intros Hhc Hb Hs. remember (R, b) as s eqn:Es. revert R b Hb Es.
  induction Hs as [s|s ev s1 evs s2 Ha Hd Hs IH]; intros R b Hb ->; cbn [fst snd].
  { split; [done|]. intros. cbn. split_and!; [done|done|lia]. }
  destruct (event_ok hc R b ev Hhc Hb Ha) as (R1 & b1 & E & Hok & Hc).
  rewrite E in Hd. injection Hd as <-. destruct (IH R1 b1 Hok eq_refl) as [Hok2 Hc2].
  split; [done|]. intros h HR Hbl [Hk1 Hk2]%not_elem_of_cons [Hf1 Hf2]%not_elem_of_cons.
  destruct (Hc h HR) as [Hcalm HR1]. destruct Hcalm as [Hbl1 Hp1]; [done|congruence..|].
  specialize (HR1 ltac:(congruence)).
  destruct (Hc2 h) as (? & ? & ?); [lia|done..|]. split_and!; [done|done|]. cbn. lia.
Qed.

Lemma elem_of_advance R b h : bus_ok R none b -> 0 < pending h b ->
  exists ev, allowed (R, b) ev /\ advances h ev = 1.
Proof.
  intros Hb Hp. unfold pending in Hp. destruct (ub_urbs b !! h) as [u|] eqn:Hu; [|lia].
  pose proof (bo_urb _ _ _ Hb h u Hu) as Ho. destruct (u_linked u) eqn:Hl.
  - destruct (uo_linked _ _ _ _ _ _ _ Ho Hl) as (e & ep & _ & Hep & Hin).
    exists (U_begin h (mk_transfer 0 0 [])). cbn. rewrite decide_True by done. split; [by eauto|done].
  - exists (U_end h). cbn. rewrite decide_True by done. split; [|done].
    apply occurrences_pos. cbn in Hp. lia.
Qed.

Lemma pending_0 R b h : bus_ok R none b -> 0 < R h -> pending h b = 0 ->
  exists u, ub_urbs b !! h = Some u /\ u_use_count u = 0.
Proof.
  intros Hb HR Hp. destruct (reachable_urb R b h Hb (or_introl HR)) as [u Hu].
  exists u. split; [done|]. unfold pending in Hp. rewrite Hu in Hp.
  pose proof (bo_urb _ _ _ Hb h u Hu) as Ho. pose proof (occurrences_nonneg h (ub_handlers b)).
  destruct Ho. unfold of_bool, none in *. destruct (u_linked u); lia.
Qed.

(** The interval a periodic transfer gets is a power of two, not above what was
    asked for, and more than half of it unless the largest the bus has. *)
Lemma round_interval max i : 0 < max -> (exists k, 0 <= k /\ max = 2 ^ k) -> 0 < i ->
  let r := Z.min max (Z.shiftl 1 (Z.log2 i)) in
  (exists k, 0 <= k /\ r = 2 ^ k) /\ r <= i /\ r <= max /\ (r = max \/ i < 2 * r).
Proof.
  intros Hm (k & Hk & ->) Hi. cbn zeta. rewrite Z.shiftl_1_l.
  destruct (Z.log2_spec i Hi) as [Hlo Hhi]. rewrite Z.pow_succ_r in Hhi by apply Z.log2_nonneg.
  destruct (Z.min_spec (2 ^ k) (2 ^ Z.log2 i)) as [[? ->]|[? ->]].
  - split; [by exists k|]. lia.
  - split; [exists (Z.log2 i); split; [apply Z.log2_nonneg|done]|]. lia.
Qed.

(** ** Isochronous transfers *)

Definition reset_packet (p : usb_iso_packet_descriptor) : usb_iso_packet_descriptor :=
  mk_packet (ip_offset p) (ip_length p) 0 (- EXDEV).

Definition packet_fits (max : Z) (p : usb_iso_packet_descriptor) : Prop := 0 <= s32 (ip_length p) <= max.

#[export] Instance packet_fits_dec max p : Decision (packet_fits max p).
Proof. unfold packet_fits. apply _. Defined.

(** The loop over the packets. *)
Lemma iso_init_fits max todo : forall n desc, (n + todo <= length desc)%nat ->
  (forall i p, (n <= i < n + todo)%nat -> desc !! i = Some p -> packet_fits max p) ->
  exists desc', iso_init todo n max desc = Some (0, desc') /\
    forall i, desc' !! i = (if decide (n <= i < n + todo)%nat then reset_packet else id) <$> desc !! i.
Proof.
  induction todo as [|todo IH]; intros n desc Hn Hf; cbn [iso_init].
  { exists desc. split; [done|]. intros i. rewrite decide_False by lia. by destruct (desc !! i). }
  destruct (lookup_lt_is_Some_2 desc n ltac:(lia)) as [p Hp]. rewrite Hp. cbn [mbind option_bind].
  destruct (Hf n p ltac:(lia) Hp) as [Hlo Hhi].
  replace (_ || _) with false by (symmetry; apply orb_false_iff; lia).
  fold (reset_packet p). destruct (IH (S n) (<[n := reset_packet p]> desc)) as (desc' & -> & Hd).
  { rewrite length_insert. lia. }
  { intros i q Hi. rewrite list_lookup_insert_ne by lia. apply Hf. lia. }
  exists desc'. split; [done|]. intros i. rewrite Hd. destruct (decide (i = n)) as [->|Hne].
  - rewrite list_lookup_insert_eq, Hp by lia. rewrite decide_False, decide_True by lia. done.
  - rewrite list_lookup_insert_ne by done. f_equal. by repeat case_decide; try lia.
Qed.

Lemma iso_init_too_long max todo : forall n desc i p, (n <= i < n + todo)%nat ->
  (n + todo <= length desc)%nat -> desc !! i = Some p -> ~ packet_fits max p ->
  exists desc', iso_init todo n max desc = Some (- EMSGSIZE, desc').
Proof.
  induction todo as [|todo IH]; intros n desc i p Hi Hn Hp Hf; [lia|]. cbn [iso_init].
  destruct (lookup_lt_is_Some_2 desc n ltac:(lia)) as [q Hq]. rewrite Hq. cbn [mbind option_bind].
  case_if; [by eauto|]. destruct (decide (i = n)) as [->|Hne].
  - exfalso. apply Hf. assert (q = p) as -> by congruence. unfold packet_fits. lia.
  - eapply (IH (S n) _ i p); [lia|rewrite length_insert; lia| |done].
    by rewrite list_lookup_insert_ne.
Qed.

(** What an isochronous URB asks of the device and its endpoint. *)
Record iso_request (b : ubus) (u : urb) (e : nat) (ep : usb_host_endpoint) : Prop := mk_iso_request {
  ir_dev : io_dev (u_io u) = true;
  ir_state : USB_STATE_CONFIGURED <= ud_state (ub_dev b);
  ir_pipe : usb_pipe_endpoint (ub_dev b) (io_pipe (u_io u)) = Some (Some e);
  ir_ep : ub_eps b !! e = Some ep;
  ir_type : usb_endpoint_type (ep_desc ep) = USB_ENDPOINT_XFER_ISOC;
  ir_max : 0 < usb_endpoint_maxp (ep_desc ep);
  ir_packets : 0 < io_number_of_packets (u_io u)
}.

(** What the specifications of the bus say a packet may have: the low eleven bits
    of [wMaxPacketSize], at high speed times one more than the next two; at super
    speed the packets of all bursts. *)
Definition packet_limit (b : ubus) (ep : usb_host_endpoint) : Z :=
  let w := epd_wMaxPacketSize (ep_desc ep) in
  match ud_speed (ub_dev b) with
  | USB_SPEED_SUPER => w * (1 + ss_bMaxBurst ep) * (1 + ss_bmAttributes ep mod 4)
  | USB_SPEED_HIGH => w mod 2 ^ 11 * (1 + w / 2 ^ 11 mod 4)
  | _ => w
  end.

Lemma packet_limit_max b ep :
  iso_max (ud_speed (ub_dev b)) ep (usb_endpoint_maxp (ep_desc ep)) = packet_limit b ep.
Proof.
  unfold iso_max, packet_limit, usb_endpoint_maxp, USB_SS_MULT.
  change 0x07ff with (Z.ones 11). change 0x3 with (Z.ones 2). change 4 with (2 ^ 2).
  by destruct (ud_speed (ub_dev b)); rewrite ?Z.land_ones, ?Z.shiftr_div_pow2.
Qed.

Lemma iso_checks_run b u e ep : iso_request b u e ep ->
  (Z.to_nat (io_number_of_packets (u_io u)) <= length (io_frame_desc (u_io u)))%nat ->
  exists io0, same_request (u_io u) io0 /\ io_ep io0 = Some e /\
    io_frame_desc io0 = io_frame_desc (u_io u) /\ io_interval io0 = io_interval (u_io u) /\
    io_status io0 = - EINPROGRESS /\ io_actual_length io0 = 0 /\
  submit_checks (ub_dev b) (ub_eps b) (u_io u) =
    ('(ret, desc) ← iso_init (Z.to_nat (io_number_of_packets (u_io u))) 0 (packet_limit b ep)
                     (io_frame_desc (u_io u));
     let io := set_io_desc desc io0 in
     if truth ret then Some (ret, io) else
     if io_transfer_buffer_length (u_io u) >? INT_MAX then Some (- EMSGSIZE, io) else
     match urb_interval (ud_speed (ub_dev b)) USB_ENDPOINT_XFER_ISOC (io_interval (u_io u)) with
     | None => Some (- EINVAL, io)
     | Some i => Some (0, set_io_interval i io)
     end).
Proof.
  intros [Hdev Hst Hpipe Hep Hty Hmax Hnp] Hn.
  set (io0 := set_io_flags (submit_flags (usb_endpoint_dir_out (ep_desc ep))
                              (io_transfer_flags (u_io u))) (set_io_started e (u_io u))).
  exists io0. split_and!; try done.
  { split; try done. unfold owned_buffer. cbn. by rewrite submit_flags_free. }
  unfold submit_checks. rewrite Hdev, Hpipe. cbn [mbind option_bind negb orb]. rewrite Hep.
  cbn [mbind option_bind]. unfold USB_STATE_CONFIGURED, USB_STATE_UNAUTHENTICATED in *.
  replace (ud_state (ub_dev b) <? 4) with false by (symmetry; lia).
  unfold endpoint_checks, is_out, USB_STATE_CONFIGURED. rewrite Hty.
  cbn [Z.eqb USB_ENDPOINT_XFER_ISOC USB_ENDPOINT_XFER_CONTROL].
  replace (ud_state (ub_dev b) <? 7) with false by (symmetry; lia).
  replace (usb_endpoint_maxp (ep_desc ep) <=? 0) with false by (symmetry; lia).
  rewrite andb_false_r. change (io_transfer_flags (set_io_started e (u_io u))) with
    (io_transfer_flags (u_io u)). fold io0.
  unfold iso_checks. change (io_number_of_packets io0) with (io_number_of_packets (u_io u)).
  change (io_frame_desc io0) with (io_frame_desc (u_io u)).
  replace (io_number_of_packets (u_io u) <=? 0) with false by (symmetry; lia).
  rewrite packet_limit_max.
  destruct (iso_init _ _ _ _) as [[ret desc]|]; [|done]. done.
Qed.

(** Every answer of the host controller driver is 0 for this URB. *)
Definition accepts (hc : hcd_driver) (h : nat) : Prop :=
  (forall b, hc_map_urb hc h b = 0) /\ (forall b, hc_urb_enqueue hc h b = 0).

(** An idle URB whose packets fit is handed over. *)
Lemma iso_accepted hc R b h u e ep i : hcd_ok hc -> accepts hc h -> bus_ok R none b ->
  ub_urbs b !! h = Some u -> u_linked u = false -> u_hcpriv u = false ->
  is_Some (io_complete (u_io u)) -> buffer_live (ub_bufs b) (u_io u) ->
  iso_request b u e ep ->
  Forall (packet_fits (packet_limit b ep)) (io_frame_desc (u_io u)) ->
  io_transfer_buffer_length (u_io u) <= INT_MAX ->
  urb_interval (ud_speed (ub_dev b)) USB_ENDPOINT_XFER_ISOC (io_interval (u_io u)) = Some i ->
  exists b' u', usb_submit_urb hc (Some h) b = Some (link_error u ep b, b') /\
    bus_ok R none b' /\ only h b b' /\ ub_handlers b' = ub_handlers b /\
    (link_error u ep b = 0 ->
     ub_eps b' = <[e := set_ep_urb_list (ep_urb_list ep ++ [h]) ep]> (ub_eps b) /\
     ub_urbs b' !! h = Some u' /\ u_linked u' = true /\ u_use_count u' = u_use_count u + 1 /\
     u_kref u' = u_kref u + 1 /\ u_reject u' = u_reject u /\
     same_request (u_io u) (u_io u') /\ io_ep (u_io u') = Some e /\
     io_status (u_io u') = - EINPROGRESS /\ io_interval (u_io u') = i /\
     take (Z.to_nat (io_number_of_packets (u_io u))) (io_frame_desc (u_io u')) =
     reset_packet <$> take (Z.to_nat (io_number_of_packets (u_io u))) (io_frame_desc (u_io u))).
Proof.
  intros Hhc [Hm Hq] Hb Hu Hl Hp Hc Hbuf Hir Hfit Hlen Hint.
  pose proof (bo_urb _ _ _ Hb h u Hu) as Ho. pose proof (uo_packets _ _ _ _ _ _ _ Ho) as Hn.
  destruct (iso_checks_run b u e ep Hir Hn) as (io0 & Hsr & He & Hd & Hi & Hst & Hal & E).
  set (np := Z.to_nat (io_number_of_packets (u_io u))) in *.
  destruct (iso_init_fits (packet_limit b ep) np 0 (io_frame_desc (u_io u))) as (desc & Ed & Hdesc).
  { done. }
  { intros j p _ Hj. by eapply Forall_lookup_1. }
  rewrite Ed in E. cbn [mbind option_bind] in E. rewrite Hint in E.
  replace (_ >? INT_MAX) with false in E by (symmetry; lia). cbn in E.
  set (io := set_io_interval i (set_io_desc desc io0)) in *.
  assert (take np desc = reset_packet <$> take np (io_frame_desc (u_io u))) as Htake.
  { apply list_eq. intros j. rewrite list_lookup_fmap. destruct (decide (j < np)%nat).
    - rewrite !lookup_take_lt, Hdesc by done. by rewrite decide_True by lia.
    - by rewrite !lookup_take_ge by lia. }
  assert (same_request (u_io u) io) as Hsr'.
  { destruct Hsr. split; try done. cbn. apply list_eq. intros j.
    rewrite !list_lookup_fmap, Hdesc. destruct (io_frame_desc (u_io u) !! j); [|done]. cbn.
    by case_decide. }
  cbn [usb_submit_urb]. rewrite Hu. cbn [mbind option_bind].
  rewrite Hp, bool_decide_eq_false_2 by (by destruct Hc as [? ->]). cbn [orb]. rewrite E.
  cbn [mbind option_bind]. rewrite (with_urb_Some _ _ _ _ Hu).
  cbn [mbind option_bind truth negb Z.eqb].
  assert (bus_ok R none (put_urb h (set_u_io io u) b)) as Hok.
  { apply set_io_ok; auto; try apply Hsr'; [congruence| |by apply same_request_desc].
    intros e'. cbn. rewrite He. intros [= <-]. rewrite (ir_ep _ _ _ _ Hir). eauto. }
  destruct (hcd_submit_ok hc R none _ h _ e ep Hhc Hok (put_lookup _ _ _) He (ir_ep _ _ _ _ Hir) Hl Hp)
    as (r & b' & Er & Hr' & Hok' & Hon' & Hh' & Hx & Hz & _).
  { change (u_io (set_u_io io u)) with io. by rewrite (sr_complete _ _ Hsr'). }
  { change (u_io (set_u_io io u)) with io. unfold buffer_live. rewrite (sr_buffer _ _ Hsr'), (sr_length _ _ Hsr'). exact Hbuf. }
  { change (u_io (set_u_io io u)) with io. rewrite (sr_dev _ _ Hsr'). apply Hir. }
  rewrite Hx in Er, Hz by done. change (link_error (set_u_io io u) ep _) with (link_error u ep b) in *.
  exists b', (taken_urb hc h (set_u_io io u)). split_and!; try done.
  - etrans; [eapply (only_put h (set_u_io io u)); [done|apply Hsr']|exact Hon'].
  - intros H0. rewrite H0 in Hz. destruct (Hz eq_refl) as (_ & Hu' & Heps). by split_and!.
Qed.

(** A packet that does not fit is refused, and the URB stays where it was. *)
Lemma iso_too_long hc R b h u e ep j p : bus_ok R none b -> ub_urbs b !! h = Some u ->
  u_hcpriv u = false -> is_Some (io_complete (u_io u)) -> iso_request b u e ep ->
  (j < Z.to_nat (io_number_of_packets (u_io u)))%nat -> io_frame_desc (u_io u) !! j = Some p ->
  ~ packet_fits (packet_limit b ep) p ->
  exists io, usb_submit_urb hc (Some h) b = Some (- EMSGSIZE, put_urb h (set_u_io io u) b) /\
    same_request (u_io u) io.
Proof.
  intros Hb Hu Hp Hc Hir Hj Hd Hf. pose proof (bo_urb _ _ _ Hb h u Hu) as Ho.
  pose proof (uo_packets _ _ _ _ _ _ _ Ho) as Hn.
  destruct (submit_checks_total _ _ _ (u_io u) Hb Hn (uo_ep _ _ _ _ _ _ _ Ho))
    as (r & io & E & _ & Hsr & _).
  destruct (iso_checks_run b u e ep Hir Hn) as (io0 & _ & _ & _ & _ & _ & _ & E').
  destruct (iso_init_too_long (packet_limit b ep) (Z.to_nat (io_number_of_packets (u_io u))) 0
              (io_frame_desc (u_io u)) j p ltac:(lia) Hn Hd Hf) as (desc & Ed).
  rewrite Ed in E'. cbn in E'. rewrite E in E'. injection E' as -> _.
  exists io. split; [|done]. cbn [usb_submit_urb]. rewrite Hu. cbn [mbind option_bind].
  rewrite Hp, bool_decide_eq_false_2 by (by destruct Hc as [? ->]). cbn [orb]. rewrite E.
  cbn [mbind option_bind]. by rewrite (with_urb_Some _ _ _ _ Hu).
Qed.

(** * Requests that are alike

    The answer to a submission depends on the request, not on the URB that carries
    it or on what else is queued. *)

Record alike (io io' : urb_io) : Prop := mk_alike {
  al_dev : io_dev io' = io_dev io;
  al_pipe : io_pipe io' = io_pipe io;
  al_setup : io_setup_packet io' = io_setup_packet io;
  al_packets : io_number_of_packets io' = io_number_of_packets io;
  al_interval : io_interval io' = io_interval io;
  al_length : io_transfer_buffer_length io' = io_transfer_buffer_length io;
  al_lengths : ip_length <$> io_frame_desc io' = ip_length <$> io_frame_desc io
}.

Lemma iso_init_verdict max todo : forall n desc desc',
  ip_length <$> desc' = ip_length <$> desc ->
  fst <$> iso_init todo n max desc' = fst <$> iso_init todo n max desc.
Proof.
  induction todo as [|todo IH]; intros n desc desc' E; cbn [iso_init]; [done|].
  pose proof (f_equal (.!! n) E) as En. cbn in En. rewrite !list_lookup_fmap in En.
  destruct (desc !! n) as [p|] eqn:Ep, (desc' !! n) as [p'|] eqn:Ep'; try done.
  cbn [mbind option_bind]. injection En as En. rewrite En. case_if; [done|]. apply IH.
  rewrite !list_fmap_insert. cbn. by rewrite E.
Qed.

Lemma iso_checks_verdict speed ep ep' max io io' : alike io io' ->
  ep' = set_ep_urb_list (ep_urb_list ep') ep ->
  fst <$> iso_checks speed ep' max io' = fst <$> iso_checks speed ep max io.
Proof.
  intros [] ->. unfold iso_checks. rewrite al_packets0. case_if; [done|].
  change (iso_max speed (set_ep_urb_list _ ep) max) with (iso_max speed ep max).
  pose proof (iso_init_verdict (iso_max speed ep max) (Z.to_nat (io_number_of_packets io)) 0
                (io_frame_desc io) (io_frame_desc io') al_lengths0) as E.
  destruct (iso_init _ _ _ (io_frame_desc io)) as [[r desc]|], (iso_init _ _ _ (io_frame_desc io')) as [[r' desc']|];
    try done.
Qed.

(** Which members the isochronous check keeps. *)
Lemma iso_checks_keeps speed ep max io r io' : iso_checks speed ep max io = Some (r, io') ->
  io_transfer_buffer_length io' = io_transfer_buffer_length io /\ io_interval io' = io_interval io.
Proof.
  unfold iso_checks. case_if; [by intros [= _ <-]|]. by intros ([] & _ & [= _ <-])%bind_Some.
Qed.

Lemma endpoint_checks_verdict dev dev' ep ep' io io' : alike io io' ->
  ud_state dev' = ud_state dev -> ud_speed dev' = ud_speed dev ->
  ep' = set_ep_urb_list (ep_urb_list ep') ep ->
  fst <$> endpoint_checks dev' ep' io' = fst <$> endpoint_checks dev ep io.
Proof.
  intros Ha Est Esp Eep. unfold endpoint_checks.
  assert (ep_desc ep' = ep_desc ep) as Ed by (by rewrite Eep). rewrite Ed, Est, Esp.
  assert (is_out ep' io' = is_out ep io) as ->.
  { unfold is_out. by rewrite Ed, (al_setup _ _ Ha). }
  destruct (is_out ep io) as [out|]; [|done]. case_if; [done|]. case_if; [done|].
  set (io1 := set_io_flags _ io). set (io1' := set_io_flags _ io').
  assert (alike io1 io1') as Ha1 by (destruct Ha; by split).
  set (m := if _ =? USB_ENDPOINT_XFER_ISOC then _ else Some (0, io1)).
  set (m' := if _ =? USB_ENDPOINT_XFER_ISOC then _ else Some (0, io1')).
  assert (fst <$> m' = fst <$> m /\
    (forall r io2, m = Some (r, io2) -> io_transfer_buffer_length io2 = io_transfer_buffer_length io1 /\
                                 io_interval io2 = io_interval io1) /\
    (forall r io2, m' = Some (r, io2) -> io_transfer_buffer_length io2 = io_transfer_buffer_length io1' /\
                                 io_interval io2 = io_interval io1')) as (Em & K & K').
  { unfold m, m'. case_if.
    - split; [by apply iso_checks_verdict|]. split; intros *; apply iso_checks_keeps.
    - split; [done|]. split; by intros ? ? [= _ <-]. }
  clearbody m m'. destruct m as [[r io2]|], m' as [[r' io2']|]; try done. cbn [mbind option_bind].
  injection Em as ->. case_if; [done|].
  destruct (K r io2 eq_refl) as [-> ->], (K' r io2' eq_refl) as [-> ->].
  rewrite (al_length _ _ Ha1), (al_interval _ _ Ha1). case_if; [done|].
  case_if; [|done]. by destruct (urb_interval _ _ _).
Qed.

(** Two buses with the same device and endpoints, whatever is queued. *)
Record same_device (b b' : ubus) : Prop := mk_same_device {
  sd_dev : ub_dev b' = set_ud_urbnum (ud_urbnum (ub_dev b')) (ub_dev b);
  sd_eps e : match ub_eps b !! e, ub_eps b' !! e with
             | Some ep, Some ep' => ep' = set_ep_urb_list (ep_urb_list ep') ep
             | None, None => True
             | _, _ => False
             end;
  sd_rh : ub_rh_running b' = ub_rh_running b
}.

#[export] Instance same_device_preorder : PreOrder same_device.
Proof.
  split.
  - intros b. split; [by destruct (ub_dev b)| |done]. intros e. by destruct (ub_eps b !! e) as [[]|].
  - intros b1 b2 b3 [D1 E1 R1] [D2 E2 R2]. split; [|intros e|congruence].
    + rewrite D2 at 1. by rewrite D1.
    + specialize (E1 e). specialize (E2 e).
      destruct (ub_eps b1 !! e), (ub_eps b2 !! e), (ub_eps b3 !! e); try done.
      rewrite E2 at 1. by rewrite E1.
Qed.

Lemma only_same_device h b b' : only h b b' -> same_device b b'.
Proof.
  intros Hon. split; try apply Hon. intros e. pose proof (on_eps _ _ _ Hon e) as He.
  unfold same_ep in He. destruct (ub_eps b !! e), (ub_eps b' !! e); try done. by destruct He.
Qed.

Lemma checks_verdict b b' io io' : same_device b b' -> alike io io' ->
  fst <$> submit_checks (ub_dev b') (ub_eps b') io' = fst <$> submit_checks (ub_dev b) (ub_eps b) io.
Proof.
  intros [Ed Ee _] Ha. unfold submit_checks, usb_pipe_endpoint. rewrite Ed. cbn [ud_state ud_ep_in ud_ep_out set_ud_urbnum].
  rewrite (al_dev _ _ Ha), (al_pipe _ _ Ha). case_if; [done|].
  destruct ((if usb_pipein (io_pipe io) then _ else _) !! _) as [o|]; [|done].
  cbn [mbind option_bind]. destruct o as [e|]; [|done]. specialize (Ee e).
  destruct (ub_eps b !! e) as [ep|], (ub_eps b' !! e) as [ep'|]; try done. cbn [mbind option_bind].
  apply endpoint_checks_verdict; try done. destruct Ha. by split.
Qed.

(** The endpoint the checks found. *)
Lemma checks_endpoint b io io' : submit_checks (ub_dev b) (ub_eps b) io = Some (0, io') ->
  exists e ep, usb_pipe_endpoint (ub_dev b) (io_pipe io) = Some (Some e) /\
    ub_eps b !! e = Some ep /\ io_ep io' = Some e.
Proof.
  unfold submit_checks. case_if; [done|]. intros (o & Eo & E)%bind_Some.
  destruct o as [e|]; [|done]. apply bind_Some in E as (ep & Eep & E). exists e, ep.
  split_and!; [done|done|]. revert E. unfold endpoint_checks.
  destruct (is_out _ _); [|done]. do 2 (case_if; [done|]). intros ([r io2] & E2 & E)%bind_Some.
  assert (io_ep io2 = Some e) as He.
  { revert E2. case_if; [|by intros [= _ <-]]. unfold iso_checks. case_if; [by intros [= _ <-]|].
    by intros ([] & _ & [= _ <-])%bind_Some. }
  revert E. case_if; [intros [= -> _]; done|]. case_if; [done|].
  case_if; [destruct (urb_interval _ _ _); [|done]|]; by intros [= <-].
Qed.

(** On a bus that accepts everything, what answer a submission gets. *)
Lemma submit_answer hc R b h u : hcd_ok hc -> accepts hc h -> bus_ok R none b ->
  ub_urbs b !! h = Some u -> u_linked u = false -> u_hcpriv u = false ->
  is_Some (io_complete (u_io u)) -> buffer_live (ub_bufs b) (u_io u) ->
  exists ret io, submit_checks (ub_dev b) (ub_eps b) (u_io u) = Some (ret, io) /\
    (ret <> 0 -> fst <$> usb_submit_urb hc (Some h) b = Some ret) /\
    (ret = 0 -> exists e ep, usb_pipe_endpoint (ub_dev b) (io_pipe (u_io u)) = Some (Some e) /\
       ub_eps b !! e = Some ep /\ fst <$> usb_submit_urb hc (Some h) b = Some (link_error u ep b)).
Proof.
  intros Hhc [Hm Hq] Hb Hu Hl Hp Hc Hbuf. pose proof (bo_urb _ _ _ Hb h u Hu) as Ho.
  destruct (submit_checks_total _ _ _ (u_io u) Hb) as (r & io & E & Hr & Hsr & Hv & Hs & H0);
    [apply Ho..|].
  exists r, io. split; [done|]. cbn [usb_submit_urb]. rewrite Hu. cbn [mbind option_bind].
  rewrite Hp, bool_decide_eq_false_2 by (by destruct Hc as [? ->]). cbn [orb]. rewrite E.
  cbn [mbind option_bind]. rewrite (with_urb_Some _ _ _ _ Hu). cbn [mbind option_bind].
  unfold truth. split; [intros Hr0; by rewrite (proj2 (Z.eqb_neq r 0) Hr0)|]. intros ->.
  cbn [Z.eqb negb]. destruct (checks_endpoint _ _ _ E) as (e & ep & Hpe & Hep & He).
  exists e, ep. split; [done|]. split; [done|].
  destruct (hcd_submit_ok hc R none (put_urb h (set_u_io io u) b) h (set_u_io io u) e ep)
    as (r & b' & Er & _ & _ & _ & _ & Hx & _); try done.
  - apply set_io_ok; auto; try apply Hsr; [congruence|by apply same_request_desc].
  - apply put_lookup.
  - change (u_io (set_u_io io u)) with io. by rewrite (sr_complete _ _ Hsr).
  - change (u_io (set_u_io io u)) with io. unfold buffer_live.
    by rewrite (sr_buffer _ _ Hsr), (sr_length _ _ Hsr).
  - by apply H0.
  - rewrite Er, Hx by done. done.
Qed.

(** If a request is taken, one that is alike is taken as well. *)
Lemma submit_again hc R R' b b' h h' u u' : hcd_ok hc -> accepts hc h -> accepts hc h' ->
  bus_ok R none b -> bus_ok R' none b' -> same_device b b' ->
  ub_urbs b !! h = Some u -> ub_urbs b' !! h' = Some u' -> alike (u_io u) (u_io u') ->
  u_linked u = false -> u_hcpriv u = false -> u_linked u' = false -> u_hcpriv u' = false ->
  u_reject u = 0 -> u_reject u' = 0 ->
  is_Some (io_complete (u_io u)) -> buffer_live (ub_bufs b) (u_io u) ->
  is_Some (io_complete (u_io u')) -> buffer_live (ub_bufs b') (u_io u') ->
  fst <$> usb_submit_urb hc (Some h') b' = fst <$> usb_submit_urb hc (Some h) b.
Proof.
  intros Hhc Ha Ha' Hb Hb' Hsd Hu Hu' Hal Hl Hp Hl' Hp' Hr Hr' Hc Hbuf Hc' Hbuf'.
  destruct (submit_answer hc R b h u) as (ret & io & E & Hn & Hz); try done.
  destruct (submit_answer hc R' b' h' u') as (ret' & io' & E' & Hn' & Hz'); try done.
  pose proof (checks_verdict b b' _ _ Hsd Hal) as Hv. rewrite E, E' in Hv. injection Hv as ->.
  destruct (decide (ret = 0)) as [->|Hne]; [|by rewrite Hn, Hn'].
  destruct (Hz eq_refl) as (e & ep & Hpe & Hep & ->), (Hz' eq_refl) as (e' & ep' & Hpe' & Hep' & ->).
  f_equal. destruct Hsd as [Hd He Hrh]. unfold usb_pipe_endpoint in *.
  rewrite Hd, (al_pipe _ _ Hal) in Hpe'. cbn [ud_ep_in ud_ep_out set_ud_urbnum] in Hpe'.
  assert (e' = e) as -> by congruence. specialize (He e). rewrite Hep, Hep' in He.
  unfold link_error. rewrite Hr, Hr', He, Hrh, Hd. done.
Qed.

(** * A device to run it on *)

(** Endpoint 0 and an isochronous input, number 2, of 800 bytes. *)
Definition demo_ep0 : usb_host_endpoint := mk_ep (mk_epd 0 0 64) 0 0 true [].
Definition demo_ep2 : usb_host_endpoint := mk_ep (mk_epd 0x82 1 800) 0 0 true [].

Definition demo_bus : ubus :=
  mk_ubus (mk_udev USB_STATE_CONFIGURED USB_SPEED_FULL 3 true
             (<[2%nat := Some 1%nat]> (<[0%nat := Some 0%nat]> (replicate 16 None)))
             (<[0%nat := Some 0%nat]> (replicate 16 None)) 0)
    true (<[1%nat := demo_ep2]> {[0%nat := demo_ep0]}) ∅ ∅ [].

Definition demo_hc : hcd_driver := mk_hcd (fun _ _ => 0) (fun _ _ => 0) (fun _ => true).

(** A transfer of one packet, whose handler always submits it again. *)
Definition demo_io : urb_io :=
  mk_io true None (usb_rcvisocpipe (ub_dev demo_bus) 0x82) 0
    (Z.lor URB_ISO_ASAP URB_NO_TRANSFER_DMA_MAP) (Some 7%nat) 800 0 None 1 1
    (Some (fun _ => true)) [mk_packet 0 800 9 9].

Definition demo_step (s : ustate) (ev : uevent) : ustate := default s (do_event demo_hc ev s).
Definition demo_run (evs : list uevent) : ustate := foldl demo_step (none, demo_bus) evs.

Definition demo_submit : list uevent :=
  [U_buffer_alloc 7; U_alloc (Some (0%nat, [mk_packet 9 9 9 9])); U_fill 0 demo_io; U_submit 0].
Definition demo_kill : list uevent := demo_submit ++ [U_kill 0].
Definition demo_urb : urb := default (usb_init_urb []) (ub_urbs (demo_run demo_submit).2 !! 0%nat).

Lemma demo_hc_ok : hcd_ok demo_hc.
Proof. by split. Qed.

Lemma demo_fresh : fresh_bus demo_bus.
Proof.
  split_and!; try done.
  - intros e ep. unfold demo_bus. cbn [ub_eps]. intros [[_ <-]|[_ [_ <-]%lookup_singleton_Some]]%lookup_insert_Some; done.
  - split; [done|]. intros e [i Hi]%list_elem_of_lookup.
    do 16 (destruct i as [|i]; [by vm_compute in Hi; simplify_eq; vm_compute; eexists|]). done.
  - split; [done|]. intros e [i Hi]%list_elem_of_lookup.
    do 16 (destruct i as [|i]; [by vm_compute in Hi; simplify_eq; vm_compute; eexists|]). done.
Qed.


Lemma demo_steps ev evs s : allowed s ev -> is_Some (do_event demo_hc ev s) ->
  usteps demo_hc (demo_step s ev) evs (foldl demo_step (demo_step s ev) evs) ->
  usteps demo_hc s (ev :: evs) (foldl demo_step s (ev :: evs)).
Proof.
  intros Ha [s1 E] Hs. eapply usteps_cons; [done|exact E|].
  cbn [foldl]. replace (demo_step s ev) with s1 in * by (unfold demo_step; by rewrite E). done.
Qed.

Lemma usteps_app hc s1 s2 s3 evs1 evs2 : usteps hc s1 evs1 s2 -> usteps hc s2 evs2 s3 ->
  usteps hc s1 (evs1 ++ evs2) s3.
Proof. induction 1; [done|]. intros. eapply usteps_cons; eauto. Qed.

Lemma demo_filled : usteps demo_hc (none, demo_bus) (take 3 demo_submit) (demo_run (take 3 demo_submit)).
Proof.
  apply demo_steps; [done|by eexists|].
  apply demo_steps; [by intros h desc [= <- _]|by eexists|].
  apply demo_steps; [|by vm_compute; eexists|apply usteps_nil].
  split; [by vm_compute|]. eexists. split; [vm_compute; reflexivity|].
  split; [done|done|cbn; lia|..]; intros h' u' y Hne Hu'; exfalso; revert Hu'; cbn;
    by rewrite lookup_insert_ne.
Qed.

Lemma demo_submitted : usteps demo_hc (none, demo_bus) demo_submit (demo_run demo_submit).
Proof.
  apply (usteps_app demo_hc _ _ _ (take 3 demo_submit) [U_submit 0] demo_filled).
  apply demo_steps; [|by vm_compute; eexists|apply usteps_nil].
  split; [left; by vm_compute|]. eexists. split; [vm_compute; reflexivity|]. right.
  split; [done|]. right. exists 7%nat. split; [done|].
  apply (bool_decide_unpack _). vm_compute. exact I.
Qed.

Lemma demo_killing : usteps demo_hc (none, demo_bus) demo_kill (demo_run demo_kill).
Proof.
  unfold demo_kill, demo_run. rewrite foldl_app. eapply usteps_app; [apply demo_submitted|].
  apply demo_steps; [|by vm_compute; eexists|apply usteps_nil].
  split; [by vm_compute|]. eexists. split; [vm_compute; reflexivity|]. by eexists.
Qed.

(** * Properties *)

(** C8. The USB core is safe under every interleaving of drivers, completion
    handlers and the controller: from a fresh device the reference counts, the use
    counts and the queues always agree (an URB is in the queue of its own endpoint
    exactly if it is marked so, each use holds a reference, no URB that is in use is
    freed, and the buffer of a queued URB is there), and every step that is allowed
    succeeds. *)
Theorem usb_core_safe hc b0 evs R b : hcd_ok hc -> fresh_bus b0 ->
  usteps hc (none, b0) evs (R, b) ->
  bus_ok R none b /\ forall ev, allowed (R, b) ev -> exists s', do_event hc ev (R, b) = Some s'.
Proof.
  intros Hhc Hf Hs. destruct (steps_ok _ _ _ _ _ Hhc (fresh_bus_ok _ Hf) Hs) as [Hok _].
  split; [done|]. intros ev Ha. destruct (event_ok hc R b ev Hhc Hok Ha) as (R' & b' & E & _). eauto.
Qed.

Lemma usb_core_safe_witness :
  bus_ok (demo_run demo_kill).1 none (demo_run demo_kill).2 /\
  forall ev, allowed ((demo_run demo_kill).1, (demo_run demo_kill).2) ev ->
  exists s', do_event demo_hc ev ((demo_run demo_kill).1, (demo_run demo_kill).2) = Some s'.
Proof.
  apply (usb_core_safe demo_hc demo_bus demo_kill _ _ demo_hc_ok demo_fresh).
  rewrite <- surjective_pairing. apply demo_killing.
Defined.

(** C9. [usb_kill_urb] ends under every interleaving. Once submissions of an URB
    are refused, and as long as the caller waits (no [usb_kill_urb] of the URB has
    returned, and its holder has not freed it), no step of anyone adds to its pending
    work: each completion and each return of a handler takes one of a finite number of
    pending parts away, even if handlers submit the URB again; while any is left such
    a step can happen; when none is left the use count is 0 and the waiting
    [usb_kill_urb] returns. *)
Theorem kill_terminates hc b0 evs0 R b h evs R' b' : hcd_ok hc -> fresh_bus b0 ->
  usteps hc (none, b0) evs0 (R, b) -> 0 < R h -> blocked h b ->
  usteps hc (R, b) evs (R', b') -> U_killed h ∉ evs -> U_free h ∉ evs ->
  pending h b' + foldr Z.add 0 (advances h <$> evs) <= pending h b /\
  (0 < pending h b' -> exists ev, allowed (R', b') ev /\ advances h ev = 1) /\
  (pending h b' = 0 -> allowed (R', b') (U_killed h)).
Proof.
  intros Hhc Hf H0 HR Hbl Hs Hk Hfr.
  destruct (steps_ok _ _ _ _ _ Hhc (fresh_bus_ok _ Hf) H0) as [Hok _].
  destruct (steps_ok _ _ _ _ _ Hhc Hok Hs) as [Hok' Hc].
  destruct (Hc h HR Hbl Hk Hfr) as (HR' & Hbl' & Hp). split_and!; [done|by apply elem_of_advance|].
  intros Hz. destruct (pending_0 _ _ _ Hok' HR' Hz) as (u & Hu & Hus).
  destruct Hbl' as (v & Hv & Hrej). cbn in *. split; [done|]. exists u. split_and!; try done.
  congruence.
Qed.

Lemma kill_terminates_witness :
  let s := demo_run demo_kill in
  pending 0 s.2 + foldr Z.add 0 (advances 0 <$> []) <= pending 0 s.2 /\
  (0 < pending 0 s.2 -> exists ev, allowed (s.1, s.2) ev /\ advances 0 ev = 1) /\
  (pending 0 s.2 = 0 -> allowed (s.1, s.2) (U_killed 0)).
Proof.
  cbn zeta. eapply (kill_terminates demo_hc demo_bus demo_kill _ _ 0 [] _ _ demo_hc_ok demo_fresh).
  - rewrite <- surjective_pairing. apply demo_killing.
  - by vm_compute.
  - eexists. split; [vm_compute; reflexivity|by vm_compute].
  - apply usteps_nil.
  - by intros ?%elem_of_nil.
  - by intros ?%elem_of_nil.
Defined.

Lemma interval_spec speed xfertype interval i : speed <> USB_SPEED_WIRELESS ->
  urb_interval speed xfertype interval = Some i ->
  (exists k, 0 <= k /\ i = 2 ^ k) /\ 0 < i <= interval.
Proof.
  intros Hw. unfold urb_interval.
  assert (forall max j, 0 < j <= interval -> (exists k, 0 <= k /\ max = 2 ^ k) ->
    Some (Z.min max (Z.shiftl 1 (Z.log2 j))) = Some i ->
    (exists k, 0 <= k /\ i = 2 ^ k) /\ 0 < i <= interval) as Hr.
  { intros max j Hj (k & Hk & Em) [= <-].
    destruct (round_interval max j) as ((m & Hm & E) & Hle & _); [subst; lia|by eauto|lia|].
    split; [by eauto|]. rewrite E in *. split; [lia|lia]. }
  destruct speed; try done; (case_if; [done|]); try done; bool_props.
  - repeat case_if; try done; bool_props; (eapply Hr; [lia|]).
    + by exists 7.
    + by exists 10.
    + by exists 10.
  - repeat case_if; try done; bool_props; (eapply Hr; [lia|]).
    + by exists 7.
    + by exists 10.
    + by exists 10.
  - case_if; bool_props; (eapply Hr; [lia|by exists 13]).
  - case_if; [done|]. bool_props. eapply Hr; [lia|]. by exists 15.
Qed.

(** C10. Submitting an isochronous URB that is not in use, on a bus that takes it:
    if every packet fits the endpoint, the answer tells whether the endpoint takes
    transfers, and if so the URB is the last in its queue, with one more use and
    reference, its packets reset, and its interval a power of two not above the one
    asked for; if a packet does not fit, the answer is [-EMSGSIZE]; and whenever the
    answer is an error the queues, and the use and the references of the URB, are as
    before. *)
Theorem iso_submit_spec hc R b h u e ep : hcd_ok hc -> accepts hc h -> bus_ok R none b ->
  ub_urbs b !! h = Some u -> u_linked u = false -> u_hcpriv u = false ->
  is_Some (io_complete (u_io u)) -> buffer_live (ub_bufs b) (u_io u) ->
  iso_request b u e ep -> io_transfer_buffer_length (u_io u) <= INT_MAX ->
  ud_speed (ub_dev b) ∈ [USB_SPEED_LOW; USB_SPEED_FULL; USB_SPEED_HIGH] ->
  0 < io_interval (u_io u) ->
  length (io_frame_desc (u_io u)) = Z.to_nat (io_number_of_packets (u_io u)) ->
  exists r b' u', usb_submit_urb hc (Some h) b = Some (r, b') /\ ub_urbs b' !! h = Some u' /\
    bus_ok R none b' /\ only h b b' /\ same_request (u_io u) (u_io u') /\
    (Forall (packet_fits (packet_limit b ep)) (io_frame_desc (u_io u)) ->
     r = link_error u ep b) /\
    (~ Forall (packet_fits (packet_limit b ep)) (io_frame_desc (u_io u)) -> r = - EMSGSIZE) /\
    (r = 0 ->
     ub_eps b' = <[e := set_ep_urb_list (ep_urb_list ep ++ [h]) ep]> (ub_eps b) /\
     u_use_count u' = u_use_count u + 1 /\ u_kref u' = u_kref u + 1 /\
     io_frame_desc (u_io u') = reset_packet <$> io_frame_desc (u_io u) /\
     (exists k, 0 <= k /\ io_interval (u_io u') = 2 ^ k) /\
     0 < io_interval (u_io u') <= io_interval (u_io u)) /\
    (r <> 0 -> ub_eps b' = ub_eps b /\ u_linked u' = false /\
     u_use_count u' = u_use_count u /\ u_kref u' = u_kref u).
Proof.
  intros Hhc Hacc Hb Hu Hl Hp Hc Hbuf Hir Hlen Hsp Hint Hnd.
  pose proof (fun r b' u' => refused_stays hc R b h u r b' u' Hhc Hb Hu Hl Hbuf) as Href.
  assert (exists i, urb_interval (ud_speed (ub_dev b)) USB_ENDPOINT_XFER_ISOC
                      (io_interval (u_io u)) = Some i) as [i Hi].
  { unfold urb_interval. rewrite !elem_of_cons, elem_of_nil in Hsp.
    replace (io_interval (u_io u) <=? 0) with false by (symmetry; lia).
    destruct Hsp as [->|[->|[->|[]]]]; cbn; eauto. }
  assert (ud_speed (ub_dev b) <> USB_SPEED_WIRELESS) as Hw
    by (intros E; by rewrite E, !elem_of_cons, elem_of_nil in Hsp; naive_solver).
  destruct (decide (Forall (packet_fits (packet_limit b ep)) (io_frame_desc (u_io u)))) as [Hf|Hf].
  - destruct (iso_accepted hc R b h u e ep i) as (b' & u' & E & Hok & Hon & Hh & Hz); try done.
    destruct (decide (link_error u ep b = 0)) as [H0|H0].
    + destruct (Hz H0) as (Heps & Hu' & Hl' & Huse & Hk & _ & Hsr & He & Hst & Hi' & Ht).
      rewrite <- Hnd, take_ge, firstn_all in Ht by (by rewrite (same_request_desc _ _ Hsr)).
      exists (link_error u ep b), b', u'. rewrite Hi'.
      split_and!; try done. intros _. split_and!; try done; by eapply interval_spec.
    + destruct (submit_ok hc R b h u Hhc Hb Hu) as (r & b2 & E2 & _ & _ & _ & _ & u2 & Hu2 & _ & Hsr & _).
      { by right. }
      rewrite E in E2. injection E2 as <- <-. exists (link_error u ep b), b', u2. split_and!; try done. by apply Href.
  - apply (not_Forall_Exists _) in Hf as Hex. apply Exists_exists in Hex as (p & Hin & Hbad).
    apply list_elem_of_lookup in Hin as [j Hj].
    destruct (iso_too_long hc R b h u e ep j p) as (io & E & Hsr); try done.
    { rewrite <- Hnd. by eapply lookup_lt_Some. }
    destruct (submit_ok hc R b h u Hhc Hb Hu) as (r & b2 & E2 & _ & Hok & Hon & _ & u2 & Hu2 & _ & Hsr2 & _).
    { by right. }
    rewrite E in E2. injection E2 as <- <-. eexists _, _, u2. split_and!; try done. by apply Href.
Qed.

Lemma iso_submit_spec_witness : exists r b', 
  usb_submit_urb demo_hc (Some 0%nat) (demo_run (take 3 demo_submit)).2 = Some (r, b') /\
  (r = 0 -> ub_eps b' = <[1%nat := set_ep_urb_list [0%nat] demo_ep2]> (ub_eps demo_bus)).
Proof.
  destruct (iso_submit_spec demo_hc (demo_run (take 3 demo_submit)).1
              (demo_run (take 3 demo_submit)).2 0 (set_u_io demo_io (usb_init_urb [])) 1 demo_ep2)
    as (r & b' & u' & E & _ & _ & _ & _ & _ & _ & Hz & _).
  - apply demo_hc_ok.
  - by split.
  - apply (steps_ok demo_hc none demo_bus (take 3 demo_submit) _ demo_hc_ok
             (fresh_bus_ok _ demo_fresh)). apply demo_filled.
  - vm_compute. reflexivity.
  - reflexivity.
  - reflexivity.
  - by eexists.
  - right. exists 7%nat. split; [reflexivity|]. apply (bool_decide_unpack _). vm_compute. exact I.
  - split; try (vm_compute; reflexivity). by vm_compute.
  - by vm_compute.
  - apply (bool_decide_unpack _). vm_compute. exact I.
  - by vm_compute.
  - reflexivity.
  - exists r, b'. split; [exact E|]. intros H0. destruct (Hz H0) as [-> _]. reflexivity.
Defined.
