(* ===== verification/UsbFlush.v ===== *)
(** Emptying the queue of an endpoint: [usb_hcd_flush_endpoint] of
    [drivers/usb/core/hcd.c], in the steps between which it does not hold
    [hcd_urb_list_lock], interleaved with what drivers, completion handlers and the
    controller do meanwhile.

    The caller has disabled the endpoint before ([usb_disable_endpoint] of
    [message.c] writes [ep->enabled]), so that [usb_hcd_link_urb_to_ep] refuses
    further URBs. *)
From S2P Require Import Prelude UsbUrb.
Open Scope Z_scope.

(** * The steps of the flush *)

(** The first URB of a queue that is not marked yet. *)
Fixpoint first_unmarked (urbs : gmap nat urb) (l : list nat) : option (option nat) :=
  match l with
  | [] => Some None
  | h :: l => u ← urbs !! h;
              if truth (u_unlinked u) then first_unmarked urbs l else Some (Some h)
  end.

(** Where [usb_hcd_flush_endpoint] is: at [rescan], before [unlink1] of an URB it
    has taken, at the head of the second loop, before [usb_kill_urb] of an URB it
    has taken, in the wait of [usb_kill_urb], or at its end. *)
Inductive fpoint :=
| F_rescan
| F_unlink (h : nat)
| F_wait
| F_got (h : nat)
| F_kill (h : nat)
| F_done.

(** One step, up to the next point where others run. [unlink1] calls [urb_dequeue]
    of the host controller driver, which begins with [usb_hcd_check_unlink_urb]; the
    URB comes back in a step of the controller. In the wait of [usb_kill_urb]
    nothing happens while the URB is in use. *)
Definition flush_step (e : nat) (f : fpoint) (b : ubus) : option (fpoint * ubus) :=
  match f with
  | F_rescan =>
      ep ← ub_eps b !! e;
      o ← first_unmarked (ub_urbs b) (ep_urb_list ep);
      match o with
      | Some h => b ← usb_get_urb (Some h) b; Some (F_unlink h, b)
      | None => Some (F_wait, b)
      end
  | F_unlink h =>
      '(_, b) ← usb_hcd_check_unlink_urb h (- ESHUTDOWN) b;
      b ← usb_free_urb (Some h) b;
      Some (F_rescan, b)
  | F_wait =>
      ep ← ub_eps b !! e;
      match last (ep_urb_list ep) with
      | Some h => b ← usb_get_urb (Some h) b; Some (F_got h, b)
      | None => Some (F_done, b)
      end
  | F_got h =>
      u ← ub_urbs b !! h;
      if io_dev (u_io u) && bool_decide (is_Some (io_ep (u_io u))) then
        b ← kill_begin h b; Some (F_kill h, b)
      else b ← usb_free_urb (Some h) b; Some (F_wait, b)
  | F_kill h =>
      u ← ub_urbs b !! h;
      if u_use_count u =? 0 then
        b ← usb_unpoison_urb (Some h) b;
        b ← usb_free_urb (Some h) b;
        Some (F_wait, b)
      else Some (F_kill h, b)
  | F_done => Some (F_done, b)
  end.

(** The reference that the flush itself holds. *)
Definition holds (f : fpoint) (R : nat -> Z) : nat -> Z :=
  match f with
  | F_unlink h | F_got h | F_kill h => bump h 1 R
  | _ => R
  end.

(** What others may do meanwhile: what they may do at any time, with the references
    that are theirs; and who returns from another [usb_kill_urb] of the same URB
    takes back its own refusal of submissions, not the one of the flush. *)
Definition beside (f : fpoint) (s : ustate) (ev : uevent) : Prop :=
  allowed s ev /\
  forall h u, f = F_kill h -> ev = U_killed h -> ub_urbs s.2 !! h = Some u -> 1 < u_reject u.

(** A run, with the number of steps the flush made in it. *)
Inductive fsteps (hc : hcd_driver) (e : nat) : fpoint * ustate -> nat -> fpoint * ustate -> Prop :=
| fsteps_nil c : fsteps hc e c 0 c
| fsteps_other f s ev s1 n c : beside f s ev -> do_event hc ev s = Some s1 ->
    fsteps hc e (f, s1) n c -> fsteps hc e (f, s) n c
| fsteps_flush f R b f1 b1 n c : flush_step e f b = Some (f1, b1) -> f1 <> f ->
    fsteps hc e (f1, (R, b1)) n c -> fsteps hc e (f, (R, b)) (S n) c.

(** * What others do to the queue of a disabled endpoint *)

Definition is_unmarked (urbs : gmap nat urb) (h : nat) : bool :=
  match urbs !! h with Some u => u_unlinked u =? 0 | None => false end.

(** The queue of a disabled endpoint gets no new URB, and no mark is taken off one
    that stays. *)
Record fades (b b' : ubus) : Prop := mk_fades {
  fa_eps e ep : ub_eps b !! e = Some ep -> exists l, ub_eps b' !! e = Some (set_ep_urb_list l ep);
  fa_queue e ep ep' x : ub_eps b !! e = Some ep -> ep_enabled ep = false ->
    ub_eps b' !! e = Some ep' -> x ∈ ep_urb_list ep' ->
    x ∈ ep_urb_list ep /\ (is_unmarked (ub_urbs b') x = true -> is_unmarked (ub_urbs b) x = true);
  fa_ep x u u' : ub_urbs b !! x = Some u -> ub_urbs b' !! x = Some u' ->
    is_Some (io_ep (u_io u)) -> is_Some (io_ep (u_io u'))
}.

Lemma set_ep_same ep : set_ep_urb_list (ep_urb_list ep) ep = ep.
Proof. by destruct ep. Qed.

(** Only members of URBs change. *)
Lemma fades_urbs R b b' : bus_ok R none b -> ub_eps b' = ub_eps b ->
  (forall x u u', ub_urbs b !! x = Some u -> ub_urbs b' !! x = Some u' ->
     (u_unlinked u' = 0 -> u_unlinked u = 0) /\
     (is_Some (io_ep (u_io u)) -> is_Some (io_ep (u_io u')))) ->
  fades b b'.
Proof.
  intros Hb He Hu. split.
  - intros e ep Hep. exists (ep_urb_list ep). by rewrite He, set_ep_same.
  - intros e ep ep' x Hep _ Hep' Hin. rewrite He in Hep'. assert (ep' = ep) as -> by congruence.
    split; [done|]. destruct (bo_queue _ _ _ Hb e ep Hep) as [_ Hq].
    destruct (Hq x Hin) as (u & Eu & _). unfold is_unmarked. rewrite Eu.
    destruct (ub_urbs b' !! x) as [u'|] eqn:Eu'; [|done]. destruct (Hu x u u' Eu Eu') as [H0 _].
    rewrite !Z.eqb_eq. done.
  - intros x u u' Eu Eu'. by apply (Hu x u u').
Qed.

Lemma fades_put R b t u u' : bus_ok R none b -> ub_urbs b !! t = Some u ->
  (u_unlinked u' = 0 -> u_unlinked u = 0) ->
  (is_Some (io_ep (u_io u)) -> is_Some (io_ep (u_io u'))) -> fades b (put_urb t u' b).
Proof.
  intros Hb Hu H0 He. eapply fades_urbs; [done..|]. intros x v v' Ev Ev'. cbn in Ev'.
  apply lookup_insert_Some in Ev' as [[<- <-]|[_ Ev']]; [|by assert (v' = v) as -> by congruence].
  by assert (v = u) as -> by congruence.
Qed.

(** Only one URB changes, and its place. *)
Lemma fades_only t b b' : only t b b' ->
  (forall u u', ub_urbs b !! t = Some u -> ub_urbs b' !! t = Some u' ->
     is_Some (io_ep (u_io u)) -> is_Some (io_ep (u_io u'))) ->
  (forall e ep ep', ub_eps b !! e = Some ep -> ep_enabled ep = false ->
     ub_eps b' !! e = Some ep' -> t ∈ ep_urb_list ep' ->
     t ∈ ep_urb_list ep /\ (is_unmarked (ub_urbs b') t = true -> is_unmarked (ub_urbs b) t = true)) ->
  fades b b'.
Proof.
  intros Hon Hep Hq. split.
  - intros e ep E. pose proof (on_eps _ _ _ Hon e) as He. unfold same_ep in He. rewrite E in He.
    destruct (ub_eps b' !! e) as [ep'|]; [|done]. destruct He as [_ ->]. eauto.
  - intros e ep ep' x E Hd E' Hin. destruct (decide (x = t)) as [->|Hne]; [by eapply Hq|].
    pose proof (on_eps _ _ _ Hon e) as He. unfold same_ep in He. rewrite E, E' in He.
    destruct He as [Hf _]. unfold is_unmarked. rewrite (on_urbs _ _ _ Hon x Hne). split; [|done].
    assert (x ∈ filter (.≠ t) (ep_urb_list ep')) as Hx by (by apply list_elem_of_filter).
    rewrite Hf in Hx. by apply list_elem_of_filter in Hx as [_ ?].
  - intros x u u' Eu Eu'. destruct (decide (x = t)) as [->|Hne]; [by apply Hep|].
    rewrite (on_urbs _ _ _ Hon x Hne) in Eu'. by assert (u' = u) as -> by congruence.
Qed.

(** A reference is dropped. *)
Lemma fades_free R b t b' : bus_ok R none b -> 0 < R t -> kref_put t b = Some b' -> fades b b'.
Proof.
  intros Hb HR E. destruct (reachable_urb R b t Hb (or_introl HR)) as [u Hu].
  destruct (kref_put_ok R none b t u Hb Hu HR) as (b2 & E2 & _ & Hon & _ & Heps & Hput & Hdel).
  rewrite E in E2. injection E2 as <-.
  pose proof (uo_alive _ _ _ _ _ _ _ (bo_urb _ _ _ Hb t u Hu)) as Hk.
  destruct (decide (u_kref u = 1)) as [H1|H1].
  - eapply fades_urbs; [done..|]. intros x v v' Ev Ev'. rewrite (Hdel H1) in Ev'.
    apply lookup_delete_Some in Ev' as [_ Ev']. by assert (v' = v) as -> by congruence.
  - rewrite (Hput ltac:(lia)). by eapply fades_put.
Qed.

Lemma fades_end R b t b' : bus_ok R none b -> t ∈ ub_handlers b -> giveback_end t b = Some b' ->
  fades b b'.
Proof.
  intros Hb Hin E. destruct (bo_handlers _ _ _ Hb t Hin) as [u Hu].
  destruct (giveback_end_ok R b t u Hb Hu Hin) as (b2 & E2 & _ & Hon & _ & Heps & Hk & Hg).
  rewrite E in E2. injection E2 as <-. pose proof (bo_urb _ _ _ Hb t u Hu) as Ho.
  pose proof (uo_refs _ _ _ _ _ _ _ Ho). pose proof (uo_use _ _ _ _ _ _ _ Ho) as Huse.
  apply occurrences_pos in Hin. unfold none, of_bool in Huse.
  eapply fades_urbs; [done..|]. intros x v v' Ev Ev'. destruct (decide (x = t)) as [->|Hne].
  - assert (v = u) as -> by congruence.
    destruct (decide (0 < R t \/ 1 < u_use_count u)) as [Hr|Hr].
    + rewrite (Hk Hr) in Ev'. injection Ev' as <-. done.
    + rewrite Hg in Ev'; [done|lia|]. destruct (u_linked u); lia.
  - rewrite (on_urbs _ _ _ Hon x Hne) in Ev'. by assert (v' = v) as -> by congruence.
Qed.

Lemma fades_begin R b t e ep x b' : bus_ok R none b -> ub_eps b !! e = Some ep ->
  t ∈ ep_urb_list ep -> (b1 ← hcd_transfer t x b; giveback_begin t (x_status x) b1) = Some b' ->
  fades b b'.
Proof.
  intros Hb Hep Hin E. destruct (bo_queue _ _ _ Hb e ep Hep) as [_ Hq].
  destruct (Hq t Hin) as (u & Hu & Hl & _).
  destruct (complete_begin_ok R b t u x Hb Hu Hl)
    as (b2 & u' & E2 & Hok & Hon & _ & Hu' & Hl' & _ & _ & _ & _ & _ & He & _).
  rewrite E in E2. injection E2 as <-. apply (fades_only t); [done|..].
  - intros v v' Ev Ev'. assert (v = u) as -> by congruence. assert (v' = u') as -> by congruence.
    by rewrite He.
  - intros e1 ep1 ep1' _ _ Ep' Hin'. by destruct (not_queued _ _ _ _ _ _ _ Hok Hu' Hl' Ep').
Qed.

Lemma fades_submit hc R b t u r b' : hcd_ok hc -> bus_ok R none b -> ub_urbs b !! t = Some u ->
  submittable b u -> usb_submit_urb hc (Some t) b = Some (r, b') -> fades b b'.
Proof.
  intros Hhc Hb Hu Hs E.
  destruct (submit_ok hc R b t u Hhc Hb Hu Hs) as (r2 & b2 & E2 & _ & Hok & Hon & _).
  rewrite E in E2. injection E2 as <- <-.
  destruct (submit_outcome hc R b t u r b' Hhc Hb Hu Hs E) as [(u' & Hu' & He) Hq].
  apply (fades_only t); [done|..].
  - intros v v' Ev Ev'. assert (v = u) as -> by congruence. by assert (v' = u') as -> by congruence.
  - intros e ep ep' Ep Hd Ep' Hin.
    destruct Hq as [(_ & Heps & [->|Hl])|(_ & Hl & e1 & ep1 & Ep1 & Hen & Heps)].
    + assert (ep' = ep) as -> by congruence. done.
    + rewrite Heps in Ep'. by destruct (not_queued _ _ _ _ _ _ _ Hb Hu Hl Ep').
    + rewrite Heps in Ep'. destruct (decide (e = e1)) as [->|Hne]; [congruence|].
      rewrite lookup_insert_ne in Ep' by done. by destruct (not_queued _ _ _ _ _ _ _ Hb Hu Hl Ep').
Qed.

(** [usb_hcd_unlink_urb] and [usb_kill_urb] up to its wait. *)
Lemma fades_unlink R b t u e status r b' : bus_ok R none b -> ub_urbs b !! t = Some u ->
  io_ep (u_io u) = Some e -> status <> 0 -> usb_hcd_unlink_urb t status b = Some (r, b') ->
  fades b b'.
Proof.
  intros Hb Hu He Hs. rewrite (hcd_unlink_spec R b t u e status Hb Hu He). intros [= _ <-].
  case_if; [|by eapply fades_urbs; [done..|]; intros x v v' Ev Ev'; assert (v' = v) as -> by congruence].
  by eapply fades_put.
Qed.

Lemma fades_kill R b t u b' : bus_ok R none b -> ub_urbs b !! t = Some u ->
  is_Some (io_ep (u_io u)) -> kill_begin t b = Some b' -> fades b b'.
Proof.
  intros Hb Hu [e He]. unfold kill_begin. cbn [usb_block_urb]. pose proof (bo_urb _ _ _ Hb t u Hu) as Ho.
  destruct (block_ok R b t u 1 Hb Hu) as (b1 & -> & Hok & _ & ->); [destruct Ho; lia|].
  cbn [mbind option_bind]. set (u1 := set_u_reject _ _) in *.
  rewrite (hcd_unlink_spec R _ t u1 e _ Hok (put_lookup _ _ _) He).
  cbn [fmap option_fmap option_map snd]. rewrite put_urb_put. case_if; intros [= <-]; by eapply fades_put.
Qed.

(** Every step of others. *)
Lemma event_fades hc R b ev R' b' : hcd_ok hc -> bus_ok R none b -> allowed (R, b) ev ->
  do_event hc ev (R, b) = Some (R', b') -> fades b b'.
Proof.
  intros Hhc Hb Ha. assert (forall bufs, fades b (set_ub_bufs bufs b)) as Hbufs.
  { intros bufs. eapply fades_urbs; [done..|]. intros x v v' Ev Ev'. cbn in Ev'. by assert (v' = v) as -> by congruence. }
  assert (fades b b) as Hrefl by (pose proof (Hbufs (ub_bufs b)); by destruct b).
  destruct ev as [block|h io|h|h|h|h|h x|h|h|h|y|y]; cbn [do_event allowed fst snd] in *.
  - destruct block as [[t desc]|]; intros [= <- <-]; [|done]. specialize (Ha t desc eq_refl).
    eapply fades_urbs; [done..|]. intros x v v' Ev Ev'. cbn in Ev'.
    rewrite lookup_insert_ne in Ev' by congruence. by assert (v' = v) as -> by congruence.
  - destruct Ha as (_ & u & Hu & Hf). rewrite (with_urb_Some _ _ _ _ Hu). intros [= <- <-].
    eapply fades_put; [done..|]. cbn. by rewrite (mf_ep _ _ _ _ Hf).
  - destruct (reachable_urb R b h Hb Ha) as [u Hu]. cbn [usb_get_urb]. unfold kref_get.
    rewrite (with_urb_Some _ _ _ _ Hu). intros [= <- <-]. by eapply fades_put.
  - cbn [usb_free_urb]. intros (b1 & E & [= <- <-])%bind_Some. by eapply fades_free.
  - destruct Ha as (_ & u & Hu & Hs). intros ([r b1] & E & [= <- <-])%bind_Some. by eapply fades_submit.
  - destruct (reachable_urb R b h Hb Ha) as [u Hu]. cbn [usb_unlink_urb]. rewrite Hu.
    cbn [mbind option_bind]. case_if; [by intros [= <- <-]|].
    destruct (io_ep (u_io u)) as [e|] eqn:He; [|by intros [= <- <-]].
    rewrite bool_decide_eq_false_2 by done. intros ([r b1] & E & [= <- <-])%bind_Some.
    by eapply (fades_unlink R b h u e (- ECONNRESET)).
  - destruct Ha as (e & ep & Hep & Hin). intros (b1 & E1 & (b2 & E2 & [= <- <-])%bind_Some)%bind_Some.
    eapply fades_begin; [done..|]. by rewrite E1.
  - intros (b1 & E & [= <- <-])%bind_Some. by eapply fades_end.
  - destruct Ha as (_ & u & Hu & He). intros (b1 & E & [= <- <-])%bind_Some. by eapply fades_kill.
  - destruct Ha as (_ & u & Hu & _). cbn [usb_unpoison_urb]. rewrite (with_urb_Some _ _ _ _ Hu).
    intros [= <- <-]. by eapply fades_put.
  - intros [= <- <-]. apply Hbufs.
  - intros [= <- <-]. apply Hbufs.
Qed.

(** * The work that is left *)

Definition queue (e : nat) (b : ubus) : list nat :=
  match ub_eps b !! e with Some ep => ep_urb_list ep | None => [] end.

Definition unmarked (b : ubus) (l : list nat) : nat :=
  length (filter (fun h => is_unmarked (ub_urbs b) h = true) l).

(** A bound for the steps the flush still makes: two for each URB to mark, three
    for each URB in the queue; an URB it has taken counts no more. *)
Definition work (e : nat) (f : fpoint) (b : ubus) : nat :=
  let q := queue e b in
  match f with
  | F_rescan => 2 * unmarked b q + 3 * length q + 2
  | F_unlink h => 2 * unmarked b (filter (.≠ h) q) + 3 * length q + 3
  | F_wait => 3 * length q + 1
  | F_got h => 3 * length (filter (.≠ h) q) + 3
  | F_kill h => 3 * length (filter (.≠ h) q) + 2
  | F_done => 0
  end%nat.

Lemma incl_length (l l' : list nat) : NoDup l' -> (forall x, x ∈ l' -> x ∈ l) ->
  (length l' <= length l)%nat.
Proof. intros Hd Hi. by apply submseteq_length, NoDup_submseteq. Qed.

(** Others only take work away. *)
Lemma work_fades R R' e f ep b b' : bus_ok R none b -> bus_ok R' none b' -> fades b b' ->
  ub_eps b !! e = Some ep -> ep_enabled ep = false -> (work e f b' <= work e f b)%nat.
Proof.
  intros Hb Hb' Hf Hep Hd. destruct (fa_eps _ _ Hf e ep Hep) as [l Hep'].
  pose proof (bo_queue _ _ _ Hb' e _ Hep') as [Hnd _]. cbn in Hnd.
  assert (forall x, x ∈ l -> x ∈ ep_urb_list ep /\
            (is_unmarked (ub_urbs b') x = true -> is_unmarked (ub_urbs b) x = true)) as Hq
    by (intros x; apply (fa_queue _ _ Hf e ep _ x Hep Hd Hep')).
  unfold work, unmarked, queue. rewrite Hep, Hep'. cbn [ep_urb_list set_ep_urb_list].
  assert (length l <= length (ep_urb_list ep))%nat by (apply incl_length; naive_solver).
  assert (forall h, length (filter (.≠ h) l) <= length (filter (.≠ h) (ep_urb_list ep)))%nat as Hw.
  { intros h. apply incl_length; [by apply NoDup_filter|]. intros x. rewrite !list_elem_of_filter.
    naive_solver. }
  assert (forall h, length (filter (fun x => is_unmarked (ub_urbs b') x = true) (filter (.≠ h) l)) <=
    length (filter (fun x => is_unmarked (ub_urbs b) x = true) (filter (.≠ h) (ep_urb_list ep))))%nat as Hu.
  { intros h. apply incl_length; [by do 2 apply NoDup_filter|]. intros x.
    rewrite !list_elem_of_filter. naive_solver. }
  assert (length (filter (fun x => is_unmarked (ub_urbs b') x = true) l) <=
    length (filter (fun x => is_unmarked (ub_urbs b) x = true) (ep_urb_list ep)))%nat.
  { apply incl_length; [by apply NoDup_filter|]. intros x. rewrite !list_elem_of_filter. naive_solver. }
  destruct f as [|h| |h|h|]; try pose proof (Hw h); try pose proof (Hu h); lia.
Qed.

(** * The invariant of the flush *)

Record flushing (e : nat) (ep0 : usb_host_endpoint) (f : fpoint) (R : nat -> Z) (b : ubus) : Prop :=
  mk_flushing {
  fl_ok : bus_ok (holds f R) none b;
  fl_refs h : 0 <= R h;
  fl_ep : exists l, ub_eps b !! e = Some (set_ep_urb_list l ep0);
  fl_off : ep_enabled ep0 = false;
  fl_held h : f = F_unlink h \/ f = F_got h \/ f = F_kill h ->
    exists u, ub_urbs b !! h = Some u /\ is_Some (io_ep (u_io u));
  fl_blocked h : f = F_kill h -> blocked h b;
  fl_done : f = F_done -> queue e b = []
}.

Lemma holds_pos f R h : 0 < R h -> 0 < holds f R h.
Proof. destruct f; cbn; unfold bump; try case_decide; lia. Qed.

Lemma holds_held f R h : f = F_unlink h \/ f = F_got h \/ f = F_kill h ->
  holds f R h = R h + 1.
Proof. intros [->|[->| ->]]; cbn; by rewrite bump_eq. Qed.

Lemma allowed_holds f R b ev : allowed (R, b) ev -> allowed (holds f R, b) ev.
Proof. destruct ev; cbn; try done; naive_solver eauto using holds_pos. Qed.

(** What happens on the bus does not depend on the references. *)
Lemma do_event_holds hc f R b ev Q b1 : do_event hc ev (holds f R, b) = Some (Q, b1) ->
  exists R1, do_event hc ev (R, b) = Some (R1, b1) /\
    pointwise_relation nat eq Q (holds f R1).
Proof.
  assert (forall h n, pointwise_relation nat eq (bump h n (holds f R)) (holds f (bump h n R))) as Hc.
  { intros h n x. destruct f; cbn; unfold bump; repeat case_decide; lia. }
  destruct ev as [[[t desc]|]|h io|h|h|h|h|h x|h|h|h|y|y]; cbn [do_event usb_alloc_urb];
    try (by intros [= <- <-]; eexists; split; [done|]; try apply Hc).
  all: try (intros (b2 & -> & [= <- <-])%bind_Some; eexists; split; [done|]; apply Hc || done).
  all: try (intros ([r b2] & -> & [= <- <-])%bind_Some; eexists; split; [done|]; done).
  intros (b2 & -> & (b3 & E & [= <- <-])%bind_Some)%bind_Some. cbn [mbind option_bind]. rewrite E.
  by eexists.
Qed.

Lemma event_refs hc R b ev R1 b1 : (forall h, 0 <= R h) -> allowed (R, b) ev ->
  do_event hc ev (R, b) = Some (R1, b1) -> forall h, 0 <= R1 h.
Proof.
  intros HR Ha E x. pose proof (HR x).
  destruct ev as [[[t desc]|]|h io|h|h|h|h|h y|h|h|h|y|y]; cbn [do_event usb_alloc_urb allowed fst] in *;
    try (by injection E as <- _); try (by injection E as <- _; unfold bump; case_decide; lia).
  all: try (by apply bind_Some in E as (b2 & _ & [= <- _]); subst; unfold bump; try case_decide; subst; lia).
  all: try (by apply bind_Some in E as ([r b2] & _ & [= <- _])).
  by apply bind_Some in E as (b2 & _ & (b3 & _ & [= <- _])%bind_Some).
Qed.

#[local] Instance killed_dec ev h : Decision (ev = U_killed h).
Proof.
  refine (match ev with
          | U_killed x => cast_if (decide (x = h))
          | _ => right _
          end); congruence.
Defined.

#[local] Instance free_dec ev h : Decision (ev = U_free h).
Proof.
  refine (match ev with
          | U_free x => cast_if (decide (x = h))
          | _ => right _
          end); congruence.
Defined.

(** The URB that is being killed stays, and stays refused, whatever others do. *)
Lemma killing_calms hc R b ev h Q b1 : hcd_ok hc -> bus_ok (bump h 1 R) none b -> 0 <= R h ->
  beside (F_kill h) (R, b) ev -> blocked h b ->
  do_event hc ev (bump h 1 R, b) = Some (Q, b1) ->
  blocked h b1 /\ pending h b1 + advances h ev <= pending h b.
Proof.
  intros Hhc Hb HR [Ha Hk] Hbl E. pose proof (allowed_holds (F_kill h) R b ev Ha) as Ha'.
  assert (0 < bump h 1 R h) as Hpos by (rewrite bump_eq; lia).
  destruct (decide (ev = U_killed h)) as [->|Hnk]; [|destruct (decide (ev = U_free h)) as [->|Hnf]].
  - destruct Hbl as (u & Hu & _). specialize (Hk h u eq_refl eq_refl Hu). cbn in E.
    rewrite (with_urb_Some _ _ _ _ Hu) in E. injection E as _ <-. split.
    + eexists. split; [apply put_lookup|cbn; lia].
    + unfold pending. rewrite put_lookup, Hu. cbn. lia.
  - destruct Hbl as (u & Hu & Hrej). cbn in Ha, E. pose proof (bo_urb _ _ _ Hb h u Hu) as Ho.
    destruct (kref_put_ok _ none b h u Hb Hu Hpos) as (b2 & E2 & _ & _ & _ & _ & Hput & _).
    rewrite E2 in E. injection E as _ <-. rewrite Hput.
    2:{ pose proof (uo_kref _ _ _ _ _ _ _ Ho) as Hkr. pose proof (uo_use _ _ _ _ _ _ _ Ho) as Hus.
        pose proof (occurrences_nonneg h (ub_handlers b)). rewrite bump_eq in Hkr.
        unfold none, of_bool in Hus. destruct (u_linked u); lia. }
    split; [by eexists; split; [apply put_lookup|]|]. unfold pending. rewrite put_lookup, Hu. cbn. lia.
  - destruct (event_ok hc _ b ev Hhc Hb Ha') as (R2 & b2 & E2 & _ & Hc).
    rewrite E in E2. injection E2 as <- <-. by apply (Hc h Hpos).
Qed.

(** A step of others. *)
Lemma other_ok hc e ep0 f R b ev : hcd_ok hc -> flushing e ep0 f R b -> beside f (R, b) ev ->
  exists R1 b1, do_event hc ev (R, b) = Some (R1, b1) /\ flushing e ep0 f R1 b1 /\
    (work e f b1 <= work e f b)%nat /\
    forall h, f = F_kill h -> pending h b1 + advances h ev <= pending h b.
Proof.
  intros Hhc [Hok HR [l Hep] Hoff Hheld Hbl Hdone] Hbe. destruct Hbe as [Ha Hk].
  destruct (event_ok hc _ b ev Hhc Hok (allowed_holds f R b ev Ha)) as (Q & b1 & E & Hok1 & _).
  destruct (do_event_holds hc f R b ev Q b1 E) as (R1 & E1 & HQ).
  pose proof (event_fades hc _ b ev Q b1 Hhc Hok (allowed_holds f R b ev Ha) E) as Hf.
  pose proof (event_refs hc R b ev R1 b1 HR Ha E1) as HR1. rewrite HQ in Hok1.
  assert (forall h, f = F_kill h -> blocked h b1 /\ pending h b1 + advances h ev <= pending h b) as Hkill.
  { intros h ->. by apply (killing_calms hc R b ev h Q b1); auto; split. }
  exists R1, b1. split; [done|]. split; [|split].
  - split; try done; [| |by intros h Eh; apply Hkill|].
    + destruct (fa_eps _ _ Hf e _ Hep) as [l' ->]. by exists l'.
    + intros h Eh. destruct (Hheld h Eh) as (u & Hu & He).
      destruct (reachable_urb _ b1 h Hok1) as [u' Hu'].
      { left. rewrite (holds_held f R1 h Eh). specialize (HR1 h). lia. }
      exists u'. split; [done|]. by apply (fa_ep _ _ Hf h u u').
    + intros Eh. specialize (Hdone Eh). unfold queue in *. rewrite Hep in Hdone. cbn in Hdone. subst l.
      destruct (fa_eps _ _ Hf e _ Hep) as [l' Hl']. rewrite Hl'. cbn. apply elem_of_nil_inv.
      intros x Hx. destruct (fa_queue _ _ Hf e _ _ x Hep Hoff Hl' Hx) as [Hin _].
      by apply elem_of_nil in Hin.
  - by eapply (work_fades _ _ e f _ b b1 Hok Hok1 Hf Hep).
  - intros h Eh. by apply Hkill.
Qed.

(** * The steps of the flush itself *)

Lemma first_unmarked_spec urbs l : (forall h, h ∈ l -> is_Some (urbs !! h)) ->
  exists o, first_unmarked urbs l = Some o /\
    forall h, o = Some h -> h ∈ l /\ exists u, urbs !! h = Some u /\ u_unlinked u = 0.
Proof.
  induction l as [|h l IH]; intros Hl; cbn [first_unmarked]; [by exists None|].
  destruct (Hl h) as [u Hu]; [by left|]. rewrite Hu. cbn [mbind option_bind].
  unfold truth. destruct (Z.eqb_spec (u_unlinked u) 0); cbn [negb].
  - eexists. split; [done|]. intros x [= <-]. split; [by left|]. by exists u.
  - destruct IH as (o & -> & Ho); [intros; apply Hl; by right|]. eexists. split; [done|].
    intros x E. destruct (Ho x E). split; [by right|done].
Qed.

(** [usb_hcd_check_unlink_urb] marks an URB that is in a queue and not marked. *)
Lemma check_unlink_spec R b h u status : bus_ok R none b -> ub_urbs b !! h = Some u ->
  is_Some (io_ep (u_io u)) ->
  exists r, usb_hcd_check_unlink_urb h status b =
    Some (r, if u_linked u && negb (truth (u_unlinked u))
             then put_urb h (set_u_unlinked status u) b else b).
Proof.
  intros Hb Hu [e He]. pose proof (bo_urb _ _ _ Hb h u Hu) as Ho.
  destruct (uo_ep _ _ _ _ _ _ _ Ho e He) as [ep Hep]. unfold usb_hcd_check_unlink_urb.
  rewrite Hu. cbn [mbind option_bind]. rewrite He. cbn [mbind option_bind]. rewrite Hep.
  cbn [mbind option_bind]. destruct (u_linked u) eqn:Hl; cbn [andb].
  - destruct (uo_linked _ _ _ _ _ _ _ Ho Hl) as (e' & ep' & ? & ? & Hin).
    rewrite bool_decide_eq_false_2 by (simplify_eq; by intros ?).
    destruct (truth (u_unlinked u)); cbn [negb]; [by eexists|].
    rewrite (with_urb_Some _ _ _ _ Hu). by eexists.
  - rewrite bool_decide_eq_true_2 by (exact (not_queued _ _ _ _ _ _ _ Hb Hu Hl Hep)). by eexists.
Qed.

Section Steps.
Context (e : nat) (ep0 : usb_host_endpoint) (R : nat -> Z) (b : ubus).

(** What a step of the flush gives. *)
Definition step_good (f : fpoint) : Prop :=
  exists f1 b1, flush_step e f b = Some (f1, b1) /\ flushing e ep0 f1 R b1 /\
    (f1 <> f -> (work e f1 b1 < work e f b)%nat).

(** The flush takes an URB of the queue. *)
Lemma flush_take_ok f g h l : flushing e ep0 f R b -> holds f R = R -> g = F_unlink h \/ g = F_got h ->
  ub_eps b !! e = Some (set_ep_urb_list l ep0) -> h ∈ l ->
  exists u, ub_urbs b !! h = Some u /\
    usb_get_urb (Some h) b = Some (put_urb h (set_u_kref (u_kref u + 1) u) b) /\
    flushing e ep0 g R (put_urb h (set_u_kref (u_kref u + 1) u) b).
Proof.
  intros [Hok HR _ Hoff _ _ _] Hh Hg Hep Hin. rewrite Hh in Hok.
  destruct (bo_queue _ _ _ Hok e _ Hep) as [_ Hq]. destruct (Hq h Hin) as (u & Hu & _ & He).
  exists u. split; [done|]. split; [cbn; unfold kref_get; by rewrite (with_urb_Some _ _ _ _ Hu)|].
  pose proof (kref_get_ok R none b h u Hok Hu) as Hok1.
  split; [|done| |done| | |by destruct Hg as [-> | ->]].
  - by destruct Hg as [-> | ->].
  - by exists l.
  - intros x Hx. assert (x = h) as -> by (destruct Hg as [-> | ->]; naive_solver).
    eexists. split; [apply put_lookup|]. cbn. by rewrite He.
  - intros x Hx. by destruct Hg as [-> | ->].
Qed.

(** The flush gives its URB back. *)
Lemma give_ok f g h : flushing e ep0 f R b -> f = F_unlink h \/ f = F_got h \/ f = F_kill h ->
  g = F_rescan \/ g = F_wait ->
  exists b1, usb_free_urb (Some h) b = Some b1 /\ flushing e ep0 g R b1 /\ ub_eps b1 = ub_eps b /\
    forall x, is_unmarked (ub_urbs b1) x = true -> is_unmarked (ub_urbs b) x = true.
Proof.
  intros [Hok HR [l Hep] Hoff Hheld _ _] Hf Hg. destruct (Hheld h Hf) as (u & Hu & _).
  assert (0 < holds f R h) as Hpos by (rewrite (holds_held f R h Hf); specialize (HR h); lia).
  destruct (kref_put_ok _ none b h u Hok Hu Hpos) as (b1 & E & Hok1 & Hon & _ & Heps & Hput & Hdel).
  assert (bus_ok R none b1) as HokR.
  { revert Hok1. destruct Hf as [->|[->| ->]]; cbn [holds]; by rewrite bump_bump, bump_0. }
  exists b1. split; [done|]. split; [|split; [done|]].
  - split; [|done| |done| | |]; destruct Hg as [-> | ->]; try done; try (by exists l; rewrite Heps);
      by intros x; naive_solver.
  - intros x. destruct (decide (x = h)) as [->|Hne].
    + unfold is_unmarked. rewrite Hu. destruct (decide (u_kref u = 1)) as [H1|H1].
      * by rewrite (Hdel H1), lookup_delete_eq.
      * pose proof (uo_alive _ _ _ _ _ _ _ (bo_urb _ _ _ Hok h u Hu)).
        rewrite Hput by lia. by rewrite put_lookup.
    + unfold is_unmarked. by rewrite (on_urbs _ _ _ Hon x Hne).
Qed.

Lemma queue_is l : ub_eps b !! e = Some (set_ep_urb_list l ep0) -> queue e b = l.
Proof. intros E. unfold queue. by rewrite E. Qed.

(** An URB that is not in use is not in the queue. *)
Lemma idle_gone f h u l : bus_ok (holds f R) none b -> ub_urbs b !! h = Some u ->
  ~ 0 < u_use_count u -> ub_eps b !! e = Some (set_ep_urb_list l ep0) -> filter (.≠ h) l = l.
Proof.
  intros Hok Hu H0 Hep. apply filter_not_in.
  refine (not_queued _ _ _ h u e (set_ep_urb_list l ep0) Hok Hu _ Hep).
  pose proof (uo_use _ _ _ _ _ _ _ (bo_urb _ _ _ Hok h u Hu)) as Hus.
  pose proof (occurrences_nonneg h (ub_handlers b)). unfold none, of_bool in Hus.
  by destruct (u_linked u); [lia|].
Qed.

Lemma rescan_ok : flushing e ep0 F_rescan R b -> step_good F_rescan.
Proof.
  intros Hfl. pose proof Hfl as [Hok HR [l Hep] Hoff _ _ _]. cbn [holds] in Hok.
  destruct (bo_queue _ _ _ Hok e _ Hep) as [Hnd Hq]. cbn in Hnd, Hq.
  unfold step_good. cbn [flush_step]. rewrite Hep. cbn [mbind option_bind ep_urb_list set_ep_urb_list].
  destruct (first_unmarked_spec (ub_urbs b) l) as (o & -> & Ho);
    [intros h Hin; destruct (Hq h Hin) as (u & ? & _); eauto|].
  cbn [mbind option_bind]. destruct o as [h|].
  - destruct (Ho h eq_refl) as (Hin & v & Hv & H0).
    destruct (flush_take_ok F_rescan (F_unlink h) h l) as (u & Hu & -> & Hfl1); try done; [by left|].
    eexists _, _. split; [done|]. split; [done|]. intros _. unfold work.
    rewrite !(queue_is l Hep). replace (queue e (put_urb _ _ b)) with l by (symmetry; by apply queue_is).
    assert (S (unmarked (put_urb h (set_u_kref (u_kref u + 1) u) b) (filter (.≠ h) l)) <= unmarked b l)%nat;
      [|lia]. unfold unmarked.
    refine (incl_length _ (h :: _) _ _).
    + apply NoDup_cons. split; [|by do 2 apply NoDup_filter].
      rewrite !list_elem_of_filter. naive_solver.
    + intros x [->|Hx]%elem_of_cons; apply list_elem_of_filter.
      * split; [|done]. unfold is_unmarked. by rewrite Hv, H0.
      * rewrite !list_elem_of_filter in Hx. destruct Hx as (Hm & Hne & Hx). split; [|done].
        revert Hm. unfold is_unmarked. cbn. by rewrite lookup_insert_ne.
  - eexists _, _. split; [done|]. split; [|intros _; unfold work; lia].
    split; try done; [by exists l|]. intros h. naive_solver.
Qed.

Lemma wait_ok : flushing e ep0 F_wait R b -> step_good F_wait.
Proof.
  intros Hfl. pose proof Hfl as [Hok HR [l Hep] Hoff _ _ _]. cbn [holds] in Hok.
  destruct (bo_queue _ _ _ Hok e _ Hep) as [Hnd _]. cbn in Hnd.
  unfold step_good. cbn [flush_step]. rewrite Hep. cbn [mbind option_bind ep_urb_list set_ep_urb_list].
  destruct (last l) as [h|] eqn:El.
  - assert (h ∈ l) as Hin by (apply last_Some in El as [k ->]; apply elem_of_app; right; by left).
    destruct (flush_take_ok F_wait (F_got h) h l) as (u & Hu & -> & Hfl1); try done; [by right|].
    eexists _, _. split; [done|]. split; [done|]. intros _. unfold work. rewrite (queue_is l Hep).
    replace (queue e (put_urb _ _ b)) with l by (symmetry; by apply queue_is).
    assert (S (length (filter (.≠ h) l)) <= length l)%nat; [|lia].
    refine (incl_length l (h :: _) _ _).
    + apply NoDup_cons. split; [|by apply NoDup_filter]. rewrite list_elem_of_filter. naive_solver.
    + intros x [->|Hx]%elem_of_cons; [done|]. by apply list_elem_of_filter in Hx as [_ ?].
  - eexists _, _. split; [done|]. split; [|intros _; unfold work; lia].
    split; try done; [by exists l|intros h; naive_solver|]. intros _. rewrite (queue_is l Hep).
    by apply last_None.
Qed.

End Steps.

Lemma unlink_ok e ep0 R b h : flushing e ep0 (F_unlink h) R b -> step_good e ep0 R b (F_unlink h).
Proof.
  intros Hfl. pose proof Hfl as [Hok HR [l Hep] Hoff Hheld _ _].
  destruct (Hheld h ltac:(by left)) as (u & Hu & He). unfold step_good. cbn [flush_step].
  destruct (check_unlink_spec _ b h u (- ESHUTDOWN) Hok Hu He) as [r ->]. cbn [mbind option_bind].
  set (b2 := if u_linked u && _ then put_urb h _ b else b).
  assert (flushing e ep0 (F_unlink h) R b2 /\ ub_eps b2 = ub_eps b /\
    (forall x, x <> h -> ub_urbs b2 !! x = ub_urbs b !! x) /\
    (h ∈ l -> is_unmarked (ub_urbs b2) h = false)) as (Hfl2 & Heps2 & Hoth & Hmk).
  { destruct (bo_queue _ _ _ Hok e _ Hep) as [_ Hq]. cbn in Hq. unfold b2, truth.
    destruct (u_linked u) eqn:Hl; [destruct (Z.eqb_spec (u_unlinked u) 0) as [H0|H0]|]; cbn [andb negb].
    - split_and!; try done.
      + split; try done; [by apply set_unlinked_ok|by exists l|]. intros x Hx.
        assert (x = h) as -> by naive_solver. eexists. by split; [apply put_lookup|].
      + intros x Hx. cbn. by rewrite lookup_insert_ne.
      + intros _. unfold is_unmarked. by rewrite put_lookup.
    - split_and!; try done. intros _. unfold is_unmarked. rewrite Hu. lia.
    - split_and!; try done. intros Hin. destruct (Hq h Hin) as (v & Hv & Hlv & _). congruence. }
  clearbody b2. destruct (give_ok e ep0 R b2 (F_unlink h) F_rescan h) as (b1 & -> & Hfl1 & Heps1 & Hun1);
    [done|by left|by left|].
  cbn [mbind option_bind]. eexists _, _. split; [done|]. split; [done|]. intros _. unfold work.
  assert (queue e b1 = l) as -> by (unfold queue; by rewrite Heps1, Heps2, Hep).
  rewrite (queue_is e ep0 b l Hep).
  destruct (bo_queue _ _ _ Hok e _ Hep) as [Hnd _]. cbn in Hnd.
  assert (unmarked b1 l <= unmarked b (filter (.≠ h) l))%nat; [|lia]. unfold unmarked.
  apply incl_length; [by apply NoDup_filter|]. intros x. rewrite !list_elem_of_filter.
  intros [Hm Hin]. apply Hun1 in Hm. destruct (decide (x = h)) as [->|Hne]; [by rewrite Hmk in Hm|].
  split_and!; [|done|done]. unfold is_unmarked in *. by rewrite Hoth in Hm.
Qed.

Lemma got_ok e ep0 R b h : flushing e ep0 (F_got h) R b -> step_good e ep0 R b (F_got h).
Proof.
  intros Hfl. pose proof Hfl as [Hok HR [l Hep] Hoff Hheld _ _].
  destruct (Hheld h ltac:(by right; left)) as (u & Hu & He). unfold step_good. cbn [flush_step].
  rewrite Hu. cbn [mbind option_bind]. rewrite (bool_decide_eq_true_2 _ He), andb_true_r.
  destruct (io_dev (u_io u)) eqn:Hd.
  - destruct (kill_begin_ok _ b h u Hok Hu He) as (z & -> & Hok1). cbn [mbind option_bind].
    pose proof (uo_reject _ _ _ _ _ _ _ (bo_urb _ _ _ Hok h u Hu)).
    eexists _, _. split; [done|]. split.
    + split; try done; [by exists l|..]; intros x Hx; assert (x = h) as -> by naive_solver;
        eexists; (split; [apply put_lookup|]); [done|]. cbn. lia.
    + intros _. unfold work, queue. cbn [ub_eps put_urb set_ub_urbs]. lia.
  - destruct (give_ok e ep0 R b (F_got h) F_wait h) as (b1 & -> & Hfl1 & Heps1 & _);
      [done|by right; left|by right|].
    cbn [mbind option_bind]. eexists _, _. split; [done|]. split; [done|]. intros _. unfold work, queue.
    rewrite Heps1, Hep. cbn [ep_urb_list set_ep_urb_list].
    rewrite (idle_gone e ep0 R b (F_got h) h u l Hok Hu) by (done || intros H0;
      destruct (uo_dev _ _ _ _ _ _ _ (bo_urb _ _ _ Hok h u Hu) H0); congruence). lia.
Qed.

Lemma kill_ok_flush e ep0 R b h : flushing e ep0 (F_kill h) R b -> step_good e ep0 R b (F_kill h).
Proof.
  intros Hfl. pose proof Hfl as [Hok HR [l Hep] Hoff Hheld Hbl _].
  destruct (Hheld h ltac:(by right; right)) as (u & Hu & He). unfold step_good. cbn [flush_step].
  rewrite Hu. cbn [mbind option_bind]. destruct (Z.eqb_spec (u_use_count u) 0) as [H0|H0];
    [|by eexists _, _; split_and!].
  cbn [usb_unpoison_urb]. rewrite (with_urb_Some _ _ _ _ Hu). cbn [mbind option_bind].
  set (b2 := put_urb _ _ b). destruct (Hbl h eq_refl) as (v & Hv & Hrej).
  assert (v = u) as -> by congruence.
  assert (flushing e ep0 (F_got h) R b2) as Hfl2.
  { split; try done; [apply set_reject_ok; [done|done|lia]|by exists l|]. intros x Hx.
    assert (x = h) as -> by naive_solver. eexists. by split; [apply put_lookup|]. }
  destruct (give_ok e ep0 R b2 (F_got h) F_wait h) as (b1 & -> & Hfl1 & Heps1 & _);
    [done|by right; left|by right|].
  cbn [mbind option_bind]. eexists _, _. split; [done|]. split; [done|]. intros _. unfold work, queue.
  rewrite Heps1. change (ub_eps b2) with (ub_eps b). rewrite Hep. cbn [ep_urb_list set_ep_urb_list].
  rewrite (idle_gone e ep0 R b (F_kill h) h u l Hok Hu) by (done || lia). lia.
Qed.

Lemma flush_step_ok e ep0 R b f : flushing e ep0 f R b -> step_good e ep0 R b f.
Proof.
  destruct f; eauto using rescan_ok, unlink_ok, wait_ok, got_ok, kill_ok_flush.
  intros Hfl. by exists F_done, b.
Qed.

(** A run keeps the invariant, and has no more steps of the flush than there was
    work. *)
Lemma fsteps_ok hc e ep0 c n c' : hcd_ok hc -> fsteps hc e c n c' ->
  flushing e ep0 c.1 c.2.1 c.2.2 ->
  flushing e ep0 c'.1 c'.2.1 c'.2.2 /\ (n + work e c'.1 c'.2.2 <= work e c.1 c.2.2)%nat.
Proof.
  intros Hhc. induction 1 as [c|f [R b] ev s1 n c Hbe E _ IH|f R b f1 b1 n c E Hne _ IH];
    intros Hfl; cbn [fst snd] in *; [by split; [|lia]|..].
  - destruct (other_ok hc e ep0 f R b ev Hhc Hfl Hbe) as (R1 & b1 & E1 & Hfl1 & Hw & _).
    rewrite E in E1. injection E1 as ->. destruct (IH Hfl1) as [? ?]. split; [done|]. cbn in *. lia.
  - destruct (flush_step_ok e ep0 R b f Hfl) as (f2 & b2 & E2 & Hfl2 & Hw).
    rewrite E in E2. injection E2 as <- <-. destruct (IH Hfl2) as [? ?]. split; [done|].
    specialize (Hw Hne). lia.
Qed.

Lemma flushing_start e ep R b : bus_ok R none b -> ub_eps b !! e = Some ep ->
  ep_enabled ep = false -> flushing e ep F_rescan R b.
Proof.
  intros Hb Hep Hd. split; try done.
  - intros h. destruct (ub_urbs b !! h) as [u|] eqn:Hu.
    + apply (uo_refs _ _ _ _ _ _ _ (bo_urb _ _ _ Hb h u Hu)).
    + destruct (bo_gone _ _ _ Hb h Hu). lia.
  - exists (ep_urb_list ep). by rewrite set_ep_same.
  - intros h. naive_solver.
Qed.

Lemma work_start e ep b : ub_eps b !! e = Some ep ->
  (work e F_rescan b <= 5 * length (ep_urb_list ep) + 2)%nat.
Proof.
  intros Hep. unfold work, queue, unmarked. rewrite Hep.
  pose proof (length_filter (fun h => is_unmarked (ub_urbs b) h = true) (ep_urb_list ep)). lia.
Qed.

(** While the flush waits, a step of the controller or the end of a handler brings
    the URB forward. *)
Lemma waiting_advances e ep0 f R b : flushing e ep0 f R b ->
  (exists b1, flush_step e f b = Some (f, b1)) -> f <> F_done ->
  exists h, f = F_kill h /\ 0 < pending h b /\ exists ev, beside f (R, b) ev /\ advances h ev = 1.
Proof.
  intros Hfl [b1 E] Hnd. destruct f as [|h| |h|h|]; cbn [flush_step] in E; [exfalso..| |done].
  - apply bind_Some in E as (ep & _ & ([h|] & _ & E)%bind_Some); [|done].
    by apply bind_Some in E as (? & _ & ?).
  - by apply bind_Some in E as ([] & _ & (? & _ & ?)%bind_Some).
  - apply bind_Some in E as (ep & _ & E). destruct (last _); [|done].
    by apply bind_Some in E as (? & _ & ?).
  - apply bind_Some in E as (u & _ & E). revert E. case_if; by intros (? & _ & ?)%bind_Some.
  - exists h. split; [done|]. destruct Hfl as [Hok HR _ _ _ _ _]. specialize (HR h).
    assert (0 < pending h b) as Hp.
    { destruct (decide (pending h b = 0)) as [H0|H0].
      - destruct (pending_0 _ b h Hok) as (u & Hu & Huse); [cbn; rewrite bump_eq; lia|done|].
        rewrite Hu in E. cbn [mbind option_bind] in E. rewrite Huse in E. cbn [Z.eqb] in E.
        by apply bind_Some in E as (? & _ & (? & _ & ?)%bind_Some).
      - unfold pending in *. pose proof (occurrences_nonneg h (ub_handlers b)).
        destruct (ub_urbs b !! h) as [u|]; [|done]. unfold of_bool in *. destruct (u_linked u); lia. }
    split; [done|]. destruct (elem_of_advance _ b h Hok Hp) as (ev & Ha & Hadv). exists ev.
    split; [|done]. destruct ev; cbn in Hadv; try done; (split; [exact Ha|done]).
Qed.

Lemma bus_ok_enabled R b e ep v : bus_ok R none b -> ub_eps b !! e = Some ep ->
  bus_ok R none (set_ub_eps (<[e := set_ep_enabled v ep]> (ub_eps b)) b).
Proof.
  intros [] Hep.
  assert (forall t, table_ok (ub_eps b) t -> table_ok (<[e := set_ep_enabled v ep]> (ub_eps b)) t) as Ht.
  { intros t [? Ht]. split; [done|]. intros x Hx. destruct (decide (x = e)) as [->|].
    - by rewrite lookup_insert_eq.
    - rewrite lookup_insert_ne by done. auto. }
  split; cbn; auto.
  - intros h u Hu. eapply urb_ok_frame; eauto. intros x ep' _ E.
    destruct (decide (x = e)) as [->|].
    + rewrite lookup_insert_eq. eexists. split; [done|]. cbn. congruence.
    + rewrite lookup_insert_ne by done. eauto.
  - intros x ep' [[<- <-]|[Hne E]]%lookup_insert_Some; cbn; eauto.
Qed.

(** * A flush to run *)

(** The device of [demo_submit], with the endpoint disabled. *)
Definition demo_disabled : ubus :=
  set_ub_eps (<[1%nat := set_ep_enabled false (set_ep_urb_list [0%nat] demo_ep2)]>
                (ub_eps (demo_run demo_submit).2)) (demo_run demo_submit).2.

Definition demo_off : fpoint * ustate := (F_rescan, ((demo_run demo_submit).1, demo_disabled)).

Definition demo_next (c : fpoint * ustate) (a : option uevent) : fpoint * ustate :=
  match a with
  | Some ev => (c.1, demo_step c.2 ev)
  | None => match flush_step 1 c.1 c.2.2 with
            | Some (f, b) => (f, (c.2.1, b))
            | None => c
            end
  end.

Lemma demo_other c ev n d : beside c.1 c.2 ev -> is_Some (do_event demo_hc ev c.2) ->
  fsteps demo_hc 1 (demo_next c (Some ev)) n d -> fsteps demo_hc 1 c n d.
Proof.
  destruct c as [f s]. intros Hb [s1 E] Hs. cbn in *. unfold demo_step in Hs. rewrite E in Hs.
  by eapply fsteps_other.
Qed.

Lemma demo_flush c n d : (exists f b, flush_step 1 c.1 c.2.2 = Some (f, b) /\ f <> c.1) ->
  fsteps demo_hc 1 (demo_next c None) n d -> fsteps demo_hc 1 c (S n) d.
Proof.
  destruct c as [f [R b]]. intros (f1 & b1 & E & Hne) Hs. cbn in *. rewrite E in Hs.
  by eapply fsteps_flush.
Qed.

(** The URB is marked and killed; while it is waited for, it comes back, and its
    handler submits it again. *)
Definition demo_flushed : list (option uevent) :=
  [None; None; None; None; None;
   Some (U_begin 0 (mk_transfer 0 0 [])); Some (U_submit 0); Some (U_end 0); None; None].

Lemma demo_off_ok : bus_ok (demo_run demo_submit).1 none demo_disabled.
Proof.
  destruct (steps_ok _ _ _ _ _ demo_hc_ok (fresh_bus_ok _ demo_fresh) demo_submitted) as [Hok _].
  unfold demo_disabled. apply bus_ok_enabled; [exact Hok|]. vm_compute. reflexivity.
Qed.

Ltac compute_list := match goal with |- _ ∈ ?l => let v := eval vm_compute in l in
  replace l with v by (vm_compute; reflexivity) end.

Lemma demo_flushing : fsteps demo_hc 1 demo_off 7 (foldl demo_next demo_off demo_flushed).
Proof.
  unfold demo_flushed. cbn [foldl].
  do 5 (apply demo_flush; [eexists _, _; split; [vm_compute; reflexivity|by vm_compute]|]).
  apply (demo_other _ (U_begin 0 (mk_transfer 0 0 []))); [split; [|intros ? ? _ [=]]|by vm_compute; eexists|].
  { exists 1%nat. eexists. split; [vm_compute; reflexivity|]. cbn. by left. }
  apply (demo_other _ (U_submit 0)); [split; [|intros ? ? _ [=]]|by vm_compute; eexists|].
  { split; [right; compute_list; by left|]. eexists. split; [vm_compute; reflexivity|]. right.
    split; [done|]. right. exists 7%nat. split; [done|].
    apply (bool_decide_unpack _). vm_compute. exact I. }
  apply (demo_other _ (U_end 0)); [split; [|intros ? ? _ [=]]|by vm_compute; eexists|].
  { red. compute_list. by left. }
  do 2 (apply demo_flush; [eexists _, _; split; [vm_compute; reflexivity|by vm_compute]|]).
  apply fsteps_nil.
Qed.

Lemma demo_flushed_done : exists R b, foldl demo_next demo_off demo_flushed = (F_done, (R, b)).
Proof. vm_compute. by eexists _, _. Qed.

(** * Properties *)

(** C11. [usb_hcd_flush_endpoint] ends under every interleaving, if its caller has
    disabled the endpoint. Whatever drivers, completion handlers and the controller
    do between its steps (handlers that submit their URBs again included: the
    endpoint refuses them), the flush makes at most [5 n + 2] steps for the [n] URBs
    of the queue; none of its steps and none of the others faults, and the counts
    of the bus agree with the references of the drivers and the one of the flush; if
    it is not done it can make a step, or it waits in [usb_kill_urb] for an URB that
    some step of the controller or of a handler brings forward, while no step brings
    it back; and when it is done the queue is empty and it holds no reference. *)
Theorem flush_terminates hc R b e ep n f R' b' : hcd_ok hc -> bus_ok R none b ->
  ub_eps b !! e = Some ep -> ep_enabled ep = false ->
  fsteps hc e (F_rescan, (R, b)) n (f, (R', b')) ->
  (n <= 5 * length (ep_urb_list ep) + 2)%nat /\
  bus_ok (holds f R') none b' /\
  (forall ev, beside f (R', b') ev -> exists R2 b2, do_event hc ev (R', b') = Some (R2, b2) /\
     forall h, f = F_kill h -> pending h b2 + advances h ev <= pending h b') /\
  (exists f1 b1, flush_step e f b' = Some (f1, b1) /\
     (f1 = f -> f <> F_done -> exists h, f = F_kill h /\ 0 < pending h b' /\
        exists ev, beside f (R', b') ev /\ advances h ev = 1)) /\
  (f = F_done -> ub_eps b' !! e = Some (set_ep_urb_list [] ep) /\ bus_ok R' none b').
Proof.
  intros Hhc Hb Hep Hd Hs.
  destruct (fsteps_ok hc e ep _ _ _ Hhc Hs (flushing_start e ep R b Hb Hep Hd)) as [Hfl Hw].
  cbn [fst snd] in *. pose proof (work_start e ep b Hep). split; [lia|].
  split; [apply Hfl|]. split; [|split].
  - intros ev Hbe. destruct (other_ok hc e ep f R' b' ev Hhc Hfl Hbe) as (R2 & b2 & E & _ & _ & Hp).
    eauto.
  - destruct (flush_step_ok e ep R' b' f Hfl) as (f1 & b1 & E & _). exists f1, b1. split; [done|].
    intros -> Hnd. apply (waiting_advances e ep); eauto.
  - intros ->. pose proof (fl_ok _ _ _ _ _ Hfl) as Hok. split; [|done].
    destruct (fl_ep _ _ _ _ _ Hfl) as [l Hl]. pose proof (fl_done _ _ _ _ _ Hfl eq_refl) as Hq.
    unfold queue in Hq. rewrite Hl in Hq. cbn in Hq. by rewrite Hl, Hq.
Qed.

Lemma flush_terminates_witness : exists R b,
  foldl demo_next demo_off demo_flushed = (F_done, (R, b)) /\ (7 <= 5 * 1 + 2)%nat /\
  bus_ok R none b /\
  ub_eps b !! 1%nat = Some (set_ep_urb_list [] (set_ep_enabled false demo_ep2)).
Proof.
  pose proof demo_flushing as Hs. destruct demo_flushed_done as (R & b & E). exists R, b.
  rewrite E in Hs.
  destruct (flush_terminates demo_hc (demo_run demo_submit).1 demo_disabled 1
              (set_ep_enabled false (set_ep_urb_list [0%nat] demo_ep2)) 7 F_done R b
              demo_hc_ok demo_off_ok (lookup_insert_eq _ _ _) eq_refl Hs)
    as (Hn & _ & _ & _ & Hdone).
  destruct (Hdone eq_refl) as [Hq Hok]. split; [exact E|]. split; [exact Hn|].
  split; [exact Hok|exact Hq].
Defined.
