(* ===== verification/UsbMsg.v ===== *)
(** Control messages and interfaces of the USB core: [usb_control_msg] and
    [usb_set_interface] of [drivers/usb/core/message.c], with
    [usb_hcd_flush_endpoint] of [hcd.c] and the searches of [usb.c].

    The answer of the device to a control message, the success of an allocation and
    what the host controller says of the bandwidth are arguments. *)
From S2P Require Import Prelude UsbUrb UsbFlush.
Open Scope Z_scope.

(** * Emptying the queue of an endpoint *)

(** The loop [rescan] of [usb_hcd_flush_endpoint]. Here and in [flush_wait] nothing
    happens meanwhile but what is waited for; [flush_step] has what others do
    between the steps, and [flush_is_run] relates the two. *)
Fixpoint flush_unlink (fuel e : nat) (b : ubus) : option ubus :=
  ep ← ub_eps b !! e;
  o ← first_unmarked (ub_urbs b) (ep_urb_list ep);
  match o, fuel with
  | None, _ => Some b
  | Some _, O => None
  | Some h, S fuel =>
      b ← usb_get_urb (Some h) b;
      '(_, b) ← usb_hcd_check_unlink_urb h (- ESHUTDOWN) b;
      b ← usb_free_urb (Some h) b;
      flush_unlink fuel e b
  end.

(** The wait for the queue to become empty, from its end. *)
Fixpoint flush_wait (fuel : nat) (hc : hcd_driver) (x : transfer) (e : nat) (b : ubus)
    : option ubus :=
  ep ← ub_eps b !! e;
  match last (ep_urb_list ep), fuel with
  | None, _ => Some b
  | Some _, O => None
  | Some h, S fuel =>
      b ← usb_get_urb (Some h) b;
      b ← usb_kill_urb hc x (Some h) b;
      b ← usb_free_urb (Some h) b;
      flush_wait fuel hc x e b
  end.

(** [usb_hcd_flush_endpoint]; both loops have a round for each URB of the queue. *)
Definition usb_hcd_flush_endpoint (hc : hcd_driver) (x : transfer) (e : nat) (b : ubus)
    : option ubus :=
  ep ← ub_eps b !! e;
  b ← flush_unlink (length (ep_urb_list ep)) e b;
  flush_wait (length (ep_urb_list ep)) hc x e b.

(** * Endpoints *)

Definition usb_endpoint_out (epaddr : Z) : bool := negb (bit_set epaddr USB_DIR_IN).

Definition set_ud_tables (tin tout : list (option nat)) (d : usb_device) : usb_device :=
  mk_udev (ud_state d) (ud_speed d) (ud_devnum d) (ud_can_submit d) tin tout (ud_urbnum d).

(** Writing the pointer of one endpoint, in one direction. *)
Definition set_ep_slot (out : bool) (epnum : nat) (o : option nat) (d : usb_device) : usb_device :=
  if out then set_ud_tables (ud_ep_in d) (<[epnum := o]> (ud_ep_out d)) d
  else set_ud_tables (<[epnum := o]> (ud_ep_in d)) (ud_ep_out d) d.

Definition usb_disable_endpoint (hc : hcd_driver) (x : transfer) (epaddr : Z)
    (reset_hardware : bool) (b : ubus) : option ubus :=
  let epnum := Z.to_nat (Z.land epaddr USB_ENDPOINT_NUMBER_MASK) in
  let out := usb_endpoint_out epaddr in
  o ← (if out then ud_ep_out (ub_dev b) else ud_ep_in (ub_dev b)) !! epnum;
  let b := if reset_hardware then set_ub_dev (set_ep_slot out epnum None (ub_dev b)) b else b in
  match o with
  | None => Some b
  | Some e =>
      ep ← ub_eps b !! e;
      usb_hcd_flush_endpoint hc x e (set_ub_eps (<[e := set_ep_enabled false ep]> (ub_eps b)) b)
  end.

Definition usb_enable_endpoint (e : nat) (b : ubus) : option ubus :=
  ep ← ub_eps b !! e;
  let epnum := Z.to_nat (usb_endpoint_num (ep_desc ep)) in
  let out := usb_endpoint_dir_out (ep_desc ep) in
  let control := usb_endpoint_type (ep_desc ep) =? USB_ENDPOINT_XFER_CONTROL in
  let d := ub_dev b in
  let d := if out || control then set_ep_slot true epnum (Some e) d else d in
  let d := if negb out || control then set_ep_slot false epnum (Some e) d else d in
  Some (set_ub_eps (<[e := set_ep_enabled true ep]> (ub_eps b)) (set_ub_dev d b)).

(** * Control messages *)

(** What comes of a control transfer: the device ends it with some result, or the
    caller loses its patience and kills it. *)
Inductive reply :=
| Reply (x : transfer)
| Timeout (x : transfer).

(** [usb_fill_control_urb] with the handler [usb_api_blocking_completion], which
    does not submit the URB again. *)
Definition usb_fill_control_urb (pipe : Z) (setup : usb_ctrlrequest) (buffer : option nat)
    (buffer_length : Z) (io : urb_io) : urb_io :=
  mk_io true (io_ep io) pipe (io_status io) (io_transfer_flags io) buffer buffer_length
    (io_actual_length io) (Some setup) (io_number_of_packets io) (io_interval io)
    (Some (fun _ => false)) (io_frame_desc io).

(** [usb_start_wait_urb]: the result and the actual length. *)
Definition usb_start_wait_urb (hc : hcd_driver) (rp : reply) (h : nat) (b : ubus)
    : option (Z * Z * ubus) :=
  b ← with_urb h (fun u => set_u_io (set_io_result (io_status (u_io u)) 0 (u_io u)) u) b;
  '(retval, b) ← usb_submit_urb hc (Some h) b;
  '(retval, b) ←
    (if truth retval then Some (retval, b) else
     match rp with
     | Reply x =>
         b ← hcd_complete hc h x b;
         u ← ub_urbs b !! h;
         Some (io_status (u_io u), b)
     | Timeout x =>
         b ← usb_kill_urb hc x (Some h) b;
         u ← ub_urbs b !! h;
         Some (if io_status (u_io u) =? - ENOENT then - ETIMEDOUT else io_status (u_io u), b)
     end);
  u ← ub_urbs b !! h;
  b ← usb_free_urb (Some h) b;
  Some (retval, io_actual_length (u_io u), b).

Definition usb_internal_control_msg (hc : hcd_driver) (rp : reply) (block : option nat)
    (pipe : Z) (cmd : usb_ctrlrequest) (data : option nat) (len : Z) (b : ubus)
    : option (Z * ubus) :=
  match usb_alloc_urb ((.,[]) <$> block) b with
  | (None, b) => Some (- ENOMEM, b)
  | (Some h, b) =>
      b ← with_urb h (fun u => set_u_io (usb_fill_control_urb pipe cmd data len (u_io u)) u) b;
      '(retv, length, b) ← usb_start_wait_urb hc rp h b;
      Some (if retv <? 0 then retv else length, b)
  end.

(** The blocks of one message: the setup packet and the URB. *)
Record msg_blocks := mk_blocks { mb_setup : bool; mb_urb : option nat }.

Definition usb_control_msg (hc : hcd_driver) (rp : reply) (blocks : msg_blocks)
    (pipe request requesttype value index : Z) (data : option nat) (size : Z) (b : ubus)
    : option (Z * ubus) :=
  if mb_setup blocks then
    usb_internal_control_msg hc rp (mb_urb blocks) pipe
      (mk_ctrl requesttype request value index size) data size b
  else Some (- ENOMEM, b).

(** * Interfaces *)

(** An alternate setting: its number and its endpoints. *)
Record usb_host_interface := mk_alt {
  bAlternateSetting : Z;
  alt_endpoints : list nat
}.

(** [struct usb_interface]; the current setting is an index into the settings. *)
Record usb_interface := mk_intf {
  bInterfaceNumber : Z;
  altsetting : list usb_host_interface;
  cur_altsetting : nat;
  unregistering : bool
}.

Fixpoint usb_ifnum_to_if (intfs : list usb_interface) (ifnum : Z) : option nat :=
  match intfs with
  | [] => None
  | i :: intfs => if bInterfaceNumber i =? ifnum then Some 0%nat
                  else S <$> usb_ifnum_to_if intfs ifnum
  end.

Fixpoint usb_altnum_to_altsetting (alts : list usb_host_interface) (altnum : Z) : option nat :=
  match alts with
  | [] => None
  | a :: alts => if bAlternateSetting a =? altnum then Some 0%nat
                 else S <$> usb_altnum_to_altsetting alts altnum
  end.

Fixpoint disable_endpoints (hc : hcd_driver) (x : transfer) (eps : list nat) (b : ubus)
    : option ubus :=
  match eps with
  | [] => Some b
  | e :: eps =>
      ep ← ub_eps b !! e;
      b ← usb_disable_endpoint hc x (bEndpointAddress (ep_desc ep)) true b;
      disable_endpoints hc x eps b
  end.

Fixpoint enable_endpoints (eps : list nat) (b : ubus) : option ubus :=
  match eps with
  | [] => Some b
  | e :: eps => b ← usb_enable_endpoint e b; enable_endpoints eps b
  end.

Definition usb_disable_interface (hc : hcd_driver) (x : transfer) (i : usb_interface) (b : ubus)
    : option ubus :=
  alt ← altsetting i !! cur_altsetting i;
  disable_endpoints hc x (alt_endpoints alt) b.

Definition usb_enable_interface (i : usb_interface) (b : ubus) : option ubus :=
  alt ← altsetting i !! cur_altsetting i;
  enable_endpoints (alt_endpoints alt) b.

Definition USB_REQ_CLEAR_FEATURE : Z := 0x01.
Definition USB_REQ_SET_INTERFACE : Z := 0x0B.
Definition USB_RECIP_ENDPOINT : Z := 0x02.
Definition USB_ENDPOINT_HALT : Z := 0.

(** What surrounds a change of the setting: the bandwidth, a quirk of the device,
    the replies and the blocks of the control messages, and what the transfers
    brought that are cut short. *)
Record intf_env := mk_env {
  en_bandwidth : Z;
  en_no_set_intf : bool;
  en_reply : reply;
  en_blocks : msg_blocks;
  en_halt_reply : nat -> reply;
  en_halt_blocks : nat -> msg_blocks;
  en_cut : transfer
}.

(** [usb_clear_halt]; resetting the endpoint changes only the controller. *)
Definition usb_clear_halt (hc : hcd_driver) (rp : reply) (blocks : msg_blocks) (pipe : Z) (b : ubus)
    : option (Z * ubus) :=
  let endp := usb_pipeendpoint pipe in
  let endp := if usb_pipein pipe then Z.lor endp USB_DIR_IN else endp in
  '(result, b) ← usb_control_msg hc rp blocks (usb_sndctrlpipe (ub_dev b) 0)
                   USB_REQ_CLEAR_FEATURE USB_RECIP_ENDPOINT USB_ENDPOINT_HALT endp None 0 b;
  Some (if result <? 0 then result else 0, b).

(** The loop over the endpoints for a device that refused the request. *)
Fixpoint clear_halts (hc : hcd_driver) (env : intf_env) (n : nat) (eps : list nat) (b : ubus)
    : option ubus :=
  match eps with
  | [] => Some b
  | e :: eps =>
      ep ← ub_eps b !! e;
      let epaddr := bEndpointAddress (ep_desc ep) in
      let pipe := Z.lor (__create_pipe (ub_dev b) (Z.land USB_ENDPOINT_NUMBER_MASK epaddr))
                    (if usb_endpoint_out epaddr then USB_DIR_OUT else USB_DIR_IN) in
      '(_, b) ← usb_clear_halt hc (en_halt_reply env n) (en_halt_blocks env n) pipe b;
      clear_halts hc env (S n) eps b
  end.

(** [usb_set_interface]: the result, the interfaces and the bus. *)
Definition usb_set_interface (hc : hcd_driver) (env : intf_env) (interface alternate : Z)
    (intfs : list usb_interface) (b : ubus) : option (Z * list usb_interface * ubus) :=
  if ud_state (ub_dev b) =? USB_STATE_SUSPENDED then Some (- EHOSTUNREACH, intfs, b) else
  match usb_ifnum_to_if intfs interface with
  | None => Some (- EINVAL, intfs, b)
  | Some n =>
      iface ← intfs !! n;
      if unregistering iface then Some (- ENODEV, intfs, b) else
      match usb_altnum_to_altsetting (altsetting iface) alternate with
      | None => Some (- EINVAL, intfs, b)
      | Some a =>
          if en_bandwidth env <? 0 then Some (en_bandwidth env, intfs, b) else
          '(ret, b) ← (if en_no_set_intf env then Some (- EPIPE, b)
                       else usb_control_msg hc (en_reply env) (en_blocks env)
                              (usb_sndctrlpipe (ub_dev b) 0) USB_REQ_SET_INTERFACE
                              USB_RECIP_INTERFACE (u16 alternate) (u16 interface) None 0 b);
          let manual := (ret =? - EPIPE) && (length (altsetting iface) =? 1)%nat in
          if negb manual && (ret <? 0) then Some (ret, intfs, b) else
          b ← usb_disable_interface hc (en_cut env) iface b;
          let iface := mk_intf (bInterfaceNumber iface) (altsetting iface) a
                         (unregistering iface) in
          alt ← altsetting iface !! a;
          b ← (if manual then clear_halts hc env 0 (alt_endpoints alt) b else Some b);
          b ← usb_enable_interface iface b;
          Some (0, <[n := iface]> intfs, b)
      end
  end.

(** * Control messages leave nothing behind *)

(** Two buses that differ at most in the count of the URBs submitted. *)
Record quiet (b b' : ubus) : Prop := mk_quiet {
  qt_urbs : ub_urbs b' = ub_urbs b;
  qt_eps : ub_eps b' = ub_eps b;
  qt_bufs : ub_bufs b' = ub_bufs b;
  qt_handlers : ub_handlers b' = ub_handlers b;
  qt_rh : ub_rh_running b' = ub_rh_running b;
  qt_dev : ub_dev b' = set_ud_urbnum (ud_urbnum (ub_dev b')) (ub_dev b)
}.

#[export] Instance quiet_preorder : PreOrder quiet.
Proof.
  split.
  - intros b. split; try done. by destruct (ub_dev b).
  - intros b1 b2 b3 [] []. split; try congruence. rewrite qt_dev1 at 1. by rewrite qt_dev0.
Qed.

(** An URB that came and went. *)
Lemma only_quiet R R' b b1 b' h u : bus_ok R none b -> bus_ok R' none b' ->
  ub_urbs b !! h = None -> ub_urbs b' !! h = None -> b1 = put_urb h u b ->
  owned_buffer (u_io u) = None -> only h b1 b' -> ub_handlers b' = ub_handlers b -> quiet b b'.
Proof.
  intros Hb Hb' Hn Hn' -> Ho Hon Hh. split; try done; try apply Hon.
  - apply map_eq. intros x. destruct (decide (x = h)) as [->|Hne]; [congruence|].
    rewrite (on_urbs _ _ _ Hon x Hne). cbn. by rewrite lookup_insert_ne.
  - apply map_eq. intros e. pose proof (on_eps _ _ _ Hon e) as He. cbn in He. unfold same_ep in He.
    destruct (ub_eps b !! e) as [ep|] eqn:E, (ub_eps b' !! e) as [ep'|] eqn:E'; try done.
    destruct He as [Hf ->]. cbn in Hf.
    assert (forall R b e ep, bus_ok R none b -> ub_urbs b !! h = None -> ub_eps b !! e = Some ep ->
              h ∉ ep_urb_list ep) as Hq.
    { intros R0 b0 e0 ep0 Hb0 Hn0 E0 Hin. destruct (bo_queue _ _ _ Hb0 e0 ep0 E0) as [_ Hq].
      destruct (Hq h Hin) as (v & ? & _). congruence. }
    pose proof (Hq _ _ _ _ Hb' Hn' E') as Hq'. cbn in Hq'.
    rewrite !filter_not_in in Hf by eauto. rewrite Hf. by destruct ep.
  - apply set_eq. intros y. split; [apply (on_bufs _ _ _ Hon)|]. intros Hy.
    destruct (decide (y ∈ ub_bufs b')) as [|Hny]; [done|].
    destruct (on_kept _ _ _ Hon y Hy Hny) as (_ & v & Hv & Hov).
    rewrite put_lookup in Hv. congruence.
Qed.

(** A block that is fresh, and data that is there and belongs to no URB. *)
Definition msg_ok (b : ubus) (blocks : msg_blocks) (data : option nat) (size : Z) : Prop :=
  (forall h, mb_urb blocks = Some h -> ub_urbs b !! h = None) /\
  (size = 0 \/ exists y, data = Some y /\ y ∈ ub_bufs b) /\
  (forall h u y, ub_urbs b !! h = Some u -> owned_buffer (u_io u) = Some y -> data <> Some y).

Lemma idle_handlers R b b' h u' : bus_ok R none b' -> only h b b' ->
  ub_urbs b' !! h = Some u' -> u_use_count u' = 0 -> occurrences h (ub_handlers b) = 0 ->
  ub_handlers b' = ub_handlers b.
Proof.
  intros Hb' Hon Hu' H0 Hocc. pose proof (on_handlers _ _ _ Hon) as Hf.
  pose proof (uo_use _ _ _ _ _ _ _ (bo_urb _ _ _ Hb' h u' Hu')) as E.
  assert (occurrences h (ub_handlers b') = 0) as Hocc'.
  { pose proof (occurrences_nonneg h (ub_handlers b')). unfold none, of_bool in E.
    destruct (u_linked u'); lia. }
  rewrite !filter_not_in in Hf; [done|rewrite occurrences_pos; lia..].
Qed.

(** Once the URB is submitted the message comes to its end, and the URB is idle. *)
Lemma reply_ok hc R b h u rp : hcd_ok hc -> bus_ok R none b -> 0 < R h -> ub_urbs b !! h = Some u ->
  u_linked u = true -> u_use_count u = 1 -> declines (u_io u) ->
  exists b' u', (match rp with
                 | Reply x => hcd_complete hc h x b
                 | Timeout x => usb_kill_urb hc x (Some h) b
                 end) = Some b' /\ bus_ok R none b' /\ only h b b' /\
    ub_urbs b' !! h = Some u' /\ u_use_count u' = 0 /\ ub_handlers b' = ub_handlers b.
Proof.
  intros Hhc Hb HR Hu Hl Huse Hd. destruct rp as [x|x].
  - destruct (hcd_complete_ok hc R b h u x Hhc Hb Hu Hl) as (b' & E & Hok & Hon & Hh & Hk).
    destruct (Hk HR) as (u' & Hu' & _ & _ & Hq). destruct (Hq (or_intror Hd)).
    exists b', u'. split_and!; try done. lia.
  - destruct (kill_ok hc R x b h u Hhc Hb HR Hu) as (b' & u' & E & Hok & Hon & Hu' & Huse' & _).
    exists b', u'. split_and!; try done. eapply idle_handlers; eauto.
    pose proof (uo_use _ _ _ _ _ _ _ (bo_urb _ _ _ Hb h u Hu)) as E1.
    rewrite Hl, Huse in E1. unfold none in E1. cbn in E1. lia.
Qed.

(** The tail of [usb_start_wait_urb] gives the URB up. *)
Lemma free_idle R b h u : bus_ok R none b -> ub_urbs b !! h = Some u -> R h = 1 ->
  u_use_count u = 0 ->
  exists b', usb_free_urb (Some h) b = Some b' /\ bus_ok (bump h (-1) R) none b' /\ only h b b' /\
    ub_handlers b' = ub_handlers b /\ ub_urbs b' = delete h (ub_urbs b) /\ ub_eps b' = ub_eps b.
Proof.
  intros Hb Hu HR H0. destruct (kref_put_ok R none b h u Hb Hu) as (b' & E & ? & ? & ? & ? & _ & Hd); [lia|].
  exists b'. split_and!; try done. apply Hd.
  rewrite (uo_kref _ _ _ _ _ _ _ (bo_urb _ _ _ Hb h u Hu)). lia.
Qed.

Lemma start_wait_ok hc R b h u rp : hcd_ok hc -> bus_ok R none b -> R h = 1 ->
  ub_urbs b !! h = Some u -> u_use_count u = 0 -> buffer_live (ub_bufs b) (u_io u) ->
  declines (u_io u) ->
  exists r n b', usb_start_wait_urb hc rp h b = Some (r, n, b') /\
    bus_ok (bump h (-1) R) none b' /\ only h b b' /\ ub_handlers b' = ub_handlers b /\
    ub_urbs b' !! h = None.
Proof.
  intros Hhc Hb HR Hu H0 Hbuf Hd. unfold usb_start_wait_urb.
  rewrite (with_urb_Some _ _ _ _ Hu). cbn [mbind option_bind].
  set (u1 := set_u_io _ u). set (b1 := put_urb h u1 b).
  pose proof (bo_urb _ _ _ Hb h u Hu) as Ho. pose proof (occurrences_nonneg h (ub_handlers b)).
  assert (u_linked u = false) as Hl.
  { destruct Ho. unfold none, of_bool in *. by destruct (u_linked u); [lia|]. }
  assert (bus_ok R none b1) as Hok1 by (apply set_io_ok; try done; apply Ho).
  assert (only h b b1) as Hon1 by (by eapply (only_put h u1 u)).
  destruct (submit_ok hc R b1 h u1 Hhc Hok1 (put_lookup _ _ _))
    as (r & b2 & -> & _ & Hok2 & Hon2 & Hh2 & u2 & Hu2 & _ & Hsr & Hn & Hz).
  { right. by split. }
  cbn [mbind option_bind].
  assert (exists r3 b3 u3, (if truth r then Some (r, b2) else
     match rp with
     | Reply x => b ← hcd_complete hc h x b2; u ← ub_urbs b !! h; Some (io_status (u_io u), b)
     | Timeout x =>
         b ← usb_kill_urb hc x (Some h) b2; u ← ub_urbs b !! h;
         Some (if io_status (u_io u) =? - ENOENT then - ETIMEDOUT else io_status (u_io u), b)
     end) = Some (r3, b3) /\ bus_ok R none b3 /\ only h b2 b3 /\
     ub_handlers b3 = ub_handlers b2 /\ ub_urbs b3 !! h = Some u3 /\ u_use_count u3 = 0)
    as (r3 & b3 & u3 & -> & Hok3 & Hon3 & Hh3 & Hu3 & Huse3).
  { unfold truth. destruct (Z.eqb_spec r 0) as [->|Hr]; cbn [negb].
    - destruct (Hz eq_refl) as [_ Hl2].
      destruct (reply_ok hc R b2 h u2 rp Hhc Hok2) as (b3 & u3 & E & ? & ? & Hu3 & ? & ?); try done.
      { lia. }
      { rewrite (uo_use _ _ _ _ _ _ _ (bo_urb _ _ _ Hok2 h u2 Hu2)), Hl2, Hh2.
        pose proof (uo_use _ _ _ _ _ _ _ Ho) as E0. rewrite Hl, H0 in E0.
        unfold none in *. cbn in *. lia. }
      { intros f st. rewrite (sr_complete _ _ Hsr). apply Hd. }
      destruct rp; rewrite E; cbn [mbind option_bind]; rewrite Hu3; cbn [mbind option_bind];
        eexists _, b3, u3; by split_and!.
    - destruct (Hn Hr) as (_ & Hu0 & _). eexists r, b2, u2. split_and!; try done. rewrite Hu0. done. }
  cbn [mbind option_bind]. rewrite Hu3. cbn [mbind option_bind].
  destruct (free_idle R b3 h u3 Hok3 Hu3 HR Huse3) as (b4 & -> & Hok4 & Hon4 & Hh4 & Hd4 & _).
  cbn [mbind option_bind]. eexists _, _, b4. split_and!; [done|done| |by rewrite Hh4, Hh3, Hh2|].
  - etrans; [exact Hon1|]. etrans; [exact Hon2|]. by etrans.
  - rewrite Hd4. apply lookup_delete_eq.
Qed.

(** Whatever fails, a control message ends, and the URBs, the queues and the
    buffers are what they were. *)
Lemma control_msg_returns hc R b rp blocks pipe request rtype value index data size :
  hcd_ok hc -> bus_ok R none b -> msg_ok b blocks data size ->
  exists r b', usb_control_msg hc rp blocks pipe request rtype value index data size b = Some (r, b') /\
    bus_ok R none b' /\ quiet b b'.
Proof.
  intros Hhc Hb (Hf & Hbuf & Hown). unfold usb_control_msg.
  destruct (mb_setup blocks); [|by eexists _, _]. unfold usb_internal_control_msg.
  destruct (mb_urb blocks) as [h|]; [|by eexists _, _]. specialize (Hf h eq_refl).
  cbn [fmap option_fmap option_map usb_alloc_urb]. fold (put_urb h (usb_init_urb []) b).
  pose proof (alloc_urb_ok R b h [] Hb Hf) as Hok1.
  rewrite (with_urb_Some _ _ _ _ (put_lookup _ _ _)), put_urb_put. cbn [mbind option_bind].
  set (io := usb_fill_control_urb _ _ _ _ _). set (u1 := set_u_io io _).
  assert (bus_ok (bump h 1 R) none (put_urb h u1 b)) as Hok2.
  { rewrite <- (put_urb_put h (usb_init_urb []) u1). apply fill_ok; [done|apply put_lookup|].
    split; try done. intros h' u' y Hne. cbn. rewrite lookup_insert_ne by done. eauto. }
  assert (R h = 0) as HR by (by apply (bo_gone _ _ _ Hb)).
  destruct (start_wait_ok hc (bump h 1 R) (put_urb h u1 b) h u1 rp)
    as (r & n & b' & -> & Hok & Hon & Hh & Hn); try done.
  - rewrite bump_eq. lia.
  - apply put_lookup.
  - by intros f st [= <-].
  - cbn [mbind option_bind]. eexists _, b'. rewrite bump_bump, bump_0 in Hok.
    split_and!; try done. eapply (only_quiet R R b _ b' h u1); try done.
Qed.

(** * Emptying a queue *)

(** The endpoints stay, no URB comes, and a buffer goes only with its URB. *)
Record shrinks (b b' : ubus) : Prop := mk_shrinks {
  sk_eps e : ep_desc <$> ub_eps b' !! e = ep_desc <$> ub_eps b !! e;
  sk_owned h u' : ub_urbs b' !! h = Some u' ->
    exists u, ub_urbs b !! h = Some u /\ owned_buffer (u_io u') = owned_buffer (u_io u);
  sk_bufs : (forall h u, ub_urbs b !! h = Some u -> owned_buffer (u_io u) = None) ->
    ub_bufs b' = ub_bufs b
}.

Lemma sk_urbs b b' h : shrinks b b' -> ub_urbs b !! h = None -> ub_urbs b' !! h = None.
Proof.
  intros Hs Hn. destruct (ub_urbs b' !! h) as [u'|] eqn:E; [|done].
  destruct (sk_owned _ _ Hs h u' E) as (u & ? & _). congruence.
Qed.

#[export] Instance shrinks_preorder : PreOrder shrinks.
Proof.
  split; [by intros b; split; eauto|]. intros b1 b2 b3 [E1 O1 B1] [E2 O2 B2]. split.
  - congruence.
  - intros h u3 H3. destruct (O2 h u3 H3) as (u2 & H2 & ?). destruct (O1 h u2 H2) as (u1 & ? & ?).
    exists u1. split; [done|congruence].
  - intros Hn. rewrite B2, B1; [done|done|]. intros h u2 H2.
    destruct (O1 h u2 H2) as (u1 & H1 & ->). eauto.
Qed.

Lemma only_shrinks h b b' : only h b b' -> shrinks b b'.
Proof.
  intros Hon. split.
  - intros e. pose proof (on_eps _ _ _ Hon e) as He. unfold same_ep in He.
    destruct (ub_eps b !! e), (ub_eps b' !! e); try done. destruct He as [_ ->]. done.
  - intros x u' Hx. destruct (decide (x = h)) as [->|Hne]; [by apply (on_owned _ _ _ Hon)|].
    rewrite (on_urbs _ _ _ Hon) in Hx by done. eauto.
  - intros Hn. apply set_eq. intros y. split; [apply (on_bufs _ _ _ Hon)|]. intros Hy.
    destruct (decide (y ∈ ub_bufs b')) as [|Hny]; [done|].
    destruct (on_kept _ _ _ Hon y Hy Hny) as (_ & u & Hu & Ho). rewrite (Hn h u Hu) in Ho. done.
Qed.

Lemma quiet_shrinks b b' : quiet b b' -> shrinks b b'.
Proof. intros []. split; rewrite ?qt_eps0, ?qt_urbs0; eauto. Qed.

(** A filter that lets less through. *)
Lemma filter_less (P Q : nat -> bool) (l : list nat) h : (forall x, Q x = true -> P x = true) ->
  h ∈ l -> P h = true -> Q h = false ->
  (length (filter (fun x => Q x = true) l) < length (filter (fun x => P x = true) l))%nat.
Proof.
  intros HQP. assert (forall k : list nat, (length (filter (fun x => Q x = true) k) <=
    length (filter (fun x => P x = true) k))%nat) as Hle.
  { induction k as [|x k IH]; [done|]. rewrite !filter_cons. repeat case_decide; cbn; try lia.
    exfalso. eauto. }
  induction l as [|x l IH]; [by intros ?%elem_of_nil|]. intros Hin HP HQ. rewrite !filter_cons.
  apply elem_of_cons in Hin as [->|Hin].
  - rewrite decide_False, decide_True by (done || congruence). cbn. specialize (Hle l). lia.
  - specialize (IH Hin HP HQ). repeat case_decide; cbn; try lia. exfalso. eauto.
Qed.

(** One round of the marking. *)
Lemma mark_ok R b e ep h u : bus_ok R none b -> ub_eps b !! e = Some ep -> h ∈ ep_urb_list ep ->
  ub_urbs b !! h = Some u -> u_unlinked u = 0 ->
  (b1 ← usb_get_urb (Some h) b;
   '(_, b1) ← usb_hcd_check_unlink_urb h (- ESHUTDOWN) b1;
   usb_free_urb (Some h) b1) = Some (put_urb h (set_u_unlinked (- ESHUTDOWN) u) b) /\
  bus_ok R none (put_urb h (set_u_unlinked (- ESHUTDOWN) u) b).
Proof.
  intros Hb Hep Hin Hu H0. split; [|by apply set_unlinked_ok].
  destruct (bo_queue _ _ _ Hb e ep Hep) as [_ Hq]. destruct (Hq h Hin) as (v & Hv & Hl & He).
  assert (v = u) as -> by congruence. clear Hv.
  pose proof (uo_alive _ _ _ _ _ _ _ (bo_urb _ _ _ Hb h u Hu)) as Hk.
  cbn [usb_get_urb usb_free_urb]. unfold kref_get.
  rewrite (with_urb_Some _ _ _ _ Hu). cbn [mbind option_bind]. unfold usb_hcd_check_unlink_urb.
  rewrite put_lookup. cbn [mbind option_bind]. cbn [u_io set_u_kref]. rewrite He.
  cbn [mbind option_bind]. change (ub_eps (put_urb _ _ b)) with (ub_eps b). rewrite Hep.
  cbn [mbind option_bind]. rewrite bool_decide_eq_false_2 by (by intros ?).
  cbn [u_unlinked set_u_kref]. rewrite H0. cbn [truth negb Z.eqb].
  rewrite (with_urb_Some _ _ _ _ (put_lookup _ _ _)), put_urb_put. cbn [mbind option_bind].
  unfold kref_put, kref_sub. rewrite (with_urb_Some _ _ _ _ (put_lookup _ _ _)), put_urb_put.
  cbn [mbind option_bind]. rewrite put_lookup. cbn [mbind option_bind].
  cbn [u_kref set_u_kref set_u_unlinked].
  replace (u_kref u + 1 - 1) with (u_kref u) by lia.
  replace (u_kref u =? 0) with false by (symmetry; lia).
  done.
Qed.

Lemma flush_unlink_ok R e ep fuel : forall b, bus_ok R none b -> ub_eps b !! e = Some ep ->
  (length (filter (fun h => is_unmarked (ub_urbs b) h = true) (ep_urb_list ep)) <= fuel)%nat ->
  exists b', flush_unlink fuel e b = Some b' /\ bus_ok R none b' /\ ub_eps b' = ub_eps b /\
    shrinks b b'.
Proof.
  induction fuel as [|fuel IH]; intros b Hb Hep Hf; cbn [flush_unlink]; rewrite Hep;
    cbn [mbind option_bind];
    (destruct (first_unmarked_spec (ub_urbs b) (ep_urb_list ep)) as (o & -> & Ho);
      [intros h Hin; destruct (bo_queue _ _ _ Hb e ep Hep) as [_ Hq];
       destruct (Hq h Hin) as (u & ? & _); eauto|]);
    cbn [mbind option_bind]; destruct o as [h|]; try (by exists b);
    destruct (Ho h eq_refl) as (Hin & u & Hu & H0).
  - exfalso. assert (h ∈ filter (fun h => is_unmarked (ub_urbs b) h = true) (ep_urb_list ep)) as Hx.
    { apply list_elem_of_filter. split; [|done]. unfold is_unmarked. rewrite Hu, H0. done. }
    destruct (filter _ _); [by apply elem_of_nil in Hx|cbn in Hf; lia].
  - destruct (mark_ok R b e ep h u Hb Hep Hin Hu H0) as [E Hok].
    destruct (usb_get_urb (Some h) b) as [b1|]; [|done]. cbn [mbind option_bind] in E |- *.
    destruct (usb_hcd_check_unlink_urb h (- ESHUTDOWN) b1) as [[r b2]|]; [|done].
    cbn [mbind option_bind] in E |- *. rewrite E. cbn [mbind option_bind].
    destruct (IH (put_urb h (set_u_unlinked (- ESHUTDOWN) u) b) Hok Hep) as (b' & E' & ? & ? & ?).
    2:{ exists b'. split_and!; try done. etrans; [|done]. eapply (only_shrinks h), only_put; done. }
    apply Nat.lt_succ_r. eapply Nat.lt_le_trans; [|exact Hf]. eapply (filter_less _ _ _ h); [|done|..].
    + intros x. unfold is_unmarked. cbn. destruct (decide (x = h)) as [->|].
      * rewrite lookup_insert_eq. done.
      * by rewrite lookup_insert_ne.
    + unfold is_unmarked. by rewrite Hu, H0.
    + unfold is_unmarked. cbn. by rewrite lookup_insert_eq.
Qed.

(** The last URB of a queue is killed: it leaves the queue, even if its handler
    submits it again. *)
Lemma flush_round hc R x e ep h l b : hcd_ok hc -> bus_ok R none b -> ub_eps b !! e = Some ep ->
  ep_urb_list ep = l ++ [h] ->
  exists b', (b1 ← usb_get_urb (Some h) b;
              b1 ← usb_kill_urb hc x (Some h) b1;
              usb_free_urb (Some h) b1) = Some b' /\
    bus_ok R none b' /\ ub_eps b' !! e = Some (set_ep_urb_list l ep) /\ shrinks b b'.
Proof.
  intros Hhc Hb Hep Hl. destruct (bo_queue _ _ _ Hb e ep Hep) as [Hnd Hq].
  destruct (Hq h) as (u & Hu & _); [rewrite Hl; apply elem_of_app; right; by left|].
  cbn [usb_get_urb usb_free_urb]. unfold kref_get. rewrite (with_urb_Some _ _ _ _ Hu).
  cbn [mbind option_bind]. set (u1 := set_u_kref _ _). set (b1 := put_urb h u1 b).
  pose proof (kref_get_ok _ _ _ _ _ Hb Hu : bus_ok (bump h 1 R) none b1) as Hok1.
  pose proof (uo_refs _ _ _ _ _ _ _ (bo_urb _ _ _ Hb h u Hu)) as HR.
  destruct (kill_ok hc (bump h 1 R) x b1 h u1 Hhc Hok1) as (b2 & u2 & -> & Hok2 & Hon2 & Hu2 & H0 & _);
    [rewrite bump_eq; lia|apply put_lookup|].
  cbn [mbind option_bind].
  destruct (kref_put_ok _ _ _ h u2 Hok2 Hu2) as (b' & E & Hok & Hon & _ & Heps & _);
    [rewrite bump_eq; lia|].
  exists b'. rewrite bump_bump, bump_0 in Hok. split_and!; [done|done| |].
  2:{ apply (only_shrinks h). etrans; [by eapply (only_put h u1 u)|]. by etrans. }
  rewrite Heps.
  pose proof (on_eps _ _ _ Hon2 e) as He. unfold same_ep in He.
  change (ub_eps b1) with (ub_eps b) in He. rewrite Hep in He.
  destruct (ub_eps b2 !! e) as [ep2|] eqn:E2; [|done]. destruct He as [Hf ->]. f_equal. f_equal.
  assert (u_linked u2 = false) as Hl2.
  { pose proof (uo_use _ _ _ _ _ _ _ (bo_urb _ _ _ Hok2 h u2 Hu2)) as Huse.
    pose proof (occurrences_nonneg h (ub_handlers b2)). unfold none, of_bool in Huse.
    by destruct (u_linked u2); [lia|]. }
  pose proof (not_queued _ _ _ _ _ _ _ Hok2 Hu2 Hl2 E2) as Hnq. cbn in Hnq.
  rewrite (filter_not_in h (ep_urb_list ep2)) in Hf by done. rewrite Hl in Hnd, Hf.
  apply NoDup_app in Hnd as (_ & Hd & _).
  rewrite filter_app, filter_cons_False, filter_nil, app_nil_r, filter_not_in in Hf; [done| |naive_solver].
  intros Hin. apply (Hd h Hin). by left.
Qed.

Lemma flush_wait_ok hc R x e ep fuel : hcd_ok hc -> forall l b, bus_ok R none b ->
  ub_eps b !! e = Some (set_ep_urb_list l ep) -> (length l <= fuel)%nat ->
  exists b', flush_wait fuel hc x e b = Some b' /\ bus_ok R none b' /\
    ub_eps b' !! e = Some (set_ep_urb_list [] ep) /\ shrinks b b'.
Proof.
  intros Hhc. induction fuel as [|fuel IH]; intros l b Hb Hep Hf; cbn [flush_wait]; rewrite Hep;
    cbn [mbind option_bind]; destruct l as [|h l _] using rev_ind; cbn [last ep_urb_list set_ep_urb_list];
    try (by exists b).
  - rewrite length_app in Hf. cbn in Hf. lia.
  - rewrite last_snoc.
    destruct (flush_round hc R x e _ h l b Hhc Hb Hep eq_refl) as (b' & E & Hok & Hep' & Hsh).
    destruct (usb_get_urb (Some h) b) as [b1|]; [|done]. cbn [mbind option_bind] in E |- *.
    destruct (usb_kill_urb hc x (Some h) b1) as [b2|]; [|done]. cbn [mbind option_bind] in E |- *.
    rewrite E. cbn [mbind option_bind]. rewrite length_app in Hf. cbn in Hf.
    destruct (IH l b' Hok Hep') as (b3 & E3 & ? & ? & ?); [lia|].
    exists b3. split_and!; try done. by etrans.
Qed.

Lemma flush_ok hc R x e ep b : hcd_ok hc -> bus_ok R none b -> ub_eps b !! e = Some ep ->
  exists b', usb_hcd_flush_endpoint hc x e b = Some b' /\ bus_ok R none b' /\
    ub_eps b' !! e = Some (set_ep_urb_list [] ep) /\ shrinks b b'.
Proof.
  intros Hhc Hb Hep. unfold usb_hcd_flush_endpoint. rewrite Hep. cbn [mbind option_bind].
  destruct (flush_unlink_ok R e ep (length (ep_urb_list ep)) b Hb Hep) as (b1 & -> & Hok & He & Hs).
  { apply length_filter. }
  cbn [mbind option_bind].
  destruct (flush_wait_ok hc R x e ep (length (ep_urb_list ep)) Hhc (ep_urb_list ep) b1 Hok)
    as (b' & -> & ? & ? & ?); [rewrite He, Hep; by destruct ep|done|].
  exists b'. split_and!; try done. by etrans.
Qed.

(** ** The flush of one thread is a run of the interleaved one

    The functions above are the schedule in which nothing but the URB that is waited
    for moves. *)

(** One transfer, as steps of the controller and of the handler. *)
Lemma complete_run hc R Q x e f h b u b' n c : hcd_ok hc -> bus_ok Q none b ->
  ub_urbs b !! h = Some u -> u_linked u = true -> hcd_complete hc h x b = Some b' ->
  fsteps hc e (f, (R, b')) n c -> fsteps hc e (f, (R, b)) n c.
Proof.
  intros Hhc Hb Hu Hl E Hs. pose proof (bo_urb _ _ _ Hb h u Hu) as Ho.
  destruct (uo_linked _ _ _ _ _ _ _ Ho Hl) as (e' & ep & _ & Hep & Hin).
  destruct (complete_begin_ok Q b h u x Hb Hu Hl)
    as (b1 & u1 & E1 & Hok1 & Hon1 & Hh1 & Hu1 & Hl1 & _ & _ & _ & _ & Hsr1 & _).
  assert (submittable b1 u1) as Hs1.
  { right. split; [done|]. unfold buffer_live.
    rewrite (sr_buffer _ _ Hsr1), (sr_length _ _ Hsr1), (only_bufs _ _ _ Hon1) by eauto. by apply Ho. }
  unfold hcd_complete, usb_hcd_giveback_urb in E.
  destruct (hcd_transfer h x b) as [b0|] eqn:E0; [|done]. cbn [mbind option_bind] in E, E1.
  rewrite E1 in E. cbn [mbind option_bind] in E. apply bind_Some in E as (b2 & E2 & E3).
  assert (ub_handlers b2 = ub_handlers b1 /\ (b2 = b1 \/ exists r, usb_submit_urb hc (Some h) b1 = Some (r, b2)))
    as [Hh2 Hsub].
  { revert E2. unfold run_handler. rewrite Hu1. cbn [mbind option_bind].
    intros (g & _ & E2)%bind_Some. revert E2. case_if; [|intros [= <-]; by split; [|left]].
    destruct (submit_ok hc Q b1 h u1 Hhc Hok1 Hu1 Hs1) as (r & b3 & -> & _ & _ & _ & Hh3 & _).
    intros [= <-]. split; [done|]. right. by exists r. }
  assert (h ∈ ub_handlers b1) as Hin1 by (rewrite Hh1; by left).
  apply (fsteps_other _ _ _ _ (U_begin h x) (R, b1)); [split; [by exists e', ep|done]|cbn; by rewrite E0; cbn; rewrite E1|].
  assert (fsteps hc e (f, (R, b2)) n c) as Hs2.
  { apply (fsteps_other _ _ _ _ (U_end h) (R, b')); [split; [cbn; by rewrite Hh2|done]| |done].
    cbn. by rewrite E3. }
  destruct Hsub as [->|[r E4]]; [done|].
  apply (fsteps_other _ _ _ _ (U_submit h) (R, b2)); [split; [|done]|cbn [do_event]; by rewrite E4|done].
  split; [by right|]. by exists u1.
Qed.

Lemma kill_wait_run hc R Q x e h n c : hcd_ok hc -> 0 < Q h -> forall fuel b u b',
  bus_ok Q none b -> ub_urbs b !! h = Some u -> kill_wait fuel hc x h b = Some b' ->
  fsteps hc e (F_kill h, (R, b')) n c -> fsteps hc e (F_kill h, (R, b)) n c.
Proof.
  intros Hhc HQ. induction fuel as [|fuel IH]; intros b u b' Hb Hu E Hs; cbn [kill_wait] in E;
    rewrite Hu in E; cbn [mbind option_bind] in E;
    (destruct (Z.eqb_spec (u_use_count u) 0) as [H0|H0]; [by injection E as ->|]); [done|].
  apply bind_Some in E as (b1 & E1 & E). case_decide as Hin.
  - destruct (giveback_end_ok Q b h u Hb Hu Hin) as (b2 & E2 & Hok & _ & _ & _ & Hk & _).
    rewrite E1 in E2. injection E2 as <-.
    apply (fsteps_other _ _ _ _ (U_end h) (R, b1)); [split; done|cbn; by rewrite E1|].
    eapply (IH b1); [done|by apply Hk; left|done..].
  - assert (u_linked u = true) as Hl.
    { pose proof (uo_use _ _ _ _ _ _ _ (bo_urb _ _ _ Hb h u Hu)) as Hus.
      rewrite occurrences_pos in Hin. pose proof (occurrences_nonneg h (ub_handlers b)).
      unfold none, of_bool in Hus. destruct (u_linked u); [done|lia]. }
    destruct (hcd_complete_ok hc Q b h u x Hhc Hb Hu Hl) as (b2 & E2 & Hok & _ & _ & Hk).
    rewrite E1 in E2. injection E2 as <-. destruct (Hk HQ) as (u1 & Hu1 & _).
    eapply complete_run; eauto.
Qed.

(** [usb_kill_urb] and the put of an URB that the flush has taken. *)
Lemma got_run hc R x e h b1 u1 b2 b3 n c : hcd_ok hc -> bus_ok (bump h 1 R) none b1 ->
  0 < bump h 1 R h -> ub_urbs b1 !! h = Some u1 -> is_Some (io_ep (u_io u1)) ->
  usb_kill_urb hc x (Some h) b1 = Some b2 -> usb_free_urb (Some h) b2 = Some b3 ->
  fsteps hc e (F_wait, (R, b3)) n c -> exists k, fsteps hc e (F_got h, (R, b1)) k c.
Proof.
  intros Hhc Hok1 Hpos Hu1 He E2 E3' Hn.
  cbn [usb_kill_urb] in E2. rewrite Hu1 in E2. cbn [mbind option_bind] in E2.
  destruct (io_dev (u_io u1) && bool_decide (is_Some (io_ep (u_io u1)))) eqn:Ed.
  - apply bind_Some in E2 as (b4 & E4 & (b5 & E5 & E6)%bind_Some).
    destruct (kill_begin_ok _ b1 h u1 Hok1 Hu1) as (z & E4' & Hok4); [done|].
    rewrite E4 in E4'. injection E4' as ->.
    exists (S (S n)). apply (fsteps_flush _ _ _ _ _ (F_kill h) (put_urb h (set_u_unlinked z (set_u_reject (u_reject u1 + 1) u1)) b1));
      [|done|].
    { cbn [flush_step]. rewrite Hu1. cbn [mbind option_bind]. by rewrite Ed, E4. }
    eapply (kill_wait_run hc R (bump h 1 R)); [done|done|exact Hok4|apply put_lookup|exact E5|].
    destruct (kill_wait_ok hc (bump h 1 R) x h Hhc Hpos (Z.to_nat (u_use_count u1)) _ _ Hok4 (put_lookup _ _ _))
      as (b6 & u6 & E6' & _ & _ & Hu6 & H06 & _).
    { cbn. pose proof (uo_reject _ _ _ _ _ _ _ (bo_urb _ _ _ Hok1 h u1 Hu1)). cbn in *. lia. }
    { cbn. lia. }
    assert (Some b6 = Some b5) as [= ->] by (rewrite <- E6'; exact E5).
    apply (fsteps_flush _ _ _ _ _ F_wait b3); [|done|done]. cbn [flush_step]. rewrite Hu6.
    cbn [mbind option_bind]. rewrite H06. cbn [Z.eqb]. rewrite E6. cbn [mbind option_bind].
    by rewrite E3'.
  - injection E2 as <-. exists (S n). apply (fsteps_flush _ _ _ _ _ F_wait b3); [|done|done].
    cbn [flush_step]. rewrite Hu1. cbn [mbind option_bind]. by rewrite Ed, E3'.
Qed.

Lemma flush_wait_run hc R x e fuel : hcd_ok hc -> forall l b b' ep, bus_ok R none b ->
  ub_eps b !! e = Some (set_ep_urb_list l ep) -> flush_wait fuel hc x e b = Some b' ->
  exists n, fsteps hc e (F_wait, (R, b)) n (F_done, (R, b')).
Proof.
  intros Hhc. induction fuel as [|fuel IH]; intros l b b' ep Hb Hep E; cbn [flush_wait] in E;
    rewrite Hep in E; cbn [mbind option_bind ep_urb_list set_ep_urb_list] in E;
    (destruct l as [|h l _] using rev_ind; [cbn in E; injection E as <-; exists 1%nat;
      apply (fsteps_flush _ _ _ _ _ F_done b); [cbn; by rewrite Hep|done|apply fsteps_nil]|]);
    rewrite last_snoc in E; [done|].
  destruct (flush_round hc R x e _ h l b Hhc Hb Hep eq_refl) as (b3 & E3 & Hok3 & Hep3 & _).
  apply bind_Some in E as (b1 & E1 & (b2 & E2 & (b3' & E3' & E)%bind_Some)%bind_Some).
  rewrite E1 in E3. cbn [mbind option_bind] in E3. rewrite E2 in E3. cbn [mbind option_bind] in E3.
  rewrite E3' in E3. injection E3 as ->. destruct (IH l b3 b' ep Hok3 Hep3 E) as [n Hn].
  destruct (bo_queue _ _ _ Hb e _ Hep) as [_ Hq].
  destruct (Hq h) as (u & Hu & _ & He); [cbn; apply elem_of_app; right; by left|].
  assert (exists k, fsteps hc e (F_got h, (R, b1)) k (F_done, (R, b'))) as [k Hk].
  2:{ exists (S k). apply (fsteps_flush _ _ _ _ _ (F_got h) b1); [|done|done].
      cbn [flush_step]. rewrite Hep. cbn [mbind option_bind ep_urb_list set_ep_urb_list].
      by rewrite last_snoc, E1. }
  cbn [usb_get_urb] in E1. unfold kref_get in E1. rewrite (with_urb_Some _ _ _ _ Hu) in E1.
  injection E1 as <-. set (u1 := set_u_kref _ u) in *. set (b1 := put_urb h u1 b) in *.
  pose proof (kref_get_ok R none b h u Hb Hu : bus_ok (bump h 1 R) none b1) as Hok1.
  assert (ub_urbs b1 !! h = Some u1) as Hu1 by apply put_lookup.
  assert (0 < bump h 1 R h) as Hpos.
  { rewrite bump_eq. pose proof (uo_refs _ _ _ _ _ _ _ (bo_urb _ _ _ Hb h u Hu)). lia. }
  eapply (got_run hc R x e h b1 u1); eauto.
Qed.

Lemma flush_unlink_run hc R e fuel f : forall b b' n c, flush_unlink fuel e b = Some b' ->
  fsteps hc e (F_wait, (R, b')) n c -> f = F_rescan ->
  exists n, fsteps hc e (f, (R, b)) n c.
Proof.
  induction fuel as [|fuel IH]; intros b b' n c E Hs ->; cbn [flush_unlink] in E;
    apply bind_Some in E as (ep & Hep & (o & Ho & E)%bind_Some); (destruct o as [h|];
      [|injection E as <-; exists (S n); apply (fsteps_flush _ _ _ _ _ F_wait b); [|done|done];
        cbn [flush_step]; by rewrite Hep; cbn [mbind option_bind]; rewrite Ho]); [done|].
  apply bind_Some in E as (b1 & E1 & ([r b2] & E2 & (b3 & E3 & E)%bind_Some)%bind_Some).
  destruct (IH b3 b' n c E Hs eq_refl) as [k Hk]. exists (S (S k)).
  apply (fsteps_flush _ _ _ _ _ (F_unlink h) b1); [|done|].
  { cbn [flush_step]. rewrite Hep. cbn [mbind option_bind]. rewrite Ho. cbn [mbind option_bind].
    by rewrite E1. }
  apply (fsteps_flush _ _ _ _ _ F_rescan b3); [|done|done].
  cbn [flush_step]. rewrite E2. cbn [mbind option_bind]. by rewrite E3.
Qed.

Lemma flush_is_run hc R x e ep b b' : hcd_ok hc -> bus_ok R none b -> ub_eps b !! e = Some ep ->
  usb_hcd_flush_endpoint hc x e b = Some b' ->
  exists n, fsteps hc e (F_rescan, (R, b)) n (F_done, (R, b')).
Proof.
  intros Hhc Hb Hep. unfold usb_hcd_flush_endpoint. rewrite Hep. cbn [mbind option_bind].
  intros (b1 & E1 & E2)%bind_Some.
  destruct (flush_unlink_ok R e ep (length (ep_urb_list ep)) b Hb Hep) as (b2 & E1' & Hok & He & _).
  { apply length_filter. }
  rewrite E1 in E1'. injection E1' as <-.
  destruct (flush_wait_run hc R x e (length (ep_urb_list ep)) Hhc (ep_urb_list ep) b1 b' ep Hok)
    as [n Hn]; [rewrite He, Hep; by rewrite set_ep_same|done|].
  by eapply (flush_unlink_run hc R e (length (ep_urb_list ep)) F_rescan b b1 n).
Qed.

(** * Endpoints and interfaces *)

Lemma bus_ok_dev R b d : bus_ok R none b -> table_ok (ub_eps b) (ud_ep_in d) ->
  table_ok (ub_eps b) (ud_ep_out d) -> bus_ok R none (set_ub_dev d b).
Proof. intros [] ? ?. by split. Qed.

Lemma table_insert eps t n o : table_ok eps t -> (forall e, o = Some e -> is_Some (eps !! e)) ->
  table_ok eps (<[n := o]> t).
Proof.
  intros [Hl Ht] Ho. split; [by rewrite length_insert|]. intros e [i Hi]%list_elem_of_lookup.
  apply list_lookup_insert_Some in Hi as [(_ & ? & _)|(_ & Hi)]; [by apply Ho|].
  apply Ht. by eapply list_elem_of_lookup_2.
Qed.

Lemma slot_ok R b out n o : bus_ok R none b -> (forall e, o = Some e -> is_Some (ub_eps b !! e)) ->
  bus_ok R none (set_ub_dev (set_ep_slot out n o (ub_dev b)) b).
Proof.
  intros Hb Ho. apply bus_ok_dev; [done|..]; unfold set_ep_slot; destruct out; cbn;
    first [apply table_insert; [apply Hb|done] | apply Hb].
Qed.

Lemma epnum_lt z : (Z.to_nat (Z.land z USB_ENDPOINT_NUMBER_MASK) < 16)%nat.
Proof.
  unfold USB_ENDPOINT_NUMBER_MASK. change 0x0f with (Z.ones 4). rewrite Z.land_ones by lia.
  pose proof (Z.mod_pos_bound z (2 ^ 4)). lia.
Qed.

Lemma disable_endpoint_ok hc R x epaddr reset b : hcd_ok hc -> bus_ok R none b ->
  exists b', usb_disable_endpoint hc x epaddr reset b = Some b' /\ bus_ok R none b' /\ shrinks b b'.
Proof.
  intros Hhc Hb. unfold usb_disable_endpoint. set (n := Z.to_nat _).
  set (out := usb_endpoint_out _).
  set (t := if out then ud_ep_out (ub_dev b) else ud_ep_in (ub_dev b)).
  assert (table_ok (ub_eps b) t) as [Hl Ht] by (unfold t; destruct out; apply Hb).
  destruct (lookup_lt_is_Some_2 t n) as [o Ho]; [rewrite Hl; apply epnum_lt|]. rewrite Ho. cbn [mbind option_bind].
  set (b1 := if reset then _ else b).
  assert (bus_ok R none b1 /\ ub_eps b1 = ub_eps b /\ ub_urbs b1 = ub_urbs b) as (Hok1 & He1 & Hu1).
  { unfold b1. destruct reset; [|done]. split; [by apply slot_ok|done]. }
  assert (shrinks b b1) as Hs1
    by (split; rewrite ?He1, ?Hu1; [done|by eauto|]; unfold b1; by destruct reset).
  destruct o as [e|]; [|by exists b1].
  destruct (Ht e (list_elem_of_lookup_2 _ _ _ Ho)) as [ep Hep]. rewrite He1, Hep.
  cbn [mbind option_bind]. rewrite <- He1 in Hep |- *.
  destruct (flush_ok hc R x e (set_ep_enabled false ep)
              (set_ub_eps (<[e := set_ep_enabled false ep]> (ub_eps b1)) b1) Hhc)
    as (b' & E & ? & _ & Hs2).
  { by apply bus_ok_enabled. }
  { apply lookup_insert_eq. }
  exists b'. split_and!; [done|done|]. etrans; [exact Hs1|]. etrans; [|exact Hs2].
  split; [|by eauto|done]. intros e'. cbn. destruct (decide (e' = e)) as [->|].
  - by rewrite lookup_insert_eq, Hep.
  - by rewrite lookup_insert_ne.
Qed.

Lemma enable_endpoint_ok R e b : bus_ok R none b -> is_Some (ub_eps b !! e) ->
  exists b', usb_enable_endpoint e b = Some b' /\ bus_ok R none b' /\ shrinks b b'.
Proof.
  intros Hb [ep Hep]. unfold usb_enable_endpoint. rewrite Hep. cbn [mbind option_bind].
  eexists. split; [done|]. split.
  - apply (bus_ok_enabled R (set_ub_dev _ b) e ep); [|done].
    assert (forall x, Some e = Some x -> is_Some (ub_eps b !! x)) as Ho by (intros x [= <-]; eauto).
    repeat case_if; try (by apply slot_ok); [|by destruct b].
    apply (slot_ok R (set_ub_dev (set_ep_slot true _ (Some e) (ub_dev b)) b)); [by apply slot_ok|done].
  - split; [|by eauto|done]. intros e'. cbn. destruct (decide (e' = e)) as [->|].
    + by rewrite lookup_insert_eq, Hep.
    + by rewrite lookup_insert_ne.
Qed.

(** The endpoints of an interface exist, and so does its current setting. *)
Definition intf_ok (b : ubus) (i : usb_interface) : Prop :=
  (cur_altsetting i < length (altsetting i))%nat /\
  Forall (fun alt => Forall (fun e => is_Some (ub_eps b !! e)) (alt_endpoints alt)) (altsetting i).

Lemma shrinks_ep b b' e : shrinks b b' -> is_Some (ub_eps b !! e) -> is_Some (ub_eps b' !! e).
Proof.
  intros Hs [ep E]. pose proof (sk_eps _ _ Hs e) as H. rewrite E in H.
  destruct (ub_eps b' !! e); [eauto|done].
Qed.

Lemma intf_ok_shrinks b b' i : shrinks b b' -> intf_ok b i -> intf_ok b' i.
Proof.
  intros Hs [Hc Ha]. split; [done|]. eapply Forall_impl; [exact Ha|]. intros alt Halt.
  eapply Forall_impl; [exact Halt|]. intros e. by apply shrinks_ep.
Qed.

(** The blocks of the messages are fresh. *)
Definition env_ok (b : ubus) (env : intf_env) : Prop :=
  (forall h, mb_urb (en_blocks env) = Some h -> ub_urbs b !! h = None) /\
  forall n h, mb_urb (en_halt_blocks env n) = Some h -> ub_urbs b !! h = None.

Lemma disable_endpoints_ok hc R x eps : hcd_ok hc -> forall b, bus_ok R none b ->
  Forall (fun e => is_Some (ub_eps b !! e)) eps ->
  exists b', disable_endpoints hc x eps b = Some b' /\ bus_ok R none b' /\ shrinks b b'.
Proof.
  intros Hhc. induction eps as [|e eps IH]; intros b Hb Hf; cbn [disable_endpoints]; [by exists b|].
  apply Forall_cons in Hf as [[ep Hep] Hf]. rewrite Hep. cbn [mbind option_bind].
  destruct (disable_endpoint_ok hc R x (bEndpointAddress (ep_desc ep)) true b Hhc Hb)
    as (b1 & -> & Hok & Hs). cbn [mbind option_bind].
  destruct (IH b1 Hok) as (b' & E & ? & ?).
  { eapply Forall_impl; [exact Hf|]. intros x0. by apply shrinks_ep. }
  exists b'. split_and!; try done. by etrans.
Qed.

Lemma enable_endpoints_ok R eps : forall b, bus_ok R none b ->
  Forall (fun e => is_Some (ub_eps b !! e)) eps ->
  exists b', enable_endpoints eps b = Some b' /\ bus_ok R none b' /\ shrinks b b'.
Proof.
  induction eps as [|e eps IH]; intros b Hb Hf; cbn [enable_endpoints]; [by exists b|].
  apply Forall_cons in Hf as [He Hf].
  destruct (enable_endpoint_ok R e b Hb He) as (b1 & -> & Hok & Hs). cbn [mbind option_bind].
  destruct (IH b1 Hok) as (b' & E & ? & ?).
  { eapply Forall_impl; [exact Hf|]. intros x0. by apply shrinks_ep. }
  exists b'. split_and!; try done. by etrans.
Qed.

Lemma no_data_ok b blocks : (forall h, mb_urb blocks = Some h -> ub_urbs b !! h = None) ->
  msg_ok b blocks None 0.
Proof. intros Hf. split_and!; [done|by left|done]. Qed.

Lemma clear_halts_ok hc R env eps : hcd_ok hc -> forall n b, bus_ok R none b -> env_ok b env ->
  Forall (fun e => is_Some (ub_eps b !! e)) eps ->
  exists b', clear_halts hc env n eps b = Some b' /\ bus_ok R none b' /\ quiet b b'.
Proof.
  intros Hhc. induction eps as [|e eps IH]; intros n b Hb Henv Hf; cbn [clear_halts]; [by exists b|].
  apply Forall_cons in Hf as [[ep Hep] Hf]. rewrite Hep. cbn [mbind option_bind].
  unfold usb_clear_halt. set (pipe := Z.lor _ _). set (endp := if usb_pipein pipe then _ else _).
  destruct (control_msg_returns hc R b (en_halt_reply env n) (en_halt_blocks env n)
              (usb_sndctrlpipe (ub_dev b) 0) USB_REQ_CLEAR_FEATURE USB_RECIP_ENDPOINT
              USB_ENDPOINT_HALT endp None 0 Hhc Hb) as (r & b1 & -> & Hok & Hq).
  { apply no_data_ok. apply Henv. }
  cbn [mbind option_bind].
  destruct (IH (S n) b1 Hok) as (b' & E & ? & ?).
  { destruct Hq, Henv. split; rewrite qt_urbs0; done. }
  { destruct Hq. by rewrite qt_eps0. }
  exists b'. split_and!; try done. by etrans.
Qed.

Lemma ifnum_lookup intfs ifnum n : usb_ifnum_to_if intfs ifnum = Some n ->
  exists i, intfs !! n = Some i /\ bInterfaceNumber i = ifnum.
Proof.
  revert n. induction intfs as [|i intfs IH]; intros n; cbn [usb_ifnum_to_if]; [done|].
  destruct (Z.eqb_spec (bInterfaceNumber i) ifnum).
  - intros [= <-]. by exists i.
  - intros (m & Hm & ->)%fmap_Some. by apply IH.
Qed.

Lemma altnum_lookup alts altnum n : usb_altnum_to_altsetting alts altnum = Some n ->
  exists a, alts !! n = Some a /\ bAlternateSetting a = altnum.
Proof.
  revert n. induction alts as [|a alts IH]; intros n; cbn [usb_altnum_to_altsetting]; [done|].
  destruct (Z.eqb_spec (bAlternateSetting a) altnum).
  - intros [= <-]. by exists a.
  - intros (m & Hm & ->)%fmap_Some. by apply IH.
Qed.

(** The part of [usb_set_interface] after the device agreed. *)
Lemma switch_ok hc R env (manual : bool) iface (alt : usb_host_interface) a b : hcd_ok hc ->
  bus_ok R none b -> env_ok b env -> intf_ok b iface -> altsetting iface !! a = Some alt ->
  exists b', (b ← usb_disable_interface hc (en_cut env) iface b;
              b ← (if manual then clear_halts hc env 0 (alt_endpoints alt) b else Some b);
              usb_enable_interface (mk_intf (bInterfaceNumber iface) (altsetting iface) a
                                      (unregistering iface)) b) = Some b' /\
    bus_ok R none b' /\ shrinks b b'.
Proof.
  intros Hhc Hb Henv [Hc Hf] Ha. unfold usb_disable_interface, usb_enable_interface. cbn.
  destruct (lookup_lt_is_Some_2 _ _ Hc) as [cur Hcur]. rewrite Hcur. cbn [mbind option_bind].
  destruct (disable_endpoints_ok hc R (en_cut env) (alt_endpoints cur) Hhc b Hb)
    as (b1 & -> & Hok1 & Hs1).
  { exact (Forall_lookup_1 _ _ _ _ Hf Hcur). }
  cbn [mbind option_bind].
  assert (Forall (fun e => is_Some (ub_eps b1 !! e)) (alt_endpoints alt)) as Hf1.
  { eapply Forall_impl; [exact (Forall_lookup_1 _ _ _ _ Hf Ha)|]. intros e. by apply shrinks_ep. }
  assert (exists b2, (if manual then clear_halts hc env 0 (alt_endpoints alt) b1 else Some b1) = Some b2 /\
            bus_ok R none b2 /\ quiet b1 b2) as (b2 & -> & Hok2 & Hq).
  { destruct manual; [|by exists b1]. apply clear_halts_ok; try done.
    destruct Henv. split; intros; apply (sk_urbs _ _ _ Hs1); eauto. }
  cbn [mbind option_bind]. rewrite Ha. cbn [mbind option_bind].
  destruct (enable_endpoints_ok R (alt_endpoints alt) b2 Hok2) as (b' & -> & Hok' & Hs').
  { by rewrite (qt_eps _ _ Hq). }
  exists b'. split_and!; try done. etrans; [exact Hs1|]. etrans; [by apply quiet_shrinks|done].
Qed.

Lemma set_interface_ok hc R env interface alternate intfs b : hcd_ok hc -> bus_ok R none b ->
  env_ok b env -> Forall (intf_ok b) intfs ->
  exists r intfs' b', usb_set_interface hc env interface alternate intfs b = Some (r, intfs', b') /\
    bus_ok R none b' /\ Forall (intf_ok b') intfs' /\ shrinks b b' /\ r <= 0 /\
    (r <> 0 -> intfs' = intfs) /\
    (r = 0 -> exists n i a alt, intfs !! n = Some i /\ bInterfaceNumber i = interface /\
       altsetting i !! a = Some alt /\ bAlternateSetting alt = alternate /\
       intfs' = <[n := mk_intf interface (altsetting i) a (unregistering i)]> intfs).
Proof.
  intros Hhc Hb Henv Hf. unfold usb_set_interface.
  case_if; [by eexists _, _, _|].
  destruct (usb_ifnum_to_if intfs interface) as [n|] eqn:En; [|by eexists _, _, _].
  destruct (ifnum_lookup _ _ _ En) as (iface & Hi & Hnum). rewrite Hi. cbn [mbind option_bind].
  destruct (unregistering iface) eqn:Hreg; [by eexists _, _, _|].
  destruct (usb_altnum_to_altsetting (altsetting iface) alternate) as [a|] eqn:Ea;
    [|by eexists _, _, _].
  destruct (altnum_lookup _ _ _ Ea) as (alt & Ha & Halt).
  destruct (Z.ltb_spec (en_bandwidth env) 0);
    [eexists _, _, _; split_and!; first [done|lia]|].
  assert (exists ret b1, (if en_no_set_intf env then Some (- EPIPE, b)
            else usb_control_msg hc (en_reply env) (en_blocks env)
                   (usb_sndctrlpipe (ub_dev b) 0) USB_REQ_SET_INTERFACE
                   USB_RECIP_INTERFACE (u16 alternate) (u16 interface) None 0 b) = Some (ret, b1) /\
          bus_ok R none b1 /\ quiet b b1) as (ret & b1 & -> & Hok1 & Hq1).
  { case_if; [by eexists _, _|]. apply control_msg_returns; [done|done|]. apply no_data_ok, Henv. }
  cbn [mbind option_bind]. set (manual := (ret =? - EPIPE) && _).
  destruct (negb manual && (ret <? 0)) eqn:Eret.
  { exists ret, intfs, b1. apply andb_true_iff in Eret as [_ Hneg%Z.ltb_lt].
    assert (shrinks b b1) by (by apply quiet_shrinks).
    split_and!; try done; try lia.
    eapply Forall_impl; [exact Hf|]. intros i0. by apply intf_ok_shrinks. }
  assert (intf_ok b1 iface) as Hio.
  { apply (intf_ok_shrinks b b1); [by apply quiet_shrinks|]. exact (Forall_lookup_1 _ _ _ _ Hf Hi). }
  destruct (switch_ok hc R env manual iface alt a b1 Hhc Hok1) as (b' & E & Hok' & Hs'); try done.
  { destruct Henv. split; by rewrite (qt_urbs _ _ Hq1). }
  destruct (usb_disable_interface hc (en_cut env) iface b1) as [b2|]; [|done].
  cbn [mbind option_bind] in E |- *. cbn [altsetting]. rewrite Ha. cbn [mbind option_bind].
  destruct (if manual then clear_halts hc env 0 (alt_endpoints alt) b2 else Some b2) as [b3|]; [|done].
  cbn [mbind option_bind] in E |- *. rewrite Hreg in E. rewrite E.
  cbn [mbind option_bind].
  assert (shrinks b b') as Hs by (etrans; [by apply quiet_shrinks|done]).
  eexists _, _, _. split; [done|]. split_and!; try done.
  - apply Forall_insert; [|].
    + eapply Forall_impl; [exact Hf|]. intros i0. by apply intf_ok_shrinks.
    + split; [by eapply lookup_lt_Some|]. apply (intf_ok_shrinks b1 b' iface Hs' Hio).
  - intros _. exists n, iface, a, alt. split_and!; try done. by rewrite Hnum, Hreg.
Qed.

(** * Properties *)

(** C12. A control message leaves nothing behind: for every answer of the device, a
    timeout included, and every failure of an allocation or of the submission,
    [usb_control_msg] returns, its URB is gone, and URBs, queues and buffers are
    what they were. *)
Theorem control_msg_clean hc R b rp blocks pipe request rtype value index data size :
  hcd_ok hc -> bus_ok R none b -> msg_ok b blocks data size ->
  exists r b', usb_control_msg hc rp blocks pipe request rtype value index data size b = Some (r, b') /\
    bus_ok R none b' /\ quiet b b'.
Proof. apply control_msg_returns. Qed.

Lemma control_msg_clean_witness : exists r b',
  usb_control_msg demo_hc (Timeout (mk_transfer 0 0 [])) (mk_blocks true (Some 5%nat))
    (usb_sndctrlpipe (ub_dev demo_bus) 0) USB_REQ_SET_INTERFACE USB_RECIP_INTERFACE 5 1 None 0
    demo_bus = Some (r, b') /\
  bus_ok none none b' /\ quiet demo_bus b'.
Proof.
  apply (control_msg_clean demo_hc none).
  - apply demo_hc_ok.
  - apply fresh_bus_ok, demo_fresh.
  - apply no_data_ok. by intros h [= <-].
Defined.
