(* ===== verification/V4l2Ioctl.v ===== *)
(** The requests of V4L2 between a program and a driver: [video_ioctl2],
    [video_usercopy] and [__video_do_ioctl] of drivers/media/video/v4l2-ioctl.c
    with the numbers of include/linux/videodev2.h and include/asm-generic/ioctl.h.

    A request carries the structure that the program points to. Structures are the
    records of [V4l2], so that clearing a part of one is clearing the fields that
    lie there. The table of a driver has the entries that the drivers of the
    repository fill; all others are NULL there, and so are the handles and control
    handlers ([vfh], [ctrl_handler]) that take the place of an entry. *)
From S2P Require Import Prelude V4l2.
Open Scope Z_scope.

Definition ENOIOCTLCMD : Z := 515.

(** * The numbers *)

Definition _IOC_NONE : Z := 0.
Definition _IOC_WRITE : Z := 1.
Definition _IOC_READ : Z := 2.

Definition _IOC (dir type nr size : Z) : Z :=
  Z.lor (Z.lor (Z.lor (Z.shiftl dir 30) (Z.shiftl type 8)) (Z.shiftl nr 0)) (Z.shiftl size 16).
Definition _IOR (type nr size : Z) : Z := _IOC _IOC_READ type nr size.
Definition _IOW (type nr size : Z) : Z := _IOC _IOC_WRITE type nr size.
Definition _IOWR (type nr size : Z) : Z := _IOC (Z.lor _IOC_READ _IOC_WRITE) type nr size.
Definition _IOC_DIR (nr : Z) : Z := Z.land (Z.shiftr nr 30) (Z.shiftl 1 2 - 1).
Definition _IOC_SIZE (nr : Z) : Z := Z.land (Z.shiftr nr 16) (Z.shiftl 1 14 - 1).

(** A request and the structure it points to. *)
Inductive request :=
  | VIDIOC_QUERYCAP (c : v4l2_capability)
  | VIDIOC_ENUM_FMT (f : v4l2_fmtdesc)
  | VIDIOC_G_FMT (f : v4l2_format)
  | VIDIOC_S_FMT (f : v4l2_format)
  | VIDIOC_TRY_FMT (f : v4l2_format)
  | VIDIOC_REQBUFS (p : v4l2_requestbuffers)
  | VIDIOC_QUERYBUF (b : v4l2_buffer)
  | VIDIOC_QBUF (b : v4l2_buffer)
  | VIDIOC_DQBUF (b : v4l2_buffer)
  | VIDIOC_STREAMON (i : Z)
  | VIDIOC_STREAMOFF (i : Z)
  | VIDIOC_QUERYCTRL (c : v4l2_queryctrl)
  | VIDIOC_G_CTRL (c : v4l2_control)
  | VIDIOC_S_CTRL (c : v4l2_control).

(** [sizeof] of the structures on a machine of 32 bits. *)
Definition sizeof_capability : Z := 104.
Definition sizeof_fmtdesc : Z := 64.
Definition sizeof_format : Z := 204.
Definition sizeof_requestbuffers : Z := 20.
Definition sizeof_buffer : Z := 68.
Definition sizeof_queryctrl : Z := 68.
Definition sizeof_control : Z := 8.
Definition sizeof_int : Z := 4.

(** The number the request is made with; 0x56 is 'V'. *)
Definition cmd_number (r : request) : Z :=
  match r with
  | VIDIOC_QUERYCAP _ => _IOR 0x56 0 sizeof_capability
  | VIDIOC_ENUM_FMT _ => _IOWR 0x56 2 sizeof_fmtdesc
  | VIDIOC_G_FMT _ => _IOWR 0x56 4 sizeof_format
  | VIDIOC_S_FMT _ => _IOWR 0x56 5 sizeof_format
  | VIDIOC_TRY_FMT _ => _IOWR 0x56 64 sizeof_format
  | VIDIOC_REQBUFS _ => _IOWR 0x56 8 sizeof_requestbuffers
  | VIDIOC_QUERYBUF _ => _IOWR 0x56 9 sizeof_buffer
  | VIDIOC_QBUF _ => _IOWR 0x56 15 sizeof_buffer
  | VIDIOC_DQBUF _ => _IOWR 0x56 17 sizeof_buffer
  | VIDIOC_STREAMON _ => _IOW 0x56 18 sizeof_int
  | VIDIOC_STREAMOFF _ => _IOW 0x56 19 sizeof_int
  | VIDIOC_QUERYCTRL _ => _IOWR 0x56 36 sizeof_queryctrl
  | VIDIOC_G_CTRL _ => _IOWR 0x56 27 sizeof_control
  | VIDIOC_S_CTRL _ => _IOWR 0x56 28 sizeof_control
  end.

(** * Clearing the end of a structure *)

(** A field at offset [o] of a structure that is cleared from byte [n] on. *)
Definition keep (n o v : Z) : Z := if o <? n then v else 0.
Definition keep_string (n o : Z) (s : string) : string := if o <? n then s else "".

Definition clear_cap (n : Z) (c : v4l2_capability) : v4l2_capability :=
  mk_cap (keep_string n 0 (cap_driver c)) (keep_string n 16 (cap_card c))
    (keep n 80 (cap_version c)) (keep n 84 (cap_capabilities c)).
Definition clear_fmtdesc (n : Z) (f : v4l2_fmtdesc) : v4l2_fmtdesc :=
  mk_fmtdesc (keep n 0 (fd_index f)) (keep n 4 (fd_type f)) (keep n 8 (fd_flags f))
    (keep_string n 12 (fd_description f)) (keep n 44 (fd_pixelformat f)).
Definition clear_format (n : Z) (f : v4l2_format) : v4l2_format :=
  let p := fmt_pix f in
  mk_format (keep n 0 (fmt_type f))
    (mk_pix (keep n 4 (pix_width p)) (keep n 8 (pix_height p)) (keep n 12 (pix_pixelformat p))
       (keep n 16 (pix_field p)) (keep n 20 (pix_bytesperline p)) (keep n 24 (pix_sizeimage p))
       (keep n 28 (pix_colorspace p)) (keep n 32 (pix_priv p))).
Definition clear_reqbufs (n : Z) (p : v4l2_requestbuffers) : v4l2_requestbuffers :=
  mk_reqbufs (keep n 0 (rb_count p)) (keep n 4 (rb_type p)) (keep n 8 (rb_memory p)).
Definition clear_buffer (n : Z) (b : v4l2_buffer) : v4l2_buffer :=
  mk_vbuf (keep n 0 (vb_index b)) (keep n 4 (vb_type b)) (keep n 8 (vb_bytesused b))
    (keep n 12 (vb_flags b)) (keep n 16 (vb_field b))
    (keep n 20 (vb_timestamp b).1, keep n 24 (vb_timestamp b).2)
    (keep n 44 (vb_sequence b)) (keep n 48 (vb_memory b)) (keep n 52 (vb_m b))
    (keep n 56 (vb_length b)) (keep n 60 (vb_input b)).
Definition clear_queryctrl (n : Z) (c : v4l2_queryctrl) : v4l2_queryctrl :=
  mk_queryctrl (keep n 0 (qc_id c)) (keep n 4 (qc_type c)) (keep_string n 8 (qc_name c))
    (keep n 40 (qc_minimum c)) (keep n 44 (qc_maximum c)) (keep n 48 (qc_step c))
    (keep n 52 (qc_default_value c)) (keep n 56 (qc_flags c)).
Definition clear_control (n : Z) (c : v4l2_control) : v4l2_control :=
  mk_control (keep n 0 (ctl_id c)) (keep n 4 (ctl_value c)).

(** [memset(parg + n, 0, size - n)]. *)
Definition clear_arg (n : Z) (r : request) : request :=
  match r with
  | VIDIOC_QUERYCAP c => VIDIOC_QUERYCAP (clear_cap n c)
  | VIDIOC_ENUM_FMT f => VIDIOC_ENUM_FMT (clear_fmtdesc n f)
  | VIDIOC_G_FMT f => VIDIOC_G_FMT (clear_format n f)
  | VIDIOC_S_FMT f => VIDIOC_S_FMT (clear_format n f)
  | VIDIOC_TRY_FMT f => VIDIOC_TRY_FMT (clear_format n f)
  | VIDIOC_REQBUFS p => VIDIOC_REQBUFS (clear_reqbufs n p)
  | VIDIOC_QUERYBUF b => VIDIOC_QUERYBUF (clear_buffer n b)
  | VIDIOC_QBUF b => VIDIOC_QBUF (clear_buffer n b)
  | VIDIOC_DQBUF b => VIDIOC_DQBUF (clear_buffer n b)
  | VIDIOC_STREAMON i => VIDIOC_STREAMON (keep n 0 i)
  | VIDIOC_STREAMOFF i => VIDIOC_STREAMOFF (keep n 0 i)
  | VIDIOC_QUERYCTRL c => VIDIOC_QUERYCTRL (clear_queryctrl n c)
  | VIDIOC_G_CTRL c => VIDIOC_G_CTRL (clear_control n c)
  | VIDIOC_S_CTRL c => VIDIOC_S_CTRL (clear_control n c)
  end.

(** * The table of a driver *)

(** An entry gets the structure and leaves it changed. *)
Definition entry (S A : Type) : Type := option (A -> S -> option (Z * A * S)).

Record v4l2_ioctl_ops (S : Type) := mk_ops {
  vidioc_querycap : entry S v4l2_capability;
  vidioc_enum_fmt_vid_cap : entry S v4l2_fmtdesc;
  vidioc_g_fmt_vid_cap : entry S v4l2_format;
  vidioc_s_fmt_vid_cap : entry S v4l2_format;
  vidioc_try_fmt_vid_cap : entry S v4l2_format;
  vidioc_reqbufs : entry S v4l2_requestbuffers;
  vidioc_querybuf : entry S v4l2_buffer;
  vidioc_qbuf : entry S v4l2_buffer;
  vidioc_dqbuf : entry S v4l2_buffer;
  vidioc_streamon : entry S Z;
  vidioc_streamoff : entry S Z;
  vidioc_queryctrl : entry S v4l2_queryctrl;
  vidioc_g_ctrl : entry S v4l2_control;
  vidioc_s_ctrl : entry S v4l2_control
}.
Arguments mk_ops {S} _ _ _ _ _ _ _ _ _ _ _ _ _ _.
Arguments vidioc_querycap {S} _.
Arguments vidioc_enum_fmt_vid_cap {S} _.
Arguments vidioc_g_fmt_vid_cap {S} _.
Arguments vidioc_s_fmt_vid_cap {S} _.
Arguments vidioc_try_fmt_vid_cap {S} _.
Arguments vidioc_reqbufs {S} _.
Arguments vidioc_querybuf {S} _.
Arguments vidioc_qbuf {S} _.
Arguments vidioc_dqbuf {S} _.
Arguments vidioc_streamon {S} _.
Arguments vidioc_streamoff {S} _.
Arguments vidioc_queryctrl {S} _.
Arguments vidioc_g_ctrl {S} _.
Arguments vidioc_s_ctrl {S} _.

Definition V4L2_BUF_TYPE_VIDEO_CAPTURE_MPLANE : Z := 9.
Definition V4L2_BUF_TYPE_VIDEO_OUTPUT_MPLANE : Z := 10.
Definition V4L2_BUF_TYPE_PRIVATE : Z := 0x80.

(** 3.4.2 *)
Definition LINUX_VERSION_CODE : Z := Z.shiftl 3 16 + Z.shiftl 4 8 + 2.

Definition present {A} (o : option A) : bool := match o with Some _ => true | None => false end.

Section Ioctl.
Context {S : Type}.
Implicit Types (ops : v4l2_ioctl_ops S) (s : S) (r : request).

(** The other types need an entry that no driver here has. *)
Definition check_fmt (ops : v4l2_ioctl_ops S) (type : Z) : Z :=
  if type =? V4L2_BUF_TYPE_VIDEO_CAPTURE then
    if present (vidioc_g_fmt_vid_cap ops) then 0 else - EINVAL
  else - EINVAL.

(** [if (ops->vidioc_x) ret = ops->vidioc_x(...)] with [ret] being -ENOTTY. *)
Definition call {A} (mk : A -> request) (h : entry S A) (a : A) (s : S) : option (Z * request * S) :=
  match h with
  | Some f => '(ret, a, s) ← f a s; Some (ret, mk a, s)
  | None => Some (- ENOTTY, mk a, s)
  end.

(** The three requests for a buffer. *)
Definition buffer_call (mk : v4l2_buffer -> request) (ops : v4l2_ioctl_ops S)
    (h : entry S v4l2_buffer) (p : v4l2_buffer) (s : S) : option (Z * request * S) :=
  if negb (present h) then Some (- ENOTTY, mk p, s)
  else
    let ret := check_fmt ops (vb_type p) in
    if negb (ret =? 0) then Some (ret, mk p, s) else call mk h p s.

(** [ret == -ENOTTY] although there is an entry for some type. *)
Definition fmt_error {A} (h : entry S A) (res : option (Z * request * S)) : option (Z * request * S) :=
  '(ret, r, s) ← res;
  Some (if (ret =? - ENOTTY) && present h then - EINVAL else ret, r, s).

(** The end of the member [pix] of a format, the end of [memory]. *)
Definition pix_end : Z := 4 + 32.
Definition memory_end : Z := 8 + 4.

Definition do_querycap (ops : v4l2_ioctl_ops S) (c : v4l2_capability) (s : S) : option (Z * request * S) :=
  match vidioc_querycap ops with
  | None => Some (- ENOTTY, VIDIOC_QUERYCAP c, s)
  | h => call VIDIOC_QUERYCAP h
           (mk_cap (cap_driver c) (cap_card c) LINUX_VERSION_CODE (cap_capabilities c)) s
  end.

Definition do_enum_fmt (ops : v4l2_ioctl_ops S) (f : v4l2_fmtdesc) (s : S) : option (Z * request * S) :=
  let h := vidioc_enum_fmt_vid_cap ops in
  fmt_error h (if fd_type f =? V4L2_BUF_TYPE_VIDEO_CAPTURE then call VIDIOC_ENUM_FMT h f s
               else Some (- ENOTTY, VIDIOC_ENUM_FMT f, s)).

Definition do_g_fmt (ops : v4l2_ioctl_ops S) (f : v4l2_format) (s : S) : option (Z * request * S) :=
  let h := vidioc_g_fmt_vid_cap ops in
  fmt_error h (if fmt_type f =? V4L2_BUF_TYPE_VIDEO_CAPTURE then call VIDIOC_G_FMT h f s
               else Some (- ENOTTY, VIDIOC_G_FMT f, s)).

Definition do_s_fmt (ops : v4l2_ioctl_ops S) (f : v4l2_format) (s : S) : option (Z * request * S) :=
  let h := vidioc_s_fmt_vid_cap ops in
  if negb (present h) then Some (- ENOTTY, VIDIOC_S_FMT f, s)
  else if fmt_type f =? V4L2_BUF_TYPE_VIDEO_CAPTURE
  then call VIDIOC_S_FMT h (clear_format pix_end f) s
  else Some (- EINVAL, VIDIOC_S_FMT f, s).

Definition do_try_fmt (ops : v4l2_ioctl_ops S) (f : v4l2_format) (s : S) : option (Z * request * S) :=
  let h := vidioc_try_fmt_vid_cap ops in
  fmt_error h (if fmt_type f =? V4L2_BUF_TYPE_VIDEO_CAPTURE
               then call VIDIOC_TRY_FMT h (clear_format pix_end f) s
               else Some (- ENOTTY, VIDIOC_TRY_FMT f, s)).

Definition do_reqbufs (ops : v4l2_ioctl_ops S) (p : v4l2_requestbuffers) (s : S) : option (Z * request * S) :=
  let h := vidioc_reqbufs ops in
  if negb (present h) then Some (- ENOTTY, VIDIOC_REQBUFS p, s)
  else
    let ret := check_fmt ops (rb_type p) in
    if negb (ret =? 0) then Some (ret, VIDIOC_REQBUFS p, s)
    else
      let p := if rb_type p <? V4L2_BUF_TYPE_PRIVATE then clear_reqbufs memory_end p else p in
      call VIDIOC_REQBUFS h p s.

(** STREAMON and STREAMOFF, which get the type itself. *)
Definition stream_call (mk : Z -> request) (h : entry S Z) (i : Z) (s : S) : option (Z * request * S) := call mk h i s.

(** The requests for controls, of a device without a control handler. *)
Definition ctrl_call {A} (mk : A -> request) (h : entry S A) (p : A) (s : S) : option (Z * request * S) := call mk h p s.

Definition __video_do_ioctl (ops : option (v4l2_ioctl_ops S)) (r : request) (s : S)
    : option (Z * request * S) :=
  match ops with
  | None => Some (- ENOTTY, r, s)
  | Some ops =>
      match r with
      | VIDIOC_QUERYCAP c => do_querycap ops c s
      | VIDIOC_ENUM_FMT f => do_enum_fmt ops f s
      | VIDIOC_G_FMT f => do_g_fmt ops f s
      | VIDIOC_S_FMT f => do_s_fmt ops f s
      | VIDIOC_TRY_FMT f => do_try_fmt ops f s
      | VIDIOC_REQBUFS p => do_reqbufs ops p s
      | VIDIOC_QUERYBUF p => buffer_call VIDIOC_QUERYBUF ops (vidioc_querybuf ops) p s
      | VIDIOC_QBUF p => buffer_call VIDIOC_QBUF ops (vidioc_qbuf ops) p s
      | VIDIOC_DQBUF p => buffer_call VIDIOC_DQBUF ops (vidioc_dqbuf ops) p s
      | VIDIOC_STREAMON i => stream_call VIDIOC_STREAMON (vidioc_streamon ops) i s
      | VIDIOC_STREAMOFF i => stream_call VIDIOC_STREAMOFF (vidioc_streamoff ops) i s
      | VIDIOC_QUERYCTRL c => ctrl_call VIDIOC_QUERYCTRL (vidioc_queryctrl ops) c s
      | VIDIOC_G_CTRL c => ctrl_call VIDIOC_G_CTRL (vidioc_g_ctrl ops) c s
      | VIDIOC_S_CTRL c => ctrl_call VIDIOC_S_CTRL (vidioc_s_ctrl ops) c s
      end
  end.
End Ioctl.

(** * Copying from and to the program *)

(** The size of the structure up to the last field that is input. *)
Definition cmd_input_size (r : request) : Z :=
  match r with
  | VIDIOC_ENUM_FMT _ => 4 + 4      (* type *)
  | VIDIOC_G_FMT _ => 0 + 4         (* type *)
  | VIDIOC_QUERYBUF _ => 56 + 4     (* length *)
  | VIDIOC_G_CTRL _ => 0 + 4        (* id *)
  | VIDIOC_QUERYCTRL _ => 0 + 4     (* id *)
  | _ => _IOC_SIZE (cmd_number r)
  end.

Definition V4L2_TYPE_IS_MULTIPLANAR (type : Z) : bool :=
  (type =? V4L2_BUF_TYPE_VIDEO_CAPTURE_MPLANE) || (type =? V4L2_BUF_TYPE_VIDEO_OUTPUT_MPLANE).

Definition VIDEO_MAX_PLANES : Z := 8.
Definition sizeof_plane : Z := 60.

(** The array the structure points to: an error, none ([inr None]), or the pointer
    and the size of the array. *)
Definition array_of (buf : v4l2_buffer) : Z + option (Z * Z) :=
  if V4L2_TYPE_IS_MULTIPLANAR (vb_type buf) && (vb_length buf >? 0) then
    if vb_length buf >? VIDEO_MAX_PLANES then inl (- EINVAL)
    else inr (Some (vb_m buf, sizeof_plane * vb_length buf))
  else inr None.

Definition check_array_args (r : request) : Z + option (Z * Z) :=
  match r with
  | VIDIOC_QUERYBUF buf | VIDIOC_QBUF buf | VIDIOC_DQBUF buf => array_of buf
  | _ => inr None
  end.

(** [*kernel_ptr = p], the pointer to the array in the structure. *)
Definition set_vb_m (p : Z) (b : v4l2_buffer) : v4l2_buffer :=
  mk_vbuf (vb_index b) (vb_type b) (vb_bytesused b) (vb_flags b) (vb_field b) (vb_timestamp b)
          (vb_sequence b) (vb_memory b) p (vb_length b) (vb_input b).
Definition set_array (p : Z) (r : request) : request :=
  match r with
  | VIDIOC_QUERYBUF b => VIDIOC_QUERYBUF (set_vb_m p b)
  | VIDIOC_QBUF b => VIDIOC_QBUF (set_vb_m p b)
  | VIDIOC_DQBUF b => VIDIOC_DQBUF (set_vb_m p b)
  | r => r
  end.

(** What the memory allows: which allocations succeed, whether the structure and
    its array can be read and written, where an allocated block lies, and what a
    copy leaves that fails in the middle. *)
Record user_memory := mk_user {
  u_kmalloc : Z -> option Z;
  u_read : bool;
  u_write : bool;
  u_array_read : bool;
  u_array_write : bool;
  u_torn : request -> request -> request
}.

(** [char sbuf[128]] *)
Definition sbuf_size : Z := 128.

Section Usercopy.
Context {S : Type}.

(** The label [out_array_args]: results go back to the program. *)
Definition copy_out (u : user_memory) (err : Z) (arg parg : request) (s : S) : option (Z * request * S) :=
  let dir := _IOC_DIR (cmd_number arg) in
  if (dir =? _IOC_READ) || (dir =? Z.lor _IOC_WRITE _IOC_READ) then
    if u_write u then Some (err, parg, s) else Some (- EFAULT, u_torn u arg parg, s)
  else Some (err, arg, s).

Definition no_ioctl (err : Z) : Z := if err =? - ENOIOCTLCMD then - ENOTTY else err.

(** The copy that the entry works on. *)
Definition copy_in (arg : request) : request :=
  let size := _IOC_SIZE (cmd_number arg) in
  if bit_set (_IOC_DIR (cmd_number arg)) _IOC_WRITE then
    let n := cmd_input_size arg in
    if n <? size then clear_arg n arg else arg
  else clear_arg 0 arg.

(** The program's structure after the call is part of the result. *)
Definition video_usercopy (u : user_memory) (func : request -> S -> option (Z * request * S))
    (arg : request) (s : S) : option (Z * request * S) :=
  let cmd := cmd_number arg in
  if (sbuf_size <? _IOC_SIZE cmd) && negb (present (u_kmalloc u (_IOC_SIZE cmd)))
  then Some (- ENOMEM, arg, s)
  else if bit_set (_IOC_DIR cmd) _IOC_WRITE && negb (u_read u) then Some (- EFAULT, arg, s)
  else
    let parg := copy_in arg in
    match check_array_args parg with
    | inl err => Some (err, arg, s)
    | inr None =>
        '(err, parg, s) ← func parg s;
        let err := no_ioctl err in
        if err <? 0 then Some (err, arg, s) else copy_out u err arg parg s
    | inr (Some (user_ptr, array_size)) =>
        match u_kmalloc u array_size with
        | None => copy_out u (- ENOMEM) arg parg s
        | Some mbuf =>
            if negb (u_array_read u) then copy_out u (- EFAULT) arg parg s
            else
              '(err, parg, s) ← func (set_array mbuf parg) s;
              let err := no_ioctl err in
              copy_out u (if u_array_write u then err else - EFAULT) arg (set_array user_ptr parg) s
        end
    end.

Definition video_ioctl2 (u : user_memory) (ops : option (v4l2_ioctl_ops S)) (arg : request) (s : S)
    : option (Z * request * S) :=
  video_usercopy u (__video_do_ioctl ops) arg s.
End Usercopy.

(** * What a request means *)

(** The fields of a request that its entry gets to see; the others are zero. *)
Definition passed (r : request) : request :=
  match r with
  | VIDIOC_QUERYCAP _ => VIDIOC_QUERYCAP (mk_cap "" "" LINUX_VERSION_CODE 0)
  | VIDIOC_ENUM_FMT f => VIDIOC_ENUM_FMT (mk_fmtdesc (fd_index f) (fd_type f) 0 "" 0)
  | VIDIOC_G_FMT f => VIDIOC_G_FMT (mk_format (fmt_type f) (fmt_pix zero_format))
  | VIDIOC_QUERYBUF b =>
      VIDIOC_QUERYBUF (mk_vbuf (vb_index b) (vb_type b) (vb_bytesused b) (vb_flags b) (vb_field b)
        (vb_timestamp b) (vb_sequence b) (vb_memory b) (vb_m b) (vb_length b) 0)
  | VIDIOC_QUERYCTRL c => VIDIOC_QUERYCTRL (mk_queryctrl (qc_id c) 0 "" 0 0 0 0 0)
  | VIDIOC_G_CTRL c => VIDIOC_G_CTRL (mk_control (ctl_id c) 0)
  | r => r
  end.

(** Formats are too large for the stack, QUERYCAP takes no input, and starting and
    stopping give none back. *)
Definition is_large (r : request) : bool :=
  match r with VIDIOC_G_FMT _ | VIDIOC_S_FMT _ | VIDIOC_TRY_FMT _ => true | _ => false end.
Definition takes_input (r : request) : bool :=
  match r with VIDIOC_QUERYCAP _ => false | _ => true end.
Definition gives_output (r : request) : bool :=
  match r with VIDIOC_STREAMON _ | VIDIOC_STREAMOFF _ => false | _ => true end.

(** The type of stream a request is for. *)
Definition stream_type (r : request) : option Z :=
  match r with
  | VIDIOC_ENUM_FMT f => Some (fd_type f)
  | VIDIOC_G_FMT f | VIDIOC_S_FMT f | VIDIOC_TRY_FMT f => Some (fmt_type f)
  | VIDIOC_REQBUFS p => Some (rb_type p)
  | VIDIOC_QUERYBUF b | VIDIOC_QBUF b | VIDIOC_DQBUF b => Some (vb_type b)
  | _ => None
  end.

(** Requests for buffers go only to a driver that tells its format. *)
Definition about_buffers (r : request) : bool :=
  match r with
  | VIDIOC_REQBUFS _ | VIDIOC_QUERYBUF _ | VIDIOC_QBUF _ | VIDIOC_DQBUF _ => true
  | _ => false
  end.

(** A missing entry among those for formats. *)
Definition about_formats (r : request) : bool :=
  match r with VIDIOC_ENUM_FMT _ | VIDIOC_G_FMT _ | VIDIOC_TRY_FMT _ => true | _ => false end.

(** The code the program sees for the code of the entry. *)
Definition answer (r : request) (err : Z) : Z :=
  if (err =? - ENOTTY) && about_formats r then - EINVAL
  else if err =? - ENOIOCTLCMD then - ENOTTY else err.

(** The number of planes; 0 for a buffer that has none. *)
Definition planes (r : request) : Z :=
  match r with
  | VIDIOC_QUERYBUF b | VIDIOC_QBUF b | VIDIOC_DQBUF b =>
      if V4L2_TYPE_IS_MULTIPLANAR (vb_type b) then Z.max 0 (vb_length b) else 0
  | _ => 0
  end.

Section Meaning.
Context {S : Type}.
Implicit Types (ops : v4l2_ioctl_ops S) (s : S) (r : request).

Definition lift {A} (mk : A -> request) (h : entry S A) (a : A) : option (S -> option (Z * request * S)) :=
  match h with Some f => Some (fun s => '(err, a, s) ← f a s; Some (err, mk a, s)) | None => None end.

(** The entry for a request, applied to its structure. *)
Definition entry_of (ops : v4l2_ioctl_ops S) (r : request) : option (S -> option (Z * request * S)) :=
  match r with
  | VIDIOC_QUERYCAP c => lift VIDIOC_QUERYCAP (vidioc_querycap ops) c
  | VIDIOC_ENUM_FMT f => lift VIDIOC_ENUM_FMT (vidioc_enum_fmt_vid_cap ops) f
  | VIDIOC_G_FMT f => lift VIDIOC_G_FMT (vidioc_g_fmt_vid_cap ops) f
  | VIDIOC_S_FMT f => lift VIDIOC_S_FMT (vidioc_s_fmt_vid_cap ops) f
  | VIDIOC_TRY_FMT f => lift VIDIOC_TRY_FMT (vidioc_try_fmt_vid_cap ops) f
  | VIDIOC_REQBUFS p => lift VIDIOC_REQBUFS (vidioc_reqbufs ops) p
  | VIDIOC_QUERYBUF b => lift VIDIOC_QUERYBUF (vidioc_querybuf ops) b
  | VIDIOC_QBUF b => lift VIDIOC_QBUF (vidioc_qbuf ops) b
  | VIDIOC_DQBUF b => lift VIDIOC_DQBUF (vidioc_dqbuf ops) b
  | VIDIOC_STREAMON i => lift VIDIOC_STREAMON (vidioc_streamon ops) i
  | VIDIOC_STREAMOFF i => lift VIDIOC_STREAMOFF (vidioc_streamoff ops) i
  | VIDIOC_QUERYCTRL c => lift VIDIOC_QUERYCTRL (vidioc_queryctrl ops) c
  | VIDIOC_G_CTRL c => lift VIDIOC_G_CTRL (vidioc_g_ctrl ops) c
  | VIDIOC_S_CTRL c => lift VIDIOC_S_CTRL (vidioc_s_ctrl ops) c
  end.

(** Streams other than capture, and buffers without a format. *)
Definition refused (ops : v4l2_ioctl_ops S) (r : request) : bool :=
  match stream_type r with
  | Some t => about_buffers r && negb (present (vidioc_g_fmt_vid_cap ops)) ||
              negb (t =? V4L2_BUF_TYPE_VIDEO_CAPTURE)
  | None => false
  end.

Definition ioctl_spec (u : user_memory) (ops : v4l2_ioctl_ops S) (r : request) (s : S)
    : option (Z * request * S) :=
  if is_large r && negb (present (u_kmalloc u sizeof_format)) then Some (- ENOMEM, r, s)
  else if takes_input r && negb (u_read u) then Some (- EFAULT, r, s)
  else
    match entry_of ops (passed r) with
    | None => Some (- ENOTTY, r, s)
    | Some f =>
        if refused ops r then Some (- EINVAL, r, s)
        else
          '(err, r', s') ← f s;
          let err := answer r err in
          if err <? 0 then Some (err, r, s')
          else if negb (gives_output r) then Some (err, r, s')
          else if u_write u then Some (err, r', s') else Some (- EFAULT, u_torn u r r', s')
    end.

(** ** Lemmas *)

Lemma size_large r : (sbuf_size <? _IOC_SIZE (cmd_number r)) = is_large r.
Proof. by destruct r. Qed.

Lemma size_of_large r : is_large r = true -> _IOC_SIZE (cmd_number r) = sizeof_format.
Proof. by destruct r. Qed.

Lemma input_dir r : bit_set (_IOC_DIR (cmd_number r)) _IOC_WRITE = takes_input r.
Proof. by destruct r. Qed.

Lemma output_dir r : (_IOC_DIR (cmd_number r) =? _IOC_READ) ||
  (_IOC_DIR (cmd_number r) =? Z.lor _IOC_WRITE _IOC_READ) = gives_output r.
Proof. by destruct r. Qed.

(** [QUERYCAP] gets its version from the dispatcher, all other fields come from
    the copy. *)
Definition with_version (r : request) : request :=
  match r with
  | VIDIOC_QUERYCAP c =>
      VIDIOC_QUERYCAP (mk_cap (cap_driver c) (cap_card c) LINUX_VERSION_CODE (cap_capabilities c))
  | r => r
  end.

Lemma copy_in_passed r : with_version (copy_in r) = passed r.
Proof.
  destruct r as [c|f|f|f|f|p|b|b|b|i|i|c|c|c]; try reflexivity.
  by destruct b as [? ? ? ? ? [? ?] ? ? ? ? ?].
Qed.

Lemma copy_out_spec u err r parg s :
  copy_out u err r parg s =
  if negb (gives_output r) then Some (err, r, s)
  else if u_write u then Some (err, parg, s) else Some (- EFAULT, u_torn u r parg, s).
Proof. unfold copy_out. rewrite output_dir. by destruct (gives_output r). Qed.

Lemma no_array b : planes (VIDIOC_QBUF b) = 0 -> array_of b = inr None.
Proof.
  unfold array_of. cbn. destruct (V4L2_TYPE_IS_MULTIPLANAR (vb_type b)); [|done].
  intros Hl. by rewrite Z.gtb_ltb, (proj2 (Z.ltb_ge _ _)) by lia.
Qed.

Lemma check_planes r : check_array_args (copy_in r) = check_array_args r.
Proof.
  destruct r as [c|f|f|f|f|p|b|b|b|i|i|c|c|c]; try reflexivity.
Qed.

Lemma no_planes r : planes r = 0 -> check_array_args r = inr None.
Proof. destruct r as [c|f|f|f|f|p|b|b|b|i|i|c|c|c]; try done; apply no_array. Qed.

Lemma call_lift {A} (mk : A -> request) (h : entry S A) a s :
  call mk h a s = match lift mk h a with Some f => f s | None => Some (- ENOTTY, mk a, s) end.
Proof. by destruct h. Qed.

Lemma lift_present {A} (mk : A -> request) (h : entry S A) a : present (lift mk h a) = present h.
Proof. by destruct h. Qed.

(** Requests that are only looked up. *)
Lemma simple_spec {A} (mk : A -> request) (h : entry S A) a r s :
  about_formats r = false ->
  ('(err, r', s') ← call mk h a s; Some (no_ioctl err, r', s')) =
  match lift mk h a with
  | None => Some (- ENOTTY, mk a, s)
  | Some f => '(err, r', s') ← f s; Some (answer r err, r', s')
  end.
Proof.
  intros Hr. rewrite call_lift. destruct (lift mk h a) as [f|]; [|done].
  destruct (f s) as [[[err r'] s']|]; [|done]. unfold answer, no_ioctl. cbn. by rewrite Hr, andb_false_r.
Qed.

(** Requests about formats. *)
Lemma format_spec {A} (mk : A -> request) (h : entry S A) a r (t : bool) s :
  about_formats r = true ->
  ('(err, r', s') ← fmt_error h (if t then call mk h a s else Some (- ENOTTY, mk a, s));
   Some (no_ioctl err, r', s')) =
  match lift mk h a with
  | None => Some (- ENOTTY, mk a, s)
  | Some f => if negb t then Some (- EINVAL, mk a, s)
              else '(err, r', s') ← f s; Some (answer r err, r', s')
  end.
Proof.
  intros Hr. rewrite call_lift. destruct h as [f|]; cbn [lift]; [|by destruct t].
  destruct t; [|done]. cbn. destruct (f a s) as [[[err a'] s']|]; [|done].
  unfold answer, no_ioctl. cbn. rewrite Hr, !andb_true_r. destruct (Z.eqb_spec err (- ENOTTY)); [|done].
  done.
Qed.

(** Requests about buffers. *)
Lemma check_fmt_spec ops t :
  check_fmt ops t = if negb (present (vidioc_g_fmt_vid_cap ops)) || negb (t =? V4L2_BUF_TYPE_VIDEO_CAPTURE)
                    then - EINVAL else 0.
Proof. unfold check_fmt. by destruct (t =? _), (vidioc_g_fmt_vid_cap ops). Qed.

Lemma buffer_spec (mk : v4l2_buffer -> request) ops (h : entry S v4l2_buffer) b r s :
  about_formats r = false -> about_buffers r = true -> stream_type r = Some (vb_type b) ->
  ('(err, r', s') ← buffer_call mk ops h b s; Some (no_ioctl err, r', s')) =
  match lift mk h b with
  | None => Some (- ENOTTY, mk b, s)
  | Some f => if refused ops r then Some (- EINVAL, mk b, s)
              else '(err, r', s') ← f s; Some (answer r err, r', s')
  end.
Proof.
  intros Hf Hb Ht. unfold buffer_call, refused. rewrite Ht, Hb, check_fmt_spec. cbn [andb].
  destruct h as [f|]; [|done]. cbn [present negb].
  destruct (negb (present _) || _); [done|]. by apply simple_spec.
Qed.

(** The dispatcher on the copy, in the terms of the specification. *)
Lemma do_ioctl_spec ops r s :
  ('(err, r', s') ← __video_do_ioctl (Some ops) (copy_in r) s; Some (no_ioctl err, r', s')) =
  match entry_of ops (passed r) with
  | None => Some (- ENOTTY, copy_in r, s)
  | Some f => if refused ops r then Some (- EINVAL, copy_in r, s)
              else '(err, r', s') ← f s; Some (answer r err, r', s')
  end.
Proof.
  destruct r as [c|f|f|f|f|p|b|b|b|i|i|c|c|c].
  - pose proof (simple_spec VIDIOC_QUERYCAP (vidioc_querycap ops) (mk_cap "" "" LINUX_VERSION_CODE 0)
      (VIDIOC_QUERYCAP c) s eq_refl) as E.
    change (copy_in (VIDIOC_QUERYCAP c)) with (VIDIOC_QUERYCAP (mk_cap "" "" 0 0)).
    cbn [__video_do_ioctl]. unfold do_querycap.
    cbn [passed entry_of cap_driver cap_card cap_capabilities].
    by destruct (vidioc_querycap ops).
  - exact (format_spec VIDIOC_ENUM_FMT _ (mk_fmtdesc (fd_index f) (fd_type f) 0 "" 0)
             (VIDIOC_ENUM_FMT f) (fd_type f =? V4L2_BUF_TYPE_VIDEO_CAPTURE) s eq_refl).
  - exact (format_spec VIDIOC_G_FMT _ (mk_format (fmt_type f) (fmt_pix zero_format))
             (VIDIOC_G_FMT f) (fmt_type f =? V4L2_BUF_TYPE_VIDEO_CAPTURE) s eq_refl).
  - pose proof (simple_spec VIDIOC_S_FMT (vidioc_s_fmt_vid_cap ops) f (VIDIOC_S_FMT f) s eq_refl) as E.
    change (copy_in (VIDIOC_S_FMT f)) with (VIDIOC_S_FMT f). unfold refused.
    cbn [__video_do_ioctl]. unfold do_s_fmt.
    cbn [passed entry_of stream_type about_buffers andb orb].
    replace (clear_format pix_end f) with f by (destruct f as [? []]; done).
    destruct (vidioc_s_fmt_vid_cap ops); [|done]. cbn [present negb]. by destruct (fmt_type f =? _).
  - destruct f as [t []]. exact (format_spec VIDIOC_TRY_FMT _ (mk_format t _)
             (VIDIOC_TRY_FMT (mk_format t _)) (t =? V4L2_BUF_TYPE_VIDEO_CAPTURE) s eq_refl).
  - pose proof (simple_spec VIDIOC_REQBUFS (vidioc_reqbufs ops) p (VIDIOC_REQBUFS p) s eq_refl) as E.
    change (copy_in (VIDIOC_REQBUFS p)) with (VIDIOC_REQBUFS p). unfold refused.
    cbn [__video_do_ioctl]. unfold do_reqbufs.
    cbn [passed entry_of stream_type about_buffers andb]. rewrite check_fmt_spec.
    replace (clear_reqbufs memory_end p) with p by (destruct p; done).
    replace (if rb_type p <? V4L2_BUF_TYPE_PRIVATE then p else p) with p by (by destruct (_ <? _)).
    destruct (vidioc_reqbufs ops); [|done]. cbn [present negb]. by destruct (negb (present _) || _).
  - destruct b as [? ? ? ? ? [] ? ? ? ? ?]. by apply (buffer_spec VIDIOC_QUERYBUF ops _ (mk_vbuf _ _ _ _ _ _ _ _ _ _ 0)).
  - by apply (buffer_spec VIDIOC_QBUF ops).
  - by apply (buffer_spec VIDIOC_DQBUF ops).
  - by apply (simple_spec VIDIOC_STREAMON).
  - by apply (simple_spec VIDIOC_STREAMOFF).
  - by apply (simple_spec VIDIOC_QUERYCTRL _ (mk_queryctrl (qc_id c) 0 "" 0 0 0 0 0)).
  - by apply (simple_spec VIDIOC_G_CTRL _ (mk_control (ctl_id c) 0)).
  - by apply (simple_spec VIDIOC_S_CTRL).
Qed.

(** A request for a buffer with planes does not reach the driver. *)
Lemma planar_refused ops r p s : 0 < planes r ->
  exists err r', __video_do_ioctl (Some ops) (set_array p (copy_in r)) s = Some (err, r', s) /\ no_ioctl err < 0.
Proof.
  assert (forall (mk : v4l2_buffer -> request) h (b : v4l2_buffer),
    V4L2_TYPE_IS_MULTIPLANAR (vb_type b) = true ->
    exists err r', buffer_call mk ops h b s = Some (err, r', s) /\ no_ioctl err < 0) as Hcall.
  { intros mk h b Hp. assert ((vb_type b =? V4L2_BUF_TYPE_VIDEO_CAPTURE) = false) as Ht.
    { destruct (Z.eqb_spec (vb_type b) V4L2_BUF_TYPE_VIDEO_CAPTURE) as [E|]; [|done]. by rewrite E in Hp. }
    unfold buffer_call. destruct (negb (present h)); [by eexists _, _|].
    rewrite check_fmt_spec, Ht, orb_true_r. by eexists _, _. }
  destruct r as [c|f|f|f|f|p'|b|b|b|i|i|c|c|c]; cbn [planes]; try lia;
    destruct (V4L2_TYPE_IS_MULTIPLANAR (vb_type b)) eqn:Hp; try lia; intros _.
  - by apply (Hcall VIDIOC_QUERYBUF _ (set_vb_m p (clear_buffer 60 b))).
  - by apply (Hcall VIDIOC_QBUF _ (set_vb_m p b)).
  - by apply (Hcall VIDIOC_DQBUF _ (set_vb_m p b)).
Qed.

(** What follows the call of a request without an array. *)
Lemma usercopy_tail u ops r s :
  ('(err, parg, s) ← __video_do_ioctl (Some ops) (copy_in r) s;
   let err := no_ioctl err in
   if err <? 0 then Some (err, r, s) else copy_out u err r parg s) =
  match entry_of ops (passed r) with
  | None => Some (- ENOTTY, r, s)
  | Some f =>
      if refused ops r then Some (- EINVAL, r, s)
      else
        '(err, r', s') ← f s;
        let err := answer r err in
        if err <? 0 then Some (err, r, s')
        else if negb (gives_output r) then Some (err, r, s')
        else if u_write u then Some (err, r', s') else Some (- EFAULT, u_torn u r r', s')
  end.
Proof.
  pose proof (do_ioctl_spec ops r s) as E. destruct (__video_do_ioctl _ _ s) as [[[err parg] s1]|];
    cbn [mbind option_bind] in *.
  - destruct (entry_of ops (passed r)) as [f|]; [|by injection E as -> -> ->].
    destruct (refused ops r); [by injection E as -> -> ->|].
    destruct (f s) as [[[err' r'] s']|]; [|done]. cbn [mbind option_bind] in *. injection E as -> -> ->.
    by rewrite copy_out_spec.
  - destruct (entry_of ops (passed r)) as [f|]; [|done]. destruct (refused ops r); [done|].
    by destruct (f s) as [[[? ?] ?]|].
Qed.

Lemma array_cases r : 0 < planes r ->
  check_array_args r = inl (- EINVAL) \/ exists a, check_array_args r = inr (Some a).
Proof.
  destruct r as [c|f|f|f|f|p|b|b|b|i|i|c|c|c]; cbn [planes check_array_args]; try lia; unfold array_of;
    (destruct (V4L2_TYPE_IS_MULTIPLANAR (vb_type b)); [|lia]); intros Hl;
    rewrite (Z.gtb_ltb _ 0), (proj2 (Z.ltb_lt _ _)) by lia; cbn [andb];
    destruct (_ >? _); eauto.
Qed.

Lemma copy_out_error u err r parg s : err < 0 ->
  exists err' r', copy_out u err r parg s = Some (err', r', s) /\ err' < 0.
Proof.
  intros He. rewrite copy_out_spec. destruct (gives_output r); cbn [negb]; [|by eexists _, _].
  destruct (u_write u); by eexists _, _.
Qed.
End Meaning.

(** A request for a buffer without planes, and all other requests. *)
Lemma dispatch_plain {S} u (ops : v4l2_ioctl_ops S) r s : planes r = 0 ->
  video_ioctl2 u (Some ops) r s = ioctl_spec u ops r s.
Proof.
  intros Hp. unfold video_ioctl2, video_usercopy, ioctl_spec. rewrite size_large, input_dir, check_planes.
  rewrite (no_planes r Hp). destruct (is_large r) eqn:El; cbn [andb].
  - rewrite (size_of_large r El). destruct (negb (present _)); [done|]. destruct (takes_input r && _); [done|].
    apply usercopy_tail.
  - destruct (takes_input r && _); [done|]. apply usercopy_tail.
Qed.

Lemma dispatch_planar {S} u (ops : v4l2_ioctl_ops S) r s : 0 < planes r ->
  exists err r', video_ioctl2 u (Some ops) r s = Some (err, r', s) /\ err < 0.
Proof.
  intros Hp. unfold video_ioctl2, video_usercopy. rewrite check_planes.
  destruct (_ && negb (present _)); [by eexists _, _|]. destruct (bit_set _ _ && _); [by eexists _, _|].
  destruct (check_array_args r) as [err|[[ptr size]|]] eqn:Ec.
  - exists err, r. by destruct (array_cases r Hp) as [E|[? E]]; rewrite E in Ec; simplify_eq.
  - destruct (u_kmalloc u size); [|by apply copy_out_error]. destruct (negb (u_array_read u)); [by apply copy_out_error|].
    destruct (planar_refused ops r z s Hp) as (err & r' & -> & He). cbn [mbind option_bind].
    apply copy_out_error. by destruct (u_array_write u).
  - by destruct (array_cases r Hp) as [E|[? E]]; rewrite E in Ec.
Qed.

(** * Properties *)

(** C6. A request of a program reaches the entry of the driver for it, at most once,
    with the fields that are input and zeros elsewhere, and what the program gets
    back is what the entry left, unless the entry failed, when nothing is copied
    back. A missing entry gives -ENOTTY, a stream of another kind -EINVAL, memory
    that cannot be allocated or read an error before the driver is called; memory
    that cannot be written gives -EFAULT after the driver has done its work.
    Buffers with planes never reach these drivers. *)
Theorem ioctl_dispatch {S} u (ops : v4l2_ioctl_ops S) r s :
  (planes r = 0 -> video_ioctl2 u (Some ops) r s = ioctl_spec u ops r s) /\
  (0 < planes r -> exists err r', video_ioctl2 u (Some ops) r s = Some (err, r', s) /\ err < 0).
Proof. split; [apply dispatch_plain | apply dispatch_planar]. Qed.

(** A driver that has one entry, DQBUF, and tells its format. *)
Definition counting_ops : v4l2_ioctl_ops Z :=
  mk_ops None None (Some (fun f s => Some (0, f, s))) None None None None None
    (Some (fun b s => Some (0, set_vb_bytesused 7 b, s + 1))) None None None None None.
Definition plain_memory : user_memory := mk_user (fun _ => Some 0) true true true true (fun old _ => old).
Definition capture_buffer (i : Z) : v4l2_buffer :=
  mk_vbuf i V4L2_BUF_TYPE_VIDEO_CAPTURE 0 0 0 (0, 0) 0 V4L2_MEMORY_MMAP 0 0 0.

Lemma ioctl_dispatch_witness :
  video_ioctl2 plain_memory (Some counting_ops) (VIDIOC_DQBUF (capture_buffer 2)) 5 =
  Some (0, VIDIOC_DQBUF (set_vb_bytesused 7 (capture_buffer 2)), 6).
Proof.
  etransitivity; [by apply (ioctl_dispatch plain_memory counting_ops (VIDIOC_DQBUF (capture_buffer 2)) 5)|].
  reflexivity.
Defined.

(** The numbers that the header of the C library has. *)
Lemma known_numbers :
  cmd_number <$> [VIDIOC_S_FMT zero_format; VIDIOC_QUERYBUF zero_buffer; VIDIOC_STREAMON 1] =
  [0xc0cc5605; 0xc0445609; 0x40045612].
Proof. reflexivity. Qed.
