(* ===== verification/VideoDev.v ===== *)
(** The registrar of video devices, drivers/media/video/v4l2-dev.c: registration
    with minors and device nodes, and the file operations of every video device,
    which look the device up by the minor of the file. The references of the device
    inside are those of drivers/base/core.c and include/linux/kref.h.

    The structures [struct video_device] lie in a heap; an access to one that was
    freed is undefined ([None]). The functions of a driver work on a state [D] of
    its own. What no driver of the repository sets is left out: the parent
    [v4l2_dev], its priorities and control handler. Locks are not modelled; a signal
    during the wait for one is an argument. *)
From S2P Require Import Prelude Bitmap V4l2 V4l2Ioctl.
Open Scope Z_scope.

Definition VIDEO_NUM_DEVICES : Z := 256.
Definition VFL_TYPE_GRABBER : Z := 0.
Definition VFL_TYPE_VBI : Z := 1.
Definition VFL_TYPE_RADIO : Z := 2.
Definition VFL_TYPE_SUBDEV : Z := 3.
Definition POLLHUP : Z := 0x0010.
(** POLLIN, POLLOUT, POLLRDNORM and POLLWRNORM (include/linux/poll.h) *)
Definition DEFAULT_POLLMASK : Z := Z.lor (Z.lor (Z.lor 0x0001 0x0004) 0x0040) 0x0100.

(** * Data *)

(** What a driver sees of a mapping. *)
Record vm_area := mk_area {
  va_start : Z;
  va_end : Z;
  va_pgoff : Z;
  va_flags : Z
}.

(** [struct v4l2_file_operations] on the state of a driver. [video_ioctl2] finds the
    table of requests in the device, so it is an argument of the two ioctls. *)
Definition ioctl_fn (D : Type) : Type :=
  option (v4l2_ioctl_ops D) -> user_memory -> request -> D -> option (Z * request * D).

Record v4l2_file_operations (D : Type) := mk_fops {
  fo_read : option (Z -> D -> option (Z * list Z * D));
  fo_poll : option (D -> option (Z * D));
  fo_ioctl : option (ioctl_fn D);
  fo_unlocked_ioctl : option (ioctl_fn D);
  fo_mmap : option (vm_area -> D -> option (Z * D));
  fo_open : option (D -> option (Z * D));
  fo_release : option (D -> option (Z * D))
}.
Arguments mk_fops {D} _ _ _ _ _ _ _.
Arguments fo_read {D} _.
Arguments fo_poll {D} _.
Arguments fo_ioctl {D} _.
Arguments fo_unlocked_ioctl {D} _.
Arguments fo_mmap {D} _.
Arguments fo_open {D} _.
Arguments fo_release {D} _.

(** [vdev->release]: a function of the driver, or [video_device_release]. *)
Inductive release_fn (D : Type) :=
  | Rel_driver (f : D -> option D)
  | Rel_free.
Arguments Rel_driver {D} _.
Arguments Rel_free {D}.

(** [v_ref] is the count in [vdev->dev], [v_dev_release] says that its release
    function is set, [v_parent] names the device it belongs to. *)
Record video_device (D : Type) := mk_video_device {
  v_fops : v4l2_file_operations D;
  v_ops : option (v4l2_ioctl_ops D);
  v_release : option (release_fn D);
  v_parent : option nat;
  v_lock : bool;
  v_registered : bool;
  v_type : Z;
  v_minor : Z;
  v_num : Z;
  v_index : Z;
  v_cdev : bool;
  v_ref : Z;
  v_dev_release : bool
}.
Arguments mk_video_device {D} _ _ _ _ _ _ _ _ _ _ _ _ _.
Arguments v_fops {D} _.
Arguments v_ops {D} _.
Arguments v_release {D} _.
Arguments v_parent {D} _.
Arguments v_lock {D} _.
Arguments v_registered {D} _.
Arguments v_type {D} _.
Arguments v_minor {D} _.
Arguments v_num {D} _.
Arguments v_index {D} _.
Arguments v_cdev {D} _.
Arguments v_ref {D} _.
Arguments v_dev_release {D} _.

(** The static variables: the array [video_device] by minor and the numbers
    [devnode_nums] in use by type; with them the heap, the open files with their
    minors, and the state of the drivers. *)
Record videodev (D : Type) := mk_videodev {
  vs_heap : gmap nat (video_device D);
  vs_table : gmap Z nat;
  vs_nums : gset (Z * Z);
  vs_files : gmap nat Z;
  vs_drv : D
}.
Arguments mk_videodev {D} _ _ _ _ _.
Arguments vs_heap {D} _.
Arguments vs_table {D} _.
Arguments vs_nums {D} _.
Arguments vs_files {D} _.
Arguments vs_drv {D} _.

Section VideoDev.
Context {D : Type}.
Implicit Types (v : video_device D) (st : videodev D) (p : nat) (m : Z).

Definition set_heap (h : gmap nat (video_device D)) (st : videodev D) : videodev D :=
  mk_videodev h (vs_table st) (vs_nums st) (vs_files st) (vs_drv st).
Definition set_table (t : gmap Z nat) (st : videodev D) : videodev D :=
  mk_videodev (vs_heap st) t (vs_nums st) (vs_files st) (vs_drv st).
Definition set_nums (n : gset (Z * Z)) (st : videodev D) : videodev D :=
  mk_videodev (vs_heap st) (vs_table st) n (vs_files st) (vs_drv st).
Definition set_files (f : gmap nat Z) (st : videodev D) : videodev D :=
  mk_videodev (vs_heap st) (vs_table st) (vs_nums st) f (vs_drv st).
Definition set_drv (d : D) (st : videodev D) : videodev D :=
  mk_videodev (vs_heap st) (vs_table st) (vs_nums st) (vs_files st) d.

Definition put_vdev (p : nat) (v : video_device D) (st : videodev D) : videodev D :=
  set_heap (<[p := v]> (vs_heap st)) st.

Definition set_registered (b : bool) (v : video_device D) : video_device D :=
  mk_video_device (v_fops v) (v_ops v) (v_release v) (v_parent v) (v_lock v) b (v_type v) (v_minor v) (v_num v)
    (v_index v) (v_cdev v) (v_ref v) (v_dev_release v).
Definition set_ref (n : Z) (v : video_device D) : video_device D :=
  mk_video_device (v_fops v) (v_ops v) (v_release v) (v_parent v) (v_lock v) (v_registered v) (v_type v) (v_minor v)
    (v_num v) (v_index v) (v_cdev v) n (v_dev_release v).
Definition set_minor (m : Z) (v : video_device D) : video_device D :=
  mk_video_device (v_fops v) (v_ops v) (v_release v) (v_parent v) (v_lock v) (v_registered v) (v_type v) m
    (v_num v) (v_index v) (v_cdev v) (v_ref v) (v_dev_release v).
Definition set_cdev (b : bool) (v : video_device D) : video_device D :=
  mk_video_device (v_fops v) (v_ops v) (v_release v) (v_parent v) (v_lock v) (v_registered v) (v_type v) (v_minor v)
    (v_num v) (v_index v) b (v_ref v) (v_dev_release v).
Definition set_type (t : Z) (v : video_device D) : video_device D :=
  mk_video_device (v_fops v) (v_ops v) (v_release v) (v_parent v) (v_lock v) (v_registered v) t (v_minor v)
    (v_num v) (v_index v) (v_cdev v) (v_ref v) (v_dev_release v).
Definition set_place (m n i : Z) (v : video_device D) : video_device D :=
  mk_video_device (v_fops v) (v_ops v) (v_release v) (v_parent v) (v_lock v) (v_registered v) (v_type v) m n i
    (v_cdev v) (v_ref v) (v_dev_release v).
Definition set_dev_release (v : video_device D) : video_device D :=
  mk_video_device (v_fops v) (v_ops v) (v_release v) (v_parent v) (v_lock v) (v_registered v) (v_type v) (v_minor v)
    (v_num v) (v_index v) (v_cdev v) (v_ref v) true.

(** * Allocation and references *)

(** [kzalloc] and what the driver then fills in. *)
Definition new_vdev (fops : v4l2_file_operations D) (ops : option (v4l2_ioctl_ops D))
    (rel : option (release_fn D)) (parent : option nat) (lock : bool) : video_device D :=
  mk_video_device fops ops rel parent lock false 0 0 0 0 false 0 false.

Definition video_device_alloc (v : video_device D) (st : videodev D) : nat * videodev D :=
  let p := fresh (dom (vs_heap st)) in (p, put_vdev p v st).

(** [kfree]; a second one is undefined. *)
Definition video_device_release (p : nat) (st : videodev D) : option (videodev D) :=
  _ ← vs_heap st !! p; Some (set_heap (delete p (vs_heap st)) st).

Definition video_devdata (m : Z) (st : videodev D) : option nat := vs_table st !! m.

Definition video_get (p : nat) (st : videodev D) : option (videodev D) :=
  v ← vs_heap st !! p; Some (put_vdev p (set_ref (v_ref v + 1) v) st).

(** The last reference is gone. The warning for a device that is not in the table
    leaves everything as it is. *)
Definition v4l2_device_release (p : nat) (st : videodev D) : option (videodev D) :=
  v ← vs_heap st !! p;
  if negb (bool_decide (vs_table st !! v_minor v = Some p)) then Some st
  else
    let st := set_table (delete (v_minor v) (vs_table st)) st in
    let st := put_vdev p (set_cdev false v) st in
    let st := set_nums (vs_nums st ∖ {[(v_type v, v_num v)]}) st in
    match v_release v with
    | None => None
    | Some (Rel_driver f) => d ← f (vs_drv st); Some (set_drv d st)
    | Some Rel_free => video_device_release p st
    end.

(** [kref_put] on the count of the device; a count that is 0 already wraps. *)
Definition video_put (p : nat) (st : videodev D) : option (videodev D) :=
  v ← vs_heap st !! p;
  if v_ref v <=? 0 then None
  else
    let st := put_vdev p (set_ref (v_ref v - 1) v) st in
    if (v_ref v - 1 =? 0) && v_dev_release v then v4l2_device_release p st else Some st.

(** * Registration *)

(** The numbers of a type are in use. *)
Definition devnode_find (type : Z) (from to : Z) (st : videodev D) : Z :=
  find_next_zero_bit (fun n => bool_decide ((type, n) ∈ vs_nums st)) to from.

(** The indices of the devices in the table with the same parent. *)
Definition used_indices (parent : nat) (st : videodev D) : option (list Z) :=
  l ← mapM (fun '(_, p) => vs_heap st !! p) (map_to_list (vs_table st));
  Some (v_index <$> filter (fun v => v_parent v = Some parent) l).

Definition get_index (v : video_device D) (st : videodev D) : option Z :=
  match v_parent v with
  | None => Some 0
  | Some parent =>
      used ← used_indices parent st;
      Some (find_next_zero_bit (fun i => bool_decide (i ∈ used)) VIDEO_NUM_DEVICES 0)
  end.

(** The ranges of minors, with CONFIG_VIDEO_FIXED_MINOR_RANGES and without. *)
Definition minor_range (fixed : bool) (type : Z) : Z * Z :=
  if fixed then
    if type =? VFL_TYPE_GRABBER then (0, 64)
    else if type =? VFL_TYPE_RADIO then (64, 64)
    else if type =? VFL_TYPE_VBI then (224, 32)
    else (128, 64)
  else (0, VIDEO_NUM_DEVICES).

(** The first free minor; 256 if there is none. *)
Definition free_minor (st : videodev D) : Z :=
  find_next_zero_bit (fun i => bool_decide (is_Some (vs_table st !! i))) VIDEO_NUM_DEVICES 0.

(** The answers of [cdev_alloc], [cdev_add] and [device_register]. *)
Record register_env := mk_renv {
  re_cdev_alloc : bool;
  re_cdev_add : Z;
  re_device_register : Z
}.

(** The label [cleanup]. *)
Definition register_cleanup (ret : Z) (p : nat) (v : video_device D) (st : videodev D)
    : option (Z * videodev D) :=
  let st := set_nums (vs_nums st ∖ {[(v_type v, v_num v)]}) st in
  Some (ret, put_vdev p (set_minor (-1) v) st).

(** Part 3 to part 6: the device [v] has its numbers. *)
Definition register_activate (env : register_env) (p : nat) (v : video_device D) (st : videodev D)
    : option (Z * videodev D) :=
  if negb (re_cdev_alloc env) then register_cleanup (- ENOMEM) p v st
  else if re_cdev_add env <? 0 then register_cleanup (re_cdev_add env) p v st
  else
    let v := set_ref 1 (set_cdev true v) in
    if re_device_register env <? 0 then register_cleanup (re_device_register env) p v st
    else
      let v := set_registered true (set_dev_release v) in
      Some (0, set_table (<[v_minor v := p]> (vs_table st)) (put_vdev p v st)).

Definition __video_register_device (fixed : bool) (env : register_env) (p : nat) (type nr : Z)
    (st : videodev D) : option (Z * videodev D) :=
  v ← vs_heap st !! p;
  let v := set_minor (-1) v in
  match v_release v with
  | None => Some (- EINVAL, put_vdev p v st)
  | Some _ =>
      if negb ((0 <=? type) && (type <=? VFL_TYPE_SUBDEV)) then Some (- EINVAL, put_vdev p v st)
      else
        let v := set_type type (set_cdev false v) in
        let '(minor_offset, minor_cnt) := minor_range fixed type in
        let from := if nr =? -1 then 0 else u32 nr in
        let nr := devnode_find type from minor_cnt st in
        let nr := if nr =? minor_cnt then devnode_find type 0 minor_cnt st else nr in
        if nr =? minor_cnt then Some (- ENFILE, put_vdev p v st)
        else
          let i := if fixed then nr else free_minor st in
          if negb fixed && (i =? VIDEO_NUM_DEVICES) then Some (- ENFILE, put_vdev p v st)
          else
            let st := set_nums (vs_nums st ∪ {[(type, nr)]}) st in
            index ← get_index v st;
            register_activate env p (set_place (i + minor_offset) nr index v) st
  end.

Definition video_unregister_device (p : nat) (st : videodev D) : option (videodev D) :=
  v ← vs_heap st !! p;
  if negb (v_registered v) then Some st else video_put p (put_vdev p (set_registered false v) st).

(** * The file operations of every device *)

(** [v4l2_open] for a minor; [sig] says that a signal ends the wait for the lock. *)
Definition v4l2_open (sig : bool) (m : Z) (st : videodev D) : option (Z * videodev D) :=
  match video_devdata m st with
  | None => Some (- ENODEV, st)
  | Some p =>
      v ← vs_heap st !! p;
      if negb (v_registered v) then Some (- ENODEV, st)
      else
        st ← video_get p st;
        '(ret, st) ← match fo_open (v_fops v) with
                     | None => Some (0, st)
                     | Some f =>
                         if v_lock v && sig then Some (- ERESTARTSYS, st)
                         else '(ret, d) ← f (vs_drv st); Some (ret, set_drv d st)
                     end;
        if negb (ret =? 0) then st ← video_put p st; Some (ret, st) else Some (ret, st)
  end.

Definition v4l2_release (m : Z) (st : videodev D) : option (Z * videodev D) :=
  p ← video_devdata m st;
  v ← vs_heap st !! p;
  st ← match fo_release (v_fops v) with
       | None => Some st
       | Some f => '(_, d) ← f (vs_drv st); Some (set_drv d st)
       end;
  st ← video_put p st;
  Some (0, st).

(** A call of a function of the driver under the lock of the device. *)
Definition locked {A} (sig : bool) (v : video_device D) (refused : A) (f : D -> option (Z * A * D))
    (st : videodev D) : option (Z * A * videodev D) :=
  if v_lock v && sig then Some (- ERESTARTSYS, refused, st)
  else if v_registered v then '(ret, a, d) ← f (vs_drv st); Some (ret, a, set_drv d st)
  else Some (- ENODEV, refused, st).

Definition v4l2_read (sig : bool) (m sz : Z) (st : videodev D) : option (Z * list Z * videodev D) :=
  p ← video_devdata m st;
  v ← vs_heap st !! p;
  match fo_read (v_fops v) with
  | None => Some (- EINVAL, [], st)
  | Some f => locked sig v [] (f sz) st
  end.

Definition v4l2_poll (m : Z) (st : videodev D) : option (Z * videodev D) :=
  p ← video_devdata m st;
  v ← vs_heap st !! p;
  match fo_poll (v_fops v) with
  | None => Some (DEFAULT_POLLMASK, st)
  | Some f =>
      if v_registered v then '(ret, d) ← f (vs_drv st); Some (ret, set_drv d st)
      else Some (Z.lor POLLERR POLLHUP, st)
  end.

(** DQBUF does not take the lock that stands for the big kernel lock. *)
Definition is_dqbuf (r : request) : bool := match r with VIDIOC_DQBUF _ => true | _ => false end.

Definition v4l2_ioctl (sig : bool) (u : user_memory) (m : Z) (r : request) (st : videodev D)
    : option (Z * request * videodev D) :=
  p ← video_devdata m st;
  v ← vs_heap st !! p;
  match fo_unlocked_ioctl (v_fops v) with
  | Some f => locked sig v r (f (v_ops v) u r) st
  | None =>
      match fo_ioctl (v_fops v) with
      | Some f =>
          if negb (is_dqbuf r) && sig then Some (- ERESTARTSYS, r, st)
          else if v_registered v then '(ret, r, d) ← f (v_ops v) u r (vs_drv st); Some (ret, r, set_drv d st)
          else Some (- ENODEV, r, st)
      | None => Some (- ENOTTY, r, st)
      end
  end.

Definition v4l2_mmap (sig : bool) (m : Z) (vm : vm_area) (st : videodev D) : option (Z * videodev D) :=
  p ← video_devdata m st;
  v ← vs_heap st !! p;
  match fo_mmap (v_fops v) with
  | None => Some (- ENODEV, st)
  | Some f =>
      '(ret, _, st) ← locked sig v tt (fun d => '(ret, d) ← f vm d; Some (ret, tt, d)) st;
      Some (ret, st)
  end.
End VideoDev.

(** * The machine *)

(** Calls of drivers and programs, and what goes with them: a new file gets a
    descriptor, a closed one loses it. *)
Inductive vevent (D : Type) :=
  | V_alloc (fops : v4l2_file_operations D) (ops : option (v4l2_ioctl_ops D))
      (rel : option (release_fn D)) (parent : option nat) (lock : bool)
  | V_register (env : register_env) (p : nat) (type nr : Z)
  | V_unregister (p : nat)
  | V_free (p : nat)
  | V_open (sig : bool) (m : Z)
  | V_close (fd : nat)
  | V_read (sig : bool) (fd : nat) (sz : Z)
  | V_poll (fd : nat)
  | V_ioctl (sig : bool) (u : user_memory) (fd : nat) (r : request)
  | V_mmap (sig : bool) (fd : nat) (vm : vm_area).
Arguments V_alloc {D} _ _ _ _ _.
Arguments V_register {D} _ _ _ _.
Arguments V_unregister {D} _.
Arguments V_free {D} _.
Arguments V_open {D} _ _.
Arguments V_close {D} _.
Arguments V_read {D} _ _ _.
Arguments V_poll {D} _.
Arguments V_ioctl {D} _ _ _ _.
Arguments V_mmap {D} _ _ _.

Section Machine.
Context {D : Type}.
Implicit Types (v : video_device D) (st : videodev D) (p fd : nat) (m : Z).

(** Opening with the descriptor for it. *)
Definition sys_open (sig : bool) (m : Z) (st : videodev D) : option (Z * nat * videodev D) :=
  '(ret, st) ← v4l2_open sig m st;
  let fd := fresh (dom (vs_files st)) in
  Some (ret, fd, if ret =? 0 then set_files (<[fd := m]> (vs_files st)) st else st).

Definition sys_close (fd : nat) (st : videodev D) : option (Z * videodev D) :=
  m ← vs_files st !! fd; v4l2_release m (set_files (delete fd (vs_files st)) st).

Definition vstep (fixed : bool) (ev : vevent D) (st : videodev D) : option (videodev D) :=
  match ev with
  | V_alloc fops ops rel parent lock => Some (video_device_alloc (new_vdev fops ops rel parent lock) st).2
  | V_register env p type nr => snd <$> __video_register_device fixed env p type nr st
  | V_unregister p => video_unregister_device p st
  | V_free p => video_device_release p st
  | V_open sig m => snd <$> sys_open sig m st
  | V_close fd => snd <$> sys_close fd st
  | V_read sig fd sz => m ← vs_files st !! fd; snd <$> v4l2_read sig m sz st
  | V_poll fd => m ← vs_files st !! fd; snd <$> v4l2_poll m st
  | V_ioctl sig u fd r => m ← vs_files st !! fd; snd <$> v4l2_ioctl sig u m r st
  | V_mmap sig fd vm => m ← vs_files st !! fd; snd <$> v4l2_mmap sig m vm st
  end.

(** Before any driver is loaded. *)
Definition initial_videodev (d : D) : videodev D := mk_videodev ∅ ∅ ∅ ∅ d.

(** What [myuvc_disconnect] does when the second interface goes away. *)
Definition unregister_and_free (p : nat) (st : videodev D) : option (videodev D) :=
  st ← video_unregister_device p st; video_device_release p st.
End Machine.

(** * The invariant *)

(** The files that are open on a minor. *)
Definition opens (m : Z) (f : gmap nat Z) : Z := Z.of_nat (size (filter (fun kv => kv.2 = m) f)).

(** What the functions of a driver keep: they do not fault and leave [inv] true, on
    the requests and mappings the driver can take. *)
Record driver_laws (D : Type) := mk_laws {
  dl_inv : D -> Prop;
  dl_request : D -> request -> Prop;
  dl_area : D -> vm_area -> Prop;
  dl_poll : D -> Prop
}.
Arguments mk_laws {D} _ _ _ _.
Arguments dl_inv {D} _ _.
Arguments dl_request {D} _ _ _.
Arguments dl_area {D} _ _ _.
Arguments dl_poll {D} _ _.

Record fops_good {D} (L : driver_laws D) (v : video_device D) : Prop := mk_good {
  fg_open : forall f d, fo_open (v_fops v) = Some f -> dl_inv L d ->
    exists ret d', f d = Some (ret, d') /\ dl_inv L d';
  fg_release : forall f d, fo_release (v_fops v) = Some f -> dl_inv L d ->
    exists ret d', f d = Some (ret, d') /\ dl_inv L d';
  fg_poll : forall f d, fo_poll (v_fops v) = Some f -> dl_inv L d -> dl_poll L d ->
    exists ret d', f d = Some (ret, d') /\ dl_inv L d';
  fg_read : forall f d sz, fo_read (v_fops v) = Some f -> dl_inv L d ->
    exists ret b d', f sz d = Some (ret, b, d') /\ dl_inv L d';
  fg_ioctl : forall f d u r,
    fo_unlocked_ioctl (v_fops v) = Some f \/ fo_ioctl (v_fops v) = Some f ->
    dl_inv L d -> dl_request L d r ->
    exists ret r' d', f (v_ops v) u r d = Some (ret, r', d') /\ dl_inv L d';
  fg_mmap : forall f d vm, fo_mmap (v_fops v) = Some f -> dl_inv L d -> dl_area L d vm ->
    exists ret d', f vm d = Some (ret, d') /\ dl_inv L d';
  fg_gone : forall f d, v_release v = Some (Rel_driver f) -> dl_inv L d ->
    exists d', f d = Some d' /\ dl_inv L d'
}.

Section Invariant.
Context {D : Type} (L : driver_laws D) (fixed : bool).
Implicit Types (v : video_device D) (st : videodev D) (p fd : nat) (m : Z).

(** A device of the table. [held] are references that calls in progress have. *)
Record in_table (held : Z -> Z) (nums : gset (Z * Z)) (files : gmap nat Z) m v : Prop := {
  it_minor : v_minor v = m;
  it_range : 0 <= m < VIDEO_NUM_DEVICES;
  it_type : 0 <= v_type v <= VFL_TYPE_SUBDEV;
  it_num : 0 <= v_num v < (minor_range fixed (v_type v)).2;
  it_fixed : fixed = true -> m = v_num v + (minor_range true (v_type v)).1;
  it_index : 0 <= v_index v < VIDEO_NUM_DEVICES;
  it_used : (v_type v, v_num v) ∈ nums;
  it_release : is_Some (v_release v);
  it_dev : v_dev_release v = true;
  it_ref : v_ref v = opens m files + (if v_registered v then 1 else 0) + held m;
  it_live : 0 < v_ref v
}.

(** Two devices of the table. *)
Definition distinct (v w : video_device D) : Prop :=
  (v_type v, v_num v) <> (v_type w, v_num w) /\
  (forall q, v_parent v = Some q -> v_parent w = Some q -> v_index v <> v_index w).

Record dev_ok (held : Z -> Z) st : Prop := {
  ok_table : forall m p, vs_table st !! m = Some p ->
    exists v, vs_heap st !! p = Some v /\ in_table held (vs_nums st) (vs_files st) m v;
  ok_pairs : forall m m' p p' v v', vs_table st !! m = Some p -> vs_table st !! m' = Some p' ->
    vs_heap st !! p = Some v -> vs_heap st !! p' = Some v' -> m <> m' -> distinct v v';
  ok_reg : forall p v, vs_heap st !! p = Some v -> v_registered v = true ->
    vs_table st !! v_minor v = Some p;
  ok_nums : forall x, x ∈ vs_nums st -> exists m p v,
    vs_table st !! m = Some p /\ vs_heap st !! p = Some v /\ (v_type v, v_num v) = x;
  ok_files : forall fd m, vs_files st !! fd = Some m -> is_Some (vs_table st !! m);
  ok_good : forall p v, vs_heap st !! p = Some v -> fops_good L v;
  ok_drv : dl_inv L (vs_drv st)
}.

(** No call is in progress. *)
Definition nobody : Z -> Z := fun _ => 0.

(** What drivers and programs keep to: a device is registered once, not freed while
    it is in the table, and calls come for open files. *)
Definition vallowed st (ev : vevent D) : Prop :=
  match ev with
  | V_alloc fops ops rel parent lock => fops_good L (new_vdev fops ops rel parent lock)
  | V_register _ p _ _ => (exists v, vs_heap st !! p = Some v /\ v_registered v = false) /\
      forall m, vs_table st !! m <> Some p
  | V_unregister p => is_Some (vs_heap st !! p)
  | V_free p => is_Some (vs_heap st !! p) /\ forall m, vs_table st !! m <> Some p
  | V_open _ _ => True
  | V_close fd | V_read _ fd _ => is_Some (vs_files st !! fd)
  | V_poll fd => is_Some (vs_files st !! fd) /\ dl_poll L (vs_drv st)
  | V_ioctl _ _ fd r => is_Some (vs_files st !! fd) /\ dl_request L (vs_drv st) r
  | V_mmap _ fd vm => is_Some (vs_files st !! fd) /\ dl_area L (vs_drv st) vm
  end.

Inductive vreachable (st0 : videodev D) : videodev D -> Prop :=
  | vreach_init : vreachable st0 st0
  | vreach_step st ev st' : vreachable st0 st -> vallowed st ev -> vstep fixed ev st = Some st' ->
      vreachable st0 st'.
End Invariant.

(** * Lemmas *)

Definition held_add (m n : Z) (held : Z -> Z) : Z -> Z :=
  fun m' => if decide (m' = m) then held m' + n else held m'.

Lemma held_add_same m n held : held_add m n held m = held m + n.
Proof. unfold held_add. by rewrite decide_True. Qed.
Lemma held_add_other m n held m' : m' <> m -> held_add m n held m' = held m'.
Proof. intros. unfold held_add. by rewrite decide_False. Qed.

Lemma opens_nonneg m f : 0 <= opens m f.
Proof. unfold opens. lia. Qed.

Lemma opens_insert m m' fd f : f !! fd = None ->
  opens m' (<[fd := m]> f) = opens m' f + (if decide (m' = m) then 1 else 0).
Proof.
  intros Hf. unfold opens. destruct (decide (m' = m)) as [->|Hm].
  - rewrite map_filter_insert_True by done. rewrite map_size_insert_None; [lia|].
    apply map_lookup_filter_None. by left.
  - rewrite map_filter_insert_not' by (intros; naive_solver congruence). lia.
Qed.

Lemma opens_delete m m' fd f : f !! fd = Some m ->
  opens m' f = opens m' (delete fd f) + (if decide (m' = m) then 1 else 0).
Proof.
  intros Hf. rewrite <- (insert_delete_id f fd m Hf) at 1. apply opens_insert. apply lookup_delete_eq.
Qed.

Lemma opens_open fd m f : f !! fd = Some m -> 0 < opens m f.
Proof.
  intros Hf. rewrite (opens_delete m m fd f Hf), decide_True by done. pose proof (opens_nonneg m (delete fd f)). lia.
Qed.

Section Lemmas.
Context {D : Type} (L : driver_laws D) (fixed : bool).
Implicit Types (v : video_device D) (st : videodev D) (p fd : nat) (m : Z).

Lemma dev_ok_drv held st d : dev_ok L fixed held st -> dl_inv L d -> dev_ok L fixed held (set_drv d st).
Proof. intros [] Hd. by split. Qed.

(** A device is in the table once. *)
Lemma table_inj held st m m' p : dev_ok L fixed held st ->
  vs_table st !! m = Some p -> vs_table st !! m' = Some p -> m = m'.
Proof.
  intros Hok H1 H2. destruct (ok_table _ _ _ _ Hok m p H1) as (v & Hv & Hi).
  destruct (ok_table _ _ _ _ Hok m' p H2) as (v' & Hv' & Hi'). simplify_eq.
  by rewrite <- (it_minor _ _ _ _ _ _ Hi), (it_minor _ _ _ _ _ _ Hi').
Qed.

(** The device at a minor gets another count or flag. *)
Lemma dev_ok_upd held held' st m p v n b : dev_ok L fixed held st ->
  vs_table st !! m = Some p -> vs_heap st !! p = Some v ->
  n = opens m (vs_files st) + (if b : bool then 1 else 0) + held' m -> 0 < n ->
  (forall m', m' <> m -> held' m' = held m') ->
  dev_ok L fixed held' (put_vdev p (set_ref n (set_registered b v)) st).
Proof.
  intros Hok Ht Hv Hn Hpos Hh.
  assert (forall p' w, <[p := set_ref n (set_registered b v)]> (vs_heap st) !! p' = Some w ->
    exists w0, vs_heap st !! p' = Some w0 /\ v_type w = v_type w0 /\ v_num w = v_num w0 /\
      v_parent w = v_parent w0 /\ v_index w = v_index w0 /\ v_minor w = v_minor w0 /\
      (p' <> p -> w = w0) /\ (fops_good L w0 -> fops_good L w)) as Hget.
  { intros p' w. destruct (decide (p' = p)) as [->|Hne].
    - rewrite lookup_insert_eq. intros [= <-]. exists v. split_and!; try done. by intros [].
    - rewrite lookup_insert_ne by done. intros Hw. by exists w. }
  split.
  - intros m' p' Ht'. cbn in *. destruct (ok_table _ _ _ _ Hok m' p' Ht') as (w & Hw & Hi).
    destruct (decide (p' = p)) as [->|Hne].
    + assert (m' = m) as -> by (by eapply table_inj). simplify_eq. eexists. split; [apply lookup_insert_eq|].
      destruct Hi. by split.
    + exists w. rewrite lookup_insert_ne by done. split; [done|]. destruct Hi as [? ? ? ? ? ? ? ? ? Hr ?]. split; try done.
      rewrite Hr, Hh; [done|]. intros ->. naive_solver.
  - intros m1 m2 p1 p2 v1 v2 H1 H2 E1 E2 Hne. cbn in *.
    apply Hget in E1 as (w1 & E1 & T1 & N1 & P1 & I1 & _). apply Hget in E2 as (w2 & E2 & T2 & N2 & P2 & I2 & _).
    unfold distinct. rewrite T1, T2, N1, N2, P1, P2, I1, I2. by apply (ok_pairs _ _ _ _ Hok m1 m2 p1 p2).
  - intros p' w E Hr. cbn in *. destruct (decide (p' = p)) as [->|Hne].
    + rewrite lookup_insert_eq in E. injection E as <-. cbn.
      destruct (ok_table _ _ _ _ Hok m p Ht) as (w & Hw & Hi). simplify_eq. by rewrite (it_minor _ _ _ _ _ _ Hi).
    + rewrite lookup_insert_ne in E by done. by apply (ok_reg _ _ _ _ Hok).
  - intros x Hx. cbn in *. destruct (ok_nums _ _ _ _ Hok x Hx) as (m' & p' & w & H1 & H2 & <-).
    exists m', p'. destruct (decide (p' = p)) as [->|Hne].
    + simplify_eq. eexists. split; [done|]. by rewrite lookup_insert_eq.
    + exists w. by rewrite lookup_insert_ne.
  - apply (ok_files _ _ _ _ Hok).
  - intros p' w E. cbn in E. apply Hget in E as (w0 & E & _ & _ & _ & _ & _ & _ & Hg).
    apply Hg. by apply (ok_good _ _ _ _ Hok p').
  - apply (ok_drv _ _ _ _ Hok).
Qed.

(** The device at a minor leaves the table. *)
Lemma dev_ok_remove held held' st m p v heap d : dev_ok L fixed held st ->
  vs_table st !! m = Some p -> vs_heap st !! p = Some v -> opens m (vs_files st) = 0 ->
  (forall p', p' <> p -> heap !! p' = vs_heap st !! p') ->
  (forall w, heap !! p = Some w -> v_registered w = false /\ fops_good L w) -> dl_inv L d ->
  (forall m', m' <> m -> held' m' = held m') ->
  dev_ok L fixed held' (mk_videodev heap (delete m (vs_table st))
    (vs_nums st ∖ {[(v_type v, v_num v)]}) (vs_files st) d).
Proof.
  intros Hok Ht Hv Ho Hheap Hp Hd Hh.
  assert (forall m' p', vs_table st !! m' = Some p' -> m' <> m -> p' <> p) as Hne.
  { intros m' p' H1 H2 ->. by apply H2, (table_inj held st m' m p). }
  split; cbn.
  - intros m' p' [Hm Ht']%lookup_delete_Some. destruct (ok_table _ _ _ _ Hok m' p' Ht') as (w & Hw & Hi).
    exists w. rewrite Hheap by (by eapply Hne). split; [done|]. destruct Hi as [? ? ? ? ? ? Hu ? ? Hr ?].
    split; try done; [|by rewrite Hr, Hh].
    apply elem_of_difference. split; [done|]. rewrite elem_of_singleton. intros E.
    destruct (ok_pairs _ _ _ _ Hok m' m p' p w v) as [Hx _]; try done.
  - intros m1 m2 p1 p2 v1 v2 [N1 H1]%lookup_delete_Some [N2 H2]%lookup_delete_Some E1 E2.
    rewrite Hheap in E1, E2 by (eapply Hne; [done|congruence]). by apply (ok_pairs _ _ _ _ Hok m1 m2 p1 p2).
  - intros p' w E Hr. destruct (decide (p' = p)) as [->|Hpp].
    + apply Hp in E as [E _]. congruence.
    + rewrite Hheap in E by done. pose proof (ok_reg _ _ _ _ Hok p' w E Hr) as Ht'.
      rewrite lookup_delete_ne; [done|]. intros Em. rewrite <- Em in Ht'. congruence.
  - intros x [Hx Hs%not_elem_of_singleton]%elem_of_difference.
    destruct (ok_nums _ _ _ _ Hok x Hx) as (m' & p' & w & H1 & H2 & E).
    assert (m' <> m) by (intros ->; simplify_eq). exists m', p', w.
    rewrite lookup_delete_ne, Hheap by (try done; by eapply Hne). done.
  - intros fd m' Hf. rewrite lookup_delete_ne; [by apply (ok_files _ _ _ _ Hok fd)|].
    intros <-. apply opens_open in Hf. lia.
  - intros p' w E. destruct (decide (p' = p)) as [->|]; [by apply Hp|].
    rewrite Hheap in E by done. by apply (ok_good _ _ _ _ Hok p').
  - done.
Qed.

(** What stays for the files that are open. *)
Definition same_open (st st' : videodev D) : Prop :=
  vs_files st' = vs_files st /\
  forall m, 0 < opens m (vs_files st) -> vs_table st' !! m = vs_table st !! m.

(** What is left of a device whose last reference is gone. *)
Definition gone (m : Z) (p : nat) (v : video_device D) (st st' : videodev D) : Prop :=
  vs_table st' = delete m (vs_table st) /\
  forall f, v_release v = Some (Rel_driver f) -> is_Some (vs_heap st' !! p).

(** The last reference is gone. *)
Lemma release_ok held st m p v n : dev_ok L fixed held st -> vs_table st !! m = Some p ->
  vs_heap st !! p = Some v -> v_registered v = false -> opens m (vs_files st) = 0 ->
  exists st', v4l2_device_release p (put_vdev p (set_ref n v) st) = Some st' /\
  dev_ok L fixed (held_add m (-1) held) st' /\ same_open st st' /\ gone m p v st st'.
Proof.
  intros Hok Ht Hv Hreg Ho. destruct (ok_table _ _ _ _ Hok m p Ht) as (v' & Hv' & Hi). simplify_eq.
  set (w := set_cdev false (set_ref n v)). set (heap1 := <[p := w]> (<[p := set_ref n v]> (vs_heap st))).
  assert (fops_good L w) as Hg by (destruct (ok_good _ _ _ _ Hok p v Hv); by split).
  assert (forall heap d, (forall p', p' <> p -> heap !! p' = vs_heap st !! p') ->
    (forall w', heap !! p = Some w' -> w' = w) -> dl_inv L d ->
    let st' := mk_videodev heap (delete m (vs_table st)) (vs_nums st ∖ {[(v_type v, v_num v)]}) (vs_files st) d in
    dev_ok L fixed (held_add m (-1) held) st' /\ same_open st st') as Hrem.
  { intros heap d H1 H2 H3. split.
    - apply (dev_ok_remove held _ st m p v); try done; [intros w' Hw; by rewrite (H2 w' Hw)|].
      intros m' Hne. by apply held_add_other.
    - split; [done|]. cbn. intros m' Hm'. rewrite lookup_delete_ne; [done|]. intros <-. lia. }
  unfold v4l2_device_release. cbn [vs_heap put_vdev set_heap]. rewrite lookup_insert_eq. cbn [mbind option_bind].
  change (v_minor (set_ref n v)) with (v_minor v). change (vs_table (put_vdev p (set_ref n v) st)) with (vs_table st).
  rewrite (it_minor _ _ _ _ _ _ Hi), bool_decide_true by done. cbn [negb].
  change (v_release (set_ref n v)) with (v_release v).
  destruct (it_release _ _ _ _ _ _ Hi) as [[f|] Hf]; rewrite Hf.
  - cbn [vs_drv set_nums put_vdev set_heap set_table].
    destruct (fg_gone _ _ (ok_good _ _ _ _ Hok p v Hv) f (vs_drv st) Hf (ok_drv _ _ _ _ Hok)) as (d & -> & Hd).
    cbn [mbind option_bind]. eexists. split; [reflexivity|]. apply and_assoc.
    split; [|split; [done|]; intros _ _; exists w; apply lookup_insert_eq].
    apply (Hrem heap1 d); [| |done]; unfold heap1.
    + intros p' Hne. by rewrite !lookup_insert_ne.
    + intros w'. rewrite lookup_insert_eq. by intros [= <-].
  - unfold video_device_release. cbn [vs_heap set_nums put_vdev set_heap set_table].
    rewrite lookup_insert_eq. cbn [mbind option_bind]. eexists. split; [reflexivity|].
    apply and_assoc. split; [|split; [done|]; intros g Hg'; congruence].
    apply (Hrem (delete p heap1) (vs_drv st)); [| |apply (ok_drv _ _ _ _ Hok)]; unfold heap1.
    + intros p' Hne. by rewrite lookup_delete_ne, !lookup_insert_ne.
    + intros w'. by rewrite lookup_delete_eq.
Qed.

(** A held reference is given back, the last one with the device. *)
Lemma put_ok held st m p : dev_ok L fixed held st -> vs_table st !! m = Some p -> 0 < held m ->
  exists st', video_put p st = Some st' /\ dev_ok L fixed (held_add m (-1) held) st' /\ same_open st st' /\
  forall v, vs_heap st !! p = Some v -> v_ref v = 1 -> gone m p v st st'.
Proof.
  intros Hok Ht Hm. destruct (ok_table _ _ _ _ Hok m p Ht) as (v & Hv & Hi).
  pose proof (it_ref _ _ _ _ _ _ Hi) as Hr. pose proof (it_live _ _ _ _ _ _ Hi) as Hl.
  pose proof (opens_nonneg m (vs_files st)) as Hon.
  unfold video_put. rewrite Hv. cbn [mbind option_bind]. rewrite (proj2 (Z.leb_gt _ _)) by done.
  rewrite (it_dev _ _ _ _ _ _ Hi), andb_true_r. destruct (Z.eqb_spec (v_ref v - 1) 0) as [E|E].
  - destruct (release_ok held st m p v (v_ref v - 1)) as (st' & E' & Hok' & Hs & Hgone); try done;
      [by destruct (v_registered v); [lia|] | destruct (v_registered v); lia |].
    exists st'. split_and!; try done. intros v' Hv' _. by simplify_eq.
  - eexists. split; [reflexivity|]. split; [|split; [done|]; intros v' Hv' E'; simplify_eq; lia].
    replace (set_ref (v_ref v - 1) v) with (set_ref (v_ref v - 1) (set_registered (v_registered v) v)) by (by destruct v).
    apply (dev_ok_upd held _ st m p v); [done | done | done | | lia |].
    + rewrite held_add_same. lia.
    + intros m' Hne. by apply held_add_other.
Qed.

Lemma get_ok held st m p v : dev_ok L fixed held st -> vs_table st !! m = Some p -> vs_heap st !! p = Some v ->
  exists st', video_get p st = Some st' /\ dev_ok L fixed (held_add m 1 held) st' /\
  vs_files st' = vs_files st /\ vs_table st' = vs_table st /\ vs_drv st' = vs_drv st.
Proof.
  intros Hok Ht Hv. destruct (ok_table _ _ _ _ Hok m p Ht) as (v' & Hv' & Hi). simplify_eq.
  unfold video_get. rewrite Hv. cbn [mbind option_bind]. eexists. split; [reflexivity|]. split; [|done].
  replace (set_ref (v_ref v + 1) v) with (set_ref (v_ref v + 1) (set_registered (v_registered v) v)) by (by destruct v).
  pose proof (it_ref _ _ _ _ _ _ Hi). pose proof (it_live _ _ _ _ _ _ Hi).
  apply (dev_ok_upd held _ st m p v); [done | done | done | | lia |].
  - rewrite held_add_same. lia.
  - intros m' Hne. by apply held_add_other.
Qed.

(** References that are counted elsewhere do not matter. *)
Lemma held_eq held held' st : dev_ok L fixed held st ->
  (forall m, is_Some (vs_table st !! m) -> held' m = held m) -> dev_ok L fixed held' st.
Proof.
  intros [Ht ? ? ? ? ? ?] Hh. split; try done. intros m p E. destruct (Ht m p E) as (v & Hv & []).
  exists v. split; [done|]. split; try done. by rewrite Hh.
Qed.

(** A file more on a device that is in the table. *)
Lemma file_added held st fd m : dev_ok L fixed held st -> vs_files st !! fd = None ->
  is_Some (vs_table st !! m) ->
  dev_ok L fixed (held_add m (-1) held) (set_files (<[fd := m]> (vs_files st)) st).
Proof.
  intros [Ht ? ? ? Hf ? ?] Hfd Hm. split; try done.
  - intros m' p E. destruct (Ht m' p E) as (v & Hv & []). exists v. split; [done|]. split; try done.
    cbn. rewrite opens_insert by done. unfold held_add. destruct (decide (m' = m)); lia.
  - intros fd' m'. cbn. rewrite lookup_insert_Some. intros [[_ <-]|[_ E]]; [done|by apply (Hf fd')].
Qed.

(** A file less. *)
Lemma file_removed held st fd m : dev_ok L fixed held st -> vs_files st !! fd = Some m ->
  dev_ok L fixed (held_add m 1 held) (set_files (delete fd (vs_files st)) st).
Proof.
  intros [Ht ? ? ? Hf ? ?] Hfd. split; try done.
  - intros m' p E. destruct (Ht m' p E) as (v & Hv & [? ? ? ? ? ? ? ? ? Hr ?]). exists v. split; [done|].
    split; try done. cbn. rewrite Hr, (opens_delete m m' fd) by done. unfold held_add. destruct (decide (m' = m)); lia.
  - intros fd' m'. cbn. intros [_ E]%lookup_delete_Some. by apply (Hf fd').
Qed.

(** ** Registration *)

(** A device that is not in the table changes. *)
Lemma outside_ok held st p v : dev_ok L fixed held st -> (forall m, vs_table st !! m <> Some p) ->
  v_registered v = false -> fops_good L v -> dev_ok L fixed held (put_vdev p v st).
Proof.
  intros Hok Hp Hr Hg.
  assert (forall m q, vs_table st !! m = Some q -> <[p := v]> (vs_heap st) !! q = vs_heap st !! q) as Hsame.
  { intros m q Hq. rewrite lookup_insert_ne; [done|]. intros ->. by apply (Hp m). }
  destruct Hok as [Ht Hu Hreg Hn Hf Hgood Hd]. split; try done; cbn.
  - intros m q Hq. rewrite (Hsame m q Hq). by apply Ht.
  - intros m1 m2 p1 p2 v1 v2 H1 H2. rewrite (Hsame m1 p1 H1), (Hsame m2 p2 H2). by apply Hu.
  - intros q w. rewrite lookup_insert_Some. intros [[<- <-]|[_ E]]; [congruence|by apply Hreg].
  - intros x Hx. destruct (Hn x Hx) as (m & q & w & H1 & H2 & E). exists m, q, w. by rewrite (Hsame m q H1).
  - intros q w. rewrite lookup_insert_Some. intros [[<- <-]|[_ E]]; [done|by apply (Hgood q)].
Qed.

Lemma no_files held st m : dev_ok L fixed held st -> vs_table st !! m = None -> opens m (vs_files st) = 0.
Proof.
  intros Hok Hm. unfold opens. rewrite map_empty_filter_2, map_size_empty; [done|].
  intros fd m' Hf E. cbn in E. subst m'. destruct (ok_files _ _ _ _ Hok fd m Hf) as [q Hq]. congruence.
Qed.

(** The place of a device that can be entered in the table. *)
Record free_place st v : Prop := {
  fp_minor : vs_table st !! v_minor v = None;
  fp_range : 0 <= v_minor v < VIDEO_NUM_DEVICES;
  fp_type : 0 <= v_type v <= VFL_TYPE_SUBDEV;
  fp_num : 0 <= v_num v < (minor_range fixed (v_type v)).2;
  fp_fixed : fixed = true -> v_minor v = v_num v + (minor_range true (v_type v)).1;
  fp_unused : (v_type v, v_num v) ∉ vs_nums st;
  fp_index : 0 <= v_index v < VIDEO_NUM_DEVICES;
  fp_sibling : forall q m p w, v_parent v = Some q -> vs_table st !! m = Some p -> vs_heap st !! p = Some w ->
    v_parent w = Some q -> v_index w <> v_index v
}.

(** The device is entered. *)
Lemma activated_ok st p v : dev_ok L fixed nobody st -> (forall m, vs_table st !! m <> Some p) ->
  free_place st v -> v_registered v = true -> v_ref v = 1 -> v_dev_release v = true ->
  is_Some (v_release v) -> fops_good L v ->
  dev_ok L fixed nobody (mk_videodev (<[p := v]> (vs_heap st)) (<[v_minor v := p]> (vs_table st))
    (vs_nums st ∪ {[(v_type v, v_num v)]}) (vs_files st) (vs_drv st)).
Proof.
  intros Hok Hp [Fm Frange Ftype Fnum Ffixed Fx Findex Fsib] Hr Hn Hd Hrel Hg.
  pose proof (no_files _ _ _ Hok Fm) as Ho.
  assert (forall m q, <[v_minor v := p]> (vs_table st) !! m = Some q ->
    m = v_minor v /\ q = p \/ m <> v_minor v /\ q <> p /\ vs_table st !! m = Some q) as Hcase.
  { intros m q. rewrite lookup_insert_Some. intros [[<- <-]|[Hne Hq]]; [by left|]. right.
    split_and!; [done | | done]. intros ->. by apply (Hp m). }
  assert (forall m q w, vs_table st !! m = Some q -> vs_heap st !! q = Some w -> distinct v w) as Hdist.
  { intros m q w Hm Hw. destruct (ok_table _ _ _ _ Hok m q Hm) as (w' & Hw' & Hi). simplify_eq. split.
    - intros E. apply Fx. rewrite E. apply (it_used _ _ _ _ _ _ Hi).
    - intros parent Pv Pw E. by apply (Fsib parent m q w). }
  destruct Hok as [Ht Hu Hreg Hnums Hf Hgood Hdrv]. split; cbn.
  - intros m q [[-> ->]|(Hm & Hq & Hmq)]%Hcase.
    + exists v. rewrite lookup_insert_eq. split; [done|]. split; try done; [set_solver| |lia].
      rewrite Hn, Hr, Ho. done.
    + destruct (Ht m q Hmq) as (w & Hw & []). exists w. rewrite lookup_insert_ne by done. split; [done|].
      split; try done. set_solver.
  - intros m1 m2 p1 p2 v1 v2 [[-> ->]|(N1 & Q1 & H1)]%Hcase [[-> ->]|(N2 & Q2 & H2)]%Hcase; [done| | |].
    + rewrite lookup_insert_eq, lookup_insert_ne by done. intros [= <-] E2 _. by eapply Hdist.
    + rewrite lookup_insert_eq, lookup_insert_ne by done. intros E1 [= <-] _.
      destruct (Hdist m1 p1 v1) as [Ha Hb]; [done | done |]. split; [by apply not_eq_sym|].
      intros parent P1 P2. apply not_eq_sym. by apply (Hb parent).
    + rewrite !lookup_insert_ne by done. by apply Hu.
  - intros q w. rewrite lookup_insert_Some. intros [[<- <-]|[Hne E]] Hw; [by rewrite lookup_insert_eq|].
    rewrite lookup_insert_ne; [by apply Hreg|]. intros Em. rewrite Em, (Hreg q w E Hw) in Fm. done.
  - intros x [Hx|Hx%elem_of_singleton]%elem_of_union.
    + destruct (Hnums x Hx) as (m & q & w & H1 & H2 & E). exists m, q, w.
      rewrite !lookup_insert_ne; [done | | congruence]. intros <-. by apply (Hp m).
    + exists (v_minor v), p, v. by rewrite !lookup_insert_eq.
  - intros fd m Hfd. apply Hf in Hfd as [q Hq]. exists q. rewrite lookup_insert_ne; [done|]. congruence.
  - intros q w. rewrite lookup_insert_Some. intros [[<- <-]|[_ E]]; [done|by apply (Hgood q)].
  - done.
Qed.

(** The numbers 0 to 255 do not fit into fewer places. *)
Lemma pigeonhole (l : list Z) : (forall k, 0 <= k < VIDEO_NUM_DEVICES -> k ∈ l) -> (256 <= length l)%nat.
Proof.
  intros Hl. change 256%nat with (length (seqZ 0 VIDEO_NUM_DEVICES)).
  apply submseteq_length, NoDup_submseteq; [apply NoDup_seqZ|]. intros k Hk%elem_of_seqZ. apply Hl. lia.
Qed.

(** With a free minor there are at most 255 devices. *)
Lemma table_size held st m : dev_ok L fixed held st -> 0 <= m < VIDEO_NUM_DEVICES -> vs_table st !! m = None ->
  (size (vs_table st) <= 255)%nat.
Proof.
  intros Hok Hm Hnone. change 255%nat with (length (seqZ 0 VIDEO_NUM_DEVICES) - 1)%nat.
  assert (length (m :: (map_to_list (vs_table st)).*1) <= length (seqZ 0 VIDEO_NUM_DEVICES))%nat as Hlen.
  { apply submseteq_length, NoDup_submseteq.
    - apply NoDup_cons. split; [|apply NoDup_fst_map_to_list].
      intros ([m' q] & -> & Hin)%list_elem_of_fmap. apply elem_of_map_to_list in Hin. cbn in Hnone. congruence.
    - intros k [->|Hk]%elem_of_cons; [apply elem_of_seqZ; lia|].
      apply list_elem_of_fmap in Hk as ([m' q] & -> & Hin). apply elem_of_map_to_list in Hin.
      destruct (ok_table _ _ _ _ Hok m' q Hin) as (w & _ & Hi). apply elem_of_seqZ.
      pose proof (it_range _ _ _ _ _ _ Hi). cbn. lia. }
  cbn [length] in Hlen. rewrite length_fmap, length_map_to_list in Hlen. lia.
Qed.

(** The index of a device: 0 without a parent, else the first one that no device of
    the table with the same parent has. *)
Definition first_index (v : video_device D) (st : videodev D) (i : Z) : Prop :=
  match v_parent v with
  | None => i = 0
  | Some q =>
      (forall m p w, vs_table st !! m = Some p -> vs_heap st !! p = Some w -> v_parent w = Some q ->
         v_index w <> i) /\
      forall k, 0 <= k < i -> exists m p w, vs_table st !! m = Some p /\ vs_heap st !! p = Some w /\
        v_parent w = Some q /\ v_index w = k
  end.

(** [get_index] finds it. *)
Lemma get_index_ok held st v m nums : dev_ok L fixed held st -> 0 <= m < VIDEO_NUM_DEVICES ->
  vs_table st !! m = None -> exists i, get_index v (set_nums nums st) = Some i /\ 0 <= i < VIDEO_NUM_DEVICES /\
  first_index v st i.
Proof.
  intros Hok Hm Hnone. unfold get_index, first_index. destruct (v_parent v) as [q|]; [|by exists 0].
  unfold used_indices. cbn [vs_heap vs_table set_nums].
  destruct (mapM (fun '(_, p) => vs_heap st !! p) (map_to_list (vs_table st))) as [l|] eqn:El.
  2: { exfalso. apply mapM_None_1, Exists_exists in El as ([m' p] & Hin & E). apply elem_of_map_to_list in Hin.
       destruct (ok_table _ _ _ _ Hok m' p Hin) as (w & Hw & _). congruence. }
  cbn [mbind option_bind]. apply mapM_Some in El.
  set (used := v_index <$> filter (fun w => v_parent w = Some q) l).
  destruct (find_next_spec (fun i => bool_decide (i ∈ used)) VIDEO_NUM_DEVICES 0) as (Hle & Hfound & Hall); [done|].
  set (r := find_next_zero_bit _ _ _) in *. exists r. split; [done|].
  assert (r < VIDEO_NUM_DEVICES) as Hlt.
  { destruct (decide (r < VIDEO_NUM_DEVICES)) as [|Hge]; [done|]. exfalso.
    assert (256 <= length used)%nat as Hbig.
    { apply pigeonhole. intros k Hk. apply (bool_decide_eq_true_1 (k ∈ used)), Hall; lia. }
    unfold used in Hbig. rewrite length_fmap in Hbig. pose proof (length_filter (fun w => v_parent w = Some q) l).
    apply Forall2_length in El. rewrite length_map_to_list in El. pose proof (table_size held st m Hok Hm Hnone). lia. }
  destruct (Hfound Hlt) as [H0 Hu]. split; [lia|]. split.
  - intros m' p w Ht Hw Hpar E. apply bool_decide_eq_false_1 in Hu. apply Hu. rewrite <- E. unfold used.
    apply list_elem_of_fmap_2, list_elem_of_filter. split; [done|].
    apply elem_of_map_to_list, list_elem_of_lookup in Ht as [i Hi].
    destruct (Forall2_lookup_l _ _ _ _ _ El Hi) as (w' & Hw' & E'). cbn in E'. simplify_eq. by eapply list_elem_of_lookup_2.
  - intros k Hk. specialize (Hall k ltac:(lia) ltac:(lia)). apply bool_decide_eq_true_1 in Hall.
    apply list_elem_of_fmap_1 in Hall as (w & -> & [Hpar Hin]%list_elem_of_filter).
    apply list_elem_of_lookup in Hin as [i Hi].
    destruct (Forall2_lookup_r _ _ _ _ _ El Hi) as ([m' p] & Hmp & Hw). exists m', p, w.
    split_and!; try done. by apply elem_of_map_to_list, list_elem_of_lookup_2 with i.
Qed.

(** The number the registration takes. *)
Definition chosen_num (type nr : Z) (st : videodev D) : Z :=
  let cnt := (minor_range fixed type).2 in
  let n := devnode_find type (if nr =? -1 then 0 else u32 nr) cnt st in
  if n =? cnt then devnode_find type 0 cnt st else n.

Lemma range_pos type : 0 < (minor_range fixed type).2.
Proof. unfold minor_range. destruct fixed; [|done]. by repeat case_match. Qed.

Lemma chosen_num_ok type nr st : let n := chosen_num type nr st in
  n <> (minor_range fixed type).2 -> 0 <= n < (minor_range fixed type).2 /\ (type, n) ∉ vs_nums st.
Proof.
  cbv zeta. unfold chosen_num. pose proof (range_pos type) as Hpos. set (cnt := (minor_range fixed type).2) in *.
  assert (forall from, 0 <= from -> devnode_find type from cnt st <> cnt ->
    0 <= devnode_find type from cnt st < cnt /\ (type, devnode_find type from cnt st) ∉ vs_nums st) as Hfind.
  { intros from Hf Hne. unfold devnode_find in *.
    destruct (find_next_spec (fun n => bool_decide ((type, n) ∈ vs_nums st)) cnt from) as (H1 & H2 & _); [lia|].
    destruct H2 as [H2 H3]; [lia|]. split; [lia|]. by apply bool_decide_eq_false_1 in H3. }
  assert (0 <= (if nr =? -1 then 0 else u32 nr)) by (destruct (nr =? -1); [done|]; apply u32_range).
  destruct (Z.eqb_spec (devnode_find type (if nr =? -1 then 0 else u32 nr) cnt st) cnt); by apply Hfind.
Qed.

(** The minor that goes with it. *)
Definition chosen_minor (type n : Z) (st : videodev D) : Z :=
  (if fixed then n else free_minor st) + (minor_range fixed type).1.

Lemma chosen_minor_ok held type n st : dev_ok L fixed held st -> 0 <= type <= VFL_TYPE_SUBDEV ->
  0 <= n < (minor_range fixed type).2 -> (type, n) ∉ vs_nums st ->
  (fixed = false -> free_minor st <> VIDEO_NUM_DEVICES) -> let m := chosen_minor type n st in
  vs_table st !! m = None /\ 0 <= m < VIDEO_NUM_DEVICES /\ (fixed = true -> m = n + (minor_range true type).1).
Proof.
  intros Hok Htype Hn Hx Hfree. cbv zeta. unfold chosen_minor. destruct fixed eqn:Efix.
  - split; [|split; [|done]].
    + destruct (vs_table st !! (n + (minor_range true type).1)) as [p|] eqn:E; [|done]. exfalso.
      destruct (ok_table _ _ _ _ Hok _ _ E) as (w & Hw & Hi).
      pose proof (it_fixed _ _ _ _ _ _ Hi eq_refl) as Hm. pose proof (it_num _ _ _ _ _ _ Hi) as Hnum.
      assert (type = v_type w /\ n = v_num w) as [Et En].
      { pose proof (it_type _ _ _ _ _ _ Hi) as Hty. unfold VFL_TYPE_SUBDEV in *. unfold minor_range in *.
        unfold VFL_TYPE_GRABBER, VFL_TYPE_RADIO, VFL_TYPE_VBI in *.
        repeat (case_match; bool_props; cbn [fst snd] in *); lia. }
      apply Hx. rewrite Et, En. apply (it_used _ _ _ _ _ _ Hi).
    + unfold minor_range, VIDEO_NUM_DEVICES in *. repeat (case_match; cbn [fst snd] in *); lia.
  - cbn [minor_range fst]. rewrite Z.add_0_r. specialize (Hfree eq_refl).
    destruct (find_next_spec (fun i => bool_decide (is_Some (vs_table st !! i))) VIDEO_NUM_DEVICES 0)
      as (H1 & H2 & _); [done|].
    change (find_next_zero_bit _ VIDEO_NUM_DEVICES 0) with (free_minor st) in *. destruct H2 as [H2 H3]; [lia|].
    apply bool_decide_eq_false_1, eq_None_not_Some in H3. split_and!; [done | lia | lia | done].
Qed.

(** A device that was placed is activated, or everything is undone. *)
Lemma activate_ok env st p v : dev_ok L fixed nobody st -> (forall m, vs_table st !! m <> Some p) ->
  free_place st v -> v_registered v = false -> is_Some (v_release v) -> fops_good L v ->
  exists ret st', register_activate env p v (set_nums (vs_nums st ∪ {[(v_type v, v_num v)]}) st) = Some (ret, st') /\
  dev_ok L fixed nobody st' /\ vs_files st' = vs_files st /\ vs_drv st' = vs_drv st /\
  (ret = 0 /\ vs_table st' = <[v_minor v := p]> (vs_table st) /\
     (exists w, vs_heap st' !! p = Some w /\ v_registered w = true /\ v_fops w = v_fops v /\ v_ops w = v_ops v /\
        v_release w = v_release v /\ v_minor w = v_minor v /\ v_num w = v_num v /\ v_type w = v_type v /\
        v_index w = v_index v)
   \/ ret < 0 /\ vs_table st' = vs_table st).
Proof.
  intros Hok Hp Hfree Hr Hrel Hg.
  assert (forall ret w, ret < 0 -> v_registered w = false -> fops_good L w ->
    v_type w = v_type v -> v_num w = v_num v -> exists st',
    register_cleanup ret p w (set_nums (vs_nums st ∪ {[(v_type v, v_num v)]}) st) = Some (ret, st') /\
    dev_ok L fixed nobody st' /\ vs_files st' = vs_files st /\ vs_drv st' = vs_drv st /\
    vs_table st' = vs_table st) as Hclean.
  { intros ret w Hret Hw Hgw Et En. unfold register_cleanup. eexists. split; [reflexivity|]. cbn [vs_nums set_nums].
    split; [|done]. rewrite Et, En.
    replace ((vs_nums st ∪ {[(v_type v, v_num v)]}) ∖ {[(v_type v, v_num v)]}) with (vs_nums st)
      by (pose proof (fp_unused _ _ Hfree); set_solver).
    replace (set_nums (vs_nums st) (set_nums _ st)) with st by (by destruct st).
    apply outside_ok; try done. destruct Hgw. by split. }
  unfold register_activate. destruct (re_cdev_alloc env); cbn [negb].
  2: { destruct (Hclean (- ENOMEM) v) as (st' & -> & ? & ? & ? & ?); try done. exists (- ENOMEM), st'.
       split_and!; try done. by right. }
  destruct (Z.ltb_spec (re_cdev_add env) 0).
  { destruct (Hclean (re_cdev_add env) v) as (st' & -> & ? & ? & ? & ?); try done. eexists _, st'.
    split_and!; try done. by right. }
  destruct (Z.ltb_spec (re_device_register env) 0).
  { destruct (Hclean (re_device_register env) (set_ref 1 (set_cdev true v))) as (st' & -> & ? & ? & ? & ?);
      try done; [destruct Hg; by split|]. eexists _, st'. split_and!; try done. by right. }
  eexists _, _. split; [reflexivity|].
  set (w := set_registered true (set_dev_release (set_ref 1 (set_cdev true v)))). split.
  { apply (activated_ok st p w); try done; [by destruct Hfree | destruct Hg; by split]. }
  split; [done|]. split; [done|]. left. split; [done|]. split; [done|].
  exists w. cbn [vs_heap set_table put_vdev set_heap]. by rewrite lookup_insert_eq.
Qed.

(** What a device is after a registration that succeeded. *)
Record registered_as (st : videodev D) (p : nat) (v : video_device D) (type nr : Z) (st' : videodev D) : Prop := {
  ra_num : 0 <= chosen_num type nr st < (minor_range fixed type).2;
  ra_new : (type, chosen_num type nr st) ∉ vs_nums st;
  ra_free : vs_table st !! chosen_minor type (chosen_num type nr st) st = None;
  ra_table : vs_table st' = <[chosen_minor type (chosen_num type nr st) st := p]> (vs_table st);
  ra_device : exists w, vs_heap st' !! p = Some w /\ v_registered w = true /\ v_fops w = v_fops v /\
    v_ops w = v_ops v /\ v_release w = v_release v /\ v_num w = chosen_num type nr st /\ v_type w = type /\
    first_index v st (v_index w)
}.

Lemma register_ok env st p v type nr : dev_ok L fixed nobody st -> (forall m, vs_table st !! m <> Some p) ->
  vs_heap st !! p = Some v -> v_registered v = false ->
  exists ret st', __video_register_device fixed env p type nr st = Some (ret, st') /\
  dev_ok L fixed nobody st' /\ vs_files st' = vs_files st /\ vs_drv st' = vs_drv st /\
  (ret = 0 /\ registered_as st p v type nr st' \/ ret < 0 /\ vs_table st' = vs_table st).
Proof.
  intros Hok Hp Hv Hr. pose proof (ok_good _ _ _ _ Hok p v Hv) as Hg. unfold __video_register_device.
  rewrite Hv. cbn [mbind option_bind]. change (v_release (set_minor (-1) v)) with (v_release v).
  assert (forall ret w, ret < 0 -> v_registered w = false -> fops_good L w -> exists st',
    Some (ret, put_vdev p w st) = Some (ret, st') /\ dev_ok L fixed nobody st' /\ vs_files st' = vs_files st /\
    vs_drv st' = vs_drv st /\ (ret = 0 /\ registered_as st p v type nr st' \/ ret < 0 /\ vs_table st' = vs_table st))
    as Hfail.
  { intros ret w Hret Hw Hgw. eexists. split; [reflexivity|]. split; [by apply outside_ok|].
    split; [done|]. split; [done|]. by right. }
  destruct (v_release v) as [rel|] eqn:Hrel.
  2: { destruct (Hfail (- EINVAL) (set_minor (-1) v)) as [st' ?]; try done; [destruct Hg; by split|]. eauto. }
  destruct ((0 <=? type) && (type <=? VFL_TYPE_SUBDEV)) eqn:Ht; cbn [negb].
  2: { destruct (Hfail (- EINVAL) (set_minor (-1) v)) as [st' ?]; try done; [destruct Hg; by split|]. eauto. }
  bool_props. destruct (minor_range fixed type) as [off cnt] eqn:Erange.
  assert ((if devnode_find type (if nr =? -1 then 0 else u32 nr) cnt st =? cnt then devnode_find type 0 cnt st
    else devnode_find type (if nr =? -1 then 0 else u32 nr) cnt st) = chosen_num type nr st) as ->
    by (unfold chosen_num; by rewrite Erange).
  destruct (Z.eqb_spec (chosen_num type nr st) cnt) as [|Hn].
  { destruct (Hfail (- ENFILE) (set_type type (set_cdev false (set_minor (-1) v)))) as [st' ?]; try done;
      [destruct Hg; by split|]. eauto. }
  destruct (negb fixed && ((if fixed then chosen_num type nr st else free_minor st) =? VIDEO_NUM_DEVICES)) eqn:Em.
  { destruct (Hfail (- ENFILE) (set_type type (set_cdev false (set_minor (-1) v)))) as [st' ?]; try done;
      [destruct Hg; by split|]. eauto. }
  assert (chosen_num type nr st <> (minor_range fixed type).2) as Hn' by (by rewrite Erange).
  destruct (chosen_num_ok type nr st Hn') as [Hnum Hx].
  destruct (chosen_minor_ok nobody type (chosen_num type nr st) st) as (Hm & Hrange & Hfix); try done.
  { intros Ef. rewrite Ef in Em. cbn in Em. by apply Z.eqb_neq in Em. }
  assert ((if fixed then chosen_num type nr st else free_minor st) + off = chosen_minor type (chosen_num type nr st) st)
    as -> by (unfold chosen_minor; by rewrite Erange).
  set (v1 := set_type type (set_cdev false (set_minor (-1) v))).
  destruct (get_index_ok nobody st v1 _ (vs_nums st ∪ {[(type, chosen_num type nr st)]}) Hok Hrange Hm)
    as (index & -> & Hi & Hfirst). cbn [mbind option_bind].
  assert (forall q m p w, v_parent v1 = Some q -> vs_table st !! m = Some p -> vs_heap st !! p = Some w ->
    v_parent w = Some q -> v_index w <> index) as Hsib.
  { intros q m0 p0 w0 Eq. unfold first_index in Hfirst. rewrite Eq in Hfirst. apply Hfirst. }
  set (w := set_place (chosen_minor type (chosen_num type nr st) st) (chosen_num type nr st) index v1).
  destruct (activate_ok env st p w) as (ret & st' & E & Hok' & Hf & Hd & Hcase); try done.
  { destruct Hg. by split. }
  exists ret, st'. split; [exact E|]. split_and!; try done. destruct Hcase as [(-> & Htab & u & Hu & Hur & Huf & Huo & Hul & _ & Hun & Hut & Hui)|]; [|by right].
  left. split; [done|]. split; try done. exists u. split_and!; try done. by rewrite Hui.
Qed.

(** ** Files *)

Lemma held_back m st : dev_ok L fixed (held_add m (-1) (held_add m 1 nobody)) st -> dev_ok L fixed nobody st.
Proof.
  intros Hok. apply (held_eq _ _ _ Hok). intros m' _. unfold held_add, nobody. destruct (decide (m' = m)); lia.
Qed.

(** What a call leaves to the other files: the same device at their minor. *)
Definition others_kept (st st' : videodev D) : Prop := forall fd m,
  vs_files st !! fd = Some m -> vs_files st' !! fd = Some m -> vs_table st' !! m = vs_table st !! m.

Lemma same_open_kept st st' : same_open st st' -> others_kept st st'.
Proof. intros [_ Ht] fd m Hf _. apply Ht. by eapply opens_open. Qed.

(** The function of the driver runs with the reference held. *)
Lemma open_call_ok sig held st v : dev_ok L fixed held st -> fops_good L v ->
  exists ret d, match fo_open (v_fops v) with
    | None => Some (0, st)
    | Some f => if v_lock v && sig then Some (- ERESTARTSYS, st)
                else '(ret, d) ← f (vs_drv st); Some (ret, set_drv d st)
    end = Some (ret, set_drv d st) /\ dl_inv L d.
Proof.
  intros Hok Hg. pose proof (ok_drv _ _ _ _ Hok) as Hd.
  assert (st = set_drv (vs_drv st) st) as Est by (by destruct st).
  destruct (fo_open (v_fops v)) as [f|] eqn:Ef.
  - destruct (v_lock v && sig); [exists (- ERESTARTSYS), (vs_drv st); by rewrite <- Est|].
    destruct (fg_open _ _ Hg f (vs_drv st) Ef Hd) as (ret & d & -> & Hd'). by exists ret, d.
  - exists 0, (vs_drv st). by rewrite <- Est.
Qed.

Lemma open_ok sig m st : dev_ok L fixed nobody st ->
  exists ret fd st', sys_open sig m st = Some (ret, fd, st') /\ dev_ok L fixed nobody st' /\
  vs_files st !! fd = None /\ (forall m', 0 < opens m' (vs_files st) -> vs_table st' !! m' = vs_table st !! m') /\
  (ret = 0 /\ vs_files st' = <[fd := m]> (vs_files st) /\ is_Some (vs_table st !! m)
   \/ ret <> 0 /\ vs_files st' = vs_files st).
Proof.
  intros Hok. unfold sys_open, v4l2_open, video_devdata. pose proof (is_fresh (dom (vs_files st))) as Hfr%not_elem_of_dom.
  destruct (vs_table st !! m) as [p|] eqn:Ht.
  2: { eexists _, _, st. split; [reflexivity|]. split_and!; try done. by right. }
  destruct (ok_table _ _ _ _ Hok m p Ht) as (v & Hv & Hi). rewrite Hv. cbn [mbind option_bind].
  destruct (v_registered v); cbn [negb].
  2: { eexists _, _, st. split; [reflexivity|]. split_and!; try done. by right. }
  destruct (get_ok nobody st m p v Hok Ht Hv) as (st1 & -> & Hok1 & Hf1 & Ht1 & _). cbn [mbind option_bind].
  destruct (open_call_ok sig _ st1 v Hok1 (ok_good _ _ _ _ Hok p v Hv)) as (ret & d & -> & Hd).
  cbn [mbind option_bind]. pose proof (dev_ok_drv _ _ d Hok1 Hd) as Hok2. destruct (Z.eqb_spec ret 0) as [->|Hret]; cbn [negb].
  - eexists _, _, _. split; [reflexivity|]. cbn [Z.eqb set_drv vs_files]. rewrite Hf1. split_and!; try done.
    + pose proof (file_added _ (set_drv d st1) (fresh (dom (vs_files st))) m Hok2) as Hadd.
      cbn [set_drv vs_files vs_table] in Hadd. rewrite Hf1, Ht1, Ht in Hadd. by apply (held_back m), Hadd.
    + intros m' _. cbn. by rewrite Ht1.
    + by left.
  - destruct (put_ok _ (set_drv d st1) m p Hok2) as (st3 & -> & Hok3 & (Hf3 & Ht3) & _).
    { cbn. by rewrite Ht1. } { rewrite held_add_same. done. }
    cbn [mbind option_bind]. eexists _, _, st3. rewrite (proj2 (Z.eqb_neq _ _)) by done. split; [reflexivity|].
    cbn in Hf3, Ht3. rewrite Hf3, Hf1. split_and!; try done; [by apply (held_back m)| |by right].
    intros m' Hm'. rewrite Ht3 by (by rewrite Hf1). by rewrite Ht1.
Qed.

Lemma close_ok fd st : dev_ok L fixed nobody st -> is_Some (vs_files st !! fd) ->
  exists ret st', sys_close fd st = Some (ret, st') /\ dev_ok L fixed nobody st' /\
  vs_files st' = delete fd (vs_files st) /\ others_kept st st'.
Proof.
  intros Hok [m Hf]. unfold sys_close. rewrite Hf. cbn [mbind option_bind]. unfold v4l2_release, video_devdata.
  pose proof (file_removed _ _ _ _ Hok Hf) as Hok1. destruct (ok_files _ _ _ _ Hok fd m Hf) as [p Ht].
  set (st1 := set_files (delete fd (vs_files st)) st) in *. change (vs_table st1) with (vs_table st). rewrite Ht.
  cbn [mbind option_bind]. destruct (ok_table _ _ _ _ Hok m p Ht) as (v & Hv & Hi).
  change (vs_heap st1) with (vs_heap st). rewrite Hv. cbn [mbind option_bind].
  assert (exists d, match fo_release (v_fops v) with
    | None => Some st1 | Some f => '(_, d) ← f (vs_drv st1); Some (set_drv d st1) end = Some (set_drv d st1) /\
    dl_inv L d) as (d & -> & Hd).
  { destruct (fo_release (v_fops v)) as [f|] eqn:Ef; [|by exists (vs_drv st); split; [|apply (ok_drv _ _ _ _ Hok)]].
    destruct (fg_release _ _ (ok_good _ _ _ _ Hok p v Hv) f (vs_drv st) Ef (ok_drv _ _ _ _ Hok)) as (r & d & E & Hd).
    change (vs_drv st1) with (vs_drv st). rewrite E. by exists d. }
  cbn [mbind option_bind]. destruct (put_ok _ (set_drv d st1) m p (dev_ok_drv _ _ d Hok1 Hd)) as (st2 & -> & Hok2 & Hs & _).
  { done. } { rewrite held_add_same. done. }
  cbn [mbind option_bind]. eexists _, st2. split; [reflexivity|]. split; [by apply (held_back m)|].
  split; [apply Hs|]. intros fd' m' _ Hf'. destruct Hs as [E Hs]. rewrite E in Hf'. apply (Hs m'). by eapply opens_open.
Qed.

(** A call for a file changes the driver and nothing else, and it changes the driver
    only while the device is registered. *)
Definition drv_only (m : Z) (st st' : videodev D) : Prop := exists d, st' = set_drv d st /\ dl_inv L d /\
  (forall p v, vs_table st !! m = Some p -> vs_heap st !! p = Some v -> v_registered v = false -> d = vs_drv st).

Lemma drv_only_ok m st st' : dev_ok L fixed nobody st -> drv_only m st st' ->
  dev_ok L fixed nobody st' /\ others_kept st st'.
Proof. intros Hok (d & -> & Hd & _). split; [by apply dev_ok_drv|done]. Qed.

Lemma drv_only_refl m st : dev_ok L fixed nobody st -> drv_only m st st.
Proof. intros Hok. exists (vs_drv st). split; [by destruct st|]. split; [apply (ok_drv _ _ _ _ Hok)|done]. Qed.

Lemma locked_ok {A} sig m p v (a : A) f st : dev_ok L fixed nobody st ->
  vs_table st !! m = Some p -> vs_heap st !! p = Some v ->
  (exists ret b d', f (vs_drv st) = Some (ret, b, d') /\ dl_inv L d') ->
  exists ret b st', locked sig v a f st = Some (ret, b, st') /\ drv_only m st st'.
Proof.
  intros Hok Ht Hv (ret & b & d & E & Hd). unfold locked.
  destruct (v_lock v && sig); [eexists _, _, st; split; [reflexivity|]; by apply drv_only_refl|].
  destruct (v_registered v) eqn:Er; [|eexists _, _, st; split; [reflexivity|]; by apply drv_only_refl].
  rewrite E. cbn [mbind option_bind]. eexists _, _, _. split; [reflexivity|]. exists d. split; [done|]. split; [done|].
  intros p' v' ? ? ?. simplify_eq. congruence.
Qed.

(** The device of an open file. *)
Lemma file_device st fd m : dev_ok L fixed nobody st -> vs_files st !! fd = Some m ->
  exists p v, vs_table st !! m = Some p /\ vs_heap st !! p = Some v /\ fops_good L v.
Proof.
  intros Hok Hf. destruct (ok_files _ _ _ _ Hok fd m Hf) as [p Ht].
  destruct (ok_table _ _ _ _ Hok m p Ht) as (v & Hv & _). exists p, v. split_and!; try done.
  by apply (ok_good _ _ _ _ Hok p).
Qed.

Lemma read_ok sig fd m sz st : dev_ok L fixed nobody st -> vs_files st !! fd = Some m ->
  exists ret b st', v4l2_read sig m sz st = Some (ret, b, st') /\ drv_only m st st'.
Proof.
  intros Hok Hf. destruct (file_device st fd m Hok Hf) as (p & v & Ht & Hv & Hg).
  unfold v4l2_read, video_devdata. rewrite Ht. cbn [mbind option_bind]. rewrite Hv. cbn [mbind option_bind].
  destruct (fo_read (v_fops v)) as [f|] eqn:Ef;
    [|eexists _, _, st; split; [reflexivity|]; by apply drv_only_refl].
  apply (locked_ok sig m p v); try done. by apply (fg_read _ _ Hg f _ sz Ef), (ok_drv _ _ _ _ Hok).
Qed.

Lemma vpoll_ok fd m st : dev_ok L fixed nobody st -> vs_files st !! fd = Some m -> dl_poll L (vs_drv st) ->
  exists ret st', v4l2_poll m st = Some (ret, st') /\ drv_only m st st'.
Proof.
  intros Hok Hf Hp. destruct (file_device st fd m Hok Hf) as (p & v & Ht & Hv & Hg).
  unfold v4l2_poll, video_devdata. rewrite Ht. cbn [mbind option_bind]. rewrite Hv. cbn [mbind option_bind].
  destruct (fo_poll (v_fops v)) as [f|] eqn:Ef;
    [|eexists _, st; split; [reflexivity|]; by apply drv_only_refl].
  destruct (v_registered v) eqn:Er; [|eexists _, st; split; [reflexivity|]; by apply drv_only_refl].
  destruct (fg_poll _ _ Hg f _ Ef (ok_drv _ _ _ _ Hok) Hp) as (ret & d & -> & Hd). cbn [mbind option_bind].
  eexists _, _. split; [reflexivity|]. exists d. split; [done|]. split; [done|]. intros p' v' ? ? ?. simplify_eq. congruence.
Qed.

Lemma vioctl_ok sig u fd m r st : dev_ok L fixed nobody st -> vs_files st !! fd = Some m ->
  dl_request L (vs_drv st) r -> exists ret r' st', v4l2_ioctl sig u m r st = Some (ret, r', st') /\ drv_only m st st'.
Proof.
  intros Hok Hf Hr. destruct (file_device st fd m Hok Hf) as (p & v & Ht & Hv & Hg).
  unfold v4l2_ioctl, video_devdata. rewrite Ht. cbn [mbind option_bind]. rewrite Hv. cbn [mbind option_bind].
  destruct (fo_unlocked_ioctl (v_fops v)) as [f|] eqn:Ef.
  { apply (locked_ok sig m p v); try done. apply (fg_ioctl _ _ Hg f); [by left | apply (ok_drv _ _ _ _ Hok) | done]. }
  destruct (fo_ioctl (v_fops v)) as [f|] eqn:Ei;
    [|eexists _, _, st; split; [reflexivity|]; by apply drv_only_refl].
  destruct (negb (is_dqbuf r) && sig); [eexists _, _, st; split; [reflexivity|]; by apply drv_only_refl|].
  destruct (v_registered v) eqn:Er; [|eexists _, _, st; split; [reflexivity|]; by apply drv_only_refl].
  destruct (fg_ioctl _ _ Hg f (vs_drv st) u r) as (ret & r' & d & -> & Hd);
    [by right | apply (ok_drv _ _ _ _ Hok) | done |].
  eexists _, _, _. split; [reflexivity|]. exists d. split; [done|]. split; [done|]. intros p' v' ? ? ?. simplify_eq. congruence.
Qed.

Lemma vmmap_ok sig fd m vm st : dev_ok L fixed nobody st -> vs_files st !! fd = Some m ->
  dl_area L (vs_drv st) vm -> exists ret st', v4l2_mmap sig m vm st = Some (ret, st') /\ drv_only m st st'.
Proof.
  intros Hok Hf Hvm. destruct (file_device st fd m Hok Hf) as (p & v & Ht & Hv & Hg).
  unfold v4l2_mmap, video_devdata. rewrite Ht. cbn [mbind option_bind]. rewrite Hv. cbn [mbind option_bind].
  destruct (fo_mmap (v_fops v)) as [f|] eqn:Ef;
    [|eexists _, st; split; [reflexivity|]; by apply drv_only_refl].
  destruct (locked_ok sig m p v tt (fun d => '(ret, d) ← f vm d; Some (ret, tt, d)) st) as (ret & b & st' & -> & Hd);
    try done; [|by eexists _, _].
  destruct (fg_mmap _ _ Hg f _ vm Ef (ok_drv _ _ _ _ Hok) Hvm) as (ret & d & -> & Hd). by eexists _, _, _.
Qed.

Lemma unregister_ok p st : dev_ok L fixed nobody st -> is_Some (vs_heap st !! p) ->
  exists st', video_unregister_device p st = Some st' /\ dev_ok L fixed nobody st' /\ same_open st st' /\
  forall m v, vs_table st !! m = Some p -> vs_heap st !! p = Some v -> v_registered v = true ->
    opens m (vs_files st) = 0 -> gone m p v st st'.
Proof.
  intros Hok [v Hv]. unfold video_unregister_device. rewrite Hv. cbn [mbind option_bind].
  destruct (v_registered v) eqn:Er; cbn [negb]; [|exists st; split_and!; try done; intros m' v' ? ? ? ?; congruence].
  pose proof (ok_reg _ _ _ _ Hok p v Hv Er) as Ht. set (m := v_minor v) in *.
  destruct (ok_table _ _ _ _ Hok m p Ht) as (v' & Hv' & Hi). simplify_eq.
  pose proof (it_ref _ _ _ _ _ _ Hi) as Hr. rewrite Er in Hr. pose proof (it_live _ _ _ _ _ _ Hi).
  assert (dev_ok L fixed (held_add m 1 nobody) (put_vdev p (set_registered false v) st)) as Hok1.
  { replace (set_registered false v) with (set_ref (v_ref v) (set_registered false v)) by (by destruct v).
    apply (dev_ok_upd nobody _ st m p v); try done; [rewrite held_add_same; lia|].
    intros m' Hne. by apply held_add_other. }
  destruct (put_ok _ _ m p Hok1) as (st' & -> & Hok2 & Hs & Hgone); [done | by rewrite held_add_same |].
  exists st'. split; [done|]. split; [by apply (held_back m)|]. split; [done|]. intros m' w Ht' Hw _ Ho.
  assert (m' = m) as -> by (by apply (table_inj nobody st m' m p)). unfold nobody in Hr.
  assert (w = v) as -> by congruence. apply (Hgone (set_registered false v)); [apply lookup_insert_eq|cbn; lia].
Qed.

(** ** Steps *)

Lemma alloc_ok v st : dev_ok L fixed nobody st -> v_registered v = false -> fops_good L v ->
  dev_ok L fixed nobody (video_device_alloc v st).2 /\ same_open st (video_device_alloc v st).2.
Proof.
  intros Hok Hr Hg. split; [|done]. apply outside_ok; try done. intros m Hm.
  destruct (ok_table _ _ _ _ Hok _ _ Hm) as (w & Hw & _).
  pose proof (is_fresh (dom (vs_heap st))) as Hfr%not_elem_of_dom. congruence.
Qed.

Lemma free_ok p st : dev_ok L fixed nobody st -> is_Some (vs_heap st !! p) -> (forall m, vs_table st !! m <> Some p) ->
  exists st', video_device_release p st = Some st' /\ dev_ok L fixed nobody st' /\ same_open st st'.
Proof.
  intros Hok [v Hv] Hp. unfold video_device_release. rewrite Hv. cbn [mbind option_bind]. eexists. split; [reflexivity|].
  split; [|done]. destruct Hok as [Ht Hu Hreg Hn Hf Hgood Hd].
  assert (forall m q, vs_table st !! m = Some q -> delete p (vs_heap st) !! q = vs_heap st !! q) as Hsame.
  { intros m q Hq. rewrite lookup_delete_ne; [done|]. intros ->. by apply (Hp m). }
  split; try done; cbn.
  - intros m q Hq. rewrite (Hsame m q Hq). by apply Ht.
  - intros m1 m2 p1 p2 v1 v2 H1 H2. rewrite (Hsame m1 p1 H1), (Hsame m2 p2 H2). by apply Hu.
  - intros q w [_ E]%lookup_delete_Some. by apply Hreg.
  - intros x Hx. destruct (Hn x Hx) as (m & q & w & H1 & H2 & E). exists m, q, w. by rewrite (Hsame m q H1).
  - intros q w [_ E]%lookup_delete_Some. by apply (Hgood q).
Qed.

Lemma vevent_ok st ev : dev_ok L fixed nobody st -> vallowed L st ev ->
  exists st', vstep fixed ev st = Some st' /\ dev_ok L fixed nobody st' /\ others_kept st st'.
Proof.
  intros Hok. destruct ev as [fops ops rel parent lock|env p type nr|p|p|sig m|fd|sig fd sz|fd|sig u fd r|sig fd vm];
    cbn [vallowed vstep].
  - intros Hg. eexists. split; [reflexivity|]. destruct (alloc_ok (new_vdev fops ops rel parent lock) st Hok eq_refl Hg) as [? Hs].
    split; [done|by apply same_open_kept].
  - intros [(v & Hv & Hr) Hp]. destruct (register_ok env st p v type nr) as (ret & st' & -> & Hok' & Hf & _ & Hc); try done.
    exists st'. split; [done|]. split; [done|]. intros fd m Hfd _. destruct Hc as [[_ []]|[_ ->]]; [|done].
    rewrite ra_table0, lookup_insert_ne; [done|]. intros <-. destruct (ok_files _ _ _ _ Hok fd _ Hfd). congruence.
  - intros Hp. destruct (unregister_ok p st Hok Hp) as (st' & -> & ? & ? & _). exists st'.
    split_and!; try done. by apply same_open_kept.
  - intros [Hp Ht]. destruct (free_ok p st Hok Hp Ht) as (st' & -> & ? & ?). exists st'.
    split_and!; try done. by apply same_open_kept.
  - intros _. destruct (open_ok sig m st Hok) as (ret & fd & st' & -> & ? & Hfd & Hs & _). exists st'.
    split_and!; try done. intros fd' m' Hf _. apply Hs. by eapply opens_open.
  - intros Hf. destruct (close_ok fd st Hok Hf) as (ret & st' & -> & ? & _ & ?). by exists st'.
  - intros [m Hf]. destruct (read_ok sig fd m sz st Hok Hf) as (ret & b & st' & E & Hd). rewrite Hf. cbn. rewrite E.
    exists st'. split; [done|]. by apply (drv_only_ok m).
  - intros [[m Hf] Hp]. destruct (vpoll_ok fd m st Hok Hf Hp) as (ret & st' & E & Hd). rewrite Hf. cbn. rewrite E.
    exists st'. split; [done|]. by apply (drv_only_ok m).
  - intros [[m Hf] Hr]. destruct (vioctl_ok sig u fd m r st Hok Hf Hr) as (ret & b & st' & E & Hd). rewrite Hf. cbn. rewrite E.
    exists st'. split; [done|]. by apply (drv_only_ok m).
  - intros [[m Hf] Hr]. destruct (vmmap_ok sig fd m vm st Hok Hf Hr) as (ret & st' & E & Hd). rewrite Hf. cbn. rewrite E.
    exists st'. split; [done|]. by apply (drv_only_ok m).
Qed.

Lemma initial_dev_ok d : dl_inv L d -> dev_ok L fixed nobody (initial_videodev d).
Proof. intros Hd. by split. Qed.

Lemma vreachable_ok d st : dl_inv L d -> vreachable L fixed (initial_videodev d) st -> dev_ok L fixed nobody st.
Proof.
  intros Hd. induction 1 as [|st ev st' _ IH Ha E]; [by apply initial_dev_ok|].
  destruct (vevent_ok st ev IH Ha) as (st2 & E2 & Hok & _). congruence.
Qed.

(** In the table are the devices that someone uses. *)
Lemma table_used m p st : dev_ok L fixed nobody st -> vs_table st !! m = Some p ->
  exists v, vs_heap st !! p = Some v /\ v_minor v = m /\
  (v_registered v = true \/ exists fd, vs_files st !! fd = Some m).
Proof.
  intros Hok Ht. destruct (ok_table _ _ _ _ Hok m p Ht) as (v & Hv & Hi). exists v. split; [done|].
  split; [apply (it_minor _ _ _ _ _ _ Hi)|]. destruct (v_registered v) eqn:Er; [by left|]. right.
  pose proof (it_ref _ _ _ _ _ _ Hi) as Hr. rewrite Er in Hr. pose proof (it_live _ _ _ _ _ _ Hi) as Hl.
  unfold nobody in Hr. assert (filter (fun kv => kv.2 = m) (vs_files st) <> ∅) as Hne.
  { intros E. unfold opens in Hr. rewrite E, map_size_empty in Hr. cbn in Hr. lia. }
  apply map_choose in Hne as (fd & m' & [Hf <-]%map_lookup_filter_Some). by exists fd.
Qed.

(** ** A driver that frees its device when it unregisters it *)

(** With a file open, later calls for the file find freed memory. *)
Lemma unplug_open st m p v fd : dev_ok L fixed nobody st -> vs_table st !! m = Some p -> vs_heap st !! p = Some v ->
  vs_files st !! fd = Some m -> exists st', unregister_and_free p st = Some st' /\
  sys_close fd st' = None /\ (forall sig u r, v4l2_ioctl sig u m r st' = None) /\ v4l2_poll m st' = None /\
  (forall sig sz, v4l2_read sig m sz st' = None) /\ (forall sig vm, v4l2_mmap sig m vm st' = None) /\
  (forall sig, v4l2_open sig m st' = None).
Proof.
  intros Hok Ht Hv Hfd. unfold unregister_and_free.
  destruct (unregister_ok p st Hok (mk_is_Some _ _ Hv)) as (st1 & -> & Hok1 & [Hf1 Ht1] & _).
  cbn [mbind option_bind]. unfold video_device_release.
  assert (vs_table st1 !! m = Some p) as Hm by (rewrite Ht1; [done|by eapply opens_open]).
  destruct (ok_table _ _ _ _ Hok1 m p Hm) as (w & -> & _). cbn [mbind option_bind]. eexists. split; [reflexivity|].
  unfold sys_close, v4l2_release, v4l2_ioctl, v4l2_poll, v4l2_read, v4l2_mmap, v4l2_open, video_devdata.
  cbn [set_heap set_files vs_files vs_table vs_heap]. rewrite Hf1, Hfd. cbn [mbind option_bind].
  cbn [set_heap set_files vs_files vs_table vs_heap]. rewrite Hm. cbn [mbind option_bind]. by rewrite lookup_delete_eq.
Qed.

(** Without one the device is gone. *)
Lemma unplug_closed st m p v f : dev_ok L fixed nobody st -> vs_table st !! m = Some p -> vs_heap st !! p = Some v ->
  v_registered v = true -> v_release v = Some (Rel_driver f) -> vs_files st = ∅ ->
  exists st', unregister_and_free p st = Some st' /\ dev_ok L fixed nobody st' /\
  vs_table st' = delete m (vs_table st) /\ vs_files st' = vs_files st.
Proof.
  intros Hok Ht Hv Hr Hrel Hno. unfold unregister_and_free.
  destruct (unregister_ok p st Hok (mk_is_Some _ _ Hv)) as (st1 & -> & Hok1 & [Hf1 _] & Hgone).
  cbn [mbind option_bind]. destruct (Hgone m v Ht Hv Hr) as [Htab Hp]; [by rewrite Hno|].
  destruct (Hp f Hrel) as [w Hw]. destruct (free_ok p st1 Hok1 (mk_is_Some _ _ Hw)) as (st2 & E & Hok2 & _).
  { intros m' Hm'. rewrite Htab in Hm'. apply lookup_delete_Some in Hm' as [Hne Hm'].
    apply Hne. by apply (table_inj nobody st m m' p). }
  exists st2. split; [done|]. split; [done|]. unfold video_device_release in E. rewrite Hw in E.
  by injection E as <-.
Qed.

(** ** The result of a registration *)

Definition register_result (env : register_env) (v : video_device D) (type nr : Z) (st : videodev D) : Z :=
  if match v_release v with None => true | Some _ => false end then - EINVAL
  else if negb ((0 <=? type) && (type <=? VFL_TYPE_SUBDEV)) then - EINVAL
  else if chosen_num type nr st =? (minor_range fixed type).2 then - ENFILE
  else if negb fixed && (free_minor st =? VIDEO_NUM_DEVICES) then - ENFILE
  else if negb (re_cdev_alloc env) then - ENOMEM
  else if re_cdev_add env <? 0 then re_cdev_add env
  else if re_device_register env <? 0 then re_device_register env
  else 0.

Lemma register_result_eq env st p v type nr ret st' : vs_heap st !! p = Some v ->
  __video_register_device fixed env p type nr st = Some (ret, st') -> ret = register_result env v type nr st.
Proof.
  intros Hv. unfold __video_register_device, register_result. rewrite Hv. cbn [mbind option_bind].
  change (v_release (set_minor (-1) v)) with (v_release v). destruct (v_release v); [|by intros [= <-]].
  destruct (negb (_ && _)); [by intros [= <-]|]. unfold chosen_num.
  destruct (minor_range fixed type) as [off cnt]. cbn [snd]. cbv zeta.
  set (n := if devnode_find type _ cnt st =? cnt then _ else _).
  destruct (n =? cnt); [by intros [= <-]|]. set (i := if fixed then n else free_minor st).
  replace (negb fixed && (free_minor st =? VIDEO_NUM_DEVICES)) with (negb fixed && (i =? VIDEO_NUM_DEVICES))
    by (unfold i; by destruct fixed). destruct (negb fixed && _); [by intros [= <-]|].
  destruct (get_index _ _) as [index|]; [|done]. cbn [mbind option_bind]. unfold register_activate, register_cleanup.
  destruct (re_cdev_alloc env); cbn [negb]; [|by intros [= <-]]. destruct (_ <? 0); [by intros [= <-]|].
  destruct (_ <? 0); by intros [= <-].
Qed.

(** A number is found when one is free. *)
Lemma chosen_num_full type nr st : chosen_num type nr st = (minor_range fixed type).2 <->
  forall k, 0 <= k < (minor_range fixed type).2 -> (type, k) ∈ vs_nums st.
Proof.
  pose proof (range_pos type) as Hpos. split.
  - intros E k Hk. unfold chosen_num, devnode_find in E. set (cnt := (minor_range fixed type).2) in *.
    assert (find_next_zero_bit (fun n => bool_decide ((type, n) ∈ vs_nums st)) cnt 0 = cnt) as E0
      by (destruct (Z.eqb_spec (find_next_zero_bit (fun n => bool_decide ((type, n) ∈ vs_nums st)) cnt
                                 (if nr =? -1 then 0 else u32 nr)) cnt); [done|lia]).
    destruct (find_next_spec (fun n => bool_decide ((type, n) ∈ vs_nums st)) cnt 0) as (_ & _ & Hu); [lia|].
    rewrite E0 in Hu. specialize (Hu k ltac:(lia) ltac:(lia)). by apply bool_decide_eq_true_1 in Hu.
  - intros Hall. destruct (decide (chosen_num type nr st = (minor_range fixed type).2)) as [|Hn]; [done|].
    destruct (chosen_num_ok type nr st Hn) as [Hr Hx]. by destruct (Hx (Hall _ Hr)).
Qed.

(** It is the first one from the number that was asked for, or the first one at all. *)
Lemma chosen_num_first type nr st : let from := if nr =? -1 then 0 else u32 nr in
  let cnt := (minor_range fixed type).2 in let n := chosen_num type nr st in n <> cnt ->
  (from <= n /\ forall k, from <= k < n -> (type, k) ∈ vs_nums st) \/
  ((forall k, from <= k < cnt -> (type, k) ∈ vs_nums st) /\ forall k, 0 <= k < n -> (type, k) ∈ vs_nums st).
Proof.
  cbv zeta. set (from := if nr =? -1 then 0 else u32 nr). unfold chosen_num, devnode_find. fold from.
  pose proof (range_pos type) as Hpos. set (cnt := (minor_range fixed type).2) in *.
  set (used := fun n => bool_decide ((type, n) ∈ vs_nums st)).
  assert (forall k, used k = true -> (type, k) ∈ vs_nums st) as Hused by (intros k; apply bool_decide_eq_true_1).
  destruct (find_next_spec used cnt from) as (H1 & H2 & H3); [lia|].
  destruct (find_next_spec used cnt 0) as (H4 & H5 & H6); [lia|].
  destruct (Z.eqb_spec (find_next_zero_bit used cnt from) cnt) as [E|E]; intros Hn.
  - right. split; intros k Hk; apply Hused; [apply H3 | apply H6]; lia.
  - left. split; [apply H2; lia|]. intros k Hk. apply Hused, H3; lia.
Qed.

Lemma free_minor_full st : free_minor st = VIDEO_NUM_DEVICES <->
  forall i, 0 <= i < VIDEO_NUM_DEVICES -> is_Some (vs_table st !! i).
Proof.
  unfold free_minor. set (used := fun i => bool_decide (is_Some (vs_table st !! i))).
  destruct (find_next_spec used VIDEO_NUM_DEVICES 0) as (H1 & H2 & H3); [done|]. split.
  - intros E i Hi. rewrite E in H3. specialize (H3 i Hi ltac:(right; lia)). by apply bool_decide_eq_true_1 in H3.
  - intros Hall. destruct (decide (find_next_zero_bit used VIDEO_NUM_DEVICES 0 = VIDEO_NUM_DEVICES)) as [|Hn]; [done|].
    destruct H2 as [H2 Hu]; [lia|]. apply bool_decide_eq_false_1 in Hu. destruct Hu. apply Hall. lia.
Qed.

Lemma free_minor_first st i : 0 <= i < free_minor st -> is_Some (vs_table st !! i).
Proof.
  intros Hi. unfold free_minor in Hi. set (used := fun i => bool_decide (is_Some (vs_table st !! i))) in *.
  destruct (find_next_spec used VIDEO_NUM_DEVICES 0) as (H1 & _ & H3); [done|].
  specialize (H3 i ltac:(lia) ltac:(right; lia)). by apply bool_decide_eq_true_1 in H3.
Qed.

(** When a registration succeeds. *)
Record can_register (env : register_env) (v : video_device D) (type : Z) (st : videodev D) : Prop := {
  cr_release : is_Some (v_release v);
  cr_type : 0 <= type <= VFL_TYPE_SUBDEV;
  cr_num : exists k, 0 <= k < (minor_range fixed type).2 /\ (type, k) ∉ vs_nums st;
  cr_minor : fixed = false -> exists i, 0 <= i < VIDEO_NUM_DEVICES /\ vs_table st !! i = None;
  cr_cdev_alloc : re_cdev_alloc env = true;
  cr_cdev_add : 0 <= re_cdev_add env;
  cr_device : 0 <= re_device_register env
}.

Lemma register_result_ok env v type nr st : can_register env v type st -> register_result env v type nr st = 0.
Proof.
  intros [[r Hr] Ht (k & Hk & Hx) Hm Ha Hadd Hreg]. unfold register_result. rewrite Hr, Ha. cbn [negb].
  rewrite (proj2 (Z.leb_le 0 type)), (proj2 (Z.leb_le type _)), (proj2 (Z.ltb_ge _ 0)), (proj2 (Z.ltb_ge _ 0)) by lia.
  cbn [negb andb]. destruct (Z.eqb_spec (chosen_num type nr st) (minor_range fixed type).2) as [E|].
  { rewrite chosen_num_full in E. by destruct (Hx (E k Hk)). }
  destruct fixed; [done|]. cbn [negb andb]. destruct (Z.eqb_spec (free_minor st) VIDEO_NUM_DEVICES) as [E|]; [|done].
  rewrite free_minor_full in E. destruct (Hm eq_refl) as (i & Hi & Hn). destruct (E i Hi). congruence.
Qed.

Lemma register_result_inv env v type nr st : register_result env v type nr st = 0 -> can_register env v type st.
Proof.
  unfold register_result. intros E. destruct (v_release v) eqn:Hr; [|done].
  destruct ((0 <=? type) && (type <=? VFL_TYPE_SUBDEV)) eqn:Ht; [|done]. cbn [negb] in E. bool_props.
  destruct (Z.eqb_spec (chosen_num type nr st) (minor_range fixed type).2) as [|Hn]; [done|].
  destruct (negb fixed && (free_minor st =? VIDEO_NUM_DEVICES)) eqn:Em; [done|].
  destruct (re_cdev_alloc env) eqn:Ha; [|done]. cbn [negb] in E.
  destruct (Z.ltb_spec (re_cdev_add env) 0); [lia|]. destruct (Z.ltb_spec (re_device_register env) 0); [lia|].
  split; try done; [exists (chosen_num type nr st); by apply chosen_num_ok |].
  intros Ef. rewrite Ef in Em. cbn [negb andb] in Em. apply Z.eqb_neq in Em.
  destruct (find_next_spec (fun i => bool_decide (is_Some (vs_table st !! i))) VIDEO_NUM_DEVICES 0) as (F1 & F2 & _);
    [done|]. change (find_next_zero_bit _ VIDEO_NUM_DEVICES 0) with (free_minor st) in *.
  destruct F2 as [F2 F3]; [lia|]. eexists. split; [split; [exact F2|lia]|].
  apply bool_decide_eq_false_1 in F3. by apply eq_None_not_Some.
Qed.

(** The numbers a registered device has. *)
Record placed (v : video_device D) (type nr : Z) (p : nat) (w : video_device D)
    (st st' : videodev D) : Prop := {
  pl_heap : vs_heap st' !! p = Some w;
  pl_registered : v_registered w = true;
  pl_table : vs_table st' = <[v_minor w := p]> (vs_table st);
  pl_minor_free : vs_table st !! v_minor w = None;
  pl_minor : 0 <= v_minor w < VIDEO_NUM_DEVICES;
  pl_fixed : fixed = true -> v_minor w = v_num w + (minor_range true type).1;
  pl_first_minor : fixed = false -> forall i, 0 <= i < v_minor w -> is_Some (vs_table st !! i);
  pl_num : 0 <= v_num w < (minor_range fixed type).2;
  pl_num_free : (type, v_num w) ∉ vs_nums st;
  pl_first : let from := if nr =? -1 then 0 else u32 nr in
    (from <= v_num w /\ forall k, from <= k < v_num w -> (type, k) ∈ vs_nums st) \/
    ((forall k, from <= k < (minor_range fixed type).2 -> (type, k) ∈ vs_nums st) /\
     forall k, 0 <= k < v_num w -> (type, k) ∈ vs_nums st);
  pl_index : 0 <= v_index w < VIDEO_NUM_DEVICES;
  pl_first_index : first_index v st (v_index w)
}.

Lemma registered_placed st p v type nr st' : dev_ok L fixed nobody st' -> registered_as st p v type nr st' ->
  exists w, placed v type nr p w st st'.
Proof.
  intros Hok [Hn Hx Hfree Htab (w & Hw & Hr & _ & _ & _ & En & Et & Hidx)]. exists w.
  destruct (ok_table _ _ _ _ Hok (chosen_minor type (chosen_num type nr st) st) p) as (w' & Hw' & Hi);
    [by rewrite Htab, lookup_insert_eq|].
  rewrite Hw in Hw'. injection Hw' as <-. pose proof (it_minor _ _ _ _ _ _ Hi) as Em.
  split; try done; try (rewrite Em; done); try (rewrite En; done).
  - rewrite Em. apply (it_range _ _ _ _ _ _ Hi).
  - intros Ef. rewrite Em, (it_fixed _ _ _ _ _ _ Hi Ef). by rewrite Et.
  - intros Ef i Hlt. rewrite Em in Hlt. apply free_minor_first. unfold chosen_minor in Hlt.
    rewrite Ef in Hlt. cbn [minor_range fst] in Hlt. lia.
  - rewrite En. apply chosen_num_first. lia.
  - apply (it_index _ _ _ _ _ _ Hi).
Qed.
End Lemmas.

(** * An example *)

(** A driver that counts its files and has no requests. *)
Definition count_fops : v4l2_file_operations Z :=
  mk_fops None None None None None
    (Some (fun d => Some (0, d + 1))) (Some (fun d => Some (0, d - 1))).
Definition count_laws : driver_laws Z :=
  mk_laws (fun d => 0 <= 0) (fun _ _ => 0 <= 0) (fun _ _ => 0 <= 0) (fun _ => 0 <= 0).
Definition all_well : register_env := mk_renv true 0 0.
Definition example_events : list (vevent Z) :=
  [V_alloc count_fops None (Some (Rel_driver (fun d => Some d))) None false;
   V_register all_well 0 VFL_TYPE_GRABBER (-1); V_open false 0].

Fixpoint vrun (evs : list (vevent Z)) (st : videodev Z) : option (videodev Z) :=
  match evs with [] => Some st | ev :: evs => st ← vstep false ev st; vrun evs st end.
Definition example_at (n : nat) : videodev Z :=
  default (initial_videodev 0) (vrun (take n example_events) (initial_videodev 0)).
Definition example_state : videodev Z := example_at 3.

Lemma count_good : fops_good count_laws (new_vdev count_fops None (Some (Rel_driver (fun d => Some d))) None false).
Proof.
  split; cbn; try done.
  - intros f d [= <-] _. by eexists _, _.
  - intros f d [= <-] _. by eexists _, _.
  - by intros f d u r [|].
  - intros f d [= <-] _. by eexists.
Qed.

Lemma example_reachable : vreachable count_laws false (initial_videodev 0) example_state.
Proof.
  apply (vreach_step _ _ _ (example_at 2) (V_open false 0)); [|exact I|vm_compute; reflexivity].
  apply (vreach_step _ _ _ (example_at 1) (V_register all_well 0 VFL_TYPE_GRABBER (-1))); [| |vm_compute; reflexivity].
  - apply (vreach_step _ _ _ (initial_videodev 0) (V_alloc count_fops None
      (Some (Rel_driver (fun d => Some d))) None false)); [constructor | apply count_good | vm_compute; reflexivity].
  - split; [eexists; split; [vm_compute; reflexivity|done]|].
    assert (vs_table (example_at 1) = ∅) as -> by (vm_compute; reflexivity). intros m. by rewrite lookup_empty.
Qed.

(** * Properties *)

(** C4. The registrar of video devices. With drivers whose functions do not fault,
    from an empty system and over any sequence of calls of drivers and programs
    (devices are registered once and freed only after they left the table): every
    call comes to its end without touching a freed device; the device a file was
    opened on stays the one its calls reach, also when the device is unregistered
    meanwhile; in the table are just the devices that are registered or have open
    files; no two of them share a number or, under one parent, an index. *)
Theorem videodev_safe {D} (L : driver_laws D) fixed d st ev : dl_inv L d ->
  vreachable L fixed (initial_videodev d) st -> vallowed L st ev ->
  (exists st', vstep fixed ev st = Some st' /\ dl_inv L (vs_drv st') /\ others_kept st st') /\
  (forall m p, vs_table st !! m = Some p -> exists v, vs_heap st !! p = Some v /\ v_minor v = m /\
     (v_registered v = true \/ exists fd, vs_files st !! fd = Some m)) /\
  (forall fd m, vs_files st !! fd = Some m -> is_Some (vs_table st !! m)) /\
  (forall m m' p p' v v', vs_table st !! m = Some p -> vs_table st !! m' = Some p' -> m <> m' ->
     vs_heap st !! p = Some v -> vs_heap st !! p' = Some v' -> distinct v v').
Proof.
  intros Hd Hr Ha. pose proof (vreachable_ok L fixed d st Hd Hr) as Hok.
  destruct (vevent_ok L fixed st ev Hok Ha) as (st' & E & Hok' & Hk). split_and!.
  - exists st'. split; [done|]. split; [apply (ok_drv _ _ _ _ Hok')|done].
  - intros m p. by apply (table_used L fixed).
  - apply (ok_files _ _ _ _ Hok).
  - intros m m' p p' v v' ? ? ? ? ?. by apply (ok_pairs _ _ _ _ Hok m m' p p').
Qed.

Lemma videodev_safe_witness :
  exists st', vstep false (V_unregister 0) example_state = Some st' /\ others_kept example_state st'.
Proof.
  destruct (videodev_safe count_laws false 0 example_state (V_unregister 0)) as [(st' & E & _ & Hk) _];
    [done | apply example_reachable | eexists; vm_compute; reflexivity |].
  by exists st'.
Defined.

(** C5. Registration of a device. It succeeds just when the device has a release
    function and a known type, a number of the type and a minor are free, and the
    character device and the sysfs device can be added. Then the number is the first
    free one of the type from the number the driver asked for, or else the first free
    one at all; the minor goes with the number if the ranges are fixed, and is the
    first free one if they are not; the index is 0 without a parent, and else the
    first one that no device with the same parent has. When it fails the table is as
    before. *)
Theorem register_spec {D} (L : driver_laws D) fixed d st env p v type nr : dl_inv L d ->
  vreachable L fixed (initial_videodev d) st -> vs_heap st !! p = Some v -> v_registered v = false ->
  (forall m, vs_table st !! m <> Some p) ->
  exists ret st', __video_register_device fixed env p type nr st = Some (ret, st') /\
  (ret = 0 <-> can_register fixed env v type st) /\
  (ret = 0 -> exists w, placed fixed v type nr p w st st') /\
  (ret <> 0 -> ret < 0 /\ vs_table st' = vs_table st).
Proof.
  intros Hd Hreach Hv Hr Hp. pose proof (vreachable_ok L fixed d st Hd Hreach) as Hok.
  destruct (register_ok L fixed env st p v type nr Hok Hp Hv Hr) as (ret & st' & E & Hok' & _ & _ & Hcase).
  exists ret, st'. split; [done|]. pose proof (register_result_eq fixed env st p v type nr ret st' Hv E) as Er.
  split; [subst ret; split; [apply register_result_inv | apply register_result_ok]|].
  destruct Hcase as [[E0 Hra]|[Hneg Htab]]; (split; [|by intros]); [|lia].
  intros _. by apply (registered_placed L fixed st p v type nr).
Qed.

Lemma register_spec_witness : exists ret st',
  __video_register_device false all_well 0 VFL_TYPE_GRABBER (-1) (example_at 1) = Some (ret, st') /\
  (ret = 0 -> exists w, placed false
     (new_vdev count_fops None (Some (Rel_driver (fun d => Some d))) None false)
     VFL_TYPE_GRABBER (-1) 0 w (example_at 1) st').
Proof.
  destruct (register_spec count_laws false 0 (example_at 1) all_well 0
    (new_vdev count_fops None (Some (Rel_driver (fun d => Some d))) None false) VFL_TYPE_GRABBER (-1))
    as (ret & st' & E & _ & Hpl & _); [done | | by vm_compute | done | |].
  - apply (vreach_step _ _ _ (initial_videodev 0) (V_alloc count_fops None
      (Some (Rel_driver (fun d => Some d))) None false)); [constructor | apply count_good | vm_compute; reflexivity].
  - assert (vs_table (example_at 1) = ∅) as -> by (vm_compute; reflexivity). intros m. by rewrite lookup_empty.
  - by exists ret, st'.
Defined.
