(* ===== verification/UvcParams.v ===== *)
(** The control side of the UVC driver [src/myuvc/10_th/uvc.c]: the streaming
    parameters the driver negotiates with the camera (probe and commit), the
    little-endian codec of the control values, and the brightness control of
    [VIDIOC_QUERYCTRL], [VIDIOC_G_CTRL] and [VIDIOC_S_CTRL].

    The USB core is a parameter: a control transfer takes the request and the
    state of the device to a return value, the contents of the data block
    afterwards and the next state of the device. *)
From S2P Require Import Prelude V4l2 UsbUrb.
Open Scope Z_scope.

(** * Data *)

Record myuvc_streaming_control := {
  bmHint : Z;
  bFormatIndex : Z;
  bFrameIndex : Z;
  dwFrameInterval : Z;
  wKeyFrameRate : Z;
  wPFrameRate : Z;
  wCompQuality : Z;
  wCompWindowSize : Z;
  wDelay : Z;
  dwMaxVideoFrameSize : Z;
  dwMaxPayloadTransferSize : Z;
  dwClockFrequency : Z;
  bmFramingInfo : Z;
  bPreferedVersion : Z;
  bMinVersion : Z;
  bMaxVersion : Z
}.

Definition zero_streaming_control : myuvc_streaming_control :=
  Build_myuvc_streaming_control 0 0 0 0 0 0 0 0 0 0 0 0 0 0 0 0.

(** Every member is in the range of its C type. *)
Definition ctrl_ok (c : myuvc_streaming_control) : Prop :=
  is_u16 (bmHint c) /\ is_u8 (bFormatIndex c) /\ is_u8 (bFrameIndex c) /\
  is_u32 (dwFrameInterval c) /\ is_u16 (wKeyFrameRate c) /\ is_u16 (wPFrameRate c) /\
  is_u16 (wCompQuality c) /\ is_u16 (wCompWindowSize c) /\ is_u16 (wDelay c) /\
  is_u32 (dwMaxVideoFrameSize c) /\ is_u32 (dwMaxPayloadTransferSize c) /\
  is_u32 (dwClockFrequency c) /\ is_u8 (bmFramingInfo c) /\
  is_u8 (bPreferedVersion c) /\ is_u8 (bMinVersion c) /\ is_u8 (bMaxVersion c).

(** The static variables of the driver the control requests read. *)
Record uvc_config := {
  frame_idx : Z;
  uvc_version : Z;
  myuvc_streaming_intf : Z;
  myuvc_control_intf : Z;
  ProcessingUnitID : Z
}.

(** Their initialisers; the two interface numbers are set by [myuvc_probe]. *)
Definition initial_config : uvc_config :=
  {| frame_idx := 1; uvc_version := 0x0100; myuvc_streaming_intf := 0;
     myuvc_control_intf := 0; ProcessingUnitID := 3 |}.

(** [uvcvideo.h] and [usb/ch9.h] *)
Definition SET_CUR : Z := 0x01.
Definition GET_CUR : Z := 0x81.
Definition GET_MIN : Z := 0x82.
Definition GET_MAX : Z := 0x83.
Definition GET_RES : Z := 0x84.
Definition GET_DEF : Z := 0x87.
Definition PU_BRIGHTNESS_CONTROL : Z := 0x02.
Definition VS_PROBE_CONTROL : Z := 0x01.
Definition VS_COMMIT_CONTROL : Z := 0x02.
Definition USB_TYPE_CLASS : Z := 0x20.

(** The arguments of [usb_control_msg]: the direction of the pipe, the setup
    packet, and the data block it sends or fills. *)
Record usb_request := {
  rq_rcvpipe : bool;
  rq_request : Z;
  rq_requesttype : Z;
  rq_value : Z;
  rq_index : Z;
  rq_data : mem;
  rq_size : Z;
  rq_timeout : Z
}.

(** * Packing the parameters *)

(** [size = uvc_version >= 0x0110 ? 34 : 26] *)
Definition params_size (cfg : uvc_config) : Z :=
  if uvc_version cfg >=? 0x0110 then 34 else 26.

(** The stores into [data] shared by the try and the set routine. The machine
    is little-endian, so [*(__le16 * )p = cpu_to_le16(v)] stores the bytes that
    [put_unaligned_le16] stores. *)
Definition pack_streaming_params (size : Z) (ctrl : myuvc_streaming_control)
    (data : mem) : option mem :=
  data ← put_unaligned_le16 (bmHint ctrl) 0 data;
  data ← put_u8 (bFormatIndex ctrl) 2 data;
  data ← put_u8 (bFrameIndex ctrl) 3 data;
  data ← put_unaligned_le32 (dwFrameInterval ctrl) 4 data;
  data ← put_unaligned_le16 (wKeyFrameRate ctrl) 8 data;
  data ← put_unaligned_le16 (wPFrameRate ctrl) 10 data;
  data ← put_unaligned_le16 (wCompQuality ctrl) 12 data;
  data ← put_unaligned_le16 (wCompWindowSize ctrl) 14 data;
  data ← put_unaligned_le16 (wDelay ctrl) 16 data;
  data ← put_unaligned_le32 (dwMaxVideoFrameSize ctrl) 18 data;
  data ← put_unaligned_le32 (dwMaxPayloadTransferSize ctrl) 22 data;
  if size =? 34 then
    data ← put_unaligned_le32 (dwClockFrequency ctrl) 26 data;
    data ← put_u8 (bmFramingInfo ctrl) 30 data;
    data ← put_u8 (bPreferedVersion ctrl) 31 data;
    data ← put_u8 (bMinVersion ctrl) 32 data;
    put_u8 (bMaxVersion ctrl) 33 data
  else Some data.

(** The loads of [myuvc_get_streaming_params]; [ctrl] is the structure before
    the call, whose [dwClockFrequency] is kept for a 26-byte answer. *)
Definition unpack_streaming_params (size : Z) (data : mem)
    (ctrl : myuvc_streaming_control) : option myuvc_streaming_control :=
  hint ← get_unaligned_le16 data 0;
  fmt ← byte_at data 2;
  frm ← byte_at data 3;
  interval ← get_unaligned_le32 data 4;
  keyrate ← get_unaligned_le16 data 8;
  prate ← get_unaligned_le16 data 10;
  quality ← get_unaligned_le16 data 12;
  window ← get_unaligned_le16 data 14;
  delay ← get_unaligned_le16 data 16;
  framesize ← get_unaligned_le32 data 18;
  payload ← get_unaligned_le32 data 22;
  let fields := Build_myuvc_streaming_control hint fmt frm interval keyrate prate
                  quality window delay framesize payload in
  if size =? 34 then
    clock ← get_unaligned_le32 data 26;
    framing ← byte_at data 30;
    pref ← byte_at data 31;
    vmin ← byte_at data 32;
    vmax ← byte_at data 33;
    Some (fields clock framing pref vmin vmax)
  else Some (fields (dwClockFrequency ctrl) 0 0 0 0).

(** * Control values *)

(** The loop of [myuvc_get_le_value]. [bits] and [offset] are [int]s and [mask]
    a [__u8]; each round takes at least one bit, so 16 rounds are enough. *)
Fixpoint get_le_loop (fuel : nat) (data : mem) (p bits offset value mask : Z)
    : option Z :=
  match fuel with
  | O => None
  | S fuel =>
      if bits >? 0 then
        b ← byte_at data p;
        let byte := Z.land b mask in
        let value := Z.lor value (if offset >? 0 then Z.shiftr byte offset
                                  else Z.shiftl byte (- offset)) in
        let bits := bits - (8 - (if offset >? 0 then offset else 0)) in
        let offset := offset - 8 in
        let mask := u8 (Z.shiftl 1 bits - 1) in
        get_le_loop fuel data (p + 1) bits offset value mask
      else Some value
  end.

Definition myuvc_get_le_value (data : mem) : option Z :=
  let bits := 16 in
  let offset := Z.land 0 7 in
  let mask := u8 (Z.shiftl (Z.shiftl 1 bits - 1) offset) in
  value ← get_le_loop 17 data (0 / 8) bits offset 0 mask;
  Some (s32 (Z.lor value (- Z.land value (Z.shiftl 1 15)))).

(** The loop of [myuvc_set_le_value]; [value >> n] is the arithmetic shift. *)
Fixpoint set_le_loop (fuel : nat) (data : mem) (p bits offset value : Z)
    : option mem :=
  match fuel with
  | O => None
  | S fuel =>
      if bits >? 0 then
        let mask := u8 (Z.shiftl (Z.shiftl 1 bits - 1) offset) in
        b ← byte_at data p;
        data ← mem_write data p
                 [u8 (Z.lor (Z.land b (Z.lnot mask))
                            (Z.land (Z.shiftl value offset) mask))];
        let value := Z.shiftr value (if truth offset then offset else 8) in
        let bits := bits - (8 - offset) in
        set_le_loop fuel data (p + 1) bits 0 value
      else Some data
  end.

Definition myuvc_set_le_value (value : Z) (data : mem) : option mem :=
  set_le_loop 17 data (0 / 8) 16 (Z.land 0 7) value.

(** * Requests *)

Section Requests.

(** The state of the USB device and the USB core's synchronous control
    transfer, which is not part of the repository's driver. *)
Context {dev : Type} (usb_control_msg : usb_request -> dev -> Z * mem * dev).

(** What the driver relies on: the data block keeps its size, and its bytes are
    bytes. *)
Definition control_msg_ok : Prop :=
  forall rq d, let '(_, data, _) := usb_control_msg rq d in
  zlen data = zlen (rq_data rq) /\ Forall is_u8 data.

(** [pipe = (query & 0x80) ? rcv : snd; type |= (query & 0x80) ? IN : OUT] *)
Definition class_request (query value index : Z) (data : mem) (size : Z) : usb_request :=
  let type := Z.lor USB_TYPE_CLASS USB_RECIP_INTERFACE in
  {| rq_rcvpipe := truth (Z.land query 0x80);
     rq_request := query;
     rq_requesttype := Z.lor type (if truth (Z.land query 0x80)
                                   then USB_DIR_IN else USB_DIR_OUT);
     rq_value := value;
     rq_index := index;
     rq_data := data;
     rq_size := size;
     rq_timeout := 5000 |}.

Definition streaming_request (cfg : uvc_config) (query cs : Z) (data : mem) : usb_request :=
  class_request query (Z.shiftl cs 8) (Z.lor (Z.shiftl 0 8) (myuvc_streaming_intf cfg))
    data (params_size cfg).

(** [kmalloc] gives a block of any contents, or fails. *)
Definition myuvc_get_streaming_params (cfg : uvc_config) (kmalloc : option mem)
    (ctrl : myuvc_streaming_control) (d : dev)
    : option (Z * myuvc_streaming_control * dev) :=
  match kmalloc with
  | None => Some (- ENOMEM, ctrl, d)
  | Some data =>
      let '(ret, data, d) :=
        usb_control_msg (streaming_request cfg GET_CUR VS_PROBE_CONTROL data) d in
      if ret <? 0 then Some (ret, ctrl, d)
      else
        ctrl ← unpack_streaming_params (params_size cfg) data ctrl;
        Some (0, ctrl, d)
  end.

Definition probe_params (cfg : uvc_config) : myuvc_streaming_control :=
  {| bmHint := 1; bFormatIndex := 1; bFrameIndex := u8 (frame_idx cfg + 1);
     dwFrameInterval := 333333; wKeyFrameRate := 0; wPFrameRate := 0;
     wCompQuality := 0; wCompWindowSize := 0; wDelay := 0;
     dwMaxVideoFrameSize := 0; dwMaxPayloadTransferSize := 0;
     dwClockFrequency := 0; bmFramingInfo := 0; bPreferedVersion := 0;
     bMinVersion := 0; bMaxVersion := 0 |}.

(** [kzalloc] gives a zeroed block of [size] bytes, or fails. *)
Definition kzalloc (ok : bool) (size : Z) : option mem :=
  if ok then Some (replicate (Z.to_nat size) 0) else None.

(** The caller's structure is overwritten by the probe parameters first. *)
Definition myuvc_try_streaming_params (cfg : uvc_config) (alloc_ok : bool) (d : dev)
    : option (Z * myuvc_streaming_control * dev) :=
  let ctrl := probe_params cfg in
  let size := params_size cfg in
  match kzalloc alloc_ok size with
  | None => Some (- ENOMEM, ctrl, d)
  | Some data =>
      data ← pack_streaming_params size ctrl data;
      let '(ret, _, d) :=
        usb_control_msg (streaming_request cfg SET_CUR VS_PROBE_CONTROL data) d in
      Some (if ret <? 0 then ret else 0, ctrl, d)
  end.

Definition myuvc_set_streaming_params (cfg : uvc_config) (alloc_ok : bool)
    (ctrl : myuvc_streaming_control) (d : dev) : option (Z * dev) :=
  let size := params_size cfg in
  match kzalloc alloc_ok size with
  | None => Some (- ENOMEM, d)
  | Some data =>
      data ← pack_streaming_params size ctrl data;
      let '(ret, _, d) :=
        usb_control_msg (streaming_request cfg SET_CUR VS_COMMIT_CONTROL data) d in
      Some (if ret <? 0 then ret else 0, d)
  end.

(** The index word of a request to the processing unit. *)
Definition brightness_request (cfg : uvc_config) (query : Z) (data : mem) : usb_request :=
  class_request query (Z.shiftl PU_BRIGHTNESS_CONTROL 8)
    (Z.lor (Z.shiftl (ProcessingUnitID cfg) 8) (myuvc_control_intf cfg)) data 2.

(** One [ret = usb_control_msg(...); if (ret != 2) return -EIO;
    x = myuvc_get_le_value(data);] of [myuvc_vidioc_queryctrl]: [inl] is the early
    return, [inr] the value, with the data block reused by the next transfer. *)
Definition query_value (cfg : uvc_config) (query : Z) (data : mem) (d : dev)
    : option ((Z + Z) * mem * dev) :=
  let '(ret, data, d) := usb_control_msg (brightness_request cfg query data) d in
  if negb (ret =? 2) then Some (inl (- EIO), data, d)
  else v ← myuvc_get_le_value data; Some (inr v, data, d).

Definition brightness_ctrl (minimum maximum step default_value : Z) : v4l2_queryctrl :=
  {| qc_id := V4L2_CID_BRIGHTNESS; qc_type := V4L2_CTRL_TYPE_INTEGER;
     qc_name := "MyUVC_BRIGHTNESS"%string; qc_minimum := minimum;
     qc_maximum := maximum; qc_step := step; qc_default_value := default_value;
     qc_flags := 0 |}.

(** The structure is zeroed and filled as far as the transfers succeed. *)
Definition myuvc_vidioc_queryctrl (cfg : uvc_config) (ctrl : v4l2_queryctrl) (d : dev)
    : option (Z * v4l2_queryctrl * dev) :=
  if negb (qc_id ctrl =? V4L2_CID_BRIGHTNESS) then Some (- EINVAL, ctrl, d)
  else
    '(r, data, d) ← query_value cfg GET_MIN [0; 0] d;
    match r with
    | inl e => Some (e, brightness_ctrl 0 0 0 0, d)
    | inr minimum =>
    '(r, data, d) ← query_value cfg GET_MAX data d;
    match r with
    | inl e => Some (e, brightness_ctrl minimum 0 0 0, d)
    | inr maximum =>
    '(r, data, d) ← query_value cfg GET_RES data d;
    match r with
    | inl e => Some (e, brightness_ctrl minimum maximum 0 0, d)
    | inr step =>
    '(r, data, d) ← query_value cfg GET_DEF data d;
    match r with
    | inl e => Some (e, brightness_ctrl minimum maximum step 0, d)
    | inr default_value =>
        Some (0, brightness_ctrl minimum maximum step default_value, d)
    end end end end.

(** [data] is the uninitialised array [u8 data[2]]. *)
Definition myuvc_vidioc_g_ctrl (cfg : uvc_config) (data : mem) (ctrl : v4l2_control)
    (d : dev) : option (Z * v4l2_control * dev) :=
  if negb (ctl_id ctrl =? V4L2_CID_BRIGHTNESS) then Some (- EINVAL, ctrl, d)
  else
    let '(ret, data, d) := usb_control_msg (brightness_request cfg GET_CUR data) d in
    if negb (ret =? 2) then Some (- EIO, ctrl, d)
    else
      v ← myuvc_get_le_value data;
      Some (0, {| ctl_id := ctl_id ctrl; ctl_value := v |}, d).

Definition myuvc_vidioc_s_ctrl (cfg : uvc_config) (data : mem) (ctrl : v4l2_control)
    (d : dev) : option (Z * dev) :=
  if negb (ctl_id ctrl =? V4L2_CID_BRIGHTNESS) then Some (- EINVAL, d)
  else
    data ← myuvc_set_le_value (ctl_value ctrl) data;
    let '(ret, _, d) := usb_control_msg (brightness_request cfg SET_CUR data) d in
    if negb (ret =? 2) then Some (- EIO, d) else Some (0, d).

End Requests.

(** * The codec of the streaming parameters *)

(** What a 26-byte exchange keeps of a parameter block: the members UVC 1.1 adds
    are cleared, and the clock frequency stays what it was. *)
Definition legacy_params (clock : Z) (c : myuvc_streaming_control) : myuvc_streaming_control :=
  Build_myuvc_streaming_control (bmHint c) (bFormatIndex c) (bFrameIndex c)
    (dwFrameInterval c) (wKeyFrameRate c) (wPFrameRate c) (wCompQuality c)
    (wCompWindowSize c) (wDelay c) (dwMaxVideoFrameSize c) (dwMaxPayloadTransferSize c)
    clock 0 0 0 0.

Definition le16 (v : Z) : mem := [u8 v; u8 (Z.shiftr v 8)].
Definition le32 (v : Z) : mem := le16 (u16 v) ++ le16 (u16 (Z.shiftr v 16)).

(** The 26 bytes of every version, and the 8 bytes UVC 1.1 adds. *)
Definition params_base (c : myuvc_streaming_control) : mem :=
  le16 (bmHint c) ++ [u8 (bFormatIndex c); u8 (bFrameIndex c)] ++
  le32 (dwFrameInterval c) ++ le16 (wKeyFrameRate c) ++ le16 (wPFrameRate c) ++
  le16 (wCompQuality c) ++ le16 (wCompWindowSize c) ++ le16 (wDelay c) ++
  le32 (dwMaxVideoFrameSize c) ++ le32 (dwMaxPayloadTransferSize c).

Definition params_ext (c : myuvc_streaming_control) : mem :=
  le32 (dwClockFrequency c) ++
  [u8 (bmFramingInfo c); u8 (bPreferedVersion c); u8 (bMinVersion c); u8 (bMaxVersion c)].

Lemma params_size_cases cfg : params_size cfg = 26 \/ params_size cfg = 34.
Proof. unfold params_size. case_if; auto. Qed.

Lemma pack_26 c data :
  zlen data = 26 -> pack_streaming_params 26 c data = Some (params_base c).
Proof.
  intros H. do 26 (destruct data as [|? data]; [discriminate H|]).
  destruct data; [reflexivity|]. unfold zlen in H. cbn in H. lia.
Qed.

Lemma pack_34 c data :
  zlen data = 34 -> pack_streaming_params 34 c data = Some (params_base c ++ params_ext c).
Proof.
  intros H. do 34 (destruct data as [|? data]; [discriminate H|]).
  destruct data; [reflexivity|]. unfold zlen in H. cbn in H. lia.
Qed.

Lemma unpack_base c c0 tl : ctrl_ok c ->
  unpack_streaming_params 26 (params_base c ++ tl) c0 =
  Some (legacy_params (dwClockFrequency c0) c).
Proof.
  intros H. unfold ctrl_ok in H. destruct_and! H.
  transitivity (Some (legacy_params (dwClockFrequency c0) (Build_myuvc_streaming_control
    (u16 (bmHint c)) (u8 (bFormatIndex c)) (u8 (bFrameIndex c)) (u32 (dwFrameInterval c))
    (u16 (wKeyFrameRate c)) (u16 (wPFrameRate c)) (u16 (wCompQuality c))
    (u16 (wCompWindowSize c)) (u16 (wDelay c)) (u32 (dwMaxVideoFrameSize c))
    (u32 (dwMaxPayloadTransferSize c)) 0 0 0 0 0))).
  - rewrite <- !le16_join, <- !le32_join. reflexivity.
  - unfold legacy_params; cbn. by autorewrite with widths.
Qed.

Lemma unpack_full c c0 : ctrl_ok c ->
  unpack_streaming_params 34 (params_base c ++ params_ext c) c0 = Some c.
Proof.
  intros H. unfold ctrl_ok in H. destruct_and! H.
  transitivity (Some (Build_myuvc_streaming_control
    (u16 (bmHint c)) (u8 (bFormatIndex c)) (u8 (bFrameIndex c)) (u32 (dwFrameInterval c))
    (u16 (wKeyFrameRate c)) (u16 (wPFrameRate c)) (u16 (wCompQuality c))
    (u16 (wCompWindowSize c)) (u16 (wDelay c)) (u32 (dwMaxVideoFrameSize c))
    (u32 (dwMaxPayloadTransferSize c)) (u32 (dwClockFrequency c)) (u8 (bmFramingInfo c))
    (u8 (bPreferedVersion c)) (u8 (bMinVersion c)) (u8 (bMaxVersion c)))).
  - rewrite <- !le16_join, <- !le32_join. reflexivity.
  - autorewrite with widths. by destruct c.
Qed.

(** Reading a block of bytes and writing what was read gives the block back. *)
Definition join16 (b0 b1 : Z) : Z := Z.lor b0 (Z.shiftl b1 8).
Definition join32 (b0 b1 b2 b3 : Z) : Z :=
  Z.lor (Z.lor (Z.lor b0 (Z.shiftl b1 8)) (Z.shiftl b2 16)) (Z.shiftl b3 24).

Lemma le16_bytes b0 b1 : is_u8 b0 -> is_u8 b1 -> le16 (join16 b0 b1) = [b0; b1].
Proof.
  intros H0 H1. destruct (le16_split b0 b1 H0 H1) as (_ & E0 & E1).
  unfold le16, join16. by rewrite E0, E1.
Qed.

Lemma le32_bytes b0 b1 b2 b3 : is_u8 b0 -> is_u8 b1 -> is_u8 b2 -> is_u8 b3 ->
  le32 (join32 b0 b1 b2 b3) = [b0; b1; b2; b3].
Proof.
  intros H0 H1 H2 H3. destruct (le32_split b0 b1 b2 b3 H0 H1 H2 H3) as (_ & E0 & E1 & E2 & E3).
  unfold le32, le16, join32. by rewrite E0, E1, E2, E3.
Qed.

Definition parsed_base (b0 b1 b2 b3 b4 b5 b6 b7 b8 b9 b10 b11 b12 b13 b14 b15 b16 b17 b18 b19 b20 b21 b22 b23 b24 b25 : Z) : Z -> Z -> Z -> Z -> Z -> myuvc_streaming_control :=
  Build_myuvc_streaming_control (join16 b0 b1) b2 b3 (join32 b4 b5 b6 b7) (join16 b8 b9) (join16 b10 b11)
    (join16 b12 b13) (join16 b14 b15) (join16 b16 b17) (join32 b18 b19 b20 b21)
    (join32 b22 b23 b24 b25).

Lemma unpack_pack_26 data c0 : zlen data = 26 -> Forall is_u8 data ->
  exists c, unpack_streaming_params 26 data c0 = Some c /\ params_base c = data.
Proof.
  intros H Hb. do 26 (destruct data as [|? data]; [discriminate H|]).
  destruct data; [|unfold zlen in H; cbn in H; lia].
  repeat (apply Forall_cons in Hb as [? Hb]).
  eexists (parsed_base _ _ _ _ _ _ _ _ _ _ _ _ _ _ _ _ _ _ _ _ _ _ _ _ _ _ _ _ _ _ _).
  split; [reflexivity|].
  unfold params_base, parsed_base; cbn -[le16 le32 app].
  rewrite !le16_bytes, !le32_bytes, !u8_small by done. reflexivity.
Qed.

Lemma unpack_pack_34 data c0 : zlen data = 34 -> Forall is_u8 data ->
  exists c, unpack_streaming_params 34 data c0 = Some c /\ params_base c ++ params_ext c = data.
Proof.
  intros H Hb. do 34 (destruct data as [|? data]; [discriminate H|]).
  destruct data; [|unfold zlen in H; cbn in H; lia].
  repeat (apply Forall_cons in Hb as [? Hb]).
  eexists (parsed_base _ _ _ _ _ _ _ _ _ _ _ _ _ _ _ _ _ _ _ _ _ _ _ _ _ _
             (join32 _ _ _ _) _ _ _ _).
  split; [reflexivity|].
  unfold params_base, params_ext, parsed_base; cbn -[le16 le32 app].
  rewrite !le16_bytes, !le32_bytes, !u8_small by done. reflexivity.
Qed.

(** * Control values as signed 16-bit integers *)

Definition s16 (v : Z) : Z := (v + 2 ^ 15) mod 2 ^ 16 - 2 ^ 15.

Lemma s16_range v : - 2 ^ 15 <= s16 v < 2 ^ 15.
Proof. unfold s16. pose proof (Z.mod_pos_bound (v + 2 ^ 15) (2 ^ 16) eq_refl). lia. Qed.

Lemma s16_u16 v : s16 (u16 v) = s16 v.
Proof. unfold s16, u16. by rewrite Zplus_mod_idemp_l. Qed.

Lemma lor_high_ones v n : 0 <= n ->
  Z.lor v (Z.shiftl (-1) n) = v mod 2 ^ n - 2 ^ n.
Proof.
  intros. transitivity (Z.lor (v mod 2 ^ n) (Z.shiftl (-1) n)).
  - bits_eq; rewrite Z.bits_m1 by lia; by rewrite !orb_true_r.
  - assert (Z.land (v mod 2 ^ n) (Z.shiftl (-1) n) = 0) as E.
    { bits_eq; by rewrite Z.bits_0. }
    rewrite <- Z.lxor_lor, <- Z.add_nocarry_lxor by done.
    rewrite Z.shiftl_mul_pow2 by done. lia.
Qed.

(** The sign extension [value |= -(value & (1 << 15))]. *)
Lemma sign_extend v : is_u16 v -> Z.lor v (- Z.land v (Z.shiftl 1 15)) = s16 v.
Proof.
  intros Hv. assert (Z.land v (Z.shiftl 1 15) = if Z.testbit v 15 then 2 ^ 15 else 0) as ->.
  { apply Z.bits_inj'. intros i Hi. rewrite Z.land_spec, Z.shiftl_mul_pow2, Z.mul_1_l by lia.
    rewrite Z.pow2_bits_eqb by lia. destruct (Z.eqb_spec 15 i) as [<-|Hn].
    - by destruct (Z.testbit v 15).
    - rewrite andb_false_r. destruct (Z.testbit v 15).
      + by rewrite Z.pow2_bits_false by lia.
      + by rewrite Z.bits_0. }
  unfold is_u16 in Hv. rewrite Z.testbit_eqb by lia. unfold s16.
  assert (v / 2 ^ 15 = 0 /\ v < 2 ^ 15 \/ v / 2 ^ 15 = 1 /\ 2 ^ 15 <= v) as [[-> ?]|[-> ?]] by
    (pose proof (Z.div_mod v (2 ^ 15)); pose proof (Z.mod_pos_bound v (2 ^ 15)); lia).
  - change (- (if 0 mod 2 =? 1 then 2 ^ 15 else 0)) with 0.
    rewrite Z.lor_0_r, Z.mod_small by lia. lia.
  - change (- (if 1 mod 2 =? 1 then 2 ^ 15 else 0)) with (Z.shiftl (-1) 15). rewrite lor_high_ones by lia.
    rewrite (Z.mod_eq v), (Z.mod_eq (v + 2 ^ 15)) by lia.
    replace ((v + 2 ^ 15) / 2 ^ 16) with 1 by (apply Z.div_unique with (v - 2 ^ 15); lia).
    replace (v / 2 ^ 15) with 1 by (apply Z.div_unique with (v - 2 ^ 15); lia). lia.
Qed.

Lemma get_le_value_spec b0 b1 : is_u8 b0 -> is_u8 b1 ->
  myuvc_get_le_value [b0; b1] = Some (s16 (join16 b0 b1)).
Proof.
  intros H0 H1. pose proof (le16_split b0 b1 H0 H1) as (Hr & _).
  transitivity (let v := Z.lor (Z.lor 0 (Z.shiftl (Z.land b0 255) 0)) (Z.shiftl (Z.land b1 255) 8) in
                Some (s32 (Z.lor v (- Z.land v (Z.shiftl 1 15))))); [reflexivity|].
  rewrite !(Z.land_ones _ 8), Z.lor_0_l, Z.shiftl_0_r by lia.
  rewrite !Z.mod_small by done. cbv zeta. rewrite sign_extend by done.
  pose proof (s16_range (Z.lor b0 (Z.shiftl b1 8))).
  unfold join16. by autorewrite with widths.
Qed.

Lemma set_le_value_spec v d0 d1 : is_u8 d0 -> is_u8 d1 ->
  myuvc_set_le_value v [d0; d1] = Some (le16 v).
Proof.
  intros H0 H1.
  transitivity (Some [u8 (Z.lor (Z.land d0 (Z.lnot 255)) (Z.land (Z.shiftl v 0) 255));
                      u8 (Z.lor (Z.land d1 (Z.lnot 255)) (Z.land (Z.shiftl (Z.shiftr v 8) 0) 255))]);
    [reflexivity|].
  assert (forall b, is_u8 b -> Z.land b (Z.lnot 255) = 0) as Hclr.
  { intros b Hb. change 255 with (Z.ones 8). rewrite <- Z.ldiff_land, Z.ldiff_ones_r by lia.
    rewrite Z.shiftr_div_pow2, Z.div_small by done. apply Z.shiftl_0_l. }
  unfold le16. rewrite !Hclr by done. rewrite !Z.lor_0_l, !Z.shiftl_0_r, !(Z.land_ones _ 8) by lia.
  unfold u8. by rewrite !Zmod_mod.
Qed.

(** * Properties *)

(** C20. The parameter block is a faithful encoding, for both versions of the
    protocol: packing parameters whose members are in range into the zeroed
    block stays inside it, gives as many bytes as the request announces, and
    unpacking those bytes gives the parameters back (for the 26-byte block the
    members of UVC 1.1 read as zero and the clock frequency is kept). *)
Theorem streaming_params_roundtrip cfg (c c0 : myuvc_streaming_control) :
  ctrl_ok c ->
  exists data,
    pack_streaming_params (params_size cfg) c
      (replicate (Z.to_nat (params_size cfg)) 0) = Some data /\
    zlen data = params_size cfg /\
    unpack_streaming_params (params_size cfg) data c0 =
      Some (if uvc_version cfg >=? 0x0110 then c
            else legacy_params (dwClockFrequency c0) c).
Proof.
  intros Hc. unfold params_size. case_if.
  - exists (params_base c ++ params_ext c). rewrite pack_34 by done.
    by rewrite unpack_full by done.
  - exists (params_base c). rewrite pack_26 by done.
    pose proof (unpack_base c c0 [] Hc) as Hu. rewrite app_nil_r in Hu. by rewrite Hu.
Qed.

(** The parameters the camera of the sources reports. *)
Definition sample_params : myuvc_streaming_control :=
  Build_myuvc_streaming_control 1 1 2 333333 0 0 0 0 0 77312 800 0 0 0 0 0.

Lemma streaming_params_roundtrip_witness :
  exists data,
    pack_streaming_params 26 sample_params (replicate 26 0) = Some data /\
    zlen data = 26 /\
    unpack_streaming_params 26 data zero_streaming_control = Some sample_params.
Proof.
  apply (streaming_params_roundtrip initial_config sample_params zero_streaming_control).
  repeat split; cbn; lia.
Defined.

(** Probe and commit: reading the negotiated parameters never leaves the
    block, reports the error of the transfer, and what is committed afterwards
    is byte for byte what the camera answered to the probe. *)
Theorem commit_echoes_probe {dev} (usb_control_msg : usb_request -> dev -> Z * mem * dev)
    cfg block ctrl d :
  control_msg_ok usb_control_msg ->
  zlen block = params_size cfg ->
  let '(ret, answer, d1) :=
    usb_control_msg (streaming_request cfg GET_CUR VS_PROBE_CONTROL block) d in
  if ret <? 0 then
    myuvc_get_streaming_params usb_control_msg cfg (Some block) ctrl d = Some (ret, ctrl, d1)
  else exists ctrl',
    myuvc_get_streaming_params usb_control_msg cfg (Some block) ctrl d = Some (0, ctrl', d1) /\
    forall d2,
      myuvc_set_streaming_params usb_control_msg cfg true ctrl' d2 =
      let '(ret, _, d3) :=
        usb_control_msg (streaming_request cfg SET_CUR VS_COMMIT_CONTROL answer) d2 in
      Some (if ret <? 0 then ret else 0, d3).
Proof.
  intros Hok Hlen. unfold myuvc_get_streaming_params, myuvc_set_streaming_params.
  pose proof (Hok (streaming_request cfg GET_CUR VS_PROBE_CONTROL block) d) as Hd.
  destruct (usb_control_msg (streaming_request cfg GET_CUR VS_PROBE_CONTROL block) d)
    as [[ret answer] d1].
  destruct Hd as [Hl Hb]. change (zlen answer = zlen block) in Hl. rewrite Hlen in Hl.
  case_if; [done|].
  destruct (params_size_cases cfg) as [E|E]; rewrite E in *.
  - destruct (unpack_pack_26 answer ctrl Hl Hb) as (c & -> & Ep).
    exists c. split; [done|]. intros d2. unfold kzalloc. by rewrite pack_26, Ep.
  - destruct (unpack_pack_34 answer ctrl Hl Hb) as (c & -> & Ep).
    exists c. split; [done|]. intros d2. unfold kzalloc. by rewrite pack_34, Ep.
Qed.

(** A device that keeps the last block sent to it and answers with it, cut or
    filled with zeros to the size of the request. *)
Definition echo_device (rq : usb_request) (d : mem) : Z * mem * mem :=
  if rq_rcvpipe rq then
    let data := take (length (rq_data rq)) (map u8 d ++ replicate (length (rq_data rq)) 0) in
    (rq_size rq, data, d)
  else (rq_size rq, map u8 (rq_data rq), rq_data rq).

Lemma map_u8_bytes l : Forall is_u8 (map u8 l).
Proof. apply Forall_forall. intros x (y & -> & _)%list_elem_of_fmap. apply u8_range. Qed.

Lemma echo_device_ok : control_msg_ok echo_device.
Proof.
  intros rq d. unfold echo_device. case_if; split.
  - unfold zlen. rewrite length_take, length_app, length_replicate. lia.
  - apply Forall_take, Forall_app. split; [apply map_u8_bytes|].
    apply Forall_replicate. unfold is_u8. lia.
  - unfold zlen. by rewrite length_map.
  - apply map_u8_bytes.
Qed.

Lemma commit_echoes_probe_witness :
  exists ctrl',
    myuvc_get_streaming_params echo_device initial_config (Some (replicate 26 7))
      zero_streaming_control [1; 0; 1; 2] = Some (0, ctrl', [1; 0; 1; 2]) /\
    forall d2, myuvc_set_streaming_params echo_device initial_config true ctrl' d2 =
      Some (0, [1; 0; 1; 2] ++ replicate 22 0).
Proof.
  exact (commit_echoes_probe echo_device initial_config (replicate 26 7)
           zero_streaming_control [1; 0; 1; 2] echo_device_ok eq_refl).
Defined.

(** Control values: writing a value into the two data bytes succeeds
    whatever they held, and reading them gives the value reduced to a signed
    16-bit integer, so every value of that range survives the round trip. *)
Theorem le_value_roundtrip v d0 d1 :
  is_u8 d0 -> is_u8 d1 ->
  exists data,
    myuvc_set_le_value v [d0; d1] = Some data /\
    myuvc_get_le_value data = Some (s16 v) /\
    (- 2 ^ 15 <= v < 2 ^ 15 -> s16 v = v).
Proof.
  intros H0 H1. exists (le16 v). rewrite set_le_value_spec by done. split; [done|].
  unfold le16. rewrite get_le_value_spec by apply u8_range. unfold join16.
  rewrite le16_join, s16_u16. split; [done|].
  intros. unfold s16. rewrite Z.mod_small by lia. lia.
Qed.

Lemma le_value_roundtrip_witness :
  exists data,
    myuvc_set_le_value (-2) [17; 0] = Some data /\
    myuvc_get_le_value data = Some (-2) /\ (- 2 ^ 15 <= -2 < 2 ^ 15 -> -2 = -2).
Proof. apply (le_value_roundtrip (-2) 17 0); split; lia. Defined.

(** A control of the device is remembered: after a successful [SET_CUR] a
    [GET_CUR] of the same unit answers with the bytes that were set. *)
Definition remembers_brightness {dev} (usb_control_msg : usb_request -> dev -> Z * mem * dev)
    (cfg : uvc_config) : Prop :=
  forall data data' d d1 r,
    Forall is_u8 data -> zlen data = zlen data' ->
    usb_control_msg (brightness_request cfg SET_CUR data) d = (2, r, d1) ->
    exists d2, usb_control_msg (brightness_request cfg GET_CUR data') d1 = (2, data, d2).

(** The brightness control: on a device that remembers its setting, what
    [VIDIOC_S_CTRL] stored is what [VIDIOC_G_CTRL] returns, as a signed 16-bit
    value, whatever the uninitialised data bytes of the two calls hold. *)
Theorem brightness_set_get {dev} (usb_control_msg : usb_request -> dev -> Z * mem * dev)
    cfg a b a' b' v x d d1 :
  remembers_brightness usb_control_msg cfg ->
  is_u8 a -> is_u8 b ->
  myuvc_vidioc_s_ctrl usb_control_msg cfg [a; b]
    {| ctl_id := V4L2_CID_BRIGHTNESS; ctl_value := v |} d = Some (0, d1) ->
  exists d2,
    myuvc_vidioc_g_ctrl usb_control_msg cfg [a'; b']
      {| ctl_id := V4L2_CID_BRIGHTNESS; ctl_value := x |} d1 =
    Some (0, {| ctl_id := V4L2_CID_BRIGHTNESS; ctl_value := s16 v |}, d2).
Proof.
  intros Hrem Ha Hb. unfold myuvc_vidioc_s_ctrl, myuvc_vidioc_g_ctrl. cbn [ctl_id ctl_value].
  rewrite Z.eqb_refl, set_le_value_spec by done. cbn [mbind option_bind negb].
  destruct (usb_control_msg _ d) as [[ret r] d'] eqn:E. case_if; [done|]. intros [= ->].
  assert (ret = 2) as -> by lia.
  destruct (Hrem (le16 v) [a'; b'] d d1 r) as (d2 & ->).
  - unfold le16. repeat constructor; apply u8_range.
  - done.
  - done.
  - exists d2. change (negb (2 =? 2)) with false. unfold le16.
    rewrite get_le_value_spec by apply u8_range. unfold join16. cbn [mbind option_bind].
    by rewrite le16_join, s16_u16.
Qed.

Lemma brightness_set_get_witness :
  exists d2,
    myuvc_vidioc_g_ctrl echo_device initial_config [5; 6]
      {| ctl_id := V4L2_CID_BRIGHTNESS; ctl_value := 0 |} [226; 255] =
    Some (0, {| ctl_id := V4L2_CID_BRIGHTNESS; ctl_value := -30 |}, d2).
Proof.
  apply (brightness_set_get echo_device initial_config 1 2 5 6 (-30) 0 []).
  - intros data data' d d1 r Hd Hl. unfold echo_device. cbn. intros [= <- <-].
    exists data. unfold zlen in Hl. f_equal. f_equal.
    rewrite <- (app_nil_r (take _ _)).
    rewrite take_app_le by (rewrite length_map; lia).
    rewrite app_nil_r, take_ge by (rewrite length_map; lia).
    clear Hl. induction Hd as [|y l Hy _ IH]; [done|]. cbn. by rewrite IH, u8_small.
  - split; lia.
  - split; lia.
  - vm_compute. reflexivity.
Defined.
