(* ===== verification/UvcQueue.v ===== *)
(** The V4L2 side of the UVC driver [src/myuvc/10_th/uvc.c]: capabilities and
    formats, and the buffer queue ([VIDIOC_REQBUFS], [QUERYBUF], [QBUF],
    [DQBUF], [mmap] and [poll]).

    The five-step life of a buffer is proved as an invariant of the queue: the
    main queue is the finished buffers followed by the ones the interrupt
    handler fills, which are the interrupt queue, in the order in which the
    application queued them. *)
From S2P Require Import Prelude Klist V4l2 UvcParams.
Open Scope Z_scope.

(** * Capabilities and formats *)

Definition myuvc_vidioc_querycap : Z * v4l2_capability :=
  (0, {| cap_driver := "myuvc"%string; cap_card := "myuvc"%string; cap_version := 1;
         cap_capabilities := Z.lor V4L2_CAP_VIDEO_CAPTURE V4L2_CAP_STREAMING |}).

(** [index] is unsigned; [flags] is left as the application passed it. *)
Definition myuvc_vidioc_enum_fmt_vid_cap (f : v4l2_fmtdesc) : Z * v4l2_fmtdesc :=
  if fd_index f >=? 1 then (- EINVAL, f)
  else (0, {| fd_index := fd_index f; fd_type := V4L2_BUF_TYPE_VIDEO_CAPTURE;
              fd_flags := fd_flags f; fd_description := "MJPEG"%string;
              fd_pixelformat := V4L2_PIX_FMT_MJPEG |}).

Definition myuvc_vidioc_g_fmt_vid_cap (myuvc_format : v4l2_format) : Z * v4l2_format :=
  (0, myuvc_format).

(** [static struct frame_desc frames[]] and the constants read off the
    descriptors of the camera. *)
Definition frames : list (Z * Z) := [(640, 480); (320, 240); (160, 120)].
Definition bBitsPerPixel : Z := 0.
Definition frame_size_max : Z := 77312.

Definition myuvc_vidioc_try_fmt_vid_cap (cfg : uvc_config) (f : v4l2_format)
    : option (Z * v4l2_format) :=
  if negb (fmt_type f =? V4L2_BUF_TYPE_VIDEO_CAPTURE) then Some (- EINVAL, f)
  else if negb (pix_pixelformat (fmt_pix f) =? V4L2_PIX_FMT_MJPEG) then Some (- EINVAL, f)
  else
    '(width, height) ← (if frame_idx cfg <? 0 then None
                        else frames !! Z.to_nat (frame_idx cfg));
    Some (0, {| fmt_type := fmt_type f;
                fmt_pix := {| pix_width := width; pix_height := height;
                              pix_pixelformat := pix_pixelformat (fmt_pix f);
                              pix_field := V4L2_FIELD_NONE;
                              pix_bytesperline := Z.shiftr (u32 (width * bBitsPerPixel)) 3;
                              pix_sizeimage := frame_size_max;
                              pix_colorspace := V4L2_COLORSPACE_SRGB;
                              pix_priv := 0 |} |}).

(** The result, the application's structure and the driver's format. *)
Definition myuvc_vidioc_s_fmt_vid_cap (cfg : uvc_config) (myuvc_format f : v4l2_format)
    : option (Z * v4l2_format * v4l2_format) :=
  '(ret, f) ← myuvc_vidioc_try_fmt_vid_cap cfg f;
  if ret <? 0 then Some (ret, f, myuvc_format) else Some (0, f, f).

(** * The queue *)

(** [stream] and [irq], the two list nodes of a buffer, are its place in the
    two lists of the queue; a wait queue has no contents in the model, and
    waking it up is recorded by the completion handler. *)
Record myuvc_buffer := mk_ubuf {
  buf : v4l2_buffer;
  state : videobuf_state;
  vma_use_count : Z
}.

Definition zero_ubuf : myuvc_buffer := mk_ubuf zero_buffer VIDEOBUF_NEEDS_INIT 0.

Definition set_state (s : videobuf_state) (b : myuvc_buffer) : myuvc_buffer :=
  mk_ubuf (buf b) s (vma_use_count b).
Definition set_bytesused (n : Z) (b : myuvc_buffer) : myuvc_buffer :=
  mk_ubuf (set_vb_bytesused n (buf b)) (state b) (vma_use_count b).
Definition set_use_count (n : Z) (b : myuvc_buffer) : myuvc_buffer :=
  mk_ubuf (buf b) (state b) n.

(** [struct myuvc_queue]. [q_mem] is the block all buffers live in, [None] for
    NULL. The entries of [urb] and [urb_buffer] are handles of the objects the
    USB core allocated; [urb_dma], the bus addresses beside [urb_buffer], is left
    out. *)
Record myuvc_queue := mk_queue {
  q_mem : option mem;
  q_count : Z;
  q_buf_size : Z;
  q_buffer : list myuvc_buffer;
  q_urb : list (option nat);
  q_urb_buffer : list (option nat);
  q_urb_size : Z;
  q_mainqueue : Seq.list_head;
  q_irqqueue : Seq.list_head
}.

(** The queue as static initialisation and [memset] leave it. *)
Definition zero_queue : myuvc_queue :=
  mk_queue None 0 0 (replicate 32 zero_ubuf) (replicate 32 None) (replicate 32 None) 0
    None None.

Definition set_q_mem (m : option mem) (q : myuvc_queue) : myuvc_queue :=
  mk_queue m (q_count q) (q_buf_size q) (q_buffer q) (q_urb q) (q_urb_buffer q)
    (q_urb_size q) (q_mainqueue q) (q_irqqueue q).
Definition set_q_buffer (l : list myuvc_buffer) (q : myuvc_queue) : myuvc_queue :=
  mk_queue (q_mem q) (q_count q) (q_buf_size q) l (q_urb q) (q_urb_buffer q)
    (q_urb_size q) (q_mainqueue q) (q_irqqueue q).
Definition set_q_mainqueue (h : Seq.list_head) (q : myuvc_queue) : myuvc_queue :=
  mk_queue (q_mem q) (q_count q) (q_buf_size q) (q_buffer q) (q_urb q) (q_urb_buffer q)
    (q_urb_size q) h (q_irqqueue q).
Definition set_q_irqqueue (h : Seq.list_head) (q : myuvc_queue) : myuvc_queue :=
  mk_queue (q_mem q) (q_count q) (q_buf_size q) (q_buffer q) (q_urb q) (q_urb_buffer q)
    (q_urb_size q) (q_mainqueue q) h.
Definition set_q_urbs (us bs : list (option nat)) (sz : Z) (q : myuvc_queue) : myuvc_queue :=
  mk_queue (q_mem q) (q_count q) (q_buf_size q) (q_buffer q) us bs sz
    (q_mainqueue q) (q_irqqueue q).

(** [myuvc_queue.buffer[i]], the access and the update of one entry. *)
Definition update_buf (i : nat) (f : myuvc_buffer -> myuvc_buffer) (q : myuvc_queue)
    : option myuvc_queue :=
  b ← q_buffer q !! i; Some (set_q_buffer (<[i := f b]> (q_buffer q)) q).

(** ** Allocating the buffers *)

Definition myuvc_free_buffers (q : myuvc_queue) : Z * myuvc_queue :=
  match q_mem q with
  | Some _ => (0, zero_queue)
  | None => (0, q)
  end.

Section Reqbufs.
(** The kernel allocator: [None] is NULL. *)
Context (vmalloc_32 : Z -> option mem).

(** What the driver relies on: an allocation of nothing fails, and a block that
    was allocated has the size that was asked for, in whole pages. *)
Definition vmalloc_ok : Prop :=
  forall n m, vmalloc_32 n = Some m -> 0 < n /\ zlen m = PAGE_ALIGN n.

(** [for (; nbuffers > 0; --nbuffers) { mem = vmalloc_32(nbuffers * bufsize);
    if (mem != NULL) break; }] *)
Fixpoint alloc_loop (nbuffers : nat) (bufsize : Z) : option (nat * mem) :=
  match nbuffers with
  | O => None
  | S n => match vmalloc_32 (u32 (Z.of_nat nbuffers * bufsize)) with
           | Some m => Some (nbuffers, m)
           | None => alloc_loop n bufsize
           end
  end.

Definition init_buffer (sizeimage bufsize : Z) (i : nat) (b : myuvc_buffer) : myuvc_buffer :=
  let v := buf b in
  mk_ubuf (mk_vbuf (Z.of_nat i) V4L2_BUF_TYPE_VIDEO_CAPTURE (vb_bytesused v) 0
             V4L2_FIELD_NONE (vb_timestamp v) 0 V4L2_MEMORY_MMAP
             (u32 (Z.of_nat i * bufsize)) sizeimage (vb_input v))
          VIDEOBUF_IDLE (vma_use_count b).

(** [for (i = 0; i < nbuffers; ++i)]: the array has 32 entries. *)
Fixpoint init_buffers (todo i : nat) (sizeimage bufsize : Z) (l : list myuvc_buffer)
    : option (list myuvc_buffer) :=
  match todo with
  | O => Some l
  | S todo =>
      b ← l !! i;
      init_buffers todo (S i) sizeimage bufsize
        (<[i := init_buffer sizeimage bufsize i b]> l)
  end.

(** The result is the number of buffers or an error; [p] is only read. *)
Definition myuvc_vidioc_reqbufs (myuvc_format : v4l2_format) (p : v4l2_requestbuffers)
    (q : myuvc_queue) : option (Z * myuvc_queue) :=
  let nbuffers := s32 (rb_count p) in
  let sizeimage := pix_sizeimage (fmt_pix myuvc_format) in
  let bufsize := s32 (PAGE_ALIGN sizeimage) in
  let '(ret, q) := myuvc_free_buffers q in
  if ret <? 0 then Some (ret, q)
  else if nbuffers =? 0 then Some (ret, q)
  else match alloc_loop (Z.to_nat nbuffers) bufsize with
       | None => Some (- ENOMEM, q)
       | Some (n, m) =>
           l ← init_buffers n 0 sizeimage bufsize (q_buffer zero_queue);
           Some (Z.of_nat n,
                 mk_queue (Some m) (Z.of_nat n) bufsize l
                   (q_urb zero_queue) (q_urb_buffer zero_queue) 0
                   Seq.INIT_LIST_HEAD Seq.INIT_LIST_HEAD)
       end.
End Reqbufs.

(** ** Buffer requests *)

(** [index] is unsigned and [count] is converted to unsigned. *)
Definition myuvc_vidioc_querybuf (v4l2_buf : v4l2_buffer) (q : myuvc_queue)
    : option (Z * v4l2_buffer) :=
  if vb_index v4l2_buf >=? u32 (q_count q) then Some (- EINVAL, v4l2_buf)
  else
    b ← q_buffer q !! Z.to_nat (vb_index v4l2_buf);
    let v := buf b in
    b ← q_buffer q !! Z.to_nat (vb_index v);
    let v := if truth (vma_use_count b)
             then set_vb_flags (Z.lor (vb_flags v) V4L2_BUF_FLAG_MAPPED) v else v in
    let v := match state b with
             | VIDEOBUF_ERROR | VIDEOBUF_DONE =>
                 set_vb_flags (Z.lor (vb_flags v) V4L2_BUF_FLAG_DONE) v
             | VIDEOBUF_QUEUED | VIDEOBUF_ACTIVE =>
                 set_vb_flags (Z.lor (vb_flags v) V4L2_BUF_FLAG_QUEUED) v
             | _ => v
             end in
    Some (0, v).

Definition myuvc_vidioc_qbuf (v4l2_buf : v4l2_buffer) (q : myuvc_queue)
    : option (Z * myuvc_queue) :=
  if negb (vb_type v4l2_buf =? V4L2_BUF_TYPE_VIDEO_CAPTURE)
     || negb (vb_memory v4l2_buf =? V4L2_MEMORY_MMAP) then Some (- EINVAL, q)
  else if vb_index v4l2_buf >=? u32 (q_count q) then Some (- EINVAL, q)
  else
    let i := Z.to_nat (vb_index v4l2_buf) in
    b ← q_buffer q !! i;
    if negb (state_eqb (state b) VIDEOBUF_IDLE) then Some (- EINVAL, q)
    else
      q ← update_buf i (set_state VIDEOBUF_QUEUED) q;
      q ← update_buf i (set_bytesused 0) q;
      h ← Seq.list_add_tail i (q_mainqueue q);
      let q := set_q_mainqueue h q in
      h ← Seq.list_add_tail i (q_irqqueue q);
      Some (0, set_q_irqqueue h q).

(** The third component is the application's structure. *)
Definition myuvc_vidioc_dqbuf (v4l2_buf : v4l2_buffer) (q : myuvc_queue)
    : option (Z * v4l2_buffer * myuvc_queue) :=
  if Seq.list_empty (q_mainqueue q) then Some (- EINVAL, v4l2_buf, q)
  else
    i ← Seq.list_first_entry (q_mainqueue q);
    b ← q_buffer q !! i;
    match state b with
    | VIDEOBUF_ERROR => Some (- EIO, v4l2_buf, q)
    | VIDEOBUF_DONE =>
        q ← update_buf i (set_state VIDEOBUF_IDLE) q;
        h ← Seq.list_del i (q_mainqueue q);
        Some (0, buf b, set_q_mainqueue h q)
    | _ => Some (- EINVAL, v4l2_buf, q)
    end.

Definition myuvc_poll (q : myuvc_queue) : option Z :=
  if Seq.list_empty (q_mainqueue q) then Some POLLERR
  else
    i ← Seq.list_first_entry (q_mainqueue q);
    b ← q_buffer q !! i;
    Some (if state_eqb (state b) VIDEOBUF_DONE || state_eqb (state b) VIDEOBUF_ERROR
          then Z.lor POLLIN POLLRDNORM else 0).

(** ** Mapping *)

(** The members of [struct vm_area_struct] the driver uses; [vm_private_data]
    is the buffer mapped there. *)
Record vm_area_struct := mk_vma {
  vm_start : Z;
  vm_end : Z;
  vm_pgoff : Z;
  vm_io : bool;
  vm_private_data : option nat
}.

Definition myuvc_vm_open (vma : vm_area_struct) (q : myuvc_queue) : option myuvc_queue :=
  i ← vm_private_data vma;
  update_buf i (fun b => set_use_count (vma_use_count b + 1) b) q.

Definition myuvc_vm_close (vma : vm_area_struct) (q : myuvc_queue) : option myuvc_queue :=
  i ← vm_private_data vma;
  update_buf i (fun b => set_use_count (vma_use_count b - 1) b) q.

(** The search loop: the first buffer at the page offset, or [count]. *)
Fixpoint find_offset (todo i : nat) (pgoff : Z) (l : list myuvc_buffer) : option nat :=
  match todo with
  | O => Some i
  | S todo =>
      b ← l !! i;
      if Z.shiftr (vb_m (buf b)) PAGE_SHIFT =? pgoff then Some i
      else find_offset todo (S i) pgoff l
  end.

Section Mmap.
(** [vm_insert_page] at a user address: 0 or an error. *)
Context (vm_insert_page : Z -> Z).

(** The mapping loop. A page is named by its offset in [myuvc_queue.mem]; the
    result lists the pages inserted, at their user addresses. The block covers
    the pages it reaches, so [vmalloc_to_page] needs an address inside it. *)
Fixpoint map_pages (fuel : nat) (m : mem) (ret start addr size : Z) (acc : list (Z * Z))
    : option (Z * list (Z * Z)) :=
  match fuel with
  | O => None
  | S fuel =>
      if size >? 0 then
        _ ← byte_at m addr;
        let ret := vm_insert_page start in
        if ret <? 0 then Some (ret, acc)
        else map_pages fuel m ret (u32 (start + PAGE_SIZE)) (addr + PAGE_SIZE)
               (u32 (size - PAGE_SIZE)) (acc ++ [(start, addr)])
      else Some (ret, acc)
  end.

Definition myuvc_mmap (vma : vm_area_struct) (q : myuvc_queue)
    : option (Z * list (Z * Z) * vm_area_struct * myuvc_queue) :=
  let size := u32 (vm_end vma - vm_start vma) in
  i ← find_offset (Z.to_nat (q_count q)) 0 (vm_pgoff vma) (q_buffer q);
  if (Z.of_nat i =? q_count q) || negb (size =? u32 (q_buf_size q))
  then Some (- EINVAL, [], vma, q)
  else
    let vma := mk_vma (vm_start vma) (vm_end vma) (vm_pgoff vma) true (vm_private_data vma) in
    b ← q_buffer q !! i;
    m ← q_mem q;
    '(ret, pages) ← map_pages (S (Z.to_nat size)) m 0 (vm_start vma) (vb_m (buf b)) size [];
    if ret <? 0 then Some (ret, pages, vma, q)
    else
      let vma := mk_vma (vm_start vma) (vm_end vma) (vm_pgoff vma) true (Some i) in
      q ← myuvc_vm_open vma q;
      Some (ret, pages, vma, q).
End Mmap.

(** * The abstract queue

    What the queue promises: an ordered list of finished frames, each with the
    index of its buffer and its bytes, and the ordered list of buffers waiting
    for data, of which the first may have received some bytes already. *)

Record aqueue := mk_aqueue {
  a_count : nat;          (* buffers allocated *)
  a_limit : Z;            (* most bytes a frame can have *)
  a_ready : list (nat * mem);
  a_fill : list nat;
  a_active : bool;        (* the first of [a_fill] is receiving a frame *)
  a_cur : mem             (* the bytes it has received *)
}.

Definition a_new (n : nat) (limit : Z) : aqueue := mk_aqueue n limit [] [] false [].

(** All buffers the driver owns, oldest first. *)
Definition a_owned (a : aqueue) : list nat := (fst <$> a_ready a) ++ a_fill a.

Definition a_qbuf (i : nat) (a : aqueue) : option aqueue :=
  if bool_decide (i < a_count a)%nat && bool_decide (i ∉ a_owned a)
  then Some (mk_aqueue (a_count a) (a_limit a) (a_ready a) (a_fill a ++ [i])
               (a_active a) (a_cur a))
  else None.

Definition a_dqbuf (a : aqueue) : option (nat * mem * aqueue) :=
  match a_ready a with
  | [] => None
  | (i, frame) :: ready =>
      Some (i, frame, mk_aqueue (a_count a) (a_limit a) ready (a_fill a) (a_active a) (a_cur a))
  end.

(** * What a queue stands for *)

(** Where buffer [i] lies in the block and what its descriptor says. *)
Record geometry (bufsize limit : Z) (i : nat) (b : myuvc_buffer) : Prop := {
  ge_index : vb_index (buf b) = Z.of_nat i;
  ge_offset : vb_m (buf b) = Z.of_nat i * bufsize;
  ge_length : vb_length (buf b) = limit;
  ge_type : vb_type (buf b) = V4L2_BUF_TYPE_VIDEO_CAPTURE;
  ge_memory : vb_memory (buf b) = V4L2_MEMORY_MMAP;
  ge_flags : vb_flags (buf b) = 0
}.

(** The bytes of buffer [i] in the block are [data]. *)
Definition holds (m : mem) (bufsize : Z) (i : nat) (data : mem) : Prop :=
  mem_read m (Z.of_nat i * bufsize) (zlen data) = Some data.

(** The part buffer [i] plays. *)
Inductive buf_role (a : aqueue) (m : mem) (bufsize : Z) (i : nat) (b : myuvc_buffer) : Prop :=
  | role_ready data :
      (i, data) ∈ a_ready a -> state b = VIDEOBUF_DONE ->
      vb_bytesused (buf b) = zlen data -> holds m bufsize i data ->
      buf_role a m bufsize i b
  | role_head :
      head (a_fill a) = Some i ->
      state b = (if a_active a then VIDEOBUF_ACTIVE else VIDEOBUF_QUEUED) ->
      vb_bytesused (buf b) = zlen (a_cur a) -> holds m bufsize i (a_cur a) ->
      buf_role a m bufsize i b
  | role_fill :
      i ∈ tail (a_fill a) -> state b = VIDEOBUF_QUEUED -> vb_bytesused (buf b) = 0 ->
      buf_role a m bufsize i b
  | role_idle :
      i ∉ a_owned a -> state b = VIDEOBUF_IDLE -> buf_role a m bufsize i b.

(** The abstract queue is well formed. *)
Record a_wf (a : aqueue) : Prop := {
  aw_count : (0 < a_count a <= 32)%nat;
  aw_limit : 0 < a_limit a;
  aw_nodup : NoDup (a_owned a);
  aw_bound : forall i, i ∈ a_owned a -> (i < a_count a)%nat;
  aw_frames : Forall (fun f => 0 < zlen f.2 <= a_limit a) (a_ready a);
  aw_cur : zlen (a_cur a) <= a_limit a;
  aw_idle : a_active a = false -> a_cur a = [];
  aw_empty : a_fill a = [] -> a_active a = false
}.

Record queue_rel (q : myuvc_queue) (m : mem) (a : aqueue) : Prop := {
  qr_wf : a_wf a;
  qr_mem : q_mem q = Some m;
  qr_count : q_count q = Z.of_nat (a_count a);
  qr_len : length (q_buffer q) = 32%nat;
  qr_slack : a_limit a + 3 <= q_buf_size q;
  qr_page : (PAGE_SIZE | q_buf_size q);
  qr_fits : Z.of_nat (a_count a) * q_buf_size q <= zlen m;
  qr_small : Z.of_nat (a_count a) * q_buf_size q < 2 ^ 31;
  qr_main : q_mainqueue q = Some (a_owned a);
  qr_irq : q_irqqueue q = Some (a_fill a);
  qr_bufs : forall i, (i < a_count a)%nat -> exists b,
    q_buffer q !! i = Some b /\ geometry (q_buf_size q) (a_limit a) i b /\
    buf_role a m (q_buf_size q) i b
}.

(** A queue without buffers: as zeroed, apart from the URBs a stream without
    buffers may have set up. *)
Record queue_none (q : myuvc_queue) : Prop := {
  qn_mem : q_mem q = None;
  qn_count : q_count q = 0;
  qn_len : length (q_buffer q) = 32%nat;
  qn_main : q_mainqueue q = None;
  qn_irq : q_irqqueue q = None
}.

(** The invariant of the driver's queue. *)
Definition queue_inv (q : myuvc_queue) : Prop :=
  queue_none q \/ exists m a, queue_rel q m a.

(** ** Allocation *)

Lemma PAGE_ALIGN_spec x : 0 <= x -> x + 4095 < 2 ^ 32 ->
  PAGE_ALIGN x = (x + 4095) / 4096 * 4096.
Proof.
  intros. unfold PAGE_ALIGN, PAGE_SIZE. rewrite u32_small by (split; lia).
  change (4096 - 1) with 4095.
  transitivity (Z.shiftl (Z.shiftr (x + 4095) 12) 12).
  - change (u32 (Z.lnot 4095)) with (Z.shiftl (2 ^ 20 - 1) 12).
    transitivity (Z.shiftl (Z.shiftr ((x + 4095) mod 2 ^ 32) 12) 12).
    + change (2 ^ 20 - 1) with (Z.ones 20). bits_eq.
      * rewrite Z.ones_spec_low by lia. by rewrite andb_true_r; f_equal; lia.
      * rewrite Z.ones_spec_high by lia. by rewrite andb_false_r.
    + by rewrite Z.mod_small by lia.
  - rewrite Z.shiftl_mul_pow2, Z.shiftr_div_pow2 by lia. done.
Qed.

Lemma PAGE_ALIGN_bounds x : 0 <= x -> x + 4095 < 2 ^ 32 ->
  x <= PAGE_ALIGN x < x + 4096 /\ (PAGE_SIZE | PAGE_ALIGN x).
Proof.
  intros. rewrite PAGE_ALIGN_spec by done. split.
  - pose proof (Z.div_mod (x + 4095) 4096). pose proof (Z.mod_pos_bound (x + 4095) 4096). lia.
  - by exists ((x + 4095) / 4096).
Qed.

Lemma PAGE_ALIGN_id x : 0 <= x -> x + 4095 < 2 ^ 32 -> (PAGE_SIZE | x) -> PAGE_ALIGN x = x.
Proof.
  intros ? ? [k ->]. unfold PAGE_SIZE in *. rewrite PAGE_ALIGN_spec by done.
  rewrite Z.div_add_l by lia. change (4095 / 4096) with 0. lia.
Qed.

Lemma alloc_loop_Some vmalloc_32 n bufsize k m :
  alloc_loop vmalloc_32 n bufsize = Some (k, m) ->
  (0 < k <= n)%nat /\ vmalloc_32 (u32 (Z.of_nat k * bufsize)) = Some m.
Proof.
  induction n as [|n IH]; [done|]. cbn [alloc_loop].
  destruct (vmalloc_32 (u32 (Z.of_nat (S n) * bufsize))) eqn:E.
  - intros [= <- <-]. split; [lia | done].
  - intros H. destruct (IH H). split; [lia | done].
Qed.

Lemma init_buffers_lookup todo i sizeimage bufsize l :
  (i + todo <= length l)%nat ->
  exists l', init_buffers todo i sizeimage bufsize l = Some l' /\ length l' = length l /\
  forall j, l' !! j = (if bool_decide (i <= j < i + todo)%nat
                       then init_buffer sizeimage bufsize j <$> l !! j else l !! j).
Proof.
  revert i l. induction todo as [|todo IH]; intros i l Hl; cbn [init_buffers].
  - exists l. split_and!; [done..|]. intros j. by rewrite bool_decide_eq_false_2 by lia.
  - assert (is_Some (l !! i)) as [b Hb] by (apply lookup_lt_is_Some_2; lia). rewrite Hb. cbn [mbind option_bind].
    destruct (IH (S i) (<[i:=init_buffer sizeimage bufsize i b]> l)) as (l' & -> & Hlen & Hj).
    { rewrite length_insert. lia. }
    exists l'. rewrite length_insert in Hlen. split_and!; [done..|].
    intros j. rewrite Hj. destruct (decide (i = j)) as [<-|Hne].
    + rewrite bool_decide_eq_false_2, bool_decide_eq_true_2 by lia.
      rewrite list_lookup_insert_eq by lia. by rewrite Hb.
    + rewrite list_lookup_insert_ne by done. do 2 case_bool_decide; try done; lia.
Qed.

Lemma new_wf n limit : (0 < n <= 32)%nat -> 0 < limit -> a_wf (a_new n limit).
Proof.
  intros. split; cbn; try done; try (unfold zlen; cbn; lia).
  - constructor.
  - intros i Hi. by apply not_elem_of_nil in Hi.
Qed.

Lemma free_buffers_none q : queue_inv q -> exists q',
  myuvc_free_buffers q = (0, q') /\ queue_none q'.
Proof.
  intros [Hn|(m & a & Hr)]; unfold myuvc_free_buffers.
  - rewrite (qn_mem _ Hn). eauto.
  - rewrite (qr_mem _ _ _ Hr). exists zero_queue. by split.
Qed.

(** The block the allocation loop ends with, if any, makes a queue of idle
    buffers. *)
Lemma reqbufs_new n limit m q' l :
  (0 < n <= 32)%nat -> 0 < limit <= 2 ^ 25 -> limit + 3 <= PAGE_ALIGN limit ->
  zlen m = Z.of_nat n * PAGE_ALIGN limit ->
  init_buffers n 0 limit (PAGE_ALIGN limit) (replicate 32 zero_ubuf) = Some l ->
  q' = mk_queue (Some m) (Z.of_nat n) (PAGE_ALIGN limit) l
         (q_urb zero_queue) (q_urb_buffer zero_queue) 0
         Seq.INIT_LIST_HEAD Seq.INIT_LIST_HEAD ->
  queue_rel q' m (a_new n limit).
Proof.
  intros Hn Hlim Hsl Hm Hl ->.
  destruct (PAGE_ALIGN_bounds limit) as [[Hlo Hhi] Hdiv]; [lia..|].
  destruct (init_buffers_lookup n 0 limit (PAGE_ALIGN limit) (replicate 32 zero_ubuf))
    as (l' & El & Hlen & Hj); [rewrite length_replicate; lia|].
  rewrite Hl in El. injection El as <-. rewrite length_replicate in Hlen.
  split; cbn [q_mem q_count q_buf_size q_buffer q_mainqueue q_irqqueue a_count a_limit a_new];
    try done; try lia.
  - apply new_wf; lia.
  - nia.
  - intros i Hi. rewrite Hj, bool_decide_eq_true_2 by lia.
    rewrite lookup_replicate_2 by lia. eexists. split; [done|]. split.
    + split; cbn; try done. apply u32_small. split; nia.
    + apply role_idle; [by apply not_elem_of_nil | done].
Qed.

Lemma reqbufs_cases vmalloc_32 fmt p q :
  vmalloc_ok vmalloc_32 -> queue_inv q ->
  let limit := pix_sizeimage (fmt_pix fmt) in
  limit = 0 \/ 0 < limit <= 2 ^ 25 /\ limit + 3 <= PAGE_ALIGN limit ->
  0 <= rb_count p <= 32 ->
  exists ret q', myuvc_vidioc_reqbufs vmalloc_32 fmt p q = Some (ret, q') /\
    ((rb_count p = 0 /\ ret = 0 \/ 0 < rb_count p /\ ret = - ENOMEM) /\ queue_none q' \/
     exists n m, ret = Z.of_nat n /\ 0 < ret <= rb_count p /\ queue_rel q' m (a_new n limit)).
Proof.
  intros Hv Hinv limit Hlim Hc. unfold myuvc_vidioc_reqbufs. fold limit.
  destruct (free_buffers_none q Hinv) as (q0 & -> & Hn0).
  rewrite (s32_small (rb_count p)) by (unfold is_s32; lia).
  assert (s32 (PAGE_ALIGN limit) = PAGE_ALIGN limit) as ->.
  { destruct Hlim as [->|[? ?]]; [done|]. apply s32_small.
    destruct (PAGE_ALIGN_bounds limit) as [[? ?] _]; [lia..|]. unfold is_s32; lia. }
  change (0 <? 0) with false. cbv iota.
  case_if; bool_props; [by eauto 10|].
  destruct (alloc_loop _ _ _) as [[n m]|] eqn:Ea; [|exists (- ENOMEM), q0; split; [done|]; left; lia || eauto with lia].
  - apply alloc_loop_Some in Ea as [Hn Em]. apply Hv in Em as [Hpos Hm].
    destruct Hlim as [Hz|[Hlim Hsl]].
    { rewrite Hz in Hpos. change (PAGE_ALIGN 0) with 0 in Hpos. by rewrite Z.mul_0_r in Hpos. }
    destruct (PAGE_ALIGN_bounds limit) as [[Hlo Hhi] Hdiv]; [lia..|].
    assert (u32 (Z.of_nat n * PAGE_ALIGN limit) = Z.of_nat n * PAGE_ALIGN limit) as E
      by (apply u32_small; split; nia).
    rewrite E, PAGE_ALIGN_id in Hm; [|nia|nia|by apply Z.divide_mul_r].
    destruct (init_buffers_lookup n 0 limit (PAGE_ALIGN limit) (replicate 32 zero_ubuf))
      as (l & El & _); [rewrite length_replicate; lia|].
    change (q_buffer zero_queue) with (replicate 32 zero_ubuf). rewrite El.
    eexists _, _. split; [done|]. right. exists n, m. split; [done|]. split; [lia|].
    eapply reqbufs_new; eauto; lia.
Qed.

(** ** Queueing and dequeueing *)

Lemma owned_head a i : head (a_fill a) = Some i -> i ∈ a_owned a.
Proof.
  intros H. apply elem_of_app. right. destruct (a_fill a); [done|].
  injection H as ->. constructor.
Qed.

Lemma owned_tail a i : i ∈ tail (a_fill a) -> i ∈ a_owned a.
Proof.
  intros H. apply elem_of_app. right. destruct (a_fill a); [done|]. by constructor.
Qed.

Lemma owned_ready a i data : (i, data) ∈ a_ready a -> i ∈ a_owned a.
Proof. intros H. apply elem_of_app. left. by apply (list_elem_of_fmap_2 fst) in H. Qed.

(** A buffer is idle exactly when the driver does not own it. *)
Lemma role_idle_iff a m bs i b : buf_role a m bs i b ->
  state_eqb (state b) VIDEOBUF_IDLE = bool_decide (i ∉ a_owned a).
Proof.
  unfold state_eqb.
  intros [data Hr Hs _ _|Hh Hs _ _|Ht Hs _|Hn Hs]; rewrite Hs; symmetry.
  - apply bool_decide_eq_false_2. intros Hn. by eapply Hn, owned_ready.
  - rewrite bool_decide_eq_false_2 by (intros Hn; by apply Hn, owned_head).
    by destruct (a_active a).
  - apply bool_decide_eq_false_2. intros Hn. by apply Hn, owned_tail.
  - by apply bool_decide_eq_true_2.
Qed.

Lemma rel_count q m a : queue_rel q m a -> u32 (q_count q) = Z.of_nat (a_count a).
Proof.
  intros Hr. rewrite (qr_count _ _ _ Hr). apply u32_small.
  pose proof (aw_count _ (qr_wf _ _ _ Hr)). unfold is_u32. lia.
Qed.

(** The queue after one buffer and the two lists changed: the other buffers
    keep their part. *)
Lemma rel_change q m m' a a' i b b' bufs' :
  queue_rel q m a -> a_wf a' ->
  a_count a' = a_count a -> a_limit a' = a_limit a -> zlen m' = zlen m ->
  (i < a_count a)%nat -> q_buffer q !! i = Some b -> bufs' = <[i := b']> (q_buffer q) ->
  geometry (q_buf_size q) (a_limit a) i b' -> buf_role a' m' (q_buf_size q) i b' ->
  (forall j bj, j <> i -> (j < a_count a)%nat -> buf_role a m (q_buf_size q) j bj ->
     buf_role a' m' (q_buf_size q) j bj) ->
  queue_rel (mk_queue (Some m') (q_count q) (q_buf_size q) bufs' (q_urb q) (q_urb_buffer q)
               (q_urb_size q) (Some (a_owned a')) (Some (a_fill a'))) m' a'.
Proof.
  intros Hr Hwf Ec El Em Hi Hb -> Hg Hrole Hothers.
  split; cbn [q_mem q_count q_buf_size q_buffer q_mainqueue q_irqqueue]; rewrite ?Ec, ?El, ?Em;
    try apply Hr; try done.
  - rewrite length_insert. apply Hr.
  - intros j Hj. destruct (decide (j = i)) as [->|Hne].
    + exists b'. by rewrite list_lookup_insert_eq by (by eapply lookup_lt_Some).
    + destruct (qr_bufs _ _ _ Hr j Hj) as (bj & Hbj & Hgj & Hrj).
      exists bj. rewrite list_lookup_insert_ne by done. eauto.
Qed.

Lemma update_buf_Some q i f b : q_buffer q !! i = Some b ->
  update_buf i f q = Some (set_q_buffer (<[i := f b]> (q_buffer q)) q).
Proof. intros H. unfold update_buf. by rewrite H. Qed.

Lemma qbuf_wf a a' i : a_wf a -> a_qbuf i a = Some a' -> a_wf a'.
Proof.
  unfold a_qbuf. intros Hwf H. case_if_in H; [|done]. injection H as <-. bool_props.
  assert (a_owned (mk_aqueue (a_count a) (a_limit a) (a_ready a) (a_fill a ++ [i])
            (a_active a) (a_cur a)) = a_owned a ++ [i]) as E
    by (unfold a_owned; cbn; by rewrite app_assoc).
  split; rewrite ?E; try apply Hwf.
  - apply NoDup_snoc; [apply Hwf | done].
  - intros j. rewrite elem_of_app, list_elem_of_singleton. intros [Hj| ->]; [|done].
    by apply (aw_bound _ Hwf).
  - cbn. by destruct (a_fill a).
Qed.

Lemma qbuf_others a a' i m bs j b : a_wf a -> a_qbuf i a = Some a' -> j <> i ->
  buf_role a m bs j b -> buf_role a' m bs j b.
Proof.
  unfold a_qbuf. intros Hwf H Hne Hrole. case_if_in H; [|done]. injection H as <-. bool_props.
  destruct Hrole as [data Hr Hs Hu Hm|Hh Hs Hu Hm|Ht Hs Hu|Hn Hs].
  - by eapply role_ready.
  - eapply role_head; try done. cbn. by destruct (a_fill a).
  - apply role_fill; try done. cbn. destruct (a_fill a); [done|]. cbn in *.
    apply elem_of_app. by left.
  - apply role_idle; [|done]. unfold a_owned in *. cbn.
    rewrite !elem_of_app, list_elem_of_singleton in *. naive_solver.
Qed.

Lemma holds_nil q m a i : queue_rel q m a -> (i < a_count a)%nat -> holds m (q_buf_size q) i [].
Proof.
  intros Hr Hi. unfold holds. change (zlen []) with 0.
  pose proof (qr_slack _ _ _ Hr). pose proof (qr_fits _ _ _ Hr).
  pose proof (aw_limit _ (qr_wf _ _ _ Hr)).
  apply mem_read_zero; nia.
Qed.

(** Queueing a buffer succeeds exactly when the application passes an index in
    range, the right type and memory, and a buffer it owns. *)
Lemma qbuf_rel q m a v : queue_rel q m a -> 0 <= vb_index v ->
  match (if (vb_type v =? V4L2_BUF_TYPE_VIDEO_CAPTURE) && (vb_memory v =? V4L2_MEMORY_MMAP)
         then a_qbuf (Z.to_nat (vb_index v)) a else None) with
  | Some a' => exists q', myuvc_vidioc_qbuf v q = Some (0, q') /\ queue_rel q' m a'
  | None => myuvc_vidioc_qbuf v q = Some (- EINVAL, q)
  end.
Proof.
  intros Hr Hv. unfold myuvc_vidioc_qbuf. set (i := Z.to_nat (vb_index v)).
  destruct (vb_type v =? _); [|done]. destruct (vb_memory v =? _); [|done]. cbn [negb orb andb].
  rewrite (rel_count _ _ _ Hr).
  destruct (decide (i < a_count a)%nat) as [Hi|Hi].
  2:{ unfold a_qbuf. rewrite bool_decide_eq_false_2 by done. cbn [andb].
      destruct (_ >=? _) eqn:E; [done|]. bool_props. lia. }
  destruct (_ >=? _) eqn:E; bool_props; [lia|]. clear E.
  destruct (qr_bufs _ _ _ Hr i Hi) as (b & Hb & Hg & Hrole). rewrite Hb.
  cbn [mbind option_bind]. rewrite (role_idle_iff _ _ _ _ _ Hrole).
  destruct (a_qbuf i a) as [a'|] eqn:Ea.
  2:{ unfold a_qbuf in Ea. rewrite bool_decide_eq_true_2 in Ea by done.
      cbn [andb] in Ea. by destruct (bool_decide _). }
  assert (Hwf' := qbuf_wf _ _ _ (qr_wf _ _ _ Hr) Ea).
  assert (Hoth := fun m bs j b => qbuf_others a a' i m bs j b (qr_wf _ _ _ Hr) Ea).
  unfold a_qbuf in Ea. case_if_in Ea; [|done]. bool_props.
  rewrite bool_decide_eq_true_2 by done. cbn [negb].
  rewrite (update_buf_Some _ _ _ _ Hb). cbn [mbind option_bind].
  rewrite (update_buf_Some _ _ _ (set_state VIDEOBUF_QUEUED b))
    by (cbn; rewrite list_lookup_insert_eq; [done | by eapply lookup_lt_Some]).
  cbn [mbind option_bind q_mainqueue q_irqqueue set_q_buffer set_q_mainqueue set_q_irqqueue].
  rewrite (qr_main _ _ _ Hr), Seq.list_add_tail_fresh by done. cbn [mbind option_bind].
  rewrite (qr_irq _ _ _ Hr), Seq.list_add_tail_fresh
    by (intros Hn; apply H0, elem_of_app; by right). cbn [mbind option_bind].
  eexists. split; [done|].
  assert (a_owned a ++ [i] = a_owned a') as -> by (injection Ea as <-; unfold a_owned; cbn; by rewrite app_assoc).
  assert (a_fill a ++ [i] = a_fill a') as -> by (by injection Ea as <-).
  unfold set_q_irqqueue, set_q_mainqueue, set_q_buffer; cbn. rewrite (qr_mem _ _ _ Hr).
  eapply (rel_change q m m a a' i b (set_bytesused 0 (set_state VIDEOBUF_QUEUED b)));
    eauto; try (by injection Ea as <-).
  - by rewrite list_insert_insert_eq.
  - destruct Hg. by split.
  - destruct (a_fill a) as [|h t] eqn:Ef.
    + assert (Hact := aw_empty _ (qr_wf _ _ _ Hr) Ef).
      assert (Hcur := aw_idle _ (qr_wf _ _ _ Hr) Hact).
      injection Ea as <-. apply role_head; cbn; rewrite ?Ef, ?Hact, ?Hcur; try done.
      by eapply holds_nil.
    + injection Ea as <-. apply role_fill; cbn; rewrite ?Ef; try done.
      apply elem_of_app. right. by apply list_elem_of_singleton.
Qed.

(** The state of the first buffer of the main queue. *)
Lemma rel_first q m a i : queue_rel q m a -> head (a_owned a) = Some i ->
  exists b, q_buffer q !! i = Some b /\ (i < a_count a)%nat /\
  geometry (q_buf_size q) (a_limit a) i b /\
  match a_ready a with
  | [] => (state b = VIDEOBUF_QUEUED \/ state b = VIDEOBUF_ACTIVE)
  | (j, frame) :: _ => j = i /\ state b = VIDEOBUF_DONE /\
      vb_bytesused (buf b) = zlen frame /\ holds m (q_buf_size q) i frame
  end.
Proof.
  intros Hr Hh.
  assert (i ∈ a_owned a) as Hin by (destruct (a_owned a); [done|]; injection Hh as ->; constructor).
  assert (Hi := aw_bound _ (qr_wf _ _ _ Hr) _ Hin).
  destruct (qr_bufs _ _ _ Hr i Hi) as (b & Hb & Hg & Hrole). exists b. split_and!; try done.
  assert (Hnd := aw_nodup _ (qr_wf _ _ _ Hr)). unfold a_owned in *.
  destruct (a_ready a) as [|[j frame] ready] eqn:Er; cbn in Hh, Hnd.
  - destruct Hrole as [data Hd _ _ _|_ Hs _ _|Ht Hs _|Hn _].
    + rewrite Er in Hd. by apply not_elem_of_nil in Hd.
    + destruct (a_active a); auto.
    + auto.
    + unfold a_owned in Hn. rewrite Er in Hn. done.
  - injection Hh as ->. apply NoDup_cons in Hnd as [Hni _].
    rewrite not_elem_of_app in Hni. destruct Hni as [Hn1 Hn2].
    destruct Hrole as [data Hd Hs Hu Hm|Hf _ _ _|Ht _ _|Hn _].
    + rewrite Er in Hd. apply elem_of_cons in Hd as [[= ->]|Hd]; [done|].
      by apply (list_elem_of_fmap_2 fst) in Hd.
    + destruct (a_fill a); [done|]. injection Hf as ->. destruct Hn2. constructor.
    + destruct (a_fill a); [done|]. destruct Hn2. by constructor.
    + destruct Hn. unfold a_owned. rewrite Er. constructor.
Qed.

Lemma dqbuf_wf a i frame a' : a_wf a -> a_dqbuf a = Some (i, frame, a') ->
  a_wf a' /\ a_owned a = i :: a_owned a' /\ i ∉ a_owned a'.
Proof.
  unfold a_dqbuf. intros Hwf H. assert (Hnd := aw_nodup _ Hwf). assert (Hb := aw_bound _ Hwf).
  assert (Hf := aw_frames _ Hwf). unfold a_owned in *.
  destruct (a_ready a) as [|[j f] ready] eqn:E; [done|]. injection H as <- <- <-. cbn in *.
  apply NoDup_cons in Hnd as [Hni Hnd]. apply Forall_cons in Hf as [_ Hf].
  split_and!; try done. split; cbn; try apply Hwf; try done.
  intros k Hk. apply Hb. by constructor.
Qed.

Lemma dqbuf_others a i frame a' m bs j b : a_dqbuf a = Some (i, frame, a') -> j <> i ->
  buf_role a m bs j b -> buf_role a' m bs j b.
Proof.
  unfold a_dqbuf. intros H Hne Hrole.
  destruct (a_ready a) as [|[k f] ready] eqn:E; [done|]. injection H as <- <- <-.
  destruct Hrole as [data Hr Hs Hu Hm|Hh Hs Hu Hm|Ht Hs Hu|Hn Hs].
  - eapply role_ready; try done. cbn. rewrite E in Hr.
    apply elem_of_cons in Hr as [[= -> _]|Hr]; [done|apply Hr].
  - by apply role_head.
  - by apply role_fill.
  - apply role_idle; [|done]. unfold a_owned in *. rewrite E in Hn. cbn in *.
    intros Hin. apply Hn. by constructor.
Qed.

(** Dequeueing gives the oldest finished frame, or fails and changes nothing
    when there is none. *)
Lemma dqbuf_rel q m a v : queue_rel q m a ->
  match a_dqbuf a with
  | Some (i, frame, a') => exists d q',
      myuvc_vidioc_dqbuf v q = Some (0, d, q') /\
      vb_index d = Z.of_nat i /\ vb_bytesused d = zlen frame /\
      mem_read m (vb_m d) (vb_bytesused d) = Some frame /\ queue_rel q' m a'
  | None => myuvc_vidioc_dqbuf v q = Some (- EINVAL, v, q)
  end.
Proof.
  intros Hr. unfold myuvc_vidioc_dqbuf. rewrite (qr_main _ _ _ Hr).
  destruct (a_owned a) as [|i0 rest] eqn:Eo.
  { unfold a_dqbuf. unfold a_owned in Eo. by destruct (a_ready a) as [|[]]. }
  cbn [Seq.list_empty Seq.list_first_entry mbind option_bind].
  destruct (rel_first q m a i0 Hr) as (b & Hb & Hi & Hg & Hst); [by rewrite Eo|].
  rewrite Hb. cbn [mbind option_bind].
  destruct (a_dqbuf a) as [[[i frame] a']|] eqn:Ed.
  2:{ unfold a_dqbuf in Ed. destruct (a_ready a) as [|[]]; [|done].
      by destruct Hst as [-> | ->]. }
  destruct (dqbuf_wf _ _ _ _ (qr_wf _ _ _ Hr) Ed) as (Hwf' & Eo' & Hni).
  rewrite Eo in Eo'. injection Eo' as -> ->.
  assert (exists ready, a_ready a = (i, frame) :: ready) as [ready Er].
  { unfold a_dqbuf in Ed. destruct (a_ready a) as [|[] r]; [done|]. injection Ed as -> -> _. eauto. }
  rewrite Er in Hst. destruct Hst as (_ & -> & Hu & Hm).
  rewrite (update_buf_Some _ _ _ _ Hb). cbn [mbind option_bind q_mainqueue set_q_buffer].
  rewrite (qr_main _ _ _ Hr), Eo, Seq.list_del_head by done. cbn [mbind option_bind].
  eexists _, _. split; [done|]. split_and!; [apply Hg | done | |].
  { rewrite (ge_offset _ _ _ _ Hg), Hu. apply Hm. }
  unfold set_q_mainqueue, set_q_buffer; cbn. rewrite (qr_mem _ _ _ Hr), (qr_irq _ _ _ Hr).
  assert (a_fill a = a_fill a') as ->.
  { unfold a_dqbuf in Ed. rewrite Er in Ed. by injection Ed as <-. }
  eapply (rel_change q m m a a' i b (set_state VIDEOBUF_IDLE b)); eauto;
    try (unfold a_dqbuf in Ed; rewrite Er in Ed; by injection Ed as <-).
  - destruct Hg. by split.
  - by apply role_idle.
  - intros. by eapply dqbuf_others.
Qed.

(** What [poll] reports. *)
Lemma poll_rel q m a : queue_rel q m a ->
  myuvc_poll q = Some (match a_ready a, a_fill a with
                       | _ :: _, _ => Z.lor POLLIN POLLRDNORM
                       | [], _ :: _ => 0
                       | [], [] => POLLERR
                       end).
Proof.
  intros Hr. unfold myuvc_poll. rewrite (qr_main _ _ _ Hr).
  destruct (a_owned a) as [|i rest] eqn:Eo.
  { unfold a_owned in Eo. apply app_eq_nil in Eo as [E1%fmap_nil_inv ->]. by rewrite E1. }
  cbn [Seq.list_empty Seq.list_first_entry mbind option_bind].
  destruct (rel_first q m a i Hr) as (b & -> & _ & _ & Hst); [by rewrite Eo|].
  cbn [mbind option_bind]. unfold a_owned in Eo.
  destruct (a_ready a) as [|[j f] ready].
  - cbn in Eo. rewrite Eo. by destruct Hst as [-> | ->].
  - by destruct Hst as (_ & -> & _).
Qed.

(** ** Descriptors *)

(** The flags [VIDIOC_QUERYBUF] reports for a buffer. *)
Definition buf_flags (a : aqueue) (mapped : bool) (i : nat) : Z :=
  Z.lor (if mapped then V4L2_BUF_FLAG_MAPPED else 0)
    (if bool_decide (i ∈ (fst <$> a_ready a)) then V4L2_BUF_FLAG_DONE
     else if bool_decide (i ∈ a_fill a) then V4L2_BUF_FLAG_QUEUED else 0).

Lemma role_flags a m bs i b : a_wf a -> buf_role a m bs i b ->
  (if bool_decide (i ∈ (fst <$> a_ready a)) then V4L2_BUF_FLAG_DONE
   else if bool_decide (i ∈ a_fill a) then V4L2_BUF_FLAG_QUEUED else 0) =
  match state b with
  | VIDEOBUF_ERROR | VIDEOBUF_DONE => V4L2_BUF_FLAG_DONE
  | VIDEOBUF_QUEUED | VIDEOBUF_ACTIVE => V4L2_BUF_FLAG_QUEUED
  | _ => 0
  end.
Proof.
  intros Hwf Hrole. assert (Hnd := aw_nodup _ Hwf). apply NoDup_app in Hnd as (_ & Hd & _).
  assert (i ∈ a_fill a -> i ∉ (fst <$> a_ready a)) as Hnr by (intros H1 H2; by eapply Hd).
  destruct Hrole as [data Hr -> _ _|Hh -> _ _|Ht -> _|Hn ->].
  - rewrite bool_decide_eq_true_2; [done|]. by apply (list_elem_of_fmap_2 fst) in Hr.
  - assert (i ∈ a_fill a) by (destruct (a_fill a); [done|]; injection Hh as ->; constructor).
    rewrite bool_decide_eq_false_2, bool_decide_eq_true_2 by auto. by destruct (a_active a).
  - assert (i ∈ a_fill a) by (destruct (a_fill a); [done|]; by constructor).
    by rewrite bool_decide_eq_false_2, bool_decide_eq_true_2 by auto.
  - unfold a_owned in Hn. rewrite not_elem_of_app in Hn. destruct Hn.
    by rewrite !bool_decide_eq_false_2.
Qed.

Lemma querybuf_rel q m a v : queue_rel q m a -> 0 <= vb_index v ->
  if vb_index v <? Z.of_nat (a_count a) then
    exists b d, q_buffer q !! Z.to_nat (vb_index v) = Some b /\
      myuvc_vidioc_querybuf v q = Some (0, d) /\
      vb_index d = vb_index v /\ vb_m d = vb_index v * q_buf_size q /\
      vb_length d = a_limit a /\ vb_bytesused d = vb_bytesused (buf b) /\
      vb_flags d = buf_flags a (truth (vma_use_count b)) (Z.to_nat (vb_index v))
  else myuvc_vidioc_querybuf v q = Some (- EINVAL, v).
Proof.
  intros Hr Hv. unfold myuvc_vidioc_querybuf. rewrite (rel_count _ _ _ Hr).
  destruct (Z.ltb_spec (vb_index v) (Z.of_nat (a_count a))) as [Hlt|Hge].
  2:{ rewrite Z.geb_leb. by destruct (Z.leb_spec (Z.of_nat (a_count a)) (vb_index v)); [|lia]. }
  rewrite Z.geb_leb. destruct (Z.leb_spec (Z.of_nat (a_count a)) (vb_index v)); [lia|].
  destruct (qr_bufs _ _ _ Hr (Z.to_nat (vb_index v))) as (b & Hb & Hg & Hrole); [lia|].
  rewrite Hb. cbn [mbind option_bind].
  rewrite (ge_index _ _ _ _ Hg), Nat2Z.id, Hb. cbn [mbind option_bind].
  unfold buf_flags. rewrite (role_flags _ _ _ _ _ (qr_wf _ _ _ Hr) Hrole).
  destruct Hg as [Hgi Hgo Hgl _ _ Hgf]. rewrite Z2Nat.id in Hgi, Hgo by done.
  exists b. eexists. split; [done|]. split; [done|].
  destruct (truth (vma_use_count b)), (state b); cbn; rewrite ?Hgf; auto 10.
Qed.

(** ** Mapping a buffer *)

Lemma find_offset_rel q m a i : queue_rel q m a -> (i < a_count a)%nat ->
  forall todo i0, (i0 + todo)%nat = a_count a -> (i0 <= i)%nat ->
  find_offset todo i0 (Z.of_nat i * q_buf_size q / PAGE_SIZE) (q_buffer q) = Some i.
Proof.
  intros Hr Hi. destruct (qr_page _ _ _ Hr) as [k Hk]. unfold PAGE_SIZE in *.
  assert (0 < k) by (pose proof (qr_slack _ _ _ Hr); pose proof (aw_limit _ (qr_wf _ _ _ Hr)); lia).
  induction todo as [|todo IH]; intros i0 Hsum Hle; [lia|]. cbn [find_offset].
  destruct (qr_bufs _ _ _ Hr i0) as (b & -> & Hg & _); [lia|]. cbn [mbind option_bind].
  rewrite (ge_offset _ _ _ _ Hg), Z.shiftr_div_pow2 by done.
  change (2 ^ PAGE_SHIFT) with 4096.
  rewrite Hk, !Z.mul_assoc, !Z.div_mul by done. case_if; bool_props; [f_equal; nia|].
  destruct (decide (i0 = i)) as [->|]; [done|]. rewrite <- (Z.div_mul (Z.of_nat i * k) 4096) by done.
  rewrite <- Z.mul_assoc, <- Hk. apply IH; lia.
Qed.

Lemma find_offset_none q m a pgoff : queue_rel q m a ->
  (forall i, (i < a_count a)%nat -> pgoff <> Z.of_nat i * q_buf_size q / PAGE_SIZE) ->
  forall todo i0, (i0 + todo)%nat = a_count a ->
  find_offset todo i0 pgoff (q_buffer q) = Some (a_count a).
Proof.
  intros Hr Hno. induction todo as [|todo IH]; intros i0 Hsum; cbn [find_offset]; [f_equal; lia|].
  destruct (qr_bufs _ _ _ Hr i0) as (b & -> & Hg & _); [lia|]. cbn [mbind option_bind].
  rewrite (ge_offset _ _ _ _ Hg), Z.shiftr_div_pow2 by done.
  case_if; bool_props; [|apply IH; lia]. exfalso. eapply (Hno i0); [lia|]. symmetry. done.
Qed.

(** The pages of buffer [i], at consecutive user addresses. *)
Definition buf_pages (start addr : Z) (k : nat) : list (Z * Z) :=
  (fun j => (start + Z.of_nat j * PAGE_SIZE, addr + Z.of_nat j * PAGE_SIZE)) <$> seq 0 k.

Lemma buf_pages_S start addr k :
  buf_pages start addr (S k) =
  (start, addr) :: buf_pages (start + PAGE_SIZE) (addr + PAGE_SIZE) k.
Proof.
  unfold buf_pages. cbn [seq]. rewrite fmap_cons, <- fmap_S_seq, <- list_fmap_compose.
  f_equal; [f_equal; lia|]. apply list_fmap_ext. intros _ j _. cbn. f_equal; lia.
Qed.

Lemma byte_at_in m i : 0 <= i < zlen m -> is_Some (byte_at m i).
Proof.
  intros Hi. unfold byte_at, zlen in *. case_if; bool_props; [|lia].
  apply lookup_lt_is_Some_2. lia.
Qed.

Lemma map_pages_all vm_insert_page m k : (forall x, vm_insert_page x = 0) ->
  forall fuel start addr acc, (k < fuel)%nat -> 0 <= addr -> 0 <= start ->
  addr + Z.of_nat k * PAGE_SIZE <= zlen m -> start + Z.of_nat k * PAGE_SIZE < 2 ^ 32 ->
  map_pages vm_insert_page fuel m 0 start addr (Z.of_nat k * PAGE_SIZE) acc =
  Some (0, acc ++ buf_pages start addr k).
Proof.
  intros Hins. unfold PAGE_SIZE.
  induction k as [|k IH]; intros fuel start addr acc Hf Ha Hs Hm Hw;
    (destruct fuel as [|fuel]; [lia|]); cbn [map_pages].
  - by rewrite app_nil_r.
  - rewrite Z.gtb_ltb. destruct (Z.ltb_spec 0 (Z.of_nat (S k) * 4096)); [|lia].
    destruct (byte_at_in m addr) as [x ->]; [lia|]. cbn [mbind option_bind]. rewrite Hins.
    change (0 <? 0) with false. cbv iota. unfold PAGE_SIZE.
    rewrite (u32_small (start + 4096)) by (split; lia).
    replace (u32 (Z.of_nat (S k) * 4096 - 4096)) with (Z.of_nat k * 4096)
      by (rewrite u32_small by (split; lia); lia).
    rewrite IH by lia. by rewrite buf_pages_S, <- app_assoc.
Qed.

(** Whatever the pages are answered with, the loop ends. *)
Lemma map_pages_total vm_insert_page m k : forall fuel ret start addr acc, (k < fuel)%nat -> 0 <= addr ->
  addr + Z.of_nat k * PAGE_SIZE <= zlen m -> Z.of_nat k * PAGE_SIZE < 2 ^ 32 ->
  exists r, map_pages vm_insert_page fuel m ret start addr (Z.of_nat k * PAGE_SIZE) acc = Some r.
Proof.
  unfold PAGE_SIZE. induction k as [|k IH]; intros fuel ret start addr acc Hf Ha Hm Hw;
    (destruct fuel as [|fuel]; [lia|]); cbn [map_pages]; [by eexists|].
  rewrite Z.gtb_ltb. destruct (Z.ltb_spec 0 (Z.of_nat (S k) * 4096)); [|lia].
  destruct (byte_at_in m addr) as [x ->]; [lia|]. cbn [mbind option_bind]. case_if; [by eexists|].
  unfold PAGE_SIZE. replace (u32 (Z.of_nat (S k) * 4096 - 4096)) with (Z.of_nat k * 4096)
    by (rewrite u32_small by (split; lia); lia).
  apply IH; lia.
Qed.

Lemma open_rel q m a i : queue_rel q m a -> (i < a_count a)%nat -> exists q',
  update_buf i (fun b => set_use_count (vma_use_count b + 1) b) q = Some q' /\ queue_rel q' m a.
Proof.
  intros Hr Hi. destruct (qr_bufs _ _ _ Hr i Hi) as (b & Hb & Hg & Hrole).
  rewrite (update_buf_Some _ _ _ _ Hb). eexists. split; [done|].
  unfold set_q_buffer. rewrite (qr_mem _ _ _ Hr), (qr_main _ _ _ Hr), (qr_irq _ _ _ Hr).
  eapply (rel_change q m m a a i b); eauto; try apply Hr.
  - destruct Hg. by split.
  - destruct Hrole; [eapply role_ready | eapply role_head | eapply role_fill | eapply role_idle]; eauto.
Qed.

Lemma find_offset_total q m a pgoff : queue_rel q m a ->
  forall todo i0, (i0 + todo)%nat = a_count a ->
  exists j, find_offset todo i0 pgoff (q_buffer q) = Some j.
Proof.
  intros Hr. induction todo as [|todo IH]; intros i0 Hsum; cbn [find_offset]; [eauto|].
  destruct (qr_bufs _ _ _ Hr i0) as (b & -> & _); [lia|]. cbn [mbind option_bind].
  case_if; [eauto|]. apply IH. lia.
Qed.

Lemma buf_pages_inside start i bs : 0 < bs -> (PAGE_SIZE | bs) ->
  Forall (fun p => Z.of_nat i * bs <= p.2 /\ p.2 + PAGE_SIZE <= (Z.of_nat i + 1) * bs)
    (buf_pages start (Z.of_nat i * bs) (Z.to_nat (bs / PAGE_SIZE))).
Proof.
  intros Hbs [k ->]. unfold PAGE_SIZE in *. rewrite Z.div_mul by done.
  unfold buf_pages, PAGE_SIZE. apply Forall_fmap, Forall_forall.
  intros j Hj%elem_of_seq. cbn. nia.
Qed.

Lemma mmap_rel vm_insert_page vma q m a :
  queue_rel q m a -> (forall x, vm_insert_page x = 0) ->
  0 <= vm_start vma <= vm_end vma -> vm_end vma < 2 ^ 32 ->
  (forall i, (i < a_count a)%nat ->
     vm_pgoff vma = Z.of_nat i * q_buf_size q / PAGE_SIZE ->
     vm_end vma - vm_start vma = q_buf_size q ->
     exists pages vma' q',
       myuvc_mmap vm_insert_page vma q = Some (0, pages, vma', q') /\
       pages = buf_pages (vm_start vma) (Z.of_nat i * q_buf_size q)
                 (Z.to_nat (q_buf_size q / PAGE_SIZE)) /\
       Forall (fun p => Z.of_nat i * q_buf_size q <= p.2 /\
                        p.2 + PAGE_SIZE <= (Z.of_nat i + 1) * q_buf_size q) pages /\
       vm_private_data vma' = Some i /\ queue_rel q' m a) /\
  ((forall i, (i < a_count a)%nat -> vm_pgoff vma <> Z.of_nat i * q_buf_size q / PAGE_SIZE) \/
   vm_end vma - vm_start vma <> q_buf_size q ->
   myuvc_mmap vm_insert_page vma q = Some (- EINVAL, [], vma, q)).
Proof.
  intros Hr Hins Hs He. unfold myuvc_mmap.
  assert (Hbs := qr_slack _ _ _ Hr). assert (Hlim := aw_limit _ (qr_wf _ _ _ Hr)).
  assert (Hcnt := aw_count _ (qr_wf _ _ _ Hr)). assert (Hsm := qr_small _ _ _ Hr).
  assert (Hfit := qr_fits _ _ _ Hr).
  rewrite (u32_small (_ - _)) by (split; lia). rewrite (u32_small (q_buf_size q)) by (split; nia).
  rewrite (qr_count _ _ _ Hr), Nat2Z.id. split.
  - intros i Hi Hpg Hsz. rewrite Hpg, Hsz.
    rewrite (find_offset_rel q m a i Hr Hi) by lia. cbn [mbind option_bind].
    rewrite Z.eqb_refl. destruct (Z.eqb_spec (Z.of_nat i) (Z.of_nat (a_count a))); [lia|].
    cbn [orb negb]. destruct (qr_bufs _ _ _ Hr i Hi) as (b & -> & Hg & _).
    cbn [mbind option_bind]. rewrite (qr_mem _ _ _ Hr). cbn [mbind option_bind vm_start].
    rewrite (ge_offset _ _ _ _ Hg).
    destruct (qr_page _ _ _ Hr) as [k Hk].
    assert (q_buf_size q / PAGE_SIZE = k) as Ek by (rewrite Hk; by apply Z.div_mul).
    rewrite Ek. assert (0 <= k) by (unfold PAGE_SIZE in Hk; lia).
    pose proof (map_pages_all vm_insert_page m (Z.to_nat k) Hins (S (Z.to_nat (q_buf_size q)))
                  (vm_start vma) (Z.of_nat i * q_buf_size q) []) as Hmap.
    rewrite Z2Nat.id, <- Hk in Hmap by done.
    rewrite Hmap by (unfold PAGE_SIZE in *; nia). clear Hmap.
    cbn [mbind option_bind]. change (0 <? 0) with false. cbv iota.
    unfold myuvc_vm_open. cbn [vm_private_data mbind option_bind].
    destruct (open_rel q m a i Hr Hi) as (q' & -> & Hr').
    eexists _, _, q'. cbn [mbind option_bind]. split; [done|]. split; [done|].
    split; [|done]. rewrite <- Ek. apply buf_pages_inside; [lia | apply Hr].
  - intros [Hno|Hsz].
    + rewrite (find_offset_none q m a _ Hr Hno) by lia. cbn [mbind option_bind].
      by rewrite Z.eqb_refl.
    + destruct (find_offset_total q m a (vm_pgoff vma) Hr (a_count a) 0) as [j ->]; [lia|].
      cbn [mbind option_bind].
      destruct (Z.eqb_spec (vm_end vma - vm_start vma) (q_buf_size q)); [done|].
      by rewrite orb_true_r.
Qed.

(** * Properties *)

(** C19. [VIDIOC_REQBUFS] for at most 32 buffers never faults, whatever the queue
    held before: no buffers requested frees them and returns 0, an allocator
    that refuses every size gives [-ENOMEM] and a queue without buffers, and
    otherwise the result is the number of buffers, all idle, at distinct page
    aligned places of one block. Before a format is set ([sizeimage] is 0) the
    request can only fail. *)
Theorem reqbufs_spec vmalloc_32 fmt p q :
  vmalloc_ok vmalloc_32 -> queue_inv q ->
  let limit := pix_sizeimage (fmt_pix fmt) in
  limit = 0 \/ 0 < limit <= 2 ^ 25 /\ limit + 3 <= PAGE_ALIGN limit ->
  0 <= rb_count p <= 32 ->
  exists ret q', myuvc_vidioc_reqbufs vmalloc_32 fmt p q = Some (ret, q') /\
    ((rb_count p = 0 /\ ret = 0 \/ 0 < rb_count p /\ ret = - ENOMEM) /\ queue_none q' \/
     exists n m, ret = Z.of_nat n /\ 0 < ret <= rb_count p /\ queue_rel q' m (a_new n limit)).
Proof. apply reqbufs_cases. Qed.

(** An allocator with 16 KiB left, and one with everything. *)
Definition small_vmalloc (n : Z) : option mem :=
  if (0 <? n) && (n <=? 16384) then Some (replicate (Z.to_nat (PAGE_ALIGN n)) 0) else None.

Lemma small_vmalloc_ok : vmalloc_ok small_vmalloc.
Proof.
  intros n m. unfold small_vmalloc. case_if; [|done]. bool_props. intros [= <-].
  split; [lia|]. unfold zlen. rewrite length_replicate.
  destruct (PAGE_ALIGN_bounds n) as [? _]; lia.
Qed.

Definition sample_format : v4l2_format :=
  mk_format V4L2_BUF_TYPE_VIDEO_CAPTURE (mk_pix 320 240 V4L2_PIX_FMT_MJPEG 1 0 8000 8 0).

Lemma zero_queue_inv : queue_inv zero_queue.
Proof. by left. Qed.

Lemma reqbufs_spec_witness :
  exists ret q', myuvc_vidioc_reqbufs small_vmalloc sample_format
    (mk_reqbufs 4 1 1) zero_queue = Some (ret, q') /\
    ((4 = 0 /\ ret = 0 \/ 0 < 4 /\ ret = - ENOMEM) /\ queue_none q' \/
     exists n m, ret = Z.of_nat n /\ 0 < ret <= 4 /\ queue_rel q' m (a_new n 8000)).
Proof.
  apply (reqbufs_spec small_vmalloc sample_format (mk_reqbufs 4 1 1) zero_queue
           small_vmalloc_ok zero_queue_inv).
  - right. split; [cbn; lia|]. vm_compute. discriminate.
  - cbn. lia.
Defined.

(** The count is not limited to the 32 entries of the buffer array: when the
    allocator grants more than 32 buffers, initialising them writes outside the
    array. *)
Theorem reqbufs_overrun vmalloc_32 fmt p q m :
  32 < s32 (rb_count p) ->
  vmalloc_32 (u32 (s32 (rb_count p) * s32 (PAGE_ALIGN (pix_sizeimage (fmt_pix fmt))))) = Some m ->
  myuvc_vidioc_reqbufs vmalloc_32 fmt p q = None.
Proof.
  intros Hn Hm. unfold myuvc_vidioc_reqbufs.
  assert (exists q', myuvc_free_buffers q = (0, q')) as [q' ->]
    by (unfold myuvc_free_buffers; destruct (q_mem q); eauto).
  change (0 <? 0) with false. cbv iota. destruct (_ =? 0) eqn:E; bool_props; [lia|].
  set (k := Z.to_nat (s32 (rb_count p))) in *.
  set (bs := s32 (PAGE_ALIGN (pix_sizeimage (fmt_pix fmt)))) in *.
  replace (s32 (rb_count p)) with (Z.of_nat k) in Hm by lia.
  assert (32 < k)%nat as Hk by lia. clearbody k bs.
  assert (alloc_loop vmalloc_32 k bs = Some (k, m)) as ->
    by (destruct k; [lia|]; cbn [alloc_loop]; by rewrite Hm).
  apply bind_None. left. change (q_buffer zero_queue) with (replicate 32 zero_ubuf).
  assert (forall todo i l, length l = 32%nat -> (i <= 32)%nat -> (32 < i + todo)%nat ->
            init_buffers todo i (pix_sizeimage (fmt_pix fmt)) bs l = None) as Hover.
  { induction todo as [|todo IH]; intros i l Hl Hi Ht; [lia|]. cbn [init_buffers].
    destruct (l !! i) as [b|] eqn:Eb; [|done]. cbn [mbind option_bind].
    apply lookup_lt_Some in Eb. apply IH; rewrite ?length_insert; lia. }
  apply Hover; [done|lia|lia].
Qed.

Lemma reqbufs_overrun_witness :
  myuvc_vidioc_reqbufs (fun n => Some (replicate (Z.to_nat n) 0)) sample_format
    (mk_reqbufs 33 1 1) zero_queue = None.
Proof.
  apply (reqbufs_overrun (fun n => Some (replicate (Z.to_nat n) 0)) sample_format
           (mk_reqbufs 33 1 1) zero_queue
           (replicate (Z.to_nat (u32 (s32 33 * s32 (PAGE_ALIGN 8000)))) 0)).
  - reflexivity.
  - reflexivity.
Defined.

(** A queue of two buffers of one page. *)
Definition sample_mem : mem := replicate (Z.to_nat 8192) 0.
Definition sample_bufs : list myuvc_buffer :=
  default [] (init_buffers 2 0 100 4096 (replicate 32 zero_ubuf)).
Definition sample_queue : myuvc_queue :=
  mk_queue (Some sample_mem) 2 4096 sample_bufs (replicate 32 None) (replicate 32 None) 0
    Seq.INIT_LIST_HEAD Seq.INIT_LIST_HEAD.

Lemma sample_rel : queue_rel sample_queue sample_mem (a_new 2 100).
Proof.
  apply (reqbufs_new 2 100 sample_mem sample_queue sample_bufs); try done; lia.
Qed.

(** [VIDIOC_QUERYBUF] describes every buffer of the queue: its place in the
    block, its size, how much data it has and its flags, which say exactly
    whether it is mapped, finished, or queued; an index out of range is
    refused. *)
Theorem querybuf_spec q m a v : queue_rel q m a -> 0 <= vb_index v ->
  if vb_index v <? Z.of_nat (a_count a) then
    exists b d, q_buffer q !! Z.to_nat (vb_index v) = Some b /\
      myuvc_vidioc_querybuf v q = Some (0, d) /\
      vb_index d = vb_index v /\ vb_m d = vb_index v * q_buf_size q /\
      vb_length d = a_limit a /\ vb_bytesused d = vb_bytesused (buf b) /\
      vb_flags d = buf_flags a (truth (vma_use_count b)) (Z.to_nat (vb_index v))
  else myuvc_vidioc_querybuf v q = Some (- EINVAL, v).
Proof. apply querybuf_rel. Qed.

Lemma querybuf_spec_witness :
  myuvc_vidioc_querybuf (mk_vbuf 2 0 0 0 0 (0, 0) 0 0 0 0 0) sample_queue =
  Some (- EINVAL, mk_vbuf 2 0 0 0 0 (0, 0) 0 0 0 0 0).
Proof.
  apply (querybuf_spec sample_queue sample_mem (a_new 2 100)
           (mk_vbuf 2 0 0 0 0 (0, 0) 0 0 0 0 0) sample_rel).
  cbn. lia.
Defined.

(** [mmap] maps exactly the buffer whose offset the application passes: its
    pages, all of them and none of another buffer, at consecutive addresses;
    any other offset or size is refused. The queue keeps its contents. *)
Theorem mmap_spec vm_insert_page vma q m a :
  queue_rel q m a -> (forall x, vm_insert_page x = 0) ->
  0 <= vm_start vma <= vm_end vma -> vm_end vma < 2 ^ 32 ->
  (forall i, (i < a_count a)%nat ->
     vm_pgoff vma = Z.of_nat i * q_buf_size q / PAGE_SIZE ->
     vm_end vma - vm_start vma = q_buf_size q ->
     exists pages vma' q',
       myuvc_mmap vm_insert_page vma q = Some (0, pages, vma', q') /\
       pages = buf_pages (vm_start vma) (Z.of_nat i * q_buf_size q)
                 (Z.to_nat (q_buf_size q / PAGE_SIZE)) /\
       Forall (fun p => Z.of_nat i * q_buf_size q <= p.2 /\
                        p.2 + PAGE_SIZE <= (Z.of_nat i + 1) * q_buf_size q) pages /\
       vm_private_data vma' = Some i /\ queue_rel q' m a) /\
  ((forall i, (i < a_count a)%nat -> vm_pgoff vma <> Z.of_nat i * q_buf_size q / PAGE_SIZE) \/
   vm_end vma - vm_start vma <> q_buf_size q ->
   myuvc_mmap vm_insert_page vma q = Some (- EINVAL, [], vma, q)).
Proof. apply mmap_rel. Qed.

Lemma mmap_spec_witness :
  exists pages vma' q',
    myuvc_mmap (fun _ => 0) (mk_vma 8192 12288 1 false None) sample_queue =
      Some (0, pages, vma', q') /\
    pages = buf_pages 8192 (1 * 4096) (Z.to_nat (4096 / PAGE_SIZE)) /\
    Forall (fun p => 1 * 4096 <= p.2 /\ p.2 + PAGE_SIZE <= (1 + 1) * 4096) pages /\
    vm_private_data vma' = Some 1%nat /\ queue_rel q' sample_mem (a_new 2 100).
Proof.
  apply (proj1 (mmap_spec (fun _ => 0) (mk_vma 8192 12288 1 false None) sample_queue
                  sample_mem (a_new 2 100) sample_rel (fun _ => eq_refl)
                  ltac:(cbn; lia) ltac:(cbn; lia)) 1%nat).
  - cbn. lia.
  - reflexivity.
  - reflexivity.
Defined.
