(* ===== verification/UvcDecode.v ===== *)
(** The data path of the UVC driver: [myuvc_video_complete] of
    [src/myuvc/10_th/uvc.c], the completion handler of an isochronous URB, which
    puts the payloads of the packets together into the frames of the queue.

    The specification is a frame assembler on the abstract queue of
    [UvcQueue]; the handler is proved to implement it, packet by packet. *)
From S2P Require Import Prelude Klist V4l2 UvcParams UvcQueue.
Open Scope Z_scope.

(** * Data *)

Definition UVC_STREAM_ERR : Z := Z.shiftl 1 6.
Definition UVC_STREAM_EOF : Z := Z.shiftl 1 1.
Definition UVC_STREAM_FID : Z := Z.shiftl 1 0.

(** [struct usb_iso_packet_descriptor] and the members of [struct urb] the
    handler reads; [number_of_packets] is the length of the array. *)
Record iso_packet := mk_iso {
  iso_offset : Z;
  iso_length : Z;
  iso_actual_length : Z;
  iso_status : Z
}.

Record urb_done := mk_urb {
  urb_status : Z;
  transfer_buffer : mem;
  iso_frame_desc : list iso_packet
}.

(** The state of the handler: the queue, [last_fid], its own static variables,
    and the buffers whose wait queues were woken, in order. *)
Record uvc_rx := mk_rx {
  rx_queue : myuvc_queue;
  last_fid : Z;
  fid : Z;
  mem_temp : option mem;
  nArrayTemp_Size : Z;
  woken : list nat
}.

Definition set_rx_queue (q : myuvc_queue) (rx : uvc_rx) : uvc_rx :=
  mk_rx q (last_fid rx) (fid rx) (mem_temp rx) (nArrayTemp_Size rx) (woken rx).
Definition set_last_fid (v : Z) (rx : uvc_rx) : uvc_rx :=
  mk_rx (rx_queue rx) v (fid rx) (mem_temp rx) (nArrayTemp_Size rx) (woken rx).
Definition set_fid (v : Z) (rx : uvc_rx) : uvc_rx :=
  mk_rx (rx_queue rx) (last_fid rx) v (mem_temp rx) (nArrayTemp_Size rx) (woken rx).
Definition set_mem_temp (t : mem) (n : Z) (rx : uvc_rx) : uvc_rx :=
  mk_rx (rx_queue rx) (last_fid rx) (fid rx) (Some t) n (woken rx).
Definition wake_up (i : nat) (rx : uvc_rx) : uvc_rx :=
  mk_rx (rx_queue rx) (last_fid rx) (fid rx) (mem_temp rx) (nArrayTemp_Size rx)
    (woken rx ++ [i]).

Definition initial_rx : uvc_rx := mk_rx zero_queue (-1) 0 None 1000 [].

(** [p[0] == c0 && p[1] == c1 && ...]: a byte is read only when the ones before
    it matched. *)
Fixpoint match_bytes (m : mem) (p : Z) (pat : list Z) : option bool :=
  match pat with
  | [] => Some true
  | c :: pat => b ← byte_at m p; if b =? c then match_bytes m (p + 1) pat else Some false
  end.

(** * The handler *)

Section Complete.
(** [myuvc_udev->descriptor.idVendor], and the kernel allocator. *)
Context (idVendor : Z) (kmalloc : Z -> option mem).

(** The frame identifier of a packet: a bit of its header, except for the
    ip2970/ip2977, where the start of a picture in the data toggles it. *)
Definition packet_fid (tb : mem) (off len s1 fid0 last_fid0 : Z) : option Z :=
  if idVendor =? 0x1B3B then
    if len >=? 16 then
      m1 ← match_bytes tb (off + 12) [0xFF; 0xD8; 0xFF];
      start ← (if m1 : bool then Some true
               else match_bytes tb (off + 12) [0xD8; 0xFF; 0xC4]);
      Some (if start : bool
            then if truth last_fid0 then Z.land fid0 (Z.lnot UVC_STREAM_FID)
                 else Z.lor fid0 UVC_STREAM_FID
            else fid0)
    else Some fid0
  else Some (Z.land s1 UVC_STREAM_FID).

(** The temporary block and its size: allocated on first use, and allocated
    again when the data do not fit. *)
Definition temp_block (nbytes : Z) (rx : uvc_rx) : option (mem * Z) :=
  match mem_temp rx with
  | None => t ← kmalloc (nArrayTemp_Size rx); Some (t, nArrayTemp_Size rx)
  | Some t =>
      if nArrayTemp_Size rx <=? nbytes then
        let size := u32 (nArrayTemp_Size rx + 500) in
        t ← kmalloc size; Some (t, size)
      else Some (t, nArrayTemp_Size rx)
  end.

(** The repair of a picture that starts with D8 FF C4: the bytes just stored at
    [dest] move up by one, through the temporary block, and FF goes first. *)
Definition fixup (dest nbytes : Z) (rx : uvc_rx) : option uvc_rx :=
  if idVendor =? 0x1B3B then
    '(t, size) ← temp_block nbytes rx;
    t ← mem_write t 0 (memset_bytes 0 size);
    m ← q_mem (rx_queue rx);
    bad ← match_bytes m dest [0xD8; 0xFF; 0xC4];
    if bad : bool then
      data ← mem_read m dest nbytes;
      t ← mem_write t 1 data;
      t ← mem_write t 0 [0xFF];
      data ← mem_read t 0 (nbytes + 1);
      m ← mem_write m dest data;
      Some (set_rx_queue (set_q_mem (Some m) (rx_queue rx)) (set_mem_temp t size rx))
    else Some (set_mem_temp t size rx)
  else Some rx.

(** [if (!list_empty(&irqqueue)) buf = list_first_entry(...); else buf = NULL;] *)
Definition next_buf (q : myuvc_queue) : option (option nat) :=
  if Seq.list_empty (q_irqqueue q) then Some None
  else i ← Seq.list_first_entry (q_irqqueue q); Some (Some i).

(** [list_del(&buf->irq); wake_up(&buf->wait);] and the next buffer. *)
Definition finish_buf (i : nat) (rx : uvc_rx) : option (uvc_rx * option nat) :=
  h ← Seq.list_del i (q_irqqueue (rx_queue rx));
  let q := set_q_irqqueue h (rx_queue rx) in
  let rx := wake_up i (set_rx_queue q rx) in
  next ← next_buf q;
  Some (rx, next).

Definition update_rx (i : nat) (f : myuvc_buffer -> myuvc_buffer) (rx : uvc_rx)
    : option uvc_rx :=
  q ← update_buf i f (rx_queue rx); Some (set_rx_queue q rx).

(** From [if (len > maxlen)] to the end of the loop body. *)
Definition end_payload (over : bool) (s1 : Z) (i : nat) (rx : uvc_rx)
    : option (uvc_rx * option nat) :=
  rx ← (if over then update_rx i (set_state VIDEOBUF_DONE) rx else Some rx);
  b ← q_buffer (rx_queue rx) !! i;
  rx ← (if bit_set s1 UVC_STREAM_EOF && negb (vb_bytesused (buf b) =? 0)
        then update_rx i (set_state VIDEOBUF_DONE) rx else Some rx);
  b ← q_buffer (rx_queue rx) !! i;
  if state_eqb (state b) VIDEOBUF_DONE || state_eqb (state b) VIDEOBUF_ERROR
  then finish_buf i rx
  else Some (rx, Some i).

(** From [dest = ...] to the end of the loop body: the payload is stored into
    buffer [i]. [src] is the offset of the packet in the transfer buffer. *)
Definition store_payload (tb : mem) (src len s0 s1 : Z) (i : nat) (rx : uvc_rx)
    : option (uvc_rx * option nat) :=
  b ← q_buffer (rx_queue rx) !! i;
  let dest := vb_m (buf b) + vb_bytesused (buf b) in
  let len := len - s0 in
  let maxlen := s32 (vb_length (buf b) - vb_bytesused (buf b)) in
  let nbytes := Z.min len maxlen in
  m ← q_mem (rx_queue rx);
  data ← mem_read tb (src + s0) nbytes;
  m ← mem_write m dest data;
  let rx := set_rx_queue (set_q_mem (Some m) (rx_queue rx)) rx in
  rx ← update_rx i (set_bytesused (u32 (vb_bytesused (buf b) + nbytes))) rx;
  rx ← fixup dest nbytes rx;
  end_payload (len >? maxlen) s1 i rx.

(** A packet with identifier [f] for buffer [i], from the store of the static
    [fid] on. *)
Definition receive_packet (tb : mem) (src len s0 s1 f : Z) (i : nat) (rx : uvc_rx)
    : option (uvc_rx * option nat) :=
  let rx := set_fid f rx in
  b ← q_buffer (rx_queue rx) !! i;
  if negb (state_eqb (state b) VIDEOBUF_ACTIVE) && (f =? last_fid rx)
  then Some (rx, Some i)
  else
  rx ← (if negb (state_eqb (state b) VIDEOBUF_ACTIVE)
        then update_rx i (set_state VIDEOBUF_ACTIVE) rx else Some rx);
  if negb (f =? last_fid rx) && negb (vb_bytesused (buf b) =? 0) then
    rx ← update_rx i (set_state VIDEOBUF_DONE) rx;
    finish_buf i rx
  else store_payload tb src len s0 s1 i (set_last_fid f rx).

(** The body of the packet loop. [buf] is the local variable, [None] for NULL;
    it is dereferenced for every packet that was received. *)
Definition decode_packet (tb : mem) (d : iso_packet) (rx : uvc_rx) (buf0 : option nat)
    : option (uvc_rx * option nat) :=
  if iso_status d <? 0 then Some (rx, buf0)
  else
    let src := iso_offset d in
    _ ← buf0;
    let len := iso_actual_length d in
    if len <? 2 then Some (rx, buf0)
    else
    s0 ← byte_at tb src;
    if (s0 <? 2) || (s0 >? len) then Some (rx, buf0)
    else
    s1 ← byte_at tb (src + 1);
    if bit_set s1 UVC_STREAM_ERR then Some (rx, buf0)
    else
    f ← packet_fid tb src len s1 (fid rx) (last_fid rx);
    match buf0 with
    | None => Some (set_last_fid f (set_fid f rx), buf0)
    | Some i => receive_packet tb src len s0 s1 f i rx
    end.

Fixpoint decode_packets (tb : mem) (ds : list iso_packet) (rx : uvc_rx) (buf0 : option nat)
    : option uvc_rx :=
  match ds with
  | [] => Some rx
  | d :: ds => '(rx, buf0) ← decode_packet tb d rx buf0; decode_packets tb ds rx buf0
  end.

(** The result says whether the URB is submitted again. *)
Definition myuvc_video_complete (urb : urb_done) (rx : uvc_rx) : option (uvc_rx * bool) :=
  if negb (urb_status urb =? 0) then Some (rx, false)
  else
    buf0 ← next_buf (rx_queue rx);
    rx ← decode_packets (transfer_buffer urb) (iso_frame_desc urb) rx buf0;
    Some (rx, true).

End Complete.

(** * The frame assembler *)

(** A packet the handler takes into account. *)
Record apacket := mk_ap { ap_fid : Z; ap_eof : bool; ap_payload : mem }.

(** The first buffer waiting for data becomes a finished frame. *)
Definition a_complete (a : aqueue) : aqueue :=
  match a_fill a with
  | [] => a
  | i :: rest => mk_aqueue (a_count a) (a_limit a) (a_ready a ++ [(i, a_cur a)]) rest false []
  end.

(** Whether the bytes of a payload are repaired: for the ip2970/ip2977, if they
    start with D8 FF C4. With fewer than three bytes it depends on what the buffer
    held before, which [stale] stands for. *)
Definition needs_repair (idVendor : Z) (stale : bool) (p : mem) : bool :=
  (idVendor =? 0x1B3B) &&
  (if (length p <? 3)%nat then stale else bool_decide (take 3 p = [0xD8; 0xFF; 0xC4])).

(** The bytes a payload adds to a frame with [room] bytes left; the repair puts FF
    before them, at the expense of the last one. *)
Definition a_stored (idVendor : Z) (stale : bool) (room : Z) (payload : mem) : mem :=
  let p := take (Z.to_nat room) payload in
  if needs_repair idVendor stale p then take (length p) (0xFF :: p) else p.

Definition a_receive (cur : mem) (a : aqueue) : aqueue :=
  mk_aqueue (a_count a) (a_limit a) (a_ready a) (a_fill a) true cur.

(** One packet: the frame identifier afterwards, the queue, and the buffers that
    were finished. A packet with the identifier of the frame before is skipped
    until a new frame starts; a new identifier ends a frame that has data; the
    end-of-frame flag and a full buffer end it too. *)
Definition a_packet (idVendor : Z) (stale : bool) (p : apacket) (last : Z) (a : aqueue)
    : Z * aqueue * list nat :=
  match a_fill a with
  | [] => (last, a, [])
  | i :: _ =>
      if negb (a_active a) && (ap_fid p =? last) then (last, a, [])
      else if negb (ap_fid p =? last) && negb (zlen (a_cur a) =? 0)
      then (last, a_complete a, [i])
      else
        let room := a_limit a - zlen (a_cur a) in
        let a' := a_receive (a_cur a ++ a_stored idVendor stale room (ap_payload p)) a in
        if (zlen (ap_payload p) >? room) || ap_eof p && negb (zlen (a_cur a') =? 0)
        then (ap_fid p, a_complete a', [i]) else (ap_fid p, a', [])
  end.

Lemma stored_length idVendor stale room payload : 0 <= room ->
  zlen (a_stored idVendor stale room payload) = Z.min (zlen payload) room.
Proof.
  intros. unfold a_stored, zlen. destruct (needs_repair _ _ _); rewrite ?length_take; cbn [length];
    rewrite ?length_take; lia.
Qed.

Lemma receive_wf a cur : a_wf a -> a_fill a <> [] -> zlen cur <= a_limit a ->
  a_wf (a_receive cur a).
Proof. intros Hwf Hf Hc. split; try apply Hwf; cbn; done. Qed.

Lemma complete_wf a : a_wf a -> 0 < zlen (a_cur a) -> a_wf (a_complete a).
Proof.
  intros Hwf Hc. unfold a_complete. destruct (a_fill a) as [|i rest] eqn:Ef; [done|].
  assert (a_owned (mk_aqueue (a_count a) (a_limit a) (a_ready a ++ [(i, a_cur a)]) rest false [])
          = a_owned a) as Eo.
  { unfold a_owned. cbn. rewrite fmap_app, Ef, <- app_assoc. done. }
  split; rewrite ?Eo; try apply Hwf; cbn; try done.
  - apply Forall_app. split; [apply Hwf|]. repeat constructor; cbn; [lia | apply Hwf].
  - change (zlen []) with 0. pose proof (aw_limit _ Hwf). lia.
Qed.

Lemma complete_owned a : a_owned (a_complete a) = a_owned a.
Proof.
  unfold a_complete, a_owned. destruct (a_fill a) eqn:E; [by rewrite E|]. cbn.
  by rewrite fmap_app, <- app_assoc.
Qed.

(** ** Bytes of packets *)

Lemma match_bytes_spec m pat p : 0 <= p -> p + zlen pat <= zlen m ->
  match_bytes m p pat = Some (bool_decide (take (length pat) (drop (Z.to_nat p) m) = pat)).
Proof.
  revert p. induction pat as [|c pat IH]; intros p Hp Hl; cbn [match_bytes].
  { by rewrite bool_decide_eq_true_2. }
  rewrite zlen_cons in Hl. pose proof (zlen_nonneg pat).
  destruct (byte_at_in m p) as [b Hb]; [lia|]. rewrite Hb. cbn [mbind option_bind].
  assert (m !! Z.to_nat p = Some b) as Hb'.
  { revert Hb. unfold byte_at. by case_if. }
  rewrite (drop_S _ _ _ Hb'). cbn [length take].
  destruct (Z.eqb_spec b c) as [->|Hne].
  - rewrite IH by lia. replace (Z.to_nat (p + 1)) with (S (Z.to_nat p)) by lia. f_equal.
    apply bool_decide_ext. split; [by intros ->|by intros [= ?]].
  - rewrite bool_decide_eq_false_2; [done|]. by intros [= ?].
Qed.

Lemma match_bytes_total m pat p : 0 <= p -> p + zlen pat <= zlen m ->
  exists b, match_bytes m p pat = Some b.
Proof. intros. eexists. by apply match_bytes_spec. Qed.

(** The repaired bytes, when the repair applies. *)
Lemma shift_bytes m t dest nbytes data : mem_read m dest nbytes = Some data ->
  nbytes + 1 <= zlen t -> dest + nbytes + 1 <= zlen m ->
  exists t1 t2 m', mem_write t 1 data = Some t1 /\ mem_write t1 0 [0xFF] = Some t2 /\
    mem_read t2 0 (nbytes + 1) = Some (0xFF :: data) /\
    mem_write m dest (0xFF :: data) = Some m' /\ zlen t2 = zlen t /\
    same_outside dest (dest + nbytes + 1) m m' /\
    mem_read m' dest nbytes = Some (take (length data) (0xFF :: data)).
Proof.
  intros Hr Ht Hm. pose proof (mem_read_length _ _ _ _ Hr) as Hl.
  pose proof (mem_read_Some _ _ _ _ Hr) as (H0 & Hn & _).
  destruct (mem_write_ok t 1 data) as (t1 & E1 & [L1 S1] & R1); [lia..|].
  destruct (mem_write_ok t1 0 [0xFF]) as (t2 & E2 & [L2 S2] & R2);
    [lia | change (zlen [0xFF]) with 1; lia |].
  change (zlen [255]) with 1 in *.
  assert (zlen (0xFF :: data) = nbytes + 1) as Hl' by (rewrite zlen_cons; lia).
  destruct (mem_write_ok m dest (0xFF :: data)) as (m' & E3 & S3 & R3); [lia..|].
  exists t1, t2, m'. rewrite Hl' in *. split_and!; try done.
  - rewrite Z.add_comm. change (0xFF :: data) with ([0xFF] ++ data).
    apply mem_read_app; [done|]. rewrite S2 by lia. by rewrite <- Hl.
  - congruence.
  - by rewrite Z.add_assoc in S3.
  - rewrite (mem_read_prefix _ _ _ nbytes _ R3) by lia. do 2 f_equal. unfold zlen in Hl. lia.
Qed.

(** ** The queue while a frame is received *)

(** The first buffer waiting for data. *)
Lemma rel_filling q m a i rest : queue_rel q m a -> a_fill a = i :: rest ->
  exists b, q_buffer q !! i = Some b /\ (i < a_count a)%nat /\
  geometry (q_buf_size q) (a_limit a) i b /\
  state b = (if a_active a then VIDEOBUF_ACTIVE else VIDEOBUF_QUEUED) /\
  vb_bytesused (buf b) = zlen (a_cur a) /\ holds m (q_buf_size q) i (a_cur a).
Proof.
  intros Hr Hf. assert (i ∈ a_owned a) as Hin by (apply owned_head; by rewrite Hf).
  assert (Hi := aw_bound _ (qr_wf _ _ _ Hr) _ Hin).
  destruct (qr_bufs _ _ _ Hr i Hi) as (b & Hb & Hg & Hrole). exists b.
  assert (Hnd := aw_nodup _ (qr_wf _ _ _ Hr)). unfold a_owned in Hnd. rewrite Hf in Hnd.
  apply NoDup_app in Hnd as (_ & Hd & Hnf). apply NoDup_cons in Hnf as [Hni _].
  destruct Hrole as [data Hd' _ _ _|? ? ? ?|Ht _ _|Hn _].
  - exfalso. eapply (Hd i); [by apply (list_elem_of_fmap_2 fst) in Hd' | constructor].
  - done.
  - by rewrite Hf in Ht.
  - done.
Qed.

(** The part of the other buffers does not depend on the frame being received. *)
Lemma receive_others a cur m m' bs i rest j b : a_fill a = i :: rest ->
  (forall data, (j, data) ∈ a_ready a -> holds m bs j data -> holds m' bs j data) ->
  j <> i -> buf_role a m bs j b -> buf_role (a_receive cur a) m' bs j b.
Proof.
  intros Hf Hm Hne [data Hr Hs Hu Hd|Hh _ _ _|Ht Hs Hu|Hn Hs].
  - eapply role_ready; try done. by apply Hm.
  - rewrite Hf in Hh. by injection Hh as ->.
  - by apply role_fill.
  - by apply role_idle.
Qed.

Lemma complete_others a m bs i rest j b : a_wf a -> a_fill a = i :: rest ->
  (j < a_count a)%nat -> holds m bs j [] -> j <> i ->
  buf_role a m bs j b -> buf_role (a_complete a) m bs j b.
Proof.
  intros Hwf Hf Hj H0 Hne [data Hr Hs Hu Hd|Hh _ _ _|Ht Hs Hu|Hn Hs].
  - eapply role_ready; try done. unfold a_complete. rewrite Hf. cbn.
    apply elem_of_app. by left.
  - rewrite Hf in Hh. by injection Hh as ->.
  - rewrite Hf in Ht. cbn in Ht. destruct rest as [|k rest]; [by apply not_elem_of_nil in Ht|].
    destruct (decide (j = k)) as [->|Hk].
    + apply role_head; unfold a_complete; rewrite Hf; done.
    + apply role_fill; try done. unfold a_complete. rewrite Hf. cbn.
      apply elem_of_cons in Ht as [->|Ht]; done.
  - apply role_idle; [|done]. by rewrite complete_owned.
Qed.

Lemma activate_rel q m a i rest : queue_rel q m a -> a_fill a = i :: rest ->
  exists q', update_buf i (set_state VIDEOBUF_ACTIVE) q = Some q' /\
  queue_rel q' m (a_receive (a_cur a) a).
Proof.
  intros Hr Hf. destruct (rel_filling q m a i rest Hr Hf) as (b & Hb & Hi & Hg & Hs & Hu & Hm).
  rewrite (update_buf_Some _ _ _ _ Hb). eexists. split; [done|].
  unfold set_q_buffer. rewrite (qr_mem _ _ _ Hr), (qr_main _ _ _ Hr), (qr_irq _ _ _ Hr).
  eapply (rel_change q m m a (a_receive (a_cur a) a) i b (set_state VIDEOBUF_ACTIVE b)); eauto.
  - apply receive_wf; [apply Hr | by rewrite Hf | apply (aw_cur _ (qr_wf _ _ _ Hr))].
  - destruct Hg. by split.
  - apply role_head; cbn; [by rewrite Hf | done..].
  - intros. by eapply receive_others.
Qed.

(** Storing bytes after the ones received already, and at most one byte more. *)
Lemma append_rel q m m' a i rest bytes b :
  queue_rel q m a -> a_fill a = i :: rest -> a_active a = true ->
  q_buffer q !! i = Some b ->
  let dest := Z.of_nat i * q_buf_size q + zlen (a_cur a) in
  same_outside dest (dest + zlen bytes + 1) m m' ->
  mem_read m' dest (zlen bytes) = Some bytes ->
  zlen (a_cur a) + zlen bytes <= a_limit a ->
  queue_rel (set_q_buffer (<[i := set_bytesused (zlen (a_cur a ++ bytes)) b]> (q_buffer q))
               (set_q_mem (Some m') q)) m' (a_receive (a_cur a ++ bytes) a).
Proof.
  intros Hr Hf Hact Hb dest [Hlen Hout] Hrd Hfit.
  destruct (rel_filling q m a i rest Hr Hf) as (b0 & Hb0 & Hi & Hg & Hs & Hu & Hm).
  rewrite Hb in Hb0. injection Hb0 as <-.
  assert (Hsl := qr_slack _ _ _ Hr). pose proof (zlen_nonneg (a_cur a)). pose proof (zlen_nonneg bytes).
  unfold set_q_buffer, set_q_mem. cbn. rewrite (qr_main _ _ _ Hr), (qr_irq _ _ _ Hr).
  eapply (rel_change q m m' a (a_receive (a_cur a ++ bytes) a) i b
            (set_bytesused (zlen (a_cur a ++ bytes)) b)); eauto.
  - apply receive_wf; [apply Hr | by rewrite Hf | rewrite zlen_app; lia].
  - destruct Hg. by split.
  - apply role_head; cbn; [by rewrite Hf | by rewrite Hs, Hact | done |].
    unfold holds. rewrite zlen_app. apply mem_read_app; [|done].
    rewrite Hout by (unfold dest; lia). apply Hm.
  - intros j bj Hne Hj. eapply receive_others; eauto. intros data Hd Hh. unfold holds in *.
    assert (zlen data <= a_limit a) as Hdl.
    { pose proof (aw_frames _ (qr_wf _ _ _ Hr)) as HF. rewrite Forall_forall in HF.
      apply HF in Hd. cbn in Hd. lia. }
    rewrite Hout; [done|]. unfold dest. pose proof (zlen_nonneg data). nia.
Qed.

(** Ending the frame. *)
Lemma finish_rel q m a i rest : queue_rel q m a -> a_fill a = i :: rest -> 0 < zlen (a_cur a) ->
  exists q1 h, update_buf i (set_state VIDEOBUF_DONE) q = Some q1 /\
  Seq.list_del i (q_irqqueue q1) = Some h /\
  queue_rel (set_q_irqqueue h q1) m (a_complete a).
Proof.
  intros Hr Hf Hc. destruct (rel_filling q m a i rest Hr Hf) as (b & Hb & Hi & Hg & Hs & Hu & Hm).
  rewrite (update_buf_Some _ _ _ _ Hb).
  assert (Hnd := aw_nodup _ (qr_wf _ _ _ Hr)). unfold a_owned in Hnd. rewrite Hf in Hnd.
  apply NoDup_app in Hnd as (_ & _ & Hnf). apply NoDup_cons in Hnf as [Hni _].
  eexists _, (Some rest). split; [done|]. cbn [q_irqqueue set_q_buffer].
  rewrite (qr_irq _ _ _ Hr), Hf, Seq.list_del_head by done. split; [done|].
  unfold set_q_irqqueue, set_q_buffer. cbn. rewrite (qr_mem _ _ _ Hr), (qr_main _ _ _ Hr).
  rewrite <- (complete_owned a).
  replace (Some rest) with (Some (a_fill (a_complete a))) by (unfold a_complete; by rewrite Hf).
  eapply (rel_change q m m a (a_complete a) i b (set_state VIDEOBUF_DONE b)); eauto;
    try (unfold a_complete; by rewrite Hf).
  - apply complete_wf; [apply Hr | done].
  - destruct Hg. by split.
  - eapply (role_ready _ _ _ _ _ (a_cur a)); try done. unfold a_complete. rewrite Hf. cbn.
    apply elem_of_app. right. by apply list_elem_of_singleton.
  - intros. eapply complete_others; eauto; [apply Hr | by eapply holds_nil].
Qed.

(** ** The parts of the handler *)

(** The handler's variables apart from the queue. *)
Definition same_vars (rx rx' : uvc_rx) (w : list nat) : Prop :=
  last_fid rx' = last_fid rx /\ fid rx' = fid rx /\ mem_temp rx' = mem_temp rx /\
  nArrayTemp_Size rx' = nArrayTemp_Size rx /\ woken rx' = woken rx ++ w.

Definition temp_ok (rx : uvc_rx) : Prop :=
  1000 <= nArrayTemp_Size rx /\
  match mem_temp rx with Some t => zlen t = nArrayTemp_Size rx | None => True end.

Lemma next_buf_rel q m a : queue_rel q m a -> next_buf q = Some (head (a_fill a)).
Proof. intros Hr. unfold next_buf. rewrite (qr_irq _ _ _ Hr). by destruct (a_fill a). Qed.

Lemma finish_buf_rel rx m a i rest : queue_rel (rx_queue rx) m a -> a_fill a = i :: rest ->
  0 < zlen (a_cur a) ->
  exists rx1 rx', update_rx i (set_state VIDEOBUF_DONE) rx = Some rx1 /\
    finish_buf i rx1 = Some (rx', head (a_fill (a_complete a))) /\
    queue_rel (rx_queue rx') m (a_complete a) /\ same_vars rx rx' [i].
Proof.
  intros Hr Hf Hc. destruct (finish_rel _ _ _ _ _ Hr Hf Hc) as (q1 & h & E1 & E2 & Hr').
  unfold update_rx, finish_buf. rewrite E1. eexists _, _. split; [done|].
  cbn [mbind option_bind rx_queue set_rx_queue]. rewrite E2. cbn [mbind option_bind].
  rewrite (next_buf_rel _ _ _ Hr'). split; [done|]. split; [done|]. by repeat split.
Qed.

Lemma update_rx_Some rx i f b : q_buffer (rx_queue rx) !! i = Some b ->
  update_rx i f rx =
  Some (set_rx_queue (set_q_buffer (<[i := f b]> (q_buffer (rx_queue rx))) (rx_queue rx)) rx).
Proof. intros H. unfold update_rx. by rewrite (update_buf_Some _ _ _ _ H). Qed.

(** Marking the buffer done once or twice is the same. *)
Lemma end_payload_done over s1 i rx b : q_buffer (rx_queue rx) !! i = Some b ->
  over = true \/ bit_set s1 UVC_STREAM_EOF && negb (vb_bytesused (buf b) =? 0) = true ->
  end_payload over s1 i rx =
  (rx ← update_rx i (set_state VIDEOBUF_DONE) rx; finish_buf i rx).
Proof.
  intros Hb Hor. assert (Hlt := lookup_lt_Some _ _ _ Hb). unfold end_payload.
  rewrite !(update_rx_Some _ _ _ _ Hb). cbn [mbind option_bind].
  destruct over; cbn [mbind option_bind rx_queue set_rx_queue q_buffer set_q_buffer].
  - rewrite list_lookup_insert_eq by done. cbn [mbind option_bind buf set_state].
    case_if; cbn [mbind option_bind].
    + erewrite update_rx_Some by (cbn; by rewrite list_lookup_insert_eq).
      cbn [mbind option_bind rx_queue set_rx_queue q_buffer set_q_buffer].
      rewrite list_lookup_insert_eq by (by rewrite length_insert).
      cbn [mbind option_bind state set_state]. change (state_eqb VIDEOBUF_DONE VIDEOBUF_DONE) with true.
      cbn [orb]. rewrite list_insert_insert_eq. done.
    + cbn [rx_queue set_rx_queue q_buffer set_q_buffer].
      rewrite list_lookup_insert_eq by done. done.
  - rewrite Hb. cbn [mbind option_bind]. destruct Hor as [|Hor]; [done|].
    rewrite Hor, ?(update_rx_Some _ _ _ _ Hb).
    cbn [mbind option_bind rx_queue set_rx_queue q_buffer set_q_buffer].
    rewrite list_lookup_insert_eq by done. done.
Qed.

Lemma end_payload_rel over s1 rx m a i rest :
  queue_rel (rx_queue rx) m a -> a_fill a = i :: rest -> a_active a = true ->
  (over = true -> 0 < zlen (a_cur a)) ->
  let fin := over || bit_set s1 UVC_STREAM_EOF && negb (zlen (a_cur a) =? 0) in
  let a' := if fin then a_complete a else a in
  exists rx', end_payload over s1 i rx = Some (rx', head (a_fill a')) /\
    queue_rel (rx_queue rx') m a' /\ same_vars rx rx' (if fin then [i] else []).
Proof.
  intros Hr Hf Hact Hover fin a'.
  destruct (rel_filling _ m a i rest Hr Hf) as (b & Hb & _ & _ & Hs & Hu & _).
  destruct fin eqn:Efin; unfold fin in Efin.
  - assert (0 < zlen (a_cur a)) as Hc.
    { bool_props. destruct Efin as [->|E]; [auto|]. bool_props. pose proof (zlen_nonneg (a_cur a)). lia. }
    rewrite (end_payload_done _ _ _ _ b) by (rewrite ?Hu; bool_props; auto).
    destruct (finish_buf_rel _ _ _ _ _ Hr Hf Hc) as (rx1 & rx' & -> & E2 & Hr' & Hv).
    cbn [mbind option_bind]. exists rx'. done.
  - apply orb_false_iff in Efin as [-> Ee]. unfold end_payload. cbn [mbind option_bind].
    rewrite Hb. cbn [mbind option_bind]. rewrite Hu, Ee. cbn [mbind option_bind].
    rewrite Hb. cbn [mbind option_bind]. rewrite Hs, Hact. cbn.
    exists rx. unfold a'. rewrite Hf. split; [done|]. split; [done|].
    by repeat split; rewrite app_nil_r.
Qed.

(** ** The handler implements the assembler *)

Section Refines.
Context (idVendor : Z) (kmalloc : Z -> option mem).

(** The temporary block of the ip2970/ip2977 repair can be allocated. *)
Definition kmalloc_ok : Prop :=
  idVendor = 0x1B3B -> forall n, 0 <= n -> exists t, kmalloc n = Some t /\ zlen t = n.

Context (Hk : kmalloc_ok).

Lemma fixup_temp rx nbytes : temp_ok rx -> 0 <= nbytes < 1000 -> idVendor = 0x1B3B ->
  exists t, temp_block kmalloc nbytes rx = Some (t, nArrayTemp_Size rx) /\
  zlen t = nArrayTemp_Size rx.
Proof.
  intros [Hsz Ht] Hn Hv. unfold temp_block. destruct (mem_temp rx) as [t|].
  - destruct (Z.leb_spec (nArrayTemp_Size rx) nbytes); [lia|]. eauto.
  - destruct (Hk Hv (nArrayTemp_Size rx)) as (t & -> & ?); [lia|]. cbn. eauto.
Qed.

Lemma fixup_spec dest nbytes rx m data :
  q_mem (rx_queue rx) = Some m -> mem_read m dest nbytes = Some data ->
  dest + nbytes + 3 <= zlen m -> nbytes < 1000 -> temp_ok rx ->
  exists stale m' rx', fixup idVendor kmalloc dest nbytes rx = Some rx' /\
    rx_queue rx' = set_q_mem (Some m') (rx_queue rx) /\
    last_fid rx' = last_fid rx /\ fid rx' = fid rx /\ woken rx' = woken rx /\ temp_ok rx' /\
    same_outside dest (dest + nbytes + 1) m m' /\
    mem_read m' dest nbytes =
      Some (if needs_repair idVendor stale data then take (length data) (0xFF :: data) else data) /\
    (stale = true -> idVendor = 0x1B3B).
Proof.
  intros Hm Hd Hfit Hn Htok. pose proof (mem_read_Some _ _ _ _ Hd) as (? & ? & _).
  assert (set_q_mem (Some m) (rx_queue rx) = rx_queue rx) as Eq
    by (rewrite <- Hm; by destruct (rx_queue rx)).
  unfold fixup. destruct (Z.eqb_spec idVendor 0x1B3B) as [Hv|Hv].
  2:{ exists false, m, rx. unfold needs_repair. rewrite (proj2 (Z.eqb_neq _ _) Hv). by split_and!. }
  destruct (fixup_temp rx nbytes Htok) as (t & -> & Htl); [lia|done|]. cbn [mbind option_bind].
  destruct Htok as [Hsz _].
  destruct (mem_write_ok t 0 (memset_bytes 0 (nArrayTemp_Size rx))) as (t0 & -> & [L0 _] & _);
    [done | unfold memset_bytes; rewrite zlen_replicate; lia |].
  cbn [mbind option_bind]. rewrite Hm. cbn [mbind option_bind].
  rewrite (match_bytes_spec m [0xD8; 0xFF; 0xC4] dest) by (change (zlen [216; 255; 196]) with 3; lia).
  cbn [mbind option_bind]. set (bad := bool_decide _).
  assert (needs_repair idVendor bad data = bad) as Hbad.
  { unfold needs_repair. rewrite Hv. cbn [Z.eqb Pos.eqb andb].
    destruct (Nat.ltb_spec (length data) 3); [done|]. unfold bad. apply bool_decide_ext.
    assert (take 3 data = take 3 (drop (Z.to_nat dest) m)) as ->; [|done].
    apply mem_read_Some in Hd as (_ & _ & _ & Ed). rewrite Ed, take_take. f_equal.
    rewrite Ed, length_take in *. lia. }
  clearbody bad. destruct bad.
  - rewrite Hd. cbn [mbind option_bind].
    destruct (shift_bytes m t0 dest nbytes data Hd) as (t1 & t2 & m' & -> & E2 & R2 & E3 & L2 & S & R);
      [lia..|].
    cbn [mbind option_bind]. rewrite E2. cbn [mbind option_bind]. rewrite R2.
    cbn [mbind option_bind]. rewrite E3. cbn [mbind option_bind].
    exists true, m'. eexists. rewrite Hbad. split; [done|]. split_and!; try done. unfold temp_ok; cbn; lia.
  - exists false, m. eexists. rewrite Hbad. split; [done|]. split_and!; try done. unfold temp_ok; cbn; lia.
Qed.

Lemma store_payload_rel tb src len s0 s1 rx m a i rest payload :
  queue_rel (rx_queue rx) m a -> a_fill a = i :: rest -> a_active a = true -> temp_ok rx ->
  mem_read tb (src + s0) (len - s0) = Some payload -> len - s0 < 1000 ->
  exists repair rx' m',
    let room := a_limit a - zlen (a_cur a) in
    let a1 := a_receive (a_cur a ++ a_stored idVendor repair room payload) a in
    let fin := (zlen payload >? room) ||
               bit_set s1 UVC_STREAM_EOF && negb (zlen (a_cur a1) =? 0) in
    let a' := if fin then a_complete a1 else a1 in
    store_payload idVendor kmalloc tb src len s0 s1 i rx = Some (rx', head (a_fill a')) /\
    queue_rel (rx_queue rx') m' a' /\ zlen m' = zlen m /\ temp_ok rx' /\
    last_fid rx' = last_fid rx /\ fid rx' = fid rx /\
    woken rx' = woken rx ++ (if fin then [i] else []) /\
    (repair = true -> idVendor = 0x1B3B).
Proof.
  intros Hr Hf Hact Htok Hp Hlen.
  destruct (rel_filling _ m a i rest Hr Hf) as (b & Hb & Hi & Hg & Hs & Hu & Hh).
  assert (Hsl := qr_slack _ _ _ Hr). assert (Hfits := qr_fits _ _ _ Hr).
  assert (Hsm := qr_small _ _ _ Hr). assert (Hcur := aw_cur _ (qr_wf _ _ _ Hr)).
  assert (Hlim := aw_limit _ (qr_wf _ _ _ Hr)).
  pose proof (zlen_nonneg (a_cur a)). pose proof (mem_read_length _ _ _ _ Hp) as Hpl.
  pose proof (zlen_nonneg payload).
  set (room := a_limit a - zlen (a_cur a)) in *.
  assert (a_limit a < 2 ^ 31) by nia.
  unfold store_payload. rewrite Hb. cbn [mbind option_bind].
  rewrite (ge_offset _ _ _ _ Hg), (ge_length _ _ _ _ Hg), Hu. fold room.
  rewrite (s32_small room) by (unfold is_s32; lia). rewrite (qr_mem _ _ _ Hr).
  cbn [mbind option_bind]. set (n := Z.min (len - s0) room). set (dest := Z.of_nat i * _ + _).
  rewrite (mem_read_prefix _ _ _ n _ Hp) by lia. cbn [mbind option_bind].
  set (data := take (Z.to_nat n) payload).
  assert (zlen data = n) as Hdl by (unfold data, zlen in *; rewrite length_take; lia).
  destruct (mem_write_ok m dest data) as (m1 & -> & S1 & R1); [nia|unfold dest; nia|].
  cbn [mbind option_bind].
  erewrite update_rx_Some by (cbn; done). cbn [mbind option_bind].
  set (rx1 := set_rx_queue _ _).
  destruct (fixup_spec dest n rx1 m1 data) as
    (repair & m' & rx2 & -> & Eq & El & Ef & Ew & Ht & S2 & R2 & Hrep);
    [done | by rewrite <- Hdl | destruct S1 as [-> _]; unfold dest; nia | lia | done |].
  cbn [mbind option_bind].
  assert (a_stored idVendor repair room payload =
    if needs_repair idVendor repair data then take (length data) (0xFF :: data) else data) as Est.
  { unfold a_stored. assert (take (Z.to_nat room) payload = data) as ->; [|done].
    unfold data, n. rewrite Z2Nat.inj_min. apply list_eq. intros k.
    destruct (decide (k < length payload)%nat); [|by rewrite !(proj2 (lookup_ge_None _ _)) by (rewrite length_take; lia)].
    destruct (decide (k < Z.to_nat room)%nat).
    - rewrite !lookup_take_lt by (unfold zlen in *; lia). done.
    - rewrite !lookup_take_ge by lia. done. }
  assert (zlen (a_stored idVendor repair room payload) = n) as Hsl2 by (rewrite stored_length by lia; lia).
  assert (queue_rel (rx_queue rx2) m' (a_receive (a_cur a ++ a_stored idVendor repair room payload) a)) as Hr2.
  { rewrite Eq. unfold rx1. cbn [rx_queue set_rx_queue q_buffer set_q_mem].
    pose proof (append_rel _ m m' a i rest (a_stored idVendor repair room payload) b Hr Hf Hact Hb) as Hap.
    cbv zeta in Hap. fold dest in Hap. rewrite zlen_app, Hsl2 in Hap.
    rewrite u32_small by (split; lia). apply Hap; [| by rewrite Est | lia].
    etrans; [|done]. eapply same_outside_widen; [..|done]; lia. }
  destruct (end_payload_rel (len - s0 >? room) s1 rx2 m' _ i rest Hr2 Hf eq_refl) as (rx' & E & Hr' & Hv).
  { intros Ho. bool_props. cbn. rewrite zlen_app. lia. }
  exists repair, rx', m'. cbv zeta. rewrite Hpl. split; [done|]. split; [done|].
  destruct Hv as (Hv1 & Hv2 & Hv3 & Hv4 & Hv5).
  split; [destruct S1, S2; congruence|]. split.
  { unfold temp_ok in *. by rewrite Hv3, Hv4. }
  split_and!; [by rewrite Hv1, El | by rewrite Hv2, Ef | by rewrite Hv5, Ew | done].
Qed.

(** ** Packets *)

(** What a packet descriptor and the transfer buffer say: [None] is a packet that
    was lost, has no valid header, or is marked as erroneous. *)
Definition parse_packet (tb : mem) (d : iso_packet) (fid0 last0 : Z) : option apacket :=
  let off := iso_offset d in
  let len := iso_actual_length d in
  let h0 := default 0 (byte_at tb off) in
  let h1 := default 0 (byte_at tb (off + 1)) in
  if (iso_status d <? 0) || (len <? 2) || ((h0 <? 2) || (h0 >? len)) || bit_set h1 UVC_STREAM_ERR
  then None
  else Some {| ap_fid := default 0 (packet_fid idVendor tb off len h1 fid0 last0);
               ap_eof := bit_set h1 UVC_STREAM_EOF;
               ap_payload := take (Z.to_nat (len - h0)) (drop (Z.to_nat (off + h0)) tb) |}.

(** The state of the assembler: the last two identifiers, the queue, and the
    buffers finished so far. *)
Record asm := mk_asm { s_fid : Z; s_last : Z; s_queue : aqueue; s_done : list nat }.

Definition a_decode (repair : bool) (tb : mem) (d : iso_packet) (s : asm) : asm :=
  match parse_packet tb d (s_fid s) (s_last s) with
  | None => s
  | Some p =>
      let '(last, a, w) := a_packet idVendor repair p (s_last s) (s_queue s) in
      mk_asm (ap_fid p) last a (s_done s ++ w)
  end.

(** The packets of a URB. The driver needs a buffer for every packet that was
    received, even one it drops. *)
Fixpoint a_urb (repairs : list bool) (tb : mem) (ds : list iso_packet) (s : asm) : option asm :=
  match ds with
  | [] => Some s
  | d :: ds =>
      if (0 <=? iso_status d) && (length (a_fill (s_queue s)) =? 0)%nat then None
      else a_urb (tail repairs) tb ds (a_decode (default false (head repairs)) tb d s)
  end.

(** A packet as the USB core delivers it. *)
Definition packet_ok (tb : mem) (d : iso_packet) : Prop :=
  0 <= iso_offset d /\ 0 <= iso_actual_length d <= 1000 /\
  iso_offset d + iso_actual_length d <= zlen tb.

(** The handler's state stands for the assembler's. *)
Record rx_rel (rx : uvc_rx) (m : mem) (s : asm) : Prop := {
  xr_queue : queue_rel (rx_queue rx) m (s_queue s);
  xr_temp : temp_ok rx;
  xr_fid : fid rx = s_fid s;
  xr_last : last_fid rx = s_last s;
  xr_woken : woken rx = s_done s
}.

Lemma packet_fid_total tb off len s1 f l : 0 <= off -> off + len <= zlen tb ->
  exists f', packet_fid idVendor tb off len s1 f l = Some f'.
Proof.
  intros Ho Hl. unfold packet_fid. case_if; [|eauto]. destruct (len >=? 16) eqn:E; [|eauto].
  bool_props.
  destruct (match_bytes_total tb [0xFF; 0xD8; 0xFF] (off + 12)) as [m1 ->];
    [lia | change (zlen [255; 216; 255]) with 3; lia |]. cbn [mbind option_bind].
  destruct (match_bytes_total tb [0xD8; 0xFF; 0xC4] (off + 12)) as [m2 ->];
    [lia | change (zlen [216; 255; 196]) with 3; lia |].
  destruct m1; cbn [mbind option_bind]; eauto.
Qed.

(** Making the first buffer active. *)
Lemma activate_rx rx m a i rest b : queue_rel (rx_queue rx) m a -> a_fill a = i :: rest ->
  q_buffer (rx_queue rx) !! i = Some b ->
  exists rx1, (if negb (state_eqb (state b) VIDEOBUF_ACTIVE)
               then update_rx i (set_state VIDEOBUF_ACTIVE) rx else Some rx) = Some rx1 /\
    queue_rel (rx_queue rx1) m (a_receive (a_cur a) a) /\ same_vars rx rx1 [].
Proof.
  intros Hr Hf Hb. destruct (rel_filling _ m a i rest Hr Hf) as (b0 & Hb0 & _ & _ & Hs & _).
  rewrite Hb in Hb0. injection Hb0 as <-. rewrite Hs. destruct (a_active a) eqn:Ea.
  - exists rx. split; [done|]. split; [|by repeat split; rewrite app_nil_r].
    replace (a_receive (a_cur a) a) with a; [done|]. unfold a_receive. rewrite <- Ea. by destruct a.
  - destruct (activate_rel _ _ _ _ _ Hr Hf) as (q' & E & Hr').
    unfold update_rx. cbn. rewrite E. eexists. split; [done|].
    split; [done|]. by repeat split; rewrite app_nil_r.
Qed.

Lemma receive_packet_rel tb src len s0 s1 f rx m a i rest payload :
  queue_rel (rx_queue rx) m a -> a_fill a = i :: rest -> temp_ok rx ->
  mem_read tb (src + s0) (len - s0) = Some payload -> len - s0 < 1000 ->
  exists repair rx' m',
    let '(last, a', w) :=
      a_packet idVendor repair (mk_ap f (bit_set s1 UVC_STREAM_EOF) payload) (last_fid rx) a in
    receive_packet idVendor kmalloc tb src len s0 s1 f i rx = Some (rx', head (a_fill a')) /\
    queue_rel (rx_queue rx') m' a' /\ zlen m' = zlen m /\ temp_ok rx' /\
    last_fid rx' = last /\ fid rx' = f /\ woken rx' = woken rx ++ w /\
    (repair = true -> idVendor = 0x1B3B).
Proof.
  intros Hr Hf Htok Hp Hlen. unfold a_packet, receive_packet. rewrite Hf.
  destruct (rel_filling _ m a i rest Hr Hf) as (b & Hb & Hi & Hg & Hs & Hu & Hh).
  cbn [rx_queue set_fid last_fid ap_fid ap_eof ap_payload]. rewrite Hb. cbn [mbind option_bind].
  assert (state_eqb (state b) VIDEOBUF_ACTIVE = a_active a) as Est
    by (rewrite Hs; by destruct (a_active a)).
  destruct (activate_rx (set_fid f rx) m a i rest b Hr Hf Hb) as
    (rx1 & E1 & Hr1 & Hl1 & Hf1 & Ht1 & Hz1 & Hw1).
  rewrite E1, Est. cbn [mbind option_bind last_fid set_fid] in *. rewrite Hl1, Hu.
  assert (temp_ok rx1) as Htok1 by (unfold temp_ok in *; by rewrite Ht1, Hz1).
  destruct (negb (a_active a) && (f =? last_fid rx)).
  { exists false, (set_fid f rx), m. split_and!; try done; [by rewrite Hf | by rewrite app_nil_r]. }
  destruct (negb (f =? last_fid rx) && negb (zlen (a_cur a) =? 0)) eqn:Enew.
  - bool_props. pose proof (zlen_nonneg (a_cur a)).
    destruct (finish_buf_rel rx1 m _ i rest Hr1 Hf) as (rx2 & rx' & -> & E2 & Hr' & Hv1 & Hv2 & Hv3 & Hv4 & Hv5);
      [cbn; lia|].
    assert (a_complete (a_receive (a_cur a) a) = a_complete a) as Ec by (unfold a_complete; cbn; by rewrite Hf).
    rewrite Ec in *. exists false, rx', m. split_and!; try done.
    + unfold temp_ok in *. by rewrite Hv3, Hv4.
    + congruence.
    + by rewrite Hv2, Hf1.
    + by rewrite Hv5, Hw1, app_nil_r.
  - destruct (store_payload_rel tb src len s0 s1 (set_last_fid f rx1) m _ i rest payload Hr1 Hf
                eq_refl Htok1 Hp Hlen) as (repair & rx' & m' & E & Hr' & Hm & Ht & Hl & Hfd & Hw & Hrep).
    exists repair, rx', m'. cbn [a_limit a_cur a_receive] in *.
    cbn [woken set_last_fid last_fid fid] in *. rewrite Hf1 in Hfd. rewrite Hw1, app_nil_r in Hw.
    destruct (_ || _) eqn:Efin; split_and!; done.
Qed.

Lemma decode_packet_rel tb d rx m s :
  rx_rel rx m s -> packet_ok tb d -> iso_status d < 0 \/ a_fill (s_queue s) <> [] ->
  exists repair rx' m',
    let s' := a_decode repair tb d s in
    decode_packet idVendor kmalloc tb d rx (head (a_fill (s_queue s))) =
      Some (rx', head (a_fill (s_queue s'))) /\
    rx_rel rx' m' s' /\ zlen m' = zlen m /\ (repair = true -> idVendor = 0x1B3B).
Proof.
  intros Hx (Ho & Ha & Hin) Hfill. unfold a_decode, parse_packet, decode_packet.
  destruct (iso_status d <? 0) eqn:Est; [by exists false, rx, m|]. cbn [orb].
  destruct (a_fill (s_queue s)) as [|i rest] eqn:Hf; [bool_props; destruct Hfill; [lia|done]|].
  cbn [head mbind option_bind].
  assert (forall p : option apacket, p = None -> exists repair rx' m',
    let s' := match p with
              | None => s
              | Some p => let '(last, a, w) := a_packet idVendor repair p (s_last s) (s_queue s) in
                          mk_asm (ap_fid p) last a (s_done s ++ w)
              end in
    Some (rx, Some i) = Some (rx', head (a_fill (s_queue s'))) /\
    rx_rel rx' m' s' /\ zlen m' = zlen m /\ (repair = true -> idVendor = 0x1B3B)) as Hdrop
    by (intros p ->; exists false, rx, m; cbv zeta; by rewrite Hf).
  destruct (iso_actual_length d <? 2) eqn:El; [by apply Hdrop|]. bool_props.
  destruct (byte_at_in tb (iso_offset d)) as [s0 Es0]; [lia|].
  destruct (byte_at_in tb (iso_offset d + 1)) as [s1 Es1]; [lia|].
  rewrite Es0. cbn [orb default from_option id mbind option_bind].
  destruct ((s0 <? 2) || (s0 >? iso_actual_length d)) eqn:Eh; [by apply Hdrop|].
  rewrite Es1. cbn [orb default from_option id mbind option_bind].
  destruct (bit_set s1 UVC_STREAM_ERR); [by apply (Hdrop None)|].
  rewrite (xr_fid _ _ _ Hx), (xr_last _ _ _ Hx).
  destruct (packet_fid_total tb (iso_offset d) (iso_actual_length d) s1 (s_fid s) (s_last s))
    as [f ->]; [lia..|]. cbn [default from_option id mbind option_bind]. bool_props.
  destruct (receive_packet_rel tb (iso_offset d) (iso_actual_length d) s0 s1 f rx m _ i rest
    (take (Z.to_nat (iso_actual_length d - s0)) (drop (Z.to_nat (iso_offset d + s0)) tb))
    (xr_queue _ _ _ Hx) Hf (xr_temp _ _ _ Hx)) as (repair & rx' & m' & Hrec);
    [apply mem_read_in; lia | lia |].
  exists repair, rx', m'. rewrite (xr_last _ _ _ Hx) in Hrec.
  destruct (a_packet _ _ _ _ _) as [[last a'] w].
  destruct Hrec as (E & Hr' & Hm & Ht & Hl & Hfd & Hw & Hrep). split_and!; try done.
  split; try done. cbn. by rewrite Hw, (xr_woken _ _ _ Hx).
Qed.

Lemma decode_packets_rel tb ds : Forall (packet_ok tb) ds -> forall rx m s, rx_rel rx m s ->
  exists repairs, length repairs = length ds /\
    (idVendor <> 0x1B3B -> Forall (eq false) repairs) /\
    match a_urb repairs tb ds s with
    | None => decode_packets idVendor kmalloc tb ds rx (head (a_fill (s_queue s))) = None
    | Some s' => exists rx' m',
        decode_packets idVendor kmalloc tb ds rx (head (a_fill (s_queue s))) = Some rx' /\
        rx_rel rx' m' s' /\ zlen m' = zlen m
    end.
Proof.
  induction 1 as [|d ds Hd _ IH]; intros rx m s Hx; cbn [a_urb decode_packets].
  { exists []. split_and!; [done..|]. by exists rx, m. }
  destruct ((0 <=? iso_status d) && (length (a_fill (s_queue s)) =? 0)%nat) eqn:E.
  - apply andb_true_iff in E as [E1%Z.leb_le E2%Nat.eqb_eq%length_zero_iff_nil].
    exists (false :: replicate (length ds) false). split; [cbn; by rewrite length_replicate|].
    split; [intros _; constructor; [done|]; by apply Forall_replicate|].
    unfold decode_packet. destruct (Z.ltb_spec (iso_status d) 0); [lia|]. by rewrite E2.
  - destruct (decode_packet_rel tb d rx m s Hx Hd) as (repair & rx1 & m1 & E1 & Hx1 & Hm1 & Hrep).
    { apply andb_false_iff in E as [E%Z.leb_gt|E%Nat.eqb_neq]; [by left|]. right. intros E0. by rewrite E0 in E. }
    rewrite E1. cbn [mbind option_bind].
    destruct (IH rx1 m1 _ Hx1) as (repairs & Hlen & Hfalse & H).
    exists (repair :: repairs). split; [cbn; lia|]. split.
    { intros Hv. constructor; [|by apply Hfalse]. destruct repair; [by destruct Hv; apply Hrep|done]. }
    cbn [tail head default]. destruct (a_urb _ _ _ _) as [s'|]; [|done].
    destruct H as (rx' & m' & ? & ? & ?). exists rx', m'. split_and!; try done. lia.
Qed.

End Refines.

(** ** Whole frames *)

(** The head buffer can take packets with identifier [f]. *)
Definition takes (f : Z) (s : asm) : Prop :=
  (a_active (s_queue s) = true /\ s_last s = f) \/
  (a_active (s_queue s) = false /\ a_cur (s_queue s) = [] /\ s_last s <> f).

(** The bytes of a payload that fits, as they are stored. *)
Definition stored_bytes (idVendor : Z) (payload : mem) : mem :=
  if needs_repair idVendor false payload then take (length payload) (0xFF :: payload) else payload.

(** The repair looks at the payload alone. *)
Definition long_enough (idVendor : Z) (p : apacket) : Prop :=
  idVendor = 0x1B3B -> 3 <= zlen (ap_payload p).

Lemma stored_bytes_length idVendor payload : zlen (stored_bytes idVendor payload) = zlen payload.
Proof. unfold stored_bytes, zlen. case_if; [|done]. rewrite length_take. cbn. lia. Qed.

(** The assembler after a packet that fits. *)
Lemma a_packet_fits idVendor stale f eof payload s i rest :
  takes f s -> a_fill (s_queue s) = i :: rest -> long_enough idVendor (mk_ap f eof payload) ->
  zlen (a_cur (s_queue s)) + zlen payload <= a_limit (s_queue s) ->
  let a1 := a_receive (a_cur (s_queue s) ++ stored_bytes idVendor payload) (s_queue s) in
  a_packet idVendor stale (mk_ap f eof payload) (s_last s) (s_queue s) =
  if eof && negb (zlen (a_cur a1) =? 0) then (f, a_complete a1, [i]) else (f, a1, []).
Proof.
  intros Ht Hf Hlong Hfit a1. unfold a_packet. rewrite Hf. cbn [ap_fid ap_eof ap_payload].
  assert (a_stored idVendor stale (a_limit (s_queue s) - zlen (a_cur (s_queue s))) payload =
          stored_bytes idVendor payload) as ->.
  { unfold a_stored, stored_bytes. rewrite take_ge by (unfold zlen in *; lia).
    assert (needs_repair idVendor stale payload = needs_repair idVendor false payload) as ->; [|done].
    unfold needs_repair. destruct (Z.eqb_spec idVendor 0x1B3B) as [Hv|]; [|done].
    specialize (Hlong Hv). cbn in Hlong. unfold zlen in Hlong.
    destruct (Nat.ltb_spec (length payload) 3); [lia|done]. }
  fold a1. destruct (_ >? _) eqn:Eo; bool_props; [lia|]. cbn [orb].
  destruct Ht as [[-> ->]|(-> & Hc & Hl)].
  - rewrite Z.eqb_refl. done.
  - destruct (Z.eqb_spec f (s_last s)); [congruence|]. cbn [negb andb]. by rewrite Hc.
Qed.

Section Frame.
Context (idVendor : Z) (tb : mem).

(** The packets that descriptors stand for, each read after the ones before it were
    taken: [None] if one of them is lost, has no valid header, or is marked as
    erroneous. *)
Fixpoint parse_packets (ds : list iso_packet) (fid0 last0 : Z) : option (list apacket) :=
  match ds with
  | [] => Some []
  | d :: ds =>
      p ← parse_packet idVendor tb d fid0 last0;
      ps ← parse_packets ds (ap_fid p) (ap_fid p);
      Some (p :: ps)
  end.

Lemma parse_received d f l p : parse_packet idVendor tb d f l = Some p -> 0 <= iso_status d.
Proof. unfold parse_packet. destruct (Z.ltb_spec (iso_status d) 0); [done|lia]. Qed.

Lemma a_urb_frame f p ps : Forall (fun p => ap_fid p = f /\ ap_eof p = false) ps ->
  ap_fid p = f -> ap_eof p = true -> Forall (long_enough idVendor) (ps ++ [p]) ->
  forall ds s i rest,
  parse_packets ds (s_fid s) (s_last s) = Some (ps ++ [p]) ->
  takes f s -> a_fill (s_queue s) = i :: rest ->
  let frame := a_cur (s_queue s) ++ concat ((stored_bytes idVendor ∘ ap_payload) <$> (ps ++ [p])) in
  0 < zlen frame <= a_limit (s_queue s) ->
  forall repairs,
  a_urb idVendor repairs tb ds s =
  Some (mk_asm f f (mk_aqueue (a_count (s_queue s)) (a_limit (s_queue s))
                      (a_ready (s_queue s) ++ [(i, frame)]) rest false [])
          (s_done s ++ [i])).
Proof.
  intros Hps Hpf Hpe. destruct p as [pf pe pl]. cbn [ap_fid ap_eof] in Hpf, Hpe. subst pf pe.
  induction Hps as [|[pf1 pe1 pl1] ps [Hp1f Hp1e] _ IH]; intros Hlong ds s i rest Hds Ht Hf frame Hlen repairs;
    (destruct ds as [|d ds]; [done|]); cbn [app parse_packets] in Hds;
    apply bind_Some in Hds as (p' & Hp' & (ps' & Hps' & [= -> ->])%bind_Some);
    cbn [app] in Hlong; apply Forall_cons in Hlong as [Hl1 Hlong];
    pose proof (parse_received _ _ _ _ Hp') as Hst; cbn [a_urb];
    rewrite Hf; cbn [length Nat.eqb]; rewrite andb_false_r; unfold a_decode; rewrite Hp';
    cbn [app fmap list_fmap concat compose ap_payload] in frame.
  - assert (ds = []) as ->.
    { destruct ds as [|d1 ds]; [done|]. cbn [parse_packets] in Hps'.
      by apply bind_Some in Hps' as (? & _ & (? & _ & ?)%bind_Some). }
    rewrite (a_packet_fits idVendor _ f true pl s i rest Ht Hf Hl1).
    2:{ subst frame. rewrite app_nil_r, zlen_app, stored_bytes_length in Hlen. lia. }
    cbn [a_cur a_receive]. subst frame. rewrite app_nil_r in *.
    destruct (Z.eqb_spec (zlen (a_cur (s_queue s) ++ stored_bytes idVendor pl)) 0); [lia|].
    cbn [negb andb]. unfold a_complete. cbn [a_fill a_receive]. by rewrite Hf.
  - cbn [ap_fid ap_eof] in Hp1f, Hp1e. subst pf1 pe1 frame.
    rewrite (a_packet_fits idVendor _ f false pl1 s i rest Ht Hf Hl1).
    2:{ rewrite !zlen_app, stored_bytes_length in Hlen.
        pose proof (zlen_nonneg (concat ((stored_bytes idVendor ∘ ap_payload) <$> (ps ++ [mk_ap f true pl])))).
        lia. }
    cbn [negb andb ap_fid].
    rewrite (IH Hlong ds _ i rest); try done.
    + cbn. by rewrite app_nil_r, <- !app_assoc.
    + by left.
    + cbn [s_queue a_cur a_receive a_limit]. by rewrite <- app_assoc.
Qed.
End Frame.

(** The handler decodes the packets from the first waiting buffer on. *)
Lemma complete_decode idVendor kmalloc urb rx m s : urb_status urb = 0 -> rx_rel rx m s ->
  myuvc_video_complete idVendor kmalloc urb rx =
  (rx' ← decode_packets idVendor kmalloc (transfer_buffer urb) (iso_frame_desc urb) rx
           (head (a_fill (s_queue s)));
   Some (rx', true)).
Proof.
  intros Hst Hx. unfold myuvc_video_complete. rewrite Hst. change (negb (0 =? 0)) with false.
  cbv iota. by rewrite (next_buf_rel _ _ _ (xr_queue _ _ _ Hx)).
Qed.

(** * Properties *)

(** C13. The completion handler implements the frame assembler: for a URB whose
    packets lie in its transfer buffer, the handler faults exactly when a packet
    arrives while no buffer is queued, and otherwise leaves the queue, the frame
    identifiers and the wake-ups as the assembler says, with every finished frame
    in memory, and submits the URB again. Only for the vendor with the ip2970 does
    it alter payloads, and then those that start with D8 FF C4; the flags [repairs]
    matter only for payloads of less than three bytes, where that depends on what the
    buffer held before. *)
Theorem video_complete_refines idVendor kmalloc urb rx m s :
  kmalloc_ok idVendor kmalloc -> rx_rel rx m s ->
  Forall (packet_ok (transfer_buffer urb)) (iso_frame_desc urb) -> urb_status urb = 0 ->
  exists repairs, length repairs = length (iso_frame_desc urb) /\
    (idVendor <> 0x1B3B -> Forall (eq false) repairs) /\
    match a_urb idVendor repairs (transfer_buffer urb) (iso_frame_desc urb) s with
    | None => myuvc_video_complete idVendor kmalloc urb rx = None
    | Some s' => exists rx' m',
        myuvc_video_complete idVendor kmalloc urb rx = Some (rx', true) /\
        rx_rel rx' m' s' /\ zlen m' = zlen m
    end.
Proof.
  intros Hk Hx Hp Hst. rewrite (complete_decode _ _ _ _ _ _ Hst Hx).
  destruct (decode_packets_rel idVendor kmalloc Hk _ _ Hp rx m s Hx) as (repairs & Hl & Hf & H).
  exists repairs. split; [done|]. split; [done|].
  destruct (a_urb _ _ _ _) as [s'|].
  - destruct H as (rx' & m' & -> & Hx' & Hm). by exists rx', m'.
  - by rewrite H.
Qed.

(** Buffer 0 of the sample queue waits for data. *)
Definition waiting_queue : myuvc_queue :=
  default zero_queue (snd <$> myuvc_vidioc_qbuf (mk_vbuf 0 1 0 0 0 (0, 0) 0 1 0 0 0) sample_queue).
Definition waiting : aqueue := mk_aqueue 2 100 [] [0%nat] false [].
Definition waiting_rx : uvc_rx := mk_rx waiting_queue (-1) 0 None 1000 [].

Lemma waiting_rel : rx_rel waiting_rx sample_mem (mk_asm 0 (-1) waiting []).
Proof.
  split; try done.
  pose proof (qbuf_rel sample_queue sample_mem (a_new 2 100)
                (mk_vbuf 0 1 0 0 0 (0, 0) 0 1 0 0 0) sample_rel ltac:(cbn; lia)) as H.
  cbn -[myuvc_vidioc_qbuf] in H. destruct H as (q' & E & Hr).
  unfold waiting_rx, waiting_queue. cbn [rx_queue]. by rewrite E.
Qed.

(** Two packets of a frame of six bytes: the first bytes of the headers are
    their length and flags. *)
Definition sample_urb : urb_done :=
  mk_urb 0 [2; 0; 10; 11; 12; 0; 0; 0; 2; 2; 13; 14; 15; 0; 0; 0]
    [mk_iso 0 8 5 0; mk_iso 8 8 5 0].

Lemma sample_urb_ok : Forall (packet_ok (transfer_buffer sample_urb)) (iso_frame_desc sample_urb).
Proof.
  apply Forall_forall. intros d [->|[->|[]%not_elem_of_nil]%elem_of_cons]%elem_of_cons;
    unfold packet_ok, zlen; cbn; lia.
Qed.

Lemma video_complete_refines_witness :
  exists repairs, length repairs = 2%nat /\ (0x046D <> 0x1B3B -> Forall (eq false) repairs) /\
    match a_urb 0x046D repairs (transfer_buffer sample_urb) (iso_frame_desc sample_urb)
            (mk_asm 0 (-1) waiting []) with
    | None => myuvc_video_complete 0x046D (fun _ => None) sample_urb waiting_rx = None
    | Some s' => exists rx' m',
        myuvc_video_complete 0x046D (fun _ => None) sample_urb waiting_rx = Some (rx', true) /\
        rx_rel rx' m' s' /\ zlen m' = zlen sample_mem
    end.
Proof.
  apply (video_complete_refines 0x046D (fun _ => None) sample_urb waiting_rx sample_mem
           (mk_asm 0 (-1) waiting [])).
  - intros E. discriminate E.
  - apply waiting_rel.
  - apply sample_urb_ok.
  - reflexivity.
Defined.

(** A packet of the ip2970 with a picture that starts with D8 FF C4, and one with
    the end of the picture, each with a header of twelve bytes. *)
Definition ip2970_urb : urb_done :=
  mk_urb 0 (([12; 0] ++ replicate 10 0 ++ [0xD8; 0xFF; 0xC4; 1; 2; 3]) ++
            ([12; 2] ++ replicate 10 0 ++ [7; 8; 9]))
    [mk_iso 0 18 18 0; mk_iso 18 18 15 0].

(** C14. A frame arrives end to end, for every vendor: when the packets of a URB
    that was received without error, read one after the other, all carry the
    identifier of a frame that the first waiting buffer takes (it is being received,
    or the identifier is a new one), only the last has the end-of-frame flag, and the
    frame fits the buffer, the handler fills that buffer, wakes its reader, and the
    next [VIDIOC_DQBUF] hands the application that buffer with exactly the bytes
    received before and those of the payloads, in order (given no older frame is
    waiting). The bytes are the payloads themselves, except for the ip2970/ip2977
    (vendor 0x1B3B, whose payloads are assumed to have at least three bytes, and for
    which the temporary block must be allocated): a payload that starts with D8 FF C4
    is stored with FF before it and without its last byte. *)
Theorem frame_end_to_end idVendor kmalloc urb rx m s ps p f i rest v :
  kmalloc_ok idVendor kmalloc -> rx_rel rx m s ->
  Forall (packet_ok (transfer_buffer urb)) (iso_frame_desc urb) -> urb_status urb = 0 ->
  parse_packets idVendor (transfer_buffer urb) (iso_frame_desc urb) (s_fid s) (s_last s) =
    Some (ps ++ [p]) ->
  Forall (fun p => ap_fid p = f /\ ap_eof p = false) ps -> ap_fid p = f -> ap_eof p = true ->
  Forall (long_enough idVendor) (ps ++ [p]) ->
  takes f s -> a_fill (s_queue s) = i :: rest -> a_ready (s_queue s) = [] ->
  let frame := a_cur (s_queue s) ++
               concat ((stored_bytes idVendor ∘ ap_payload) <$> (ps ++ [p])) in
  0 < zlen frame <= a_limit (s_queue s) ->
  exists rx' m' b q',
    myuvc_video_complete idVendor kmalloc urb rx = Some (rx', true) /\
    woken rx' = woken rx ++ [i] /\
    q_mem (rx_queue rx') = Some m' /\
    myuvc_vidioc_dqbuf v (rx_queue rx') = Some (0, b, q') /\
    vb_index b = Z.of_nat i /\ mem_read m' (vb_m b) (vb_bytesused b) = Some frame.
Proof.
  intros Hk Hx Hok Hst Hds Hpsf Hpf Hpe Hlong Ht Hf Hr frame Hlen.
  rewrite (complete_decode _ _ _ _ _ _ Hst Hx).
  destruct (decode_packets_rel idVendor kmalloc Hk _ _ Hok rx m s Hx) as (repairs & _ & _ & H).
  rewrite (a_urb_frame idVendor _ f p ps Hpsf Hpf Hpe Hlong _ s i rest Hds Ht Hf Hlen) in H.
  destruct H as (rx' & m' & -> & Hx' & Hm). exists rx', m'.
  assert (Hq := xr_queue _ _ _ Hx'). cbn [s_queue] in Hq.
  pose proof (dqbuf_rel _ _ _ v Hq) as Hdq. rewrite Hr in Hdq. cbn [a_dqbuf a_ready app] in Hdq.
  destruct Hdq as (b & q' & E & Hi & Hu & Hrd & _). exists b, q'.
  cbn [mbind option_bind]. split_and!; try done.
  - rewrite (xr_woken _ _ _ Hx'), (xr_woken _ _ _ Hx). done.
  - apply Hq.
Qed.

Lemma frame_end_to_end_witness :
  exists rx' m' b q',
    myuvc_video_complete 0x1B3B (fun n => Some (replicate (Z.to_nat n) 0)) ip2970_urb waiting_rx =
      Some (rx', true) /\
    woken rx' = [0%nat] /\ q_mem (rx_queue rx') = Some m' /\
    myuvc_vidioc_dqbuf zero_buffer (rx_queue rx') = Some (0, b, q') /\
    vb_index b = 0 /\
    mem_read m' (vb_m b) (vb_bytesused b) = Some [0xFF; 0xD8; 0xFF; 0xC4; 1; 2; 7; 8; 9].
Proof.
  apply (frame_end_to_end 0x1B3B (fun n => Some (replicate (Z.to_nat n) 0)) ip2970_urb waiting_rx
           sample_mem (mk_asm 0 (-1) waiting [])
           [mk_ap 0 false [0xD8; 0xFF; 0xC4; 1; 2; 3]] (mk_ap 0 true [7; 8; 9]) 0 0%nat [] zero_buffer).
  - intros _ n Hn. eexists. split; [reflexivity|]. rewrite zlen_replicate. lia.
  - apply waiting_rel.
  - apply Forall_forall. intros d [->|[->|[]%not_elem_of_nil]%elem_of_cons]%elem_of_cons;
      unfold packet_ok, zlen; cbn; lia.
  - reflexivity.
  - reflexivity.
  - repeat constructor.
  - reflexivity.
  - reflexivity.
  - repeat constructor; intros _; vm_compute; discriminate.
  - right. split_and!; [reflexivity..|]. discriminate.
  - reflexivity.
  - reflexivity.
  - vm_compute. split; [reflexivity | discriminate].
Defined.

(** A frame without an end-of-frame flag is ended by the first packet of the
    next one, and that packet is lost: the result does not depend on what the
    packet carries, and the memory of the buffers does not change. *)
Theorem toggle_discards idVendor kmalloc rx m a i rest f :
  queue_rel (rx_queue rx) m a -> a_fill a = i :: rest -> a_active a = true ->
  0 < zlen (a_cur a) -> f <> last_fid rx ->
  exists rx',
    queue_rel (rx_queue rx') m (a_complete a) /\ last_fid rx' = last_fid rx /\
    woken rx' = woken rx ++ [i] /\
    forall tb src len s0 s1,
      receive_packet idVendor kmalloc tb src len s0 s1 f i rx = Some (rx', head rest).
Proof.
  intros Hr Hf Hact Hc Hne.
  destruct (rel_filling _ m a i rest Hr Hf) as (b & Hb & _ & _ & Hs & Hu & _).
  destruct (finish_buf_rel (set_fid f rx) m a i rest Hr Hf Hc) as
    (rx1 & rx' & E1 & E2 & Hr' & Hl & _ & _ & _ & Hw).
  exists rx'. split_and!; [done..|]. intros. unfold receive_packet.
  cbn [rx_queue set_fid]. rewrite Hb. cbn [mbind option_bind]. rewrite Hs, Hact.
  change (state_eqb VIDEOBUF_ACTIVE VIDEOBUF_ACTIVE) with true.
  cbn [negb andb mbind option_bind last_fid set_fid]. rewrite Hu.
  destruct (Z.eqb_spec f (last_fid rx)); [done|].
  destruct (Z.eqb_spec (zlen (a_cur a)) 0); [lia|]. cbn [negb andb].
  rewrite E1. cbn [mbind option_bind]. rewrite E2.
  unfold a_complete. by rewrite Hf.
Qed.

(** The sample queue with one byte received. *)
Definition partial_urb : urb_done := mk_urb 0 [2; 1; 77] [mk_iso 0 3 3 0].
Definition partial_rx : uvc_rx :=
  default initial_rx (fst <$> myuvc_video_complete 0x046D (fun _ => None) partial_urb waiting_rx).

Lemma partial_rel : exists m,
  rx_rel partial_rx m (mk_asm 1 1 (mk_aqueue 2 100 [] [0%nat] true [77]) []).
Proof.
  destruct (decode_packets_rel 0x046D (fun _ => None) ltac:(intros [=]) [2; 1; 77]
              [mk_iso 0 3 3 0]) with (2 := waiting_rel) as (repairs & _ & Hf & H).
  { constructor; [|constructor]. unfold packet_ok, zlen. cbn. lia. }
  assert (default false (head repairs) = false) as Er
    by (assert (Hrep : Forall (eq false) repairs) by (by apply Hf); by destruct Hrep).
  assert (a_urb 0x046D repairs [2; 1; 77] [mk_iso 0 3 3 0] (mk_asm 0 (-1) waiting []) =
          Some (mk_asm 1 1 (mk_aqueue 2 100 [] [0%nat] true [77]) [])) as Ea
    by (cbn [a_urb]; rewrite Er; reflexivity).
  rewrite Ea in H. destruct H as (rx' & m' & E & Hx & _). exists m'.
  unfold partial_rx. rewrite (complete_decode _ _ partial_urb _ _ _ eq_refl waiting_rel).
  change (transfer_buffer partial_urb) with [2; 1; 77].
  change (iso_frame_desc partial_urb) with [mk_iso 0 3 3 0]. by rewrite E.
Qed.

Lemma toggle_discards_witness :
  exists m rx',
    queue_rel (rx_queue rx') m (a_complete (mk_aqueue 2 100 [] [0%nat] true [77])) /\
    last_fid rx' = last_fid partial_rx /\ woken rx' = woken partial_rx ++ [0%nat] /\
    forall tb src len s0 s1,
      receive_packet 0x046D (fun _ => None) tb src len s0 s1 0 0%nat partial_rx = Some (rx', None).
Proof.
  destruct partial_rel as [m Hx]. exists m.
  apply (toggle_discards 0x046D (fun _ => None) partial_rx m
           (mk_aqueue 2 100 [] [0%nat] true [77]) 0%nat [] 0 (xr_queue _ _ _ Hx)).
  - reflexivity.
  - reflexivity.
  - reflexivity.
  - rewrite (xr_last _ _ _ Hx). discriminate.
Defined.
