(* ===== verification/UvcStream.v ===== *)
(** Streaming in the UVC driver [src/myuvc/10_th/uvc.c]: the URBs
    ([myuvc_alloc_init_urbs], [myuvc_uninit_urbs]), [VIDIOC_STREAMON] and
    [VIDIOC_STREAMOFF].

    The USB core is an interface: a class of operations on the state of the bus
    and a class of the laws the driver relies on. *)
From S2P Require Import Prelude Klist V4l2 UsbUrb UvcParams UvcQueue UvcDecode.
Open Scope Z_scope.

(** * The USB core *)

(** The members [myuvc_alloc_init_urbs] fills in; the packet descriptors are
    offset and length. *)
Record urb_setup := mk_setup {
  us_endpoint : Z;
  us_transfer_flags : Z;
  us_interval : Z;
  us_transfer_buffer : option nat;
  us_number_of_packets : Z;
  us_transfer_buffer_length : Z;
  us_iso_frame_desc : list (Z * Z)
}.

(** Buffers and URBs are named by handles; [live_bufs] and [live_urbs] are the
    objects allocated and not yet freed. *)
Class UsbCore (dev : Type) := {
  control_msg : usb_request -> dev -> Z * mem * dev;
  usb_set_interface : Z -> Z -> dev -> dev;
  usb_buffer_alloc : Z -> dev -> option nat * dev;
  usb_buffer_free : Z -> nat -> dev -> dev;
  usb_alloc_urb : Z -> dev -> option nat * dev;
  usb_free_urb : nat -> dev -> dev;
  fill_urb : nat -> urb_setup -> dev -> dev;
  submit_urb : nat -> dev -> Z * dev;
  usb_kill_urb : nat -> dev -> dev;
  live_bufs : dev -> gset nat;
  live_urbs : dev -> gset nat
}.

(** An allocation adds a fresh handle or fails and changes nothing, freeing
    removes the handle, and nothing else touches what is allocated. *)
Class UsbLaws (dev : Type) `{UsbCore dev} := {
  control_live rq d : let '(_, data, d') := control_msg rq d in
    (zlen data = zlen (rq_data rq) /\ Forall is_u8 data) /\
    live_bufs d' = live_bufs d /\ live_urbs d' = live_urbs d;
  interface_live i s d : live_bufs (usb_set_interface i s d) = live_bufs d /\
    live_urbs (usb_set_interface i s d) = live_urbs d;
  buffer_alloc_live n d : let '(r, d') := usb_buffer_alloc n d in
    live_urbs d' = live_urbs d /\
    match r with Some h => (h ∉ live_bufs d) /\ live_bufs d' = {[h]} ∪ live_bufs d
            | None => live_bufs d' = live_bufs d end;
  urb_alloc_live n d : let '(r, d') := usb_alloc_urb n d in
    live_bufs d' = live_bufs d /\
    match r with Some h => (h ∉ live_urbs d) /\ live_urbs d' = {[h]} ∪ live_urbs d
            | None => live_urbs d' = live_urbs d end;
  buffer_free_live n h d : live_bufs (usb_buffer_free n h d) = live_bufs d ∖ {[h]} /\
    live_urbs (usb_buffer_free n h d) = live_urbs d;
  urb_free_live h d : live_urbs (usb_free_urb h d) = live_urbs d ∖ {[h]} /\
    live_bufs (usb_free_urb h d) = live_bufs d;
  fill_live h u d : live_bufs (fill_urb h u d) = live_bufs d /\
    live_urbs (fill_urb h u d) = live_urbs d;
  submit_live h d : let '(r, d') := submit_urb h d in r <= 0 /\
    live_bufs d' = live_bufs d /\ live_urbs d' = live_urbs d;
  kill_live h d : live_bufs (usb_kill_urb h d) = live_bufs d /\
    live_urbs (usb_kill_urb h d) = live_urbs d
}.

(** [usb_submit_urb] refuses NULL. *)
Definition usb_submit_urb {dev} `{UsbCore dev} (u : option nat) (d : dev) : Z * dev :=
  match u with None => (- EINVAL, d) | Some h => submit_urb h d end.

(** * URBs *)

Definition MYUVC_URBS : nat := 5.
Definition wMaxPacketSize : Z := 800.
Definition myuvc_bEndpointAddress : Z := 0x82.
Definition myuvc_streaming_bAlternateSetting : Z := 5.
Section Urbs.
Context {dev : Type} `{UsbCore dev}.

(** One round of the loop of [myuvc_uninit_urbs]. *)
Definition uninit_urb (i : nat) (q : myuvc_queue) (d : dev) : myuvc_queue * dev :=
  let '(bs, d) := match q_urb_buffer q !! i with
                  | Some (Some h) => (<[i := None]> (q_urb_buffer q),
                                      usb_buffer_free (q_urb_size q) h d)
                  | _ => (q_urb_buffer q, d)
                  end in
  let '(us, d) := match q_urb q !! i with
                  | Some (Some h) => (<[i := None]> (q_urb q), usb_free_urb h d)
                  | _ => (q_urb q, d)
                  end in
  (set_q_urbs us bs (q_urb_size q) q, d).

Fixpoint uninit_loop (todo i : nat) (q : myuvc_queue) (d : dev) : myuvc_queue * dev :=
  match todo with
  | O => (q, d)
  | S todo => let '(q, d) := uninit_urb i q d in uninit_loop todo (S i) q d
  end.

Definition myuvc_uninit_urbs (q : myuvc_queue) (d : dev) : myuvc_queue * dev :=
  uninit_loop MYUVC_URBS 0 q d.

(** The number of packets of a URB and the size of its buffer. *)
Definition urb_npackets (frame_size : Z) : Z :=
  let npackets := DIV_ROUND_UP frame_size (u16 wMaxPacketSize) in
  if npackets >? 32 then 32 else npackets.

Definition urb_bytes (frame_size : Z) : Z := u32 (u16 wMaxPacketSize * urb_npackets frame_size).

(** The allocation loop: 0, or [-ENOMEM] with everything freed. *)
Fixpoint alloc_urbs (todo i : nat) (size npackets : Z) (q : myuvc_queue) (d : dev)
    : Z * myuvc_queue * dev :=
  match todo with
  | O => (0, q, d)
  | S todo =>
      let '(b, d) := usb_buffer_alloc size d in
      let '(u, d) := usb_alloc_urb npackets d in
      let q := set_q_urbs (<[i := u]> (q_urb q)) (<[i := b]> (q_urb_buffer q))
                 (q_urb_size q) q in
      match b, u with
      | Some _, Some _ => alloc_urbs todo (S i) size npackets q d
      | _, _ => let '(q, d) := myuvc_uninit_urbs q d in (- ENOMEM, q, d)
      end
  end.

Definition iso_layout (npackets : Z) : list (Z * Z) :=
  (fun j => (Z.of_nat j * u16 wMaxPacketSize, u16 wMaxPacketSize)) <$> seq 0 (Z.to_nat npackets).

Definition setup_urb (npackets size : Z) (b : option nat) : urb_setup :=
  {| us_endpoint := myuvc_bEndpointAddress;
     us_transfer_flags := Z.lor URB_ISO_ASAP URB_NO_TRANSFER_DMA_MAP;
     us_interval := 1; us_transfer_buffer := b; us_number_of_packets := npackets;
     us_transfer_buffer_length := size; us_iso_frame_desc := iso_layout npackets |}.

(** The second loop, over the URBs that the first one has allocated; there is no
    empty entry among them ([alloc_urbs_spec]). *)
Fixpoint setup_loop (todo i : nat) (size npackets : Z) (q : myuvc_queue) (d : dev) : dev :=
  match todo with
  | O => d
  | S todo =>
      let d := match default None (q_urb q !! i) with
               | Some h => fill_urb h (setup_urb npackets size (default None (q_urb_buffer q !! i))) d
               | None => d
               end in
      setup_loop todo (S i) size npackets q d
  end.

Definition myuvc_alloc_init_urbs (params : myuvc_streaming_control) (q : myuvc_queue) (d : dev)
    : Z * myuvc_queue * dev :=
  let npackets := urb_npackets (dwMaxVideoFrameSize params) in
  let size := urb_bytes (dwMaxVideoFrameSize params) in
  let q := set_q_urbs (q_urb q) (q_urb_buffer q) size q in
  let '(ret, q, d) := alloc_urbs MYUVC_URBS 0 size npackets q d in
  if ret <? 0 then (ret, q, d)
  else (0, q, setup_loop MYUVC_URBS 0 size npackets q d).

(** [for (i = 0; i < MYUVC_URBS; ++i) if ((ret = usb_submit_urb(...)) < 0) ...] *)
Fixpoint submit_loop (todo i : nat) (q : myuvc_queue) (d : dev) : Z * myuvc_queue * dev :=
  match todo with
  | O => (0, q, d)
  | S todo =>
      let '(ret, d) := usb_submit_urb (default None (q_urb q !! i)) d in
      if ret <? 0 then let '(q, d) := myuvc_uninit_urbs q d in (ret, q, d)
      else submit_loop todo (S i) q d
  end.

Fixpoint kill_loop (todo i : nat) (q : myuvc_queue) (d : dev) : dev :=
  match todo with
  | O => d
  | S todo =>
      let d := match default None (q_urb q !! i) with None => d | Some h => usb_kill_urb h d end in
      kill_loop todo (S i) q d
  end.

(** Whether the three allocations of the parameter requests succeed; the second
    one gives a block of any contents. *)
Record param_allocs := mk_pallocs { pa_try : bool; pa_get : option mem; pa_set : bool }.

(** The three requests [probe] and [streamon] make; their results are printed
    and ignored. *)
Definition negotiate (cfg : uvc_config) (pa : param_allocs) (d : dev)
    : option (myuvc_streaming_control * dev) :=
  '(_, params, d) ← myuvc_try_streaming_params control_msg cfg (pa_try pa) d;
  '(_, params, d) ← myuvc_get_streaming_params control_msg cfg (pa_get pa) params d;
  '(_, d) ← myuvc_set_streaming_params control_msg cfg (pa_set pa) params d;
  Some (params, d).

Definition myuvc_vidioc_streamon (cfg : uvc_config) (pa : param_allocs) (q : myuvc_queue) (d : dev)
    : option (Z * myuvc_streaming_control * myuvc_queue * dev) :=
  '(params, d) ← negotiate cfg pa d;
  let d := usb_set_interface (myuvc_streaming_intf cfg) myuvc_streaming_bAlternateSetting d in
  let '(_, q, d) := myuvc_alloc_init_urbs params q d in
  let '(ret, q, d) := submit_loop MYUVC_URBS 0 q d in
  Some (ret, params, q, d).

Definition myuvc_vidioc_streamoff (cfg : uvc_config) (q : myuvc_queue) (d : dev)
    : Z * myuvc_queue * dev :=
  let d := kill_loop MYUVC_URBS 0 q d in
  let '(q, d) := myuvc_uninit_urbs q d in
  (0, q, usb_set_interface (myuvc_streaming_intf cfg) 0 d).

(** [release] of the device file. *)
Definition myuvc_close (cfg : uvc_config) (q : myuvc_queue) (d : dev) : Z * myuvc_queue * dev :=
  let '(_, q, d) := myuvc_vidioc_streamoff cfg q d in (0, q, d).

End Urbs.

(** * What the driver holds *)

(** An array of handles accounts for the objects [live] that are not in [base],
    each once, in its first five entries. *)
Record slots (l : list (option nat)) (live base : gset nat) : Prop := {
  sl_len : length l = 32%nat;
  sl_high : forall j h, l !! j = Some (Some h) -> (j < MYUVC_URBS)%nat;
  sl_live : forall h, h ∈ live <-> h ∈ base \/ exists j, l !! j = Some (Some h);
  sl_fresh : forall j h, l !! j = Some (Some h) -> h ∉ base;
  sl_inj : forall j k h, l !! j = Some (Some h) -> l !! k = Some (Some h) -> j = k
}.

(** The array is empty from [i] to [j]. *)
Definition no_slots (l : list (option nat)) (i j : nat) : Prop :=
  forall k h, (i <= k < j)%nat -> l !! k <> Some (Some h).

Lemma slots_add l live base i h : slots l live base -> l !! i = Some None ->
  (i < MYUVC_URBS)%nat -> h ∉ live -> slots (<[i := Some h]> l) ({[h]} ∪ live) base.
Proof.
  intros Hs Hi Hlt Hh. assert (Hil := lookup_lt_Some _ _ _ Hi).
  assert (forall j k, <[i:=Some h]> l !! j = Some (Some k) ->
            (j = i /\ k = h) \/ (j <> i /\ l !! j = Some (Some k))) as Hcase.
  { intros j k Hj. destruct (decide (j = i)) as [->|Hne].
    - rewrite list_lookup_insert_eq in Hj by done. injection Hj as <-. by left.
    - rewrite list_lookup_insert_ne in Hj by done. by right. }
  assert (forall j k, l !! j = Some (Some k) -> k <> h) as Hnew.
  { intros j k Hj ->. apply Hh, (sl_live _ _ _ Hs). eauto. }
  split.
  - rewrite length_insert. apply Hs.
  - intros j k [[-> _]|[_ Hj]]%Hcase; [done|]. by eapply sl_high.
  - intros k. rewrite elem_of_union, elem_of_singleton, (sl_live _ _ _ Hs). split.
    + intros [->|[Hk|[j Hj]]]; [right; exists i; by apply list_lookup_insert_eq | by left |].
      right. exists j. rewrite list_lookup_insert_ne; [done|]. intros ->. congruence.
    + intros [Hk|[j [[_ ->]|[_ Hj]]%Hcase]]; [auto | auto |]. right. right. eauto.
  - intros j k [[_ ->]|[_ Hj]]%Hcase; [|by eapply sl_fresh].
    intros Hb. apply Hh, (sl_live _ _ _ Hs). by left.
  - intros j k x [[-> ->]|[Hj1 Hj2]]%Hcase [[-> E]|[Hk1 Hk2]]%Hcase; try done.
    + by apply Hnew in Hk2.
    + subst x. by apply Hnew in Hj2.
    + by eapply sl_inj.
Qed.

Lemma slots_drop l live base i h : slots l live base -> l !! i = Some (Some h) ->
  slots (<[i := None]> l) (live ∖ {[h]}) base.
Proof.
  intros Hs Hi. assert (Hil := lookup_lt_Some _ _ _ Hi).
  assert (forall j k, <[i:=None]> l !! j = Some (Some k) -> j <> i /\ l !! j = Some (Some k)) as Hcase.
  { intros j k Hj. destruct (decide (j = i)) as [->|Hne].
    - by rewrite list_lookup_insert_eq in Hj by done.
    - by rewrite list_lookup_insert_ne in Hj by done. }
  split.
  - rewrite length_insert. apply Hs.
  - intros j k [_ Hj]%Hcase. by eapply sl_high.
  - intros k. rewrite elem_of_difference, elem_of_singleton, (sl_live _ _ _ Hs). split.
    + intros [[Hk|[j Hj]] Hne]; [by left|]. right. exists j.
      rewrite list_lookup_insert_ne; [done|]. intros ->. congruence.
    + intros [Hk|[j [Hji Hj]%Hcase]].
      * split; [by left|]. intros ->. by eapply sl_fresh.
      * split; [eauto|]. intros ->. apply Hji. by eapply sl_inj.
  - intros j k [_ Hj]%Hcase. by eapply sl_fresh.
  - intros j k x [_ Hj]%Hcase [_ Hk]%Hcase. by eapply sl_inj.
Qed.

Lemma slots_empty l live base : slots l live base -> no_slots l 0 MYUVC_URBS -> live = base.
Proof.
  intros Hs Hn. apply set_eq. intros h. rewrite (sl_live _ _ _ Hs). split; [|by left].
  intros [?|[j Hj]]; [done|]. exfalso. eapply Hn; [|done].
  split; [lia|]. by eapply sl_high.
Qed.

Lemma empty_slots live : slots (replicate 32 None) live live.
Proof.
  assert (forall j h, replicate 32 (None : option nat) !! j = Some (Some h) -> False) as Hno
    by (intros j h [[=] _]%lookup_replicate).
  split; try done; try (intros; exfalso; by eapply Hno).
  intros h. split; [by left|]. intros [?|[j Hj]]; [done|]. by apply Hno in Hj.
Qed.

Section Resources.
Context {dev : Type} `{UsbLaws dev}.

(** The arrays of the queue account for what is live beyond [B] and [U]. *)
Definition held (q : myuvc_queue) (d : dev) (B U : gset nat) : Prop :=
  slots (q_urb_buffer q) (live_bufs d) B /\ slots (q_urb q) (live_urbs d) U.

(** No URB, and nothing live beyond [B] and [U]. *)
Definition idle (q : myuvc_queue) (d : dev) (B U : gset nat) : Prop :=
  held q d B U /\ no_slots (q_urb_buffer q) 0 MYUVC_URBS /\ no_slots (q_urb q) 0 MYUVC_URBS /\
  live_bufs d = B /\ live_urbs d = U.

(** Only the URB fields differ. *)
Definition same_but_urbs (q q' : myuvc_queue) : Prop :=
  exists us bs sz, q' = set_q_urbs us bs sz q.

#[export] Instance same_but_urbs_preorder : PreOrder same_but_urbs.
Proof.
  split.
  - intros q. exists (q_urb q), (q_urb_buffer q), (q_urb_size q). by destruct q.
  - intros q1 q2 q3 (us & bs & sz & ->) (us' & bs' & sz' & ->). by exists us', bs', sz'.
Qed.

Lemma no_slots_insert l i j k : no_slots l i j -> no_slots (<[k := None]> l) i j.
Proof.
  intros Hn m h Hm Hl. destruct (decide (k = m)) as [->|Hne].
  - destruct (decide (m < length l)%nat) as [Hlt|Hge].
    + by rewrite list_lookup_insert_eq in Hl by done.
    + apply lookup_lt_Some in Hl. rewrite length_insert in Hl. lia.
  - rewrite list_lookup_insert_ne in Hl by done. by eapply Hn.
Qed.

(** Freeing one entry of each array. *)
Lemma uninit_urb_spec i q (d : dev) B U : held q d B U -> 
  let '(q', d') := uninit_urb i q d in
  held q' d' B U /\ same_but_urbs q q' /\
  (forall j, no_slots (q_urb_buffer q) j i -> no_slots (q_urb_buffer q') j (S i)) /\
  (forall j, no_slots (q_urb q) j i -> no_slots (q_urb q') j (S i)).
Proof.
  intros [Hb Hu]. unfold uninit_urb.
  assert (forall l : list (option nat), (forall h, l !! i <> Some (Some h)) ->
            forall j, no_slots l j i -> no_slots l j (S i)) as Hext.
  { intros l Hl j Hn k h Hk. destruct (decide (k = i)) as [->|]; [done|]. apply Hn. lia. }
  assert (forall (l : list (option nat)) j, no_slots l j i -> no_slots (<[i := None]> l) j (S i)) as Hclr.
  { intros l j Hn k h Hk Hl. destruct (decide (k = i)) as [->|].
    - destruct (decide (i < length l)%nat); [by rewrite list_lookup_insert_eq in Hl|].
      apply lookup_lt_Some in Hl. rewrite length_insert in Hl. lia.
    - rewrite list_lookup_insert_ne in Hl by done. eapply Hn; [|done]. lia. }
  destruct (q_urb_buffer q !! i) as [[h|]|] eqn:Eb;
    (destruct (q_urb q !! i) as [[u|]|] eqn:Eu);
    (split; [split; cbn [q_urb_buffer q_urb set_q_urbs]|
             split; [by eexists _, _, _|]; split; cbn [q_urb_buffer q_urb set_q_urbs]; auto;
             intros j; apply Hext; congruence]);
    rewrite ?(proj2 (urb_free_live _ _)), ?(proj1 (urb_free_live _ _)),
      ?(proj2 (buffer_free_live _ _ _)), ?(proj1 (buffer_free_live _ _ _)); 
    try done; try (by apply slots_drop).
Qed.

Lemma uninit_loop_spec todo : forall i q (d : dev) B U, held q d B U ->
  no_slots (q_urb_buffer q) 0 i -> no_slots (q_urb q) 0 i ->
  let '(q', d') := uninit_loop todo i q d in
  held q' d' B U /\ same_but_urbs q q' /\
  no_slots (q_urb_buffer q') 0 (i + todo) /\ no_slots (q_urb q') 0 (i + todo).
Proof.
  induction todo as [|todo IH]; intros i q d B U Hh Hb Hu; cbn [uninit_loop].
  - rewrite Nat.add_0_r. split_and!; done.
  - pose proof (uninit_urb_spec i q d B U Hh) as H1. destruct (uninit_urb i q d) as [q1 d1].
    destruct H1 as (Hh1 & Hs1 & Hb1 & Hu1).
    specialize (IH (S i) q1 d1 B U Hh1 (Hb1 0%nat Hb) (Hu1 0%nat Hu)).
    destruct (uninit_loop todo (S i) q1 d1) as [q' d'].
    destruct IH as (? & ? & ? & ?). replace (i + S todo)%nat with (S i + todo)%nat by lia.
    split_and!; try done. by etrans.
Qed.

Lemma uninit_idle q (d : dev) B U : held q d B U ->
  let '(q', d') := myuvc_uninit_urbs q d in idle q' d' B U /\ same_but_urbs q q'.
Proof.
  intros Hh. unfold myuvc_uninit_urbs.
  pose proof (uninit_loop_spec MYUVC_URBS 0 q d B U Hh) as Hl.
  destruct (uninit_loop _ _ _ _) as [q' d'].
  destruct Hl as (Hh' & Hs & Hb & Hu); [intros ? ? ?; lia..|].
  split; [|done]. split_and!; try done.
  - by eapply slots_empty; [apply Hh'|].
  - by eapply slots_empty; [apply Hh'|].
Qed.

(** The first [i] entries are in use. *)
Definition all_slots (l : list (option nat)) (i : nat) : Prop :=
  forall j, (j < i)%nat -> exists h, l !! j = Some (Some h).

Lemma free_slot l live base i : slots l live base -> no_slots l i MYUVC_URBS ->
  (i < MYUVC_URBS)%nat -> l !! i = Some None.
Proof.
  intros Hs Hn Hi. assert (is_Some (l !! i)) as [[h|] Hl]; [|by eapply Hn in Hl; [|lia]|done].
  apply lookup_lt_is_Some_2. rewrite (sl_len _ _ _ Hs). unfold MYUVC_URBS in Hi. lia.
Qed.

(** One array over one round of the allocation loop. *)
Lemma slots_round l live live' base i r : slots l live base -> no_slots l i MYUVC_URBS ->
  (i < MYUVC_URBS)%nat ->
  match r with Some h => (h ∉ live) /\ live' = {[h]} ∪ live | None => live' = live end ->
  slots (<[i := r]> l) live' base /\
  (is_Some r -> all_slots l i -> no_slots (<[i := r]> l) (S i) MYUVC_URBS /\
   all_slots (<[i := r]> l) (S i)).
Proof.
  intros Hs Hn Hi Hr. assert (Hf := free_slot _ _ _ _ Hs Hn Hi). destruct r as [h|].
  - destruct Hr as [Hh ->]. split; [by apply slots_add|]. intros _ Hall. split.
    + intros k x Hk. rewrite list_lookup_insert_ne by lia. apply Hn. lia.
    + intros j Hj. destruct (decide (j = i)) as [->|].
      * exists h. apply list_lookup_insert_eq. by eapply lookup_lt_Some.
      * rewrite list_lookup_insert_ne by done. apply Hall. lia.
  - subst live'. rewrite list_insert_id by done. split; [done|]. by intros [? ?].
Qed.

(** One round of the allocation loop. *)
Lemma alloc_round i size np q (d : dev) B U : (i < MYUVC_URBS)%nat ->
  held q d B U -> no_slots (q_urb_buffer q) i MYUVC_URBS -> no_slots (q_urb q) i MYUVC_URBS ->
  all_slots (q_urb_buffer q) i -> all_slots (q_urb q) i ->
  let '(b, d1) := usb_buffer_alloc size d in
  let '(u, d2) := usb_alloc_urb np d1 in
  let q1 := set_q_urbs (<[i := u]> (q_urb q)) (<[i := b]> (q_urb_buffer q)) (q_urb_size q) q in
  held q1 d2 B U /\
  (is_Some b -> is_Some u ->
   (no_slots (q_urb_buffer q1) (S i) MYUVC_URBS /\ all_slots (q_urb_buffer q1) (S i)) /\
   (no_slots (q_urb q1) (S i) MYUVC_URBS /\ all_slots (q_urb q1) (S i))).
Proof.
  intros Hi [Hsb Hsu] Hnb Hnu Hab Hau.
  pose proof (buffer_alloc_live size d) as L1. destruct (usb_buffer_alloc size d) as [b d1].
  pose proof (urb_alloc_live np d1) as L2. destruct (usb_alloc_urb np d1) as [u d2].
  destruct L1 as [U1 L1], L2 as [B2 L2]. rewrite U1 in L2. rewrite <- B2 in L1.
  destruct (slots_round _ _ (live_bufs d2) _ i b Hsb Hnb) as [Hsb' Hb']; [done|done|].
  destruct (slots_round _ _ (live_urbs d2) _ i u Hsu Hnu) as [Hsu' Hu']; [done|done|].
  cbn zeta. split; [by split|]. intros Sb Su. split; auto.
Qed.

Lemma alloc_urbs_spec todo size np : forall i q (d : dev) B U, (i + todo = MYUVC_URBS)%nat ->
  held q d B U -> no_slots (q_urb_buffer q) i MYUVC_URBS -> no_slots (q_urb q) i MYUVC_URBS ->
  all_slots (q_urb_buffer q) i -> all_slots (q_urb q) i ->
  let '(ret, q', d') := alloc_urbs todo i size np q d in
  same_but_urbs q q' /\
  (ret = 0 /\ held q' d' B U /\ all_slots (q_urb_buffer q') MYUVC_URBS /\
     all_slots (q_urb q') MYUVC_URBS \/
   ret = - ENOMEM /\ idle q' d' B U).
Proof.
  induction todo as [|todo IH]; intros i q d B U Hsum Hh Hnb Hnu Hab Hau; cbn [alloc_urbs].
  { rewrite Nat.add_0_r in Hsum. subst i. split; [done|]. left. by split_and!. }
  pose proof (alloc_round i size np q d B U ltac:(lia) Hh Hnb Hnu Hab Hau) as Hr.
  destruct (usb_buffer_alloc size d) as [b d1]. destruct (usb_alloc_urb np d1) as [u d2].
  cbn zeta in Hr. set (q1 := set_q_urbs _ _ _ q) in *. destruct Hr as [Hh1 Hr].
  assert (same_but_urbs q q1) as Hq1 by (by eexists _, _, _).
  assert (let '(q', d') := myuvc_uninit_urbs q1 d2 in same_but_urbs q q' /\
          (- ENOMEM = 0 /\ held q' d' B U /\ all_slots (q_urb_buffer q') MYUVC_URBS /\
             all_slots (q_urb q') MYUVC_URBS \/ - ENOMEM = - ENOMEM /\ idle q' d' B U)) as Hfail.
  { pose proof (uninit_idle q1 d2 B U Hh1) as Hi. destruct (myuvc_uninit_urbs q1 d2) as [q' d'].
    destruct Hi. split; [by etrans|]. by right. }
  destruct b as [b|]; [destruct u as [u|]|]; try (by destruct (myuvc_uninit_urbs q1 d2)).
  destruct Hr as [[Hnb1 Hab1] [Hnu1 Hau1]]; [by eauto..|].
  specialize (IH (S i) q1 d2 B U ltac:(lia) Hh1 Hnb1 Hnu1 Hab1 Hau1).
  destruct (alloc_urbs todo (S i) size np q1 d2) as [[ret q'] d'].
  destruct IH as [Hq' IH]. split; [by etrans|done].
Qed.

(** What the arrays account for depends only on the live sets. *)
Lemma held_live q (d d' : dev) B U : held q d B U ->
  live_bufs d' = live_bufs d -> live_urbs d' = live_urbs d -> held q d' B U.
Proof. intros [Hb Hu] E1 E2. unfold held. by rewrite E1, E2. Qed.

Lemma submit_loop_spec todo : forall i q (d : dev) B U, held q d B U ->
  all_slots (q_urb_buffer q) MYUVC_URBS -> all_slots (q_urb q) MYUVC_URBS ->
  (i + todo <= MYUVC_URBS)%nat ->
  let '(ret, q', d') := submit_loop todo i q d in
  same_but_urbs q q' /\
  (ret = 0 /\ held q' d' B U /\ all_slots (q_urb_buffer q') MYUVC_URBS /\
     all_slots (q_urb q') MYUVC_URBS \/
   ret < 0 /\ idle q' d' B U).
Proof.
  induction todo as [|todo IH]; intros i q d B U Hh Hb Hu Hsum; cbn [submit_loop].
  { split; [done|]. left. by split_and!. }
  destruct (Hu i) as [h Ei]; [lia|]. rewrite Ei. cbn [default from_option id usb_submit_urb].
  pose proof (submit_live h d) as L. destruct (submit_urb h d) as [r d1].
  destruct L as (Hr & LB & LU). assert (Hh1 := held_live _ _ _ _ _ Hh LB LU).
  destruct (Z.ltb_spec r 0).
  - pose proof (uninit_idle q d1 B U Hh1) as Hi. destruct (myuvc_uninit_urbs q d1) as [q' d'].
    destruct Hi. split; [done|]. right. by split.
  - apply IH; try done. lia.
Qed.

(** With no URBs, submitting fails with [-EINVAL]. *)
Lemma submit_none q (d : dev) B U : idle q d B U ->
  let '(ret, q', d') := submit_loop MYUVC_URBS 0 q d in
  ret = - EINVAL /\ same_but_urbs q q' /\ idle q' d' B U.
Proof.
  intros Hi. destruct Hi as (Hh & Hb & Hu & _).
  assert (default None (q_urb q !! 0%nat) = None) as E.
  { destruct (q_urb q !! 0%nat) as [[h|]|] eqn:E0; try done.
    exfalso. eapply Hu; [|done]. unfold MYUVC_URBS. lia. }
  unfold MYUVC_URBS at 1. cbn [submit_loop]. rewrite E. cbn [usb_submit_urb].
  change (- EINVAL <? 0) with true. cbv iota.
  pose proof (uninit_idle q d B U Hh) as Hn. destruct (myuvc_uninit_urbs q d) as [q' d'].
  by destruct Hn.
Qed.

Lemma setup_loop_live size np todo : forall i q (d : dev),
  live_bufs (setup_loop todo i size np q d) = live_bufs d /\
  live_urbs (setup_loop todo i size np q d) = live_urbs d.
Proof.
  induction todo as [|todo IH]; intros i q d; cbn [setup_loop]; [done|].
  destruct (default None (q_urb q !! i)) as [h|]; [|apply IH].
  edestruct (IH (S i) q) as [-> ->]. apply fill_live.
Qed.

Lemma kill_loop_live todo : forall i q (d : dev),
  live_bufs (kill_loop todo i q d) = live_bufs d /\
  live_urbs (kill_loop todo i q d) = live_urbs d.
Proof.
  induction todo as [|todo IH]; intros i q d; cbn [kill_loop]; [done|].
  destruct (default None (q_urb q !! i)) as [h|]; [|apply IH].
  destruct (IH (S i) q (usb_kill_urb h d)) as [-> ->]. apply kill_live.
Qed.

End Resources.

(** ** Negotiation *)

Lemma pack_total cfg ctrl : exists data,
  pack_streaming_params (params_size cfg) ctrl (replicate (Z.to_nat (params_size cfg)) 0) = Some data.
Proof.
  destruct (params_size_cases cfg) as [-> | ->]; [rewrite pack_26 by done | rewrite pack_34 by done];
    eauto.
Qed.

Section Negotiation.
Context {dev : Type} `{UsbLaws dev}.

Definition pallocs_ok (cfg : uvc_config) (pa : param_allocs) : Prop :=
  match pa_get pa with Some block => zlen block = params_size cfg | None => True end.

Lemma try_total cfg ok (d : dev) : exists ret ctrl d',
  myuvc_try_streaming_params control_msg cfg ok d = Some (ret, ctrl, d') /\
  live_bufs d' = live_bufs d /\ live_urbs d' = live_urbs d.
Proof.
  unfold myuvc_try_streaming_params, kzalloc. destruct ok; [|by eauto 10].
  destruct (pack_total cfg (probe_params cfg)) as [data ->]. cbn [mbind option_bind].
  pose proof (control_live (streaming_request cfg SET_CUR VS_PROBE_CONTROL data) d) as L.
  destruct (control_msg _ d) as [[ret x] d']. destruct L as [_ L]. eauto 10.
Qed.

Lemma set_total cfg ok ctrl (d : dev) : exists ret d',
  myuvc_set_streaming_params control_msg cfg ok ctrl d = Some (ret, d') /\
  live_bufs d' = live_bufs d /\ live_urbs d' = live_urbs d.
Proof.
  unfold myuvc_set_streaming_params, kzalloc. destruct ok; [|by eauto 10].
  destruct (pack_total cfg ctrl) as [data ->]. cbn [mbind option_bind].
  pose proof (control_live (streaming_request cfg SET_CUR VS_COMMIT_CONTROL data) d) as L.
  destruct (control_msg _ d) as [[ret x] d']. destruct L as [_ L]. eauto 10.
Qed.

Lemma get_total cfg block ctrl (d : dev) :
  match block with Some b => zlen b = params_size cfg | None => True end ->
  exists ret ctrl' d',
  myuvc_get_streaming_params control_msg cfg block ctrl d = Some (ret, ctrl', d') /\
  live_bufs d' = live_bufs d /\ live_urbs d' = live_urbs d.
Proof.
  unfold myuvc_get_streaming_params. destruct block as [b|]; [|by eauto 10]. intros Hb.
  pose proof (control_live (streaming_request cfg GET_CUR VS_PROBE_CONTROL b) d) as L.
  destruct (control_msg _ d) as [[ret data] d']. destruct L as [[Hl Hu] L].
  change (zlen data = zlen b) in Hl. rewrite Hb in Hl. case_if; [by eauto 10|].
  destruct (params_size_cases cfg) as [E|E]; rewrite E in *.
  - destruct (unpack_pack_26 data ctrl Hl Hu) as (c & -> & _). eauto 10.
  - destruct (unpack_pack_34 data ctrl Hl Hu) as (c & -> & _). eauto 10.
Qed.

Lemma negotiate_total cfg pa (d : dev) : pallocs_ok cfg pa -> exists params d',
  negotiate cfg pa d = Some (params, d') /\
  live_bufs d' = live_bufs d /\ live_urbs d' = live_urbs d.
Proof.
  intros Hpa. unfold negotiate.
  destruct (try_total cfg (pa_try pa) d) as (r1 & c1 & d1 & -> & B1 & U1). cbn [mbind option_bind].
  destruct (get_total cfg (pa_get pa) c1 d1 Hpa) as (r2 & c2 & d2 & -> & B2 & U2).
  cbn [mbind option_bind].
  destruct (set_total cfg (pa_set pa) c2 d2) as (r3 & d3 & -> & B3 & U3). cbn [mbind option_bind].
  exists c2, d3. split; [done|]. split; congruence.
Qed.

(** What every control message keeps, the negotiation keeps. *)
Lemma negotiate_keeps (P : dev -> Prop) cfg pa (d : dev) params d' :
  (forall rq e, P e -> P (control_msg rq e).2) -> P d ->
  negotiate cfg pa d = Some (params, d') -> P d'.
Proof.
  intros HP Hd. unfold negotiate, myuvc_try_streaming_params, myuvc_get_streaming_params,
    myuvc_set_streaming_params.
  intros ([[r1 c1] d1] & E1 & ([[r2 c2] d2] & E2 & ([r3 d3] & E3 & [= _ <-])%bind_Some)%bind_Some)%bind_Some.
  assert (P d1) as H1.
  { destruct (kzalloc _ _); [|by injection E1 as _ _ <-]. apply bind_Some in E1 as (data & _ & E1).
    specialize (HP (streaming_request cfg SET_CUR VS_PROBE_CONTROL data) d Hd).
    destruct (control_msg _ d) as [[] ?]. by injection E1 as _ _ <-. }
  assert (P d2) as H2.
  { destruct (pa_get pa) as [b|]; [|by injection E2 as _ _ <-].
    specialize (HP (streaming_request cfg GET_CUR VS_PROBE_CONTROL b) d1 H1).
    destruct (control_msg _ d1) as [[] ?]. revert E2. case_if; [by intros [= _ _ <-]|].
    by intros (? & _ & [= _ _ <-])%bind_Some. }
  clear E1. destruct (kzalloc _ _); [|by injection E3 as _ <-]. apply bind_Some in E3 as (data & _ & E3).
  specialize (HP (streaming_request cfg SET_CUR VS_COMMIT_CONTROL data) d2 H2).
  destruct (control_msg _ d2) as [[] ?]. by injection E3 as _ <-.
Qed.

Lemma streamon_cases cfg pa q (d : dev) B U : idle q d B U -> pallocs_ok cfg pa ->
  exists ret params q' d', myuvc_vidioc_streamon cfg pa q d = Some (ret, params, q', d') /\
  same_but_urbs q q' /\
  (ret = 0 /\ held q' d' B U /\ all_slots (q_urb_buffer q') MYUVC_URBS /\
     all_slots (q_urb q') MYUVC_URBS \/
   ret < 0 /\ idle q' d' B U).
Proof.
  intros (Hh & Hnb & Hnu & HB & HU) Hpa. unfold myuvc_vidioc_streamon.
  destruct (negotiate_total cfg pa d Hpa) as (params & d1 & -> & B1 & U1). cbn [mbind option_bind].
  unfold myuvc_alloc_init_urbs. set (d2 := usb_set_interface _ _ d1).
  destruct (interface_live (myuvc_streaming_intf cfg) myuvc_streaming_bAlternateSetting d1) as [B2 U2].
  fold d2 in B2, U2.
  set (q1 := set_q_urbs _ _ _ q). set (sz := urb_bytes _). set (np := urb_npackets _).
  assert (held q1 d2 B U) as Hh1
    by (apply (held_live q1 d); [done | congruence..]).
  pose proof (alloc_urbs_spec MYUVC_URBS sz np 0 q1 d2 B U eq_refl Hh1 Hnb Hnu) as Ha.
  destruct (alloc_urbs MYUVC_URBS 0 sz np q1 d2) as [[ret q2] d3].
  destruct Ha as [Hq2 Ha]; [by intros ? ?; lia..|].
  assert (same_but_urbs q q2) as Hq by (etrans; [by eexists _, _, _|done]).
  destruct Ha as [(-> & Hh2 & Hb2 & Hu2)|(-> & Hidle)].
  - change (0 <? 0) with false. cbv iota.
    destruct (setup_loop_live sz np MYUVC_URBS 0 q2 d3) as [LB LU].
    pose proof (submit_loop_spec MYUVC_URBS 0 q2 _ B U (held_live _ _ _ _ _ Hh2 LB LU) Hb2 Hu2
                  ltac:(lia)) as Hs.
    destruct (submit_loop _ _ _ _) as [[ret q'] d']. destruct Hs as [Hq' Hs].
    eexists _, _, _, _. split; [done|]. split; [by etrans|done].
  - change (- ENOMEM <? 0) with true. cbv iota.
    pose proof (submit_none q2 d3 B U Hidle) as Hs.
    destruct (submit_loop _ _ _ _) as [[ret q'] d']. destruct Hs as (-> & Hq' & Hi').
    eexists _, _, _, _. split; [done|]. split; [by etrans|]. right. by split.
Qed.

Lemma streamoff_idle cfg q (d : dev) B U : held q d B U ->
  let '(ret, q', d') := myuvc_vidioc_streamoff cfg q d in
  ret = 0 /\ idle q' d' B U /\ same_but_urbs q q'.
Proof.
  intros Hh. unfold myuvc_vidioc_streamoff.
  destruct (kill_loop_live MYUVC_URBS 0 q d) as [LB LU].
  pose proof (uninit_idle q (kill_loop MYUVC_URBS 0 q d) B U (held_live _ _ _ _ _ Hh LB LU)) as Hi.
  destruct (myuvc_uninit_urbs _ _) as [q' d'].
  destruct Hi as [(Hh' & Hb & Hu & EB & EU) Hs]. split; [done|]. split; [|done].
  destruct (interface_live (myuvc_streaming_intf cfg) 0 d') as [LB' LU'].
  split_and!; try done; try congruence. by apply (held_live q' d').
Qed.
End Negotiation.

(** * A bus to run the driver on *)

(** A device that answers with the last block sent, and at most [sim_limit]
    buffers and as many URBs. *)
Record sim_usb := mk_sim {
  sim_mem : mem;
  sim_limit : nat;
  sim_bufs : gset nat;
  sim_urbs : gset nat
}.

#[export] Instance sim_core : UsbCore sim_usb := {|
  control_msg rq d :=
    let '(ret, data, m) := echo_device rq (sim_mem d) in
    (ret, data, mk_sim m (sim_limit d) (sim_bufs d) (sim_urbs d));
  usb_set_interface _ _ d := d;
  usb_buffer_alloc _ d :=
    if bool_decide (size (sim_bufs d) < sim_limit d)%nat then
      let h := fresh (sim_bufs d) in
      (Some h, mk_sim (sim_mem d) (sim_limit d) ({[h]} ∪ sim_bufs d) (sim_urbs d))
    else (None, d);
  usb_buffer_free _ h d := mk_sim (sim_mem d) (sim_limit d) (sim_bufs d ∖ {[h]}) (sim_urbs d);
  usb_alloc_urb _ d :=
    if bool_decide (size (sim_urbs d) < sim_limit d)%nat then
      let h := fresh (sim_urbs d) in
      (Some h, mk_sim (sim_mem d) (sim_limit d) (sim_bufs d) ({[h]} ∪ sim_urbs d))
    else (None, d);
  usb_free_urb h d := mk_sim (sim_mem d) (sim_limit d) (sim_bufs d) (sim_urbs d ∖ {[h]});
  fill_urb _ _ d := d;
  submit_urb _ d := (0, d);
  usb_kill_urb _ d := d;
  live_bufs := sim_bufs;
  live_urbs := sim_urbs
|}.

#[export] Instance sim_laws : UsbLaws sim_usb.
Proof.
  split; cbn; try done.
  - intros rq d. pose proof (echo_device_ok rq (sim_mem d)) as He.
    by destruct (echo_device rq (sim_mem d)) as [[ret data] m].
  - intros _ d. case_bool_decide; cbn; [|done]. split; [done|]. split; [apply is_fresh|done].
  - intros _ d. case_bool_decide; cbn; [|done]. split; [done|]. split; [apply is_fresh|done].
Qed.

Definition sim_idle (limit : nat) : sim_usb := mk_sim [] limit ∅ ∅.

Lemma sim_idle_idle limit : idle zero_queue (sim_idle limit) ∅ ∅.
Proof.
  assert (no_slots (replicate 32 None) 0 MYUVC_URBS) as Hn
    by (intros k h _ [[=] _]%lookup_replicate).
  split; [split; apply empty_slots|]. done.
Qed.

(** * Properties *)

(** C18. [VIDIOC_STREAMON] does not leak: from a state without URBs, whatever
    allocation or submission fails, it returns 0 with five URBs and five buffers,
    all in the queue, or an error with none of them held; it never faults and
    touches nothing else of the queue. *)
Theorem streamon_resources {dev} `{UsbLaws dev} cfg pa q (d : dev) B U :
  idle q d B U -> pallocs_ok cfg pa ->
  exists ret params q' d', myuvc_vidioc_streamon cfg pa q d = Some (ret, params, q', d') /\
  same_but_urbs q q' /\
  (ret = 0 /\ held q' d' B U /\ all_slots (q_urb_buffer q') MYUVC_URBS /\
     all_slots (q_urb q') MYUVC_URBS \/
   ret < 0 /\ idle q' d' B U).
Proof. apply streamon_cases. Qed.

Lemma streamon_resources_witness :
  exists ret params q' d',
  myuvc_vidioc_streamon initial_config (mk_pallocs true None true) zero_queue (sim_idle 3) =
    Some (ret, params, q', d') /\
  same_but_urbs zero_queue q' /\
  (ret = 0 /\ held q' d' ∅ ∅ /\ all_slots (q_urb_buffer q') MYUVC_URBS /\
     all_slots (q_urb q') MYUVC_URBS \/
   ret < 0 /\ idle q' d' ∅ ∅).
Proof.
  apply (streamon_resources initial_config (mk_pallocs true None true) zero_queue (sim_idle 3) ∅ ∅).
  - apply sim_idle_idle.
  - exact I.
Defined.

(** [VIDIOC_STREAMOFF] frees every URB and buffer the queue holds, clears
    the arrays, and returns 0, so a stream that was started and stopped leaves
    nothing allocated. *)
Theorem streamoff_resources {dev} `{UsbLaws dev} cfg q (d : dev) B U :
  held q d B U ->
  let '(ret, q', d') := myuvc_vidioc_streamoff cfg q d in
  ret = 0 /\ idle q' d' B U /\ same_but_urbs q q'.
Proof. apply streamoff_idle. Qed.

Lemma streamoff_resources_witness :
  let '(ret, q', d') := myuvc_vidioc_streamoff initial_config zero_queue (sim_idle 3) in
  ret = 0 /\ idle q' d' ∅ ∅ /\ same_but_urbs zero_queue q'.
Proof.
  apply (streamoff_resources initial_config zero_queue (sim_idle 3) ∅ ∅).
  apply sim_idle_idle.
Defined.

(** The packets of a URB. *)
Lemma npackets_range frame_size : 0 <= urb_npackets frame_size <= 32.
Proof.
  unfold urb_npackets, DIV_ROUND_UP. change (u16 wMaxPacketSize) with 800.
  pose proof (u32_range (frame_size + 800 - 1)) as [Hlo _].
  pose proof (Z.div_pos _ 800 Hlo eq_refl). case_if; bool_props; lia.
Qed.

(** The layout of a URB: at most 32 packets of 800 bytes, one after the
    other inside the transfer buffer, enough for a frame when 32 packets are; so
    the packets the USB core fills in satisfy what the completion handler needs,
    whatever frame size the camera reported. *)
Theorem urb_layout_ok frame_size b ds tb :
  let u := setup_urb (urb_npackets frame_size) (urb_bytes frame_size) b in
  Forall2 (fun desc d => iso_offset d = desc.1 /\ 0 <= iso_actual_length d <= desc.2)
    (us_iso_frame_desc u) ds ->
  zlen tb = us_transfer_buffer_length u ->
  us_number_of_packets u <= 32 /\ zlen ds = us_number_of_packets u /\
  us_transfer_buffer_length u = 800 * us_number_of_packets u /\
  (0 <= frame_size <= 25600 -> frame_size <= us_transfer_buffer_length u) /\
  Forall (packet_ok tb) ds.
Proof.
  intros u Hds Htb. cbn in *. pose proof (npackets_range frame_size) as Hn.
  assert (urb_bytes frame_size = 800 * urb_npackets frame_size) as Eb.
  { unfold urb_bytes. change (u16 wMaxPacketSize) with 800. apply u32_small. split; lia. }
  rewrite Eb in *. split; [lia|]. split_and!; try done.
  - apply Forall2_length in Hds. unfold iso_layout in Hds.
    rewrite length_fmap, length_seq in Hds. unfold zlen. lia.
  - intros Hf. unfold urb_npackets, DIV_ROUND_UP. change (u16 wMaxPacketSize) with 800.
    rewrite u32_small by (split; lia).
    pose proof (Z.div_mod (frame_size + 800 - 1) 800). pose proof (Z.mod_pos_bound (frame_size + 800 - 1) 800).
    case_if; bool_props; lia.
  - apply Forall_forall. intros d Hd. apply list_elem_of_lookup in Hd as [j Hj].
    destruct (Forall2_lookup_r _ _ _ _ _ Hds Hj) as ([off len] & Hl & Ho & Ha). cbn in *.
    unfold iso_layout in Hl. apply list_lookup_fmap_Some in Hl as (k & E & Hk).
    apply lookup_seq in Hk as [-> Hk]. injection E as -> ->. change (u16 wMaxPacketSize) with 800 in *.
    unfold packet_ok. rewrite Ho, Htb. split_and!; lia.
Qed.

Lemma urb_layout_ok_witness :
  let u := setup_urb (urb_npackets 900) (urb_bytes 900) (Some 7%nat) in
  us_number_of_packets u <= 32 /\ 2 = us_number_of_packets u /\
  us_transfer_buffer_length u = 800 * us_number_of_packets u /\
  (0 <= 900 <= 25600 -> 900 <= us_transfer_buffer_length u) /\
  Forall (packet_ok (replicate (Z.to_nat 1600) 0)) [mk_iso 0 800 800 0; mk_iso 800 800 100 0].
Proof.
  apply (urb_layout_ok 900 (Some 7%nat) [mk_iso 0 800 800 0; mk_iso 800 800 100 0]
           (replicate (Z.to_nat 1600) 0)).
  - do 2 (constructor; [vm_compute; repeat split; discriminate|]). constructor.
  - reflexivity.
Defined.

(** A second [VIDIOC_STREAMON] overwrites the arrays: ten URBs are live, five of
    them no longer known to the driver. *)
Lemma streamon_twice_leaks :
  match myuvc_vidioc_streamon initial_config (mk_pallocs true None true) zero_queue (sim_idle 20) with
  | Some (_, _, q, d) =>
      match myuvc_vidioc_streamon initial_config (mk_pallocs true None true) q d with
      | Some (ret, _, q', d') =>
          ret = 0 /\ size (live_urbs d') = 10%nat /\
          size (live_urbs (myuvc_vidioc_streamoff initial_config q' d').2) = 5%nat
      | None => False
      end
  | None => False
  end.
Proof. vm_compute. done. Qed.
