(* ===== verification/UvcDriver.v ===== *)
(** The UVC driver [src/myuvc/10_th/uvc.c] as a whole: one state, one event per
    entry point (the tables [myuvc_ioctl_ops] and [myuvc_fops], the operations of
    a mapping, the completion of a URB), and runs of events. The invariant of
    the queue holds in every reachable state, the driver does not fault there
    under the conditions spelled out below, and buffers come back to the
    application in the order in which it queued them. *)
From S2P Require Import Prelude Klist V4l2 UvcParams UvcQueue UvcDecode UvcStream.
Open Scope Z_scope.

(** * State and events *)

Record driver (dev : Type) := mk_driver {
  dr_cfg : uvc_config;
  dr_vendor : Z;
  dr_format : v4l2_format;
  dr_params : myuvc_streaming_control;
  dr_rx : uvc_rx;
  dr_dev : dev
}.
Arguments mk_driver {dev}.
Arguments dr_cfg {dev}.
Arguments dr_vendor {dev}.
Arguments dr_format {dev}.
Arguments dr_params {dev}.
Arguments dr_rx {dev}.
Arguments dr_dev {dev}.

(** An event carries the arguments of the entry point and what the kernel
    answers to it: the allocators, the uninitialised stack bytes, the outcome of
    inserting pages. *)
Inductive event :=
  | EvQuerycap
  | EvEnumFmt (f : v4l2_fmtdesc)
  | EvGFmt
  | EvTryFmt (f : v4l2_format)
  | EvSFmt (f : v4l2_format)
  | EvReqbufs (vmalloc_32 : Z -> option mem) (p : v4l2_requestbuffers)
  | EvQuerybuf (b : v4l2_buffer)
  | EvQbuf (b : v4l2_buffer)
  | EvDqbuf (b : v4l2_buffer)
  | EvQueryctrl (c : v4l2_queryctrl)
  | EvGCtrl (stack : mem) (c : v4l2_control)
  | EvSCtrl (stack : mem) (c : v4l2_control)
  | EvStreamon (pa : param_allocs)
  | EvStreamoff
  | EvClose
  | EvMmap (vm_insert_page : Z -> Z) (vma : vm_area_struct)
  | EvVmOpen (vma : vm_area_struct)
  | EvVmClose (vma : vm_area_struct)
  | EvPoll
  | EvComplete (kmalloc : Z -> option mem) (urb : urb_done).

(** What an entry point gives back besides its result. *)
Inductive reply :=
  | R_none
  | R_cap (c : v4l2_capability)
  | R_fmtdesc (f : v4l2_fmtdesc)
  | R_fmt (f : v4l2_format)
  | R_buf (b : v4l2_buffer)
  | R_queryctrl (c : v4l2_queryctrl)
  | R_ctrl (c : v4l2_control)
  | R_pages (pages : list (Z * Z)) (vma : vm_area_struct)
  | R_resubmitted (again : bool).

Section Driver.
Context {dev : Type} `{UsbCore dev}.

Definition set_dr_queue (q : myuvc_queue) (dr : driver dev) : driver dev :=
  mk_driver (dr_cfg dr) (dr_vendor dr) (dr_format dr) (dr_params dr)
    (set_rx_queue q (dr_rx dr)) (dr_dev dr).
Definition set_dr_rx (rx : uvc_rx) (dr : driver dev) : driver dev :=
  mk_driver (dr_cfg dr) (dr_vendor dr) (dr_format dr) (dr_params dr) rx (dr_dev dr).
Definition set_dr_dev (d : dev) (dr : driver dev) : driver dev :=
  mk_driver (dr_cfg dr) (dr_vendor dr) (dr_format dr) (dr_params dr) (dr_rx dr) d.
Definition set_dr_format (f : v4l2_format) (dr : driver dev) : driver dev :=
  mk_driver (dr_cfg dr) (dr_vendor dr) f (dr_params dr) (dr_rx dr) (dr_dev dr).
Definition set_dr_params (p : myuvc_streaming_control) (dr : driver dev) : driver dev :=
  mk_driver (dr_cfg dr) (dr_vendor dr) (dr_format dr) p (dr_rx dr) (dr_dev dr).

Definition dr_queue (dr : driver dev) : myuvc_queue := rx_queue (dr_rx dr).

(** The tables of entry points. *)
Definition handle (ev : event) (dr : driver dev) : option (Z * reply * driver dev) :=
  let cfg := dr_cfg dr in
  let q := dr_queue dr in
  match ev with
  | EvQuerycap => let '(ret, c) := myuvc_vidioc_querycap in Some (ret, R_cap c, dr)
  | EvEnumFmt f => let '(ret, f) := myuvc_vidioc_enum_fmt_vid_cap f in Some (ret, R_fmtdesc f, dr)
  | EvGFmt => let '(ret, f) := myuvc_vidioc_g_fmt_vid_cap (dr_format dr) in Some (ret, R_fmt f, dr)
  | EvTryFmt f => '(ret, f) ← myuvc_vidioc_try_fmt_vid_cap cfg f; Some (ret, R_fmt f, dr)
  | EvSFmt f =>
      '(ret, f, fmt) ← myuvc_vidioc_s_fmt_vid_cap cfg (dr_format dr) f;
      Some (ret, R_fmt f, set_dr_format fmt dr)
  | EvReqbufs vmalloc_32 p =>
      '(ret, q) ← myuvc_vidioc_reqbufs vmalloc_32 (dr_format dr) p q;
      Some (ret, R_none, set_dr_queue q dr)
  | EvQuerybuf b => '(ret, b) ← myuvc_vidioc_querybuf b q; Some (ret, R_buf b, dr)
  | EvQbuf b => '(ret, q) ← myuvc_vidioc_qbuf b q; Some (ret, R_none, set_dr_queue q dr)
  | EvDqbuf b =>
      '(ret, b, q) ← myuvc_vidioc_dqbuf b q; Some (ret, R_buf b, set_dr_queue q dr)
  | EvQueryctrl c =>
      '(ret, c, d) ← myuvc_vidioc_queryctrl control_msg cfg c (dr_dev dr);
      Some (ret, R_queryctrl c, set_dr_dev d dr)
  | EvGCtrl stack c =>
      '(ret, c, d) ← myuvc_vidioc_g_ctrl control_msg cfg stack c (dr_dev dr);
      Some (ret, R_ctrl c, set_dr_dev d dr)
  | EvSCtrl stack c =>
      '(ret, d) ← myuvc_vidioc_s_ctrl control_msg cfg stack c (dr_dev dr);
      Some (ret, R_none, set_dr_dev d dr)
  | EvStreamon pa =>
      '(ret, params, q, d) ← myuvc_vidioc_streamon cfg pa q (dr_dev dr);
      Some (ret, R_none, set_dr_params params (set_dr_dev d (set_dr_queue q dr)))
  | EvStreamoff =>
      let '(ret, q, d) := myuvc_vidioc_streamoff cfg q (dr_dev dr) in
      Some (ret, R_none, set_dr_dev d (set_dr_queue q dr))
  | EvClose =>
      let '(ret, q, d) := myuvc_close cfg q (dr_dev dr) in
      Some (ret, R_none, set_dr_dev d (set_dr_queue q dr))
  | EvMmap vm_insert_page vma =>
      '(ret, pages, vma, q) ← myuvc_mmap vm_insert_page vma q;
      Some (ret, R_pages pages vma, set_dr_queue q dr)
  | EvVmOpen vma => q ← myuvc_vm_open vma q; Some (0, R_none, set_dr_queue q dr)
  | EvVmClose vma => q ← myuvc_vm_close vma q; Some (0, R_none, set_dr_queue q dr)
  | EvPoll => mask ← myuvc_poll q; Some (mask, R_none, dr)
  | EvComplete kmalloc urb =>
      '(rx, again) ← myuvc_video_complete (dr_vendor dr) kmalloc urb (dr_rx dr);
      Some (0, R_resubmitted again, set_dr_rx rx dr)
  end.

(** The driver after [insmod]. *)
Definition initial_driver (vendor : Z) (d : dev) : driver dev :=
  mk_driver initial_config vendor zero_format zero_streaming_control initial_rx d.

(** * The invariant *)

(** The only sizes a format can have: none was set, or the one of the camera. *)
Definition format_ok (f : v4l2_format) : Prop :=
  pix_sizeimage (fmt_pix f) = 0 \/ pix_sizeimage (fmt_pix f) = frame_size_max.

Record driver_inv (dr : driver dev) : Prop := {
  di_idx : frame_idx (dr_cfg dr) = 1;
  di_format : format_ok (dr_format dr);
  di_temp : temp_ok (dr_rx dr);
  di_queue : queue_inv (dr_queue dr)
}.

(** What the environment keeps to: indices are unsigned, at most 32 buffers are
    requested, the allocators and the USB core behave as documented, a mapping
    names one of the 32 buffers. *)
Definition event_ok (dr : driver dev) (ev : event) : Prop :=
  match ev with
  | EvReqbufs vmalloc_32 p => vmalloc_ok vmalloc_32 /\ 0 <= rb_count p <= 32
  | EvQuerybuf b | EvQbuf b | EvDqbuf b => 0 <= vb_index b
  | EvGCtrl stack _ | EvSCtrl stack _ => zlen stack = 2 /\ Forall is_u8 stack
  | EvStreamon pa => pallocs_ok (dr_cfg dr) pa
  | EvMmap _ vma => 0 <= vm_start vma <= vm_end vma /\ vm_end vma < 2 ^ 32
  | EvVmOpen vma | EvVmClose vma =>
      exists i, vm_private_data vma = Some i /\ (i < 32)%nat
  | EvComplete kmalloc urb =>
      kmalloc_ok (dr_vendor dr) kmalloc /\
      Forall (packet_ok (transfer_buffer urb)) (iso_frame_desc urb)
  | _ => True
  end.

(** Reachable states. *)
Inductive reachable (dr0 : driver dev) : driver dev -> Prop :=
  | reach_init : reachable dr0 dr0
  | reach_step dr ev ret r dr' : reachable dr0 dr -> event_ok dr ev ->
      handle ev dr = Some (ret, r, dr') -> reachable dr0 dr'.
End Driver.

(** * Every entry point keeps the invariant *)

(** Changing the number of mappings of a buffer. *)
Lemma use_count_rel i f q q' m a :
  (forall b, buf (f b) = buf b /\ state (f b) = state b) ->
  update_buf i f q = Some q' -> queue_rel q m a -> queue_rel q' m a.
Proof.
  intros Hf Hu Hr. unfold update_buf in Hu. destruct (q_buffer q !! i) as [b|] eqn:Eb; [|done].
  injection Hu as <-. destruct (Hf b) as [Fb Fs].
  split; cbn [set_q_buffer q_mem q_count q_buf_size q_buffer q_mainqueue q_irqqueue]; try apply Hr.
  - rewrite length_insert. apply Hr.
  - intros j Hj. destruct (qr_bufs _ _ _ Hr j Hj) as (bj & Hbj & Hg & Hrole).
    destruct (decide (j = i)) as [->|Hne].
    2:{ exists bj. by rewrite list_lookup_insert_ne. }
    rewrite Eb in Hbj. injection Hbj as <-. exists (f b).
    rewrite list_lookup_insert_eq by (by eapply lookup_lt_Some).
    split; [done|]. split.
    + destruct Hg. split; by rewrite Fb.
    + destruct Hrole as [data ? ? ? ?|? ? ? ?|? ? ?|? ?];
        [eapply (role_ready _ _ _ _ _ data) | eapply role_head | eapply role_fill | eapply role_idle];
        rewrite ?Fb, ?Fs; done.
Qed.

Lemma use_count_inv i f q q' :
  (forall b, buf (f b) = buf b /\ state (f b) = state b) ->
  update_buf i f q = Some q' -> queue_inv q -> queue_inv q'.
Proof.
  intros Hf Hu [Hn|(m & a & Hr)].
  - left. unfold update_buf in Hu. destruct (q_buffer q !! i) as [b|] eqn:Eb; [|done].
    injection Hu as <-. destruct Hn. split; try done. cbn. by rewrite length_insert.
  - right. exists m, a. by eapply use_count_rel.
Qed.

Lemma urbs_rel q q' m a : same_but_urbs q q' -> queue_rel q m a -> queue_rel q' m a.
Proof. intros (us & bs & sz & ->) Hr. split; cbn; apply Hr. Qed.

Lemma urbs_inv q q' : same_but_urbs q q' -> queue_inv q -> queue_inv q'.
Proof.
  intros Hs [Hn|(m & a & Hr)].
  - left. destruct Hs as (us & bs & sz & ->). by destruct Hn.
  - right. exists m, a. by eapply urbs_rel.
Qed.

Lemma mmap_queue ins vma q ret pages vma' q' :
  myuvc_mmap ins vma q = Some (ret, pages, vma', q') ->
  q' = q \/ exists i, update_buf i (fun b => set_use_count (vma_use_count b + 1) b) q = Some q'.
Proof.
  unfold myuvc_mmap, myuvc_vm_open. intros H. peel H.
  case_if_in H; [injection H as <- <- <- <-; by left|]. peel H. destruct r2 as [ret0 pages0].
  case_if_in H; [injection H as <- <- <- <-; by left|]. cbn [vm_private_data mbind option_bind] in H.
  apply bind_Some in H as (q1 & E & H). injection H as <- <- <- <-. eauto.
Qed.

Lemma mmap_inv ins vma q ret pages vma' q' :
  myuvc_mmap ins vma q = Some (ret, pages, vma', q') -> queue_inv q -> queue_inv q'.
Proof.
  intros [->|[i Hu]]%mmap_queue Hq; [done|]. eapply use_count_inv; [|done..]. done.
Qed.

Lemma qbuf_inv v q ret q' : 0 <= vb_index v ->
  myuvc_vidioc_qbuf v q = Some (ret, q') -> queue_inv q -> queue_inv q'.
Proof.
  intros Hv H [Hn|(m & a & Hr)].
  - unfold myuvc_vidioc_qbuf in H. rewrite (qn_count _ Hn) in H. change (u32 0) with 0 in H.
    case_if_in H; [injection H as <- <-; by left|].
    case_if_in H; [injection H as <- <-; by left|]. bool_props. lia.
  - pose proof (qbuf_rel q m a v Hr Hv) as Hq. case_match.
    + destruct Hq as (q1 & E & Hr1). rewrite H in E. injection E as -> ->. right. eauto.
    + rewrite H in Hq. injection Hq as -> ->. right. eauto.
Qed.

Lemma dqbuf_inv v q ret d q' :
  myuvc_vidioc_dqbuf v q = Some (ret, d, q') -> queue_inv q -> queue_inv q'.
Proof.
  intros H [Hn|(m & a & Hr)].
  - unfold myuvc_vidioc_dqbuf in H. by rewrite (qn_main _ Hn) in H.
  - pose proof (dqbuf_rel q m a v Hr) as Hq. destruct (a_dqbuf a) as [[[i frame] a']|].
    + destruct Hq as (d1 & q1 & E & _ & _ & _ & Hr1). rewrite H in E. injection E as -> -> ->.
      right. eauto.
    + rewrite H in Hq. injection Hq as -> -> ->. right. eauto.
Qed.

Lemma complete_inv vendor kmalloc urb rx rx' again :
  kmalloc_ok vendor kmalloc -> Forall (packet_ok (transfer_buffer urb)) (iso_frame_desc urb) ->
  myuvc_video_complete vendor kmalloc urb rx = Some (rx', again) ->
  queue_inv (rx_queue rx) -> temp_ok rx -> queue_inv (rx_queue rx') /\ temp_ok rx'.
Proof.
  intros Hk Hp H Hq Ht. destruct (Z.eqb_spec (urb_status urb) 0) as [Hs|Hs].
  2:{ unfold myuvc_video_complete in H. destruct (Z.eqb_spec (urb_status urb) 0); [done|].
      cbn in H. by injection H as <- <-. }
  destruct Hq as [Hn|(m & a & Hr)].
  - unfold myuvc_video_complete, next_buf in H. rewrite Hs, (qn_irq _ Hn) in H. done.
  - set (s := mk_asm (fid rx) (last_fid rx) a (woken rx)).
    assert (rx_rel rx m s) as Hx by (by split).
    rewrite (complete_decode _ _ _ _ _ _ Hs Hx) in H.
    destruct (decode_packets_rel vendor kmalloc Hk _ _ Hp rx m s Hx) as (repairs & _ & _ & Hd).
    destruct (a_urb _ _ _ _) as [s'|].
    + destruct Hd as (rx1 & m1 & E & Hx1 & _). rewrite E in H. cbn in H. injection H as <- <-.
      split; [right; exists m1, (s_queue s'); apply Hx1 | apply Hx1].
    + by rewrite Hd in H.
Qed.

Lemma try_fmt_size cfg f ret f' : frame_idx cfg = 1 ->
  myuvc_vidioc_try_fmt_vid_cap cfg f = Some (ret, f') ->
  ret < 0 /\ f' = f \/ ret = 0 /\ pix_sizeimage (fmt_pix f') = frame_size_max.
Proof.
  intros Hidx. unfold myuvc_vidioc_try_fmt_vid_cap. rewrite Hidx.
  case_if; [intros [= <- <-]; left; split; [unfold EINVAL; lia|done]|].
  case_if; [intros [= <- <-]; left; split; [unfold EINVAL; lia|done]|].
  cbn. intros [= <- <-]. by right.
Qed.

Section Invariant.
Context {dev : Type} `{UsbLaws dev}.

(** The URB routines leave the rest of the queue alone. *)
Lemma uninit_same todo : forall i q (d : dev), same_but_urbs q (uninit_loop todo i q d).1.
Proof.
  induction todo as [|todo IH]; intros i q d; cbn [uninit_loop]; [done|].
  destruct (uninit_urb i q d) as [q1 d1] eqn:E. transitivity q1; [|apply IH].
  unfold uninit_urb in E. repeat case_match; simplify_eq; by eexists _, _, _.
Qed.

Lemma alloc_same todo : forall i size np q (d : dev),
  same_but_urbs q (alloc_urbs todo i size np q d).1.2.
Proof.
  induction todo as [|todo IH]; intros i size np q d; cbn [alloc_urbs]; [done|].
  destruct (usb_buffer_alloc size d) as [b d3], (usb_alloc_urb np d3) as [u d4].
  set (q2 := set_q_urbs _ _ _ q). transitivity q2; [by eexists _, _, _|].
  unfold myuvc_uninit_urbs. pose proof (uninit_same MYUVC_URBS 0%nat q2 d4) as Hu.
  destruct b, u; try apply IH; by destruct (uninit_loop MYUVC_URBS 0 q2 d4).
Qed.

Lemma submit_same todo : forall i q (d : dev), same_but_urbs q (submit_loop todo i q d).1.2.
Proof.
  induction todo as [|todo IH]; intros i q d; cbn [submit_loop]; [done|].
  destruct (usb_submit_urb _ d) as [r d3]. case_if; [|apply IH].
  unfold myuvc_uninit_urbs. pose proof (uninit_same MYUVC_URBS 0%nat q d3) as Hu.
  by destruct (uninit_loop _ _ q d3).
Qed.

Lemma alloc_init_same params q (d : dev) : same_but_urbs q (myuvc_alloc_init_urbs params q d).1.2.
Proof.
  unfold myuvc_alloc_init_urbs. set (q1 := set_q_urbs _ _ _ q).
  transitivity q1; [by eexists _, _, _|].
  pose proof (alloc_same MYUVC_URBS 0%nat (urb_bytes (dwMaxVideoFrameSize params))
                (urb_npackets (dwMaxVideoFrameSize params)) q1 d) as Ha.
  destruct (alloc_urbs _ _ _ _ q1 d) as [[ret q2] d2]. by destruct (ret <? 0).
Qed.

Lemma streamon_same cfg pa q (d : dev) ret params q' d' :
  myuvc_vidioc_streamon cfg pa q d = Some (ret, params, q', d') -> same_but_urbs q q'.
Proof.
  unfold myuvc_vidioc_streamon. intros Hs. peel Hs. destruct r as [params0 d1].
  set (d2 := usb_set_interface _ _ d1) in Hs. pose proof (alloc_init_same params0 q d2) as Ha.
  destruct (myuvc_alloc_init_urbs params0 q d2) as [[ret1 q3] d3]. cbn in Ha.
  transitivity q3; [done|]. pose proof (submit_same MYUVC_URBS 0%nat q3 d3) as Hsub.
  destruct (submit_loop MYUVC_URBS 0 q3 d3) as [[ret2 q4] d4]. by injection Hs as <- <- <- <-.
Qed.

Lemma streamoff_same cfg q (d : dev) : same_but_urbs q (myuvc_vidioc_streamoff cfg q d).1.2.
Proof.
  unfold myuvc_vidioc_streamoff, myuvc_uninit_urbs.
  pose proof (uninit_same MYUVC_URBS 0%nat q (kill_loop MYUVC_URBS 0 q d)) as Hu.
  by destruct (uninit_loop MYUVC_URBS 0 q (kill_loop MYUVC_URBS 0 q d)).
Qed.

Lemma frame_size_fits : 0 < frame_size_max <= 2 ^ 25 /\ frame_size_max + 3 <= PAGE_ALIGN frame_size_max.
Proof. split; [|vm_compute]; done. Qed.

(** One step keeps the invariant. *)
Lemma driver_inv_step ev (dr : driver dev) ret r dr' :
  driver_inv dr -> event_ok dr ev -> handle ev dr = Some (ret, r, dr') -> driver_inv dr'.
Proof.
  intros [Hidx Hfmt Htemp Hq] Hev Hh. destruct dr as [cfg vendor fmt params rx d].
  unfold dr_queue in Hq. destruct ev; cbn in *; unfold dr_queue in Hh; cbn in Hh.
  - by simplify_eq.
  - unfold myuvc_vidioc_enum_fmt_vid_cap in Hh. case_if_in Hh; by simplify_eq.
  - by simplify_eq.
  - peel Hh. destruct r0. by simplify_eq.
  - peel Hh. destruct r0 as [[ret0 f1] fmt1]. simplify_eq. split; try done. cbn.
    unfold myuvc_vidioc_s_fmt_vid_cap in Hb. peel Hb. destruct r as [ret1 f2].
    apply try_fmt_size in Hb0; [|done].
    case_if_in Hb; simplify_eq; [done|]. bool_props. right. destruct Hb0 as [[? _]|[_ ?]]; [lia|done].
  - peel Hh. destruct r0 as [ret0 q1]. simplify_eq. split; try done. cbn. destruct Hev as [Hv Hc].
    destruct (reqbufs_cases vmalloc_32 fmt p (rx_queue rx) Hv Hq) as (ret1 & q2 & E & Hcase).
    { destruct Hfmt as [->| ->]; [by left|]. right. apply frame_size_fits. }
    { done. }
    rewrite E in Hb. injection Hb as -> ->. unfold dr_queue. cbn.
    destruct Hcase as [[_ ?]|(n & m & _ & _ & Hr)]; [by left|]. right. eauto.
  - peel Hh. destruct r0. by simplify_eq.
  - peel Hh. destruct r0 as [ret0 q1]. simplify_eq. split; try done. by eapply qbuf_inv.
  - peel Hh. destruct r0 as [[ret0 b0] q1]. simplify_eq. split; try done. by eapply dqbuf_inv.
  - peel Hh. destruct r0 as [[ret0 c0] d1]. by simplify_eq.
  - peel Hh. destruct r0 as [[ret0 c0] d1]. by simplify_eq.
  - peel Hh. destruct r0 as [ret0 d1]. by simplify_eq.
  - peel Hh. destruct r0 as [[[ret0 p0] q1] d1]. simplify_eq. split; try done.
    eapply urbs_inv; [by eapply streamon_same | done].
  - pose proof (streamoff_same cfg (rx_queue rx) d) as Hs.
    destruct (myuvc_vidioc_streamoff cfg (rx_queue rx) d) as [[ret0 q1] d1]. simplify_eq.
    split; try done. by eapply urbs_inv.
  - unfold myuvc_close in Hh. pose proof (streamoff_same cfg (rx_queue rx) d) as Hs.
    destruct (myuvc_vidioc_streamoff cfg (rx_queue rx) d) as [[ret0 q1] d1]. simplify_eq.
    split; try done. by eapply urbs_inv.
  - peel Hh. destruct r0 as [[[ret0 pg] vma1] q1]. simplify_eq. split; try done.
    by eapply mmap_inv.
  - peel Hh. simplify_eq. split; try done. unfold myuvc_vm_open in Hb. apply bind_Some in Hb as (i & _ & Hb).
    eapply use_count_inv; [|done..]. done.
  - peel Hh. simplify_eq. split; try done. unfold myuvc_vm_close in Hb. apply bind_Some in Hb as (i & _ & Hb).
    eapply use_count_inv; [|done..]. done.
  - peel Hh. by simplify_eq.
  - peel Hh. destruct r0 as [rx1 again]. simplify_eq. destruct Hev as [Hk Hp].
    destruct (complete_inv _ _ _ _ _ _ Hk Hp Hb Hq Htemp). by split.
Qed.

Lemma reachable_inv (dr0 dr : driver dev) : driver_inv dr0 -> reachable dr0 dr -> driver_inv dr.
Proof. intros H0' Hr. induction Hr; [done|]. by eapply driver_inv_step. Qed.

Lemma initial_inv vendor (d : dev) : driver_inv (initial_driver vendor d).
Proof. split; [done | by left | by split | apply zero_queue_inv]. Qed.
End Invariant.

(** * The URBs of the queue

    Only STREAMON, STREAMOFF, [release] and REQBUFS touch them. *)

Record same_urbs (q q' : myuvc_queue) : Prop := mk_same_urbs {
  su_urb : q_urb q' = q_urb q;
  su_buffer : q_urb_buffer q' = q_urb_buffer q
}.

#[export] Instance same_urbs_preorder : PreOrder same_urbs.
Proof. split; [done|]. intros ? ? ? [] []. split; congruence. Qed.

Lemma update_buf_urbs i f q q' : update_buf i f q = Some q' -> same_urbs q q'.
Proof. unfold update_buf. intros H. peel H. by injection H as <-. Qed.

Section Kept.
Context (vendor : Z) (kmalloc : Z -> option mem).

Lemma update_rx_urbs i f rx rx' : update_rx i f rx = Some rx' -> same_urbs (rx_queue rx) (rx_queue rx').
Proof. unfold update_rx. intros H. peel H. injection H as <-. by eapply update_buf_urbs. Qed.

Lemma update_if_urbs (c : bool) i f rx rx' :
  (if c then update_rx i f rx else Some rx) = Some rx' -> same_urbs (rx_queue rx) (rx_queue rx').
Proof. destruct c; [apply update_rx_urbs|by intros [= <-]]. Qed.

Lemma finish_buf_urbs i rx out : finish_buf i rx = Some out -> same_urbs (rx_queue rx) (rx_queue out.1).
Proof. unfold finish_buf. intros H. peel H. by injection H as <-. Qed.

Lemma fixup_urbs dest n rx rx' : fixup vendor kmalloc dest n rx = Some rx' ->
  same_urbs (rx_queue rx) (rx_queue rx').
Proof.
  unfold fixup. case_if; [|by intros [= <-]]. intros ([t sz] & _ & H)%bind_Some. peel H.
  case_if_in H; [peel H|]; by injection H as <-.
Qed.

Lemma store_urbs tb src len s0 s1 i rx out : store_payload vendor kmalloc tb src len s0 s1 i rx = Some out ->
  same_urbs (rx_queue rx) (rx_queue out.1).
Proof.
  unfold store_payload, end_payload. intros H. peel H.
  apply update_rx_urbs in Hb3. apply fixup_urbs in Hb4. apply update_if_urbs in Hb5, Hb7.
  assert (same_urbs (rx_queue rx) (rx_queue r7)) as Hs.
  { etrans; [|exact Hb7]. etrans; [|exact Hb5]. etrans; [|exact Hb4]. etrans; [|exact Hb3]. done. }
  case_if_in H; [|by injection H as <-]. etrans; [done|]. by eapply finish_buf_urbs.
Qed.

Lemma packet_urbs tb d rx buf0 out : decode_packet vendor kmalloc tb d rx buf0 = Some out ->
  same_urbs (rx_queue rx) (rx_queue out.1).
Proof.
  unfold decode_packet, receive_packet. case_if; [by intros [= <-]|].
  intros (i & -> & H)%bind_Some. case_if_in H; [by injection H as <-|].
  apply bind_Some in H as (s0 & _ & H). case_if_in H; [by injection H as <-|].
  apply bind_Some in H as (s1 & _ & H). case_if_in H; [by injection H as <-|]. peel H.
  case_if_in H; [by injection H as <-|]. apply bind_Some in H as (rx1 & H1 & H).
  apply update_if_urbs in H1. etrans; [exact H1|]. case_if_in H; [|by eapply store_urbs in H].
  apply bind_Some in H as (rx2 & H2 & H). etrans; [by eapply update_rx_urbs|by eapply finish_buf_urbs].
Qed.

Lemma complete_urbs urb rx out : myuvc_video_complete vendor kmalloc urb rx = Some out ->
  same_urbs (rx_queue rx) (rx_queue out.1).
Proof.
  unfold myuvc_video_complete. case_if; [by intros [= <-]|]. intros (b0 & _ & (rx1 & H & [= <-])%bind_Some)%bind_Some.
  cbn. revert rx b0 H. induction (iso_frame_desc urb) as [|d ds IH]; intros rx b0; cbn; [by intros [= <-]|].
  intros ([rx2 b2] & H2 & H)%bind_Some. etrans; [by eapply packet_urbs|by eapply IH].
Qed.
End Kept.

Section Urbs.
Context {dev : Type} `{UsbCore dev}.

(** The events that may change the URBs. *)
Definition urb_event (ev : event) : bool :=
  match ev with EvReqbufs _ _ | EvStreamon _ | EvStreamoff | EvClose => true | _ => false end.

Lemma handle_urbs ev (dr : driver dev) ret r dr' : urb_event ev = false ->
  handle ev dr = Some (ret, r, dr') -> same_urbs (dr_queue dr) (dr_queue dr').
Proof.
  destruct ev; intros Hev; try done; cbn; intros Hh.
  - by simplify_eq.
  - unfold myuvc_vidioc_enum_fmt_vid_cap in Hh. case_if_in Hh; by simplify_eq.
  - by simplify_eq.
  - peel Hh. destruct r0. by simplify_eq.
  - peel Hh. destruct r0 as [[] ]. by simplify_eq.
  - peel Hh. destruct r0. by simplify_eq.
  - apply bind_Some in Hh as ([ret0 q1] & H1 & Hh). injection Hh as _ _ <-. change (same_urbs (dr_queue dr) q1).
    revert H1. unfold myuvc_vidioc_qbuf. do 2 (case_if; [by intros [= _ <-]|]).
    intros (b0 & _ & H1)%bind_Some. case_if_in H1; [by injection H1 as _ <-|]. peel H1.
    injection H1 as _ <-. apply update_buf_urbs in Hb, Hb0. etrans; [exact Hb|]. by etrans; [exact Hb0|].
  - apply bind_Some in Hh as ([[ret0 v] q1] & H1 & Hh). injection Hh as _ _ <-. change (same_urbs (dr_queue dr) q1).
    revert H1. unfold myuvc_vidioc_dqbuf. case_if; [by intros [= _ _ <-]|]. intros H1. peel H1.
    destruct (state r1); try by injection H1 as _ _ <-. peel H1.
    injection H1 as _ _ <-. apply update_buf_urbs in Hb1. by etrans; [exact Hb1|].
  - peel Hh. destruct r0 as [[] ]. by simplify_eq.
  - peel Hh. destruct r0 as [[] ]. by simplify_eq.
  - peel Hh. destruct r0. by simplify_eq.
  - apply bind_Some in Hh as ([[[ret0 pg] v] q1] & H1 & Hh). injection Hh as _ _ <-.
    change (same_urbs (dr_queue dr) q1). revert H1. unfold myuvc_mmap.
    intros (i & _ & H1)%bind_Some. case_if_in H1; [by injection H1 as _ _ _ <-|].
    apply bind_Some in H1 as (b0 & _ & H1). apply bind_Some in H1 as (m & _ & H1).
    apply bind_Some in H1 as ([ret1 pg1] & _ & H1). case_if_in H1; [by injection H1 as _ _ _ <-|].
    apply bind_Some in H1 as (q2 & H2 & H1). injection H1 as _ _ _ <-.
    apply bind_Some in H2 as (j & _ & H2). by eapply update_buf_urbs.
  - apply bind_Some in Hh as (q1 & H1 & Hh). injection Hh as _ _ <-. change (same_urbs (dr_queue dr) q1).
    apply bind_Some in H1 as (j & _ & H1). by eapply update_buf_urbs.
  - apply bind_Some in Hh as (q1 & H1 & Hh). injection Hh as _ _ <-. change (same_urbs (dr_queue dr) q1).
    apply bind_Some in H1 as (j & _ & H1). by eapply update_buf_urbs.
  - peel Hh. by simplify_eq.
  - apply bind_Some in Hh as ([rx again] & H1 & Hh). injection Hh as _ _ <-.
    by apply (complete_urbs _ _ _ _ _ H1).
Qed.
(** The other events reach the device by control messages only. *)
Section Messages.
Context (P : dev -> Prop) (HP : forall rq d, P d -> P (control_msg rq d).2).

Lemma query_keeps cfg query data (d : dev) out : P d ->
  query_value control_msg cfg query data d = Some out -> P out.2.
Proof.
  intros Hd. unfold query_value. specialize (HP (brightness_request cfg query data) d Hd).
  destruct (control_msg _ d) as [[ret data'] d']. case_if; [by intros [= <-]|].
  by intros (v & _ & [= <-])%bind_Some.
Qed.

Lemma queryctrl_keeps cfg c (d : dev) out : P d ->
  myuvc_vidioc_queryctrl control_msg cfg c d = Some out -> P out.2.
Proof.
  intros Hd. unfold myuvc_vidioc_queryctrl. case_if; [by intros [= <-]|].
  do 4 (intros ([[[?|?] ?] d'] & E & Hq)%bind_Some; (apply query_keeps in E; [|done]); cbn in E;
        [by injection Hq as <-|]; clear Hd d; rename d' into d, E into Hd; revert Hq).
  by intros [= <-].
Qed.

Lemma handle_keeps ev (dr : driver dev) ret r dr' : urb_event ev = false ->
  P (dr_dev dr) -> handle ev dr = Some (ret, r, dr') -> P (dr_dev dr').
Proof.
  intros Hev Hd. destruct ev; try done; cbn;
    try (intros Hh; peel Hh; repeat match goal with x : _ * _ |- _ => destruct x end; by simplify_eq).
  - unfold myuvc_vidioc_enum_fmt_vid_cap. case_if; by intros [= _ _ <-].
  - intros ([[ret0 c0] d0] & E & [= _ _ <-])%bind_Some. by apply queryctrl_keeps in E.
  - intros ([[ret0 c0] d0] & E & [= _ _ <-])%bind_Some. revert E. unfold myuvc_vidioc_g_ctrl.
    case_if; [by intros [= _ _ <-]|].
    specialize (HP (brightness_request (dr_cfg dr) GET_CUR stack) _ Hd).
    destruct (control_msg _ _) as [[] ]. case_if; [by intros [= _ _ <-]|].
    by intros (? & _ & [= _ _ <-])%bind_Some.
  - intros ([ret0 d0] & E & [= _ _ <-])%bind_Some. revert E. unfold myuvc_vidioc_s_ctrl.
    case_if; [by intros [= _ <-]|]. intros (data & _ & E)%bind_Some. revert E.
    specialize (HP (brightness_request (dr_cfg dr) SET_CUR data) _ Hd).
    destruct (control_msg _ _) as [[] ]. case_if; by intros [= _ <-].
Qed.
End Messages.
End Urbs.

(** * The driver does not fault *)

Section Safety.
Context {dev : Type} `{UsbLaws dev}.

(** The conditions beyond the invariant: the application has asked for buffers
    before it waits for one, and the interrupt handler never runs out of
    buffers while packets arrive. *)
Definition served (dr : driver dev) (ev : event) : Prop :=
  match ev with
  | EvDqbuf _ | EvPoll => q_mem (dr_queue dr) <> None
  | EvComplete _ urb => urb_status urb <> 0 \/
      exists m a, queue_rel (dr_queue dr) m a /\
      forall repairs, a_urb (dr_vendor dr) repairs (transfer_buffer urb) (iso_frame_desc urb)
        (mk_asm (fid (dr_rx dr)) (last_fid (dr_rx dr)) a (woken (dr_rx dr))) <> None
  | _ => True
  end.

Lemma two_bytes (data : mem) : zlen data = 2 -> Forall is_u8 data ->
  exists b0 b1, data = [b0; b1] /\ is_u8 b0 /\ is_u8 b1.
Proof.
  intros Hl Hu. destruct data as [|b0 [|b1 [|]]]; unfold zlen in Hl; cbn in Hl; try lia.
  apply Forall_cons in Hu as [? [? _]%Forall_cons]. eauto 10.
Qed.

Lemma query_value_total cfg query data (d : dev) : zlen data = 2 -> exists r data' d',
  query_value control_msg cfg query data d = Some (r, data', d') /\ zlen data' = 2.
Proof.
  intros Hl. unfold query_value.
  pose proof (control_live (brightness_request cfg query data) d) as L.
  destruct (control_msg _ d) as [[ret data'] d']. destruct L as [[Hl' Hu] _].
  change (zlen data' = zlen data) in Hl'. rewrite Hl in Hl'.
  case_if; [by eauto 10|]. destruct (two_bytes data' Hl' Hu) as (b0 & b1 & -> & H0' & H1').
  rewrite get_le_value_spec by done. cbn [mbind option_bind]. eauto 10.
Qed.

Lemma queryctrl_total cfg c (d : dev) :
  exists r, myuvc_vidioc_queryctrl control_msg cfg c d = Some r.
Proof.
  unfold myuvc_vidioc_queryctrl. case_if; [eauto|].
  destruct (query_value_total cfg GET_MIN [0; 0] d) as ([e|x1] & data1 & d1 & -> & L1); [done|..];
    cbn [mbind option_bind]; [eauto|].
  destruct (query_value_total cfg GET_MAX data1 d1) as ([e|x2] & data2 & d2 & -> & L2); [done|..];
    cbn [mbind option_bind]; [eauto|].
  destruct (query_value_total cfg GET_RES data2 d2) as ([e|x3] & data3 & d3 & -> & L3); [done|..];
    cbn [mbind option_bind]; [eauto|].
  destruct (query_value_total cfg GET_DEF data3 d3) as ([e|x4] & data4 & d4 & -> & L4); [done|..];
    cbn [mbind option_bind]; eauto.
Qed.

Lemma g_ctrl_total cfg data c (d : dev) : zlen data = 2 ->
  exists r, myuvc_vidioc_g_ctrl control_msg cfg data c d = Some r.
Proof.
  intros Hl. unfold myuvc_vidioc_g_ctrl. case_if; [eauto|].
  pose proof (control_live (brightness_request cfg GET_CUR data) d) as L.
  destruct (control_msg _ d) as [[ret data'] d']. destruct L as [[Hl' Hu] _].
  change (zlen data' = zlen data) in Hl'. rewrite Hl in Hl'.
  case_if; [eauto|]. destruct (two_bytes data' Hl' Hu) as (b0 & b1 & -> & H0' & H1').
  rewrite get_le_value_spec by done. cbn [mbind option_bind]. eauto.
Qed.

Lemma s_ctrl_total cfg data c (d : dev) : zlen data = 2 -> Forall is_u8 data ->
  exists r, myuvc_vidioc_s_ctrl control_msg cfg data c d = Some r.
Proof.
  intros Hl Hu. unfold myuvc_vidioc_s_ctrl. case_if; [eauto|].
  destruct (two_bytes data Hl Hu) as (b0 & b1 & -> & H0' & H1').
  rewrite set_le_value_spec by done. cbn [mbind option_bind].
  destruct (control_msg _ d) as [[ret data'] d']. case_if; eauto.
Qed.

Lemma find_offset_found pgoff l : forall todo i0 j, find_offset todo i0 pgoff l = Some j ->
  (j = i0 + todo)%nat \/ (i0 <= j < i0 + todo)%nat.
Proof.
  induction todo as [|todo IH]; intros i0 j; cbn [find_offset]; [intros [= <-]; lia|].
  intros (b & _ & E)%bind_Some. revert E. case_if; [intros [= <-]; lia|]. intros [?|?]%IH; lia.
Qed.

Lemma mmap_total ins vma q : 0 <= vm_start vma <= vm_end vma -> vm_end vma < 2 ^ 32 ->
  queue_inv q -> exists r, myuvc_mmap ins vma q = Some r.
Proof.
  intros Hs He [Hn|(m & a & Hr)]; unfold myuvc_mmap.
  { rewrite (qn_count _ Hn). cbn. eauto. }
  pose proof (qr_slack _ _ _ Hr) as Hbs. pose proof (aw_limit _ (qr_wf _ _ _ Hr)) as Hlim.
  pose proof (aw_count _ (qr_wf _ _ _ Hr)) as Hcnt. pose proof (qr_small _ _ _ Hr) as Hsm.
  pose proof (qr_fits _ _ _ Hr) as Hfit. rewrite (qr_count _ _ _ Hr), Nat2Z.id.
  destruct (find_offset_total q m a (vm_pgoff vma) Hr (a_count a) 0 eq_refl) as [i Hi].
  rewrite Hi. cbn [mbind option_bind].
  destruct (Z.eqb_spec (Z.of_nat i) (Z.of_nat (a_count a))) as [|Hne]; [by eexists|].
  assert (i < a_count a)%nat as Hlt by (destruct (find_offset_found _ _ _ _ _ Hi); lia).
  rewrite (u32_small (_ - _)) by (split; lia). cbn [orb].
  destruct (Z.eqb_spec (vm_end vma - vm_start vma) (u32 (q_buf_size q))) as [Hsz|]; cbn [negb]; [|by eexists].
  rewrite u32_small in Hsz by (split; nia).
  destruct (qr_bufs _ _ _ Hr i Hlt) as (b & Hb & Hg & _). rewrite Hb. cbn [mbind option_bind].
  rewrite (qr_mem _ _ _ Hr). cbn [mbind option_bind vm_start]. rewrite (ge_offset _ _ _ _ Hg), Hsz.
  destruct (qr_page _ _ _ Hr) as [k Hk]. assert (0 <= k) by (unfold PAGE_SIZE in Hk; lia).
  destruct (map_pages_total ins m (Z.to_nat k) (S (Z.to_nat (q_buf_size q))) 0 (vm_start vma)
              (Z.of_nat i * q_buf_size q) []) as [[ret pages] E];
    try (rewrite ?Z2Nat.id, <- ?Hk by done; unfold PAGE_SIZE in *; nia).
  rewrite Z2Nat.id, <- Hk in E by done. rewrite E. cbn [mbind option_bind]. case_if; [by eexists|].
  unfold myuvc_vm_open. cbn [vm_private_data mbind option_bind].
  destruct (open_rel q m a i Hr Hlt) as (q' & -> & _). by eexists.
Qed.

Lemma buffer_total q i : queue_inv q -> (i < 32)%nat -> is_Some (q_buffer q !! i).
Proof.
  intros [Hn|(m & a & Hr)] Hi; apply lookup_lt_is_Some_2.
  - by rewrite (qn_len _ Hn).
  - by rewrite (qr_len _ _ _ Hr).
Qed.

Lemma complete_total vendor kmalloc urb rx m a :
  kmalloc_ok vendor kmalloc -> Forall (packet_ok (transfer_buffer urb)) (iso_frame_desc urb) ->
  temp_ok rx -> queue_rel (rx_queue rx) m a ->
  (forall repairs, a_urb vendor repairs (transfer_buffer urb) (iso_frame_desc urb)
     (mk_asm (fid rx) (last_fid rx) a (woken rx)) <> None) ->
  exists r, myuvc_video_complete vendor kmalloc urb rx = Some r.
Proof.
  intros Hk Hp Ht Hr Hs. destruct (Z.eqb_spec (urb_status urb) 0) as [H0'|H0'].
  2:{ unfold myuvc_video_complete. destruct (Z.eqb_spec (urb_status urb) 0); [done|]. cbn. eauto. }
  assert (rx_rel rx m (mk_asm (fid rx) (last_fid rx) a (woken rx))) as Hx by (by split).
  rewrite (complete_decode _ _ _ _ _ _ H0' Hx).
  destruct (decode_packets_rel vendor kmalloc Hk _ _ Hp rx m _ Hx) as (repairs & _ & _ & Hd).
  destruct (a_urb _ _ _ _ _) eqn:E; [|by apply Hs in E].
  destruct Hd as (rx1 & m1 & -> & _). cbn. eauto.
Qed.

Lemma driver_no_fault ev (dr : driver dev) :
  driver_inv dr -> event_ok dr ev -> served dr ev -> exists out, handle ev dr = Some out.
Proof.
  intros [Hidx Hfmt Htemp Hq] Hev Hsv. destruct dr as [cfg vendor fmt params rx d].
  unfold dr_queue in *. cbn in Hidx, Hfmt, Htemp, Hq.
  assert (forall f, exists r, myuvc_vidioc_try_fmt_vid_cap cfg f = Some r) as Htry.
  { intros f. unfold myuvc_vidioc_try_fmt_vid_cap. rewrite Hidx. do 2 (case_if; [eauto|]). cbn. eauto. }
  destruct ev; cbn in Hev, Hsv; unfold handle, dr_queue; cbn [dr_cfg dr_rx dr_format dr_dev dr_vendor].
  - eauto.
  - destruct (myuvc_vidioc_enum_fmt_vid_cap f). eauto.
  - eauto.
  - destruct (Htry f) as [[] ->]. cbn. eauto.
  - unfold myuvc_vidioc_s_fmt_vid_cap. destruct (Htry f) as [[] ->]. cbn. case_if; cbn; eauto.
  - destruct Hev as [Hv Hc].
    destruct (reqbufs_cases vmalloc_32 fmt p (rx_queue rx) Hv Hq) as (ret1 & q2 & -> & _);
      [|done|cbn; eauto].
    destruct Hfmt as [->| ->]; [by left|]. right. apply frame_size_fits.
  - destruct Hq as [Hn|(m & a & Hr)].
    + unfold myuvc_vidioc_querybuf. rewrite (qn_count _ Hn). change (u32 0) with 0.
      case_if; [cbn; eauto|]. bool_props. lia.
    + pose proof (querybuf_rel _ m a b Hr Hev) as Hqb. case_if_in Hqb.
      * destruct Hqb as (? & ? & _ & -> & _). cbn. eauto.
      * rewrite Hqb. cbn. eauto.
  - destruct Hq as [Hn|(m & a & Hr)].
    + unfold myuvc_vidioc_qbuf. rewrite (qn_count _ Hn). change (u32 0) with 0.
      case_if; [cbn; eauto|]. case_if; [cbn; eauto|]. bool_props. lia.
    + pose proof (qbuf_rel _ m a b Hr Hev) as Hqb. case_match.
      * destruct Hqb as (? & -> & _). cbn. eauto.
      * rewrite Hqb. cbn. eauto.
  - destruct Hq as [Hn|(m & a & Hr)]; [by destruct (Hsv (qn_mem _ Hn))|].
    pose proof (dqbuf_rel _ m a b Hr) as Hqb. destruct (a_dqbuf a) as [[[? ?] ?]|].
    + destruct Hqb as (? & ? & -> & _). cbn. eauto.
    + rewrite Hqb. cbn. eauto.
  - destruct (queryctrl_total cfg c d) as [[[] ] ->]. cbn. eauto.
  - destruct (g_ctrl_total cfg stack c d) as [[[] ] ->]; [apply Hev|]. cbn. eauto.
  - destruct (s_ctrl_total cfg stack c d) as [[] ->]; [apply Hev..|]. cbn. eauto.
  - unfold myuvc_vidioc_streamon.
    destruct (negotiate_total cfg pa d Hev) as (params1 & d1 & -> & _). cbn [mbind option_bind].
    destruct (myuvc_alloc_init_urbs _ _ _) as [[] ]. destruct (submit_loop _ _ _ _) as [[] ].
    cbn. eauto.
  - destruct (myuvc_vidioc_streamoff cfg (rx_queue rx) d) as [[] ]. eauto.
  - destruct (myuvc_close cfg (rx_queue rx) d) as [[] ]. eauto.
  - destruct Hev as (Hs & He).
    destruct (mmap_total vm_insert_page vma (rx_queue rx) Hs He Hq) as [[[[] ] ] ->]. cbn. eauto.
  - destruct Hev as (i & Hi & Hlt). unfold myuvc_vm_open, update_buf. rewrite Hi. cbn [mbind option_bind].
    destruct (buffer_total _ i Hq Hlt) as [b ->]. cbn. eauto.
  - destruct Hev as (i & Hi & Hlt). unfold myuvc_vm_close, update_buf. rewrite Hi. cbn [mbind option_bind].
    destruct (buffer_total _ i Hq Hlt) as [b ->]. cbn. eauto.
  - destruct Hq as [Hn|(m & a & Hr)]; [by destruct (Hsv (qn_mem _ Hn))|].
    rewrite (poll_rel _ _ _ Hr). cbn. eauto.
  - destruct Hev as [Hk Hp]. destruct Hsv as [Hst|(m & a & Hr & Hs)].
    + unfold myuvc_video_complete. destruct (Z.eqb_spec (urb_status urb) 0); [done|]. cbn. eauto.
    + destruct (complete_total vendor kmalloc urb rx m a Hk Hp Htemp Hr Hs) as [[] ->]. cbn. eauto.
Qed.
End Safety.

(** * Order of buffers *)

Lemma a_packet_owned vendor stale p last a : a_owned (a_packet vendor stale p last a).1.2 = a_owned a.
Proof.
  unfold a_packet. destruct (a_fill a) eqn:Ef; [done|].
  repeat case_if; cbn [fst snd]; rewrite ?complete_owned; done.
Qed.

Lemma a_urb_owned vendor ds : forall repairs tb s s',
  a_urb vendor repairs tb ds s = Some s' -> a_owned (s_queue s') = a_owned (s_queue s).
Proof.
  induction ds as [|d ds IH]; intros repairs tb s s'; cbn [a_urb]; [by intros [= <-]|].
  case_if; [done|]. intros E. rewrite (IH _ _ _ _ E). unfold a_decode.
  destruct (parse_packet vendor tb d (s_fid s) (s_last s)) as [p|]; [|done].
  pose proof (a_packet_owned vendor (default false (head repairs)) p (s_last s) (s_queue s)) as Ho.
  by destruct (a_packet _ _ _ _ _) as [[last a] w].
Qed.

(** The indices an event moves from the application to the driver and back. *)
Definition queued (ev : event) (ret : Z) : list nat :=
  match ev with
  | EvQbuf b => if ret =? 0 then [Z.to_nat (vb_index b)] else []
  | _ => []
  end.
Definition dequeued (ev : event) (ret : Z) (r : reply) : list nat :=
  match ev, r with
  | EvDqbuf _, R_buf d => if ret =? 0 then [Z.to_nat (vb_index d)] else []
  | _, _ => []
  end.

Definition keeps_buffers (ev : event) : Prop :=
  match ev with EvReqbufs _ _ => False | _ => True end.

Section Order.
Context {dev : Type} `{UsbLaws dev}.

(** A run without [VIDIOC_REQBUFS], with what was queued and dequeued. *)
Inductive run (dr0 : driver dev) : list nat -> list nat -> driver dev -> Prop :=
  | run_nil : run dr0 [] [] dr0
  | run_snoc qs ds dr ev ret r dr' : run dr0 qs ds dr -> event_ok dr ev -> keeps_buffers ev ->
      handle ev dr = Some (ret, r, dr') ->
      run dr0 (qs ++ queued ev ret) (ds ++ dequeued ev ret r) dr'.

Lemma owned_step ev (dr : driver dev) ret r dr' m a :
  temp_ok (dr_rx dr) -> queue_rel (dr_queue dr) m a -> event_ok dr ev -> keeps_buffers ev ->
  handle ev dr = Some (ret, r, dr') ->
  temp_ok (dr_rx dr') /\ exists m' a', queue_rel (dr_queue dr') m' a' /\
    a_owned a ++ queued ev ret = dequeued ev ret r ++ a_owned a'.
Proof.
  intros Ht Hr Hev Hk Hh. destruct dr as [cfg vendor fmt params rx d].
  unfold dr_queue in *. cbn in Ht, Hr, Hh.
  assert (forall q1, queue_rel q1 m a -> temp_ok rx /\ exists m' a',
    queue_rel q1 m' a' /\ a_owned a ++ [] = [] ++ a_owned a') as Hsame
    by (intros q1 Hq1; split; [done|]; exists m, a; by rewrite app_nil_r).
  destruct ev; cbn in Hev, Hk, Hh; try done;
    try (by simplify_eq; apply Hsame);
    try (peel Hh; repeat case_match; simplify_eq; by apply Hsame).
  - peel Hh. destruct r0 as [ret0 q1]. simplify_eq. cbn. split; [done|].
    pose proof (qbuf_rel _ m a b Hr Hev) as Hqb. unfold dr_queue in Hb. cbn in Hb. case_match.
    + destruct Hqb as (q2 & E & Hr2). rewrite Hb in E. injection E as -> ->.
      exists m, a0. split; [done|]. cbn. case_if_in H1; [|done]. unfold a_qbuf in H1.
      case_if_in H1; [|done]. injection H1 as <-. unfold a_owned. cbn. by rewrite app_assoc.
    + rewrite Hb in Hqb. injection Hqb as -> ->. exists m, a. cbn. by rewrite app_nil_r.
  - peel Hh. destruct r0 as [[ret0 b1] q1]. simplify_eq. cbn. split; [done|].
    pose proof (dqbuf_rel _ m a b Hr) as Hqb. unfold dr_queue in Hb. cbn in Hb.
    destruct (a_dqbuf a) as [[[i frame] a']|] eqn:Ed.
    + destruct Hqb as (d1 & q2 & E & Hi & _ & _ & Hr2). rewrite Hb in E. injection E as -> -> ->.
      exists m, a'. split; [done|]. cbn. rewrite Hi, Nat2Z.id, app_nil_r.
      by destruct (dqbuf_wf _ _ _ _ (qr_wf _ _ _ Hr) Ed) as (_ & -> & _).
    + rewrite Hb in Hqb. injection Hqb as -> -> ->. exists m, a. cbn. by rewrite app_nil_r.
  - peel Hh. destruct r0 as [[[ret0 p0] q1] d1]. simplify_eq. apply Hsame.
    eapply urbs_rel; [by eapply streamon_same | done].
  - pose proof (streamoff_same cfg (rx_queue rx) d) as Hs. unfold dr_queue in Hh. cbn in Hh.
    destruct (myuvc_vidioc_streamoff cfg (rx_queue rx) d) as [[ret0 q1] d1]. simplify_eq.
    apply Hsame. by eapply urbs_rel.
  - unfold myuvc_close, dr_queue in Hh. pose proof (streamoff_same cfg (rx_queue rx) d) as Hs.
    cbn in Hh. destruct (myuvc_vidioc_streamoff cfg (rx_queue rx) d) as [[ret0 q1] d1].
    simplify_eq. apply Hsame. by eapply urbs_rel.
  - peel Hh. destruct r0 as [[[ret0 pg] vma1] q1]. simplify_eq. apply Hsame.
    apply mmap_queue in Hb as [->|[i Hu]]; [done|]. eapply use_count_rel; [|done..]. done.
  - peel Hh. simplify_eq. apply Hsame. unfold myuvc_vm_open in Hb.
    apply bind_Some in Hb as (i & _ & Hu). eapply use_count_rel; [|done..]. done.
  - peel Hh. simplify_eq. apply Hsame. unfold myuvc_vm_close in Hb.
    apply bind_Some in Hb as (i & _ & Hu). eapply use_count_rel; [|done..]. done.
  - peel Hh. destruct r0 as [rx1 again]. simplify_eq. destruct Hev as [Hkm Hp]. cbn.
    destruct (Z.eqb_spec (urb_status urb) 0) as [Hs|Hs].
    2:{ unfold myuvc_video_complete in Hb. destruct (Z.eqb_spec (urb_status urb) 0); [done|].
        cbn in Hb. injection Hb as <- <-. by apply Hsame. }
    set (s := mk_asm (fid rx) (last_fid rx) a (woken rx)).
    assert (rx_rel rx m s) as Hx by (by split).
    rewrite (complete_decode _ _ _ _ _ _ Hs Hx) in Hb.
    destruct (decode_packets_rel vendor kmalloc Hkm _ _ Hp rx m s Hx) as (repairs & _ & _ & Hd).
    destruct (a_urb _ _ _ _) as [s'|] eqn:Ea; [|by rewrite Hd in Hb].
    destruct Hd as (rx2 & m1 & E & Hx1 & _). rewrite E in Hb. cbn in Hb. injection Hb as <- <-.
    split; [apply Hx1|]. exists m1, (s_queue s'). split; [apply Hx1|].
    rewrite app_nil_r. symmetry. apply (a_urb_owned _ _ _ _ _ _ Ea).
Qed.
End Order.

(** * Properties *)

(** In every reachable state of the driver the queue is well formed: it has
    no buffers, or it stands for an abstract queue (finished frames in memory,
    then the buffers waiting, each buffer in the state its place says, inside
    its part of the block); the format has the camera's size or none. *)
Theorem driver_invariant {dev} `{UsbLaws dev} vendor (d : dev) (dr : driver dev) :
  reachable (initial_driver vendor d) dr -> driver_inv dr.
Proof. intros Hr. eapply reachable_inv; [apply initial_inv | done]. Qed.

Lemma driver_invariant_witness :
  driver_inv (initial_driver 0x046D (sim_idle 20)).
Proof.
  apply (driver_invariant 0x046D (sim_idle 20)). constructor.
Defined.

(** C15. The driver does not fault: in every reachable state, every request and
    every completion runs to its end. The conditions are [event_ok] and [served]: at
    most 32 buffers are requested and indices are unsigned; allocators give blocks of
    the size asked for, and the temporary block for vendor 0x1B3B; packets lie in the
    transfer buffer; a mapped area lies in the address space (a page may fail to be
    inserted), and an area opened or closed is of one of the 32 buffers; there are
    buffers when the application waits for one; and the interrupt handler has a
    buffer for the packets it receives. *)
Theorem driver_safe {dev} `{UsbLaws dev} vendor (d : dev) (dr : driver dev) ev :
  reachable (initial_driver vendor d) dr -> event_ok dr ev -> served dr ev ->
  exists ret r dr', handle ev dr = Some (ret, r, dr').
Proof.
  intros Hr He Hs.
  destruct (driver_no_fault ev dr) as [[[ret r] dr'] E]; eauto using reachable_inv, initial_inv.
Qed.

(** A format is set and two buffers are requested. *)
Definition large_vmalloc (n : Z) : option mem :=
  if (0 <? n) && (n <=? 2 ^ 24) then Some (replicate (Z.to_nat (PAGE_ALIGN n)) 0) else None.

Lemma large_vmalloc_ok : vmalloc_ok large_vmalloc.
Proof.
  intros n m. unfold large_vmalloc. case_if; [|done]. bool_props. intros [= <-]. split; [lia|].
  unfold zlen. rewrite length_replicate. destruct (PAGE_ALIGN_bounds n) as [? _]; lia.
Qed.

Definition with_buffers : option (driver sim_usb) :=
  '(_, _, dr) ← handle (EvSFmt (mk_format 1 (mk_pix 320 240 V4L2_PIX_FMT_MJPEG 0 0 0 0 0)))
     (initial_driver 0x046D (sim_idle 20));
  '(_, _, dr) ← handle (EvReqbufs large_vmalloc (mk_reqbufs 2 1 1)) dr;
  Some dr.

Lemma with_buffers_reached : exists dr, with_buffers = Some dr /\
  reachable (initial_driver 0x046D (sim_idle 20)) dr /\ q_mem (dr_queue dr) <> None.
Proof.
  assert (match with_buffers with Some dr => bool_decide (is_Some (q_mem (dr_queue dr))) | None => false end = true) as Hb
    by (vm_compute; reflexivity).
  destruct with_buffers as [dr|] eqn:E; [|done]. exists dr. split; [done|].
  apply bool_decide_eq_true, not_eq_None_Some in Hb. split; [|done].
  unfold with_buffers in E. apply bind_Some in E as ([[ret1 r1] dr1] & E1 & E).
  apply bind_Some in E as ([[ret2 r2] dr2] & E2 & [= ->]).
  eapply reach_step; [eapply reach_step; [constructor | | exact E1] | | exact E2]; [exact I|].
  split; [apply large_vmalloc_ok | cbn; lia].
Qed.

Lemma driver_safe_witness : exists dr, with_buffers = Some dr /\
  exists ret r dr', handle (EvDqbuf zero_buffer) dr = Some (ret, r, dr').
Proof.
  destruct with_buffers_reached as (dr & E & Hr & Hm). exists dr. split; [exact E|].
  apply (driver_safe 0x046D (sim_idle 20) dr (EvDqbuf zero_buffer) Hr); [cbn; lia | exact Hm].
Defined.

(** Without buffers the conditions are needed: a wait, a poll or a completed
    URB then follows a list head that was never initialised. *)
Theorem unallocated_faults {dev} `{UsbCore dev} (dr : driver dev) b kmalloc urb :
  queue_none (dr_queue dr) -> urb_status urb = 0 ->
  handle (EvDqbuf b) dr = None /\ handle EvPoll dr = None /\
  handle (EvComplete kmalloc urb) dr = None.
Proof.
  intros [Hm Hc Hl Hmain Hirq] Hs. cbn. unfold dr_queue in *.
  unfold myuvc_vidioc_dqbuf, myuvc_poll, myuvc_video_complete, next_buf.
  by rewrite Hmain, Hirq, Hs.
Qed.

Lemma unallocated_faults_witness :
  handle (EvDqbuf zero_buffer) (initial_driver 0x046D (sim_idle 20)) = None /\
  handle EvPoll (initial_driver 0x046D (sim_idle 20)) = None /\
  handle (EvComplete (fun _ => None) sample_urb) (initial_driver 0x046D (sim_idle 20)) = None.
Proof.
  apply (unallocated_faults (initial_driver 0x046D (sim_idle 20)) zero_buffer (fun _ => None)
           sample_urb).
  - split; reflexivity.
  - reflexivity.
Defined.

(** C16. Buffers come back in order: over any run of requests other than REQBUFS and
    of completions, from a fresh queue and under [event_ok], the buffers the
    application queued are, in order, the ones it got back followed by the ones in
    the main queue. *)
Theorem buffers_in_order {dev} `{UsbLaws dev} (dr0 dr : driver dev) m n limit qs ds :
  temp_ok (dr_rx dr0) -> queue_rel (dr_queue dr0) m (a_new n limit) -> run dr0 qs ds dr ->
  exists rest, q_mainqueue (dr_queue dr) = Some rest /\ qs = ds ++ rest.
Proof.
  intros Ht Hr Hrun.
  assert (temp_ok (dr_rx dr) /\ exists m' a', queue_rel (dr_queue dr) m' a' /\ qs = ds ++ a_owned a')
    as (_ & m' & a' & Hr' & E).
  { induction Hrun as [|qs ds dr ev ret r dr' _ IH Hev Hk Hh]; [split; [done|]; by exists m, (a_new n limit)|].
    destruct IH as (Ht1 & m1 & a1 & Hr1 & ->).
    destruct (owned_step ev dr ret r dr' m1 a1 Ht1 Hr1 Hev Hk Hh) as (Ht2 & m2 & a2 & Hr2 & E).
    split; [done|]. exists m2, a2. split; [done|]. by rewrite <- !app_assoc, E. }
  exists (a_owned a'). split; [apply Hr' | done].
Qed.

Definition sample_driver : driver sim_usb :=
  set_dr_queue sample_queue (initial_driver 0x046D (sim_idle 20)).

Lemma buffers_in_order_witness :
  exists dr rest, run sample_driver [1%nat] [] dr /\
    q_mainqueue (dr_queue dr) = Some rest /\ [1%nat] = [] ++ rest.
Proof.
  set (ev := EvQbuf (mk_vbuf 1 1 0 0 0 (0, 0) 0 1 0 0 0)).
  destruct (handle ev sample_driver) as [[[ret r] dr']|] eqn:E; [|discriminate E].
  assert (ret = 0) as Hret by (vm_compute in E; by injection E).
  assert (run sample_driver [1%nat] [] dr') as Hrun.
  { subst ret. apply (run_snoc sample_driver [] [] sample_driver ev 0 r dr');
      [constructor | cbn; lia | exact I | exact E]. }
  exists dr'. destruct (buffers_in_order sample_driver dr' sample_mem 2 100 [1%nat] []) as (rest & Hrest).
  - split; [cbn; lia | exact I].
  - apply sample_rel.
  - exact Hrun.
  - exists rest. split; [exact Hrun | exact Hrest].
Defined.
