(* ===== verification/UsbHost.v ===== *)
(** The UVC driver on the USB core of the kernel: an instance of [UsbCore] made of
    the operations of [UsbUrb] and [UsbMsg], and what comes of STREAMON, STREAMOFF
    and the transfers between them.

    The surroundings (host controller, allocator, answers of the camera) are a
    record of functions. An operation that faults sets a flag; the theorems show
    when it stays clear. *)
From S2P Require Import Prelude V4l2 UsbUrb UsbMsg UvcParams UvcQueue UvcDecode UvcStream UvcDriver.
Open Scope Z_scope.

(** * The host *)

(** What surrounds the driver: the host controller driver, whether the n-th
    allocation succeeds and what a new block contains, the answers of the camera to
    control messages and to a change of its setting (what came of the transfer and
    the data, or nothing before the timeout), the bandwidth, and what a transfer brought that is cut
    short. [D] is the state of the camera. *)
Record world (D : Type) := mk_world {
  w_hc : hcd_driver;
  w_mem : nat -> bool;
  w_garbage : usb_iso_packet_descriptor;
  w_ctl : usb_request -> D -> option (transfer * mem) * D;
  w_setting : Z -> Z -> D -> option Z * D;
  w_bandwidth : Z;
  w_no_set_intf : bool;
  w_halt : nat -> UsbMsg.reply;
  w_cut : transfer
}.
Arguments mk_world {_} _ _ _ _ _ _ _ _ _.
Arguments w_hc {_} _.
Arguments w_mem {_} _ _.
Arguments w_garbage {_} _.
Arguments w_ctl {_} _ _ _.
Arguments w_setting {_} _ _ _ _.
Arguments w_bandwidth {_} _.
Arguments w_no_set_intf {_} _.
Arguments w_halt {_} _ _.
Arguments w_cut {_} _.

(** The bus, the URBs and buffers that the driver has, the interfaces, the camera,
    the number of allocations so far, and the fault flag. *)
Record host (D : Type) := mk_host {
  hs_bus : ubus;
  hs_urbs : gset nat;
  hs_bufs : gset nat;
  hs_intfs : list usb_interface;
  hs_camera : D;
  hs_allocs : nat;
  hs_fault : bool
}.
Arguments mk_host {_} _ _ _ _ _ _ _.
Arguments hs_bus {_} _.
Arguments hs_urbs {_} _.
Arguments hs_bufs {_} _.
Arguments hs_intfs {_} _.
Arguments hs_camera {_} _.
Arguments hs_allocs {_} _.
Arguments hs_fault {_} _.

Definition set_bus {D} (b : ubus) (d : host D) : host D :=
  mk_host b (hs_urbs d) (hs_bufs d) (hs_intfs d) (hs_camera d) (hs_allocs d) (hs_fault d).
Definition set_held {D} (us bs : gset nat) (d : host D) : host D :=
  mk_host (hs_bus d) us bs (hs_intfs d) (hs_camera d) (hs_allocs d) (hs_fault d).
Definition set_camera {D} (c : D) (d : host D) : host D :=
  mk_host (hs_bus d) (hs_urbs d) (hs_bufs d) (hs_intfs d) c (hs_allocs d) (hs_fault d).
Definition set_intfs {D} (i : list usb_interface) (d : host D) : host D :=
  mk_host (hs_bus d) (hs_urbs d) (hs_bufs d) i (hs_camera d) (hs_allocs d) (hs_fault d).
Definition count_alloc {D} (n : nat) (d : host D) : host D :=
  mk_host (hs_bus d) (hs_urbs d) (hs_bufs d) (hs_intfs d) (hs_camera d) (hs_allocs d + n) (hs_fault d).
Definition faulted {D} (d : host D) : host D :=
  mk_host (hs_bus d) (hs_urbs d) (hs_bufs d) (hs_intfs d) (hs_camera d) (hs_allocs d) true.

(** An operation of the core, or a fault. *)
Definition on_bus {D} (o : option ubus) (d : host D) : host D :=
  match o with Some b => set_bus b d | None => faulted d end.

Section Host.
Context {D : Type} (w : world D).

(** Addresses that are free. *)
Definition free_urb (d : host D) : nat := fresh (hs_urbs d ∪ dom (ub_urbs (hs_bus d))).
Definition free_buf (d : host D) : nat := fresh (hs_bufs d ∪ ub_bufs (hs_bus d)).

(** The blocks of a control message, from the k-th allocation on. *)
Definition blocks_at (k : nat) (d : host D) : msg_blocks :=
  mk_blocks (w_mem w k) (if w_mem w (S k) then Some (free_urb d) else None).

(** A control message with its block of data. The camera sees it if it was
    submitted; what it sends overwrites the beginning of the block. *)
Definition host_control_msg (rq : usb_request) (d : host D) : Z * mem * host D :=
  let y := free_buf d in
  let b := hs_bus d in
  let '(ans, c) := w_ctl w rq (hs_camera d) in
  let bytes := match ans with
               | Some (_, bs) => take (length (rq_data rq)) bs | None => [] end in
  let rp := match ans with
            | Some (x, _) => Reply x
            | None => Timeout (w_cut w) end in
  let pipe := (if rq_rcvpipe rq then usb_rcvctrlpipe else usb_sndctrlpipe) (ub_dev b) 0 in
  match usb_control_msg (w_hc w) rp (blocks_at (hs_allocs d) d) pipe (rq_request rq)
          (rq_requesttype rq) (rq_value rq) (rq_index rq) (Some y) (rq_size rq)
          (set_ub_bufs ({[y]} ∪ ub_bufs b) b) with
  | None => (0, map u8 (rq_data rq), faulted d)
  | Some (ret, b') =>
      let sent := negb (ud_urbnum (ub_dev b') =? ud_urbnum (ub_dev b)) in
      (ret,
       map u8 (if sent && rq_rcvpipe rq then bytes ++ drop (length bytes) (rq_data rq)
               else rq_data rq),
       set_bus (set_ub_bufs (ub_bufs b' ∖ {[y]}) b')
         (set_camera (if sent then c else hs_camera d) (count_alloc 2 d)))
  end.

(** The surroundings of [usb_set_interface]. *)
Definition host_env (ans : option Z) (d : host D) : intf_env :=
  mk_env (w_bandwidth w) (w_no_set_intf w)
    (match ans with Some st => Reply (mk_transfer st 0 []) | None => Timeout (w_cut w) end)
    (blocks_at (hs_allocs d) d) (w_halt w) (fun n => blocks_at (hs_allocs d + 2 + 2 * n) d) (w_cut w).

Definition host_set_interface (interface alternate : Z) (d : host D) : host D :=
  let '(ans, c) := w_setting w interface alternate (hs_camera d) in
  match UsbMsg.usb_set_interface (w_hc w) (host_env ans d) interface alternate (hs_intfs d) (hs_bus d) with
  | None => faulted d
  | Some (_, intfs, b') =>
      let sent := negb (ud_urbnum (ub_dev b') =? ud_urbnum (ub_dev (hs_bus d))) in
      set_bus b' (set_intfs intfs (set_camera (if sent then c else hs_camera d) (count_alloc 64 d)))
  end.

Definition host_buffer_alloc (_ : Z) (d : host D) : option nat * host D :=
  let y := free_buf d in
  let d1 := count_alloc 1 d in
  if w_mem w (hs_allocs d)
  then (Some y, set_bus (set_ub_bufs ({[y]} ∪ ub_bufs (hs_bus d)) (hs_bus d))
                  (set_held (hs_urbs d) ({[y]} ∪ hs_bufs d) d1))
  else (None, d1).

Definition host_buffer_free (_ : Z) (y : nat) (d : host D) : host D :=
  set_bus (set_ub_bufs (ub_bufs (hs_bus d) ∖ {[y]}) (hs_bus d))
    (set_held (hs_urbs d) (hs_bufs d ∖ {[y]}) d).

Definition host_alloc_urb (npackets : Z) (d : host D) : option nat * host D :=
  let h := free_urb d in
  let d1 := count_alloc 1 d in
  if w_mem w (hs_allocs d)
  then (Some h, set_bus (UsbUrb.usb_alloc_urb (Some (h, replicate (Z.to_nat npackets) (w_garbage w)))
                           (hs_bus d)).2
                  (set_held ({[h]} ∪ hs_urbs d) (hs_bufs d) d1))
  else (None, d1).

Definition host_free_urb (h : nat) (d : host D) : host D :=
  set_held (hs_urbs d ∖ {[h]}) (hs_bufs d) (on_bus (UsbUrb.usb_free_urb (Some h) (hs_bus d)) d).

(** The handler of the driver submits the URB again unless it got an error. *)
Definition video_handler (status : Z) : bool := status =? 0.

(** What [myuvc_alloc_init_urbs] writes into an URB; the room for the packets is
    that of the allocation. *)
Definition setup_io (dev : usb_device) (us : urb_setup) (io : urb_io) : urb_io :=
  mk_io true (io_ep io) (usb_rcvisocpipe dev (us_endpoint us)) (io_status io)
    (us_transfer_flags us) (us_transfer_buffer us) (us_transfer_buffer_length us)
    (io_actual_length io) (io_setup_packet io) (us_number_of_packets us) (us_interval us)
    (Some video_handler)
    (imap (fun j p => match us_iso_frame_desc us !! j with
                      | Some (off, len) => mk_packet off len (ip_actual_length p) (ip_status p)
                      | None => p
                      end) (io_frame_desc io)).

Definition host_fill_urb (h : nat) (us : urb_setup) (d : host D) : host D :=
  match ub_urbs (hs_bus d) !! h with
  | Some u =>
      if bool_decide (length (us_iso_frame_desc us) <= length (io_frame_desc (u_io u)))%nat
      then set_bus (put_urb h (set_u_io (setup_io (ub_dev (hs_bus d)) us (u_io u)) u) (hs_bus d)) d
      else faulted d
  | None => faulted d
  end.

Definition host_submit_urb (h : nat) (d : host D) : Z * host D :=
  match UsbUrb.usb_submit_urb (w_hc w) (Some h) (hs_bus d) with
  | Some (r, b) => (r, set_bus b d)
  | None => (0, faulted d)
  end.

Definition host_kill_urb (h : nat) (d : host D) : host D :=
  on_bus (UsbUrb.usb_kill_urb (w_hc w) (w_cut w) (Some h) (hs_bus d)) d.

Definition host_core : UsbCore (host D) := {|
  control_msg := host_control_msg;
  usb_set_interface := host_set_interface;
  usb_buffer_alloc := host_buffer_alloc;
  usb_buffer_free := host_buffer_free;
  usb_alloc_urb := host_alloc_urb;
  usb_free_urb := host_free_urb;
  fill_urb := host_fill_urb;
  submit_urb := host_submit_urb;
  usb_kill_urb := host_kill_urb;
  live_bufs := hs_bufs;
  live_urbs := hs_urbs
|}.
End Host.

(** * The laws *)

Lemma iso_init_le max todo : forall n desc ret desc',
  iso_init todo n max desc = Some (ret, desc') -> ret <= 0.
Proof.
  induction todo as [|todo IH]; intros n desc ret desc'; cbn [iso_init].
  - by intros [= <- _].
  - intros (p & _ & E)%bind_Some. revert E. case_if; [by intros [= <- _]|apply IH].
Qed.

Lemma endpoint_checks_le dev ep io r io' : endpoint_checks dev ep io = Some (r, io') -> r <= 0.
Proof.
  unfold endpoint_checks. destruct (is_out ep io); [|by intros [= <- _]].
  do 2 (case_if; [by intros [= <- _]|]). intros ([ret io1] & E1 & E)%bind_Some.
  assert (ret <= 0).
  { revert E1. case_if; [|by intros [= <- _]]. unfold iso_checks. case_if; [by intros [= <- _]|].
    intros ([ret2 desc] & E2 & [= <- _])%bind_Some. by eapply iso_init_le. }
  revert E. case_if; [by intros [= <- _]|]. case_if; [by intros [= <- _]|].
  case_if; [|by intros [= <- _]]. destruct (urb_interval _ _ _); by intros [= <- _].
Qed.

Lemma submit_checks_le dev eps io r io' : submit_checks dev eps io = Some (r, io') -> r <= 0.
Proof.
  unfold submit_checks. case_if; [by intros [= <- _]|]. intros (o & _ & E)%bind_Some. revert E.
  destruct o; [|by intros [= <- _]]. intros (ep & _ & E)%bind_Some. by eapply endpoint_checks_le.
Qed.

Lemma link_le h b r b' : usb_hcd_link_urb_to_ep h b = Some (r, b') -> r <= 0.
Proof.
  unfold usb_hcd_link_urb_to_ep. intros H. peel H. revert H.
  repeat case_if; first [by intros [= <- _] | by intros (? & _ & [= <- _])%bind_Some | by intros].
Qed.

Lemma submit_le hc h b r b' : hcd_ok hc -> UsbUrb.usb_submit_urb hc (Some h) b = Some (r, b') -> r <= 0.
Proof.
  intros Hhc. cbn [UsbUrb.usb_submit_urb]. intros (u & _ & E)%bind_Some. revert E.
  case_if; [by intros [= <- _]|]. intros ([ret io] & Hc%submit_checks_le & E)%bind_Some.
  peel E. revert E. case_if; [by intros [= <- _]|]. unfold usb_hcd_submit_urb. intros E. peel E.
  destruct r3 as [st b3]. assert (st <= 0) as Hst.
  { revert Hb2. case_if; [intros [= <- _]; apply (ho_map _ Hhc)|]. unfold urb_enqueue.
    intros ([rc b4] & Hrc%link_le & Hen)%bind_Some. revert Hen. case_if; [by intros [= <- _]|].
    case_if; [|by intros (? & _ & [= <- _])%bind_Some].
    intros (? & _ & [= <- _])%bind_Some. apply (ho_enqueue _ Hhc). }
  revert E. case_if; [by intros (? & _ & [= <- _])%bind_Some|by intros [= <- _]].
Qed.

Section Laws.
Context {D : Type} (w : world D) (Hhc : hcd_ok (w_hc w)).

#[local] Instance core_w : UsbCore (host D) := host_core w.

Lemma on_bus_held o (d : host D) : hs_bufs (on_bus o d) = hs_bufs d /\ hs_urbs (on_bus o d) = hs_urbs d.
Proof. by destruct o. Qed.

#[local] Instance host_laws : UsbLaws (host D).
Proof.
  split; cbn.
  - intros rq d. unfold host_control_msg. destruct (w_ctl w rq (hs_camera d)) as [ans c].
    set (bytes := match ans with Some (_, bs) => take (length (rq_data rq)) bs | None => [] end).
    assert ((length bytes <= length (rq_data rq))%nat) as Hb.
    { unfold bytes. destruct ans as [[x bs]|]; [|cbn; lia]. rewrite length_take. lia. }
    destruct (usb_control_msg _ _ _ _ _ _ _ _ _ _ _) as [[ret b']|].
    + split; [|done]. split; [|apply map_u8_bytes]. unfold zlen. rewrite length_map.
      case_if; [|done]. rewrite length_app, length_drop. lia.
    + split; [|done]. split; [|apply map_u8_bytes]. unfold zlen. by rewrite length_map.
  - intros i s d. unfold host_set_interface. destruct (w_setting w i s (hs_camera d)).
    by destruct (UsbMsg.usb_set_interface _ _ _ _ _ _) as [[[] ]|].
  - intros n d. unfold host_buffer_alloc. destruct (w_mem w _); [|done]. split; [done|].
    split; [|done]. pose proof (is_fresh (hs_bufs d ∪ ub_bufs (hs_bus d))). unfold free_buf. set_solver.
  - intros n d. unfold host_alloc_urb. destruct (w_mem w _); [|done]. split; [done|].
    split; [|done]. pose proof (is_fresh (hs_urbs d ∪ dom (ub_urbs (hs_bus d)))). unfold free_urb. set_solver.
  - done.
  - intros h d. done.
  - intros h us d. unfold host_fill_urb. destruct (ub_urbs (hs_bus d) !! h); [|done]. by case_if.
  - intros h d. unfold host_submit_urb.
    destruct (UsbUrb.usb_submit_urb (w_hc w) (Some h) (hs_bus d)) as [[r b]|] eqn:E; [|done].
    split; [by eapply submit_le|done].
  - intros h d. apply on_bus_held.
Qed.

(** * The host in order *)

(** The references that the driver has. *)
Definition held_refs (U : gset nat) (h : nat) : Z := if decide (h ∈ U) then 1 else 0.

(** No fault so far, the bus is in order, its URBs and buffers are those of the
    driver, no handler runs. *)
Record host_ok (d : host D) : Prop := mk_host_ok {
  hk_fault : hs_fault d = false;
  hk_bus : bus_ok (held_refs (hs_urbs d)) none (hs_bus d);
  hk_urbs : dom (ub_urbs (hs_bus d)) = hs_urbs d;
  hk_bufs : ub_bufs (hs_bus d) = hs_bufs d;
  hk_owned h u : ub_urbs (hs_bus d) !! h = Some u -> owned_buffer (u_io u) = None;
  hk_handlers : ub_handlers (hs_bus d) = [];
  hk_intfs : Forall (intf_ok (hs_bus d)) (hs_intfs d)
}.

Lemma refs_in h U : h ∈ U -> held_refs U h = 1.
Proof. intros. unfold held_refs. by rewrite decide_True. Qed.

Lemma refs_add h U : h ∉ U ->
  pointwise_relation nat eq (held_refs ({[h]} ∪ U)) (bump h 1 (held_refs U)).
Proof. intros Hh x. unfold held_refs, bump. repeat case_decide; set_solver. Qed.

Lemma refs_drop h U : h ∈ U ->
  pointwise_relation nat eq (held_refs (U ∖ {[h]})) (bump h (-1) (held_refs U)).
Proof. intros Hh x. unfold held_refs, bump. repeat case_decide; set_solver. Qed.

Lemma host_urb d h : host_ok d -> h ∈ hs_urbs d -> exists u, ub_urbs (hs_bus d) !! h = Some u.
Proof. intros Hd Hh. rewrite <- (hk_urbs _ Hd) in Hh. by apply elem_of_dom in Hh. Qed.

Lemma free_urb_fresh (d : host D) : ub_urbs (hs_bus d) !! free_urb d = None.
Proof.
  apply not_elem_of_dom. pose proof (is_fresh (hs_urbs d ∪ dom (ub_urbs (hs_bus d)))).
  unfold free_urb. set_solver.
Qed.

Lemma free_buf_fresh (d : host D) : free_buf d ∉ ub_bufs (hs_bus d).
Proof. pose proof (is_fresh (hs_bufs d ∪ ub_bufs (hs_bus d))). unfold free_buf. set_solver. Qed.

Lemma blocks_fresh k (d : host D) h : mb_urb (blocks_at w k d) = Some h ->
  ub_urbs (hs_bus d) !! h = None.
Proof. unfold blocks_at. cbn. case_if; [|done]. intros [= <-]. apply free_urb_fresh. Qed.

(** A control message changes nothing but the camera. *)
Lemma control_host_ok rq d : host_ok d ->
  let '(_, _, d') := host_control_msg w rq d in
  host_ok d' /\ quiet (hs_bus d) (hs_bus d') /\ hs_intfs d' = hs_intfs d /\
  hs_urbs d' = hs_urbs d /\ hs_bufs d' = hs_bufs d.
Proof.
  intros Hd. unfold host_control_msg. destruct (w_ctl w rq (hs_camera d)) as [ans c].
  set (y := free_buf d). set (b := hs_bus d). set (b1 := set_ub_bufs _ _).
  set (rp := match ans with Some (x, _) => Reply x | None => _ end).
  set (pipe := (if rq_rcvpipe rq then _ else _) _ _).
  pose proof (free_buf_fresh d) as Hy. fold y b in Hy.
  assert (bus_ok (held_refs (hs_urbs d)) none b1) as Hok1 by (apply buffer_alloc_ok, Hd).
  destruct (control_msg_returns (w_hc w) (held_refs (hs_urbs d)) b1 rp (blocks_at w (hs_allocs d) d) pipe
              (rq_request rq) (rq_requesttype rq) (rq_value rq) (rq_index rq) (Some y) (rq_size rq))
    as (ret & b' & -> & Hok & Hq); [done|done| |].
  { split_and!; [apply blocks_fresh| |].
    - right. exists y. split; [done|]. set_solver.
    - intros h u z Hu Ho. cbn in Hu. by rewrite (hk_owned _ Hd h u Hu) in Ho. }
  assert (quiet b (set_ub_bufs (ub_bufs b' ∖ {[y]}) b')) as Hq'.
  { split; try apply Hq. cbn. rewrite (qt_bufs _ _ Hq). cbn. set_solver. }
  assert (bus_ok (held_refs (hs_urbs d)) none (set_ub_bufs (ub_bufs b' ∖ {[y]}) b')) as Hok'.
  { apply buffer_free_ok; [done|]. intros h u Hu Hl. rewrite (qt_urbs _ _ Hq) in Hu.
    destruct (uo_buffer _ _ _ _ _ _ _ (bo_urb _ _ _ (hk_bus _ Hd) h u Hu) Hl) as [|(z & E & Hz)];
      [by left|]. right. rewrite E. intros [= ->]. done. }
  split; [|by split_and!]. destruct Hq' as [Eu Ee Eb Eh _ _]. cbn in Eu, Ee, Eb, Eh.
  split; cbn; try done; rewrite ?Eu, ?Eb, ?Eh; try apply Hd.
  eapply Forall_impl; [apply Hd|]. intros i. unfold intf_ok. cbn. by rewrite Ee.
Qed.

(** With no URBs, changing the setting keeps the host in order. *)
Lemma set_interface_host_ok i s d : host_ok d -> hs_urbs d = ∅ ->
  let d' := host_set_interface w i s d in
  host_ok d' /\ hs_urbs d' = ∅ /\ hs_bufs d' = hs_bufs d.
Proof.
  intros Hd H0. unfold host_set_interface. destruct (w_setting w i s (hs_camera d)) as [ans c].
  destruct (set_interface_ok (w_hc w) (held_refs (hs_urbs d)) (host_env w ans d) i s (hs_intfs d)
              (hs_bus d) Hhc (hk_bus _ Hd)) as (r & intfs & b' & -> & Hok & Hf & Hs & _).
  { split; intros *; apply blocks_fresh. }
  { apply Hd. }
  cbn zeta. split; [|by split].
  assert (ub_urbs b' = ∅) as Hu.
  { apply map_eq. intros h. rewrite lookup_empty. apply (sk_urbs _ _ _ Hs).
    apply not_elem_of_dom. rewrite (hk_urbs _ Hd), H0. set_solver. }
  split; cbn; try done; [apply Hd| | |..].
  - rewrite Hu, dom_empty_L, H0. done.
  - rewrite (sk_bufs _ _ Hs); apply Hd.
  - by rewrite Hu.
  - destruct (ub_handlers b') as [|h l] eqn:E; [done|].
    destruct (bo_handlers _ _ _ Hok h) as [u Hx]; [rewrite E; by left|]. by rewrite Hu in Hx.
Qed.

(** * Before and after a stream *)

(** An URB of the driver: room for [np] packets, no setup packet, not blocked. *)
Definition video_urb (np : nat) (u : urb) : Prop :=
  length (io_frame_desc (u_io u)) = np /\ io_setup_packet (u_io u) = None /\ u_reject u = 0.

(** The host in order with such URBs, and with every one of them idle. *)
Definition steady (np : nat) (d : host D) : Prop :=
  host_ok d /\ forall h u, ub_urbs (hs_bus d) !! h = Some u -> video_urb np u.
Definition calm (np : nat) (d : host D) : Prop :=
  host_ok d /\ forall h u, ub_urbs (hs_bus d) !! h = Some u -> u_use_count u = 0 /\ video_urb np u.

Lemma idle_unlinked d h u : host_ok d -> ub_urbs (hs_bus d) !! h = Some u -> u_use_count u = 0 ->
  u_linked u = false /\ u_hcpriv u = false.
Proof.
  intros Hd Hu H0. pose proof (bo_urb _ _ _ (hk_bus _ Hd) h u Hu) as Ho.
  pose proof (occurrences_nonneg h (ub_handlers (hs_bus d))).
  pose proof (uo_use _ _ _ _ _ _ _ Ho) as Huse. pose proof (uo_hcpriv _ _ _ _ _ _ _ Ho) as Hp.
  unfold none, of_bool in *. destruct (u_linked u); [lia|]. split; [done|].
  destruct (u_hcpriv u); [|done]. destruct Hp; [done..|lia].
Qed.

Lemma calm_buffer_alloc np n d : calm np d -> calm np (host_buffer_alloc w n d).2.
Proof.
  intros [Hd Hc]. unfold host_buffer_alloc. destruct (w_mem w _); cbn; (split; [|done]).
  - split; cbn; try apply Hd.
    + apply buffer_alloc_ok, Hd.
    + by rewrite (hk_bufs _ Hd).
  - split; cbn; apply Hd.
Qed.

Lemma calm_alloc_urb n d : calm (Z.to_nat n) d -> calm (Z.to_nat n) (host_alloc_urb w n d).2.
Proof.
  intros [Hd Hc]. unfold host_alloc_urb. destruct (w_mem w _); cbn.
  2:{ split; [|done]. split; cbn; apply Hd. }
  pose proof (free_urb_fresh d) as Hn. set (h := free_urb d) in *.
  assert (h ∉ hs_urbs d) as Hh by (rewrite <- (hk_urbs _ Hd); by apply not_elem_of_dom).
  set (u := usb_init_urb _). fold (put_urb h u (hs_bus d)). split.
  - split; cbn [hs_fault hs_bus hs_urbs hs_bufs hs_intfs set_bus set_held count_alloc]; try apply Hd.
    + rewrite refs_add by done. by apply alloc_urb_ok; [apply Hd|].
    + cbn. by rewrite dom_insert_L, (hk_urbs _ Hd).
    + cbn. intros x v [[_ <-]|[_ Hv]]%lookup_insert_Some; [done|]. by apply (hk_owned _ Hd x).
  - cbn. intros x v [[_ <-]|[_ Hv]]%lookup_insert_Some; [|by eauto].
    cbn. split; [done|]. unfold video_urb. cbn. by rewrite length_replicate.
Qed.

Lemma calm_buffer_free np n y d : calm np d -> calm np (host_buffer_free n y d).
Proof.
  intros [Hd Hc]. unfold host_buffer_free. cbn. split; [|done].
  split; cbn; try apply Hd.
  - apply buffer_free_ok; [apply Hd|]. intros h u Hu Hl.
    destruct (idle_unlinked d h u Hd Hu); [by apply (Hc h)|congruence].
  - by rewrite (hk_bufs _ Hd).
Qed.

Lemma calm_free_urb np h d : calm np d -> h ∈ hs_urbs d -> calm np (host_free_urb h d).
Proof.
  intros [Hd Hc] Hh. destruct (host_urb d h Hd Hh) as [u Hu]. destruct (Hc h u Hu) as [H0 _].
  unfold host_free_urb.
  destruct (free_idle _ _ h u (hk_bus _ Hd) Hu (refs_in _ _ Hh) H0)
    as (b' & -> & Hok & Hon & Hhs & Hurbs & Heps).
  assert (shrinks (hs_bus d) b') as Hs by (by eapply only_shrinks).
  split; cbn.
  - split; cbn; try apply Hd.
    + by rewrite refs_drop.
    + by rewrite Hurbs, dom_delete_L, (hk_urbs _ Hd).
    + rewrite (sk_bufs _ _ Hs); apply Hd.
    + rewrite Hurbs. intros x v [_ Hv]%lookup_delete_Some. by apply (hk_owned _ Hd x).
    + by rewrite Hhs, (hk_handlers _ Hd).
    + eapply Forall_impl; [apply Hd|]. intros i. by apply intf_ok_shrinks.
  - rewrite Hurbs. intros x v [_ Hv]%lookup_delete_Some. eauto.
Qed.

(** Freeing everything. *)
Lemma calm_uninit_urb np i q d : calm np d -> held q d ∅ ∅ -> calm np (uninit_urb i q d).2.
Proof.
  intros Hcalm [_ Hu]. unfold uninit_urb.
  assert (forall h, q_urb q !! i = Some (Some h) -> h ∈ hs_urbs d) as Hin.
  { intros h E. apply (sl_live _ _ _ Hu). right. eauto. }
  destruct (q_urb_buffer q !! i) as [[y|]|], (q_urb q !! i) as [[h|]|]; cbn; try done;
    first [apply calm_free_urb; [|by apply Hin] | idtac]; by try apply calm_buffer_free.
Qed.

Lemma calm_uninit np todo : forall i q d, calm np d -> held q d ∅ ∅ ->
  calm np (uninit_loop todo i q d).2.
Proof.
  induction todo as [|todo IH]; intros i q d Hc Hh; cbn [uninit_loop]; [done|].
  pose proof (uninit_urb_spec i q d ∅ ∅ Hh) as Hs. pose proof (calm_uninit_urb np i q d Hc Hh) as Hc1.
  destruct (uninit_urb i q d) as [q1 d1]. apply IH; [done|]. by destruct Hs.
Qed.

Lemma calm_alloc size np todo : forall i q d, (i + todo = MYUVC_URBS)%nat ->
  calm (Z.to_nat np) d -> held q d ∅ ∅ ->
  no_slots (q_urb_buffer q) i MYUVC_URBS -> no_slots (q_urb q) i MYUVC_URBS ->
  all_slots (q_urb_buffer q) i -> all_slots (q_urb q) i ->
  calm (Z.to_nat np) (alloc_urbs todo i size np q d).2.
Proof.
  induction todo as [|todo IH]; intros i q d Hsum Hc Hh Hnb Hnu Hab Hau; cbn [alloc_urbs]; [done|].
  pose proof (alloc_round i size np q d ∅ ∅ ltac:(lia) Hh Hnb Hnu Hab Hau) as Hr.
  pose proof (calm_buffer_alloc _ size d Hc) as Hc1.
  change (usb_buffer_alloc size d) with (host_buffer_alloc w size d) in *.
  destruct (host_buffer_alloc w size d) as [b d1]. pose proof (calm_alloc_urb np d1 Hc1) as Hc2.
  change (usb_alloc_urb np d1) with (host_alloc_urb w np d1) in *.
  destruct (host_alloc_urb w np d1) as [u d2]. cbn [snd] in Hc2. cbn zeta in Hr.
  set (q1 := set_q_urbs _ _ _ q) in *. destruct Hr as [Hh1 Hr].
  pose proof (calm_uninit _ MYUVC_URBS 0 q1 d2 Hc2 Hh1) as Hun.
  fold (myuvc_uninit_urbs q1 d2) in Hun.
  destruct b as [b|]; [destruct u as [u|]|]; try (by destruct (myuvc_uninit_urbs q1 d2)).
  destruct Hr as [[Hnb1 Hab1] [Hnu1 Hau1]]; [by eauto..|].
  apply IH; try done. lia.
Qed.

(** An URB as [myuvc_alloc_init_urbs] leaves it. *)
Record prepared (dev : usb_device) (np size : Z) (y : nat) (u : urb) : Prop := mk_prepared {
  pp_dev : io_dev (u_io u) = true;
  pp_pipe : io_pipe (u_io u) = usb_rcvisocpipe dev myuvc_bEndpointAddress;
  pp_buffer : io_transfer_buffer (u_io u) = Some y;
  pp_length : io_transfer_buffer_length (u_io u) = size;
  pp_packets : io_number_of_packets (u_io u) = np;
  pp_interval : io_interval (u_io u) = 1;
  pp_complete : io_complete (u_io u) = Some video_handler;
  pp_layout : (fun p => (ip_offset p, ip_length p)) <$> io_frame_desc (u_io u) = iso_layout np
}.

Lemma setup_layout np desc : length desc = Z.to_nat np ->
  (fun p => (ip_offset p, ip_length p)) <$>
    imap (fun j p => match iso_layout np !! j with
                     | Some (off, len) => mk_packet off len (ip_actual_length p) (ip_status p)
                     | None => p
                     end) desc = iso_layout np.
Proof.
  intros Hl. apply list_eq. intros j. rewrite list_lookup_fmap, list_lookup_imap.
  destruct (iso_layout np !! j) as [[off len]|] eqn:E.
  - destruct (lookup_lt_is_Some_2 desc j) as [p ->]; [|done].
    apply lookup_lt_Some in E. unfold iso_layout in E. rewrite length_fmap, length_seq in E. lia.
  - apply lookup_ge_None in E. unfold iso_layout in E. rewrite length_fmap, length_seq in E.
    by rewrite lookup_ge_None_2 by lia.
Qed.

Lemma calm_fill np size h y d : calm (Z.to_nat np) d -> h ∈ hs_urbs d ->
  let d' := host_fill_urb h (setup_urb np size (Some y)) d in
  calm (Z.to_nat np) d' /\ hs_urbs d' = hs_urbs d /\ hs_bufs d' = hs_bufs d /\
  ub_dev (hs_bus d') = ub_dev (hs_bus d) /\
  (forall x, x <> h -> ub_urbs (hs_bus d') !! x = ub_urbs (hs_bus d) !! x) /\
  exists u, ub_urbs (hs_bus d') !! h = Some u /\ prepared (ub_dev (hs_bus d)) np size y u.
Proof.
  intros [Hd Hc] Hh. destruct (host_urb d h Hd Hh) as [u Hu]. destruct (Hc h u Hu) as [H0 (Hn & Hset & Hrej)].
  unfold host_fill_urb. rewrite Hu. set (us := setup_urb np size (Some y)).
  assert (length (us_iso_frame_desc us) = Z.to_nat np) as Hlen
    by (cbn; unfold iso_layout; by rewrite length_fmap, length_seq).
  rewrite bool_decide_eq_true_2 by lia. set (io := setup_io _ us (u_io u)).
  assert (owned_buffer io = None) as Ho by done.
  assert (length (io_frame_desc io) = Z.to_nat np) as Hd'
    by (unfold io; cbn [setup_io io_frame_desc]; by rewrite length_imap).
  cbn zeta. split; [split|].
  - split; cbn [hs_fault hs_bus hs_urbs hs_bufs hs_intfs set_bus]; try apply Hd.
    + apply fill_ok; [apply Hd|done|]. split; try done; [rewrite Hd'; done|].
      intros h' u' z _ Hu' Ho'. by rewrite (hk_owned _ Hd h' u' Hu') in Ho'.
    + cbn. rewrite dom_insert_lookup_L by eauto. apply Hd.
    + cbn. intros x v [[_ <-]|[_ Hv]]%lookup_insert_Some; [done|]. by apply (hk_owned _ Hd x).
  - cbn. intros x v [[_ <-]|[_ Hv]]%lookup_insert_Some; [|by eauto]. by split_and!.
  - split_and!; try done.
    + intros x Hx. cbn. by rewrite lookup_insert_ne.
    + eexists. split; [apply put_lookup|]. split; try done. by apply setup_layout.
Qed.

(** The URBs and buffers of the queue, prepared up to [i]. *)
Definition prepared_upto (np size : Z) (q : myuvc_queue) (i : nat) (d : host D) : Prop :=
  forall j, (j < i)%nat -> exists h y u, q_urb q !! j = Some (Some h) /\
    q_urb_buffer q !! j = Some (Some y) /\ y ∈ hs_bufs d /\
    ub_urbs (hs_bus d) !! h = Some u /\ prepared (ub_dev (hs_bus d)) np size y u.

Lemma setup_ready np size q todo : forall i d, (i + todo = MYUVC_URBS)%nat ->
  calm (Z.to_nat np) d -> held q d ∅ ∅ ->
  all_slots (q_urb_buffer q) MYUVC_URBS -> all_slots (q_urb q) MYUVC_URBS ->
  prepared_upto np size q i d ->
  let d' := setup_loop todo i size np q d in
  calm (Z.to_nat np) d' /\ held q d' ∅ ∅ /\ prepared_upto np size q MYUVC_URBS d'.
Proof.
  induction todo as [|todo IH]; intros i d Hsum Hc Hh Hab Hau Hp; cbn [setup_loop].
  { rewrite Nat.add_0_r in Hsum. by subst i. }
  destruct (Hau i) as [h Eh]; [lia|]. destruct (Hab i) as [y Ey]; [lia|].
  rewrite Eh, Ey. cbn [default from_option id].
  pose proof (proj1 Hh) as Hsb. pose proof (proj2 Hh) as Hsu.
  assert (h ∈ hs_urbs d) as Hin by (apply (sl_live _ _ _ Hsu); eauto).
  assert (y ∈ hs_bufs d) as Hiny by (apply (sl_live _ _ _ Hsb); eauto).
  destruct (calm_fill np size h y d Hc Hin) as (Hc1 & Eu & Eb & Ed & Hx & u & Hu & Hpu).
  change (fill_urb h (setup_urb np size (Some y)) d) with (host_fill_urb h (setup_urb np size (Some y)) d).
  set (d1 := host_fill_urb h (setup_urb np size (Some y)) d) in *.
  apply IH; try done; [lia|by apply (held_live q d)|].
  intros j Hj. destruct (decide (j = i)) as [->|Hne].
  - exists h, y, u. rewrite Eb, Ed. done.
  - destruct (Hp j) as (h' & y' & u' & E1 & E2 & E3 & E4 & E5); [lia|].
    exists h', y', u'. rewrite Eb, Ed, Hx; [done|]. intros ->. by rewrite (sl_inj _ _ _ Hsu j i h E1 Eh) in Hne.
Qed.

(** * Streaming *)

(** An operation on one URB of the driver that keeps it. *)
Lemma host_only d h b' : host_ok d -> bus_ok (held_refs (hs_urbs d)) none b' ->
  only h (hs_bus d) b' -> is_Some (ub_urbs b' !! h) -> ub_handlers b' = ub_handlers (hs_bus d) ->
  host_ok (set_bus b' d).
Proof.
  intros Hd Hok Hon [u' Hu'] Hh. assert (shrinks (hs_bus d) b') as Hs by (by eapply only_shrinks).
  split; cbn; try apply Hd; try done.
  - rewrite <- (hk_urbs _ Hd). apply set_eq. intros x. rewrite !elem_of_dom.
    destruct (decide (x = h)) as [->|Hne]; [|by rewrite (on_urbs _ _ _ Hon)].
    destruct (on_owned _ _ _ Hon u' Hu') as (u & -> & _). rewrite Hu'. by split; eexists.
  - rewrite (sk_bufs _ _ Hs); apply Hd.
  - intros x v Hv. destruct (sk_owned _ _ Hs x v Hv) as (u & Hu & ->). by apply (hk_owned _ Hd x).
  - by rewrite Hh, (hk_handlers _ Hd).
  - eapply Forall_impl; [apply Hd|]. intros i. by apply intf_ok_shrinks.
Qed.

Lemma video_urb_same np u u' : video_urb np u -> same_request (u_io u) (u_io u') ->
  u_reject u' = u_reject u -> video_urb np u'.
Proof.
  intros (Hn & Hs & Hr) Hsr E. split_and!.
  - by rewrite (same_request_desc _ _ Hsr).
  - by rewrite (sr_setup _ _ Hsr).
  - by rewrite E.
Qed.

Lemma steady_only np d h b' u u' : steady np d -> host_ok (set_bus b' d) ->
  only h (hs_bus d) b' -> ub_urbs (hs_bus d) !! h = Some u -> ub_urbs b' !! h = Some u' ->
  same_request (u_io u) (u_io u') -> u_reject u' = u_reject u -> steady np (set_bus b' d).
Proof.
  intros [Hd Hc] Hd' Hon Hu Hu' Hsr Hr. split; [done|]. cbn. intros x v Hv.
  destruct (decide (x = h)) as [->|Hne].
  - assert (v = u') as -> by congruence. eapply video_urb_same; eauto.
  - rewrite (on_urbs _ _ _ Hon) in Hv by done. eauto.
Qed.

(** Every URB left carries the request it had. *)
Definition shaped (b b' : ubus) : Prop := forall h u', ub_urbs b' !! h = Some u' ->
  exists u, ub_urbs b !! h = Some u /\ same_request (u_io u) (u_io u').

#[local] Instance shaped_preorder : PreOrder shaped.
Proof.
  split; [by intros b h u; exists u|]. intros b1 b2 b3 H1 H2 h u3 H3.
  destruct (H2 h u3 H3) as (u2 & E2 & S2), (H1 h u2 E2) as (u1 & E1 & S1). exists u1. split; [done|].
  by etrans.
Qed.

Lemma only_shaped h b b' u u' : only h b b' -> ub_urbs b !! h = Some u -> ub_urbs b' !! h = Some u' ->
  same_request (u_io u) (u_io u') -> shaped b b'.
Proof.
  intros Hon Hu Hu' Hs x v Hv. destruct (decide (x = h)) as [->|Hne].
  - exists u. split; [done|]. by assert (v = u') as -> by congruence.
  - rewrite (on_urbs _ _ _ Hon) in Hv by done. by exists v.
Qed.

(** The packets of an URB: [np] of them, one after the other in its buffer. *)
Definition laid_out (np size : Z) (u : urb) : Prop :=
  io_number_of_packets (u_io u) = np /\ io_transfer_buffer_length (u_io u) = size /\
  io_complete (u_io u) = Some video_handler /\
  (fun p => (ip_offset p, ip_length p)) <$> io_frame_desc (u_io u) = iso_layout np.

Definition all_laid_out (np size : Z) (b : ubus) : Prop :=
  forall h u, ub_urbs b !! h = Some u -> laid_out np size u.

Lemma shaped_laid_out np size b b' : shaped b b' -> all_laid_out np size b -> all_laid_out np size b'.
Proof.
  intros Hs Ha h u' Hu'. destruct (Hs h u' Hu') as (u & Hu & Sr). destruct (Ha h u Hu) as (E1 & E2 & E3 & E4).
  split_and!.
  - by rewrite (sr_packets _ _ Sr).
  - by rewrite (sr_length _ _ Sr).
  - by rewrite (sr_complete _ _ Sr).
  - by rewrite (sr_layout _ _ Sr).
Qed.

(** One submission of an idle URB with its buffer. *)
Lemma submit_host np d h u : steady np d -> ub_urbs (hs_bus d) !! h = Some u ->
  u_linked u = false -> buffer_live (ub_bufs (hs_bus d)) (u_io u) ->
  let '(r, d') := host_submit_urb w h d in
  fst <$> UsbUrb.usb_submit_urb (w_hc w) (Some h) (hs_bus d) = Some r /\ r <= 0 /\
  steady np d' /\ hs_urbs d' = hs_urbs d /\ hs_bufs d' = hs_bufs d /\
  only h (hs_bus d) (hs_bus d') /\
  exists u', ub_urbs (hs_bus d') !! h = Some u' /\ same_request (u_io u) (u_io u') /\
    (r <> 0 -> u_use_count u' = u_use_count u).
Proof.
  intros Hst Hu Hl Hbuf. pose proof (proj1 Hst) as Hd. unfold host_submit_urb.
  destruct (submit_ok (w_hc w) _ _ h u Hhc (hk_bus _ Hd) Hu)
    as (r & b' & -> & Hr & Hok & Hon & Hh & u' & Hu' & Hrej & Hsr & Hn & _).
  { by right. }
  split; [done|]. split; [done|].
  assert (host_ok (set_bus b' d)) by (eapply host_only; eauto).
  split; [by eapply steady_only|]. split_and!; try done. exists u'. split_and!; try done.
  intros Hne. by destruct (Hn Hne) as (_ & ? & _).
Qed.

(** The URBs of the queue from [i] on: prepared and idle. *)
Definition ready_from (dev : usb_device) (np size : Z) (q : myuvc_queue) (i : nat) (d : host D) : Prop :=
  forall j, (i <= j < MYUVC_URBS)%nat -> exists h y u, q_urb q !! j = Some (Some h) /\
    q_urb_buffer q !! j = Some (Some y) /\ y ∈ hs_bufs d /\
    ub_urbs (hs_bus d) !! h = Some u /\ prepared dev np size y u /\ u_use_count u = 0.

Lemma prepared_alike dev np size y y' u u' : prepared dev np size y u -> prepared dev np size y' u' ->
  io_setup_packet (u_io u) = None -> io_setup_packet (u_io u') = None -> alike (u_io u) (u_io u').
Proof.
  intros P P' E E'. split; try (destruct P, P'; congruence).
  pose proof (f_equal (fmap snd) (pp_layout _ _ _ _ _ P)) as L.
  pose proof (f_equal (fmap snd) (pp_layout _ _ _ _ _ P')) as L'.
  rewrite <- !list_fmap_compose in L, L'. change (snd ∘ _) with ip_length in L, L'. congruence.
Qed.

(** Once a request was taken, those after it are. *)
Lemma submit_tail np size q b0 h0 u0 y0 todo : 
  (forall h, accepts (w_hc w) h) -> bus_ok (held_refs (dom (ub_urbs b0))) none b0 ->
  ub_urbs b0 !! h0 = Some u0 -> prepared (ub_dev b0) np size y0 u0 ->
  video_urb (Z.to_nat np) u0 -> u_linked u0 = false -> u_hcpriv u0 = false -> y0 ∈ ub_bufs b0 ->
  fst <$> UsbUrb.usb_submit_urb (w_hc w) (Some h0) b0 = Some 0 ->
  forall i d, (i + todo = MYUVC_URBS)%nat -> steady (Z.to_nat np) d -> held q d ∅ ∅ ->
  same_device b0 (hs_bus d) -> ready_from (ub_dev b0) np size q i d ->
  let '(ret, q', d') := submit_loop todo i q d in
  ret = 0 /\ q' = q /\ steady (Z.to_nat np) d' /\ held q d' ∅ ∅ /\ shaped (hs_bus d) (hs_bus d').
Proof.
  intros Hacc Hb0 Hu0 Hp0 Hv0 Hl0 Hpr0 Hy0 H0. induction todo as [|todo IH];
    intros i d Hsum Hst Hh Hsd Hr; cbn [submit_loop]; [by split_and!|].
  destruct (Hr i) as (h & y & u & Eh & Ey & Hy & Hu & Hp & Hz); [lia|].
  rewrite Eh. cbn [default from_option id usb_submit_urb].
  pose proof (proj1 Hst) as Hd. destruct (idle_unlinked d h u Hd Hu Hz) as [Hl Hpr].
  pose proof (proj2 Hst h u Hu) as Hv.
  assert (buffer_live (ub_bufs (hs_bus d)) (u_io u)) as Hbuf.
  { right. exists y. rewrite (hk_bufs _ Hd). by split; [apply Hp|]. }
  pose proof (submit_host _ d h u Hst Hu Hl Hbuf) as Hs.
  change (submit_urb h d) with (host_submit_urb w h d).
  destruct (host_submit_urb w h d) as [r d'].
  destruct Hs as (Hfst & _ & Hst' & Eu' & Eb' & Hon & u' & Hu' & Hsr & _).
  assert (r = 0) as ->.
  { rewrite (submit_again (w_hc w) _ _ b0 (hs_bus d) h0 h u0 u Hhc (Hacc h0) (Hacc h) Hb0
               (hk_bus _ Hd) Hsd Hu0 Hu) in Hfst; try done; [congruence|..].
    - eapply prepared_alike; eauto; [apply Hv0|apply Hv].
    - apply Hv0.
    - apply Hv.
    - by rewrite (pp_complete _ _ _ _ _ Hp0).
    - right. exists y0. by split; [apply Hp0|].
    - by rewrite (pp_complete _ _ _ _ _ Hp). }
  cbn [Z.ltb Z.compare]. specialize (IH (S i) d' ltac:(lia) Hst').
  destruct (submit_loop todo (S i) q d') as [[ret q'] d2].
  destruct IH as (-> & -> & Hst2 & Hh2 & Hsh); [by apply (held_live q d)|..|split_and!; try done].
  - etrans; [done|]. by eapply only_same_device.
  - intros j Hj. destruct (Hr j) as (h' & y' & u2 & E1 & E2 & E3 & E4 & E5); [lia|].
    exists h', y', u2. rewrite Eb', (on_urbs _ _ _ Hon); [done|].
    intros ->. pose proof (sl_inj _ _ _ (proj2 Hh) j i h E1 Eh). lia.
  - etrans; [by eapply only_shaped|done].
Qed.

Lemma prepared_laid_out np size q d : host_ok d -> held q d ∅ ∅ ->
  prepared_upto np size q MYUVC_URBS d -> all_laid_out np size (hs_bus d).
Proof.
  intros Hd Hh Hp h u Hu.
  assert (h ∈ hs_urbs d) as Hin by (rewrite <- (hk_urbs _ Hd); by apply elem_of_dom_2 in Hu).
  apply (sl_live _ _ _ (proj2 Hh)) in Hin as [|[j Ej]]; [set_solver|].
  destruct (Hp j) as (h' & y & u' & E1 & _ & _ & E2 & Hpp); [by eapply sl_high, Ej; apply Hh|].
  assert (h' = h) as -> by congruence. assert (u' = u) as -> by congruence.
  split_and!; apply Hpp.
Qed.

Lemma submit_loop_first q (d : host D) : submit_loop MYUVC_URBS 0 q d =
  let '(ret, d) := usb_submit_urb (default None (q_urb q !! 0%nat)) d in
  if ret <? 0 then let '(q, d) := myuvc_uninit_urbs q d in (ret, q, d) else submit_loop 4 1 q d.
Proof. done. Qed.

(** Submitting the prepared URBs: all of them are taken, or the first one is not and
    everything is freed. *)
Lemma submit_loop_host np size q d : (forall h, accepts (w_hc w) h) ->
  calm (Z.to_nat np) d -> held q d ∅ ∅ -> prepared_upto np size q MYUVC_URBS d ->
  let '(ret, q', d') := submit_loop MYUVC_URBS 0 q d in
  (ret = 0 /\ q' = q /\ steady (Z.to_nat np) d' /\ held q d' ∅ ∅ /\
   all_laid_out np size (hs_bus d')) \/
  (ret < 0 /\ calm (Z.to_nat np) d').
Proof.
  intros Hacc Hc Hh Hp.
  assert (steady (Z.to_nat np) d) as Hst by (destruct Hc as [? Hc]; split; [done|]; intros; by eapply Hc).
  pose proof (proj1 Hst) as Hd.
  assert (ready_from (ub_dev (hs_bus d)) np size q 0 d) as Hr.
  { intros j [_ Hj]. destruct (Hp j Hj) as (h & y & u & ? & ? & ? & Hu & ?).
    exists h, y, u. split_and!; try done. by apply (proj2 Hc h u Hu). }
  destruct (Hr 0%nat) as (h & y & u & Eh & Ey & Hy & Hu & Hpp & Hz); [unfold MYUVC_URBS; lia|].
  destruct (idle_unlinked d h u Hd Hu Hz) as [Hl Hpr].
  assert (buffer_live (ub_bufs (hs_bus d)) (u_io u)) as Hbuf.
  { right. exists y. rewrite (hk_bufs _ Hd). by split; [apply Hpp|]. }
  pose proof (submit_host _ d h u Hst Hu Hl Hbuf) as Hs.
  rewrite submit_loop_first, Eh. cbn [default from_option id usb_submit_urb].
  change (submit_urb h d) with (host_submit_urb w h d).
  destruct (host_submit_urb w h d) as [r d'] eqn:E.
  destruct Hs as (Hfst & Hr0 & Hst' & Eu' & Eb' & Hon & u' & Hu' & Hsr & Hn).
  destruct (Z.ltb_spec r 0).
  - assert (calm (Z.to_nat np) d') as Hc'.
    { destruct Hst' as [Hd' Hv']. split; [done|]. intros x v Hv. split; [|by eauto].
      destruct (decide (x = h)) as [->|Hne].
      - assert (v = u') as -> by congruence. rewrite Hn; lia.
      - rewrite (on_urbs _ _ _ Hon) in Hv by done. by apply (proj2 Hc x). }
    pose proof (calm_uninit _ MYUVC_URBS 0 q d' Hc' ltac:(by apply (held_live q d))) as Hun.
    unfold myuvc_uninit_urbs. destruct (uninit_loop MYUVC_URBS 0 q d'). by right.
  - assert (r = 0) as -> by lia.
    pose proof (submit_tail np size q (hs_bus d) h u y 4) as Ht.
    specialize (Ht Hacc ltac:(rewrite (hk_urbs _ Hd); apply Hd) Hu Hpp (proj2 Hst h u Hu) Hl Hpr
                  ltac:(by rewrite (hk_bufs _ Hd)) Hfst 1%nat d' eq_refl Hst'
                  ltac:(by apply (held_live q d)) ltac:(by eapply only_same_device)).
    destruct (submit_loop 4 1 q d') as [[ret q'] d2]. left.
    destruct Ht as (-> & -> & Hst2 & Hh2 & Hsh); [|split_and!; try done; eapply shaped_laid_out;
      [etrans; [by eapply only_shaped|done]|by eapply prepared_laid_out]].
    intros j Hj. destruct (Hr j) as (h' & y' & u1 & E1 & E2 & E3 & E4 & E5); [lia|].
    exists h', y', u1. rewrite Eb', (on_urbs _ _ _ Hon); [done|].
    intros ->. pose proof (sl_inj _ _ _ (proj2 Hh) j 0%nat h E1 Eh). lia.
Qed.

(** * STREAMON and STREAMOFF *)

(** The queue and the host between two streams, and during one. *)
Definition resting (q : myuvc_queue) (d : host D) : Prop := host_ok d /\ idle q d ∅ ∅.
Definition streaming (q : myuvc_queue) (d : host D) : Prop :=
  held q d ∅ ∅ /\ exists np, np <= 32 /\ steady (Z.to_nat np) d /\
    all_laid_out np (u32 (u16 wMaxPacketSize * np)) (hs_bus d).

Lemma no_urbs_calm np d : host_ok d -> hs_urbs d = ∅ -> calm np d.
Proof.
  intros Hd H0. split; [done|]. intros h u Hu. exfalso.
  apply elem_of_dom_2 in Hu. rewrite (hk_urbs _ Hd), H0 in Hu. set_solver.
Qed.

Lemma resting_streaming q d : resting q d -> streaming q d.
Proof.
  intros [Hd Hi]. destruct Hi as (Hh & _ & _ & _ & H0). split; [done|]. exists 0.
  destruct (no_urbs_calm 0 d Hd H0) as [_ Hc]. split; [done|]. split; [split; [done|]|]; intros h u Hu.
  - by apply (Hc h).
  - apply elem_of_dom_2 in Hu. rewrite (hk_urbs _ Hd) in Hu. cbn in H0. rewrite H0 in Hu. set_solver.
Qed.

Lemma negotiate_host cfg pa d params d' : host_ok d -> hs_urbs d = ∅ -> hs_bufs d = ∅ ->
  negotiate cfg pa d = Some (params, d') -> host_ok d' /\ hs_urbs d' = ∅ /\ hs_bufs d' = ∅.
Proof.
  intros Hd HU HB. apply (negotiate_keeps (fun e => host_ok e /\ hs_urbs e = ∅ /\ hs_bufs e = ∅)); [|done].
  intros rq e (He & EU & EB). pose proof (control_host_ok rq e He) as Hc.
  change (control_msg rq e) with (host_control_msg w rq e).
  destruct (host_control_msg w rq e) as [[ret data] e']. destruct Hc as (? & _ & _ & ? & ?).
  cbn. split_and!; [done|congruence..].
Qed.

(** Submitting nothing. *)
Lemma submit_none_host np q d : calm np d -> idle q d ∅ ∅ ->
  let '(ret, q', d') := submit_loop MYUVC_URBS 0 q d in ret = - EINVAL /\ calm np d'.
Proof.
  intros Hc (Hh & _ & Hnu & _). rewrite submit_loop_first.
  assert (default None (q_urb q !! 0%nat) = None) as ->.
  { destruct (q_urb q !! 0%nat) as [[h|]|] eqn:E; [|done..]. by destruct (Hnu 0%nat h); [unfold MYUVC_URBS; lia|]. }
  cbn [usb_submit_urb]. change (- EINVAL <? 0) with true. cbv iota.
  pose proof (calm_uninit np MYUVC_URBS 0 q d Hc Hh) as Hun. unfold myuvc_uninit_urbs.
  by destruct (uninit_loop MYUVC_URBS 0 q d).
Qed.

(** The allocation of the URBs, then their submission. *)
Lemma start_host params q d : (forall h, accepts (w_hc w) h) -> resting q d ->
  let '(_, q1, d1) := myuvc_alloc_init_urbs params q d in
  let '(ret, q', d') := submit_loop MYUVC_URBS 0 q1 d1 in
  (ret = 0 /\ streaming q' d') \/ (ret < 0 /\ host_ok d').
Proof.
  intros Hacc [Hd Hi]. destruct Hi as (Hh & Hnb & Hnu & _ & HU).
  unfold myuvc_alloc_init_urbs. set (np := urb_npackets _). set (sz := urb_bytes _).
  set (q1 := set_q_urbs _ _ sz q). assert (held q1 d ∅ ∅) as Hh1 by done.
  pose proof (no_urbs_calm (Z.to_nat np) d Hd HU) as Hc.
  assert (forall l, all_slots l 0) as Hall by (intros ? ? ?; lia).
  pose proof (alloc_urbs_spec MYUVC_URBS sz np 0 q1 d ∅ ∅ eq_refl Hh1 Hnb Hnu (Hall _) (Hall _)) as Ha.
  pose proof (calm_alloc sz np MYUVC_URBS 0 q1 d eq_refl Hc Hh1 Hnb Hnu (Hall _) (Hall _)) as Hc1.
  destruct (alloc_urbs MYUVC_URBS 0 sz np q1 d) as [[ra q2] d1]. cbn [snd] in Hc1.
  destruct Ha as [_ [(-> & Hh2 & Hb2 & Hu2)|(-> & Hidle)]].
  - destruct (setup_ready np sz q2 MYUVC_URBS 0 d1 eq_refl Hc1 Hh2 Hb2 Hu2) as (Hc2 & Hh3 & Hp);
      [by intros ? ?; lia|].
    cbn [Z.ltb Z.compare]. pose proof (submit_loop_host np sz q2 _ Hacc Hc2 Hh3 Hp) as Hs.
    destruct (submit_loop _ _ _ _) as [[r q3] d3].
    destruct Hs as [(-> & -> & Hst & Hh' & Hall')|[Hr Hc']].
    + left. split; [done|]. split; [done|]. exists np. split; [|done].
      unfold np, urb_npackets. case_if; bool_props; lia.
    + right. split; [done|]. apply Hc'.
  - change (- ENOMEM <? 0) with true. cbv iota.
    pose proof (submit_none_host _ q2 d1 Hc1 Hidle) as Hs.
    destruct (submit_loop _ _ _ _) as [[r q3] d3]. right. destruct Hs as [-> Hs]. split; [done|apply Hs].
Qed.

(** After the negotiation and the change of the setting. *)
Lemma before_start cfg pa q d params d1 : resting q d -> negotiate cfg pa d = Some (params, d1) ->
  resting q (host_set_interface w (myuvc_streaming_intf cfg) myuvc_streaming_bAlternateSetting d1).
Proof.
  intros [Hd Hi] E. destruct Hi as (Hh & Hnb & Hnu & HB & HU).
  destruct (negotiate_host _ _ _ _ _ Hd HU HB E) as (Hd1 & HU1 & HB1).
  destruct (set_interface_host_ok (myuvc_streaming_intf cfg) myuvc_streaming_bAlternateSetting d1 Hd1 HU1)
    as (Hd2 & HU2 & HB2). rewrite HB1 in HB2.
  split; [done|]. split_and!; try done. apply (held_live q d); [done|by transitivity (∅ : gset nat)..].
Qed.

Lemma streamon_host cfg pa q d : (forall h, accepts (w_hc w) h) -> resting q d -> pallocs_ok cfg pa ->
  exists ret params q' d', myuvc_vidioc_streamon cfg pa q d = Some (ret, params, q', d') /\
    (ret = 0 /\ streaming q' d' \/ ret < 0 /\ resting q' d').
Proof.
  intros Hacc [Hd Hi] Hpa.
  destruct (streamon_cases cfg pa q d ∅ ∅ Hi Hpa) as (ret & params & q' & d' & E & _ & Hc).
  exists ret, params, q', d'. split; [done|]. revert E. unfold myuvc_vidioc_streamon.
  intros ([params0 d1] & E1 & E)%bind_Some.
  pose proof (before_start cfg pa q d params0 d1 (conj Hd Hi) E1) as Hr.
  change (usb_set_interface ?i ?s d1) with (host_set_interface w i s d1) in E.
  set (d2 := host_set_interface w _ _ d1) in *.
  pose proof (start_host params0 q d2 Hacc Hr) as Hs.
  destruct (myuvc_alloc_init_urbs params0 q d2) as [[ra q2] d3].
  destruct (submit_loop _ _ _ _) as [[r q3] d4]. injection E as -> -> -> ->.
  destruct Hs as [?|[Hn ?]]; [by left|]. right. split; [done|]. split; [done|].
  destruct Hc as [[-> _]|[_ Hid]]; [lia|done].
Qed.

(** Killing one URB. *)
Lemma kill_host np d h : steady np d -> h ∈ hs_urbs d ->
  let d' := host_kill_urb w h d in
  steady np d' /\ hs_urbs d' = hs_urbs d /\ hs_bufs d' = hs_bufs d /\
  only h (hs_bus d) (hs_bus d') /\
  exists u, ub_urbs (hs_bus d') !! h = Some u /\ u_use_count u = 0.
Proof.
  intros Hst Hin. pose proof (proj1 Hst) as Hd. destruct (host_urb d h Hd Hin) as [u Hu].
  destruct (kill_ok (w_hc w) _ (w_cut w) (hs_bus d) h u Hhc (hk_bus _ Hd))
    as (b' & u' & E & Hok & Hon & Hu' & Huse & Hrej & Hsr); [by rewrite refs_in|done|].
  unfold host_kill_urb. rewrite E. cbn [on_bus].
  assert (ub_handlers b' = ub_handlers (hs_bus d)).
  { eapply idle_handlers; eauto. by rewrite (hk_handlers _ Hd). }
  assert (host_ok (set_bus b' d)) by (eapply host_only; eauto).
  split; [by eapply steady_only|]. split_and!; try done. by exists u'.
Qed.

(** The URBs of the queue up to [i] are idle. *)
Definition idle_upto (q : myuvc_queue) (i : nat) (d : host D) : Prop :=
  forall j h u, (j < i)%nat -> q_urb q !! j = Some (Some h) -> ub_urbs (hs_bus d) !! h = Some u ->
    u_use_count u = 0.

Lemma kill_loop_host np q todo : forall i d, (i + todo = MYUVC_URBS)%nat ->
  steady np d -> held q d ∅ ∅ -> idle_upto q i d ->
  let d' := kill_loop todo i q d in steady np d' /\ held q d' ∅ ∅ /\ idle_upto q MYUVC_URBS d'.
Proof.
  induction todo as [|todo IH]; intros i d Hsum Hst Hh Hi; cbn [kill_loop].
  { rewrite Nat.add_0_r in Hsum. by subst i. }
  destruct (q_urb q !! i) as [[h|]|] eqn:Eh; cbn [default from_option id].
  - assert (h ∈ hs_urbs d) as Hin by (apply (sl_live _ _ _ (proj2 Hh)); eauto).
    destruct (kill_host np d h Hst Hin) as (Hst' & EU & EB & Hon & u & Hu & H0).
    change (usb_kill_urb h d) with (host_kill_urb w h d). set (d' := host_kill_urb w h d) in *.
    apply IH; [lia|done|by apply (held_live q d)|].
    intros j x v Hj Ej Hv. destruct (decide (x = h)) as [->|Hne]; [congruence|].
    assert (j <> i) by congruence. rewrite (on_urbs _ _ _ Hon) in Hv by done.
    eapply (Hi j x); [lia|done..].
  - apply IH; [lia|done..|]. intros j x v Hj Ej. assert (j <> i) by congruence. apply (Hi j x); [lia|done].
  - apply IH; [lia|done..|]. intros j x v Hj Ej. assert (j <> i) by congruence. apply (Hi j x); [lia|done].
Qed.

Lemma streamoff_host cfg q d : streaming q d ->
  let '(ret, q', d') := myuvc_vidioc_streamoff cfg q d in ret = 0 /\ resting q' d'.
Proof.
  intros (Hh & np & _ & Hst & _). pose proof (streamoff_idle cfg q d ∅ ∅ Hh) as Hid. revert Hid.
  unfold myuvc_vidioc_streamoff.
  destruct (kill_loop_host (Z.to_nat np) q MYUVC_URBS 0 d eq_refl Hst Hh) as (Hst1 & Hh1 & Hi1); [by intros ? ? ? ?; lia|].
  set (d1 := kill_loop _ _ _ _) in *.
  assert (calm (Z.to_nat np) d1) as Hc1.
  { destruct Hst1 as [Hd1 Hv1]. split; [done|]. intros h u Hu. split; [|by eauto].
    assert (h ∈ hs_urbs d1) as Hin by (rewrite <- (hk_urbs _ Hd1); by apply elem_of_dom_2 in Hu).
    apply (sl_live _ _ _ (proj2 Hh1)) in Hin as [|[j Ej]]; [set_solver|].
    eapply Hi1; [by eapply sl_high, Ej; apply Hh1|done..]. }
  pose proof (calm_uninit _ MYUVC_URBS 0 q d1 Hc1 Hh1) as Hun.
  pose proof (uninit_idle q d1 ∅ ∅ Hh1) as Hid. unfold myuvc_uninit_urbs in *.
  destruct (uninit_loop MYUVC_URBS 0 q d1) as [q2 d2]. destruct Hid as [(_ & _ & _ & _ & HU) _].
  destruct (set_interface_host_ok (myuvc_streaming_intf cfg) 0 d2 (proj1 Hun) HU) as (Hd3 & _).
  intros Hid. split; [done|]. split; [done|apply Hid].
Qed.

(** One transfer, to the end of the completion handler. *)
Lemma complete_host np d h u x : steady np d -> ub_urbs (hs_bus d) !! h = Some u -> u_linked u = true ->
  let d' := on_bus (hcd_complete (w_hc w) h x (hs_bus d)) d in
  steady np d' /\ hs_urbs d' = hs_urbs d /\ hs_bufs d' = hs_bufs d /\ shaped (hs_bus d) (hs_bus d').
Proof.
  intros Hst Hu Hl. pose proof (proj1 Hst) as Hd.
  destruct (hcd_complete_ok (w_hc w) _ (hs_bus d) h u x Hhc (hk_bus _ Hd) Hu Hl)
    as (b' & -> & Hok & Hon & Hh & Hk). cbn [on_bus].
  destruct Hk as (u' & Hu' & Hrej & Hsr & _).
  { rewrite refs_in; [done|]. rewrite <- (hk_urbs _ Hd). by apply elem_of_dom_2 in Hu. }
  assert (host_ok (set_bus b' d)) by (eapply host_only; eauto).
  split; [by eapply steady_only|]. split_and!; try done. by eapply only_shaped.
Qed.

Lemma control_streaming np size rq d : steady (Z.to_nat np) d -> all_laid_out np size (hs_bus d) ->
  let d' := (host_control_msg w rq d).2 in
  steady (Z.to_nat np) d' /\ all_laid_out np size (hs_bus d') /\ hs_urbs d' = hs_urbs d /\ hs_bufs d' = hs_bufs d.
Proof.
  intros [Hd Hv] Ha. pose proof (control_host_ok rq d Hd) as Hc.
  destruct (host_control_msg w rq d) as [[ret data] d']. destruct Hc as (Hd' & Hq & _ & EU & EB). cbn.
  unfold steady, all_laid_out. by rewrite (qt_urbs _ _ Hq).
Qed.
(** * The driver on the host

    An entry point of the driver is called, or the controller has finished an URB:
    the core hands it to the driver, with the data in its buffer. *)

Inductive sys_event :=
  | Call (ev : event)
  | Transfer (kmalloc : Z -> option mem) (h : nat) (x : transfer) (data : mem).

Definition as_iso (p : usb_iso_packet_descriptor) : iso_packet :=
  mk_iso (ip_offset p) (ip_length p) (ip_actual_length p) (ip_status p).

(** The URB as the completion handler finds it. *)
Definition handed_back (h : nat) (x : transfer) (data : mem) (b : ubus) : option urb_done :=
  b ← hcd_transfer h x b;
  b ← giveback_begin h (x_status x) b;
  u ← ub_urbs b !! h;
  Some (mk_urb (io_status (u_io u)) data
          (as_iso <$> take (Z.to_nat (io_number_of_packets (u_io u))) (io_frame_desc (u_io u)))).

Definition sys_handle (ev : sys_event) (dr : driver (host D))
    : option (Z * UvcDriver.reply * driver (host D)) :=
  match ev with
  | Call ev => handle ev dr
  | Transfer kmalloc h x data =>
      urb ← handed_back h x data (hs_bus (dr_dev dr));
      '(ret, r, dr) ← handle (EvComplete kmalloc urb) dr;
      let d := dr_dev dr in
      Some (ret, r, set_dr_dev (on_bus (hcd_complete (w_hc w) h x (hs_bus d)) d) dr)
  end.

(** No stream: the driver has no URBs and no buffers of them. *)
Definition off (d : host D) : Prop := hs_urbs d = ∅ /\ hs_bufs d = ∅.

(** What the environment keeps to. Buffers are requested and a stream is started
    only when there is none; the controller finishes URBs that are queued, puts no
    more into a packet than its length, and there is a buffer for what it brings. *)
Definition sys_ok (dr : driver (host D)) (ev : sys_event) : Prop :=
  match ev with
  | Call (EvComplete _ _) => False
  | Call ev => event_ok dr ev /\ served dr ev /\
      match ev with EvStreamon _ | EvReqbufs _ _ => off (dr_dev dr) | _ => True end
  | Transfer kmalloc h x data =>
      kmalloc_ok (dr_vendor dr) kmalloc /\
      (exists u, ub_urbs (hs_bus (dr_dev dr)) !! h = Some u /\ u_linked u = true /\
         zlen data = io_transfer_buffer_length (u_io u) /\
         forall j p, io_frame_desc (u_io u) !! j = Some p ->
           exists n st, x_packets x !! j = Some (n, st) /\ 0 <= n <= ip_length p) /\
      forall urb, handed_back h x data (hs_bus (dr_dev dr)) = Some urb ->
        served dr (EvComplete kmalloc urb)
  end.

(** The states of the whole system. *)
Inductive sys_reachable (dr0 : driver (host D)) : driver (host D) -> Prop :=
  | sys_init : sys_reachable dr0 dr0
  | sys_step dr ev ret r dr' : sys_reachable dr0 dr -> sys_ok dr ev ->
      sys_handle ev dr = Some (ret, r, dr') -> sys_reachable dr0 dr'.

Context (Hacc : forall h, accepts (w_hc w) h).

Record sys_inv (dr : driver (host D)) : Prop := mk_sys_inv {
  si_driver : driver_inv dr;
  si_host : streaming (dr_queue dr) (dr_dev dr)
}.

(** The packets that the handler gets lie in the buffer. *)
Lemma handed_back_ok q d h u x data : streaming q d ->
  ub_urbs (hs_bus d) !! h = Some u -> u_linked u = true ->
  zlen data = io_transfer_buffer_length (u_io u) ->
  (forall j p, io_frame_desc (u_io u) !! j = Some p ->
     exists n st, x_packets x !! j = Some (n, st) /\ 0 <= n <= ip_length p) ->
  exists urb, handed_back h x data (hs_bus d) = Some urb /\
    Forall (packet_ok (transfer_buffer urb)) (iso_frame_desc urb).
Proof.
  intros (_ & np & Hnp & Hst & Hla) Hu Hl Hdata Hx.
  destruct (complete_begin_ok _ _ h u x (hk_bus _ (proj1 Hst)) Hu Hl)
    as (b' & u' & E & _ & _ & _ & Hu' & _ & _ & _ & _ & _ & Hsr & _ & _ & _ & Hdesc).
  unfold handed_back. destruct (hcd_transfer h x (hs_bus d)) as [b1|]; [|done].
  cbn [mbind option_bind] in *. rewrite E. cbn [mbind option_bind]. rewrite Hu'. cbn [mbind option_bind].
  eexists. split; [done|]. cbn [transfer_buffer iso_frame_desc].
  destruct (Hla h u Hu) as (En & El & _ & Elay).
  apply Forall_fmap, Forall_take, Forall_lookup. intros j p Hj. rewrite Hdesc in Hj.
  unfold packet_results in Hj. rewrite list_lookup_imap in Hj.
  destruct (io_frame_desc (u_io u) !! j) as [p0|] eqn:Ep; [|done].
  destruct (Hx j p0 Ep) as (n & st & Ex & Hn). cbn in Hj. rewrite Ex in Hj. injection Hj as <-.
  assert ((ip_offset p0, ip_length p0) = (Z.of_nat j * 800, 800) /\ Z.of_nat j < np) as [Ep0 Hlt].
  { pose proof (f_equal (.!! j) Elay) as Ej. cbn in Ej. rewrite list_lookup_fmap, Ep in Ej.
    unfold iso_layout in Ej. rewrite list_lookup_fmap in Ej.
    destruct (seq 0 (Z.to_nat np) !! j) eqn:Es; [|done]. apply lookup_seq in Es as [-> Hj].
    split; [by injection Ej as -> ->|lia]. }
  injection Ep0 as Eo Elen. unfold packet_ok, as_iso. cbn. rewrite Hdata, El, Eo.
  change (u16 wMaxPacketSize) with 800. rewrite u32_small by (unfold is_u32; lia). lia.
Qed.

Lemma held_urbs q q' (d : host D) : same_urbs q q' -> held q d ∅ ∅ -> held q' d ∅ ∅.
Proof. intros [E1 E2]. unfold held. by rewrite E1, E2. Qed.

Lemma off_idle q d : off d -> held q d ∅ ∅ -> idle q d ∅ ∅.
Proof.
  intros [HU HB] [Hb Hu]. split_and!; try done.
  - intros j y _ Ej. cut (y ∈ live_bufs d); [cbn; rewrite HB; set_solver|].
    apply (sl_live _ _ _ Hb). eauto.
  - intros j h _ Ej. cut (h ∈ live_urbs d); [cbn; rewrite HU; set_solver|].
    apply (sl_live _ _ _ Hu). eauto.
Qed.

Lemma zero_held (d : host D) : off d -> held zero_queue d ∅ ∅.
Proof.
  intros [HU HB].
  assert (forall j (h : nat), replicate 32 None !! j <> Some (Some h)) as Hn
    by (intros j h [[=] _]%lookup_replicate).
  assert (slots (replicate 32 None) ∅ ∅) as Hs.
  { split; [done|intros j h Ej; by apply Hn in Ej| |set_solver|intros j k h Ej; by apply Hn in Ej].
    intros h. split; [set_solver|]. intros [?|[j Ej]]; [done|by apply Hn in Ej]. }
  unfold held. cbn. by rewrite HU, HB.
Qed.

Lemma reqbufs_held vm fmt rb q q' (d : host D) ret : off d -> held q d ∅ ∅ ->
  myuvc_vidioc_reqbufs vm fmt rb q = Some (ret, q') -> held q' d ∅ ∅.
Proof.
  intros Hoff Hh. unfold myuvc_vidioc_reqbufs.
  assert (held (myuvc_free_buffers q).2 d ∅ ∅) as Hf.
  { unfold myuvc_free_buffers. destruct (q_mem q); [by apply zero_held|done]. }
  destruct (myuvc_free_buffers q) as [r q1]. cbn [snd] in Hf.
  case_if; [by intros [= _ <-]|]. case_if; [by intros [= _ <-]|].
  destruct (alloc_loop _ _ _) as [[n m]|]; [|by intros [= _ <-]].
  intros (bufs & _ & [= _ <-])%bind_Some. by apply zero_held in Hoff.
Qed.

(** An entry point that leaves the URBs alone. *)
Lemma call_step ev dr ret r dr' : urb_event ev = false -> sys_inv dr -> event_ok dr ev ->
  handle ev dr = Some (ret, r, dr') -> streaming (dr_queue dr') (dr_dev dr').
Proof.
  intros Hev [Hdi (Hh & np & Hnp & Hst & Hla)] Hok E.
  destruct (handle_keeps (fun e => steady (Z.to_nat np) e /\
      all_laid_out np (u32 (u16 wMaxPacketSize * np)) (hs_bus e) /\
      hs_urbs e = hs_urbs (dr_dev dr) /\ hs_bufs e = hs_bufs (dr_dev dr))
    ltac:(intros rq e (H1 & H2 & H3 & H4);
          destruct (control_streaming np _ rq e H1 H2) as (? & ? & ? & ?);
          split_and!; try done; by etrans) ev dr ret r dr' Hev)
    as (Hst' & Hla' & EU & EB); [by split_and!|done|].
  split; [|by exists np]. apply (held_live _ (dr_dev dr)); [|done..].
  eapply held_urbs; [by eapply handle_urbs|done].
Qed.

(** REQBUFS, STREAMON, STREAMOFF and [release]. *)
Lemma urb_call_step ev dr ret r dr' : urb_event ev = true -> sys_inv dr -> sys_ok dr (Call ev) ->
  handle ev dr = Some (ret, r, dr') -> streaming (dr_queue dr') (dr_dev dr') /\
  (ev = EvStreamoff \/ ev = EvClose -> resting (dr_queue dr') (dr_dev dr')).
Proof.
  intros Hev [Hdi Hs] Hok Hh. destruct ev; try done; cbn in Hok, Hh.
  - apply bind_Some in Hh as ([ret1 q1] & E & Hh). injection Hh as _ _ <-.
    destruct Hs as (Hh & Hs). split; [|by intros [|]]. split; [|exact Hs].
    eapply reqbufs_held; [apply Hok|exact Hh|exact E].
  - destruct Hok as (Hpa & _ & Hoff). destruct Hs as (Hh0 & np & _ & Hst & _).
    destruct (streamon_host (dr_cfg dr) pa (dr_queue dr) (dr_dev dr) Hacc)
      as (ret1 & params & q1 & d1 & E & Hc); [by split; [apply Hst|apply off_idle]|done|].
    rewrite E in Hh. injection Hh as _ _ <-. split; [|by intros [|]].
    destruct Hc as [[_ ?]|[_ ?]]; [done|by apply resting_streaming].
  - pose proof (streamoff_host (dr_cfg dr) _ _ Hs) as Hr.
    destruct (myuvc_vidioc_streamoff _ _ _) as [[ret1 q1] d1]. injection Hh as _ _ <-.
    destruct Hr as [_ Hr]. split; [by apply resting_streaming|done].
  - pose proof (streamoff_host (dr_cfg dr) _ _ Hs) as Hr. unfold myuvc_close in Hh.
    destruct (myuvc_vidioc_streamoff _ _ _) as [[ret1 q1] d1]. injection Hh as _ _ <-.
    destruct Hr as [_ Hr]. split; [by apply resting_streaming|done].
Qed.

Lemma call_ok ev dr : sys_inv dr -> sys_ok dr (Call ev) ->
  event_ok dr ev /\ served dr ev /\ exists ret r dr', handle ev dr = Some (ret, r, dr') /\ driver_inv dr'.
Proof.
  intros [Hdi _] Hok. assert (event_ok dr ev /\ served dr ev) as [H1 H2]
    by (destruct ev; try done; split; apply Hok).
  split; [done|]. split; [done|]. destruct (driver_no_fault ev dr Hdi H1 H2) as [[[ret r] dr'] E].
  exists ret, r, dr'. split; [done|]. by eapply driver_inv_step.
Qed.

(** A transfer: the handler decodes what came, the URB is submitted again or not. *)
Lemma transfer_step kmalloc h x data dr : sys_inv dr -> sys_ok dr (Transfer kmalloc h x data) ->
  exists ret r dr', sys_handle (Transfer kmalloc h x data) dr = Some (ret, r, dr') /\ sys_inv dr'.
Proof.
  intros [Hdi Hs] (Hk & (u & Hu & Hl & Hdata & Hx) & Hsv).
  destruct (handed_back_ok (dr_queue dr) (dr_dev dr) h u x data Hs Hu Hl Hdata Hx) as (urb & E & Hp).
  cbn [sys_handle]. rewrite E. cbn [mbind option_bind].
  assert (event_ok dr (EvComplete kmalloc urb)) as Hev by done.
  destruct (driver_no_fault _ dr Hdi Hev (Hsv urb E)) as [[[ret r] dr'] Eh].
  pose proof (driver_inv_step _ _ _ _ _ Hdi Hev Eh) as Hdi'.
  pose proof (handle_urbs (EvComplete kmalloc urb) _ _ _ _ eq_refl Eh) as Hsu.
  assert (dr_dev dr' = dr_dev dr) as Edev.
  { cbn in Eh. apply bind_Some in Eh as ([] & _ & Eh). by injection Eh as _ _ <-. }
  rewrite Eh. cbn [mbind option_bind]. eexists _, _, _. split; [done|].
  destruct Hs as (Hh & np & Hnp & Hst & Hla). rewrite <- Edev in *.
  destruct (complete_host _ (dr_dev dr') h u x Hst Hu Hl) as (Hst' & EU & EB & Hsh).
  split; [by destruct Hdi'|]. split.
  - apply (held_live _ (dr_dev dr')); [by eapply held_urbs|done..].
  - exists np. split; [done|]. split; [done|]. by eapply shaped_laid_out.
Qed.

Lemma sys_step_ok ev dr : sys_inv dr -> sys_ok dr ev ->
  exists ret r dr', sys_handle ev dr = Some (ret, r, dr') /\ sys_inv dr' /\
    (ev = Call EvStreamoff \/ ev = Call EvClose -> resting (dr_queue dr') (dr_dev dr')).
Proof.
  intros Hi Hok. destruct ev as [ev|kmalloc h x data].
  - destruct (call_ok ev dr Hi Hok) as (Hev & _ & ret & r & dr' & E & Hdi). exists ret, r, dr'.
    split; [done|]. destruct (urb_event ev) eqn:Hu.
    + destruct (urb_call_step ev dr ret r dr' Hu Hi Hok E) as [Hs Hr]. split; [by split|].
      intros [[= ->]|[= ->]]; apply Hr; auto.
    + split; [split; [done|by eapply call_step]|]. by intros [[= ->]|[= ->]].
  - destruct (transfer_step kmalloc h x data dr Hi Hok) as (ret & r & dr' & E & Hi').
    exists ret, r, dr'. split; [done|]. split; [done|]. by intros [|].
Qed.

Lemma sys_reachable_inv dr0 dr : sys_inv dr0 -> sys_reachable dr0 dr -> sys_inv dr.
Proof.
  intros H0 Hr. induction Hr as [|dr ev ret r dr' _ IH Hok E]; [done|].
  destruct (sys_step_ok ev dr IH Hok) as (? & ? & ? & E' & Hi & _). rewrite E in E'.
  by injection E' as <- <- <-.
Qed.

Lemma initial_sys_inv vendor d : host_ok d -> off d -> sys_inv (initial_driver vendor d).
Proof.
  intros Hd Ho. split; [apply initial_inv|]. apply resting_streaming. split; [done|].
  apply off_idle; [done|]. by apply zero_held.
Qed.

(** * What STREAMON queues *)

(** The endpoint behind [pipe]: isochronous, enabled, on a device that takes
    transfers. *)
Record stream_ep (pipe : Z) (b : ubus) (e : nat) (ep : usb_host_endpoint) : Prop := mk_stream_ep {
  se_state : USB_STATE_CONFIGURED <= ud_state (ub_dev b);
  se_speed : ud_speed (ub_dev b) = USB_SPEED_FULL \/ ud_speed (ub_dev b) = USB_SPEED_HIGH;
  se_pipe : usb_pipe_endpoint (ub_dev b) pipe = Some (Some e);
  se_ep : ub_eps b !! e = Some ep;
  se_type : usb_endpoint_type (ep_desc ep) = USB_ENDPOINT_XFER_ISOC;
  se_max : 0 < usb_endpoint_maxp (ep_desc ep);
  se_enabled : ep_enabled ep = true;
  se_submit : ud_can_submit (ub_dev b) = true;
  se_rh : ub_rh_running b = true
}.

Lemma stream_ep_next pipe b b' e ep h l : stream_ep pipe b e ep -> only h b b' ->
  ub_eps b' !! e = Some (set_ep_urb_list l ep) -> stream_ep pipe b' e (set_ep_urb_list l ep).
Proof.
  intros Hs Hon He. pose proof (on_dev _ _ _ Hon) as Ed. split; try done; try apply Hs.
  - rewrite Ed. apply Hs.
  - rewrite Ed. apply Hs.
  - rewrite Ed. apply (se_pipe _ _ _ _ Hs).
  - rewrite Ed. apply Hs.
  - rewrite (on_rh _ _ _ Hon). apply Hs.
Qed.

Lemma prepared_iso dev np size y u b e ep : prepared dev np size y u -> 0 < np ->
  stream_ep (usb_rcvisocpipe dev myuvc_bEndpointAddress) b e ep -> iso_request b u e ep.
Proof.
  intros Hp Hnp Hs. split; try apply Hs; try apply Hp.
  - rewrite (pp_pipe _ _ _ _ _ Hp). apply Hs.
  - by rewrite (pp_packets _ _ _ _ _ Hp).
Qed.

(** Every packet of the driver asks for 800 bytes. *)
Lemma prepared_lengths dev np size y u : prepared dev np size y u ->
  Forall (fun p => ip_length p = 800) (io_frame_desc (u_io u)).
Proof.
  intros Hp. apply Forall_lookup. intros j p Hj.
  pose proof (f_equal (.!! j) (pp_layout _ _ _ _ _ Hp)) as E. cbn in E.
  rewrite list_lookup_fmap, Hj in E. unfold iso_layout in E. rewrite list_lookup_fmap in E.
  by destruct (seq _ _ !! j); [injection E as _ ->|].
Qed.

Lemma link_error_ok pipe b e ep u : stream_ep pipe b e ep -> u_reject u = 0 -> link_error u ep b = 0.
Proof.
  intros Hs Hr. unfold link_error.
  by rewrite Hr, (se_enabled _ _ _ _ Hs), (se_submit _ _ _ _ Hs), (se_rh _ _ _ _ Hs).
Qed.

(** One prepared URB goes to the end of the queue of the endpoint. *)
Lemma submit_queued dev np size y d h u e ep : steady (Z.to_nat np) d ->
  ub_urbs (hs_bus d) !! h = Some u -> prepared dev np size y u -> y ∈ hs_bufs d ->
  u_use_count u = 0 -> 0 < np -> size <= INT_MAX ->
  stream_ep (usb_rcvisocpipe dev myuvc_bEndpointAddress) (hs_bus d) e ep ->
  800 <= packet_limit (hs_bus d) ep ->
  fst <$> UsbUrb.usb_submit_urb (w_hc w) (Some h) (hs_bus d) = Some 0 /\
  ub_eps (hs_bus (host_submit_urb w h d).2) !! e = Some (set_ep_urb_list (ep_urb_list ep ++ [h]) ep).
Proof.
  intros Hst Hu Hp Hy Hz Hnp Hsz Hs Hlim. pose proof (proj1 Hst) as Hd.
  destruct (idle_unlinked d h u Hd Hu Hz) as [Hl Hpr].
  pose proof (proj2 Hst h u Hu) as (Hn & _ & Hrej).
  destruct (iso_accepted (w_hc w) _ (hs_bus d) h u e ep 1 Hhc (Hacc h) (hk_bus _ Hd) Hu Hl Hpr)
    as (b' & u' & E & _ & _ & _ & Hz').
  - by rewrite (pp_complete _ _ _ _ _ Hp).
  - right. exists y. rewrite (hk_bufs _ Hd). by split; [apply Hp|].
  - by eapply prepared_iso.
  - eapply Forall_impl; [by eapply prepared_lengths|]. cbn. intros p Hlen. unfold packet_fits.
    rewrite Hlen. change (s32 800) with 800. lia.
  - by rewrite (pp_length _ _ _ _ _ Hp).
  - rewrite (pp_interval _ _ _ _ _ Hp). by destruct (se_speed _ _ _ _ Hs) as [-> | ->].
  - rewrite (link_error_ok _ _ _ _ u Hs Hrej) in *. destruct (Hz' eq_refl) as (Heps & _).
    unfold host_submit_urb. rewrite E. split; [done|]. cbn. by rewrite Heps, lookup_insert_eq.
Qed.

(** A packet that does not fit. *)
Lemma first_too_long dev np size y d h u e ep : steady (Z.to_nat np) d ->
  ub_urbs (hs_bus d) !! h = Some u -> prepared dev np size y u -> u_use_count u = 0 -> 0 < np ->
  stream_ep (usb_rcvisocpipe dev myuvc_bEndpointAddress) (hs_bus d) e ep ->
  packet_limit (hs_bus d) ep < 800 -> (host_submit_urb w h d).1 = - EMSGSIZE.
Proof.
  intros Hst Hu Hp Hz Hnp Hs Hlim. pose proof (proj1 Hst) as Hd.
  destruct (idle_unlinked d h u Hd Hu Hz) as [_ Hpr]. pose proof (proj2 Hst h u Hu) as (Hn & _ & _).
  destruct (lookup_lt_is_Some_2 (io_frame_desc (u_io u)) 0) as [p Ep]; [lia|].
  destruct (iso_too_long (w_hc w) _ (hs_bus d) h u e ep 0 p (hk_bus _ Hd) Hu Hpr) as (io & E & _).
  - by rewrite (pp_complete _ _ _ _ _ Hp).
  - by eapply prepared_iso.
  - rewrite (pp_packets _ _ _ _ _ Hp). lia.
  - done.
  - pose proof (prepared_lengths _ _ _ _ _ Hp) as Hf. rewrite Forall_lookup in Hf. unfold packet_fits.
    rewrite (Hf 0%nat p Ep). change (s32 800) with 800. lia.
  - unfold host_submit_urb. by rewrite E.
Qed.

(** The handles of the queue from [i] on. *)
Definition urb_handles (q : myuvc_queue) (i n : nat) : list nat := omap id (take n (drop i (q_urb q))).

Lemma submit_queue dev np size q e todo : 0 < np -> size <= INT_MAX ->
  forall i d ep, (i + todo = MYUVC_URBS)%nat -> steady (Z.to_nat np) d -> held q d ∅ ∅ ->
  ready_from dev np size q i d ->
  stream_ep (usb_rcvisocpipe dev myuvc_bEndpointAddress) (hs_bus d) e ep ->
  800 <= packet_limit (hs_bus d) ep ->
  let '(ret, q', d') := submit_loop todo i q d in
  ret = 0 /\ q' = q /\ ub_eps (hs_bus d') !! e =
    Some (set_ep_urb_list (ep_urb_list ep ++ urb_handles q i todo) ep).
Proof.
  intros Hnp Hsz. induction todo as [|todo IH]; intros i d ep Hsum Hst Hh Hr Hs Hlim; cbn [submit_loop].
  { split; [done|]. split; [done|]. rewrite (se_ep _ _ _ _ Hs). unfold urb_handles. rewrite take_0. cbn.
    rewrite app_nil_r. by destruct ep. }
  destruct (Hr i) as (h & y & u & Eh & Ey & Hy & Hu & Hp & Hz); [lia|].
  rewrite Eh. cbn [default from_option id usb_submit_urb].
  destruct (submit_queued dev np size y d h u e ep Hst Hu Hp Hy Hz Hnp Hsz Hs Hlim) as [E0 Eq].
  pose proof (submit_host _ d h u Hst Hu) as Hsub.
  change (submit_urb h d) with (host_submit_urb w h d).
  destruct (host_submit_urb w h d) as [r d']. cbn [snd] in Eq.
  destruct Hsub as (Hfst & _ & Hst' & Eu' & Eb' & Hon & _).
  { by apply (idle_unlinked d h u (proj1 Hst) Hu). }
  { right. exists y. rewrite (hk_bufs _ (proj1 Hst)). by split; [apply Hp|]. }
  assert (r = 0) as -> by congruence. cbn [Z.ltb Z.compare].
  specialize (IH (S i) d' (set_ep_urb_list (ep_urb_list ep ++ [h]) ep) ltac:(lia) Hst').
  destruct (submit_loop todo (S i) q d') as [[ret q'] d2].
  destruct IH as (-> & -> & Ee); [by apply (held_live q d)|..].
  - intros j Hj. destruct (Hr j) as (h' & y' & u' & E1 & E2 & E3 & E4 & E5); [lia|].
    exists h', y', u'. rewrite Eb', (on_urbs _ _ _ Hon); [done|].
    intros ->. pose proof (sl_inj _ _ _ (proj2 Hh) j i h E1 Eh). lia.
  - by eapply stream_ep_next.
  - unfold packet_limit in *. rewrite (on_dev _ _ _ Hon). exact Hlim.
  - split; [done|]. split; [done|]. rewrite Ee. cbn. f_equal. unfold urb_handles.
    rewrite (drop_S (q_urb q) (Some h) i Eh). cbn. by rewrite <- app_assoc.
Qed.

(** Allocating and preparing URBs leaves the device and its endpoints alone. *)
Definition same_side (b b' : ubus) : Prop :=
  ub_dev b' = ub_dev b /\ ub_eps b' = ub_eps b /\ ub_rh_running b' = ub_rh_running b.

Lemma same_side_trans b1 b2 b3 : same_side b1 b2 -> same_side b2 b3 -> same_side b1 b3.
Proof. intros (E1 & E2 & E3) (F1 & F2 & F3). split_and!; congruence. Qed.

Lemma same_side_ep pipe b b' e ep : same_side b b' -> stream_ep pipe b e ep -> stream_ep pipe b' e ep.
Proof. intros (E1 & E2 & E3) []. split; rewrite ?E1, ?E2, ?E3; done. Qed.

Lemma alloc_side size np todo : (forall k, w_mem w k = true) -> forall i q d,
  let '(ret, _, d') := alloc_urbs todo i size np q d in ret = 0 /\ same_side (hs_bus d) (hs_bus d').
Proof.
  intros Hm. induction todo as [|todo IH]; intros i q d; cbn [alloc_urbs]; [done|].
  change (usb_buffer_alloc size d) with (host_buffer_alloc w size d).
  unfold host_buffer_alloc. rewrite Hm. set (d1 := set_bus _ _).
  change (usb_alloc_urb np d1) with (host_alloc_urb w np d1).
  unfold host_alloc_urb. rewrite Hm. set (d2 := set_bus _ _). set (q2 := set_q_urbs _ _ _ q).
  specialize (IH (S i) q2 d2). by destruct (alloc_urbs todo (S i) size np q2 d2) as [[ret q'] d'].
Qed.

Lemma setup_side size np q todo : forall i d,
  same_side (hs_bus d) (hs_bus (setup_loop todo i size np q d)).
Proof.
  induction todo as [|todo IH]; intros i d; cbn [setup_loop]; [done|].
  set (d1 := match default None (q_urb q !! i) with Some h => _ | None => d end).
  assert (same_side (hs_bus d) (hs_bus d1)) as Hs.
  { unfold d1. destruct (default None _) as [h|]; [|done]. cbn. unfold host_fill_urb.
    destruct (ub_urbs (hs_bus d) !! h); [|done]. by case_if. }
  by apply (same_side_trans _ (hs_bus d1)); [|apply IH].
Qed.

(** The URBs before they are submitted, when there is memory. *)
Lemma alloc_init_ready params q d : (forall k, w_mem w k = true) -> resting q d ->
  let np := urb_npackets (dwMaxVideoFrameSize params) in
  let '(_, q1, d1) := myuvc_alloc_init_urbs params q d in
  calm (Z.to_nat np) d1 /\ held q1 d1 ∅ ∅ /\ all_slots (q_urb q1) MYUVC_URBS /\
  prepared_upto np (urb_bytes (dwMaxVideoFrameSize params)) q1 MYUVC_URBS d1 /\
  same_side (hs_bus d) (hs_bus d1).
Proof.
  intros Hm [Hd (Hh & Hnb & Hnu & _ & HU)] np. unfold myuvc_alloc_init_urbs. fold np.
  set (sz := urb_bytes _). set (q1 := set_q_urbs _ _ sz q). assert (held q1 d ∅ ∅) as Hh1 by done.
  pose proof (no_urbs_calm (Z.to_nat np) d Hd HU) as Hc.
  assert (forall l, all_slots l 0) as Hall by (intros ? ? ?; lia).
  pose proof (alloc_urbs_spec MYUVC_URBS sz np 0 q1 d ∅ ∅ eq_refl Hh1 Hnb Hnu (Hall _) (Hall _)) as Ha.
  pose proof (calm_alloc sz np MYUVC_URBS 0 q1 d eq_refl Hc Hh1 Hnb Hnu (Hall _) (Hall _)) as Hc1.
  pose proof (alloc_side sz np MYUVC_URBS Hm 0 q1 d) as Hs.
  destruct (alloc_urbs MYUVC_URBS 0 sz np q1 d) as [[ra q2] d1]. cbn [snd] in Hc1. destruct Hs as [-> Hs].
  destruct Ha as [_ [(_ & Hh2 & Hb2 & Hu2)|([=] & _)]]. cbn [Z.ltb Z.compare].
  destruct (setup_ready np sz q2 MYUVC_URBS 0 d1 eq_refl Hc1 Hh2 Hb2 Hu2) as (Hc2 & Hh3 & Hp);
    [by intros ? ?; lia|].
  split; [done|]. split; [done|]. split; [done|]. split; [done|].
  by apply (same_side_trans _ (hs_bus d1)); [|apply setup_side].
Qed.

Lemma urb_bytes_int size : urb_bytes size <= INT_MAX.
Proof.
  unfold urb_bytes, urb_npackets. change (u16 wMaxPacketSize) with 800.
  assert (0 <= DIV_ROUND_UP size 800) by (unfold DIV_ROUND_UP; apply Z.div_pos; [apply u32_range|lia]).
  unfold INT_MAX. case_if; bool_props; rewrite u32_small; unfold is_u32; lia.
Qed.

Lemma all_slots_handles l : forall n, all_slots l n ->
  take n l = Some <$> omap id (take n l) /\ length (omap id (take n l)) = n.
Proof.
  induction l as [|x l IH]; intros [|n] Ha; try done; [by destruct (Ha 0%nat); [lia|]|].
  destruct (Ha 0%nat) as [h [= ->]]; [lia|]. destruct (IH n) as [E1 E2].
  { intros i Hi. apply (Ha (S i)). lia. }
  cbn. by rewrite <- E1, E2.
Qed.

Lemma resting_queue q d e ep : resting q d -> ub_eps (hs_bus d) !! e = Some ep -> ep_urb_list ep = [].
Proof.
  intros [Hd (_ & _ & _ & _ & HU)] He. destruct (ep_urb_list ep) as [|h l] eqn:E; [done|].
  destruct (bo_queue _ _ _ (hk_bus _ Hd) e ep He) as [_ Hq].
  destruct (Hq h) as (u & Hu & _); [rewrite E; by left|].
  apply elem_of_dom_2 in Hu. rewrite (hk_urbs _ Hd) in Hu. cbn in HU. rewrite HU in Hu. set_solver.
Qed.

(** The queue of the endpoint after the submissions, or the error of the first. *)
Lemma start_queue params q d e ep : (forall k, w_mem w k = true) -> resting q d ->
  stream_ep (usb_rcvisocpipe (ub_dev (hs_bus d)) myuvc_bEndpointAddress) (hs_bus d) e ep ->
  0 < urb_npackets (dwMaxVideoFrameSize params) ->
  let '(_, q1, d1) := myuvc_alloc_init_urbs params q d in
  let '(ret, q', d') := submit_loop MYUVC_URBS 0 q1 d1 in
  all_slots (q_urb q1) MYUVC_URBS /\
  (800 <= packet_limit (hs_bus d) ep -> ret = 0 /\ q' = q1 /\
   ub_eps (hs_bus d') !! e = Some (set_ep_urb_list (ep_urb_list ep ++ urb_handles q1 0 MYUVC_URBS) ep)) /\
  (packet_limit (hs_bus d) ep < 800 -> ret = - EMSGSIZE).
Proof.
  intros Hm Hr Hs Hnp. pose proof (alloc_init_ready params q d Hm Hr) as Ha. cbn zeta in Ha.
  destruct (myuvc_alloc_init_urbs params q d) as [[ra q1] d1].
  destruct Ha as (Hc & Hh & Hall & Hp & Hside). set (np := urb_npackets _) in *. set (sz := urb_bytes _) in *.
  pose proof (same_side_ep _ _ _ _ _ Hside Hs) as Hs1. destruct Hside as (Ed & _ & _).
  assert (packet_limit (hs_bus d1) ep = packet_limit (hs_bus d) ep) as El by (unfold packet_limit; by rewrite Ed).
  assert (ready_from (ub_dev (hs_bus d)) np sz q1 0 d1) as Hrd.
  { intros j [_ Hj]. destruct (Hp j Hj) as (h & y & u & ? & ? & ? & Hu & Hpp).
    exists h, y, u. rewrite <- Ed. split_and!; try done. by apply (proj2 Hc h u Hu). }
  assert (steady (Z.to_nat np) d1) as Hst by (split; [apply Hc|intros h u Hu; by apply (proj2 Hc h u Hu)]).
  destruct (decide (800 <= packet_limit (hs_bus d) ep)) as [Hlim|Hlim].
  - pose proof (submit_queue (ub_dev (hs_bus d)) np sz q1 e MYUVC_URBS Hnp (urb_bytes_int _) 0 d1 ep eq_refl
                  Hst Hh Hrd Hs1 ltac:(lia)) as Hq.
    destruct (submit_loop MYUVC_URBS 0 q1 d1) as [[ret q2] d2]. split; [done|]. split; [done|lia].
  - destruct (Hrd 0%nat) as (h & y & u & Eh & Ey & Hy & Hu & Hpp & Hz); [unfold MYUVC_URBS; lia|].
    pose proof (first_too_long (ub_dev (hs_bus d)) np sz y d1 h u e ep Hst Hu Hpp Hz Hnp Hs1 ltac:(lia)) as E.
    rewrite submit_loop_first, Eh. cbn [default from_option id usb_submit_urb].
    change (submit_urb h d1) with (host_submit_urb w h d1). 
    destruct (host_submit_urb w h d1) as [r d2]. cbn in E. subst r.
    change (- EMSGSIZE <? 0) with true. cbv iota. destruct (myuvc_uninit_urbs q1 d2).
    split; [done|]. split; [lia|done].
Qed.

Lemma streamon_queue cfg pa q d params d1 e ep : (forall k, w_mem w k = true) ->
  resting q d -> pallocs_ok cfg pa -> negotiate cfg pa d = Some (params, d1) ->
  let d2 := host_set_interface w (myuvc_streaming_intf cfg) myuvc_streaming_bAlternateSetting d1 in
  stream_ep (usb_rcvisocpipe (ub_dev (hs_bus d2)) myuvc_bEndpointAddress) (hs_bus d2) e ep ->
  0 < urb_npackets (dwMaxVideoFrameSize params) ->
  exists ret q' d', myuvc_vidioc_streamon cfg pa q d = Some (ret, params, q', d') /\
    (800 <= packet_limit (hs_bus d2) ep -> ret = 0 /\ exists hs, length hs = MYUVC_URBS /\
     take MYUVC_URBS (q_urb q') = Some <$> hs /\
     ub_eps (hs_bus d') !! e = Some (set_ep_urb_list hs ep)) /\
    (packet_limit (hs_bus d2) ep < 800 -> ret = - EMSGSIZE /\ off d').
Proof.
  intros Hm Hr Hpa En d2 Hs Hnp. pose proof (before_start cfg pa q d params d1 Hr En) as Hr2.
  destruct (streamon_host cfg pa q d Hacc Hr Hpa) as (ret & params' & q' & d' & E & Hc).
  assert (ret < 0 -> off d') as Hoff.
  { intros Hn. destruct Hc as [[-> _]|[_ [_ (_ & _ & _ & HB & HU)]]]; [lia|done]. }
  pose proof (start_queue params q d2 e ep Hm Hr2 Hs Hnp) as Hq.
  revert E. unfold myuvc_vidioc_streamon. rewrite En. cbn [mbind option_bind].
  change (usb_set_interface _ _ d1) with d2.
  destruct (myuvc_alloc_init_urbs params q d2) as [[ra q1] d3].
  destruct (submit_loop MYUVC_URBS 0 q1 d3) as [[r q2] d4]. intros [= -> _ -> ->].
  destruct Hq as (Hall & Hfit & Hlong). exists ret, q', d'. split; [done|]. split.
  - intros Hlim. destruct (Hfit Hlim) as (-> & -> & Ee). split; [done|].
    destruct (all_slots_handles _ _ Hall) as [E1 E2]. exists (urb_handles q1 0 MYUVC_URBS).
    split; [done|]. split; [done|].
    by rewrite Ee, (resting_queue q d2 e ep Hr2 (se_ep _ _ _ _ Hs)).
  - intros Hlim. rewrite (Hlong Hlim) in *. split; [done|]. by apply Hoff.
Qed.
End Laws.

(** * A camera to run it with *)

(** A device whose input 2, of 800 bytes a packet, belongs to setting 5 of
    interface 0. *)
Definition cam_ep : usb_host_endpoint := mk_ep (mk_epd 0x82 1 800) 0 0 false [].
Definition cam_bus : ubus :=
  mk_ubus (mk_udev USB_STATE_CONFIGURED USB_SPEED_FULL 3 true
             (<[0%nat := Some 0%nat]> (replicate 16 None))
             (<[0%nat := Some 0%nat]> (replicate 16 None)) 0)
    true (<[1%nat := cam_ep]> {[0%nat := demo_ep0]}) ∅ ∅ [].

Definition cam_intfs : list usb_interface := [mk_intf 0 [mk_alt 0 []; mk_alt 5 [1%nat]] 0 false].

(** It answers every request for its parameters with frames of 1600 bytes. *)
Definition cam_reply : mem := replicate 18 0 ++ [0x40; 0x06; 0; 0] ++ replicate 4 0.

Definition cam_world (hc : hcd_driver) : world unit :=
  mk_world hc (fun _ => true) (mk_packet 9 9 9 9)
    (fun rq c => (Some (mk_transfer 0 (rq_size rq) [], cam_reply), c))
    (fun _ _ c => (Some 0, c)) 0 false (fun _ => Timeout (mk_transfer 0 0 [])) (mk_transfer 0 0 []).

Definition cam_host : host unit := mk_host cam_bus ∅ ∅ cam_intfs tt 0 false.
Definition cam_driver : driver (host unit) := initial_driver 0x046D cam_host.
Definition cam_allocs : param_allocs := mk_pallocs true (Some (replicate 26 0)) true.

Definition after (hc : hcd_driver) (ev : sys_event) (dr : driver (host unit)) : driver (host unit) :=
  default dr (snd <$> sys_handle (cam_world hc) ev dr).

Lemma cam_fresh : fresh_bus cam_bus.
Proof.
  split_and!; try done.
  - intros e ep. unfold cam_bus. cbn [ub_eps].
    intros [[_ <-]|[_ [_ <-]%lookup_singleton_Some]]%lookup_insert_Some; done.
  - split; [done|]. intros e [i Hi]%list_elem_of_lookup.
    do 16 (destruct i as [|i]; [by vm_compute in Hi; simplify_eq; vm_compute; eexists|]). done.
  - split; [done|]. intros e [i Hi]%list_elem_of_lookup.
    do 16 (destruct i as [|i]; [by vm_compute in Hi; simplify_eq; vm_compute; eexists|]). done.
Qed.

Lemma cam_host_ok : host_ok cam_host.
Proof.
  split; try done.
  - assert (pointwise_relation nat eq (held_refs (hs_urbs cam_host)) none) as ->.
    { intros h. unfold held_refs. by rewrite decide_False. }
    apply fresh_bus_ok, cam_fresh.
  - constructor; [|done]. split; [cbn; lia|]. repeat constructor. by vm_compute; eexists.
Qed.

Lemma cam_accepts h : accepts demo_hc h.
Proof. done. Qed.

(** The camera accepts STREAMON. *)
Lemma cam_started : sys_handle (cam_world demo_hc) (Call (EvStreamon cam_allocs)) cam_driver =
  Some (0, R_none, after demo_hc (Call (EvStreamon cam_allocs)) cam_driver).
Proof.
  assert (fst <$> sys_handle (cam_world demo_hc) (Call (EvStreamon cam_allocs)) cam_driver =
          Some (0, R_none)) as E by (vm_compute; reflexivity).
  unfold after. destruct (sys_handle _ _ _) as [[[ret r] dr']|]; [|done]. by injection E as -> ->.
Qed.

(** * Properties *)

(** C3. The driver on the USB core of the kernel. With a host controller that takes
    what it is given, from a host without URBs and over any sequence of calls of the
    driver and finished transfers (buffers are requested and streams are started
    only while there is none, and the interrupt handler has a buffer): every call
    and every transfer comes to its end without a fault in the driver or in the
    core, the invariant of the driver holds afterwards, the URBs of the bus are
    those the driver accounts for, and after STREAMOFF and [release] the bus has
    neither URBs nor buffers. In particular no URB is freed or given a buffer that is
    freed while the controller has it, and the packets the handler reads lie in the
    buffer. *)
Theorem system_safe {D} (w : world D) vendor d dr ev : hcd_ok (w_hc w) ->
  (forall h, accepts (w_hc w) h) -> host_ok d -> off d ->
  sys_reachable w (initial_driver vendor d) dr -> sys_ok dr ev ->
  exists ret r dr', sys_handle w ev dr = Some (ret, r, dr') /\
    hs_fault (dr_dev dr') = false /\ driver_inv dr' /\
    dom (ub_urbs (hs_bus (dr_dev dr'))) = hs_urbs (dr_dev dr') /\
    (forall h, h ∈ hs_urbs (dr_dev dr') <-> exists i, q_urb (dr_queue dr') !! i = Some (Some h)) /\
    (ev = Call EvStreamoff \/ ev = Call EvClose ->
     ub_urbs (hs_bus (dr_dev dr')) = ∅ /\ ub_bufs (hs_bus (dr_dev dr')) = ∅).
Proof.
  intros Hhc Hacc Hd Ho Hr Hok.
  pose proof (sys_reachable_inv w Hhc Hacc _ _ (initial_sys_inv w Hhc Hacc vendor d Hd Ho) Hr) as Hi.
  destruct (sys_step_ok w Hhc Hacc ev dr Hi Hok) as (ret & r & dr' & E & [Hdi Hs] & Hoff).
  exists ret, r, dr'. destruct Hs as ([_ Hu] & np & _ & [Hd' _] & _). split_and!; try done; try apply Hd'.
  - intros h. rewrite (sl_live _ _ _ Hu). set_solver.
  - intros Hev. destruct (Hoff Hev) as [_ (_ & _ & _ & HB & HU)]. split.
    + apply dom_empty_inv_L. rewrite (hk_urbs _ Hd'). exact HU.
    + rewrite (hk_bufs _ Hd'). exact HB.
Qed.

Lemma system_safe_witness : exists ret r dr',
  sys_handle (cam_world demo_hc) (Call EvStreamoff)
    (after demo_hc (Call (EvStreamon cam_allocs)) cam_driver) = Some (ret, r, dr') /\
  hs_fault (dr_dev dr') = false /\ driver_inv dr' /\
  dom (ub_urbs (hs_bus (dr_dev dr'))) = hs_urbs (dr_dev dr') /\
  (forall h, h ∈ hs_urbs (dr_dev dr') <-> exists i, q_urb (dr_queue dr') !! i = Some (Some h)) /\
  (Call EvStreamoff = Call EvStreamoff \/ Call EvStreamoff = Call EvClose ->
   ub_urbs (hs_bus (dr_dev dr')) = ∅ /\ ub_bufs (hs_bus (dr_dev dr')) = ∅).
Proof.
  apply (system_safe (cam_world demo_hc) 0x046D cam_host).
  - apply demo_hc_ok.
  - apply cam_accepts.
  - apply cam_host_ok.
  - done.
  - eapply (sys_step (cam_world demo_hc) _ cam_driver (Call (EvStreamon cam_allocs))).
    + apply sys_init.
    + split; [reflexivity|]. by split.
    + apply cam_started.
  - done.
Defined.

(** C7. What STREAMON queues. The memory suffices, the camera has answered, and
    behind input 2 there is, after the change of the setting, an isochronous
    endpoint that takes transfers: if it takes packets of 800 bytes, STREAMON
    returns 0, and the queue of the endpoint holds the five URBs of the driver in
    their order; otherwise it returns [-EMSGSIZE], and the driver has neither URBs
    nor buffers. *)
Theorem streamon_queues {D} (w : world D) dr pa params d1 e ep : hcd_ok (w_hc w) ->
  (forall h, accepts (w_hc w) h) -> (forall k, w_mem w k = true) ->
  resting w (dr_queue dr) (dr_dev dr) -> pallocs_ok (dr_cfg dr) pa ->
  @negotiate _ (core_w w) (dr_cfg dr) pa (dr_dev dr) = Some (params, d1) ->
  let d2 := host_set_interface w (myuvc_streaming_intf (dr_cfg dr)) myuvc_streaming_bAlternateSetting d1 in
  stream_ep (usb_rcvisocpipe (ub_dev (hs_bus d2)) myuvc_bEndpointAddress) (hs_bus d2) e ep ->
  0 < urb_npackets (dwMaxVideoFrameSize params) ->
  exists ret dr', sys_handle w (Call (EvStreamon pa)) dr = Some (ret, R_none, dr') /\
    (800 <= packet_limit (hs_bus d2) ep -> ret = 0 /\ exists hs, length hs = MYUVC_URBS /\
     take MYUVC_URBS (q_urb (dr_queue dr')) = Some <$> hs /\
     ub_eps (hs_bus (dr_dev dr')) !! e = Some (set_ep_urb_list hs ep)) /\
    (packet_limit (hs_bus d2) ep < 800 -> ret = - EMSGSIZE /\ off (dr_dev dr')).
Proof.
  intros Hhc Hacc Hm Hr Hpa En d2 Hs Hnp.
  destruct (streamon_queue w Hhc Hacc _ pa _ _ params d1 e ep Hm Hr Hpa En Hs Hnp) as (ret & q' & d' & E & Hc).
  eexists ret, _. cbn [sys_handle handle]. rewrite E. split; [done|]. exact Hc.
Qed.

(** The camera after the negotiation. *)
Definition cam_negotiated : option (myuvc_streaming_control * host unit) :=
  @negotiate _ (core_w (cam_world demo_hc)) initial_config cam_allocs cam_host.
Definition cam_params : myuvc_streaming_control := default zero_streaming_control (fst <$> cam_negotiated).
Definition cam_host1 : host unit := default cam_host (snd <$> cam_negotiated).
Definition cam_host2 : host unit :=
  host_set_interface (cam_world demo_hc) 0 myuvc_streaming_bAlternateSetting cam_host1.
Definition cam_ep_on : usb_host_endpoint := mk_ep (mk_epd 0x82 1 800) 0 0 true [].

Lemma cam_resting : resting (cam_world demo_hc) (dr_queue cam_driver) cam_host.
Proof.
  split; [apply cam_host_ok|]. apply (off_idle (cam_world demo_hc) demo_hc_ok cam_accepts); [done|].
  by apply (zero_held (cam_world demo_hc) demo_hc_ok cam_accepts).
Qed.

Lemma cam_stream_ep :
  stream_ep (usb_rcvisocpipe (ub_dev (hs_bus cam_host2)) myuvc_bEndpointAddress) (hs_bus cam_host2)
    1 cam_ep_on.
Proof. split; try (vm_compute; done). left. vm_compute. done. Qed.

Lemma streamon_queues_witness :
  exists ret dr', sys_handle (cam_world demo_hc) (Call (EvStreamon cam_allocs)) cam_driver =
      Some (ret, R_none, dr') /\
    (800 <= packet_limit (hs_bus cam_host2) cam_ep_on -> ret = 0 /\ exists hs, length hs = MYUVC_URBS /\
     take MYUVC_URBS (q_urb (dr_queue dr')) = Some <$> hs /\
     ub_eps (hs_bus (dr_dev dr')) !! 1%nat = Some (set_ep_urb_list hs cam_ep_on)) /\
    (packet_limit (hs_bus cam_host2) cam_ep_on < 800 -> ret = - EMSGSIZE /\ off (dr_dev dr')).
Proof.
  apply (streamon_queues (cam_world demo_hc) cam_driver cam_allocs cam_params cam_host1 1 cam_ep_on).
  - apply demo_hc_ok.
  - apply cam_accepts.
  - done.
  - apply cam_resting.
  - reflexivity.
  - unfold cam_params, cam_host1, cam_negotiated. change (dr_cfg cam_driver) with initial_config.
    change (dr_dev cam_driver) with cam_host. destruct (negotiate _ _ _) as [[p d]|] eqn:E; [reflexivity|].
    vm_compute in E. discriminate E.
  - apply cam_stream_ep.
  - vm_compute. reflexivity.
Defined.

(** A controller that has no memory left for the third URB. *)
Definition short_hc : hcd_driver :=
  mk_hcd (fun _ _ => 0) (fun h _ => if (h =? 2)%nat then - ENOMEM else 0) (fun _ => true).

(** The error path of STREAMON is not safe. When the controller refuses the
    third URB, STREAMON returns the error and has freed all buffers, but the first
    two URBs are still in the queue of the endpoint, with buffers that are gone: the
    next transfer faults. *)
Theorem failed_submit_faults : hcd_ok short_hc /\
  fst <$> sys_handle (cam_world short_hc) (Call (EvStreamon cam_allocs)) cam_driver =
    Some (- ENOMEM, R_none) /\
  let dr := after short_hc (Call (EvStreamon cam_allocs)) cam_driver in
  off (dr_dev dr) /\ ub_bufs (hs_bus (dr_dev dr)) = ∅ /\
  (ep_urb_list <$> ub_eps (hs_bus (dr_dev dr)) !! 1%nat) = Some [0%nat; 1%nat] /\
  (forall kmalloc x data, sys_handle (cam_world short_hc) (Transfer kmalloc 0 x data) dr = None).
Proof.
  split; [split; intros; cbn; try case_if; done|]. split; [vm_compute; reflexivity|]. cbn zeta.
  split; [split; vm_compute; reflexivity|]. split; [vm_compute; reflexivity|].
  split; [vm_compute; reflexivity|]. intros kmalloc x data. cbn [sys_handle]. unfold handed_back, hcd_transfer.
  vm_compute. reflexivity.
Qed.
