(* ===== verification/PicOps.v ===== *)
(** Pictures in memory and the operations on them of the video2lcd program:
    [T_PixelDatas] of [src/video2lcd/1_th/include/pic_operation.h], [PicMerge] and
    [PicMergeRegion] of [render/operation/merge.c], [PicZoom] of
    [render/operation/zoom.c].

    A picture is its geometry and the block its pixels live in. Source and
    destination are different pictures. Sizes are [int]s; their products, which
    the code computes in [int], are computed without wrap-around, as they are
    for pictures below 2 GiB. *)
From S2P Require Import Prelude.
Open Scope Z_scope.

(** * Data *)

Record T_PixelDatas := mk_pic {
  iWidth : Z;
  iHeight : Z;
  iBpp : Z;
  iLineBytes : Z;
  iTotalBytes : Z;
  aucPixelDatas : mem
}.

Definition set_pixels (m : mem) (p : T_PixelDatas) : T_PixelDatas :=
  mk_pic (iWidth p) (iHeight p) (iBpp p) (iLineBytes p) (iTotalBytes p) m.

(** * Merging *)

(** [for (i = 0; i < rows; i++) { memcpy(pucDst, pucSrc, n); pucSrc += sline;
    pucDst += dline; }] *)
Fixpoint copy_rows (rows : nat) (n src sline : Z) (sm : mem) (dst dline : Z) (dm : mem)
    : option mem :=
  match rows with
  | O => Some dm
  | S rows =>
      bs ← mem_read sm src n;
      dm ← mem_write dm dst bs;
      copy_rows rows n (src + sline) sline sm (dst + dline) dline dm
  end.

Definition PicMerge (iX iY : Z) (ptSmallPic ptBigPic : T_PixelDatas)
    : option (Z * T_PixelDatas) :=
  if (iWidth ptSmallPic >? iWidth ptBigPic) || (iHeight ptSmallPic >? iHeight ptBigPic)
     || negb (iBpp ptSmallPic =? iBpp ptBigPic)
  then Some (-1, ptBigPic)
  else
    let dst := iY * iLineBytes ptBigPic + Z.quot (iX * iBpp ptBigPic) 8 in
    m ← copy_rows (Z.to_nat (iHeight ptSmallPic)) (iLineBytes ptSmallPic)
          0 (iLineBytes ptSmallPic) (aucPixelDatas ptSmallPic)
          dst (iLineBytes ptBigPic) (aucPixelDatas ptBigPic);
    Some (0, set_pixels m ptBigPic).

Definition PicMergeRegion (iStartXofNewPic iStartYofNewPic iStartXofOldPic iStartYofOldPic
    width height : Z) (ptNewPic ptOldPic : T_PixelDatas) : option (Z * T_PixelDatas) :=
  let iLineBytesCpy := Z.quot (width * iBpp ptNewPic) 8 in
  if ((iStartXofNewPic <? 0) || (iStartXofNewPic >=? iWidth ptNewPic))
     || ((iStartYofNewPic <? 0) || (iStartYofNewPic >=? iHeight ptNewPic))
     || ((iStartXofOldPic <? 0) || (iStartXofOldPic >=? iWidth ptOldPic))
     || ((iStartYofOldPic <? 0) || (iStartYofOldPic >=? iHeight ptOldPic))
  then Some (-1, ptOldPic)
  else
    let src := iStartYofNewPic * iLineBytes ptNewPic + Z.quot (iStartXofNewPic * iBpp ptNewPic) 8 in
    let dst := iStartYofOldPic * iLineBytes ptOldPic + Z.quot (iStartXofOldPic * iBpp ptOldPic) 8 in
    m ← copy_rows (Z.to_nat height) iLineBytesCpy src (iLineBytes ptNewPic) (aucPixelDatas ptNewPic)
          dst (iLineBytes ptOldPic) (aucPixelDatas ptOldPic);
    Some (0, set_pixels m ptOldPic).

(** * Zooming *)

(** [pdwSrcXTable[x] = x * ptOriginPic->iWidth / ptZoomPic->iWidth], in
    [unsigned long]. *)
Definition src_table (owidth zwidth : Z) : list Z :=
  (fun x => u32 (Z.of_nat x * u32 owidth) / u32 zwidth) <$> seq 0 (Z.to_nat (u32 zwidth)).

(** The loop over the pixels of a row. *)
Fixpoint zoom_row (todo x : nat) (table : list Z) (bytes src : Z) (sm : mem) (dst : Z) (dm : mem)
    : option mem :=
  match todo with
  | O => Some dm
  | S todo =>
      sx ← table !! x;
      bs ← mem_read sm (src + sx * bytes) bytes;
      dm ← mem_write dm (dst + Z.of_nat x * bytes) bs;
      zoom_row todo (S x) table bytes src sm dst dm
  end.

(** The loop over the rows. *)
Fixpoint zoom_rows (todo y : nat) (table : list Z) (bytes : Z) (o z : T_PixelDatas) (dm : mem)
    : option mem :=
  match todo with
  | O => Some dm
  | S todo =>
      let dwSrcY := u32 (Z.of_nat y * u32 (iHeight o)) / u32 (iHeight z) in
      dm ← zoom_row (length table) 0 table bytes (dwSrcY * iLineBytes o) (aucPixelDatas o)
             (Z.of_nat y * iLineBytes z) dm;
      zoom_rows todo (S y) table bytes o z dm
  end.

(** [malloc_ok] says whether the table could be allocated. *)
Definition PicZoom (malloc_ok : bool) (ptOriginPic ptZoomPic : T_PixelDatas)
    : option (Z * T_PixelDatas) :=
  let dwPixelBytes := u32 (Z.quot (iBpp ptOriginPic) 8) in
  if negb (iBpp ptOriginPic =? iBpp ptZoomPic) then Some (-1, ptZoomPic)
  else if negb malloc_ok then Some (-1, ptZoomPic)
  else
    let table := src_table (iWidth ptOriginPic) (iWidth ptZoomPic) in
    m ← zoom_rows (Z.to_nat (u32 (iHeight ptZoomPic))) 0 table dwPixelBytes
          ptOriginPic ptZoomPic (aucPixelDatas ptZoomPic);
    Some (0, set_pixels m ptZoomPic).

(** * Pictures as functions from coordinates to pixels *)

Definition pixel_bytes (p : T_PixelDatas) : Z := iBpp p / 8.

(** The bytes of the pixel at column [x] of row [y]. *)
Definition pixel (p : T_PixelDatas) (x y : Z) : option mem :=
  mem_read (aucPixelDatas p) (y * iLineBytes p + x * pixel_bytes p) (pixel_bytes p).

(** Whole bytes per pixel, rows that fit their lines, lines that fit the block. *)
Record pic_ok (p : T_PixelDatas) : Prop := {
  po_bpp : iBpp p = 8 * pixel_bytes p /\ 0 < pixel_bytes p < 2 ^ 16;
  po_width : 0 <= iWidth p < 2 ^ 16;
  po_height : 0 <= iHeight p < 2 ^ 16;
  po_line : iWidth p * pixel_bytes p <= iLineBytes p;
  po_total : iHeight p * iLineBytes p <= zlen (aucPixelDatas p)
}.

Definition in_pic (p : T_PixelDatas) (x y : Z) : Prop := 0 <= x < iWidth p /\ 0 <= y < iHeight p.

Lemma quot8 p x : pic_ok p -> 0 <= x -> Z.quot (x * iBpp p) 8 = x * pixel_bytes p.
Proof.
  intros Hp Hx. destruct (po_bpp _ Hp) as [-> ?].
  rewrite Z.quot_div_nonneg by lia.
  replace (x * (8 * pixel_bytes p)) with (x * pixel_bytes p * 8) by lia. by apply Z.div_mul.
Qed.

Lemma pic_line p : pic_ok p -> 0 <= iLineBytes p.
Proof.
  intros Hp. destruct (po_bpp _ Hp) as [_ ?]. pose proof (po_line _ Hp). pose proof (po_width _ Hp).
  nia.
Qed.

(** A pixel lies in its row, and its row in the block. *)
Lemma pixel_offset p x y : pic_ok p -> in_pic p x y ->
  0 <= x * pixel_bytes p /\ x * pixel_bytes p + pixel_bytes p <= iLineBytes p /\
  0 <= y * iLineBytes p /\ y * iLineBytes p + iLineBytes p <= zlen (aucPixelDatas p).
Proof.
  intros Hp [Hx Hy]. destruct (po_bpp _ Hp) as [_ ?]. pose proof (po_line _ Hp).
  pose proof (po_total _ Hp). pose proof (pic_line _ Hp).
  assert ((x + 1) * pixel_bytes p <= iWidth p * pixel_bytes p) by (apply Z.mul_le_mono_nonneg_r; lia).
  assert ((y + 1) * iLineBytes p <= iHeight p * iLineBytes p) by (apply Z.mul_le_mono_nonneg_r; lia).
  split_and!; try lia; nia.
Qed.

Lemma pixel_in p x y : pic_ok p -> in_pic p x y -> is_Some (pixel p x y).
Proof.
  intros Hp Hxy. destruct (po_bpp _ Hp) as [_ ?]. unfold pixel.
  pose proof (pixel_offset p x y Hp Hxy). rewrite mem_read_in by lia. eauto.
Qed.

(** * Copying rows *)

(** The area of row [r]: [n] bytes at [dst + r * dline]. *)
Definition off_rows (rows : nat) (n dst dline off l : Z) : Prop :=
  forall r, (r < rows)%nat ->
  off + l <= dst + Z.of_nat r * dline \/ dst + Z.of_nat r * dline + n <= off.

(** Part of a block that was read. *)
Lemma mem_read_sub m off n bs c l : mem_read m off n = Some bs -> 0 <= c -> 0 <= l -> c + l <= n ->
  mem_read m (off + c) l = mem_read bs c l.
Proof.
  intros Hr Hc Hl Hn. pose proof (mem_read_length _ _ _ _ Hr) as Hlen.
  apply mem_read_Some in Hr as (Ho & _ & Hfit & ->).
  rewrite !mem_read_in by lia. f_equal. rewrite Z2Nat.inj_add by lia.
  apply list_eq. intros i. destruct (decide (i < Z.to_nat l)%nat).
  - rewrite !lookup_take_lt, !lookup_drop, lookup_take_lt, lookup_drop by lia. f_equal. lia.
  - by rewrite !lookup_take_ge by lia.
Qed.

Lemma copy_rows_spec rows n src sline sm : 0 <= n -> 0 <= sline ->
  forall dst dline dm, 0 <= src -> 0 <= dst -> n <= dline ->
  (rows = 0%nat \/ src + (Z.of_nat rows - 1) * sline + n <= zlen sm) ->
  (rows = 0%nat \/ dst + (Z.of_nat rows - 1) * dline + n <= zlen dm) ->
  exists dm', copy_rows rows n src sline sm dst dline dm = Some dm' /\ zlen dm' = zlen dm /\
  (forall r c l, (r < rows)%nat -> 0 <= c -> 0 <= l -> c + l <= n ->
     mem_read dm' (dst + Z.of_nat r * dline + c) l =
     mem_read sm (src + Z.of_nat r * sline + c) l) /\
  (forall off l, off_rows rows n dst dline off l -> mem_read dm' off l = mem_read dm off l).
Proof.
  intros Hn Hsl. revert src.
  induction rows as [|rows IH]; intros src dst dline dm Hs Hd Hdl Hfs Hfd; cbn [copy_rows].
  { exists dm. split_and!; try done. intros; lia. }
  destruct Hfs as [?|Hfs]; [done|]. destruct Hfd as [?|Hfd]; [done|].
  rewrite (mem_read_in sm src n) by nia. cbn [mbind option_bind].
  set (bs := take (Z.to_nat n) (drop (Z.to_nat src) sm)).
  assert (mem_read sm src n = Some bs) as Hrd by (apply mem_read_in; nia).
  pose proof (mem_read_length _ _ _ _ Hrd) as Hbs.
  destruct (mem_write_ok dm dst bs) as (dm1 & -> & [Hl1 Ho1] & Hr1); [done | nia |].
  cbn [mbind option_bind].
  destruct (IH (src + sline) (dst + dline) dline dm1) as (dm' & E & Hl & Hin & Hout);
    [lia | lia | done | destruct rows; [by left | right; lia] |
     destruct rows; [by left | right; lia] |].
  exists dm'. rewrite E. split_and!; [done | lia | |].
  - intros r c l Hr Hc Hl0 Hcl. destruct r as [|r].
    + rewrite !Z.mul_0_l, !Z.add_0_r. rewrite Hout.
      * rewrite Hbs in Hr1. rewrite (mem_read_sub dm1 dst n bs), (mem_read_sub sm src n bs) by done. done.
      * intros r Hr'. left. nia.
    + replace (dst + Z.of_nat (S r) * dline + c) with (dst + dline + Z.of_nat r * dline + c) by lia.
      replace (src + Z.of_nat (S r) * sline + c) with (src + sline + Z.of_nat r * sline + c) by lia.
      apply Hin; lia.
  - intros off l Hoff. rewrite Hout.
    + apply Ho1. specialize (Hoff 0%nat ltac:(lia)). lia.
    + intros r Hr. specialize (Hoff (S r) ltac:(lia)). lia.
Qed.

(** The rectangle at ([ox], [oy]) of width [w] and height [h]. *)
Definition in_rect (ox oy w h x y : Z) : bool :=
  (ox <=? x) && (x <? ox + w) && (oy <=? y) && (y <? oy + h).

(** A pixel outside a rectangle meets none of the rectangle's rows. *)
Lemma rect_off_rows d ox oy w h x y : pic_ok d -> in_pic d x y -> 0 <= w -> ox + w <= iWidth d ->
  0 <= ox -> in_rect ox oy w h x y = false ->
  off_rows (Z.to_nat h) (w * pixel_bytes d) (oy * iLineBytes d + ox * pixel_bytes d)
    (iLineBytes d) (y * iLineBytes d + x * pixel_bytes d) (pixel_bytes d).
Proof.
  intros Hd Hxy Hw Fw Hox Hr0 r Hr. pose proof (pixel_offset d x y Hd Hxy).
  destruct (po_bpp _ Hd) as [_ Hpb]. pose proof (po_line _ Hd). pose proof (pic_line _ Hd).
  destruct Hxy as [Hx Hy]. set (pb := pixel_bytes d) in *.
  assert ((ox + w) * pb <= iWidth d * pb) by (apply Z.mul_le_mono_nonneg_r; lia).
  assert (x < ox \/ ox + w <= x \/ y < oy \/ oy + h <= y) as Hcase
    by (unfold in_rect in Hr0; bool_lia).
  destruct (Z.lt_trichotomy y (oy + Z.of_nat r)) as [Hlt|[Heq|Hgt]].
  - left. assert ((y + 1) * iLineBytes d <= (oy + Z.of_nat r) * iLineBytes d)
      by (apply Z.mul_le_mono_nonneg_r; lia). nia.
  - subst y. destruct Hcase as [Hc|[Hc|[Hc|Hc]]]; [left|right|lia|lia].
    + assert ((x + 1) * pb <= ox * pb) by (apply Z.mul_le_mono_nonneg_r; lia). lia.
    + assert ((ox + w) * pb <= x * pb) by (apply Z.mul_le_mono_nonneg_r; lia). lia.
  - right. assert ((oy + Z.of_nat r + 1) * iLineBytes d <= y * iLineBytes d)
      by (apply Z.mul_le_mono_nonneg_r; lia). nia.
Qed.

(** Copying a rectangle from picture [s] to picture [d]. *)
Lemma copy_region s d nx ny ox oy w h :
  pic_ok s -> pic_ok d -> pixel_bytes s = pixel_bytes d ->
  0 <= nx -> 0 <= ny -> 0 <= ox -> 0 <= oy -> 0 <= w -> 0 <= h ->
  nx + w <= iWidth s -> ny + h <= iHeight s -> ox + w <= iWidth d -> oy + h <= iHeight d ->
  exists m, copy_rows (Z.to_nat h) (w * pixel_bytes s)
              (ny * iLineBytes s + nx * pixel_bytes s) (iLineBytes s) (aucPixelDatas s)
              (oy * iLineBytes d + ox * pixel_bytes d) (iLineBytes d) (aucPixelDatas d) = Some m /\
  zlen m = zlen (aucPixelDatas d) /\
  forall x y, in_pic d x y ->
    pixel (set_pixels m d) x y =
    (if in_rect ox oy w h x y then pixel s (x - ox + nx) (y - oy + ny) else pixel d x y).
Proof.
  intros Hs Hd Eb Hnx Hny Hox Hoy Hw Hh Fsw Fsh Fdw Fdh.
  destruct (po_bpp _ Hs) as [_ Hpb]. pose proof (pic_line _ Hs). pose proof (pic_line _ Hd).
  pose proof (po_line _ Hs). pose proof (po_line _ Hd).
  pose proof (po_total _ Hs). pose proof (po_total _ Hd). rewrite <- Eb in *.
  set (pb := pixel_bytes s) in *.
  assert ((nx + w) * pb <= iWidth s * pb) by (apply Z.mul_le_mono_nonneg_r; lia).
  assert ((ox + w) * pb <= iWidth d * pb) by (apply Z.mul_le_mono_nonneg_r; lia).
  assert ((ny + h) * iLineBytes s <= iHeight s * iLineBytes s) by (apply Z.mul_le_mono_nonneg_r; lia).
  assert ((oy + h) * iLineBytes d <= iHeight d * iLineBytes d) by (apply Z.mul_le_mono_nonneg_r; lia).
  destruct (copy_rows_spec (Z.to_nat h) (w * pb) (ny * iLineBytes s + nx * pb) (iLineBytes s)
              (aucPixelDatas s)) with (dst := oy * iLineBytes d + ox * pb) (dline := iLineBytes d)
              (dm := aucPixelDatas d) as (m & E & Hl & Hin & Hout);
    [nia | nia | nia | nia | nia | | |].
  { destruct (decide (h = 0)) as [->|]; [by left|right]. rewrite Z2Nat.id by lia. lia. }
  { destruct (decide (h = 0)) as [->|]; [by left|right]. rewrite Z2Nat.id by lia. lia. }
  exists m. split; [done|]. split; [done|]. intros x y Hxy. unfold pixel. cbn.
  change (pixel_bytes (set_pixels m d)) with (pixel_bytes d). rewrite <- Eb. fold pb.
  assert (Hoff := pixel_offset d x y Hd Hxy). rewrite <- Eb in Hoff. fold pb in Hoff.
  unfold in_rect. case_if; bool_props.
  - specialize (Hin (Z.to_nat (y - oy)) ((x - ox) * pb) pb ltac:(lia) ltac:(nia) ltac:(lia)).
    rewrite Z2Nat.id in Hin by lia.
    replace (y * iLineBytes d + x * pb)
      with (oy * iLineBytes d + ox * pb + (y - oy) * iLineBytes d + (x - ox) * pb) by lia.
    rewrite Hin by nia. f_equal. lia.
  - apply Hout. rewrite Eb. apply rect_off_rows; try done; unfold in_rect; bool_lia.
Qed.

(** * Zooming, pixel by pixel *)

(** What nearest-neighbour sampling reads. *)
Definition nearest (x osize zsize : Z) : Z := x * osize / zsize.

Lemma nearest_range x osize zsize : 0 <= x < zsize -> 0 < osize -> 0 <= nearest x osize zsize < osize.
Proof.
  intros. unfold nearest. split; [apply Z.div_pos; nia|]. apply Z.div_lt_upper_bound; nia.
Qed.

Lemma src_table_lookup ow zw x : 0 <= ow < 2 ^ 16 -> 0 <= zw < 2 ^ 16 -> (x < Z.to_nat zw)%nat ->
  src_table ow zw !! x = Some (nearest (Z.of_nat x) ow zw).
Proof.
  intros Ho Hz Hx. unfold src_table, nearest.
  rewrite (u32_small ow), (u32_small zw) by (split; lia).
  rewrite list_lookup_fmap, lookup_seq_lt by done. cbn. do 2 f_equal.
  apply u32_small. split; nia.
Qed.

Lemma src_table_length ow zw : 0 <= zw < 2 ^ 16 -> length (src_table ow zw) = Z.to_nat zw.
Proof. intros. unfold src_table. by rewrite length_fmap, length_seq, u32_small by (split; lia). Qed.

Lemma zoom_row_spec table bytes src sm : 0 < bytes -> forall todo x dst dm,
  (x + todo = length table)%nat -> 0 <= dst ->
  (forall k sx, table !! k = Some sx -> 0 <= src + sx * bytes /\ src + sx * bytes + bytes <= zlen sm) ->
  dst + zlen table * bytes <= zlen dm ->
  exists dm', zoom_row todo x table bytes src sm dst dm = Some dm' /\ zlen dm' = zlen dm /\
  (forall k sx, (x <= k)%nat -> table !! k = Some sx ->
     mem_read dm' (dst + Z.of_nat k * bytes) bytes = mem_read sm (src + sx * bytes) bytes) /\
  (forall off l, off + l <= dst + Z.of_nat x * bytes \/ dst + zlen table * bytes <= off ->
     mem_read dm' off l = mem_read dm off l).
Proof.
  intros Hb. induction todo as [|todo IH]; intros x dst dm Hx Hd Ht Hfit; cbn [zoom_row].
  { exists dm. split_and!; try done. intros k sx Hk Hl. apply lookup_lt_Some in Hl. lia. }
  assert (is_Some (table !! x)) as [sx Esx] by (apply lookup_lt_is_Some_2; lia).
  rewrite Esx. cbn [mbind option_bind]. destruct (Ht x sx Esx) as [H1 H2].
  set (bs := take (Z.to_nat bytes) (drop (Z.to_nat (src + sx * bytes)) sm)).
  assert (mem_read sm (src + sx * bytes) bytes = Some bs) as Hrd by (apply mem_read_in; lia).
  rewrite Hrd. cbn [mbind option_bind]. pose proof (mem_read_length _ _ _ _ Hrd) as Hl.
  assert (Hxb : (Z.of_nat x + 1) * bytes <= zlen table * bytes)
    by (apply Z.mul_le_mono_nonneg_r; unfold zlen; lia).
  destruct (mem_write_ok dm (dst + Z.of_nat x * bytes) bs) as (dm1 & -> & [L1 O1] & R1); [nia|nia|].
  cbn [mbind option_bind].
  destruct (IH (S x) dst dm1) as (dm' & -> & L & Hin & Hout); [lia | done | done | lia |].
  exists dm'. split_and!; [done | lia | |].
  - intros k sx' Hk Hlk. destruct (decide (k = x)) as [->|Hne].
    + rewrite Esx in Hlk. injection Hlk as <-. rewrite Hout by (left; lia).
      rewrite Hl in R1. by rewrite R1, Hrd.
    + apply Hin; [lia | done].
  - intros off l Hoff. rewrite Hout by lia. apply O1. rewrite Hl. lia.
Qed.

Lemma zoom_rows_spec o z : pic_ok o -> pic_ok z -> pixel_bytes o = pixel_bytes z ->
  0 < iWidth o -> 0 < iHeight o ->
  let table := src_table (iWidth o) (iWidth z) in
  forall todo y dm, Z.of_nat y + Z.of_nat todo = iHeight z -> zlen dm = zlen (aucPixelDatas z) ->
  exists dm', zoom_rows todo y table (pixel_bytes o) o z dm = Some dm' /\ zlen dm' = zlen dm /\
  (forall x y', 0 <= x < iWidth z -> Z.of_nat y <= y' < iHeight z ->
     mem_read dm' (y' * iLineBytes z + x * pixel_bytes z) (pixel_bytes z) =
     pixel o (nearest x (iWidth o) (iWidth z)) (nearest y' (iHeight o) (iHeight z))) /\
  (forall off l, off + l <= Z.of_nat y * iLineBytes z -> mem_read dm' off l = mem_read dm off l).
Proof.
  intros Ho Hz Eb How Hoh table. pose proof (po_width _ Ho) as Wo. pose proof (po_height _ Ho) as Ho'.
  pose proof (po_width _ Hz) as Wz. pose proof (po_height _ Hz) as Hz'.
  destruct (po_bpp _ Ho) as [_ Hpb]. pose proof (pic_line _ Hz) as Lz.
  pose proof (po_line _ Hz) as Llz. pose proof (po_total _ Hz) as Tz.
  assert (zlen table = iWidth z) as Htl by (unfold zlen, table; rewrite src_table_length by done; lia).
  induction todo as [|todo IH]; intros y dm Hy Hdm; cbn [zoom_rows].
  { exists dm. split_and!; try done. intros; lia. }
  assert (u32 (Z.of_nat y * u32 (iHeight o)) / u32 (iHeight z) =
          nearest (Z.of_nat y) (iHeight o) (iHeight z)) as Ey.
  { rewrite (u32_small (iHeight o)), (u32_small (iHeight z)) by (split; lia).
    unfold nearest. f_equal. apply u32_small. split; nia. }
  rewrite Ey. set (sy := nearest (Z.of_nat y) (iHeight o) (iHeight z)).
  assert (0 <= sy < iHeight o) as Hsy by (apply nearest_range; lia).
  assert (Hrow : (Z.of_nat y + 1) * iLineBytes z <= iHeight z * iLineBytes z)
    by (apply Z.mul_le_mono_nonneg_r; lia).
  destruct (zoom_row_spec table (pixel_bytes o) (sy * iLineBytes o) (aucPixelDatas o)) with
    (todo := length table) (x := 0%nat) (dst := Z.of_nat y * iLineBytes z) (dm := dm)
    as (dm1 & -> & L1 & Hin1 & Hout1); [lia | lia | nia | | rewrite Htl, Eb; lia |].
  { intros k sx Hk. assert (k < Z.to_nat (iWidth z))%nat as Hkl
      by (apply lookup_lt_Some in Hk; unfold zlen in Htl; lia).
    unfold table in Hk. rewrite src_table_lookup in Hk by done. injection Hk as <-.
    assert (in_pic o (nearest (Z.of_nat k) (iWidth o) (iWidth z)) sy) as Hi
      by (split; [apply nearest_range; lia | done]).
    pose proof (pixel_offset o _ _ Ho Hi). lia. }
  cbn [mbind option_bind].
  destruct (IH (S y) dm1) as (dm' & -> & L & Hin & Hout); [lia | lia |].
  exists dm'. split_and!; [done | lia | |].
  - intros x y' Hx Hy'. destruct (decide (y' = Z.of_nat y)) as [->|Hne]; [|apply Hin; lia].
    assert ((x + 1) * pixel_bytes z <= iWidth z * pixel_bytes z) by (apply Z.mul_le_mono_nonneg_r; lia).
    rewrite Hout by lia.
    specialize (Hin1 (Z.to_nat x) (nearest x (iWidth o) (iWidth z)) ltac:(lia)).
    rewrite Z2Nat.id, Eb in Hin1 by lia. rewrite Hin1; [unfold pixel; by rewrite Eb|].
    unfold table. rewrite src_table_lookup by lia. by rewrite Z2Nat.id by lia.
  - intros off l Hoff. rewrite Hout by lia. apply Hout1. left. lia.
Qed.

(** * Properties *)

(** C31. Merging a region: when the rectangle lies in both pictures, which have
    the same depth, the pixels of the old picture inside the rectangle become the
    ones of the new picture and all others stay; nothing outside is touched. *)
Theorem merge_region_spec nx ny ox oy w h new old :
  pic_ok new -> pic_ok old -> iBpp new = iBpp old ->
  in_pic new nx ny -> in_pic old ox oy -> 0 <= w -> 0 <= h ->
  nx + w <= iWidth new -> ny + h <= iHeight new -> ox + w <= iWidth old -> oy + h <= iHeight old ->
  exists m, PicMergeRegion nx ny ox oy w h new old = Some (0, set_pixels m old) /\
  zlen m = zlen (aucPixelDatas old) /\
  forall x y, in_pic old x y ->
    pixel (set_pixels m old) x y =
    (if in_rect ox oy w h x y then pixel new (x - ox + nx) (y - oy + ny) else pixel old x y).
Proof.
  intros Hn Ho Eb [Hnx Hny] [Hox Hoy] Hw Hh F1 F2 F3 F4.
  unfold PicMergeRegion. rewrite !quot8 by (done || lia).
  destruct (_ || _) eqn:E; [bool_lia|]. clear E.
  destruct (copy_region new old nx ny ox oy w h) as (m & -> & Hl & Hp); try lia; try done.
  { unfold pixel_bytes. by rewrite Eb. }
  exists m. cbn. done.
Qed.

(** Two pictures of 8 bits per pixel: 4 x 3 and 2 x 2. *)
Definition sample_old : T_PixelDatas := mk_pic 4 3 8 4 12 [0; 1; 2; 3; 4; 5; 6; 7; 8; 9; 10; 11].
Definition sample_new : T_PixelDatas := mk_pic 2 2 8 2 4 [50; 51; 52; 53].

Lemma sample_old_ok : pic_ok sample_old.
Proof. split; vm_compute; repeat split; discriminate. Qed.
Lemma sample_new_ok : pic_ok sample_new.
Proof. split; vm_compute; repeat split; discriminate. Qed.

Lemma merge_region_spec_witness :
  exists m, PicMergeRegion 0 0 1 1 2 2 sample_new sample_old = Some (0, set_pixels m sample_old) /\
  zlen m = 12 /\
  forall x y, in_pic sample_old x y ->
    pixel (set_pixels m sample_old) x y =
    (if in_rect 1 1 2 2 x y then pixel sample_new (x - 1 + 0) (y - 1 + 0) else pixel sample_old x y).
Proof.
  apply (merge_region_spec 0 0 1 1 2 2 sample_new sample_old sample_new_ok sample_old_ok);
    unfold in_pic; cbn; try reflexivity; lia.
Defined.

(** Merging a whole picture with no padding at its lines: a picture that is
    larger or of another depth is refused; one placed inside the big picture is
    copied there pixel by pixel and nothing else changes. *)
Theorem merge_spec iX iY small big :
  pic_ok small -> pic_ok big -> iLineBytes small = iWidth small * pixel_bytes small ->
  0 <= iX -> 0 <= iY ->
  (iWidth small > iWidth big \/ iHeight small > iHeight big \/ iBpp small <> iBpp big ->
   PicMerge iX iY small big = Some (-1, big)) /\
  (iBpp small = iBpp big -> iX + iWidth small <= iWidth big -> iY + iHeight small <= iHeight big ->
   exists m, PicMerge iX iY small big = Some (0, set_pixels m big) /\
   zlen m = zlen (aucPixelDatas big) /\
   forall x y, in_pic big x y ->
     pixel (set_pixels m big) x y =
     (if in_rect iX iY (iWidth small) (iHeight small) x y then pixel small (x - iX) (y - iY)
      else pixel big x y)).
Proof.
  intros Hs Hb Hline Hx Hy. pose proof (po_width _ Hs). pose proof (po_height _ Hs).
  unfold PicMerge. split.
  - intros Hbad. destruct (_ || _) eqn:E; [done|]. bool_lia.
  - intros Eb Fw Fh. destruct (_ || _) eqn:E; [bool_lia|]. clear E.
    rewrite !quot8 by done.
    destruct (copy_region small big 0 0 iX iY (iWidth small) (iHeight small)) as (m & E & Hl & Hp);
      try lia; try done.
    { unfold pixel_bytes. by rewrite Eb. }
    rewrite !Z.mul_0_l, !Z.add_0_r, <- Hline in E. rewrite E. exists m. cbn. split; [done|].
    split; [done|]. intros x y Hxy. rewrite (Hp x y Hxy). by rewrite !Z.add_0_r.
Qed.

Lemma merge_spec_witness :
  exists m, PicMerge 2 1 sample_new sample_old = Some (0, set_pixels m sample_old) /\
  zlen m = 12 /\
  forall x y, in_pic sample_old x y ->
    pixel (set_pixels m sample_old) x y =
    (if in_rect 2 1 2 2 x y then pixel sample_new (x - 2) (y - 1) else pixel sample_old x y).
Proof.
  apply (proj2 (merge_spec 2 1 sample_new sample_old sample_new_ok sample_old_ok eq_refl
                  ltac:(lia) ltac:(lia))); cbn; try reflexivity; lia.
Defined.

(** The position is not checked: a small picture placed to the right of the
    last column is written into the next rows, and past the end of the block
    when it is placed below the last row, which is outside the picture. *)
Theorem merge_overrun small big iX :
  pic_ok small -> pic_ok big -> iBpp small = iBpp big ->
  iLineBytes small = iWidth small * pixel_bytes small ->
  0 < iWidth small <= iWidth big -> 0 < iHeight small <= iHeight big -> 0 <= iX ->
  zlen (aucPixelDatas big) = iHeight big * iLineBytes big ->
  PicMerge iX (iHeight big) small big = None.
Proof.
  intros Hs Hb Eb Hline Hw Hh Hx Hlen. unfold PicMerge.
  destruct (_ || _) eqn:E; [bool_lia|]. clear E. rewrite quot8 by done.
  destruct (po_bpp _ Hs) as [_ Hpb]. destruct (po_bpp _ Hb) as [_ Hpb'].
  apply bind_None. left.
  destruct (Z.to_nat (iHeight small)) eqn:En; [lia|]. cbn [copy_rows].
  destruct (mem_read _ _ _) as [bs|] eqn:Er; [|done]. apply mem_read_length in Er.
  cbn [mbind option_bind]. unfold mem_write.
  destruct (in_block _ _ _) eqn:Ei; [|done]. apply in_block_spec in Ei. exfalso.
  assert (0 < zlen bs) by nia. assert (0 <= iX * pixel_bytes big) by nia. lia.
Qed.

Lemma merge_overrun_witness : PicMerge 1 3 sample_new sample_old = None.
Proof.
  apply (merge_overrun sample_new sample_old 1 sample_new_ok sample_old_ok);
    cbn; try reflexivity; lia.
Defined.

(** Zooming is nearest-neighbour sampling: with the table allocated and equal
    depths, every pixel of the result is the pixel of the original at the scaled
    coordinates, which lie inside it; a different depth or a failed allocation
    is an error that leaves the result alone. *)
Theorem zoom_spec malloc_ok o z : pic_ok o -> pic_ok z -> 0 < iWidth o -> 0 < iHeight o ->
  if (iBpp o =? iBpp z) && malloc_ok then
    exists m, PicZoom malloc_ok o z = Some (0, set_pixels m z) /\
    zlen m = zlen (aucPixelDatas z) /\
    forall x y, in_pic z x y ->
      in_pic o (nearest x (iWidth o) (iWidth z)) (nearest y (iHeight o) (iHeight z)) /\
      pixel (set_pixels m z) x y =
      pixel o (nearest x (iWidth o) (iWidth z)) (nearest y (iHeight o) (iHeight z))
  else PicZoom malloc_ok o z = Some (-1, z).
Proof.
  intros Ho Hz How Hoh. unfold PicZoom. destruct (Z.eqb_spec (iBpp o) (iBpp z)) as [Eb|]; [|done].
  destruct malloc_ok; [|done]. cbn [andb negb].
  pose proof (po_height _ Hz) as Hz'. destruct (po_bpp _ Ho) as [Hbp Hpb].
  rewrite (u32_small (iHeight z)) by (split; lia).
  assert (u32 (Z.quot (iBpp o) 8) = pixel_bytes o) as ->.
  { rewrite Hbp, Z.mul_comm, Z.quot_mul by done. apply u32_small. split; lia. }
  destruct (zoom_rows_spec o z Ho Hz) with (todo := Z.to_nat (iHeight z)) (y := 0%nat)
    (dm := aucPixelDatas z) as (m & -> & Hl & Hp & _); try done; try lia.
  { unfold pixel_bytes. by rewrite Eb. }
  exists m. cbn [mbind option_bind]. split; [done|]. split; [done|]. intros x y [Hx Hy].
  split; [split; by apply nearest_range|]. apply Hp; lia.
Qed.

Lemma zoom_spec_witness :
  exists m, PicZoom true sample_new sample_old = Some (0, set_pixels m sample_old) /\
  zlen m = 12 /\
  forall x y, in_pic sample_old x y ->
    in_pic sample_new (nearest x 2 4) (nearest y 2 3) /\
    pixel (set_pixels m sample_old) x y = pixel sample_new (nearest x 2 4) (nearest y 2 3).
Proof.
  apply (zoom_spec true sample_new sample_old sample_new_ok sample_old_ok); cbn; lia.
Defined.
