(* ===== verification/Disp.v ===== *)
(** The display side of the video2lcd program ([src/video2lcd/1_th/display]): the
    framebuffer device ([fb.c]) and the display manager with its page caches
    ([disp_manager.c]).

    The framebuffer is a block of bytes; the kernel's answers to [open], [ioctl]
    and [mmap] are arguments. Display modules and page caches are linked lists
    in the code and lists here; a pointer to an entry is its position. *)
From S2P Require Import Prelude V4l2 PicOps.
Open Scope Z_scope.

(** * Colours *)

(** 0x00RRGGBB as 5-6-5 bits. *)
Definition rgb565 (dwColor : Z) : Z :=
  let iRed := Z.land (Z.shiftr dwColor (16 + 3)) 0x1f in
  let iGreen := Z.land (Z.shiftr dwColor (8 + 2)) 0x3f in
  let iBlue := Z.land (Z.shiftr dwColor 3) 0x1f in
  u16 (Z.lor (Z.lor (Z.shiftl iRed 11) (Z.shiftl iGreen 5)) iBlue).

(** The bytes of a [unsigned short] and an [unsigned int] in memory. *)
Definition bytes16 (w : Z) : mem := [u8 w; u8 (Z.shiftr w 8)].
Definition bytes32 (w : Z) : mem :=
  [u8 w; u8 (Z.shiftr w 8); u8 (Z.shiftr w 16); u8 (Z.shiftr w 24)].

(** * Filling memory *)

(** [while (i < total) { *p = v; p++; i += sizeof *p; }], with [p] at [off] and
    [i] an [int], whose overflow is undefined. Each round adds at least one to
    [i], so the loop ends after at most [total] rounds. *)
Fixpoint fill_loop (fuel : nat) (i total : Z) (v : mem) (off : Z) (m : mem) : option mem :=
  match fuel with
  | O => None
  | S fuel =>
      if i <? total then
        m ← mem_write m off v;
        if 2 ^ 31 - 1 <? i + zlen v then None else
        fill_loop fuel (i + zlen v) total v (off + zlen v) m
      else Some m
  end.

Definition fill_while (total : Z) (v : mem) (off : Z) (m : mem) : option mem :=
  fill_loop (S (Z.to_nat total)) 0 total v off m.

(** [for (iX = ...; ...) p[i++] = v], [todo] times. *)
Fixpoint fill_row (todo : nat) (v : mem) (off : Z) (m : mem) : option mem :=
  match todo with
  | O => Some m
  | S todo => m ← mem_write m off v; fill_row todo v (off + zlen v) m
  end.

(** [memset]: the size is converted to unsigned, so a negative one is not inside
    any block. *)
Definition mem_set (c n off : Z) (m : mem) : option mem :=
  if n <? 0 then None else mem_write m off (memset_bytes c n).

(** * The framebuffer *)

(** The static variables of [fb.c]. *)
Record fb_dev := mk_fb {
  fb_xres : Z;
  fb_yres : Z;
  fb_bits_per_pixel : Z;
  g_dwScreenSize : Z;
  g_dwLineWidth : Z;
  g_dwPixelWidth : Z;
  g_pucFBMem : mem
}.

Definition set_fb_mem (m : mem) (fb : fb_dev) : fb_dev :=
  mk_fb (fb_xres fb) (fb_yres fb) (fb_bits_per_pixel fb) (g_dwScreenSize fb)
    (g_dwLineWidth fb) (g_dwPixelWidth fb) m.

(** A display module. [FBOps] is the one table of function pointers the program
    has; [pucDispMem] says whether the pointer was set, to [g_pucFBMem]. *)
Inductive disp_ops := FBOps.

Record T_DispOpr := mk_opr {
  opr_name : string;
  opr_xres : Z;
  opr_yres : Z;
  opr_bpp : Z;
  opr_iLineWidth : Z;
  opr_pucDispMem : bool;
  opr_ops : disp_ops
}.

(** The static initialiser of [g_tFBOpr]. *)
Definition g_tFBOpr : T_DispOpr := mk_opr "fb" 0 0 0 0 false FBOps.

(** What the kernel answers: the two [ioctl] results, the resolution the first
    reports, and the block [mmap] gives. A failed [open] is not returned by the
    code; its [ioctl]s then fail. *)
Record fb_env := mk_env {
  env_var_ret : Z;
  env_xres : Z;
  env_yres : Z;
  env_bpp : Z;
  env_fix_ret : Z;
  env_mmap : Z -> option mem
}.

(** The result, the static variables and [g_tFBOpr]. The test [0 > g_pucFBMem]
    is false of every pointer, so a failed [mmap] goes on with a pointer to no
    memory: the empty block, on which every access faults. *)
Definition FBDeviceInit (e : fb_env) (fb : fb_dev) (o : T_DispOpr) : Z * fb_dev * T_DispOpr :=
  if env_var_ret e <? 0 then (-1, fb, o)
  else
    let xres := env_xres e in
    let yres := env_yres e in
    let bpp := env_bpp e in
    if env_fix_ret e <? 0 then
      (-1, mk_fb xres yres bpp (g_dwScreenSize fb) (g_dwLineWidth fb) (g_dwPixelWidth fb)
             (g_pucFBMem fb), o)
    else
      let size := u32 (u32 (xres * yres) * bpp) / 8 in
      let line := u32 (xres * bpp) / 8 in
      (0, mk_fb xres yres bpp size line (bpp / 8) (default [] (env_mmap e size)),
       mk_opr (opr_name o) (s32 xres) (s32 yres) (s32 bpp) line true (opr_ops o)).

(** [iX >= xres] compares as unsigned. *)
Definition FBShowPixel (iX iY dwColor : Z) (fb : fb_dev) : option (Z * fb_dev) :=
  if (u32 iX >=? fb_xres fb) || (u32 iY >=? fb_yres fb) then Some (-1, fb)
  else
    let off := u32 (g_dwLineWidth fb * iY) + u32 (g_dwPixelWidth fb * iX) in
    let bpp := fb_bits_per_pixel fb in
    if bpp =? 8 then
      m ← mem_write (g_pucFBMem fb) off [u8 dwColor]; Some (0, set_fb_mem m fb)
    else if bpp =? 16 then
      m ← mem_write (g_pucFBMem fb) off (bytes16 (rgb565 dwColor)); Some (0, set_fb_mem m fb)
    else if bpp =? 32 then
      m ← mem_write (g_pucFBMem fb) off (bytes32 dwColor); Some (0, set_fb_mem m fb)
    else Some (-1, fb).

Definition FBCleanScreen (dwBackColor : Z) (fb : fb_dev) : option (Z * fb_dev) :=
  let bpp := fb_bits_per_pixel fb in
  let size := g_dwScreenSize fb in
  if bpp =? 8 then
    m ← mem_set dwBackColor size 0 (g_pucFBMem fb); Some (0, set_fb_mem m fb)
  else if bpp =? 16 then
    m ← fill_while size (bytes16 (rgb565 dwBackColor)) 0 (g_pucFBMem fb);
    Some (0, set_fb_mem m fb)
  else if bpp =? 32 then
    m ← fill_while size (bytes32 dwBackColor) 0 (g_pucFBMem fb); Some (0, set_fb_mem m fb)
  else Some (-1, fb).

(** * Pages *)

Inductive E_VideoMemState := VMS_FREE | VMS_USED_FOR_PREPARE | VMS_USED_FOR_CUR.
Inductive E_PicState := PS_BLANK | PS_GENERATING | PS_GENERATED.

#[export] Instance vms_eq_dec : EqDecision E_VideoMemState.
Proof. solve_decision. Defined.
#[export] Instance ps_eq_dec : EqDecision E_PicState.
Proof. solve_decision. Defined.

(** A page; the pixels of the page that stands for the device are the
    framebuffer, so its own block is empty. *)
Record T_VideoMem := mk_vm {
  iID : Z;
  bDevFrameBuffer : bool;
  eVideoMemState : E_VideoMemState;
  ePicState : E_PicState;
  tPixelDatas : T_PixelDatas
}.

Record T_Layout := mk_layout {
  iTopLeftX : Z;
  iTopLeftY : Z;
  iBotRightX : Z;
  iBotRightY : Z;
  strIconName : string
}.

(** [memcpy] of a whole page to the framebuffer; the page that stands for the
    device is the framebuffer itself, and overlapping blocks are undefined. *)
Definition FBShowPage (v : T_VideoMem) (fb : fb_dev) : option (Z * fb_dev) :=
  if bDevFrameBuffer v then None
  else
    data ← mem_read (aucPixelDatas (tPixelDatas v)) 0 (iTotalBytes (tPixelDatas v));
    m ← mem_write (g_pucFBMem fb) 0 data;
    Some (0, set_fb_mem m fb).

Definition ClearVideoMem (dwColor : Z) (p : T_PixelDatas) : option T_PixelDatas :=
  let m := aucPixelDatas p in
  if iBpp p =? 8 then m ← mem_set dwColor (iTotalBytes p) 0 m; Some (set_pixels m p)
  else if iBpp p =? 16 then
    m ← fill_while (iTotalBytes p) (bytes16 (rgb565 dwColor)) 0 m; Some (set_pixels m p)
  else if iBpp p =? 32 then
    m ← fill_while (iTotalBytes p) (bytes32 dwColor) 0 m; Some (set_pixels m p)
  else Some p.

(** [for (iY = ...; ...) { clear the row; p += iLineBytes; }] *)
Fixpoint clear_rows (rows : nat) (row : Z -> mem -> option mem) (off line : Z) (m : mem)
    : option mem :=
  match rows with
  | O => Some m
  | S rows => m ← row off m; clear_rows rows row (off + line) line m
  end.

Definition ClearVideoMemRegion (l : T_Layout) (dwColor : Z) (p : T_PixelDatas)
    : option T_PixelDatas :=
  let off := iTopLeftY l * iLineBytes p + Z.quot (iTopLeftX l * iBpp p) 8 in
  let iLineBytesClear := Z.quot ((iBotRightX l - iTopLeftX l + 1) * iBpp p) 8 in
  let rows := Z.to_nat (iBotRightY l - iTopLeftY l + 1) in
  let cols := Z.to_nat (iBotRightX l - iTopLeftX l + 1) in
  let m := aucPixelDatas p in
  if iBpp p =? 8 then
    m ← clear_rows rows (mem_set dwColor iLineBytesClear) off (iLineBytes p) m; Some (set_pixels m p)
  else if iBpp p =? 16 then
    m ← clear_rows rows (fill_row cols (bytes16 (rgb565 dwColor))) off (iLineBytes p) m;
    Some (set_pixels m p)
  else if iBpp p =? 32 then
    m ← clear_rows rows (fill_row cols (bytes32 dwColor)) off (iLineBytes p) m;
    Some (set_pixels m p)
  else Some p.

(** * The manager *)

(** The static variables of [disp_manager.c], with those of the device. *)
Record disp := mk_disp {
  g_ptDispOprHead : list T_DispOpr;
  g_ptDefaultDispOpr : option nat;
  g_ptVideoMemHead : list T_VideoMem;
  disp_fb : fb_dev
}.

Definition set_vms (l : list T_VideoMem) (d : disp) : disp :=
  mk_disp (g_ptDispOprHead d) (g_ptDefaultDispOpr d) l (disp_fb d).

Definition set_fb (fb : fb_dev) (d : disp) : disp :=
  mk_disp (g_ptDispOprHead d) (g_ptDefaultDispOpr d) (g_ptVideoMemHead d) fb.

(** The pixels behind a page's [aucPixelDatas], and storing through it: the
    device's page points into the framebuffer. *)
Definition page_pixels (d : disp) (v : T_VideoMem) : T_PixelDatas :=
  if bDevFrameBuffer v then set_pixels (g_pucFBMem (disp_fb d)) (tPixelDatas v)
  else tPixelDatas v.

Definition store_page (k : nat) (p : T_PixelDatas) (d : disp) : option disp :=
  v ← g_ptVideoMemHead d !! k;
  if bDevFrameBuffer v then Some (set_fb (set_fb_mem (aucPixelDatas p) (disp_fb d)) d)
  else
    let v := mk_vm (iID v) (bDevFrameBuffer v) (eVideoMemState v) (ePicState v) p in
    Some (set_vms (<[k := v]> (g_ptVideoMemHead d)) d).

(** The new module, not yet in the list, goes to its end. *)
Definition RegisterDispOpr (o : T_DispOpr) (d : disp) : Z * disp :=
  (0, mk_disp (g_ptDispOprHead d ++ [o]) (g_ptDefaultDispOpr d) (g_ptVideoMemHead d)
        (disp_fb d)).

Definition FBInit (d : disp) : Z * disp := RegisterDispOpr g_tFBOpr d.

Definition DisplayInit (d : disp) : Z * disp := FBInit d.

Fixpoint find_opr (l : list T_DispOpr) (pcName : string) (i : nat) : option nat :=
  match l with
  | [] => None
  | o :: l => if bool_decide (opr_name o = pcName) then Some i else find_opr l pcName (S i)
  end.

Definition GetDispOpr (pcName : string) (d : disp) : option nat :=
  find_opr (g_ptDispOprHead d) pcName 0.

(** The results of [DeviceInit] and [CleanScreen] are ignored. *)
Definition SelectAndInitDefaultDispDev (e : fb_env) (name : string) (d : disp) : option disp :=
  match GetDispOpr name d with
  | None => Some (mk_disp (g_ptDispOprHead d) None (g_ptVideoMemHead d) (disp_fb d))
  | Some i =>
      o ← g_ptDispOprHead d !! i;
      match opr_ops o with
      | FBOps =>
          let '(_, fb, o) := FBDeviceInit e (disp_fb d) o in
          '(_, fb) ← FBCleanScreen 0 fb;
          Some (mk_disp (<[i := o]> (g_ptDispOprHead d)) (Some i) (g_ptVideoMemHead d) fb)
      end
  end.

Definition GetDefaultDispDev (d : disp) : option nat := g_ptDefaultDispOpr d.

(** The result and the values written, if any. *)
Definition GetDispResolution (d : disp) : option (Z * option (Z * Z * Z)) :=
  match g_ptDefaultDispOpr d with
  | Some i => o ← g_ptDispOprHead d !! i; Some (0, Some (opr_xres o, opr_yres o, opr_bpp o))
  | None => Some (-1, None)
  end.

Definition new_page (xres yres bpp line size : Z) (dev : bool) (st : E_VideoMemState) (m : mem)
    : T_VideoMem :=
  mk_vm 0 dev st PS_BLANK (mk_pic xres yres bpp line size m).

(** The loop that adds the caches; [malloc] gives the block behind each of them. *)
Fixpoint alloc_pages (todo i : nat) (malloc : nat -> option mem) (xres yres bpp line size : Z)
    (l : list T_VideoMem) : Z * list T_VideoMem :=
  match todo with
  | O => (0, l)
  | S todo =>
      match malloc i with
      | None => (-1, l)
      | Some m => alloc_pages todo (S i) malloc xres yres bpp line size
                    (new_page xres yres bpp line size false VMS_FREE m :: l)
      end
  end.

(** [first] says whether the structure of the device's own page could be
    allocated. Its pixels are read through [g_ptDefaultDispOpr]. *)
Definition AllocVideoMem (iNum : Z) (first : bool) (malloc : nat -> option mem) (d : disp)
    : option (Z * disp) :=
  '(_, res) ← GetDispResolution d;
  let '(iXres, iYres, iBpp) := default (0, 0, 0) res in
  let iVMSize := Z.quot (iXres * iYres * iBpp) 8 in
  let iLineBytes := Z.quot (iXres * iBpp) 8 in
  if negb first then Some (-1, d)
  else
    _ ← g_ptDefaultDispOpr d;
    let st := if negb (iNum =? 0) then VMS_USED_FOR_CUR else VMS_FREE in
    let dev := new_page iXres iYres iBpp iLineBytes iVMSize true st [] in
    let '(ret, l) := alloc_pages (Z.to_nat iNum) 0 malloc iXres iYres iBpp iLineBytes iVMSize
                       (dev :: g_ptVideoMemHead d) in
    Some (ret, set_vms l d).

(** A search loop that updates the entry it stops at. *)
Fixpoint find_update (p : T_VideoMem -> bool) (f : T_VideoMem -> T_VideoMem) (i : nat)
    (l : list T_VideoMem) : option (nat * list T_VideoMem) :=
  match l with
  | [] => None
  | v :: l =>
      if p v then Some (i, f v :: l)
      else '(k, l) ← find_update p f (S i) l; Some (k, v :: l)
  end.

Definition vm_free (v : T_VideoMem) : bool := bool_decide (eVideoMemState v = VMS_FREE).

(** The page taken, [None] for NULL. The last resort dereferences the head of
    the list. *)
Definition GetVideoMem (id : Z) (bCur : bool) (d : disp) : option (option nat * disp) :=
  let used := if bCur then VMS_USED_FOR_CUR else VMS_USED_FOR_PREPARE in
  let l := g_ptVideoMemHead d in
  match find_update (fun v => vm_free v && (iID v =? id))
          (fun v => mk_vm (iID v) (bDevFrameBuffer v) used (ePicState v) (tPixelDatas v)) 0 l with
  | Some (k, l) => Some (Some k, set_vms l d)
  | None =>
  match find_update (fun v => vm_free v && bool_decide (ePicState v = PS_BLANK))
          (fun v => mk_vm id (bDevFrameBuffer v) used (ePicState v) (tPixelDatas v)) 0 l with
  | Some (k, l) => Some (Some k, set_vms l d)
  | None =>
  match find_update vm_free
          (fun v => mk_vm id (bDevFrameBuffer v) used PS_BLANK (tPixelDatas v)) 0 l with
  | Some (k, l) => Some (Some k, set_vms l d)
  | None =>
      if bCur then
        match l with
        | [] => None
        | v :: l => Some (Some 0%nat,
            set_vms (mk_vm id (bDevFrameBuffer v) used PS_BLANK (tPixelDatas v) :: l) d)
        end
      else Some (None, d)
  end end end.

Definition PutVideoMem (k : nat) (d : disp) : option disp :=
  v ← g_ptVideoMemHead d !! k;
  let v := mk_vm (iID v) (bDevFrameBuffer v) VMS_FREE
             (if iID v =? -1 then PS_BLANK else ePicState v) (tPixelDatas v) in
  Some (set_vms (<[k := v]> (g_ptVideoMemHead d)) d).

Fixpoint find_dev (l : list T_VideoMem) (i : nat) : option nat :=
  match l with
  | [] => None
  | v :: l => if bDevFrameBuffer v then Some i else find_dev l (S i)
  end.

Definition GetDevVideoMem (d : disp) : option nat := find_dev (g_ptVideoMemHead d) 0.

(** * Filling *)

(** [n] copies of [v] from [off] on, and nothing else changed. *)
Definition filled (v : mem) (n off : Z) (m m' : mem) : Prop :=
  same_outside off (off + n * zlen v) m m' /\
  forall k, 0 <= k < n -> mem_read m' (off + k * zlen v) (zlen v) = Some v.

Lemma filled_step v n off m m1 m' : 0 <= n -> 0 < zlen v ->
  same_outside off (off + zlen v) m m1 -> mem_read m1 off (zlen v) = Some v ->
  filled v n (off + zlen v) m1 m' -> filled v (n + 1) off m m'.
Proof.
  intros Hn Hv Ho Hr [Ho' Hr']. split.
  - transitivity m1; [|eapply same_outside_widen; [| |exact Ho']; nia].
    eapply same_outside_widen; [| |exact Ho]; nia.
  - intros k Hk. destruct (decide (k = 0)) as [->|].
    + rewrite Z.mul_0_l, Z.add_0_r. destruct Ho' as [_ H']. rewrite H' by lia. done.
    + replace (off + k * zlen v) with (off + zlen v + (k - 1) * zlen v) by lia. apply Hr'. lia.
Qed.

Lemma fill_row_spec v : 0 < zlen v -> forall n off m,
  0 <= off -> off + Z.of_nat n * zlen v <= zlen m ->
  exists m', fill_row n v off m = Some m' /\ filled v (Z.of_nat n) off m m'.
Proof.
  intros Hv. induction n as [|n IH]; intros off m Ho Hf; cbn [fill_row].
  { exists m. split; [done|]. split; [by split|]. lia. }
  destruct (mem_write_ok m off v) as (m1 & -> & O1 & R1); [lia | nia |]. cbn [mbind option_bind].
  destruct (IH (off + zlen v) m1) as (m' & -> & F); [lia | destruct O1; lia |].
  exists m'. split; [done|]. replace (Z.of_nat (S n)) with (Z.of_nat n + 1) by lia.
  eapply filled_step; eauto. lia.
Qed.

Lemma fill_loop_spec v : 0 < zlen v -> forall n fuel i total off m,
  0 <= i -> total = i + Z.of_nat n * zlen v -> total < 2 ^ 31 -> (n < fuel)%nat ->
  0 <= off -> off + Z.of_nat n * zlen v <= zlen m ->
  exists m', fill_loop fuel i total v off m = Some m' /\ filled v (Z.of_nat n) off m m'.
Proof.
  intros Hv. induction n as [|n IH]; intros fuel i total off m Hi Ht Hmax Hfuel Ho Hf;
    (destruct fuel as [|fuel]; [lia|]); cbn [fill_loop].
  { rewrite (proj2 (Z.ltb_ge i total)) by lia. exists m. split; [done|]. split; [by split|]. lia. }
  rewrite (proj2 (Z.ltb_lt i total)) by nia.
  destruct (mem_write_ok m off v) as (m1 & -> & O1 & R1); [lia | nia |]. cbn [mbind option_bind].
  rewrite (proj2 (Z.ltb_ge _ _)) by nia.
  destruct (IH fuel (i + zlen v) total (off + zlen v) m1) as (m' & -> & F);
    [lia | lia | done | lia | lia | destruct O1; lia |].
  exists m'. split; [done|]. replace (Z.of_nat (S n)) with (Z.of_nat n + 1) by lia.
  eapply filled_step; eauto. lia.
Qed.

(** The loop's fuel is enough for every size an [int] holds. *)
Lemma fill_while_spec v n m : 0 < zlen v -> 0 <= n -> n * zlen v < 2 ^ 31 -> n * zlen v <= zlen m ->
  exists m', fill_while (n * zlen v) v 0 m = Some m' /\ filled v n 0 m m'.
Proof.
  intros. destruct (fill_loop_spec v) with (n := Z.to_nat n) (fuel := S (Z.to_nat (n * zlen v)))
    (i := 0) (total := n * zlen v) (off := 0) (m := m) as (m' & E & F);
    rewrite ?Z2Nat.id in * by done; try lia; [|eauto].
  assert (n <= n * zlen v) by nia. lia.
Qed.

Lemma mem_set_spec c n off m : 0 <= n -> 0 <= off -> off + n <= zlen m ->
  exists m', mem_set c n off m = Some m' /\ filled [u8 c] n off m m'.
Proof.
  intros Hn Ho Hf. unfold mem_set. rewrite (proj2 (Z.ltb_ge n 0)) by done.
  assert (zlen (memset_bytes c n) = n) as El by (unfold memset_bytes; rewrite zlen_replicate; lia).
  destruct (mem_write_ok m off (memset_bytes c n)) as (m' & -> & O & R); [done | lia |].
  exists m'. split; [done|]. rewrite El in O, R. unfold filled. change (zlen [u8 c]) with 1. split.
  { by rewrite Z.mul_1_r. }
  intros k Hk. rewrite Z.mul_1_r. rewrite (mem_read_sub _ _ _ _ _ _ R) by lia.
  rewrite mem_read_in by (rewrite ?El; lia). f_equal. unfold memset_bytes.
  rewrite drop_replicate, take_replicate. by replace (_ `min` _)%nat with 1%nat by lia.
Qed.

(** The bytes of a pixel of the colour at each depth that is supported. *)
Definition color_bytes (bpp c : Z) : option mem :=
  if bpp =? 8 then Some [u8 c] else if bpp =? 16 then Some (bytes16 (rgb565 c))
  else if bpp =? 32 then Some (bytes32 c) else None.

Lemma color_bytes_len bpp c v : color_bytes bpp c = Some v -> zlen v = bpp / 8 /\ 0 < zlen v.
Proof. unfold color_bytes. repeat case_if; intros [= <-]; bool_props; subst; done. Qed.

Lemma clear_rows_spec row v w : 0 < zlen v -> 0 <= w ->
  (forall off m, 0 <= off -> off + w * zlen v <= zlen m ->
     exists m', row off m = Some m' /\ filled v w off m m') ->
  forall rows off line m, 0 <= off -> w * zlen v <= line ->
  (rows = 0%nat \/ off + (Z.of_nat rows - 1) * line + w * zlen v <= zlen m) ->
  exists m', clear_rows rows row off line m = Some m' /\ zlen m' = zlen m /\
  (forall r k, (r < rows)%nat -> 0 <= k < w ->
     mem_read m' (off + Z.of_nat r * line + k * zlen v) (zlen v) = Some v) /\
  (forall o l, off_rows rows (w * zlen v) off line o l -> mem_read m' o l = mem_read m o l).
Proof.
  intros Hv Hw Hrow. induction rows as [|rows IH]; intros off line m Ho Hl Hf; cbn [clear_rows].
  { exists m. split_and!; try done. intros; lia. }
  destruct Hf as [?|Hf]; [done|].
  destruct (Hrow off m) as (m1 & -> & [L1 O1] & R1); [done | nia |]. cbn [mbind option_bind].
  destruct (IH (off + line) line m1) as (m' & -> & L & Hin & Hout);
    [nia | done | destruct rows; [by left | right; lia] |].
  exists m'. split_and!; [done | lia | |].
  - intros r k Hr Hk. destruct r as [|r].
    + rewrite Z.mul_0_l, Z.add_0_r. rewrite Hout; [by apply R1|]. intros r' Hr'. left. nia.
    + replace (off + Z.of_nat (S r) * line) with (off + line + Z.of_nat r * line) by lia.
      apply Hin; lia.
  - intros o l Hoff. rewrite Hout.
    + apply O1. specialize (Hoff 0%nat ltac:(lia)). lia.
    + intros r Hr. specialize (Hoff (S r) ltac:(lia)). lia.
Qed.

(** Clearing a rectangle of a picture with any row routine that fills a row. *)
Lemma clear_rect row v p ox oy w h : pic_ok p -> zlen v = pixel_bytes p ->
  (forall off m, 0 <= off -> off + w * zlen v <= zlen m ->
     exists m', row off m = Some m' /\ filled v w off m m') ->
  0 <= ox -> 0 <= oy -> 0 <= w -> 0 <= h -> ox + w <= iWidth p -> oy + h <= iHeight p ->
  exists m, clear_rows (Z.to_nat h) row (oy * iLineBytes p + ox * pixel_bytes p) (iLineBytes p)
              (aucPixelDatas p) = Some m /\ zlen m = zlen (aucPixelDatas p) /\
  forall x y, in_pic p x y ->
    pixel (set_pixels m p) x y = (if in_rect ox oy w h x y then Some v else pixel p x y).
Proof.
  intros Hp Ev Hrow Hox Hoy Hw Hh Fw Fh. destruct (po_bpp _ Hp) as [_ Hpb].
  pose proof (pic_line _ Hp). pose proof (po_line _ Hp). pose proof (po_total _ Hp).
  assert ((ox + w) * pixel_bytes p <= iWidth p * pixel_bytes p) by (apply Z.mul_le_mono_nonneg_r; lia).
  assert ((oy + h) * iLineBytes p <= iHeight p * iLineBytes p) by (apply Z.mul_le_mono_nonneg_r; lia).
  destruct (clear_rows_spec row v w) with (rows := Z.to_nat h)
    (off := oy * iLineBytes p + ox * pixel_bytes p) (line := iLineBytes p) (m := aucPixelDatas p)
    as (m & E & L & Hin & Hout); [lia | done | done | nia | nia | |].
  { destruct (decide (h = 0)) as [->|]; [by left|right]. rewrite Z2Nat.id by lia. nia. }
  exists m. split_and!; [done | done |]. intros x y Hxy. unfold pixel. cbn.
  change (pixel_bytes (set_pixels m p)) with (pixel_bytes p). destruct (in_rect _ _ _ _ _ _) eqn:R.
  - assert (ox <= x < ox + w /\ oy <= y < oy + h) by (unfold in_rect in R; bool_lia).
    specialize (Hin (Z.to_nat (y - oy)) (x - ox) ltac:(lia) ltac:(lia)).
    rewrite Z2Nat.id, Ev in Hin by lia. rewrite <- Hin. f_equal. lia.
  - apply Hout. rewrite Ev. by apply rect_off_rows.
Qed.

(** A block filled with pixels, seen as a picture without padding. *)
Lemma filled_pixels p v m : pic_ok p -> iLineBytes p = iWidth p * pixel_bytes p ->
  zlen v = pixel_bytes p -> filled v (iWidth p * iHeight p) 0 (aucPixelDatas p) m ->
  forall x y, in_pic p x y -> pixel (set_pixels m p) x y = Some v.
Proof.
  intros Hp El Ev [_ F] x y [Hx Hy]. unfold pixel. cbn.
  change (pixel_bytes (set_pixels m p)) with (pixel_bytes p).
  specialize (F (y * iWidth p + x) ltac:(nia)). rewrite Ev in F. rewrite <- F. f_equal.
  rewrite El. lia.
Qed.

(** * The framebuffer as a picture *)

Definition fb_pic (fb : fb_dev) : T_PixelDatas :=
  mk_pic (fb_xres fb) (fb_yres fb) (fb_bits_per_pixel fb) (g_dwLineWidth fb) (g_dwScreenSize fb)
    (g_pucFBMem fb).

(** The invariant of the device: its variables agree and the memory is as large
    as the screen. *)
Record fb_ok (fb : fb_dev) : Prop := {
  fo_pic : pic_ok (fb_pic fb);
  fo_line : g_dwLineWidth fb = fb_xres fb * g_dwPixelWidth fb;
  fo_pixel : g_dwPixelWidth fb = fb_bits_per_pixel fb / 8;
  fo_size : g_dwScreenSize fb = fb_xres fb * fb_yres fb * g_dwPixelWidth fb;
  fo_max : g_dwScreenSize fb < 2 ^ 31
}.

(** Answers of a working device: one of the depths that are supported, a size
    whose number of bits is an [int], and the mapping that was asked for. *)
Record env_ok (e : fb_env) : Prop := {
  eo_ret : 0 <= env_var_ret e /\ 0 <= env_fix_ret e;
  eo_xres : 0 < env_xres e < 2 ^ 16;
  eo_yres : 0 < env_yres e < 2 ^ 16;
  eo_bpp : env_bpp e = 8 \/ env_bpp e = 16 \/ env_bpp e = 32;
  eo_bits : env_xres e * env_yres e * env_bpp e < 2 ^ 31;
  eo_mmap : forall n, 0 <= n -> exists m, env_mmap e n = Some m /\ zlen m = n
}.

Lemma fb_ok_mem fb m : fb_ok fb -> zlen m = zlen (g_pucFBMem fb) -> fb_ok (set_fb_mem m fb).
Proof.
  intros [[P1 P2 P3 P4 P5] L1 L2 L3 L4] El. split; try done.
  split; try done. cbn in *. by rewrite El.
Qed.

Lemma device_init_ok e fb o : env_ok e -> exists fb',
  FBDeviceInit e fb o = (0, fb', mk_opr (opr_name o) (env_xres e) (env_yres e) (env_bpp e)
                                   (env_xres e * (env_bpp e / 8)) true (opr_ops o)) /\
  fb_ok fb' /\ fb_xres fb' = env_xres e /\ fb_yres fb' = env_yres e /\
  fb_bits_per_pixel fb' = env_bpp e.
Proof.
  intros [[R1 R2] Hx Hy Hb Hs Hm]. unfold FBDeviceInit.
  rewrite (proj2 (Z.ltb_ge (env_var_ret e) 0)), (proj2 (Z.ltb_ge (env_fix_ret e) 0)) by done.
  set (x := env_xres e) in *. set (y := env_yres e) in *.
  assert (exists pb, env_bpp e = 8 * pb /\ 0 < pb <= 4) as (pb & Eb & Hpb).
  { destruct Hb as [->|[->| ->]]; [exists 1|exists 2|exists 4]; lia. }
  rewrite Eb in *. assert (8 * pb / 8 = pb) as Ep by (rewrite Z.mul_comm; by apply Z.div_mul).
  rewrite (u32_small (x * y)), (u32_small (x * y * (8 * pb))), (u32_small (x * (8 * pb)))
    by (split; nia).
  replace (x * y * (8 * pb)) with (x * y * pb * 8) by lia.
  replace (x * (8 * pb)) with (x * pb * 8) by lia. rewrite !Z.div_mul, Ep by done.
  rewrite !s32_small by (split; lia). destruct (Hm (x * y * pb)) as (m & -> & Hl); [nia|].
  eexists. split; [reflexivity|]. split; [|done].
  split; cbn; try done; [|nia]. split; unfold pixel_bytes; cbn; rewrite ?Ep; lia.
Qed.

(** Clearing a page without padding gives every pixel the colour. *)
Lemma clear_videomem_ok c p v : pic_ok p -> iLineBytes p = iWidth p * pixel_bytes p ->
  iTotalBytes p = iWidth p * iHeight p * pixel_bytes p -> iTotalBytes p < 2 ^ 31 ->
  color_bytes (iBpp p) c = Some v ->
  exists m, ClearVideoMem c p = Some (set_pixels m p) /\ zlen m = zlen (aucPixelDatas p) /\
  forall x y, in_pic p x y -> pixel (set_pixels m p) x y = Some v.
Proof.
  intros Hp Hl Hs Hm Hc. destruct (color_bytes_len _ _ _ Hc) as [Lv Hv].
  change (iBpp p / 8) with (pixel_bytes p) in Lv. rewrite <- Lv in *.
  pose proof (po_total _ Hp) as Ht. pose proof (po_width _ Hp). pose proof (po_height _ Hp).
  rewrite Hl in Ht. set (n := iWidth p * iHeight p) in *.
  assert (exists m, ClearVideoMem c p = Some (set_pixels m p) /\
            filled v n 0 (aucPixelDatas p) m) as (m & E & F).
  { unfold ClearVideoMem. rewrite Hs in *. unfold color_bytes in Hc.
    revert Hc; repeat case_if; intros [= <-].
    - destruct (mem_set_spec c n 0 (aucPixelDatas p)) as (m & E & F);
        [nia | done | change (zlen [u8 c]) with 1 in *; lia |].
      change (zlen [u8 c]) with 1. rewrite Z.mul_1_r, E. eauto.
    - destruct (fill_while_spec (bytes16 (rgb565 c)) n (aucPixelDatas p)) as (m & -> & F);
        [done | nia | lia | lia | eauto].
    - destruct (fill_while_spec (bytes32 c) n (aucPixelDatas p)) as (m & -> & F);
        [done | nia | lia | lia | eauto]. }
  exists m. split; [done|]. split; [apply F|]. apply filled_pixels; try done. by rewrite Hl, Lv.
Qed.

(** Clearing the screen is clearing the page that stands for it. *)
Lemma clean_screen_page c fb : FBCleanScreen c fb =
  if bool_decide (is_Some (color_bytes (fb_bits_per_pixel fb) c))
  then p ← ClearVideoMem c (fb_pic fb); Some (0, set_fb_mem (aucPixelDatas p) fb)
  else Some (-1, fb).
Proof.
  unfold FBCleanScreen, ClearVideoMem, color_bytes. cbn [iBpp iTotalBytes aucPixelDatas fb_pic].
  repeat case_if; bool_props; try (exfalso; by eauto using is_Some_None); try done;
    repeat match goal with |- context [?x ≫= _] => destruct x; cbn [mbind option_bind]; try done end.
Qed.

Lemma clean_screen_ok c fb v : fb_ok fb -> color_bytes (fb_bits_per_pixel fb) c = Some v ->
  exists m, FBCleanScreen c fb = Some (0, set_fb_mem m fb) /\ zlen m = zlen (g_pucFBMem fb) /\
  forall x y, in_pic (fb_pic fb) x y -> pixel (fb_pic (set_fb_mem m fb)) x y = Some v.
Proof.
  intros [Hp Hl Hw Hs Hm] Hc. rewrite clean_screen_page, bool_decide_true by eauto.
  destruct (clear_videomem_ok c (fb_pic fb) v) as (m & -> & L & Hpx); try done;
    [cbn; by rewrite Hl, Hw | cbn; by rewrite Hs, Hw | by exists m].
Qed.

(** Where a pixel of the screen lies. *)
Lemma fb_offset fb x y : fb_ok fb -> in_pic (fb_pic fb) x y ->
  0 < g_dwPixelWidth fb /\ 0 <= g_dwLineWidth fb * y /\ 0 <= g_dwPixelWidth fb * x /\
  g_dwLineWidth fb * y + g_dwPixelWidth fb * x + g_dwPixelWidth fb <= zlen (g_pucFBMem fb) /\
  g_dwLineWidth fb * y + g_dwPixelWidth fb * x < 2 ^ 31.
Proof.
  intros [Hp Eln Epw Esz Hmx] Hin. pose proof (pixel_offset _ _ _ Hp Hin) as Hoff.
  destruct (po_bpp _ Hp) as [_ Hpb]. unfold pixel_bytes in *. cbn in *. rewrite <- Epw in *.
  destruct Hin as [Hx Hy]. cbn in *.
  assert ((y + 1) * g_dwLineWidth fb <= fb_yres fb * g_dwLineWidth fb)
    by (apply Z.mul_le_mono_nonneg_r; nia).
  split_and!; nia.
Qed.

(** Storing one pixel. *)
Lemma write_pixel fb iX iY v : fb_ok fb -> in_pic (fb_pic fb) iX iY -> zlen v = g_dwPixelWidth fb ->
  exists m, mem_write (g_pucFBMem fb) (g_dwLineWidth fb * iY + g_dwPixelWidth fb * iX) v = Some m /\
  fb_ok (set_fb_mem m fb) /\
  forall x y, in_pic (fb_pic fb) x y -> pixel (fb_pic (set_fb_mem m fb)) x y =
    (if (x =? iX) && (y =? iY) then Some v else pixel (fb_pic fb) x y).
Proof.
  intros Hfb Hin Hv. destruct (fb_offset _ _ _ Hfb Hin) as (Hpw & Hln & Hox & Hfit & Hmx).
  pose proof (fo_pic _ Hfb) as Hp. pose proof (fo_pixel _ Hfb) as Epw.
  destruct (mem_write_ok (g_pucFBMem fb) (g_dwLineWidth fb * iY + g_dwPixelWidth fb * iX) v)
    as (m & -> & [L O] & Rd); [lia | lia |].
  exists m. split; [done|]. split; [by apply fb_ok_mem|]. intros x y Hxy.
  pose proof (rect_off_rows (fb_pic fb) iX iY 1 1 x y Hp Hxy) as Hd.
  destruct Hin as [Hx Hy]. unfold pixel, pixel_bytes in *. cbn in *. rewrite <- Epw in *.
  destruct ((x =? iX) && (y =? iY)) eqn:E; bool_props.
  - subst x y. rewrite Hv in Rd. rewrite <- Rd. f_equal. lia.
  - apply O. specialize (Hd ltac:(lia) ltac:(lia) ltac:(lia)).
    assert (in_rect iX iY 1 1 x y = false) as E' by
      (apply not_true_is_false; unfold in_rect; intros ?; bool_lia).
    specialize (Hd E' 0%nat ltac:(lia)). rewrite Hv. lia.
Qed.

(** * Properties of the display *)

(** Drawing a pixel never touches memory outside the screen, whatever the
    coordinates: outside the resolution, negative coordinates included, and at a
    depth that is not supported, the call is refused and nothing changes;
    otherwise that one pixel gets the colour at the depth of the screen. *)
Theorem show_pixel_spec iX iY c fb : fb_ok fb -> is_s32 iX -> is_s32 iY ->
  match (if in_rect 0 0 (fb_xres fb) (fb_yres fb) iX iY
         then color_bytes (fb_bits_per_pixel fb) c else None) with
  | None => FBShowPixel iX iY c fb = Some (-1, fb)
  | Some v => exists m, FBShowPixel iX iY c fb = Some (0, set_fb_mem m fb) /\
      fb_ok (set_fb_mem m fb) /\
      forall x y, in_pic (fb_pic fb) x y ->
        pixel (fb_pic (set_fb_mem m fb)) x y =
        (if (x =? iX) && (y =? iY) then Some v else pixel (fb_pic fb) x y)
  end.
Proof.
  intros Hfb Hx Hy. pose proof (fo_pic _ Hfb) as Hp. pose proof (po_width _ Hp) as Ww.
  pose proof (po_height _ Hp) as Wh. cbn in Ww, Wh. unfold FBShowPixel.
  destruct (in_rect _ _ _ _ _ _) eqn:R.
  2: { assert ((u32 iX >=? fb_xres fb) || (u32 iY >=? fb_yres fb) = true) as ->; [|done].
       unfold in_rect in R. unfold is_s32, u32 in *.
       rewrite orb_true_iff, !Z.geb_le. bool_props. Z.to_euclidean_division_equations; bool_lia. }
  assert (0 <= iX < fb_xres fb /\ 0 <= iY < fb_yres fb) as [Rx Ry] by (unfold in_rect in R; bool_lia).
  assert (in_pic (fb_pic fb) iX iY) as Hin by done.
  destruct (fb_offset _ _ _ Hfb Hin) as (Hpw & Hln & Hox & Hoy & Hmx).
  rewrite (u32_small iX), (u32_small iY) by (split; lia).
  destruct (_ || _) eqn:E; [bool_lia|]. clear E.
  rewrite (u32_small (g_dwLineWidth fb * iY)), (u32_small (g_dwPixelWidth fb * iX)) by (split; lia).
  destruct (color_bytes _ _) as [v|] eqn:Ec.
  - destruct (color_bytes_len _ _ _ Ec) as [Lv _].
    destruct (write_pixel fb iX iY v) as (m & Em & Hm); [done | done | by rewrite (fo_pixel _ Hfb) |]. exists m. split; [|done].
    unfold color_bytes in Ec. revert Ec; repeat case_if; intros [= <-]; by rewrite Em.
  - unfold color_bytes in Ec. revert Ec; by repeat case_if.
Qed.

(** A 2 x 2 screen of 16 bits per pixel. *)
Definition sample_env : fb_env :=
  mk_env 0 2 2 16 0 (fun n => Some (replicate (Z.to_nat n) 255)).
Definition sample_fb : fb_dev := mk_fb 2 2 16 8 4 2 [1; 2; 3; 4; 5; 6; 7; 8].

Lemma sample_fb_ok : fb_ok sample_fb.
Proof. split; [|done..]. split; vm_compute; repeat split; discriminate. Qed.

Lemma show_pixel_spec_witness :
  FBShowPixel (-1) 0 0xff0000 sample_fb = Some (-1, sample_fb) /\
  exists m, FBShowPixel 1 0 0xff0000 sample_fb = Some (0, set_fb_mem m sample_fb) /\
    fb_ok (set_fb_mem m sample_fb) /\
    forall x y, in_pic (fb_pic sample_fb) x y ->
      pixel (fb_pic (set_fb_mem m sample_fb)) x y =
      (if (x =? 1) && (y =? 0) then Some [0; 0xf8] else pixel (fb_pic sample_fb) x y).
Proof.
  split.
  - apply (show_pixel_spec (-1) 0 0xff0000 sample_fb sample_fb_ok); split; lia.
  - apply (show_pixel_spec 1 0 0xff0000 sample_fb sample_fb_ok); split; lia.
Defined.

(** Clearing a region of a page: at every supported depth the pixels of the
    rectangle, corners included, get the colour and all others stay; at another
    depth nothing changes. *)
Theorem clear_region_spec l c p : pic_ok p ->
  0 <= iTopLeftX l -> iTopLeftX l <= iBotRightX l < iWidth p ->
  0 <= iTopLeftY l -> iTopLeftY l <= iBotRightY l < iHeight p ->
  match color_bytes (iBpp p) c with
  | None => ClearVideoMemRegion l c p = Some p
  | Some v => exists m, ClearVideoMemRegion l c p = Some (set_pixels m p) /\
      zlen m = zlen (aucPixelDatas p) /\
      forall x y, in_pic p x y ->
        pixel (set_pixels m p) x y =
        (if (iTopLeftX l <=? x) && (x <=? iBotRightX l) && (iTopLeftY l <=? y) && (y <=? iBotRightY l)
         then Some v else pixel p x y)
  end.
Proof.
  intros Hp X0 X1 Y0 Y1. destruct (color_bytes _ _) as [v|] eqn:Ec.
  2: { unfold ClearVideoMemRegion. revert Ec. unfold color_bytes. by repeat case_if. }
  destruct (color_bytes_len _ _ _ Ec) as [Lv Hv]. unfold ClearVideoMemRegion.
  rewrite !quot8 by (done || lia).
  set (w := iBotRightX l - iTopLeftX l + 1). set (h := iBotRightY l - iTopLeftY l + 1).
  assert (forall row, (forall off m, 0 <= off -> off + w * zlen v <= zlen m ->
     exists m', row off m = Some m' /\ filled v w off m m') ->
    exists m, (m ← clear_rows (Z.to_nat h) row (iTopLeftY l * iLineBytes p +
                 iTopLeftX l * pixel_bytes p) (iLineBytes p) (aucPixelDatas p);
               Some (set_pixels m p)) = Some (set_pixels m p) /\
      zlen m = zlen (aucPixelDatas p) /\
      forall x y, in_pic p x y -> pixel (set_pixels m p) x y =
        (if (iTopLeftX l <=? x) && (x <=? iBotRightX l) && (iTopLeftY l <=? y) && (y <=? iBotRightY l)
         then Some v else pixel p x y)) as Hgo.
  { intros row Hrow. destruct (clear_rect row v p (iTopLeftX l) (iTopLeftY l) w h)
      as (m & -> & L & Hpx); try (done || lia).
    exists m. split; [done|]. split; [done|]. intros x y Hxy. rewrite (Hpx x y Hxy). unfold in_rect.
    replace (x <? iTopLeftX l + w) with (x <=? iBotRightX l) by (subst w; bool_lia).
    by replace (y <? iTopLeftY l + h) with (y <=? iBotRightY l) by (subst h; bool_lia). }
  revert Ec. unfold color_bytes. repeat case_if; intros [= <-]; apply Hgo.
  - intros off m Ho Hf. unfold pixel_bytes. bool_props. rewrite Hif in *.
    change (zlen [u8 c]) with 1 in Hf. change (8 / 8) with 1. rewrite !Z.mul_1_r in *.
    apply mem_set_spec; lia.
  - intros off m Ho Hf. destruct (fill_row_spec (bytes16 (rgb565 c)) Hv (Z.to_nat w) off m) as (m' & -> & F);
      rewrite ?Z2Nat.id in * by lia; eauto.
  - intros off m Ho Hf. destruct (fill_row_spec (bytes32 c) Hv (Z.to_nat w) off m) as (m' & -> & F);
      rewrite ?Z2Nat.id in * by lia; eauto.
Qed.

Lemma clear_region_spec_witness :
  exists m, ClearVideoMemRegion (mk_layout 1 0 1 1 "") 0xff0000 (fb_pic sample_fb)
            = Some (set_pixels m (fb_pic sample_fb)) /\
  zlen m = 8 /\
  forall x y, in_pic (fb_pic sample_fb) x y ->
    pixel (set_pixels m (fb_pic sample_fb)) x y =
    (if (1 <=? x) && (x <=? 1) && (0 <=? y) && (y <=? 1) then Some [0; 0xf8]
     else pixel (fb_pic sample_fb) x y).
Proof.
  apply (clear_region_spec (mk_layout 1 0 1 1 "") 0xff0000 (fb_pic sample_fb) (fo_pic _ sample_fb_ok));
    cbn; lia.
Defined.

(** * Pages *)

Lemma find_update_Some p f l : forall i k l', find_update p f i l = Some (k, l') ->
  exists j v, k = (i + j)%nat /\ l !! j = Some v /\ p v = true /\ l' = <[j := f v]> l /\
  forall j' v', (j' < j)%nat -> l !! j' = Some v' -> p v' = false.
Proof.
  induction l as [|v l IH]; intros i k l' H; cbn in H; [done|]. destruct (p v) eqn:E.
  - injection H as <- <-. exists 0%nat, v. rewrite Nat.add_0_r. split_and!; try done. lia.
  - apply bind_Some in H as ([k0 l0] & H & [= <- <-]).
    apply IH in H as (j & v0 & -> & Hl & Hp & -> & Hfirst). exists (S j), v0.
    split_and!; try done; [lia|]. intros [|j'] v' Hj Hl'; cbn in Hl'; [by simplify_eq|].
    apply (Hfirst j'); [lia | done].
Qed.

Lemma find_update_None p f l i : find_update p f i l = None -> forall v, v ∈ l -> p v = false.
Proof.
  revert i. induction l as [|v l IH]; intros i H v0 Hv; [by apply not_elem_of_nil in Hv|].
  cbn in H. destruct (p v) eqn:E; [done|].
  destruct (find_update p f (S i) l) as [[? ?]|] eqn:E'; [done|].
  apply elem_of_cons in Hv as [->|Hv]; [done | by eapply IH].
Qed.

(** What a page becomes when it is taken for [id]. *)
Definition taken (id : Z) (bCur : bool) (st : E_PicState) (v : T_VideoMem) : T_VideoMem :=
  mk_vm id (bDevFrameBuffer v) (if bCur then VMS_USED_FOR_CUR else VMS_USED_FOR_PREPARE) st
    (tPixelDatas v).

(** Taking a page, when there are pages at all: a free page that already
    has the wanted identifier is taken with its picture; otherwise a free page,
    one without a picture before one with, and its picture is dropped; when no
    page is free, NULL for a page prepared in advance, and the first page of the
    list for one needed at once. Only that page's entry changes. *)
Theorem get_videomem_spec id bCur d : g_ptVideoMemHead d <> [] ->
  let l := g_ptVideoMemHead d in
  exists r d', GetVideoMem id bCur d = Some (r, d') /\
  match r with
  | None => bCur = false /\ d' = d /\ forall v, v ∈ l -> vm_free v = false
  | Some k => exists v, l !! k = Some v /\
      ((vm_free v = true /\ iID v = id /\ d' = set_vms (<[k := taken id bCur (ePicState v) v]> l) d)
       \/ (vm_free v = true /\ (forall w, w ∈ l -> vm_free w = true -> iID w <> id) /\
           (ePicState v = PS_BLANK \/ forall w, w ∈ l -> vm_free w = true -> ePicState w <> PS_BLANK) /\
           d' = set_vms (<[k := taken id bCur PS_BLANK v]> l) d)
       \/ (bCur = true /\ k = 0%nat /\ (forall w, w ∈ l -> vm_free w = false) /\
           d' = set_vms (<[k := taken id bCur PS_BLANK v]> l) d))
  end.
Proof.
  intros Hne l. unfold GetVideoMem. fold l.
  destruct (find_update _ _ 0 l) as [[k l1]|] eqn:E1.
  { apply find_update_Some in E1 as (j & v & -> & Hl & Hp & -> & _). do 2 eexists.
    split; [done|]. exists v. split; [done|]. left. bool_props. subst id. done. }
  pose proof (find_update_None _ _ _ _ E1) as N1. clear E1.
  assert (forall w, w ∈ l -> vm_free w = true -> iID w <> id) as N1'.
  { intros w Hw Hf He. specialize (N1 w Hw). cbn in N1. rewrite Hf, He, Z.eqb_refl in N1. done. }
  destruct (find_update _ _ 0 l) as [[k l1]|] eqn:E2.
  { apply find_update_Some in E2 as (j & v & -> & Hl & Hp & -> & _). do 2 eexists.
    split; [done|]. exists v. split; [done|]. right. left. bool_props.
    unfold taken. rewrite <- H0 at 2. auto 10. }
  pose proof (find_update_None _ _ _ _ E2) as N2. clear E2.
  assert (forall w, w ∈ l -> vm_free w = true -> ePicState w <> PS_BLANK) as N2'.
  { intros w Hw Hf He. specialize (N2 w Hw). cbn in N2. rewrite Hf, He in N2. done. }
  destruct (find_update _ _ 0 l) as [[k l1]|] eqn:E3.
  { apply find_update_Some in E3 as (j & v & -> & Hl & Hp & -> & _). do 2 eexists.
    split; [done|]. exists v. split; [done|]. right. left. auto 10. }
  pose proof (find_update_None _ _ _ _ E3) as N3. destruct bCur; [|by do 2 eexists].
  subst l. destruct (g_ptVideoMemHead d) as [|v l]; [done|]. do 2 eexists. split; [done|].
  exists v. split; [done|]. right. right. auto.
Qed.

(** A free page that holds picture 7, and the device's own page, in use. *)
Definition sample_disp : disp :=
  let pic := mk_pic 2 2 16 4 8 [] in
  mk_disp [] None [mk_vm 7 false VMS_FREE PS_GENERATED pic; mk_vm 0 true VMS_USED_FOR_CUR PS_BLANK pic]
    sample_fb.

Lemma get_videomem_spec_witness :
  let l := g_ptVideoMemHead sample_disp in
  exists r d', GetVideoMem 7 true sample_disp = Some (r, d') /\ r = Some 0%nat /\
  match r with
  | None => True
  | Some k => exists v, l !! k = Some v /\
      ((vm_free v = true /\ iID v = 7 /\
        d' = set_vms (<[k := taken 7 true (ePicState v) v]> l) sample_disp)
       \/ (vm_free v = true /\ (forall w, w ∈ l -> vm_free w = true -> iID w <> 7) /\
           (ePicState v = PS_BLANK \/ forall w, w ∈ l -> vm_free w = true -> ePicState w <> PS_BLANK) /\
           d' = set_vms (<[k := taken 7 true PS_BLANK v]> l) sample_disp)
       \/ (true = true /\ k = 0%nat /\ (forall w, w ∈ l -> vm_free w = false) /\
           d' = set_vms (<[k := taken 7 true PS_BLANK v]> l) sample_disp))
  end.
Proof.
  destruct (get_videomem_spec 7 true sample_disp) as (r & d' & E & H); [discriminate|].
  exists r, d'. split; [exact E|]. vm_compute in E. injection E as <- <-. split; [reflexivity | exact H].
Defined.

(** * From registration to pages *)

Lemma alloc_pages_spec malloc x y b line size : forall todo i l,
  (forall k, (i <= k < i + todo)%nat -> exists m, malloc k = Some m /\ zlen m = size) ->
  exists ms, alloc_pages todo i malloc x y b line size l =
    (0, (new_page x y b line size false VMS_FREE <$> ms) ++ l) /\
  length ms = todo /\ Forall (fun m => zlen m = size) ms.
Proof.
  induction todo as [|todo IH]; intros i l Hm; cbn [alloc_pages]; [by exists []|].
  destruct (Hm i) as (m & -> & Hl); [lia|].
  destruct (IH (S i) (new_page x y b line size false VMS_FREE m :: l)) as (ms & -> & Hn & Hf).
  { intros k Hk. apply Hm. lia. }
  exists (ms ++ [m]). rewrite fmap_app, <- (assoc_L (++)), length_app. split_and!; [done | cbn; lia |].
  apply Forall_app. auto.
Qed.

Lemma select_ok e def vms fb0 : env_ok e -> exists fb o,
  SelectAndInitDefaultDispDev e "fb" (mk_disp [g_tFBOpr] def vms fb0)
  = Some (mk_disp [o] (Some 0%nat) vms fb) /\
  opr_xres o = env_xres e /\ opr_yres o = env_yres e /\ opr_bpp o = env_bpp e /\
  fb_ok fb /\ fb_xres fb = env_xres e /\ fb_yres fb = env_yres e /\
  fb_bits_per_pixel fb = env_bpp e /\
  (forall px py v, in_pic (fb_pic fb) px py -> color_bytes (env_bpp e) 0 = Some v ->
     pixel (fb_pic fb) px py = Some v) /\
  opr_iLineWidth o = env_xres e * (env_bpp e / 8) /\ opr_pucDispMem o = true.
Proof.
  intros He. unfold SelectAndInitDefaultDispDev, GetDispOpr. cbn [g_ptDispOprHead find_opr].
  rewrite bool_decide_true by done.
  cbn [lookup list_lookup mbind option_bind disp_fb g_ptVideoMemHead].
  change (opr_ops g_tFBOpr) with FBOps. cbn [mbind option_bind].
  destruct (device_init_ok e fb0 g_tFBOpr He) as (fb & -> & Hfb & Ex & Ey & Eb).
  assert (exists v, color_bytes (env_bpp e) 0 = Some v) as [v Ec]
    by (destruct (eo_bpp _ He) as [->|[->| ->]]; eexists; reflexivity).
  destruct (clean_screen_ok 0 fb v Hfb) as (m & -> & Lm & Hpx); [by rewrite Eb|].
  cbn [mbind option_bind]. do 2 eexists. split; [reflexivity|].
  split_and!; try done; [by apply fb_ok_mem|]. intros px py v' Hin Hc. simplify_eq. by apply Hpx.
Qed.

(** The sizes as the allocator computes them. *)
Lemma env_sizes e : env_ok e ->
  Z.quot (env_xres e * env_yres e * env_bpp e) 8 = env_xres e * env_yres e * (env_bpp e / 8) /\
  Z.quot (env_xres e * env_bpp e) 8 = env_xres e * (env_bpp e / 8).
Proof.
  intros He. pose proof (eo_xres _ He). pose proof (eo_yres _ He).
  assert (exists pb, env_bpp e = pb * 8 /\ 0 < pb) as (pb & -> & Hpb)
    by (destruct (eo_bpp _ He) as [->|[->| ->]]; [exists 1|exists 2|exists 4]; lia).
  rewrite !Z.quot_div_nonneg, Z.div_mul, !Z.mul_assoc, !Z.div_mul by nia. done.
Qed.

(** Starting the display: after [DisplayInit], selecting ["fb"] and
    allocating [n] pages on a device that works, the screen shows black in every
    pixel, its resolution is reported, and the page list holds [n] free blank
    caches of the screen's geometry in front of the device's own page, which is
    marked as in use when there are caches so that it is not handed out. *)
Theorem display_start_spec e n malloc d0 : env_ok e -> 0 <= n ->
  g_ptDispOprHead d0 = [] -> g_ptVideoMemHead d0 = [] ->
  (forall k, exists m, malloc k = Some m /\ zlen m = env_xres e * env_yres e * (env_bpp e / 8)) ->
  exists d1 d2 ms,
  let x := env_xres e in let y := env_yres e in let b := env_bpp e in
  SelectAndInitDefaultDispDev e "fb" (snd (DisplayInit d0)) = Some d1 /\
  GetDispResolution d1 = Some (0, Some (x, y, b)) /\
  AllocVideoMem n true malloc d1 = Some (0, d2) /\
  fb_ok (disp_fb d2) /\
  (forall px py v, in_pic (fb_pic (disp_fb d2)) px py -> color_bytes b 0 = Some v ->
     pixel (fb_pic (disp_fb d2)) px py = Some v) /\
  length ms = Z.to_nat n /\
  g_ptVideoMemHead d2 =
    (new_page x y b (x * (b / 8)) (x * y * (b / 8)) false VMS_FREE <$> ms) ++
    [new_page x y b (x * (b / 8)) (x * y * (b / 8)) true
       (if n =? 0 then VMS_FREE else VMS_USED_FOR_CUR) []] /\
  Forall (fun v => pic_ok (page_pixels d2 v)) (g_ptVideoMemHead d2).
Proof.
  intros He Hn Ho Hv Hm. cbn zeta. destruct d0 as [oprs def vms fb0]. cbn in Ho, Hv. subst oprs vms.
  change (snd (DisplayInit _)) with (mk_disp [g_tFBOpr] def [] fb0).
  destruct (select_ok e def [] fb0 He) as (fb & o & -> & Ox & Oy & Ob & Hfb & Ex & Ey & Eb & Hpx & _).
  destruct (env_sizes e He) as [Q1 Q2].
  destruct (alloc_pages_spec malloc (env_xres e) (env_yres e) (env_bpp e)
    (env_xres e * (env_bpp e / 8)) (env_xres e * env_yres e * (env_bpp e / 8)) (Z.to_nat n) 0
    [new_page (env_xres e) (env_yres e) (env_bpp e) (env_xres e * (env_bpp e / 8))
       (env_xres e * env_yres e * (env_bpp e / 8)) true
       (if n =? 0 then VMS_FREE else VMS_USED_FOR_CUR) []]) as (ms & Ea & Hl & Hf); [auto|].
  assert (GetDispResolution (mk_disp [o] (Some 0%nat) [] fb)
          = Some (0, Some (env_xres e, env_yres e, env_bpp e))) as Er
    by (cbn; by rewrite Ox, Oy, Ob).
  eexists _, _, ms. split; [done|]. split; [done|]. split.
  { unfold AllocVideoMem. rewrite Er.
    cbn [mbind option_bind default from_option id negb g_ptDefaultDispOpr g_ptVideoMemHead].
    rewrite Q1, Q2. replace (if negb (n =? 0) then VMS_USED_FOR_CUR else VMS_FREE)
      with (if n =? 0 then VMS_FREE else VMS_USED_FOR_CUR) by (by destruct (n =? 0)).
    rewrite Ea. reflexivity. }
  split; [done|]. split; [done|]. split; [done|]. split; [done|].
  pose proof (fo_pic _ Hfb) as [P1 P2 P3 P4 P5]. pose proof (fo_line _ Hfb) as L1.
  pose proof (fo_pixel _ Hfb) as L2. unfold pixel_bytes in *. cbn in *.
  rewrite Ex, Ey, Eb in *. rewrite L2 in L1. apply Forall_app. split.
  - apply Forall_fmap. eapply Forall_impl; [exact Hf|]. intros m' Hm'. cbn in Hm'.
    split; unfold pixel_bytes; cbn; try done; lia.
  - constructor; [|done]. split; unfold pixel_bytes; cbn; rewrite <- ?L1; try done; lia.
Qed.

Lemma sample_env_ok : env_ok sample_env.
Proof.
  split; cbn; try lia. intros n Hn. eexists. split; [reflexivity|]. rewrite zlen_replicate. lia.
Qed.

Lemma display_start_spec_witness : exists d1 d2 ms,
  SelectAndInitDefaultDispDev sample_env "fb" (snd (DisplayInit (mk_disp [] None [] sample_fb)))
  = Some d1 /\
  GetDispResolution d1 = Some (0, Some (2, 2, 16)) /\
  AllocVideoMem 2 true (fun _ => Some (replicate 8 0)) d1 = Some (0, d2) /\
  length ms = 2%nat /\
  g_ptVideoMemHead d2 = (new_page 2 2 16 4 8 false VMS_FREE <$> ms) ++
    [new_page 2 2 16 4 8 true VMS_USED_FOR_CUR []].
Proof.
  destruct (display_start_spec sample_env 2 (fun _ => Some (replicate 8 0))
              (mk_disp [] None [] sample_fb) sample_env_ok) as (d1 & d2 & ms & H1 & H2 & H3 & _ & _ & H6 & H7 & _);
    [lia | reflexivity | reflexivity | intros k; eexists; split; reflexivity |].
  exists d1, d2, ms. auto.
Defined.

(** A picture in a page survives giving the page back: when page [k], with
    identifier [id] other than -1, is the only one with that identifier, taking a
    page for [id] again gives page [k] with the same picture state and pixels. A
    page with identifier -1 loses its picture instead. *)
Theorem put_get_page k v id bCur d : g_ptVideoMemHead d !! k = Some v -> iID v = id ->
  (forall j w, g_ptVideoMemHead d !! j = Some w -> iID w = id -> j = k) ->
  exists d1, PutVideoMem k d = Some d1 /\
  (id <> -1 -> exists d2, GetVideoMem id bCur d1 = Some (Some k, d2) /\
     g_ptVideoMemHead d2 = <[k := taken id bCur (ePicState v) v]> (g_ptVideoMemHead d)) /\
  (id = -1 -> exists v', g_ptVideoMemHead d1 !! k = Some v' /\ vm_free v' = true /\
     ePicState v' = PS_BLANK).
Proof.
  intros Hk Hid Huniq. unfold PutVideoMem. rewrite Hk. cbn [mbind option_bind].
  set (v1 := mk_vm (iID v) _ VMS_FREE _ _). set (l := g_ptVideoMemHead d) in *.
  assert (k < length l)%nat as Hlt by (by eapply lookup_lt_Some).
  eexists. split; [reflexivity|]. split.
  2: { intros E. exists v1. cbn [g_ptVideoMemHead set_vms]. rewrite list_lookup_insert_eq by done.
       split_and!; try done. subst v1. cbn. rewrite Hid, E. done. }
  intros Hne. unfold GetVideoMem. cbn [g_ptVideoMemHead set_vms].
  destruct (find_update _ _ 0 (<[k:=v1]> l)) as [[k' l1]|] eqn:E.
  - apply find_update_Some in E as (j & w & -> & Hl & Hp & -> & _). bool_props. cbn [Nat.add].
    assert (j = k) as ->.
    { destruct (decide (j = k)) as [|Hjk]; [done|].
      rewrite list_lookup_insert_ne in Hl by done. by eapply Huniq. }
    rewrite list_lookup_insert_eq in Hl by done. injection Hl as <-. eexists. split; [reflexivity|].
    cbn [g_ptVideoMemHead set_vms]. rewrite list_insert_insert_eq. f_equal. subst v1. unfold taken. cbn.
    rewrite Hid. by rewrite (proj2 (Z.eqb_neq id (-1))) by done.
  - exfalso. assert (v1 ∈ <[k:=v1]> l) as Hin
      by (apply list_elem_of_lookup; exists k; by apply list_lookup_insert_eq).
    pose proof (find_update_None _ _ _ _ E v1 Hin) as F. subst v1. cbn in F.
    rewrite Hid, Z.eqb_refl in F. done.
Qed.

Lemma put_get_page_witness :
  exists d1, PutVideoMem 0 sample_disp = Some d1 /\
  exists d2, GetVideoMem 7 true d1 = Some (Some 0%nat, d2) /\
    g_ptVideoMemHead d2 = <[0%nat := taken 7 true PS_GENERATED
      (mk_vm 7 false VMS_FREE PS_GENERATED (mk_pic 2 2 16 4 8 []))]> (g_ptVideoMemHead sample_disp).
Proof.
  destruct (put_get_page 0 (mk_vm 7 false VMS_FREE PS_GENERATED (mk_pic 2 2 16 4 8 [])) 7 true sample_disp)
    as (d1 & E1 & H & _); [reflexivity | reflexivity | |].
  - intros [|[|j]] w Hl Hi; [reflexivity | | discriminate]. injection Hl as <-. discriminate.
  - exists d1. split; [exact E1|]. apply H. discriminate.
Defined.

(** [AllocVideoMem] without a selected display: the result -1 of
    [GetDispResolution] is dropped and the display's memory is read through the
    NULL pointer, whatever the number of pages. *)
Theorem alloc_unselected_faults n malloc d : g_ptDefaultDispOpr d = None ->
  GetDispResolution d = Some (-1, None) /\ AllocVideoMem n true malloc d = None.
Proof. intros H. unfold AllocVideoMem, GetDispResolution. rewrite H. done. Qed.

Lemma alloc_unselected_faults_witness :
  GetDispResolution sample_disp = Some (-1, None) /\
  AllocVideoMem 3 true (fun _ => None) sample_disp = None.
Proof. apply (alloc_unselected_faults 3 (fun _ => None) sample_disp). reflexivity. Defined.
