(* ===== verification/PicFmt.v ===== *)
(** The picture readers of the video2lcd program ([src/video2lcd/1_th/render/format]):
    the BMP reader ([bmp.c]), the part of the JPEG reader around libjpeg
    ([jpg.c]) and the list of readers ([picfmt_manager.c]).

    A mapped file is the block of its bytes. What libjpeg decodes is an argument:
    the size, the number of components and the lines it gives one by one, or an
    error, which leaves the reader through [longjmp]. Sizes of pictures are
    [int]s whose products are computed without wrap-around, as in [PicOps]. *)
From S2P Require Import Prelude V4l2 PicOps Disp.
Open Scope Z_scope.

(** * Lines of 24 bits per pixel *)

(** The loop over the pixels of a line; [order] names the three bytes of a pixel
    as red, green and blue. At a depth other than 16 and 32 nothing is stored. *)
Fixpoint convert_loop (todo : nat) (order : Z -> Z -> Z -> Z * Z * Z) (iDstBpp : Z)
    (sm : mem) (pos : Z) (dst : Z) (dm : mem) : option mem :=
  match todo with
  | O => Some dm
  | S todo =>
      b0 ← byte_at sm pos; b1 ← byte_at sm (pos + 1); b2 ← byte_at sm (pos + 2);
      let '(dwRed, dwGreen, dwBlue) := order b0 b1 b2 in
      if iDstBpp =? 32 then
        let dwColor := Z.lor (Z.lor (Z.shiftl dwRed 16) (Z.shiftl dwGreen 8)) dwBlue in
        dm ← mem_write dm dst (bytes32 dwColor);
        convert_loop todo order iDstBpp sm (pos + 3) (dst + 4) dm
      else if iDstBpp =? 16 then
        let dwRed := Z.shiftr dwRed 3 in
        let dwGreen := Z.shiftr dwGreen 2 in
        let dwBlue := Z.shiftr dwBlue 3 in
        let dwColor := Z.lor (Z.lor (Z.shiftl dwRed 11) (Z.shiftl dwGreen 5)) dwBlue in
        dm ← mem_write dm dst (bytes16 dwColor);
        convert_loop todo order iDstBpp sm (pos + 3) (dst + 2) dm
      else convert_loop todo order iDstBpp sm (pos + 3) dst dm
  end.

Definition convert_line (order : Z -> Z -> Z -> Z * Z * Z) (width iSrcBpp iDstBpp : Z)
    (sm : mem) (src : Z) (dm : mem) (dst : Z) : option (Z * mem) :=
  if negb (iSrcBpp =? 24) then Some (-1, dm)
  else if iDstBpp =? 24 then
    bs ← mem_read sm src (width * 3); dm ← mem_write dm dst bs; Some (0, dm)
  else dm ← convert_loop (Z.to_nat width) order iDstBpp sm src dst dm; Some (0, dm).

Definition bgr (b0 b1 b2 : Z) : Z * Z * Z := (b2, b1, b0).
Definition rgb (b0 b1 b2 : Z) : Z * Z * Z := (b0, b1, b2).

(** * BMP *)

Module Bmp.

Definition CovertOneLine := convert_line bgr.

Definition isBMPFormat (file : mem) : option Z :=
  b0 ← byte_at file 0;
  if negb (b0 =? 0x42) then Some 0
  else b1 ← byte_at file 1; if negb (b1 =? 0x4d) then Some 0 else Some 1.

(** The fields of the packed headers at their offsets; [sizeof(BITMAPFILEHEADER)]
    is 14. *)
Definition bfOffBits (file : mem) : option Z := get_unaligned_le32 file 10.
Definition biWidth (file : mem) : option Z := get_unaligned_le32 file (14 + 4).
Definition biHeight (file : mem) : option Z := get_unaligned_le32 file (14 + 8).
Definition biBitCount (file : mem) : option Z := get_unaligned_le16 file (14 + 14).

(** The loop over the lines, from the last line of the file up. *)
Fixpoint bmp_lines (todo : nat) (width iBMPBpp bpp : Z) (file : mem) (src align : Z)
    (dst line : Z) (dm : mem) : option mem :=
  match todo with
  | O => Some dm
  | S todo =>
      '(_, dm) ← CovertOneLine width iBMPBpp bpp file src dm dst;
      bmp_lines todo width iBMPBpp bpp file (src - align) align (dst + line) line dm
  end.

(** [malloc] gives the block for a size, NULL is [None]; the structure then has
    no pixels. *)
Definition GetPixelDatasFrmBMP (malloc : Z -> option mem) (file : mem) (p : T_PixelDatas)
    : option (Z * T_PixelDatas) :=
  w ← biWidth file; h ← biHeight file; iBMPBpp ← biBitCount file;
  let width := s32 w in
  let height := s32 h in
  if negb (iBMPBpp =? 24) then Some (-1, p)
  else
    let line := Z.quot (width * iBpp p) 8 in
    let total := height * line in
    match malloc total with
    | None => Some (-1, mk_pic width height (iBpp p) line total [])
    | Some m =>
        let iLineWidthReal := Z.quot (width * iBMPBpp) 8 in
        let iLineWidthAlign := Z.land (iLineWidthReal + 3) (Z.lnot 0x3) in
        off ← bfOffBits file;
        let src := off + (height - 1) * iLineWidthAlign in
        m ← bmp_lines (Z.to_nat height) width iBMPBpp (iBpp p) file src iLineWidthAlign 0 line m;
        Some (0, mk_pic width height (iBpp p) line total m)
    end.

End Bmp.

(** * JPEG *)

Module Jpg.

Definition CovertOneLine := convert_line rgb.

(** What libjpeg decodes: [None] as a line is an error while decoding it. *)
Record jpeg_image := mk_jpeg {
  output_width : Z;
  output_height : Z;
  output_components : Z;
  scanline : nat -> option mem
}.

(** The loop over the lines; [inr] is the block as far as it was filled when the
    decoder gave up. *)
Fixpoint jpg_lines (todo y : nat) (width bpp : Z) (img : jpeg_image) (dst line : Z) (dm : mem)
    : option (mem + mem) :=
  match todo with
  | O => Some (inl dm)
  | S todo =>
      match scanline img y with
      | None => Some (inr dm)
      | Some buf =>
          '(_, dm) ← CovertOneLine width 24 bpp buf 0 dm dst;
          jpg_lines todo (S y) width bpp img (dst + line) line dm
      end
  end.

(** [img] is [None] when the file's header or the start of the decoder fails;
    [buffer] says whether the line buffer could be allocated. Pixels that were
    freed are an empty block. *)
Definition GetPixelDatasFrmJPG (img : option jpeg_image) (buffer : bool) (malloc : Z -> option mem)
    (p : T_PixelDatas) : option (Z * T_PixelDatas) :=
  match img with
  | None => Some (-1, set_pixels [] p)
  | Some img =>
      if negb buffer then Some (-1, p)
      else
        let width := s32 (output_width img) in
        let height := s32 (output_height img) in
        let line := Z.quot (width * iBpp p) 8 in
        let total := height * line in
        match malloc total with
        | None => Some (-1, mk_pic width height (iBpp p) line total [])
        | Some m =>
            r ← jpg_lines (Z.to_nat (output_height img)) 0 width (iBpp p) img 0 line m;
            match r with
            | inl m => Some (0, mk_pic width height (iBpp p) line total m)
            | inr _ => Some (-1, mk_pic width height (iBpp p) line total [])
            end
        end
  end.

End Jpg.

(** * The list of readers *)

(** A reader: its name and whether it accepts a file. *)
Record T_PicFileParser := mk_parser {
  parser_name : string;
  isSupport : mem -> option Z
}.

Definition RegisterPicFileParser (p : T_PicFileParser) (l : list T_PicFileParser)
    : Z * list T_PicFileParser := (0, l ++ [p]).

Fixpoint Parser (pcName : string) (l : list T_PicFileParser) : option T_PicFileParser :=
  match l with
  | [] => None
  | p :: l => if bool_decide (parser_name p = pcName) then Some p else Parser pcName l
  end.

(** The outer [option] is a fault of a reader, the inner one NULL. *)
Fixpoint GetParser (file : mem) (l : list T_PicFileParser) : option (option T_PicFileParser) :=
  match l with
  | [] => Some None
  | p :: l => r ← isSupport p file; if truth r then Some (Some p) else GetParser file l
  end.

(** [isJPGFormat] asks libjpeg and is an argument. *)
Definition PicFmtsInit (isJPGFormat : mem -> option Z) (l : list T_PicFileParser)
    : Z * list T_PicFileParser :=
  let '(e1, l) := RegisterPicFileParser (mk_parser "bmp" Bmp.isBMPFormat) l in
  let '(e2, l) := RegisterPicFileParser (mk_parser "jpg" isJPGFormat) l in
  (Z.lor e1 e2, l).

(** * Converted pixels *)

(** The three bytes of a pixel as the destination stores them. *)
Definition out_pixel (order : Z -> Z -> Z -> Z * Z * Z) (bpp : Z) (px : mem) : option mem :=
  match px with
  | [b0; b1; b2] =>
      let '(r, g, b) := order b0 b1 b2 in
      if bpp =? 24 then Some px
      else color_bytes bpp (Z.lor (Z.lor (Z.shiftl r 16) (Z.shiftl g 8)) b)
  | _ => None
  end.

(** A pixel of a line of 24 bits per pixel, converted. *)
Definition line_pixel (order : Z -> Z -> Z -> Z * Z * Z) (bpp : Z) (sm : mem) (src x : Z)
    : option mem :=
  px ← mem_read sm (src + x * 3) 3; out_pixel order bpp px.

Definition is_bytes (m : mem) : Prop := Forall is_u8 m.

Definition depth_ok (bpp : Z) : Prop := bpp = 16 \/ bpp = 24 \/ bpp = 32.

(** Both ways of forming a 5-6-5 colour agree. *)
Lemma rgb565_join r g b : is_u8 r -> is_u8 g -> is_u8 b ->
  Z.lor (Z.lor (Z.shiftl (Z.shiftr r 3) 11) (Z.shiftl (Z.shiftr g 2) 5)) (Z.shiftr b 3) =
  rgb565 (Z.lor (Z.lor (Z.shiftl r 16) (Z.shiftl g 8)) b).
Proof.
  unfold rgb565, is_u8. intros Hr Hg Hb. change 0x1f with (Z.ones 5). change 0x3f with (Z.ones 6).
  rewrite !Z.land_ones by lia. unfold u16. bits_eq;
    repeat match goal with
    | |- context [Z.testbit ?z ?k] => rewrite (byte_bits z k) by (unfold is_u8; lia)
    end; rewrite ?orb_false_r, ?orb_false_l; try done; f_equal; lia.
Qed.

Lemma read3 sm pos : 0 <= pos -> pos + 3 <= zlen sm ->
  exists b0 b1 b2, byte_at sm pos = Some b0 /\ byte_at sm (pos + 1) = Some b1 /\
  byte_at sm (pos + 2) = Some b2 /\ mem_read sm pos 3 = Some [b0; b1; b2].
Proof.
  intros H0 H3. unfold byte_at, zlen in *. rewrite !(proj2 (Z.leb_le 0 _)) by lia.
  assert (forall i, (i < length sm)%nat -> is_Some (sm !! i)) as Hs by (intros; by apply lookup_lt_is_Some_2).
  destruct (Hs (Z.to_nat pos)) as [b0 E0]; [lia|].
  destruct (Hs (Z.to_nat (pos + 1))) as [b1 E1]; [lia|].
  destruct (Hs (Z.to_nat (pos + 2))) as [b2 E2]; [lia|].
  exists b0, b1, b2. split_and!; try done. rewrite mem_read_in by (unfold zlen; lia). f_equal.
  rewrite Z2Nat.inj_add in E1, E2 by lia. rewrite (drop_S _ b0) by done.
  rewrite (drop_S _ b1) by (rewrite <- E1; f_equal; lia).
  rewrite (drop_S _ b2) by (rewrite <- E2; f_equal; lia). done.
Qed.

Lemma bytes_at sm pos b : is_bytes sm -> byte_at sm pos = Some b -> is_u8 b.
Proof.
  unfold byte_at. intros H E. destruct (0 <=? pos); [|done]. by eapply Forall_lookup_1.
Qed.

(** The loop writes one converted pixel after the other. *)
Lemma convert_loop_spec order bpp sm : (order = bgr \/ order = rgb) -> is_bytes sm ->
  bpp = 16 \/ bpp = 32 -> let pb := bpp / 8 in
  forall todo pos dst dm, 0 <= pos -> pos + Z.of_nat todo * 3 <= zlen sm ->
  0 <= dst -> dst + Z.of_nat todo * pb <= zlen dm ->
  exists dm', convert_loop todo order bpp sm pos dst dm = Some dm' /\
  same_outside dst (dst + Z.of_nat todo * pb) dm dm' /\
  forall x, 0 <= x < Z.of_nat todo ->
    mem_read dm' (dst + x * pb) pb = line_pixel order bpp sm pos x.
Proof.
  intros Hord Hsm Hb pb. assert (pb = 2 \/ pb = 4) as Hpb by (subst pb; destruct Hb as [-> | ->]; auto).
  induction todo as [|todo IH]; intros pos dst dm Hp Hps Hd Hds.
  { exists dm. split; [done|]. split; [by split|]. lia. }
  destruct (read3 sm pos) as (b0 & b1 & b2 & E0 & E1 & E2 & E3); [done | lia |].
  pose proof (bytes_at _ _ _ Hsm E0). pose proof (bytes_at _ _ _ Hsm E1).
  pose proof (bytes_at _ _ _ Hsm E2).
  assert (exists v, out_pixel order bpp [b0; b1; b2] = Some v /\ zlen v = pb /\
    convert_loop (S todo) order bpp sm pos dst dm =
    (dm ← mem_write dm dst v; convert_loop todo order bpp sm (pos + 3) (dst + pb) dm))
    as (v & Ev & Lv & ->).
  { cbn [convert_loop]. rewrite E0, E1, E2. cbn [mbind option_bind]. unfold out_pixel.
    subst pb. destruct Hb as [-> | ->]; destruct Hord as [-> | ->]; cbn [bgr rgb];
      eexists; (split; [reflexivity|]); (split; [done|]); [| |done|done];
      change (16 =? 32) with false; change (16 =? 16) with true; cbn iota;
      by rewrite rgb565_join. }
  destruct (mem_write_ok dm dst v) as (dm1 & -> & [L1 O1] & R1); [done | lia |]. cbn [mbind option_bind].
  destruct (IH (pos + 3) (dst + pb) dm1) as (dm' & -> & [L O] & Hpx); [lia | lia | lia | lia |].
  exists dm'. split; [done|]. split.
  { split; [lia|]. intros off l Hoff. rewrite O by lia. apply O1. lia. }
  intros x Hx. destruct (decide (x = 0)) as [->|].
  - rewrite Z.mul_0_l, Z.add_0_r. rewrite O by lia. unfold line_pixel.
    rewrite Z.mul_0_l, Z.add_0_r, E3. rewrite Lv in R1. by rewrite R1.
  - replace (dst + x * pb) with (dst + pb + (x - 1) * pb) by lia. rewrite Hpx by lia.
    unfold line_pixel. by replace (pos + 3 + (x - 1) * 3) with (pos + x * 3) by lia.
Qed.

Lemma convert_line_spec order bpp sm w src dst dm :
  (order = bgr \/ order = rgb) -> is_bytes sm -> depth_ok bpp -> let pb := bpp / 8 in
  0 <= w -> 0 <= src -> src + w * 3 <= zlen sm -> 0 <= dst -> dst + w * pb <= zlen dm ->
  exists dm', convert_line order w 24 bpp sm src dm dst = Some (0, dm') /\
  same_outside dst (dst + w * pb) dm dm' /\
  forall x, 0 <= x < w -> mem_read dm' (dst + x * pb) pb = line_pixel order bpp sm src x.
Proof.
  intros Hord Hsm Hb pb Hw Hs Hss Hd Hds. unfold convert_line. change (negb (24 =? 24)) with false. cbn iota.
  destruct (Z.eqb_spec bpp 24) as [->|Hne].
  - change pb with 3 in *. set (bs := take (Z.to_nat (w * 3)) (drop (Z.to_nat src) sm)).
    assert (mem_read sm src (w * 3) = Some bs) as Hr by (apply mem_read_in; lia).
    rewrite Hr. cbn [mbind option_bind]. pose proof (mem_read_length _ _ _ _ Hr) as Hl.
    destruct (mem_write_ok dm dst bs) as (dm' & -> & O & R); [done | lia |]. rewrite Hl in O, R.
    exists dm'. split; [done|]. split; [done|]. intros x Hx. unfold line_pixel.
    rewrite (mem_read_sub _ _ _ _ _ _ R), (mem_read_sub _ _ _ _ _ _ Hr) by lia.
    destruct (read3 bs (x * 3)) as (b0 & b1 & b2 & _ & _ & _ & ->); [lia | lia |].
    cbn. by destruct Hord as [-> | ->].
  - destruct (convert_loop_spec order bpp sm Hord Hsm) with (todo := Z.to_nat w) (pos := src)
      (dst := dst) (dm := dm) as (dm' & -> & O & Hpx); rewrite ?Z2Nat.id in * by lia; try done.
    { destruct Hb as [?|[?|?]]; [by left | done | by right]. }
    exists dm'. done.
Qed.

Lemma byte_at_ge m i : zlen m <= i -> byte_at m i = None.
Proof.
  unfold byte_at, zlen. intros. destruct (0 <=? i); [|done]. apply lookup_ge_None. lia.
Qed.

(** A line with fewer bytes than its pixels need is read outside its block. *)
Lemma convert_loop_short order bpp sm : forall todo pos dst dm,
  (0 < todo)%nat -> zlen sm < pos + Z.of_nat todo * 3 ->
  convert_loop todo order bpp sm pos dst dm = None.
Proof.
  induction todo as [|todo IH]; intros pos dst dm Ht Hl; [lia|]. cbn [convert_loop].
  destruct (byte_at sm pos) as [b0|]; [|done]. destruct (byte_at sm (pos + 1)) as [b1|]; [|done].
  destruct (byte_at sm (pos + 2)) as [b2|] eqn:E2; [|done]. cbn [mbind option_bind].
  destruct (decide (zlen sm <= pos + 2)); [by rewrite byte_at_ge in E2|].
  destruct (order b0 b1 b2) as [[r g] b].
  repeat case_if; try (apply IH; lia);
    (destruct (mem_write _ _ _); [cbn [mbind option_bind]; apply IH; lia | done]).
Qed.

Lemma convert_line_short order bpp sm w src dst dm :
  0 < w -> zlen sm < src + w * 3 -> convert_line order w 24 bpp sm src dm dst = None.
Proof.
  intros Hw Hl. unfold convert_line. change (negb (24 =? 24)) with false. cbn iota.
  destruct (bpp =? 24).
  - unfold mem_read. destruct (in_block _ _ _) eqn:E; [|done]. apply in_block_spec in E. lia.
  - by rewrite convert_loop_short by lia.
Qed.

(** * Rows *)

(** [n] rows of [w] pixels from [dst] on are the ones of [get], and nothing
    before them changed. *)
Definition rows_are (get : Z -> Z -> option mem) (w pb line n dst : Z) (dm dm' : mem) : Prop :=
  zlen dm' = zlen dm /\
  (forall x y, 0 <= x < w -> 0 <= y < n -> mem_read dm' (dst + y * line + x * pb) pb = get x y) /\
  (forall off l, off + l <= dst -> mem_read dm' off l = mem_read dm off l).

Lemma rows_are_step get w pb line n dst dm dm1 dm' : 0 < pb -> 0 <= line -> w * pb <= line ->
  same_outside dst (dst + w * pb) dm dm1 ->
  (forall x, 0 <= x < w -> mem_read dm1 (dst + x * pb) pb = get x 0) ->
  rows_are (fun x y => get x (y + 1)) w pb line n (dst + line) dm1 dm' ->
  rows_are get w pb line (n + 1) dst dm dm'.
Proof.
  intros Hpb Hl0 Hl [L1 O1] R1 (L & Hin & Hout). split; [lia|]. split.
  - intros x y Hx Hy. assert ((x + 1) * pb <= w * pb) by (apply Z.mul_le_mono_nonneg_r; lia).
    destruct (decide (y = 0)) as [->|].
    + rewrite Z.mul_0_l, Z.add_0_r. rewrite Hout by lia. by apply R1.
    + replace (dst + y * line) with (dst + line + (y - 1) * line) by lia.
      rewrite Hin by lia. f_equal. lia.
  - intros off l Hoff. rewrite Hout by lia. apply O1. lia.
Qed.

Module BmpSpec.
Import Bmp.

(** Lines in a BMP file are padded to four bytes. *)
Definition bmp_align (w : Z) : Z := (w * 3 + 3) / 4 * 4.

Lemma align_eq w : 0 <= w -> Z.land (Z.quot (w * 24) 8 + 3) (Z.lnot 3) = bmp_align w.
Proof.
  intros Hw. replace (w * 24) with (w * 3 * 8) by lia. rewrite Z.quot_mul by lia. unfold bmp_align.
  change 3 with (Z.ones 2) at 3. rewrite <- Z.ldiff_land, Z.ldiff_ones_r by lia.
  rewrite Z.shiftr_div_pow2, Z.shiftl_mul_pow2 by lia. done.
Qed.

Lemma align_ge w : 0 <= w -> w * 3 <= bmp_align w.
Proof. intros. unfold bmp_align. Z.to_euclidean_division_equations; lia. Qed.

Lemma bmp_lines_spec w bpp file align : is_bytes file -> depth_ok bpp -> 0 <= w -> w * 3 <= align ->
  let pb := bpp / 8 in
  forall todo src dst line dm, (todo = 0%nat \/ 0 <= src - (Z.of_nat todo - 1) * align) ->
  (todo = 0%nat \/ src + w * 3 <= zlen file) -> 0 <= dst -> line = w * pb ->
  dst + Z.of_nat todo * line <= zlen dm ->
  exists dm', bmp_lines todo w 24 bpp file src align dst line dm = Some dm' /\
  rows_are (fun x y => line_pixel bgr bpp file (src - y * align) x) w pb line (Z.of_nat todo) dst dm dm'.
Proof.
  intros Hf Hb Hw Ha pb. assert (0 < pb) as Hpb by (subst pb; by destruct Hb as [-> | [-> | ->]]).
  induction todo as [|todo IH]; intros src dst line dm H1 H2 Hd El Hfit; cbn [bmp_lines].
  { exists dm. split; [done|]. split; [done|]. split; [lia | done]. }
  destruct H1 as [?|H1]; [done|]. destruct H2 as [?|H2]; [done|].
  destruct (convert_line_spec bgr bpp file w src dst dm) as (dm1 & E1 & O1 & R1);
    [by left | done | done | done | nia | done | done | subst line; fold pb; nia |].
  unfold CovertOneLine. rewrite E1. cbn [mbind option_bind].
  destruct (IH (src - align) (dst + line) line dm1) as (dm' & -> & Hrows);
    [destruct todo; [by left | right; lia] | right; lia | nia | done | destruct O1; lia |].
  exists dm'. split; [done|]. replace (Z.of_nat (S todo)) with (Z.of_nat todo + 1) by lia.
  eapply rows_are_step; [done | nia | lia | exact O1 | |].
  - intros x Hx. cbn beta. rewrite Z.mul_0_l, Z.sub_0_r. by apply R1.
  - destruct Hrows as (L & Hin & Hout). split; [done|]. split; [|done]. intros x y Hx Hy.
    rewrite Hin by done. f_equal. lia.
Qed.

End BmpSpec.

(** * Properties of the readers *)

(** C36. Reading a BMP file of 24 bits per pixel: for a file that holds what its
    header says, the result is a picture of the width and height of the header at
    the depth asked for, whose pixel at column [x] of row [y] is the file's pixel
    at column [x] of the [y]-th line from the end, converted: at 16 and 32 bits
    per pixel to the bytes the screen stores for the same colour. *)
Theorem bmp_spec malloc file p w h off :
  is_bytes file -> Bmp.biWidth file = Some w -> Bmp.biHeight file = Some h ->
  Bmp.biBitCount file = Some 24 -> Bmp.bfOffBits file = Some off ->
  0 < w < 2 ^ 15 -> 0 < h < 2 ^ 15 -> 0 <= off ->
  off + (h - 1) * BmpSpec.bmp_align w + w * 3 <= zlen file -> depth_ok (iBpp p) ->
  (forall n, 0 <= n -> exists m, malloc n = Some m /\ zlen m = n) ->
  exists p', Bmp.GetPixelDatasFrmBMP malloc file p = Some (0, p') /\ pic_ok p' /\
  iWidth p' = w /\ iHeight p' = h /\ iBpp p' = iBpp p /\
  forall x y, in_pic p' x y ->
    pixel p' x y =
    line_pixel bgr (iBpp p) file (off + (h - 1 - y) * BmpSpec.bmp_align w) x.
Proof.
  intros Hf Ew Eh Eb Eo Hw Hh Ho Hfit Hd Hm. unfold Bmp.GetPixelDatasFrmBMP.
  rewrite Ew, Eh, Eb, Eo. cbn [mbind option_bind]. rewrite !s32_small by (split; lia).
  change (negb (24 =? 24)) with false. cbn iota.
  assert (exists pb, iBpp p = 8 * pb /\ 0 < pb <= 4) as (pb & Ep & Hpb)
    by (destruct Hd as [->|[->| ->]]; [exists 2|exists 3|exists 4]; lia).
  assert (iBpp p / 8 = pb) as Epb by (rewrite Ep, Z.mul_comm; by apply Z.div_mul).
  assert (Z.quot (w * iBpp p) 8 = w * pb) as El
    by (rewrite Ep; replace (w * (8 * pb)) with (w * pb * 8) by lia; by apply Z.quot_mul).
  rewrite El, BmpSpec.align_eq by lia. pose proof (BmpSpec.align_ge w ltac:(lia)) as Hal.
  destruct (Hm (h * (w * pb))) as (m & -> & Lm); [nia|]. set (al := BmpSpec.bmp_align w) in *.
  destruct (BmpSpec.bmp_lines_spec w (iBpp p) file al Hf Hd ltac:(lia) Hal (Z.to_nat h)
              (off + (h - 1) * al) 0 (w * pb) m) as (m' & -> & L & Hpx & _);
    rewrite ?Z2Nat.id by lia; [right; lia | right; lia | done | by rewrite Epb | lia |].
  cbn [mbind option_bind]. eexists. split; [reflexivity|].
  rewrite Z2Nat.id in Hpx by lia. rewrite Epb in Hpx. split.
  { split; unfold pixel_bytes; cbn; rewrite ?Epb; lia. }
  split_and!; try done. intros x y [Hx Hy]. cbn in Hx, Hy. unfold pixel, pixel_bytes. cbn.
  rewrite Epb. specialize (Hpx x y Hx Hy). rewrite Z.add_0_l in Hpx. rewrite Hpx. f_equal. lia.
Qed.

(** A file of 2 x 2 pixels, its lines padded to 8 bytes. *)
Definition sample_bmp : mem :=
  [0x42; 0x4d; 70; 0; 0; 0; 0; 0; 0; 0; 54; 0; 0; 0] ++
  [40; 0; 0; 0; 2; 0; 0; 0; 2; 0; 0; 0; 1; 0; 24; 0] ++ replicate 24 0 ++
  [0; 0; 255; 0; 255; 0; 0; 0] ++ [255; 0; 0; 255; 255; 255; 0; 0].

Lemma sample_bmp_bytes : is_bytes sample_bmp.
Proof. unfold is_bytes, sample_bmp, is_u8. repeat constructor; lia. Qed.

Lemma bmp_spec_witness :
  exists p', Bmp.GetPixelDatasFrmBMP (fun n => Some (replicate (Z.to_nat n) 0)) sample_bmp
               (mk_pic 0 0 16 0 0 []) = Some (0, p') /\ pic_ok p' /\
  iWidth p' = 2 /\ iHeight p' = 2 /\ pixel p' 0 1 = Some [0; 0xf8].
Proof.
  destruct (bmp_spec (fun n => Some (replicate (Z.to_nat n) 0)) sample_bmp (mk_pic 0 0 16 0 0 []) 2 2 54
              sample_bmp_bytes) as (p' & E & Hok & Ew & Eh & _ & Hpx);
    try reflexivity; try lia; try (vm_compute; discriminate).
  - left. reflexivity.
  - intros n Hn. eexists. split; [reflexivity|]. rewrite zlen_replicate. lia.
  - exists p'. split; [exact E|]. split; [exact Hok|]. split; [exact Ew|]. split; [exact Eh|].
    rewrite Hpx by (unfold in_pic; lia). reflexivity.
Defined.

Module JpgSpec.
Import Jpg.

Lemma jpg_lines_spec w bpp img : 0 <= w -> depth_ok bpp -> let pb := bpp / 8 in
  forall todo y0 dst line dm,
  (forall y, (y0 <= y < y0 + todo)%nat ->
     exists buf, scanline img y = Some buf /\ is_bytes buf /\ w * 3 <= zlen buf) ->
  0 <= dst -> line = w * pb -> dst + Z.of_nat todo * line <= zlen dm ->
  exists dm', jpg_lines todo y0 w bpp img dst line dm = Some (inl dm') /\
  rows_are (fun x y => buf ← scanline img (y0 + Z.to_nat y)%nat; line_pixel rgb bpp buf 0 x)
    w pb line (Z.of_nat todo) dst dm dm'.
Proof.
  intros Hw Hb pb. assert (0 < pb) as Hpb by (subst pb; by destruct Hb as [-> | [-> | ->]]).
  induction todo as [|todo IH]; intros y0 dst line dm Hs Hd El Hfit; cbn [jpg_lines].
  { exists dm. split; [done|]. split; [done|]. split; [lia | done]. }
  destruct (Hs y0) as (buf & Es & Hbytes & Hlen); [lia|]. rewrite Es.
  destruct (convert_line_spec rgb bpp buf w 0 dst dm) as (dm1 & E1 & O1 & R1);
    [by right | done | done | done | done | lia | done | subst line; fold pb; nia |].
  unfold CovertOneLine. rewrite E1. cbn [mbind option_bind].
  destruct (IH (S y0) (dst + line) line dm1) as (dm' & -> & L & Hin & Hout);
    [intros; apply Hs; lia | nia | done | destruct O1; lia |].
  exists dm'. split; [done|]. replace (Z.of_nat (S todo)) with (Z.of_nat todo + 1) by lia.
  eapply rows_are_step; [done | nia | lia | exact O1 | |].
  - intros x Hx. cbn beta. rewrite Nat.add_0_r, Es. by apply R1.
  - split; [done|]. split; [|done]. intros x y Hx Hy. rewrite Hin by done.
    by replace (S y0 + Z.to_nat y)%nat with (y0 + Z.to_nat (y + 1))%nat by lia.
Qed.

End JpgSpec.

(** Reading a JPEG file: when libjpeg gives all lines with three components
    per pixel, the result is a picture of the decoded size whose pixels are the
    decoded ones at the depth asked for. With one component per pixel, as libjpeg
    gives for a grey picture, the conversion of the first line reads outside the
    line buffer. *)
Theorem jpg_spec malloc p img :
  0 < Jpg.output_width img < 2 ^ 15 -> 0 < Jpg.output_height img < 2 ^ 15 ->
  (forall y, exists buf, Jpg.scanline img y = Some buf /\ is_bytes buf /\
     zlen buf = Jpg.output_width img * Jpg.output_components img) ->
  depth_ok (iBpp p) -> (forall n, 0 <= n -> exists m, malloc n = Some m /\ zlen m = n) ->
  (Jpg.output_components img = 3 ->
   exists p', Jpg.GetPixelDatasFrmJPG (Some img) true malloc p = Some (0, p') /\ pic_ok p' /\
   iWidth p' = Jpg.output_width img /\ iHeight p' = Jpg.output_height img /\
   forall x y, in_pic p' x y ->
     pixel p' x y =
     (buf ← Jpg.scanline img (Z.to_nat y); line_pixel rgb (iBpp p) buf 0 x)) /\
  (Jpg.output_components img = 1 ->
   Jpg.GetPixelDatasFrmJPG (Some img) true malloc p = None).
Proof.
  intros Hw Hh Hs Hd Hm. unfold Jpg.GetPixelDatasFrmJPG. cbn [negb].
  rewrite !s32_small by (split; lia).
  set (w := Jpg.output_width img) in *. set (h := Jpg.output_height img) in *.
  assert (exists pb, iBpp p = 8 * pb /\ 0 < pb <= 4) as (pb & Ep & Hpb)
    by (destruct Hd as [->|[->| ->]]; [exists 2|exists 3|exists 4]; lia).
  assert (iBpp p / 8 = pb) as Epb by (rewrite Ep, Z.mul_comm; by apply Z.div_mul).
  assert (Z.quot (w * iBpp p) 8 = w * pb) as El
    by (rewrite Ep; replace (w * (8 * pb)) with (w * pb * 8) by lia; by apply Z.quot_mul).
  rewrite El. destruct (Hm (h * (w * pb))) as (m & -> & Lm); [nia|]. split; intros Hc.
  - destruct (JpgSpec.jpg_lines_spec w (iBpp p) img ltac:(lia) Hd (Z.to_nat h) 0 0 (w * pb) m)
      as (m' & -> & L & Hpx & _); rewrite ?Z2Nat.id by lia; [| done | by rewrite Epb | lia |].
    { intros y _. destruct (Hs y) as (buf & ? & ? & Hl). exists buf. rewrite Hl, Hc. split_and!; [done|done|lia]. }
    cbn [mbind option_bind]. eexists. split; [reflexivity|].
    rewrite Z2Nat.id in Hpx by lia. rewrite Epb in Hpx. split.
    { split; unfold pixel_bytes; cbn; rewrite ?Epb; lia. }
    split_and!; try done. intros x y [Hx Hy]. cbn in Hx, Hy. unfold pixel, pixel_bytes. cbn.
    rewrite Epb. specialize (Hpx x y Hx Hy). rewrite Z.add_0_l in Hpx. exact Hpx.
  - destruct (Z.to_nat h) eqn:E; [lia|]. cbn [Jpg.jpg_lines].
    destruct (Hs 0%nat) as (buf & -> & _ & Hl). unfold Jpg.CovertOneLine.
    by rewrite convert_line_short by (rewrite ?Hl, ?Hc; lia).
Qed.

(** A picture of two equal lines. *)
Definition sample_jpeg (components : Z) (line : mem) : Jpg.jpeg_image :=
  Jpg.mk_jpeg 2 2 components (fun _ => Some line).

Lemma jpg_spec_witness :
  (exists p', Jpg.GetPixelDatasFrmJPG (Some (sample_jpeg 3 [255; 0; 0; 0; 255; 0])) true
                (fun n => Some (replicate (Z.to_nat n) 0)) (mk_pic 0 0 32 0 0 []) = Some (0, p') /\
   pic_ok p' /\ pixel p' 1 1 = Some [0; 255; 0; 0]) /\
  Jpg.GetPixelDatasFrmJPG (Some (sample_jpeg 1 [10; 20])) true
    (fun n => Some (replicate (Z.to_nat n) 0)) (mk_pic 0 0 32 0 0 []) = None.
Proof.
  assert (forall n, 0 <= n -> exists m, Some (replicate (Z.to_nat n) 0) = Some m /\ zlen m = n) as Hm.
  { intros n Hn. eexists. split; [reflexivity|]. rewrite zlen_replicate. lia. }
  split.
  - destruct (jpg_spec (fun n => Some (replicate (Z.to_nat n) 0)) (mk_pic 0 0 32 0 0 [])
                (sample_jpeg 3 [255; 0; 0; 0; 255; 0])) as [H _];
      [cbn; lia | cbn; lia | | right; right; reflexivity | exact Hm |].
    + intros y. eexists. split; [reflexivity|]. split; [|reflexivity].
      unfold is_bytes, is_u8. repeat constructor; lia.
    + destruct (H eq_refl) as (p' & E & Hok & Ew & Eh & Hpx). exists p'. split; [exact E|].
      split; [exact Hok|]. rewrite Hpx by (unfold in_pic; rewrite Ew, Eh; cbn; lia). reflexivity.
  - apply (jpg_spec (fun n => Some (replicate (Z.to_nat n) 0)) (mk_pic 0 0 32 0 0 [])
                (sample_jpeg 1 [10; 20]));
      [cbn; lia | cbn; lia | | right; right; reflexivity | exact Hm | reflexivity].
    intros y. eexists. split; [reflexivity|]. split; [|reflexivity].
    unfold is_bytes, is_u8. repeat constructor; lia.
Defined.

(** The readers as [PicFmtsInit] registers them: a file that starts with [BM] is
    read by the BMP reader, and libjpeg is asked about every other file. *)
Lemma parser_of_file isJPG file b0 b1 : byte_at file 0 = Some b0 -> byte_at file 1 = Some b1 ->
  is_Some (isJPG file) ->
  (fmap (M:=option) parser_name) <$> GetParser file (snd (PicFmtsInit isJPG [])) =
  Some (if (b0 =? 0x42) && (b1 =? 0x4d) then Some "bmp"%string
        else if truth (default 0 (isJPG file)) then Some "jpg"%string else None).
Proof.
  intros E0 E1 [r Er]. unfold PicFmtsInit, RegisterPicFileParser. cbn [snd app GetParser isSupport].
  unfold Bmp.isBMPFormat. rewrite E0, E1, Er. cbn [mbind option_bind default from_option id].
  destruct (b0 =? 0x42), (b1 =? 0x4d), (truth r) eqn:T; cbn; rewrite ?T; done.
Qed.
