(* ===== verification/Float32.v ===== *)
(** The arithmetic of [float] (IEEE 754 binary32, round to nearest even) as far as
    [src/video2lcd/Test/main.c] uses it to scale a picture: conversion from and to
    [int], multiplication and division. The definitions work on ratios of
    integers; they are compared with the Standard Library's specification of
    floating-point numbers on samples. *)
From Stdlib Require Import SpecFloat.
From S2P Require Import Prelude.
Open Scope Z_scope.

#[export] Instance spec_float_eq_dec : EqDecision spec_float.
Proof. solve_decision. Defined.

(** * Binary32 arithmetic *)

(** [f_m * 2 ^ f_e], with at most 24 bits in [f_m]. The values of this program lie
    between [2 ^ -31] and [2 ^ 62], where the exponent is not limited. *)
Record float32 := mk_f32 { f_m : Z; f_e : Z }.

(** The largest [l] with [2 ^ l <= n / d]. *)
Definition log2_ratio (n d : Z) : Z :=
  let q := Z.log2 n - Z.log2 d in
  if (if 0 <=? q then d * 2 ^ q <=? n else d <=? n * 2 ^ (- q)) then q else q - 1.

(** The integer nearest to [n / d], the even one of two. *)
Definition nearest_even (n d : Z) : Z :=
  let m := n / d in
  let r := n mod d in
  if (2 * r >? d) || ((2 * r =? d) && Z.odd m) then m + 1 else m.

(** The nearest float to [n / d] for [n] at least 0 and [d] positive. *)
Definition round_pos (n d : Z) : float32 :=
  if n =? 0 then mk_f32 0 0
  else
    let e := log2_ratio n d - 23 in
    mk_f32 (if 0 <=? e then nearest_even n (d * 2 ^ e) else nearest_even (n * 2 ^ (- e)) d) e.

Definition round_ratio (n d : Z) : float32 :=
  if n <? 0 then let f := round_pos (- n) d in mk_f32 (- f_m f) (f_e f) else round_pos n d.

(** [m * 2 ^ e] as a ratio. *)
Definition ratio (m e : Z) : Z * Z := if 0 <=? e then (m * 2 ^ e, 1) else (m, 2 ^ (- e)).

Definition float_of_int (i : Z) : float32 := round_ratio i 1.

Definition fmul (a b : float32) : float32 :=
  let '(n, d) := ratio (f_m a * f_m b) (f_e a + f_e b) in round_ratio n d.

(** Dividing by zero gives an infinity or a NaN, whose conversion to [int], which
    always follows in this program, is undefined. *)
Definition fdiv (a b : float32) : option float32 :=
  if f_m b =? 0 then None
  else
    let '(n, d) := ratio (f_m a * Z.sgn (f_m b)) (f_e a - f_e b) in
    Some (round_ratio n (d * Z.abs (f_m b))).

(** Conversion to [int] cuts the fraction off and is undefined out of range. *)
Definition int_of_float (a : float32) : option Z :=
  let '(n, d) := ratio (f_m a) (f_e a) in
  let i := Z.quot n d in
  if (- 2 ^ 31 <=? i) && (i <? 2 ^ 31) then Some i else None.

(** * Bounds of rounding *)

Lemma nearest_even_le n d N : 0 < d -> n <= N * d -> nearest_even n d <= N.
Proof.
  intros Hd Hn. unfold nearest_even. pose proof (Z.div_mod n d ltac:(lia)) as E.
  pose proof (Z.mod_pos_bound n d Hd).
  assert (n / d <= N) by (apply Z.div_le_upper_bound; lia).
  destruct (decide (n / d = N)) as [Eq|]; [|case_if; lia].
  assert (n mod d = 0) as -> by (rewrite Eq in E; lia).
  rewrite (proj2 (Z.eqb_neq _ d)) by lia. cbn [andb]. case_if; bool_lia.
Qed.

Lemma nearest_even_nonneg n d : 0 < d -> 0 <= n -> 0 <= nearest_even n d.
Proof.
  intros Hd Hn. unfold nearest_even. assert (0 <= n / d) by (apply Z.div_pos; lia). case_if; lia.
Qed.

Lemma nearest_even_exact n : nearest_even n 1 = n.
Proof. unfold nearest_even. by rewrite Z.mod_1_r, Z.div_1_r. Qed.

(** The exponent of a ratio that is at most [b * 2 ^ j]. *)
Lemma log2_ratio_le n d b j : 0 < n -> 0 < d -> 0 < b < 2 ^ 24 -> 0 <= j -> n <= b * 2 ^ j * d ->
  log2_ratio n d <= j + 23.
Proof.
  intros Hn Hd Hb Hj Hle. unfold log2_ratio.
  destruct (Z.log2_spec n Hn) as [N1 N2]. destruct (Z.log2_spec d Hd) as [D1 D2].
  pose proof (Z.log2_nonneg n). pose proof (Z.log2_nonneg d).
  assert (n < 2 ^ (24 + j) * d) as Hlt.
  { rewrite Z.pow_add_r by lia. assert (0 < 2 ^ j) by (apply Z.pow_pos_nonneg; lia). nia. }
  set (q := Z.log2 n - Z.log2 d) in *.
  assert (q <= j + 24) as Hq.
  { apply Z.nlt_ge. intros Hq. assert (2 ^ (24 + j) * 2 ^ Z.succ (Z.log2 d) <= n).
    { rewrite <- Z.pow_add_r by lia. etransitivity; [|exact N1]. apply Z.pow_le_mono_r; lia. }
    assert (0 < 2 ^ (24 + j)) by (apply Z.pow_pos_nonneg; lia). nia. }
  case_if; [|lia]. apply Z.nlt_ge. intros Hq'. assert (q = 24 + j) as Eq by lia.
  rewrite (proj2 (Z.leb_le 0 q)) in * by lia. bool_props. rewrite Eq in *. lia.
Qed.

(** Rounding does not go past a number with 24 bits. *)
Lemma round_pos_le n d b j : 0 <= n -> 0 < d -> 0 < b < 2 ^ 24 -> 0 <= j -> n <= b * 2 ^ j * d ->
  let f := round_pos n d in f_e f <= j /\ 0 <= f_m f <= b * 2 ^ (j - f_e f).
Proof.
  intros Hn Hd Hb Hj Hle. unfold round_pos. destruct (Z.eqb_spec n 0) as [->|].
  { cbn. rewrite Z.sub_0_r. assert (0 < 2 ^ j) by (apply Z.pow_pos_nonneg; lia). nia. }
  cbn zeta. cbn [f_e f_m]. pose proof (log2_ratio_le n d b j ltac:(lia) Hd Hb Hj Hle).
  set (e := log2_ratio n d - 23) in *. split; [lia|].
  destruct (Z.leb_spec 0 e).
  - assert (0 < 2 ^ e) by (apply Z.pow_pos_nonneg; lia). split; [apply nearest_even_nonneg; nia|].
    apply nearest_even_le; [nia|]. replace j with (j - e + e) in Hle by lia.
    rewrite Z.pow_add_r in Hle by lia. lia.
  - assert (0 < 2 ^ (- e)) by (apply Z.pow_pos_nonneg; lia). split; [apply nearest_even_nonneg; nia|].
    apply nearest_even_le; [done|]. replace (j - e) with (j + - e) by lia.
    rewrite Z.pow_add_r by lia. nia.
Qed.

(** A small [int] is represented exactly. *)
Lemma int_exact i : 0 <= i < 2 ^ 24 -> let f := float_of_int i in
  f_e f <= 0 /\ f_m f = i * 2 ^ (- f_e f).
Proof.
  intros Hi. unfold float_of_int, round_ratio. rewrite (proj2 (Z.ltb_ge i 0)) by lia.
  unfold round_pos. destruct (Z.eqb_spec i 0) as [->|]; [done|]. cbn zeta. cbn [f_e f_m].
  pose proof (log2_ratio_le i 1 i 0 ltac:(lia) ltac:(lia) ltac:(lia) ltac:(lia) ltac:(lia)).
  set (e := log2_ratio i 1 - 23) in *. split; [lia|]. destruct (Z.leb_spec 0 e).
  - replace e with 0 by lia. by rewrite nearest_even_exact, Z.mul_1_r.
  - by rewrite nearest_even_exact.
Qed.

(** [ratio M E] is [M * 2 ^ E], stated with a common scale. *)
Lemma ratio_spec M E n d t : ratio M E = (n, d) -> 0 <= t -> 0 <= E + t ->
  0 < d /\ n * 2 ^ t = d * (M * 2 ^ (E + t)).
Proof.
  unfold ratio. intros Er Ht Hs. destruct (Z.leb_spec 0 E); injection Er as <- <-.
  - rewrite Z.pow_add_r by lia. lia.
  - split; [apply Z.pow_pos_nonneg; lia|]. replace t with (- E + (E + t)) at 1 by lia.
    rewrite Z.pow_add_r by lia. lia.
Qed.

Lemma ratio_le M E n d t B : ratio M E = (n, d) -> 0 <= t -> 0 <= E + t ->
  (n <= B * d <-> M * 2 ^ (E + t) <= B * 2 ^ t).
Proof.
  intros Er Ht Hs. destruct (ratio_spec M E n d t Er Ht Hs) as [Hd Eq].
  assert (0 < 2 ^ t) by (apply Z.pow_pos_nonneg; lia). split; intros Hle.
  - apply (Z.mul_le_mono_pos_l _ _ d); [done|]. rewrite <- Eq. nia.
  - apply (Z.mul_le_mono_pos_r _ _ (2 ^ t)); [done|]. rewrite Eq. nia.
Qed.

Lemma ratio_nonneg M E n d : 0 <= M -> ratio M E = (n, d) -> 0 <= n.
Proof.
  unfold ratio. intros HM. destruct (Z.leb_spec 0 E); intros [= <- <-]; [|done].
  assert (0 < 2 ^ E) by (apply Z.pow_pos_nonneg; lia). nia.
Qed.

(** The integer part of a float between 0 and [b * 2 ^ j]. *)
Lemma trunc_le f b j : 0 <= j -> 0 <= b -> b * 2 ^ j < 2 ^ 31 -> f_e f <= j ->
  0 <= f_m f <= b * 2 ^ (j - f_e f) ->
  exists i, int_of_float f = Some i /\ 0 <= i <= b * 2 ^ j.
Proof.
  intros Hj Hb Hlim He [Hm Hle]. unfold int_of_float. destruct (ratio (f_m f) (f_e f)) as [n d] eqn:Er.
  set (t := Z.max 0 (- f_e f)).
  destruct (ratio_spec _ _ n d t Er ltac:(lia) ltac:(lia)) as [Hd _].
  pose proof (ratio_nonneg _ _ _ _ Hm Er) as Hn.
  assert (n <= b * 2 ^ j * d) as Hnd.
  { apply (ratio_le _ _ _ _ t _ Er); [lia | lia |].
    replace (b * 2 ^ j * 2 ^ t) with (b * 2 ^ (j - f_e f) * 2 ^ (f_e f + t)).
    - apply Z.mul_le_mono_nonneg_r; [apply Z.pow_nonneg; lia | done].
    - rewrite <- !Z.mul_assoc, <- !Z.pow_add_r by lia. do 2 f_equal. lia. }
  rewrite Z.quot_div_nonneg by lia.
  assert (0 <= n / d <= b * 2 ^ j) by (split; [apply Z.div_pos; lia | apply Z.div_le_upper_bound; lia]).
  exists (n / d). rewrite (proj2 (Z.leb_le _ _)), (proj2 (Z.ltb_lt _ _)) by lia. done.
Qed.

(** * Products and quotients with small integers *)

Lemma fmul_int_le i k b j : 0 <= i < 2 ^ 24 -> 0 <= f_m k -> f_e k <= 0 -> 0 < b < 2 ^ 24 -> 0 <= j ->
  i * f_m k <= b * 2 ^ j * 2 ^ (- f_e k) ->
  let f := fmul (float_of_int i) k in f_e f <= j /\ 0 <= f_m f <= b * 2 ^ (j - f_e f).
Proof.
  intros Hi Hk He Hb Hj Hle. destruct (int_exact i Hi) as [Hei Emi]. unfold fmul.
  set (fi := float_of_int i) in *. assert (0 < 2 ^ (- f_e fi)) by (apply Z.pow_pos_nonneg; lia).
  assert (0 <= f_m fi * f_m k) as HM by (rewrite Emi; apply Z.mul_nonneg_nonneg; nia).
  destruct (ratio _ _) as [n d] eqn:Er. pose proof (ratio_nonneg _ _ _ _ HM Er) as Hn.
  set (t := - (f_e fi + f_e k)). destruct (ratio_spec _ _ n d t Er ltac:(lia) ltac:(lia)) as [Hd _].
  unfold round_ratio. rewrite (proj2 (Z.ltb_ge n 0)) by lia. apply round_pos_le; try lia.
  apply (ratio_le _ _ _ _ t _ Er); [lia | lia |].
  replace (f_e fi + f_e k + t) with 0 by lia. rewrite Z.mul_1_r, Emi.
  replace t with (- f_e k + - f_e fi) by lia. rewrite Z.pow_add_r by lia.
  replace (i * 2 ^ (- f_e fi) * f_m k) with (i * f_m k * 2 ^ (- f_e fi)) by lia.
  rewrite Z.mul_assoc. apply Z.mul_le_mono_nonneg_r; lia.
Qed.

Lemma fdiv_int_le i k b j : 0 <= i < 2 ^ 24 -> 0 < f_m k -> f_e k <= 0 -> 0 < b < 2 ^ 24 -> 0 <= j ->
  i * 2 ^ (- f_e k) <= b * 2 ^ j * f_m k ->
  exists f, fdiv (float_of_int i) k = Some f /\ f_e f <= j /\ 0 <= f_m f <= b * 2 ^ (j - f_e f).
Proof.
  intros Hi Hk He Hb Hj Hle. destruct (int_exact i Hi) as [Hei Emi]. unfold fdiv.
  rewrite (proj2 (Z.eqb_neq (f_m k) 0)) by lia. rewrite Z.sgn_pos, Z.mul_1_r by done.
  set (fi := float_of_int i) in *. assert (0 < 2 ^ (- f_e fi)) by (apply Z.pow_pos_nonneg; lia).
  destruct (ratio _ _) as [n d] eqn:Er.
  assert (0 <= f_m fi) as HM by (rewrite Emi; nia). pose proof (ratio_nonneg _ _ _ _ HM Er) as Hn.
  set (t := - f_e fi). destruct (ratio_spec _ _ n d t Er ltac:(lia) ltac:(lia)) as [Hd _].
  eexists. split; [reflexivity|]. rewrite Z.abs_eq by lia.
  unfold round_ratio. rewrite (proj2 (Z.ltb_ge n 0)) by lia. apply round_pos_le; try nia.
  replace (b * 2 ^ j * (d * f_m k)) with (b * 2 ^ j * f_m k * d) by lia.
  apply (ratio_le _ _ _ _ t _ Er); [lia | lia |].
  replace (f_e fi - f_e k + t) with (- f_e k) by lia. rewrite Emi. fold t.
  replace (i * 2 ^ t * 2 ^ (- f_e k)) with (i * 2 ^ (- f_e k) * 2 ^ t) by lia.
  apply Z.mul_le_mono_nonneg_r; [apply Z.pow_nonneg; lia | done].
Qed.

(** * Comparison with the Standard Library *)

(** A float as the Standard Library writes it: a significand of exactly 24 bits. *)
Definition spec_of (f : float32) : spec_float :=
  match f_m f with
  | Z0 => S754_zero false
  | Zpos p => if Z.pos p =? 2 ^ 24 then S754_finite false (2 ^ 23) (f_e f + 1)
              else S754_finite false p (f_e f)
  | Zneg p => if Z.pos p =? 2 ^ 24 then S754_finite true (2 ^ 23) (f_e f + 1)
              else S754_finite true p (f_e f)
  end.

Definition spec_int (i : Z) : spec_float := binary_normalize 24 128 i 0 false.

Definition samples : list Z :=
  [1; 3; 7; 10; 120; 160; 240; 272; 320; 479; 480; 481; 639; 640; 768; 800; 1024; 1080; 1920; 65535;
   16777215; 16777217; 33554435; 2147483647].

(** Conversion, division, and the product of a number with a quotient agree on all
    pairs of the samples, whose quotients round in both directions. *)
Lemma float32_samples :
  forallb (fun i => bool_decide (spec_of (float_of_int i) = spec_int i) &&
    forallb (fun j =>
      match fdiv (float_of_int i) (float_of_int j) with
      | None => false
      | Some k =>
          bool_decide (spec_of k = SFdiv 24 128 (spec_int i) (spec_int j)) &&
          bool_decide (spec_of (fmul (float_of_int 800) k) =
                       SFmul 24 128 (spec_int 800) (SFdiv 24 128 (spec_int i) (spec_int j)))
      end) samples) samples = true.
Proof. vm_compute. reflexivity. Qed.
