(* ===== verification/Convert.v ===== *)
(** The conversion of camera frames to the format of the screen in the video2lcd
    program ([src/video2lcd/Test/convert]): the colour tables ([color.c]), the
    three converters ([yuv2rgb.c], [rgb2rgb.c], [mjpeg2rgb.c]), the memory source
    libjpeg reads a frame from ([jdatasrc-tj.c]) and the list of converters
    ([convert_manager.c]).

    The pixels of a video buffer are a block the program allocates once and keeps,
    so the state of the pointer is part of the model: it is null, or points to a
    live block, or dangles. The block of a null or dangling pointer is empty, on
    which every access faults. What libjpeg decodes from the bytes of a frame is
    an argument, as in [PicFmt]. *)
From S2P Require Import Prelude V4l2 PicOps Disp PicFmt.
Open Scope Z_scope.

(** * Video buffers *)

Inductive ptr := Null | Live | Freed.

#[export] Instance ptr_eq_dec : EqDecision ptr.
Proof. solve_decision. Defined.

Record T_VideoBuf := mk_frame {
  tPixelDatas : T_PixelDatas;
  vb_ptr : ptr;
  iPixelFormat : Z
}.

(** [memset(&tBuf, 0, sizeof(tBuf))] *)
Definition zero_pic : T_PixelDatas := mk_pic 0 0 0 0 0 [].
Definition zero_vbuf : T_VideoBuf := mk_frame zero_pic Null 0.

Definition set_block (m : mem) (b : T_VideoBuf) : T_VideoBuf :=
  mk_frame (set_pixels m (tPixelDatas b)) (vb_ptr b) (iPixelFormat b).

(** The size fields; the pointer stays. *)
Definition set_size (w h bpp line total : Z) (b : T_VideoBuf) : T_VideoBuf :=
  mk_frame (mk_pic w h bpp line total (aucPixelDatas (tPixelDatas b))) (vb_ptr b) (iPixelFormat b).

(** [if (!aucPixelDatas) aucPixelDatas = malloc(iTotalBytes);] *)
Definition ensure_block (malloc : Z -> option mem) (b : T_VideoBuf) : T_VideoBuf :=
  match vb_ptr b with
  | Null =>
      match malloc (iTotalBytes (tPixelDatas b)) with
      | Some m => mk_frame (set_pixels m (tPixelDatas b)) Live (iPixelFormat b)
      | None => b
      end
  | Live | Freed => b
  end.

(** [if (aucPixelDatas) free(aucPixelDatas);]: freeing a block twice is undefined.
    [after] is what the pointer is left as. *)
Definition free_block (after : ptr) (b : T_VideoBuf) : option T_VideoBuf :=
  match vb_ptr b with
  | Null => Some b
  | Live => Some (mk_frame (set_pixels [] (tPixelDatas b)) after (iPixelFormat b))
  | Freed => None
  end.

(** The three [ConvertExit] functions, which are the same. *)
Definition ConvertExit (b : T_VideoBuf) : option (Z * T_VideoBuf) :=
  b ← free_block Null b; Some (0, b).

(** * Colour tables *)

Record luts := mk_luts {
  LutYr : list Z; LutYg : list Z; LutYb : list Z;
  LutVr : list Z; LutVrY : list Z; LutUb : list Z; LutUbY : list Z;
  LutRv : list Z; LutGu : list Z; LutGv : list Z; LutBu : list Z
}.

Definition lut (f : Z -> Z) : list Z := (fun i => f (Z.of_nat i)) <$> seq 0 256.

Definition Rcoef := 299.
Definition Gcoef := 587.
Definition Bcoef := 114.
Definition Vrcoef := 711.
Definition Ubcoef := 560.
Definition CoefRv := 1402.
Definition CoefGu := 714.
Definition CoefGv := 344.
Definition CoefBu := 1772.

(** [malloc i] says whether the [i]-th of the eleven allocations succeeds; none is
    tested before the tables are filled. *)
Definition initLut (malloc : nat -> bool) : option luts :=
  if forallb malloc (seq 0 11) then
    Some {| LutYr := lut (fun i => Z.quot (i * Rcoef) 1000);
            LutYg := lut (fun i => Z.quot (i * Gcoef) 1000);
            LutYb := lut (fun i => Z.quot (i * Bcoef) 1000);
            LutVr := lut (fun i => Z.quot (i * Vrcoef) 1000);
            LutUb := lut (fun i => Z.quot (i * Ubcoef) 1000);
            LutVrY := lut (fun i => 128 - Z.quot (i * Vrcoef) 1000);
            LutUbY := lut (fun i => 128 - Z.quot (i * Ubcoef) 1000);
            LutRv := lut (fun i => Z.quot ((i - 128) * CoefRv) 1000);
            LutBu := lut (fun i => Z.quot ((i - 128) * CoefBu) 1000);
            LutGu := lut (fun i => Z.quot ((128 - i) * CoefGu) 1000);
            LutGv := lut (fun i => Z.quot ((128 - i) * CoefGv) 1000) |}
  else None.

Definition CLIP (color : Z) : Z :=
  u8 (if color >? 0xFF then 0xff else if color <? 0 then 0 else color).

(** [t[i]] of a table; an index is an [unsigned char]. *)
Definition look (t : list Z) (i : Z) : option Z := if 0 <=? i then t !! Z.to_nat i else None.

Definition RGB24_TO_Y (t : luts) (r g b : Z) : option Z :=
  yr ← look (LutYr t) r; yg ← look (LutYg t) g; yb ← look (LutYb t) b; Some (u8 (yr + yg + yb)).
Definition YR_TO_V (t : luts) (r y : Z) : option Z :=
  vr ← look (LutVr t) r; vy ← look (LutVrY t) y; Some (u8 (vr + vy)).
Definition YB_TO_U (t : luts) (b y : Z) : option Z :=
  ub ← look (LutUb t) b; uy ← look (LutUbY t) y; Some (u8 (ub + uy)).
Definition R_FROMYV (t : luts) (y v : Z) : option Z :=
  rv ← look (LutRv t) v; Some (CLIP (y + rv)).
Definition G_FROMYUV (t : luts) (y u v : Z) : option Z :=
  gu ← look (LutGu t) u; gv ← look (LutGv t) v; Some (CLIP (y + gu + gv)).
Definition B_FROMYU (t : luts) (y u : Z) : option Z :=
  bu ← look (LutBu t) u; Some (CLIP (y + bu)).

(** * From YUYV *)

Definition isSupportYuv2Rgb (iPixelFormatIn iPixelFormatOut : Z) : Z :=
  if negb (iPixelFormatIn =? V4L2_PIX_FMT_YUYV) then 0
  else if negb (iPixelFormatOut =? V4L2_PIX_FMT_RGB565)
          && negb (iPixelFormatOut =? V4L2_PIX_FMT_RGB32) then 0
  else 1.

(** What the two loops store for a pixel: the low byte of the 5-6-5 colour and
    then the high one, or a word. *)
Definition store565 (r g b : Z) : mem :=
  let r := Z.shiftr r 3 in
  let g := Z.shiftr g 2 in
  let b := Z.shiftr b 3 in
  let color := Z.lor (Z.lor (Z.shiftl r 11) (Z.shiftl g 5)) b in
  [Z.land color 0xff; Z.land (Z.shiftr color 8) 0xff].
Definition store32 (r g b : Z) : mem :=
  bytes32 (Z.lor (Z.lor (Z.shiftl r 16) (Z.shiftl g 8)) b).

(** The loop of both functions; they differ in what they store. [i] counts pairs
    of pixels. *)
Fixpoint yuv_loop (i : nat) (t : luts) (store : Z -> Z -> Z -> mem) (sm : mem) (buff : Z)
    (output_pt : Z) (dm : mem) : option mem :=
  match i with
  | O => Some dm
  | S i =>
      Y ← byte_at sm buff; U ← byte_at sm (buff + 1);
      Y1 ← byte_at sm (buff + 2); V ← byte_at sm (buff + 3);
      r ← R_FROMYV t Y V; g ← G_FROMYUV t Y U V; b ← B_FROMYU t Y U;
      let out := store r g b in
      dm ← mem_write dm output_pt out;
      r ← R_FROMYV t Y1 V; g ← G_FROMYUV t Y1 U V; b ← B_FROMYU t Y1 U;
      let out1 := store r g b in
      dm ← mem_write dm (output_pt + zlen out) out1;
      yuv_loop i t store sm (buff + 4) (output_pt + zlen out + zlen out1) dm
  end.

(** [size = image_width * image_height / 2] in [unsigned int]. *)
Definition Pyuv422torgb565 (t : luts) (input output : mem) (image_width image_height : Z)
    : option mem :=
  yuv_loop (Z.to_nat (u32 (image_width * image_height) / 2)) t store565 input 0 0 output.
Definition Pyuv422torgb32 (t : luts) (input output : mem) (image_width image_height : Z)
    : option mem :=
  yuv_loop (Z.to_nat (u32 (image_width * image_height) / 2)) t store32 input 0 0 output.

(** An output format that is neither of the two sets the width and the height and
    converts nothing. *)
Definition Yuv2RgbConvert (t : luts) (malloc : Z -> option mem) (ptIn ptOut : T_VideoBuf)
    : option (Z * T_VideoBuf) :=
  let p := tPixelDatas ptIn in
  let o := tPixelDatas ptOut in
  if iPixelFormat ptOut =? V4L2_PIX_FMT_RGB565 then
    let line := Z.quot (iWidth p * 16) 8 in
    let out := ensure_block malloc
                 (set_size (iWidth p) (iHeight p) 16 line (line * iHeight p) ptOut) in
    m ← Pyuv422torgb565 t (aucPixelDatas p) (aucPixelDatas (tPixelDatas out))
          (iWidth p) (iHeight p);
    Some (0, set_block m out)
  else if iPixelFormat ptOut =? V4L2_PIX_FMT_RGB32 then
    let line := Z.quot (iWidth p * 32) 8 in
    let out := ensure_block malloc
                 (set_size (iWidth p) (iHeight p) 32 line (iHeight p * line) ptOut) in
    m ← Pyuv422torgb32 t (aucPixelDatas p) (aucPixelDatas (tPixelDatas out))
          (iWidth p) (iHeight p);
    Some (0, set_block m out)
  else
    Some (0, set_size (iWidth p) (iHeight p) (iBpp o) (iLineBytes o) (iTotalBytes o) ptOut).

(** * From RGB565 *)

Definition isSupportRgb2Rgb (iPixelFormatIn iPixelFormatOut : Z) : Z :=
  if negb (iPixelFormatIn =? V4L2_PIX_FMT_RGB565) then 0
  else if negb (iPixelFormatOut =? V4L2_PIX_FMT_RGB565)
          && negb (iPixelFormatOut =? V4L2_PIX_FMT_RGB32) then 0
  else 1.

(** 5-6-5 bits as 0x00RRGGBB; the low bits of each part are zero. *)
Definition expand565 (color : Z) : Z :=
  let r := Z.shiftr color 11 in
  let g := Z.land (Z.shiftr color 5) 0x3f in
  let b := Z.land color 0x1f in
  Z.lor (Z.lor (Z.shiftl (Z.shiftl r 3) 16) (Z.shiftl (Z.shiftl g 2) 8)) (Z.shiftl b 3).

Fixpoint rgb_row (todo : nat) (sm : mem) (pwSrc pdwDest : Z) (dm : mem) : option mem :=
  match todo with
  | O => Some dm
  | S todo =>
      lo ← byte_at sm pwSrc; hi ← byte_at sm (pwSrc + 1);
      dm ← mem_write dm pdwDest (bytes32 (expand565 (lo + 256 * hi)));
      rgb_row todo sm (pwSrc + 2) (pdwDest + 4) dm
  end.

(** The pointers run on from row to row. *)
Fixpoint rgb_rows (todo : nat) (width : Z) (sm : mem) (pwSrc pdwDest : Z) (dm : mem) : option mem :=
  match todo with
  | O => Some dm
  | S todo =>
      dm ← rgb_row (Z.to_nat width) sm pwSrc pdwDest dm;
      rgb_rows todo width sm (pwSrc + 2 * Z.max 0 width) (pdwDest + 4 * Z.max 0 width) dm
  end.

Definition Rgb2RgbConvert (malloc : Z -> option mem) (ptIn ptOut : T_VideoBuf)
    : option (Z * T_VideoBuf) :=
  let p := tPixelDatas ptIn in
  if negb (iPixelFormat ptIn =? V4L2_PIX_FMT_RGB565) then Some (-1, ptOut)
  else if iPixelFormat ptOut =? V4L2_PIX_FMT_RGB565 then
    let line := Z.quot (iWidth p * 16) 8 in
    let out := ensure_block malloc
                 (set_size (iWidth p) (iHeight p) 16 line (line * iHeight p) ptOut) in
    bs ← mem_read (aucPixelDatas p) 0 (line * iHeight p);
    m ← mem_write (aucPixelDatas (tPixelDatas out)) 0 bs;
    Some (0, set_block m out)
  else if iPixelFormat ptOut =? V4L2_PIX_FMT_RGB32 then
    let line := Z.quot (iWidth p * 32) 8 in
    let out := ensure_block malloc
                 (set_size (iWidth p) (iHeight p) 32 line (line * iHeight p) ptOut) in
    m ← rgb_rows (Z.to_nat (iHeight p)) (iWidth p) (aucPixelDatas p) 0 0
          (aucPixelDatas (tPixelDatas out));
    Some (0, set_block m out)
  else Some (-1, ptOut).

(** * The memory source of libjpeg *)

(** Where the next byte is: in the frame, or in the static [mybuffer]. *)
Inductive src_pos := InFrame (off : Z) | InMyBuffer (off : Z).

Record jpeg_source_mgr := mk_src {
  next_input_byte : src_pos;
  bytes_in_buffer : Z
}.

Definition JPEG_EOI := 0xD9.
Definition mybuffer : mem := [0xFF; JPEG_EOI; 0; 0].

Definition advance (n : Z) (p : src_pos) : src_pos :=
  match p with InFrame off => InFrame (off + n) | InMyBuffer off => InMyBuffer (off + n) end.

Definition fill_mem_input_buffer (src : jpeg_source_mgr) : jpeg_source_mgr :=
  mk_src (InMyBuffer 0) 2.

Fixpoint skip_loop (fuel : nat) (num_bytes : Z) (src : jpeg_source_mgr)
    : option (Z * jpeg_source_mgr) :=
  match fuel with
  | O => None
  | S fuel =>
      if num_bytes >? s32 (bytes_in_buffer src) then
        skip_loop fuel (num_bytes - s32 (bytes_in_buffer src)) (fill_mem_input_buffer src)
      else Some (num_bytes, src)
  end.

(** The first round of the loop may skip nothing; every later one skips the two
    bytes of the fake marker. *)
Definition skip_input_data (num_bytes : Z) (src : jpeg_source_mgr) : option jpeg_source_mgr :=
  if num_bytes >? 0 then
    '(num_bytes, src) ← skip_loop (S (S (Z.to_nat num_bytes))) num_bytes src;
    Some (mk_src (advance num_bytes (next_input_byte src)) (u32 (bytes_in_buffer src - num_bytes)))
  else Some src.

(** [inl tt] is the error exit on empty input. *)
Definition jpeg_mem_src_tj (inbuffer : ptr) (insize : Z) : unit + jpeg_source_mgr :=
  if bool_decide (inbuffer = Null) || (insize =? 0) then inl tt
  else inr (mk_src (InFrame 0) insize).

(** * From MJPEG *)

Definition isSupportMjpeg2Rgb (iPixelFormatIn iPixelFormatOut : Z) : Z :=
  if negb (iPixelFormatIn =? V4L2_PIX_FMT_MJPEG) then 0
  else if negb (iPixelFormatOut =? V4L2_PIX_FMT_RGB565)
          && negb (iPixelFormatOut =? V4L2_PIX_FMT_RGB32) then 0
  else 1.

Module Mjpeg.

Definition CovertOneLine := convert_line rgb.

(** The loop over the lines; [inr] is the block as far as it was filled when the
    decoder gave up. *)
Fixpoint scan_lines (todo y : nat) (width bpp : Z) (img : Jpg.jpeg_image) (pucDest line : Z)
    (dm : mem) : option (mem + mem) :=
  match todo with
  | O => Some (inl dm)
  | S todo =>
      match Jpg.scanline img y with
      | None => Some (inr dm)
      | Some aucLineBuffer =>
          '(_, dm) ← CovertOneLine width 24 bpp aucLineBuffer 0 dm pucDest;
          scan_lines todo (S y) width bpp img (pucDest + line) line dm
      end
  end.

(** [decode] is what libjpeg makes of the bytes of a frame, [buffer] says whether
    the line buffer could be allocated. An error of the decoder frees the pixels
    and leaves the pointer as it is. The depth of the output is the one the
    caller put there. *)
Definition Mjpeg2RgbConvert (decode : mem -> option Jpg.jpeg_image) (buffer : bool)
    (malloc : Z -> option mem) (ptIn ptOut : T_VideoBuf) : option (Z * T_VideoBuf) :=
  let fail_convert b := (b ← free_block Freed b; Some (-1, b)) in
  let p := tPixelDatas ptIn in
  match jpeg_mem_src_tj (vb_ptr ptIn) (u32 (iTotalBytes p)) with
  | inl _ => fail_convert ptOut
  | inr src =>
      frame ← mem_read (aucPixelDatas p) 0 (bytes_in_buffer src);
      match decode frame with
      | None => fail_convert ptOut
      | Some img =>
          if negb buffer then Some (-1, ptOut)
          else
            let width := s32 (Jpg.output_width img) in
            let height := s32 (Jpg.output_height img) in
            let bpp := iBpp (tPixelDatas ptOut) in
            let line := Z.quot (width * bpp) 8 in
            let out := ensure_block malloc (set_size width height bpp line (height * line) ptOut) in
            r ← scan_lines (Z.to_nat (Jpg.output_height img)) 0 width bpp img 0 line
                  (aucPixelDatas (tPixelDatas out));
            match r with
            | inl m => Some (0, set_block m out)
            | inr m => fail_convert (set_block m out)
            end
      end
  end.

End Mjpeg.

(** * The list of converters *)

(** The three converters of the program; none of them sets its [name]. *)
Inductive converter := Yuv2Rgb | Mjpeg2Rgb | Rgb2Rgb.

#[export] Instance converter_eq_dec : EqDecision converter.
Proof. solve_decision. Defined.

Definition isSupport (c : converter) : Z -> Z -> Z :=
  match c with
  | Yuv2Rgb => isSupportYuv2Rgb
  | Mjpeg2Rgb => isSupportMjpeg2Rgb
  | Rgb2Rgb => isSupportRgb2Rgb
  end.

(** What the converters use of the world: the tables, libjpeg, and the allocator. *)
Record conv_env := mk_conv_env {
  ce_luts : luts;
  ce_decode : mem -> option Jpg.jpeg_image;
  ce_buffer : bool;
  ce_malloc : Z -> option mem
}.

Definition Convert (e : conv_env) (c : converter) (ptIn ptOut : T_VideoBuf)
    : option (Z * T_VideoBuf) :=
  match c with
  | Yuv2Rgb => Yuv2RgbConvert (ce_luts e) (ce_malloc e) ptIn ptOut
  | Mjpeg2Rgb => Mjpeg.Mjpeg2RgbConvert (ce_decode e) (ce_buffer e) (ce_malloc e) ptIn ptOut
  | Rgb2Rgb => Rgb2RgbConvert (ce_malloc e) ptIn ptOut
  end.

(** [g_ptVideoConvertHead]; a converter is appended at the end. *)
Definition RegisterVideoConvert (c : converter) (l : list converter) : Z * list converter :=
  (0, l ++ [c]).

(** [strcmp] with the null name of the first converter is undefined. *)
Definition GetVideoConvert (pcName : string) (l : list converter) : option (option converter) :=
  match l with [] => Some None | _ :: _ => None end.

Fixpoint GetVideoConvertForFormats (iPixelFormatIn iPixelFormatOut : Z) (l : list converter)
    : option converter :=
  match l with
  | [] => None
  | c :: l =>
      if negb (isSupport c iPixelFormatIn iPixelFormatOut =? 0) then Some c
      else GetVideoConvertForFormats iPixelFormatIn iPixelFormatOut l
  end.

(** The [Init] functions of the three files. *)
Definition Yuv2RgbInit (malloc : nat -> bool) (l : list converter) : option (Z * luts * list converter) :=
  t ← initLut malloc; let '(r, l) := RegisterVideoConvert Yuv2Rgb l in Some (r, t, l).
Definition Mjpeg2RgbInit (l : list converter) : Z * list converter := RegisterVideoConvert Mjpeg2Rgb l.
Definition Rgb2RgbInit (l : list converter) : Z * list converter := RegisterVideoConvert Rgb2Rgb l.

Definition VideoConvertInit (malloc : nat -> bool) (l : list converter)
    : option (Z * luts * list converter) :=
  '(r1, t, l) ← Yuv2RgbInit malloc l;
  let '(r2, l) := Mjpeg2RgbInit l in
  let '(r3, l) := Rgb2RgbInit l in
  Some (Z.lor (Z.lor r1 r2) r3, t, l).

(** * Runs of pixels *)

(** The [n] pixels of [pb] bytes from [dst] on are the ones of [get]; nothing else
    changed. *)
Definition pixels_are (get : Z -> option mem) (pb n dst : Z) (dm dm' : mem) : Prop :=
  same_outside dst (dst + n * pb) dm dm' /\
  forall k, 0 <= k < n -> mem_read dm' (dst + k * pb) pb = get k.

Lemma pixels_none get pb dst dm : pixels_are get pb 0 dst dm dm.
Proof. split; [by split | lia]. Qed.

Lemma pixels_step get pb n dst v dm dm1 dm' : 0 < pb -> 0 <= n -> 0 <= dst ->
  mem_write dm dst v = Some dm1 -> zlen v = pb -> get 0 = Some v ->
  pixels_are (fun k => get (k + 1)) pb n (dst + pb) dm1 dm' -> pixels_are get pb (n + 1) dst dm dm'.
Proof.
  intros Hpb Hn Hd Ew Lv Ev [[L O] Hpx]. assert (0 <= n * pb) by nia.
  pose proof (mem_write_Some _ _ _ _ Ew) as (_ & Hfit & _).
  destruct (mem_write_ok dm dst v) as (dm2 & Ew' & [L1 O1] & R1); [done | done |].
  assert (dm2 = dm1) as -> by congruence. rewrite Lv in *.
  split; [split; [lia|]; intros off l Hoff; rewrite O by lia; apply O1; lia|].
  intros k Hk. destruct (decide (k = 0)) as [->|].
  - rewrite Z.mul_0_l, Z.add_0_r, O by lia. congruence.
  - replace (dst + k * pb) with (dst + pb + (k - 1) * pb) by lia. rewrite Hpx by lia. f_equal. lia.
Qed.

Lemma pixels_ext get get' pb n dst dm dm' : (forall k, 0 <= k < n -> get k = get' k) ->
  pixels_are get pb n dst dm dm' -> pixels_are get' pb n dst dm dm'.
Proof. intros He [O Hpx]. split; [done|]. intros k Hk. rewrite <- He by done. by apply Hpx. Qed.

(** A run after a run. *)
Lemma pixels_app get pb n n' dst dm dm1 dm' : 0 < pb -> 0 <= n -> 0 <= n' ->
  pixels_are get pb n dst dm dm1 ->
  pixels_are (fun k => get (n + k)) pb n' (dst + n * pb) dm1 dm' ->
  pixels_are get pb (n + n') dst dm dm'.
Proof.
  intros Hpb Hn Hn' [[L1 O1] R1] [[L O] R]. assert (0 <= n * pb) by nia. assert (0 <= n' * pb) by nia.
  split; [split; [lia|]; intros off l Hoff; rewrite O by lia; apply O1; lia|].
  intros k Hk. destruct (decide (k < n)).
  - assert ((k + 1) * pb <= n * pb) by (apply Z.mul_le_mono_nonneg_r; lia).
    rewrite O by lia. apply R1; lia.
  - replace (dst + k * pb) with (dst + n * pb + (k - n) * pb) by lia. rewrite R by lia. f_equal. lia.
Qed.

(** A run at the start of a block. *)
Definition run_of (get : Z -> option mem) (pb n : Z) (m m' : mem) : Prop :=
  zlen m' = zlen m /\ forall k, 0 <= k < n -> mem_read m' (k * pb) pb = get k.

Lemma pixels_run get pb n m m' : pixels_are get pb n 0 m m' -> run_of get pb n m m'.
Proof. intros [[L _] H]. by split. Qed.

(** The first [n] of the [w * h] pixels of a picture with no padding. *)
Lemma run_pic get w h bpp m m' : 0 <= w < 2 ^ 16 -> 0 <= h < 2 ^ 16 -> depth_ok bpp ->
  let pb := bpp / 8 in
  w * h * pb <= zlen m -> forall n, 0 <= n <= w * h -> run_of get pb n m m' ->
  let p := mk_pic w h bpp (w * pb) (w * pb * h) m' in
  pic_ok p /\ forall x y, in_pic p x y -> y * w + x < n -> pixel p x y = get (y * w + x).
Proof.
  intros Hw Hh Hb pb Hfit n Hn [L Hpx] p.
  assert (bpp = 8 * pb /\ 0 < pb <= 4) as [Eb Hpb] by (subst pb; by destruct Hb as [->|[->| ->]]).
  split.
  { split; unfold pixel_bytes; cbn -[Z.pow Z.div]; fold pb; try lia. }
  intros x y [Hx Hy] Hk. cbn in Hx, Hy. unfold pixel, pixel_bytes. cbn -[Z.div]. fold pb.
  replace (y * (w * pb) + x * pb) with ((y * w + x) * pb) by lia. apply Hpx. nia.
Qed.

(** * Colours *)

Definition clamp (x : Z) : Z := Z.max 0 (Z.min 255 x).

(** The colour of a luminance and two colour differences: the formulas behind
    the tables. *)
Definition yuv_red (y v : Z) : Z := clamp (y + Z.quot ((v - 128) * CoefRv) 1000).
Definition yuv_green (y u v : Z) : Z :=
  clamp (y + Z.quot ((128 - u) * CoefGu) 1000 + Z.quot ((128 - v) * CoefGv) 1000).
Definition yuv_blue (y u : Z) : Z := clamp (y + Z.quot ((u - 128) * CoefBu) 1000).

Lemma CLIP_clamp x : CLIP x = clamp x.
Proof.
  unfold CLIP, clamp. repeat case_if; bool_props; rewrite u8_small by (unfold is_u8; lia); lia.
Qed.

Lemma clamp_u8 x : is_u8 (clamp x).
Proof. unfold clamp, is_u8. lia. Qed.

Lemma look_lut f i : is_u8 i -> look (lut f) i = Some (f i).
Proof.
  unfold is_u8. intros Hi. unfold look, lut. rewrite (proj2 (Z.leb_le 0 i)) by lia.
  rewrite list_lookup_fmap, lookup_seq_lt by lia. cbn. by rewrite Z2Nat.id by lia.
Qed.

Section Tables.
Context (malloc : nat -> bool) (t : luts).
Hypothesis Ht : initLut malloc = Some t.

Lemma tables_are : t =
  {| LutYr := lut (fun i => Z.quot (i * Rcoef) 1000);
     LutYg := lut (fun i => Z.quot (i * Gcoef) 1000);
     LutYb := lut (fun i => Z.quot (i * Bcoef) 1000);
     LutVr := lut (fun i => Z.quot (i * Vrcoef) 1000);
     LutUb := lut (fun i => Z.quot (i * Ubcoef) 1000);
     LutVrY := lut (fun i => 128 - Z.quot (i * Vrcoef) 1000);
     LutUbY := lut (fun i => 128 - Z.quot (i * Ubcoef) 1000);
     LutRv := lut (fun i => Z.quot ((i - 128) * CoefRv) 1000);
     LutBu := lut (fun i => Z.quot ((i - 128) * CoefBu) 1000);
     LutGu := lut (fun i => Z.quot ((128 - i) * CoefGu) 1000);
     LutGv := lut (fun i => Z.quot ((128 - i) * CoefGv) 1000) |}.
Proof. unfold initLut in Ht. destruct (forallb _ _); congruence. Qed.

Lemma red_ok y v : is_u8 v -> R_FROMYV t y v = Some (yuv_red y v).
Proof. intros. unfold R_FROMYV. rewrite tables_are. cbn [LutRv]. rewrite look_lut by done. cbn. by rewrite CLIP_clamp. Qed.

Lemma green_ok y u v : is_u8 u -> is_u8 v -> G_FROMYUV t y u v = Some (yuv_green y u v).
Proof.
  intros. unfold G_FROMYUV. rewrite tables_are. cbn [LutGu LutGv]. rewrite !look_lut by done. cbn.
  by rewrite CLIP_clamp.
Qed.

Lemma blue_ok y u : is_u8 u -> B_FROMYU t y u = Some (yuv_blue y u).
Proof. intros. unfold B_FROMYU. rewrite tables_are. cbn [LutBu]. rewrite look_lut by done. cbn. by rewrite CLIP_clamp. Qed.

Lemma luma_ok r g b : is_u8 r -> is_u8 g -> is_u8 b ->
  RGB24_TO_Y t r g b = Some (r * Rcoef / 1000 + g * Gcoef / 1000 + b * Bcoef / 1000).
Proof.
  unfold is_u8. intros. unfold RGB24_TO_Y. rewrite tables_are. cbn [LutYr LutYg LutYb].
  rewrite !look_lut by done. cbn [mbind option_bind]. unfold Rcoef, Gcoef, Bcoef.
  rewrite !Z.quot_div_nonneg by lia. f_equal. apply u8_small. unfold is_u8.
  Z.div_mod_to_equations. lia.
Qed.

Lemma diff_v_ok r y : is_u8 r -> is_u8 y ->
  YR_TO_V t r y = Some (u8 (r * Vrcoef / 1000 + (128 - y * Vrcoef / 1000))).
Proof.
  unfold is_u8. intros. unfold YR_TO_V. rewrite tables_are. cbn [LutVr LutVrY].
  rewrite !look_lut by done. cbn [mbind option_bind]. unfold Vrcoef.
  by rewrite !Z.quot_div_nonneg by lia.
Qed.

Lemma diff_u_ok b y : is_u8 b -> is_u8 y ->
  YB_TO_U t b y = Some (u8 (b * Ubcoef / 1000 + (128 - y * Ubcoef / 1000))).
Proof.
  unfold is_u8. intros. unfold YB_TO_U. rewrite tables_are. cbn [LutUb LutUbY].
  rewrite !look_lut by done. cbn [mbind option_bind]. unfold Ubcoef.
  by rewrite !Z.quot_div_nonneg by lia.
Qed.

(** ** YUYV frames *)

(** The colour of pixel [k] of the YUYV data at [off]: every pixel has its own
    luminance, two neighbours share the colour differences. *)
Definition yuyv_color (sm : mem) (off k : Z) : option Z :=
  y ← byte_at sm (off + 2 * k);
  u ← byte_at sm (off + 4 * (k / 2) + 1);
  v ← byte_at sm (off + 4 * (k / 2) + 3);
  Some (Z.lor (Z.lor (Z.shiftl (yuv_red y v) 16) (Z.shiftl (yuv_green y u v) 8)) (yuv_blue y u)).

Definition yuyv_pixel (bpp : Z) (sm : mem) (off k : Z) : option mem :=
  c ← yuyv_color sm off k; color_bytes bpp c.

(** What the loop stores at a depth. *)
Definition store_of (bpp : Z) : Z -> Z -> Z -> mem := if bpp =? 16 then store565 else store32.

Lemma store_ok bpp r g b : bpp = 16 \/ bpp = 32 -> is_u8 r -> is_u8 g -> is_u8 b ->
  Some (store_of bpp r g b) =
  color_bytes bpp (Z.lor (Z.lor (Z.shiftl r 16) (Z.shiftl g 8)) b) /\
  zlen (store_of bpp r g b) = bpp / 8.
Proof.
  intros [-> | ->] Hr Hg Hb; (split; [|done]); [|done].
  change (store_of 16) with store565. change (color_bytes 16) with (fun c => Some (bytes16 (rgb565 c))).
  cbn beta. rewrite <- rgb565_join by done. unfold store565, bytes16, u8.
  change 0xff with (Z.ones 8). rewrite !Z.land_ones by lia. done.
Qed.

Lemma read4 sm pos : is_bytes sm -> 0 <= pos -> pos + 4 <= zlen sm ->
  exists y u y1 v, byte_at sm pos = Some y /\ byte_at sm (pos + 1) = Some u /\
  byte_at sm (pos + 2) = Some y1 /\ byte_at sm (pos + 3) = Some v /\
  is_u8 y /\ is_u8 u /\ is_u8 y1 /\ is_u8 v.
Proof.
  intros Hb H0 H4. destruct (read3 sm pos) as (y & u & y1 & E0 & E1 & E2 & _); [lia | lia |].
  destruct (read3 sm (pos + 1)) as (_ & _ & v & _ & _ & E3 & _); [lia | lia |].
  replace (pos + 1 + 2) with (pos + 3) in E3 by lia.
  exists y, u, y1, v. split_and!; try done; by eapply bytes_at.
Qed.

Lemma yuyv_shift bpp sm off k : 0 <= k -> yuyv_pixel bpp sm (off + 4) k = yuyv_pixel bpp sm off (k + 2).
Proof.
  intros. unfold yuyv_pixel, yuyv_color. replace (k + 2) with (k + 1 * 2) by lia.
  rewrite Z.div_add by lia.
  replace (off + 4 + 2 * k) with (off + 2 * (k + 1 * 2)) by lia.
  by replace (off + 4 + 4 * (k / 2)) with (off + 4 * (k / 2 + 1)) by lia.
Qed.

Lemma yuv_loop_spec bpp sm : bpp = 16 \/ bpp = 32 -> is_bytes sm -> let pb := bpp / 8 in
  forall i src dst dm, 0 <= src -> src + 4 * Z.of_nat i <= zlen sm ->
  0 <= dst -> dst + 2 * Z.of_nat i * pb <= zlen dm ->
  exists dm', yuv_loop i t (store_of bpp) sm src dst dm = Some dm' /\
  pixels_are (yuyv_pixel bpp sm src) pb (2 * Z.of_nat i) dst dm dm'.
Proof.
  intros Hb Hsm pb. assert (0 < pb) as Hpb by (subst pb; by destruct Hb as [-> | ->]).
  induction i as [|i IH]; intros src dst dm Hs Hss Hd Hds.
  { exists dm. split; [done|]. apply pixels_none. }
  destruct (read4 sm src) as (y & u & y1 & v & E0 & E1 & E2 & E3 & Hy & Hu & Hy1 & Hv); [done | done | lia |].
  cbn [yuv_loop]. rewrite E0, E1, E2, E3. cbn [mbind option_bind].
  rewrite !red_ok, !green_ok, !blue_ok by done. cbn [mbind option_bind].
  destruct (store_ok bpp (yuv_red y v) (yuv_green y u v) (yuv_blue y u)) as [Ec L]; try apply clamp_u8; [done|].
  destruct (store_ok bpp (yuv_red y1 v) (yuv_green y1 u v) (yuv_blue y1 u)) as [Ec1 L1]; try apply clamp_u8; [done|].
  rewrite L, L1. fold pb in L, L1 |- *. assert (0 <= Z.of_nat i * pb) by nia.
  replace (2 * Z.of_nat (S i) * pb) with (2 * Z.of_nat i * pb + pb + pb) in Hds by lia.
  destruct (mem_write_ok dm dst (store_of bpp (yuv_red y v) (yuv_green y u v) (yuv_blue y u)))
    as (dm1 & Ew & [Lm _] & _); [done | lia |]. rewrite Ew. cbn [mbind option_bind].
  destruct (mem_write_ok dm1 (dst + pb) (store_of bpp (yuv_red y1 v) (yuv_green y1 u v) (yuv_blue y1 u)))
    as (dm2 & Ew1 & [Lm1 _] & _); [lia | lia |]. rewrite Ew1. cbn [mbind option_bind].
  destruct (IH (src + 4) (dst + pb + pb) dm2) as (dm' & -> & Hpx); [lia | lia | lia | lia |].
  exists dm'. split; [done|]. replace (2 * Z.of_nat (S i)) with (2 * Z.of_nat i + 1 + 1) by lia.
  eapply pixels_step; [done | lia | done | exact Ew | done | |].
  { unfold yuyv_pixel, yuyv_color. rewrite Z.mul_0_r, !Z.add_0_r, E0, E1, E3. cbn. by rewrite <- Ec. }
  eapply pixels_step; [done | lia | lia | exact Ew1 | done | |].
  { unfold yuyv_pixel, yuyv_color. change ((0 + 1) / 2) with 0. rewrite Z.mul_0_r, !Z.add_0_r.
    change (2 * (0 + 1)) with 2. rewrite E2, E1, E3. cbn. by rewrite <- Ec1. }
  eapply pixels_ext; [|exact Hpx]. intros k Hk. cbn beta. rewrite yuyv_shift by lia. f_equal. lia.
Qed.

End Tables.

(** ** RGB565 frames *)

(** Pixel [k] of the RGB565 data at [off], at a depth of 16 or 32. *)
Definition rgb_pixel (bpp : Z) (sm : mem) (off k : Z) : option mem :=
  px ← mem_read sm (off + 2 * k) 2;
  if bpp =? 16 then Some px
  else match px with [lo; hi] => Some (bytes32 (expand565 (lo + 256 * hi))) | _ => None end.

Lemma read2 sm pos : 0 <= pos -> pos + 2 <= zlen sm ->
  exists lo hi, byte_at sm pos = Some lo /\ byte_at sm (pos + 1) = Some hi /\
  mem_read sm pos 2 = Some [lo; hi].
Proof.
  intros H0 H2. unfold byte_at, zlen in *. rewrite !(proj2 (Z.leb_le 0 _)) by lia.
  destruct (lookup_lt_is_Some_2 sm (Z.to_nat pos)) as [lo E0]; [lia|].
  destruct (lookup_lt_is_Some_2 sm (Z.to_nat (pos + 1))) as [hi E1]; [lia|].
  exists lo, hi. split_and!; try done. rewrite mem_read_in by (unfold zlen; lia). f_equal.
  rewrite Z2Nat.inj_add in E1 by lia. rewrite (drop_S _ lo) by done.
  by rewrite (drop_S _ hi) by (rewrite <- E1; f_equal; lia).
Qed.

Lemma rgb_row_spec sm : forall todo src dst dm, 0 <= src -> src + 2 * Z.of_nat todo <= zlen sm ->
  0 <= dst -> dst + Z.of_nat todo * 4 <= zlen dm ->
  exists dm', rgb_row todo sm src dst dm = Some dm' /\
  pixels_are (rgb_pixel 32 sm src) 4 (Z.of_nat todo) dst dm dm'.
Proof.
  induction todo as [|todo IH]; intros src dst dm Hs Hss Hd Hds.
  { exists dm. split; [done|]. apply pixels_none. }
  destruct (read2 sm src) as (lo & hi & E0 & E1 & E2); [done | lia |].
  cbn [rgb_row]. rewrite E0, E1. cbn [mbind option_bind].
  destruct (mem_write_ok dm dst (bytes32 (expand565 (lo + 256 * hi)))) as (dm1 & Ew & [Lm _] & _);
    [done | change (zlen (bytes32 _)) with 4; lia |]. rewrite Ew. cbn [mbind option_bind].
  destruct (IH (src + 2) (dst + 4) dm1) as (dm' & -> & Hpx); [lia | lia | lia | lia |].
  exists dm'. split; [done|]. replace (Z.of_nat (S todo)) with (Z.of_nat todo + 1) by lia.
  eapply pixels_step; [done | lia | done | exact Ew | done | |].
  { unfold rgb_pixel. by rewrite Z.mul_0_r, Z.add_0_r, E2. }
  eapply pixels_ext; [|exact Hpx]. intros k Hk. unfold rgb_pixel.
  by replace (src + 2 * (k + 1)) with (src + 2 + 2 * k) by lia.
Qed.

Lemma rgb_rows_spec sm w : 0 <= w -> forall todo src dst dm, 0 <= src ->
  src + 2 * (Z.of_nat todo * w) <= zlen sm -> 0 <= dst -> dst + Z.of_nat todo * w * 4 <= zlen dm ->
  exists dm', rgb_rows todo w sm src dst dm = Some dm' /\
  pixels_are (rgb_pixel 32 sm src) 4 (Z.of_nat todo * w) dst dm dm'.
Proof.
  intros Hw. induction todo as [|todo IH]; intros src dst dm Hs Hss Hd Hds.
  { exists dm. split; [done|]. apply pixels_none. }
  replace (Z.of_nat (S todo) * w) with (w + Z.of_nat todo * w) in * by lia.
  assert (0 <= Z.of_nat todo * w) by nia. cbn [rgb_rows]. rewrite Z.max_r by lia.
  destruct (rgb_row_spec sm (Z.to_nat w) src dst dm) as (dm1 & -> & Hpx1);
    rewrite ?Z2Nat.id in * by lia; try lia. cbn [mbind option_bind].
  destruct (IH (src + 2 * w) (dst + 4 * w) dm1) as (dm' & -> & Hpx); [lia | lia | lia | |].
  { destruct Hpx1 as [[-> _] _]. lia. }
  exists dm'. split; [done|]. eapply pixels_app; [done | done | done | exact Hpx1 |].
  rewrite (Z.mul_comm w 4). eapply pixels_ext; [|exact Hpx]. intros k Hk. unfold rgb_pixel.
  by replace (src + 2 * (w + k)) with (src + 2 * w + 2 * k) by lia.
Qed.

(** * Converted frames *)

(** The block of a buffer has room for [size] bytes, or can be allocated. *)
Definition block_fits (malloc : Z -> option mem) (size : Z) (b : T_VideoBuf) : Prop :=
  match vb_ptr b with
  | Null => exists m, malloc size = Some m /\ zlen m = size
  | Live => size <= zlen (aucPixelDatas (tPixelDatas b))
  | Freed => False
  end.

(** [b'] is [b] with the pixels of a frame of [w] times [h], the first [n] of
    which are the ones of [get]. *)
Record converted (get : Z -> option mem) (w h bpp n : Z) (b b' : T_VideoBuf) : Prop := {
  cv_live : vb_ptr b' = Live;
  cv_format : iPixelFormat b' = iPixelFormat b;
  cv_ok : pic_ok (tPixelDatas b');
  cv_width : iWidth (tPixelDatas b') = w;
  cv_height : iHeight (tPixelDatas b') = h;
  cv_bpp : iBpp (tPixelDatas b') = bpp;
  cv_line : iLineBytes (tPixelDatas b') = w * (bpp / 8);
  cv_pixels : forall x y, in_pic (tPixelDatas b') x y -> y * w + x < n ->
    pixel (tPixelDatas b') x y = get (y * w + x)
}.

Lemma ensure_ok malloc b : block_fits malloc (iTotalBytes (tPixelDatas b)) b ->
  exists m, ensure_block malloc b =
    mk_frame (set_pixels m (tPixelDatas b)) Live (iPixelFormat b) /\
  iTotalBytes (tPixelDatas b) <= zlen m.
Proof.
  unfold block_fits, ensure_block. destruct b as [p [] f]; cbn [vb_ptr tPixelDatas iPixelFormat].
  - intros (m & -> & Hl). exists m. split; [done | lia].
  - intros Hl. exists (aucPixelDatas p). split; [|done]. by destruct p.
  - done.
Qed.

Lemma fits_size malloc size w h bpp line total b :
  block_fits malloc size (set_size w h bpp line total b) <-> block_fits malloc size b.
Proof. done. Qed.

(** The frame of every converter: the sizes are set, the block is there, and the
    conversion [conv] fills it. *)
Lemma converted_intro malloc conv get w h bpp line total n ptOut :
  0 <= w < 2 ^ 16 -> 0 <= h < 2 ^ 16 -> depth_ok bpp -> line = w * (bpp / 8) -> total = line * h ->
  0 <= n <= w * h ->
  block_fits malloc (w * h * (bpp / 8)) ptOut ->
  (forall m, w * h * (bpp / 8) <= zlen m -> exists m', conv m = Some m' /\
     run_of get (bpp / 8) n m m') ->
  let out := ensure_block malloc (set_size w h bpp line total ptOut) in
  exists out', (m ← conv (aucPixelDatas (tPixelDatas out)); Some (0, set_block m out)) = Some (0, out') /\
  converted get w h bpp n ptOut out'.
Proof.
  intros Hw Hh Hb El Et Hn Hfit Hconv out.
  assert (total = w * h * (bpp / 8)) as Et' by (subst total line; lia).
  destruct (ensure_ok malloc (set_size w h bpp line total ptOut)) as (m & E & Hl).
  { apply fits_size. cbn. by rewrite Et'. }
  subst out. rewrite E. cbn in Hl. cbn [tPixelDatas aucPixelDatas set_pixels].
  destruct (Hconv m) as (m' & -> & Hpx); [lia|]. cbn [mbind option_bind].
  eexists. split; [reflexivity|].
  destruct (run_pic get w h bpp m m') with (n := n) as [Hok Hget]; try done; [lia|].
  subst total line. split; cbn; try done.
Qed.

Definition format_bpp (fmt : Z) : Z :=
  if fmt =? V4L2_PIX_FMT_RGB565 then 16 else if fmt =? V4L2_PIX_FMT_RGB32 then 32 else 0.

Lemma yuv_frame malloc0 t malloc ptIn ptOut : initLut malloc0 = Some t ->
  let p := tPixelDatas ptIn in let w := iWidth p in let h := iHeight p in
  let bpp := format_bpp (iPixelFormat ptOut) in
  0 <= w < 2 ^ 16 -> 0 <= h < 2 ^ 16 -> is_bytes (aucPixelDatas p) -> 2 * (w * h) <= zlen (aucPixelDatas p) ->
  bpp <> 0 -> block_fits malloc (w * h * (bpp / 8)) ptOut ->
  exists out', Yuv2RgbConvert t malloc ptIn ptOut = Some (0, out') /\
  converted (yuyv_pixel bpp (aucPixelDatas p) 0) w h bpp (2 * (w * h / 2)) ptOut out'.
Proof.
  intros Ht p w h bpp Hw Hh Hby Hlen Hb Hfit.
  assert (u32 (w * h) = w * h) as Eu by (apply u32_small; unfold is_u32; nia).
  assert (0 <= w * h) by nia.
  assert (2 * (w * h / 2) <= w * h) by (apply Z.mul_div_le; lia).
  assert (0 <= w * h / 2) by (apply Z.div_pos; lia).
  unfold Yuv2RgbConvert. fold p w h.
  assert (forall b, b = 16 \/ b = 32 -> forall m, w * h * (b / 8) <= zlen m ->
    exists m', yuv_loop (Z.to_nat (u32 (w * h) / 2)) t (store_of b) (aucPixelDatas p) 0 0 m = Some m' /\
    run_of (yuyv_pixel b (aucPixelDatas p) 0) (b / 8) (2 * (w * h / 2)) m m') as Hconv.
  { intros b Hb' m Hm. rewrite Eu.
    destruct (yuv_loop_spec malloc0 t Ht b (aucPixelDatas p) Hb' Hby (Z.to_nat (w * h / 2)) 0 0 m)
      as (m' & -> & Hpx); rewrite ?Z2Nat.id in * by lia; try lia; [|exists m'; split; [done | by apply pixels_run]].
    destruct Hb' as [-> | ->]; [change (16 / 8) with 2 in * | change (32 / 8) with 4 in *]; lia. }
  unfold bpp, format_bpp in *. destruct (Z.eqb_spec (iPixelFormat ptOut) V4L2_PIX_FMT_RGB565).
  - apply (converted_intro malloc
      (fun m => Pyuv422torgb565 t (aucPixelDatas p) m w h)); try lia; try done; [by left | | by apply Hconv; left].
    change 16 with (2 * 8). rewrite Z.mul_assoc, Z.quot_mul by lia. done.
  - destruct (Z.eqb_spec (iPixelFormat ptOut) V4L2_PIX_FMT_RGB32); [|done].
    apply (converted_intro malloc
      (fun m => Pyuv422torgb32 t (aucPixelDatas p) m w h)); try lia; try done; [by right; right | | by apply Hconv; right].
    change 32 with (4 * 8). rewrite Z.mul_assoc, Z.quot_mul by lia. done.
Qed.

Lemma rgb_frame malloc ptIn ptOut :
  let p := tPixelDatas ptIn in let w := iWidth p in let h := iHeight p in
  let bpp := format_bpp (iPixelFormat ptOut) in
  iPixelFormat ptIn = V4L2_PIX_FMT_RGB565 ->
  0 <= w < 2 ^ 16 -> 0 <= h < 2 ^ 16 -> 2 * (w * h) <= zlen (aucPixelDatas p) ->
  bpp <> 0 -> block_fits malloc (w * h * (bpp / 8)) ptOut ->
  exists out', Rgb2RgbConvert malloc ptIn ptOut = Some (0, out') /\
  converted (rgb_pixel bpp (aucPixelDatas p) 0) w h bpp (w * h) ptOut out'.
Proof.
  intros p w h bpp Ef Hw Hh Hlen Hb Hfit. assert (0 <= w * h) by nia.
  unfold Rgb2RgbConvert. fold p w h. rewrite Ef, Z.eqb_refl. cbn [negb].
  unfold bpp, format_bpp in *. destruct (Z.eqb_spec (iPixelFormat ptOut) V4L2_PIX_FMT_RGB565).
  - assert (Z.quot (w * 16) 8 = w * 2) as El by (change 16 with (2 * 8); rewrite Z.mul_assoc; by apply Z.quot_mul).
    rewrite El. set (bs := take (Z.to_nat (w * 2 * h)) (drop (Z.to_nat 0) (aucPixelDatas p))).
    assert (mem_read (aucPixelDatas p) 0 (w * 2 * h) = Some bs) as Hr by (apply mem_read_in; lia).
    rewrite Hr. cbn [mbind option_bind]. pose proof (mem_read_length _ _ _ _ Hr) as Lb.
    apply (converted_intro malloc (fun m => mem_write m 0 bs)); try lia; try done; [by left|].
    intros m Hm. change (16 / 8) with 2 in *.
    destruct (mem_write_ok m 0 bs) as (m' & -> & [L _] & R); [done | lia |].
    exists m'. split; [done|]. split; [done|]. intros k Hk. unfold rgb_pixel.
    rewrite Lb in R. rewrite <- (Z.add_0_l (k * 2)), (Z.mul_comm k 2).
    rewrite (mem_read_sub _ _ _ _ _ _ R), (mem_read_sub _ _ _ _ _ _ Hr) by lia.
    destruct (read2 bs (2 * k)) as (lo & hi & _ & _ & ->); [lia | lia | done].
  - destruct (Z.eqb_spec (iPixelFormat ptOut) V4L2_PIX_FMT_RGB32); [|done].
    apply (converted_intro malloc
      (fun m => rgb_rows (Z.to_nat h) w (aucPixelDatas p) 0 0 m)); try lia; try done; [by right; right | |].
    { change 32 with (4 * 8). rewrite Z.mul_assoc, Z.quot_mul by lia. done. }
    intros m Hm. change (32 / 8) with 4 in *.
    destruct (rgb_rows_spec (aucPixelDatas p) w ltac:(lia) (Z.to_nat h) 0 0 m) as (m' & -> & Hpx);
      rewrite ?Z2Nat.id in * by lia; try lia.
    exists m'. split; [done|]. apply pixels_run. by rewrite Z.mul_comm.
Qed.

(** ** MJPEG frames *)

(** Pixel [k] of a decoded picture. *)
Definition jpeg_pixel (bpp : Z) (img : Jpg.jpeg_image) (k : Z) : option mem :=
  let w := Jpg.output_width img in
  buf ← Jpg.scanline img (Z.to_nat (k / w)); line_pixel rgb bpp buf 0 (k mod w).

(** libjpeg gives every line of the picture with three bytes per pixel. *)
Record jpeg_good (img : Jpg.jpeg_image) : Prop := {
  jg_width : 0 < Jpg.output_width img < 2 ^ 15;
  jg_height : 0 < Jpg.output_height img < 2 ^ 15;
  jg_lines : forall y, (y < Z.to_nat (Jpg.output_height img))%nat ->
    exists buf, Jpg.scanline img y = Some buf /\ is_bytes buf /\ Jpg.output_width img * 3 <= zlen buf
}.

Lemma scan_lines_jpg todo y width bpp img pucDest line dm :
  Mjpeg.scan_lines todo y width bpp img pucDest line dm =
  Jpg.jpg_lines todo y width bpp img pucDest line dm.
Proof. done. Qed.

(** All the lines, as a run of pixels. *)
Lemma scan_run img bpp m : jpeg_good img -> depth_ok bpp ->
  let w := Jpg.output_width img in let h := Jpg.output_height img in let pb := bpp / 8 in
  w * h * pb <= zlen m ->
  exists m', Mjpeg.scan_lines (Z.to_nat h) 0 w bpp img 0 (w * pb) m = Some (inl m') /\
  run_of (jpeg_pixel bpp img) pb (w * h) m m'.
Proof.
  intros [Hw Hh Hl] Hb w h pb Hm. rewrite scan_lines_jpg. fold w h in Hw, Hh, Hl. subst pb.
  destruct (JpgSpec.jpg_lines_spec w bpp img ltac:(lia) Hb (Z.to_nat h) 0 0 (w * (bpp / 8)) m)
    as (m' & -> & L & Hpx & _); rewrite ?Z2Nat.id in * by lia; try done; [|lia|].
  { intros y Hy. apply Hl. lia. }
  exists m'. split; [done|]. split; [done|]. intros k Hk. unfold jpeg_pixel. fold w.
  assert (0 <= k / w < h) by (split; [apply Z.div_pos | apply Z.div_lt_upper_bound]; lia).
  pose proof (Z.mod_pos_bound k w ltac:(lia)). pose proof (Z.div_mod k w ltac:(lia)).
  etransitivity; [|apply (Hpx (k mod w) (k / w)); lia]. f_equal.
  replace k with (k / w * w + k mod w) at 1 by lia. lia.
Qed.

(** [Mjpeg2RgbConvert] on a frame that libjpeg decodes. *)
Lemma mjpeg_frame decode malloc ptIn ptOut frame img :
  let p := tPixelDatas ptIn in let bpp := iBpp (tPixelDatas ptOut) in
  let w := Jpg.output_width img in let h := Jpg.output_height img in
  vb_ptr ptIn <> Null -> 0 < iTotalBytes p < 2 ^ 31 -> mem_read (aucPixelDatas p) 0 (iTotalBytes p) = Some frame ->
  decode frame = Some img -> jpeg_good img -> depth_ok bpp ->
  block_fits malloc (w * h * (bpp / 8)) ptOut ->
  exists out', Mjpeg.Mjpeg2RgbConvert decode true malloc ptIn ptOut = Some (0, out') /\
  converted (jpeg_pixel bpp img) w h bpp (w * h) ptOut out'.
Proof.
  intros p bpp w h Hp Ht Hr Hd Hg Hb Hfit. pose proof (jg_width _ Hg) as Hw. pose proof (jg_height _ Hg) as Hh.
  fold w h in Hw, Hh. unfold Mjpeg.Mjpeg2RgbConvert, jpeg_mem_src_tj. fold p.
  rewrite (u32_small (iTotalBytes p)) by (unfold is_u32; lia).
  rewrite bool_decide_eq_false_2 by done. destruct (Z.eqb_spec (iTotalBytes p) 0); [lia|]. cbn [orb bytes_in_buffer].
  rewrite Hr. cbn [mbind option_bind]. rewrite Hd. cbn [negb]. fold w h bpp.
  rewrite !s32_small by (unfold is_s32; lia).
  assert (Z.quot (w * bpp) 8 = w * (bpp / 8)) as El.
  { replace (w * bpp) with (w * (bpp / 8) * 8); [by apply Z.quot_mul|].
    destruct Hb as [-> | [-> | ->]]; [change (16 / 8) with 2 | change (24 / 8) with 3 | change (32 / 8) with 4]; lia. }
  rewrite El. set (out := ensure_block _ _).
  destruct (converted_intro malloc
    (fun m => match Mjpeg.scan_lines (Z.to_nat h) 0 w bpp img 0 (w * (bpp / 8)) m with
              | Some (inl m') => Some m' | _ => None end)
    (jpeg_pixel bpp img) w h bpp (w * (bpp / 8)) (h * (w * (bpp / 8))) (w * h) ptOut)
    as (out' & E & Hc); try lia; try done.
  { intros m Hm. destruct (scan_run img bpp m Hg Hb Hm) as (m' & Es & Hrun).
    fold w h in Es. rewrite Es. by exists m'. }
  exists out'. split; [|done]. fold out in E.
  destruct (Mjpeg.scan_lines _ _ _ _ _ _ _ _) as [[m'|m']|]; [exact E | done | done].
Qed.

(** ** Frames that cannot be converted *)

(** Pixels that do not fit the block are written outside it. *)
Lemma convert_loop_overflow order bpp sm : bpp = 16 \/ bpp = 32 -> forall todo pos dst dm,
  (0 < todo)%nat -> zlen dm < dst + Z.of_nat todo * (bpp / 8) ->
  convert_loop todo order bpp sm pos dst dm = None.
Proof.
  intros Hb. induction todo as [|todo IH]; intros pos dst dm Ht Hl; [lia|]. cbn [convert_loop].
  destruct (byte_at sm pos) as [b0|]; [|done]. destruct (byte_at sm (pos + 1)) as [b1|]; [|done].
  destruct (byte_at sm (pos + 2)) as [b2|]; [|done]. cbn [mbind option_bind].
  destruct (order b0 b1 b2) as [[r g] b].
  assert (forall v f, zlen v = bpp / 8 ->
    (forall dm', zlen dm' = zlen dm -> (0 < todo)%nat -> f dm' = None) ->
    mem_write dm dst v ≫= f = (None : option mem)) as Hstep.
  { intros v f Lv Hf. destruct (mem_write dm dst v) as [dm'|] eqn:Ew; [|done]. cbn [mbind option_bind].
    pose proof (mem_write_length _ _ _ _ Ew). apply mem_write_Some in Ew as (_ & ? & _).
    apply Hf; [done|]. destruct todo; lia. }
  destruct Hb as [-> | ->]; [change (16 =? 32) with false; change (16 =? 16) with true | change (32 =? 32) with true];
    cbn iota; (apply Hstep; [done|]); intros dm' L Ht';
    [change (16 / 8) with 2 in * | change (32 / 8) with 4 in *]; apply IH; lia.
Qed.

Lemma convert_loop_length order bpp sm : forall todo pos dst dm dm',
  convert_loop todo order bpp sm pos dst dm = Some dm' -> zlen dm' = zlen dm.
Proof.
  induction todo as [|todo IH]; intros pos dst dm dm' E; cbn [convert_loop] in E; [congruence|].
  destruct (byte_at sm pos) as [b0|]; [|done]. destruct (byte_at sm (pos + 1)) as [b1|]; [|done].
  destruct (byte_at sm (pos + 2)) as [b2|]; [|done]. cbn [mbind option_bind] in E.
  destruct (order b0 b1 b2) as [[r g] b]. destruct (bpp =? 32); [|destruct (bpp =? 16); [|by eapply IH]];
    apply bind_Some in E as (dm1 & Ew & E); rewrite (IH _ _ _ _ E); by eapply mem_write_length.
Qed.

Lemma scan_overflow img bpp : bpp = 16 \/ bpp = 32 -> let w := Jpg.output_width img in
  0 < w -> forall todo y dst line m,
  (forall y', (y <= y' < y + todo)%nat -> is_Some (Jpg.scanline img y')) ->
  line = w * (bpp / 8) -> (0 < todo)%nat -> zlen m < dst + Z.of_nat todo * line ->
  Mjpeg.scan_lines todo y w bpp img dst line m = None.
Proof.
  intros Hb w Hw. assert (0 < bpp / 8) as Hpb by (by destruct Hb as [-> | ->]).
  induction todo as [|todo IH]; intros y dst line m Hs El Ht Hl; [lia|]. cbn [Mjpeg.scan_lines].
  destruct (Hs y) as [buf ->]; [lia|].
  assert (forall r m', Mjpeg.CovertOneLine w 24 bpp buf 0 m dst = Some (r, m') -> zlen m' = zlen m) as Hlen.
  { intros r m'. unfold Mjpeg.CovertOneLine, convert_line. change (negb (24 =? 24)) with false. cbn iota.
    destruct (bpp =? 24) eqn:E; [destruct Hb as [-> | ->]; done|]. intros (m1 & E1 & [= _ <-])%bind_Some.
    by eapply convert_loop_length. }
  destruct (Mjpeg.CovertOneLine _ _ _ _ _ _ _) as [[r m']|] eqn:E; [|done]. cbn [mbind option_bind].
  destruct todo as [|todo].
  - exfalso. unfold Mjpeg.CovertOneLine, convert_line in E. change (negb (24 =? 24)) with false in E. cbn iota in E.
    destruct (bpp =? 24) eqn:E24; [destruct Hb as [-> | ->]; done|].
    rewrite (convert_loop_overflow rgb bpp buf Hb) in E; [done | lia |]. rewrite Z2Nat.id by lia. lia.
  - apply IH; [intros; apply Hs; lia | done | lia |]. rewrite (Hlen r m') by done. lia.
Qed.

(** * Correctness of the conversions *)

(** The pixels of a frame in the format of the camera. *)
Definition frame_pixel (fmt bpp : Z) (frame : mem) (k : Z) : option mem :=
  if fmt =? V4L2_PIX_FMT_YUYV then yuyv_pixel bpp frame 0 k else rgb_pixel bpp frame 0 k.

Lemma convert_init malloc0 r t l : VideoConvertInit malloc0 [] = Some (r, t, l) ->
  r = 0 /\ initLut malloc0 = Some t /\ l = [Yuv2Rgb; Mjpeg2Rgb; Rgb2Rgb].
Proof.
  unfold VideoConvertInit, Yuv2RgbInit. destruct (initLut malloc0) as [t'|] eqn:E; [|done].
  cbn. by intros [= <- <- <-].
Qed.

(** Which converter is chosen: by the format of the camera alone, when the screen
    has 16 or 32 bits per pixel. *)
Lemma selected a b : GetVideoConvertForFormats a b [Yuv2Rgb; Mjpeg2Rgb; Rgb2Rgb] =
  if format_bpp b =? 0 then None
  else if a =? V4L2_PIX_FMT_YUYV then Some Yuv2Rgb
  else if a =? V4L2_PIX_FMT_MJPEG then Some Mjpeg2Rgb
  else if a =? V4L2_PIX_FMT_RGB565 then Some Rgb2Rgb else None.
Proof.
  cbn -[Z.eqb V4L2_PIX_FMT_YUYV V4L2_PIX_FMT_MJPEG V4L2_PIX_FMT_RGB565 V4L2_PIX_FMT_RGB32].
  unfold isSupportYuv2Rgb, isSupportMjpeg2Rgb, isSupportRgb2Rgb, format_bpp.
  destruct (b =? V4L2_PIX_FMT_RGB565), (b =? V4L2_PIX_FMT_RGB32); cbn [negb andb];
    destruct (Z.eqb_spec a V4L2_PIX_FMT_YUYV) as [->|]; try done;
    destruct (Z.eqb_spec a V4L2_PIX_FMT_MJPEG) as [->|]; try done;
    by destruct (a =? V4L2_PIX_FMT_RGB565).
Qed.

(** C32. Converting uncompressed frames: once the converters are registered, every
    frame in YUYV or RGB565 finds a converter for a screen of 16 or 32 bits per
    pixel and no other pair of formats but the MJPEG ones does; the converter
    gives a picture of the frame's size in which every pixel is the colour of the
    frame's pixel at the same place, except that the last pixel of a YUYV frame
    with an odd number of pixels is not written. The block of the output is
    allocated for the first frame and used again for the next ones. *)
Theorem convert_spec malloc0 r t l e ptIn ptOut :
  VideoConvertInit malloc0 [] = Some (r, t, l) -> ce_luts e = t ->
  let p := tPixelDatas ptIn in let w := iWidth p in let h := iHeight p in
  let fin := iPixelFormat ptIn in let bpp := format_bpp (iPixelFormat ptOut) in
  0 <= w < 2 ^ 16 -> 0 <= h < 2 ^ 16 -> is_bytes (aucPixelDatas p) ->
  2 * (w * h) <= zlen (aucPixelDatas p) -> bpp <> 0 ->
  block_fits (ce_malloc e) (w * h * (bpp / 8)) ptOut ->
  r = 0 /\
  (forall a b, is_Some (GetVideoConvertForFormats a b l) <->
     format_bpp b <> 0 /\ a ∈ [V4L2_PIX_FMT_YUYV; V4L2_PIX_FMT_MJPEG; V4L2_PIX_FMT_RGB565]) /\
  (fin = V4L2_PIX_FMT_YUYV \/ fin = V4L2_PIX_FMT_RGB565 ->
   exists c out', GetVideoConvertForFormats fin (iPixelFormat ptOut) l = Some c /\
   Convert e c ptIn ptOut = Some (0, out') /\
   converted (frame_pixel fin bpp (aucPixelDatas p)) w h bpp
     (if fin =? V4L2_PIX_FMT_YUYV then 2 * (w * h / 2) else w * h) ptOut out' /\
   block_fits (ce_malloc e) (w * h * (bpp / 8)) out').
Proof.
  intros (-> & Ht & ->)%convert_init El p w h fin bpp Hw Hh Hby Hlen Hb Hfit.
  split; [done|]. split.
  { intros a b. rewrite selected, !elem_of_cons, elem_of_nil.
    destruct (Z.eqb_spec (format_bpp b) 0); [split; [by intros []|tauto]|].
    destruct (Z.eqb_spec a V4L2_PIX_FMT_YUYV); [by split; [tauto|eexists]|].
    destruct (Z.eqb_spec a V4L2_PIX_FMT_MJPEG); [by split; [tauto|eexists]|].
    destruct (Z.eqb_spec a V4L2_PIX_FMT_RGB565); [by split; [tauto|eexists]|].
    split; [by intros []|tauto]. }
  assert (forall get n out', converted get w h bpp n ptOut out' ->
    block_fits (ce_malloc e) (w * h * (bpp / 8)) out') as Hagain.
  { intros get n out' Hc. unfold block_fits. rewrite (cv_live _ _ _ _ _ _ _ Hc).
    pose proof (po_total _ (cv_ok _ _ _ _ _ _ _ Hc)) as Ht'.
    rewrite (cv_height _ _ _ _ _ _ _ Hc), (cv_line _ _ _ _ _ _ _ Hc) in Ht'. lia. }
  rewrite selected. destruct (Z.eqb_spec (format_bpp (iPixelFormat ptOut)) 0); [done|].
  unfold frame_pixel. intros [-> | Ef].
  - exists Yuv2Rgb. rewrite Z.eqb_refl. cbn [Convert]. rewrite El.
    destruct (yuv_frame malloc0 t (ce_malloc e) ptIn ptOut) as (out' & E & Hc); try done.
    exists out'. eauto.
  - exists Rgb2Rgb. rewrite Ef. cbn [Convert].
    destruct (rgb_frame (ce_malloc e) ptIn ptOut) as (out' & E & Hc); try done.
    exists out'. eauto.
Qed.

(** A YUYV frame of two pixels, white and black. *)
Definition sample_yuyv : T_VideoBuf :=
  mk_frame (mk_pic 2 1 16 4 4 [255; 128; 0; 128]) Live V4L2_PIX_FMT_YUYV.
Definition sample_out (fmt : Z) : T_VideoBuf := mk_frame zero_pic Null fmt.
Definition zero_malloc (n : Z) : option mem := Some (replicate (Z.to_nat n) 0).
Definition sample_luts : luts :=
  default (mk_luts [] [] [] [] [] [] [] [] [] [] []) (initLut (fun _ => true)).
Definition sample_conv (decode : mem -> option Jpg.jpeg_image) : conv_env :=
  mk_conv_env sample_luts decode true zero_malloc.

Lemma zero_malloc_ok n : 0 <= n -> exists m, zero_malloc n = Some m /\ zlen m = n.
Proof. intros. eexists. split; [done|]. rewrite zlen_replicate. lia. Qed.

Lemma convert_spec_witness : exists c out',
  GetVideoConvertForFormats V4L2_PIX_FMT_YUYV V4L2_PIX_FMT_RGB565 [Yuv2Rgb; Mjpeg2Rgb; Rgb2Rgb] = Some c /\
  Convert (sample_conv (fun _ => None)) c sample_yuyv (sample_out V4L2_PIX_FMT_RGB565) = Some (0, out') /\
  converted (frame_pixel V4L2_PIX_FMT_YUYV 16 [255; 128; 0; 128]) 2 1 16 2
    (sample_out V4L2_PIX_FMT_RGB565) out' /\
  block_fits zero_malloc 4 out'.
Proof.
  apply (convert_spec (fun _ => true) 0 sample_luts [Yuv2Rgb; Mjpeg2Rgb; Rgb2Rgb]
    (sample_conv (fun _ => None)) sample_yuyv (sample_out V4L2_PIX_FMT_RGB565));
    [vm_compute; reflexivity | reflexivity | cbn; lia | cbn; lia | | vm_compute; discriminate
    | vm_compute; discriminate | | by left].
  - repeat constructor; by vm_compute.
  - by apply zero_malloc_ok.
Defined.

(** C33. Converting MJPEG frames: a frame that libjpeg decodes into lines of three
    bytes per pixel becomes the decoded picture at the depth of the screen. The
    block of the output is allocated once: a later frame with more pixels than
    fit it is written outside it. A frame that libjpeg refuses frees the block
    without clearing the pointer, so that a second one frees it again. *)
Theorem mjpeg_spec decode malloc ptIn ptOut frame :
  let p := tPixelDatas ptIn in let bpp := iBpp (tPixelDatas ptOut) in
  vb_ptr ptIn <> Null -> 0 < iTotalBytes p < 2 ^ 31 ->
  mem_read (aucPixelDatas p) 0 (iTotalBytes p) = Some frame -> bpp = 16 \/ bpp = 32 ->
  (forall img, decode frame = Some img -> jpeg_good img ->
     let w := Jpg.output_width img in let h := Jpg.output_height img in
     (block_fits malloc (w * h * (bpp / 8)) ptOut ->
      exists out', Mjpeg.Mjpeg2RgbConvert decode true malloc ptIn ptOut = Some (0, out') /\
      converted (jpeg_pixel bpp img) w h bpp (w * h) ptOut out') /\
     (vb_ptr ptOut = Live -> zlen (aucPixelDatas (tPixelDatas ptOut)) < w * h * (bpp / 8) ->
      Mjpeg.Mjpeg2RgbConvert decode true malloc ptIn ptOut = None)) /\
  (decode frame = None -> vb_ptr ptOut = Live ->
   exists out', Mjpeg.Mjpeg2RgbConvert decode true malloc ptIn ptOut = Some (-1, out') /\
   vb_ptr out' = Freed /\ Mjpeg.Mjpeg2RgbConvert decode true malloc ptIn out' = None).
Proof.
  intros p bpp Hp Ht Hr Hb.
  assert (forall out, Mjpeg.Mjpeg2RgbConvert decode true malloc ptIn out =
    match decode frame with
    | None => b ← free_block Freed out; Some (-1, b)
    | Some img =>
        let width := s32 (Jpg.output_width img) in
        let height := s32 (Jpg.output_height img) in
        let line := Z.quot (width * iBpp (tPixelDatas out)) 8 in
        let b := ensure_block malloc
                   (set_size width height (iBpp (tPixelDatas out)) line (height * line) out) in
        r ← Mjpeg.scan_lines (Z.to_nat (Jpg.output_height img)) 0 width (iBpp (tPixelDatas out)) img 0
              line (aucPixelDatas (tPixelDatas b));
        match r with
        | inl m => Some (0, set_block m b)
        | inr m => b ← free_block Freed (set_block m b); Some (-1, b)
        end
    end) as Heq.
  { intros out. unfold Mjpeg.Mjpeg2RgbConvert, jpeg_mem_src_tj. fold p.
    rewrite (u32_small (iTotalBytes p)) by (unfold is_u32; lia).
    rewrite bool_decide_eq_false_2 by done. destruct (Z.eqb_spec (iTotalBytes p) 0); [lia|].
    cbn [orb bytes_in_buffer]. rewrite Hr. done. }
  split.
  - intros img Ed Hg w h. split.
    + intros Hfit. eapply mjpeg_frame; try done. destruct Hb; [by left | by right; right].
    + intros Hl Hshort. rewrite Heq, Ed. pose proof (jg_width _ Hg) as Hw.
      pose proof (jg_height _ Hg) as Hh. fold w in Hw. fold h in Hh. cbn zeta. fold w h bpp. rewrite !s32_small by (unfold is_s32; lia).
      assert (Z.quot (w * bpp) 8 = w * (bpp / 8)) as ->.
      { replace (w * bpp) with (w * (bpp / 8) * 8); [by apply Z.quot_mul|].
        destruct Hb as [-> | ->]; [change (16 / 8) with 2 | change (32 / 8) with 4]; lia. }
      unfold ensure_block. cbn [set_size vb_ptr]. rewrite Hl. cbn [set_size tPixelDatas aucPixelDatas].
      rewrite (scan_overflow img bpp Hb); try done; [lia | | lia | rewrite Z2Nat.id; lia].
      intros y' Hy. destruct (jg_lines _ Hg y') as (buf & -> & _); [fold h; lia | by eexists].
  - intros Ed Hl. rewrite Heq, Ed. unfold free_block at 1. rewrite Hl. eexists. split; [reflexivity|].
    split; [done|]. by rewrite Heq, Ed.
Qed.

(** A frame of three bytes; libjpeg makes a red pixel of it. *)
Definition sample_mjpeg : T_VideoBuf :=
  mk_frame (mk_pic 1 1 0 0 3 [255; 216; 255]) Live V4L2_PIX_FMT_MJPEG.
Definition red_dot : Jpg.jpeg_image := Jpg.mk_jpeg 1 1 3 (fun _ => Some [255; 0; 0]).
Definition screen_out : T_VideoBuf := mk_frame (mk_pic 0 0 16 0 0 []) Null 0.

Lemma red_dot_good : jpeg_good red_dot.
Proof.
  split; [done | done |]. intros y _. exists [255; 0; 0]. split_and!; [done | | done].
  repeat constructor; done.
Qed.

Lemma mjpeg_spec_witness : exists out',
  Mjpeg.Mjpeg2RgbConvert (fun _ => Some red_dot) true zero_malloc sample_mjpeg screen_out = Some (0, out') /\
  converted (jpeg_pixel 16 red_dot) 1 1 16 1 screen_out out'.
Proof.
  apply (mjpeg_spec (fun _ => Some red_dot) zero_malloc sample_mjpeg screen_out [255; 216; 255]);
    [done | done | done | by left | done | apply red_dot_good | by apply zero_malloc_ok].
Defined.

(** C34. A colour taken apart into luminance and colour differences and put together
    again by the tables: nothing wraps around, red comes back within 3 and blue
    within 5. *)
Theorem color_roundtrip malloc t r g b :
  initLut malloc = Some t -> is_u8 r -> is_u8 g -> is_u8 b ->
  exists y u v r' b', RGB24_TO_Y t r g b = Some y /\ YB_TO_U t b y = Some u /\
  YR_TO_V t r y = Some v /\ R_FROMYV t y v = Some r' /\ B_FROMYU t y u = Some b' /\
  Z.abs (r' - r) <= 3 /\ Z.abs (b' - b) <= 5.
Proof.
  intros Ht Hr Hg Hb. rewrite (luma_ok malloc t Ht) by done.
  set (y := r * Rcoef / 1000 + g * Gcoef / 1000 + b * Bcoef / 1000).
  assert (is_u8 y) as Hy by (unfold y, is_u8, Rcoef, Gcoef, Bcoef in *; Z.div_mod_to_equations; lia).
  exists y. rewrite (diff_u_ok malloc t Ht), (diff_v_ok malloc t Ht) by done.
  assert (is_u8 (b * Ubcoef / 1000 + (128 - y * Ubcoef / 1000))) as Hu
    by (unfold y, is_u8, Rcoef, Gcoef, Bcoef, Ubcoef in *; Z.div_mod_to_equations; lia).
  assert (is_u8 (r * Vrcoef / 1000 + (128 - y * Vrcoef / 1000))) as Hv
    by (unfold y, is_u8, Rcoef, Gcoef, Bcoef, Vrcoef in *; Z.div_mod_to_equations; lia).
  rewrite !u8_small by done. eexists _, _, _, _. do 3 (split; [reflexivity|]).
  rewrite (red_ok malloc t Ht), (blue_ok malloc t Ht) by done. do 2 (split; [reflexivity|]).
  unfold yuv_red, yuv_blue, clamp, CoefRv, CoefBu, Ubcoef, Vrcoef, is_u8 in *. clear -Hr Hg Hb Hy Hu Hv.
  split; Z.to_euclidean_division_equations; lia.
Qed.

Lemma color_roundtrip_witness : exists y u v r' b',
  RGB24_TO_Y sample_luts 200 100 50 = Some y /\ YB_TO_U sample_luts 50 y = Some u /\
  YR_TO_V sample_luts 200 y = Some v /\ R_FROMYV sample_luts y v = Some r' /\
  B_FROMYU sample_luts y u = Some b' /\ Z.abs (r' - 200) <= 3 /\ Z.abs (b' - 50) <= 5.
Proof. apply (color_roundtrip (fun _ => true) sample_luts 200 100 50); done. Defined.

(** The green of a luminance and two colour differences with the two coefficients
    exchanged, as the comments beside their definitions have them. *)
Definition green_exchanged (y u v : Z) : Z :=
  clamp (y + Z.quot ((128 - u) * CoefGv) 1000 + Z.quot ((128 - v) * CoefGu) 1000).

(** Green: the tables take 714/1000 of the blue difference and 344/1000 of the
    red one. Pure red then comes back with a green of 62, while with the two
    coefficients exchanged the green of every colour comes back within 9. *)
Theorem green_exchanged_spec malloc t : initLut malloc = Some t ->
  (exists y u v, RGB24_TO_Y t 255 0 0 = Some y /\ YB_TO_U t 0 y = Some u /\ YR_TO_V t 255 y = Some v /\
   G_FROMYUV t y u v = Some 62) /\
  forall r g b, is_u8 r -> is_u8 g -> is_u8 b ->
  exists y u v, RGB24_TO_Y t r g b = Some y /\ YB_TO_U t b y = Some u /\ YR_TO_V t r y = Some v /\
  Z.abs (green_exchanged y u v - g) <= 9.
Proof.
  intros Ht. split.
  { exists 76, 86, 255. rewrite (luma_ok malloc t Ht), (diff_u_ok malloc t Ht), (diff_v_ok malloc t Ht),
      (green_ok malloc t Ht) by done. by vm_compute. }
  intros r g b Hr Hg Hb. rewrite (luma_ok malloc t Ht) by done.
  set (y := r * Rcoef / 1000 + g * Gcoef / 1000 + b * Bcoef / 1000).
  assert (is_u8 y) as Hy by (unfold y, is_u8, Rcoef, Gcoef, Bcoef in *; Z.div_mod_to_equations; lia).
  exists y. rewrite (diff_u_ok malloc t Ht), (diff_v_ok malloc t Ht) by done.
  rewrite !u8_small by (unfold y, is_u8, Rcoef, Gcoef, Bcoef, Ubcoef, Vrcoef in *; Z.div_mod_to_equations; lia).
  eexists _, _. do 3 (split; [reflexivity|]).
  unfold green_exchanged, clamp, y, is_u8, CoefGu, CoefGv, Ubcoef, Vrcoef, Rcoef, Gcoef, Bcoef in *.
  clear -Hr Hg Hb. Z.to_euclidean_division_equations; lia.
Qed.

(** ** The bytes libjpeg sees *)

(** Byte [k] from the current one on: the rest of the frame, and then the fake end
    marker over and over. *)
Definition eoi_byte (k : Z) : Z := if k mod 2 =? 0 then 0xFF else JPEG_EOI.

Definition source_byte (frame : mem) (src : jpeg_source_mgr) (k : Z) : option Z :=
  if k <? bytes_in_buffer src then
    match next_input_byte src with
    | InFrame off => byte_at frame (off + k)
    | InMyBuffer off => byte_at mybuffer (off + k)
    end
  else Some (eoi_byte (k - bytes_in_buffer src)).

Definition source_ok (frame : mem) (src : jpeg_source_mgr) : Prop :=
  0 <= bytes_in_buffer src < 2 ^ 31 /\
  match next_input_byte src with
  | InFrame off => 0 <= off /\ off + bytes_in_buffer src = zlen frame
  | InMyBuffer off => 0 <= off /\ off + bytes_in_buffer src = 2
  end.

Lemma mybuffer_byte k : 0 <= k < 2 -> byte_at mybuffer k = Some (eoi_byte k).
Proof. intros. assert (k = 0 \/ k = 1) as [-> | ->] by lia; done. Qed.

(** Reloading an emptied buffer does not change what comes. *)
Lemma refill_same frame src k : bytes_in_buffer src <= k ->
  source_byte frame (fill_mem_input_buffer src) (k - bytes_in_buffer src) = source_byte frame src k.
Proof.
  intros Hk. unfold source_byte. cbn [bytes_in_buffer next_input_byte fill_mem_input_buffer].
  rewrite (proj2 (Z.ltb_ge k _)) by done. destruct (Z.ltb_spec (k - bytes_in_buffer src) 2).
  - by apply mybuffer_byte; lia.
  - unfold eoi_byte. do 3 f_equal. replace (k - bytes_in_buffer src - 2)
      with (k - bytes_in_buffer src + (-1) * 2) by lia. by rewrite Z.mod_add by lia.
Qed.

Lemma skip_loop_ok frame : forall fuel num src, source_ok frame src -> 0 <= num < 2 ^ 31 ->
  (2 <= bytes_in_buffer src /\ (Z.to_nat num < fuel)%nat \/ (S (Z.to_nat num) < fuel)%nat) ->
  exists num' src', skip_loop fuel num src = Some (num', src') /\ source_ok frame src' /\
  0 <= num' <= bytes_in_buffer src' /\
  forall k, 0 <= k -> source_byte frame src' (num' + k) = source_byte frame src (num + k).
Proof.
  induction fuel as [|fuel IH]; intros num src Hok Hn Hf; [lia|]. cbn [skip_loop].
  pose proof Hok as [Hb _]. rewrite s32_small by (unfold is_s32; lia).
  destruct (Z.gtb_spec num (bytes_in_buffer src)); [|exists num, src; split_and!; try done; lia].
  destruct (IH (num - bytes_in_buffer src) (fill_mem_input_buffer src)) as (num' & src' & E & Hok' & Hn' & Hs).
  { by split. }
  { lia. }
  { left. cbn [fill_mem_input_buffer bytes_in_buffer]. lia. }
  exists num', src'. split_and!; try done; try lia. intros k Hk. rewrite Hs by done.
  rewrite <- (refill_same frame src (num + k)) by lia. f_equal. lia.
Qed.

(** The memory source: skipping bytes ends, and what libjpeg reads afterwards is
    what it would have read from there on, where a frame that ends too early is
    followed by end markers. *)
Theorem skip_spec frame num src : source_ok frame src -> num < 2 ^ 31 ->
  exists src', skip_input_data num src = Some src' /\ source_ok frame src' /\
  forall k, 0 <= k -> source_byte frame src' k = source_byte frame src (Z.max 0 num + k).
Proof.
  intros Hok Hn. unfold skip_input_data. destruct (Z.gtb_spec num 0).
  - destruct (skip_loop_ok frame (S (S (Z.to_nat num))) num src) as (n & s & -> & [Hb Hp] & Hle & Hs);
      [done | lia | lia |]. cbn [mbind option_bind]. eexists. split; [reflexivity|].
    rewrite u32_small by (unfold is_u32; lia). rewrite Z.max_r by lia. split.
    + split; cbn [bytes_in_buffer next_input_byte]; [lia|].
      destruct (next_input_byte s); cbn [advance]; lia.
    + intros k Hk. rewrite <- Hs by done. unfold source_byte. cbn [bytes_in_buffer next_input_byte].
      destruct (Z.ltb_spec k (bytes_in_buffer s - n)), (Z.ltb_spec (n + k) (bytes_in_buffer s)); try lia.
      * destruct (next_input_byte s); cbn [advance]; by rewrite Z.add_assoc.
      * do 2 f_equal. lia.
  - exists src. split; [done|]. split; [done|]. intros k _. by rewrite Z.max_l by lia.
Qed.

Lemma skip_spec_witness : exists src',
  skip_input_data 5 (mk_src (InFrame 1) 2) = Some src' /\ source_ok [10; 20; 30] src' /\
  forall k, 0 <= k ->
    source_byte [10; 20; 30] src' k = source_byte [10; 20; 30] (mk_src (InFrame 1) 2) (5 + k).
Proof. apply (skip_spec [10; 20; 30] 5 (mk_src (InFrame 1) 2)); [done | lia]. Defined.

Lemma green_exchanged_witness : exists y u v,
  RGB24_TO_Y sample_luts 10 20 30 = Some y /\ YB_TO_U sample_luts 30 y = Some u /\
  YR_TO_V sample_luts 10 y = Some v /\ Z.abs (green_exchanged y u v - 20) <= 9.
Proof. apply (green_exchanged_spec (fun _ => true) sample_luts); done. Defined.
