(* ===== verification/Videobuf.v ===== *)
(** The videobuf framework of the kernel (drivers/media/video/videobuf-core.c and
    videobuf-vmalloc.c of [src/linux-3.4.2]), on which the virtual camera [Vivi]
    is built.

    A buffer is known by its slot in [bufs]. A driver plugs in through four
    operations, the class [VideobufOps]; what the framework relies on is the class
    [VideobufLaws], and the theorems of the framework are proved against it.
    [buf->queue] links a buffer into the driver's list, which is [q_active] here.
    Every operation runs under the queue's lock and is one step. A call that
    would sleep is the outcome [Sleep]: nothing has changed, and it is tried again
    when it is woken. Magic numbers, locks, messages, [msize] and the [dev] and
    [priv_data] pointers are left out.

    Memory that was freed through a pointer that is still used is an empty block,
    on which every access faults. A list of which an element was freed is [None]:
    its head can be tested and initialised again, everything else faults. *)
From S2P Require Import Prelude V4l2.
Open Scope Z_scope.

Definition UNSET : Z := 2 ^ 32 - 1.
Definition POLLOUT : Z := 0x0004.
Definition POLLWRNORM : Z := 0x0100.
Definition VM_WRITE : Z := 0x00000002.
Definition VM_SHARED : Z := 0x00000008.

(** * Data *)

Record videobuf_buffer := mk_buf {
  b_i : Z;
  b_width : Z;
  b_height : Z;
  b_bytesperline : Z;
  b_size : Z;
  b_input : Z;
  b_field : Z;
  b_state : videobuf_state;
  b_field_count : Z;
  b_ts : Z * Z;
  b_memory : Z;
  b_bsize : Z;
  b_boff : Z;
  b_baddr : Z;
  b_map : option nat;          (* the mapping, by its number *)
  b_vaddr : option mem         (* [vaddr] of the vmalloc memory in [priv] *)
}.

Record videobuf_queue := mk_q {
  q_type : Z;
  q_inputs : Z;
  q_field : Z;
  q_last : Z;
  q_bufs : list (option videobuf_buffer);
  q_streaming : bool;
  q_reading : bool;
  q_stream : option (list nat);
  q_read_off : Z;
  q_read_buf : option nat;
  q_active : list nat;
  q_maps : gmap nat Z          (* the use counts of the mappings *)
}.

Definition set_state (s : videobuf_state) (b : videobuf_buffer) : videobuf_buffer :=
  mk_buf (b_i b) (b_width b) (b_height b) (b_bytesperline b) (b_size b) (b_input b) (b_field b)
    s (b_field_count b) (b_ts b) (b_memory b) (b_bsize b) (b_boff b) (b_baddr b) (b_map b) (b_vaddr b).
Definition set_input (v : Z) (b : videobuf_buffer) : videobuf_buffer :=
  mk_buf (b_i b) (b_width b) (b_height b) (b_bytesperline b) (b_size b) v (b_field b)
    (b_state b) (b_field_count b) (b_ts b) (b_memory b) (b_bsize b) (b_boff b) (b_baddr b) (b_map b)
    (b_vaddr b).
Definition set_output (size field : Z) (ts : Z * Z) (b : videobuf_buffer) : videobuf_buffer :=
  mk_buf (b_i b) (b_width b) (b_height b) (b_bytesperline b) size (b_input b) field
    (b_state b) (b_field_count b) ts (b_memory b) (b_bsize b) (b_boff b) (b_baddr b) (b_map b)
    (b_vaddr b).
Definition set_boff (v : Z) (b : videobuf_buffer) : videobuf_buffer :=
  mk_buf (b_i b) (b_width b) (b_height b) (b_bytesperline b) (b_size b) (b_input b) (b_field b)
    (b_state b) (b_field_count b) (b_ts b) (b_memory b) (b_bsize b) v (b_baddr b) (b_map b)
    (b_vaddr b).
Definition set_map (baddr : Z) (map : option nat) (vaddr : option mem) (b : videobuf_buffer)
    : videobuf_buffer :=
  mk_buf (b_i b) (b_width b) (b_height b) (b_bytesperline b) (b_size b) (b_input b) (b_field b)
    (b_state b) (b_field_count b) (b_ts b) (b_memory b) (b_bsize b) (b_boff b) baddr map vaddr.
Definition set_baddr (v : Z) (b : videobuf_buffer) : videobuf_buffer :=
  set_map v (b_map b) (b_vaddr b) b.

Definition set_bufs (l : list (option videobuf_buffer)) (q : videobuf_queue) : videobuf_queue :=
  mk_q (q_type q) (q_inputs q) (q_field q) (q_last q) l (q_streaming q) (q_reading q) (q_stream q)
    (q_read_off q) (q_read_buf q) (q_active q) (q_maps q).
Definition set_mode (streaming reading : bool) (q : videobuf_queue) : videobuf_queue :=
  mk_q (q_type q) (q_inputs q) (q_field q) (q_last q) (q_bufs q) streaming reading (q_stream q)
    (q_read_off q) (q_read_buf q) (q_active q) (q_maps q).
Definition set_lists (stream : option (list nat)) (active : list nat) (q : videobuf_queue)
    : videobuf_queue :=
  mk_q (q_type q) (q_inputs q) (q_field q) (q_last q) (q_bufs q) (q_streaming q) (q_reading q) stream
    (q_read_off q) (q_read_buf q) active (q_maps q).
Definition set_read (off : Z) (buf : option nat) (q : videobuf_queue) : videobuf_queue :=
  mk_q (q_type q) (q_inputs q) (q_field q) (q_last q) (q_bufs q) (q_streaming q) (q_reading q)
    (q_stream q) off buf (q_active q) (q_maps q).
Definition set_last (v : Z) (q : videobuf_queue) : videobuf_queue :=
  mk_q (q_type q) (q_inputs q) (q_field q) v (q_bufs q) (q_streaming q) (q_reading q) (q_stream q)
    (q_read_off q) (q_read_buf q) (q_active q) (q_maps q).
Definition set_maps (m : gmap nat Z) (q : videobuf_queue) : videobuf_queue :=
  mk_q (q_type q) (q_inputs q) (q_field q) (q_last q) (q_bufs q) (q_streaming q) (q_reading q)
    (q_stream q) (q_read_off q) (q_read_buf q) (q_active q) m.

(** [q->bufs[i]], NULL as [None]; and a change of the buffer there. *)
Definition buf_at (q : videobuf_queue) (i : nat) : option videobuf_buffer := mjoin (q_bufs q !! i).
Definition put_buf (i : nat) (b : videobuf_buffer) (q : videobuf_queue) : videobuf_queue :=
  set_bufs (<[i := Some b]> (q_bufs q)) q.

(** [list_empty]; the head of a list whose element was freed still points there. *)
Definition stream_empty (q : videobuf_queue) : bool :=
  match q_stream q with Some [] => true | _ => false end.
(** [list_add_tail(&buf->stream, &q->stream)]. *)
Definition stream_add (i : nat) (q : videobuf_queue) : option videobuf_queue :=
  l ← q_stream q; Some (set_lists (Some (l ++ [i])) (q_active q) q).

(** * The driver's operations *)

(** [struct videobuf_queue_ops]. *)
Class VideobufOps := {
  buf_setup : Z -> Z * Z;                                   (* count to count and size *)
  buf_prepare : Z -> videobuf_buffer -> Z * videobuf_buffer;   (* field *)
  buf_queue : nat -> videobuf_queue -> option videobuf_queue;
  buf_release : videobuf_buffer -> videobuf_buffer
}.

(** * The framework *)

Definition videobuf_queue_core_init (type field : Z) (active : list nat) : videobuf_queue :=
  mk_q type 0 field 0 (replicate (Z.to_nat VIDEO_MAX_FRAME) None) false false (Some []) 0 None active ∅.

Definition videobuf_next_field (q : videobuf_queue) : option (Z * videobuf_queue) :=
  if q_field q =? V4L2_FIELD_ANY then None
  else if q_field q =? V4L2_FIELD_ALTERNATE then
    if q_last q =? V4L2_FIELD_TOP
    then Some (V4L2_FIELD_BOTTOM, set_last V4L2_FIELD_BOTTOM q)
    else Some (V4L2_FIELD_TOP, set_last V4L2_FIELD_TOP q)
  else Some (q_field q, q).

(** [b] is filled in, except the fields that its cases leave alone. *)
Definition videobuf_status (b : v4l2_buffer) (vb : videobuf_buffer) (type : Z) : v4l2_buffer :=
  let mem_type := b_memory vb in
  let m := if mem_type =? V4L2_MEMORY_MMAP then b_boff vb
           else if mem_type =? V4L2_MEMORY_USERPTR then b_baddr vb
           else if mem_type =? V4L2_MEMORY_OVERLAY then b_boff vb else vb_m b in
  let len := if (mem_type =? V4L2_MEMORY_MMAP) || (mem_type =? V4L2_MEMORY_USERPTR)
             then b_bsize vb else vb_length b in
  let flags := match b_map vb with Some _ => V4L2_BUF_FLAG_MAPPED | None => 0 end in
  let flags :=
    match b_state vb with
    | VIDEOBUF_PREPARED | VIDEOBUF_QUEUED | VIDEOBUF_ACTIVE => Z.lor flags V4L2_BUF_FLAG_QUEUED
    | VIDEOBUF_ERROR => Z.lor (Z.lor flags V4L2_BUF_FLAG_ERROR) V4L2_BUF_FLAG_DONE
    | VIDEOBUF_DONE => Z.lor flags V4L2_BUF_FLAG_DONE
    | VIDEOBUF_NEEDS_INIT | VIDEOBUF_IDLE => flags
    end in
  let '(flags, input) :=
    if negb (b_input vb =? UNSET) then (Z.lor flags V4L2_BUF_FLAG_INPUT, b_input vb)
    else (flags, vb_input b) in
  mk_vbuf (b_i vb) type (b_size vb) flags (b_field vb) (b_ts vb) (Z.shiftr (b_field_count vb) 1)
    mem_type m len input.

(** How a call that may sleep ends. *)
Inductive outcome (A : Type) :=
  | Done (a : A)
  | Sleep.
Arguments Done {A} a.
Arguments Sleep {A}.

Section Core.
Context `{VideobufOps}.

Definition is_mapped (b : option videobuf_buffer) : bool :=
  match b with Some b => bool_decide (is_Some (b_map b)) | None => false end.

(** Whether a list links a buffer that is there. *)
Definition linked (q : videobuf_queue) (l : list nat) : bool :=
  bool_decide (Exists (fun i => is_Some (buf_at q i)) l).

(** [buf_release] and [kfree] of every buffer: what releasing does to a buffer is
    gone with it. A stream that links one of them is left dangling; the driver's
    list must not link one. *)
Definition free_all (q : videobuf_queue) : option videobuf_queue :=
  if linked q (q_active q) then None
  else
    let stream := if linked q (default [] (q_stream q)) then None else q_stream q in
    Some (set_lists stream (q_active q)
            (set_bufs (replicate (length (q_bufs q)) None) q)).

Definition videobuf_free (q : videobuf_queue) : option (Z * videobuf_queue) :=
  if q_streaming q || q_reading q then Some (- EBUSY, q)
  else if existsb is_mapped (q_bufs q) then Some (- EBUSY, q)
  else q ← free_all q; Some (0, q).

(** The first loop of [videobuf_queue_cancel] on one buffer: [list_del] from the
    driver's list and [VIDEOBUF_ERROR]; then [buf_release], as the second loop
    does. *)
Definition cancel_buf (b : videobuf_buffer) : videobuf_buffer :=
  buf_release (if state_eqb (b_state b) VIDEOBUF_QUEUED then set_state VIDEOBUF_ERROR b else b).

Definition is_queued (q : videobuf_queue) (i : nat) : bool :=
  match buf_at q i with Some b => state_eqb (b_state b) VIDEOBUF_QUEUED | None => false end.

Definition videobuf_queue_cancel (q : videobuf_queue) : videobuf_queue :=
  set_lists (Some []) (filter (fun i => is_queued q i = false) (q_active q))
    (set_mode false false (set_bufs (fmap (M:=option) cancel_buf <$> q_bufs q) q)).

(** A zeroed buffer with the fields of [__videobuf_mmap_setup]. *)
Definition new_buf (i bsize memory : Z) : videobuf_buffer :=
  mk_buf i 0 0 0 0 UNSET 0 VIDEOBUF_NEEDS_INIT 0 (0, 0) memory bsize
    (if memory =? V4L2_MEMORY_MMAP then u32 (PAGE_ALIGN bsize * i) else 0) 0 None None.

(** The loop that allocates; it stops at the first failure. *)
Fixpoint setup_loop (todo i : nat) (alloc : nat -> bool) (bsize memory : Z) (q : videobuf_queue)
    : option (nat * videobuf_queue) :=
  match todo with
  | O => Some (i, q)
  | S todo =>
      if decide (i < length (q_bufs q))%nat then
        if alloc i then
          setup_loop todo (S i) alloc bsize memory (put_buf i (new_buf (Z.of_nat i) bsize memory) q)
        else Some (i, set_bufs (<[i := None]> (q_bufs q)) q)
      else None
  end.

Definition videobuf_mmap_setup (alloc : nat -> bool) (bcount bsize memory : Z) (q : videobuf_queue)
    : option (Z * videobuf_queue) :=
  '(err, q) ← videobuf_free q;
  if negb (err =? 0) then Some (err, q)
  else
    '(i, q) ← setup_loop (Z.to_nat bcount) 0 alloc bsize memory q;
    if decide (i = 0%nat) then Some (- ENOMEM, q) else Some (Z.of_nat i, q).

(** The result, the new count and the queue. *)
Definition videobuf_reqbufs (alloc : nat -> bool) (req : v4l2_requestbuffers) (q : videobuf_queue)
    : option (Z * Z * videobuf_queue) :=
  if rb_count req <? 1 then Some (- EINVAL, rb_count req, q)
  else if negb (rb_memory req =? V4L2_MEMORY_MMAP) && negb (rb_memory req =? V4L2_MEMORY_USERPTR)
          && negb (rb_memory req =? V4L2_MEMORY_OVERLAY) then Some (- EINVAL, rb_count req, q)
  else if negb (rb_type req =? q_type q) then Some (- EINVAL, rb_count req, q)
  else if q_streaming q then Some (- EBUSY, rb_count req, q)
  else if negb (stream_empty q) then Some (- EBUSY, rb_count req, q)
  else
    let count := if rb_count req >? VIDEO_MAX_FRAME then VIDEO_MAX_FRAME else rb_count req in
    let '(count, size) := buf_setup count in
    '(retval, q) ← videobuf_mmap_setup alloc count size (rb_memory req) q;
    if retval <? 0 then Some (retval, rb_count req, q) else Some (0, retval, q).

Definition videobuf_querybuf (b : v4l2_buffer) (q : videobuf_queue) : Z * v4l2_buffer :=
  if negb (vb_type b =? q_type q) then (- EINVAL, b)
  else if vb_index b >=? VIDEO_MAX_FRAME then (- EINVAL, b)
  else match buf_at q (Z.to_nat (vb_index b)) with
       | None => (- EINVAL, b)
       | Some vb => (0, videobuf_status b vb (q_type q))
       end.

Definition is_output (type : Z) : bool :=
  (type =? V4L2_BUF_TYPE_VIDEO_OUTPUT) || (type =? V4L2_BUF_TYPE_VBI_OUTPUT)
  || (type =? V4L2_BUF_TYPE_SLICED_VBI_OUTPUT).

(** The [switch] on the memory type; [None] for the paths to [done]. *)
Definition qbuf_memory (type : Z) (b : v4l2_buffer) (buf : videobuf_buffer) : option videobuf_buffer :=
  if vb_memory b =? V4L2_MEMORY_MMAP then
    if b_baddr buf =? 0 then None
    else Some (if is_output type then set_output (vb_bytesused b) (vb_field b) (vb_timestamp b) buf
               else buf)
  else if vb_memory b =? V4L2_MEMORY_USERPTR then
    if vb_length b <? b_bsize buf then None
    else
      let buf := if negb (state_eqb (b_state buf) VIDEOBUF_NEEDS_INIT)
                    && negb (b_baddr buf =? vb_m b) then buf_release buf else buf in
      Some (set_baddr (vb_m b) buf)
  else if vb_memory b =? V4L2_MEMORY_OVERLAY then Some (set_boff (vb_m b) buf)
  else None.

(** From the next field on: prepare, append, and hand to the driver. *)
Definition qbuf_tail (i : nat) (buf : videobuf_buffer) (q : videobuf_queue)
    : option (Z * videobuf_queue) :=
  '(field, q) ← videobuf_next_field q;
  let '(retval, buf) := buf_prepare field buf in
  let q := put_buf i buf q in
  if negb (retval =? 0) then Some (retval, q)
  else
    q ← stream_add i q;
    q ← (if q_streaming q then buf_queue i q else Some q);
    Some (0, q).

Definition videobuf_qbuf (b : v4l2_buffer) (q : videobuf_queue) : option (Z * videobuf_queue) :=
  if q_reading q then Some (- EBUSY, q)
  else if negb (vb_type b =? q_type q) then Some (- EINVAL, q)
  else if vb_index b >=? VIDEO_MAX_FRAME then Some (- EINVAL, q)
  else
    let i := Z.to_nat (vb_index b) in
    match buf_at q i with
    | None => Some (- EINVAL, q)
    | Some buf =>
        if negb (b_memory buf =? vb_memory b) then Some (- EINVAL, q)
        else if negb (state_eqb (b_state buf) VIDEOBUF_NEEDS_INIT)
                && negb (state_eqb (b_state buf) VIDEOBUF_IDLE) then Some (- EINVAL, q)
        else if bit_set (vb_flags b) V4L2_BUF_FLAG_INPUT && (vb_input b >=? q_inputs q)
        then Some (- EINVAL, q)
        else
          let buf := set_input (if bit_set (vb_flags b) V4L2_BUF_FLAG_INPUT then vb_input b
                                else UNSET) buf in
          match qbuf_memory (q_type q) b buf with
          | None => Some (- EINVAL, put_buf i buf q)
          | Some buf => qbuf_tail i buf q
          end
    end.

(** The condition [videobuf_waiton] waits for. *)
Definition is_state_active_or_queued (b : videobuf_buffer) : bool :=
  negb (state_eqb (b_state b) VIDEOBUF_ACTIVE) && negb (state_eqb (b_state b) VIDEOBUF_QUEUED).

(** 0 is a condition that holds; an interrupted sleep ends in an error and
    changes nothing. *)
Definition videobuf_waiton (b : videobuf_buffer) (non_blocking : bool) : outcome Z :=
  if is_state_active_or_queued b then Done 0
  else if non_blocking then Done (- EAGAIN) else Sleep.

Definition stream_next_buffer_check_queue (q : videobuf_queue) (noblock : bool) : outcome Z :=
  if negb (q_streaming q) then Done (- EINVAL)
  else if stream_empty q then if noblock then Done (- EAGAIN) else Sleep
  else Done 0.

(** The result and the buffer, when there is one. *)
Definition stream_next_buffer (q : videobuf_queue) (nonblocking : bool)
    : option (outcome (Z * option nat)) :=
  match stream_next_buffer_check_queue q nonblocking with
  | Sleep => Some Sleep
  | Done r =>
      if negb (r =? 0) then Some (Done (r, None))
      else
        l ← q_stream q; i ← head l; b ← buf_at q i;
        match videobuf_waiton b nonblocking with
        | Sleep => Some Sleep
        | Done r => Some (Done (if r <? 0 then (r, None) else (r, Some i)))
        end
  end.

(** The result, the buffer reported to the application and the queue. *)
Definition videobuf_dqbuf (nonblocking : bool) (q : videobuf_queue)
    : option (outcome (Z * v4l2_buffer * videobuf_queue)) :=
  r ← stream_next_buffer q nonblocking;
  match r with
  | Sleep => Some Sleep
  | Done (retval, None) => Some (Done (retval, zero_buffer, q))
  | Done (retval, Some i) =>
      buf ← buf_at q i;
      if state_eqb (b_state buf) VIDEOBUF_ERROR || state_eqb (b_state buf) VIDEOBUF_DONE then
        let b := videobuf_status zero_buffer buf (q_type q) in
        l ← q_stream q;
        let q := set_lists (Some (filter (.≠ i) l)) (q_active q)
                   (put_buf i (set_state VIDEOBUF_IDLE buf) q) in
        Some (Done (retval, set_vb_flags (Z.land (vb_flags b) (Z.lnot V4L2_BUF_FLAG_DONE)) b, q))
      else Some (Done (- EINVAL, zero_buffer, q))
  end.

(** [list_for_each_entry(buf, &q->stream, stream)] of [videobuf_streamon]. *)
Fixpoint queue_prepared (l : list nat) (q : videobuf_queue) : option videobuf_queue :=
  match l with
  | [] => Some q
  | i :: l =>
      b ← buf_at q i;
      q ← (if state_eqb (b_state b) VIDEOBUF_PREPARED then buf_queue i q else Some q);
      queue_prepared l q
  end.

Definition videobuf_streamon (q : videobuf_queue) : option (Z * videobuf_queue) :=
  if q_reading q then Some (- EBUSY, q)
  else if q_streaming q then Some (0, q)
  else
    l ← q_stream q;
    q ← queue_prepared l (set_mode true (q_reading q) q);
    Some (0, q).

Definition videobuf_streamoff (q : videobuf_queue) : Z * videobuf_queue :=
  if negb (q_streaming q) then (- EINVAL, q) else (0, videobuf_queue_cancel q).

(** The two loops of [__videobuf_read_start] over the [count] buffers. *)
Fixpoint read_prepare (todo i : nat) (q : videobuf_queue) : option (Z * videobuf_queue) :=
  match todo with
  | O => Some (0, q)
  | S todo =>
      '(field, q) ← videobuf_next_field q;
      b ← buf_at q i;
      let '(err, b) := buf_prepare field b in
      let q := put_buf i b q in
      if negb (err =? 0) then Some (err, q) else q ← stream_add i q; read_prepare todo (S i) q
  end.

Fixpoint read_queue (todo i : nat) (q : videobuf_queue) : option videobuf_queue :=
  match todo with
  | O => Some q
  | S todo => q ← buf_queue i q; read_queue todo (S i) q
  end.

Definition videobuf_read_start (alloc : nat -> bool) (q : videobuf_queue)
    : option (Z * videobuf_queue) :=
  let '(count, size) := buf_setup 0 in
  let count := if count <? 2 then 2 else count in
  let count := if count >? VIDEO_MAX_FRAME then VIDEO_MAX_FRAME else count in
  let size := PAGE_ALIGN size in
  '(err, q) ← videobuf_mmap_setup alloc count size V4L2_MEMORY_USERPTR q;
  if err <? 0 then Some (err, q)
  else
    let count := Z.to_nat err in
    '(err, q) ← read_prepare count 0 q;
    if negb (err =? 0) then Some (err, q)
    else q ← read_queue count 0 q; Some (0, set_mode (q_streaming q) true q).

Definition videobuf_read_stop (q : videobuf_queue) : option videobuf_queue :=
  let q := videobuf_queue_cancel q in
  '(_, q) ← videobuf_free q;
  Some (set_read (q_read_off q) None
          (set_lists (Some []) (q_active q) (set_bufs (replicate (length (q_bufs q)) None) q))).

Definition videobuf_stop (q : videobuf_queue) : option videobuf_queue :=
  let q := if q_streaming q then snd (videobuf_streamoff q) else q in
  if q_reading q then videobuf_read_stop q else Some q.

(** [None] of the buffer is the NULL that gives [POLLERR]. *)
Definition poll_buf (alloc : nat -> bool) (q : videobuf_queue)
    : option (option nat * videobuf_queue) :=
  if q_streaming q then
    if stream_empty q then Some (None, q) else l ← q_stream q; Some (head l, q)
  else
    q ← (if q_reading q then Some q else snd <$> videobuf_read_start alloc q);
    if negb (q_reading q) then Some (q_read_buf q, q)
    else match q_read_buf q with
         | Some i => Some (Some i, q)
         | None =>
             l ← q_stream q; i ← head l;
             Some (Some i, set_read 0 (Some i)
                             (set_lists (Some (filter (.≠ i) l)) (q_active q) q))
         end.

Definition videobuf_poll_stream (alloc : nat -> bool) (q : videobuf_queue)
    : option (Z * videobuf_queue) :=
  '(buf, q) ← poll_buf alloc q;
  if negb (q_streaming q) && negb (q_reading q) then Some (POLLERR, q)
  else match buf with
       | None => Some (POLLERR, q)
       | Some i =>
           b ← buf_at q i;
           if state_eqb (b_state b) VIDEOBUF_DONE || state_eqb (b_state b) VIDEOBUF_ERROR
           then Some (if is_output (q_type q) then Z.lor POLLOUT POLLWRNORM
                      else Z.lor POLLIN POLLRDNORM, q)
           else Some (0, q)
       end.

Definition videobuf_queue_is_busy (q : videobuf_queue) : Z :=
  if q_streaming q then 1
  else if q_reading q then 1
  else if bool_decide (is_Some (q_read_buf q)) then 1
  else of_bool (existsb (fun o => match o with
                 | None => false
                 | Some b => bool_decide (is_Some (b_map b))
                             || state_eqb (b_state b) VIDEOBUF_QUEUED
                             || state_eqb (b_state b) VIDEOBUF_ACTIVE
                 end) (q_bufs q)).

(** * Memory of the buffers *)

(** [__videobuf_mmap_mapper] on buffer [i]: [kz] is the new mapping, NULL as
    [None], [vm] the zeroed block [vmalloc_user] gives, [remap] the result of
    [remap_vmalloc_range]. The failure paths leave the freed mapping and block in
    the buffer. *)
Definition vmalloc_mmap_mapper (kz : option nat) (vm : option mem) (remap vm_start : Z) (i : nat)
    (buf : videobuf_buffer) (q : videobuf_queue) : Z * videobuf_queue :=
  match kz with
  | None => (- ENOMEM, q)
  | Some id =>
      match vm with
      | None => (- ENOMEM, put_buf i (set_map vm_start (Some id) None buf) q)
      | Some m =>
          if remap <? 0 then (- ENOMEM, put_buf i (set_map vm_start (Some id) (Some []) buf) q)
          else (0, set_maps (<[id := 1]> (q_maps q))
                     (put_buf i (set_map vm_start (Some id) (Some m) buf) q))
      end
  end.

(** The search loop of [videobuf_mmap_mapper]. *)
Fixpoint find_mmap (l : list (option videobuf_buffer)) (off : Z) (i : nat) : option nat :=
  match l with
  | [] => None
  | Some b :: l =>
      if (b_memory b =? V4L2_MEMORY_MMAP) && (b_boff b =? off) then Some i else find_mmap l off (S i)
  | None :: l => find_mmap l off (S i)
  end.

Definition videobuf_mmap_mapper (kz : option nat) (vm : option mem) (remap : Z)
    (vm_flags vm_start vm_pgoff : Z) (q : videobuf_queue) : Z * videobuf_queue :=
  if negb (bit_set vm_flags VM_WRITE) || negb (bit_set vm_flags VM_SHARED) then (- EINVAL, q)
  else
    match find_mmap (q_bufs q) (u32 (Z.shiftl vm_pgoff PAGE_SHIFT)) 0 with
    | None => (- EINVAL, q)
    | Some i =>
        match buf_at q i with
        | None => (- EINVAL, q)
        | Some b => vmalloc_mmap_mapper kz vm remap vm_start i b q
        end
    end.

Definition videobuf_vm_open (id : nat) (q : videobuf_queue) : option videobuf_queue :=
  n ← q_maps q !! id; Some (set_maps (<[id := n + 1]> (q_maps q)) q).

(** The loop of [videobuf_vm_close]: the block is freed with [vfree]. *)
Definition unmap_buf (id : nat) (b : videobuf_buffer) : videobuf_buffer :=
  if bool_decide (b_map b = Some id) then set_map 0 None None b else b.

Definition videobuf_vm_close (id : nat) (q : videobuf_queue) : option videobuf_queue :=
  n ← q_maps q !! id;
  if n - 1 =? 0 then
    let q := if q_streaming q then videobuf_queue_cancel q else q in
    Some (set_maps (delete id (q_maps q))
            (set_bufs (fmap (M:=option) (unmap_buf id) <$> q_bufs q) q))
  else Some (set_maps (<[id := n - 1]> (q_maps q)) q).

Definition videobuf_mmap_free (q : videobuf_queue) : option (Z * videobuf_queue) := videobuf_free q.

End Core.

(** [videobuf_vmalloc_free]. *)
Definition videobuf_vmalloc_free (b : videobuf_buffer) : videobuf_buffer :=
  if negb (b_memory b =? V4L2_MEMORY_USERPTR) || truth (b_baddr b) then b
  else set_map (b_baddr b) (b_map b) None b.

Definition videobuf_to_vmalloc (b : videobuf_buffer) : option mem := b_vaddr b.

(** * What the framework relies on *)

Class VideobufLaws `{VideobufOps} := {
  setup_count n : 0 <= n <= VIDEO_MAX_FRAME -> 0 < fst (buf_setup n) <= VIDEO_MAX_FRAME;
  prepare_state f b r b' : buf_prepare f b = (r, b') ->
    b_i b' = b_i b /\ b_state b' = (if r =? 0 then VIDEOBUF_PREPARED else b_state b);
  queue_effect i q b : buf_at q i = Some b ->
    buf_queue i q = Some (set_lists (q_stream q) (q_active q ++ [i])
                            (put_buf i (set_state VIDEOBUF_QUEUED b) q));
  release_state b : b_i (buf_release b) = b_i b /\ b_state (buf_release b) = VIDEOBUF_NEEDS_INIT
}.

(** * The invariant *)

(** Buffers nobody waits for: the application owns them. *)
Definition owned (s : videobuf_state) : Prop := s = VIDEOBUF_NEEDS_INIT \/ s = VIDEOBUF_IDLE.
Definition finished (s : videobuf_state) : Prop := s = VIDEOBUF_DONE \/ s = VIDEOBUF_ERROR.

Definition has_state (q : videobuf_queue) (P : videobuf_state -> Prop) (i : nat) : Prop :=
  exists b, buf_at q i = Some b /\ P (b_state b).

(** The buffers on their way through the driver, oldest first: the one that a
    reader took off the stream, then the stream. *)
Definition line (q : videobuf_queue) : list nat :=
  option_list (q_read_buf q) ++ default [] (q_stream q).

(** The line is a stretch of finished buffers followed by the ones the driver
    has, which is the driver's list, while capturing; before that all its
    buffers are prepared. Every buffer outside the line is the application's. *)
Record vb_ok (q : videobuf_queue) : Prop := {
  ok_slots : length (q_bufs q) = Z.to_nat VIDEO_MAX_FRAME;
  ok_index i b : buf_at q i = Some b -> b_i b = Z.of_nat i;
  ok_mode : q_streaming q && q_reading q = false;
  ok_read : q_reading q = false -> q_read_buf q = None;
  ok_nodup : NoDup (line q);
  ok_owned i b : buf_at q i = Some b -> i ∉ line q -> owned (b_state b);
  ok_busy : q_streaming q || q_reading q = true ->
    is_Some (q_stream q) /\
    exists ds, line q = ds ++ q_active q /\ Forall (has_state q finished) ds /\
      Forall (has_state q (eq VIDEOBUF_QUEUED)) (q_active q);
  ok_idle : q_streaming q || q_reading q = false ->
    q_active q = [] /\ Forall (has_state q (eq VIDEOBUF_PREPARED)) (line q)
}.

(** ** Slots *)

Lemma buf_at_lt q i b : buf_at q i = Some b -> (i < length (q_bufs q))%nat.
Proof.
  unfold buf_at. destruct (q_bufs q !! i) eqn:E; [|done]. intros _. by eapply lookup_lt_Some.
Qed.

Lemma buf_at_put_eq q i b : (i < length (q_bufs q))%nat -> buf_at (put_buf i b q) i = Some b.
Proof. intros. unfold buf_at, put_buf. cbn. by rewrite list_lookup_insert_eq. Qed.

Lemma buf_at_put_ne q i j b : i <> j -> buf_at (put_buf i b q) j = buf_at q j.
Proof. intros. unfold buf_at, put_buf. cbn. by rewrite list_lookup_insert_ne. Qed.

Lemma buf_at_fmap q f i :
  buf_at (set_bufs (fmap (M:=option) f <$> q_bufs q) q) i = f <$> buf_at q i.
Proof. unfold buf_at. cbn. rewrite list_lookup_fmap. by destruct (q_bufs q !! i) as [[]|]. Qed.

Lemma buf_at_none q n i : buf_at (set_bufs (replicate n None) q) i = None.
Proof.
  unfold buf_at. cbn. destruct (replicate n None !! i) as [o|] eqn:E; [|done].
  by apply lookup_replicate in E as [-> _].
Qed.

Lemma put_buf_length q i b : length (q_bufs (put_buf i b q)) = length (q_bufs q).
Proof. cbn. by rewrite length_insert. Qed.

Create HintDb slots.
#[export] Hint Resolve buf_at_lt : slots.

(** ** States that look the same *)

Definition view (b : videobuf_buffer) : Z * videobuf_state := (b_i b, b_state b).

(** The queues agree on everything the invariant speaks of. *)
Record same_view (q q' : videobuf_queue) : Prop := {
  sv_slots : length (q_bufs q) = length (q_bufs q');
  sv_streaming : q_streaming q = q_streaming q';
  sv_reading : q_reading q = q_reading q';
  sv_stream : q_stream q = q_stream q';
  sv_read_buf : q_read_buf q = q_read_buf q';
  sv_active : q_active q = q_active q';
  sv_view i : view <$> buf_at q i = view <$> buf_at q' i
}.

#[export] Instance same_view_equiv : Equivalence same_view.
Proof.
  split.
  - intros q. by split.
  - intros q q' []. by split.
  - intros q1 q2 q3 [] []. split; congruence.
Qed.

Lemma view_has_state q q' P i : same_view q q' -> has_state q P i -> has_state q' P i.
Proof.
  intros Hv (b & Hb & HP). pose proof (sv_view _ _ Hv i) as E. rewrite Hb in E.
  destruct (buf_at q' i) as [b'|] eqn:Hb'; [|done]. cbn in E. injection E as _ Es.
  exists b'. split; [done|]. by rewrite <- Es.
Qed.

Lemma view_line q q' : same_view q q' -> line q = line q'.
Proof. intros []. unfold line. congruence. Qed.

#[export] Instance vb_ok_proper : Proper (same_view ==> iff) vb_ok.
Proof.
  enough (forall q q', same_view q q' -> vb_ok q -> vb_ok q') as H.
  { intros q q' Hv. split; apply H; [done | by symmetry]. }
  intros q q' Hv [S1 S2 S3 S4 S5 S6 S7 S8]. pose proof (view_line _ _ Hv) as El.
  assert (forall i b', buf_at q' i = Some b' -> exists b, buf_at q i = Some b /\ view b = view b') as Hb.
  { intros i b' E. pose proof (sv_view _ _ Hv i) as Ev. rewrite E in Ev.
    destruct (buf_at q i) as [b|]; [|done]. exists b. split; [done|]. cbn in Ev. congruence. }
  assert (forall P l, Forall (has_state q P) l -> Forall (has_state q' P) l) as Hf.
  { intros P l HF. eapply Forall_impl; [exact HF|]. intros i. by apply view_has_state. }
  rewrite El in *. destruct Hv as [V1 V2 V3 V4 V5 V6 V7]. rewrite V1, V2, V3, V4, V5, V6 in *.
  split; try done.
  - intros i b' E. destruct (Hb i b' E) as (b & Eb & [= Ei Es]). rewrite <- Ei. by apply S2.
  - intros i b' E Hi. destruct (Hb i b' E) as (b & Eb & [= Ei Es]). rewrite <- Es. by eapply S6.
  - intros Hm. destruct (S7 Hm) as (? & ds & ? & ? & ?). split; [done|]. exists ds. auto.
  - intros Hm. destruct (S8 Hm). auto.
Qed.

(** ** The operations keep the invariant *)

Section Preservation.
Context `{VideobufLaws}.

(** Freed or application-owned buffers with nothing under way: the state between
    two captures. *)
Lemma vb_ok_quiet q : length (q_bufs q) = Z.to_nat VIDEO_MAX_FRAME ->
  (forall i b, buf_at q i = Some b -> b_i b = Z.of_nat i /\ owned (b_state b)) ->
  q_streaming q = false -> q_reading q = false -> q_read_buf q = None -> q_active q = [] ->
  default [] (q_stream q) = [] -> vb_ok q.
Proof.
  intros Hl Hb Hs Hr Hrb Ha Hst. assert (line q = []) as El by (unfold line; by rewrite Hrb, Hst).
  split; rewrite ?Hs, ?Hr, ?El; try done.
  - intros i b E. by apply Hb.
  - apply NoDup_nil_2.
  - intros i b E _. by apply (Hb i b).
Qed.

(** The invariant while streaming. *)
Lemma stream_busy q : vb_ok q -> q_streaming q = true ->
  q_reading q = false /\ exists ds, q_stream q = Some (ds ++ q_active q) /\
    NoDup (ds ++ q_active q) /\ line q = ds ++ q_active q /\
    Forall (has_state q finished) ds /\ Forall (has_state q (eq VIDEOBUF_QUEUED)) (q_active q).
Proof.
  intros Hq Hs. pose proof (ok_mode _ Hq) as Hm. rewrite Hs in Hm. cbn in Hm. split; [done|].
  destruct (ok_busy _ Hq) as ([l El] & ds & Hl & Hd & Ha); [by rewrite Hs|]. exists ds.
  assert (line q = l) as Hl' by (unfold line; by rewrite (ok_read _ Hq Hm), El).
  pose proof (ok_nodup _ Hq) as Hn. rewrite Hl in Hn. split; [congruence|]. auto.
Qed.

Lemma idle_line q : vb_ok q -> q_streaming q = false -> q_reading q = false ->
  q_active q = [] /\ q_read_buf q = None /\ line q = default [] (q_stream q) /\
  Forall (has_state q (eq VIDEOBUF_PREPARED)) (default [] (q_stream q)).
Proof.
  intros Hq Hs Hr. destruct (ok_idle _ Hq) as [Ha Hp]; [by rewrite Hs, Hr|].
  pose proof (ok_read _ Hq Hr) as Hrb. assert (line q = default [] (q_stream q)) as El
    by (unfold line; by rewrite Hrb). rewrite El in Hp. auto.
Qed.

(** *** Cancelling *)

Lemma cancel_view b : b_i (cancel_buf b) = b_i b /\ b_state (cancel_buf b) = VIDEOBUF_NEEDS_INIT.
Proof. unfold cancel_buf. case_if; [apply (release_state (set_state VIDEOBUF_ERROR b)) | apply release_state]. Qed.

Lemma cancel_bufs q i : buf_at (videobuf_queue_cancel q) i = cancel_buf <$> buf_at q i.
Proof. rewrite <- (buf_at_fmap q). done. Qed.

(** Every buffer becomes the application's and both lists are emptied. *)
Lemma cancel_quiet q : vb_ok q -> let q' := videobuf_queue_cancel q in
  length (q_bufs q') = Z.to_nat VIDEO_MAX_FRAME /\
  (forall i b, buf_at q' i = Some b -> b_i b = Z.of_nat i /\ owned (b_state b)) /\
  q_streaming q' = false /\ q_reading q' = false /\ q_active q' = [] /\ q_stream q' = Some [].
Proof.
  intros Hq q'. split_and!; try done.
  - cbn. rewrite length_fmap. apply Hq.
  - intros i b. unfold q'. rewrite cancel_bufs. destruct (buf_at q i) as [b0|] eqn:E; [|done].
    intros [= <-]. destruct (cancel_view b0) as [-> ->]. split; [by apply Hq | by left].
  - cbn. assert (Forall (has_state q (eq VIDEOBUF_QUEUED)) (q_active q)) as Ha.
    { destruct (q_streaming q || q_reading q) eqn:E.
      - by destruct (ok_busy _ Hq E) as (_ & ds & _ & _ & ?).
      - destruct (ok_idle _ Hq E) as [-> _]. constructor. }
    apply filter_none. eapply Forall_impl; [exact Ha|]. intros i (b & Eb & Es).
    unfold is_queued. by rewrite Eb, <- Es.
Qed.

Lemma cancel_ok q : vb_ok q -> q_read_buf q = None -> vb_ok (videobuf_queue_cancel q).
Proof.
  intros Hq Hr. destruct (cancel_quiet q Hq) as (H1 & H2 & H3 & H4 & H5 & H6).
  apply vb_ok_quiet; try done.
Qed.

Lemma streamoff_ok q : vb_ok q -> vb_ok (snd (videobuf_streamoff q)).
Proof.
  intros Hq. unfold videobuf_streamoff. destruct (q_streaming q) eqn:Hs; cbn [negb snd]; [|done].
  apply cancel_ok; [done|]. apply Hq. by destruct (stream_busy q Hq Hs).
Qed.

(** *** Allocating *)

(** What freeing leaves: no buffers, and an empty or dangling stream. *)
Lemma free_cases q r q' : vb_ok q -> videobuf_free q = Some (r, q') ->
  (r = - EBUSY /\ q' = q) \/
  (r = 0 /\ vb_ok q' /\ (forall i, buf_at q' i = None) /\ q_streaming q' = false /\
   q_reading q' = false /\ line q' = [] /\ (stream_empty q = true -> q_stream q' = Some [])).
Proof.
  intros Hq Hf. unfold videobuf_free in Hf. case_if_in Hf; [left; by injection Hf as <- <-|].
  case_if_in Hf; [left; by injection Hf as <- <-|]. bool_props. right.
  destruct (idle_line q) as (Ha & Hrb & Hl & Hp); [done..|].
  apply bind_Some in Hf as (q1 & E & [= <- <-]). unfold free_all in E. case_if_in E; [done|].
  injection E as <-. split; [done|].
  assert (default [] (if linked q (default [] (q_stream q)) then None else q_stream q) = []) as Es.
  { destruct (linked q (default [] (q_stream q))) eqn:El; [done|]. unfold linked in El. bool_props.
    destruct (q_stream q) as [[|i l]|]; try done. exfalso. apply El. cbn in Hp.
    apply Forall_cons in Hp as [(b & Eb & _) _]. apply Exists_cons. left. cbn. by rewrite Eb. }
  split.
  { apply vb_ok_quiet; try done; cbn; [rewrite length_replicate; apply Hq|].
    intros i b Hb. pose proof (buf_at_none q (length (q_bufs q)) i) as Hn. unfold buf_at in *.
    cbn in *. congruence. }
  split_and!; try done; cbn.
  - intros i. apply (buf_at_none q).
  - unfold line. cbn. by rewrite Hrb, Es.
  - unfold stream_empty. destruct (q_stream q) as [[|]|]; [|done..]. done.
Qed.

(** The buffers that were set up: the first [n] slots, fresh. *)
Definition fresh_bufs (n : nat) (bsize memory : Z) (q : videobuf_queue) : Prop :=
  forall i, buf_at q i = if decide (i < n)%nat then Some (new_buf (Z.of_nat i) bsize memory) else None.

Lemma setup_loop_spec alloc bsize memory : forall todo i q k q',
  (i + todo <= length (q_bufs q))%nat -> fresh_bufs i bsize memory q ->
  setup_loop todo i alloc bsize memory q = Some (k, q') ->
  (i <= k <= i + todo)%nat /\ fresh_bufs k bsize memory q' /\
  length (q_bufs q') = length (q_bufs q) /\ exists l, q' = set_bufs l q.
Proof.
  induction todo as [|todo IH]; intros i q k q' Hl Hf H'; cbn [setup_loop] in H'.
  { injection H' as <- <-. split_and!; try done; try lia. exists (q_bufs q). by destruct q. }
  destruct (decide (i < length (q_bufs q))%nat) as [Hlt|]; [|done]. destruct (alloc i).
  - apply IH in H' as (Hk & Hf' & Hl' & l & ->).
    + rewrite put_buf_length in Hl'. split_and!; [lia | lia | done | done |]. by exists l.
    + rewrite put_buf_length. lia.
    + intros j. destruct (decide (j = i)) as [->|Hne].
      * rewrite buf_at_put_eq by done. by rewrite decide_True by lia.
      * rewrite buf_at_put_ne, Hf by done. repeat case_decide; try done; lia.
  - injection H' as <- <-. split_and!; [lia | lia | | cbn; by rewrite length_insert | by eexists].
    intros j. unfold buf_at. cbn. destruct (decide (j = i)) as [->|Hne].
    + rewrite list_lookup_insert_eq by done. by rewrite decide_False by lia.
    + rewrite list_lookup_insert_ne by done. apply Hf.
Qed.

Lemma quiet_bufs q l bsize memory k : vb_ok q -> q_streaming q = false -> q_reading q = false ->
  line q = [] -> length l = length (q_bufs q) -> fresh_bufs k bsize memory (set_bufs l q) ->
  vb_ok (set_bufs l q).
Proof.
  intros Hq Hs Hr Hln Hl Hf. destruct (idle_line q) as (Ha & Hrb & El & _); [done..|].
  apply vb_ok_quiet; try done; cbn; [rewrite Hl; apply Hq | | congruence].
  intros i b. rewrite Hf. case_decide; [|done]. intros [= <-]. split; [done | by left].
Qed.

Lemma mmap_setup_cases alloc n size memory q r q' : vb_ok q -> n <= VIDEO_MAX_FRAME ->
  videobuf_mmap_setup alloc n size memory q = Some (r, q') ->
  (r < 0 /\ vb_ok q') \/
  (0 < r <= n /\ vb_ok q' /\ q_streaming q' = false /\ q_reading q' = false /\ line q' = [] /\
   (stream_empty q = true -> q_stream q' = Some []) /\ fresh_bufs (Z.to_nat r) size memory q').
Proof.
  intros Hq Hn Hs. apply bind_Some in Hs as ([e q1] & Hf & Hs).
  destruct (free_cases _ _ _ Hq Hf) as [[-> ->]|(-> & Hq1 & Hb1 & Hs1 & Hr1 & Hl1 & He1)].
  { left. cbn in Hs. injection Hs as <- <-. done. }
  cbn [negb Z.eqb] in Hs. apply bind_Some in Hs as ([k q2] & Hl & Hs).
  apply setup_loop_spec in Hl as (Hk & Hf2 & Hlen & l & ->);
    [| rewrite (ok_slots _ Hq1); lia | intros i; by rewrite Hb1, decide_False by lia].
  assert (vb_ok (set_bufs l q1)) as Hq2 by (eapply quiet_bufs; eauto).
  destruct (decide (k = 0%nat)); injection Hs as <- <-; [by left|]. right.
  rewrite Nat2Z.id. split_and!; try done; lia.
Qed.

Lemma reqbufs_ok alloc req q r c q' : vb_ok q ->
  videobuf_reqbufs alloc req q = Some (r, c, q') -> vb_ok q'.
Proof.
  intros Hq Hr. unfold videobuf_reqbufs in Hr.
  repeat (case_if_in Hr; [by injection Hr as _ _ <-|]).
  destruct (buf_setup _) as [n size] eqn:En. apply bind_Some in Hr as ([e q1] & Hm & Hr).
  assert (n <= VIDEO_MAX_FRAME) as Hn.
  { apply (f_equal fst) in En. cbn in En. rewrite <- En. apply setup_count.
    destruct (rb_count req >? VIDEO_MAX_FRAME) eqn:E; unfold VIDEO_MAX_FRAME in *; bool_props; lia. }
  apply mmap_setup_cases in Hm; [|done..].
  destruct Hm as [[? ?]|(? & ? & _)]; case_if_in Hr; by injection Hr as _ _ <-.
Qed.

(** *** Queueing *)

Lemma same_view_put q i b b' : buf_at q i = Some b -> view b' = view b -> same_view q (put_buf i b' q).
Proof.
  intros Hb Hv. split; try done; [by rewrite put_buf_length|]. intros j.
  destruct (decide (i = j)) as [->|]; [|by rewrite buf_at_put_ne].
  rewrite buf_at_put_eq, Hb by eauto with slots. cbn. by rewrite Hv.
Qed.

Lemma has_state_put q P i b l : i ∉ l -> Forall (has_state q P) l ->
  Forall (has_state (put_buf i b q) P) l.
Proof.
  intros Hi. rewrite !Forall_forall. intros Hf j Hj. destruct (Hf j Hj) as (b' & Hb & HP).
  exists b'. rewrite buf_at_put_ne; [done|]. intros ->. done.
Qed.

(** A buffer the application owns is in no list. *)
Lemma owned_not_line q i b : vb_ok q -> buf_at q i = Some b -> owned (b_state b) -> i ∉ line q.
Proof.
  intros Hq Hb Ho Hi.
  assert (exists P, has_state q P i /\ forall s, P s -> ~ owned s) as (P & (b' & Hb' & HP) & HnP).
  { destruct (q_streaming q || q_reading q) eqn:E.
    - destruct (ok_busy _ Hq E) as (_ & ds & Hl & Hd & Ha). rewrite Hl in Hi.
      apply elem_of_app in Hi as [Hi|Hi].
      + exists finished. rewrite Forall_forall in Hd. split; [auto|]. intros s [-> | ->] [?|?]; done.
      + exists (eq VIDEOBUF_QUEUED). rewrite Forall_forall in Ha. split; [auto|]. by intros s <- [?|?].
    - destruct (ok_idle _ Hq E) as [_ Hp]. rewrite Forall_forall in Hp.
      exists (eq VIDEOBUF_PREPARED). split; [auto|]. by intros s <- [?|?]. }
  simplify_eq. by apply (HnP (b_state b)).
Qed.

(** Appending a buffer that the application owned to the line, prepared before
    capturing, queued with the driver while streaming. *)
Lemma enqueue_ok q i b b' l : vb_ok q -> buf_at q i = Some b -> owned (b_state b) ->
  b_i b' = b_i b -> q_stream q = Some l -> q_reading q = false ->
  b_state b' = (if q_streaming q then VIDEOBUF_QUEUED else VIDEOBUF_PREPARED) ->
  vb_ok (set_lists (Some (l ++ [i])) (if q_streaming q then q_active q ++ [i] else q_active q)
           (put_buf i b' q)).
Proof.
  intros Hq Hb Ho Hi El Hr Hs. pose proof (owned_not_line _ _ _ Hq Hb Ho) as Hnl.
  pose proof (ok_read _ Hq Hr) as Hrb. assert (line q = l) as Hl by (unfold line; by rewrite Hrb, El).
  rewrite Hl in Hnl. set (q' := set_lists _ _ _).
  assert (line q' = l ++ [i]) as Hl' by (unfold line; cbn; by rewrite Hrb).
  assert (forall j, buf_at q' j = buf_at (put_buf i b' q) j) as Hbq by done.
  assert (forall P k, i ∉ k -> Forall (has_state q P) k -> Forall (has_state q' P) k) as Hf
    by (intros P k; apply has_state_put).
  assert (has_state q' (eq (b_state b')) i) as Hh.
  { exists b'. rewrite Hbq, buf_at_put_eq by eauto with slots. done. }
  split.
  - cbn. rewrite length_insert. apply Hq.
  - intros j c. rewrite Hbq. destruct (decide (i = j)) as [->|];
      [rewrite buf_at_put_eq by eauto with slots | rewrite buf_at_put_ne by done; by apply Hq].
    intros [= <-]. rewrite Hi. by apply Hq.
  - apply Hq.
  - apply Hq.
  - rewrite Hl'. apply NoDup_snoc; [rewrite <- Hl; apply Hq | done].
  - intros j c. rewrite Hbq, Hl', not_elem_of_app, list_elem_of_singleton. intros Hc [Hj Hne].
    rewrite buf_at_put_ne in Hc by done. apply (ok_owned _ Hq j); by rewrite ?Hl.
  - cbn. rewrite Hr, orb_false_r. intros Hst. rewrite Hst in Hs. split; [done|].
    destruct (stream_busy q Hq Hst) as (_ & ds & E & _ & _ & Hd & Ha).
    rewrite El in E. injection E as ->.
    rewrite not_elem_of_app in Hnl. destruct Hnl as [N1 N2]. exists ds. rewrite Hl', Hst. cbn.
    rewrite (assoc_L (++)). split; [done|]. split; [auto|]. apply Forall_app. split; [auto|].
    constructor; [|done]. by rewrite <- Hs.
  - cbn. rewrite Hr, orb_false_r. intros Hst. rewrite Hst in *.
    destruct (idle_line q Hq Hst Hr) as (Ha & _ & _ & Hp). rewrite El in Hp. cbn in Hp.
    split; [done|]. rewrite Hl'. apply Forall_app. split; [auto|]. constructor; [|done]. by rewrite <- Hs.
Qed.

Lemma next_field_view q f q' : videobuf_next_field q = Some (f, q') -> same_view q q'.
Proof.
  unfold videobuf_next_field. intros E. repeat case_if_in E; try done; injection E as <- <-; done.
Qed.

Lemma owned_put_ok q i b b' : vb_ok q -> buf_at q i = Some b -> owned (b_state b) ->
  b_i b' = b_i b -> owned (b_state b') -> vb_ok (put_buf i b' q).
Proof.
  intros Hq Hb Ho Hi Ho'. pose proof (owned_not_line _ _ _ Hq Hb Ho) as Hnl.
  assert (forall j c, buf_at (put_buf i b' q) j = Some c -> (j = i /\ c = b') \/ buf_at q j = Some c) as Hc.
  { intros j c. destruct (decide (i = j)) as [->|]; [rewrite buf_at_put_eq by eauto with slots|
      rewrite buf_at_put_ne by done; by right]. intros [= <-]. by left. }
  split; try apply Hq.
  - rewrite put_buf_length. apply Hq.
  - intros j c [[-> ->]|E]%Hc; [rewrite Hi|]; by apply Hq.
  - intros j c [[-> ->]|E]%Hc Hj; [done | by apply (ok_owned _ Hq j)].
  - intros Hm. destruct (ok_busy _ Hq Hm) as (Hs & ds & Hl & Hd & Ha). split; [done|]. exists ds.
    rewrite Hl, not_elem_of_app in Hnl. destruct Hnl. split; [done|].
    split; by apply has_state_put.
  - intros Hm. destruct (ok_idle _ Hq Hm) as [Ha Hp]. split; [done|]. by apply has_state_put.
Qed.

Lemma put_put q i b1 b2 s a s' a' :
  set_lists s a (put_buf i b2 (set_lists s' a' (put_buf i b1 q))) = set_lists s a (put_buf i b2 q).
Proof. unfold put_buf, set_lists, set_bufs. cbn. by rewrite list_insert_insert_eq. Qed.

(** What a queueing call did to the lists: nothing, or the buffer is at the end
    of the stream. *)
Definition appended (i : nat) (r : Z) (q q' : videobuf_queue) : Prop :=
  q_streaming q' = q_streaming q /\ q_reading q' = q_reading q /\ q_read_buf q' = q_read_buf q /\
  (r = 0 -> exists l, q_stream q = Some l /\ q_stream q' = Some (l ++ [i])) /\
  (r <> 0 -> q_stream q' = q_stream q).

Lemma qbuf_tail_ok i b b0 q r q' : vb_ok q -> q_reading q = false -> buf_at q i = Some b0 ->
  owned (b_state b0) -> b_i b = b_i b0 -> owned (b_state b) ->
  qbuf_tail i b q = Some (r, q') -> vb_ok q' /\ appended i r q q'.
Proof.
  intros Hq Hr Hb Ho Hi Ho' Ht. unfold qbuf_tail in Ht.
  apply bind_Some in Ht as ([f q1] & Hf & Ht). apply next_field_view in Hf.
  rewrite Hf in Hq. unfold appended. rewrite (sv_streaming _ _ Hf), (sv_reading _ _ Hf),
    (sv_read_buf _ _ Hf), (sv_stream _ _ Hf). rewrite (sv_reading _ _ Hf) in Hr.
  assert (exists b1, buf_at q1 i = Some b1 /\ view b0 = view b1) as (b1 & Hb1 & Hv).
  { pose proof (sv_view _ _ Hf i) as E. rewrite Hb in E. destruct (buf_at q1 i) as [b1|]; [|done].
    exists b1. split; [done|]. cbn in E. congruence. }
  injection Hv as Hvi Hvs. rewrite Hvi in Hi. rewrite Hvs in Ho. clear Hf Hb Hvi Hvs q b0.
  destruct (buf_prepare f b) as [e b'] eqn:Ep. apply prepare_state in Ep as [Ei Es].
  destruct (Z.eqb_spec e 0) as [->|He]; cbn [negb] in Ht.
  2: { injection Ht as <- <-. split; [|done]. eapply owned_put_ok; eauto; [congruence|]. by rewrite Es. }
  apply bind_Some in Ht as (q2 & Ha & Ht). unfold stream_add in Ha.
  apply bind_Some in Ha as (l & El & [= <-]). cbn in El.
  apply bind_Some in Ht as (q3 & Hs & [= <- <-]). cbn [q_streaming set_lists put_buf set_bufs] in Hs.
  destruct (q_streaming q1) eqn:Hst.
  - rewrite (queue_effect _ _ b') in Hs by (apply (buf_at_put_eq q1); eauto with slots).
    injection Hs as <-. rewrite put_put. cbn [q_stream q_active set_lists put_buf set_bufs].
    split; [|cbn; rewrite El; split_and!; try done; by eexists].
    pose proof (enqueue_ok q1 i b1 (set_state VIDEOBUF_QUEUED b') l) as Hen. rewrite Hst in Hen.
    apply Hen; try done. cbn. congruence.
  - injection Hs as <-. split; [|cbn; rewrite El; split_and!; try done; by eexists].
    pose proof (enqueue_ok q1 i b1 b' l) as Hen. rewrite Hst in Hen. apply Hen; try done. congruence.
Qed.

Lemma qbuf_memory_state type b buf buf' : owned (b_state buf) ->
  qbuf_memory type b buf = Some buf' -> b_i buf' = b_i buf /\ owned (b_state buf').
Proof.
  intros Ho Hm. unfold qbuf_memory in Hm. repeat case_if_in Hm; try done; injection Hm as <-; try done.
  cbn. destruct (release_state buf) as [-> ->]. split; [done | by left].
Qed.

Lemma qbuf_ok b q r q' : vb_ok q -> videobuf_qbuf b q = Some (r, q') ->
  vb_ok q' /\ appended (Z.to_nat (vb_index b)) r q q'.
Proof.
  intros Hq Hr. unfold videobuf_qbuf in Hr.
  assert (forall e, e <> 0 -> Some (e, q) = Some (r, q') ->
    vb_ok q' /\ appended (Z.to_nat (vb_index b)) r q q') as Hsame.
  { intros e He [= <- <-]. split; [done|]. by split_and!. }
  case_if_in Hr; [by eapply Hsame; [|exact Hr]|]. case_if_in Hr; [by eapply Hsame; [|exact Hr]|].
  case_if_in Hr; [by eapply Hsame; [|exact Hr]|].
  destruct (buf_at q _) as [buf|] eqn:Hb; [|by eapply Hsame; [|exact Hr]].
  case_if_in Hr; [by eapply Hsame; [|exact Hr]|].
  destruct (negb (state_eqb _ _) && _) eqn:Est in Hr; [by eapply Hsame; [|exact Hr]|].
  case_if_in Hr; [by eapply Hsame; [|exact Hr]|]. clear Hsame.
  assert (owned (b_state buf)) as Ho.
  { unfold state_eqb in Est. bool_props. destruct Est as [Est|Est]; bool_props; [by left | by right]. }
  set (buf1 := set_input _ buf) in Hr. destruct (qbuf_memory _ b buf1) as [buf2|] eqn:Em.
  - apply qbuf_memory_state in Em as [Ei Eo]; [|done]. by eapply qbuf_tail_ok.
  - injection Hr as <- <-. split; [|by split_and!]. by rewrite <- (same_view_put q _ buf buf1).
Qed.

(** *** Dequeueing *)

(** What the application is told about a finished buffer. *)
Definition report (type : Z) (buf : videobuf_buffer) : v4l2_buffer :=
  let b := videobuf_status zero_buffer buf type in
  set_vb_flags (Z.land (vb_flags b) (Z.lnot V4L2_BUF_FLAG_DONE)) b.

Lemma report_index type buf : vb_index (report type buf) = b_i buf.
Proof. unfold report, videobuf_status. by destruct (negb (b_input buf =? UNSET)). Qed.

(** The whole behaviour of DQBUF on a queue in order: it is refused when not
    streaming; it reports the oldest finished buffer; and when there is none it
    gives -EAGAIN or sleeps. *)
Lemma dqbuf_cases nb q : vb_ok q ->
  if q_streaming q then
    exists ds, q_stream q = Some (ds ++ q_active q) /\
    match ds with
    | [] => videobuf_dqbuf nb q = Some (if nb then Done (- EAGAIN, zero_buffer, q) else Sleep)
    | i :: ds => exists buf, buf_at q i = Some buf /\ finished (b_state buf) /\
        videobuf_dqbuf nb q =
        Some (Done (0, report (q_type q) buf,
                set_lists (Some (ds ++ q_active q)) (q_active q)
                  (put_buf i (set_state VIDEOBUF_IDLE buf) q)))
    end
  else videobuf_dqbuf nb q = Some (Done (- EINVAL, zero_buffer, q)).
Proof.
  intros Hq. destruct (q_streaming q) eqn:Hs.
  2: { unfold videobuf_dqbuf, stream_next_buffer, stream_next_buffer_check_queue. by rewrite Hs. }
  destruct (stream_busy q Hq Hs) as (_ & ds & El & Hn & _ & Hd & Ha). exists ds. split; [done|].
  unfold videobuf_dqbuf, stream_next_buffer, stream_next_buffer_check_queue, stream_empty.
  rewrite Hs, El. cbn [negb]. destruct ds as [|i ds]; cbn [app] in *.
  - destruct (q_active q) as [|i l] eqn:Eact; [by destruct nb|].
    apply Forall_cons in Ha as [(b & Eb & Es) _].
    cbn [negb Z.eqb mbind option_bind head]. rewrite Eb. cbn [mbind option_bind].
    unfold videobuf_waiton, is_state_active_or_queued. rewrite <- Es. by destruct nb.
  - apply Forall_cons in Hd as [(b & Eb & Es) _]. exists b. split; [done|]. split; [done|].
    cbn [negb Z.eqb mbind option_bind head]. rewrite Eb. cbn [mbind option_bind].
    assert (videobuf_waiton b nb = Done 0) as ->
      by (unfold videobuf_waiton, is_state_active_or_queued; by destruct Es as [-> | ->]).
    cbn [Z.ltb Z.compare mbind option_bind]. rewrite Eb. cbn [mbind option_bind].
    assert (state_eqb (b_state b) VIDEOBUF_ERROR || state_eqb (b_state b) VIDEOBUF_DONE = true) as ->
      by (by destruct Es as [-> | ->]).
    apply NoDup_cons in Hn as [Hi _]. cbn [mbind option_bind].
    rewrite filter_cons_False, filter_ne_id by (done || tauto). done.
Qed.

Lemma dequeue_ok q i ds buf : vb_ok q -> q_streaming q = true ->
  q_stream q = Some ((i :: ds) ++ q_active q) -> buf_at q i = Some buf ->
  vb_ok (set_lists (Some (ds ++ q_active q)) (q_active q)
           (put_buf i (set_state VIDEOBUF_IDLE buf) q)).
Proof.
  intros Hq Hs El Hb. destruct (stream_busy q Hq Hs) as (Hr & ds' & El' & Hn & Hl & Hd & Ha).
  rewrite El in El'. injection El' as El'. change (i :: ds ++ q_active q) with ((i :: ds) ++ q_active q) in El'.
  apply app_inv_tail in El' as <-. set (q' := set_lists _ _ _).
  pose proof (ok_read _ Hq Hr) as Hrb.
  assert (line q' = ds ++ q_active q) as Hl' by (unfold line; cbn; by rewrite Hrb).
  cbn [app] in Hn. apply NoDup_cons in Hn as [Hi Hn]. rewrite not_elem_of_app in Hi. destruct Hi as [Hi1 Hi2].
  apply Forall_cons in Hd as [_ Hd].
  assert (forall j, buf_at q' j = buf_at (put_buf i (set_state VIDEOBUF_IDLE buf) q) j) as Hbq by done.
  split; try apply Hq.
  - cbn. rewrite length_insert. apply Hq.
  - intros j c. rewrite Hbq. destruct (decide (i = j)) as [->|];
      [rewrite buf_at_put_eq by eauto with slots | rewrite buf_at_put_ne by done; by apply Hq].
    intros [= <-]. cbn. by apply (ok_index _ Hq).
  - by rewrite Hl'.
  - intros j c. rewrite Hbq, Hl'. destruct (decide (i = j)) as [->|Hne];
      [rewrite buf_at_put_eq by eauto with slots; intros [= <-] _; by right |
       rewrite buf_at_put_ne by done].
    intros Hc Hj. apply (ok_owned _ Hq j); [done|]. rewrite Hl. cbn. apply not_elem_of_cons. auto.
  - intros _. split; [done|]. exists ds. split; [done|]. cbn [q_active set_lists].
    split; by apply (has_state_put q).
  - cbn. by rewrite Hs.
Qed.

Lemma dqbuf_ok nb q r b q' : vb_ok q -> videobuf_dqbuf nb q = Some (Done (r, b, q')) -> vb_ok q'.
Proof.
  intros Hq E. pose proof (dqbuf_cases nb q Hq) as Hc. destruct (q_streaming q) eqn:Hs.
  - destruct Hc as ([|i ds] & El & Hc); [rewrite Hc in E; destruct nb; by simplify_eq|].
    destruct Hc as (buf & Hb & _ & Hc). rewrite Hc in E. simplify_eq. by eapply dequeue_ok.
  - rewrite Hc in E. by simplify_eq.
Qed.

(** *** Starting *)

(** Handing prepared buffers to the driver one by one. *)
Lemma queue_prepared_spec : forall l q, NoDup l -> Forall (has_state q (eq VIDEOBUF_PREPARED)) l ->
  exists q', queue_prepared l q = Some q' /\ q_active q' = q_active q ++ l /\
  q_stream q' = q_stream q /\ q_streaming q' = q_streaming q /\ q_reading q' = q_reading q /\
  q_read_buf q' = q_read_buf q /\ length (q_bufs q') = length (q_bufs q) /\
  (forall i, i ∉ l -> buf_at q' i = buf_at q i) /\
  (forall i b', i ∈ l -> buf_at q' i = Some b' ->
     b_state b' = VIDEOBUF_QUEUED /\ exists b, buf_at q i = Some b /\ b_i b = b_i b') /\
  Forall (has_state q' (eq VIDEOBUF_QUEUED)) l.
Proof.
  induction l as [|i l IH]; intros q Hn Hp; cbn [queue_prepared].
  { exists q. rewrite app_nil_r. split_and!; try done. intros i b' Hi. by apply not_elem_of_nil in Hi. }
  apply NoDup_cons in Hn as [Hi Hn]. apply Forall_cons in Hp as [(b & Eb & Es) Hp].
  rewrite Eb. cbn [mbind option_bind]. rewrite <- Es. change (state_eqb VIDEOBUF_PREPARED VIDEOBUF_PREPARED) with true.
  cbn iota. rewrite (queue_effect i q b Eb). cbn [mbind option_bind].
  set (q1 := set_lists _ _ _).
  assert (forall j, j <> i -> buf_at q1 j = buf_at q j) as Hne
    by (intros j Hj; by apply (buf_at_put_ne q)).
  assert (buf_at q1 i = Some (set_state VIDEOBUF_QUEUED b)) as Hq1
    by (apply (buf_at_put_eq q); eauto with slots).
  destruct (IH q1 Hn) as (q' & -> & Ea & Est & Esm & Erd & Erb & Elen & Hout & Hin & Hf).
  { by apply (has_state_put q). }
  exists q'. rewrite Ea, Est, Esm, Erd, Erb, Elen. cbn. rewrite <- (assoc_L (++)), length_insert.
  split_and!; try done.
  - intros j Hj. apply not_elem_of_cons in Hj as [? ?]. by rewrite Hout, Hne.
  - intros j b' Hj Hb'. destruct (decide (j = i)) as [->|Hji].
    + rewrite Hout, Hq1 in Hb' by done. injection Hb' as <-. split; [done|]. by exists b.
    + apply elem_of_cons in Hj as [?|Hj]; [done|]. destruct (Hin j b' Hj Hb') as (? & b0 & E0 & ?).
      split; [done|]. exists b0. by rewrite <- Hne.
  - constructor; [|done]. exists (set_state VIDEOBUF_QUEUED b). by rewrite Hout.
Qed.

(** Once all buffers of the stream are with the driver, capturing may begin,
    for a stream or for a reader. *)
Lemma capture_ok q l sm rd q' : vb_ok q -> q_streaming q = false -> q_reading q = false ->
  q_stream q = Some l -> queue_prepared l q = Some q' -> sm && rd = false -> sm || rd = true ->
  vb_ok (set_mode sm rd q') /\ q_stream q' = Some l.
Proof.
  intros Hq Est Erd El Hp Hm Hb.
  destruct (idle_line q Hq Est Erd) as (Ha & Hrb & Hl & Hpr). rewrite El in Hl, Hpr. cbn in Hl, Hpr.
  pose proof (ok_nodup _ Hq) as Hn. rewrite Hl in Hn.
  destruct (queue_prepared_spec l q Hn Hpr) as (q2 & E & A1 & A2 & A3 & A4 & A5 & A6 & Hout & Hin & Hf).
  rewrite E in Hp. injection Hp as <-. rewrite Ha in A1. cbn in A1.
  assert (line (set_mode sm rd q2) = l) as Hl2 by (unfold line; cbn; by rewrite A5, A2, Hrb, El).
  split; [|by rewrite A2]. split; rewrite ?Hl2; cbn; try done.
  - rewrite A6. apply Hq.
  - intros i b Hb'. destruct (decide (i ∈ l)) as [Hi|Hi].
    + destruct (Hin i b Hi Hb') as (_ & b0 & E0 & <-). by apply (ok_index _ Hq).
    + apply (ok_index _ Hq). by rewrite <- Hout.
  - by rewrite A5.
  - intros i b Hb' Hi. apply (ok_owned _ Hq i b); [by rewrite <- Hout | by rewrite Hl].
  - intros _. rewrite A2, El, A1. split; [done|]. exists []. split_and!; done.
  - by rewrite Hb.
Qed.

Lemma queue_prepared_mode s r : forall l q, queue_prepared l (set_mode s r q) =
  set_mode s r <$> queue_prepared l q.
Proof.
  induction l as [|i l IH]; intros q; [done|]. cbn [queue_prepared].
  change (buf_at (set_mode s r q) i) with (buf_at q i). destruct (buf_at q i) as [b|] eqn:Eb; [|done].
  cbn [mbind option_bind]. case_if; [|apply IH].
  rewrite (queue_effect i q b Eb), (queue_effect i (set_mode s r q) b Eb). cbn [mbind option_bind].
  rewrite <- IH. done.
Qed.

Lemma streamon_ok q r q' : vb_ok q -> videobuf_streamon q = Some (r, q') ->
  vb_ok q' /\ (r = 0 -> q_streaming q' = true /\ q_stream q' = q_stream q).
Proof.
  intros Hq Hr. unfold videobuf_streamon in Hr. destruct (q_reading q) eqn:Erd; [by simplify_eq|].
  destruct (q_streaming q) eqn:Est; [by simplify_eq|]. apply bind_Some in Hr as (l & El & Hr).
  apply bind_Some in Hr as (q1 & Hp & [= <- <-]). rewrite queue_prepared_mode in Hp.
  apply fmap_Some in Hp as (q2 & Hp & ->).
  destruct (capture_ok q l true false q2) as [? ?]; try done. by rewrite El.
Qed.

(** *** Reading *)

(** Each round of the first loop queues a buffer as QBUF does before capturing. *)
Lemma read_prepare_ok : forall todo i q r q', vb_ok q -> q_streaming q = false ->
  q_reading q = false -> (forall j, (i <= j < i + todo)%nat -> has_state q owned j) ->
  q_stream q = Some (seq 0 i) \/ q_stream q = None ->
  read_prepare todo i q = Some (r, q') ->
  vb_ok q' /\ q_streaming q' = false /\ q_reading q' = false /\
  (r = 0 -> (0 < todo)%nat -> q_stream q' = Some (seq 0 (i + todo))).
Proof.
  induction todo as [|todo IH]; intros i q r q' Hq Hs Hr Ho Hst Hp.
  { injection Hp as <- <-. split_and!; try done. lia. }
  destruct (Ho i) as (b & Eb & Hob); [lia|].
  assert (exists e q1, qbuf_tail i b q = Some (e, q1) /\
    (if negb (e =? 0) then Some (e, q1) else read_prepare todo (S i) q1) = Some (r, q') /\
    forall j, j <> i -> buf_at q1 j = buf_at q j) as (e & q1 & Ht & Hp' & Hother).
  { cbn [read_prepare] in Hp. apply bind_Some in Hp as ([f q0] & Hf & Hp).
    apply bind_Some in Hp as (b0 & Eb0 & Hp). unfold qbuf_tail. rewrite Hf. cbn [mbind option_bind].
    assert (q_streaming q0 = false /\ forall j, buf_at q0 j = buf_at q j) as [Hs0 Hb0].
    { unfold videobuf_next_field in Hf. repeat case_if_in Hf; try done; by injection Hf as <- <-. }
    rewrite Hb0, Eb in Eb0. injection Eb0 as <-. destruct (buf_prepare f b) as [e b'].
    destruct (negb (e =? 0)) eqn:Ee.
    - exists e, (put_buf i b' q0). rewrite Ee. split_and!; try done.
      intros j Hj. by rewrite buf_at_put_ne, Hb0 by done.
    - apply bind_Some in Hp as (q1 & Ha & Hp). rewrite Ha. exists 0, q1.
      assert (q_streaming q1 = false /\ forall j, buf_at q1 j = buf_at (put_buf i b' q0) j) as [Hs1 Hb1].
      { unfold stream_add in Ha. apply bind_Some in Ha as (l & _ & [= <-]). done. }
      split_and!; [cbn [mbind option_bind]; by rewrite Hs1 | done |].
      intros j Hj. by rewrite Hb1, buf_at_put_ne, Hb0 by done. }
  destruct (qbuf_tail_ok i b b q e q1) as (Hq1 & A1 & A2 & _ & A4 & _); try done.
  rewrite Hs in A1. rewrite Hr in A2.
  destruct (Z.eqb_spec e 0) as [->|He]; cbn [negb] in Hp'; [|by injection Hp' as <- <-].
  destruct (A4 eq_refl) as (l & El & El1).
  destruct Hst as [Hst|Hst]; [|congruence]. rewrite Hst in El. injection El as <-.
  rewrite <- seq_S in El1.
  destruct (IH (S i) q1 r q') as (B1 & B2 & B3 & B4); try done; [| by left |].
  { intros j Hj. destruct (Ho j) as (bj & Ej & Hoj); [lia|]. exists bj. rewrite Hother by lia. done. }
  split_and!; try done. intros -> _. destruct todo; [injection Hp' as <-; by rewrite Nat.add_1_r|].
  rewrite (B4 eq_refl) by lia. do 2 f_equal. lia.
Qed.

Lemma read_queue_eq : forall todo i q, Forall (has_state q (eq VIDEOBUF_PREPARED)) (seq i todo) ->
  read_queue todo i q = queue_prepared (seq i todo) q.
Proof.
  induction todo as [|todo IH]; intros i q Hp; [done|]. cbn [seq] in Hp.
  apply Forall_cons in Hp as [(b & Eb & Es) Hp]. cbn [read_queue seq queue_prepared].
  rewrite Eb. cbn [mbind option_bind]. rewrite <- Es.
  change (state_eqb VIDEOBUF_PREPARED VIDEOBUF_PREPARED) with true. cbn iota.
  rewrite (queue_effect i q b Eb). cbn [mbind option_bind]. apply IH.
  apply (has_state_put q); [|done]. rewrite elem_of_seq. lia.
Qed.

Lemma read_start_ok alloc q r q' : vb_ok q ->
  videobuf_read_start alloc q = Some (r, q') -> vb_ok q'.
Proof.
  intros Hq Hr. unfold videobuf_read_start in Hr. destruct (buf_setup 0) as [n size].
  apply bind_Some in Hr as ([e q1] & Hm & Hr).
  apply mmap_setup_cases in Hm; [|done|repeat case_if; unfold VIDEO_MAX_FRAME in *; bool_props; lia].
  destruct Hm as [[He Hq1]|(He & Hq1 & Hs1 & Hr1 & Hl1 & _ & Hf1)];
    [by rewrite (proj2 (Z.ltb_lt e 0)) in Hr by done; injection Hr as _ <-|].
  rewrite (proj2 (Z.ltb_ge e 0)) in Hr by lia. apply bind_Some in Hr as ([e2 q2] & Hp & Hr).
  destruct (idle_line q1) as (_ & _ & Hl & _); [done..|].
  apply read_prepare_ok in Hp as (Hq2 & Hs2 & Hr2 & Hst2); try done.
  - destruct (Z.eqb_spec e2 0) as [->|]; cbn [negb] in Hr; [|by injection Hr as _ <-].
    apply bind_Some in Hr as (q3 & Hqu & [= _ <-]). specialize (Hst2 eq_refl ltac:(lia)).
    destruct (idle_line q2) as (_ & _ & _ & Hpr2); [done..|]. rewrite Hst2 in Hpr2.
    rewrite read_queue_eq in Hqu by done.
    assert (q_streaming q3 = false) as ->.
    { destruct (queue_prepared_spec (seq 0 (Z.to_nat e)) q2) as (q3' & E & _ & _ & E3 & _);
        [apply NoDup_seq | done |]. rewrite E in Hqu. injection Hqu as <-. congruence. }
    by eapply capture_ok.
  - intros k Hk. exists (new_buf (Z.of_nat k) (PAGE_ALIGN size) V4L2_MEMORY_USERPTR).
    rewrite Hf1, decide_True by lia. split; [done | by left].
  - destruct (q_stream q1) as [l|]; [left | by right]. rewrite Hl1 in Hl. cbn in Hl. by rewrite <- Hl.
Qed.

(** Taking the oldest buffer off the stream for a reader leaves the line alone. *)
Lemma read_take_ok q i l : vb_ok q -> q_reading q = true -> q_read_buf q = None ->
  q_stream q = Some (i :: l) -> vb_ok (set_read 0 (Some i) (set_lists (Some l) (q_active q) q)).
Proof.
  intros Hq Hr Hb Hs. set (q' := set_read _ _ _).
  assert (line q' = line q) as El by (unfold line; cbn; by rewrite Hb, Hs).
  split; rewrite ?El; try apply Hq; cbn; try (by rewrite Hr).
  intros Hm. destruct (ok_busy _ Hq Hm) as (_ & Hd). split; [done | exact Hd].
Qed.

Lemma poll_ok alloc q r q' : vb_ok q -> videobuf_poll_stream alloc q = Some (r, q') -> vb_ok q'.
Proof.
  intros Hq Hp. apply bind_Some in Hp as ([ob q1] & Hb & Hp).
  assert (q1 = q') as -> by (repeat (case_match; simplify_option_eq; try done)).
  clear Hp. unfold poll_buf in Hb. case_if_in Hb.
  { case_if_in Hb; simplify_option_eq; done. }
  apply bind_Some in Hb as (q2 & H2 & Hb).
  assert (vb_ok q2) as Hq2.
  { case_if_in H2; [by simplify_eq|]. apply fmap_Some in H2 as ([e q3] & Hr & ->).
    by eapply read_start_ok. }
  destruct (q_reading q2) eqn:Er; cbn [negb] in Hb; [|by simplify_eq].
  destruct (q_read_buf q2) eqn:Erb; [by simplify_eq|].
  apply bind_Some in Hb as (l & El & Hb). apply bind_Some in Hb as (i & Hi & [= _ <-]).
  destruct l as [|i' l]; [done|]. injection Hi as ->. pose proof (ok_nodup _ Hq2) as Hn.
  unfold line in Hn. rewrite Erb, El in Hn. cbn in Hn. apply NoDup_cons in Hn as [Hni _].
  rewrite filter_cons_False, filter_ne_id by (done || tauto). by apply read_take_ok.
Qed.

Lemma read_stop_ok q q' : vb_ok q -> videobuf_read_stop q = Some q' -> vb_ok q'.
Proof.
  intros Hq Hs. unfold videobuf_read_stop in Hs. apply bind_Some in Hs as ([e q1] & Hf & [= <-]).
  destruct (cancel_quiet q Hq) as (H1 & _ & H3 & H4 & H5 & _). set (qc := videobuf_queue_cancel q) in *.
  assert (exists s l, q1 = set_lists s (q_active qc) (set_bufs l qc) /\
            length l = length (q_bufs qc)) as (s & l & -> & Hl).
  { unfold videobuf_free in Hf. rewrite H3, H4 in Hf. cbn [orb] in Hf.
    case_if_in Hf; [|unfold free_all in Hf; case_if_in Hf; [done|]]; injection Hf as <- <-.
    - exists (q_stream qc), (q_bufs qc). by destruct qc.
    - do 2 eexists. split; [reflexivity|]. by rewrite length_replicate. }
  apply vb_ok_quiet; try done; cbn; [rewrite length_replicate, Hl; apply H1|].
  intros i b Hb. exfalso. pose proof (buf_at_none qc (length l) i) as Hn. unfold buf_at in *.
  cbn in *. congruence.
Qed.

Lemma stop_ok q q' : vb_ok q -> videobuf_stop q = Some q' -> vb_ok q'.
Proof.
  intros Hq Hs. unfold videobuf_stop in Hs. set (q1 := if q_streaming q then _ else _) in Hs.
  assert (vb_ok q1) as Hq1 by (subst q1; case_if; [by apply streamoff_ok | done]).
  case_if_in Hs; [by eapply read_stop_ok | by simplify_eq].
Qed.

Lemma mmap_free_ok q r q' : vb_ok q -> videobuf_mmap_free q = Some (r, q') -> vb_ok q'.
Proof. intros Hq Hf. destruct (free_cases _ _ _ Hq Hf) as [[_ ->]|(_ & ? & _)]; done. Qed.

(** *** Mapping *)

Lemma mmap_ok kz vm remap fl start off q : vb_ok q ->
  vb_ok (snd (videobuf_mmap_mapper kz vm remap fl start off q)).
Proof.
  intros Hq. unfold videobuf_mmap_mapper, vmalloc_mmap_mapper. case_if; [done|].
  destruct (find_mmap _ _ _) as [i|]; [|done]. destruct (buf_at q i) as [b|] eqn:Eb; [|done].
  destruct kz as [id|]; [|done]. assert (forall a m v, same_view q (put_buf i (set_map a m v b) q)) as Hv
    by (intros; by eapply same_view_put).
  destruct vm as [m|]; [case_if|]; cbn [snd]; [by rewrite <- Hv | | by rewrite <- Hv].
  assert (same_view q (set_maps (<[id:=1]> (q_maps q)) (put_buf i (set_map start (Some id) (Some m) b) q)))
    as <- by (destruct (Hv start (Some id) (Some m)); by split). done.
Qed.

Lemma unmap_view q id : same_view q (set_bufs (fmap (M:=option) (unmap_buf id) <$> q_bufs q) q).
Proof.
  split; try done; [cbn; by rewrite length_fmap|]. intros i. rewrite buf_at_fmap.
  destruct (buf_at q i) as [b|]; [|done]. cbn. unfold unmap_buf. by case_if.
Qed.

Lemma maps_view q m : same_view q (set_maps m q).
Proof. by split. Qed.

Lemma vm_close_ok id q q' : vb_ok q -> videobuf_vm_close id q = Some q' -> vb_ok q'.
Proof.
  intros Hq Hc. apply bind_Some in Hc as (n & _ & Hc).
  case_if_in Hc; injection Hc as <-; rewrite <- maps_view; [|done]. rewrite <- unmap_view.
  destruct (q_streaming q) eqn:Hs; [|done]. apply cancel_ok; [done|]. apply Hq.
  by destruct (stream_busy q Hq Hs).
Qed.

Lemma vm_open_ok id q q' : vb_ok q -> videobuf_vm_open id q = Some q' -> vb_ok q'.
Proof. intros Hq Hc. apply bind_Some in Hc as (n & _ & [= <-]). by rewrite <- maps_view. Qed.

(** *** Completion by the driver *)

(** The driver finishes the oldest buffer it has. *)
Lemma finish_ok q i l b b' : vb_ok q -> q_active q = i :: l -> buf_at q i = Some b ->
  b_i b' = b_i b -> finished (b_state b') -> vb_ok (set_lists (q_stream q) l (put_buf i b' q)).
Proof.
  intros Hq Ha Hb Hi Hs. destruct (q_streaming q || q_reading q) eqn:Hm.
  2: { destruct (ok_idle _ Hq Hm) as [Ha' _]. by rewrite Ha in Ha'. }
  destruct (ok_busy _ Hq Hm) as (Hst & ds & Hl & Hd & Hqd). rewrite Ha in Hl, Hqd.
  pose proof (ok_nodup _ Hq) as Hn. rewrite Hl in Hn. apply NoDup_app in Hn as (_ & Hdis & Hn2).
  apply NoDup_cons in Hn2 as [Hil _]. assert (i ∉ ds) as Hid by (intros H1; apply (Hdis i H1); left).
  apply Forall_cons in Hqd as [_ Hqd]. set (q' := set_lists _ _ _).
  assert (forall j, buf_at q' j = buf_at (put_buf i b' q) j) as Hbq by done.
  split; try apply Hq.
  - cbn. rewrite length_insert. apply Hq.
  - intros j c. rewrite Hbq. destruct (decide (i = j)) as [->|];
      [rewrite buf_at_put_eq by eauto with slots | rewrite buf_at_put_ne by done; by apply (ok_index _ Hq)].
    intros [= <-]. rewrite Hi. by apply (ok_index _ Hq).
  - intros j c. rewrite Hbq. intros Hc Hj. change (line q') with (line q) in Hj.
    destruct (decide (i = j)) as [->|].
    + exfalso. apply Hj. rewrite Hl. apply elem_of_app. right. left.
    + rewrite buf_at_put_ne in Hc by done. by apply (ok_owned _ Hq j).
  - intros _. split; [done|]. exists (ds ++ [i]). change (line q') with (line q).
    rewrite Hl, <- (assoc_L (++)). split; [done|]. split; [|by apply (has_state_put q)].
    apply Forall_app. split; [by apply (has_state_put q)|]. constructor; [|done].
    exists b'. rewrite Hbq, buf_at_put_eq by eauto with slots. done.
  - cbn. by rewrite Hm.
Qed.

Lemma complete_ok q i l b b' : vb_ok q -> q_active q = i :: l -> buf_at q i = Some b ->
  b_i b' = b_i b -> b_state b' = VIDEOBUF_DONE -> vb_ok (set_lists (q_stream q) l (put_buf i b' q)).
Proof. intros. eapply finish_ok; try done. by left. Qed.

End Preservation.
