(* ===== verification/VideobufRead.v ===== *)
(** The [read] call of the videobuf framework (drivers/media/video/videobuf-core.c of
    [src/linux-3.4.2]) in its streaming form, [videobuf_read_stream], and the
    allocation of the memory it needs, [__videobuf_iolock] of videobuf-vmalloc.c.

    A read that has to wait for the driver is not one step: it keeps what it copied
    and sleeps inside its loop. The variables of the call are a [read_state]; the loop
    ends in [Returned], or in [Waiting], from which it goes on at the same place when
    the buffer is finished, or returns when a signal comes.

    [videobuf_read_one] with its zero-copy variant, which capture a single frame into
    a buffer outside [bufs], are not modelled; no driver of this repository calls
    them. *)
From S2P Require Import Prelude V4l2 Videobuf.
Open Scope Z_scope.


(** * Memory *)

(** [__videobuf_iolock]; [vm] is the block that [vmalloc_user] gives. *)
Definition videobuf_iolock (vm : option mem) (vb : videobuf_buffer) : Z * videobuf_buffer :=
  if b_memory vb =? V4L2_MEMORY_MMAP then
    match b_vaddr vb with None => (- EINVAL, vb) | Some _ => (0, vb) end
  else if b_memory vb =? V4L2_MEMORY_USERPTR then
    if truth (b_baddr vb) then (- EINVAL, vb)
    else
      let vb := set_map (b_baddr vb) (b_map vb) vm vb in
      match vm with None => (- ENOMEM, vb) | Some _ => (0, vb) end
  else (- EINVAL, vb).

(** [copy_to_user] to the application's block [ubuf]: what fits is written, and true
    means that something was left. *)
Definition copy_to_user (ubuf : mem) (off : Z) (bs : mem) : option (mem * bool) :=
  let k := Z.min (zlen bs) (zlen ubuf - off) in
  ubuf ← mem_write ubuf off (take (Z.to_nat k) bs);
  Some (ubuf, k <? zlen bs).

(** [__videobuf_copy_to_user]: the number of bytes or an error, and the block of the
    application, into which [data] points at [pos]. *)
Definition videobuf_copy_to_user (b : videobuf_buffer) (read_off : Z) (ubuf : mem) (pos count : Z)
    : option (Z * mem) :=
  let left := u32 (b_size b - read_off) in
  let count := if count >? left then left else count in
  if count =? 0 then Some (0, ubuf)
  else
    vaddr ← videobuf_to_vmalloc b;
    bs ← mem_read vaddr read_off count;
    '(ubuf, fault) ← copy_to_user ubuf pos bs;
    Some (if fault : bool then - EFAULT else s32 count, ubuf).

(** [__videobuf_copy_stream]. The hack stores the frame counter in the last word of
    the buffer. Its test of -EFAULT returns what is returned anyway. *)
Definition videobuf_copy_stream (b : videobuf_buffer) (read_off : Z) (ubuf : mem) (pos count : Z)
    (vbihack : bool) : option (Z * mem * videobuf_buffer) :=
  b ← (if vbihack then
         vaddr ← videobuf_to_vmalloc b;
         vaddr ← put_unaligned_le32 (Z.shiftr (b_field_count b) 1)
                   (4 * (Z.shiftr (b_size b) 2 - 1)) vaddr;
         Some (set_map (b_baddr b) (b_map b) (Some vaddr) b)
       else Some b);
  '(rc, ubuf) ← videobuf_copy_to_user b read_off ubuf pos count;
  Some (rc, ubuf, b).

(** * Reading *)

(** The variables of a call: [retval], [count], the application's block and the
    queue. *)
Record read_state := mk_rs {
  rs_retval : Z;
  rs_count : Z;
  rs_ubuf : mem;
  rs_q : videobuf_queue
}.

Inductive read_end :=
  | Returned (s : read_state)
  | Waiting (s : read_state).

Section Read.
Context `{VideobufOps}.

(** [q->read_buf], taken off the stream when there is none. *)
Definition read_take (q : videobuf_queue) : option (nat * videobuf_queue) :=
  match q_read_buf q with
  | Some i => Some (i, q)
  | None =>
      l ← q_stream q; i ← head l;
      Some (i, set_read 0 (Some i) (set_lists (Some (filter (.≠ i) l)) (q_active q) q))
  end.

(** Copying from a finished buffer, or skipping one with an error; true for the
    [break] after a failed copy. *)
Definition read_copy (vbihack : bool) (i : nat) (b : videobuf_buffer) (s : read_state)
    : option (bool * read_state) :=
  let 'mk_rs retval count ubuf q := s in
  if state_eqb (b_state b) VIDEOBUF_DONE then
    '(rc, ubuf, b) ← videobuf_copy_stream b (q_read_off q) ubuf retval count vbihack;
    let q := put_buf i b q in
    if rc <? 0 then Some (true, mk_rs rc count ubuf q)
    else Some (false, mk_rs (s32 (retval + rc)) (u32 (count - rc)) ubuf
                        (set_read (u32 (q_read_off q + rc)) (q_read_buf q) q))
  else Some (false, mk_rs (if retval =? 0 then - EIO else retval) count ubuf
                      (set_read (b_size b) (q_read_buf q) q)).

(** A buffer that was read to its end goes back to the driver. *)
Definition read_requeue (i : nat) (b : videobuf_buffer) (q : videobuf_queue)
    : option videobuf_queue :=
  if q_read_off q =? b_size b then
    q ← stream_add i q;
    q ← buf_queue i q;
    Some (set_read (q_read_off q) None q)
  else Some q.

(** One round of the loop. *)
Definition read_round (vbihack nonblocking : bool) (s : read_state)
    : option (read_state + read_end) :=
  let 'mk_rs retval count ubuf q := s in
  '(i, q) ← read_take q;
  b ← buf_at q i;
  match videobuf_waiton b nonblocking with
  | Sleep => Some (inr (Waiting (mk_rs retval count ubuf q)))
  | Done rc =>
      if rc <? 0
      then Some (inr (Returned (mk_rs (if retval =? 0 then rc else retval) count ubuf q)))
      else
        '(failed, s) ← read_copy vbihack i b (mk_rs retval count ubuf q);
        if failed : bool then Some (inr (Returned s))
        else
          q ← read_requeue i b (rs_q s);
          let s := mk_rs (rs_retval s) (rs_count s) (rs_ubuf s) q in
          Some (if rs_retval s <? 0 then inr (Returned s) else inl s)
  end.

(** [while (count > 0)]. *)
Fixpoint read_stream_loop (fuel : nat) (vbihack nonblocking : bool) (s : read_state)
    : option read_end :=
  if rs_count s >? 0 then
    match fuel with
    | O => None
    | S fuel =>
        r ← read_round vbihack nonblocking s;
        match r with
        | inl s => read_stream_loop fuel vbihack nonblocking s
        | inr e => Some e
        end
    end
  else Some (Returned s).

(** A round for each buffer and one that finds no finished buffer left. *)
Definition read_fuel (q : videobuf_queue) : nat := S (length (q_bufs q)).

Definition videobuf_read_stream (alloc : nat -> bool) (vbihack nonblocking : bool) (count : Z)
    (ubuf : mem) (q : videobuf_queue) : option read_end :=
  if q_streaming q then Some (Returned (mk_rs (- EBUSY) count ubuf q))
  else
    '(retval, q) ← (if q_reading q then Some (0, q) else videobuf_read_start alloc q);
    if retval <? 0 then Some (Returned (mk_rs retval count ubuf q))
    else read_stream_loop (read_fuel q) vbihack nonblocking (mk_rs 0 count ubuf q).

(** A sleeping call goes on: the buffer was finished, or a signal came. *)
Definition read_resume (vbihack : bool) (s : read_state) : option read_end :=
  read_stream_loop (read_fuel (rs_q s)) vbihack false s.

Definition read_interrupt (s : read_state) : read_end :=
  Returned (mk_rs (if rs_retval s =? 0 then - ERESTARTSYS else rs_retval s)
              (rs_count s) (rs_ubuf s) (rs_q s)).

End Read.

(** * What is left to read *)

(** The picture in a buffer: a finished one holds [b_size] bytes, one with an error or
    still with the driver nothing. *)
Definition frame (q : videobuf_queue) (i : nat) : mem :=
  match buf_at q i with
  | Some b => if state_eqb (b_state b) VIDEOBUF_DONE
              then take (Z.to_nat (b_size b)) (default [] (b_vaddr b)) else []
  | None => []
  end.

(** The bytes that were captured and not read yet, oldest first. *)
Definition unread (q : videobuf_queue) : mem :=
  match q_read_buf q with Some i => drop (Z.to_nat (q_read_off q)) (frame q i) | None => [] end
  ++ mjoin (frame q <$> default [] (q_stream q)).

(** A buffer with memory for its picture. *)
Definition backed (q : videobuf_queue) (i : nat) : Prop :=
  exists b m, buf_at q i = Some b /\ b_vaddr b = Some m /\ 0 <= b_size b <= zlen m /\
  b_size b < 2 ^ 31.

(** A queue that is being read: the position lies in the buffer that is being read,
    at its start as long as the driver has it. *)
Record rd_ok (q : videobuf_queue) : Prop := {
  ro_ok : vb_ok q;
  ro_reading : q_reading q = true;
  ro_line : line q <> [];
  ro_mem : Forall (backed q) (line q);
  ro_off i b : q_read_buf q = Some i -> buf_at q i = Some b ->
    0 <= q_read_off q <= b_size b /\ (b_state b = VIDEOBUF_QUEUED -> q_read_off q = 0)
}.

(** A buffer that the driver finished with an error. *)
Definition failed (q : videobuf_queue) (i : nat) : Prop := has_state q (eq VIDEOBUF_ERROR) i.

(** The finished buffers of the line. *)
Definition nfinished (q : videobuf_queue) : nat := (length (line q) - length (q_active q))%nat.

(** The state of a queue that is being read. *)
Lemma read_busy q : vb_ok q -> q_reading q = true ->
  q_streaming q = false /\ exists l ds, q_stream q = Some l /\ line q = ds ++ q_active q /\
  Forall (has_state q finished) ds /\ Forall (has_state q (eq VIDEOBUF_QUEUED)) (q_active q) /\
  nfinished q = length ds.
Proof.
  intros Hq Hr. pose proof (ok_mode _ Hq) as Hm. rewrite Hr, andb_true_r in Hm. split; [done|].
  destruct (ok_busy _ Hq) as ([l El] & ds & Hl & Hd & Ha); [by rewrite Hr, orb_true_r|].
  exists l, ds. split_and!; try done. unfold nfinished. rewrite Hl, length_app. lia.
Qed.

Lemma frame_queued q i : has_state q (eq VIDEOBUF_QUEUED) i -> frame q i = [].
Proof. intros (b & Hb & Hs). unfold frame. by rewrite Hb, <- Hs. Qed.

Lemma frames_queued q l : Forall (has_state q (eq VIDEOBUF_QUEUED)) l -> mjoin (frame q <$> l) = [].
Proof.
  induction 1 as [|i l Hi Hl IH]; [done|]. cbn. rewrite (frame_queued q i Hi). exact IH.
Qed.

(** ** Taking the buffer to read *)

Lemma take_ok q : rd_ok q -> exists i q' b l, read_take q = Some (i, q') /\ rd_ok q' /\
  q_read_buf q' = Some i /\ q_stream q' = Some l /\ buf_at q' i = Some b /\
  unread q' = unread q /\ line q' = line q /\ q_active q' = q_active q /\
  length (q_bufs q') = length (q_bufs q) /\ (forall j, buf_at q' j = buf_at q j).
Proof.
  intros Hq. pose proof (ro_ok _ Hq) as Hok. destruct (read_busy q Hok (ro_reading _ Hq))
    as (Hs & l & ds & El & Hl & Hd & Ha & _). unfold read_take.
  assert (Hb : forall i, i ∈ line q -> exists b, buf_at q i = Some b).
  { intros i Hi. pose proof (ro_mem _ Hq) as Hm. rewrite Forall_forall in Hm.
    destruct (Hm i Hi) as (b & _ & ? & _). by exists b. }
  destruct (q_read_buf q) as [i|] eqn:Er.
  - destruct (Hb i) as [b Eb]; [unfold line; rewrite Er; cbn; left|]. by exists i, q, b, l.
  - pose proof (ro_line _ Hq) as Hne. unfold line in Hne. rewrite Er, El in Hne. cbn in Hne.
    destruct l as [|i l]; [done|]. destruct (Hb i) as [b Eb];
      [unfold line; rewrite Er, El; cbn; left|].
    pose proof (ok_nodup _ Hok) as Hn. unfold line in Hn. rewrite Er, El in Hn. cbn in Hn.
    apply NoDup_cons in Hn as [Hi _].
    rewrite El. cbn [mbind option_bind head].
    rewrite filter_cons_False, filter_ne_id by (done || tauto).
    set (q' := set_read _ _ _). exists i, q', b, l.
    assert (El' : line q' = line q) by (unfold line; cbn; by rewrite Er, El).
    assert (Hb' : forall j, buf_at q' j = buf_at q j) by done.
    split_and!; try done.
    + split; rewrite ?El'; try apply Hq.
      * by apply read_take_ok; [..|apply Hq| | ].
      * intros j c [= <-] Ec. rewrite Hb', Eb in Ec. injection Ec as <-. cbn.
        destruct (proj1 (Forall_forall _ _) (ro_mem _ Hq) i) as (c & m & Ec & _ & ? & _);
          [unfold line; rewrite Er, El; cbn; left|]. simplify_eq. lia.
    + unfold unread. cbn. rewrite Er, El. cbn. by rewrite drop_0.
Qed.

(** ** Giving a buffer back *)

Section ReadTheorems.
Context `{VideobufLaws}.

(** The oldest buffer of a reader becomes the driver's newest. *)
Lemma recycle_ok q i l b off : vb_ok q -> q_reading q = true -> q_read_buf q = Some i ->
  q_stream q = Some l -> buf_at q i = Some b -> finished (b_state b) ->
  vb_ok (set_read off None (set_lists (Some (l ++ [i])) (q_active q ++ [i])
           (put_buf i (set_state VIDEOBUF_QUEUED b) q))).
Proof.
  intros Hq Hr Hrb El Hb Hfin. set (q' := set_read _ _ _).
  destruct (read_busy q Hq Hr) as (Hs & l' & ds & El' & Hl & Hd & Ha & _).
  assert (Hline : line q = i :: l) by (unfold line; by rewrite Hrb, El).
  assert (Hline' : line q' = l ++ [i]) by done.
  pose proof (ok_nodup _ Hq) as Hn. rewrite Hline in Hn. apply NoDup_cons in Hn as [Hi Hn].
  assert (Hbq : forall j, buf_at q' j = buf_at (put_buf i (set_state VIDEOBUF_QUEUED b) q) j) by done.
  destruct ds as [|i' ds].
  { exfalso. cbn in Hl. rewrite <- Hl, Hline in Ha. apply Forall_cons in Ha as [(c & Hc & Hq') _].
    simplify_eq. rewrite <- Hq' in Hfin. by destruct Hfin. }
  rewrite Hline in Hl. injection Hl as <- ->. apply Forall_cons in Hd as [_ Hd].
  apply not_elem_of_app in Hi as [Hi1 Hi2].
  split.
  - cbn. rewrite length_insert. apply Hq.
  - intros j c. rewrite Hbq. destruct (decide (i = j)) as [->|];
      [rewrite buf_at_put_eq by eauto with slots | rewrite buf_at_put_ne by done; by apply Hq].
    intros [= <-]. cbn. by apply (ok_index _ Hq).
  - apply Hq.
  - done.
  - rewrite Hline'. apply NoDup_snoc; [done|]. by apply not_elem_of_app.
  - intros j c. rewrite Hbq, Hline', not_elem_of_app, list_elem_of_singleton. intros Hc [Hj Hne].
    rewrite buf_at_put_ne in Hc by done. apply (ok_owned _ Hq j); [done|].
    rewrite Hline. by apply not_elem_of_cons.
  - intros _. split; [done|]. exists ds. rewrite Hline'. cbn. rewrite <- (assoc_L (++)).
    split; [done|]. split; [by apply (has_state_put q)|]. apply Forall_app.
    split; [by apply (has_state_put q)|]. constructor; [|done].
    exists (set_state VIDEOBUF_QUEUED b). rewrite Hbq, buf_at_put_eq by eauto with slots. done.
  - cbn. by rewrite Hr, orb_true_r.
Qed.

Lemma frames_ext q q' (l : list nat) : (forall j, j ∈ l -> buf_at q' j = buf_at q j) ->
  frame q' <$> l = frame q <$> l.
Proof.
  intros He. apply list_fmap_ext. intros k j Hj. unfold frame.
  by rewrite He by (by eapply list_elem_of_lookup_2).
Qed.

Lemma backed_put q i b b' l : buf_at q i = Some b -> b_vaddr b' = b_vaddr b -> b_size b' = b_size b ->
  Forall (backed q) l -> Forall (backed (put_buf i b' q)) l.
Proof.
  intros Hb Hv Hs Hf. eapply Forall_impl; [exact Hf|]. intros j (c & m & Hc & H'). destruct (decide (i = j)) as [->|].
  - simplify_eq. exists b', m. rewrite buf_at_put_eq by eauto with slots. by rewrite Hv, Hs.
  - exists c, m. by rewrite buf_at_put_ne.
Qed.

Lemma frame_length q i b : buf_at q i = Some b -> backed q i ->
  (length (frame q i) <= Z.to_nat (b_size b))%nat.
Proof.
  intros Hb (c & m & Hc & Hm & Hs & _). simplify_eq. unfold frame. rewrite Hb. case_if; [|cbn; lia].
  rewrite length_take. lia.
Qed.

(** A buffer that was read to its end goes back, and nothing to read is lost. *)
Lemma requeue_ok q i b : rd_ok q -> q_read_buf q = Some i -> buf_at q i = Some b ->
  finished (b_state b) -> q_read_off q = b_size b ->
  exists q', read_requeue i b q = Some q' /\ rd_ok q' /\ unread q' = unread q /\
  (nfinished q' < nfinished q)%nat /\ length (q_bufs q') = length (q_bufs q) /\
  (forall j, failed q' j -> failed q j).
Proof.
  intros Hq Hrb Hb Hfin Hoff. pose proof (ro_ok _ Hq) as Hok. pose proof (ro_reading _ Hq) as Hr.
  destruct (read_busy q Hok Hr) as (Hs & l & ds & El & Hl & Hd & Ha & Hnf).
  pose proof (recycle_ok q i l b (q_read_off q) Hok Hr Hrb El Hb Hfin) as Hok'.
  assert (Hline : line q = i :: l) by (unfold line; by rewrite Hrb, El).
  pose proof (ok_nodup _ Hok) as Hn. rewrite Hline in Hn. apply NoDup_cons in Hn as [Hi Hn].
  pose proof (ro_mem _ Hq) as Hm. rewrite Hline in Hm. pose proof Hm as Hm0.
  apply Forall_cons in Hm0 as [Hmi Hml].
  unfold read_requeue. rewrite Hoff, Z.eqb_refl. unfold stream_add. rewrite El. cbn [mbind option_bind].
  rewrite (queue_effect i _ b) by done. cbn [mbind option_bind]. eexists. split; [reflexivity|].
  cbn [q_stream q_active set_lists q_read_off put_buf set_bufs]. rewrite Hoff in Hok'.
  change (set_read (q_read_off q) None
    (set_lists (Some (l ++ [i])) (q_active q ++ [i])
       (put_buf i (set_state VIDEOBUF_QUEUED b) (set_lists (Some (l ++ [i])) (q_active q) q))))
    with (set_read (q_read_off q) None
    (set_lists (Some (l ++ [i])) (q_active q ++ [i]) (put_buf i (set_state VIDEOBUF_QUEUED b) q))).
  set (q' := set_read _ _ _).
  assert (Hbq : forall j, buf_at q' j = buf_at (put_buf i (set_state VIDEOBUF_QUEUED b) q) j) by done.
  split_and!.
  - split; try done; [rewrite <- Hoff in Hok'; exact Hok'| |].
    + change (line q') with (l ++ [i]). by destruct l.
    + change (line q') with (l ++ [i]). apply (backed_put q i b); [done..|].
      apply Forall_app. split; [done|]. by constructor.
  - change (unread q') with (mjoin (frame q' <$> (l ++ [i]))). rewrite fmap_app, join_app.
    assert (frame q' <$> l = frame q <$> l) as ->.
    { apply frames_ext. intros j Hj. rewrite Hbq. apply buf_at_put_ne. by intros ->. }
    assert (frame q' i = []) as Ef.
    { apply frame_queued. exists (set_state VIDEOBUF_QUEUED b). rewrite Hbq.
      by rewrite buf_at_put_eq by eauto with slots. }
    unfold unread. rewrite Hrb, El. cbn. rewrite Ef, app_nil_r. rewrite drop_ge; [done|].
    rewrite Hoff. by apply frame_length.
  - unfold nfinished. change (line q') with (l ++ [i]). rewrite Hline. cbn [q_active q' set_read set_lists].
    rewrite !length_app. cbn. destruct ds as [|i' ds].
    { exfalso. cbn in Hl. rewrite <- Hl, Hline in Ha. apply Forall_cons in Ha as [(c & Hc & Hq') _].
      simplify_eq. rewrite <- Hq' in Hfin. by destruct Hfin. }
    rewrite Hline in Hl. injection Hl as _ ->. rewrite length_app. lia.
  - cbn. by rewrite length_insert.
  - intros j (c & Hc & Hce). rewrite Hbq in Hc. destruct (decide (i = j)) as [->|].
    + rewrite buf_at_put_eq in Hc by eauto with slots. by simplify_eq.
    + rewrite buf_at_put_ne in Hc by done. by exists c.
Qed.

(** ** One round *)

(** A call whose block has room for everything that is asked for. *)
Record rs_ok (s : read_state) : Prop := {
  rs_rd : rd_ok (rs_q s);
  rs_nonneg : 0 <= rs_retval s /\ 0 <= rs_count s;
  rs_room : rs_retval s + rs_count s <= zlen (rs_ubuf s);
  rs_small : zlen (rs_ubuf s) < 2 ^ 31
}.

(** What the application has got. *)
Definition got (s : read_state) : mem := take (Z.to_nat (rs_retval s)) (rs_ubuf s).

(** The call went on: what it has got and what is left are together the same. *)
Record served (s s' : read_state) : Prop := {
  sv_bytes : got s' ++ unread (rs_q s') = got s ++ unread (rs_q s);
  sv_total : rs_retval s' + rs_count s' = rs_retval s + rs_count s;
  sv_room : zlen (rs_ubuf s') = zlen (rs_ubuf s);
  sv_bufs : length (q_bufs (rs_q s')) = length (q_bufs (rs_q s));
  sv_failed j : failed (rs_q s') j -> failed (rs_q s) j
}.

#[export] Instance served_preorder : PreOrder served.
Proof.
  split.
  - intros s. by split.
  - intros s1 s2 s3 [] []. split; try congruence. auto.
Qed.

Lemma put_buf_id q i b : buf_at q i = Some b -> put_buf i b q = q.
Proof.
  intros Hb. unfold put_buf. rewrite list_insert_id; [by destruct q|].
  unfold buf_at in Hb. destruct (q_bufs q !! i) as [[c|]|]; cbn in Hb; by simplify_eq.
Qed.

(** Bytes copied behind what the application has got. *)
Lemma append_bytes ubuf n bs ubuf' : mem_write ubuf n bs = Some ubuf' ->
  take (Z.to_nat (n + zlen bs)) ubuf' = take (Z.to_nat n) ubuf ++ bs.
Proof.
  intros (Hn & Hl & ->)%mem_write_Some. unfold zlen in *. rewrite (assoc_L (++)).
  apply take_app_length'. rewrite length_app, length_take. lia.
Qed.

Lemma copy_done s i b : rs_ok s -> q_read_buf (rs_q s) = Some i -> buf_at (rs_q s) i = Some b ->
  b_state b = VIDEOBUF_DONE -> 0 < rs_count s ->
  let off := q_read_off (rs_q s) in
  let n := Z.min (rs_count s) (b_size b - off) in
  exists ubuf', read_copy false i b s = Some (false,
    mk_rs (rs_retval s + n) (rs_count s - n) ubuf' (set_read (off + n) (Some i) (rs_q s))) /\
  zlen ubuf' = zlen (rs_ubuf s) /\
  take (Z.to_nat (rs_retval s + n)) ubuf'
  = got s ++ take (Z.to_nat n) (drop (Z.to_nat off) (frame (rs_q s) i)).
Proof.
  destruct s as [retval count ubuf q]. cbn [rs_retval rs_count rs_ubuf rs_q].
  intros [Hq [Hr0 Hc0] Hroom Hsm] Hrb Hb Hst Hc. cbn [rs_retval rs_count rs_ubuf rs_q] in *.
  set (off := q_read_off q). set (n := Z.min count (b_size b - off)).
  destruct (ro_off _ Hq i b Hrb Hb) as [Hoff _]. fold off in Hoff.
  destruct (proj1 (Forall_forall _ _) (ro_mem _ Hq) i) as (c & m & Hc' & Hm & Hsz & Hsz');
    [unfold line; rewrite Hrb; cbn; left|]. simplify_eq.
  assert (Hfr : frame q i = take (Z.to_nat (b_size b)) m) by (unfold frame; by rewrite Hb, Hst, Hm).
  unfold read_copy, videobuf_copy_stream, videobuf_copy_to_user. rewrite Hst. cbn [mbind option_bind].
  change (state_eqb VIDEOBUF_DONE VIDEOBUF_DONE) with true. cbn iota. fold off.
  rewrite (u32_small (b_size b - off)) by (unfold is_u32; lia).
  assert ((if count >? b_size b - off then b_size b - off else count) = n) as ->
    by (unfold n; destruct (Z.gtb_spec count (b_size b - off)); lia).
  unfold got. cbn [rs_retval rs_ubuf].
  assert (Hres : (retval + n, count - n, off + n) = (s32 (retval + n), u32 (count - n), u32 (off + n))).
  { rewrite s32_small, !u32_small; [done|unfold is_u32, is_s32; lia..]. }
  injection Hres as R1 R2 R3.
  destruct (Z.eqb_spec n 0) as [E0|Hn0].
  - cbn [mbind option_bind Z.ltb Z.compare]. rewrite (put_buf_id q i b Hb), Hrb. fold off.
    rewrite E0 in *. rewrite <- R1, <- R2, <- R3. exists ubuf. split; [done|]. split; [done|].
    rewrite Z.add_0_r. cbn. by rewrite app_nil_r.
  - unfold videobuf_to_vmalloc. rewrite Hm. cbn [mbind option_bind].
    rewrite mem_read_in by lia. cbn [mbind option_bind].
    set (bs := take (Z.to_nat n) (drop (Z.to_nat off) m)).
    assert (Hbs : zlen bs = n).
    { unfold bs, zlen in *. rewrite length_take, length_drop. lia. }
    unfold copy_to_user. rewrite Hbs, (Z.min_l n) by lia.
    rewrite (take_ge bs) by (unfold zlen in Hbs; lia).
    destruct (mem_write_ok ubuf retval bs) as (ubuf' & Hw & _); [lia..|].
    rewrite Hw. cbn [mbind option_bind]. rewrite Z.ltb_irrefl.
    rewrite (s32_small n) by (unfold is_s32; lia). rewrite (proj2 (Z.ltb_ge n 0)) by lia.
    rewrite (put_buf_id q i b Hb), Hrb, <- R1, <- R2. fold off. rewrite <- R3.
    exists ubuf'. split; [done|]. split; [by eapply mem_write_length|].
    rewrite <- Hbs at 1. rewrite (append_bytes ubuf retval bs ubuf' Hw), Hfr. f_equal. unfold bs.
    rewrite skipn_firstn_comm, take_take. f_equal. lia.
Qed.

(** Moving the position forward. *)
Lemma seek_ok q i b n : rd_ok q -> q_read_buf q = Some i -> buf_at q i = Some b ->
  b_state b <> VIDEOBUF_QUEUED -> 0 <= n -> q_read_off q + n <= b_size b ->
  let q' := set_read (q_read_off q + n) (Some i) q in
  rd_ok q' /\ take (Z.to_nat n) (drop (Z.to_nat (q_read_off q)) (frame q i)) ++ unread q' = unread q.
Proof.
  intros Hq Hrb Hb Hs Hn Hle q'. destruct (ro_off _ Hq i b Hrb Hb) as [Hoff _].
  assert (Hline : line q' = line q) by (unfold line; cbn; by rewrite Hrb). split.
  - split; rewrite ?Hline; try apply Hq.
    + assert (same_view q q') as <- by (split; try done; cbn; by rewrite Hrb). apply Hq.
    + intros j c [= <-] Hc. change (buf_at q' i) with (buf_at q i) in Hc. simplify_eq.
      split; [cbn; lia|done].
  - unfold unread. cbn [q_read_buf q_stream q_read_off q' set_read]. rewrite Hrb.
    change (frame q') with (frame q). rewrite (assoc_L (++)). f_equal.
    rewrite Z2Nat.inj_add by lia. rewrite <- drop_drop. by rewrite take_drop.
Qed.

Lemma nothing_left q : rd_ok q -> nfinished q = 0%nat -> unread q = [].
Proof.
  intros Hq Hn. destruct (read_busy q (ro_ok _ Hq) (ro_reading _ Hq))
    as (_ & l & ds & El & Hl & _ & Ha & Hd). destruct ds; [|cbn in Hd; lia]. cbn in Hl.
  rewrite <- Hl in Ha. unfold line in Ha. rewrite El in Ha. apply Forall_app in Ha as [Ha1 Ha2].
  unfold unread. rewrite El. change (default [] (Some l)) with l. rewrite (frames_queued q l Ha2), app_nil_r.
  destruct (q_read_buf q) as [i|]; [|done]. apply Forall_cons in Ha1 as [Ha1 _].
  by rewrite (frame_queued q i Ha1), drop_nil.
Qed.

(** How a call that was in state [s] ends. With everything copied, or, without
    waiting, with all there was, -EAGAIN for nothing; at a buffer with an error before
    any bytes; or asleep with all there was. *)
Definition ends (nb : bool) (s : read_state) (e : read_end) : Prop :=
  match e with
  | Returned s' => exists s1, rs_ok s1 /\ served s s1 /\ rs_q s' = rs_q s1 /\ rs_ubuf s' = rs_ubuf s1 /\
      (rs_retval s' = rs_retval s1 /\ rs_count s1 = 0 \/
       nb = true /\ unread (rs_q s1) = [] /\
         rs_retval s' = (if rs_retval s1 =? 0 then - EAGAIN else rs_retval s1) \/
       rs_retval s1 = 0 /\ rs_retval s' = - EIO /\ exists j, failed (rs_q s) j)
  | Waiting s' => nb = false /\ rs_ok s' /\ served s s' /\ 0 < rs_count s' /\
      unread (rs_q s') = []
  end.

Lemma ends_later nb s s' e : served s s' -> ends nb s' e -> ends nb s e.
Proof.
  intros Hs. destruct e as [s2|s2]; cbn.
  - intros (s1 & H1 & H2 & H3 & H4 & H5). exists s1. split_and!; try done; [by etransitivity|].
    destruct H5 as [?|[?|(? & ? & j & Hj)]]; [by left|by right; left|]. right; right.
    split_and!; try done. exists j. by apply Hs.
  - intros (? & ? & ? & ?). split_and!; try done; [by etransitivity|tauto..].
Qed.

(** A round over a buffer that the driver finished. *)
Lemma round_finished s i b : rs_ok s -> 0 < rs_count s -> q_read_buf (rs_q s) = Some i ->
  buf_at (rs_q s) i = Some b -> finished (b_state b) ->
  exists s1 q', read_copy false i b s = Some (false, s1) /\ read_requeue i b (rs_q s1) = Some q' /\
  let s' := mk_rs (rs_retval s1) (rs_count s1) (rs_ubuf s1) q' in
  (rs_ok s' /\ served s s' /\ (rs_count s' = 0 \/ (nfinished q' < nfinished (rs_q s))%nat) \/
   rs_retval s1 = - EIO /\ rs_retval s = 0 /\ failed (rs_q s) i /\
   let s' := mk_rs 0 (rs_count s1) (rs_ubuf s1) q' in rs_ok s' /\ served s s').
Proof.
  intros Hs Hc Hrb Hb Hfin. pose proof (rs_rd _ Hs) as Hq.
  destruct (ro_off _ Hq i b Hrb Hb) as [Hoff _].
  assert (Hnq : b_state b <> VIDEOBUF_QUEUED) by (by destruct Hfin as [-> | ->]).
  destruct Hfin as [Hst|Hst].
  - destruct (copy_done s i b Hs Hrb Hb Hst Hc) as (ubuf' & Ec & Hu & Hg).
    set (off := q_read_off (rs_q s)) in *. set (n := Z.min (rs_count s) (b_size b - off)) in *.
    destruct (seek_ok (rs_q s) i b n Hq Hrb Hb Hnq) as [Hq1 Hun]; [lia..|]. fold off in Hq1, Hun.
    destruct Hs as [_ [Hr0 Hc0] Hroom Hsm].
    eexists. rewrite Ec. cbn [rs_q rs_retval rs_count rs_ubuf].
    set (q1 := set_read (off + n) (Some i) (rs_q s)) in *.
    assert (Hfin : exists q', read_requeue i b q1 = Some q' /\ rd_ok q' /\ unread q' = unread q1 /\
      length (q_bufs q') = length (q_bufs q1) /\
      (rs_count s - n = 0 \/ (nfinished q' < nfinished q1)%nat) /\
      (forall j, failed q' j -> failed q1 j)).
    { destruct (decide (off + n = b_size b)) as [E|E].
      - destruct (requeue_ok q1 i b) as (q' & ? & ? & ? & ? & ? & ?); try done; [by left|].
        exists q'. split_and!; try done. by right.
      - exists q1. unfold read_requeue. cbn [q_read_off q1 set_read].
        rewrite (proj2 (Z.eqb_neq _ _) E). split_and!; try done. left. lia. }
    destruct Hfin as (q' & Er & Hq' & Hu' & Hb' & Hm & He). exists q'. split; [done|]. split; [done|].
    assert (Hnf : nfinished q1 = nfinished (rs_q s)).
    { unfold nfinished, line. cbn [q1 q_read_buf q_stream q_active set_read]. by rewrite Hrb. }
    left. split; [|split].
    + split; cbn; [done|lia..].
    + split; cbn; [|lia|done|done|done]. unfold got at 1. cbn. rewrite Hg, Hu', <- (assoc_L (++)).
      by rewrite Hun.
    + rewrite <- Hnf. destruct Hm as [Hm|Hm]; [left; cbn; lia|by right].
  - unfold read_copy. destruct s as [retval count ubuf q]. cbn [rs_retval rs_count rs_ubuf rs_q] in *.
    rewrite Hst. change (state_eqb VIDEOBUF_ERROR VIDEOBUF_DONE) with false. cbn iota.
    destruct (seek_ok q i b (b_size b - q_read_off q) Hq Hrb Hb Hnq) as [Hq1 Hun]; [lia..|].
    replace (q_read_off q + (b_size b - q_read_off q)) with (b_size b) in Hq1, Hun by lia.
    assert (Hf : frame q i = []) by (unfold frame; by rewrite Hb, Hst).
    rewrite Hf, drop_nil, take_nil in Hun. cbn [app] in Hun.
    rewrite Hrb. eexists _. destruct (requeue_ok _ i b Hq1) as (q' & Er & Hq' & Hu' & Hm & Hb' & He);
      try done; [by right|]. exists q'. split; [reflexivity|]. cbn [rs_q rs_retval rs_count rs_ubuf].
    split; [done|]. destruct Hs as [_ [Hr0 Hc0] Hroom Hsm]. cbn [rs_retval rs_count rs_ubuf] in *.
    assert (Hnf : nfinished (set_read (b_size b) (Some i) q) = nfinished q).
    { unfold nfinished, line. cbn [q_read_buf q_stream q_active set_read]. by rewrite Hrb. }
    rewrite Hnf in Hm.
    assert (Hall : rs_ok (mk_rs retval count ubuf q') /\
              served (mk_rs retval count ubuf q) (mk_rs retval count ubuf q')).
    { split; split; try done. unfold got. cbn [rs_q rs_retval rs_ubuf]. by rewrite Hu', Hun. }
    destruct (Z.eqb_spec retval 0) as [->|];
      [right; do 2 (split; [done|]); split; [by exists b|exact Hall]|left].
    split; [apply Hall|]. split; [apply Hall|]. by right.
Qed.

(** A round goes on with fewer finished buffers or nothing more to copy, or ends the
    call. *)
Lemma round_spec nb s : rs_ok s -> 0 < rs_count s ->
  exists r, read_round false nb s = Some r /\
  match r with
  | inl s' => rs_ok s' /\ served s s' /\
      (rs_count s' = 0 \/ (nfinished (rs_q s') < nfinished (rs_q s))%nat)
  | inr e => ends nb s e
  end.
Proof.
  intros Hs Hc. destruct (take_ok (rs_q s) (rs_rd _ Hs))
    as (i & q & b & l & Et & Hq & Hrb & El & Hb & Hu & Hl & Ha & Hlen & Hbs).
  destruct s as [retval count ubuf q0]. cbn [rs_retval rs_count rs_ubuf rs_q] in *.
  set (s0 := mk_rs retval count ubuf q).
  assert (Hs0 : rs_ok s0) by (destruct Hs; by split).
  assert (Hsv : served (mk_rs retval count ubuf q0) s0).
  { split; try done. { unfold got. cbn [rs_q rs_retval rs_ubuf s0]. by rewrite Hu. }
    intros j (c & Hcj & ?). exists c. cbn [rs_q s0] in *. by rewrite <- Hbs. }
  assert (Hnf : nfinished q = nfinished q0) by (unfold nfinished; by rewrite Hl, Ha).
  unfold read_round. rewrite Et. cbn [mbind option_bind]. rewrite Hb. cbn [mbind option_bind].
  destruct (read_busy q (ro_ok _ Hq) (ro_reading _ Hq)) as (_ & l' & ds & El' & Hl' & Hd & Hac & Hn').
  assert (Hline : line q = i :: l) by (unfold line; by rewrite Hrb, El). rewrite Hline in Hl'.
  unfold videobuf_waiton, is_state_active_or_queued. destruct ds as [|i' ds].
  - cbn in Hl'. rewrite <- Hl' in Hac. apply Forall_cons in Hac as [(c & Hcb & Hst) _]. simplify_eq.
    rewrite <- Hst. cbn [state_eqb negb andb].
    change (state_eqb VIDEOBUF_QUEUED VIDEOBUF_ACTIVE) with false.
    change (state_eqb VIDEOBUF_QUEUED VIDEOBUF_QUEUED) with true. cbn [negb andb].
    pose proof (nothing_left q Hq Hn') as Hu0. destruct nb.
    + eexists. split; [reflexivity|]. exists s0. split_and!; try done. right; left. done.
    + eexists. split; [reflexivity|]. by split_and!.
  - injection Hl' as <- Hl'. apply Forall_cons in Hd as [(c & Hcb & Hfin) _]. simplify_eq.
    assert (negb (state_eqb (b_state b) VIDEOBUF_ACTIVE) &&
            negb (state_eqb (b_state b) VIDEOBUF_QUEUED) = true) as ->
      by (by destruct Hfin as [-> | ->]).
    change (0 <? 0) with false. cbn iota.
    destruct (round_finished s0 i b Hs0 Hc Hrb Hb Hfin) as (s1 & q' & Ec & Er & Hres).
    fold s0. rewrite Ec. cbn [mbind option_bind]. rewrite Er. cbn [mbind option_bind rs_retval].
    eexists. split; [reflexivity|]. destruct Hres as [(Hok & Hsv' & Hm)|(Hio & H0r & Hfl & Hok & Hsv')].
    + rewrite (proj2 (Z.ltb_ge _ _)) by (pose proof (rs_nonneg _ Hok); cbn in *; lia).
      split; [done|]. split; [by etransitivity|]. cbn [rs_q rs_count] in *. by rewrite <- Hnf.
    + rewrite Hio. change (- EIO <? 0) with true. cbn iota.
      eexists. split; [exact Hok|]. split; [by etransitivity|]. split_and!; try done.
      right; right. cbn. split_and!; try done. exists i. by apply (sv_failed _ _ Hsv).
Qed.

Lemma loop_spec nb fuel : forall s, rs_ok s -> (nfinished (rs_q s) < fuel)%nat ->
  exists e, read_stream_loop fuel false nb s = Some e /\ ends nb s e.
Proof.
  assert (Hz : forall fuel s, rs_ok s -> rs_count s = 0 ->
    exists e, read_stream_loop fuel false nb s = Some e /\ ends nb s e).
  { intros f s Hs Hc. exists (Returned s). split; [destruct f; cbn; by rewrite Hc|].
    exists s. split_and!; try done. by left. }
  induction fuel as [|fuel IH]; intros s Hs Hf; [lia|].
  destruct (decide (rs_count s = 0)) as [|Hc]; [by apply Hz|].
  pose proof (rs_nonneg _ Hs). destruct (round_spec nb s Hs) as (r & Er & Hr); [lia|].
  cbn [read_stream_loop]. rewrite (proj2 (Z.gtb_gt _ _)) by lia. rewrite Er. cbn [mbind option_bind].
  destruct r as [s'|e]; [|by exists e]. destruct Hr as (Hs' & Hsv & Hm).
  assert (exists e, read_stream_loop fuel false nb s' = Some e /\ ends nb s' e) as (e & E & He).
  { destruct Hm as [Hm|Hm]; [by apply Hz|]. apply IH; [done|lia]. }
  exists e. split; [done|]. by eapply ends_later.
Qed.

(** No more buffers are finished than there are slots. *)
Lemma fuel_enough q : rd_ok q -> (nfinished q < read_fuel q)%nat.
Proof.
  intros Hq. unfold nfinished, read_fuel.
  assert (length (line q) <= length (q_bufs q))%nat; [|lia].
  rewrite <- (length_seq (length (q_bufs q)) 0). apply submseteq_length, NoDup_submseteq; [apply Hq|].
  intros i Hi. apply elem_of_seq. destruct (proj1 (Forall_forall _ _) (ro_mem _ Hq) i Hi)
    as (b & _ & Hb & _). apply buf_at_lt in Hb. lia.
Qed.

Lemma read_stream_ends alloc nb count ubuf q : rd_ok q -> 0 <= count <= zlen ubuf ->
  zlen ubuf < 2 ^ 31 ->
  exists e, videobuf_read_stream alloc false nb count ubuf q = Some e /\
  ends nb (mk_rs 0 count ubuf q) e.
Proof.
  intros Hq Hc Hu. unfold videobuf_read_stream.
  destruct (read_busy q (ro_ok _ Hq) (ro_reading _ Hq)) as (-> & _). rewrite (ro_reading _ Hq).
  cbn [mbind option_bind Z.ltb Z.compare]. apply loop_spec; [|by apply fuel_enough].
  split; cbn; [done|lia..].
Qed.

(** Reading gives the captured bytes. On a queue that is being read, a call for
    [count] bytes ends its loop, without a fault. It returns [count] bytes if that many
    were captured; otherwise it sleeps with all there were or, without waiting, returns
    them, or -EAGAIN if there were none. What it copied and what is left to read
    afterwards are what there was to read before. -EIO is returned only when the
    driver failed on a buffer, and then nothing is lost. *)
Theorem read_stream_bytes alloc nb count ubuf q : rd_ok q -> 0 < count <= zlen ubuf ->
  zlen ubuf < 2 ^ 31 ->
  exists e, videobuf_read_stream alloc false nb count ubuf q = Some e /\
  match e with
  | Returned s => rd_ok (rs_q s) /\
      (0 < rs_retval s <= count /\ unread q = got s ++ unread (rs_q s) /\
         (rs_retval s = count \/ nb = true /\ unread (rs_q s) = []) \/
       rs_retval s = - EAGAIN /\ nb = true /\ unread q = [] /\ unread (rs_q s) = [] \/
       rs_retval s = - EIO /\ unread (rs_q s) = unread q /\ exists i, failed q i)
  | Waiting s => rs_ok s /\ nb = false /\ 0 <= rs_retval s < count /\
      rs_retval s + rs_count s = count /\ got s = unread q /\ unread (rs_q s) = []
  end.
Proof.
  intros Hq Hc Hu. destruct (read_stream_ends alloc nb count ubuf q) as (e & E & He); try done; [lia|].
  exists e. split; [done|]. destruct e as [s|s].
  - destruct He as (s1 & Hs1 & [Hb Ht _ _ _] & Eq & Eu & Hr). cbn [rs_retval rs_count rs_q] in *.
    change (got (mk_rs 0 count ubuf q)) with (@nil Z) in Hb. cbn [app] in Hb.
    rewrite Eq. pose proof (rs_nonneg _ Hs1). split; [apply Hs1|].
    assert (Hg : rs_retval s = rs_retval s1 -> got s = got s1) by (intros Er; unfold got; by rewrite Er, Eu).
    destruct Hr as [[Hr Hz]|[(-> & Hn & Hr)|(Hz & Hr & Hf)]].
    + left. rewrite (Hg Hr). split; [lia|]. split; [done|]. left. lia.
    + destruct (Z.eqb_spec (rs_retval s1) 0) as [Ez|].
      * right; left. rewrite Hn, app_nil_r in Hb. split_and!; try done.
        rewrite <- Hb. unfold got. by rewrite Ez.
      * left. rewrite (Hg Hr). split; [lia|]. split; [done|]. by right.
    + right; right. split_and!; try done. rewrite <- Hb. unfold got. by rewrite Hz.
  - destruct He as (-> & Hs & [Hb Ht _ _ _] & Hc' & Hn). cbn [rs_retval rs_count rs_q] in *.
    pose proof (rs_nonneg _ Hs). rewrite Hn, app_nil_r in Hb. split_and!; try done; lia.
Qed.

End ReadTheorems.

(** * Starting to read *)

(** A driver whose [buf_prepare] gives the buffer memory, by [videobuf_iolock]. *)
Class ReaderLaws `{VideobufOps} := {
  prepare_mem f b b' : buf_prepare f b = (0, b') ->
    exists m, b_vaddr b' = Some m /\ 0 <= b_size b' <= zlen m /\ b_size b' < 2 ^ 31
}.

Section Start.
Context `{VideobufLaws} `{!ReaderLaws}.

Lemma prepare_backed : forall todo i q q', read_prepare todo i q = Some (0, q') ->
  forall j, (i <= j < i + todo)%nat \/ ((j < i)%nat /\ backed q j) -> backed q' j.
Proof.
  induction todo as [|todo IH]; intros i q q' Hp j Hj; cbn [read_prepare] in Hp.
  { injection Hp as <-. destruct Hj as [?|[_ ?]]; [lia|done]. }
  apply bind_Some in Hp as ([f q0] & Hf & Hp). apply bind_Some in Hp as (b & Hb & Hp).
  destruct (buf_prepare f b) as [e b'] eqn:Eb. destruct (Z.eqb_spec e 0) as [->|He]; cbn [negb] in Hp.
  2: { by injection Hp as -> _. }
  apply bind_Some in Hp as (q1 & Ha & Hp). apply (IH _ _ _ Hp).
  unfold stream_add in Ha. apply bind_Some in Ha as (l & _ & [= <-]).
  destruct (decide (S i <= j)%nat); [left; lia|right; split; [lia|]].
  destruct (decide (j = i)) as [->|Hne].
  - destruct (prepare_mem _ _ _ Eb) as (m & ? & ?). exists b', m. split; [|done].
    apply (buf_at_put_eq q0). eauto with slots.
  - destruct Hj as [?|[_ (c & m & Hc & ?)]]; [lia|]. exists c, m. split; [|done].
    etransitivity; [apply (buf_at_put_ne q0); congruence|].
    unfold videobuf_next_field in Hf. by repeat case_if_in Hf; try done; injection Hf as <- <-.
Qed.

Lemma queue_backed : forall l q q' j, queue_prepared l q = Some q' -> backed q j -> backed q' j.
Proof.
  induction l as [|i l IH]; intros q q' j Hp Hj; cbn [queue_prepared] in Hp; [by injection Hp as <-|].
  apply bind_Some in Hp as (b & Hb & Hp). case_if_in Hp; [|by eapply IH].
  rewrite (queue_effect i q b Hb) in Hp. cbn [mbind option_bind] in Hp. eapply IH; [exact Hp|].
  assert (Forall (backed (put_buf i (set_state VIDEOBUF_QUEUED b) q)) [j]) as Hf
    by (apply (backed_put q i b); [done..|by constructor]).
  by apply Forall_cons in Hf as [? _].
Qed.

(** A successful start leaves a queue that can be read, with nothing to read yet. *)
Lemma read_start_rd alloc q q' : vb_ok q -> videobuf_read_start alloc q = Some (0, q') ->
  rd_ok q' /\ unread q' = [].
Proof.
  intros Hq Hst. pose proof (read_start_ok _ _ _ _ Hq Hst) as Hq'. unfold videobuf_read_start in Hst.
  destruct (buf_setup 0) as [n size]. apply bind_Some in Hst as ([e q1] & Hm & Hst).
  apply mmap_setup_cases in Hm; [|done|repeat case_if; unfold VIDEO_MAX_FRAME in *; bool_props; lia].
  destruct Hm as [[He _]|(He & Hq1 & Hs1 & Hr1 & Hl1 & _ & Hf1)].
  { rewrite (proj2 (Z.ltb_lt e 0)) in Hst by done. injection Hst as ? _. lia. }
  rewrite (proj2 (Z.ltb_ge e 0)) in Hst by lia. apply bind_Some in Hst as ([e2 q2] & Hp & Hst).
  destruct (Z.eqb_spec e2 0) as [->|]; cbn [negb] in Hst; [|by injection Hst as -> _].
  pose proof (prepare_backed _ _ _ _ Hp) as Hbk. destruct (idle_line q1) as (_ & _ & Hl & _); [done..|].
  apply read_prepare_ok in Hp as (Hq2 & Hs2 & Hr2 & Hst2); try done.
  2: { intros k Hk. exists (new_buf (Z.of_nat k) (PAGE_ALIGN size) V4L2_MEMORY_USERPTR).
       rewrite Hf1, decide_True by lia. split; [done | by left]. }
  2: { destruct (q_stream q1) as [l|]; [left | by right]. rewrite Hl1 in Hl. cbn in Hl. by rewrite <- Hl. }
  specialize (Hst2 eq_refl ltac:(lia)).
  apply bind_Some in Hst as (q3 & Hqu & [= <-]).
  destruct (idle_line q2) as (Ha2 & Hrb2 & _ & Hpr2); [done..|]. rewrite Hst2 in Hpr2.
  rewrite read_queue_eq in Hqu by done.
  destruct (queue_prepared_spec (seq 0 (Z.to_nat e)) q2) as (q3' & E & A1 & A2 & _ & _ & A5 & _);
    [apply NoDup_seq | done |]. rewrite E in Hqu. injection Hqu as ->.
  set (q' := set_mode _ _ _) in *.
  assert (Hline : line q' = seq 0 (Z.to_nat e)).
  { unfold line. cbn [q' q_read_buf q_stream set_mode]. by rewrite A5, A2, Hrb2, Hst2. }
  assert (Hrd : rd_ok q').
  { split; try done.
    - rewrite Hline. destruct (Z.to_nat e) eqn:En; [lia|done].
    - rewrite Hline. apply Forall_forall. intros j Hj. apply elem_of_seq in Hj.
      change (backed q3 j). eapply queue_backed; [exact E|]. apply Hbk. left. lia.
    - intros i b Hi. cbn [q' q_read_buf set_mode] in Hi. by rewrite A5, Hrb2 in Hi. }
  split; [done|]. apply nothing_left; [done|]. unfold nfinished. rewrite Hline.
  cbn [q' q_active set_mode]. rewrite A1, Ha2. cbn [app]. lia.
Qed.

End Start.

(** * A session of reading *)

(** The queue, and the call that sleeps, when there is one: its [retval], its [count]
    and the application's block. *)
Record reader := mk_reader {
  r_q : videobuf_queue;
  r_call : option (Z * Z * mem)
}.

(** What happens: a call (a second one waits for the lock), the sleeper is woken and
    looks again, a signal for it, and the driver finishing its oldest buffer with the
    picture [bs], or with an error. *)
Inductive read_event :=
  | Read (nonblocking : bool) (count : Z) (ubuf : mem)
  | Wake
  | Signal
  | Capture (good : bool) (bs : mem).

(** The driver's part: the bytes it captured and the queue. *)
Definition capture (good : bool) (bs : mem) (q : videobuf_queue) : option (mem * videobuf_queue) :=
  match q_active q with
  | [] => Some ([], q)
  | i :: l =>
      b ← buf_at q i;
      vaddr ← videobuf_to_vmalloc b;
      vaddr ← mem_write vaddr 0 (take (Z.to_nat (b_size b)) bs);
      Some (if good then take (Z.to_nat (b_size b)) vaddr else [],
            set_lists (q_stream q) l
              (put_buf i (set_state (if good then VIDEOBUF_DONE else VIDEOBUF_ERROR)
                            (set_map (b_baddr b) (b_map b) (Some vaddr) b)) q))
  end.

(** The bytes that the application gets from a call; none for an error code. *)
Definition settle (e : read_end) : mem * reader :=
  match e with
  | Returned s => (got s, mk_reader (rs_q s) None)
  | Waiting s => ([], mk_reader (rs_q s) (Some (rs_retval s, rs_count s, rs_ubuf s)))
  end.

Section Session.
Context `{VideobufOps}.

(** The bytes delivered, the bytes captured, and what is next. *)
Definition read_step (alloc : nat -> bool) (ev : read_event) (r : reader)
    : option (mem * mem * reader) :=
  match ev, r_call r with
  | Read nb count ubuf, None =>
      e ← videobuf_read_stream alloc false nb count ubuf (r_q r);
      let '(out, r) := settle e in Some (out, [], r)
  | Wake, Some (retval, count, ubuf) =>
      e ← read_resume false (mk_rs retval count ubuf (r_q r));
      let '(out, r) := settle e in Some (out, [], r)
  | Signal, Some (retval, count, ubuf) =>
      let '(out, r) := settle (read_interrupt (mk_rs retval count ubuf (r_q r))) in
      Some (out, [], r)
  | Capture good bs, _ =>
      '(bs, q) ← capture good bs (r_q r); Some ([], bs, mk_reader q (r_call r))
  | _, _ => Some ([], [], r)
  end.

Fixpoint read_run (alloc : nat -> bool) (es : list read_event) (r : reader)
    : option (mem * mem * reader) :=
  match es with
  | [] => Some ([], [], r)
  | ev :: es =>
      '(out, inp, r) ← read_step alloc ev r;
      '(outs, inps, r) ← read_run alloc es r;
      Some (out ++ outs, inp ++ inps, r)
  end.

End Session.

(** Captured bytes that no call has returned yet. *)
Definition in_flight (r : reader) : mem :=
  match r_call r with Some (retval, _, ubuf) => take (Z.to_nat retval) ubuf | None => [] end
  ++ unread (r_q r).

Definition reader_ok (r : reader) : Prop :=
  match r_call r with
  | Some (retval, count, ubuf) => rs_ok (mk_rs retval count ubuf (r_q r))
  | None => rd_ok (r_q r)
  end.

(** The block of the application has room for what is asked for. *)
Definition event_ok (ev : read_event) : Prop :=
  match ev with
  | Read _ count ubuf => 0 <= count <= zlen ubuf /\ zlen ubuf < 2 ^ 31
  | _ => True
  end.

Section SessionTheorems.
Context `{VideobufLaws} `{!ReaderLaws}.

Lemma settle_ok nb s e : rs_ok s -> ends nb s e ->
  let '(out, r) := settle e in
  reader_ok r /\ out ++ in_flight r = got s ++ unread (rs_q s).
Proof.
  intros Hs He. destruct e as [s'|s']; cbn [settle].
  - destruct He as (s1 & Hs1 & [Hb _ _ _ _] & Eq & Eu & Hr). unfold reader_ok, in_flight. cbn [r_call r_q app].
    rewrite Eq. split; [apply Hs1|]. rewrite <- Hb. f_equal. unfold got. rewrite Eu.
    destruct Hr as [[-> _]|[(_ & _ & ->)|(-> & -> & _)]]; [done| |done].
    by destruct (Z.eqb_spec (rs_retval s1) 0) as [->|].
  - destruct He as (_ & Hs' & [Hb _ _ _ _] & _). unfold reader_ok, in_flight. cbn [r_call r_q app].
    split; [by destruct s'|]. exact Hb.
Qed.

Lemma frames_finished q q' i ds l : i ∉ ds -> i ∉ l ->
  (forall j, j <> i -> frame q' j = frame q j) -> frame q i = [] ->
  mjoin (frame q <$> l) = [] ->
  mjoin (frame q' <$> ds ++ i :: l) = mjoin (frame q <$> ds ++ i :: l) ++ frame q' i.
Proof.
  intros Hd Hl Ho Hi He. rewrite !fmap_app, !join_app, !fmap_cons.
  assert (Hj : forall (x : mem) k, mjoin (x :: k) = x ++ mjoin k) by done. rewrite !Hj.
  assert (Hx : forall k : list nat, i ∉ k -> frame q' <$> k = frame q <$> k).
  { intros k Hk. apply list_fmap_ext. intros n j Hnj. apply Ho. intros ->. apply Hk.
    by eapply list_elem_of_lookup_2. }
  by rewrite (Hx ds Hd), (Hx l Hl), Hi, He, !app_nil_r.
Qed.

(** Finishing a buffer adds its picture to what is left to read. *)
Lemma capture_reads good bs q : rd_ok q ->
  exists new q', capture good bs q = Some (new, q') /\ rd_ok q' /\ unread q' = unread q ++ new /\
  length (q_bufs q') = length (q_bufs q).
Proof.
  intros Hq. unfold capture. destruct (q_active q) as [|i l] eqn:Ea.
  { exists [], q. by rewrite app_nil_r. }
  destruct (read_busy q (ro_ok _ Hq) (ro_reading _ Hq)) as (_ & st & ds & El & Hl & Hd & Ha & _).
  rewrite Ea in Hl, Ha. apply Forall_cons in Ha as [Hi Ha].
  pose proof (ro_mem _ Hq) as Hm. pose proof Hm as Hm'. rewrite Hl in Hm'.
  apply Forall_app in Hm' as [_ Hm']. apply Forall_cons in Hm' as [(b & m & Hb & Hv & Hsz & Hsz') _].
  rewrite Hb. cbn [mbind option_bind]. unfold videobuf_to_vmalloc. rewrite Hv. cbn [mbind option_bind].
  destruct (mem_write_ok m 0 (take (Z.to_nat (b_size b)) bs)) as (m' & Hw & _); [lia|
    unfold zlen in *; rewrite length_take; lia|].
  rewrite Hw. cbn [mbind option_bind]. apply mem_write_length in Hw.
  set (b' := set_state _ _). eexists _, _. split; [reflexivity|]. set (q' := set_lists _ _ _).
  assert (Hbq : forall j, buf_at q' j = buf_at (put_buf i b' q) j) by done.
  pose proof (ok_nodup _ (ro_ok _ Hq)) as Hn. rewrite Hl in Hn. apply NoDup_app in Hn as (_ & Hdis & Hn).
  apply NoDup_cons in Hn as [Hil _]. assert (Hid : i ∉ ds) by (intros Hx; apply (Hdis i Hx); left).
  assert (Hoth : forall j, j <> i -> frame q' j = frame q j).
  { intros j Hj. unfold frame. by rewrite Hbq, buf_at_put_ne. }
  assert (Hnew : frame q' i = if good then take (Z.to_nat (b_size b)) m' else []).
  { unfold frame. rewrite Hbq, buf_at_put_eq by eauto with slots. by destruct good. }
  split; [split; try apply Hq|split].
  - eapply finish_ok; [apply Hq|exact Ea|exact Hb|done|]. destruct good; [by left|by right].
  - change (line q') with (line q). eapply Forall_impl; [exact Hm|].
    intros j (c & mj & Hcj & ?). destruct (decide (i = j)) as [->|].
    + exists b', m'. rewrite Hbq, buf_at_put_eq by eauto with slots. split_and!; try done; cbn; lia.
    + exists c, mj. by rewrite Hbq, buf_at_put_ne.
  - intros j c Hj Hcj. rewrite Hbq in Hcj. change (q_read_buf q') with (q_read_buf q) in Hj.
    change (q_read_off q') with (q_read_off q). destruct (decide (i = j)) as [->|].
    + rewrite buf_at_put_eq in Hcj by eauto with slots. injection Hcj as <-.
      destruct (ro_off _ Hq j b Hj Hb) as [? _]. split; [done|]. by destruct good.
    + rewrite buf_at_put_ne in Hcj by done. by apply (ro_off _ Hq j).
  - pose proof (fun ds Hd => frames_finished q q' i ds l Hd Hil Hoth (frame_queued q i Hi)
                  (frames_queued q l Ha)) as Hfs. rewrite Hnew in Hfs.
    unfold unread. change (q_read_buf q') with (q_read_buf q). change (q_stream q') with (q_stream q).
    change (q_read_off q') with (q_read_off q). unfold line in Hl. rewrite El in Hl |- *.
    change (default [] (Some st)) with st in *. destruct (q_read_buf q) as [j|] eqn:Er.
    + destruct ds as [|j' ds]; cbn in Hl; injection Hl as -> ->.
      * rewrite (frames_ext q q' l) by (intros k Hk; rewrite Hbq; apply buf_at_put_ne; by intros ->).
        rewrite Hnew, (frame_queued q i Hi), (frames_queued q l Ha), !app_nil_r, drop_nil.
        destruct Hi as (c & Hc & Hst). destruct (ro_off _ Hq i c Er Hc) as [_ ->]; [done|].
        done.
      * apply not_elem_of_cons in Hid as [Hij Hid].
        by rewrite (Hfs ds Hid), Hoth, (assoc_L (++)) by congruence.
    + cbn in Hl. rewrite Hl. cbn [app]. by apply Hfs.
  - cbn. by rewrite length_insert.
Qed.

Lemma read_step_ok alloc ev r : reader_ok r -> event_ok ev ->
  exists out inp r', read_step alloc ev r = Some (out, inp, r') /\ reader_ok r' /\
  out ++ in_flight r' = in_flight r ++ inp.
Proof.
  intros Hr He. destruct r as [q call]. unfold reader_ok in Hr. cbn [r_q r_call] in *.
  assert (Hend : forall nb s e, rs_ok s -> ends nb s e -> got s ++ unread (rs_q s) = in_flight (mk_reader q call) ->
    exists out inp r', (let '(out, r) := settle e in Some (out, [], r)) = Some (out, inp, r') /\
    reader_ok r' /\ out ++ in_flight r' = in_flight (mk_reader q call) ++ inp).
  { intros nb s e Hs Hen Eq. pose proof (settle_ok nb s e Hs Hen) as Hset. destruct (settle e) as [out r'].
    exists out, [], r'. split; [done|]. rewrite app_nil_r, <- Eq. exact Hset. }
  destruct ev as [nb count ubuf| | |good bs].
  - unfold read_step. cbn [r_call r_q]. destruct call as [c|]; [exists [], [], (mk_reader q (Some c)); by rewrite app_nil_r|].
    destruct He as [Hc Hu]. destruct (read_stream_ends alloc nb count ubuf q Hr Hc Hu) as (e & -> & Hen).
    cbn [mbind option_bind]. apply (Hend nb (mk_rs 0 count ubuf q)); try done. split; cbn; [done|lia..].
  - unfold read_step. cbn [r_call r_q]. destruct call as [[[rv c] u]|];
      [|exists [], [], (mk_reader q None); by rewrite app_nil_r].
    destruct (loop_spec false (read_fuel q) (mk_rs rv c u q) Hr (fuel_enough q (rs_rd _ Hr)))
      as (e & E & Hen). unfold read_resume. cbn [rs_q]. rewrite E. cbn [mbind option_bind].
    by apply (Hend false (mk_rs rv c u q)).
  - unfold read_step. cbn [r_call r_q]. destruct call as [[[rv c] u]|];
      [|exists [], [], (mk_reader q None); by rewrite app_nil_r].
    unfold read_interrupt, settle. eexists _, [], _. split; [reflexivity|]. split; [apply Hr|].
    rewrite app_nil_r. unfold in_flight, got. cbn. by destruct (Z.eqb_spec rv 0) as [->|].
  - unfold read_step. cbn [r_call r_q].
    assert (Hq : rd_ok q) by (destruct call as [[[rv c] u]|]; [apply (rs_rd _ Hr)|done]).
    destruct (capture_reads good bs q Hq) as (new & q' & -> & Hq' & Hun & _).
    cbn [mbind option_bind]. exists [], new, (mk_reader q' call). split; [done|].
    unfold reader_ok, in_flight. cbn [r_call r_q app]. rewrite Hun, (assoc_L (++)). split; [|done].
    destruct call as [[[rv c] u]|]; [destruct Hr; by split|done].
Qed.

Lemma read_run_ok alloc es : forall r, reader_ok r -> Forall event_ok es ->
  exists outs inps r', read_run alloc es r = Some (outs, inps, r') /\ reader_ok r' /\
  outs ++ in_flight r' = in_flight r ++ inps.
Proof.
  induction es as [|ev es IH]; intros r Hr He.
  { exists [], [], r. by rewrite app_nil_r. }
  apply Forall_cons in He as [Hev He]. cbn [read_run].
  destruct (read_step_ok alloc ev r Hr Hev) as (out & inp & r1 & -> & Hr1 & E1). cbn [mbind option_bind].
  destruct (IH r1 Hr1 He) as (outs & inps & r2 & -> & Hr2 & E2). cbn [mbind option_bind].
  eexists _, _, r2. split; [reflexivity|]. split; [done|].
  by rewrite <- (assoc_L (++)), E2, (assoc_L (++)), E1, (assoc_L (++)).
Qed.

(** C21. The device is a byte stream. After a successful start of reading, whatever
    calls, wake-ups, signals and captured or failed pictures follow in any order, no
    step faults, every call ends or sleeps, and the bytes that the calls returned,
    followed by the ones still under way, are the bytes of the good pictures in the
    order they were captured: none is lost, repeated or reordered, across buffers and
    across calls that a signal cut short. Assumed is that the blocks of the application
    have room for what is asked for. *)
Theorem reading_is_a_stream alloc q0 q es : vb_ok q0 -> videobuf_read_start alloc q0 = Some (0, q) ->
  Forall event_ok es ->
  exists outs inps r, read_run alloc es (mk_reader q None) = Some (outs, inps, r) /\
  outs ++ in_flight r = inps /\ vb_ok (r_q r).
Proof.
  intros Hq0 Hst He. destruct (read_start_rd alloc q0 q Hq0 Hst) as [Hq Hu].
  destruct (read_run_ok alloc es (mk_reader q None) Hq He) as (outs & inps & r & E & Hr & Hio).
  exists outs, inps, r. unfold in_flight in Hio at 2. cbn [r_call r_q app] in Hio. rewrite Hu in Hio.
  split_and!; try done. destruct r as [q' [[[rv c] u]|]]; [apply (ro_ok _ (rs_rd _ Hr))|apply (ro_ok _ Hr)].
Qed.

End SessionTheorems.

(** * A driver that can be read *)

(** It has pictures of four bytes and gives a new buffer memory. *)
Definition sample_prepare (field : Z) (b : videobuf_buffer) : Z * videobuf_buffer :=
  let '(r, b') := videobuf_iolock (Some (replicate 4 0)) b in
  if r =? 0 then
    (0, mk_buf (b_i b') 2 2 2 4 (b_input b') field VIDEOBUF_PREPARED (b_field_count b') (b_ts b')
          (b_memory b') (b_bsize b') (b_boff b') (b_baddr b') (b_map b')
          (Some (replicate 4 0)))
  else (r, b).

Definition sample_queue (i : nat) (q : videobuf_queue) : option videobuf_queue :=
  b ← buf_at q i;
  Some (set_lists (q_stream q) (q_active q ++ [i]) (put_buf i (set_state VIDEOBUF_QUEUED b) q)).

#[local] Instance sample_ops : VideobufOps := {
  buf_setup n := (if n =? 0 then 2 else n, 4);
  buf_prepare := sample_prepare;
  buf_queue := sample_queue;
  buf_release b := set_state VIDEOBUF_NEEDS_INIT (videobuf_vmalloc_free b)
}.

#[local] Instance sample_laws : VideobufLaws.
Proof.
  split.
  - intros n Hn. cbn. unfold VIDEO_MAX_FRAME in *. destruct (Z.eqb_spec n 0); cbn; lia.
  - intros f b r b' E. cbn in E. unfold sample_prepare, videobuf_iolock in E.
    repeat (case_if_in E || case_match); injection E as <- <-; done.
  - intros i q b Hb. cbn. unfold sample_queue. by rewrite Hb.
  - intros b. cbn. unfold videobuf_vmalloc_free. by case_if.
Qed.

#[local] Instance sample_reader : ReaderLaws.
Proof.
  split. intros f b b' E. cbn in E. unfold sample_prepare in E.
  destruct (videobuf_iolock _ b) as [r b1]. case_if_in E; [|by injection E as -> ->].
  injection E as <-. by exists (replicate 4 0).
Qed.

Definition sample_start : videobuf_queue := videobuf_queue_core_init 1 V4L2_FIELD_INTERLACED [].

Definition sample_reading : videobuf_queue :=
  match videobuf_read_start (fun _ => true) sample_start with Some (_, q) => q | None => sample_start end.

(** A call for six bytes that sleeps twice, and one that finds two bytes and a failed
    picture. *)
Definition sample_session : list read_event :=
  [Read false 6 (replicate 6 0); Capture true [1; 2; 3; 4]; Wake; Capture true [5; 6; 7; 8]; Wake;
   Capture false [9; 9; 9; 9]; Read true 5 (replicate 5 0)].

Lemma sample_start_ok : vb_ok sample_start.
Proof.
  apply vb_ok_quiet; try done. intros i b Hb. unfold buf_at in Hb. cbn [q_bufs sample_start videobuf_queue_core_init] in Hb.
  destruct (replicate _ None !! i) as [o|] eqn:E; [|done]. by apply lookup_replicate in E as [-> _].
Qed.

Lemma reading_is_a_stream_witness :
  exists r, read_run (fun _ => true) sample_session (mk_reader sample_reading None)
            = Some ([1; 2; 3; 4; 5; 6; 7; 8], [1; 2; 3; 4; 5; 6; 7; 8], r) /\ in_flight r = [].
Proof.
  destruct (reading_is_a_stream (fun _ => true) sample_start sample_reading sample_session)
    as (outs & inps & r & E & Hio & _).
  - apply sample_start_ok.
  - vm_compute. reflexivity.
  - repeat constructor; vm_compute; done.
  - exists r. rewrite E. clear Hio. revert E. vm_compute. intros [= <- <- <-]. by split.
Defined.

(** Nothing was captured yet: the call sleeps with all five bytes to go. *)
Lemma read_stream_bytes_witness :
  exists s, videobuf_read_stream (fun _ => true) false false 5 (replicate 5 0) sample_reading
            = Some (Waiting s) /\ rs_retval s = 0 /\ rs_count s = 5 /\ got s = [].
Proof.
  assert (Hst : videobuf_read_start (fun _ => true) sample_start = Some (0, sample_reading))
    by (vm_compute; reflexivity).
  destruct (read_start_rd _ _ _ sample_start_ok Hst) as [Hq Hu].
  destruct (read_stream_bytes (fun _ => true) false 5 (replicate 5 0) sample_reading Hq)
    as ([s|s] & E & He); [vm_compute; done..| |].
  - exfalso. revert E. vm_compute. discriminate.
  - destruct He as (_ & _ & Hr & Ht & Hg & _). exists s. rewrite Hu in Hg. split; [done|].
    revert E. vm_compute. intros [= <-]. done.
Defined.
