(* ===== verification/Vivi.v ===== *)
(** The virtual camera [src/myvivi/6_th/vivi.c] on top of [Videobuf]: formats,
    the four buffer operations, the timer that produces frames, and the driver as
    a machine whose steps are the calls of the application and the ticks of the
    timer.

    The list [myvivi_vb_local_queue] is [q_active] of the queue. Allocation
    results and the time are arguments of the steps. One file is open at a time,
    so the driver's variables are its own; registering the device and the lock
    are left out. *)
From S2P Require Import Prelude Bitmap V4l2 Videobuf Disp.
Open Scope Z_scope.

(** * Formats *)

(** [clamp_align] of drivers/media/video/v4l2-common.c, in [unsigned int]. *)
Definition clamp_align (x min max align : Z) : Z :=
  let mask := u32 (Z.lnot (Z.shiftl 1 align - 1)) in
  let x := if negb (align =? 0) then Z.land (u32 (x + Z.shiftl 1 (align - 1))) mask else x in
  if x <? min then Z.land (u32 (min + u32 (Z.lnot mask))) mask
  else if x >? max then Z.land max mask else x.

(** The highest bit that is set. *)
Definition __fls (x : Z) : Z := Z.log2 x.

(** The loop that raises the smaller alignment. Nothing bounds its rounds in
    general; the fuel of 64 is never used up here, because the driver asks for no
    alignment of the size and the loop is not entered. *)
Fixpoint align_loop (fuel : nat) (w h walign halign wmin wmax wmaxa hmin hmax hmaxa salign : Z)
    : option (Z * Z) :=
  match fuel with
  | O => None
  | S fuel =>
      if (halign >=? hmaxa) || ((walign <=? halign) && (walign <? wmaxa)) then
        let w := clamp_align w wmin wmax (walign + 1) in
        let walign := __ffs w in
        if halign + walign <? salign
        then align_loop fuel w h walign halign wmin wmax wmaxa hmin hmax hmaxa salign else Some (w, h)
      else
        let h := clamp_align h hmin hmax (halign + 1) in
        let halign := __ffs h in
        if halign + walign <? salign
        then align_loop fuel w h walign halign wmin wmax wmaxa hmin hmax hmaxa salign else Some (w, h)
  end.

Definition v4l_bound_align_image (w wmin wmax walign h hmin hmax halign salign : Z)
    : option (Z * Z) :=
  let w := clamp_align w wmin wmax walign in
  let h := clamp_align h hmin hmax halign in
  if salign =? 0 then Some (w, h)
  else
    let walign := __ffs w in
    let halign := __ffs h in
    if walign + halign <? salign then
      let wmaxa := __fls (Z.lxor wmax (wmin - 1)) in
      let hmaxa := __fls (Z.lxor hmax (hmin - 1)) in
      align_loop 64 w h walign halign wmin wmax wmaxa hmin hmax hmaxa salign
    else Some (w, h).

Definition myvivi_videoc_querycap : Z * v4l2_capability :=
  (0, mk_cap "myvivi" "myvivi" 0x0001 (Z.lor V4L2_CAP_VIDEO_CAPTURE V4L2_CAP_STREAMING)).

Definition myvivi_vidioc_enum_fmt_vid_cap (f : v4l2_fmtdesc) : Z * v4l2_fmtdesc :=
  if fd_index f >=? 1 then (- EINVAL, f)
  else (0, mk_fmtdesc (fd_index f) (fd_type f) (fd_flags f) "4:2:2, packed, YUYV" V4L2_PIX_FMT_YUYV).

(** The field is checked but the default is only put into a local variable. *)
Definition myvivi_vidioc_try_fmt_vid_cap (f : v4l2_format) : option (Z * v4l2_format) :=
  let p := fmt_pix f in
  if negb (pix_pixelformat p =? V4L2_PIX_FMT_YUYV) then Some (- EINVAL, f)
  else if negb (pix_field p =? V4L2_FIELD_ANY) && negb (V4L2_FIELD_INTERLACED =? pix_field p)
  then Some (- EINVAL, f)
  else
    let maxw := 1024 in
    let maxh := 768 in
    '(w, h) ← v4l_bound_align_image (pix_width p) 48 maxw 2 (pix_height p) 32 maxh 0 0;
    let bytesperline := Z.shiftr (u32 (w * 16)) 3 in
    let sizeimage := u32 (h * bytesperline) in
    Some (0, mk_format (fmt_type f)
               (mk_pix w h (pix_pixelformat p) (pix_field p) bytesperline sizeimage
                  (pix_colorspace p) (pix_priv p))).

(** * The driver *)

(** [myvivi_format] and [myvivi_vb_vidqueue] with [myvivi_vb_local_queue]. *)
Record vivi := mk_vivi {
  myvivi_format : v4l2_format;
  myvivi_vb_vidqueue : videobuf_queue
}.

Definition set_queue (q : videobuf_queue) (s : vivi) : vivi := mk_vivi (myvivi_format s) q.

Definition myvivi_vidioc_g_fmt_vid_cap (s : vivi) : Z * v4l2_format := (0, myvivi_format s).

Definition myvivi_vidioc_s_fmt_vid_cap (f : v4l2_format) (s : vivi) : option (Z * v4l2_format * vivi) :=
  '(ret, f) ← myvivi_vidioc_try_fmt_vid_cap f;
  if ret <? 0 then Some (ret, f, s) else Some (ret, f, mk_vivi f (myvivi_vb_vidqueue s)).

Definition myvivi_buffer_setup (fmt : v4l2_format) (count : Z) : Z * Z :=
  (if 0 =? count then 32 else count, pix_sizeimage (fmt_pix fmt)).

(** [vb->field = field] and the geometry of the current format. *)
Definition myvivi_buffer_prepare (fmt : v4l2_format) (field : Z) (vb : videobuf_buffer)
    : Z * videobuf_buffer :=
  let p := fmt_pix fmt in
  (0, mk_buf (b_i vb) (pix_width p) (pix_height p) (pix_bytesperline p) (pix_sizeimage p)
        (b_input vb) field VIDEOBUF_PREPARED (b_field_count vb) (b_ts vb) (b_memory vb) (b_bsize vb)
        (b_boff vb) (b_baddr vb) (b_map vb) (b_vaddr vb)).

Definition myvivi_buffer_queue (i : nat) (q : videobuf_queue) : option videobuf_queue :=
  vb ← buf_at q i;
  Some (set_lists (q_stream q) (q_active q ++ [i]) (put_buf i (set_state VIDEOBUF_QUEUED vb) q)).

Definition myvivi_buffer_release (vb : videobuf_buffer) : videobuf_buffer :=
  set_state VIDEOBUF_NEEDS_INIT (videobuf_vmalloc_free vb).

(** [myvivi_video_qops]. *)
Definition myvivi_video_qops (fmt : v4l2_format) : VideobufOps := {|
  buf_setup := myvivi_buffer_setup fmt;
  buf_prepare := myvivi_buffer_prepare fmt;
  buf_queue := myvivi_buffer_queue;
  buf_release := myvivi_buffer_release
|}.

(** [memset(vbuf, 0xff, vb->size)]; NULL is only allowed for no bytes. *)
Definition fill_frame (size : Z) (vbuf : option mem) : option (option mem) :=
  match vbuf with
  | None => if size =? 0 then Some None else None
  | Some m => m ← mem_set 0xff size 0 m; Some (Some m)
  end.

(** [waiting] is [waitqueue_active(&vb->done)], [now] the time. *)
Definition myvivi_timer_function (waiting : bool) (now : Z * Z) (q : videobuf_queue)
    : option videobuf_queue :=
  match q_active q with
  | [] => Some q
  | i :: l =>
      if negb waiting then Some q
      else
        vb ← buf_at q i;
        vbuf ← fill_frame (b_size vb) (videobuf_to_vmalloc vb);
        let vb := mk_buf (b_i vb) (b_width vb) (b_height vb) (b_bytesperline vb) (b_size vb)
                    (b_input vb) (b_field vb) VIDEOBUF_DONE (u32 (b_field_count vb + 1)) now
                    (b_memory vb) (b_bsize vb) (b_boff vb) (b_baddr vb) (b_map vb) vbuf in
        Some (set_lists (q_stream q) l (put_buf i vb q))
  end.

(** [INIT_LIST_HEAD(&myvivi_vb_local_queue)] runs once, when the module is loaded. *)
Definition myvivi_init : vivi :=
  mk_vivi zero_format (videobuf_queue_core_init 0 0 []).

Definition myvivi_open (s : vivi) : vivi :=
  set_queue (videobuf_queue_core_init V4L2_BUF_TYPE_VIDEO_CAPTURE V4L2_FIELD_INTERLACED
               (q_active (myvivi_vb_vidqueue s))) s.

Definition myvivi_close (s : vivi) : option vivi :=
  let ops := myvivi_video_qops (myvivi_format s) in
  q ← videobuf_stop (myvivi_vb_vidqueue s);
  '(_, q) ← videobuf_mmap_free q;
  Some (set_queue q s).

(** The calls while the file is open, and the timer. *)
Inductive event :=
  | E_s_fmt (f : v4l2_format)
  | E_reqbufs (alloc : nat -> bool) (req : v4l2_requestbuffers)
  | E_querybuf (b : v4l2_buffer)
  | E_qbuf (b : v4l2_buffer)
  | E_dqbuf (nonblocking : bool)
  | E_streamon
  | E_streamoff
  | E_mmap (kz : option nat) (vm : option mem) (remap vm_flags vm_start vm_pgoff : Z)
  | E_vm_open (id : nat)
  | E_vm_close (id : nat)
  | E_poll (alloc : nat -> bool)
  | E_timer (waiting : bool) (now : Z * Z).

(** What a call returned: its result, none for a call that sleeps, the buffer
    QBUF took and the one DQBUF gave. *)
Record reply := mk_reply {
  rp_ret : option Z;
  rp_queued : list nat;
  rp_dequeued : list nat
}.
Definition just (r : Z) : reply := mk_reply (Some r) [] [].

Definition handle (e : event) (s : vivi) : option (reply * vivi) :=
  let ops := myvivi_video_qops (myvivi_format s) in
  let q := myvivi_vb_vidqueue s in
  match e with
  | E_s_fmt f => '(r, _, s) ← myvivi_vidioc_s_fmt_vid_cap f s; Some (just r, s)
  | E_reqbufs alloc req => '(r, _, q) ← videobuf_reqbufs alloc req q; Some (just r, set_queue q s)
  | E_querybuf b => Some (just (fst (videobuf_querybuf b q)), s)
  | E_qbuf b =>
      '(r, q) ← videobuf_qbuf b q;
      Some (mk_reply (Some r) (if r =? 0 then [Z.to_nat (vb_index b)] else []) [], set_queue q s)
  | E_dqbuf nb =>
      o ← videobuf_dqbuf nb q;
      match o with
      | Sleep => Some (mk_reply None [] [], s)
      | Done (r, b, q) =>
          Some (mk_reply (Some r) [] (if r =? 0 then [Z.to_nat (vb_index b)] else []), set_queue q s)
      end
  | E_streamon => '(r, q) ← videobuf_streamon q; Some (just r, set_queue q s)
  | E_streamoff => Some (just 0, set_queue (snd (videobuf_streamoff q)) s)
  | E_mmap kz vm remap fl start off =>
      let '(r, q) := videobuf_mmap_mapper kz vm remap fl start off q in Some (just r, set_queue q s)
  | E_vm_open id => q ← videobuf_vm_open id q; Some (just 0, set_queue q s)
  | E_vm_close id => q ← videobuf_vm_close id q; Some (just 0, set_queue q s)
  | E_poll alloc => '(r, q) ← videobuf_poll_stream alloc q; Some (just r, set_queue q s)
  | E_timer waiting now => q ← myvivi_timer_function waiting now q; Some (just 0, set_queue q s)
  end.

Fixpoint run (es : list event) (s : vivi) : option (list reply * vivi) :=
  match es with
  | [] => Some ([], s)
  | e :: es => '(r, s) ← handle e s; '(rs, s) ← run es s; Some (r :: rs, s)
  end.

(** The states of an open device. A file is released after its last mapping. *)
Inductive reachable : vivi -> Prop :=
  | reach_open s : s = myvivi_open myvivi_init -> reachable s
  | reach_step e s r s' : reachable s -> handle e s = Some (r, s') -> reachable s'
  | reach_reopen s s' : reachable s -> myvivi_close s = Some s' -> reachable (myvivi_open s').

(** * The buffer operations obey the laws of the framework *)

#[export] Instance vivi_laws fmt : @VideobufLaws (myvivi_video_qops fmt).
Proof.
  split.
  - intros n Hn. change (fst (buf_setup n)) with (if 0 =? n then 32 else n).
    unfold VIDEO_MAX_FRAME in *. destruct (Z.eqb_spec 0 n); lia.
  - intros f b r b' [= <- <-]. done.
  - intros i q b Hb. cbn. unfold myvivi_buffer_queue. by rewrite Hb.
  - intros b. cbn. unfold videobuf_vmalloc_free. by case_if.
Qed.

Lemma core_init_ok type field : vb_ok (videobuf_queue_core_init type field []).
Proof.
  apply vb_ok_quiet; try done. intros i b Hb. unfold buf_at in Hb. cbn [q_bufs videobuf_queue_core_init] in Hb.
  destruct (replicate _ None !! i) as [o|] eqn:E; [|done]. by apply lookup_replicate in E as [-> _].
Qed.

Lemma timer_ok w now q q' : vb_ok q -> myvivi_timer_function w now q = Some q' -> vb_ok q'.
Proof.
  intros Hq Ht. unfold myvivi_timer_function in Ht. destruct (q_active q) as [|i l] eqn:Ea; [by simplify_eq|].
  case_if_in Ht; [by simplify_eq|]. apply bind_Some in Ht as (b & Hb & Ht).
  apply bind_Some in Ht as (v & _ & [= <-]). by eapply complete_ok.
Qed.

Lemma handle_ok e s r s' : vb_ok (myvivi_vb_vidqueue s) -> handle e s = Some (r, s') ->
  vb_ok (myvivi_vb_vidqueue s').
Proof.
  intros Hq Hh. destruct e; cbn [handle] in Hh.
  - apply bind_Some in Hh as ([[? ?] s1] & Hf & [= <- <-]). unfold myvivi_vidioc_s_fmt_vid_cap in Hf.
    apply bind_Some in Hf as ([? ?] & _ & Hf). case_if_in Hf; by simplify_eq.
  - apply bind_Some in Hh as ([[? ?] q1] & Hf & [= <- <-]). by eapply reqbufs_ok in Hf.
  - by simplify_eq.
  - apply bind_Some in Hh as ([? q1] & Hf & [= <- <-]). by apply qbuf_ok in Hf as [? _].
  - apply bind_Some in Hh as (o & Hf & Hh). destruct o as [[[? ?] q1]|]; simplify_eq; [|done].
    by apply dqbuf_ok in Hf.
  - apply bind_Some in Hh as ([? q1] & Hf & [= <- <-]). by apply streamon_ok in Hf as [? _].
  - simplify_eq. cbn. by apply streamoff_ok.
  - destruct (videobuf_mmap_mapper _ _ _ _ _ _ _) as [? q1] eqn:Hf. simplify_eq.
    apply (f_equal snd) in Hf. cbn in *. rewrite <- Hf. by apply mmap_ok.
  - apply bind_Some in Hh as (q1 & Hf & [= <- <-]). by apply vm_open_ok in Hf.
  - apply bind_Some in Hh as (q1 & Hf & [= <- <-]). by apply vm_close_ok in Hf.
  - apply bind_Some in Hh as ([? q1] & Hf & [= <- <-]). by apply poll_ok in Hf.
  - apply bind_Some in Hh as (q1 & Hf & [= <- <-]). by apply timer_ok in Hf.
Qed.

(** Closing leaves nothing with the driver. *)
Lemma close_quiet s s' : vb_ok (myvivi_vb_vidqueue s) -> myvivi_close s = Some s' ->
  q_active (myvivi_vb_vidqueue s') = [].
Proof.
  intros Hq Hc. unfold myvivi_close in Hc. apply bind_Some in Hc as (q1 & Hs & Hc).
  apply bind_Some in Hc as ([r q2] & Hf & [= <-]). cbn.
  assert (vb_ok q1) as Hq1 by (by apply stop_ok in Hs).
  assert (q_streaming q1 || q_reading q1 = false) as Hm.
  { unfold videobuf_stop in Hs. set (q0 := if q_streaming _ then _ else _) in Hs.
    assert (q_streaming q0 = false) as Hs0.
    { subst q0. destruct (q_streaming _) eqn:E; [|done]. unfold videobuf_streamoff. by rewrite E. }
    destruct (q_reading q0) eqn:Hr0; [|simplify_eq; by rewrite Hs0, Hr0].
    unfold videobuf_read_stop in Hs. apply bind_Some in Hs as ([e q3] & Hfr & [= <-]). cbn.
    unfold videobuf_free in Hfr. cbn in Hfr. case_if_in Hfr; [by simplify_eq|].
    unfold free_all in Hfr. case_if_in Hfr; [done|]. by injection Hfr as <- <-. }
  assert (vb_ok q2) as Hq2 by (by eapply mmap_free_ok).
  assert (q_streaming q2 || q_reading q2 = false) as Hm2.
  { unfold videobuf_mmap_free in Hf.
    destruct (free_cases _ _ _ Hq1 Hf) as [[_ ->]|(_ & _ & _ & -> & -> & _)]; done. }
  by destruct (ok_idle _ Hq2 Hm2).
Qed.

Lemma reachable_ok s : reachable s -> vb_ok (myvivi_vb_vidqueue s).
Proof.
  induction 1 as [s -> | e s r s' _ IH Hh | s s' _ IH Hc].
  - apply core_init_ok.
  - by eapply handle_ok.
  - cbn. rewrite (close_quiet _ _ IH Hc). apply core_init_ok.
Qed.

(** * Order of the buffers *)

(** The events that end a stream. *)
Definition ends_stream (e : event) : bool :=
  match e with E_streamoff | E_vm_close _ => true | _ => false end.

(** While streaming, a step takes what it dequeues from the front of the stream
    and puts what it queues at the back. *)
Definition in_order (r : reply) (q q' : videobuf_queue) : Prop :=
  q_streaming q' = true /\
  rp_dequeued r ++ default [] (q_stream q') = default [] (q_stream q) ++ rp_queued r.

Lemma in_order_same r q : q_streaming q = true -> in_order (just r) q q.
Proof. intros. split; [done|]. cbn. by rewrite app_nil_r. Qed.

Lemma mmap_lists kz vm remap fl start off q :
  let q' := snd (videobuf_mmap_mapper kz vm remap fl start off q) in
  q_streaming q' = q_streaming q /\ q_stream q' = q_stream q.
Proof.
  unfold videobuf_mmap_mapper, vmalloc_mmap_mapper. case_if; [done|].
  destruct (find_mmap _ _ _); [|done]. destruct (buf_at _ _); [|done]. destruct kz; [|done].
  destruct vm; [case_if|]; done.
Qed.

Lemma handle_in_order e s r s' : vb_ok (myvivi_vb_vidqueue s) ->
  q_streaming (myvivi_vb_vidqueue s) = true -> ends_stream e = false -> handle e s = Some (r, s') ->
  in_order r (myvivi_vb_vidqueue s) (myvivi_vb_vidqueue s').
Proof.
  intros Hq Hs He Hh. destruct e; try done; cbn [handle] in Hh.
  - apply bind_Some in Hh as ([[? ?] s1] & Hf & [= <- <-]). unfold myvivi_vidioc_s_fmt_vid_cap in Hf.
    apply bind_Some in Hf as ([? ?] & _ & Hf). case_if_in Hf; simplify_eq; by apply in_order_same.
  - apply bind_Some in Hh as ([[? ?] q1] & Hf & [= <- <-]). unfold videobuf_reqbufs in Hf.
    repeat (case_if_in Hf; [simplify_eq; by apply in_order_same|]). congruence.
  - simplify_eq. by apply in_order_same.
  - apply bind_Some in Hh as ([z q1] & Hf & [= <- <-]).
    apply qbuf_ok in Hf as (_ & A1 & _ & _ & A4 & A5); [|done]. split; cbn; [congruence|].
    destruct (Z.eqb_spec z 0) as [->|Hz].
    + destruct (A4 eq_refl) as (l & -> & ->). done.
    + by rewrite (A5 Hz), app_nil_r.
  - apply bind_Some in Hh as (o & Hf & Hh).
    pose proof (dqbuf_cases nonblocking _ Hq) as Hc.
    rewrite Hs in Hc. destruct Hc as ([|i ds] & El & Hc).
    + rewrite Hf in Hc. destruct nonblocking; simplify_eq; split; cbn; try done; by rewrite app_nil_r.
    + destruct Hc as (b & Hb & _ & Hc). rewrite Hf in Hc. injection Hc as ->. injection Hh as <- <-.
      split; [done|]. cbn [rp_dequeued rp_queued].
      rewrite (report_index (q_type (myvivi_vb_vidqueue s)) b : vb_index (videobuf_status _ _ _) = _), El, (ok_index _ Hq _ _ Hb), Nat2Z.id.
      cbn. by rewrite app_nil_r.
  - apply bind_Some in Hh as ([? q1] & Hf & [= <- <-]). unfold videobuf_streamon in Hf.
    pose proof (ok_mode _ Hq) as Hm. rewrite Hs in Hm. cbn in Hm. rewrite Hm, Hs in Hf.
    simplify_eq. by apply in_order_same.
  - destruct (videobuf_mmap_mapper _ _ _ _ _ _ _) as [? q1] eqn:Hf. simplify_eq.
    pose proof (mmap_lists kz vm remap vm_flags vm_start vm_pgoff (myvivi_vb_vidqueue s)) as [L1 L2].
    rewrite Hf in L1, L2. cbn in *. split; cbn; [congruence|]. by rewrite L2, app_nil_r.
  - apply bind_Some in Hh as (q1 & Hf & [= <- <-]). apply bind_Some in Hf as (n & _ & [= <-]).
    split; cbn; [done | by rewrite app_nil_r].
  - apply bind_Some in Hh as ([? q1] & Hf & [= <- <-]). apply bind_Some in Hf as ([ob q2] & Hp & Hf).
    assert (q2 = q1) as -> by (repeat (case_match; simplify_option_eq; try done)).
    unfold poll_buf in Hp. rewrite Hs in Hp. case_if_in Hp; simplify_option_eq; by apply in_order_same.
  - apply bind_Some in Hh as (q1 & Hf & [= <- <-]). unfold myvivi_timer_function in Hf.
    destruct (q_active _); [simplify_eq; by apply in_order_same|].
    case_if_in Hf; [simplify_eq; by apply in_order_same|].
    apply bind_Some in Hf as (b & _ & Hf). apply bind_Some in Hf as (v & _ & [= <-]).
    split; cbn; [done | by rewrite app_nil_r].
Qed.

(** * Properties of the driver *)

(** C22. In every state of the open device the queue is in order: while streaming
    the stream is the finished buffers, oldest first, followed by the buffers the
    driver has, each once; before streaming nothing is with the driver and every
    buffer on the stream is prepared; and every buffer not on its way belongs to
    the application. *)
Theorem vivi_invariant s : reachable s ->
  let q := myvivi_vb_vidqueue s in
  vb_ok q /\
  (q_streaming q = true -> exists ds, q_stream q = Some (ds ++ q_active q) /\
     NoDup (ds ++ q_active q) /\ Forall (has_state q finished) ds /\
     Forall (has_state q (eq VIDEOBUF_QUEUED)) (q_active q)) /\
  (q_streaming q = false -> q_reading q = false -> q_active q = [] /\
     Forall (has_state q (eq VIDEOBUF_PREPARED)) (default [] (q_stream q))).
Proof.
  intros Hr q. pose proof (reachable_ok s Hr) as Hq. split; [done|]. split.
  - intros Hs. destruct (stream_busy q Hq Hs) as (_ & ds & ? & ? & _ & ? & ?). by exists ds.
  - intros Hs Hrd. by destruct (idle_line q Hq Hs Hrd) as (? & _ & _ & ?).
Qed.

(** An open device that streams with two buffers, of which the driver has
    finished none: 48 x 32, mapped and queued. *)
Definition sample_fmt : v4l2_format := mk_format 1 (mk_pix 48 32 V4L2_PIX_FMT_YUYV 4 0 0 0 0).
Definition sample_buf (i : Z) : v4l2_buffer := mk_vbuf i 1 0 0 0 (0, 0) 0 V4L2_MEMORY_MMAP 0 0 0.
Definition sample_setup (n : Z) (pages : Z) : list event :=
  [E_s_fmt sample_fmt; E_reqbufs (fun _ => true) (mk_reqbufs n 1 V4L2_MEMORY_MMAP)] ++
  (fmap (fun i => E_mmap (Some i) (Some (replicate (Z.to_nat (pages * 4096)) 0)) 0
                    (Z.lor VM_WRITE VM_SHARED) (0x40000000 + Z.of_nat i * 4096) (Z.of_nat i))
     (seq 0 (Z.to_nat n))).
Definition sample_stream : list event :=
  sample_setup 2 1 ++ [E_qbuf (sample_buf 1); E_qbuf (sample_buf 0); E_streamon].

Lemma run_reachable es s rs s' : reachable s -> run es s = Some (rs, s') -> reachable s'.
Proof.
  revert s rs. induction es as [|e es IH]; intros s rs Hr Hrun; cbn [run] in Hrun; [by simplify_eq|].
  apply bind_Some in Hrun as ([r s1] & Hh & Hrun). apply bind_Some in Hrun as ([rs1 s2] & Hrun & [= <- <-]).
  eapply IH; [|done]. by eapply reach_step.
Qed.

Definition streaming_state : vivi :=
  match run sample_stream (myvivi_open myvivi_init) with Some (_, s) => s | None => myvivi_init end.

Lemma streaming_state_run : exists rs, run sample_stream (myvivi_open myvivi_init) = Some (rs, streaming_state).
Proof. eexists. vm_compute. reflexivity. Qed.

Lemma streaming_state_reachable : reachable streaming_state.
Proof. destruct streaming_state_run as [rs E]. eapply run_reachable; [by apply reach_open | exact E]. Qed.

Lemma vivi_invariant_witness :
  let q := myvivi_vb_vidqueue streaming_state in
  vb_ok q /\ q_active q = [1%nat; 0%nat] /\
  exists ds, q_stream q = Some (ds ++ q_active q).
Proof.
  destruct (vivi_invariant streaming_state streaming_state_reachable) as (H1 & H2 & _).
  split; [exact H1|]. split; [vm_compute; reflexivity|].
  destruct H2 as (ds & E & _); [vm_compute; reflexivity|]. exists ds. exact E.
Defined.

(** C23. While the device streams, the application gets the buffers back in the
    order it queued them, whatever calls and ticks of the timer come in between:
    what was dequeued followed by what is on the stream at the end is what was on
    the stream at the start followed by what was queued. *)
Theorem vivi_order es s rs s' : reachable s -> q_streaming (myvivi_vb_vidqueue s) = true ->
  Forall (fun e => ends_stream e = false) es -> run es s = Some (rs, s') ->
  concat (rp_dequeued <$> rs) ++ default [] (q_stream (myvivi_vb_vidqueue s')) =
  default [] (q_stream (myvivi_vb_vidqueue s)) ++ concat (rp_queued <$> rs).
Proof.
  intros Hr. pose proof (reachable_ok s Hr) as Hq. clear Hr. revert s rs Hq.
  induction es as [|e es IH]; intros s rs Hq Hs He Hrun; cbn [run] in Hrun.
  { simplify_eq. cbn. by rewrite app_nil_r. }
  apply Forall_cons in He as [He1 He]. apply bind_Some in Hrun as ([r s1] & Hh & Hrun).
  apply bind_Some in Hrun as ([rs1 s2] & Hrun & [= <- <-]).
  destruct (handle_in_order e s r s1 Hq Hs He1 Hh) as [Hs1 Ho].
  specialize (IH s1 rs1 (handle_ok _ _ _ _ Hq Hh) Hs1 He Hrun). cbn.
  by rewrite <- (assoc_L (++)), IH, !(assoc_L (++)), Ho.
Qed.

Definition sample_events : list event :=
  [E_timer true (1, 0); E_dqbuf true; E_qbuf (sample_buf 1); E_timer true (2, 0); E_dqbuf true].

Lemma vivi_order_witness : exists rs s', run sample_events streaming_state = Some (rs, s') /\
  concat (rp_dequeued <$> rs) = [1; 0]%nat /\
  concat (rp_dequeued <$> rs) ++ default [] (q_stream (myvivi_vb_vidqueue s')) =
  default [] (q_stream (myvivi_vb_vidqueue streaming_state)) ++ concat (rp_queued <$> rs).
Proof.
  assert (exists rs s', run sample_events streaming_state = Some (rs, s') /\
            concat (rp_dequeued <$> rs) = [1; 0]%nat) as (rs & s' & E & Hd)
    by (do 2 eexists; split; vm_compute; reflexivity).
  exists rs, s'. split; [exact E|]. split; [exact Hd|].
  apply (vivi_order sample_events streaming_state rs s' streaming_state_reachable);
    [vm_compute; reflexivity | repeat constructor | exact E].
Defined.

(** DQBUF while the device streams: it gives the oldest finished buffer, with
    its size, time and sequence number, to the application; when none is
    finished it gives -EAGAIN or sleeps; it never fails on a buffer in another
    state. *)
Theorem vivi_dqbuf_spec nb s : reachable s -> q_streaming (myvivi_vb_vidqueue s) = true ->
  let q := myvivi_vb_vidqueue s in
  exists ds, q_stream q = Some (ds ++ q_active q) /\
  handle (E_dqbuf nb) s = Some
    match ds with
    | [] => (mk_reply (if nb then Some (- EAGAIN) else None) [] [], s)
    | i :: ds => (mk_reply (Some 0) [] [i],
        set_queue (set_lists (Some (ds ++ q_active q)) (q_active q)
                     (match buf_at q i with
                      | Some buf => put_buf i (set_state VIDEOBUF_IDLE buf) q
                      | None => q
                      end)) s)
    end.
Proof.
  intros Hr Hs q. pose proof (reachable_ok s Hr) as Hq. fold q in Hq, Hs.
  pose proof (dqbuf_cases nb q Hq) as Hc. rewrite Hs in Hc. destruct Hc as ([|i ds] & El & Hc).
  - exists []. split; [done|]. cbn [handle]. fold q. rewrite Hc. destruct nb; [|done].
    cbn [mbind option_bind]. by destruct s.
  - destruct Hc as (buf & Hb & _ & Hc). exists (i :: ds). split; [done|]. cbn [handle]. fold q.
    rewrite Hc, Hb. cbn [mbind option_bind]. rewrite report_index, (ok_index _ Hq _ _ Hb), Nat2Z.id. done.
Qed.

Lemma vivi_dqbuf_spec_witness :
  let q := myvivi_vb_vidqueue streaming_state in
  exists ds, q_stream q = Some (ds ++ q_active q) /\
  handle (E_dqbuf true) streaming_state = Some
    match ds with
    | [] => (mk_reply (Some (- EAGAIN)) [] [], streaming_state)
    | i :: ds => (mk_reply (Some 0) [] [i],
        set_queue (set_lists (Some (ds ++ q_active q)) (q_active q)
                     (match buf_at q i with
                      | Some buf => put_buf i (set_state VIDEOBUF_IDLE buf) q
                      | None => q
                      end)) streaming_state)
    end.
Proof.
  apply (vivi_dqbuf_spec true streaming_state streaming_state_reachable). vm_compute. reflexivity.
Defined.

(** A tick of the timer: without a buffer, or without a process that waits
    for the first one, nothing happens; otherwise exactly the first buffer of the
    driver is finished: as many bytes as the frame has are set to 0xff, the rest
    of its memory stays, and the buffer leaves the driver's list marked as done.
    The tick faults when that buffer has no memory or less than a frame. *)
Theorem timer_spec waiting now q : vb_ok q ->
  match q_active q with
  | [] => myvivi_timer_function waiting now q = Some q
  | i :: l => exists b, buf_at q i = Some b /\
      (waiting = false -> myvivi_timer_function waiting now q = Some q) /\
      (waiting = true -> 0 < b_size b ->
       match b_vaddr b with
       | Some m =>
           if b_size b <=? zlen m then
             exists m' b', myvivi_timer_function waiting now q =
               Some (set_lists (q_stream q) l (put_buf i b' q)) /\
             b_vaddr b' = Some m' /\ b_state b' = VIDEOBUF_DONE /\ b_ts b' = now /\
             b_field_count b' = u32 (b_field_count b + 1) /\ b_size b' = b_size b /\
             same_outside 0 (b_size b) m m' /\
             (forall k, 0 <= k < b_size b -> mem_read m' k 1 = Some [0xff])
           else myvivi_timer_function waiting now q = None
       | None => myvivi_timer_function waiting now q = None
       end)
  end.
Proof.
  intros Hq. unfold myvivi_timer_function. destruct (q_active q) as [|i l] eqn:Ea; [done|].
  assert (has_state q (eq VIDEOBUF_QUEUED) i) as (b & Hb & _).
  { destruct (q_streaming q || q_reading q) eqn:E.
    - destruct (ok_busy _ Hq E) as (_ & ds & _ & _ & Hf). rewrite Ea in Hf. by apply Forall_cons in Hf as [? _].
    - destruct (ok_idle _ Hq E) as [Ha _]. congruence. }
  exists b. split; [done|]. split; [by intros ->|]. intros -> Hsz. cbn [negb]. rewrite Hb.
  cbn [mbind option_bind]. unfold videobuf_to_vmalloc, fill_frame. destruct (b_vaddr b) as [m|] eqn:Ev.
  2: { by rewrite (proj2 (Z.eqb_neq (b_size b) 0)) by lia. }
  destruct (Z.leb_spec (b_size b) (zlen m)) as [Hle|Hgt].
  - destruct (mem_set_spec 0xff (b_size b) 0 m) as (m' & -> & O & F); [lia | done | lia |].
    cbn [mbind option_bind]. eexists m', _. split; [reflexivity|]. split_and!; try done.
    + change (zlen [u8 255]) with 1 in O. by rewrite Z.mul_1_r in O.
    + intros k Hk. specialize (F k Hk). change (zlen [u8 255]) with 1 in F. by rewrite Z.mul_1_r in F.
  - assert (mem_set 255 (b_size b) 0 m = None) as ->; [|done]. unfold mem_set.
    rewrite (proj2 (Z.ltb_ge _ 0)) by lia. unfold mem_write. destruct (in_block _ _ _) eqn:E; [|done].
    apply in_block_spec in E. unfold memset_bytes in E. rewrite zlen_replicate in E. lia.
Qed.

Lemma timer_spec_witness :
  let q := myvivi_vb_vidqueue streaming_state in
  exists b, buf_at q 1 = Some b /\ b_size b = 3072 /\
  exists b', myvivi_timer_function true (5, 0) q = Some (set_lists (q_stream q) [0%nat] (put_buf 1 b' q)) /\
    b_state b' = VIDEOBUF_DONE /\ b_ts b' = (5, 0).
Proof.
  pose proof (timer_spec true (5, 0) (myvivi_vb_vidqueue streaming_state)
                (reachable_ok _ streaming_state_reachable)) as H.
  assert (q_active (myvivi_vb_vidqueue streaming_state) = [1%nat; 0%nat]) as Ea by (vm_compute; reflexivity).
  rewrite Ea in H. destruct H as (b & Hb & _ & H).
  assert (b_size b = 3072 /\ exists m, b_vaddr b = Some m /\ zlen m = 4096) as (Hs & m & Hm & Hl).
  { vm_compute in Hb. injection Hb as <-. split; [reflexivity|]. eexists. split; vm_compute; reflexivity. }
  specialize (H eq_refl). rewrite Hs, Hm, Hl in H. destruct H as (m' & b' & E & _ & H1 & H2 & _); [lia|].
  exists b. split; [exact Hb|]. split; [exact Hs|]. exists b'. split; [exact E|]. split; [exact H1 | exact H2].
Defined.

(** Polling before the stream is started: [videobuf_poll_stream] starts
    reading, for which the driver's prepare operation would have to allocate the
    memory; it does not, so the next tick of the timer, which finds the polling
    process waiting, writes the frame through a NULL pointer. *)
Theorem poll_timer_faults fmt now : 0 < pix_sizeimage (fmt_pix fmt) ->
  exists s, handle (E_poll (fun _ => true)) (mk_vivi fmt (myvivi_vb_vidqueue (myvivi_open myvivi_init)))
            = Some (just 0, s) /\
  handle (E_timer true now) s = None.
Proof.
  intros Hs. destruct fmt as [t [w h pf fld bpl size cs pr]]. cbn in Hs. eexists. split.
  - lazy -[PAGE_ALIGN]. reflexivity.
  - assert ((size =? 0) = false) as E by (apply Z.eqb_neq; lia).
    cbn [handle myvivi_vb_vidqueue mbind option_bind].
    unfold myvivi_timer_function. cbn [q_active negb]. unfold buf_at. cbn [q_bufs lookup list_lookup mjoin option_join].
    cbn [mbind option_bind]. unfold videobuf_to_vmalloc, fill_frame. cbn [b_vaddr b_size]. by rewrite E.
Qed.

Lemma poll_timer_faults_witness :
  exists s, handle (E_poll (fun _ => true)) (mk_vivi (mk_format 1 (mk_pix 48 32 0 4 96 3072 0 0))
              (myvivi_vb_vidqueue (myvivi_open myvivi_init))) = Some (just 0, s) /\
  handle (E_timer true (0, 0)) s = None.
Proof. apply poll_timer_faults. reflexivity. Defined.

(** The size of a frame is taken from the format when a buffer is queued, not
    from the memory that was mapped: when the application makes the format larger
    after mapping its buffer, every call succeeds and the next frame is written
    outside the mapped memory. *)
Theorem s_fmt_overrun : exists rs s,
  run (sample_setup 1 1 ++
       [E_s_fmt (mk_format 1 (mk_pix 1024 768 V4L2_PIX_FMT_YUYV 4 0 0 0 0));
        E_qbuf (sample_buf 0); E_streamon]) (myvivi_open myvivi_init) = Some (rs, s) /\
  Forall (fun r => rp_ret r = Some 0) rs /\ handle (E_timer true (0, 0)) s = None.
Proof. do 2 eexists. split; [vm_compute; reflexivity|]. split; [repeat constructor | vm_compute; reflexivity]. Qed.

(** * Progress *)

(** The memory of a buffer holds the frame it is to get. *)
Definition fits (q : videobuf_queue) (i : nat) : Prop :=
  exists b m, buf_at q i = Some b /\ b_vaddr b = Some m /\ 0 <= b_size b <= zlen m.

Lemma fits_put q i b l : i ∉ l -> Forall (fits q) l -> Forall (fits (put_buf i b q)) l.
Proof.
  intros Hi Hf. rewrite Forall_forall in *. intros j Hj. destruct (Hf j Hj) as (c & m & Hc & H).
  exists c, m. rewrite buf_at_put_ne by (intros ->; done). done.
Qed.

(** A tick with a process waiting finishes the driver's first buffer. *)
Lemma tick now q : vb_ok q -> Forall (fits q) (q_active q) -> NoDup (q_active q) ->
  exists q', myvivi_timer_function true now q = Some q' /\ vb_ok q' /\
  q_streaming q' = q_streaming q /\ q_stream q' = q_stream q /\
  q_active q' = tail (q_active q) /\ Forall (fits q') (q_active q').
Proof.
  intros Hq Hf Hn.
  destruct (q_active q) as [|i l] eqn:Ea.
  { exists q. unfold myvivi_timer_function. rewrite Ea. done. }
  apply Forall_cons in Hf as [(b & m & Hb & Hm & Hs) Hf]. apply NoDup_cons in Hn as [Hi Hn].
  destruct (mem_set_spec 0xff (b_size b) 0 m) as (m' & Em & _); [lia|done|lia|].
  assert (exists q', myvivi_timer_function true now q = Some q') as [q' E].
  { unfold myvivi_timer_function. rewrite Ea, Hb. cbn [negb mbind option_bind].
    unfold videobuf_to_vmalloc, fill_frame. rewrite Hm, Em. by eexists. }
  exists q'. split; [done|]. split; [by eapply timer_ok|].
  unfold myvivi_timer_function in E. rewrite Ea, Hb in E. cbn [negb mbind option_bind] in E.
  unfold videobuf_to_vmalloc, fill_frame in E. rewrite Hm, Em in E.
  cbn [mbind option_bind] in E. injection E as <-. split_and!; try done.
  by apply (fits_put q i).
Qed.

(** The buffer whose wait queue a process in a blocking DQBUF sleeps on: the first
    of the stream, while it is not finished. *)
Definition waits_on (q : videobuf_queue) : option nat :=
  l ← q_stream q; i ← head l; b ← buf_at q i;
  if is_state_active_or_queued b then None else Some i.

(** A blocking DQBUF of a process, and one tick of the timer if it sleeps: the tick
    finds a process waiting exactly if it sleeps on the driver's first buffer. *)
Definition dqbuf_blocking (now : Z * Z) (s : vivi) : option (reply * vivi) :=
  '(r, s) ← handle (E_dqbuf false) s;
  match rp_ret r with
  | Some _ => Some (r, s)
  | None =>
      let q := myvivi_vb_vidqueue s in
      '(_, s) ← handle (E_timer (bool_decide (waits_on q = head (q_active q))) now) s;
      handle (E_dqbuf false) s
  end.

(** A process that calls DQBUF again and again: the buffers it gets. *)
Fixpoint dqbuf_loop (nows : list (Z * Z)) (s : vivi) : option (list nat * vivi) :=
  match nows with
  | [] => Some ([], s)
  | now :: nows =>
      '(r, s) ← dqbuf_blocking now s;
      '(l, s) ← dqbuf_loop nows s;
      Some (rp_dequeued r ++ l, s)
  end.

(** The first buffer of the stream, when it is finished, is taken at once. *)
Lemma take_finished nb s i ds : reachable s -> q_streaming (myvivi_vb_vidqueue s) = true ->
  q_stream (myvivi_vb_vidqueue s) = Some ((i :: ds) ++ q_active (myvivi_vb_vidqueue s)) ->
  Forall (fits (myvivi_vb_vidqueue s)) (q_active (myvivi_vb_vidqueue s)) ->
  exists s2, handle (E_dqbuf nb) s = Some (mk_reply (Some 0) [] [i], s2) /\ reachable s2 /\
  q_streaming (myvivi_vb_vidqueue s2) = true /\
  q_stream (myvivi_vb_vidqueue s2) = Some (ds ++ q_active (myvivi_vb_vidqueue s)) /\
  Forall (fits (myvivi_vb_vidqueue s2)) (q_active (myvivi_vb_vidqueue s2)).
Proof.
  intros Hr Hs Hst Hf. set (q := myvivi_vb_vidqueue s) in *. pose proof (reachable_ok s Hr) as Hq.
  fold q in Hq. destruct (stream_busy q Hq Hs) as (_ & ds' & Eds & Hn & _).
  rewrite Hst in Eds. injection Eds as Eds. rewrite <- Eds in Hn. apply NoDup_cons in Hn as [Hn _].
  pose proof (dqbuf_cases nb q Hq) as Hc. rewrite Hs in Hc.
  destruct Hc as (ds1 & Eds1 & Hc). rewrite Hst in Eds1. injection Eds1 as Eds1.
  change (i :: ds ++ q_active q) with ((i :: ds) ++ q_active q) in Eds1.
  apply app_inv_tail in Eds1 as <-. destruct Hc as (b & Hb & _ & Hc).
  assert (H2 : handle (E_dqbuf nb) s = Some (mk_reply (Some 0) [] [i],
    set_queue (set_lists (Some (ds ++ q_active q)) (q_active q)
                 (put_buf i (set_state VIDEOBUF_IDLE b) q)) s)).
  { cbn [handle]. fold q. rewrite Hc. cbn [mbind option_bind].
    rewrite report_index, (ok_index _ Hq _ _ Hb), Nat2Z.id. done. }
  eexists. split; [exact H2|]. split; [by eapply reach_step|].
  cbn [myvivi_vb_vidqueue set_queue]. split_and!; [done|done|]. apply (fits_put q i); [|done].
  set_solver.
Qed.

(** A process that waits gets the oldest buffer of the stream. *)
Lemma deliver_one now s i l : reachable s -> q_streaming (myvivi_vb_vidqueue s) = true ->
  q_stream (myvivi_vb_vidqueue s) = Some (i :: l) ->
  Forall (fits (myvivi_vb_vidqueue s)) (q_active (myvivi_vb_vidqueue s)) ->
  exists s2, dqbuf_blocking now s = Some (mk_reply (Some 0) [] [i], s2) /\ reachable s2 /\
  q_streaming (myvivi_vb_vidqueue s2) = true /\ q_stream (myvivi_vb_vidqueue s2) = Some l /\
  Forall (fits (myvivi_vb_vidqueue s2)) (q_active (myvivi_vb_vidqueue s2)).
Proof.
  intros Hr Hs Hst Hf. set (q := myvivi_vb_vidqueue s) in *. pose proof (reachable_ok s Hr) as Hq.
  fold q in Hq. destruct (stream_busy q Hq Hs) as (_ & ds & Eds & Hn & _ & _ & Ha).
  rewrite Hst in Eds. injection Eds as Eds. unfold dqbuf_blocking. destruct ds as [|j ds].
  - cbn [app] in Eds. pose proof (dqbuf_cases false q Hq) as Hc. rewrite Hs in Hc.
    destruct Hc as (ds1 & Eds1 & Hc). rewrite Hst, Eds in Eds1. injection Eds1 as Eds1.
    change (q_active q) with ([] ++ q_active q) in Eds1 at 1. apply app_inv_tail in Eds1 as <-.
    assert (handle (E_dqbuf false) s = Some (mk_reply None [] [], s)) as ->
      by (cbn [handle]; fold q; by rewrite Hc).
    cbn [mbind option_bind rp_ret]. fold q.
    assert (waits_on q = head (q_active q)) as Hw.
    { unfold waits_on. rewrite Hst. cbn [mbind option_bind head]. rewrite <- Eds in Ha |- *.
      apply Forall_cons in Ha as [(b & Hb & Es) _]. rewrite Hb. cbn [mbind option_bind].
      unfold is_state_active_or_queued. by rewrite <- Es. }
    rewrite (bool_decide_eq_true_2 _ Hw).
    destruct (tick now q Hq Hf) as (q1 & E1 & _ & Hs1 & Hst1 & Ha1 & Hf1); [done|].
    assert (H1 : handle (E_timer true now) s = Some (just 0, set_queue q1 s))
      by (cbn [handle]; fold q; by rewrite E1).
    rewrite H1. cbn [mbind option_bind]. pose proof (reach_step _ _ _ _ Hr H1) as Hr1.
    rewrite <- Eds in Ha1. cbn [tail] in Ha1.
    destruct (take_finished false (set_queue q1 s) i []) as (s2 & E2 & Hr2 & Hs2 & Hst2 & Hf2);
      cbn [myvivi_vb_vidqueue set_queue app] in *; [done|congruence|congruence|done|].
    exists s2. rewrite Hst2, Ha1. done.
  - cbn [app] in Eds. injection Eds as <- ->.
    destruct (take_finished false s i ds Hr Hs) as (s2 & E2 & Hr2 & Hs2 & Hst2 & Hf2); [done|done|].
    rewrite E2. by exists s2.
Qed.

(** C24. Every queued buffer is delivered to a process that waits for it. While the
    device streams and the buffers the driver holds have memory for a frame, a
    process that calls a blocking DQBUF as often as there are buffers on the stream,
    with one tick of the timer during each call that sleeps, gets all of them, in the
    order they were queued. A tick while no process waits for the driver's first
    buffer changes nothing. *)
Theorem vivi_delivers nows l : forall s, reachable s ->
  q_streaming (myvivi_vb_vidqueue s) = true -> q_stream (myvivi_vb_vidqueue s) = Some l ->
  Forall (fits (myvivi_vb_vidqueue s)) (q_active (myvivi_vb_vidqueue s)) ->
  length nows = length l ->
  (exists s', dqbuf_loop nows s = Some (l, s') /\ q_stream (myvivi_vb_vidqueue s') = Some [] /\
     q_streaming (myvivi_vb_vidqueue s') = true) /\
  forall now, handle (E_timer false now) s = Some (just 0, s).
Proof.
  intros s Hr Hs Hst Hf Hn. split.
  - revert s l Hr Hs Hst Hf Hn. induction nows as [|now nows IH]; intros s [|i l] Hr Hs Hst Hf Hn;
      try done; [by exists s|].
    destruct (deliver_one now s i l Hr Hs Hst Hf) as (s2 & E & Hr2 & Hs2 & Hst2 & Hf2).
    destruct (IH s2 l Hr2 Hs2 Hst2 Hf2) as (s' & E' & Hend); [by injection Hn|].
    exists s'. split; [|done]. cbn [dqbuf_loop]. rewrite E. cbn [mbind option_bind]. by rewrite E'.
  - intros now. cbn [handle]. unfold myvivi_timer_function.
    destruct (q_active (myvivi_vb_vidqueue s)); by destruct s.
Qed.

Lemma vivi_delivers_witness :
  (exists s', dqbuf_loop [(5, 0); (6, 0)] streaming_state = Some ([1%nat; 0%nat], s') /\
     q_stream (myvivi_vb_vidqueue s') = Some [] /\ q_streaming (myvivi_vb_vidqueue s') = true) /\
  forall now, handle (E_timer false now) streaming_state = Some (just 0, streaming_state).
Proof.
  apply (vivi_delivers [(5, 0); (6, 0)] [1%nat; 0%nat] streaming_state streaming_state_reachable).
  - vm_compute. reflexivity.
  - vm_compute. reflexivity.
  - assert (q_active (myvivi_vb_vidqueue streaming_state) = [1%nat; 0%nat]) as -> by by vm_compute.
    repeat constructor; (do 2 eexists; split; [vm_compute; reflexivity|]);
      (split; [reflexivity|]); by vm_compute.
  - reflexivity.
Defined.

(** * Formats *)

Lemma land_mask4 a : is_u32 a -> Z.land a (u32 (Z.lnot 3)) = a / 4 * 4.
Proof.
  intros Ha. change (u32 (Z.lnot 3)) with (Z.ldiff (Z.ones 32) (Z.ones 2)).
  rewrite <- (u32_small a Ha) at 2. unfold u32. rewrite <- (Z.land_ones a 32) by lia.
  change 4 with (2 ^ 2) at 2. rewrite <- Z.shiftl_mul_pow2 by lia. change 4 with (2 ^ 2).
  rewrite <- Z.shiftr_div_pow2, <- Z.ldiff_ones_r by lia.
  apply Z.bits_inj'. intros i Hi. rewrite !Z.land_spec, !Z.ldiff_spec, Z.land_spec. by rewrite andb_assoc.
Qed.

(** The width is rounded to a multiple of four, the height only bounded. *)
Lemma clamp_width x : clamp_align x 48 1024 2 =
  let y := u32 (x + 2) / 4 * 4 in if y <? 48 then 48 else if y >? 1024 then 1024 else y.
Proof.
  unfold clamp_align. change (negb (2 =? 0)) with true. cbn iota.
  change (u32 (Z.lnot (Z.shiftl 1 2 - 1))) with (u32 (Z.lnot 3)). change (Z.shiftl 1 (2 - 1)) with 2.
  rewrite land_mask4 by auto with widths. cbn zeta. by repeat case_if.
Qed.

Lemma clamp_height x : clamp_align x 32 768 0 = if x <? 32 then 32 else if x >? 768 then 768 else x.
Proof. unfold clamp_align. change (negb (0 =? 0)) with false. cbn iota. by repeat case_if. Qed.

Lemma clamp_width_spec x : is_u32 x -> let w := clamp_align x 48 1024 2 in
  48 <= w <= 1024 /\ w mod 4 = 0 /\ (48 <= x <= 1024 -> x mod 4 = 0 -> w = x).
Proof.
  intros Hx. rewrite clamp_width. cbn zeta. pose proof (u32_range (x + 2)) as Hr.
  assert (48 <= x <= 1024 -> u32 (x + 2) = x + 2) as Hs by (intros; apply u32_small; split; lia).
  unfold is_u32 in *. repeat case_if; bool_props; Z.to_euclidean_division_equations; lia.
Qed.

Lemma clamp_height_spec x : let h := clamp_align x 32 768 0 in
  32 <= h <= 768 /\ (32 <= x <= 768 -> h = x).
Proof. rewrite clamp_height. cbn zeta. repeat case_if; bool_props; lia. Qed.

Lemma frame_size w h : 48 <= w <= 1024 -> 32 <= h <= 768 ->
  Z.shiftr (u32 (w * 16)) 3 = 2 * w /\ u32 (h * (2 * w)) = 2 * w * h.
Proof.
  intros Hw Hh. rewrite !u32_small by (split; nia). rewrite Z.shiftr_div_pow2 by lia. split; [|lia].
  change (2 ^ 3) with 8. replace (w * 16) with (2 * w * 8) by lia. by apply Z.div_mul.
Qed.

(** Trying a format: another pixel format or field order is refused and
    left alone; otherwise the width becomes a multiple of four from 48 to 1024,
    the height lies from 32 to 768, a line has two bytes per pixel and the size is
    that of the lines; sizes that are in order stay, so trying again changes
    nothing. *)
Theorem try_fmt_spec f : is_u32 (pix_width (fmt_pix f)) -> is_u32 (pix_height (fmt_pix f)) ->
  let p := fmt_pix f in
  if (pix_pixelformat p =? V4L2_PIX_FMT_YUYV) &&
     ((pix_field p =? V4L2_FIELD_ANY) || (pix_field p =? V4L2_FIELD_INTERLACED))
  then exists w h,
    let f' := mk_format (fmt_type f) (mk_pix w h (pix_pixelformat p) (pix_field p) (2 * w) (2 * w * h)
                (pix_colorspace p) (pix_priv p)) in
    myvivi_vidioc_try_fmt_vid_cap f = Some (0, f') /\
    48 <= w <= 1024 /\ w mod 4 = 0 /\ 32 <= h <= 768 /\
    (48 <= pix_width p <= 1024 -> pix_width p mod 4 = 0 -> w = pix_width p) /\
    (32 <= pix_height p <= 768 -> h = pix_height p) /\
    myvivi_vidioc_try_fmt_vid_cap f' = Some (0, f')
  else myvivi_vidioc_try_fmt_vid_cap f = Some (- EINVAL, f).
Proof.
  intros Hw Hh p.
  assert (forall g, pix_pixelformat (fmt_pix g) = pix_pixelformat p -> pix_field (fmt_pix g) = pix_field p ->
    is_u32 (pix_width (fmt_pix g)) -> (pix_pixelformat p =? V4L2_PIX_FMT_YUYV) &&
     ((pix_field p =? V4L2_FIELD_ANY) || (pix_field p =? V4L2_FIELD_INTERLACED)) = true ->
    let w := clamp_align (pix_width (fmt_pix g)) 48 1024 2 in
    let h := clamp_align (pix_height (fmt_pix g)) 32 768 0 in
    myvivi_vidioc_try_fmt_vid_cap g = Some (0, mk_format (fmt_type g)
      (mk_pix w h (pix_pixelformat p) (pix_field p) (2 * w) (2 * w * h)
         (pix_colorspace (fmt_pix g)) (pix_priv (fmt_pix g))))) as Htry.
  { intros g E1 E2 Hg Hok w h. unfold myvivi_vidioc_try_fmt_vid_cap. rewrite E1, E2.
    apply andb_true_iff in Hok as [-> Hok]. rewrite (Z.eqb_sym V4L2_FIELD_INTERLACED), <- negb_orb, Hok.
    cbn [negb]. unfold v4l_bound_align_image. change (0 =? 0) with true. cbn iota.
    cbn [mbind option_bind]. fold w h. destruct (frame_size w h) as [-> ->];
      [apply (clamp_width_spec _ Hg) | apply clamp_height_spec | done]. }
  destruct (_ && _) eqn:Hok.
  - destruct (clamp_width_spec _ Hw) as (W1 & W2 & W3). destruct (clamp_height_spec (pix_height p)) as (H1 & H2).
    exists (clamp_align (pix_width p) 48 1024 2), (clamp_align (pix_height p) 32 768 0).
    set (w := clamp_align _ 48 1024 2) in *. set (h := clamp_align _ 32 768 0) in *. cbn zeta.
    split; [by apply Htry|]. split_and!; try done; try lia.
    rewrite Htry; try done; [|split; cbn; lia]. cbn.
    assert (clamp_align w 48 1024 2 = w) as -> by (apply (clamp_width_spec w); [split; lia | done | done]).
    by assert (clamp_align h 32 768 0 = h) as -> by (by apply clamp_height_spec).
  - unfold myvivi_vidioc_try_fmt_vid_cap. fold p. apply andb_false_iff in Hok as [-> | Hok]; [done|].
    rewrite (Z.eqb_sym V4L2_FIELD_INTERLACED), <- negb_orb, Hok. by case_if.
Qed.

Lemma try_fmt_spec_witness : exists w h,
  myvivi_vidioc_try_fmt_vid_cap (mk_format 1 (mk_pix 639 10000 V4L2_PIX_FMT_YUYV 0 7 7 0 0)) =
    Some (0, mk_format 1 (mk_pix w h V4L2_PIX_FMT_YUYV 0 (2 * w) (2 * w * h) 0 0)) /\
  48 <= w <= 1024 /\ w mod 4 = 0 /\ 32 <= h <= 768.
Proof.
  destruct (try_fmt_spec (mk_format 1 (mk_pix 639 10000 V4L2_PIX_FMT_YUYV 0 7 7 0 0)))
    as (w & h & E & H1 & H2 & H3 & _); [split; cbn; lia | split; cbn; lia |].
  exists w, h. split; [exact E|]. split; [exact H1|]. split; [exact H2 | exact H3].
Defined.
