(* ===== verification/Cmos.v ===== *)
(** The driver of the CMOS camera ([src/CMOS/5_th/cmos_ov7740_drv.c]): formats,
    scaler and burst computations, the programming of the camera interface of
    the S3C2440, the frame buffers, interrupts and [read].

    A hardware register is a constructor of [reg]; the register file maps it to
    its 32 bits, and a register reads back what was written to it. The pages the
    driver allocates are a finite map from the address of a live block to its
    order and bytes. Three lines of the source are not C: two lack their
    semicolon (389 and 397) and are read with it, and line 735 applies [|=] to
    the pointer [CISRCFMT] itself, which has no meaning and is left out. *)

From S2P Require Import Prelude V4l2.
Open Scope Z_scope.

(** * The order of an allocation (include/asm-generic/bitops/fls.h, getorder.h) *)

(** One halving of the search: the word is shifted up if its top bits are
    clear. *)
Definition fls_step (mask n : Z) (xr : Z * Z) : Z * Z :=
  let '(x, r) := xr in
  if negb (truth (Z.land x mask)) then (u32 (Z.shiftl x n), r - n) else (x, r).

Definition fls (x : Z) : Z :=
  if negb (truth x) then 0
  else
    let xr := fls_step 0xffff0000 16 (x, 32) in
    let xr := fls_step 0xff000000 8 xr in
    let xr := fls_step 0xf0000000 4 xr in
    let xr := fls_step 0xc0000000 2 xr in
    let xr := fls_step 0x80000000 1 xr in
    snd xr.

Definition get_order (size : Z) : Z :=
  let size := u32 (size - 1) in
  let size := Z.shiftr size PAGE_SHIFT in
  fls size.

(** * Data of the driver *)

Definition CAM_SRC_HSIZE : Z := 640.
Definition CAM_SRC_VSIZE : Z := 480.
Definition CAM_ORDER_CbYCrY : Z := 2.
Definition WinHorOfst : Z := 0.
Definition WinVerOfst : Z := 0.

Record cmos_ov7740_scaler := mk_scaler {
  PreHorRatio : Z;
  PreVerRatio : Z;
  H_Shift : Z;
  V_Shift : Z;
  PreDstWidth : Z;
  PreDstHeight : Z;
  MainHorRatio : Z;
  MainVerRatio : Z;
  SHfactor : Z;
  ScaleUpDown : Z;
}.

(** Static variables start as zero. *)
Definition zero_scaler : cmos_ov7740_scaler := mk_scaler 0 0 0 0 0 0 0 0 0 0.

Record cmos_ov7740_fmt := mk_cmos_fmt {
  cf_name : string;
  cf_fourcc : Z;
  cf_depth : Z;
}.

Definition cmos_formats : list cmos_ov7740_fmt :=
  [mk_cmos_fmt "RGB565" V4L2_PIX_FMT_RGB565 16;
   mk_cmos_fmt "PACKED_RGB_888" V4L2_PIX_FMT_RGB24 24].

Record camif_buffer := mk_camif {
  cb_order : Z;
  cb_virt_base : Z;
  cb_phy_base : Z;
}.

Definition img_buff_init : list camif_buffer := replicate 4 (mk_camif 0 0 0).

(** The registers the driver maps. *)
Inductive reg :=
  | GPJCON | GPJDAT | GPJUP
  | CISRCFMT | CIWDOFST | CIGCTRL
  | CIPRCLRSA1 | CIPRCLRSA2 | CIPRCLRSA3 | CIPRCLRSA4
  | CIPRTRGFMT | CIPRCTRL | CIPRSCPRERATIO | CIPRSCPREDST | CIPRSCCTRL
  | CIPRTAREA | CIIMGCPT
  | SRCPND | INTPND | SUBSRCPND.

#[export] Instance reg_eq_dec : EqDecision reg.
Proof. solve_decision. Defined.

(** The physical address [probe] maps each register at. *)
Definition reg_addr (r : reg) : Z :=
  match r with
  | GPJCON => 0x560000d0 | GPJDAT => 0x560000d4 | GPJUP => 0x560000d8
  | CISRCFMT => 0x4F000000 | CIWDOFST => 0x4F000004 | CIGCTRL => 0x4F000008
  | CIPRCLRSA1 => 0x4F00006C | CIPRCLRSA2 => 0x4F000070
  | CIPRCLRSA3 => 0x4F000074 | CIPRCLRSA4 => 0x4F000078
  | CIPRTRGFMT => 0x4F00007C | CIPRCTRL => 0x4F000080
  | CIPRSCPRERATIO => 0x4F000084 | CIPRSCPREDST => 0x4F000088
  | CIPRSCCTRL => 0x4F00008C
  | CIPRTAREA => 0x4F000090 | CIIMGCPT => 0x4F0000A0
  | SRCPND => 0X4A000000 | INTPND => 0X4A000010 | SUBSRCPND => 0X4A000018
  end.

(** The register file: [*r = v], [*r |= v], [*r &= ~v]. *)
Abbreviation regfile := (reg -> Z).

Definition reg_write (r : reg) (v : Z) (rs : regfile) : regfile :=
  fun r' => if decide (r' = r) then u32 v else rs r'.
Definition reg_or (r : reg) (v : Z) (rs : regfile) : regfile :=
  reg_write r (Z.lor (rs r) v) rs.
Definition reg_clear (r : reg) (v : Z) (rs : regfile) : regfile :=
  reg_write r (Z.land (rs r) (Z.lnot v)) rs.

(** Live blocks of pages: address, order, bytes. *)
Abbreviation page_map := (gmap Z (Z * mem)).

(** The static variables of the driver, the hardware and the live pages. *)
Record cmos := mk_cmos {
  regs : regfile;
  sc : cmos_ov7740_scaler;
  img_buff : list camif_buffer;
  SRC_Width : Z;
  SRC_Height : Z;
  TargetHsize_Pr : Z;
  TargetVsize_Pr : Z;
  buf_size : Z;
  bytesperline : Z;
  ev_cam : Z;
  pages : page_map;
}.

Definition with_regs (f : regfile -> regfile) (s : cmos) : cmos :=
  mk_cmos (f (regs s)) (sc s) (img_buff s) (SRC_Width s) (SRC_Height s)
    (TargetHsize_Pr s) (TargetVsize_Pr s) (buf_size s) (bytesperline s) (ev_cam s) (pages s).
Definition with_sc (v : cmos_ov7740_scaler) (s : cmos) : cmos :=
  mk_cmos (regs s) v (img_buff s) (SRC_Width s) (SRC_Height s)
    (TargetHsize_Pr s) (TargetVsize_Pr s) (buf_size s) (bytesperline s) (ev_cam s) (pages s).
Definition with_img (v : list camif_buffer) (s : cmos) : cmos :=
  mk_cmos (regs s) (sc s) v (SRC_Width s) (SRC_Height s)
    (TargetHsize_Pr s) (TargetVsize_Pr s) (buf_size s) (bytesperline s) (ev_cam s) (pages s).
Definition with_src (w h : Z) (s : cmos) : cmos :=
  mk_cmos (regs s) (sc s) (img_buff s) w h
    (TargetHsize_Pr s) (TargetVsize_Pr s) (buf_size s) (bytesperline s) (ev_cam s) (pages s).
Definition with_target (w h : Z) (s : cmos) : cmos :=
  mk_cmos (regs s) (sc s) (img_buff s) (SRC_Width s) (SRC_Height s)
    w h (buf_size s) (bytesperline s) (ev_cam s) (pages s).
Definition with_size (size line : Z) (s : cmos) : cmos :=
  mk_cmos (regs s) (sc s) (img_buff s) (SRC_Width s) (SRC_Height s)
    (TargetHsize_Pr s) (TargetVsize_Pr s) size line (ev_cam s) (pages s).
Definition with_ev (v : Z) (s : cmos) : cmos :=
  mk_cmos (regs s) (sc s) (img_buff s) (SRC_Width s) (SRC_Height s)
    (TargetHsize_Pr s) (TargetVsize_Pr s) (buf_size s) (bytesperline s) v (pages s).
Definition with_pages (v : page_map) (s : cmos) : cmos :=
  mk_cmos (regs s) (sc s) (img_buff s) (SRC_Width s) (SRC_Height s)
    (TargetHsize_Pr s) (TargetVsize_Pr s) (buf_size s) (bytesperline s) (ev_cam s) v.

(** * Formats *)

Definition cmos_ov7740_vidioc_querycap : v4l2_capability * Z :=
  (mk_cap "cmos_ov7740" "cmos_ov7740" 2
     (Z.lor V4L2_CAP_VIDEO_CAPTURE V4L2_CAP_READWRITE), 0).

(** [f->index] is unsigned; the names are shorter than the 32 bytes of the
    description. *)
Definition cmos_ov7740_vidioc_enum_fmt_vid_cap (f : v4l2_fmtdesc) : v4l2_fmtdesc * Z :=
  if fd_index f >=? zlen cmos_formats then (f, - EINVAL)
  else
    match cmos_formats !! Z.to_nat (fd_index f) with
    | None => (f, - EINVAL)
    | Some fmt =>
        (mk_fmtdesc (fd_index f) (fd_type f) (fd_flags f) (cf_name fmt) (cf_fourcc fmt), 0)
    end.

Definition cmos_ov7740_vidioc_try_fmt_vid_cap (f : v4l2_format) : Z :=
  if negb (fmt_type f =? V4L2_BUF_TYPE_VIDEO_CAPTURE) then - EINVAL
  else if negb (pix_pixelformat (fmt_pix f) =? V4L2_PIX_FMT_RGB565)
          && negb (pix_pixelformat (fmt_pix f) =? V4L2_PIX_FMT_RGB24) then - EINVAL
  else 0.

Definition set_line_size (line size : Z) (f : v4l2_format) : v4l2_format :=
  let p := fmt_pix f in
  mk_format (fmt_type f)
    (mk_pix (pix_width p) (pix_height p) (pix_pixelformat p) (pix_field p) line size
       (pix_colorspace p) (pix_priv p)).

(** The branch of S_FMT for [bpp] bits in memory. *)
Definition set_format (bpp : Z) (f : v4l2_format) (s : cmos) : cmos * v4l2_format :=
  let line := Z.shiftr (u32 (pix_width (fmt_pix f) * bpp)) 3 in
  let size := u32 (pix_height (fmt_pix f) * line) in
  (with_size size line s, set_line_size line size f).

Definition cmos_ov7740_vidioc_s_fmt_vid_cap (f : v4l2_format) (s : cmos)
  : cmos * v4l2_format * Z :=
  let ret := cmos_ov7740_vidioc_try_fmt_vid_cap f in
  if ret <? 0 then (s, f, ret)
  else
    let s := with_target (pix_width (fmt_pix f)) (pix_height (fmt_pix f)) s in
    let '(s, f) :=
      if pix_pixelformat (fmt_pix f) =? V4L2_PIX_FMT_RGB565 then
        set_format 16 f (with_regs (reg_clear CIPRSCCTRL (Z.shiftl 1 30)) s)
      else if pix_pixelformat (fmt_pix f) =? V4L2_PIX_FMT_RGB24 then
        set_format 32 f (with_regs (reg_or CIPRSCCTRL (Z.shiftl 1 30)) s)
      else (s, f) in
    let s := with_regs (reg_write CIPRTRGFMT
      (Z.lor (Z.lor (Z.shiftl (TargetHsize_Pr s) 16) (Z.shiftl 0 14)) (TargetVsize_Pr s))) s in
    (s, f, 0).

(** * Bursts and scaling *)

(** Main and remaining burst of a line of [hSize] bytes, in words. *)
Definition CalculateBurstSize (hSize : Z) : Z * Z :=
  let tmp := (hSize / 4) mod 16 in
  if tmp =? 0 then (16, 16)
  else if tmp =? 4 then (16, 4)
  else if tmp =? 8 then (16, 8)
  else
    let tmp := (hSize / 4) mod 8 in
    if tmp =? 0 then (8, 8)
    else if tmp =? 4 then (8, 4)
    else
      let tmp := (hSize / 4) mod 4 in
      (4, if truth tmp then tmp else 4).

(** [*ratio] and [*shift]; they keep their values when the picture shrinks 64
    times or more. *)
Definition camif_get_scaler_factor (src tar : Z) (old : Z * Z) : Z * Z :=
  if src >=? u32 (64 * tar) then old
  else if src >=? u32 (32 * tar) then (32, 5)
  else if src >=? u32 (16 * tar) then (16, 4)
  else if src >=? u32 (8 * tar) then (8, 3)
  else if src >=? u32 (4 * tar) then (4, 2)
  else if src >=? u32 (2 * tar) then (2, 1)
  else (1, 0).

(** Division of two [unsigned int]s. *)
Definition udiv (a b : Z) : option Z := if b =? 0 then None else Some (a / b).

Definition cmos_ov7740_calculate_scaler_info (s : cmos) : option cmos :=
  let sx := SRC_Width s in
  let sy := SRC_Height s in
  let tx := TargetHsize_Pr s in
  let ty := TargetVsize_Pr s in
  let '(hr, hs) := camif_get_scaler_factor sx tx (PreHorRatio (sc s), H_Shift (sc s)) in
  let '(vr, vs) := camif_get_scaler_factor sy ty (PreVerRatio (sc s), V_Shift (sc s)) in
  dw ← udiv sx hr;
  dh ← udiv sy vr;
  mh ← udiv (u32 (Z.shiftl sx 8)) (u32 (Z.shiftl tx hs));
  mv ← udiv (u32 (Z.shiftl sy 8)) (u32 (Z.shiftl ty vs));
  Some (with_sc (mk_scaler hr vr hs vs dw dh mh mv (u32 (10 - (hs + vs)))
                   (if tx >=? sx then 1 else 0)) s).

(** * Streaming *)

Definition cmos_ov7740_vidioc_streamon (s : cmos) : option (cmos * Z) :=
  let s := with_regs (reg_or CISRCFMT
    (Z.lor (Z.lor (Z.shiftl CAM_SRC_HSIZE 16) (Z.shiftl CAM_ORDER_CbYCrY 14)) CAM_SRC_VSIZE)) s in
  let s := with_regs (reg_or CIWDOFST (Z.lor (Z.shiftl 1 30) (Z.shiftl 0xf 12))) s in
  let s := with_regs (reg_or CIWDOFST
    (Z.lor (Z.lor (Z.shiftl 1 31) (Z.shiftl WinHorOfst 16)) WinVerOfst)) s in
  let s := with_src (CAM_SRC_HSIZE - 2 * WinHorOfst) (CAM_SRC_VSIZE - 2 * WinVerOfst) s in
  let s := with_regs (reg_or CIGCTRL (Z.shiftl 1 29)) s in
  let '(Main_burst, Remained_burst) := CalculateBurstSize (bytesperline s) in
  let s := with_regs (reg_write CIPRCTRL
    (Z.lor (Z.shiftl Main_burst 19) (Z.shiftl Remained_burst 14))) s in
  s ← cmos_ov7740_calculate_scaler_info s;
  let s := with_regs (reg_write CIPRSCPRERATIO
    (Z.lor (Z.lor (Z.shiftl (SHfactor (sc s)) 28) (Z.shiftl (PreHorRatio (sc s)) 16))
           (PreVerRatio (sc s)))) s in
  let s := with_regs (reg_write CIPRSCPREDST
    (Z.lor (Z.shiftl (PreDstWidth (sc s)) 16) (PreDstHeight (sc s)))) s in
  let s := with_regs (reg_or CIPRSCCTRL
    (Z.lor (Z.lor (Z.lor (Z.shiftl 1 31) (Z.shiftl (ScaleUpDown (sc s)) 28))
                  (Z.shiftl (MainHorRatio (sc s)) 16)) (MainVerRatio (sc s)))) s in
  let s := with_regs (reg_write CIPRTAREA (TargetHsize_Pr s * TargetVsize_Pr s)) s in
  let s := with_regs (reg_write CIIMGCPT (Z.lor (Z.shiftl 1 31) (Z.shiftl 1 29))) s in
  let s := with_regs (reg_or CIPRSCCTRL (Z.shiftl 1 15)) s in
  Some (s, 0).

Definition cmos_ov7740_vidioc_streamoff (s : cmos) : cmos * Z :=
  let s := with_regs (reg_clear CIPRSCCTRL (Z.shiftl 1 15)) s in
  let s := with_regs (reg_clear CIIMGCPT (Z.lor (Z.shiftl 1 31) (Z.shiftl 1 29))) s in
  (s, 0).

(** * Pages

    The page allocator is the kernel's. [page_addr] is the address it returns
    for an order when the given blocks are live, 0 if it has none; the laws say
    that an address it returns is not live and that orders from 11 on
    ([MAX_ORDER]) are refused. *)

Class PageOps := {
  page_addr : page_map -> Z -> Z;
  page_data : page_map -> Z -> mem;
  virt_to_phys : Z -> Z;
}.

Class PageLaws `{PageOps} := {
  page_addr_fresh p o : page_addr p o <> 0 -> p !! page_addr p o = None;
  page_addr_order p o : 11 <= o -> page_addr p o = 0;
  page_data_size p o : 0 <= o -> zlen (page_data p o) = PAGE_SIZE * 2 ^ o;
}.

Section Buffers.
Context `{PageOps}.

Definition get_free_pages (order : Z) (s : cmos) : Z * cmos :=
  let a := page_addr (pages s) order in
  if a =? 0 then (0, s)
  else (a, with_pages (<[a := (order, page_data (pages s) order)]> (pages s)) s).

(** Freeing address 0 does nothing; freeing a block that is not live, or with
    another order, corrupts the allocator. *)
Definition free_pages (addr order : Z) (s : cmos) : option cmos :=
  if addr =? 0 then Some s
  else
    '(o, _) ← pages s !! addr;
    if o =? order then Some (with_pages (delete addr (pages s)) s) else None.

(** The four statements of REQBUFS that give buffer [i] its memory, with the
    condition of the [goto]. The physical address is computed from the first
    buffer for all four. *)
Definition get_buffer (i : nat) (order : Z) (s : cmos) : option (bool * cmos) :=
  b ← img_buff s !! i;
  let '(a, s) := get_free_pages order s in
  let s := with_img (<[i := mk_camif order a (cb_phy_base b)]> (img_buff s)) s in
  if a =? 0 then Some (false, s)
  else
    b0 ← img_buff s !! 0%nat;
    Some (true,
      with_img (<[i := mk_camif order a (virt_to_phys (cb_virt_base b0))]> (img_buff s)) s).

(** Free a buffer and forget its physical address. *)
Definition put_buffer (i : nat) (order : Z) (s : cmos) : option cmos :=
  b ← img_buff s !! i;
  s ← free_pages (cb_virt_base b) order s;
  Some (with_img (<[i := mk_camif (cb_order b) (cb_virt_base b) 0]> (img_buff s)) s).

Definition error0 (s : cmos) : option (cmos * Z) := Some (s, - ENOMEM).
Definition error1 (order : Z) (s : cmos) : option (cmos * Z) :=
  s ← put_buffer 0 order s; error0 s.
Definition error2 (order : Z) (s : cmos) : option (cmos * Z) :=
  s ← put_buffer 1 order s; error1 order s.
Definition error3 (order : Z) (s : cmos) : option (cmos * Z) :=
  s ← put_buffer 2 order s; error2 order s.

(** [*CIPRCLRSAn = img_buff[n - 1].phy_base]. *)
Definition point_camera (s : cmos) : option cmos :=
  b0 ← img_buff s !! 0%nat; b1 ← img_buff s !! 1%nat;
  b2 ← img_buff s !! 2%nat; b3 ← img_buff s !! 3%nat;
  let s := with_regs (reg_write CIPRCLRSA1 (cb_phy_base b0)) s in
  let s := with_regs (reg_write CIPRCLRSA2 (cb_phy_base b1)) s in
  let s := with_regs (reg_write CIPRCLRSA3 (cb_phy_base b2)) s in
  Some (with_regs (reg_write CIPRCLRSA4 (cb_phy_base b3)) s).

(** The code runs into [error3] after the registers are set. *)
Definition cmos_ov7740_vidioc_reqbufs (s : cmos) : option (cmos * Z) :=
  let order := get_order (buf_size s) in
  '(ok, s) ← get_buffer 0 order s;
  if negb ok then error0 s else
  '(ok, s) ← get_buffer 1 order s;
  if negb ok then error1 order s else
  '(ok, s) ← get_buffer 2 order s;
  if negb ok then error2 order s else
  '(ok, s) ← get_buffer 3 order s;
  if negb ok then error3 order s else
  s ← point_camera s;
  error3 order s.

Definition cmos_ov7740_release (s : cmos) : option cmos :=
  let order := get_order (buf_size s) in
  s ← put_buffer 0 order s;
  s ← put_buffer 1 order s;
  s ← put_buffer 2 order s;
  put_buffer 3 order s.

(** * Interrupt and [read] *)

(** The handler of the codec channel does nothing. *)
Definition cmos_ov7740_camif_irq_c (s : cmos) : cmos := s.

Definition cmos_ov7740_camif_irq_p (s : cmos) : cmos :=
  let s := with_regs (reg_write SRCPND (Z.shiftl 1 6)) s in
  let s := with_regs (reg_write INTPND (Z.shiftl 1 6)) s in
  let s := with_regs (reg_write SUBSRCPND (Z.shiftl 1 12)) s in
  with_ev 1 s.

(** [copy_to_user(buf, virt_base, n)] to a user buffer: what fits is copied;
    the result says whether something was left over. The source must be live. *)
Definition copy_image (virt_base n : Z) (ubuf : mem) (s : cmos) : option (mem * bool) :=
  if n =? 0 then Some (ubuf, false)
  else
    '(_, data) ← pages s !! virt_base;
    bs ← mem_read data 0 n;
    let k := Z.min n (zlen ubuf) in
    ubuf ← mem_write ubuf 0 (take (Z.to_nat k) bs);
    Some (ubuf, k <? n).

(** Every buffer is copied to the same place; true for a failed copy. *)
Fixpoint read_loop (bufs : list camif_buffer) (n : Z) (ubuf : mem) (s : cmos)
  : option (mem * bool) :=
  match bufs with
  | [] => Some (ubuf, false)
  | b :: bufs =>
      '(ubuf, fault) ← copy_image (cb_virt_base b) n ubuf s;
      if fault : bool then Some (ubuf, true) else read_loop bufs n ubuf s
  end.

Inductive read_result :=
  | Sleeping
  | Returned (s : cmos) (ubuf : mem) (ret : Z).

(** [signal]: whether a signal ends the wait. Its result is ignored. *)
Definition cmos_ov7740_read (signal : bool) (count : Z) (ubuf : mem) (s : cmos)
  : option read_result :=
  let n := Z.min (buf_size s) count in
  if negb (truth (ev_cam s)) && negb signal then Some Sleeping
  else
    '(ubuf, fault) ← read_loop (img_buff s) n ubuf s;
    if fault : bool then Some (Returned s ubuf (- EFAULT))
    else Some (Returned (with_ev 0 s) ubuf (s32 n)).

End Buffers.

(** * Start *)

Definition cmos_ov7740_gpio_cfg (s : cmos) : cmos :=
  let s := with_regs (reg_write GPJCON 0x2aaaaaa) s in
  let s := with_regs (reg_write GPJDAT 0) s in
  with_regs (reg_write GPJUP 0) s.

(** Without its first line, see above. *)
Definition cmos_ov7740_camif_reset (s : cmos) : cmos :=
  let s := with_regs (reg_or CIGCTRL (Z.shiftl 1 31)) s in
  with_regs (reg_clear CIGCTRL (Z.shiftl 1 31)) s.

Definition cmos_ov7740_reset (s : cmos) : cmos :=
  let s := with_regs (reg_or CIGCTRL (Z.shiftl 1 30)) s in
  let s := with_regs (reg_clear CIGCTRL (Z.shiftl 1 30)) s in
  with_regs (reg_or CIGCTRL (Z.shiftl 1 30)) s.

(** Register address and value, sent over I2C in this order. *)
Definition ov7740_setting_30fps_VGA_640_480 : list (Z * Z) :=
  [(0x12, 0x80); (0x47, 0x02); (0x17, 0x27); (0x04, 0x40); (0x1B, 0x81); (0x29, 0x17);
   (0x5F, 0x03); (0x3A, 0x09); (0x33, 0x44); (0x68, 0x1A); (0x14, 0x38); (0x5F, 0x04);
   (0x64, 0x00); (0x67, 0x90); (0x27, 0x80); (0x45, 0x41); (0x4B, 0x40); (0x36, 0x2f);
   (0x11, 0x01); (0x36, 0x3f); (0x0c, 0x12); (0x12, 0x00); (0x17, 0x25); (0x18, 0xa0);
   (0x1a, 0xf0); (0x31, 0xa0); (0x32, 0xf0); (0x85, 0x08); (0x86, 0x02); (0x87, 0x01);
   (0xd5, 0x10); (0x0d, 0x34); (0x19, 0x03); (0x2b, 0xf8); (0x2c, 0x01); (0x53, 0x00);
   (0x89, 0x30); (0x8d, 0x30); (0x8f, 0x85); (0x93, 0x30); (0x95, 0x85); (0x99, 0x30);
   (0x9b, 0x85); (0xac, 0x6E); (0xbe, 0xff); (0xbf, 0x00); (0x38, 0x14); (0xe9, 0x00);
   (0x3D, 0x08); (0x3E, 0x80); (0x3F, 0x40); (0x40, 0x7F); (0x41, 0x6A); (0x42, 0x29);
   (0x49, 0x64); (0x4A, 0xA1); (0x4E, 0x13); (0x4D, 0x50); (0x44, 0x58); (0x4C, 0x1A);
   (0x4E, 0x14); (0x38, 0x11); (0x84, 0x70)].

Inductive i2c_op :=
  | I2cRead (regaddr : Z)
  | I2cWrite (regaddr value : Z).

(** The transfers of the start; what the reads return is only printed. *)
Definition cmos_ov7740_init : list i2c_op :=
  [I2cRead 0x0a; I2cRead 0x0b]
  ++ map (fun '(a, v) => I2cWrite a v) ov7740_setting_30fps_VGA_640_480.

(** [probe] without the clocks and the registration of handlers and device,
    which the kernel keeps. *)
Definition cmos_ov7740_probe (s : cmos) : cmos * list i2c_op * Z :=
  let s := cmos_ov7740_gpio_cfg s in
  let s := cmos_ov7740_camif_reset s in
  let s := cmos_ov7740_reset s in
  (s, cmos_ov7740_init, 0).

(** The driver when it is loaded, with registers [rs]. *)
Definition cmos_start (rs : regfile) : cmos :=
  mk_cmos rs zero_scaler img_buff_init 0 0 0 0 0 0 0 ∅.

(** * Theorems: the order of an allocation *)

(** The top bits of a word are clear iff the word is small. *)
Lemma top_clear x k : 0 <= x < 2 ^ 32 -> 0 <= k <= 32 ->
  truth (Z.land x (2 ^ 32 - 2 ^ k)) = negb (x <? 2 ^ k).
Proof.
  intros Hx Hk.
  replace (Z.land x (2 ^ 32 - 2 ^ k)) with (Z.shiftl (Z.shiftr x k) k).
  - rewrite Z.shiftl_mul_pow2, Z.shiftr_div_pow2 by lia. unfold truth. f_equal.
    assert (0 < 2 ^ k) by (apply Z.pow_pos_nonneg; lia).
    destruct (Z.ltb_spec x (2 ^ k)).
    + rewrite Z.div_small by lia. done.
    + apply Z.eqb_neq. assert (1 <= x / 2 ^ k) by (apply Z.div_le_lower_bound; lia). nia.
  - replace (2 ^ 32 - 2 ^ k) with (Z.shiftl (Z.ones (32 - k)) k).
    + apply Z.bits_inj'. intros i Hi.
      rewrite Z.land_spec, !testbit_shiftl by lia.
      destruct (Z.leb_spec k i); cbn [andb]; [|by rewrite andb_false_r].
      rewrite testbit_shiftr by lia. rewrite Z.sub_add.
      destruct (Z.ltb_spec i 32).
      * rewrite Z.ones_spec_low by lia. by rewrite andb_true_r.
      * rewrite Z.ones_spec_high by lia. rewrite andb_false_r.
        rewrite <- (Z.mod_small x (2 ^ 32)) by lia. by apply Z.mod_pow2_bits_high.
    + rewrite Z.shiftl_mul_pow2, Z.ones_equiv by lia.
      replace (2 ^ 32) with (2 ^ (32 - k) * 2 ^ k); [lia|].
      rewrite <- Z.pow_add_r by lia. f_equal. lia.
Qed.

(** A step keeps the sum of the index of the top bit and the counter, and
    brings the top bit into the upper [n] bits. *)
Lemma fls_step_spec n x r : 0 < n -> 2 * n <= 32 -> 2 ^ (32 - 2 * n) <= x < 2 ^ 32 ->
  exists x' r', fls_step (2 ^ 32 - 2 ^ (32 - n)) n (x, r) = (x', r') /\
  2 ^ (32 - n) <= x' < 2 ^ 32 /\ Z.log2 x' + r' = Z.log2 x + r.
Proof.
  intros Hn Hn' Hx. assert (0 < 2 ^ (32 - 2 * n)) by (apply Z.pow_pos_nonneg; lia).
  assert (0 < 2 ^ n) by (apply Z.pow_pos_nonneg; lia).
  unfold fls_step. rewrite top_clear by lia. rewrite negb_involutive.
  destruct (Z.ltb_spec x (2 ^ (32 - n))) as [Hlt|Hge].
  - eexists _, _. split; [done|].
    assert (Hs : u32 (Z.shiftl x n) = x * 2 ^ n).
    { rewrite Z.shiftl_mul_pow2 by lia. apply Z.mod_small. split; [nia|].
      replace (2 ^ 32) with (2 ^ (32 - n) * 2 ^ n);
        [nia|].
      rewrite <- Z.pow_add_r by lia. f_equal. lia. }
    rewrite Hs. split; [split|].
    + replace (32 - n) with (32 - 2 * n + n) by lia. rewrite Z.pow_add_r by lia.
      apply Z.mul_le_mono_nonneg_r; lia.
    + rewrite <- Hs. apply u32_range.
    + rewrite Z.log2_mul_pow2 by lia. lia.
  - eexists _, _. split; [done|]. lia.
Qed.

Lemma fls_log2 x : 0 < x < 2 ^ 32 -> fls x = Z.log2 x + 1.
Proof.
  intros Hx. unfold fls. unfold truth at 1.
  destruct (Z.eqb_spec x 0) as [->|_]; [lia|]. cbn [negb].
  destruct (fls_step_spec 16 x 32) as (x1 & r1 & E1 & H1 & L1); [lia..|].
  change (2 ^ 32 - 2 ^ (32 - 16)) with 0xffff0000 in E1. rewrite E1.
  destruct (fls_step_spec 8 x1 r1) as (x2 & r2 & E2 & H2 & L2); [lia..|].
  change (2 ^ 32 - 2 ^ (32 - 8)) with 0xff000000 in E2. rewrite E2.
  destruct (fls_step_spec 4 x2 r2) as (x3 & r3 & E3 & H3 & L3); [lia..|].
  change (2 ^ 32 - 2 ^ (32 - 4)) with 0xf0000000 in E3. rewrite E3.
  destruct (fls_step_spec 2 x3 r3) as (x4 & r4 & E4 & H4 & L4); [lia..|].
  change (2 ^ 32 - 2 ^ (32 - 2)) with 0xc0000000 in E4. rewrite E4.
  destruct (fls_step_spec 1 x4 r4) as (x5 & r5 & E5 & H5 & L5); [lia..|].
  change (2 ^ 32 - 2 ^ (32 - 1)) with 0x80000000 in E5. rewrite E5. cbn [snd].
  assert (Z.log2 x5 = 31) by (apply Z.log2_unique; lia). lia.
Qed.

(** The order of an allocation is the smallest that holds the bytes: a block
    of [2 ^ get_order size] pages is large enough for every nonzero [size], and
    the next smaller one is not; a size of 0 asks for all of the address space. *)
Theorem get_order_spec size : 0 < size < 2 ^ 32 ->
  0 <= get_order size <= 20 /\ size <= PAGE_SIZE * 2 ^ get_order size /\
  (get_order size = 0 \/ PAGE_SIZE * 2 ^ (get_order size - 1) < size) /\
  get_order 0 = 20.
Proof.
  intros Hs. unfold get_order, PAGE_SHIFT, PAGE_SIZE.
  rewrite (u32_small (size - 1)) by (unfold is_u32; lia).
  rewrite Z.shiftr_div_pow2 by lia. change (2 ^ 12) with 4096.
  set (q := (size - 1) / 4096).
  assert (Hq : 0 <= q < 2 ^ 20 /\ 4096 * q <= size - 1 < 4096 * (q + 1)).
  { pose proof (Z.div_mod (size - 1) 4096). pose proof (Z.mod_pos_bound (size - 1) 4096).
    subst q. lia. }
  destruct (decide (q = 0)) as [->|Hq0].
  { split_and!; try done; [cbn; lia | by left]. }
  assert (Hlog : 2 ^ Z.log2 q <= q < 2 ^ (Z.log2 q + 1)).
  { pose proof (Z.log2_spec q). lia. }
  assert (Z.log2 q < 20) by (apply Z.log2_lt_pow2; lia).
  pose proof (Z.log2_nonneg q). rewrite fls_log2 by lia.
  split_and!; try lia; [|done]. right. rewrite Z.add_simpl_r. nia.
Qed.

Lemma get_order_spec_witness :
  0 <= get_order 614400 <= 20 /\ 614400 <= PAGE_SIZE * 2 ^ get_order 614400 /\
  (get_order 614400 = 0 \/ PAGE_SIZE * 2 ^ (get_order 614400 - 1) < 614400) /\
  get_order 0 = 20.
Proof. apply (get_order_spec 614400). lia. Defined.

(** * Bursts and scaling *)

(** The bursts of a line: the main burst is 4, 8 or 16 words, and the words of
    the line are some main bursts and the remaining one. *)
Lemma burst_spec hSize main rest : 0 <= hSize -> CalculateBurstSize hSize = (main, rest) ->
  (main = 4 \/ main = 8 \/ main = 16) /\ 0 < rest <= main /\
  exists n, hSize / 4 = n * main + rest /\ (0 < hSize / 4 -> 0 <= n).
Proof.
  intros Hh Hb. unfold CalculateBurstSize, truth in Hb.
  assert (Hw : 0 <= hSize / 4) by (apply Z.div_pos; lia).
  set (w := hSize / 4) in *. clearbody w.
  assert (Hr : (main = 4 \/ main = 8 \/ main = 16) /\ 0 < rest <= main /\
               w mod main = rest mod main /\ (0 < w -> rest <= w)).
  { repeat case_if_in Hb; injection Hb as <- <-; bool_props;
      Z.div_mod_to_equations; lia. }
  destruct Hr as (Hm & Hrr & Hc & Hle). split; [done|]. split; [lia|].
  exists ((w - rest) / main).
  assert (Hd : (w - rest) mod main = 0).
  { rewrite Zminus_mod, Hc, Z.sub_diag. apply Z.mod_0_l. lia. }
  split.
  - pose proof (Z.div_mod (w - rest) main). lia.
  - intros Hp. apply Z.div_pos; lia.
Qed.

Lemma log2_div src tar k : 0 <= k -> 0 < tar -> 2 ^ k * tar <= src < 2 ^ (k + 1) * tar ->
  Z.log2 (src / tar) = k.
Proof.
  intros Hk Ht Hs. apply Z.log2_unique; [done|]. split.
  - apply Z.div_le_lower_bound; lia.
  - apply Z.div_lt_upper_bound; lia.
Qed.

Lemma log2_div_small src tar : 0 < tar -> 0 <= src < 2 * tar -> Z.log2 (src / tar) = 0.
Proof.
  intros Ht Hs. apply Z.log2_null. enough (src / tar < 2) by lia.
  apply Z.div_lt_upper_bound; lia.
Qed.

(** The chain of comparisons computes the logarithm of the quotient. *)
Lemma scaler_factor_log2 src tar old :
  0 <= src -> 0 < tar -> src < 64 * tar -> 64 * tar < 2 ^ 32 ->
  camif_get_scaler_factor src tar old
  = (2 ^ Z.log2 (src / tar), Z.log2 (src / tar)).
Proof.
  intros Hs Ht Hlt Hb. unfold camif_get_scaler_factor.
  rewrite !u32_small by (unfold is_u32; lia).
  repeat case_if; bool_props; try lia;
    match goal with |- (?r, ?k) = _ =>
      first [ rewrite (log2_div src tar k) by lia; done
            | rewrite (log2_div_small src tar) by lia; done ] end.
Qed.

(** What the scaler is meant to be set to: a power of two first, the rest of the
    reduction in units of 1/256 after it. *)
Definition scale_shift (src tar : Z) : Z := Z.log2 (src / tar).
Definition main_ratio (src tar : Z) : Z := 256 * src / (tar * 2 ^ scale_shift src tar).

Definition scaler_for (sx sy tx ty : Z) : cmos_ov7740_scaler :=
  let h := scale_shift sx tx in
  let v := scale_shift sy ty in
  mk_scaler (2 ^ h) (2 ^ v) h v (sx / 2 ^ h) (sy / 2 ^ v)
    (main_ratio sx tx) (main_ratio sy ty) (10 - (h + v)) (if tx >=? sx then 1 else 0).

(** A reduction by less than 64 that does not overflow. *)
Definition scalable (src tar : Z) : Prop :=
  0 < src < 2 ^ 24 /\ 0 < tar < 2 ^ 26 /\ src < 64 * tar.

Lemma scale_shift_bounds src tar : scalable src tar ->
  0 <= scale_shift src tar <= 5 /\ src < 2 ^ (scale_shift src tar + 1) * tar /\
  (tar <= src -> 2 ^ scale_shift src tar * tar <= src).
Proof.
  intros (Hs & Ht & Hr). unfold scale_shift.
  assert (Hq : 0 <= src / tar < 64).
  { split; [apply Z.div_pos; lia | apply Z.div_lt_upper_bound; lia]. }
  pose proof (Z.div_mod src tar). pose proof (Z.mod_pos_bound src tar).
  set (q := src / tar) in *. clearbody q.
  pose proof (Z.log2_nonneg q).
  destruct (decide (q = 0)) as [->|Hq0].
  - change (Z.log2 0) with 0. split_and!; [lia..|]. intros. nia.
  - destruct (Z.log2_spec q) as [Hl Hu]; [lia|]. rewrite <- Z.add_1_r in Hu.
    assert (Z.log2 q < 6) by (apply Z.log2_lt_pow2; lia).
    split_and!; [lia|lia|nia|intros; nia].
Qed.

(** The main ratio is 1 to 2 in units of 1/256 for a reduction, and at most 1 for
    an enlargement; the width after the first step is at least the target. *)
Lemma main_ratio_bounds src tar : scalable src tar ->
  0 <= main_ratio src tar < 512 /\
  (tar <= src -> 256 <= main_ratio src tar /\ tar <= src / 2 ^ scale_shift src tar).
Proof.
  intros H. destruct (scale_shift_bounds src tar H) as (Hk & Hu & Hl).
  destruct H as (Hs & Ht & Hr). unfold main_ratio.
  set (k := scale_shift src tar) in *. rewrite Z.pow_add_r in Hu by lia.
  assert (0 < 2 ^ k) by (apply Z.pow_pos_nonneg; lia).
  split; [split|].
  - apply Z.div_pos; nia.
  - apply Z.div_lt_upper_bound; nia.
  - intros Hle. specialize (Hl Hle). split; apply Z.div_le_lower_bound; nia.
Qed.

Lemma pow_shift_bound src tar : scalable src tar ->
  0 < tar * 2 ^ scale_shift src tar < 2 ^ 32.
Proof.
  intros H. destruct (scale_shift_bounds src tar H) as (Hk & _ & Hl).
  destruct H as (Hs & Ht & Hr). set (k := scale_shift src tar) in *.
  assert (0 < 2 ^ k) by (apply Z.pow_pos_nonneg; lia).
  assert (2 ^ k <= 2 ^ 5) by (apply Z.pow_le_mono_r; lia). nia.
Qed.

Lemma udiv_ok a b : b <> 0 -> udiv a b = Some (a / b).
Proof. intros. unfold udiv. by destruct (Z.eqb_spec b 0). Qed.

(** The two quotients of one direction. *)
Lemma scaler_quotients src tar : scalable src tar ->
  udiv src (2 ^ scale_shift src tar) = Some (src / 2 ^ scale_shift src tar) /\
  udiv (u32 (Z.shiftl src 8)) (u32 (Z.shiftl tar (scale_shift src tar)))
  = Some (main_ratio src tar).
Proof.
  intros H. pose proof (pow_shift_bound src tar H). destruct (scale_shift_bounds src tar H) as (Hk & _).
  assert (0 < 2 ^ scale_shift src tar) by (apply Z.pow_pos_nonneg; lia).
  destruct H as (Hs & Ht & Hr). rewrite !Z.shiftl_mul_pow2 by lia.
  rewrite !u32_small by (unfold is_u32; lia). split; rewrite udiv_ok by lia; [done|].
  unfold main_ratio. do 2 f_equal. lia.
Qed.

Lemma scaler_run s :
  scalable (SRC_Width s) (TargetHsize_Pr s) -> scalable (SRC_Height s) (TargetVsize_Pr s) ->
  cmos_ov7740_calculate_scaler_info s
  = Some (with_sc (scaler_for (SRC_Width s) (SRC_Height s)
                     (TargetHsize_Pr s) (TargetVsize_Pr s)) s).
Proof.
  intros Hx Hy.
  destruct (scale_shift_bounds _ _ Hx) as (Hh & _), (scale_shift_bounds _ _ Hy) as (Hv & _).
  destruct (scaler_quotients _ _ Hx) as (Q1 & Q2), (scaler_quotients _ _ Hy) as (Q3 & Q4).
  unfold cmos_ov7740_calculate_scaler_info.
  destruct Hx as (? & ? & ?), Hy as (? & ? & ?). rewrite !scaler_factor_log2 by lia.
  fold (scale_shift (SRC_Width s) (TargetHsize_Pr s)).
  fold (scale_shift (SRC_Height s) (TargetVsize_Pr s)).
  rewrite Q1, Q2, Q3, Q4. cbn [mbind option_bind].
  rewrite u32_small by (unfold is_u32; lia). done.
Qed.

(** C27. The scaler computation agrees with its reference for every picture that
    shrinks by less than 64 in both directions: the chains of comparisons find
    the binary logarithm of the reduction, nothing overflows and no division is
    by zero, whatever the scaler held before. The values fit their register
    fields: shifts up to 5, main ratios below 512, and a shift factor from 0 to
    10. *)
Theorem scaler_equiv s :
  scalable (SRC_Width s) (TargetHsize_Pr s) -> scalable (SRC_Height s) (TargetVsize_Pr s) ->
  let r := scaler_for (SRC_Width s) (SRC_Height s) (TargetHsize_Pr s) (TargetVsize_Pr s) in
  cmos_ov7740_calculate_scaler_info s = Some (with_sc r s) /\
  0 <= H_Shift r <= 5 /\ 0 <= V_Shift r <= 5 /\ 0 <= SHfactor r <= 10 /\
  0 <= MainHorRatio r < 512 /\ 0 <= MainVerRatio r < 512 /\
  (TargetHsize_Pr s <= SRC_Width s ->
   256 <= MainHorRatio r /\ TargetHsize_Pr s <= PreDstWidth r).
Proof.
  intros Hx Hy r.
  destruct (scale_shift_bounds _ _ Hx) as (Hh & _), (scale_shift_bounds _ _ Hy) as (Hv & _).
  destruct (main_ratio_bounds _ _ Hx) as (Hmh & Hmh'), (main_ratio_bounds _ _ Hy) as (Hmv & _).
  subst r. cbn [scaler_for H_Shift V_Shift SHfactor MainHorRatio MainVerRatio PreDstWidth].
  split_and!; try lia; try done. by apply scaler_run.
Qed.

Lemma scaler_equiv_witness :
  let s := with_src 640 480 (with_target 320 240 (cmos_start (fun _ => 0))) in
  cmos_ov7740_calculate_scaler_info s
  = Some (with_sc (mk_scaler 2 2 1 1 320 240 256 256 8 0) s).
Proof.
  intros s. destruct (scaler_equiv s) as [E _]; [cbn; unfold scalable; lia..|]. exact E.
Defined.

(** * Register fields *)

(** Bits [hi:lo] of a register, as the comments of the driver write them. *)
Definition field (hi lo v : Z) : Z := Z.shiftr v lo mod 2 ^ (hi - lo + 1).

Lemma field_lor hi lo a b : 0 <= lo <= hi ->
  field hi lo (Z.lor a b) = Z.lor (field hi lo a) (field hi lo b).
Proof. intros. unfold field. bits_eq. Qed.

Lemma field_clear hi lo a m : 0 <= lo <= hi -> field hi lo a = 0 ->
  field hi lo (Z.land a m) = 0.
Proof.
  intros Hl Ha. transitivity (Z.land (field hi lo a) (field hi lo m)).
  - unfold field. bits_eq.
  - rewrite Ha. apply Z.land_0_l.
Qed.

Lemma field_u32 hi lo a : 0 <= lo <= hi -> hi < 32 -> field hi lo (u32 a) = field hi lo a.
Proof. intros. unfold field, u32. bits_eq. Qed.

(** A value stored at the low bit of the field. *)
Lemma field_at hi lo n a : 0 <= lo <= hi -> n = lo -> 0 <= a < 2 ^ (hi - lo + 1) ->
  field hi lo (Z.shiftl a n) = a.
Proof.
  intros ? -> Ha. unfold field. rewrite Z.shiftr_shiftl_l by lia.
  rewrite Z.sub_diag, Z.shiftl_0_r. by apply Z.mod_small.
Qed.

(** A value stored above the field. *)
Lemma field_above hi lo n a : 0 <= lo <= hi -> hi < n -> field hi lo (Z.shiftl a n) = 0.
Proof.
  intros. unfold field. rewrite Z.shiftr_shiftl_l by lia. rewrite Z.shiftl_mul_pow2 by lia.
  replace (n - lo) with (n - hi - 1 + (hi - lo + 1)) by lia.
  rewrite Z.pow_add_r, Z.mul_assoc by lia. apply Z.mod_mul. apply Z.pow_nonzero; lia.
Qed.

(** A value stored below the field. *)
Lemma field_below hi lo n a : 0 <= n <= lo -> lo <= hi -> 0 <= a < 2 ^ (lo - n) ->
  field hi lo (Z.shiftl a n) = 0.
Proof.
  intros Hn Hl Ha. unfold field.
  rewrite Z.shiftr_div_pow2, Z.shiftl_mul_pow2 by lia.
  rewrite Z.div_small; [apply Z.mod_0_l; apply Z.pow_nonzero; lia|].
  split; [apply Z.mul_nonneg_nonneg; lia|].
  replace (2 ^ lo) with (2 ^ (lo - n) * 2 ^ n) by (rewrite <- Z.pow_add_r by lia; f_equal; lia).
  apply Z.mul_lt_mono_pos_r; [apply Z.pow_pos_nonneg|]; lia.
Qed.

Lemma field_low hi a : 0 <= hi -> 0 <= a < 2 ^ (hi + 1) -> field hi 0 a = a.
Proof. intros. unfold field. rewrite Z.shiftr_0_r, Z.sub_0_r. by apply Z.mod_small. Qed.

Lemma field_over hi lo a : 0 <= lo <= hi -> 0 <= a < 2 ^ lo -> field hi lo a = 0.
Proof. intros. rewrite <- (Z.shiftl_0_r a). apply field_below; rewrite ?Z.sub_0_r; lia. Qed.

(** A single bit, cleared and set. *)
Lemma field_bit_clear b a : 0 <= b -> field b b (Z.land a (Z.lnot (Z.shiftl 1 b))) = 0.
Proof.
  intros Hb. unfold field. rewrite Z.sub_diag. apply Z.bits_inj'. intros i Hi.
  rewrite testbit_mod, Z.bits_0 by lia. destruct (Z.ltb_spec i (0 + 1)); [|done].
  assert (i = 0) as -> by lia.
  rewrite testbit_shiftr, Z.land_spec, Z.lnot_spec, testbit_shiftl by lia.
  rewrite Z.add_0_l, Z.leb_refl, Z.sub_diag. apply andb_false_r.
Qed.

Lemma field_bit_set b a : 0 <= b -> field b b (Z.lor a (Z.shiftl 1 b)) = 1.
Proof.
  intros Hb. rewrite field_lor by lia.
  rewrite (field_at b b b 1) by (rewrite ?Z.sub_diag; lia). unfold field. rewrite Z.sub_diag.
  pose proof (Z.mod_pos_bound (Z.shiftr a b) (2 ^ (0 + 1))).
  assert (Hx : Z.shiftr a b mod 2 ^ (0 + 1) = 0 \/ Z.shiftr a b mod 2 ^ (0 + 1) = 1) by lia.
  by destruct Hx as [-> | ->].
Qed.

(** Compute a field of a word put together from shifted values. *)
Ltac fields :=
  repeat first [ rewrite field_u32 by lia | rewrite field_lor by lia ];
  repeat first
    [ rewrite field_above by lia | rewrite field_at by lia | rewrite field_below by lia
    | match goal with |- context [field ?hi ?lo ?a] =>
        first [ rewrite (field_low hi a) by lia | rewrite (field_over hi lo a) by lia ] end
    | match goal with H : field ?hi ?lo ?a = 0 |- context [field ?hi ?lo (Z.land ?a ?m)] =>
        rewrite (field_clear hi lo a m) by (done || lia) end
    | match goal with H : field ?hi ?lo ?a = _ |- context [field ?hi ?lo ?a] => rewrite H end ];
  rewrite ?Z.lor_0_l, ?Z.lor_0_r.

Lemma reg_write_same r v rs : reg_write r v rs r = u32 v.
Proof. unfold reg_write. by rewrite decide_True. Qed.
Lemma reg_write_other r r' v rs : r' <> r -> reg_write r v rs r' = rs r'.
Proof. intros. unfold reg_write. by rewrite decide_False. Qed.

(** Read a register after a sequence of writes. *)
Ltac reg_read :=
  unfold reg_or, reg_clear;
  repeat first [ rewrite reg_write_same | rewrite reg_write_other by discriminate ].

(** Bits of the main scaler that [streamon] sets but nothing clears. *)
Definition scaler_clear (rs : regfile) : Prop :=
  field 29 28 (rs CIPRSCCTRL) = 0 /\ field 24 16 (rs CIPRSCCTRL) = 0 /\
  field 8 0 (rs CIPRSCCTRL) = 0.

(** The state S_FMT leaves for a format it accepts. *)
Lemma s_fmt_run f s :
  fmt_type f = V4L2_BUF_TYPE_VIDEO_CAPTURE ->
  pix_pixelformat (fmt_pix f) = V4L2_PIX_FMT_RGB565 \/
  pix_pixelformat (fmt_pix f) = V4L2_PIX_FMT_RGB24 ->
  0 <= pix_width (fmt_pix f) < 2 ^ 13 -> 0 <= pix_height (fmt_pix f) < 2 ^ 13 ->
  exists s' f', cmos_ov7740_vidioc_s_fmt_vid_cap f s = (s', f', 0) /\
  let w := pix_width (fmt_pix f) in
  let h := pix_height (fmt_pix f) in
  let bytes := if pix_pixelformat (fmt_pix f) =? V4L2_PIX_FMT_RGB565 then 2 else 4 in
  TargetHsize_Pr s' = w /\ TargetVsize_Pr s' = h /\
  bytesperline s' = bytes * w /\ buf_size s' = h * (bytes * w) /\
  field 28 16 (regs s' CIPRTRGFMT) = w /\ field 12 0 (regs s' CIPRTRGFMT) = h /\
  field 30 30 (regs s' CIPRSCCTRL) = (if bytes =? 2 then 0 else 1) /\
  (scaler_clear (regs s) -> scaler_clear (regs s')).
Proof.
  intros Ht Hf Hw Hh. unfold cmos_ov7740_vidioc_s_fmt_vid_cap, cmos_ov7740_vidioc_try_fmt_vid_cap.
  rewrite Ht, Z.eqb_refl. cbn [negb].
  set (w := pix_width (fmt_pix f)) in *. set (h := pix_height (fmt_pix f)) in *.
  assert (Hs : forall k, 0 <= k -> Z.shiftr (k * 8 * w) 3 = k * w).
  { intros k Hk. rewrite Z.shiftr_div_pow2 by lia. symmetry.
    apply Z.div_unique_exact; lia. }
  assert (u32 (w * 16) = 2 * 8 * w /\ u32 (w * 32) = 4 * 8 * w) as [U1 U2].
  { split; rewrite u32_small by (unfold is_u32; lia); lia. }
  pose proof (field_bit_clear 30 (regs s CIPRSCCTRL)) as B.
  pose proof (field_bit_set 30 (regs s CIPRSCCTRL)) as B'.
  assert ((V4L2_PIX_FMT_RGB24 =? V4L2_PIX_FMT_RGB565) = false) as N by done.
  destruct Hf as [Ef | Ef]; unfold set_format; rewrite Ef, ?N, !Z.eqb_refl; fold w h;
    cbn [negb andb];
    (rewrite U1 || rewrite U2); rewrite !Hs by lia; rewrite u32_small by (unfold is_u32; nia);
    eexists _, _; (split; [reflexivity|]);
    cbn [with_regs with_size with_target regs TargetHsize_Pr TargetVsize_Pr bytesperline buf_size];
    unfold scaler_clear; reg_read; split_and!; try done; try lia;
    try (rewrite field_u32 by lia; (by apply B) || (by apply B')); fields; try done.
  all: intros (S1 & S2 & S3); split_and!; fields; done.
Qed.

(** What STREAMON programs, for any earlier contents of the main scaler's
    register. *)
Lemma streamon_run s :
  scalable CAM_SRC_HSIZE (TargetHsize_Pr s) -> scalable CAM_SRC_VSIZE (TargetVsize_Pr s) ->
  0 <= bytesperline s ->
  exists s' main rest, cmos_ov7740_vidioc_streamon s = Some (s', 0) /\
  let r := scaler_for CAM_SRC_HSIZE CAM_SRC_VSIZE (TargetHsize_Pr s) (TargetVsize_Pr s) in
  CalculateBurstSize (bytesperline s) = (main, rest) /\
  field 23 19 (regs s' CIPRCTRL) = main /\ field 18 14 (regs s' CIPRCTRL) = rest /\
  field 31 28 (regs s' CIPRSCPRERATIO) = SHfactor r /\
  field 22 16 (regs s' CIPRSCPRERATIO) = PreHorRatio r /\
  field 6 0 (regs s' CIPRSCPRERATIO) = PreVerRatio r /\
  field 27 16 (regs s' CIPRSCPREDST) = PreDstWidth r /\
  field 11 0 (regs s' CIPRSCPREDST) = PreDstHeight r /\
  (let old := regs s CIPRSCCTRL in
   let new := regs s' CIPRSCCTRL in
   field 15 15 new = 1 /\ field 30 30 new = field 30 30 old /\
   field 29 28 new = Z.lor (field 29 28 old) (ScaleUpDown r) /\
   field 24 16 new = Z.lor (field 24 16 old) (MainHorRatio r) /\
   field 8 0 new = Z.lor (field 8 0 old) (MainVerRatio r)) /\
  regs s' CIPRTAREA = u32 (TargetHsize_Pr s * TargetVsize_Pr s) /\
  regs s' CIIMGCPT = Z.shiftl 5 29 /\ regs s' CIPRTRGFMT = regs s CIPRTRGFMT /\
  sc s' = r /\ pages s' = pages s /\ img_buff s' = img_buff s.
Proof.
  intros Hx Hy Hb. destruct (CalculateBurstSize (bytesperline s)) as [main rest] eqn:Eb.
  destruct (burst_spec _ _ _ Hb Eb) as (Hm & Hr & _).
  unfold cmos_ov7740_vidioc_streamon.
  cbn [bytesperline with_regs with_src]. rewrite Eb.
  rewrite scaler_run by (by cbn [SRC_Width SRC_Height TargetHsize_Pr TargetVsize_Pr with_regs with_src]).
  eexists _, main, rest. split; [reflexivity|]. split; [done|].
  cbn [with_regs with_src with_sc regs sc pages img_buff SRC_Width SRC_Height
       TargetHsize_Pr TargetVsize_Pr].
  change (CAM_SRC_HSIZE - 2 * WinHorOfst) with CAM_SRC_HSIZE.
  change (CAM_SRC_VSIZE - 2 * WinVerOfst) with CAM_SRC_VSIZE.
  destruct (scale_shift_bounds _ _ Hx) as (Hh & _), (scale_shift_bounds _ _ Hy) as (Hv & _).
  destruct (main_ratio_bounds _ _ Hx) as (Hmh & _), (main_ratio_bounds _ _ Hy) as (Hmv & _).
  cbn [scaler_for SHfactor PreHorRatio PreVerRatio PreDstWidth PreDstHeight ScaleUpDown
       MainHorRatio MainVerRatio].
  set (h := scale_shift CAM_SRC_HSIZE _) in *. set (v := scale_shift CAM_SRC_VSIZE _) in *.
  assert (P : forall k, 0 <= k <= 5 -> 1 <= 2 ^ k <= 32).
  { intros k Hk. split; [apply Z.lt_pred_le, Z.pow_pos_nonneg; lia|].
    change 32 with (2 ^ 5). apply Z.pow_le_mono_r; lia. }
  pose proof (P h Hh) as Ph. pose proof (P v Hv) as Pv.
  assert (0 <= CAM_SRC_HSIZE / 2 ^ h <= 640).
  { unfold CAM_SRC_HSIZE. split; [apply Z.div_pos; lia|]. apply Z.div_le_upper_bound; lia. }
  assert (0 <= CAM_SRC_VSIZE / 2 ^ v <= 480).
  { unfold CAM_SRC_VSIZE. split; [apply Z.div_pos; lia|]. apply Z.div_le_upper_bound; lia. }
  assert (Hud : forall b : bool, 0 <= (if b then 1 else 0) <= 1) by (intros []; lia).
  specialize (Hud (TargetHsize_Pr s >=? CAM_SRC_HSIZE)).
  set (ud := if _ : bool then 1 else 0) in *. clearbody ud.
  reg_read. split_and!; try reflexivity.
  all: try (rewrite field_u32 by lia; by apply field_bit_set).
  all: fields; done.
Qed.

(** C25. S_FMT followed by STREAMON programs the camera interface for every
    picture from 11x8 to 8191x8191 in both formats, when the bits of the main
    scaler are clear: every field the driver documents holds the value it should,
    the line is a number of main bursts and the remaining burst, the buffer size
    is that of the picture, and capture is enabled. *)
Theorem camera_setup f s :
  let w := pix_width (fmt_pix f) in
  let h := pix_height (fmt_pix f) in
  let rgb565 := pix_pixelformat (fmt_pix f) =? V4L2_PIX_FMT_RGB565 in
  let bytes := if rgb565 then 2 else 4 in
  let r := scaler_for CAM_SRC_HSIZE CAM_SRC_VSIZE w h in
  fmt_type f = V4L2_BUF_TYPE_VIDEO_CAPTURE ->
  pix_pixelformat (fmt_pix f) = V4L2_PIX_FMT_RGB565 \/
  pix_pixelformat (fmt_pix f) = V4L2_PIX_FMT_RGB24 ->
  11 <= w < 2 ^ 13 -> 8 <= h < 2 ^ 13 -> scaler_clear (regs s) ->
  exists s1 f1 s2 main rest n,
  cmos_ov7740_vidioc_s_fmt_vid_cap f s = (s1, f1, 0) /\
  cmos_ov7740_vidioc_streamon s1 = Some (s2, 0) /\
  buf_size s1 = h * (bytes * w) /\
  field 28 16 (regs s2 CIPRTRGFMT) = w /\ field 12 0 (regs s2 CIPRTRGFMT) = h /\
  bytes * w / 4 = n * main + rest /\ 0 <= n /\ 0 < rest <= main /\
  field 23 19 (regs s2 CIPRCTRL) = main /\ field 18 14 (regs s2 CIPRCTRL) = rest /\
  field 31 28 (regs s2 CIPRSCPRERATIO) = SHfactor r /\
  field 22 16 (regs s2 CIPRSCPRERATIO) = PreHorRatio r /\
  field 6 0 (regs s2 CIPRSCPRERATIO) = PreVerRatio r /\
  field 27 16 (regs s2 CIPRSCPREDST) = PreDstWidth r /\
  field 11 0 (regs s2 CIPRSCPREDST) = PreDstHeight r /\
  field 30 30 (regs s2 CIPRSCCTRL) = (if rgb565 then 0 else 1) /\
  field 29 28 (regs s2 CIPRSCCTRL) = ScaleUpDown r /\
  field 24 16 (regs s2 CIPRSCCTRL) = MainHorRatio r /\
  field 8 0 (regs s2 CIPRSCCTRL) = MainVerRatio r /\
  field 15 15 (regs s2 CIPRSCCTRL) = 1 /\
  regs s2 CIPRTAREA = w * h /\ regs s2 CIIMGCPT = Z.shiftl 5 29.
Proof.
  intros w h rgb565 bytes r Ht Hf Hw Hh Hc.
  destruct (s_fmt_run f s Ht Hf) as (s1 & f1 & E1 & F); [lia..|].
  fold w h rgb565 bytes in F. destruct F as (Fw & Fh & Fb & Fs & F1 & F2 & F3 & F4).
  destruct (F4 Hc) as (C1 & C2 & C3).
  assert (Hb : bytes = 2 \/ bytes = 4) by (unfold bytes; destruct rgb565; lia).
  destruct (streamon_run s1) as (s2 & main & rest & E2 & R);
    [rewrite ?Fw, ?Fh; unfold scalable, CAM_SRC_HSIZE, CAM_SRC_VSIZE; lia.. | lia |].
  rewrite Fw, Fh, Fb in R. fold r in R.
  destruct R as (R1 & R2 & R3 & R4 & R5 & R6 & R7 & R8 & (A1 & A2 & A3 & A4 & A5) & R10 & R11 & R12 & _).
  destruct (burst_spec (bytes * w) main rest) as (B1 & B2 & n & B3 & B4); [lia|done|].
  rewrite C1 in A3. rewrite C2 in A4. rewrite C3 in A5. rewrite Z.lor_0_l in *.
  rewrite <- R12 in F1, F2. exists s1, f1, s2, main, rest, n. split_and!; try done; try lia.
  - apply B4. apply Z.div_str_pos. lia.
  - rewrite A2, F3. unfold bytes. by destruct rgb565.
  - rewrite R10. apply u32_small. unfold is_u32. nia.
Qed.

Definition rgb565_format (w h : Z) : v4l2_format :=
  mk_format V4L2_BUF_TYPE_VIDEO_CAPTURE (mk_pix w h V4L2_PIX_FMT_RGB565 0 0 0 0 0).

Lemma camera_setup_witness :
  exists s1 f1 s2,
  cmos_ov7740_vidioc_s_fmt_vid_cap (rgb565_format 320 240) (cmos_start (fun _ => 0))
  = (s1, f1, 0) /\
  cmos_ov7740_vidioc_streamon s1 = Some (s2, 0) /\ regs s2 CIPRTAREA = 76800 /\
  field 24 16 (regs s2 CIPRSCCTRL) = 256.
Proof.
  destruct (camera_setup (rgb565_format 320 240) (cmos_start (fun _ => 0)))
    as (s1 & f1 & s2 & main & rest & n & E1 & E2 & R); [done|by left|done..|].
  exists s1, f1, s2. split_and!; [done|done|apply R|]. transitivity (main_ratio 640 320); [|done].
  apply R.
Defined.

(** Stream one format after the other: the horizontal ratio computed for the
    second one, and the one in the register. *)
Definition restream_ratio (first second : v4l2_format) (s : cmos) : option (Z * Z) :=
  let '(s, _, _) := cmos_ov7740_vidioc_s_fmt_vid_cap first s in
  '(s, _) ← cmos_ov7740_vidioc_streamon s;
  let '(s, _) := cmos_ov7740_vidioc_streamoff s in
  let '(s, _, _) := cmos_ov7740_vidioc_s_fmt_vid_cap second s in
  '(s, _) ← cmos_ov7740_vidioc_streamon s;
  Some (MainHorRatio (sc s), field 24 16 (regs s CIPRSCCTRL)).

(** STREAMON only adds bits to the main scaler's register, and STREAMOFF and
    S_FMT leave them: streaming at 400x300 and then at 640x480 leaves the ratio of
    the first picture in the register. *)
Theorem restream_stale :
  restream_ratio (rgb565_format 400 300) (rgb565_format 640 480) (cmos_start (fun _ => 0))
  = Some (256, 409).
Proof. by vm_compute. Qed.

(** A picture 64 times smaller is not refused: the first stream divides by the
    ratio 0 of the static scaler. *)
Lemma tiny_picture_faults w h s :
  0 < w -> 64 * w <= CAM_SRC_HSIZE -> sc s = zero_scaler ->
  TargetHsize_Pr s = w -> TargetVsize_Pr s = h ->
  cmos_ov7740_vidioc_streamon s = None.
Proof.
  intros Hw Hle Hsc Ew Eh. unfold cmos_ov7740_vidioc_streamon.
  cbn [bytesperline with_regs with_src]. destruct (CalculateBurstSize _) as [main rest].
  unfold cmos_ov7740_calculate_scaler_info.
  cbn [SRC_Width SRC_Height TargetHsize_Pr TargetVsize_Pr sc with_regs with_src].
  rewrite Hsc, Ew. cbn [zero_scaler PreHorRatio H_Shift].
  unfold camif_get_scaler_factor at 1. unfold CAM_SRC_HSIZE, WinHorOfst in *.
  rewrite u32_small by (unfold is_u32; lia).
  destruct (Z.geb_spec (640 - 2 * 0) (64 * w)); [|lia].
  by destruct (camif_get_scaler_factor _ (TargetVsize_Pr s) _) as [vr vs].
Qed.

(** * Buffers *)

Section BufferTheorems.
Context `{PageLaws}.

Lemma get_free_pages_spec order s :
  (page_addr (pages s) order = 0 /\ get_free_pages order s = (0, s)) \/
  exists a d, a <> 0 /\ pages s !! a = None /\
  get_free_pages order s = (a, with_pages (<[a := (order, d)]> (pages s)) s).
Proof.
  unfold get_free_pages. destruct (Z.eqb_spec (page_addr (pages s) order) 0) as [E|E].
  - by left.
  - right. eexists _, _. split_and!; [done|by apply page_addr_fresh|done].
Qed.

(** A buffer gets a block that was not live, or address 0. *)
Lemma get_buffer_spec i order s : (i < length (img_buff s))%nat ->
  exists a ph img', img' = <[i := mk_camif order a ph]> (img_buff s) /\
  ((a = 0 /\ get_buffer i order s = Some (false, with_img img' s)) \/
   (a <> 0 /\ pages s !! a = None /\ exists d,
    get_buffer i order s
    = Some (true, with_img img' (with_pages (<[a := (order, d)]> (pages s)) s)))).
Proof.
  intros Hi. destruct (lookup_lt_is_Some_2 _ _ Hi) as [b Hb].
  unfold get_buffer. rewrite Hb. cbn [mbind option_bind].
  destruct (get_free_pages_spec order s) as [[_ E]|(a & d & Ha & Hf & E)]; rewrite E.
  - eexists 0, _, _. split; [done|]. by left.
  - destruct (Z.eqb_spec a 0); [done|]. cbn [img_buff with_img with_pages].
    assert (Hl : (0 < length (<[i := mk_camif order a (cb_phy_base b)]> (img_buff s)))%nat)
      by (rewrite length_insert; lia).
    destruct (lookup_lt_is_Some_2 _ _ Hl) as [b0 Hb0]. rewrite Hb0. cbn [mbind option_bind].
    rewrite list_insert_insert_eq. eexists a, _, _. split; [done|]. right.
    split_and!; [done..|]. by exists d.
Qed.

(** Freeing the live block of a buffer. *)
Lemma put_buffer_spec i order a ph o d s :
  img_buff s !! i = Some (mk_camif o a ph) -> a <> 0 -> pages s !! a = Some (order, d) ->
  put_buffer i order s
  = Some (with_img (<[i := mk_camif o a 0]> (img_buff s)) (with_pages (delete a (pages s)) s)).
Proof.
  intros Hb Ha Hp. unfold put_buffer, free_pages. rewrite Hb. cbn [mbind option_bind cb_virt_base].
  destruct (Z.eqb_spec a 0); [done|]. rewrite Hp. cbn [mbind option_bind].
  rewrite Z.eqb_refl. done.
Qed.

(** Reading starts with the first buffer; if it is not live, it faults. *)
Lemma read_dead s b bufs signal count ubuf :
  img_buff s = b :: bufs -> pages s !! cb_virt_base b = None ->
  0 < buf_size s -> 0 < count -> ev_cam s <> 0 \/ signal = true ->
  cmos_ov7740_read signal count ubuf s = None.
Proof.
  intros Hi Hp Hs Hc Hw. unfold cmos_ov7740_read.
  assert (Hn : negb (truth (ev_cam s)) && negb signal = false).
  { unfold truth. destruct Hw as [Hw| ->]; [|apply andb_false_r].
    by destruct (Z.eqb_spec (ev_cam s) 0). }
  rewrite Hn, Hi. cbn [read_loop]. unfold copy_image.
  destruct (Z.eqb_spec (Z.min (buf_size s) count) 0); [lia|]. by rewrite Hp.
Qed.

(** Releasing a first buffer that is not live frees it again. *)
Lemma release_dead s b bufs :
  img_buff s = b :: bufs -> pages s !! cb_virt_base b = None -> cb_virt_base b <> 0 ->
  cmos_ov7740_release s = None.
Proof.
  intros Hi Hp Hb. unfold cmos_ov7740_release, put_buffer, free_pages. rewrite Hi.
  cbn [lookup list_lookup mbind option_bind].
  destruct (Z.eqb_spec (cb_virt_base b) 0); [done|]. by rewrite Hp.
Qed.

(** The first [k] buffers hold live blocks of the given order, and without these
    blocks the live pages are [p]. *)
Fixpoint held (order : Z) (k : nat) (p : page_map) (img : list camif_buffer) (q : page_map)
  : Prop :=
  match k with
  | O => q = p
  | S k => exists o a ph d, img !! k = Some (mk_camif o a ph) /\ a <> 0 /\ p !! a = None /\
             q !! a = Some (order, d) /\ held order k p img (delete a q)
  end.

Lemma held_ext order k p img img' q :
  (forall i, (i < k)%nat -> img' !! i = img !! i) -> held order k p img q -> held order k p img' q.
Proof.
  revert q. induction k as [|k IH]; intros q Hi; [done|].
  intros (o & a & ph & d & Hb & Ha & Hf & Hq & Hh). exists o, a, ph, d.
  rewrite Hi by lia. split_and!; try done. apply IH; [|done]. intros. apply Hi. lia.
Qed.

Lemma held_sub order k p img q a : held order k p img q -> q !! a = None -> p !! a = None.
Proof.
  revert q. induction k as [|k IH]; intros q; [by intros <-|].
  intros (o & b & ph & d & _ & _ & Hf & _ & Hh) Hq. apply (IH _ Hh).
  apply lookup_delete_None. by right.
Qed.

Lemma held_push order k p img q o a ph d :
  held order k p img q -> q !! a = None -> a <> 0 -> (k < length img)%nat ->
  held order (S k) p (<[k := mk_camif o a ph]> img) (<[a := (order, d)]> q).
Proof.
  intros Hh Hq Ha Hk. exists o, a, ph, d.
  rewrite list_lookup_insert_eq, lookup_insert_eq, delete_insert_id by done.
  split_and!; try done; [by eapply held_sub|].
  eapply held_ext; [|done]. intros i Hi. by rewrite list_lookup_insert_ne by lia.
Qed.

(** One more live block beside those held. *)
Lemma held_beside order k p img q a x :
  held order k p img q -> q !! a = None ->
  held order k (<[a := x]> p) img (<[a := x]> q).
Proof.
  revert q. induction k as [|k IH]; intros q; [by intros <-|].
  intros (o & b & ph & d & Hb & Hb0 & Hf & Hq & Hh) Ha. exists o, b, ph, d.
  assert (a <> b) by congruence. rewrite !lookup_insert_ne by done.
  split_and!; try done. rewrite delete_insert_ne by done.
  apply IH; [done|]. apply lookup_delete_None. by right.
Qed.

Lemma held_first order k p img q : (0 < k)%nat -> held order k p img q ->
  exists b, img !! 0%nat = Some b /\ p !! cb_virt_base b = None.
Proof.
  intros Hk. destruct k as [|k]; [lia|]. clear Hk. revert q.
  induction k as [|k IH]; intros q (o & a & ph & d & Hb & _ & Hf & _ & Hh).
  - by eexists.
  - apply (IH _ Hh).
Qed.

(** The cleanup from label [k] on. *)
Fixpoint unwind (k : nat) (order : Z) (s : cmos) : option (cmos * Z) :=
  match k with
  | O => error0 s
  | S k => s ← put_buffer k order s; unwind k order s
  end.

Lemma unwind_spec k order p s : held order k p (img_buff s) (pages s) ->
  exists s', unwind k order s = Some (s', - ENOMEM) /\ pages s' = p /\
  cb_virt_base <$> img_buff s' = cb_virt_base <$> img_buff s /\
  buf_size s' = buf_size s /\ ev_cam s' = ev_cam s.
Proof.
  revert s. induction k as [|k IH]; intros s; [intros <-; by exists s|].
  intros (o & a & ph & d & Hb & Ha & Hf & Hq & Hh). cbn [unwind].
  rewrite (put_buffer_spec _ _ _ _ _ _ _ Hb Ha Hq). cbn [mbind option_bind].
  edestruct IH as (s' & E & Ep & Ei & Es & Ee); [|exists s'; split_and!; [exact E|exact Ep|..]].
  - cbn [img_buff pages with_img with_pages]. eapply held_ext; [|done].
    intros i Hi. by rewrite list_lookup_insert_ne by lia.
  - rewrite Ei. cbn [img_buff with_img with_pages].
    rewrite list_fmap_insert.
    apply list_insert_id. rewrite list_lookup_fmap, Hb. done.
  - done.
  - done.
Qed.

(** What every path through REQBUFS leaves: the first buffer's block is not live,
    and at most the fourth buffer's block is live beside those before. *)
Definition reqbufs_end (s s' : cmos) : Prop :=
  buf_size s' = buf_size s /\ ev_cam s' = ev_cam s /\
  (exists b, img_buff s' !! 0%nat = Some b /\ pages s' !! cb_virt_base b = None) /\
  (pages s' = pages s \/
   exists a d, a <> 0 /\ pages s !! a = None /\
   pages s' = <[a := (get_order (buf_size s), d)]> (pages s) /\
   cb_virt_base <$> img_buff s' !! 3%nat = Some a).

(** The cleanup from label [k] on, when the blocks are those of REQBUFS. *)
Lemma unwind_end k s t p : (0 < k)%nat ->
  held (get_order (buf_size s)) k p (img_buff t) (pages t) ->
  buf_size t = buf_size s -> ev_cam t = ev_cam s ->
  p = pages s \/
  (exists a d, a <> 0 /\ pages s !! a = None /\
   p = <[a := (get_order (buf_size s), d)]> (pages s) /\
   cb_virt_base <$> img_buff t !! 3%nat = Some a) ->
  exists s', unwind k (get_order (buf_size s)) t = Some (s', - ENOMEM) /\ reqbufs_end s s'.
Proof.
  intros Hk Hh Es Ee Hp. destruct (held_first _ _ _ _ _ Hk Hh) as (b & Hb & Hf).
  destruct (unwind_spec _ _ _ _ Hh) as (s' & E & <- & Ei & Es' & Ee').
  exists s'. split; [done|]. unfold reqbufs_end. rewrite Es', Ee'. split_and!; try done.
  - assert (Hb' : (cb_virt_base <$> img_buff s') !! 0%nat = Some (cb_virt_base b)).
    { rewrite Ei, list_lookup_fmap, Hb. done. }
    rewrite list_lookup_fmap in Hb'. destruct (img_buff s' !! 0%nat) as [b'|]; [|done].
    injection Hb' as Eb. exists b'. split; [done|]. by rewrite Eb.
  - rewrite <- !list_lookup_fmap, Ei, !list_lookup_fmap. exact Hp.
Qed.

(** The next buffer of REQBUFS: without memory the blocks held are given back. *)
Lemma get_buffer_next k s t K :
  held (get_order (buf_size s)) k (pages s) (img_buff t) (pages t) ->
  (k < length (img_buff t))%nat -> (0 < k)%nat ->
  buf_size t = buf_size s -> ev_cam t = ev_cam s ->
  (forall t' a ph, a <> 0 -> pages t !! a = None ->
   held (get_order (buf_size s)) (S k) (pages s) (img_buff t') (pages t') ->
   img_buff t' = <[k := mk_camif (get_order (buf_size s)) a ph]> (img_buff t) ->
   (exists d, pages t' = <[a := (get_order (buf_size s), d)]> (pages t)) ->
   buf_size t' = buf_size s -> ev_cam t' = ev_cam s ->
   exists s', K t' = Some (s', - ENOMEM) /\ reqbufs_end s s') ->
  exists s', ('(ok, t) ← get_buffer k (get_order (buf_size s)) t;
              if negb ok then unwind k (get_order (buf_size s)) t else K t)
             = Some (s', - ENOMEM) /\ reqbufs_end s s'.
Proof.
  intros Hh Hl Hk Es Ee HK.
  destruct (get_buffer_spec k (get_order (buf_size s)) t Hl)
    as (a & ph & img' & -> & [[-> E]|(Ha & Hf & d & E)]); rewrite E; cbn [mbind option_bind negb].
  - apply (unwind_end k s _ (pages s)); [done| |done..|by left].
    eapply held_ext; [|exact Hh]. intros i Hi. cbn [img_buff with_img].
    by rewrite list_lookup_insert_ne by lia.
  - apply (HK _ a ph); try done; [by apply held_push|by exists d].
Qed.

Lemma point_camera_spec s : length (img_buff s) = 4%nat ->
  exists rs, point_camera s = Some (with_regs rs s).
Proof.
  intros Hl. unfold point_camera. destruct (img_buff s) as [|b0 [|b1 [|b2 [|b3 [|]]]]]; try done.
  by eexists (fun r => _ (_ (_ (_ r)))).
Qed.

Lemma reqbufs_run s : length (img_buff s) = 4%nat -> pages s !! 0 = None ->
  exists s', cmos_ov7740_vidioc_reqbufs s = Some (s', - ENOMEM) /\ reqbufs_end s s'.
Proof.
  intros Hl Hz. unfold cmos_ov7740_vidioc_reqbufs.
  destruct (get_buffer_spec 0 (get_order (buf_size s)) s)
    as (a & ph & img' & -> & [[-> E]|(Ha & Hf & d & E)]); [lia|..]; rewrite E;
    cbn [mbind option_bind negb].
  { eexists. split; [done|]. split_and!; [done..| |by left].
    eexists. split; [apply list_lookup_insert_eq; lia|done]. }
  eapply (get_buffer_next 1 s);
    [apply (held_push _ 0 _ _ (pages s)); [done..|lia]|cbn; rewrite length_insert; lia|lia|done..|].
  intros t1 a1 ph1 Ha1 Hf1 Hh1 Ei1 [d1 Ep1] Es1 Ee1.
  assert (L1 : length (img_buff t1) = 4%nat) by (rewrite Ei1; cbn; by rewrite !length_insert).
  eapply (get_buffer_next 2 s); [done|lia|lia|done..|].
  intros t2 a2 ph2 Ha2 Hf2 Hh2 Ei2 [d2 Ep2] Es2 Ee2.
  assert (L2 : length (img_buff t2) = 4%nat) by (rewrite Ei2; by rewrite !length_insert).
  eapply (get_buffer_next 3 s); [done|lia|lia|done..|].
  intros t3 a3 ph3 Ha3 Hf3 Hh3 Ei3 [d3 Ep3] Es3 Ee3.
  assert (L3 : length (img_buff t3) = 4%nat) by (rewrite Ei3; by rewrite !length_insert).
  destruct (point_camera_spec t3 L3) as (rs & ->). cbn [mbind option_bind].
  eapply (unwind_end 3 s (with_regs rs t3)); [lia|cbn [img_buff pages with_regs]|done..|].
  - rewrite Ep3. apply held_beside; [|exact Hf3].
    eapply held_ext; [|exact Hh2]. intros i Hi. by rewrite Ei3, list_lookup_insert_ne by lia.
  - right. exists a3, d3. split_and!; [done|exact (held_sub _ _ _ _ _ _ Hh2 Hf3)|done|].
    cbn [img_buff with_regs]. rewrite Ei3, list_lookup_insert_eq by lia. done.
Qed.

(** REQBUFS never succeeds: the code that gives back the buffers on an error
    also runs when all four were allocated. Every call returns -ENOMEM without a
    fault, leaves at most the fourth block allocated, and leaves the first buffer
    pointing to memory that is not allocated; a later [read] that does not sleep
    accesses it, and releasing the device frees it a second time. *)
Theorem reqbufs_fails s : length (img_buff s) = 4%nat -> pages s !! 0 = None ->
  exists s' b, cmos_ov7740_vidioc_reqbufs s = Some (s', - ENOMEM) /\
  (pages s' = pages s \/
   exists a d, a <> 0 /\ pages s !! a = None /\
   pages s' = <[a := (get_order (buf_size s), d)]> (pages s) /\
   cb_virt_base <$> img_buff s' !! 3%nat = Some a) /\
  img_buff s' !! 0%nat = Some b /\ pages s' !! cb_virt_base b = None /\
  (cb_virt_base b <> 0 -> cmos_ov7740_release s' = None) /\
  (forall signal count ubuf, 0 < buf_size s -> 0 < count -> ev_cam s <> 0 \/ signal = true ->
   cmos_ov7740_read signal count ubuf s' = None).
Proof.
  intros Hl Hz. destruct (reqbufs_run s Hl Hz) as (s' & E & Es & Ee & (b & Hb & Hf) & Hp).
  exists s', b. destruct (img_buff s') as [|b' bufs] eqn:Ei; [done|]. injection Hb as ->.
  split_and!; try done.
  - intros Hb. by eapply release_dead.
  - intros signal count ubuf Hs Hc Hw. eapply read_dead; try done; [lia|by rewrite Ee].
Qed.
End BufferTheorems.

(** An allocator for examples: it serves orders below 11 from a list of
    addresses, taking the first that is not live. *)
Definition sim_addrs : list Z := map (fun k => 0xC0000000 + k * 0x800000) [1; 2; 3; 4; 5; 6; 7; 8].

#[export] Instance sim_page_ops : PageOps := {
  page_addr p o :=
    if 11 <=? o then 0
    else match filter (fun a => p !! a = None) sim_addrs with [] => 0 | a :: _ => a end;
  page_data _ o := replicate (Z.to_nat (PAGE_SIZE * 2 ^ o)) 0;
  virt_to_phys a := a - 0xC0000000 + 0x30000000;
}.

#[export] Instance sim_page_laws : PageLaws.
Proof.
  constructor; cbn [page_addr page_data sim_page_ops].
  - intros p o. destruct (11 <=? o); [done|].
    destruct (filter _ sim_addrs) as [|a l] eqn:E; [done|]. intros _.
    assert (Ha : a ∈ filter (fun a => p !! a = None) sim_addrs) by (rewrite E; left).
    by apply list_elem_of_filter in Ha as [Ha _].
  - intros p o Ho. by apply Z.leb_le in Ho as ->.
  - intros p o Ho. rewrite zlen_replicate. unfold PAGE_SIZE.
    assert (0 < 2 ^ o) by (apply Z.pow_pos_nonneg; lia). lia.
Qed.

(** The driver with its size set to 4 pages. *)
Lemma reqbufs_fails_witness :
  exists s' b, cmos_ov7740_vidioc_reqbufs (with_size 16384 128 (cmos_start (fun _ => 0)))
  = Some (s', - ENOMEM) /\ img_buff s' !! 0%nat = Some b /\ pages s' !! cb_virt_base b = None /\
  (forall ubuf, cmos_ov7740_read true 100 ubuf s' = None).
Proof.
  destruct (reqbufs_fails (with_size 16384 128 (cmos_start (fun _ => 0))))
    as (s' & b & E & _ & Hb & Hp & _ & Hr); [done|done|].
  exists s', b. split_and!; [done..|]. intros ubuf. apply Hr; [done|done|by right].
Defined.

(** * Reading *)

Section ReadTheorems.

(** A block of at least [n] bytes at an address. *)
Definition live_bytes (s : cmos) (n : Z) (b : camif_buffer) (data : mem) : Prop :=
  exists o, pages s !! cb_virt_base b = Some (o, data) /\ n <= zlen data.

Lemma copy_image_ok s n b data ubuf : live_bytes s n b data -> 0 < n <= zlen ubuf ->
  copy_image (cb_virt_base b) n ubuf s
  = Some (take (Z.to_nat n) data ++ drop (Z.to_nat n) ubuf, false).
Proof.
  intros (o & Hp & Hd) Hn. unfold copy_image. destruct (Z.eqb_spec n 0); [lia|].
  rewrite Hp. cbn [mbind option_bind]. rewrite mem_read_in by lia.
  cbn [mbind option_bind]. rewrite Z.min_l, Z.ltb_irrefl, take_take, Nat.min_id by lia.
  change (drop (Z.to_nat 0) data) with data.
  assert (Hl : zlen (take (Z.to_nat n) data) = n) by (unfold zlen in *; rewrite length_take; lia).
  rewrite mem_write_in by lia. cbn [mbind option_bind].
  unfold zlen in Hl. rewrite Z2Nat.inj_0. cbn [take app Nat.add].
  by replace (length (take (Z.to_nat n) data)) with (Z.to_nat n) by lia.
Qed.

(** The copies overwrite each other: the last buffer is what the user gets. *)
Lemma read_loop_last s n bufs b datas data ubuf :
  Forall2 (live_bytes s n) bufs datas -> live_bytes s n b data -> 0 < n <= zlen ubuf ->
  read_loop (bufs ++ [b]) n ubuf s
  = Some (take (Z.to_nat n) data ++ drop (Z.to_nat n) ubuf, false).
Proof.
  intros Hf Hb. revert ubuf.
  induction Hf as [|b' data' bufs datas Hb' Hf IH]; intros ubuf Hn; cbn [app read_loop].
  - by rewrite (copy_image_ok s n b data).
  - rewrite (copy_image_ok s n b' data') by done. cbn [mbind option_bind].
    assert (Hl : length (take (Z.to_nat n) data') = Z.to_nat n).
    { destruct Hb' as (o & _ & Hd). unfold zlen in Hd. rewrite length_take. lia. }
    rewrite IH.
    + do 2 f_equal. rewrite drop_app_length'; [done|lia].
    + rewrite zlen_app. unfold zlen in *. rewrite length_drop, Hl. lia.
Qed.

(** A [read] with four live buffers and a frame ready. *)
Lemma read_frame s b0 b1 b2 b3 d0 d1 d2 d3 signal count ubuf :
  let n := Z.min (buf_size s) count in
  img_buff s = [b0; b1; b2; b3] -> ev_cam s <> 0 ->
  live_bytes s n b0 d0 -> live_bytes s n b1 d1 -> live_bytes s n b2 d2 -> live_bytes s n b3 d3 ->
  0 < n <= zlen ubuf ->
  cmos_ov7740_read signal count ubuf s
  = Some (Returned (with_ev 0 s) (take (Z.to_nat n) d3 ++ drop (Z.to_nat n) ubuf) (s32 n)).
Proof.
  intros n Hi He H0 H1 H2 H3 Hn. unfold cmos_ov7740_read, truth. fold n.
  destruct (Z.eqb_spec (ev_cam s) 0); [done|]. cbn [negb andb]. rewrite Hi.
  change [b0; b1; b2; b3] with ([b0; b1; b2] ++ [b3]).
  rewrite (read_loop_last s n _ _ [d0; d1; d2] d3) by (done || by repeat constructor). done.
Qed.

End ReadTheorems.

(** * The driver as a machine *)

(** The calls of the application and the two interrupts. *)
Inductive cmos_event :=
  | C_s_fmt (f : v4l2_format)
  | C_reqbufs
  | C_streamon
  | C_streamoff
  | C_read (signal : bool) (count : Z) (ubuf : mem)
  | C_release
  | C_irq_c
  | C_irq_p.

Definition cmos_handle `{PageOps} (e : cmos_event) (s : cmos) : option cmos :=
  match e with
  | C_s_fmt f => Some (cmos_ov7740_vidioc_s_fmt_vid_cap f s).1.1
  | C_reqbufs => fst <$> cmos_ov7740_vidioc_reqbufs s
  | C_streamon => fst <$> cmos_ov7740_vidioc_streamon s
  | C_streamoff => Some (cmos_ov7740_vidioc_streamoff s).1
  | C_read signal count ubuf =>
      r ← cmos_ov7740_read signal count ubuf s;
      Some (match r with Sleeping => s | Returned s _ _ => s end)
  | C_release => cmos_ov7740_release s
  | C_irq_c => Some (cmos_ov7740_camif_irq_c s)
  | C_irq_p => Some (cmos_ov7740_camif_irq_p s)
  end.

(** The sizes of a format are [__u32]s. *)
Definition cmos_event_ok (e : cmos_event) : Prop :=
  match e with
  | C_s_fmt f => is_u32 (pix_width (fmt_pix f)) /\ is_u32 (pix_height (fmt_pix f))
  | _ => True
  end.

(** States after [probe], from any contents of the registers. *)
Inductive cmos_reachable `{PageOps} : cmos -> Prop :=
  | cmos_probed rs : (forall r, is_u32 (rs r)) ->
      cmos_reachable (cmos_ov7740_probe (cmos_start rs)).1.1
  | cmos_step e s s' : cmos_reachable s -> cmos_event_ok e -> cmos_handle e s = Some s' ->
      cmos_reachable s'.

Definition scaler_typed (c : cmos_ov7740_scaler) : Prop :=
  is_u32 (PreHorRatio c) /\ is_u32 (PreVerRatio c) /\ is_u32 (H_Shift c) /\ is_u32 (V_Shift c) /\
  is_u32 (PreDstWidth c) /\ is_u32 (PreDstHeight c) /\ is_u32 (MainHorRatio c) /\
  is_u32 (MainVerRatio c) /\ is_u32 (SHfactor c) /\ (ScaleUpDown c = 0 \/ ScaleUpDown c = 1).

(** The registers and the variables other than the buffers hold values of their types,
    there are four buffers, and no block lies at NULL. *)
Record cmos_typed (s : cmos) : Prop := {
  ct_regs r : is_u32 (regs s r);
  ct_sc : scaler_typed (sc s);
  ct_img : length (img_buff s) = 4%nat;
  ct_src : is_u32 (SRC_Width s) /\ is_u32 (SRC_Height s);
  ct_target : is_u32 (TargetHsize_Pr s) /\ is_u32 (TargetVsize_Pr s);
  ct_size : is_u32 (buf_size s) /\ is_u32 (bytesperline s);
  ct_ev : ev_cam s = 0 \/ ev_cam s = 1;
  ct_null : pages s !! 0 = None
}.

Lemma reg_write_typed r v rs : (forall r, is_u32 (rs r)) -> forall r', is_u32 (reg_write r v rs r').
Proof. intros Hr r'. unfold reg_write. case_decide; [apply u32_range|apply Hr]. Qed.

Lemma typed_write r v s : cmos_typed s -> cmos_typed (with_regs (reg_write r v) s).
Proof. intros []. split; try done. by apply reg_write_typed. Qed.
Lemma typed_or r v s : cmos_typed s -> cmos_typed (with_regs (reg_or r v) s).
Proof. apply typed_write. Qed.
Lemma typed_clear r v s : cmos_typed s -> cmos_typed (with_regs (reg_clear r v) s).
Proof. apply typed_write. Qed.

Create HintDb typed.
#[local] Hint Resolve typed_write typed_or typed_clear : typed.

Lemma u32_div a b : is_u32 a -> 0 <= b -> is_u32 (a / b).
Proof.
  unfold is_u32. intros Ha Hb. destruct (decide (b = 0)) as [->|]; [rewrite Z.div_0_r; lia|].
  split; [apply Z.div_pos; lia|]. apply Z.le_lt_trans with a; [|lia].
  apply Z.div_le_upper_bound; nia.
Qed.

Lemma s_fmt_typed f s : is_u32 (pix_width (fmt_pix f)) -> is_u32 (pix_height (fmt_pix f)) ->
  cmos_typed s -> cmos_typed (cmos_ov7740_vidioc_s_fmt_vid_cap f s).1.1.
Proof.
  intros Hw Hh Hs. unfold cmos_ov7740_vidioc_s_fmt_vid_cap. case_if; [done|].
  assert (Ht : cmos_typed (with_target (pix_width (fmt_pix f)) (pix_height (fmt_pix f)) s))
    by (destruct Hs; by split).
  assert (Hf : forall bpp t, cmos_typed t -> cmos_typed (set_format bpp f t).1).
  { intros bpp t []. split; try done. cbn. split; [apply u32_range|].
    rewrite Z.shiftr_div_pow2 by lia. apply u32_div; [apply u32_range|lia]. }
  destruct (pix_pixelformat _ =? V4L2_PIX_FMT_RGB565); [|destruct (_ =? V4L2_PIX_FMT_RGB24)];
    cbn [set_format fst]; apply typed_write; try done;
    [apply (Hf 16)|apply (Hf 32)]; auto with typed.
Qed.

Lemma factor_typed src tar old : is_u32 old.1 -> is_u32 old.2 ->
  is_u32 (camif_get_scaler_factor src tar old).1 /\ is_u32 (camif_get_scaler_factor src tar old).2.
Proof. intros. unfold camif_get_scaler_factor. repeat case_if; done. Qed.

Lemma udiv_typed a b c : is_u32 a -> 0 <= b -> udiv a b = Some c -> is_u32 c.
Proof. unfold udiv. intros Ha Hb E. case_if_in E; [done|]. injection E as <-. by apply u32_div. Qed.

Lemma scaler_typed_ok s s' : cmos_typed s -> cmos_ov7740_calculate_scaler_info s = Some s' ->
  cmos_typed s'.
Proof.
  intros Hs E. unfold cmos_ov7740_calculate_scaler_info in E. pose proof Hs as Hs0.
  destruct Hs as [_ (S1 & S2 & S3 & S4 & _) _ [W1 W2] [T1 T2] _ _ _].
  destruct (factor_typed (SRC_Width s) (TargetHsize_Pr s) (PreHorRatio (sc s), H_Shift (sc s)))
    as [F1 F2]; [done..|].
  destruct (factor_typed (SRC_Height s) (TargetVsize_Pr s) (PreVerRatio (sc s), V_Shift (sc s)))
    as [F3 F4]; [done..|].
  destruct (camif_get_scaler_factor (SRC_Width s) _ _) as [hr hs].
  destruct (camif_get_scaler_factor (SRC_Height s) _ _) as [vr vs]. cbn [fst snd] in *.
  apply bind_Some in E as (dw & Hdw & E). apply bind_Some in E as (dh & Hdh & E).
  apply bind_Some in E as (mh & Hmh & E). apply bind_Some in E as (mv & Hmv & [= <-]).
  apply udiv_typed in Hdw; [|done|apply F1]. apply udiv_typed in Hdh; [|done|apply F3].
  apply udiv_typed in Hmh; [|apply u32_range|apply u32_range].
  apply udiv_typed in Hmv; [|apply u32_range|apply u32_range].
  destruct Hs0. split; try done. cbn. unfold scaler_typed. cbn. split_and!; try done; [apply u32_range|].
  case_if; auto.
Qed.

Lemma streamon_typed s s' r : cmos_typed s -> cmos_ov7740_vidioc_streamon s = Some (s', r) ->
  cmos_typed s'.
Proof.
  intros Hs E. unfold cmos_ov7740_vidioc_streamon in E.
  destruct (CalculateBurstSize _) as [main rest]. apply bind_Some in E as (s1 & Hsc & [= <- _]).
  assert (Hsrc : forall t, cmos_typed t ->
    cmos_typed (with_src (CAM_SRC_HSIZE - 2 * WinHorOfst) (CAM_SRC_VSIZE - 2 * WinVerOfst) t))
    by (intros t []; by split).
  apply scaler_typed_ok in Hsc; auto 10 with typed.
Qed.

Section MachineTheorems.
Context `{PageLaws}.

Lemma typed_img l s : length l = length (img_buff s) -> cmos_typed s -> cmos_typed (with_img l s).
Proof. intros Hl []. split; try done. cbn. congruence. Qed.

Lemma get_buffer_typed i order s ok s' : cmos_typed s -> get_buffer i order s = Some (ok, s') ->
  cmos_typed s'.
Proof.
  intros Hs E. unfold get_buffer, get_free_pages in E. apply bind_Some in E as (b & _ & E).
  destruct (Z.eqb_spec (page_addr (pages s) order) 0) as [Ea|Ea].
  - cbn [Z.eqb] in E. injection E as _ <-. by apply typed_img; [apply length_insert|].
  - set (s1 := with_pages _ s) in E.
    assert (Hs1 : cmos_typed s1).
    { destruct Hs. split; try done. cbn. by rewrite lookup_insert_ne. }
    rewrite (proj2 (Z.eqb_neq _ _) Ea) in E. apply bind_Some in E as (b0 & _ & [= _ <-]).
    apply typed_img; [cbn; by rewrite !length_insert|]. by apply typed_img; [apply length_insert|].
Qed.

Lemma put_buffer_typed i order s s' : cmos_typed s -> put_buffer i order s = Some s' -> cmos_typed s'.
Proof.
  intros Hs E. unfold put_buffer, free_pages in E. apply bind_Some in E as (b & _ & E).
  apply bind_Some in E as (s1 & E1 & [= <-]). apply typed_img; [apply length_insert|].
  case_if_in E1; [by injection E1 as <-|]. apply bind_Some in E1 as ([o d] & _ & E1).
  case_if_in E1; [|done]. injection E1 as <-. destruct Hs. split; try done. cbn.
  rewrite lookup_delete_None. by right.
Qed.

Lemma release_typed s s' : cmos_typed s -> cmos_ov7740_release s = Some s' -> cmos_typed s'.
Proof.
  intros Hs E. unfold cmos_ov7740_release in E. apply bind_Some in E as (s1 & E1 & E).
  apply bind_Some in E as (s2 & E2 & E). apply bind_Some in E as (s3 & E3 & E).
  eauto using put_buffer_typed.
Qed.

Lemma error_typed order s :
  cmos_typed s -> (forall s' r, error1 order s = Some (s', r) -> cmos_typed s') /\
  (forall s' r, error2 order s = Some (s', r) -> cmos_typed s') /\
  (forall s' r, error3 order s = Some (s', r) -> cmos_typed s').
Proof.
  intros Hs.
  assert (E1 : forall t s' r, cmos_typed t -> error1 order t = Some (s', r) -> cmos_typed s').
  { intros t s' r Ht (t1 & Ht1 & [= <- _])%bind_Some. by eapply put_buffer_typed. }
  assert (E2 : forall t s' r, cmos_typed t -> error2 order t = Some (s', r) -> cmos_typed s').
  { intros t s' r Ht (t1 & Ht1 & ?)%bind_Some. eauto using put_buffer_typed. }
  split_and!; [by eauto..|]. intros s' r (t1 & Ht1 & ?)%bind_Some. eauto using put_buffer_typed.
Qed.

Lemma reqbufs_typed s s' r : cmos_typed s -> cmos_ov7740_vidioc_reqbufs s = Some (s', r) ->
  cmos_typed s'.
Proof.
  intros Hs E. unfold cmos_ov7740_vidioc_reqbufs in E. set (order := get_order _) in E.
  apply bind_Some in E as ([ok0 s0] & E0 & E). apply get_buffer_typed in E0; [|done].
  destruct (error_typed order s0 E0) as (Q1 & _). destruct ok0; cbn [negb] in E; [|by injection E as <- _].
  apply bind_Some in E as ([ok1 s1] & E1 & E). apply get_buffer_typed in E1; [|done].
  destruct (error_typed order s1 E1) as (R1 & R2 & R3). destruct ok1; cbn [negb] in E; [|by eapply R1].
  apply bind_Some in E as ([ok2 s2] & E2 & E). apply get_buffer_typed in E2; [|done].
  destruct (error_typed order s2 E2) as (_ & T2 & _). destruct ok2; cbn [negb] in E; [|by eapply T2].
  apply bind_Some in E as ([ok3 s3] & E3 & E). apply get_buffer_typed in E3; [|done].
  destruct (error_typed order s3 E3) as (_ & _ & U3). destruct ok3; cbn [negb] in E; [|by eapply U3].
  apply bind_Some in E as (s4 & E4 & E). unfold point_camera in E4.
  repeat (apply bind_Some in E4 as (? & _ & E4)). injection E4 as <-.
  eapply (error_typed order); [|exact E]. auto 10 with typed.
Qed.

Lemma cmos_handle_typed e s s' : cmos_typed s -> cmos_event_ok e -> cmos_handle e s = Some s' ->
  cmos_typed s'.
Proof.
  intros Hs He E. destruct e; cbn [cmos_handle] in E.
  - injection E as <-. destruct He. by apply s_fmt_typed.
  - apply fmap_Some in E as ([s1 r] & E & ->). by eapply reqbufs_typed.
  - apply fmap_Some in E as ([s1 r] & E & ->). by eapply streamon_typed.
  - injection E as <-. cbn. auto with typed.
  - apply bind_Some in E as (r & Hr & [= <-]). unfold cmos_ov7740_read in Hr.
    case_if_in Hr; [by injection Hr as <-|]. apply bind_Some in Hr as ([u fault] & _ & Hr).
    destruct fault; injection Hr as <-; [done|]. destruct Hs. split; try done. by left.
  - by eapply release_typed.
  - by injection E as <-.
  - injection E as <-. unfold cmos_ov7740_camif_irq_p.
    assert (Hev : forall t, cmos_typed t -> cmos_typed (with_ev 1 t)) by (intros t []; split; auto).
    auto with typed.
Qed.

Lemma reachable_typed s : cmos_reachable s -> cmos_typed s.
Proof.
  induction 1 as [rs Hrs|e s s' _ IH He E]; [|by eapply cmos_handle_typed].
  cbn. unfold cmos_ov7740_reset, cmos_ov7740_camif_reset, cmos_ov7740_gpio_cfg.
  assert (cmos_typed (cmos_start rs)) by (split; cbn; try done; unfold scaler_typed, is_u32; cbn; lia).
  auto 20 with typed.
Qed.

(** C26. REQBUFS never succeeds: the code that gives back the buffers on an error also
    runs when all four were allocated. In every state that the calls of an application
    and the interrupts reach after [probe], it returns -ENOMEM without a fault and
    leaves a state of this kind. What was allocated is freed again, but for the fourth
    block, which leaks if all four were allocated. The first buffer is left pointing
    to memory that is not allocated: a [read] of at least one byte that does not sleep
    accesses it, if the driver has a picture size, and unless the pointer is NULL
    releasing the device frees it a second time. *)
Theorem reqbufs_never_succeeds s : cmos_reachable s ->
  exists s' b, cmos_ov7740_vidioc_reqbufs s = Some (s', - ENOMEM) /\ cmos_reachable s' /\
  (pages s' = pages s \/
   exists a d, a <> 0 /\ pages s !! a = None /\
   pages s' = <[a := (get_order (buf_size s), d)]> (pages s) /\
   cb_virt_base <$> img_buff s' !! 3%nat = Some a) /\
  img_buff s' !! 0%nat = Some b /\ pages s' !! cb_virt_base b = None /\
  (cb_virt_base b <> 0 -> cmos_ov7740_release s' = None) /\
  (forall signal count ubuf, 0 < buf_size s -> 0 < count -> ev_cam s <> 0 \/ signal = true ->
   cmos_ov7740_read signal count ubuf s' = None).
Proof.
  intros Hr. pose proof (reachable_typed s Hr) as Ht.
  destruct (reqbufs_fails s) as (s' & b & E & Hrest); [apply Ht..|]. exists s', b.
  split; [done|]. split; [|done]. eapply (cmos_step C_reqbufs s); [done..|]. cbn. by rewrite E.
Qed.

End MachineTheorems.

(** After [probe] and S_FMT of a small picture. *)
Definition small_picture : cmos :=
  (cmos_ov7740_vidioc_s_fmt_vid_cap (rgb565_format 16 16)
     (cmos_ov7740_probe (cmos_start (fun _ => 0))).1.1).1.1.

Lemma small_picture_reachable : cmos_reachable small_picture.
Proof.
  eapply (cmos_step (C_s_fmt (rgb565_format 16 16))
            (cmos_ov7740_probe (cmos_start (fun _ => 0))).1.1); [by apply cmos_probed| |reflexivity].
  split; by vm_compute.
Qed.

(** All four blocks are allocated there; the call fails all the same. *)
Lemma reqbufs_never_succeeds_witness : exists s',
  cmos_ov7740_vidioc_reqbufs small_picture = Some (s', - ENOMEM) /\
  elements (dom (pages s')) = [0xC0000000 + 4 * 0x800000] /\ cmos_ov7740_release s' = None /\
  forall ubuf, cmos_ov7740_read true 100 ubuf s' = None.
Proof.
  destruct (reqbufs_never_succeeds small_picture small_picture_reachable)
    as (s' & b & E & _ & _ & Hb & _ & Hrel & Hread).
  assert ((fun r => (elements (dom (pages r.1)), cb_virt_base <$> img_buff r.1 !! 0%nat)) <$>
    cmos_ov7740_vidioc_reqbufs small_picture =
    Some ([0xC0000000 + 4 * 0x800000], Some (0xC0000000 + 0x800000))) as Hc by (vm_compute; reflexivity).
  rewrite E in Hc. cbn in Hc. rewrite Hb in Hc. injection Hc as Hd Hv. exists s'.
  split; [exact E|]. split; [exact Hd|].
  split; [apply Hrel; rewrite Hv; discriminate|].
  intros ubuf. apply Hread; [reflexivity|reflexivity|by right].
Defined.
