(* ===== verification/Uda1341.v ===== *)
(** The audio codec driver ([src/Alsa/8_th/codec/uda1341.c]): its register cache
    and the L3 bus that it drives with three GPIO pins, L3MODE on GPB2, L3DATA on
    GPB3 and L3CLOCK on GPB4.

    Every value the driver stores in the GPIO data register is recorded, in order,
    in [wire]. A receiver of the bus ([l3_chip]) samples L3DATA at the rising edges
    of L3CLOCK, as address while L3MODE is low and as data while it is high; the
    registers of the codec ([chip_write]) are selected by the address and by the
    prefixes that the driver's macros name. [UDA134X_L3ADDR], which the file uses
    without a definition, is 5 in [sound/soc/codecs/uda134x.h], the value of the
    file's own [UDA1341_L3ADDR]. *)

From S2P Require Import Prelude.
Open Scope Z_scope.

(** * Registers *)

Definition UDA1341_L3ADDR : Z := 5.
Definition UDA1341_DATA0_ADDR : Z := Z.lor (Z.shiftl UDA1341_L3ADDR 2) 0.
Definition UDA1341_DATA1_ADDR : Z := Z.lor (Z.shiftl UDA1341_L3ADDR 2) 1.
Definition UDA1341_STATUS_ADDR : Z := Z.lor (Z.shiftl UDA1341_L3ADDR 2) 2.

Definition UDA1341_DATA00 : Z := 0.
Definition UDA1341_DATA01 : Z := 1.
Definition UDA1341_DATA10 : Z := 2.
Definition UDA1341_EA000 : Z := 3.
Definition UDA1341_EA110 : Z := 8.
Definition UDA1341_DATA1 : Z := 9.
Definition UDA1341_STATUS0 : Z := 10.
Definition UDA1341_STATUS1 : Z := 11.
Definition UDA1341_REG_NUM : Z := 12.

Definition UDA1341_EXTADDR_PREFIX : Z := 0xC0.
Definition UDA1341_EXTDATA_PREFIX : Z := 0xE0.

Definition STAT0_SC_384FS : Z := Z.shiftl 1 4.
Definition STAT0_DC_FILTER : Z := Z.shiftl 1 0.
Definition STAT1_ADC_ON : Z := Z.shiftl 1 1.
Definition STAT1_DAC_ON : Z := Z.shiftl 1 0.

(** Default values, the contents of the cache at the start. *)
Definition uda1341_reg : list Z :=
  [0x00; 0x40; 0x80; 0x04; 0x04; 0x04; 0x00; 0x00; 0x00; 0x00; 0x00; 0x83].

Definition uda1341_reg_addr : list Z :=
  [UDA1341_DATA0_ADDR; UDA1341_DATA0_ADDR; UDA1341_DATA0_ADDR;
   0; 1; 2; 4; 5; 6;
   UDA1341_DATA1_ADDR;
   UDA1341_STATUS_ADDR; UDA1341_STATUS_ADDR].

Definition uda1341_data_bit : list Z :=
  [0; Z.shiftl 1 6; Z.shiftl 1 7; 0; 0; 0; 0; 0; 0; 0; 0; Z.shiftl 1 7].

(** * The bus *)

Record bus := mk_bus {
  gpbcon : Z;
  gpbdat : Z;
  wire : list Z;
}.

(** A store to the GPIO data register. *)
Definition put_gpb (v : Z) (b : bus) : bus := mk_bus (gpbcon b) v (wire b ++ [v]).

Definition set_mod (val : Z) (b : bus) : bus :=
  if truth val then put_gpb (Z.lor (gpbdat b) (Z.shiftl 1 2)) b
  else put_gpb (Z.land (gpbdat b) (u32 (Z.lnot (Z.shiftl 1 2)))) b.

Definition set_clk (val : Z) (b : bus) : bus :=
  if truth val then put_gpb (Z.lor (gpbdat b) (Z.shiftl 1 4)) b
  else put_gpb (Z.land (gpbdat b) (u32 (Z.lnot (Z.shiftl 1 4)))) b.

Definition set_dat (val : Z) (b : bus) : bus :=
  if truth val then put_gpb (Z.lor (gpbdat b) (Z.shiftl 1 3)) b
  else put_gpb (Z.land (gpbdat b) (u32 (Z.lnot (Z.shiftl 1 3)))) b.

(** [n] rounds of the loop of [sendbyte]. *)
Fixpoint sendbyte_loop (n : nat) (byte : Z) (b : bus) : bus :=
  match n with
  | O => b
  | S n =>
      let b := set_clk 0 b in
      let b := set_dat (Z.land byte 1) b in
      let b := set_clk 1 b in
      sendbyte_loop n (Z.shiftr byte 1) b
  end.

Definition sendbyte (byte : Z) (b : bus) : bus := sendbyte_loop 8 byte b.

Definition l3_write (addr data : Z) (b : bus) : bus :=
  let b := set_clk 1 b in
  let b := set_dat 1 b in
  let b := set_mod 1 b in
  let b := set_mod 0 b in
  let b := sendbyte addr b in
  let b := set_mod 1 b in
  let b := sendbyte data b in
  let b := set_clk 1 b in
  let b := set_dat 1 b in
  set_mod 1 b.

(** * The codec *)

(** [codec->reg_cache] and the bus. *)
Record codec := mk_codec {
  reg_cache : list Z;
  l3 : bus;
}.

(** [reg] is unsigned; -1 is returned as an unsigned number. *)
Definition uda1341_read_reg_cache (reg : Z) (c : codec) : option Z :=
  if reg >=? UDA1341_REG_NUM then Some (u32 (-1)) else reg_cache c !! Z.to_nat reg.

(** The arguments of [l3_write] are bytes. *)
Definition uda1341_write_reg (reg value : Z) (c : codec) : option (codec * Z) :=
  if reg >=? UDA1341_REG_NUM then Some (c, -1)
  else
    _ ← reg_cache c !! Z.to_nat reg;
    let cache := <[Z.to_nat reg := u8 value]> (reg_cache c) in
    addr ← uda1341_reg_addr !! Z.to_nat reg;
    bit ← uda1341_data_bit !! Z.to_nat reg;
    let b :=
      if (reg >=? UDA1341_EA000) && (reg <=? UDA1341_EA110) then
        let b := l3_write UDA1341_DATA0_ADDR (u8 (Z.lor addr UDA1341_EXTADDR_PREFIX)) (l3 c) in
        l3_write UDA1341_DATA0_ADDR (u8 (Z.lor value UDA1341_EXTDATA_PREFIX)) b
      else l3_write (u8 addr) (u8 (Z.lor value bit)) (l3 c) in
    Some (mk_codec cache b, 0).

(** A sequence of register writes, whose results are ignored. *)
Fixpoint write_regs (ws : list (Z * Z)) (c : codec) : option codec :=
  match ws with
  | [] => Some c
  | (reg, value) :: ws => '(c, _) ← uda1341_write_reg reg value c; write_regs ws c
  end.

(** The writes of [uda1341_init_regs]: reset with 384fs, power on, full volume, no
    bass and treble, not muted. *)
Definition init_writes : list (Z * Z) :=
  [(UDA1341_STATUS0, Z.lor (Z.lor 0x40 STAT0_SC_384FS) STAT0_DC_FILTER);
   (UDA1341_STATUS1, Z.lor STAT1_ADC_ON STAT1_DAC_ON);
   (UDA1341_DATA00, 0);
   (UDA1341_DATA01, Z.lor (Z.shiftl 0 2) 0);
   (UDA1341_DATA10, 0)].

Definition set_gpbcon (v : Z) (c : codec) : codec :=
  mk_codec (reg_cache c) (mk_bus v (gpbdat (l3 c)) (wire (l3 c))).

(** The calls of the source leave out the first argument of [uda1341_write_reg];
    it is the codec here. *)
Definition uda1341_init_regs (c : codec) : option codec :=
  let mask := Z.lor (Z.lor (Z.shiftl 3 4) (Z.shiftl 3 6)) (Z.shiftl 3 8) in
  let bits := Z.lor (Z.lor (Z.shiftl 1 4) (Z.shiftl 1 6)) (Z.shiftl 1 8) in
  let c := set_gpbcon (Z.land (gpbcon (l3 c)) (u32 (Z.lnot mask))) c in
  let c := set_gpbcon (Z.lor (gpbcon (l3 c)) bits) c in
  write_regs init_writes c.

Definition uda1341_soc_probe (c : codec) : option (codec * Z) :=
  c ← uda1341_init_regs c; Some (c, 0).

(** * The receiver *)

(** Bits, least significant first. *)
Definition bits_value (l : list bool) : Z := foldr (fun b z => of_bool b + 2 * z) 0 l.

(** The pins as last seen, the bits received, the completed transfers. *)
Record l3_chip := mk_chip {
  ch_mode : bool;
  ch_clk : bool;
  ch_addr : list bool;
  ch_data : list bool;
  ch_frames : list (Z * Z);
}.

(** New levels of the pins. L3MODE falling starts an address; eight data bits
    complete a transfer. *)
Definition l3_lines (c : l3_chip) (mode dat clk : bool) : l3_chip :=
  if ch_mode c && negb mode then mk_chip mode clk [] [] (ch_frames c)
  else if negb (ch_clk c) && clk then
    if mode then
      let d := ch_data c ++ [dat] in
      if (length d =? 8)%nat
      then mk_chip mode clk (ch_addr c) []
             (ch_frames c ++ [(bits_value (ch_addr c), bits_value d)])
      else mk_chip mode clk (ch_addr c) d (ch_frames c)
    else mk_chip mode clk (ch_addr c ++ [dat]) (ch_data c) (ch_frames c)
  else mk_chip mode clk (ch_addr c) (ch_data c) (ch_frames c).

Definition l3_step (c : l3_chip) (v : Z) : l3_chip :=
  l3_lines c (Z.testbit v 2) (Z.testbit v 3) (Z.testbit v 4).

(** What a receiver that starts as [c0] has seen of the bus. *)
Definition seen (c0 : l3_chip) (b : bus) : l3_chip := fold_left l3_step (wire b) c0.

(** * Registers of the chip

    A register holds the bits of a transfer below its prefix: six for DATA00, DATA01
    and DATA10, five for the extended registers, eight for DATA1, seven for the
    status registers. *)

Record chip_regs := mk_chip_regs {
  cr_sel : Z;          (* the extended register selected *)
  cr_val : Z -> Z;     (* by the numbers of the driver *)
}.

Definition set_chip (reg v : Z) (r : chip_regs) : chip_regs :=
  mk_chip_regs (cr_sel r) (fun k => if k =? reg then v else cr_val r k).

(** Number of the extended register with address [sel]. *)
Definition ext_reg (sel : Z) : Z := if sel <=? 2 then 3 + sel else 2 + sel.

Definition chip_write (r : chip_regs) (frame : Z * Z) : chip_regs :=
  let '(addr, d) := frame in
  if addr =? UDA1341_DATA0_ADDR then
    if d <? 0x40 then set_chip UDA1341_DATA00 d r
    else if d <? 0x80 then set_chip UDA1341_DATA01 (d - 0x40) r
    else if d <? 0xC0 then set_chip UDA1341_DATA10 (d - 0x80) r
    else if d <? 0xE0 then mk_chip_regs ((d - 0xC0) mod 8) (cr_val r)
    else set_chip (ext_reg (cr_sel r)) (d - 0xE0) r
  else if addr =? UDA1341_DATA1_ADDR then set_chip UDA1341_DATA1 d r
  else if addr =? UDA1341_STATUS_ADDR then
    if d <? 0x80 then set_chip UDA1341_STATUS0 d r
    else set_chip UDA1341_STATUS1 (d - 0x80) r
  else r.

(** * Theorems: the bus *)

Lemma seen_put c0 v b : seen c0 (put_gpb v b) = l3_step (seen c0 b) v.
Proof. unfold seen, put_gpb. cbn [wire]. by rewrite fold_left_app. Qed.

(** The pins and the receiver, and the other pins of the port as in [b0]. *)
Record lines (c0 : l3_chip) (b0 b : bus) (m d k : bool) (c : l3_chip) : Prop := {
  ln_seen : seen c0 b = c;
  ln_mode : Z.testbit (gpbdat b) 2 = m;
  ln_dat : Z.testbit (gpbdat b) 3 = d;
  ln_clk : Z.testbit (gpbdat b) 4 = k;
  ln_other : forall i, 0 <= i < 32 -> i <> 2 -> i <> 3 -> i <> 4 ->
    Z.testbit (gpbdat b) i = Z.testbit (gpbdat b0) i;
}.

(** Bit [n] set or cleared. *)
Lemma set_bit_spec x n v i : 0 <= n < 32 -> 0 <= i < 32 ->
  Z.testbit (if truth v then Z.lor x (Z.shiftl 1 n)
             else Z.land x (u32 (Z.lnot (Z.shiftl 1 n)))) i
  = if i =? n then truth v else Z.testbit x i.
Proof.
  intros Hn Hi.
  assert (H1 : Z.testbit (Z.shiftl 1 n) i = (i =? n)).
  { rewrite Z.shiftl_1_l, Z.pow2_bits_eqb by lia. apply Z.eqb_sym. }
  destruct (truth v).
  - rewrite Z.lor_spec, H1. destruct (i =? n); [apply orb_true_r|apply orb_false_r].
  - rewrite Z.land_spec. unfold u32. rewrite testbit_mod, Z.lnot_spec, H1 by lia.
    destruct (Z.ltb_spec i 32); [|lia]. destruct (i =? n); [apply andb_false_r|apply andb_true_r].
Qed.

Lemma put_if (t : bool) x y b :
  (if t then put_gpb x b else put_gpb y b) = put_gpb (if t then x else y) b.
Proof. by destruct t. Qed.

(** The three pins move one at a time. *)
Ltac pin_step :=
  intros [Hs Hm Hd Hk Ho]; unfold set_mod, set_dat, set_clk; rewrite put_if;
  split; cbn [put_gpb gpbdat]; try (rewrite set_bit_spec by lia; done);
  [ rewrite seen_put, Hs; unfold l3_step; rewrite !set_bit_spec by lia;
    cbn [Z.eqb Pos.eqb]; by rewrite ?Hm, ?Hd, ?Hk
  | intros i Hi H2 H3 H4; rewrite set_bit_spec by lia;
    repeat match goal with |- context [(i =? ?n)] => destruct (Z.eqb_spec i n); [lia|] end;
    by apply Ho ].

Lemma lines_mod c0 b0 b m d k c v : lines c0 b0 b m d k c ->
  lines c0 b0 (set_mod v b) (truth v) d k (l3_lines c (truth v) d k).
Proof. pin_step. Qed.

Lemma lines_dat c0 b0 b m d k c v : lines c0 b0 b m d k c ->
  lines c0 b0 (set_dat v b) m (truth v) k (l3_lines c m (truth v) k).
Proof. pin_step. Qed.

Lemma lines_clk c0 b0 b m d k c v : lines c0 b0 b m d k c ->
  lines c0 b0 (set_clk v b) m d (truth v) (l3_lines c m d (truth v)).
Proof. pin_step. Qed.

(** The bits [sendbyte] puts on the bus. *)
Fixpoint sent_bits (n : nat) (byte : Z) : list bool :=
  match n with
  | O => []
  | S n => truth (Z.land byte 1) :: sent_bits n (Z.shiftr byte 1)
  end.

Lemma bits_value_sent n byte : bits_value (sent_bits n byte) = byte mod 2 ^ Z.of_nat n.
Proof.
  revert byte. induction n as [|n IH]; intros byte.
  - cbn [sent_bits bits_value foldr Z.of_nat]. by rewrite Z.mod_1_r.
  - cbn [sent_bits bits_value foldr]. fold (bits_value (sent_bits n (Z.shiftr byte 1))).
    rewrite IH. change 1 with (Z.ones 1) at 1. rewrite Z.land_ones, Z.shiftr_div_pow2 by lia.
    rewrite Nat2Z.inj_succ, Z.pow_succ_r by lia. change (2 ^ 1) with 2.
    rewrite Z.rem_mul_r by (try apply Z.pow_nonzero; lia).
    pose proof (Z.mod_pos_bound byte 2). unfold truth.
    destruct (Z.eqb_spec (byte mod 2) 0) as [->|]; [done|].
    replace (byte mod 2) with 1 by lia. done.
Qed.

(** A bit taken by the receiver. *)
Definition push (m : bool) (c : l3_chip) (bit : bool) : l3_chip :=
  if m then
    let d := ch_data c ++ [bit] in
    if (length d =? 8)%nat
    then mk_chip m true (ch_addr c) [] (ch_frames c ++ [(bits_value (ch_addr c), bits_value d)])
    else mk_chip m true (ch_addr c) d (ch_frames c)
  else mk_chip m true (ch_addr c ++ [bit]) (ch_data c) (ch_frames c).

Lemma push_mode m c bit : ch_mode (push m c bit) = m.
Proof. unfold push. destruct m; [|done]. by destruct (length (ch_data c ++ [bit]) =? 8)%nat. Qed.

(** One round of [sendbyte]: clock low, data, clock high. *)
Lemma round_push m d bit c : ch_mode c = m ->
  l3_lines (l3_lines (l3_lines c m d false) m bit false) m bit true = push m c bit.
Proof.
  intros <-. destruct c as [m k addr data frames]. unfold l3_lines. cbn [ch_mode].
  rewrite andb_false_r. by destruct m, k.
Qed.

Lemma sendbyte_lines c0 b0 n : forall byte b m d k c,
  lines c0 b0 b m d k c -> ch_mode c = m ->
  exists d' k', lines c0 b0 (sendbyte_loop n byte b) m d' k'
                  (fold_left (push m) (sent_bits n byte) c).
Proof.
  induction n as [|n IH]; intros byte b m d k c Hl Hm; [by eexists _, _|].
  cbn [sendbyte_loop sent_bits fold_left].
  apply (lines_clk _ _ _ _ _ _ _ 0) in Hl.
  apply (lines_dat _ _ _ _ _ _ _ (Z.land byte 1)) in Hl.
  apply (lines_clk _ _ _ _ _ _ _ 1) in Hl.
  change (truth 0) with false in Hl. change (truth 1) with true in Hl.
  rewrite round_push in Hl by done.
  eapply IH; [exact Hl | apply push_mode].
Qed.

(** Eight bits as an address, and as data. *)
Lemma push_addr byte k data frames :
  fold_left (push false) (sent_bits 8 byte) (mk_chip false k [] data frames)
  = mk_chip false true (sent_bits 8 byte) data frames.
Proof. done. Qed.

Lemma push_data byte k addr frames :
  fold_left (push true) (sent_bits 8 byte) (mk_chip true k addr [] frames)
  = mk_chip true true addr [] (frames ++ [(bits_value addr, bits_value (sent_bits 8 byte))]).
Proof. done. Qed.

(** A receiver between transfers, in step with the pins. *)
Definition idle (c0 : l3_chip) (b : bus) : Prop :=
  let c := seen c0 b in
  ch_mode c = Z.testbit (gpbdat b) 2 /\ ch_clk c = Z.testbit (gpbdat b) 4 /\ ch_data c = [].

(** [l3_write] transfers one address and one byte. *)
Lemma l3_write_frame c0 b addr data : is_u8 addr -> is_u8 data -> idle c0 b ->
  let b' := l3_write addr data b in
  idle c0 b' /\ ch_frames (seen c0 b') = ch_frames (seen c0 b) ++ [(addr, data)] /\
  (Z.testbit (gpbdat b') 2 = true /\ Z.testbit (gpbdat b') 3 = true /\
   Z.testbit (gpbdat b') 4 = true) /\
  (forall i, 0 <= i < 32 -> i <> 2 -> i <> 3 -> i <> 4 ->
   Z.testbit (gpbdat b') i = Z.testbit (gpbdat b) i).
Proof.
  intros Ha Hd (Hm & Hk & He) b'. subst b'.
  assert (Hl : lines c0 b b (Z.testbit (gpbdat b) 2) (Z.testbit (gpbdat b) 3)
                 (Z.testbit (gpbdat b) 4) (seen c0 b)) by done.
  rewrite <- Hm, <- Hk in Hl. destruct (seen c0 b) as [m k ab db fr]. cbn [ch_mode ch_clk ch_data] in *.
  subst db.
  apply (lines_clk _ _ _ _ _ _ _ 1) in Hl. apply (lines_dat _ _ _ _ _ _ _ 1) in Hl.
  apply (lines_mod _ _ _ _ _ _ _ 1) in Hl. apply (lines_mod _ _ _ _ _ _ _ 0) in Hl.
  assert (Hst : exists k', l3_lines (l3_lines (l3_lines (l3_lines (mk_chip m k ab [] fr) m
     (Z.testbit (gpbdat b) 3) (truth 1)) m (truth 1) (truth 1)) (truth 1) (truth 1) (truth 1))
     (truth 0) (truth 1) (truth 1) = mk_chip false k' [] [] fr)
    by (destruct m, k; by eexists).
  destruct Hst as [k' Hst]. rewrite Hst in Hl.
  destruct (sendbyte_lines _ _ 8 addr _ _ _ _ _ Hl eq_refl) as (d1 & k1 & Hl1).
  rewrite push_addr in Hl1. apply (lines_mod _ _ _ _ _ _ _ 1) in Hl1.
  assert (Hst1 : exists k2, l3_lines (mk_chip false true (sent_bits 8 addr) [] fr) (truth 1) d1 k1
                 = mk_chip true k2 (sent_bits 8 addr) [] fr) by (destruct k1; by eexists).
  destruct Hst1 as [k2 Hst1]. rewrite Hst1 in Hl1.
  destruct (sendbyte_lines _ _ 8 data _ _ _ _ _ Hl1 eq_refl) as (d2 & k3 & Hl2).
  rewrite push_data, !bits_value_sent in Hl2.
  apply (lines_clk _ _ _ _ _ _ _ 1) in Hl2. apply (lines_dat _ _ _ _ _ _ _ 1) in Hl2.
  apply (lines_mod _ _ _ _ _ _ _ 1) in Hl2.
  change (2 ^ Z.of_nat 8) with (2 ^ 8) in Hl2. rewrite !Z.mod_small in Hl2 by done.
  cbn [truth Z.eqb negb l3_lines ch_mode ch_clk ch_data ch_addr ch_frames andb] in Hl2.
  destruct Hl2 as [Es Em Ed Ek Eo]. unfold idle, l3_write, sendbyte.
  rewrite Es, Em, Ed, Ek. split_and!; done.
Qed.

(** C30. Any sequence of transfers that the driver sends over the three pins is what
    a receiver of the L3 bus gets, in order and without stray bits, from any levels
    of the pins at the start; the other pins of the port keep their levels. *)
Theorem l3_roundtrip c0 b msgs :
  idle c0 b -> Forall (fun '(a, d) => is_u8 a /\ is_u8 d) msgs ->
  let b' := foldl (fun b '(a, d) => l3_write a d b) b msgs in
  idle c0 b' /\ ch_frames (seen c0 b') = ch_frames (seen c0 b) ++ msgs /\
  (forall i, 0 <= i < 32 -> i <> 2 -> i <> 3 -> i <> 4 ->
   Z.testbit (gpbdat b') i = Z.testbit (gpbdat b) i).
Proof.
  intros Hi Hf. revert b Hi. induction Hf as [|[a d] msgs [Ha Hd] Hf IH]; intros b Hi.
  - cbn. by rewrite app_nil_r.
  - cbn [foldl]. destruct (l3_write_frame c0 b a d Ha Hd Hi) as (Hi' & Ef & _ & Ho).
    destruct (IH _ Hi') as (Hi'' & Ef' & Ho'). split_and!; [done| |].
    + rewrite Ef', Ef, <- app_assoc. done.
    + intros i ? ? ? ?. rewrite Ho', Ho; done.
Qed.

Lemma l3_roundtrip_witness :
  let c0 := mk_chip false false [] [] [] in
  let b := mk_bus 0 0x20 [] in
  let b' := foldl (fun b '(a, d) => l3_write a d b) b [(0x14, 0xa5); (0x16, 0x3c)] in
  ch_frames (seen c0 b') = [(0x14, 0xa5); (0x16, 0x3c)].
Proof.
  intros c0 b b'.
  destruct (l3_roundtrip c0 b [(0x14, 0xa5); (0x16, 0x3c)]) as (_ & E & _); [done| |exact E].
  by repeat constructor.
Defined.

(** * The register cache *)

(** The transfers of a register write. *)
Definition reg_frames (reg value : Z) : list (Z * Z) :=
  let addr := default 0 (uda1341_reg_addr !! Z.to_nat reg) in
  let bit := default 0 (uda1341_data_bit !! Z.to_nat reg) in
  if (3 <=? reg) && (reg <=? 8) then
    [(UDA1341_DATA0_ADDR, Z.lor addr 0xC0); (UDA1341_DATA0_ADDR, u8 (Z.lor value 0xE0))]
  else [(addr, u8 (Z.lor value bit))].

Lemma reg_cases (P : Z -> Prop) reg : 0 <= reg < 12 ->
  P 0 -> P 1 -> P 2 -> P 3 -> P 4 -> P 5 -> P 6 -> P 7 -> P 8 -> P 9 -> P 10 -> P 11 -> P reg.
Proof.
  intros Hr. intros. assert (Hin : reg ∈ seqZ 0 12) by (rewrite elem_of_seqZ; lia).
  change (seqZ 0 12) with [0; 1; 2; 3; 4; 5; 6; 7; 8; 9; 10; 11] in Hin.
  by repeat (apply elem_of_cons in Hin as [->|Hin]; [done|]); apply elem_of_nil in Hin.
Qed.

#[local] Opaque l3_write seen idle.

(** A register write updates the cache and sends the transfers of the register. *)
Lemma write_reg_run c0 reg value c :
  0 <= reg < 12 -> length (reg_cache c) = 12%nat -> idle c0 (l3 c) ->
  exists b', uda1341_write_reg reg value c
             = Some (mk_codec (<[Z.to_nat reg := u8 value]> (reg_cache c)) b', 0) /\
  idle c0 b' /\ ch_frames (seen c0 b') = ch_frames (seen c0 (l3 c)) ++ reg_frames reg value.
Proof.
  intros Hr Hl Hi. pose proof (u8_range (Z.lor value 0xE0)) as He.
  assert (One : forall a v, is_u8 a -> is_u8 v ->
    idle c0 (l3_write a v (l3 c)) /\
    ch_frames (seen c0 (l3_write a v (l3 c))) = ch_frames (seen c0 (l3 c)) ++ [(a, v)]).
  { intros a v Ha Hv. by destruct (l3_write_frame c0 (l3 c) a v Ha Hv Hi) as (? & ? & _). }
  assert (Two : forall a, is_u8 a ->
    let b := l3_write 20 (u8 (Z.lor value 0xE0)) (l3_write 20 a (l3 c)) in
    idle c0 b /\ ch_frames (seen c0 b)
    = ch_frames (seen c0 (l3 c)) ++ [(20, a); (20, u8 (Z.lor value 0xE0))]).
  { intros a Ha. destruct (One 20 a) as [I1 F1]; [done..|].
    destruct (l3_write_frame c0 (l3_write 20 a (l3 c)) 20 (u8 (Z.lor value 0xE0)))
      as (I2 & F2 & _); [done..|].
    split; [done|]. rewrite F2, F1, <- app_assoc. done. }
  destruct (lookup_lt_is_Some_2 (reg_cache c) (Z.to_nat reg)) as [old Ho]; [lia|].
  unfold uda1341_write_reg. rewrite Ho. clear Hl Ho. pattern reg.
  apply (reg_cases _ reg Hr);
    (eexists; split; [reflexivity|]); first [apply Two; done | apply One; [done|apply u8_range]].
Qed.

(** The bits of a cached value that the register holds. *)
Definition payload (reg v : Z) : Z :=
  if (reg =? 1) || (reg =? 2) then v mod 64
  else if (3 <=? reg) && (reg <=? 8) then v mod 32
  else if reg =? 11 then v mod 128
  else v.

(** A value that does not touch the prefix of another register. *)
Definition valid_value (reg value : Z) : Prop :=
  let v := u8 value in
  (reg = 0 -> v < 64) /\ (reg = 1 -> v < 128) /\ (reg = 2 -> v mod 128 < 64) /\
  (reg = 10 -> v < 128).

(** The prefixes as sums, for every byte. *)
Lemma prefix_sums v : is_u8 v ->
  (v < 128 -> Z.lor v 64 = 64 + v mod 64) /\
  (v mod 128 < 64 -> Z.lor v 128 = 128 + v mod 64) /\
  Z.lor v 0xE0 = 0xE0 + v mod 32 /\ Z.lor v 128 = 128 + v mod 128.
Proof.
  intros Hv.
  assert (Hall : forallb (fun v =>
    (negb (v <? 128) || (Z.lor v 64 =? 64 + v mod 64)) &&
    (negb (v mod 128 <? 64) || (Z.lor v 128 =? 128 + v mod 64)) &&
    (Z.lor v 0xE0 =? 0xE0 + v mod 32) && (Z.lor v 128 =? 128 + v mod 128))
    (seqZ 0 256) = true) by by vm_compute.
  rewrite forallb_forall in Hall. specialize (Hall v).
  rewrite <- list_elem_of_In, elem_of_seqZ in Hall. specialize (Hall ltac:(unfold is_u8 in Hv; lia)).
  bool_props. split_and!; try done; intros; bool_lia.
Qed.

Lemma u8_lor a b : u8 (Z.lor a b) = Z.lor (u8 a) (u8 b).
Proof. unfold u8. bits_eq. Qed.

(** What each kind of transfer does to the chip. *)
Ltac chip_case :=
  intros; unfold chip_write;
  repeat (case_if; bool_props; try done; try lia); f_equal; lia.

Lemma chip_data00 r d : 0 <= d < 64 ->
  chip_write r (UDA1341_DATA0_ADDR, d) = set_chip 0 d r.
Proof. chip_case. Qed.
Lemma chip_data01 r d : 0 <= d < 64 ->
  chip_write r (UDA1341_DATA0_ADDR, 64 + d) = set_chip 1 d r.
Proof. chip_case. Qed.
Lemma chip_data10 r d : 0 <= d < 64 ->
  chip_write r (UDA1341_DATA0_ADDR, 128 + d) = set_chip 2 d r.
Proof. chip_case. Qed.
Lemma chip_ext r sel d : 0 <= sel < 8 -> 0 <= d < 32 ->
  chip_write (chip_write r (UDA1341_DATA0_ADDR, 0xC0 + sel)) (UDA1341_DATA0_ADDR, 0xE0 + d)
  = set_chip (ext_reg sel) d (mk_chip_regs sel (cr_val r)).
Proof.
  intros Hs Hd. assert (chip_write r (UDA1341_DATA0_ADDR, 0xC0 + sel)
    = mk_chip_regs sel (cr_val r)) as ->.
  { unfold chip_write. repeat (case_if; bool_props; try done; try lia).
    replace (192 + sel - 192) with sel by lia. by rewrite Z.mod_small. }
  chip_case.
Qed.
Lemma chip_data1 r d : chip_write r (UDA1341_DATA1_ADDR, d) = set_chip 9 d r.
Proof. done. Qed.
Lemma chip_status0 r d : 0 <= d < 128 ->
  chip_write r (UDA1341_STATUS_ADDR, d) = set_chip 10 d r.
Proof. chip_case. Qed.
Lemma chip_status1 r d : 0 <= d < 128 ->
  chip_write r (UDA1341_STATUS_ADDR, 128 + d) = set_chip 11 d r.
Proof. chip_case. Qed.

(** The transfers of a register write set that register and no other. *)
Lemma reg_frames_chip reg value r k : 0 <= reg < 12 -> valid_value reg value ->
  cr_val (fold_left chip_write (reg_frames reg value) r) k
  = if k =? reg then payload reg (u8 value) else cr_val r k.
Proof.
  intros Hr Hv. unfold valid_value in Hv. pose proof (u8_range value) as Hu.
  destruct (prefix_sums (u8 value) Hu) as (P1 & P2 & P3 & P4). unfold is_u8 in Hu.
  pose proof (Z.mod_pos_bound (u8 value) 64). pose proof (Z.mod_pos_bound (u8 value) 32).
  pose proof (Z.mod_pos_bound (u8 value) 128).
  revert Hv. pattern reg. apply (reg_cases _ reg Hr); intros (V0 & V1 & V2 & V10);
    repeat match goal with H : ?a = ?a -> _ |- _ => specialize (H eq_refl) end;
    unfold reg_frames; cbn [Z.leb Z.compare Pos.compare Pos.compare_cont andb];
    rewrite u8_lor; cbn [fold_left].
  - change (u8 _) with 0 at 2. rewrite Z.lor_0_r, chip_data00 by lia. done.
  - change (u8 (default _ _)) with 64. rewrite P1, chip_data01 by lia. done.
  - change (u8 (default _ _)) with 128. rewrite P2, chip_data10 by lia. done.
  - change (Z.lor (default _ _) 192) with (192 + 0). change (u8 224) with 224.
    rewrite P3, chip_ext by lia. done.
  - change (Z.lor (default _ _) 192) with (192 + 1). change (u8 224) with 224.
    rewrite P3, chip_ext by lia. done.
  - change (Z.lor (default _ _) 192) with (192 + 2). change (u8 224) with 224.
    rewrite P3, chip_ext by lia. done.
  - change (Z.lor (default _ _) 192) with (192 + 4). change (u8 224) with 224.
    rewrite P3, chip_ext by lia. done.
  - change (Z.lor (default _ _) 192) with (192 + 5). change (u8 224) with 224.
    rewrite P3, chip_ext by lia. done.
  - change (Z.lor (default _ _) 192) with (192 + 6). change (u8 224) with 224.
    rewrite P3, chip_ext by lia. done.
  - change (u8 (default _ _)) with 0. rewrite Z.lor_0_r. done.
  - change (u8 (default _ _)) with 0. rewrite Z.lor_0_r, chip_status0 by lia. done.
  - change (u8 (default _ _)) with 128. rewrite P4, chip_status1 by lia. done.
Qed.

(** Register [reg] of the chip holds what the cache says. *)
Definition in_sync (r : chip_regs) (c : codec) (reg : Z) : Prop :=
  exists v, reg_cache c !! Z.to_nat reg = Some v /\ cr_val r reg = payload reg v.

(** A write keeps the others in step and brings its own register in step. *)
Lemma write_reg_sync c0 reg value c : 0 <= reg < 12 -> valid_value reg value ->
  length (reg_cache c) = 12%nat -> idle c0 (l3 c) ->
  exists c' fr, uda1341_write_reg reg value c = Some (c', 0) /\
  length (reg_cache c') = 12%nat /\ idle c0 (l3 c') /\
  ch_frames (seen c0 (l3 c')) = ch_frames (seen c0 (l3 c)) ++ fr /\
  forall r k, 0 <= k < 12 -> in_sync r c k \/ k = reg ->
  in_sync (fold_left chip_write fr r) c' k.
Proof.
  intros Hr Hv Hl Hi. destruct (write_reg_run c0 reg value c Hr Hl Hi) as (b' & E & Hi' & Ef).
  exists (mk_codec (<[Z.to_nat reg := u8 value]> (reg_cache c)) b'), (reg_frames reg value).
  split_and!; try done; [cbn; by rewrite length_insert|]. intros r k Hk Hs.
  unfold in_sync. rewrite reg_frames_chip by done. cbn [reg_cache].
  destruct (Z.eqb_spec k reg) as [->|Hne].
  - exists (u8 value). split; [|done]. apply list_lookup_insert_eq. lia.
  - destruct Hs as [(v & Hv' & Es)|?]; [|done]. exists v. split; [|done].
    rewrite list_lookup_insert_ne by lia. done.
Qed.

(** C29. The cache mirrors the chip. After any sequence of writes of registers with
    values that fit them, every register that was in step before or is written holds
    in the chip, which only sees the pins, the value that the cache has for it. *)
Theorem cache_in_sync c0 ws : forall c,
  Forall (fun '(reg, value) => 0 <= reg < 12 /\ valid_value reg value) ws ->
  length (reg_cache c) = 12%nat -> idle c0 (l3 c) ->
  exists c' fr, write_regs ws c = Some c' /\
  idle c0 (l3 c') /\ ch_frames (seen c0 (l3 c')) = ch_frames (seen c0 (l3 c)) ++ fr /\
  forall r reg, 0 <= reg < 12 -> in_sync r c reg \/ reg ∈ ws.*1 ->
  in_sync (fold_left chip_write fr r) c' reg.
Proof.
  induction ws as [|[reg value] ws IH]; intros c Hw Hl Hi.
  - exists c, []. rewrite app_nil_r. split_and!; try done. intros r reg _ [Hs|Hs]; [done|].
    by apply elem_of_nil in Hs.
  - apply Forall_cons in Hw as [[Hr Hv] Hw].
    destruct (write_reg_sync c0 reg value c Hr Hv Hl Hi) as (c1 & fr1 & E1 & L1 & I1 & F1 & S1).
    destruct (IH c1 Hw L1 I1) as (c2 & fr2 & E2 & I2 & F2 & S2).
    exists c2, (fr1 ++ fr2). cbn [write_regs]. rewrite E1. split_and!; try done.
    + by rewrite F2, F1, app_assoc.
    + intros r k Hk Hs. rewrite fold_left_app. apply S2; [done|].
      cbn [fmap list_fmap fst] in Hs. rewrite elem_of_cons in Hs.
      destruct Hs as [Hs|[->|Hs]]; [left; apply S1; [done|by left]| |by right].
      left. apply S1; [done|by right].
Qed.

#[local] Transparent l3_write seen idle.

(** The start sequence, from a cache with the defaults and pins at 0. *)
Lemma cache_in_sync_witness :
  exists c' fr, write_regs init_writes (mk_codec uda1341_reg (mk_bus 0 0 [])) = Some c' /\
  ch_frames (seen (mk_chip false false [] [] []) (l3 c')) = fr /\
  forall r, in_sync (fold_left chip_write fr r) c' UDA1341_STATUS1.
Proof.
  destruct (cache_in_sync (mk_chip false false [] [] []) init_writes
              (mk_codec uda1341_reg (mk_bus 0 0 []))) as (c' & fr & E & _ & F & S).
  - unfold init_writes. repeat apply Forall_cons_2; [..|apply Forall_nil_2];
      vm_compute; intuition discriminate.
  - done.
  - done.
  - exists c', fr. split_and!; [done|done|]. intros r. apply S; [done|right].
    right. left.
Defined.

(** A register that does not exist is refused and nothing is sent. *)
Lemma write_reg_refused reg value c : 12 <= reg ->
  uda1341_write_reg reg value c = Some (c, -1) /\
  uda1341_read_reg_cache reg c = Some (2 ^ 32 - 1).
Proof.
  intros Hr. unfold uda1341_write_reg, uda1341_read_reg_cache, UDA1341_REG_NUM.
  destruct (Z.geb_spec reg 12); [done|lia].
Qed.
