(* ===== verification/Iis.v ===== *)
(** The I2S controller of the S3C2440 ([src/Alsa/8_th/platform/s3c2440_iis.c]): the
    setting of the controller for a stream, with its search for the prescaler, and
    the operations of the DMA platform driver beside it
    ([src/Alsa/8_th/platform/s3c2440_dma.c]) that do something.

    The rate of the clock [pclk] is an argument. [ABS] is a macro of two arguments
    that the file uses and no file defines; it is a parameter, and the theorems
    about it assume that it is the distance of its arguments. *)

From S2P Require Import Prelude.
Open Scope Z_scope.

Definition SNDRV_PCM_FORMAT_S8 : Z := 0.
Definition SNDRV_PCM_FORMAT_S16_LE : Z := 2.

Record s3c2440_iis_regs := mk_iis {
  iiscon : Z;
  iismod : Z;
  iispsr : Z;
  iisfcon : Z;
  iisfifo : Z;
}.

(** The registers, and the references to the clock that are not given back. *)
Record iis := mk_iis_state {
  gpecon : Z;
  iis_regs : s3c2440_iis_regs;
  clk_refs : Z;
}.

Definition set_iismod (v : Z) (r : s3c2440_iis_regs) : s3c2440_iis_regs :=
  mk_iis (iiscon r) v (iispsr r) (iisfcon r) (iisfifo r).
Definition set_iispsr (v : Z) (r : s3c2440_iis_regs) : s3c2440_iis_regs :=
  mk_iis (iiscon r) (iismod r) v (iisfcon r) (iisfifo r).
Definition set_iisfcon (v : Z) (r : s3c2440_iis_regs) : s3c2440_iis_regs :=
  mk_iis (iiscon r) (iismod r) (iispsr r) v (iisfifo r).
Definition set_iiscon (v : Z) (r : s3c2440_iis_regs) : s3c2440_iis_regs :=
  mk_iis v (iismod r) (iispsr r) (iisfcon r) (iisfifo r).

Section Iis.
Variable ABS : Z -> Z -> Z.

(** The sampling rate with prescaler [i]; [clk_get_rate] is unsigned. *)
Definition rate_with (pclk i : Z) : Z := s32 (pclk / 384 / (i + 1)).

(** The rounds from [i] on, [n] of them, with [min] and [pre]. *)
Fixpoint prescaler_loop (n : nat) (i pclk fs min pre : Z) : Z :=
  match n with
  | O => pre
  | S n =>
      let tmp_fs := rate_with pclk i in
      if ABS tmp_fs fs <? min
      then prescaler_loop n (i + 1) pclk fs (ABS tmp_fs fs) i
      else prescaler_loop n (i + 1) pclk fs min pre
  end.

Definition prescaler (pclk fs : Z) : Z := prescaler_loop 32 0 pclk fs 0xffff 0.

Definition s3c2440_i2s_hw_params (pclk format fs : Z) (s : iis) : iis * Z :=
  let refs := clk_refs s + 1 in
  let mask := Z.lor (Z.lor (Z.lor (Z.lor (Z.shiftl 3 0) (Z.shiftl 3 2)) (Z.shiftl 3 4))
                (Z.shiftl 3 6)) (Z.shiftl 3 8) in
  let bits := Z.lor (Z.lor (Z.lor (Z.lor (Z.shiftl 2 0) (Z.shiftl 2 2)) (Z.shiftl 2 4))
                (Z.shiftl 2 6)) (Z.shiftl 2 8) in
  let gpe := Z.land (gpecon s) (u32 (Z.lnot mask)) in
  let gpe := Z.lor gpe bits in
  let r := iis_regs s in
  let mode :=
    if format =? SNDRV_PCM_FORMAT_S16_LE then
      Some (Z.lor (Z.lor (Z.lor (Z.lor (Z.shiftl 2 6) (Z.shiftl 0 4)) (Z.shiftl 1 3))
              (Z.shiftl 1 2)) 1)
    else if format =? SNDRV_PCM_FORMAT_S8 then
      Some (Z.lor (Z.lor (Z.lor (Z.lor (Z.shiftl 2 6) (Z.shiftl 0 4)) (Z.shiftl 0 3))
              (Z.shiftl 1 2)) 1)
    else None in
  match mode with
  | None => (mk_iis_state gpe r refs, - EINVAL)
  | Some mode =>
      let r := set_iismod mode r in
      let pre := prescaler pclk fs in
      let r := set_iispsr (Z.lor (Z.shiftl pre 5) pre) r in
      let r := set_iisfcon (Z.lor (Z.shiftl 1 15) (Z.shiftl 1 13)) r in
      let r := set_iiscon (Z.lor (Z.shiftl 1 5) (Z.shiftl 1 1)) r in
      (mk_iis_state gpe r (refs - 1), 0)
  end.

End Iis.

(** * DMA *)

Definition SNDRV_PCM_TRIGGER_STOP : Z := 0.
Definition SNDRV_PCM_TRIGGER_START : Z := 1.
Definition SNDRV_PCM_TRIGGER_PAUSE_PUSH : Z := 3.
Definition SNDRV_PCM_TRIGGER_PAUSE_RELEASE : Z := 4.
Definition SNDRV_PCM_TRIGGER_SUSPEND : Z := 5.
Definition SNDRV_PCM_TRIGGER_RESUME : Z := 6.

(** Starting and stopping is not written yet; only the command is checked. *)
Definition s3c2440_dma_trigger (cmd : Z) : Z :=
  if (cmd =? SNDRV_PCM_TRIGGER_START) || (cmd =? SNDRV_PCM_TRIGGER_RESUME)
     || (cmd =? SNDRV_PCM_TRIGGER_PAUSE_RELEASE) then 0
  else if (cmd =? SNDRV_PCM_TRIGGER_STOP) || (cmd =? SNDRV_PCM_TRIGGER_SUSPEND)
          || (cmd =? SNDRV_PCM_TRIGGER_PAUSE_PUSH) then 0
  else - EINVAL.

(** * Theorems *)

Section Search.
Variable ABS : Z -> Z -> Z.

(** How far the rate with prescaler [j] is from the wanted one. *)
Definition dist (pclk fs j : Z) : Z := ABS (rate_with pclk j) fs.

(** The loop keeps its prescaler or finds the first of the best. *)
Lemma prescaler_loop_spec n : forall i pclk fs min pre,
  let p := prescaler_loop ABS n i pclk fs min pre in
  (p = pre /\ forall j, i <= j < i + Z.of_nat n -> min <= dist pclk fs j) \/
  (i <= p < i + Z.of_nat n /\ dist pclk fs p < min /\
   (forall j, i <= j < i + Z.of_nat n -> dist pclk fs p <= dist pclk fs j) /\
   forall j, i <= j < p -> dist pclk fs p < dist pclk fs j).
Proof.
  induction n as [|n IH]; intros i pclk fs min pre p; [left; split; [done|lia]|].
  subst p. cbn [prescaler_loop]. fold (dist pclk fs i).
  rewrite Nat2Z.inj_succ.
  destruct (Z.ltb_spec (dist pclk fs i) min) as [Hlt|Hge].
  - right. destruct (IH (i + 1) pclk fs (dist pclk fs i) i) as [[-> Hall]|(Hr & Hd & Hall & Hf)].
    + split_and!; [lia|lia|done| |lia]. intros j Hj.
      destruct (decide (j = i)) as [->|]; [lia|]. apply Hall. lia.
    + split_and!; [lia|lia|lia| |].
      * intros j Hj. destruct (decide (j = i)) as [->|]; [lia|]. apply Hall. lia.
      * intros j Hj. destruct (decide (j = i)) as [->|]; [lia|]. apply Hf. lia.
  - destruct (IH (i + 1) pclk fs min pre) as [[-> Hall]|(Hr & Hd & Hall & Hf)].
    + left. split; [done|]. intros j Hj. destruct (decide (j = i)) as [->|]; [lia|]. apply Hall. lia.
    + right. split_and!; [lia|lia|lia| |].
      * intros j Hj. destruct (decide (j = i)) as [->|]; [lia|]. apply Hall. lia.
      * intros j Hj. destruct (decide (j = i)) as [->|]; [lia|]. apply Hf. lia.
Qed.

Lemma prescaler_spec pclk fs :
  let p := prescaler ABS pclk fs in
  0 <= p <= 31 /\
  ((exists j, 0 <= j <= 31 /\ dist pclk fs j < 0xffff) ->
   (forall j, 0 <= j <= 31 -> dist pclk fs p <= dist pclk fs j) /\
   (forall j, 0 <= j < p -> dist pclk fs p < dist pclk fs j)) /\
  ((forall j, 0 <= j <= 31 -> 0xffff <= dist pclk fs j) -> p = 0).
Proof.
  intros p. subst p. unfold prescaler.
  destruct (prescaler_loop_spec 32 0 pclk fs 0xffff 0) as [[-> Hall]|(Hr & Hd & Hall & Hf)].
  - split_and!; [lia..| |done]. intros (j & Hj & Hlt). specialize (Hall j). lia.
  - split_and!; [lia..| |].
    + intros _. split; [intros; apply Hall; lia | done].
    + intros Hn. specialize (Hn (prescaler_loop ABS 32 0 pclk fs 65535 0)). lia.
Qed.
End Search.

Lemma rate_with_exact pclk j : is_u32 pclk -> 0 <= j -> rate_with pclk j = pclk / 384 / (j + 1).
Proof.
  intros Hp Hj. apply s32_small. unfold is_u32 in Hp.
  assert (0 <= pclk / 384 < 2 ^ 31).
  { split; [apply Z.div_pos; lia | apply Z.div_lt_upper_bound; lia]. }
  assert (0 <= pclk / 384 / (j + 1)) by (apply Z.div_pos; lia).
  assert (pclk / 384 / (j + 1) <= pclk / 384).
  { apply Z.div_le_upper_bound; [lia|]. nia. }
  unfold is_s32. lia.
Qed.

(** The search for the prescaler of the I2S clock is optimal: when some setting
    comes within 65535 Hz of the wanted rate, the one the driver programs into both
    fields of the prescaler register gives the rate that is closest to it among all
    32, and is the smallest such setting. Formats other than 8 and 16 bits are
    refused without touching the controller, but the reference to the clock that was
    taken is not given back. *)
Theorem iis_hw_params_spec ABS pclk format fs s :
  (forall a b, ABS a b = Z.abs (a - b)) -> is_u32 pclk ->
  let '(s', ret) := s3c2440_i2s_hw_params ABS pclk format fs s in
  if (format =? SNDRV_PCM_FORMAT_S16_LE) || (format =? SNDRV_PCM_FORMAT_S8) then
    exists pre, ret = 0 /\ clk_refs s' = clk_refs s /\
    iismod (iis_regs s') = (if format =? SNDRV_PCM_FORMAT_S16_LE then 0x8D else 0x85) /\
    iisfcon (iis_regs s') = 0xA000 /\ iiscon (iis_regs s') = 0x22 /\
    0 <= pre <= 31 /\
    Z.shiftr (iispsr (iis_regs s')) 5 = pre /\ iispsr (iis_regs s') mod 32 = pre /\
    ((exists j, 0 <= j <= 31 /\ Z.abs (pclk / 384 / (j + 1) - fs) < 0xffff) ->
     forall j, 0 <= j <= 31 ->
     Z.abs (pclk / 384 / (pre + 1) - fs) <= Z.abs (pclk / 384 / (j + 1) - fs) /\
     (j < pre -> Z.abs (pclk / 384 / (pre + 1) - fs) < Z.abs (pclk / 384 / (j + 1) - fs)))
  else ret = - EINVAL /\ iis_regs s' = iis_regs s /\ clk_refs s' = clk_refs s + 1.
Proof.
  intros Habs Hp. unfold s3c2440_i2s_hw_params. pose proof (prescaler_spec ABS pclk fs) as Hs.
  set (pre := prescaler ABS pclk fs) in *. destruct Hs as (Hr & Hbest & _).
  assert (Hd : forall j, 0 <= j -> dist ABS pclk fs j = Z.abs (pclk / 384 / (j + 1) - fs)).
  { intros j Hj. unfold dist. rewrite Habs, rate_with_exact; done. }
  assert (Hfields : Z.lor (Z.shiftl pre 5) pre = 32 * pre + pre).
  { rewrite Z.shiftl_mul_pow2 by lia. clearbody pre.
    assert (Hall : forallb (fun p => Z.lor (p * 2 ^ 5) p =? 32 * p + p) (seqZ 0 32) = true)
      by by vm_compute.
    rewrite forallb_forall in Hall. apply Z.eqb_eq, Hall.
    rewrite <- list_elem_of_In, elem_of_seqZ. lia. }
  assert (Hopt : (exists j, 0 <= j <= 31 /\ Z.abs (pclk / 384 / (j + 1) - fs) < 0xffff) ->
     forall j, 0 <= j <= 31 ->
     Z.abs (pclk / 384 / (pre + 1) - fs) <= Z.abs (pclk / 384 / (j + 1) - fs) /\
     (j < pre -> Z.abs (pclk / 384 / (pre + 1) - fs) < Z.abs (pclk / 384 / (j + 1) - fs))).
  { intros (i & Hi & Hlt) j Hj. destruct Hbest as [H1 H2].
    - exists i. split; [done|]. rewrite Hd by lia. done.
    - rewrite <- !Hd by lia. split; [by apply H1|]. intros. apply H2. lia. }
  assert (F1 : Z.shiftr (32 * pre + pre) 5 = pre).
  { rewrite Z.shiftr_div_pow2 by lia. symmetry. apply (Z.div_unique _ _ _ pre); lia. }
  assert (F2 : (32 * pre + pre) mod 32 = pre).
  { symmetry. apply (Z.mod_unique _ _ pre); lia. }
  destruct (Z.eqb_spec format SNDRV_PCM_FORMAT_S16_LE); cbn [orb];
    [|destruct (Z.eqb_spec format SNDRV_PCM_FORMAT_S8)]; [..|done];
    exists pre; cbn [iis_regs set_iismod set_iispsr set_iisfcon set_iiscon iiscon iismod iispsr
                     iisfcon clk_refs]; rewrite Hfields; split_and!; try done; lia.
Qed.

(** 44100 Hz from a clock of 50 MHz: the prescaler is 2, which gives 43402 Hz. *)
Lemma iis_hw_params_spec_witness :
  let ABS := fun a b => Z.abs (a - b) in
  let s := mk_iis_state 0 (mk_iis 0 0 0 0 0) 0 in
  let '(s', ret) := s3c2440_i2s_hw_params ABS 50000000 SNDRV_PCM_FORMAT_S16_LE 44100 s in
  exists pre, Z.shiftr (iispsr (iis_regs s')) 5 = pre /\ pre = 2 /\
  forall j, 0 <= j <= 31 ->
  Z.abs (50000000 / 384 / (pre + 1) - 44100) <= Z.abs (50000000 / 384 / (j + 1) - 44100).
Proof.
  intros ABS s.
  pose proof (iis_hw_params_spec ABS 50000000 SNDRV_PCM_FORMAT_S16_LE 44100 s
                (fun a b => eq_refl) ltac:(done)) as H.
  destruct (s3c2440_i2s_hw_params _ _ _ _ _) as [s' ret] eqn:E.
  destruct H as (pre & _ & _ & _ & _ & _ & _ & Hp & _ & Hopt).
  exists pre. split_and!; [done| |].
  - rewrite <- Hp. vm_compute in E. injection E as <- <-. done.
  - intros j Hj. apply Hopt; [|done]. exists 2. by vm_compute.
Defined.
