(* ===== verification/Render.v ===== *)
(** Drawing of the video2lcd program ([src/video2lcd/1_th/render/render.c]): showing
    a page, reading icons and pictures, drawing rectangles, characters and centred
    strings, and inverting buttons.

    The functions that draw into a page take and give the picture behind it; [on_page]
    applies them to a page of the manager, whose picture may be the framebuffer. Files,
    fonts and character encodings come from sources that are not in the repository
    ([file.h], [fonts_manager.h], [encoding_manager.h]): mapping a file, taking a
    character off a string and rendering it are parameters. [T_FontBitMap] has the
    members that [render.c] uses. Coordinates are [int]s whose sums and products are
    computed without wrap-around. *)

From S2P Require Import Prelude V4l2 PicOps Disp PicFmt.
Open Scope Z_scope.

Definition COLOR_BACKGROUND : Z := 0xE7DBB5.
Definition COLOR_FOREGROUND : Z := 0x514438.
Definition ICON_PATH : string := "/etc/digitpic/icons".

(** * Pages *)

(** A drawing function applied to page [k]. *)
Definition on_page {A} (f : T_PixelDatas -> option (A * T_PixelDatas)) (k : nat) (d : disp)
  : option (A * disp) :=
  v ← g_ptVideoMemHead d !! k;
  '(r, p) ← f (page_pixels d v);
  d ← store_page k p d;
  Some (r, d).

(** The module's [ShowPage] is that of the framebuffer. *)
Definition FlushVideoMemToDev (k : nat) (d : disp) : option disp :=
  v ← g_ptVideoMemHead d !! k;
  if negb (bDevFrameBuffer v) then
    i ← GetDefaultDispDev d;
    o ← g_ptDispOprHead d !! i;
    match opr_ops o with
    | FBOps => '(_, fb) ← FBShowPage v (disp_fb d); Some (set_fb fb d)
    end
  else Some d.

(** * Pictures from files *)

(** What reading a picture needs: the contents of the mapped file, [None] when
    mapping fails, memory, and libjpeg. *)
Record file_env := mk_file_env {
  MapFile : string -> option mem;
  file_malloc : Z -> option mem;
  jpeg_decode : mem -> option Jpg.jpeg_image;
  jpeg_buffer : bool;
}.

(** The function behind the member [GetPixelDatas] of a registered reader. *)
Definition GetPixelDatas (e : file_env) (r : T_PicFileParser) (file : mem) (p : T_PixelDatas)
  : option (Z * T_PixelDatas) :=
  if bool_decide (parser_name r = "bmp") then Bmp.GetPixelDatasFrmBMP (file_malloc e) file p
  else Jpg.GetPixelDatasFrmJPG (jpeg_decode e file) (jpeg_buffer e) (file_malloc e) p.

Definition set_bpp (bpp : Z) (p : T_PixelDatas) : T_PixelDatas :=
  mk_pic (iWidth p) (iHeight p) bpp (iLineBytes p) (iTotalBytes p) (aucPixelDatas p).

(** The depth of the display; without a display module the variable is read
    uninitialised. *)
Definition display_bpp (d : disp) : option Z :=
  '(_, res) ← GetDispResolution d;
  '(_, _, bpp) ← res;
  Some bpp.

(** [maps] counts the files that are mapped. *)
Definition GetPixelDatasForIcon (e : file_env) (l : list T_PicFileParser) (d : disp)
  (strFileName : string) (p : T_PixelDatas) (maps : Z) : option (Z * T_PixelDatas * Z) :=
  let name := String.substring 0 127 (ICON_PATH +:+ "/" +:+ strFileName) in
  match MapFile e name with
  | None => Some (-1, p, maps)
  | Some file =>
      let maps := maps + 1 in
      bmp ← Parser "bmp" l;
      iError ← isSupport bmp file;
      if iError =? 0 then Some (-1, p, maps - 1)
      else
        bpp ← display_bpp d;
        let p := set_bpp bpp p in
        bmp ← Parser "bmp" l;
        '(iError, p) ← GetPixelDatas e bmp file p;
        if truth iError then Some (-1, p, maps - 1)
        else Some (0, p, maps - 1)
  end.

Definition isPictureFileSupported (e : file_env) (l : list T_PicFileParser)
  (strFileName : string) (maps : Z) : option (Z * Z) :=
  match MapFile e (String.substring 0 255 strFileName) with
  | None => Some (0, maps)
  | Some file =>
      let maps := maps + 1 in
      r ← GetParser file l;
      match r with
      | None => Some (0, maps - 1)
      | Some _ => Some (1, maps - 1)
      end
  end.

Definition GetPixelDatasFrmFile (e : file_env) (l : list T_PicFileParser) (d : disp)
  (strFileName : string) (p : T_PixelDatas) (maps : Z) : option (Z * T_PixelDatas * Z) :=
  match MapFile e (String.substring 0 255 strFileName) with
  | None => Some (-1, p, maps)
  | Some file =>
      let maps := maps + 1 in
      r ← GetParser file l;
      match r with
      | None => Some (-1, p, maps - 1)
      | Some ptParser =>
          bpp ← display_bpp d;
          let p := set_bpp bpp p in
          '(iError, p) ← GetPixelDatas e ptParser file p;
          if truth iError then Some (-1, p, maps - 1)
          else Some (0, p, maps - 1)
      end
  end.

(** * Pixels and rectangles *)

(** The number of bytes of the pixel, -1 at other depths. *)
Definition SetColorForPixelInVideoMem (iX iY : Z) (dwColor : Z) (p : T_PixelDatas)
  : option (Z * T_PixelDatas) :=
  let off := iY * iLineBytes p + Z.quot (iX * iBpp p) 8 in
  if iBpp p =? 8 then
    m ← mem_write (aucPixelDatas p) off [u8 dwColor]; Some (1, set_pixels m p)
  else if iBpp p =? 16 then
    m ← mem_write (aucPixelDatas p) off (bytes16 (rgb565 dwColor)); Some (2, set_pixels m p)
  else if iBpp p =? 32 then
    m ← mem_write (aucPixelDatas p) off (bytes32 dwColor); Some (4, set_pixels m p)
  else Some (-1, p).

(** [for (x = ...; x < x + todo; x++)] of one row. *)
Fixpoint clear_row (todo : nat) (x y dwColor : Z) (p : T_PixelDatas) : option T_PixelDatas :=
  match todo with
  | O => Some p
  | S todo =>
      '(_, p) ← SetColorForPixelInVideoMem x y dwColor p;
      clear_row todo (x + 1) y dwColor p
  end.

Fixpoint clear_rect_rows (todo : nat) (cols : nat) (x y dwColor : Z) (p : T_PixelDatas)
  : option T_PixelDatas :=
  match todo with
  | O => Some p
  | S todo => p ← clear_row cols x y dwColor p; clear_rect_rows todo cols x (y + 1) dwColor p
  end.

Definition ClearRectangleInVideoMem (iTopLeftX iTopLeftY iBotRightX iBotRightY : Z)
  (dwColor : Z) (p : T_PixelDatas) : option T_PixelDatas :=
  clear_rect_rows (Z.to_nat (iBotRightY - iTopLeftY + 1)) (Z.to_nat (iBotRightX - iTopLeftX + 1))
    iTopLeftX iTopLeftY dwColor p.

(** * Characters *)

Record T_FontBitMap := mk_font {
  iXLeft : Z;
  iYTop : Z;
  iXMax : Z;
  iYMax : Z;
  font_iBpp : Z;
  iPitch : Z;
  iCurOriginX : Z;
  iCurOriginY : Z;
  iNextOriginX : Z;
  iNextOriginY : Z;
  pucBuffer : mem;
}.

Definition set_origin (x y : Z) (f : T_FontBitMap) : T_FontBitMap :=
  mk_font (iXLeft f) (iYTop f) (iXMax f) (iYMax f) (font_iBpp f) (iPitch f) x y
    (iNextOriginX f) (iNextOriginY f) (pucBuffer f).

Definition isFontInArea (iTopLeftX iTopLeftY iBotRightX iBotRightY : Z) (f : T_FontBitMap) : bool :=
  (iXLeft f >=? iTopLeftX) && (iXMax f <=? iBotRightX) &&
  (iYTop f >=? iTopLeftY) && (iYMax f <=? iBotRightY).

Definition font_color (on : bool) : Z := if on then COLOR_FOREGROUND else COLOR_BACKGROUND.

(** A row of a bitmap with one bit per pixel, [todo] pixels from [x] on, with the
    variables [i], [bit] and [ucByte]. *)
Fixpoint mono_row (todo : nat) (x y i bit ucByte : Z) (f : T_FontBitMap) (p : T_PixelDatas)
  : option (Z * T_PixelDatas) :=
  match todo with
  | O => Some (0, p)
  | S todo =>
      '(ucByte, i) ←
        (if bit =? 7 then b ← byte_at (pucBuffer f) i; Some (b, i + 1) else Some (ucByte, i));
      '(iNum, p) ← SetColorForPixelInVideoMem x y
                     (font_color (bit_set ucByte (Z.shiftl 1 bit))) p;
      if iNum =? -1 then Some (-1, p)
      else
        let bit := bit - 1 in
        let bit := if bit =? -1 then 7 else bit in
        mono_row todo (x + 1) y i bit ucByte f p
  end.

(** Every row starts with a new byte. *)
Fixpoint mono_rows (todo : nat) (y : Z) (f : T_FontBitMap) (p : T_PixelDatas)
  : option (Z * T_PixelDatas) :=
  match todo with
  | O => Some (0, p)
  | S todo =>
      let i := (y - iYTop f) * iPitch f in
      '(ret, p) ← mono_row (Z.to_nat (iXMax f - iXLeft f)) (iXLeft f) y i 7 0 f p;
      if ret =? -1 then Some (-1, p) else mono_rows todo (y + 1) f p
  end.

(** A bitmap with one byte per pixel, without a pitch; [i] runs through it. *)
Fixpoint grey_row (todo : nat) (x y i : Z) (f : T_FontBitMap) (p : T_PixelDatas)
  : option (Z * Z * T_PixelDatas) :=
  match todo with
  | O => Some (0, i, p)
  | S todo =>
      b ← byte_at (pucBuffer f) i;
      '(iNum, p) ← SetColorForPixelInVideoMem x y (font_color (truth b)) p;
      if iNum =? -1 then Some (-1, i + 1, p) else grey_row todo (x + 1) y (i + 1) f p
  end.

Fixpoint grey_rows (todo : nat) (y i : Z) (f : T_FontBitMap) (p : T_PixelDatas)
  : option (Z * T_PixelDatas) :=
  match todo with
  | O => Some (0, p)
  | S todo =>
      '(ret, i, p) ← grey_row (Z.to_nat (iXMax f - iXLeft f)) (iXLeft f) y i f p;
      if ret =? -1 then Some (-1, p) else grey_rows todo (y + 1) i f p
  end.

Definition MergeOneFontToVideoMem (f : T_FontBitMap) (p : T_PixelDatas)
  : option (Z * T_PixelDatas) :=
  if font_iBpp f =? 1 then mono_rows (Z.to_nat (iYMax f - iYTop f)) (iYTop f) f p
  else if font_iBpp f =? 8 then grey_rows (Z.to_nat (iYMax f - iYTop f)) (iYTop f) 0 f p
  else Some (-1, p).

(** * Strings *)

Section Text.

(** [GetCodeFrmBuf] on the rest of the string: the number of bytes of the next
    character, 0 at the end, and its code. [GetFontBitmap] renders a character at the
    current origin of the structure it updates; 0 is success. *)
Variable GetCodeFrmBuf : mem -> Z * Z.
Variable GetFontBitmap : Z -> T_FontBitMap -> Z * T_FontBitMap.

(** The extent of the characters so far: [iMinX], [iMaxX], [iMinY], [iMaxY]. *)
Record extent := mk_extent {
  iMinX : Z;
  iMaxX : Z;
  iMinY : Z;
  iMaxY : Z;
}.

Definition start_extent : extent := mk_extent 32000 (-1) 32000 (-1).

(** The last comparison takes [iXMax], as the code has it. *)
Definition extend (f : T_FontBitMap) (e : extent) : extent :=
  mk_extent
    (if iMinX e >? iXLeft f then iXLeft f else iMinX e)
    (if iMaxX e <? iXMax f then iXMax f else iMaxX e)
    (if iMinY e >? iYTop f then iYTop f else iMinY e)
    (if iMaxY e <? iXMax f then iYMax f else iMaxY e).

(** The next position in the string; it must not leave the string. *)
Definition advance (text : mem) (pos iLen : Z) : option Z :=
  if (0 <=? pos + iLen) && (pos + iLen <=? zlen text) then Some (pos + iLen) else None.

(** The first pass. [None] inside is the end of a string without characters. *)
Fixpoint measure_loop (fuel : nat) (text : mem) (pos : Z) (bHasGetCode : bool)
  (f : T_FontBitMap) (e : extent) : option (option (T_FontBitMap * extent)) :=
  match fuel with
  | O => None
  | S fuel =>
      let '(iLen, dwCode) := GetCodeFrmBuf (drop (Z.to_nat pos) text) in
      if iLen =? 0 then Some (if bHasGetCode then Some (f, e) else None)
      else
        pos ← advance text pos iLen;
        let '(iError, f) := GetFontBitmap dwCode f in
        if iError =? 0 then
          let e := extend f e in
          measure_loop fuel text pos true (set_origin (iNextOriginX f) (iNextOriginY f) f) e
        else measure_loop fuel text pos true f e
  end.

(** The second pass. *)
Fixpoint draw_loop (fuel : nat) (text : mem) (pos : Z) (bHasGetCode : bool)
  (tlx tly brx bry : Z) (f : T_FontBitMap) (p : T_PixelDatas) : option (Z * T_PixelDatas) :=
  match fuel with
  | O => None
  | S fuel =>
      let '(iLen, dwCode) := GetCodeFrmBuf (drop (Z.to_nat pos) text) in
      if iLen =? 0 then Some ((if bHasGetCode then 0 else -1), p)
      else
        pos ← advance text pos iLen;
        let '(iError, f) := GetFontBitmap dwCode f in
        if iError =? 0 then
          if isFontInArea tlx tly brx bry f then
            '(r, p) ← MergeOneFontToVideoMem f p;
            if truth r then Some (-1, p)
            else draw_loop fuel text pos true tlx tly brx bry
                   (set_origin (iNextOriginX f) (iNextOriginY f) f) p
          else Some (0, p)
        else draw_loop fuel text pos true tlx tly brx bry f p
  end.

(** [text] is the string without its terminating 0. A round takes at least one byte,
    so each pass has a round more than the string has bytes. [f0] is the structure as
    it lies on the stack. *)
Definition MergerStringToCenterOfRectangleInVideoMem (iTopLeftX iTopLeftY iBotRightX iBotRightY : Z)
  (text : mem) (f0 : T_FontBitMap) (p : T_PixelDatas) : option (Z * T_PixelDatas) :=
  let fuel := S (length text) in
  p ← ClearRectangleInVideoMem iTopLeftX iTopLeftY iBotRightX iBotRightY COLOR_BACKGROUND p;
  r ← measure_loop fuel text 0 false (set_origin 0 0 f0) start_extent;
  match r with
  | None => Some (-1, p)
  | Some (f, e) =>
      let iWidth := iMaxX e - iMinX e in
      let iHeight := iMaxY e - iMinY e in
      let iWidth := if iWidth >? iBotRightX - iTopLeftX then iBotRightX - iTopLeftX else iWidth in
      if iHeight >? iBotRightY - iTopLeftY then Some (-1, p)
      else
        let iStrTopLeftX := iTopLeftX + Z.quot (iBotRightX - iTopLeftX - iWidth) 2 in
        let iStrTopLeftY := iTopLeftY + Z.quot (iBotRightY - iTopLeftY - iHeight) 2 in
        let f := set_origin (iStrTopLeftX - iMinX e) (iStrTopLeftY - iMinY e) f in
        draw_loop fuel text 0 false iTopLeftX iTopLeftY iBotRightX iBotRightY f p
  end.

End Text.

(** * Buttons *)

(** The inner loop: [n] bytes from [off] on. *)
Fixpoint invert_bytes (n : nat) (off : Z) (m : mem) : option mem :=
  match n with
  | O => Some m
  | S n =>
      b ← byte_at m off;
      m ← mem_write m off [u8 (Z.lnot b)];
      invert_bytes n (off + 1) m
  end.

Fixpoint invert_rows (rows : nat) (n : nat) (off line : Z) (m : mem) : option mem :=
  match rows with
  | O => Some m
  | S rows => m ← invert_bytes n off m; invert_rows rows n (off + line) line m
  end.

(** The memory of the module is the framebuffer, or nothing if the device was not
    started. *)
Definition InvertButton (l : T_Layout) (d : disp) : option disp :=
  i ← GetDefaultDispDev d;
  o ← g_ptDispOprHead d !! i;
  let off := iTopLeftY l * opr_iLineWidth o + Z.quot (iTopLeftX l * opr_bpp o) 8 in
  let iButtonWidthBytes := Z.quot ((iBotRightX l - iTopLeftX l + 1) * opr_bpp o) 8 in
  let fb := disp_fb d in
  m ← invert_rows (Z.to_nat (iBotRightY l - iTopLeftY l + 1)) (Z.to_nat iButtonWidthBytes)
        off (opr_iLineWidth o) (if opr_pucDispMem o then g_pucFBMem fb else []);
  Some (if opr_pucDispMem o then set_fb (set_fb_mem m fb) d else d).

Definition ReleaseButton (l : T_Layout) (d : disp) : option disp := InvertButton l d.
Definition PressButton (l : T_Layout) (d : disp) : option disp := InvertButton l d.

(** * Theorems: pixels and rectangles *)

Lemma pic_ok_mem p m : pic_ok p -> zlen m = zlen (aucPixelDatas p) -> pic_ok (set_pixels m p).
Proof. intros [H1 H2 H3 H4 H5] Hl. split; try done. cbn. by rewrite Hl. Qed.

(** The store behind setting a pixel. *)
Lemma set_color_write p x y c v : pic_ok p -> 0 <= x -> color_bytes (iBpp p) c = Some v ->
  SetColorForPixelInVideoMem x y c p
  = (m ← mem_write (aucPixelDatas p) (y * iLineBytes p + x * pixel_bytes p) v;
     Some (pixel_bytes p, set_pixels m p)).
Proof.
  intros Hp Hx Hc. unfold SetColorForPixelInVideoMem. rewrite quot8 by done.
  unfold color_bytes in Hc. unfold pixel_bytes.
  destruct (Z.eqb_spec (iBpp p) 8) as [->|]; [by injection Hc as <-|].
  destruct (Z.eqb_spec (iBpp p) 16) as [->|]; [by injection Hc as <-|].
  destruct (Z.eqb_spec (iBpp p) 32) as [->|]; [by injection Hc as <-|]. done.
Qed.

(** Setting a pixel of the picture changes that pixel only. *)
Lemma set_color_ok p x y c v : pic_ok p -> in_pic p x y -> color_bytes (iBpp p) c = Some v ->
  exists m, SetColorForPixelInVideoMem x y c p = Some (pixel_bytes p, set_pixels m p) /\
  zlen m = zlen (aucPixelDatas p) /\
  forall x' y', in_pic p x' y' ->
    pixel (set_pixels m p) x' y' = (if (x' =? x) && (y' =? y) then Some v else pixel p x' y').
Proof.
  intros Hp Hin Hc. destruct (color_bytes_len _ _ _ Hc) as [Hv Hv0]. fold (pixel_bytes p) in Hv.
  pose proof (pixel_offset p x y Hp Hin) as Ho. pose proof Hin as [Hx Hy].
  destruct (mem_write_ok (aucPixelDatas p) (y * iLineBytes p + x * pixel_bytes p) v)
    as (m & Em & [L O] & Rd); [lia|lia|].
  exists m. rewrite (set_color_write p x y c v) by (done || lia). rewrite Em.
  split_and!; [done|done|]. intros x' y' Hxy. unfold pixel. cbn.
  change (pixel_bytes (set_pixels m p)) with (pixel_bytes p).
  destruct ((x' =? x) && (y' =? y)) eqn:E; bool_props.
  - subst x' y'. rewrite Hv in Rd. done.
  - apply O. assert (in_rect x y 1 1 x' y' = false) as E'
      by (apply not_true_is_false; unfold in_rect; intros ?; bool_lia).
    pose proof (rect_off_rows p x y 1 1 x' y' Hp Hxy ltac:(lia) ltac:(lia) ltac:(lia) E' 0%nat
                  ltac:(lia)). lia.
Qed.

(** One row pixel by pixel is the row filled at once. *)
Lemma clear_row_fill todo : forall x y c p v, pic_ok p -> 0 <= x ->
  color_bytes (iBpp p) c = Some v ->
  clear_row todo x y c p
  = (m ← fill_row todo v (y * iLineBytes p + x * pixel_bytes p) (aucPixelDatas p);
     Some (set_pixels m p)).
Proof.
  induction todo as [|todo IH]; intros x y c p v Hp Hx Hc; cbn [clear_row fill_row mbind option_bind].
  { by destruct p. }
  rewrite (set_color_write p x y c v) by done.
  destruct (mem_write _ _ v) as [m|] eqn:Em; [|done]. cbn [mbind option_bind].
  rewrite (IH _ _ _ _ v); [|by eapply pic_ok_mem, mem_write_length|lia|done].
  cbn. change (pixel_bytes (set_pixels m p)) with (pixel_bytes p).
  destruct (color_bytes_len _ _ _ Hc) as [Hv _]. fold (pixel_bytes p) in Hv. rewrite Hv.
  by replace (y * iLineBytes p + (x + 1) * pixel_bytes p)
    with (y * iLineBytes p + x * pixel_bytes p + pixel_bytes p) by lia.
Qed.

Lemma fill_row_length todo v : forall off m m', fill_row todo v off m = Some m' -> zlen m' = zlen m.
Proof.
  induction todo as [|todo IH]; intros off m m'; cbn [fill_row]; [by intros [= <-]|].
  destruct (mem_write m off v) as [m1|] eqn:E; [|done]. cbn [mbind option_bind].
  intros ->%IH. by eapply mem_write_length.
Qed.

Lemma clear_rect_fill rows cols : forall x y c p v, pic_ok p -> 0 <= x ->
  color_bytes (iBpp p) c = Some v ->
  clear_rect_rows rows cols x y c p
  = (m ← clear_rows rows (fill_row cols v) (y * iLineBytes p + x * pixel_bytes p)
           (iLineBytes p) (aucPixelDatas p);
     Some (set_pixels m p)).
Proof.
  induction rows as [|rows IH]; intros x y c p v Hp Hx Hc;
    cbn [clear_rect_rows clear_rows mbind option_bind]; [by destruct p|].
  rewrite (clear_row_fill _ _ _ _ _ v) by done.
  destruct (fill_row _ _ _ _) as [m|] eqn:Em; [|done]. cbn [mbind option_bind].
  rewrite (IH _ _ _ _ v); [|by eapply pic_ok_mem, fill_row_length|lia|done].
  cbn. change (pixel_bytes (set_pixels m p)) with (pixel_bytes p).
  by replace ((y + 1) * iLineBytes p + x * pixel_bytes p)
    with (y * iLineBytes p + x * pixel_bytes p + iLineBytes p) by lia.
Qed.

(** Storing bytes one after the other. *)
Lemma mem_write_cons m off b bs m1 : mem_write m off [b] = Some m1 ->
  off + 1 + zlen bs <= zlen m -> mem_write m1 (off + 1) bs = mem_write m off (b :: bs).
Proof.
  intros E1 Hf. pose proof (mem_write_length _ _ _ _ E1) as L1.
  pose proof (mem_write_Some _ _ _ _ E1) as (H0 & _ & _).
  assert (E2 := mem_write_in m1 (off + 1) bs ltac:(lia) ltac:(lia)).
  assert (E3 := mem_write_in m off (b :: bs) H0 ltac:(rewrite zlen_cons; lia)).
  rewrite E2, E3. f_equal. apply list_eq. intros i.
  transitivity (if decide (Z.of_nat i < off + 1 \/ off + 1 + zlen bs <= Z.of_nat i)
                then m1 !! i else bs !! (i - Z.to_nat (off + 1))%nat);
    [by apply mem_write_lookup|].
  transitivity (if decide (Z.of_nat i < off \/ off + zlen (b :: bs) <= Z.of_nat i)
                then m !! i else (b :: bs) !! (i - Z.to_nat off)%nat);
    [|symmetry; by apply mem_write_lookup].
  rewrite (mem_write_lookup _ _ _ _ i E1). change (zlen [b]) with 1.
  rewrite zlen_cons. pose proof (zlen_nonneg bs).
  destruct (decide (Z.of_nat i = off)) as [Hi|Hi].
  - rewrite decide_True by lia. rewrite !decide_False by lia.
    by replace (i - Z.to_nat off)%nat with 0%nat by lia.
  - repeat case_decide; try lia; try done.
    replace (i - Z.to_nat off)%nat with (S (i - Z.to_nat (off + 1))) by lia. done.
Qed.

Lemma fill_row_bytes b n : forall off m, 0 <= off -> off + Z.of_nat n <= zlen m ->
  fill_row n [b] off m = mem_write m off (replicate n b).
Proof.
  induction n as [|n IH]; intros off m Ho Hf; cbn [fill_row replicate].
  - rewrite mem_write_in by (change (zlen (@nil Z)) with 0; lia).
    rewrite Nat.add_0_r. cbn [app]. by rewrite take_drop.
  - destruct (mem_write_ok m off [b]) as (m1 & E1 & [L1 _] & _); [lia|change (zlen [b]) with 1; lia|].
    rewrite E1. cbn [mbind option_bind]. change (zlen [b]) with 1.
    rewrite IH by lia. apply mem_write_cons; [done|]. rewrite zlen_replicate. lia.
Qed.

(** The same rows with two routines that agree on the rows inside the block. *)
Lemma clear_rows_ext row row' n : (forall off m, row off m = row' off m \/ ~ (0 <= off /\ off + n <= zlen m)) ->
  (forall off m m', row off m = Some m' -> zlen m' = zlen m) -> forall rows off line m,
  0 <= off -> 0 <= line -> (rows = 0%nat \/ off + (Z.of_nat rows - 1) * line + n <= zlen m) ->
  clear_rows rows row off line m = clear_rows rows row' off line m.
Proof.
  intros He Hl. induction rows as [|rows IH]; intros off line m Ho Hline Hf; [done|].
  cbn [clear_rows]. destruct Hf as [?|Hf]; [done|].
  destruct (He off m) as [<-|Hn]; [|nia].
  destruct (row off m) as [m1|] eqn:E; [|done]. cbn [mbind option_bind].
  apply IH; [lia|done|]. rewrite (Hl _ _ _ E). destruct rows; [by left|right; lia].
Qed.

(** The two routines of the program that clear a rectangle agree on every
    rectangle inside a picture, at every depth: the one of [render.c], which sets
    pixel after pixel and computes each address anew, leaves exactly the memory that
    the one of [disp_manager.c], which fills rows, leaves. *)
Theorem clear_rectangle_equiv l c p : pic_ok p ->
  0 <= iTopLeftX l <= iBotRightX l -> iBotRightX l < iWidth p ->
  0 <= iTopLeftY l <= iBotRightY l -> iBotRightY l < iHeight p ->
  ClearRectangleInVideoMem (iTopLeftX l) (iTopLeftY l) (iBotRightX l) (iBotRightY l) c p
  = ClearVideoMemRegion l c p.
Proof.
  intros Hp Hx Hw Hy Hh. unfold ClearRectangleInVideoMem, ClearVideoMemRegion.
  rewrite !quot8 by (done || lia).
  destruct (color_bytes (iBpp p) c) as [v|] eqn:Ec.
  - rewrite (clear_rect_fill _ _ _ _ _ _ v) by (done || lia).
    unfold color_bytes in Ec.
    destruct (Z.eqb_spec (iBpp p) 8) as [E8|].
    + injection Ec as <-. f_equal. set (n := iBotRightX l - iTopLeftX l + 1) in *.
      assert (Epb : pixel_bytes p = 1) by (unfold pixel_bytes; by rewrite E8).
      pose proof (pic_line _ Hp). pose proof (po_line _ Hp). pose proof (po_total _ Hp).
      rewrite Epb, !Z.mul_1_r in *.
      apply (clear_rows_ext _ _ n); [|intros ???; apply fill_row_length|nia|done|].
      * intros off m. destruct (decide (0 <= off /\ off + n <= zlen m)) as [[Ho Hf]|]; [left|by right].
        rewrite fill_row_bytes by lia. unfold mem_set, memset_bytes.
        by rewrite (proj2 (Z.ltb_ge n 0)) by lia.
      * right. rewrite Z2Nat.id by lia.
        assert ((iBotRightY l + 1) * iLineBytes p <= iHeight p * iLineBytes p)
          by (apply Z.mul_le_mono_nonneg_r; lia). nia.
    + destruct (Z.eqb_spec (iBpp p) 16); [by injection Ec as <-|].
      destruct (Z.eqb_spec (iBpp p) 32); [by injection Ec as <-|done].
  - unfold color_bytes in Ec. revert Ec. repeat case_if; intros; try done. bool_props.
    assert (N : forall x y, SetColorForPixelInVideoMem x y c p = Some (-1, p)).
    { intros x y. unfold SetColorForPixelInVideoMem. by repeat case_if; bool_props. }
    assert (R : forall n x y, clear_row n x y c p = Some p).
    { induction n; intros; [done|]. cbn [clear_row]. rewrite N. apply IHn. }
    generalize (iTopLeftY l) at 2.
    induction (Z.to_nat (iBotRightY l - iTopLeftY l + 1)) as [|n IH]; intros y; [done|].
    cbn [clear_rect_rows]. rewrite R. apply IH.
Qed.

Lemma clear_rectangle_equiv_witness :
  let p := mk_pic 3 2 16 8 16 (replicate 16 7) in
  ClearRectangleInVideoMem 1 0 2 1 0xff0000 p
  = ClearVideoMemRegion (mk_layout 1 0 2 1 "") 0xff0000 p /\
  ClearRectangleInVideoMem 1 0 2 1 0xff0000 p
  = Some (mk_pic 3 2 16 8 16 [7; 7; 0; 0xf8; 0; 0xf8; 7; 7; 7; 7; 0; 0xf8; 0; 0xf8; 7; 7]).
Proof.
  intros p. split; [|by vm_compute].
  apply (clear_rectangle_equiv (mk_layout 1 0 2 1 "")); [|cbn; lia..].
  split; vm_compute; repeat split; discriminate.
Defined.

(** * Buttons *)

Definition inv (b : Z) : Z := u8 (Z.lnot b).

Lemma inv_inv b : is_u8 b -> inv (inv b) = b.
Proof.
  intros Hb. rewrite <- (u8_small b Hb) at 2. unfold inv, u8. apply Z.bits_inj'. intros i Hi.
  rewrite !testbit_mod, !Z.lnot_spec, !testbit_mod, Z.lnot_spec by lia.
  destruct (i <? 8); [|done]. cbn [andb]. apply negb_involutive.
Qed.

(** The bytes for which [area] holds are inverted, the others kept. *)
Definition inverted (area : Z -> bool) (m m' : mem) : Prop :=
  length m' = length m /\
  forall i, m' !! i = if area (Z.of_nat i) then inv <$> m !! i else m !! i.

Definition in_bytes (off n i : Z) : bool := (off <=? i) && (i <? off + n).

Lemma invert_bytes_ok n : forall off m, 0 <= off -> off + Z.of_nat n <= zlen m ->
  exists m', invert_bytes n off m = Some m' /\ inverted (in_bytes off (Z.of_nat n)) m m'.
Proof.
  induction n as [|n IH]; intros off m Ho Hf; cbn [invert_bytes].
  - exists m. split; [done|]. split; [done|]. intros i.
    destruct (in_bytes off (Z.of_nat 0) (Z.of_nat i)) eqn:E; [unfold in_bytes in E; bool_lia|done].
  - assert (is_Some (m !! Z.to_nat off)) as [b Hb] by (apply lookup_lt_is_Some_2; unfold zlen in Hf; lia).
    unfold byte_at. rewrite (proj2 (Z.leb_le 0 off)) by done. rewrite Hb. cbn [mbind option_bind].
    destruct (mem_write_ok m off [u8 (Z.lnot b)]) as (m1 & E1 & [L1 _] & _);
      [done|change (zlen [_]) with 1; lia|].
    rewrite E1. cbn [mbind option_bind].
    destruct (IH (off + 1) m1) as (m' & -> & [Ln Hi]); [lia|lia|].
    exists m'. split; [done|]. split; [unfold zlen in L1; lia|]. intros i.
    rewrite Hi, (mem_write_lookup _ _ _ _ i E1). change (zlen [u8 (Z.lnot b)]) with 1.
    unfold in_bytes. destruct (decide (Z.of_nat i = off)) as [Ei|Ei].
    + rewrite decide_False by lia. replace (i - Z.to_nat off)%nat with 0%nat by lia.
      assert (i = Z.to_nat off) as -> by lia. rewrite Hb.
      repeat case_if; try bool_lia; done.
    + rewrite decide_True by lia. repeat case_if; try done; bool_lia.
Qed.

(** The rows of a rectangle of [n] bytes by [rows] lines. *)
Definition in_rows (rows n off line i : Z) : bool :=
  (off <=? i) && ((i - off) / line <? rows) && ((i - off) mod line <? n).

Lemma in_rows_step rows n off line i : 0 <= rows -> 0 < line -> 0 <= n <= line ->
  in_rows (rows + 1) n off line i
  = in_bytes off n i || in_rows rows n (off + line) line i.
Proof.
  intros Hr Hl Hn. unfold in_rows, in_bytes.
  destruct (decide (off + line <= i)) as [Hi|Hi].
  - replace (i - off) with (i - (off + line) + 1 * line) by lia.
    rewrite Z.div_add, Z.mod_add by lia. apply eq_bool_prop_intro.
    rewrite !Is_true_true, !orb_true_iff, !andb_true_iff, !Z.leb_le, !Z.ltb_lt. lia.
  - destruct (decide (off <= i)).
    + rewrite Z.div_small, Z.mod_small by lia. apply eq_bool_prop_intro.
      rewrite !Is_true_true, !orb_true_iff, !andb_true_iff, !Z.leb_le, !Z.ltb_lt. lia.
    + apply eq_bool_prop_intro.
      rewrite !Is_true_true, !orb_true_iff, !andb_true_iff, !Z.leb_le, !Z.ltb_lt. lia.
Qed.

Lemma in_rows_disjoint rows n off line i : 0 < line -> n <= line ->
  in_bytes off n i = true -> in_rows rows n (off + line) line i = false.
Proof. intros. unfold in_rows, in_bytes in *. apply not_true_is_false. intros ?. bool_lia. Qed.

Lemma invert_rows_ok rows n line : 0 < line -> Z.of_nat n <= line -> forall off m,
  0 <= off -> (rows = 0%nat \/ off + (Z.of_nat rows - 1) * line + Z.of_nat n <= zlen m) ->
  exists m', invert_rows rows n off line m = Some m' /\
  inverted (in_rows (Z.of_nat rows) (Z.of_nat n) off line) m m'.
Proof.
  intros Hl Hn. induction rows as [|rows IH]; intros off m Ho Hf; cbn [invert_rows].
  - exists m. split; [done|]. split; [done|]. intros i. unfold in_rows.
    case_if; [|done]. bool_props.
    assert (0 <= (Z.of_nat i - off) / line) by (apply Z.div_pos; lia). lia.
  - destruct Hf as [?|Hf]; [done|].
    destruct (invert_bytes_ok n off m) as (m1 & -> & [L1 H1]); [done|nia|]. cbn [mbind option_bind].
    destruct (IH (off + line) m1) as (m' & -> & [L' H']);
      [lia|destruct rows; [by left|right; unfold zlen in *; lia]|].
    exists m'. split; [done|]. split; [lia|]. intros i. rewrite H', H1.
    rewrite Nat2Z.inj_succ, <- Z.add_1_r, in_rows_step by lia.
    destruct (in_bytes off (Z.of_nat n) (Z.of_nat i)) eqn:E; cbn [orb]; [|done].
    by rewrite in_rows_disjoint.
Qed.

(** Inverting twice gives back the bytes. *)
Lemma inverted_twice area m m1 m2 : is_bytes m -> inverted area m m1 -> inverted area m1 m2 -> m2 = m.
Proof.
  intros Hb [L1 H1] [L2 H2]. apply list_eq. intros i. rewrite H2, H1.
  destruct (area (Z.of_nat i)); [|done].
  destruct (m !! i) as [b|] eqn:E; [|done]. cbn. f_equal. apply inv_inv.
  by apply (Forall_lookup_1 _ _ _ _ Hb E).
Qed.

(** The bytes of the rectangle's rows are those of its pixels. *)
Lemma in_rows_pixel p tx ty w h x y j : pic_ok p -> in_pic p x y -> 0 <= j < pixel_bytes p ->
  0 <= tx -> 0 <= w -> tx + w <= iWidth p -> 0 <= h ->
  in_rows h (w * pixel_bytes p) (ty * iLineBytes p + tx * pixel_bytes p) (iLineBytes p)
    (y * iLineBytes p + x * pixel_bytes p + j) = in_rect tx ty w h x y.
Proof.
  intros Hp [Hx Hy] Hj Htx Hw Hfit Hh. pose proof (po_line _ Hp).
  set (pb := pixel_bytes p) in *. set (line := iLineBytes p) in *.
  assert (Hf : (tx + w) * pb <= iWidth p * pb) by (apply Z.mul_le_mono_nonneg_r; lia).
  assert (Hr : (x + 1) * pb <= iWidth p * pb) by (apply Z.mul_le_mono_nonneg_r; lia).
  assert (Hl : 0 < line) by nia. unfold in_rows, in_rect. set (i := y * line + x * pb + j).
  set (off := ty * line + tx * pb).
  assert (Hpos : forall a b, a < b -> a * pb + pb <= b * pb) by (intros; nia).
  apply eq_bool_prop_intro. rewrite !Is_true_true, !andb_true_iff, !Z.leb_le, !Z.ltb_lt.
  destruct (decide (tx <= x)) as [Hc|Hc].
  - assert (tx * pb <= x * pb) by nia.
    assert (E1 : (i - off) / line = y - ty)
      by (symmetry; apply (Z.div_unique _ _ _ ((x - tx) * pb + j)); [left; nia | unfold i, off; lia]).
    assert (E2 : (i - off) mod line = (x - tx) * pb + j)
      by (symmetry; apply (Z.mod_unique _ _ (y - ty)); [left; nia | unfold i, off; lia]).
    rewrite E1, E2. unfold i, off. split.
    + intros [[H1 H2] H3]. assert (x - tx < w) by nia. assert (ty <= y) by nia. lia.
    + intros [[[H1 H2] H3] H4]. assert (ty * line <= y * line) by nia.
      assert ((x - tx) * pb + pb <= w * pb) by (apply Hpos; lia). lia.
  - assert (x * pb + pb <= tx * pb) by (apply Hpos; lia).
    assert (E2 : (i - off) mod line = line + (x - tx) * pb + j)
      by (symmetry; apply (Z.mod_unique _ _ (y - ty - 1)); [left; nia | unfold i, off; lia]).
    rewrite E2. split; [|lia]. intros [_ H3]. nia.
Qed.

(** A rectangle of bytes inverted is a rectangle of pixels inverted. *)
Lemma inverted_pixels p tx ty w h m : pic_ok p ->
  0 <= tx -> 0 <= w -> tx + w <= iWidth p -> 0 <= h ->
  inverted (in_rows h (w * pixel_bytes p) (ty * iLineBytes p + tx * pixel_bytes p) (iLineBytes p))
    (aucPixelDatas p) m ->
  forall x y, in_pic p x y ->
    pixel (set_pixels m p) x y
    = if in_rect tx ty w h x y then map inv <$> pixel p x y else pixel p x y.
Proof.
  intros Hp Htx Hw Hfit Hh [L Hi] x y Hxy. destruct (po_bpp _ Hp) as [_ Hpb].
  pose proof (pixel_offset p x y Hp Hxy) as Ho.
  assert (Em : zlen m = zlen (aucPixelDatas p)) by (unfold zlen; by rewrite L).
  unfold pixel. cbn. change (pixel_bytes (set_pixels m p)) with (pixel_bytes p).
  set (o := y * iLineBytes p + x * pixel_bytes p) in *.
  destruct (mem_read (aucPixelDatas p) o (pixel_bytes p)) as [bs|] eqn:E1;
    [|rewrite mem_read_in in E1 by lia; done].
  destruct (mem_read m o (pixel_bytes p)) as [bs'|] eqn:E2;
    [|rewrite mem_read_in in E2 by lia; done].
  assert (Hk : forall k, bs' !! k = if in_rect tx ty w h x y then inv <$> bs !! k else bs !! k).
  { intros k. rewrite (mem_read_lookup _ _ _ _ k E1), (mem_read_lookup _ _ _ _ k E2).
    case_decide; [|by case_if]. rewrite Hi.
    replace (Z.of_nat (Z.to_nat o + k)) with (o + Z.of_nat k) by lia.
    unfold o. by rewrite in_rows_pixel by (done || lia). }
  destruct (in_rect tx ty w h x y); cbn; f_equal; apply list_eq; intros k; rewrite Hk; [|done].
  by rewrite <- list_lookup_fmap.
Qed.

(** A display that was selected and started. *)
Record disp_started (d : disp) (o : T_DispOpr) : Prop := {
  ds_default : exists i, GetDefaultDispDev d = Some i /\ g_ptDispOprHead d !! i = Some o;
  ds_mem : opr_pucDispMem o = true;
  ds_line : opr_iLineWidth o = g_dwLineWidth (disp_fb d);
  ds_bpp : opr_bpp o = fb_bits_per_pixel (disp_fb d);
  ds_fb : fb_ok (disp_fb d);
}.

(** Inverting a button inside the screen. *)
Lemma invert_button_run l d o : disp_started d o ->
  0 <= iTopLeftX l <= iBotRightX l -> iBotRightX l < fb_xres (disp_fb d) ->
  0 <= iTopLeftY l <= iBotRightY l -> iBotRightY l < fb_yres (disp_fb d) ->
  exists m, InvertButton l d = Some (set_fb (set_fb_mem m (disp_fb d)) d) /\
  let p := fb_pic (disp_fb d) in
  inverted (in_rows (iBotRightY l - iTopLeftY l + 1)
              ((iBotRightX l - iTopLeftX l + 1) * pixel_bytes p)
              (iTopLeftY l * iLineBytes p + iTopLeftX l * pixel_bytes p) (iLineBytes p))
    (g_pucFBMem (disp_fb d)) m.
Proof.
  intros [(i & Hi & Ho) Hm Hl Hb Hf] Hx Hw Hy Hh. pose proof (fo_pic _ Hf) as Hp.
  unfold InvertButton. rewrite Hi. cbn [mbind option_bind]. rewrite Ho. cbn [mbind option_bind]. rewrite Hm, Hl, Hb.
  pose proof (quot8 (fb_pic (disp_fb d)) (iTopLeftX l) Hp ltac:(lia)) as Q1.
  pose proof (quot8 (fb_pic (disp_fb d)) (iBotRightX l - iTopLeftX l + 1) Hp ltac:(lia)) as Q2.
  cbn [iBpp fb_pic] in Q1, Q2. rewrite Q1, Q2. clear Q1 Q2.
  pose proof (po_line _ Hp) as P1. pose proof (po_total _ Hp) as P2.
  destruct (po_bpp _ Hp) as [_ P3]. cbn [iWidth iHeight iLineBytes aucPixelDatas fb_pic] in *.
  set (pb := pixel_bytes (fb_pic (disp_fb d))) in *. set (line := g_dwLineWidth (disp_fb d)) in *.
  set (w := iBotRightX l - iTopLeftX l + 1). set (h := iBotRightY l - iTopLeftY l + 1).
  assert ((iTopLeftX l + w) * pb <= fb_xres (disp_fb d) * pb) by (apply Z.mul_le_mono_nonneg_r; lia).
  assert ((iTopLeftY l + h) * line <= fb_yres (disp_fb d) * line) by (apply Z.mul_le_mono_nonneg_r; nia).
  destruct (invert_rows_ok (Z.to_nat h) (Z.to_nat (w * pb)) line) with
    (off := iTopLeftY l * line + iTopLeftX l * pb) (m := g_pucFBMem (disp_fb d))
    as (m & E & Hinv); [nia|nia|nia|right; rewrite !Z2Nat.id by nia; nia|].
  rewrite !Z2Nat.id in Hinv by nia. exists m. by rewrite E.
Qed.

(** Pressing and releasing a button inside the screen: pressing inverts every
    byte of the pixels in the rectangle and leaves the other pixels, releasing it
    brings the display back to what it was. *)
Theorem press_release_roundtrip l d o : disp_started d o -> is_bytes (g_pucFBMem (disp_fb d)) ->
  0 <= iTopLeftX l <= iBotRightX l -> iBotRightX l < fb_xres (disp_fb d) ->
  0 <= iTopLeftY l <= iBotRightY l -> iBotRightY l < fb_yres (disp_fb d) ->
  exists d1, PressButton l d = Some d1 /\ ReleaseButton l d1 = Some d /\
  forall x y, in_pic (fb_pic (disp_fb d)) x y ->
    pixel (fb_pic (disp_fb d1)) x y
    = if in_rect (iTopLeftX l) (iTopLeftY l) (iBotRightX l - iTopLeftX l + 1)
           (iBotRightY l - iTopLeftY l + 1) x y
      then map inv <$> pixel (fb_pic (disp_fb d)) x y else pixel (fb_pic (disp_fb d)) x y.
Proof.
  intros Hd Hb Hx Hw Hy Hh. destruct (invert_button_run l d o) as (m & E & Hinv); try done.
  exists (set_fb (set_fb_mem m (disp_fb d)) d). split; [done|]. split.
  - assert (Hd1 : disp_started (set_fb (set_fb_mem m (disp_fb d)) d) o).
    { destruct Hd as [D1 D2 D3 D4 D5]. split; try done. apply fb_ok_mem; [done|].
      unfold zlen. by rewrite (proj1 Hinv). }
    destruct (invert_button_run l _ o Hd1) as (m2 & E2 & Hinv2); try done.
    unfold ReleaseButton. rewrite E2. f_equal.
    assert (m2 = g_pucFBMem (disp_fb d)) as ->
      by exact (inverted_twice _ _ _ _ Hb Hinv Hinv2).
    destruct d as [a b c [f1 f2 f3 f4 f5 f6 f7]]. done.
  - intros x y Hxy. change (fb_pic (disp_fb (set_fb (set_fb_mem m (disp_fb d)) d)))
      with (set_pixels m (fb_pic (disp_fb d))).
    apply inverted_pixels; try done; try (cbn; lia). apply (fo_pic _ (ds_fb _ _ Hd)).
Qed.

Lemma press_release_roundtrip_witness :
  let d := mk_disp [mk_opr "fb" 2 2 16 4 true FBOps] (Some 0%nat) [] sample_fb in
  exists d1, PressButton (mk_layout 1 0 1 1 "") d = Some d1 /\
  ReleaseButton (mk_layout 1 0 1 1 "") d1 = Some d.
Proof.
  intros d.
  destruct (press_release_roundtrip (mk_layout 1 0 1 1 "") d (mk_opr "fb" 2 2 16 4 true FBOps))
    as (d1 & E1 & E2 & _); [| |cbn; lia..|by exists d1].
  - split; [by exists 0%nat|done|done|done|apply sample_fb_ok].
  - by repeat constructor.
Defined.

(** * Characters *)

(** [p'] is [p] with the pixels of [R] replaced by those of [g]. *)
Definition drawn (R : Z -> Z -> bool) (g : Z -> Z -> option mem) (p p' : T_PixelDatas) : Prop :=
  (exists m, p' = set_pixels m p /\ zlen m = zlen (aucPixelDatas p)) /\
  forall x y, in_pic p x y -> pixel p' x y = if R x y then g x y else pixel p x y.

Lemma drawn_shape R g p p' : drawn R g p p' -> pic_ok p ->
  pic_ok p' /\ iBpp p' = iBpp p /\ forall x y, in_pic p' x y <-> in_pic p x y.
Proof. intros [(m & -> & L) _] Hp. split; [by apply pic_ok_mem|done]. Qed.

Lemma drawn_none g p : drawn (fun _ _ => false) g p p.
Proof. split; [|done]. exists (aucPixelDatas p). by destruct p. Qed.

Lemma drawn_trans R1 R2 R g p p1 p2 : drawn R1 g p p1 -> drawn R2 g p1 p2 ->
  (forall x y, R x y = R1 x y || R2 x y) -> drawn R g p p2.
Proof.
  intros [(m1 & -> & L1) H1] [(m2 & -> & L2) H2] HR. split.
  - exists m2. cbn in *. split; [done|]. lia.
  - intros x y Hxy. rewrite H2, H1, HR by done. by destruct (R1 x y), (R2 x y).
Qed.

(** Colours exist at the depth of the picture. *)
Definition has_colors (p : T_PixelDatas) : Prop := iBpp p = 8 \/ iBpp p = 16 \/ iBpp p = 32.

Lemma set_color_drawn p x y c g : pic_ok p -> has_colors p -> in_pic p x y ->
  g x y = color_bytes (iBpp p) c ->
  exists p' n, SetColorForPixelInVideoMem x y c p = Some (n, p') /\ n <> -1 /\
  drawn (fun x' y' => (x' =? x) && (y' =? y)) g p p'.
Proof.
  intros Hp Hc Hin Hg.
  assert (is_Some (color_bytes (iBpp p) c)) as [v Ev]
    by (unfold color_bytes; destruct Hc as [->|[->| ->]]; by eexists).
  destruct (set_color_ok p x y c v Hp Hin Ev) as (m & E & L & H).
  exists (set_pixels m p), (pixel_bytes p). destruct (po_bpp _ Hp) as [_ ?].
  split_and!; [done|lia|]. split; [by exists m|]. intros x' y' Hxy. rewrite H by done.
  destruct ((x' =? x) && (y' =? y)) eqn:E'; [|done]. bool_props. subst. congruence.
Qed.

(** Whether the bitmap sets the pixel at a position of the page. *)
Definition glyph_bit (f : T_FontBitMap) (x y : Z) : option bool :=
  let r := y - iYTop f in
  let k := x - iXLeft f in
  if font_iBpp f =? 1 then
    b ← byte_at (pucBuffer f) (r * iPitch f + k / 8);
    Some (bit_set b (Z.shiftl 1 (7 - k mod 8)))
  else if font_iBpp f =? 8 then
    b ← byte_at (pucBuffer f) (r * (iXMax f - iXLeft f) + k); Some (truth b)
  else None.

Definition glyph_pixel (bpp : Z) (f : T_FontBitMap) (x y : Z) : option mem :=
  on ← glyph_bit f x y; color_bytes bpp (font_color on).

Definition in_box (f : T_FontBitMap) (x y : Z) : bool :=
  (iXLeft f <=? x) && (x <? iXMax f) && (iYTop f <=? y) && (y <? iYMax f).

(** The bitmap of one or eight bits covers the box of the character. *)
Definition glyph_ok (f : T_FontBitMap) : Prop :=
  (font_iBpp f = 1 \/ font_iBpp f = 8) /\
  forall x y, in_box f x y = true -> is_Some (glyph_bit f x y).

(** The pixels of a row from column [x] on. *)
Definition in_run (x n y x' y' : Z) : bool := (y' =? y) && (x <=? x') && (x' <? x + n).

Lemma in_run_step x n y x' y' : 0 <= n ->
  in_run x (n + 1) y x' y' = ((x' =? x) && (y' =? y)) || in_run (x + 1) n y x' y'.
Proof.
  intros. unfold in_run. apply eq_bool_prop_intro.
  rewrite !Is_true_true, !orb_true_iff, !andb_true_iff, !Z.leb_le, !Z.ltb_lt, !Z.eqb_eq. lia.
Qed.

Lemma in_run_none x y x' y' : in_run x 0 y x' y' = false.
Proof. unfold in_run. apply not_true_is_false. intros ?. bool_lia. Qed.

(** The counters of the row loop, [k] pixels into the row. *)
Lemma mono_load buf base k b uc : 0 <= k -> byte_at buf (base + k / 8) = Some b ->
  (k mod 8 <> 0 -> byte_at buf (base + k / 8) = Some uc) ->
  (if 7 - k mod 8 =? 7
   then b ← byte_at buf (base + (k + 7) / 8); Some (b, base + (k + 7) / 8 + 1)
   else Some (uc, base + (k + 7) / 8)) = Some (b, base + k / 8 + 1).
Proof.
  intros Hk Eb Huc. pose proof (Z.mod_pos_bound k 8 ltac:(lia)).
  pose proof (Z.div_mod k 8 ltac:(lia)).
  destruct (Z.eqb_spec (7 - k mod 8) 7) as [H7|H7].
  - assert ((k + 7) / 8 = k / 8) as -> by (symmetry; apply (Z.div_unique _ _ _ 7); lia).
    by rewrite Eb.
  - assert ((k + 7) / 8 = k / 8 + 1) as ->
      by (symmetry; apply (Z.div_unique _ _ _ (k mod 8 - 1)); lia).
    specialize (Huc ltac:(lia)). rewrite Eb in Huc. injection Huc as ->. do 2 f_equal. lia.
Qed.

Lemma mono_next base k : 0 <= k ->
  (if 7 - k mod 8 - 1 =? -1 then 7 else 7 - k mod 8 - 1) = 7 - (k + 1) mod 8 /\
  base + k / 8 + 1 = base + (k + 1 + 7) / 8 /\
  ((k + 1) mod 8 <> 0 -> (k + 1) / 8 = k / 8).
Proof.
  intros Hk. pose proof (Z.mod_pos_bound k 8 ltac:(lia)). pose proof (Z.div_mod k 8 ltac:(lia)).
  destruct (Z.eqb_spec (7 - k mod 8 - 1) (-1)) as [H7|H7].
  - assert ((k + 1) mod 8 = 0) as -> by (symmetry; apply (Z.mod_unique _ _ (k / 8 + 1)); lia).
    assert ((k + 1 + 7) / 8 = k / 8 + 1) as -> by (symmetry; apply (Z.div_unique _ _ _ 7); lia).
    lia.
  - assert ((k + 1) mod 8 = k mod 8 + 1) as -> by (symmetry; apply (Z.mod_unique _ _ (k / 8)); lia).
    assert ((k + 1 + 7) / 8 = k / 8 + 1) as -> by (symmetry; apply (Z.div_unique _ _ _ (k mod 8)); lia).
    assert ((k + 1) / 8 = k / 8) as -> by (symmetry; apply (Z.div_unique _ _ _ (k mod 8 + 1)); lia).
    lia.
Qed.

Lemma glyph_mono f k y on : font_iBpp f = 1 -> glyph_bit f (iXLeft f + k) y = Some on ->
  exists b, byte_at (pucBuffer f) ((y - iYTop f) * iPitch f + k / 8) = Some b /\
  bit_set b (Z.shiftl 1 (7 - k mod 8)) = on.
Proof.
  intros Hf. unfold glyph_bit. rewrite Hf. cbn [Z.eqb Pos.eqb].
  replace (iXLeft f + k - iXLeft f) with k by lia.
  destruct (byte_at _ _) as [b|]; [|done]. intros [= <-]. by exists b.
Qed.

Lemma glyph_grey f k y on : font_iBpp f = 8 -> glyph_bit f (iXLeft f + k) y = Some on ->
  exists b, byte_at (pucBuffer f) ((y - iYTop f) * (iXMax f - iXLeft f) + k) = Some b /\
  truth b = on.
Proof.
  intros Hf. unfold glyph_bit. rewrite Hf. cbn [Z.eqb Pos.eqb].
  replace (iXLeft f + k - iXLeft f) with k by lia.
  destruct (byte_at _ _) as [b|]; [|done]. intros [= <-]. by exists b.
Qed.

(** The next pixel of a character. *)
Lemma glyph_drawn f p x y on : pic_ok p -> has_colors p -> in_pic p x y ->
  glyph_bit f x y = Some on ->
  exists p' n, SetColorForPixelInVideoMem x y (font_color on) p = Some (n, p') /\ n <> -1 /\
  drawn (fun x' y' => (x' =? x) && (y' =? y)) (glyph_pixel (iBpp p) f) p p' /\
  pic_ok p' /\ iBpp p' = iBpp p /\ forall x y, in_pic p' x y <-> in_pic p x y.
Proof.
  intros Hp Hc Hin Hb.
  destruct (set_color_drawn p x y (font_color on) (glyph_pixel (iBpp p) f))
    as (p' & n & E & Hn & D); try done.
  { unfold glyph_pixel. by rewrite Hb. }
  exists p', n. destruct (drawn_shape _ _ _ _ D Hp) as (? & ? & ?). done.
Qed.

(** The rest of a row after its first pixel. *)
Lemma drawn_run f p p1 p2 x n y :
  drawn (fun x' y' => (x' =? x) && (y' =? y)) (glyph_pixel (iBpp p) f) p p1 ->
  iBpp p1 = iBpp p ->
  drawn (in_run (x + 1) (Z.of_nat n) y) (glyph_pixel (iBpp p1) f) p1 p2 ->
  drawn (in_run x (Z.of_nat (S n)) y) (glyph_pixel (iBpp p) f) p p2.
Proof.
  intros D1 Hb D2. rewrite Hb in D2. eapply drawn_trans; [exact D1|exact D2|].
  intros x' y'. rewrite Nat2Z.inj_succ, <- Z.add_1_r, in_run_step by lia. done.
Qed.

Lemma drawn_run_none f p x y : drawn (in_run x 0 y) (glyph_pixel (iBpp p) f) p p.
Proof.
  destruct (drawn_none (glyph_pixel (iBpp p) f) p) as [D _]. split; [done|].
  intros. by rewrite in_run_none.
Qed.

(** The byte of a started group of eight pixels is in [uc]. *)
Lemma mono_row_ok f y todo : font_iBpp f = 1 -> forall k uc p,
  pic_ok p -> has_colors p -> 0 <= k ->
  let base := (y - iYTop f) * iPitch f in
  (k mod 8 <> 0 -> byte_at (pucBuffer f) (base + k / 8) = Some uc) ->
  (forall j, k <= j < k + Z.of_nat todo ->
   in_pic p (iXLeft f + j) y /\ is_Some (glyph_bit f (iXLeft f + j) y)) ->
  exists p', mono_row todo (iXLeft f + k) y (base + (k + 7) / 8) (7 - k mod 8) uc f p = Some (0, p') /\
  drawn (in_run (iXLeft f + k) (Z.of_nat todo) y) (glyph_pixel (iBpp p) f) p p'.
Proof.
  intros Hf. induction todo as [|todo IH]; intros k uc p Hp Hc Hk base Huc Hall; cbn [mono_row].
  { exists p. split; [done|]. apply drawn_run_none. }
  destruct (Hall k) as [Hin [on Hon]]; [lia|].
  destruct (glyph_mono f k y on Hf Hon) as (b & Eb & Eon). fold base in Eb.
  rewrite (mono_load (pucBuffer f) base k b uc) by done. cbn [mbind option_bind]. rewrite Eon.
  destruct (glyph_drawn f p (iXLeft f + k) y on) as (p1 & n & E1 & Hn & D1 & Hp1 & Hb1 & Hin1);
    try done.
  rewrite E1. cbn [mbind option_bind]. destruct (Z.eqb_spec n (-1)); [done|].
  destruct (mono_next base k Hk) as (-> & Ei & Ej). rewrite Ei, <- Z.add_assoc.
  destruct (IH (k + 1) b p1) as (p' & E' & D'); [done|by unfold has_colors; rewrite Hb1|lia| | |].
  - intros Hk8. fold base. by rewrite Ej.
  - intros j Hj. rewrite Hin1. apply Hall. lia.
  - exists p'. split; [exact E'|]. rewrite Z.add_assoc in D'. by eapply drawn_run.
Qed.

Lemma grey_row_ok f y todo : font_iBpp f = 8 -> forall k p,
  pic_ok p -> has_colors p -> 0 <= k ->
  let base := (y - iYTop f) * (iXMax f - iXLeft f) in
  (forall j, k <= j < k + Z.of_nat todo ->
   in_pic p (iXLeft f + j) y /\ is_Some (glyph_bit f (iXLeft f + j) y)) ->
  exists p', grey_row todo (iXLeft f + k) y (base + k) f p
             = Some (0, base + k + Z.of_nat todo, p') /\
  drawn (in_run (iXLeft f + k) (Z.of_nat todo) y) (glyph_pixel (iBpp p) f) p p'.
Proof.
  intros Hf. induction todo as [|todo IH]; intros k p Hp Hc Hk base Hall; cbn [grey_row].
  { exists p. rewrite Z.add_0_r. split; [done|]. apply drawn_run_none. }
  destruct (Hall k) as [Hin [on Hon]]; [lia|].
  destruct (glyph_grey f k y on Hf Hon) as (b & Eb & Eon). fold base in Eb.
  rewrite Eb. cbn [mbind option_bind]. rewrite Eon.
  destruct (glyph_drawn f p (iXLeft f + k) y on) as (p1 & n & E1 & Hn & D1 & Hp1 & Hb1 & Hin1);
    try done.
  rewrite E1. cbn [mbind option_bind]. destruct (Z.eqb_spec n (-1)); [done|].
  rewrite <- !Z.add_assoc.
  destruct (IH (k + 1) p1) as (p' & E' & D'); [done|by unfold has_colors; rewrite Hb1|lia| |].
  - intros j Hj. rewrite Hin1. apply Hall. lia.
  - exists p'. split.
    + fold base in E'. rewrite E'. do 3 f_equal. lia.
    + rewrite Z.add_assoc in D'. by eapply drawn_run.
Qed.

Lemma in_rect_row ox oy w h x y : 0 <= h ->
  in_rect ox oy w (h + 1) x y = in_run ox w oy x y || in_rect ox (oy + 1) w h x y.
Proof.
  intros. unfold in_rect, in_run. apply eq_bool_prop_intro.
  rewrite !Is_true_true, !orb_true_iff, !andb_true_iff, !Z.leb_le, !Z.ltb_lt, !Z.eqb_eq. lia.
Qed.

(** The rows below the first. *)
Lemma drawn_rows f p p1 p2 x y w n :
  drawn (in_run x w y) (glyph_pixel (iBpp p) f) p p1 -> iBpp p1 = iBpp p ->
  drawn (in_rect x (y + 1) w (Z.of_nat n)) (glyph_pixel (iBpp p1) f) p1 p2 ->
  drawn (in_rect x y w (Z.of_nat (S n))) (glyph_pixel (iBpp p) f) p p2.
Proof.
  intros D1 Hb D2. rewrite Hb in D2. eapply drawn_trans; [exact D1|exact D2|].
  intros x' y'. rewrite Nat2Z.inj_succ, <- Z.add_1_r. apply in_rect_row. lia.
Qed.

Lemma drawn_rect_none f p x y w : drawn (in_rect x y w 0) (glyph_pixel (iBpp p) f) p p.
Proof.
  destruct (drawn_none (glyph_pixel (iBpp p) f) p) as [D _]. split; [done|].
  intros x' y' _. assert (in_rect x y w 0 x' y' = false) as ->; [|done].
  apply not_true_is_false. unfold in_rect. intros ?. bool_lia.
Qed.

(** Every pixel of [n] rows from [y] on lies in the picture and in the bitmap. *)
Definition rows_covered (f : T_FontBitMap) (p : T_PixelDatas) (y n : Z) : Prop :=
  forall j r, 0 <= j < iXMax f - iXLeft f -> y <= r < y + n ->
  in_pic p (iXLeft f + j) r /\ is_Some (glyph_bit f (iXLeft f + j) r).

Section Rows.
Variable f : T_FontBitMap.
Let w : Z := Z.of_nat (Z.to_nat (iXMax f - iXLeft f)).

Lemma mono_rows_ok n : font_iBpp f = 1 -> forall y p,
  pic_ok p -> has_colors p -> rows_covered f p y (Z.of_nat n) ->
  exists p', mono_rows n y f p = Some (0, p') /\
  drawn (in_rect (iXLeft f) y w (Z.of_nat n)) (glyph_pixel (iBpp p) f) p p'.
Proof.
  intros Hf. induction n as [|n IH]; intros y p Hp Hc Hr; cbn [mono_rows].
  { exists p. split; [done|]. apply drawn_rect_none. }
  destruct (mono_row_ok f y (Z.to_nat (iXMax f - iXLeft f)) Hf 0 0 p) as (p1 & E1 & D1);
    [done|done|done|done|intros j Hj; apply Hr; lia|].
  rewrite !Z.add_0_r in E1, D1. change (7 - 0 mod 8) with 7 in E1.
  change ((0 + 7) / 8) with 0 in E1. rewrite Z.add_0_r in E1. rewrite E1.
  cbn [mbind option_bind]. change (0 =? -1) with false. cbn iota.
  destruct (drawn_shape _ _ _ _ D1 Hp) as (Hp1 & Hb1 & Hin1).
  destruct (IH (y + 1) p1) as (p' & E' & D'); [done|by unfold has_colors; rewrite Hb1| |].
  - intros j r Hj Hr'. rewrite Hin1. apply Hr; lia.
  - exists p'. split; [done|]. by eapply drawn_rows.
Qed.

Lemma grey_rows_ok n : font_iBpp f = 8 -> forall y p,
  pic_ok p -> has_colors p -> 0 <= iXMax f - iXLeft f -> rows_covered f p y (Z.of_nat n) ->
  exists p', grey_rows n y ((y - iYTop f) * (iXMax f - iXLeft f)) f p = Some (0, p') /\
  drawn (in_rect (iXLeft f) y w (Z.of_nat n)) (glyph_pixel (iBpp p) f) p p'.
Proof.
  intros Hf. induction n as [|n IH]; intros y p Hp Hc Hw Hr; cbn [grey_rows].
  { exists p. split; [done|]. apply drawn_rect_none. }
  destruct (grey_row_ok f y (Z.to_nat (iXMax f - iXLeft f)) Hf 0 p) as (p1 & E1 & D1);
    [done|done|done|intros j Hj; apply Hr; lia|].
  rewrite !Z.add_0_r in E1. rewrite !Z.add_0_r in D1. rewrite ?Z.add_0_r in E1. rewrite E1. cbn [mbind option_bind].
  change (0 =? -1) with false. cbn iota. rewrite Z2Nat.id by done.
  destruct (drawn_shape _ _ _ _ D1 Hp) as (Hp1 & Hb1 & Hin1).
  replace ((y - iYTop f) * (iXMax f - iXLeft f) + (iXMax f - iXLeft f))
    with ((y + 1 - iYTop f) * (iXMax f - iXLeft f)) by lia.
  destruct (IH (y + 1) p1) as (p' & E' & D'); [done|by unfold has_colors; rewrite Hb1|done| |].
  - intros j r Hj Hr'. rewrite Hin1. apply Hr; lia.
  - exists p'. split; [done|]. by eapply drawn_rows.
Qed.

(** Drawing a character whose box lies in the picture. *)
Lemma merge_font_ok p : pic_ok p -> has_colors p -> glyph_ok f -> iXLeft f <= iXMax f ->
  (forall x y, in_box f x y = true -> in_pic p x y) ->
  exists p', MergeOneFontToVideoMem f p = Some (0, p') /\
  drawn (in_box f) (glyph_pixel (iBpp p) f) p p'.
Proof.
  intros Hp Hc [Hb Hg] Hle Hin.
  assert (Hbox : forall x y, in_box f x y
    = in_rect (iXLeft f) (iYTop f) w (Z.of_nat (Z.to_nat (iYMax f - iYTop f))) x y).
  { intros x y. unfold in_box, in_rect, w. apply eq_bool_prop_intro.
    rewrite !Is_true_true, !andb_true_iff, !Z.leb_le, !Z.ltb_lt. lia. }
  assert (Hr : rows_covered f p (iYTop f) (Z.of_nat (Z.to_nat (iYMax f - iYTop f)))).
  { intros j r Hj Hr'. assert (in_box f (iXLeft f + j) r = true) as Hi.
    { unfold in_box. rewrite !andb_true_iff, !Z.leb_le, !Z.ltb_lt. lia. }
    split; [by apply Hin|by apply Hg]. }
  assert (exists p', MergeOneFontToVideoMem f p = Some (0, p') /\
    drawn (in_rect (iXLeft f) (iYTop f) w (Z.of_nat (Z.to_nat (iYMax f - iYTop f))))
      (glyph_pixel (iBpp p) f) p p') as (p' & E & [D1 D2]).
  { unfold MergeOneFontToVideoMem. destruct Hb as [Hb|Hb]; rewrite Hb; cbn [Z.eqb Pos.eqb].
    - by apply mono_rows_ok.
    - destruct (grey_rows_ok (Z.to_nat (iYMax f - iYTop f)) Hb (iYTop f) p) as (p' & E & D);
        try done; [lia|]. rewrite Z.sub_diag, Z.mul_0_l in E. by exists p'. }
  exists p'. split; [done|]. split; [done|]. intros. by rewrite D2, Hbox.
Qed.

End Rows.

(** * Strings *)

(** A pixel in one of the two colours of text. *)
Definition ink (p : T_PixelDatas) (x y : Z) : Prop :=
  exists on, pixel p x y = color_bytes (iBpp p) (font_color on).

(** [p'] is [p] with changes inside [R] only, which keep pixels in the colours of
    text. *)
Definition inked (R : Z -> Z -> bool) (p p' : T_PixelDatas) : Prop :=
  (exists m, p' = set_pixels m p /\ zlen m = zlen (aucPixelDatas p)) /\
  forall x y, in_pic p x y ->
    if R x y then ink p x y -> ink p' x y else pixel p' x y = pixel p x y.

Lemma inked_shape R p p' : inked R p p' -> pic_ok p -> has_colors p ->
  pic_ok p' /\ has_colors p' /\ iWidth p' = iWidth p /\ iHeight p' = iHeight p.
Proof. intros [(m & -> & L) _] Hp. split; [by apply pic_ok_mem|done]. Qed.

#[export] Instance inked_preorder R : PreOrder (inked R).
Proof.
  split.
  - intros p. split; [exists (aucPixelDatas p); by destruct p|]. intros x y _. by destruct (R x y).
  - intros p1 p2 p3 [(m1 & -> & L1) H1] [(m2 & -> & L2) H2].
    split; [exists m2; cbn in *; split; [done|lia]|].
    intros x y Hxy. specialize (H1 x y Hxy). specialize (H2 x y Hxy).
    destruct (R x y); [auto|congruence].
Qed.

(** Drawing a character inside the rectangle. *)
Lemma font_inked tlx tly brx bry f p : pic_ok p -> has_colors p ->
  0 <= tlx -> brx < iWidth p -> 0 <= tly -> bry < iHeight p ->
  glyph_ok f -> iXLeft f <= iXMax f -> isFontInArea tlx tly brx bry f = true ->
  exists p', MergeOneFontToVideoMem f p = Some (0, p') /\
  inked (in_rect tlx tly (brx - tlx + 1) (bry - tly + 1)) p p'.
Proof.
  intros Hp Hc Hx Hw Hy Hh Hg Hle Ha.
  assert (Hbox : forall x y, in_box f x y = true ->
    in_rect tlx tly (brx - tlx + 1) (bry - tly + 1) x y = true /\ in_pic p x y).
  { intros x y Hb. unfold in_box, isFontInArea in *. unfold in_rect, in_pic.
    rewrite !andb_true_iff, !Z.leb_le, !Z.ltb_lt. bool_lia. }
  destruct (merge_font_ok f p) as (p' & E & [Hs D]); try done; [intros; by apply Hbox|].
  exists p'. split; [done|]. split; [done|]. intros x y Hxy. rewrite D by done.
  destruct (in_box f x y) eqn:Eb.
  - destruct (Hbox x y Eb) as [-> _]. intros _. destruct (proj2 Hg x y Eb) as [on Hon].
    exists on. rewrite D, Eb by done. destruct Hs as (m & -> & _). unfold glyph_pixel. by rewrite Hon.
  - destruct (in_rect _ _ _ _ x y); [|done]. intros [on Hon]. exists on.
    rewrite D, Eb by done. by destruct Hs as (m & -> & _).
Qed.

(** The rectangle cleared. *)
Lemma clear_inked tlx tly brx bry p : pic_ok p -> has_colors p ->
  0 <= tlx <= brx -> brx < iWidth p -> 0 <= tly <= bry -> bry < iHeight p ->
  exists p', ClearRectangleInVideoMem tlx tly brx bry COLOR_BACKGROUND p = Some p' /\
  inked (in_rect tlx tly (brx - tlx + 1) (bry - tly + 1)) p p' /\
  forall x y, in_pic p x y -> in_rect tlx tly (brx - tlx + 1) (bry - tly + 1) x y = true ->
  ink p' x y.
Proof.
  intros Hp Hc Hx Hw Hy Hh.
  assert (is_Some (color_bytes (iBpp p) COLOR_BACKGROUND)) as [v Ev]
    by (unfold color_bytes; destruct Hc as [->|[->| ->]]; by eexists).
  destruct (color_bytes_len _ _ _ Ev) as [Hv Hv0]. fold (pixel_bytes p) in Hv.
  unfold ClearRectangleInVideoMem. rewrite (clear_rect_fill _ _ _ _ _ _ v) by (done || lia).
  destruct (clear_rect (fill_row (Z.to_nat (brx - tlx + 1)) v) v p tlx tly
              (brx - tlx + 1) (bry - tly + 1)) as (m & E & L & Hm); try done; try lia.
  { intros off m0 Ho Hf. destruct (fill_row_spec v Hv0 (Z.to_nat (brx - tlx + 1)) off m0)
      as (m' & E' & F'); [done|rewrite Z2Nat.id by lia; done|].
    rewrite Z2Nat.id in F' by lia. by exists m'. }
  rewrite E. exists (set_pixels m p). split; [done|].
  assert (Hink : forall x y, in_pic p x y ->
    in_rect tlx tly (brx - tlx + 1) (bry - tly + 1) x y = true -> ink (set_pixels m p) x y).
  { intros x y Hxy Hr. exists false. rewrite Hm, Hr by done. done. }
  split; [|done]. split; [by exists m|]. intros x y Hxy.
  destruct (in_rect _ _ _ _ x y) eqn:Er; [intros _; by apply Hink|]. by rewrite Hm, Er.
Qed.

Section TextTheorems.
Variable GetCodeFrmBuf : mem -> Z * Z.
Variable GetFontBitmap : Z -> T_FontBitMap -> Z * T_FontBitMap.

(** A character takes some of the bytes that are left. *)
Definition code_ok : Prop := forall rest, 0 <= fst (GetCodeFrmBuf rest) <= zlen rest.
(** A rendered character has a bitmap that covers its box. *)
Definition font_ok : Prop := forall code f, fst (GetFontBitmap code f) = 0 ->
  glyph_ok (snd (GetFontBitmap code f)) /\
  iXLeft (snd (GetFontBitmap code f)) <= iXMax (snd (GetFontBitmap code f)).

Hypothesis Hcode : code_ok.

Lemma code_advance text pos : 0 <= pos <= zlen text ->
  let iLen := fst (GetCodeFrmBuf (drop (Z.to_nat pos) text)) in
  0 <= iLen /\ pos + iLen <= zlen text /\ advance text pos iLen = Some (pos + iLen).
Proof.
  intros Hp iLen. pose proof (Hcode (drop (Z.to_nat pos) text)) as H. fold iLen in H.
  unfold zlen in H, Hp. rewrite length_drop in H. unfold advance, zlen.
  rewrite (proj2 (Z.leb_le _ _)), (proj2 (Z.leb_le _ _)) by lia. split_and!; try lia. done.
Qed.

(** Both passes end: each round takes a byte off the string. *)
Lemma measure_ends fuel : forall text pos b f e,
  0 <= pos <= zlen text -> zlen text - pos < Z.of_nat fuel ->
  is_Some (measure_loop GetCodeFrmBuf GetFontBitmap fuel text pos b f e).
Proof.
  induction fuel as [|fuel IH]; intros text pos b f e Hp Hf; [lia|]. cbn [measure_loop].
  destruct (code_advance text pos Hp) as (H0 & H1 & H2).
  destruct (GetCodeFrmBuf (drop (Z.to_nat pos) text)) as [iLen code]. cbn [fst] in *.
  destruct (Z.eqb_spec iLen 0); [by eexists|]. rewrite H2. cbn [mbind option_bind].
  destruct (GetFontBitmap code f) as [err f']. destruct (err =? 0); apply IH; lia.
Qed.

Hypothesis Hfont : font_ok.

Lemma draw_ok fuel tlx tly brx bry : 0 <= tlx -> 0 <= tly -> forall text pos b f p,
  0 <= pos <= zlen text -> zlen text - pos < Z.of_nat fuel ->
  pic_ok p -> has_colors p -> brx < iWidth p -> bry < iHeight p ->
  exists ret p', draw_loop GetCodeFrmBuf GetFontBitmap fuel text pos b tlx tly brx bry f p
                 = Some (ret, p') /\ (ret = 0 \/ ret = -1) /\
  inked (in_rect tlx tly (brx - tlx + 1) (bry - tly + 1)) p p'.
Proof.
  intros Hx Hy. induction fuel as [|fuel IH]; intros text pos b f p Hp Hf Hok Hc Hw Hh; [lia|].
  cbn [draw_loop]. destruct (code_advance text pos Hp) as (H0 & H1 & H2).
  destruct (GetCodeFrmBuf (drop (Z.to_nat pos) text)) as [iLen code]. cbn [fst] in *.
  destruct (Z.eqb_spec iLen 0).
  { exists (if b then 0 else -1), p. destruct b; split_and!; auto; reflexivity. }
  rewrite H2. cbn [mbind option_bind]. pose proof (Hfont code f) as Hg.
  destruct (GetFontBitmap code f) as [err f']. cbn [fst snd] in Hg.
  destruct (Z.eqb_spec err 0) as [->|]; [|by apply IH; try done; lia].
  destruct (Hg eq_refl) as [Hgl Hle]. destruct (isFontInArea tlx tly brx bry f') eqn:Ha.
  - destruct (font_inked tlx tly brx bry f' p) as (p1 & -> & D1); try done.
    cbn [mbind option_bind]. change (truth 0) with false. cbn iota.
    destruct (inked_shape _ _ _ D1 Hok Hc) as (Hok1 & Hc1 & Ew & Eh).
    edestruct (IH text (pos + iLen) true) as (ret & p' & E & Hr & D); try done; try lia.
    exists ret, p'. split_and!; [exact E|done|]. by transitivity p1.
  - exists 0, p. split_and!; [done|by left|reflexivity].
Qed.

(** Drawing a string into a picture. *)
Lemma merge_string_ok tlx tly brx bry text f0 p :
  pic_ok p -> has_colors p ->
  0 <= tlx <= brx -> brx < iWidth p -> 0 <= tly <= bry -> bry < iHeight p ->
  exists ret p', MergerStringToCenterOfRectangleInVideoMem GetCodeFrmBuf GetFontBitmap
                   tlx tly brx bry text f0 p = Some (ret, p') /\
  (ret = 0 \/ ret = -1) /\
  (exists m, p' = set_pixels m p /\ zlen m = zlen (aucPixelDatas p)) /\
  forall x y, in_pic p x y ->
    if in_rect tlx tly (brx - tlx + 1) (bry - tly + 1) x y
    then ink p' x y else pixel p' x y = pixel p x y.
Proof.
  intros Hp Hc Hx Hw Hy Hh. unfold MergerStringToCenterOfRectangleInVideoMem.
  destruct (clear_inked tlx tly brx bry p) as (p1 & -> & D1 & I1); try done.
  cbn [mbind option_bind]. destruct (inked_shape _ _ _ D1 Hp Hc) as (Hp1 & Hc1 & Ew & Eh).
  destruct (measure_ends (S (length text)) text 0 false (set_origin 0 0 f0) start_extent)
    as [r ->]; [unfold zlen; lia..|]. cbn [mbind option_bind].
  assert (Fin : forall ret p', (ret = 0 \/ ret = -1) ->
    inked (in_rect tlx tly (brx - tlx + 1) (bry - tly + 1)) p1 p' ->
    (ret = 0 \/ ret = -1) /\
    (exists m, p' = set_pixels m p /\ zlen m = zlen (aucPixelDatas p)) /\
    forall x y, in_pic p x y ->
    if in_rect tlx tly (brx - tlx + 1) (bry - tly + 1) x y
    then ink p' x y else pixel p' x y = pixel p x y).
  { intros ret p' Hr D. split_and!; [done|apply (transitivity D1 D)|]. intros x y Hxy. destruct D1 as [_ D1], D as [_ D].
    assert (Hxy1 : in_pic p1 x y) by (unfold in_pic; by rewrite Ew, Eh).
    specialize (D1 x y Hxy). specialize (D x y Hxy1). specialize (I1 x y Hxy).
    destruct (in_rect _ _ _ _ x y); [by apply D, I1|congruence]. }
  destruct r as [[f e]|]; [|exists (-1), p1; split; [done|]; apply Fin; [by right|reflexivity]].
  destruct (_ >? bry - tly); [exists (-1), p1; split; [done|]; apply Fin; [by right|reflexivity]|].
  edestruct (draw_ok (S (length text)) tlx tly brx bry) with (text := text) (pos := 0)
    as (ret & p' & E & Hr & D); [lia|lia|unfold zlen; lia|unfold zlen; lia|done|done|lia|lia|].
  exists ret, p'. split; [exact E|]. by apply Fin.
Qed.


(** A page with the geometry of the screen, as the display manager allocates it. *)
Record page_ok (d : disp) (v : T_VideoMem) : Prop := {
  pg_width : iWidth (tPixelDatas v) = fb_xres (disp_fb d);
  pg_height : iHeight (tPixelDatas v) = fb_yres (disp_fb d);
  pg_bpp : iBpp (tPixelDatas v) = fb_bits_per_pixel (disp_fb d);
  pg_line : iLineBytes (tPixelDatas v) = g_dwLineWidth (disp_fb d);
  pg_total : iTotalBytes (tPixelDatas v) = g_dwScreenSize (disp_fb d);
  pg_mem : bDevFrameBuffer v = false ->
    zlen (aucPixelDatas (tPixelDatas v)) = g_dwScreenSize (disp_fb d);
}.

Lemma page_pic_ok d v : fb_ok (disp_fb d) -> page_ok d v -> pic_ok (page_pixels d v).
Proof.
  intros Hf [P1 P2 P3 P4 P5 P6]. destruct (fo_pic _ Hf) as [B W H L T].
  unfold pixel_bytes in *. cbn in *. pose proof (fo_size _ Hf). pose proof (fo_line _ Hf).
  unfold page_pixels. destruct (bDevFrameBuffer v) eqn:E; split; unfold pixel_bytes; cbn;
    rewrite ?P1, ?P2, ?P3, ?P4, ?P6 by done; try done. nia.
Qed.

(** The screen after showing a page that is not the framebuffer itself. *)
Lemma show_page_pixels fb v p : fb_ok fb -> bDevFrameBuffer v = false -> tPixelDatas v = p ->
  iTotalBytes p = g_dwScreenSize fb -> zlen (aucPixelDatas p) = g_dwScreenSize fb ->
  iBpp p = fb_bits_per_pixel fb -> iLineBytes p = g_dwLineWidth fb ->
  exists m, FBShowPage v fb = Some (0, set_fb_mem m fb) /\
  forall x y, in_pic (fb_pic fb) x y -> pixel (fb_pic (set_fb_mem m fb)) x y = pixel p x y.
Proof.
  intros Hf Hv <- Ht Hz Hb Hl. pose proof (fo_pic _ Hf) as Hp. pose proof (fo_size _ Hf) as Hs.
  pose proof (fo_line _ Hf). pose proof (po_total _ Hp) as Htot. cbn in Htot.
  destruct (po_bpp _ Hp) as [_ Hpb]. unfold FBShowPage. rewrite Hv, Ht.
  assert (0 <= g_dwScreenSize fb) by (rewrite <- Hz; apply zlen_nonneg).
  assert (Hr := mem_read_in (aucPixelDatas (tPixelDatas v)) 0 (g_dwScreenSize fb)
                  ltac:(lia) ltac:(lia) ltac:(lia)).
  rewrite Hr. cbn [mbind option_bind]. set (data := take _ _) in *.
  pose proof (mem_read_length _ _ _ _ Hr) as Hd.
  destruct (mem_write_ok (g_pucFBMem fb) 0 data) as (m & -> & _ & Hm); [done|nia|].
  exists m. split; [done|]. intros x y Hxy.
  pose proof (pixel_offset _ x y Hp Hxy) as Ho. destruct Hxy as [Hx Hy].
  unfold pixel, pixel_bytes in *. cbn in *. rewrite Hl, Hb.
  rewrite Hd in Hm. set (o := y * g_dwLineWidth fb + x * (fb_bits_per_pixel fb / 8)) in *.
  assert ((y + 1) * g_dwLineWidth fb <= fb_yres fb * g_dwLineWidth fb)
    by (apply Z.mul_le_mono_nonneg_r; nia).
  assert (o + fb_bits_per_pixel fb / 8 <= g_dwScreenSize fb) by (unfold o; nia).
  pose proof (mem_read_sub _ _ _ _ o (fb_bits_per_pixel fb / 8) Hm) as S1.
  pose proof (mem_read_sub _ _ _ _ o (fb_bits_per_pixel fb / 8) Hr) as S2.
  rewrite Z.add_0_l in S1, S2. rewrite S1, S2 by (unfold o; lia). done.
Qed.

(** A changed page, stored and shown: the screen has its pixels. *)
Lemma store_flush k v o d m : disp_started d o -> g_ptVideoMemHead d !! k = Some v -> page_ok d v ->
  zlen m = zlen (aucPixelDatas (page_pixels d v)) ->
  exists d1 d2, store_page k (set_pixels m (page_pixels d v)) d = Some d1 /\
  FlushVideoMemToDev k d1 = Some d2 /\
  fb_bits_per_pixel (disp_fb d2) = fb_bits_per_pixel (disp_fb d) /\
  forall x y, in_pic (fb_pic (disp_fb d)) x y ->
    pixel (fb_pic (disp_fb d2)) x y = pixel (set_pixels m (page_pixels d v)) x y.
Proof.
  intros Hd Hk Hv Lm. pose proof (ds_fb _ _ Hd) as Hf.
  destruct (ds_default _ _ Hd) as (i & Hi & Ho). unfold GetDefaultDispDev in Hi.
  unfold store_page, FlushVideoMemToDev, page_pixels in *. rewrite Hk. cbn [mbind option_bind].
  destruct (bDevFrameBuffer v) eqn:Ev.
  - eexists _, _. split; [reflexivity|]. split.
    { cbn. rewrite Hk. cbn [mbind option_bind]. rewrite Ev. reflexivity. }
    split; [done|]. intros x y Hin. unfold pixel, pixel_bytes. cbn. by destruct Hv as [_ _ -> -> _ _].
  - set (v' := mk_vm (iID v) false (eVideoMemState v) (ePicState v) (set_pixels m (tPixelDatas v))).
    destruct (show_page_pixels (disp_fb d) v' (set_pixels m (tPixelDatas v)))
      as (m2 & E2 & Hm2); try done; try (by destruct Hv).
    { cbn. rewrite Lm. by apply (pg_mem _ _ Hv). }
    eexists _, _. split; [reflexivity|]. split.
    { cbn. rewrite list_lookup_insert_eq by (by eapply lookup_lt_Some).
      cbn [mbind option_bind negb bDevFrameBuffer]. rewrite Hi. cbn [mbind option_bind].
      rewrite Ho. cbn [mbind option_bind]. destruct (opr_ops o). rewrite E2. reflexivity. }
    split; [done|exact Hm2].
Qed.

(** C35. Text on the screen: drawing a string in a rectangle of a page and showing the
    page always succeeds. Both passes over the string end because each character takes
    a byte off it. Afterwards every pixel of the screen inside the rectangle has one of
    the two colours of text, and every other pixel is the one the page had before,
    whether the page is a cache that is copied or the framebuffer itself. Assumed is
    that the encoding takes at most the bytes that are left and that a rendered
    character has a bitmap covering its box. *)
Theorem draw_text_shown k v o tlx tly brx bry text f0 d :
  disp_started d o -> g_ptVideoMemHead d !! k = Some v -> page_ok d v ->
  has_colors (fb_pic (disp_fb d)) ->
  0 <= tlx <= brx -> brx < fb_xres (disp_fb d) -> 0 <= tly <= bry -> bry < fb_yres (disp_fb d) ->
  exists ret d1 d2,
  on_page (MergerStringToCenterOfRectangleInVideoMem GetCodeFrmBuf GetFontBitmap
             tlx tly brx bry text f0) k d = Some (ret, d1) /\
  (ret = 0 \/ ret = -1) /\ FlushVideoMemToDev k d1 = Some d2 /\
  forall x y, in_pic (fb_pic (disp_fb d)) x y ->
    if in_rect tlx tly (brx - tlx + 1) (bry - tly + 1) x y
    then ink (fb_pic (disp_fb d2)) x y
    else pixel (fb_pic (disp_fb d2)) x y = pixel (page_pixels d v) x y.
Proof.
  intros Hd Hk Hv Hc Hx Hw Hy Hh. pose proof (page_pic_ok d v (ds_fb _ _ Hd) Hv) as Hp.
  assert (Sh : iWidth (page_pixels d v) = fb_xres (disp_fb d) /\
               iHeight (page_pixels d v) = fb_yres (disp_fb d) /\
               iBpp (page_pixels d v) = fb_bits_per_pixel (disp_fb d)).
  { destruct Hv. unfold page_pixels. by destruct (bDevFrameBuffer v). }
  destruct Sh as (Sw & Shh & Sb).
  destruct (merge_string_ok tlx tly brx bry text f0 (page_pixels d v))
    as (ret & p' & E & Hr & (m & -> & Lm) & Hpx); [done|unfold has_colors; by rewrite Sb|lia..|].
  destruct (store_flush k v o d m Hd Hk Hv Lm) as (d1 & d2 & E1 & E2 & Eb & Hd2).
  exists ret, d1, d2. split_and!; [|done|done|].
  - unfold on_page. rewrite Hk. cbn [mbind option_bind]. rewrite E. cbn [mbind option_bind].
    by rewrite E1.
  - intros x y Hin. assert (Hin' : in_pic (page_pixels d v) x y)
      by (unfold in_pic; by rewrite Sw, Shh).
    specialize (Hpx x y Hin'). unfold ink in *. rewrite Hd2 by done.
    cbn [iBpp fb_pic set_pixels] in *. rewrite Eb. by rewrite Sb in Hpx.
Qed.

End TextTheorems.

(** A font for examples: characters of 2 x 2 pixels with one byte per pixel. *)
Definition sample_code (rest : mem) : Z * Z :=
  match rest with [] => (0, 0) | b :: _ => (1, b) end.
Definition sample_font (code : Z) (f : T_FontBitMap) : Z * T_FontBitMap :=
  let x := iCurOriginX f in
  let y := iCurOriginY f in
  (0, mk_font x y (x + 2) (y + 2) 8 2 x y (x + 2) y [1; 0; 0; 1]).

Lemma sample_code_ok : code_ok sample_code.
Proof.
  intros [|b rest]; [done|]. cbn [sample_code fst]. rewrite zlen_cons.
  pose proof (zlen_nonneg rest). lia.
Qed.

Lemma sample_font_ok : font_ok sample_font.
Proof.
  intros code f _. cbn [sample_font snd]. split; [|cbn; lia]. split; [by right|].
  intros x y Hb. unfold in_box in Hb. cbn [iXLeft iXMax iYTop iYMax] in Hb.
  unfold glyph_bit. cbn [font_iBpp iYTop iXLeft iXMax pucBuffer Z.eqb Pos.eqb].
  set (i := _ + _ : Z). assert (0 <= i < 4) by (unfold i; bool_lia).
  unfold byte_at. rewrite (proj2 (Z.leb_le 0 i)) by lia.
  destruct (lookup_lt_is_Some_2 [1; 0; 0; 1] (Z.to_nat i)) as [b ->]; [cbn; lia|]. by eexists.
Qed.

Definition sample_glyph : T_FontBitMap := mk_font 0 0 0 0 0 0 0 0 0 0 [].

(** One character on a screen of 2 x 2 pixels. *)
Lemma draw_text_shown_witness :
  let d := mk_disp [mk_opr "fb" 2 2 16 4 true FBOps] (Some 0%nat)
             [mk_vm 0 false VMS_FREE PS_BLANK (mk_pic 2 2 16 4 8 (replicate 8 9))] sample_fb in
  exists ret d1 d2,
  on_page (MergerStringToCenterOfRectangleInVideoMem sample_code sample_font 0 0 1 1 [65] sample_glyph)
    0 d = Some (ret, d1) /\ FlushVideoMemToDev 0 d1 = Some d2 /\ ink (fb_pic (disp_fb d2)) 1 1.
Proof.
  intros d.
  destruct (draw_text_shown sample_code sample_font sample_code_ok sample_font_ok 0
              (mk_vm 0 false VMS_FREE PS_BLANK (mk_pic 2 2 16 4 8 (replicate 8 9)))
              (mk_opr "fb" 2 2 16 4 true FBOps) 0 0 1 1 [65] sample_glyph d)
    as (ret & d1 & d2 & E1 & _ & E2 & H); [|done|by split|by right; left|cbn; lia..|].
  - split; [by exists 0%nat|done|done|done|apply sample_fb_ok].
  - exists ret, d1, d2. split_and!; [done|done|]. by apply (H 1 1).
Defined.

(** A font whose second character is deeper than the first. *)
Definition deep_font (code : Z) (f : T_FontBitMap) : Z * T_FontBitMap :=
  let x := iCurOriginX f in
  let y := iCurOriginY f in
  let depth := if code =? 66 then 40 else 30 in
  (0, mk_font x y (x + 10) (y + depth) 8 10 x y (x + 10) y []).

(** The height of a string is not measured: the lowest line is compared with the
    right edge of a character instead of its bottom, so that a deeper second character
    is not counted when the bottom found so far lies right of its edge. *)
Theorem string_height_wrong :
  match measure_loop sample_code deep_font 3 [65; 66] 0 false (set_origin 0 0 sample_glyph)
          start_extent with
  | Some (Some (f, e)) => iMaxY e = 30 /\ iYMax f = 40 /\ iMaxX e = iXMax f
  | _ => False
  end.
Proof. by vm_compute. Qed.

(** * Files *)

(** Every path through the readers unmaps the file it mapped. *)
Lemma files_unmapped e l d name p maps :
  (forall r p' n, GetPixelDatasForIcon e l d name p maps = Some (r, p', n) -> n = maps) /\
  (forall r p' n, GetPixelDatasFrmFile e l d name p maps = Some (r, p', n) -> n = maps) /\
  (forall r n, isPictureFileSupported e l name maps = Some (r, n) -> n = maps).
Proof.
  unfold GetPixelDatasForIcon, GetPixelDatasFrmFile, isPictureFileSupported.
  split_and!; intros; (destruct (MapFile e _) as [file|]; [|by simplify_eq]);
    repeat first [ progress peel H | progress simplify_eq | case_match ]; lia.
Qed.
