(* ===== verification/VideoApp.v ===== *)
(** The video2lcd program ([src/video2lcd/Test]): the capture module
    ([video/v4l2.c]), the list of capture modules ([video/video_manager.c]), the
    part of the display module this program adds ([display/disp_manager.c],
    [display/fb.c]) and [main.c], which brings frames from a camera to the screen.

    The device node is an interface: a class of the system calls that set a
    device up and one of those that move frames. The program is proved correct
    for every camera that keeps the laws stated for them; [AppDrivers] has the
    drivers of the repository as instances.

    A frame belongs to the program between DQBUF and QBUF, so [GetFrame] takes
    its bytes from the mapping at that moment. Sizes are computed without
    wrap-around, as in [PicOps]. *)
From S2P Require Import Prelude V4l2 PicOps Disp PicFmt Float32 Convert.
Open Scope Z_scope.

(** * Device nodes *)

(** The system calls of [V4l2InitDevice] with their results; [None] is a fault of
    the kernel. [io_mmap] maps [length] bytes at an offset, for reading, and gives
    the address or fails. *)
Class CaptureSetup (S : Type) := {
  io_open : S -> option (Z * S);
  io_close : S -> option S;
  io_querycap : S -> option (Z * Z * S);
  io_enum_fmt : v4l2_fmtdesc -> S -> option (Z * v4l2_fmtdesc * S);
  io_s_fmt : v4l2_format -> S -> option (Z * v4l2_format * S);
  io_reqbufs : v4l2_requestbuffers -> S -> option (Z * v4l2_requestbuffers * S);
  io_querybuf : v4l2_buffer -> S -> option (Z * v4l2_buffer * S);
  io_mmap : Z -> Z -> S -> option (option Z * S);
  io_qbuf : v4l2_buffer -> S -> option (Z * S)
}.

(** The calls that move frames. [io_poll] waits without limit; [io_page] is what
    the program reads at a mapping. *)
Class CaptureStream (S : Type) := {
  io_streamon : Z -> S -> option (Z * S);
  io_streamoff : Z -> S -> option (Z * S);
  io_poll : S -> option (Z * S);
  io_dqbuf : v4l2_buffer -> S -> option (Z * v4l2_buffer * S);
  io_read : mem -> Z -> S -> option (Z * mem * S);
  io_munmap : Z -> Z -> S -> option S;
  io_page : Z -> S -> option mem
}.

(** The result of a system call for the result of the driver's function. *)
Definition sysret (r : Z) : Z := if r <? 0 then -1 else r.

(** * The capture module *)

Definition NB_BUFFER := 4.

(** An entry of [pucVideBuf]. *)
Inductive vptr := VNull | VMapped (addr : Z) | VHeap (m : mem).

(** Which [GetFrame] and [PutFrame] the module has. *)
Inductive frame_ops := ForStreaming | ForReadWrite.

Record T_VideoDevice := mk_vdev {
  vd_iPixelFormat : Z;
  vd_iWidth : Z;
  vd_iHeight : Z;
  iVideoBufCnt : Z;
  iVideoBufMaxLen : Z;
  iVideoBufCurIndex : Z;
  pucVideBuf : list vptr;
  ptOPr : frame_ops
}.

Definition set_vd_format (f : Z) (d : T_VideoDevice) : T_VideoDevice :=
  mk_vdev f (vd_iWidth d) (vd_iHeight d) (iVideoBufCnt d) (iVideoBufMaxLen d)
    (iVideoBufCurIndex d) (pucVideBuf d) (ptOPr d).
Definition set_vd_size (w h : Z) (d : T_VideoDevice) : T_VideoDevice :=
  mk_vdev (vd_iPixelFormat d) w h (iVideoBufCnt d) (iVideoBufMaxLen d)
    (iVideoBufCurIndex d) (pucVideBuf d) (ptOPr d).
Definition set_vd_cnt (n : Z) (d : T_VideoDevice) : T_VideoDevice :=
  mk_vdev (vd_iPixelFormat d) (vd_iWidth d) (vd_iHeight d) n (iVideoBufMaxLen d)
    (iVideoBufCurIndex d) (pucVideBuf d) (ptOPr d).
Definition set_vd_bufs (len : Z) (l : list vptr) (d : T_VideoDevice) : T_VideoDevice :=
  mk_vdev (vd_iPixelFormat d) (vd_iWidth d) (vd_iHeight d) (iVideoBufCnt d) len
    (iVideoBufCurIndex d) l (ptOPr d).
Definition set_vd_cur (i : Z) (d : T_VideoDevice) : T_VideoDevice :=
  mk_vdev (vd_iPixelFormat d) (vd_iWidth d) (vd_iHeight d) (iVideoBufCnt d) (iVideoBufMaxLen d)
    i (pucVideBuf d) (ptOPr d).
Definition set_vd_ops (o : frame_ops) (d : T_VideoDevice) : T_VideoDevice :=
  mk_vdev (vd_iPixelFormat d) (vd_iWidth d) (vd_iHeight d) (iVideoBufCnt d) (iVideoBufMaxLen d)
    (iVideoBufCurIndex d) (pucVideBuf d) o.

Definition g_aiSupportedFormats : list Z :=
  [V4L2_PIX_FMT_YUYV; V4L2_PIX_FMT_MJPEG; V4L2_PIX_FMT_RGB565].

Definition isSupportThisFormat (iPixelFormat : Z) : Z :=
  if existsb (fun f => f =? iPixelFormat) g_aiSupportedFormats then 1 else 0.

(** A cleared [v4l2_buffer] with the three fields the program sets. *)
Definition app_buf (index : Z) : v4l2_buffer :=
  mk_vbuf index V4L2_BUF_TYPE_VIDEO_CAPTURE 0 0 0 (0, 0) 0 V4L2_MEMORY_MMAP 0 0 0.
Definition app_fmtdesc (index : Z) : v4l2_fmtdesc :=
  mk_fmtdesc index V4L2_BUF_TYPE_VIDEO_CAPTURE 0 "" 0.
Definition app_format (fmt w h : Z) : v4l2_format :=
  mk_format V4L2_BUF_TYPE_VIDEO_CAPTURE (mk_pix w h fmt V4L2_FIELD_ANY 0 0 0 0).
Definition app_reqbufs : v4l2_requestbuffers :=
  mk_reqbufs NB_BUFFER V4L2_BUF_TYPE_VIDEO_CAPTURE V4L2_MEMORY_MMAP.

Section V4l2.
Context {node : Type} `{CaptureSetup node} `{CaptureStream node}.

(** [close(iFd); return -1;] *)
Definition err_exit (d : T_VideoDevice) (s : node) : option (Z * T_VideoDevice * node) :=
  s ← io_close s; Some (-1, d, s).

(** The loop over the formats. It goes on for as long as the driver knows formats
    the program does not; [fuel] bounds their number. *)
Fixpoint enum_loop (fuel : nat) (f : v4l2_fmtdesc) (d : T_VideoDevice) (s : node)
    : option (T_VideoDevice * node) :=
  match fuel with
  | O => None
  | S fuel =>
      '(iError, f, s) ← io_enum_fmt f s;
      if negb (iError =? 0) then Some (d, s)
      else if negb (isSupportThisFormat (fd_pixelformat f) =? 0)
      then Some (set_vd_format (fd_pixelformat f) d, s)
      else enum_loop fuel (mk_fmtdesc (u32 (fd_index f + 1)) (fd_type f) (fd_flags f)
                             (fd_description f) (fd_pixelformat f)) d s
  end.

(** [pucVideBuf[i] = p]. *)
Definition put_vptr (i : nat) (p : vptr) (l : list vptr) : option (list vptr) :=
  if decide (i < length l)%nat then Some (<[i := p]> l) else None.

(** The loop that maps the buffers; the flag says whether it got to its end. *)
Fixpoint map_loop (todo i : nat) (d : T_VideoDevice) (s : node) : option (bool * T_VideoDevice * node) :=
  match todo with
  | O => Some (true, d, s)
  | S todo =>
      '(iError, b, s) ← io_querybuf (app_buf (Z.of_nat i)) s;
      if negb (iError =? 0) then Some (false, d, s)
      else
        '(a, s) ← io_mmap (vb_length b) (vb_m b) s;
        match a with
        | Some a =>
            l ← put_vptr i (VMapped a) (pucVideBuf d);
            map_loop todo (S i) (set_vd_bufs (s32 (vb_length b)) l d) s
        | None =>
            l ← put_vptr i VNull (pucVideBuf d);
            Some (false, set_vd_bufs (s32 (vb_length b)) l d, s)
        end
  end.

Fixpoint queue_loop (todo i : nat) (s : node) : option (bool * node) :=
  match todo with
  | O => Some (true, s)
  | S todo =>
      '(iError, s) ← io_qbuf (app_buf (Z.of_nat i)) s;
      if negb (iError =? 0) then Some (false, s) else queue_loop todo (S i) s
  end.

(** The part of [V4l2InitDevice] from the choice of streaming or reading on.
    [g_tV4l2VideoOpr] starts with the functions for streaming. *)
Definition setup_buffers (malloc : Z -> option mem) (caps : Z) (d : T_VideoDevice) (s : node)
    : option (Z * T_VideoDevice * node) :=
  if bit_set caps V4L2_CAP_STREAMING then
    '(ok, d, s) ← map_loop (Z.to_nat (iVideoBufCnt d)) 0 d s;
    if negb ok then err_exit d s
    else
      '(ok, s) ← queue_loop (Z.to_nat (iVideoBufCnt d)) 0 s;
      if negb ok then err_exit d s else Some (0, set_vd_ops ForStreaming d, s)
  else if bit_set caps V4L2_CAP_READWRITE then
    let d := set_vd_cnt 1 (set_vd_ops ForReadWrite d) in
    let len := vd_iWidth d * vd_iHeight d * 4 in
    l ← put_vptr 0 (match malloc len with Some m => VHeap m | None => VNull end) (pucVideBuf d);
    Some (0, set_vd_bufs len l d, s)
  else Some (0, set_vd_ops ForStreaming d, s).

(** [iLcdWidth] and [iLcdHeigt] are what [GetDispResolution] gives. The device
    structure is not initialised by the caller. *)
Definition V4l2InitDevice (fuel : nat) (malloc : Z -> option mem) (iLcdWidth iLcdHeigt : Z)
    (d : T_VideoDevice) (s : node) : option (Z * T_VideoDevice * node) :=
  '(iFd, s) ← io_open s;
  if iFd <? 0 then Some (-1, d, s)
  else
    '(_, _, s) ← io_querycap s;
    '(iError, caps, s) ← io_querycap s;
    if negb (iError =? 0) then err_exit d s
    else if negb (bit_set caps V4L2_CAP_VIDEO_CAPTURE) then err_exit d s
    else
      '(d, s) ← enum_loop fuel (app_fmtdesc 0) d s;
      if vd_iPixelFormat d =? 0 then err_exit d s
      else
        '(iError, f, s) ← io_s_fmt (app_format (vd_iPixelFormat d) (u32 iLcdWidth) (u32 iLcdHeigt)) s;
        if negb (iError =? 0) then err_exit d s
        else
          let d := set_vd_size (s32 (pix_width (fmt_pix f))) (s32 (pix_height (fmt_pix f))) d in
          '(iError, req, s) ← io_reqbufs app_reqbufs s;
          if negb (iError =? 0) then err_exit d s
          else setup_buffers malloc caps (set_vd_cnt (s32 (rb_count req)) d) s.

(** Unmapping what was not mapped, the block of the reading functions, is left
    undefined. *)
Fixpoint unmap_loop (todo i : nat) (d : T_VideoDevice) (s : node) : option (T_VideoDevice * node) :=
  match todo with
  | O => Some (d, s)
  | S todo =>
      p ← pucVideBuf d !! i;
      match p with
      | VNull => unmap_loop todo (S i) d s
      | VMapped a =>
          s ← io_munmap a (iVideoBufMaxLen d) s;
          unmap_loop todo (S i) (set_vd_bufs (iVideoBufMaxLen d) (<[i := VNull]> (pucVideBuf d)) d) s
      | VHeap _ => None
      end
  end.

Definition V4l2ExitDevice (d : T_VideoDevice) (s : node) : option (Z * T_VideoDevice * node) :=
  '(d, s) ← unmap_loop (Z.to_nat (iVideoBufCnt d)) 0 d s;
  s ← io_close s;
  Some (0, d, s).

(** Bits per pixel of a format; none for MJPEG. *)
Definition frame_bpp (fmt : Z) : Z :=
  if fmt =? V4L2_PIX_FMT_YUYV then 16
  else if fmt =? V4L2_PIX_FMT_MJPEG then 0
  else if fmt =? V4L2_PIX_FMT_RGB565 then 16
  else 0.

(** The fields both [GetFrame] functions fill in. *)
Definition frame_of (d : T_VideoDevice) (total : Z) (p : ptr) (m : mem) : T_VideoBuf :=
  let bpp := frame_bpp (vd_iPixelFormat d) in
  mk_frame (mk_pic (vd_iWidth d) (vd_iHeight d) bpp (Z.quot (vd_iWidth d * bpp) 8) total m) p
    (vd_iPixelFormat d).

Definition V4l2GetFrameForStreaming (d : T_VideoDevice) (vb : T_VideoBuf) (s : node)
    : option (Z * T_VideoDevice * T_VideoBuf * node) :=
  '(iRet, s) ← io_poll s;
  if iRet <=? 0 then Some (-1, d, vb, s)
  else
    '(iRet, b, s) ← io_dqbuf (app_buf 0) s;
    if iRet <? 0 then Some (-1, d, vb, s)
    else
      let d := set_vd_cur (s32 (vb_index b)) d in
      p ← pucVideBuf d !! Z.to_nat (vb_index b);
      match p with
      | VNull => Some (0, d, frame_of d (s32 (vb_bytesused b)) Null [], s)
      | VMapped a => m ← io_page a s; Some (0, d, frame_of d (s32 (vb_bytesused b)) Live m, s)
      | VHeap m => Some (0, d, frame_of d (s32 (vb_bytesused b)) Live m, s)
      end.

Definition V4l2PutFrameForStreaming (d : T_VideoDevice) (s : node) : option (Z * node) :=
  '(iError, s) ← io_qbuf (app_buf (u32 (iVideoBufCurIndex d))) s;
  Some (if negb (iError =? 0) then -1 else 0, s).

(** [read] into no memory fails. *)
Definition V4l2GetFrameForReadWrite (d : T_VideoDevice) (vb : T_VideoBuf) (s : node)
    : option (Z * T_VideoDevice * T_VideoBuf * node) :=
  p ← pucVideBuf d !! 0%nat;
  match p with
  | VHeap m =>
      '(iRet, m, s) ← io_read m (u32 (iVideoBufMaxLen d)) s;
      let d := set_vd_bufs (iVideoBufMaxLen d) (<[0%nat := VHeap m]> (pucVideBuf d)) d in
      if iRet <=? 0 then Some (-1, d, vb, s)
      else Some (0, d, frame_of d iRet Live m, s)
  | VNull | VMapped _ => Some (-1, d, vb, s)
  end.

Definition V4l2PutFrameForReadWrite (d : T_VideoDevice) (s : node) : option (Z * node) :=
  Some (0, s).

Definition V4l2StartDevice (s : node) : option (Z * node) :=
  '(iError, s) ← io_streamon V4L2_BUF_TYPE_VIDEO_CAPTURE s;
  Some (if negb (iError =? 0) then -1 else 0, s).

Definition V4l2StopDevice (s : node) : option (Z * node) :=
  '(iError, s) ← io_streamoff V4L2_BUF_TYPE_VIDEO_CAPTURE s;
  Some (if negb (iError =? 0) then -1 else 0, s).

Definition V4l2GetFormat (d : T_VideoDevice) : Z := vd_iPixelFormat d.

(** [ptOPr->GetFrame] and [ptOPr->PutFrame]. *)
Definition GetFrame (d : T_VideoDevice) (vb : T_VideoBuf) (s : node)
    : option (Z * T_VideoDevice * T_VideoBuf * node) :=
  match ptOPr d with
  | ForStreaming => V4l2GetFrameForStreaming d vb s
  | ForReadWrite => V4l2GetFrameForReadWrite d vb s
  end.

Definition PutFrame (d : T_VideoDevice) (s : node) : option (Z * node) :=
  match ptOPr d with
  | ForStreaming => V4l2PutFrameForStreaming d s
  | ForReadWrite => V4l2PutFrameForReadWrite d s
  end.

End V4l2.

(** * The list of capture modules *)

(** The one capture module of the program. The branch of [RegisterVideoOpr] for a
    second one names a type where it means the argument. *)
Inductive video_opr := V4l2Opr.

Definition RegisterVideoOpr (o : video_opr) (l : list video_opr) : Z * list video_opr := (0, l ++ [o]).
Definition V4l2Init (l : list video_opr) : Z * list video_opr := RegisterVideoOpr V4l2Opr l.
Definition VideoInit (l : list video_opr) : Z * list video_opr := V4l2Init l.

Definition video_name (o : video_opr) : string := match o with V4l2Opr => "v4l2" end.

Fixpoint GetVideoOpr (pcName : string) (l : list video_opr) : option video_opr :=
  match l with
  | [] => None
  | o :: l => if bool_decide (video_name o = pcName) then Some o else GetVideoOpr pcName l
  end.

(** * The display *)

(** The picture of the screen without its memory: [aucPixelDatas] points to the
    framebuffer. *)
Definition GetVideoBufForDisplay (d : disp) : option T_VideoBuf :=
  i ← g_ptDefaultDispOpr d;
  o ← g_ptDispOprHead d !! i;
  let fmt := if opr_bpp o =? 16 then V4L2_PIX_FMT_RGB565
             else if opr_bpp o =? 32 then V4L2_PIX_FMT_RGB32 else 0 in
  Some (mk_frame (mk_pic (opr_xres o) (opr_yres o) (opr_bpp o) (opr_iLineWidth o)
                    (opr_iLineWidth o * opr_yres o) []) (if opr_pucDispMem o then Live else Null) fmt).

(** [same] says whether the picture's memory is the framebuffer's. *)
Definition FBShowPage (same : bool) (p : T_PixelDatas) (fb : fb_dev) : option (Z * fb_dev) :=
  if same then Some (0, fb)
  else
    bs ← mem_read (aucPixelDatas p) 0 (iTotalBytes p);
    m ← mem_write (g_pucFBMem fb) 0 bs;
    Some (0, set_fb_mem m fb).

Definition FlushPixelDatasToDev (same : bool) (p : T_PixelDatas) (d : disp) : option disp :=
  _ ← g_ptDefaultDispOpr d;
  '(_, fb) ← FBShowPage same p (disp_fb d);
  Some (set_fb fb d).
(** * The program *)

(** The size a picture is scaled to: as wide as the screen, or as high as it when
    that would be too high. *)
Definition zoom_size (iWidth iHeight iLcdWidth iLcdHeigt : Z) : option (Z * Z) :=
  k ← fdiv (float_of_int iHeight) (float_of_int iWidth);
  h ← int_of_float (fmul (float_of_int iLcdWidth) k);
  if h >? iLcdHeigt then
    q ← fdiv (float_of_int iLcdHeigt) k; w ← int_of_float q; Some (w, iLcdHeigt)
  else Some (iLcdWidth, h).

Section Main.
Context {node : Type} `{CaptureSetup node} `{CaptureStream node}.

(** What libjpeg decodes, the allocator, and whether the two buffers that are not
    kept can be allocated. *)
Context (decode : mem -> option Jpg.jpeg_image) (malloc : Z -> option mem) (buffer table : bool).

Fixpoint VideoDeviceInit (fuel : nat) (iLcdWidth iLcdHeigt : Z)
    (l : list video_opr) (d : T_VideoDevice) (s : node) : option (Z * T_VideoDevice * node) :=
  match l with
  | [] => Some (-1, d, s)
  | V4l2Opr :: l =>
      '(iError, d, s) ← V4l2InitDevice fuel malloc iLcdWidth iLcdHeigt d s;
      if iError =? 0 then Some (0, d, s)
      else VideoDeviceInit fuel iLcdWidth iLcdHeigt l d s
  end.

(** The variables of [main] and the state of its modules. [a_frame] is [tFrameBuf],
    whose pixels are the framebuffer of [a_disp]. *)
Record app := mk_app {
  a_node : node;
  a_dev : T_VideoDevice;
  a_disp : disp;
  a_frame : T_VideoBuf;
  a_luts : luts;
  a_conv : converter;
  iLcdWidth : Z;
  iLcdHeigt : Z;
  iLcdBpp : Z;
  a_video : T_VideoBuf;
  a_convert : T_VideoBuf;
  a_zoom : T_VideoBuf
}.

(** The picture behind [tFrameBuf], and storing through it. *)
Definition screen (d : disp) (f : T_VideoBuf) : T_PixelDatas :=
  set_pixels (match vb_ptr f with Live => g_pucFBMem (disp_fb d) | _ => [] end) (tPixelDatas f).
Definition set_screen (p : T_PixelDatas) (f : T_VideoBuf) (d : disp) : disp :=
  match vb_ptr f with Live => set_fb (set_fb_mem (aucPixelDatas p) (disp_fb d)) d | _ => d end.

(** Scaling a picture that is larger than the screen: the picture to show and
    [tZoomBuf]. *)
Definition fit_to_lcd (a : app) (cur : T_VideoBuf) : option (T_VideoBuf * T_VideoBuf) :=
  let p := tPixelDatas cur in
  if (iWidth p >? iLcdWidth a) || (iHeight p >? iLcdHeigt a) then
    '(w, h) ← zoom_size (iWidth p) (iHeight p) (iLcdWidth a) (iLcdHeigt a);
    let line := Z.quot (w * iLcdBpp a) 8 in
    let z := ensure_block malloc (set_size w h (iLcdBpp a) line (line * h) (a_zoom a)) in
    '(_, q) ← PicZoom table p (tPixelDatas z);
    let z := mk_frame q (vb_ptr z) (iPixelFormat z) in
    Some (z, z)
  else Some (cur, a_zoom a).

(** Converting a frame when the formats of camera and screen differ: the result,
    the picture to go on with and [tConvertBuf]. *)
Definition convert_frame (a : app) (vb : T_VideoBuf) : option (Z * T_VideoBuf * T_VideoBuf) :=
  if negb (V4l2GetFormat (a_dev a) =? iPixelFormat (a_frame a)) then
    '(iError, cb) ← Convert (mk_conv_env (a_luts a) decode buffer malloc) (a_conv a) vb (a_convert a);
    Some (iError, cb, cb)
  else Some (0, vb, a_convert a).

(** Copying a picture to the middle of the screen. *)
Definition show_picture (a : app) (cur : T_VideoBuf) : option disp :=
  let p := tPixelDatas cur in
  let iTopLeftX := Z.quot (iLcdWidth a - iWidth p) 2 in
  let iTopLeftY := Z.quot (iLcdHeigt a - iHeight p) 2 in
  '(_, q) ← PicMerge iTopLeftX iTopLeftY p (screen (a_disp a) (a_frame a));
  FlushPixelDatasToDev true q (set_screen q (a_frame a) (a_disp a)).

(** One round of the loop: the next state, or what [main] returns. *)
Definition main_step (a : app) : option (app + Z) :=
  '(iError, dev, vb, s) ← GetFrame (a_dev a) (a_video a) (a_node a);
  if negb (iError =? 0) then Some (inr (-1))
  else
    '(iError, cur, cb) ← convert_frame a vb;
    if negb (iError =? 0) then Some (inr (-1))
    else
      '(cur, zb) ← fit_to_lcd a cur;
      d ← show_picture a cur;
      '(iError, s) ← PutFrame dev s;
      if negb (iError =? 0) then Some (inr (-1))
      else Some (inl (mk_app s dev d (a_frame a) (a_luts a) (a_conv a) (iLcdWidth a) (iLcdHeigt a)
                        (iLcdBpp a) vb cb zb)).

Fixpoint main_loop (n : nat) (a : app) : option (app + Z) :=
  match n with
  | O => Some (inl a)
  | S n => r ← main_step a; match r with inl a => main_loop n a | inr r => Some (inr r) end
  end.

(** [main] up to its loop. [lut] says which tables can be allocated, [dev] is the
    device structure as the stack had it. *)
Definition main_start (argc : Z) (fe : fb_env) (fuel : nat) (lut : nat -> bool) (d : disp)
    (dev : T_VideoDevice) (s : node) : option (app + Z) :=
  if negb (argc =? 2) then Some (inr (-1))
  else
    let '(_, d) := DisplayInit d in
    d ← SelectAndInitDefaultDispDev fe "fb" d;
    '(_, res) ← GetDispResolution d;
    '(lw, lh, lbpp) ← res;
    f ← GetVideoBufForDisplay d;
    let '(_, oprs) := VideoInit [] in
    '(iError, dev, s) ← VideoDeviceInit fuel lw lh oprs dev s;
    if negb (iError =? 0) then Some (inr (-1))
    else
      '(_, t, convs) ← VideoConvertInit lut [];
      match GetVideoConvertForFormats (V4l2GetFormat dev) (iPixelFormat f) convs with
      | None => Some (inr (-1))
      | Some c =>
          '(iError, s) ← V4l2StartDevice s;
          if negb (iError =? 0) then Some (inr (-1))
          else Some (inl (mk_app s dev d f t c lw lh lbpp zero_vbuf
                            (mk_frame (mk_pic 0 0 lbpp 0 0 []) Null 0) zero_vbuf))
      end.

(** [n] rounds of the program. *)
Definition main (n : nat) (argc : Z) (fe : fb_env) (fuel : nat) (lut : nat -> bool) (d : disp)
    (dev : T_VideoDevice) (s : node) : option (app + Z) :=
  r ← main_start argc fe fuel lut d dev s;
  match r with inl a => main_loop n a | inr r => Some (inr r) end.

End Main.

(** * The size of a scaled picture *)

(** The sizes are small enough for every step of the computation to be exact or
    to round to a number of 24 bits that fits an [int]. *)
Definition size_ok (z : Z) : Prop := 0 < z < 2 ^ 15.

(** A scaled picture fits the screen and fills it in one direction. *)
Lemma zoom_size_ok w h lw lh : size_ok w -> size_ok h -> size_ok lw -> size_ok lh ->
  exists zw zh, zoom_size w h lw lh = Some (zw, zh) /\ 0 <= zw <= lw /\ 0 <= zh <= lh /\
  (zw = lw \/ zh = lh).
Proof.
  unfold size_ok. intros Hw Hh Hlw Hlh. unfold zoom_size.
  destruct (int_exact w) as [Hew Emw]; [lia|].
  assert (0 < 2 ^ (- f_e (float_of_int w))) as Hpw by (apply Z.pow_pos_nonneg; lia).
  destruct (fdiv_int_le h (float_of_int w) h 0) as (k & -> & Hek & Hmk);
    try lia; try (rewrite Emw; nia).
  rewrite Z.sub_0_l in Hmk. cbn [mbind option_bind].
  assert (0 < 2 ^ (- f_e k)) as Hpk by (apply Z.pow_pos_nonneg; lia).
  destruct (fmul_int_le lw k (2 ^ 15) 15) as [He Hm]; try lia.
  { change (2 ^ 15 * 2 ^ 15) with (2 ^ 30). nia. }
  destruct (trunc_le (fmul (float_of_int lw) k) (2 ^ 15) 15) as (zh & Ez & Hz); try lia; try done.
  rewrite Ez. cbn [mbind option_bind]. destruct (Z.gtb_spec zh lh); [|exists lw, zh; split; [done|lia]].
  assert (lh * 2 ^ (- f_e k) < lw * f_m k) as Hgt.
  { apply Z.nle_gt. intros Hle. destruct (fmul_int_le lw k lh 0) as [He' Hm']; try lia.
    destruct (trunc_le (fmul (float_of_int lw) k) lh 0) as (zh' & Ez' & Hz'); try lia; try done.
    rewrite Ez in Ez'. injection Ez' as <-. lia. }
  destruct (fdiv_int_le lh k lw 0) as (q & -> & Heq & Hmq); try lia; try nia.
  cbn [mbind option_bind].
  destruct (trunc_le q lw 0) as (zw & -> & Hzw); try lia; try done. cbn [mbind option_bind].
  exists zw, lh. split; [done|]. lia.
Qed.

(** * The contract of a capture device *)

(** How far a device is set up: open, with a format, with [i] buffers mapped, with
    [i] buffers queued, streaming. *)
Inductive phase := Opened | Formatted | Mapped (i : nat) | Queued (i : nat) | Running.

(** What the program asks of a camera on a screen of [lw] times [lh]. It offers
    [formats], the first of them that the program knows is [F]; it chooses [fw]
    times [fh]; it grants [N] buffers, which the program finds at [addr]; and every
    frame it delivers is [good] (the number of bytes used and the contents of the
    buffer). *)
Class CameraLaws (node : Type) `{CaptureSetup node} `{CaptureStream node}
    (lw lh : Z) (formats : list Z) (F fw fh : Z) (N : nat) (addr : nat -> Z)
    (good : Z -> mem -> Prop) := {
  closed : node -> Prop;
  at_phase : phase -> node -> Prop;
  cl_known : find (fun f => negb (isSupportThisFormat f =? 0)) formats = Some F;
  cl_size : size_ok fw /\ size_ok fh;
  cl_count : (0 < N <= 4)%nat;
  cl_open s : closed s -> exists fd s', io_open s = Some (fd, s') /\ 0 <= fd /\ at_phase Opened s';
  cl_querycap s : at_phase Opened s -> exists caps s', io_querycap s = Some (0, caps, s') /\
    at_phase Opened s' /\ bit_set caps V4L2_CAP_VIDEO_CAPTURE = true /\
    bit_set caps V4L2_CAP_STREAMING = true;
  cl_enum_fmt s f : at_phase Opened s -> exists s', at_phase Opened s' /\
    match formats !! Z.to_nat (fd_index f) with
    | Some p => exists f', io_enum_fmt f s = Some (0, f', s') /\ fd_index f' = fd_index f /\
                fd_pixelformat f' = p
    | None => io_enum_fmt f s = Some (-1, f, s')
    end;
  cl_s_fmt s : at_phase Opened s -> exists f s', io_s_fmt (app_format F lw lh) s = Some (0, f, s') /\
    at_phase Formatted s' /\ pix_width (fmt_pix f) = fw /\ pix_height (fmt_pix f) = fh;
  cl_reqbufs s : at_phase Formatted s -> exists req s', io_reqbufs app_reqbufs s = Some (0, req, s') /\
    at_phase (Mapped 0) s' /\ rb_count req = Z.of_nat N;
  cl_map s i : (i < N)%nat -> at_phase (Mapped i) s -> exists b s1 s2,
    io_querybuf (app_buf (Z.of_nat i)) s = Some (0, b, s1) /\
    io_mmap (vb_length b) (vb_m b) s1 = Some (Some (addr i), s2) /\ at_phase (Mapped (S i)) s2;
  cl_mapped s : at_phase (Mapped N) s -> at_phase (Queued 0) s;
  cl_queue s i : (i < N)%nat -> at_phase (Queued i) s -> exists s',
    io_qbuf (app_buf (Z.of_nat i)) s = Some (0, s') /\ at_phase (Queued (S i)) s';
  cl_streamon s : at_phase (Queued N) s -> exists s',
    io_streamon V4L2_BUF_TYPE_VIDEO_CAPTURE s = Some (0, s') /\ at_phase Running s';
  cl_frame s : at_phase Running s -> exists r s1 b s2 i m s3,
    io_poll s = Some (r, s1) /\ 0 < r /\
    io_dqbuf (app_buf 0) s1 = Some (0, b, s2) /\ vb_index b = Z.of_nat i /\ (i < N)%nat /\
    0 <= vb_bytesused b < 2 ^ 31 /\ io_page (addr i) s2 = Some m /\ good (vb_bytesused b) m /\
    io_qbuf (app_buf (Z.of_nat i)) s2 = Some (0, s3) /\ at_phase Running s3
}.

Section Correctness.
Context {node : Type} `{CaptureSetup node} `{CaptureStream node}.
Context (lw lh : Z) (formats : list Z) (F fw fh : Z) (N : nat) (addr : nat -> Z)
  (good : Z -> mem -> Prop).
Context {laws : CameraLaws node lw lh formats F fw fh N addr good}.

(** ** Setting a device up *)

(** The device structure after the first [i] buffers were mapped. *)
Definition dev_mapped (i : nat) (d : T_VideoDevice) : Prop :=
  vd_iPixelFormat d = F /\ vd_iWidth d = fw /\ vd_iHeight d = fh /\ iVideoBufCnt d = Z.of_nat N /\
  length (pucVideBuf d) = 4%nat /\
  forall j, (j < i)%nat -> pucVideBuf d !! j = Some (VMapped (addr j)).

Lemma enum_ok d : forall fuel i s f, (length formats - i < fuel)%nat ->
  at_phase Opened s -> fd_index f = Z.of_nat i -> Z.of_nat (length formats) < 2 ^ 32 ->
  find (fun f => negb (isSupportThisFormat f =? 0)) (drop i formats) = Some F ->
  exists s', enum_loop fuel f d s = Some (set_vd_format F d, s') /\ at_phase Opened s'.
Proof using laws.
  induction fuel as [|fuel IH]; intros i s f Hf Hs Hi Hlen Hfind; [lia|]. cbn [enum_loop].
  destruct (cl_enum_fmt s f Hs) as (s' & Hs' & Hm). rewrite Hi, Nat2Z.id in Hm.
  destruct (formats !! i) as [p|] eqn:Ep.
  2: { apply lookup_ge_None in Ep. by rewrite drop_ge in Hfind by done. }
  destruct Hm as (f' & -> & Hi' & Hp). cbn [mbind option_bind negb Z.eqb].
  rewrite (drop_S _ p) in Hfind by done. cbn [find] in Hfind. rewrite Hp.
  destruct (negb (isSupportThisFormat p =? 0)); [exists s'; split; [congruence|done]|].
  apply lookup_lt_Some in Ep.
  apply (IH (S i)); try done; [lia|]. cbn [fd_index]. rewrite Hi'. rewrite u32_small by (split; lia). lia.
Qed.

Lemma map_ok : forall todo i d s, (i + todo = N)%nat -> at_phase (Mapped i) s -> dev_mapped i d ->
  exists d' s', map_loop todo i d s = Some (true, d', s') /\ at_phase (Mapped N) s' /\ dev_mapped N d'.
Proof using laws.
  induction todo as [|todo IH]; intros i d s Hi Hs Hd; cbn [map_loop].
  { exists d, s. rewrite Nat.add_0_r in Hi. subst i. done. }
  destruct (cl_map s i ltac:(lia) Hs) as (b & s1 & s2 & -> & E & Hs2). cbn [mbind option_bind negb Z.eqb].
  rewrite E. cbn [mbind option_bind]. destruct Hd as (D1 & D2 & D3 & D4 & D5 & D6).
  pose proof cl_count. unfold put_vptr. rewrite decide_True by lia. cbn [mbind option_bind].
  apply IH; [lia | done |]. unfold dev_mapped. cbn. rewrite length_insert. split_and!; try done.
  intros j Hj. destruct (decide (j = i)) as [->|]; [by rewrite list_lookup_insert_eq by lia|].
  rewrite list_lookup_insert_ne by done. apply D6. lia.
Qed.

Lemma queue_ok : forall todo i s, (i + todo = N)%nat -> at_phase (Queued i) s ->
  exists s', queue_loop todo i s = Some (true, s') /\ at_phase (Queued N) s'.
Proof using laws.
  induction todo as [|todo IH]; intros i s Hi Hs; cbn [queue_loop].
  { exists s. rewrite Nat.add_0_r in Hi. subst i. done. }
  destruct (cl_queue s i ltac:(lia) Hs) as (s' & -> & Hs'). cbn [mbind option_bind negb Z.eqb].
  apply IH; [lia | done].
Qed.

(** [V4l2InitDevice] on a device that keeps the contract. *)
Lemma init_device_ok fuel malloc d s : closed s -> (length formats < fuel)%nat ->
  Z.of_nat (length formats) < 2 ^ 32 -> size_ok lw -> size_ok lh -> length (pucVideBuf d) = 4%nat ->
  exists d' s', V4l2InitDevice fuel malloc lw lh d s = Some (0, d', s') /\ at_phase (Queued N) s' /\
  dev_mapped N d' /\ ptOPr d' = ForStreaming.
Proof using laws.
  unfold size_ok. intros Hc Hf Hlen Hlw Hlh Hb. unfold V4l2InitDevice.
  destruct (cl_open s Hc) as (fd & s0 & -> & Hfd & Hs0). cbn [mbind option_bind].
  rewrite (proj2 (Z.ltb_ge fd 0)) by lia.
  destruct (cl_querycap s0 Hs0) as (caps0 & s1 & -> & Hs1 & _). cbn [mbind option_bind].
  destruct (cl_querycap s1 Hs1) as (caps & s2 & -> & Hs2 & Hcap & Hstr). cbn [mbind option_bind negb Z.eqb].
  rewrite Hcap. cbn [negb]. destruct (enum_ok d fuel 0 s2 (app_fmtdesc 0)) as (s3 & -> & Hs3);
    [lia | done | done | done | apply cl_known |]. cbn [mbind option_bind].
  assert (F <> 0) as HF.
  { pose proof cl_known as Hk. apply find_some in Hk as [_ Hk]. intros ->. by vm_compute in Hk. }
  change (vd_iPixelFormat (set_vd_format F d)) with F. rewrite (proj2 (Z.eqb_neq F 0)) by done.
  rewrite !u32_small by (split; lia).
  destruct (cl_s_fmt s3 Hs3) as (f & s4 & -> & Hs4 & Ew & Eh). cbn [mbind option_bind negb Z.eqb].
  destruct (cl_reqbufs s4 Hs4) as (req & s5 & -> & Hs5 & Ec). cbn [mbind option_bind negb Z.eqb].
  pose proof cl_count. destruct cl_size as [[] []]. rewrite Ew, Eh, Ec, !s32_small by (split; lia).
  unfold setup_buffers. rewrite Hstr. cbn [set_vd_cnt iVideoBufCnt]. rewrite Nat2Z.id.
  destruct (map_ok N 0 (set_vd_cnt (Z.of_nat N) (set_vd_size fw fh (set_vd_format F d))) s5)
    as (d' & s6 & E & Hs6 & Hd'); [done | done | |].
  { split_and!; try done. intros j Hj. lia. }
  cbn [set_vd_cnt set_vd_size set_vd_format] in E |- *. rewrite E. cbn [mbind option_bind negb].
  pose proof Hd' as (_ & _ & _ & -> & _). rewrite Nat2Z.id.
  destruct (queue_ok N 0 s6 eq_refl (cl_mapped s6 Hs6)) as (s7 & -> & Hs7). cbn [mbind option_bind negb].
  eexists _, s7. split; [reflexivity|]. split; [done|]. by split.
Qed.

(** ** One frame *)

Definition dev_ready (d : T_VideoDevice) : Prop := dev_mapped N d /\ ptOPr d = ForStreaming.

Lemma get_put d vb s : at_phase Running s -> dev_ready d -> exists used m s2 d' s3,
  GetFrame d vb s = Some (0, d', frame_of d used Live m, s2) /\ good used m /\ 0 <= used < 2 ^ 31 /\
  dev_ready d' /\ PutFrame d' s2 = Some (0, s3) /\ at_phase Running s3.
Proof using laws.
  intros Hs [Hd Ho]. destruct (cl_frame s Hs) as (r & s1 & b & s2 & i & m & s3 & E1 & Hr & E2 & Ei & Hi
    & Hu & E3 & Hg & E4 & Hs3).
  exists (vb_bytesused b), m, s2, (set_vd_cur (Z.of_nat i) d), s3. pose proof cl_count.
  unfold GetFrame, PutFrame. cbn [set_vd_cur ptOPr]. rewrite Ho.
  unfold V4l2GetFrameForStreaming, V4l2PutFrameForStreaming. rewrite E1. cbn [mbind option_bind].
  rewrite (proj2 (Z.leb_gt r 0)) by lia. rewrite E2. cbn [mbind option_bind Z.ltb Z.compare].
  rewrite Ei, Nat2Z.id, !s32_small by (split; lia). cbn [set_vd_cur pucVideBuf iVideoBufCurIndex].
  pose proof Hd as (_ & _ & _ & _ & _ & Hbufs). rewrite (Hbufs i Hi). cbn [mbind option_bind]. rewrite E3.
  cbn [mbind option_bind]. rewrite u32_small by (split; lia). rewrite E4. cbn [mbind option_bind negb Z.eqb].
  split_and!; try done; lia.
Qed.

(** ** The screen *)

Context (malloc : Z -> option mem) (decode : mem -> option Jpg.jpeg_image) (B : Z).

(** The state of the program between two rounds, apart from its buffers. *)
Record app_base (a : app (node := node)) : Prop := {
  ab_run : at_phase Running (a_node a);
  ab_dev : dev_ready (a_dev a);
  ab_lcd : iLcdWidth a = lw /\ iLcdHeigt a = lh /\ iLcdBpp a = B;
  ab_fb : fb_ok (disp_fb (a_disp a));
  ab_size : fb_xres (disp_fb (a_disp a)) = lw /\ fb_yres (disp_fb (a_disp a)) = lh /\
            fb_bits_per_pixel (disp_fb (a_disp a)) = B;
  ab_default : is_Some (g_ptDefaultDispOpr (a_disp a));
  ab_live : vb_ptr (a_frame a) = Live;
  ab_frame : forall m, set_pixels m (tPixelDatas (a_frame a)) =
                       fb_pic (set_fb_mem m (disp_fb (a_disp a)));
  ab_format : format_bpp (iPixelFormat (a_frame a)) = B
}.

Lemma screen_fb a : app_base a -> screen (a_disp a) (a_frame a) = fb_pic (disp_fb (a_disp a)).
Proof.
  intros Ha. unfold screen. rewrite (ab_live _ Ha), (ab_frame _ Ha). by destruct (disp_fb (a_disp a)).
Qed.

(** The middle of the screen. *)
Definition centre (size lcd : Z) : Z := (lcd - size) / 2.

Lemma show_ok a cur : app_base a -> pic_ok (tPixelDatas cur) -> iBpp (tPixelDatas cur) = B ->
  let p := tPixelDatas cur in
  iLineBytes p = iWidth p * pixel_bytes p -> iWidth p <= lw -> iHeight p <= lh ->
  exists m, show_picture a cur = Some (set_fb (set_fb_mem m (disp_fb (a_disp a))) (a_disp a)) /\
  fb_ok (set_fb_mem m (disp_fb (a_disp a))) /\
  forall x y, in_pic (fb_pic (disp_fb (a_disp a))) x y ->
    pixel (fb_pic (set_fb_mem m (disp_fb (a_disp a)))) x y =
    if in_rect (centre (iWidth p) lw) (centre (iHeight p) lh) (iWidth p) (iHeight p) x y
    then pixel p (x - centre (iWidth p) lw) (y - centre (iHeight p) lh)
    else pixel (fb_pic (disp_fb (a_disp a))) x y.
Proof.
  intros Ha Hok Hb p Hline Hw Hh. destruct (ab_lcd _ Ha) as (Elw & Elh & Elb).
  destruct (ab_size _ Ha) as (Ex & Ey & Eb). pose proof (po_width _ Hok) as Hpw.
  pose proof (po_height _ Hok) as Hph. fold p in Hok, Hb, Hpw, Hph. assert (0 <= centre (iWidth p) lw /\ centre (iWidth p) lw + iWidth p <= lw) as [X1 X2]
    by (unfold centre; Z.div_mod_to_equations; lia).
  assert (0 <= centre (iHeight p) lh /\ centre (iHeight p) lh + iHeight p <= lh) as [Y1 Y2]
    by (unfold centre; Z.div_mod_to_equations; lia).
  unfold show_picture. rewrite (screen_fb a Ha), Elw, Elh. fold p.
  rewrite !Z.quot_div_nonneg by lia. fold (centre (iWidth p) lw) (centre (iHeight p) lh).
  destruct (merge_spec (centre (iWidth p) lw) (centre (iHeight p) lh) p (fb_pic (disp_fb (a_disp a))))
    as [_ Hmerge]; try done; [apply (fo_pic _ (ab_fb _ Ha))|].
  destruct Hmerge as (m & -> & Lm & Hpx); [cbn; congruence | cbn; lia | cbn; lia |].
  cbn [mbind option_bind]. unfold FlushPixelDatasToDev, set_screen. rewrite (ab_live _ Ha).
  destruct (ab_default _ Ha) as [i Ei]. cbn [set_fb g_ptDefaultDispOpr]. rewrite Ei.
  cbn [mbind option_bind FBShowPage set_pixels aucPixelDatas disp_fb].
  exists m. split; [done|]. split; [apply fb_ok_mem; [apply ab_fb, Ha | exact Lm]|].
  exact Hpx.
Qed.

(** ** Fitting a picture *)

(** The size a picture of [w] times [h] is shown at. *)
Definition shown_size (w h : Z) : Z * Z :=
  if (w >? lw) || (h >? lh) then default (0, 0) (zoom_size w h lw lh) else (w, h).

Lemma shown_size_ok w h : size_ok w -> size_ok h -> size_ok lw -> size_ok lh ->
  0 <= (shown_size w h).1 <= lw /\ 0 <= (shown_size w h).2 <= lh.
Proof.
  intros Hw Hh Hlw Hlh. unfold shown_size. destruct (_ || _) eqn:E.
  - destruct (zoom_size_ok w h lw lh Hw Hh Hlw Hlh) as (zw & zh & -> & ? & ? & _). done.
  - unfold size_ok in *. cbn. bool_lia.
Qed.

Lemma nearest_same x n : 0 < n -> nearest x n n = x.
Proof. intros. unfold nearest. by apply Z.div_mul; lia. Qed.

Lemma fit_ok a cur : app_base a -> size_ok lw -> size_ok lh -> B = 16 \/ B = 32 ->
  let p := tPixelDatas cur in let s := shown_size (iWidth p) (iHeight p) in
  pic_ok p -> size_ok (iWidth p) -> size_ok (iHeight p) -> iBpp p = B ->
  iLineBytes p = iWidth p * pixel_bytes p ->
  block_fits malloc (s.1 * s.2 * (B / 8)) (a_zoom a) ->
  exists cur' z, fit_to_lcd malloc true a cur = Some (cur', z) /\
  block_fits malloc (s.1 * s.2 * (B / 8)) z /\
  let q := tPixelDatas cur' in
  pic_ok q /\ iWidth q = s.1 /\ iHeight q = s.2 /\ iBpp q = B /\
  iLineBytes q = iWidth q * pixel_bytes q /\
  forall x y, in_pic q x y ->
    pixel q x y = pixel p (nearest x (iWidth p) s.1) (nearest y (iHeight p) s.2).
Proof.
  intros Ha Hlw Hlh HB p s Hok Hw Hh Hb Hline Hfit. destruct (ab_lcd _ Ha) as (Elw & Elh & Elb).
  unfold fit_to_lcd. rewrite Elw, Elh, Elb. fold p. subst s. unfold shown_size in *.
  destruct (_ || _) eqn:E.
  2: { exists cur, (a_zoom a). split; [done|]. split; [exact Hfit|]. unfold size_ok in *.
       cbn zeta. fold p. split_and!; try done. intros x y Hxy. cbn [fst snd].
       by rewrite !nearest_same by lia. }
  destruct (zoom_size_ok _ _ lw lh Hw Hh Hlw Hlh) as (zw & zh & Ez & Hzw & Hzh & _).
  rewrite Ez in *. cbn [default from_option id fst snd mbind option_bind] in *. clear E Ez.
  assert (exists pb, B = 8 * pb /\ B / 8 = pb /\ 0 < pb <= 4) as (pb & EB & Epb & Hpb)
    by (destruct HB as [-> | ->]; [exists 2 | exists 4]; done).
  assert (Z.quot (zw * B) 8 = zw * pb) as ->
    by (rewrite EB; replace (zw * (8 * pb)) with (zw * pb * 8) by lia; by apply Z.quot_mul).
  destruct (ensure_ok malloc (set_size zw zh B (zw * pb) (zw * pb * zh) (a_zoom a))) as (m & -> & Lm).
  { apply fits_size. cbn. rewrite Epb in Hfit. by replace (zw * pb * zh) with (zw * zh * pb) by lia. }
  cbn [tPixelDatas set_size set_pixels iTotalBytes] in Lm |- *. unfold size_ok in *.
  set (z := set_pixels m (mk_pic zw zh B (zw * pb) (zw * pb * zh) (aucPixelDatas (tPixelDatas (a_zoom a))))).
  assert (pic_ok z) as Hz by (split; unfold pixel_bytes; cbn -[Z.div]; rewrite ?Epb; lia).
  pose proof (zoom_spec true p z Hok Hz ltac:(lia) ltac:(lia)) as Hzoom.
  change (iBpp z) with B in Hzoom. rewrite Hb, Z.eqb_refl in Hzoom. cbn [andb] in Hzoom.
  destruct Hzoom as (m' & -> & Lm' & Hpx). cbn [mbind option_bind].
  eexists _, _. split; [reflexivity|]. cbn [vb_ptr tPixelDatas]. split.
  { unfold block_fits. cbn [vb_ptr tPixelDatas set_pixels aucPixelDatas]. rewrite Lm', Epb. cbn. lia. }
  split; [destruct Hz; split; try done; cbn in *; lia|]. split_and!; try done.
  - cbn. unfold pixel_bytes. cbn -[Z.div]. by rewrite Epb.
  - intros x y Hxy. apply (Hpx x y Hxy).
Qed.

(** ** Frames that are shown *)

(** The cameras the program shows: RGB565 on a screen of 16 bits per pixel, where
    a frame has all its bytes, and MJPEG, where a frame decodes to a picture of
    the size the camera was set to. *)
Definition frame_good (used : Z) (m : mem) : Prop :=
  if F =? V4L2_PIX_FMT_RGB565 then 2 * (fw * fh) <= zlen m
  else 0 < used /\ exists frame img, mem_read m 0 used = Some frame /\ decode frame = Some img /\
       jpeg_good img /\ Jpg.output_width img = fw /\ Jpg.output_height img = fh.

Definition frame_get (used : Z) (m : mem) (k : Z) : option mem :=
  if F =? V4L2_PIX_FMT_RGB565 then rgb_pixel 16 m 0 k
  else frame ← mem_read m 0 used; img ← decode frame; jpeg_pixel B img k.

Definition direct : Prop := F = V4L2_PIX_FMT_RGB565 /\ B = 16.
Definition decoded : Prop := F = V4L2_PIX_FMT_MJPEG /\ (B = 16 \/ B = 32).

(** [cur] is the frame [get] at its full size. *)
Definition full_frame (get : Z -> option mem) (cur : T_VideoBuf) : Prop :=
  let p := tPixelDatas cur in
  pic_ok p /\ iWidth p = fw /\ iHeight p = fh /\ iBpp p = B /\
  iLineBytes p = iWidth p * pixel_bytes p /\
  forall x y, in_pic p x y -> pixel p x y = get (y * fw + x).

Lemma dev_fields d : dev_ready d -> vd_iPixelFormat d = F /\ vd_iWidth d = fw /\ vd_iHeight d = fh.
Proof. intros [(? & ? & ? & _) _]. done. Qed.

Lemma direct_frame d used m : dev_ready d -> direct -> size_ok fw -> size_ok fh -> frame_good used m ->
  full_frame (frame_get used m) (frame_of d used Live m).
Proof.
  intros Hd [EF EB] Hw Hh. unfold frame_good, frame_get, full_frame, size_ok in *. rewrite EF, Z.eqb_refl.
  intros Hg. destruct (dev_fields d Hd) as (D1 & D2 & D3). unfold frame_of. rewrite D1, D2, D3, EF, EB.
  change (frame_bpp V4L2_PIX_FMT_RGB565) with 16. cbn [tPixelDatas iWidth iHeight iBpp iLineBytes].
  assert (Z.quot (fw * 16) 8 = fw * 2) as ->
    by (replace (fw * 16) with (fw * 2 * 8) by lia; by apply Z.quot_mul).
  split; [split; unfold pixel_bytes; cbn -[Z.pow]; change (16 / 8) with 2; lia|].
  split_and!; try done. intros x y [Hx Hy]. cbn in Hx, Hy. unfold pixel, pixel_bytes, rgb_pixel. cbn -[Z.mul].
  change (16 / 8) with 2. replace (0 + 2 * (y * fw + x)) with (y * (fw * 2) + x * 2) by lia.
  by destruct (mem_read m _ 2).
Qed.

Lemma format_16 f : format_bpp f = 16 -> f = V4L2_PIX_FMT_RGB565.
Proof.
  unfold format_bpp. destruct (Z.eqb_spec f V4L2_PIX_FMT_RGB565); [done|]. by destruct (f =? _).
Qed.

(** The buffers the program keeps. *)
Record app_bufs (a : app (node := node)) : Prop := {
  bu_conv : decoded -> a_conv a = Mjpeg2Rgb;
  bu_bpp : iBpp (tPixelDatas (a_convert a)) = B;
  bu_convert : block_fits malloc (fw * fh * (B / 8)) (a_convert a);
  bu_zoom : let s := shown_size fw fh in block_fits malloc (s.1 * s.2 * (B / 8)) (a_zoom a)
}.

Lemma converted_full get b b' : converted get fw fh B (fw * fh) b b' -> 0 < fw ->
  full_frame get b' /\ block_fits malloc (fw * fh * (B / 8)) b'.
Proof.
  intros [C1 C2 C3 C4 C5 C6 C7 C8] Hw. unfold full_frame. split.
  - split_and!; try done; [by rewrite C7, C4; unfold pixel_bytes; rewrite C6|].
    intros x y Hxy. apply C8; [done|]. destruct Hxy as [Hx Hy]. rewrite C4 in Hx. rewrite C5 in Hy. nia.
  - unfold block_fits. rewrite C1. pose proof (po_total _ C3) as Ht. rewrite C5, C7 in Ht. lia.
Qed.

Lemma convert_ok a used m : app_base a -> app_bufs a -> size_ok fw -> size_ok fh ->
  direct \/ decoded -> frame_good used m -> 0 <= used < 2 ^ 31 ->
  exists cur cb, convert_frame decode malloc true a (frame_of (a_dev a) used Live m) = Some (0, cur, cb) /\
  full_frame (frame_get used m) cur /\ iBpp (tPixelDatas cb) = B /\
  block_fits malloc (fw * fh * (B / 8)) cb.
Proof.
  intros Ha Hbu Hw Hh Hmode Hg Hu. destruct (dev_fields _ (ab_dev _ Ha)) as (D1 & D2 & D3).
  unfold convert_frame, V4l2GetFormat. rewrite D1. destruct Hmode as [Hdir | Hdec].
  - pose proof (ab_format _ Ha) as Ef. destruct Hdir as [EF EB]. rewrite EB in Ef.
    rewrite (format_16 _ Ef), EF, Z.eqb_refl. cbn [negb]. eexists _, _. split; [reflexivity|].
    split; [by apply direct_frame; [apply ab_dev | | | |]|]. split; apply Hbu.
  - destruct Hdec as [EF EB]. destruct (Z.eqb_spec F (iPixelFormat (a_frame a))) as [E|_].
    { pose proof (ab_format _ Ha) as Ef. rewrite <- E, EF in Ef.
      by destruct EB as [EB | EB]; rewrite EB in Ef. }
    cbn [negb]. rewrite (bu_conv _ Hbu) by done. cbn [Convert ce_decode ce_buffer ce_malloc].
    unfold frame_good in Hg. rewrite EF in Hg.
    change (V4L2_PIX_FMT_MJPEG =? V4L2_PIX_FMT_RGB565) with false in Hg. cbn iota in Hg.
    destruct Hg as (Hpos & frame & img & Er & Ed & Hgood & Ew & Eh). unfold size_ok in *.
    destruct (mjpeg_frame decode malloc (frame_of (a_dev a) used Live m) (a_convert a) frame img)
      as (out & -> & Hc); try done.
    { cbn. lia. }
    { rewrite (bu_bpp _ Hbu). destruct EB; [by left | by right; right]. }
    { rewrite (bu_bpp _ Hbu), Ew, Eh. apply Hbu. }
    cbn [mbind option_bind]. exists out, out. split; [done|]. rewrite (bu_bpp _ Hbu), Ew, Eh in Hc.
    destruct (converted_full _ _ _ Hc ltac:(lia)) as [Hfull Hfits]. split_and!; try done; [|apply Hfull].
    unfold full_frame, frame_get in *. rewrite EF.
    change (V4L2_PIX_FMT_MJPEG =? V4L2_PIX_FMT_RGB565) with false. cbn iota.
    rewrite Er. cbn [mbind option_bind]. by rewrite Ed.
Qed.

(** The screen with the frame [get] in its middle and [old] around it. *)
Definition shown_at (get : Z -> option mem) (old : Z -> Z -> option mem) (x y : Z) : option mem :=
  let s := shown_size fw fh in
  let ox := centre s.1 lw in
  let oy := centre s.2 lh in
  if in_rect ox oy s.1 s.2 x y
  then get (nearest (y - oy) fh s.2 * fw + nearest (x - ox) fw s.1)
  else old x y.

Definition fb_of (a : app (node := node)) : T_PixelDatas := fb_pic (disp_fb (a_disp a)).

(** [a'] differs from [a] in the picture on the screen, and in nothing that the
    next round relies on. *)
Lemma base_next a s dev m vb cb zb : app_base a -> at_phase Running s -> dev_ready dev ->
  fb_ok (set_fb_mem m (disp_fb (a_disp a))) ->
  app_base (mk_app s dev (set_fb (set_fb_mem m (disp_fb (a_disp a))) (a_disp a)) (a_frame a) (a_luts a)
              (a_conv a) (iLcdWidth a) (iLcdHeigt a) (iLcdBpp a) vb cb zb).
Proof. intros [] Hs Hd Hfb. by split. Qed.

Lemma step_ok a : size_ok lw -> size_ok lh -> direct \/ decoded ->
  (forall used m, good used m -> frame_good used m) -> app_base a -> app_bufs a ->
  exists a' used m, main_step decode malloc true true a = Some (inl a') /\ app_base a' /\ app_bufs a' /\
  good used m /\ (forall x y, in_pic (fb_of a) x y <-> in_pic (fb_of a') x y) /\
  forall x y, in_pic (fb_of a) x y ->
    pixel (fb_of a') x y = shown_at (frame_get used m) (pixel (fb_of a)) x y.
Proof using laws.
  intros Hlw Hlh Hmode Hgood Ha Hbu. destruct cl_size as [Hw Hh].
  destruct (get_put (a_dev a) (a_video a) (a_node a) (ab_run _ Ha) (ab_dev _ Ha))
    as (used & m & s2 & dev & s3 & E1 & Hg & Hu & Hdev & E2 & Hs3).
  destruct (convert_ok a used m Ha Hbu Hw Hh Hmode (Hgood _ _ Hg) Hu)
    as (cur & cb & E3 & (C1 & C2 & C3 & C4 & C5 & C6) & Hcb & Hfits).
  assert (B = 16 \/ B = 32) as HB by (destruct Hmode as [[]|[]]; tauto).
  destruct (fit_ok a cur Ha Hlw Hlh HB C1) as (cur' & z & E4 & Hz & Q1 & Q2 & Q3 & Q4 & Q5 & Q6);
    rewrite ?C2, ?C3 in *; try done; [apply Hbu|].
  destruct (shown_size_ok fw fh Hw Hh Hlw Hlh) as [S1 S2].
  destruct (show_ok a cur' Ha Q1 Q4 Q5) as (m' & E5 & Hfb & Hpx); rewrite ?Q2, ?Q3 in *; [lia | lia |].
  unfold main_step. rewrite E1. cbn [mbind option_bind negb Z.eqb]. rewrite E3.
  cbn [mbind option_bind negb Z.eqb]. rewrite E4. cbn [mbind option_bind]. rewrite E5.
  cbn [mbind option_bind]. rewrite E2. cbn [mbind option_bind negb Z.eqb].
  eexists _, used, m. split; [reflexivity|]. split; [by apply base_next|].
  split; [destruct Hbu; by split|]. split; [done|]. split; [done|].
  intros x y Hxy. unfold fb_of. cbn [a_disp set_fb disp_fb]. rewrite Hpx by done. unfold shown_at.
  destruct (in_rect _ _ _ _ x y) eqn:Er; [|done]. unfold in_rect in Er. bool_props.
  rewrite Q6 by (unfold in_pic; rewrite Q2, Q3; lia). apply C6. unfold in_pic. rewrite C2, C3.
  unfold size_ok in *. split; apply nearest_range; lia.
Qed.

(** Any number of rounds: the screen shows one of the camera's frames in its
    middle and is as it was around it. *)
Lemma loop_ok : size_ok lw -> size_ok lh -> direct \/ decoded ->
  (forall used m, good used m -> frame_good used m) -> forall n a, app_base a -> app_bufs a ->
  exists a', main_loop decode malloc true true n a = Some (inl a') /\ app_base a' /\ app_bufs a' /\
  (forall x y, in_pic (fb_of a) x y <-> in_pic (fb_of a') x y) /\
  if decide (n = 0%nat) then a' = a
  else exists used m, good used m /\ forall x y, in_pic (fb_of a) x y ->
    pixel (fb_of a') x y = shown_at (frame_get used m) (pixel (fb_of a)) x y.
Proof using laws.
  intros Hlw Hlh Hmode Hgood n. induction n as [|n IH]; intros a Ha Hbu.
  { exists a. by rewrite decide_True. }
  cbn [main_loop]. destruct (step_ok a) as (a1 & used & m & -> & Ha1 & Hbu1 & Hg & Hin & Hpx); try done.
  cbn [mbind option_bind]. destruct (IH a1 Ha1 Hbu1) as (a' & -> & Ha' & Hbu' & Hin' & Hcase).
  exists a'. split_and!; try done. { intros x y. by rewrite Hin. }
  rewrite (decide_False (P := S n = 0%nat)) by lia. destruct (decide (n = 0%nat)) as [->|].
  - subst a'. by exists used, m.
  - destruct Hcase as (used' & m' & Hg' & Hpx'). exists used', m'. split; [done|].
    intros x y Hxy. rewrite Hpx' by (by apply Hin). unfold shown_at at 1 2.
    destruct (in_rect _ _ _ _ x y) eqn:Er; [done|]. rewrite Hpx by done. unfold shown_at. by rewrite Er.
Qed.

(** ** The start of the program *)

(** A screen that works, tables and blocks that can be allocated, a camera that is
    not open; the device structure is whatever the stack had. *)
Record start_env (fe : fb_env) (fuel : nat) (lut : nat -> bool) (d : disp) (dev : T_VideoDevice)
    (s : node) : Prop := {
  se_screen : env_ok fe;
  se_size : env_xres fe = lw /\ env_yres fe = lh /\ size_ok lw /\ size_ok lh;
  se_bpp : env_bpp fe = B /\ (B = 16 \/ B = 32);
  se_disp : g_ptDispOprHead d = [];
  se_lut : forall i, lut i = true;
  se_malloc : forall n, 0 <= n -> exists m, malloc n = Some m /\ zlen m = n;
  se_node : closed s;
  se_formats : (length formats < fuel)%nat /\ Z.of_nat (length formats) < 2 ^ 32;
  se_dev : length (pucVideBuf dev) = 4%nat
}.

Lemma known_format :
  F = V4L2_PIX_FMT_YUYV \/ F = V4L2_PIX_FMT_MJPEG \/ F = V4L2_PIX_FMT_RGB565.
Proof using laws.
  pose proof cl_known as Hk. apply find_some in Hk as [_ Hk].
  unfold isSupportThisFormat, g_aiSupportedFormats in Hk. cbn [existsb] in Hk.
  rewrite !(Z.eqb_sym _ F) in Hk. destruct (Z.eqb_spec F V4L2_PIX_FMT_YUYV); [by left|].
  destruct (Z.eqb_spec F V4L2_PIX_FMT_MJPEG); [by right; left|].
  destruct (Z.eqb_spec F V4L2_PIX_FMT_RGB565); [by right; right|]. by cbn in Hk.
Qed.

(** The converter that goes with the camera's format. *)
Definition converter_for (c : converter) : Prop :=
  (F = V4L2_PIX_FMT_YUYV -> c = Yuv2Rgb) /\ (F = V4L2_PIX_FMT_MJPEG -> c = Mjpeg2Rgb) /\
  (F = V4L2_PIX_FMT_RGB565 -> c = Rgb2Rgb).

Lemma chosen b : format_bpp b <> 0 ->
  exists c, GetVideoConvertForFormats F b [Yuv2Rgb; Mjpeg2Rgb; Rgb2Rgb] = Some c /\ converter_for c.
Proof using laws.
  intros Hb. rewrite selected, (proj2 (Z.eqb_neq _ 0)) by done. unfold converter_for.
  destruct known_format as [EF | [EF | EF]]; rewrite EF; (eexists; split; [reflexivity|]); split_and!; done.
Qed.

(** Everything up to the loop. *)
Lemma start_ok fe fuel lut d dev s : start_env fe fuel lut d dev s ->
  exists a, main_start malloc 2 fe fuel lut d dev s = Some (inl a) /\ app_base a /\ app_bufs a /\
  converter_for (a_conv a) /\ a_convert a = mk_frame (mk_pic 0 0 B 0 0 []) Null 0 /\
  forall x y, in_pic (fb_of a) x y -> pixel (fb_of a) x y = color_bytes B 0.
Proof using laws.
  intros [He (Ex & Ey & Hlw & Hlh) [Eb HB] Hd Hlut Hm Hs [Hf Hlen] Hbufs]. unfold main_start.
  cbn [negb Z.eqb Pos.eqb]. destruct d as [oprs def vms fb0]. cbn in Hd. subst oprs.
  change (DisplayInit _) with (0, mk_disp [g_tFBOpr] def vms fb0). cbn iota.
  destruct (select_ok fe def vms fb0 He) as (fb & o & -> & Ox & Oy & Ob & Hfb & Fx & Fy & Fb & Hpx & Ol & Om).
  cbn [mbind option_bind GetDispResolution g_ptDefaultDispOpr g_ptDispOprHead lookup list_lookup].
  unfold GetVideoBufForDisplay. cbn [g_ptDefaultDispOpr g_ptDispOprHead lookup list_lookup mbind option_bind].
  rewrite Ox, Oy, Ob, Ol, Om, Ex, Ey, Eb. cbn [VideoInit V4l2Init RegisterVideoOpr Datatypes.app VideoDeviceInit].
  destruct (init_device_ok fuel malloc dev s Hs Hf Hlen Hlw Hlh Hbufs) as (dev' & s1 & -> & Hs1 & Hd' & Ho).
  cbn [mbind option_bind negb Z.eqb]. unfold VideoConvertInit, Yuv2RgbInit, initLut.
  assert (forallb lut (seq 0 11) = true) as -> by (apply forallb_forall; auto).
  cbn [mbind option_bind RegisterVideoConvert Mjpeg2RgbInit Rgb2RgbInit Datatypes.app iPixelFormat].
  unfold V4l2GetFormat. pose proof Hd' as (D1 & _). rewrite D1.
  assert (format_bpp (if B =? 16 then V4L2_PIX_FMT_RGB565 else if B =? 32 then V4L2_PIX_FMT_RGB32 else 0) = B)
    as Efmt by (destruct HB as [-> | ->]; done).
  destruct (chosen (if B =? 16 then V4L2_PIX_FMT_RGB565 else if B =? 32 then V4L2_PIX_FMT_RGB32 else 0))
    as (c & -> & Hc); [lia|].
  destruct (cl_streamon s1 Hs1) as (s2 & Estr & Hs2).
  unfold V4l2StartDevice. rewrite Estr. cbn [mbind option_bind negb Z.eqb].
  destruct cl_size as [Sw Sh]. destruct (shown_size_ok fw fh Sw Sh Hlw Hlh) as [S1 S2].
  unfold size_ok in Sw, Sh. assert (0 <= B / 8) by (apply Z.div_pos; lia).
  eexists. split; [reflexivity|]. split; [|split].
  - split; cbn [a_node a_dev a_disp a_frame vb_ptr tPixelDatas iPixelFormat disp_fb]; try done.
    + rewrite Fx, Fy, Fb. done.
    + intros m. unfold fb_pic. cbn. rewrite Fx, Fy, Fb, Ex, Ey, Eb.
      rewrite (fo_line _ Hfb), (fo_size _ Hfb), (fo_pixel _ Hfb), Fx, Fy, Fb, Ex, Ey, Eb.
      unfold set_pixels. cbn. f_equal. lia.
  - split; cbn [a_conv a_convert a_zoom]; [intros [EF _]; by apply Hc | done | apply Hm; nia | apply Hm; nia].
  - cbn [a_conv a_convert]. split_and!; try done. intros x y Hxy.
    destruct (color_bytes B 0) as [v|] eqn:Ec; [|by destruct HB as [-> | ->]].
    apply (Hpx x y v Hxy). by rewrite Eb.
Qed.

(** ** Frames that are not shown *)

Lemma copy_nothing dline dm : 0 <= dline -> forall rows dst, 0 <= dst ->
  (rows = 0%nat \/ dst + (Z.of_nat rows - 1) * dline <= zlen dm) ->
  copy_rows rows 0 0 0 [] dst dline dm = Some dm.
Proof.
  intros Hd. induction rows as [|rows IH]; intros dst Hdst Hfit; [done|]. cbn [copy_rows].
  destruct Hfit as [?|Hfit]; [done|]. change (mem_read [] 0 0) with (Some ([] : mem)).
  cbn [mbind option_bind]. rewrite mem_write_in by (change (zlen ([] : mem)) with 0; nia).
  cbn [mbind option_bind length Datatypes.app]. rewrite Nat.add_0_r, take_drop. apply IH; [lia|].
  destruct rows; [by left | right; nia].
Qed.

(** [tConvertBuf] as it stays when nothing is converted. *)
Definition unconverted (b : T_VideoBuf) : Prop := exists w h, b = mk_frame (mk_pic w h B 0 0 []) Null 0.

Lemma show_nothing a w h f : app_base a -> B = 16 \/ B = 32 -> 0 <= w <= lw -> 0 <= h <= lh ->
  show_picture a (mk_frame (mk_pic w h B 0 0 []) Null f) =
  Some (set_fb (set_fb_mem (g_pucFBMem (disp_fb (a_disp a))) (disp_fb (a_disp a))) (a_disp a)).
Proof.
  intros Ha HB Hw Hh. destruct (ab_lcd _ Ha) as (Elw & Elh & _). destruct (ab_size _ Ha) as (Ex & Ey & Eb).
  pose proof (fo_pic _ (ab_fb _ Ha)) as Hpic. pose proof (pic_line _ Hpic) as Hl.
  pose proof (po_total _ Hpic) as Ht. pose proof (po_line _ Hpic) as Hpl.
  unfold pixel_bytes in Hpl. cbn in Hl, Ht, Hpl. rewrite Ex, Eb in Hpl. rewrite Ey in Ht.
  unfold show_picture, PicMerge. cbn [tPixelDatas iWidth iHeight iBpp iLineBytes aucPixelDatas].
  rewrite (screen_fb a Ha), Elw, Elh. cbn [fb_pic iWidth iHeight iBpp iLineBytes aucPixelDatas].
  rewrite Ex, Ey, Eb, Z.eqb_refl, !Z.gtb_ltb, !(proj2 (Z.ltb_ge _ _)) by lia. cbn [orb negb].
  rewrite !(Z.quot_div_nonneg (_ - _)) by lia. fold (centre w lw) (centre h lh).
  assert (0 <= centre w lw /\ centre w lw <= lw - w) as [X1 X2] by (unfold centre; Z.div_mod_to_equations; lia).
  assert (0 <= centre h lh /\ centre h lh <= lh - h) as [Y1 Y2] by (unfold centre; Z.div_mod_to_equations; lia).
  assert (Z.quot (centre w lw * B) 8 = centre w lw * (B / 8) /\ 0 <= B / 8) as [-> HB0].
  { destruct HB as [-> | ->]; [replace (centre w lw * 16) with (centre w lw * 2 * 8) by lia
      | replace (centre w lw * 32) with (centre w lw * 4 * 8) by lia]; (split; [by apply Z.quot_mul | done]). }
  set (line := g_dwLineWidth (disp_fb (a_disp a))) in *.
  assert (centre w lw * (B / 8) <= line) by nia.
  rewrite copy_nothing; [| done | nia |].
  2: { rewrite Z2Nat.id by lia. destruct (decide (h = 0)) as [->|]; [by left | right].
       assert ((centre h lh + h) * line <= lh * line) by (apply Z.mul_le_mono_nonneg_r; lia). lia. }
  cbn [mbind option_bind]. unfold FlushPixelDatasToDev, set_screen. rewrite (ab_live _ Ha).
  destruct (ab_default _ Ha) as [i Ei]. cbn [set_fb g_ptDefaultDispOpr]. rewrite Ei.
  cbn [mbind option_bind FBShowPage set_pixels aucPixelDatas disp_fb]. done.
Qed.

(** The output format of [tConvertBuf] is never set: a YUYV frame is not
    converted. *)
Lemma yuyv_converts a used m : F = V4L2_PIX_FMT_YUYV -> B = 16 \/ B = 32 ->
  app_base a -> converter_for (a_conv a) -> unconverted (a_convert a) ->
  let cb := mk_frame (mk_pic fw fh B 0 0 []) Null 0 in
  convert_frame decode malloc true a (frame_of (a_dev a) used Live m) = Some (0, cb, cb).
Proof using laws.
  intros EF HB Ha [Hc _] (w0 & h0 & Hu) cb. destruct (dev_fields _ (ab_dev _ Ha)) as (D1 & D2 & D3).
  unfold convert_frame, V4l2GetFormat. rewrite D1. destruct (Z.eqb_spec F (iPixelFormat (a_frame a))) as [E|_].
  { pose proof (ab_format _ Ha) as Ef. rewrite <- E, EF in Ef. by destruct HB as [HB | HB]; rewrite HB in Ef. }
  rewrite Hc, Hu by done. unfold frame_of, Convert, Yuv2RgbConvert, set_size. rewrite D2, D3. done.
Qed.

(** No byte of it reaches the screen. *)
Lemma yuyv_step a : F = V4L2_PIX_FMT_YUYV -> B = 16 \/ B = 32 -> fw <= lw -> fh <= lh ->
  app_base a -> converter_for (a_conv a) -> unconverted (a_convert a) ->
  exists a', main_step decode malloc true true a = Some (inl a') /\ app_base a' /\
  a_conv a' = a_conv a /\ unconverted (a_convert a') /\ fb_of a' = fb_of a.
Proof using laws.
  intros EF HB Hw Hh Ha Hc Hu. destruct cl_size as [Sw Sh]. unfold size_ok in Sw, Sh.
  destruct (get_put (a_dev a) (a_video a) (a_node a) (ab_run _ Ha) (ab_dev _ Ha))
    as (used & m & s2 & dev & s3 & E1 & _ & _ & Hdev & E2 & Hs3).
  destruct (ab_lcd _ Ha) as (Elw & Elh & _).
  pose proof (yuyv_converts a used m EF HB Ha Hc Hu) as E3. cbv zeta in E3. set (cb := mk_frame _ _ _) in E3.
  assert (fit_to_lcd malloc true a cb = Some (cb, a_zoom a)) as E4.
  { unfold fit_to_lcd. cbn [tPixelDatas iWidth iHeight cb]. rewrite Elw, Elh.
    by rewrite !Z.gtb_ltb, !(proj2 (Z.ltb_ge _ _)) by lia. }
  unfold main_step. rewrite E1. cbn [mbind option_bind negb Z.eqb]. rewrite E3.
  cbn [mbind option_bind negb Z.eqb]. rewrite E4. cbn [mbind option_bind].
  pose proof (show_nothing a fw fh 0 Ha HB ltac:(lia) ltac:(lia)) as E5. fold cb in E5. rewrite E5.
  cbn [mbind option_bind]. rewrite E2.
  cbn [mbind option_bind negb Z.eqb]. eexists. split; [reflexivity|].
  assert (set_fb_mem (g_pucFBMem (disp_fb (a_disp a))) (disp_fb (a_disp a)) = disp_fb (a_disp a)) as Efb
    by (by destruct (disp_fb (a_disp a))).
  split; [apply base_next; try done; rewrite Efb; apply Ha|].
  split; [done|]. split; [by eexists _, _|]. unfold fb_of. cbn [a_disp set_fb disp_fb]. by rewrite Efb.
Qed.

Lemma yuyv_loop n : F = V4L2_PIX_FMT_YUYV -> B = 16 \/ B = 32 -> fw <= lw -> fh <= lh ->
  forall a, app_base a -> converter_for (a_conv a) -> unconverted (a_convert a) ->
  exists a', main_loop decode malloc true true n a = Some (inl a') /\ fb_of a' = fb_of a.
Proof using laws.
  intros EF HB Hw Hh. induction n as [|n IH]; intros a Ha Hc Hu; [by exists a|]. cbn [main_loop].
  destruct (yuyv_step a EF HB Hw Hh Ha Hc Hu) as (a1 & -> & Ha1 & Ec & Hu1 & E1). cbn [mbind option_bind].
  destruct (IH a1 Ha1) as (a' & E & Ef); [by rewrite Ec | done |]. exists a'. split; [done|]. congruence.
Qed.

(** Scaling a picture that has no memory. *)
Lemma zoom_null w h B0 p z : 0 < w -> 0 < h -> iBpp p = B0 -> iBpp z = B0 -> B0 = 16 \/ B0 = 32 ->
  aucPixelDatas p = [] -> iWidth z = w -> iHeight z = h -> w < 2 ^ 32 -> h < 2 ^ 32 ->
  PicZoom true p z = None.
Proof.
  intros Hw Hh Hp Hz HB Hm Ew Eh Hw2 Hh2. unfold PicZoom. rewrite Hp, Hz, Z.eqb_refl. cbn [negb].
  rewrite Eh, Ew, !u32_small by (split; lia). destruct (Z.to_nat h) as [|n] eqn:En; [lia|].
  assert (exists t, src_table (iWidth p) w = 0 :: t) as [t ->].
  { unfold src_table. rewrite (u32_small w) by (split; lia). destruct (Z.to_nat w) as [|k] eqn:Ek; [lia|].
    by eexists. }
  cbn [zoom_rows length zoom_row lookup list_lookup mbind option_bind]. rewrite Hm.
  assert (forall off, mem_read [] off (u32 (Z.quot B0 8)) = None) as Hnull; [|by rewrite Hnull].
  intros off. destruct (mem_read [] off _) eqn:E; [|done]. apply mem_read_Some in E as (? & _ & Hl & _).
  change (zlen []) with 0 in Hl. destruct HB as [-> | ->]; [change (u32 _) with 2 in Hl | change (u32 _) with 4 in Hl]; lia.
Qed.

(** A YUYV frame that is larger than the screen is scaled without having been
    converted: the program reads through NULL. *)
Lemma yuyv_faults a : F = V4L2_PIX_FMT_YUYV -> B = 16 \/ B = 32 -> lw < fw \/ lh < fh ->
  size_ok lw -> size_ok lh -> 0 < (shown_size fw fh).1 -> 0 < (shown_size fw fh).2 ->
  app_base a -> converter_for (a_conv a) -> unconverted (a_convert a) ->
  main_step decode malloc true true a = None.
Proof using laws.
  intros EF HB Hbig Slw Slh Hzw Hzh Ha Hc Hu. destruct cl_size as [Sw Sh].
  destruct (get_put (a_dev a) (a_video a) (a_node a) (ab_run _ Ha) (ab_dev _ Ha))
    as (used & m & s2 & dev & s3 & E1 & _).
  destruct (ab_lcd _ Ha) as (Elw & Elh & Elb).
  pose proof (yuyv_converts a used m EF HB Ha Hc Hu) as E3. cbv zeta in E3. set (cb := mk_frame _ _ _) in E3.
  unfold main_step. rewrite E1. cbn [mbind option_bind negb Z.eqb]. rewrite E3.
  cbn [mbind option_bind negb Z.eqb]. unfold fit_to_lcd. cbn [tPixelDatas iWidth iHeight cb].
  rewrite Elw, Elh, Elb. unfold shown_size in Hzw, Hzh.
  assert ((fw >? lw) || (fh >? lh) = true) as E by (rewrite !Z.gtb_ltb; destruct Hbig; bool_lia).
  rewrite E in *. destruct (zoom_size_ok fw fh lw lh Sw Sh Slw Slh) as (zw & zh & Ez & Hw & Hh & _).
  rewrite Ez in *. cbn [default from_option id fst snd mbind option_bind] in *.
  unfold size_ok in *. rewrite (zoom_null zw zh B); try done; try lia.
  - unfold ensure_block. destruct (vb_ptr _); [destruct (malloc _)|..]; done.
  - unfold ensure_block. destruct (vb_ptr _); [destruct (malloc _)|..]; done.
  - unfold ensure_block. destruct (vb_ptr _); [destruct (malloc _)|..]; done.
Qed.

(** For the same reason a RGB565 frame is an error on a screen of 32 bits. *)
Lemma rgb_step a : F = V4L2_PIX_FMT_RGB565 -> B = 32 ->
  app_base a -> converter_for (a_conv a) -> unconverted (a_convert a) ->
  main_step decode malloc true true a = Some (inr (-1)).
Proof using laws.
  intros EF EB Ha (_ & _ & Hc) (w0 & h0 & Hu).
  destruct (get_put (a_dev a) (a_video a) (a_node a) (ab_run _ Ha) (ab_dev _ Ha))
    as (used & m & s2 & dev & s3 & E1 & _).
  destruct (dev_fields _ (ab_dev _ Ha)) as (D1 & D2 & D3).
  unfold main_step. rewrite E1. cbn [mbind option_bind negb Z.eqb].
  unfold convert_frame, V4l2GetFormat. rewrite D1. destruct (Z.eqb_spec F (iPixelFormat (a_frame a))) as [E|_].
  { pose proof (ab_format _ Ha) as Ef. rewrite <- E, EF, EB in Ef. done. }
  rewrite Hc, Hu by done. unfold frame_of, Convert, Rgb2RgbConvert. rewrite D1, EF.
  cbn [negb iPixelFormat]. rewrite Z.eqb_refl. change (0 =? V4L2_PIX_FMT_RGB565) with false.
  change (0 =? V4L2_PIX_FMT_RGB32) with false. done.
Qed.

End Correctness.

(** * A camera *)

(** A small camera that keeps the contract: it offers [formats], takes [F], sends
    frames of [fw] times [fh] one after the other in [N] buffers. The state is how
    far it is set up, none when closed, and the number of frames it delivered. *)
Section Sim.
Context (formats : list Z) (F fw fh : Z) (N : nat) (frames : nat -> mem).

Record sim := mk_sim { sim_phase : option phase; sim_count : nat }.

#[local] Instance phase_eq_dec : EqDecision phase.
Proof. solve_decision. Defined.

(** A call that is allowed in one phase and leads to another. *)
Definition sim_move (p p' : phase) (s : sim) : Z * sim :=
  if bool_decide (sim_phase s = Some p) then (0, mk_sim (Some p') (sim_count s)) else (-1, s).

Definition sim_setup : CaptureSetup sim := {|
  io_open s := Some (3, mk_sim (Some Opened) 0);
  io_close s := Some (mk_sim None 0);
  io_querycap s := Some (0, Z.lor V4L2_CAP_VIDEO_CAPTURE V4L2_CAP_STREAMING, s);
  io_enum_fmt f s :=
    Some (match formats !! Z.to_nat (fd_index f) with
          | Some p => (0, mk_fmtdesc (fd_index f) (fd_type f) 0 "" p, s)
          | None => (-1, f, s)
          end);
  io_s_fmt f s :=
    let '(r, s) := sim_move Opened Formatted s in
    Some (r, mk_format (fmt_type f) (mk_pix fw fh F V4L2_FIELD_NONE 0 0 0 0), s);
  io_reqbufs req s :=
    let '(r, s) := sim_move Formatted (Mapped 0) s in
    Some (r, mk_reqbufs (Z.of_nat N) (rb_type req) (rb_memory req), s);
  io_querybuf b s := Some (0, mk_vbuf (vb_index b) (vb_type b) 0 0 0 (0, 0) 0 (vb_memory b)
                               (vb_index b) 4096 0, s);
  io_mmap len off s :=
    let '(r, s) := sim_move (Mapped (Z.to_nat off)) (Mapped (S (Z.to_nat off))) s in
    Some (if r =? 0 then Some off else None, s);
  io_qbuf b s :=
    Some (match sim_phase s with
          | Some (Mapped _) => (0, mk_sim (Some (Queued 1)) (sim_count s))
          | Some (Queued i) => (0, mk_sim (Some (Queued (S i))) (sim_count s))
          | Some Running => (0, s)
          | _ => (-1, s)
          end)
|}.

Definition sim_stream : CaptureStream sim := {|
  io_streamon _ s := Some (sim_move (Queued N) Running s);
  io_streamoff _ s := Some (sim_move Running (Mapped N) s);
  io_poll s := Some (1, s);
  io_dqbuf b s :=
    let n := sim_count s in
    Some (0, mk_vbuf (Z.of_nat (n mod N)) (vb_type b) (zlen (frames n)) 0 0 (0, 0) 0 (vb_memory b) 0 0 0,
          mk_sim (sim_phase s) (S n));
  io_read m _ s := Some (-1, m, s);
  io_munmap _ _ s := Some s;
  io_page _ s := Some (frames (pred (sim_count s)))
|}.

(** Phases of the contract; the first buffer is queued when all are mapped. *)
Definition sim_at (p : phase) (s : sim) : Prop :=
  match p with
  | Queued O => sim_phase s = Some (Mapped N)
  | p => sim_phase s = Some p
  end.

Definition sim_good (used : Z) (m : mem) : Prop := exists n, used = zlen (frames n) /\ m = frames n.

Lemma sim_laws lw lh : find (fun f => negb (isSupportThisFormat f =? 0)) formats = Some F ->
  size_ok fw -> size_ok fh -> (0 < N <= 4)%nat -> (forall n, zlen (frames n) < 2 ^ 31) ->
  @CameraLaws sim sim_setup sim_stream lw lh formats F fw fh N (fun i => Z.of_nat i) sim_good.
Proof.
  intros Hk Hw Hh HN Hf. refine {| closed _ := True; at_phase := sim_at |}; try done.
  - intros s _. by eexists 3, _.
  - intros s Hs. by eexists _, s.
  - intros s f Hs. exists s. split; [done|]. cbn. destruct (formats !! _); [|done]. by eexists.
  - intros s Hs. cbn in Hs |- *. unfold sim_move. rewrite bool_decide_eq_true_2 by done. by eexists _, _.
  - intros s Hs. cbn in Hs |- *. unfold sim_move. rewrite bool_decide_eq_true_2 by done. by eexists _, _.
  - intros s i Hi Hs. eexists _, s, _. split; [reflexivity|]. cbn in Hs |- *. unfold sim_move.
    rewrite Nat2Z.id, bool_decide_eq_true_2 by done. done.
  - intros s i Hi Hs. cbn in Hs |- *. destruct i; rewrite Hs; by eexists.
  - intros s Hs. destruct N as [|k] eqn:EN; [lia|]. cbn in Hs |- *. unfold sim_move.
    rewrite bool_decide_eq_true_2 by congruence. by eexists.
  - intros s Hs. cbn in Hs. eexists 1, s, _, _, (sim_count s mod N)%nat, (frames (sim_count s)), _.
    pose proof (zlen_nonneg (frames (sim_count s))). pose proof (Nat.mod_upper_bound (sim_count s) N ltac:(lia)).
    split; [done|]. split; [done|]. split; [reflexivity|]. split; [done|]. split; [done|].
    split; [cbn; specialize (Hf (sim_count s)); lia|]. split; [done|]. split; [by exists (sim_count s)|].
    cbn. rewrite Hs. done.
Defined.

End Sim.

(** * The program *)

(** C1. The program shows the camera. For every camera that keeps the contract and
    sends RGB565 to a screen of 16 bits per pixel, or MJPEG, the program starts
    and runs any number of rounds without a fault or an error. Before the first
    round the screen is black; after it, it shows a frame the camera delivered, at
    its own size or scaled down to fit, each pixel the nearest one of the frame,
    in the middle of the screen and black around it. *)
Theorem video_shown {node : Type} `{CaptureSetup node} `{CaptureStream node}
    lw lh formats F fw fh N addr good
    {laws : CameraLaws node lw lh formats F fw fh N addr good}
    malloc decode B fe fuel lut d dev s n :
  start_env lw lh formats F fw fh N addr good malloc B fe fuel lut d dev s ->
  direct F B \/ decoded F B -> (forall used m, good used m -> frame_good F fw fh decode used m) ->
  exists a, main decode malloc true true n 2 fe fuel lut d dev s = Some (inl a) /\
  (forall x y, in_pic (fb_of a) x y <-> 0 <= x < lw /\ 0 <= y < lh) /\
  (n = 0%nat -> forall x y, in_pic (fb_of a) x y -> pixel (fb_of a) x y = color_bytes B 0) /\
  ((0 < n)%nat -> exists used m, good used m /\ forall x y, in_pic (fb_of a) x y ->
     pixel (fb_of a) x y =
     shown_at lw lh fw fh (frame_get F decode B used m) (fun _ _ => color_bytes B 0) x y).
Proof.
  intros He Hmode Hgood.
  destruct (start_ok lw lh formats F fw fh N addr good malloc B fe fuel lut d dev s He)
    as (a0 & E0 & Hb0 & Hbu0 & _ & _ & Hblack).
  destruct (se_size _ _ _ _ _ _ _ _ _ _ _ _ _ _ _ _ _ He) as (_ & _ & Hlw & Hlh).
  destruct (loop_ok lw lh formats F fw fh N addr good malloc decode B Hlw Hlh Hmode Hgood n a0 Hb0 Hbu0)
    as (a & E & Hb & _ & Hin & Hcase).
  exists a. unfold main. rewrite E0. cbn [mbind option_bind]. split; [done|].
  assert (forall x y, in_pic (fb_of a) x y <-> 0 <= x < lw /\ 0 <= y < lh) as Hpic.
  { intros x y. unfold fb_of, in_pic. destruct (ab_size _ _ _ _ _ _ _ _ _ _ _ Hb) as (Ex & Ey & _).
    cbn. by rewrite Ex, Ey. }
  split; [done|]. split.
  - intros ->. rewrite decide_True in Hcase by done. by subst a.
  - intros Hn. rewrite decide_False in Hcase by lia. destruct Hcase as (used & m & Hg & Hpx).
    exists used, m. split; [done|]. intros x y Hxy. apply Hin in Hxy. rewrite Hpx by done.
    unfold shown_at. destruct (in_rect _ _ _ _ x y); [done|]. by apply Hblack.
Qed.

(** A camera of 4 x 2 pixels that also knows a format the program does not, on a
    screen of 2 x 2. *)
Definition demo_formats (F : Z) : list Z := [V4L2_PIX_FMT_RGB24; F].
Definition demo_frames (n : nat) : mem := replicate 16 (Z.of_nat (n mod 256)).
Definition demo_setup (F w h : Z) : CaptureSetup sim := sim_setup (demo_formats F) F w h 2.
Definition demo_stream : CaptureStream sim := sim_stream 2 demo_frames.
Definition no_disp : disp := mk_disp [] None [] (mk_fb 0 0 0 0 0 0 []).
Definition stack_dev : T_VideoDevice := mk_vdev 7 7 7 7 7 7 [VNull; VNull; VNull; VNull] ForReadWrite.

Lemma demo_laws F w h : In F g_aiSupportedFormats -> size_ok w -> size_ok h ->
  @CameraLaws sim (demo_setup F w h) demo_stream 2 2 (demo_formats F) F w h 2 (fun i => Z.of_nat i)
    (sim_good demo_frames).
Proof.
  intros HF Hw Hh. apply sim_laws; [| done | done | lia |].
  - destruct HF as [<- | [<- | [<- | []]]]; reflexivity.
  - intros n. unfold demo_frames. rewrite zlen_replicate. lia.
Defined.

Lemma sample_sizes : size_ok 2 /\ size_ok 4.
Proof. unfold size_ok. lia. Qed.

Lemma demo_start F w h (HF : In F g_aiSupportedFormats) (Hw : size_ok w) (Hh : size_ok h) :
  @start_env sim (demo_setup F w h) demo_stream 2 2 (demo_formats F) F w h 2 (fun i => Z.of_nat i)
    (sim_good demo_frames) (demo_laws F w h HF Hw Hh) zero_malloc 16 sample_env 3 (fun _ => true) no_disp
    stack_dev (mk_sim None 0).
Proof.
  split; [apply sample_env_ok | | by split; [|left] | done | done | apply zero_malloc_ok | | | done].
  - split_and!; try done; apply sample_sizes.
  - done.
  - split; cbn; lia.
Qed.

Lemma video_shown_witness : exists a,
  @main sim (demo_setup V4L2_PIX_FMT_RGB565 4 2) demo_stream (fun _ => None) zero_malloc true true 5 2
    sample_env 3 (fun _ => true) no_disp stack_dev (mk_sim None 0) = Some (inl a) /\
  exists used m, sim_good demo_frames used m /\ forall x y, in_pic (fb_of a) x y ->
    pixel (fb_of a) x y =
    shown_at 2 2 4 2 (frame_get V4L2_PIX_FMT_RGB565 (fun _ => None) 16 used m)
      (fun _ _ => color_bytes 16 0) x y.
Proof.
  assert (In V4L2_PIX_FMT_RGB565 g_aiSupportedFormats) as HF by (cbn; tauto).
  destruct (@video_shown sim (demo_setup V4L2_PIX_FMT_RGB565 4 2) demo_stream 2 2 (demo_formats V4L2_PIX_FMT_RGB565)
    V4L2_PIX_FMT_RGB565 4 2 2 (fun i => Z.of_nat i) (sim_good demo_frames)
    (demo_laws V4L2_PIX_FMT_RGB565 4 2 HF (proj2 sample_sizes) (proj1 sample_sizes))
    zero_malloc (fun _ => None) 16 sample_env 3 (fun _ => true) no_disp stack_dev (mk_sim None 0) 5)
    as (a & E & _ & _ & Hs).
  - apply demo_start.
  - left. by split.
  - intros used m (n & -> & ->). unfold frame_good, demo_frames. rewrite Z.eqb_refl, zlen_replicate. lia.
  - exists a. split; [exact E|]. apply Hs. lia.
Defined.

(** C40. The formats that are not shown. [main] never sets the format of the buffer
    it converts to. With a YUYV camera whose frames are not larger than the screen
    the program runs any number of rounds but the screen stays black: the converter
    sees an unknown format, converts nothing and reports success. If the frames are
    larger than the screen, and what they are scaled to is not empty, the program
    scales the picture that was not converted and reads through NULL in its first
    round. With a RGB565 camera on a screen of 32 bits per pixel the converter reports
    an error and the program ends in its first round. *)
Theorem formats_not_shown {node : Type} `{CaptureSetup node} `{CaptureStream node}
    lw lh formats F fw fh N addr good
    {laws : CameraLaws node lw lh formats F fw fh N addr good}
    malloc decode B fe fuel lut d dev s n :
  start_env lw lh formats F fw fh N addr good malloc B fe fuel lut d dev s ->
  (F = V4L2_PIX_FMT_YUYV -> fw <= lw -> fh <= lh ->
   exists a, main decode malloc true true n 2 fe fuel lut d dev s = Some (inl a) /\
   forall x y, in_pic (fb_of a) x y -> pixel (fb_of a) x y = color_bytes B 0) /\
  (F = V4L2_PIX_FMT_YUYV -> lw < fw \/ lh < fh ->
   0 < (shown_size lw lh fw fh).1 -> 0 < (shown_size lw lh fw fh).2 -> (0 < n)%nat ->
   main decode malloc true true n 2 fe fuel lut d dev s = None) /\
  (F = V4L2_PIX_FMT_RGB565 -> B = 32 -> (0 < n)%nat ->
   main decode malloc true true n 2 fe fuel lut d dev s = Some (inr (-1))).
Proof.
  intros He. destruct (start_ok lw lh formats F fw fh N addr good malloc B fe fuel lut d dev s He)
    as (a0 & E0 & Hb0 & Hbu0 & Hc & Hconv & Hblack).
  pose proof (se_bpp _ _ _ _ _ _ _ _ _ _ _ _ _ _ _ _ _ He) as [_ HB].
  assert (unconverted B (a_convert a0)) as Hu by (exists 0, 0; done).
  unfold main. rewrite E0. cbn [mbind option_bind]. split; [|split].
  - intros EF Hw Hh. destruct (yuyv_loop lw lh formats F fw fh N addr good malloc decode B n EF HB Hw Hh a0)
      as (a & -> & Ea); try done. exists a. split; [done|]. rewrite Ea. exact Hblack.
  - intros EF Hbig Hzw Hzh Hn. destruct n as [|n]; [lia|]. cbn [main_loop].
    destruct (se_size _ _ _ _ _ _ _ _ _ _ _ _ _ _ _ _ _ He) as (_ & _ & Slw & Slh).
    by rewrite (yuyv_faults lw lh formats F fw fh N addr good malloc decode B a0 EF HB Hbig Slw Slh Hzw Hzh Hb0 Hc Hu).
  - intros EF EB Hn. destruct n as [|n]; [lia|]. cbn [main_loop].
    by rewrite (rgb_step lw lh formats F fw fh N addr good malloc decode B a0 EF EB Hb0 Hc Hu).
Qed.

Lemma formats_not_shown_witness :
  (exists a,
   @main sim (demo_setup V4L2_PIX_FMT_YUYV 2 2) demo_stream (fun _ => None) zero_malloc true true 5 2
     sample_env 3 (fun _ => true) no_disp stack_dev (mk_sim None 0) = Some (inl a) /\
   forall x y, in_pic (fb_of a) x y -> pixel (fb_of a) x y = color_bytes 16 0) /\
  @main sim (demo_setup V4L2_PIX_FMT_YUYV 4 2) demo_stream (fun _ => None) zero_malloc true true 5 2
    sample_env 3 (fun _ => true) no_disp stack_dev (mk_sim None 0) = None.
Proof.
  assert (In V4L2_PIX_FMT_YUYV g_aiSupportedFormats) as HF by (cbn; tauto). split.
  - apply (proj1 (@formats_not_shown sim (demo_setup V4L2_PIX_FMT_YUYV 2 2) demo_stream 2 2
      (demo_formats V4L2_PIX_FMT_YUYV) V4L2_PIX_FMT_YUYV 2 2 2 (fun i => Z.of_nat i) (sim_good demo_frames)
      (demo_laws V4L2_PIX_FMT_YUYV 2 2 HF (proj1 sample_sizes) (proj1 sample_sizes))
      zero_malloc (fun _ => None) 16 sample_env 3 (fun _ => true) no_disp stack_dev (mk_sim None 0) 5
      (demo_start V4L2_PIX_FMT_YUYV 2 2 HF (proj1 sample_sizes) (proj1 sample_sizes)))); [done | lia | lia].
  - apply (proj1 (proj2 (@formats_not_shown sim (demo_setup V4L2_PIX_FMT_YUYV 4 2) demo_stream 2 2
      (demo_formats V4L2_PIX_FMT_YUYV) V4L2_PIX_FMT_YUYV 4 2 2 (fun i => Z.of_nat i) (sim_good demo_frames)
      (demo_laws V4L2_PIX_FMT_YUYV 4 2 HF (proj2 sample_sizes) (proj1 sample_sizes))
      zero_malloc (fun _ => None) 16 sample_env 3 (fun _ => true) no_disp stack_dev (mk_sim None 0) 5
      (demo_start V4L2_PIX_FMT_YUYV 4 2 HF (proj2 sample_sizes) (proj1 sample_sizes)))));
      [done | lia | by vm_compute | by vm_compute | lia].
Defined.
