(* ===== verification/SysNode.v ===== *)
(** A driver of the repository as the device node of the video2lcd program. The
    program makes system calls, which reach the driver through the registrar
    ([VideoDev]) and the dispatcher of requests ([V4l2Ioctl]); a simulation shows
    that the program then does what it does with the functions of the driver called
    directly. *)
From S2P Require Import Prelude V4l2 V4l2Ioctl VideoDev PicOps Disp PicFmt Float32 Convert VideoApp.
Open Scope Z_scope.

(** The descriptor of an opened file; which one it is does not matter. *)
Definition some_fd : Z := 3.

(** [VM_READ], [VM_SHARED] and the flags for what may be allowed later, as the
    kernel computes them for [PROT_READ] and [MAP_SHARED] on a file opened for
    reading and writing. *)
Definition app_vm_flags : Z := 0x00000001 + 0x00000008 + 0x00000010 + 0x00000020 + 0x00000040 + 0x00000080.

(** The capabilities before the driver fills them in. *)
Definition empty_cap : v4l2_capability := mk_cap "" "" LINUX_VERSION_CODE 0.

(** [video_ioctl2] as a file operation. *)
Definition ioctl2 {D} : ioctl_fn D := fun ops u r d => video_ioctl2 u ops r d.

(** * The functions of a driver called directly *)

Section Table.
Context {D : Type} (ops : v4l2_ioctl_ops D) (fops : v4l2_file_operations D) (place : Z -> Z).

Definition direct {A} (h : entry D A) (a : A) (d : D) : option (Z * A * D) :=
  match h with
  | Some f => '(r, a, d) ← f a d; Some (sysret r, a, d)
  | None => Some (-1, a, d)
  end.

(** The mapping of [len] bytes at [off]. *)
Definition app_area (len off : Z) : vm_area :=
  mk_area (place len) (place len + PAGE_ALIGN len) (Z.shiftr off PAGE_SHIFT) app_vm_flags.

Definition table_node : CaptureSetup D := {|
  io_open d :=
    match fo_open fops with
    | None => Some (some_fd, d)
    | Some f => '(r, d) ← f d; Some (if r =? 0 then some_fd else -1, d)
    end;
  io_close d := match fo_release fops with None => Some d | Some f => '(_, d) ← f d; Some d end;
  io_querycap d :=
    '(r, c, d) ← direct (vidioc_querycap ops) empty_cap d; Some (r, cap_capabilities c, d);
  io_enum_fmt f d := direct (vidioc_enum_fmt_vid_cap ops) f d;
  io_s_fmt f d := direct (vidioc_s_fmt_vid_cap ops) f d;
  io_reqbufs p d := direct (vidioc_reqbufs ops) p d;
  io_querybuf b d := direct (vidioc_querybuf ops) b d;
  io_mmap len off d :=
    match fo_mmap fops with
    | None => Some (None, d)
    | Some f => '(r, d) ← f (app_area len off) d; Some (if r <? 0 then None else Some (place len), d)
    end;
  io_qbuf b d := '(r, _, d) ← direct (vidioc_qbuf ops) b d; Some (r, d)
|}.
End Table.

(** * The system calls of the program *)

(** The system with the descriptor the program holds. *)
Record app_sys (D : Type) := mk_app_sys {
  as_sys : videodev D;
  as_fd : option nat
}.
Arguments mk_app_sys {D} _ _.
Arguments as_sys {D} _.
Arguments as_fd {D} _.

Definition cap_of (r : request) : v4l2_capability := match r with VIDIOC_QUERYCAP c => c | _ => empty_cap end.
Definition fmtdesc_of (f : v4l2_fmtdesc) (r : request) : v4l2_fmtdesc :=
  match r with VIDIOC_ENUM_FMT f => f | _ => f end.
Definition format_of (f : v4l2_format) (r : request) : v4l2_format :=
  match r with VIDIOC_S_FMT f => f | _ => f end.
Definition reqbufs_of (p : v4l2_requestbuffers) (r : request) : v4l2_requestbuffers :=
  match r with VIDIOC_REQBUFS p => p | _ => p end.
Definition buffer_of (b : v4l2_buffer) (r : request) : v4l2_buffer :=
  match r with VIDIOC_QUERYBUF b => b | _ => b end.

Section System.
Context {D : Type} (u : user_memory) (minor : Z) (place : Z -> Z).

(** Calls without a descriptor give -EBADF. *)
Definition sys_ioctl (r : request) (s : app_sys D) : option (Z * request * app_sys D) :=
  match as_fd s with
  | None => Some (-1, r, s)
  | Some fd =>
      m ← vs_files (as_sys s) !! fd;
      '(ret, r, st) ← v4l2_ioctl false u m r (as_sys s);
      Some (sysret ret, r, mk_app_sys st (as_fd s))
  end.

Definition sys_mmap (vm : vm_area) (s : app_sys D) : option (Z * app_sys D) :=
  match as_fd s with
  | None => Some (-1, s)
  | Some fd =>
      m ← vs_files (as_sys s) !! fd;
      '(ret, st) ← v4l2_mmap false m vm (as_sys s);
      Some (ret, mk_app_sys st (as_fd s))
  end.

Definition sys_node : CaptureSetup (app_sys D) := {|
  io_open s :=
    '(ret, fd, st) ← sys_open false minor (as_sys s);
    Some (if ret =? 0 then (Z.of_nat fd, mk_app_sys st (Some fd)) else (-1, mk_app_sys st None));
  io_close s :=
    match as_fd s with
    | None => Some s
    | Some fd => '(_, st) ← sys_close fd (as_sys s); Some (mk_app_sys st None)
    end;
  io_querycap s :=
    '(ret, r, s) ← sys_ioctl (VIDIOC_QUERYCAP (mk_cap "" "" 0 0)) s; Some (ret, cap_capabilities (cap_of r), s);
  io_enum_fmt f s := '(ret, r, s) ← sys_ioctl (VIDIOC_ENUM_FMT f) s; Some (ret, fmtdesc_of f r, s);
  io_s_fmt f s := '(ret, r, s) ← sys_ioctl (VIDIOC_S_FMT f) s; Some (ret, format_of f r, s);
  io_reqbufs p s := '(ret, r, s) ← sys_ioctl (VIDIOC_REQBUFS p) s; Some (ret, reqbufs_of p r, s);
  io_querybuf b s := '(ret, r, s) ← sys_ioctl (VIDIOC_QUERYBUF b) s; Some (ret, buffer_of b r, s);
  io_mmap len off s :=
    '(ret, s) ← sys_mmap (app_area place len off) s; Some (if ret <? 0 then None else Some (place len), s);
  io_qbuf b s := '(ret, _, s) ← sys_ioctl (VIDIOC_QBUF b) s; Some (ret, s)
|}.
End System.

(** * The simulation *)

(** The memory of the program is there and the kernel gets its block. *)
Definition memory_ok (u : user_memory) : Prop :=
  u_read u = true /\ u_write u = true /\ forall n, is_Some (u_kmalloc u n).

(** What the program looks at in a description of a format. *)
Definition same_desc (f g : v4l2_fmtdesc) : Prop :=
  fd_index f = fd_index g /\ fd_type f = fd_type g /\ fd_pixelformat f = fd_pixelformat g.

(** The entry for ENUM_FMT reads the index and the type, and fills in the rest. *)
Definition enum_respects {D} (ops : v4l2_ioctl_ops D) : Prop := forall h f g d r f' d',
  vidioc_enum_fmt_vid_cap ops = Some h -> fd_index f = fd_index g -> fd_type f = fd_type g ->
  fd_type f = V4L2_BUF_TYPE_VIDEO_CAPTURE -> h f d = Some (r, f', d') -> exists g', h g d = Some (r, g', d') /\
  (r = 0 -> same_desc f' g' /\ fd_type f' = fd_type f).

(** The driver registers a complete table and [video_ioctl2]. *)
Record v4l2_driver {D} (ops : v4l2_ioctl_ops D) (fops : v4l2_file_operations D) : Prop := {
  vd_ioctl : fo_unlocked_ioctl fops = Some ioctl2 \/
    fo_unlocked_ioctl fops = None /\ fo_ioctl fops = Some ioctl2;
  vd_g_fmt : is_Some (vidioc_g_fmt_vid_cap ops);
  vd_enum : enum_respects ops
}.

Section Simulation.
Context {D : Type} (ops : v4l2_ioctl_ops D) (fops : v4l2_file_operations D) (u : user_memory).
Context (minor : Z) (place : Z -> Z).
Context (Hdrv : v4l2_driver ops fops) (Hu : memory_ok u).

(** The device of the driver is registered at the minor, with [n] references at
    least. *)
Definition at_minor (n : Z) (st : videodev D) : Prop := exists p v,
  vs_table st !! minor = Some p /\ vs_heap st !! p = Some v /\ v_fops v = fops /\ v_ops v = Some ops /\
  v_lock v = false /\ v_registered v = true /\ n <= v_ref v.

(** The driver is in the state [d]; the program has the device open or not. *)
Definition attached (opened : bool) (s : app_sys D) (d : D) : Prop :=
  vs_drv (as_sys s) = d /\
  if opened then at_minor 2 (as_sys s) /\ exists fd, as_fd s = Some fd /\ vs_files (as_sys s) !! fd = Some minor
  else at_minor 1 (as_sys s).

Lemma at_minor_drv n st d : at_minor n st -> at_minor n (set_drv d st).
Proof. done. Qed.

(** A request goes through the registrar to [video_ioctl2]. *)
Lemma sys_ioctl_at r s d ret r' d' : attached true s d -> video_ioctl2 u (Some ops) r d = Some (ret, r', d') ->
  exists s', sys_ioctl u r s = Some (sysret ret, r', s') /\ attached true s' d'.
Proof.
  intros [<- [(p & v & Ht & Hv & Hf & Ho & Hl & Hr & Hn) (fd & Hfd & Hfile)]] E.
  exists (mk_app_sys (set_drv d' (as_sys s)) (as_fd s)). unfold sys_ioctl. rewrite Hfd, Hfile. cbn [mbind option_bind].
  assert (v4l2_ioctl false u minor r (as_sys s) = Some (ret, r', set_drv d' (as_sys s))) as ->.
  { unfold v4l2_ioctl, video_devdata. rewrite Ht. cbn [mbind option_bind].
    rewrite Hv. cbn [mbind option_bind]. rewrite Hf, Ho. destruct (vd_ioctl _ _ Hdrv) as [-> | [-> ->]].
    - unfold locked, ioctl2. rewrite Hl, Hr. cbn [andb]. by rewrite E.
    - rewrite andb_false_r, Hr. unfold ioctl2. by rewrite E. }
  cbn [mbind option_bind]. split; [done|]. split; [done|]. split; [|by exists fd]. by exists p, v.
Qed.

(** A code of an entry and the code the program gets for it. *)
Lemma answer_sign r err : sysret (answer r err) = sysret err /\ (0 <= err -> answer r err = err).
Proof. unfold answer, sysret, ENOTTY, ENOIOCTLCMD, EINVAL. repeat case_match; bool_props; split; lia. Qed.

(** A request that is not refused is the call of its entry; [b] is what the entry
    gets to see of [a]. *)
Lemma direct_sim {A} (mk : A -> request) (h : entry D A) (a b : A) s d r a' d' :
  attached true s d -> planes (mk a) = 0 -> refused ops (mk a) = false ->
  entry_of ops (passed (mk a)) = lift mk h b -> gives_output (mk a) = true ->
  direct h b d = Some (r, a', d') -> exists r' s', sys_ioctl u (mk a) s = Some (r, r', s') /\ attached true s' d' /\
  (0 <= r -> r' = mk a').
Proof.
  intros Hlink Hp Href He Hg Hd. unfold direct in Hd.
  assert (exists ret r', video_ioctl2 u (Some ops) (mk a) d = Some (ret, r', d') /\ sysret ret = r /\
    (0 <= r -> r' = mk a')) as (ret & r' & E & <- & Hout).
  { rewrite dispatch_plain by done. destruct Hu as (Hur & Huw & Huk). unfold ioctl_spec.
    destruct (Huk sizeof_format) as [k ->]. cbn [present negb]. rewrite andb_false_r, Hur. cbn [negb].
    rewrite andb_false_r, He, Href, Hg. destruct h as [f|]; cbn [lift].
    - destruct (f b d) as [[[err a1] d1]|]; [|done]. cbn [mbind option_bind] in *. injection Hd as <- <- <-.
      destruct (answer_sign (mk a) err) as [Ea Eb]. destruct (Z.ltb_spec (answer (mk a) err) 0) as [Hneg|Hpos].
      + eexists _, _. split; [reflexivity|]. split; [done|]. unfold sysret. destruct (Z.ltb_spec err 0); [lia|].
        rewrite Eb in Hneg by done. lia.
      + rewrite Huw. eexists _, _. split; [reflexivity|]. by split.
    - injection Hd as <- <- <-. eexists _, _. split; [reflexivity|]. by split. }
  destruct (sys_ioctl_at (mk a) s d ret r' d' Hlink E) as (s' & Es & Hl'). by exists r', s'.
Qed.

(** Opening, mapping and closing. *)
Lemma open_sim s d fd d' : attached false s d -> @io_open _ (table_node ops fops place) d = Some (fd, d') ->
  exists fd' s', @io_open _ (sys_node u minor place) s = Some (fd', s') /\
  (if fd <? 0 then (fd' <? 0) = true /\ attached false s' d' else (fd' <? 0) = false /\ attached true s' d').
Proof.
  intros [<- (p & v & Ht & Hv & Hf & Ho & Hl & Hr & Hn)] Hopen. cbn [io_open sys_node table_node] in *.
  unfold sys_open, v4l2_open, video_devdata. rewrite Ht. cbn [mbind option_bind]. rewrite Hv. cbn [mbind option_bind].
  rewrite Hr. cbn [negb]. unfold video_get. rewrite Hv. cbn [mbind option_bind]. rewrite Hf.
  set (st1 := put_vdev p (set_ref (v_ref v + 1) v) (as_sys s)) in *.
  assert (forall d n, n <= v_ref v + 1 -> at_minor n (set_drv d st1)) as H1.
  { intros d n Hle. exists p, (set_ref (v_ref v + 1) v). split_and!; try done. apply lookup_insert_eq. }
  assert (exists r, match fo_open fops with None => Some (0, st1)
    | Some f => if v_lock v && false then Some (- ERESTARTSYS, st1)
                else '(ret, d) ← f (vs_drv st1); Some (ret, set_drv d st1) end = Some (r, set_drv d' st1) /\
    fd = if r =? 0 then some_fd else -1) as (r & -> & ->).
  { rewrite andb_false_r. destruct (fo_open fops) as [f|].
    - change (vs_drv st1) with (vs_drv (as_sys s)). destruct (f (vs_drv (as_sys s))) as [[r d1]|]; [|done].
      cbn [mbind option_bind] in *. injection Hopen as <- <-. by exists r.
    - injection Hopen as <- <-. exists 0. by split. }
  cbn [mbind option_bind]. destruct (Z.eqb_spec r 0) as [E0|Hne]; cbn [negb mbind option_bind].
  - rewrite E0. cbn [Z.eqb]. eexists _, _. split; [reflexivity|]. cbn [some_fd Z.ltb Z.compare]. split; [apply Z.ltb_ge; lia|].
    split; [done|]. split; [|eexists; split; [done|apply lookup_insert_eq]].
    destruct (H1 d' 2) as (q & w & Hw); [lia|]. by exists q, w.
  - unfold video_put. cbn [vs_heap set_drv put_vdev set_heap st1]. rewrite lookup_insert_eq. cbn [mbind option_bind].
    cbn [v_ref set_ref]. rewrite (proj2 (Z.leb_gt _ _)) by lia.
    rewrite (proj2 (Z.eqb_neq (v_ref v + 1 - 1) 0)) by lia. cbn [andb mbind option_bind].
    rewrite (proj2 (Z.eqb_neq r 0)) by done. eexists _, _. split; [reflexivity|]. cbn [Z.ltb Z.compare].
    split; [done|]. split; [done|]. eexists p, _. split_and!; [done | apply lookup_insert_eq | done ..|]. cbn. lia.
Qed.

Lemma close_sim s d d' : attached true s d -> @io_close _ (table_node ops fops place) d = Some d' ->
  exists s', @io_close _ (sys_node u minor place) s = Some s' /\ attached false s' d'.
Proof.
  intros [<- [(p & v & Ht & Hv & Hf & Ho & Hl & Hr & Hn) (fd & Hfd & Hfile)]] Hc.
  cbn [io_close sys_node table_node] in *. rewrite Hfd. unfold sys_close. rewrite Hfile. cbn [mbind option_bind].
  set (st1 := set_files (delete fd (vs_files (as_sys s))) (as_sys s)).
  unfold v4l2_release, video_devdata. change (vs_table st1) with (vs_table (as_sys s)). rewrite Ht.
  cbn [mbind option_bind]. change (vs_heap st1) with (vs_heap (as_sys s)). rewrite Hv. cbn [mbind option_bind]. rewrite Hf.
  assert (match fo_release fops with None => Some st1 | Some f => '(_, d) ← f (vs_drv st1); Some (set_drv d st1) end
    = Some (set_drv d' st1)) as ->.
  { destruct (fo_release fops) as [f|].
    - change (vs_drv st1) with (vs_drv (as_sys s)). destruct (f (vs_drv (as_sys s))) as [[r d1]|]; [|done].
      cbn [mbind option_bind] in *. by injection Hc as <-.
    - by injection Hc as <-. }
  cbn [mbind option_bind]. unfold video_put. change (vs_heap (set_drv d' st1)) with (vs_heap (as_sys s)). rewrite Hv.
  cbn [mbind option_bind]. rewrite (proj2 (Z.leb_gt _ _)) by lia. rewrite (proj2 (Z.eqb_neq (v_ref v - 1) 0)) by lia.
  cbn [andb mbind option_bind]. eexists. split; [reflexivity|]. split; [done|].
  eexists p, _. split_and!; [done | apply lookup_insert_eq | done ..|]. cbn. lia.
Qed.

Lemma mmap_sim s d len off a d' : attached true s d ->
  @io_mmap _ (table_node ops fops place) len off d = Some (a, d') ->
  exists s', @io_mmap _ (sys_node u minor place) len off s = Some (a, s') /\ attached true s' d'.
Proof.
  intros [<- [(p & v & Ht & Hv & Hf & Ho & Hl & Hr & Hn) (fd & Hfd & Hfile)]] Hm.
  cbn [io_mmap sys_node table_node] in *. unfold sys_mmap. rewrite Hfd, Hfile. cbn [mbind option_bind].
  unfold v4l2_mmap, video_devdata. rewrite Ht. cbn [mbind option_bind]. rewrite Hv. cbn [mbind option_bind]. rewrite Hf.
  assert (attached true (mk_app_sys (set_drv d' (as_sys s)) (Some fd)) d') as Hlink.
  { split; [done|]. split; [|by exists fd]. by exists p, v. }
  destruct (fo_mmap fops) as [f|].
  - unfold locked. rewrite Hl, Hr. cbn [andb]. destruct (f _ (vs_drv (as_sys s))) as [[r d1]|]; [|done].
    cbn [mbind option_bind] in *. injection Hm as <- <-. eexists. by split.
  - injection Hm as <- <-. eexists. split; [reflexivity|]. split; [done|]. split; [by exists p, v|]. by exists fd.
Qed.

(** The requests of the program. *)
Lemma querycap_sim s d r c d' : attached true s d ->
  @io_querycap _ (table_node ops fops place) d = Some (r, c, d') ->
  exists c' s', @io_querycap _ (sys_node u minor place) s = Some (r, c', s') /\ attached true s' d' /\ (0 <= r -> c' = c).
Proof.
  intros Hl Hc. cbn [io_querycap table_node sys_node] in *.
  destruct (direct _ empty_cap d) as [[[r1 cap] d1]|] eqn:E; [|done]. cbn [mbind option_bind] in Hc. injection Hc as <- <- <-.
  destruct (direct_sim VIDIOC_QUERYCAP (vidioc_querycap ops) (mk_cap "" "" 0 0) empty_cap s d r1 cap d1 Hl) as (r' & s' & -> & Hl' & Ho); try done.
  cbn [mbind option_bind]. eexists _, s'. split; [reflexivity|]. split; [done|]. intros Hr. by rewrite (Ho Hr).
Qed.

Lemma enum_sim s d f g r f' d' : attached true s d -> same_desc f g -> fd_type f = V4L2_BUF_TYPE_VIDEO_CAPTURE ->
  @io_enum_fmt _ (table_node ops fops place) f d = Some (r, f', d') ->
  exists g' s', @io_enum_fmt _ (sys_node u minor place) g s = Some (r, g', s') /\ attached true s' d' /\
  (r = 0 -> same_desc f' g' /\ fd_type f' = V4L2_BUF_TYPE_VIDEO_CAPTURE).
Proof.
  intros Hl (Ei & Et & Ep) Hcap Hc. cbn [io_enum_fmt table_node sys_node] in *.
  set (h := vidioc_enum_fmt_vid_cap ops) in *. set (g0 := mk_fmtdesc (fd_index g) (fd_type g) 0 "" 0).
  assert (exists g', direct h g0 d = Some (r, g', d') /\ (r = 0 -> same_desc f' g' /\ fd_type f' = fd_type f)) as (g' & E & Hg).
  { unfold direct in *. destruct h as [h'|] eqn:Eh; [|injection Hc as <- <- <-; by exists g0].
    destruct (h' f d) as [[[r1 f1] d1]|] eqn:E1; [|done]. cbn [mbind option_bind] in Hc. injection Hc as <- <- <-.
    destruct (vd_enum _ _ Hdrv h' f g0 d r1 f1 d1) as (g' & -> & Hs); try done. exists g'. split; [done|].
    intros Hr. apply Hs. unfold sysret in Hr. destruct (Z.ltb_spec r1 0); lia. }
  destruct (direct_sim VIDIOC_ENUM_FMT h g g0 s d r g' d' Hl) as (r' & s' & -> & Hl' & Ho); try done.
  { unfold refused. cbn. by rewrite <- Et, Hcap. }
  cbn [mbind option_bind]. eexists _, s'. split; [reflexivity|]. split; [done|]. intros ->.
  rewrite (Ho ltac:(lia)). cbn. rewrite <- Hcap. by apply Hg.
Qed.

Lemma s_fmt_sim s d f r f' d' : attached true s d -> fmt_type f = V4L2_BUF_TYPE_VIDEO_CAPTURE ->
  @io_s_fmt _ (table_node ops fops place) f d = Some (r, f', d') ->
  exists g s', @io_s_fmt _ (sys_node u minor place) f s = Some (r, g, s') /\ attached true s' d' /\ (r = 0 -> g = f').
Proof.
  intros Hl Hcap Hc. cbn [io_s_fmt table_node sys_node] in *.
  destruct (direct_sim VIDIOC_S_FMT (vidioc_s_fmt_vid_cap ops) f f s d r f' d' Hl) as (r' & s' & -> & Hl' & Ho); try done.
  { unfold refused. cbn. by rewrite Hcap. }
  cbn [mbind option_bind]. eexists _, s'. split; [reflexivity|]. split; [done|]. intros ->. by rewrite (Ho ltac:(lia)).
Qed.

Lemma buffers_allowed r t : stream_type r = Some t -> t = V4L2_BUF_TYPE_VIDEO_CAPTURE -> refused ops r = false.
Proof. intros E ->. unfold refused. rewrite E. destruct (vd_g_fmt _ _ Hdrv) as [h ->]. cbn. by rewrite andb_false_r. Qed.

Lemma reqbufs_sim s d r p d' : attached true s d ->
  @io_reqbufs _ (table_node ops fops place) app_reqbufs d = Some (r, p, d') ->
  exists p' s', @io_reqbufs _ (sys_node u minor place) app_reqbufs s = Some (r, p', s') /\ attached true s' d' /\ (r = 0 -> p' = p).
Proof.
  intros Hl Hc. cbn [io_reqbufs table_node sys_node] in *.
  destruct (direct_sim VIDIOC_REQBUFS (vidioc_reqbufs ops) app_reqbufs app_reqbufs s d r p d' Hl)
    as (r' & s' & -> & Hl' & Ho); try done; [by eapply buffers_allowed|].
  cbn [mbind option_bind]. eexists _, s'. split; [reflexivity|]. split; [done|]. intros ->. by rewrite (Ho ltac:(lia)).
Qed.

Lemma querybuf_sim s d i r b d' : attached true s d ->
  @io_querybuf _ (table_node ops fops place) (app_buf i) d = Some (r, b, d') ->
  exists b' s', @io_querybuf _ (sys_node u minor place) (app_buf i) s = Some (r, b', s') /\ attached true s' d' /\ (r = 0 -> b' = b).
Proof.
  intros Hl Hc. cbn [io_querybuf table_node sys_node] in *.
  destruct (direct_sim VIDIOC_QUERYBUF (vidioc_querybuf ops) (app_buf i) (app_buf i) s d r b d' Hl)
    as (r' & s' & -> & Hl' & Ho); try done; [by eapply buffers_allowed|].
  cbn [mbind option_bind]. eexists _, s'. split; [reflexivity|]. split; [done|]. intros ->. by rewrite (Ho ltac:(lia)).
Qed.

Lemma qbuf_sim s d i r d' : attached true s d ->
  @io_qbuf _ (table_node ops fops place) (app_buf i) d = Some (r, d') ->
  exists s', @io_qbuf _ (sys_node u minor place) (app_buf i) s = Some (r, s') /\ attached true s' d'.
Proof.
  intros Hl Hc. cbn [io_qbuf table_node sys_node] in *.
  destruct (direct _ (app_buf i) d) as [[[r1 b] d1]|] eqn:E; [|done]. cbn [mbind option_bind] in Hc. injection Hc as <- <-.
  destruct (direct_sim VIDIOC_QBUF (vidioc_qbuf ops) (app_buf i) (app_buf i) s d r1 b d1 Hl)
    as (r' & s' & -> & Hl' & _); try done; [by eapply buffers_allowed|].
  cbn [mbind option_bind]. by eexists s'.
Qed.

(** The program on the one node and on the other. *)
Abbreviation direct_node := (table_node ops fops place).
Abbreviation real_node := (sys_node u minor place).

Lemma err_exit_sim dv s d r dv' d' : attached true s d -> @err_exit _ direct_node dv d = Some (r, dv', d') ->
  exists s', @err_exit _ real_node dv s = Some (r, dv', s') /\ attached (r =? 0) s' d'.
Proof.
  intros Hl E. unfold err_exit in *. destruct (@io_close _ direct_node d) as [d1|] eqn:Ec; [|done].
  cbn [mbind option_bind] in E. injection E as <- <- <-. destruct (close_sim s d d1 Hl Ec) as (s' & -> & Hl'). by exists s'.
Qed.

Lemma enum_loop_sim : forall fuel f g dv s d dv' d', attached true s d -> same_desc f g ->
  fd_type f = V4L2_BUF_TYPE_VIDEO_CAPTURE -> @enum_loop _ direct_node fuel f dv d = Some (dv', d') ->
  exists s', @enum_loop _ real_node fuel g dv s = Some (dv', s') /\ attached true s' d'.
Proof.
  induction fuel as [|fuel IH]; intros f g dv s d dv' d' Hl Hs Ht E; [done|]. cbn [enum_loop] in *.
  destruct (@io_enum_fmt _ direct_node f d) as [[[r f1] d1]|] eqn:Ee; [|done]. cbn [mbind option_bind] in E.
  destruct (enum_sim s d f g r f1 d1 Hl Hs Ht Ee) as (g1 & s1 & -> & Hl1 & Hr). cbn [mbind option_bind].
  destruct (Z.eqb_spec r 0) as [E0|Hne]; cbn [negb] in *; [|injection E as <- <-; by exists s1].
  destruct (Hr E0) as [(Ei & Ett & Ep) Hcap]. rewrite <- Ep. destruct (negb (isSupportThisFormat _ =? 0)).
  - injection E as <- <-. by exists s1.
  - eapply IH; [exact Hl1 | | | exact E]; [|done]. unfold same_desc. cbn. by rewrite Ei, Ett.
Qed.

Lemma map_loop_sim : forall todo i dv s d b dv' d', attached true s d ->
  @map_loop _ direct_node todo i dv d = Some (b, dv', d') ->
  exists s', @map_loop _ real_node todo i dv s = Some (b, dv', s') /\ attached true s' d'.
Proof.
  induction todo as [|todo IH]; intros i dv s d b dv' d' Hl E; cbn [map_loop] in *; [injection E as <- <- <-; by exists s|].
  destruct (@io_querybuf _ direct_node _ d) as [[[r q] d1]|] eqn:Eq; [|done]. cbn [mbind option_bind] in E.
  destruct (querybuf_sim s d _ r q d1 Hl Eq) as (q' & s1 & -> & Hl1 & Hq). cbn [mbind option_bind].
  destruct (Z.eqb_spec r 0) as [E0|Hne]; cbn [negb] in *; [|injection E as <- <- <-; by exists s1]. rewrite (Hq E0).
  destruct (@io_mmap _ direct_node _ _ d1) as [[a d2]|] eqn:Em; [|done]. cbn [mbind option_bind] in E.
  destruct (mmap_sim s1 d1 _ _ a d2 Hl1 Em) as (s2 & -> & Hl2). cbn [mbind option_bind]. destruct a as [a|].
  - destruct (put_vptr _ _ _) as [l|]; [|done]. cbn [mbind option_bind] in *. by apply (IH _ _ s2 d2).
  - destruct (put_vptr _ _ _) as [l|]; [|done]. cbn [mbind option_bind] in *. injection E as <- <- <-. by exists s2.
Qed.

Lemma queue_loop_sim : forall todo i s d b d', attached true s d ->
  @queue_loop _ direct_node todo i d = Some (b, d') ->
  exists s', @queue_loop _ real_node todo i s = Some (b, s') /\ attached true s' d'.
Proof.
  induction todo as [|todo IH]; intros i s d b d' Hl E; cbn [queue_loop] in *; [injection E as <- <-; by exists s|].
  destruct (@io_qbuf _ direct_node _ d) as [[r d1]|] eqn:Eq; [|done]. cbn [mbind option_bind] in E.
  destruct (qbuf_sim s d _ r d1 Hl Eq) as (s1 & -> & Hl1). cbn [mbind option_bind].
  destruct (negb (r =? 0)); [injection E as <- <-; by exists s1|]. by apply (IH _ s1 d1).
Qed.

Lemma setup_sim malloc caps dv s d r dv' d' : attached true s d ->
  @setup_buffers _ direct_node malloc caps dv d = Some (r, dv', d') ->
  exists s', @setup_buffers _ real_node malloc caps dv s = Some (r, dv', s') /\ attached (r =? 0) s' d'.
Proof.
  intros Hl E. unfold setup_buffers in *. destruct (bit_set caps V4L2_CAP_STREAMING).
  - destruct (map_loop _ _ dv d) as [[[b dv1] d1]|] eqn:Em; [|done]. cbn [mbind option_bind] in E.
    destruct (map_loop_sim _ _ _ s d b dv1 d1 Hl Em) as (s1 & -> & Hl1). cbn [mbind option_bind].
    destruct b; cbn [negb] in *; [|by apply (err_exit_sim _ s1 d1)].
    destruct (queue_loop _ _ d1) as [[b d2]|] eqn:Eq; [|done]. cbn [mbind option_bind] in E.
    destruct (queue_loop_sim _ _ s1 d1 b d2 Hl1 Eq) as (s2 & -> & Hl2). cbn [mbind option_bind].
    destruct b; cbn [negb] in *; [|by apply (err_exit_sim _ s2 d2)]. injection E as <- <- <-. by exists s2.
  - destruct (bit_set caps V4L2_CAP_READWRITE); [|injection E as <- <- <-; by exists s].
    destruct (put_vptr _ _ _) as [l|]; [|done]. cbn [mbind option_bind] in *. injection E as <- <- <-. by exists s.
Qed.

(** What [V4l2InitDevice] does on the driver, it does on the system. *)
Lemma init_sim fuel malloc lw lh dv s d r dv' d' : attached false s d ->
  @V4l2InitDevice _ direct_node fuel malloc lw lh dv d = Some (r, dv', d') ->
  exists s', @V4l2InitDevice _ real_node fuel malloc lw lh dv s = Some (r, dv', s') /\ attached (r =? 0) s' d'.
Proof.
  intros Hl E. unfold V4l2InitDevice in *. destruct (@io_open _ direct_node d) as [[fd d1]|] eqn:Eo; [|done].
  cbn [mbind option_bind] in E. destruct (open_sim s d fd d1 Hl Eo) as (fd' & s1 & -> & Hcase). cbn [mbind option_bind].
  destruct (fd <? 0); destruct Hcase as [-> Hl1]; [injection E as <- <- <-; by exists s1|].
  destruct (@io_querycap _ direct_node d1) as [[[r2 c2] d2]|] eqn:E2; [|done]. cbn [mbind option_bind] in E.
  destruct (querycap_sim s1 d1 r2 c2 d2 Hl1 E2) as (c2' & s2 & -> & Hl2 & _). cbn [mbind option_bind].
  destruct (@io_querycap _ direct_node d2) as [[[r3 c3] d3]|] eqn:E3; [|done]. cbn [mbind option_bind] in E.
  destruct (querycap_sim s2 d2 r3 c3 d3 Hl2 E3) as (c3' & s3 & -> & Hl3 & Hc). cbn [mbind option_bind].
  destruct (Z.eqb_spec r3 0) as [E0|]; cbn [negb] in *; [|by apply (err_exit_sim _ s3 d3)]. rewrite (Hc ltac:(lia)).
  destruct (bit_set c3 V4L2_CAP_VIDEO_CAPTURE); cbn [negb] in *; [|by apply (err_exit_sim _ s3 d3)].
  destruct (enum_loop fuel _ dv d3) as [[dv4 d4]|] eqn:E4; [|done]. cbn [mbind option_bind] in E.
  destruct (enum_loop_sim fuel (app_fmtdesc 0) (app_fmtdesc 0) dv s3 d3 dv4 d4 Hl3) as (s4 & -> & Hl4); try done.
  cbn [mbind option_bind]. destruct (vd_iPixelFormat dv4 =? 0); [by apply (err_exit_sim _ s4 d4)|].
  destruct (@io_s_fmt _ direct_node _ d4) as [[[r5 f5] d5]|] eqn:E5; [|done]. cbn [mbind option_bind] in E.
  destruct (s_fmt_sim s4 d4 (app_format (vd_iPixelFormat dv4) (u32 lw) (u32 lh)) r5 f5 d5 Hl4 eq_refl E5)
    as (g5 & s5 & -> & Hl5 & Hf). cbn [mbind option_bind].
  destruct (Z.eqb_spec r5 0) as [E50|]; cbn [negb] in *; [|by apply (err_exit_sim _ s5 d5)]. rewrite (Hf E50).
  destruct (@io_reqbufs _ direct_node _ d5) as [[[r6 p6] d6]|] eqn:E6; [|done]. cbn [mbind option_bind] in E.
  destruct (reqbufs_sim s5 d5 r6 p6 d6 Hl5 E6) as (p6' & s6 & -> & Hl6 & Hp). cbn [mbind option_bind].
  destruct (Z.eqb_spec r6 0) as [E60|]; cbn [negb] in *; [|by apply (err_exit_sim _ s6 d6)]. rewrite (Hp E60).
  by apply (setup_sim _ _ _ s6 d6).
Qed.
End Simulation.
