(* ===== verification/DriverTables.v ===== *)
(** The tables that the drivers of the repository register: the requests
    ([struct v4l2_ioctl_ops]) and the file operations ([struct
    v4l2_file_operations]) of the UVC camera ([src/myuvc/10_th/uvc.c]), the virtual
    camera ([src/myvivi/6_th/vivi.c]) and the CMOS camera
    ([src/CMOS/5_th/cmos_ov7740_drv.c]). The UVC driver keeps the contract that the
    registrar asks for. *)
From S2P Require Import Prelude V4l2 V4l2Ioctl VideoDev UvcParams UvcQueue UvcDecode UvcStream UvcDriver.
From S2P Require Import Videobuf Vivi Cmos VideoApp SysNode.
Open Scope Z_scope.

(** * The UVC camera *)

Section Uvc.
Context {dev : Type} `{UvcStream.UsbCore dev}.

(** The allocator, the allocations of STREAMON, the contents of the stack and the
    insertion of pages into a mapping. *)
Context (vmalloc_32 : Z -> option mem) (pa : param_allocs) (stack : mem) (vm_insert_page : Z -> Z).

(** The reply of the driver as the structure the program passed. *)
Definition cap_reply (c : v4l2_capability) (r : UvcDriver.reply) : v4l2_capability :=
  match r with R_cap c => c | _ => c end.
Definition fmtdesc_reply (f : v4l2_fmtdesc) (r : UvcDriver.reply) : v4l2_fmtdesc :=
  match r with R_fmtdesc f => f | _ => f end.
Definition fmt_reply (f : v4l2_format) (r : UvcDriver.reply) : v4l2_format :=
  match r with R_fmt f => f | _ => f end.
Definition buf_reply (b : v4l2_buffer) (r : UvcDriver.reply) : v4l2_buffer :=
  match r with R_buf b => b | _ => b end.
Definition queryctrl_reply (c : v4l2_queryctrl) (r : UvcDriver.reply) : v4l2_queryctrl :=
  match r with R_queryctrl c => c | _ => c end.
Definition control_reply (c : v4l2_control) (r : UvcDriver.reply) : v4l2_control :=
  match r with R_ctrl c => c | _ => c end.

Definition uvc_entry {A} (ev : A -> UvcDriver.event) (reply : A -> UvcDriver.reply -> A) : entry (driver dev) A :=
  Some (fun a dr => '(ret, r, dr) ← UvcDriver.handle (ev a) dr; Some (ret, reply a r, dr)).

Definition myuvc_ioctl_ops : v4l2_ioctl_ops (driver dev) := {|
  vidioc_querycap := uvc_entry (fun _ => EvQuerycap) cap_reply;
  vidioc_enum_fmt_vid_cap := uvc_entry EvEnumFmt fmtdesc_reply;
  vidioc_g_fmt_vid_cap := uvc_entry (fun _ => EvGFmt) fmt_reply;
  vidioc_s_fmt_vid_cap := uvc_entry EvSFmt fmt_reply;
  vidioc_try_fmt_vid_cap := uvc_entry EvTryFmt fmt_reply;
  vidioc_reqbufs := uvc_entry (EvReqbufs vmalloc_32) (fun p _ => p);
  vidioc_querybuf := uvc_entry EvQuerybuf buf_reply;
  vidioc_qbuf := uvc_entry EvQbuf (fun b _ => b);
  vidioc_dqbuf := uvc_entry EvDqbuf buf_reply;
  vidioc_streamon := uvc_entry (fun _ => EvStreamon pa) (fun i _ => i);
  vidioc_streamoff := uvc_entry (fun _ => EvStreamoff) (fun i _ => i);
  vidioc_queryctrl := uvc_entry EvQueryctrl queryctrl_reply;
  vidioc_g_ctrl := uvc_entry (EvGCtrl stack) control_reply;
  vidioc_s_ctrl := uvc_entry (EvSCtrl stack) (fun c _ => c)
|}.

Definition uvc_call (ev : UvcDriver.event) (dr : driver dev) : option (Z * driver dev) :=
  '(ret, _, dr) ← UvcDriver.handle ev dr; Some (ret, dr).

(** The mapping as the driver sees it. *)
Definition uvc_vma (vm : vm_area) : vm_area_struct :=
  mk_vma (va_start vm) (va_end vm) (va_pgoff vm) false None.

Definition myuvc_fops : v4l2_file_operations (driver dev) := {|
  fo_read := None;
  fo_poll := Some (uvc_call EvPoll);
  fo_ioctl := Some ioctl2;
  fo_unlocked_ioctl := None;
  fo_mmap := Some (fun vm => uvc_call (EvMmap vm_insert_page (uvc_vma vm)));
  fo_open := Some (fun dr => Some (0, dr));
  fo_release := Some (uvc_call EvClose)
|}.

(** [myuvc_release] is empty. *)
Definition myuvc_release : release_fn (driver dev) := Rel_driver (fun dr => Some dr).

(** The device that [probe] fills in. *)
Definition myuvc_vdev : video_device (driver dev) :=
  new_vdev myuvc_fops (Some myuvc_ioctl_ops) (Some myuvc_release) None false.

(** The entry point a request reaches. *)
Definition uvc_event (r : request) : UvcDriver.event :=
  match r with
  | VIDIOC_QUERYCAP _ => EvQuerycap
  | VIDIOC_ENUM_FMT f => EvEnumFmt f
  | VIDIOC_G_FMT _ => EvGFmt
  | VIDIOC_S_FMT f => EvSFmt f
  | VIDIOC_TRY_FMT f => EvTryFmt f
  | VIDIOC_REQBUFS p => EvReqbufs vmalloc_32 p
  | VIDIOC_QUERYBUF b => EvQuerybuf b
  | VIDIOC_QBUF b => EvQbuf b
  | VIDIOC_DQBUF b => EvDqbuf b
  | VIDIOC_STREAMON _ => EvStreamon pa
  | VIDIOC_STREAMOFF _ => EvStreamoff
  | VIDIOC_QUERYCTRL c => EvQueryctrl c
  | VIDIOC_G_CTRL c => EvGCtrl stack c
  | VIDIOC_S_CTRL c => EvSCtrl stack c
  end.

(** What the driver keeps and what it can take. *)
Definition uvc_laws : driver_laws (driver dev) := {|
  dl_inv := driver_inv;
  dl_request dr r := event_ok dr (uvc_event (passed r)) /\ served dr (uvc_event (passed r));
  dl_area dr vm := event_ok dr (EvMmap vm_insert_page (uvc_vma vm));
  dl_poll dr := served dr EvPoll
|}.
End Uvc.

(** * The virtual camera *)

Section Vivi.
(** Which allocations succeed, the answers for a mapping, and how files are
    opened. A DQBUF that sleeps is ended by a signal. *)
Context (alloc : nat -> bool) (kz : option nat) (vm : option mem) (remap : Z) (nonblock : bool).

Definition myvivi_ioctl_ops : v4l2_ioctl_ops vivi := {|
  vidioc_querycap := Some (fun _ s => let '(r, c) := myvivi_videoc_querycap in Some (r, c, s));
  vidioc_enum_fmt_vid_cap := Some (fun f s => let '(r, f) := myvivi_vidioc_enum_fmt_vid_cap f in Some (r, f, s));
  vidioc_g_fmt_vid_cap := Some (fun _ s => let '(r, f) := myvivi_vidioc_g_fmt_vid_cap s in Some (r, f, s));
  vidioc_s_fmt_vid_cap := Some myvivi_vidioc_s_fmt_vid_cap;
  vidioc_try_fmt_vid_cap := Some (fun f s => '(r, f) ← myvivi_vidioc_try_fmt_vid_cap f; Some (r, f, s));
  vidioc_reqbufs := Some (fun p s =>
    let ops := myvivi_video_qops (myvivi_format s) in
    '(r, c, q) ← videobuf_reqbufs alloc p (myvivi_vb_vidqueue s);
    Some (r, mk_reqbufs c (rb_type p) (rb_memory p), Vivi.set_queue q s));
  vidioc_querybuf := Some (fun b s =>
    let '(r, b) := videobuf_querybuf b (myvivi_vb_vidqueue s) in Some (r, b, s));
  vidioc_qbuf := Some (fun b s =>
    let ops := myvivi_video_qops (myvivi_format s) in
    '(r, q) ← videobuf_qbuf b (myvivi_vb_vidqueue s); Some (r, b, Vivi.set_queue q s));
  vidioc_dqbuf := Some (fun b s =>
    o ← videobuf_dqbuf nonblock (myvivi_vb_vidqueue s);
    match o with
    | Sleep => Some (- ERESTARTSYS, b, s)
    | Done (r, b, q) => Some (r, b, Vivi.set_queue q s)
    end);
  vidioc_streamon := Some (fun i s =>
    let ops := myvivi_video_qops (myvivi_format s) in
    '(r, q) ← videobuf_streamon (myvivi_vb_vidqueue s); Some (r, i, Vivi.set_queue q s));
  vidioc_streamoff := Some (fun i s =>
    let ops := myvivi_video_qops (myvivi_format s) in
    Some (0, i, Vivi.set_queue (snd (videobuf_streamoff (myvivi_vb_vidqueue s))) s));
  vidioc_queryctrl := None;
  vidioc_g_ctrl := None;
  vidioc_s_ctrl := None
|}.

Definition myvivi_fops : v4l2_file_operations vivi := {|
  fo_read := None;
  fo_poll := Some (fun s =>
    let ops := myvivi_video_qops (myvivi_format s) in
    '(r, q) ← videobuf_poll_stream alloc (myvivi_vb_vidqueue s); Some (r, Vivi.set_queue q s));
  fo_ioctl := Some ioctl2;
  fo_unlocked_ioctl := None;
  fo_mmap := Some (fun a s =>
    let '(r, q) := videobuf_mmap_mapper kz vm remap (va_flags a) (va_start a) (va_pgoff a)
                     (myvivi_vb_vidqueue s) in
    Some (r, Vivi.set_queue q s));
  fo_open := Some (fun s => Some (0, myvivi_open s));
  fo_release := Some (fun s => s ← myvivi_close s; Some (0, s))
|}.

Definition myvivi_release : release_fn vivi := Rel_driver (fun s => Some s).
End Vivi.

(** * The CMOS camera *)

Section Cmos.
Context `{PageOps}.
(** A [read] whose wait has ended, and the buffer of the program. *)
Context (ubuf : mem).

Definition cmos_ov7740_ioctl_ops : v4l2_ioctl_ops cmos := {|
  vidioc_querycap := Some (fun _ s => let '(c, r) := cmos_ov7740_vidioc_querycap in Some (r, c, s));
  vidioc_enum_fmt_vid_cap := Some (fun f s => let '(f, r) := cmos_ov7740_vidioc_enum_fmt_vid_cap f in Some (r, f, s));
  vidioc_g_fmt_vid_cap := Some (fun f s => Some (0, f, s));
  vidioc_s_fmt_vid_cap := Some (fun f s => let '(s, f, r) := cmos_ov7740_vidioc_s_fmt_vid_cap f s in Some (r, f, s));
  vidioc_try_fmt_vid_cap := Some (fun f s => Some (cmos_ov7740_vidioc_try_fmt_vid_cap f, f, s));
  vidioc_reqbufs := Some (fun p s => '(s, r) ← cmos_ov7740_vidioc_reqbufs s; Some (r, p, s));
  vidioc_querybuf := None;
  vidioc_qbuf := None;
  vidioc_dqbuf := None;
  vidioc_streamon := Some (fun i s => '(s, r) ← cmos_ov7740_vidioc_streamon s; Some (r, i, s));
  vidioc_streamoff := Some (fun i s => let '(s, r) := cmos_ov7740_vidioc_streamoff s in Some (r, i, s));
  vidioc_queryctrl := None;
  vidioc_g_ctrl := None;
  vidioc_s_ctrl := None
|}.

Definition cmos_ov7740_fops : v4l2_file_operations cmos := {|
  fo_read := Some (fun n s =>
    r ← cmos_ov7740_read true n ubuf s;
    match r with Sleeping => None | Returned s b ret => Some (ret, b, s) end);
  fo_poll := None;
  fo_ioctl := None;
  fo_unlocked_ioctl := Some ioctl2;
  fo_mmap := None;
  fo_open := Some (fun s => Some (0, s));
  fo_release := Some (fun s => Some (0, s))
|}.

Definition cmos_release : release_fn cmos := Rel_driver cmos_ov7740_release.
End Cmos.

(** * The tables are complete *)

Lemma uvc_driver {dev} `{UvcStream.UsbCore dev} vmalloc_32 pa stack ins :
  v4l2_driver (myuvc_ioctl_ops vmalloc_32 pa stack) (myuvc_fops ins).
Proof.
  split; [by right | by eexists |]. intros h f g d r f' d' [= <-] Ei Et Ec. cbn.
  unfold myuvc_vidioc_enum_fmt_vid_cap. rewrite Ei. destruct (_ >=? _); intros [= <- <- <-]; eexists; (split; [reflexivity|]).
  - done.
  - intros _. split; [by repeat split|done].
Qed.

Lemma vivi_driver alloc kz vm remap nonblock :
  v4l2_driver (myvivi_ioctl_ops alloc nonblock) (myvivi_fops alloc kz vm remap).
Proof.
  split; [by right | by eexists |]. intros h f g d r f' d' [= <-] Ei Et Ec. cbn.
  unfold myvivi_vidioc_enum_fmt_vid_cap. rewrite Ei. destruct (_ >=? _); intros [= <- <- <-]; eexists; (split; [reflexivity|]).
  - done.
  - intros _. split; [by repeat split|done].
Qed.

Lemma cmos_driver `{PageOps} ubuf : v4l2_driver cmos_ov7740_ioctl_ops (cmos_ov7740_fops ubuf).
Proof.
  split; [by left | by eexists |]. intros h f g d r f' d' [= <-] Ei Et Ec. cbn.
  unfold cmos_ov7740_vidioc_enum_fmt_vid_cap. rewrite Ei. destruct (_ >=? _); [intros [= <- <- <-]; by eexists|].
  destruct (cmos_formats !! _) as [c|]; intros [= <- <- <-]; eexists; (split; [reflexivity|]); [|done].
  intros _. split; [by repeat split|done].
Qed.

(** * The UVC driver keeps the contract of the registrar *)

Section UvcContract.
Context {dev : Type} `{UvcStream.UsbLaws dev}.
Context (vmalloc_32 : Z -> option mem) (pa : param_allocs) (stack : mem) (ins : Z -> Z).

(** An entry point that is served succeeds and keeps the invariant. *)
Lemma uvc_step ev (dr : driver dev) : driver_inv dr -> event_ok dr ev -> served dr ev ->
  exists ret r dr', UvcDriver.handle ev dr = Some (ret, r, dr') /\ driver_inv dr'.
Proof.
  intros Hi He Hs. destruct (driver_no_fault ev dr Hi He Hs) as [[[ret r] dr'] E]. exists ret, r, dr'.
  split; [done|]. by eapply driver_inv_step.
Qed.

Lemma uvc_call_ok ev (dr : driver dev) : driver_inv dr -> event_ok dr ev -> served dr ev ->
  exists ret dr', uvc_call ev dr = Some (ret, dr') /\ driver_inv dr'.
Proof.
  intros Hi He Hs. destruct (uvc_step ev dr Hi He Hs) as (ret & r & dr' & E & Hi'). exists ret, dr'.
  split; [|done]. unfold uvc_call. by rewrite E.
Qed.

(** The entry of a request is one of them. *)
Lemma uvc_entry_ok r (dr : driver dev) : driver_inv dr ->
  event_ok dr (uvc_event vmalloc_32 pa stack r) -> served dr (uvc_event vmalloc_32 pa stack r) ->
  exists f ret r' dr', entry_of (myuvc_ioctl_ops vmalloc_32 pa stack) r = Some f /\
  f dr = Some (ret, r', dr') /\ driver_inv dr'.
Proof.
  intros Hi He Hs. destruct (uvc_step _ dr Hi He Hs) as (ret & rep & dr' & E & Hi').
  destruct r; cbn [uvc_event] in E; (eexists _, _, _, dr'; split; [reflexivity|]; split; [|done]); cbv beta;
    rewrite E; reflexivity.
Qed.

Lemma uvc_ioctl_ok u r (dr : driver dev) : driver_inv dr ->
  dl_request (uvc_laws vmalloc_32 pa stack ins) dr r ->
  exists ret r' dr', video_ioctl2 u (Some (myuvc_ioctl_ops vmalloc_32 pa stack)) r dr = Some (ret, r', dr') /\ driver_inv dr'.
Proof.
  intros Hi [He Hs]. set (ops := myuvc_ioctl_ops vmalloc_32 pa stack).
  destruct (decide (0 < planes r)) as [Hp|Hp].
  { destruct (dispatch_planar u ops r dr Hp) as (err & r' & -> & _). by eexists _, _, dr. }
  rewrite dispatch_plain by (unfold planes in *; repeat case_match; lia). unfold ioctl_spec.
  destruct (is_large r && _); [by eexists _, _, dr|]. destruct (takes_input r && _); [by eexists _, _, dr|].
  destruct (uvc_entry_ok (passed r) dr Hi He Hs) as (f & ret & r' & dr' & Ef & E & Hi'). unfold ops. rewrite Ef.
  destruct (refused _ r); [by eexists _, _, dr|]. rewrite E. cbn [mbind option_bind].
  destruct (answer r ret <? 0); [by eexists _, _, dr'|]. destruct (negb (gives_output r)); [by eexists _, _, dr'|].
  destruct (u_write u); by eexists _, _, dr'.
Qed.

Lemma uvc_good : fops_good (uvc_laws vmalloc_32 pa stack ins) (myuvc_vdev vmalloc_32 pa stack ins).
Proof.
  split; cbn [v_fops v_ops v_release myuvc_vdev new_vdev myuvc_fops fo_open fo_release fo_poll fo_read fo_ioctl
              fo_unlocked_ioctl fo_mmap].
  - intros f d [= <-] Hd. by exists 0, d.
  - intros f d [= <-] Hd. by apply uvc_call_ok.
  - intros f d [= <-] Hd Hp. by apply uvc_call_ok.
  - done.
  - intros f d u r [|[= <-]] Hd Hr; [done|]. by apply uvc_ioctl_ok.
  - intros f d vm [= <-] Hd Ha. by apply uvc_call_ok.
  - intros f d [= <-] Hd. by exists d.
Qed.
End UvcContract.
