(* ===== verification/UvcModule.v ===== *)
(** The life of the UVC driver of [src/myuvc/10_th/uvc.c] in the kernel: [probe] and
    [disconnect], which the USB core calls for each interface of a camera, with the
    registration of the video device; the calls of programs; the completed URBs. *)
From S2P Require Import Prelude V4l2 V4l2Ioctl VideoDev UvcParams UvcQueue UvcDecode UvcStream UvcDriver.
From S2P Require Import SysNode DriverTables.
Open Scope Z_scope.

(** * The module *)

(** The system with the static variables of the module: the two counters [cnt] and
    the pointer [myuvc_vdev]. *)
Record uvc_module (dev : Type) := mk_module {
  um_sys : videodev (driver dev);
  um_probes : Z;
  um_disconnects : Z;
  um_vdev : option nat
}.
Arguments mk_module {dev} _ _ _ _.
Arguments um_sys {dev} _.
Arguments um_probes {dev} _.
Arguments um_disconnects {dev} _.
Arguments um_vdev {dev} _.

(** The interface number [probe] stores. *)
Definition interface_numbers (cnt bInterfaceNumber : Z) (cfg : uvc_config) : uvc_config :=
  if cnt =? 1 then {| frame_idx := frame_idx cfg; uvc_version := uvc_version cfg;
                      myuvc_streaming_intf := myuvc_streaming_intf cfg;
                      myuvc_control_intf := bInterfaceNumber;
                      ProcessingUnitID := ProcessingUnitID cfg |}
  else if cnt =? 2 then {| frame_idx := frame_idx cfg; uvc_version := uvc_version cfg;
                      myuvc_streaming_intf := bInterfaceNumber;
                      myuvc_control_intf := myuvc_control_intf cfg;
                      ProcessingUnitID := ProcessingUnitID cfg |}
  else cfg.

Section Module.
Context {dev : Type} `{UvcStream.UsbCore dev}.
Context (vmalloc_32 : Z -> option mem) (pas : param_allocs) (stack : mem) (ins : Z -> Z) (fixed : bool).

(** [myuvc_udev = dev] and the interface numbers. Of the device behind [myuvc_udev]
    the driver reads the vendor; [dr_dev] is the state of the USB core and of the
    camera on it, which all probes have in common. *)
Definition set_dr_udev (idVendor : Z) (cfg : uvc_config) (dr : driver dev) : driver dev :=
  mk_driver cfg idVendor (dr_format dr) (dr_params dr) (dr_rx dr) (dr_dev dr).

Definition set_um_sys (st : videodev (driver dev)) (m : uvc_module dev) : uvc_module dev :=
  mk_module st (um_probes m) (um_disconnects m) (um_vdev m).

(** [alloc] says whether the allocation of the video device succeeds: its result is
    not tested. The result of the registration is not tested either. *)
Definition myuvc_probe (env : register_env) (alloc : bool) (pa : param_allocs) (idVendor bInterfaceNumber : Z)
    (m : uvc_module dev) : option (Z * uvc_module dev) :=
  let cnt := um_probes m + 1 in
  let cfg := interface_numbers cnt bInterfaceNumber (dr_cfg (vs_drv (um_sys m))) in
  let st := set_drv (set_dr_udev idVendor cfg (vs_drv (um_sys m))) (um_sys m) in
  if cnt =? 2 then
    if negb alloc then None
    else
      let '(p, st) := video_device_alloc (myuvc_vdev vmalloc_32 pas stack ins) st in
      '(_, st) ← __video_register_device fixed env p VFL_TYPE_GRABBER (-1) st;
      '(params, d) ← negotiate cfg pa (dr_dev (vs_drv st));
      Some (0, mk_module (set_drv (set_dr_dev d (set_dr_params params (vs_drv st))) st)
                 cnt (um_disconnects m) (Some p))
  else Some (0, mk_module st cnt (um_disconnects m) (um_vdev m)).

(** Both calls accept a null pointer. *)
Definition myuvc_disconnect (m : uvc_module dev) : option (uvc_module dev) :=
  let cnt := um_disconnects m + 1 in
  st ← (if cnt =? 2 then
          match um_vdev m with None => Some (um_sys m) | Some p => unregister_and_free p (um_sys m) end
        else Some (um_sys m));
  Some (mk_module st (um_probes m) cnt (um_vdev m)).

(** What happens: the calls of the USB core, of programs, and from interrupts and
    the memory management. *)
Inductive mevent :=
  | M_probe (env : register_env) (alloc : bool) (pa : param_allocs) (idVendor bInterfaceNumber : Z)
  | M_disconnect
  | M_program (ev : vevent (driver dev))
  | M_driver (ev : UvcDriver.event).

Definition mstep (ev : mevent) (m : uvc_module dev) : option (uvc_module dev) :=
  match ev with
  | M_probe env alloc pa idVendor b => snd <$> myuvc_probe env alloc pa idVendor b m
  | M_disconnect => myuvc_disconnect m
  | M_program ev => st ← vstep fixed ev (um_sys m); Some (set_um_sys st m)
  | M_driver ev =>
      '(_, _, dr) ← UvcDriver.handle ev (vs_drv (um_sys m));
      Some (set_um_sys (set_drv dr (um_sys m)) m)
  end.

(** After [insmod]. *)
Definition insmod (vendor : Z) (d : dev) : uvc_module dev :=
  mk_module (initial_videodev (initial_driver vendor d)) 0 0 None.

(** The system calls. *)
Definition program (ev : vevent (driver dev)) : bool :=
  match ev with
  | V_alloc _ _ _ _ _ | V_register _ _ _ _ | V_unregister _ | V_free _ => false
  | _ => true
  end.

(** The entry points that are no system calls. *)
Definition from_below (ev : UvcDriver.event) : bool :=
  match ev with EvComplete _ _ | EvVmOpen _ | EvVmClose _ => true | _ => false end.

(** The environment. [probe]: the video device can be allocated, and a block of the
    negotiation has the size asked for. [disconnect] is called for an interface that was
    probed, the second time when no program has the camera open. Programs use open
    files; their requests and the calls from below meet [event_ok] (at most 32
    buffers, allocators that give blocks of the size asked for, packets that lie in
    the transfer buffer, the block for repaired packets) and [served]: DQBUF and poll
    come after REQBUFS gave buffers, and an URB that completes with status 0 finds a
    queued buffer for every packet that needs one. *)
Definition mallowed (m : uvc_module dev) (ev : mevent) : Prop :=
  match ev with
  | M_probe _ alloc pa _ _ => alloc = true /\ pallocs_ok (dr_cfg (vs_drv (um_sys m))) pa
  | M_disconnect => um_disconnects m < um_probes m /\ (um_disconnects m = 1 -> vs_files (um_sys m) = ∅)
  | M_program ev => program ev = true /\ vallowed (uvc_laws vmalloc_32 pas stack ins) (um_sys m) ev
  | M_driver ev => from_below ev = true /\ event_ok (vs_drv (um_sys m)) ev /\ served (vs_drv (um_sys m)) ev
  end.

Inductive mreachable (m0 : uvc_module dev) : uvc_module dev -> Prop :=
  | mreach_init : mreachable m0 m0
  | mreach_step m ev m' : mreachable m0 m -> mallowed m ev -> mstep ev m = Some m' -> mreachable m0 m'.

(** * The invariant *)

(** The camera is plugged in. *)
Definition plugged (m : uvc_module dev) : Prop := 2 <= um_probes m /\ um_disconnects m < 2.

(** A device with the tables of the driver. *)
Record uvc_device (v : video_device (driver dev)) : Prop := {
  ud_fops : v_fops v = myuvc_fops ins;
  ud_ops : v_ops v = Some (myuvc_ioctl_ops vmalloc_32 pas stack);
  ud_release : v_release v = Some myuvc_release;
  ud_lock : v_lock v = false
}.

Record module_inv (m : uvc_module dev) : Prop := {
  mi_sys : dev_ok (uvc_laws vmalloc_32 pas stack ins) fixed nobody (um_sys m);
  mi_count : um_disconnects m <= um_probes m;
  mi_out : ~ plugged m -> vs_table (um_sys m) = ∅;
  mi_in : plugged m -> exists p v, um_vdev m = Some p /\ vs_heap (um_sys m) !! p = Some v /\ uvc_device v /\
    forall minor q, vs_table (um_sys m) !! minor = Some q -> q = p /\ v_registered v = true
}.
End Module.

(** * System calls leave the devices in place *)

Section Steady.
Context {D : Type}.
Implicit Types (v w : video_device D) (st : videodev D).

(** Only counts and the character device change. *)
Record same_setup v w : Prop := mk_same {
  ss_fops : v_fops w = v_fops v;
  ss_ops : v_ops w = v_ops v;
  ss_release : v_release w = v_release v;
  ss_lock : v_lock w = v_lock v;
  ss_registered : v_registered w = v_registered v
}.

#[local] Instance same_setup_preorder : PreOrder same_setup.
Proof. split; [done|]. intros ? ? ? [] []. split; congruence. Qed.

Record steady st st' : Prop := {
  st_table : vs_table st' ⊆ vs_table st;
  st_heap : forall q v f, vs_heap st !! q = Some v -> v_release v = Some (Rel_driver f) ->
    exists w, vs_heap st' !! q = Some w /\ same_setup v w
}.

#[export] Instance steady_preorder : PreOrder steady.
Proof.
  split.
  - intros st. split; [done|]. intros q v f Hv _. by exists v.
  - intros st1 st2 st3 [T1 H1] [T2 H2]. split; [by etrans|]. intros q v f Hv Hf.
    destruct (H1 q v f Hv Hf) as (w & Hw & S1). destruct (H2 q w f Hw) as (x & Hx & S2); [by rewrite (ss_release _ _ S1)|].
    exists x. split; [done|]. by etrans.
Qed.

Lemma steady_drv d st : steady st (set_drv d st).
Proof. split; [done|]. intros q v f Hv _. by exists v. Qed.
Lemma steady_files fs st : steady st (set_files fs st).
Proof. split; [done|]. intros q v f Hv _. by exists v. Qed.

Lemma steady_put_vdev p v w st : vs_heap st !! p = Some v -> same_setup v w -> steady st (put_vdev p w st).
Proof.
  intros Hp Hs. split; [done|]. intros q x f Hx _. cbn. destruct (decide (q = p)) as [->|].
  - rewrite lookup_insert_eq. exists w. split; [done|]. congruence.
  - rewrite lookup_insert_ne by done. by exists x.
Qed.

Lemma steady_get p st st' : video_get p st = Some st' -> steady st st'.
Proof.
  unfold video_get. destruct (vs_heap st !! p) as [v|] eqn:E; [|done]. intros [= <-]. by eapply steady_put_vdev.
Qed.

Lemma steady_release p st st' : v4l2_device_release p st = Some st' -> steady st st'.
Proof.
  unfold v4l2_device_release. destruct (vs_heap st !! p) as [v|] eqn:E; [|done]. cbn [mbind option_bind].
  destruct (negb _); [by intros [= <-]|].
  set (st1 := set_nums _ _). assert (steady st st1) as Hs.
  { split; [apply delete_subseteq|]. apply (st_heap st (put_vdev p (set_cdev false v) st)). by eapply steady_put_vdev. }
  destruct (v_release v) as [[f|]|] eqn:Er; [| |done].
  - destruct (f _) as [d|]; [|done]. cbn [mbind option_bind]. intros [= <-]. etrans; [exact Hs|apply steady_drv].
  - unfold video_device_release. cbn. rewrite lookup_insert_eq. cbn [mbind option_bind]. intros [= <-].
    split; [exact (st_table _ _ Hs)|]. intros q x f Hx Hf. cbn. assert (q <> p) by congruence.
    rewrite lookup_delete_ne, lookup_insert_ne by done. by exists x.
Qed.

Lemma steady_put p st st' : video_put p st = Some st' -> steady st st'.
Proof.
  unfold video_put. destruct (vs_heap st !! p) as [v|] eqn:E; [|done]. cbn [mbind option_bind].
  destruct (v_ref v <=? 0); [done|]. assert (steady st (put_vdev p (set_ref (v_ref v - 1) v) st)) as Hs
    by (by eapply steady_put_vdev).
  destruct (_ && _); [intros Hr; etrans; [exact Hs|by eapply steady_release] | by intros [= <-]].
Qed.

Lemma steady_locked {A} sig v (a : A) f st ret b st' : locked sig v a f st = Some (ret, b, st') -> steady st st'.
Proof.
  unfold locked. destruct (_ && _); [by intros [= _ _ <-]|]. destruct (v_registered v); [|by intros [= _ _ <-]].
  destruct (f _) as [[[r' b'] d]|]; [|done]. intros [= _ _ <-]. apply steady_drv.
Qed.

Lemma steady_open sig m st ret st' : v4l2_open sig m st = Some (ret, st') -> steady st st'.
Proof.
  unfold v4l2_open. destruct (video_devdata m st) as [p|]; [|by intros [= _ <-]].
  destruct (vs_heap st !! p) as [v|]; [|done]. cbn [mbind option_bind]. destruct (negb (v_registered v)); [by intros [= _ <-]|].
  destruct (video_get p st) as [st1|] eqn:Eg; [|done]. cbn [mbind option_bind]. apply steady_get in Eg.
  destruct (match fo_open (v_fops v) with None => _ | Some _ => _ end) as [[r st2]|] eqn:Ef; [|done].
  cbn [mbind option_bind]. assert (steady st1 st2) as H2.
  { destruct (fo_open (v_fops v)) as [f|]; [|by injection Ef as _ <-]. destruct (_ && _); [by injection Ef as _ <-|].
    destruct (f _) as [[r' d]|]; [|done]. injection Ef as _ <-. apply steady_drv. }
  destruct (negb (r =? 0)); [|intros [= _ <-]; by etrans].
  destruct (video_put p st2) as [st3|] eqn:Ep; [|done]. intros [= _ <-]. apply steady_put in Ep. by repeat (etrans; [eassumption|]).
Qed.

Lemma steady_close m st ret st' : v4l2_release m st = Some (ret, st') -> steady st st'.
Proof.
  unfold v4l2_release. destruct (video_devdata m st) as [p|]; [|done]. cbn [mbind option_bind].
  destruct (vs_heap st !! p) as [v|]; [|done]. cbn [mbind option_bind].
  destruct (match fo_release (v_fops v) with None => _ | Some _ => _ end) as [st1|] eqn:Ef; [|done].
  cbn [mbind option_bind]. assert (steady st st1) as H1.
  { destruct (fo_release (v_fops v)) as [f|]; [|by injection Ef as <-].
    destruct (f _) as [[r' d]|]; [|done]. injection Ef as <-. apply steady_drv. }
  destruct (video_put p st1) as [st2|] eqn:Ep; [|done]. intros [= _ <-]. apply steady_put in Ep. by etrans.
Qed.

(** A system call; the others hand their call to the driver. *)
Lemma steady_call fixed sig fd m (ev : vevent D) st st' : vs_files st !! fd = Some m ->
  ev = V_poll fd \/ (exists sz, ev = V_read sig fd sz) \/ (exists u r, ev = V_ioctl sig u fd r) \/
  (exists vm, ev = V_mmap sig fd vm) -> vstep fixed ev st = Some st' -> steady st st'.
Proof.
  intros Hf Hev. destruct Hev as [->|[[sz ->]|[(u & r & ->)|[vm ->]]]]; cbn [vstep]; rewrite Hf; cbn [mbind option_bind];
    unfold v4l2_poll, v4l2_read, v4l2_ioctl, v4l2_mmap; (destruct (video_devdata m st) as [p|]; [|done]);
    cbn [mbind option_bind]; (destruct (vs_heap st !! p) as [v|]; [|done]); cbn [mbind option_bind].
  - destruct (fo_poll _) as [f|]; [|by intros [= <-]]. destruct (v_registered v); [|by intros [= <-]].
    destruct (f _) as [[r d]|]; [|done]. intros [= <-]. apply steady_drv.
  - destruct (fo_read _) as [f|]; [|by intros [= <-]]. destruct (locked _ _ _ _ _) as [[[r b] st1]|] eqn:E; [|done].
    intros [= <-]. by eapply steady_locked.
  - destruct (fo_unlocked_ioctl _) as [f|].
    { destruct (locked _ _ _ _ _) as [[[x b] st1]|] eqn:E; [|done]. intros [= <-]. by eapply steady_locked. }
    destruct (fo_ioctl _) as [f|]; [|by intros [= <-]]. destruct (_ && _); [by intros [= <-]|].
    destruct (v_registered v); [|by intros [= <-]]. destruct (f _ _ _ _) as [[[x y] d]|]; [|done].
    intros [= <-]. apply steady_drv.
  - destruct (fo_mmap _) as [f|]; [|by intros [= <-]]. destruct (locked _ _ _ _ _) as [[[r b] st1]|] eqn:E; [|done].
    intros [= <-]. by eapply steady_locked.
Qed.
End Steady.

Lemma program_steady {dev} fixed (ev : vevent (driver dev)) st st' : program ev = true ->
  vstep fixed ev st = Some st' -> steady st st'.
Proof.
  intros Hp E. assert (forall fd, vstep fixed ev st = (m ← vs_files st !! fd; vstep fixed ev st) ->
    exists m, vs_files st !! fd = Some m) as Hfile.
  { intros fd Hb. rewrite Hb in E. destruct (vs_files st !! fd); [eauto|done]. }
  destruct ev as [| | | | sig m | fd | sig fd sz | fd | sig u fd r | sig fd vm]; try done; cbn [vstep] in *.
  - unfold sys_open in E. destruct (v4l2_open sig m st) as [[ret st1]|] eqn:Eo; [|done]. apply steady_open in Eo.
    cbn in E. destruct (ret =? 0); injection E as <-; [|done]. etrans; [exact Eo|apply steady_files].
  - unfold sys_close in E. destruct (vs_files st !! fd) as [m|]; [|done]. cbn [mbind option_bind] in E.
    destruct (v4l2_release _ _) as [[ret st1]|] eqn:Ec; [|done]. injection E as <-. apply steady_close in Ec.
    etrans; [apply (steady_files (delete fd (vs_files st)))|exact Ec].
  - destruct (Hfile fd) as [m Hm]; [by destruct (vs_files st !! fd)|].
    eapply (steady_call fixed sig fd m (V_read sig fd sz)); [done | eauto | exact E].
  - destruct (Hfile fd) as [m Hm]; [by destruct (vs_files st !! fd)|].
    eapply (steady_call fixed false fd m (V_poll fd)); [done | eauto | exact E].
  - destruct (Hfile fd) as [m Hm]; [by destruct (vs_files st !! fd)|].
    eapply (steady_call fixed sig fd m (V_ioctl sig u fd r)); [done | eauto 6 | exact E].
  - destruct (Hfile fd) as [m Hm]; [by destruct (vs_files st !! fd)|].
    eapply (steady_call fixed sig fd m (V_mmap sig fd vm)); [done | eauto 6 | exact E].
Qed.

(** * The invariant is kept *)

Section ModuleInv.
Context {dev : Type} `{UvcStream.UsbLaws dev}.
Context (vmalloc_32 : Z -> option mem) (pas : param_allocs) (stack : mem) (ins : Z -> Z) (fixed : bool).
Implicit Types m : uvc_module dev.

Abbreviation laws := (uvc_laws vmalloc_32 pas stack ins).
Abbreviation inv := (module_inv vmalloc_32 pas stack ins fixed).
Abbreviation allowed := (mallowed vmalloc_32 pas stack ins).
Abbreviation step := (mstep vmalloc_32 pas stack ins fixed).

Lemma inv_udev idVendor cfg (dr : driver dev) : driver_inv dr -> frame_idx cfg = frame_idx (dr_cfg dr) ->
  driver_inv (set_dr_udev idVendor cfg dr).
Proof. intros [] Hc. split; [by rewrite <- di_idx | done..]. Qed.

Lemma numbers_keep cnt b cfg : frame_idx (interface_numbers cnt b cfg) = frame_idx cfg /\
  uvc_version (interface_numbers cnt b cfg) = uvc_version cfg.
Proof. unfold interface_numbers. destruct (cnt =? 1); [done|]. by destruct (cnt =? 2). Qed.

(** A registration keeps the tables of the device. *)
Lemma register_setup {D} env p type nr (st : videodev D) v ret st' : vs_heap st !! p = Some v ->
  __video_register_device fixed env p type nr st = Some (ret, st') -> exists w, vs_heap st' !! p = Some w /\
  v_fops w = v_fops v /\ v_ops w = v_ops v /\ v_release w = v_release v /\ v_lock w = v_lock v.
Proof.
  intros Hv. unfold __video_register_device. rewrite Hv. cbn [mbind option_bind].
  assert (forall r w s, Some (r, put_vdev p w s) = Some (ret, st') -> vs_heap st' !! p = Some w) as Hput.
  { intros r w s [= _ <-]. apply lookup_insert_eq. }
  destruct (v_release (set_minor (-1) v)); [|intros E; by eexists; split; [by eapply Hput|]].
  destruct (negb (_ && _)); [intros E; by eexists; split; [by eapply Hput|]|].
  destruct (minor_range fixed type) as [off cnt]. cbv zeta. set (n := if devnode_find type _ cnt st =? cnt then _ else _).
  destruct (n =? cnt); [intros E; by eexists; split; [by eapply Hput|]|].
  destruct (_ && _); [intros E; by eexists; split; [by eapply Hput|]|].
  destruct (get_index _ _) as [index|]; [|done]. cbn [mbind option_bind]. unfold register_activate, register_cleanup.
  destruct (negb _); [intros E; by eexists; split; [by eapply Hput|]|].
  destruct (_ <? 0); [intros E; by eexists; split; [by eapply Hput|]|].
  destruct (_ <? 0); [intros E; by eexists; split; [by eapply Hput|]|].
  intros [= _ <-]. eexists. split; [apply lookup_insert_eq|done].
Qed.

(** What an event does to the counters and, but for system calls, to the files. *)
Definition moved (ev : mevent (dev := dev)) m m' : Prop :=
  match ev with
  | M_probe _ _ _ _ _ => um_probes m' = um_probes m + 1 /\ um_disconnects m' = um_disconnects m /\
                       vs_files (um_sys m') = vs_files (um_sys m)
  | M_disconnect => um_probes m' = um_probes m /\ um_disconnects m' = um_disconnects m + 1 /\
                    vs_files (um_sys m') = vs_files (um_sys m)
  | _ => um_probes m' = um_probes m /\ um_disconnects m' = um_disconnects m
  end.

Definition well (env : register_env) : Prop :=
  re_cdev_alloc env = true /\ 0 <= re_cdev_add env /\ 0 <= re_device_register env.

(** The device is registered and can be opened. *)
Definition available m : Prop :=
  exists minor, at_minor (myuvc_ioctl_ops vmalloc_32 pas stack) (myuvc_fops ins) minor 1 (um_sys m).

(** The first and the later probes only count and store a number. *)
Lemma probe_other env alloc pa vendor b m : inv m -> um_probes m + 1 <> 2 ->
  exists m', step (M_probe env alloc pa vendor b) m = Some m' /\ inv m' /\ moved (M_probe env alloc pa vendor b) m m'.
Proof.
  intros [Hok Hc Hout Hin] Hn. cbn [mstep]. unfold myuvc_probe. rewrite (proj2 (Z.eqb_neq _ _) Hn).
  eexists. split; [reflexivity|].
  assert (forall n : videodev (driver dev), plugged (mk_module n (um_probes m + 1) (um_disconnects m) (um_vdev m)) <-> plugged m) as Hpl
    by (intros n; unfold plugged; cbn; lia).
  split; [|done]. split; cbn [um_sys um_probes um_disconnects um_vdev snd].
  - apply dev_ok_drv; [done|]. apply inv_udev; [apply (ok_drv _ _ _ _ Hok) | apply numbers_keep].
  - lia.
  - intros Hp. apply Hout. by rewrite <- Hpl.
  - intros Hp%Hpl. by apply Hin.
Qed.

(** In an empty table a camera can be registered. *)
Lemma empty_can_register env v (st : videodev (driver dev)) : dev_ok laws fixed nobody st -> vs_table st = ∅ ->
  is_Some (v_release v) -> well env -> can_register fixed env v VFL_TYPE_GRABBER st.
Proof.
  intros Hok Ht Hr (Ha & Hadd & Hreg). split; try done.
  - exists 0. split; [split; [done|apply range_pos]|]. intros Hx.
    destruct (ok_nums _ _ _ _ Hok _ Hx) as (mn & p & w & Hp & _). by rewrite Ht, lookup_empty in Hp.
  - intros _. exists 0. split; [done|]. by rewrite Ht, lookup_empty.
Qed.

(** The second one registers the device. *)
Lemma probe_second env alloc pa vendor b m : inv m -> allowed m (M_probe env alloc pa vendor b) -> um_probes m + 1 = 2 ->
  exists m', step (M_probe env alloc pa vendor b) m = Some m' /\ inv m' /\ moved (M_probe env alloc pa vendor b) m m' /\
  (well env -> available m').
Proof.
  intros [Hok Hc Hout Hin] [-> Hpa] Hn. cbn [mstep]. unfold myuvc_probe. rewrite Hn. cbn [negb Z.eqb Z.compare].
  change (2 =? 2) with true. cbn iota. set (cfg := interface_numbers 2 b _).
  destruct (numbers_keep 2 b (dr_cfg (vs_drv (um_sys m)))) as [Hidx Hver]. fold cfg in Hidx, Hver.
  set (st0 := set_drv _ _). assert (dev_ok laws fixed nobody st0) as Hok0.
  { apply dev_ok_drv; [done|]. apply inv_udev; [apply (ok_drv _ _ _ _ Hok) | done]. }
  assert (vs_table st0 = ∅) as Ht0 by (apply Hout; unfold plugged; lia).
  set (v := myuvc_vdev vmalloc_32 pas stack ins).
  destruct (alloc_ok laws fixed v st0) as [Hok1 _]; [done | done | by apply uvc_good |].
  destruct (video_device_alloc v st0) as [p st1] eqn:Ea. cbn [snd] in Hok1. injection Ea as Ep E1.
  assert (vs_heap st1 !! p = Some v) as Hv by (rewrite <- E1, Ep; apply lookup_insert_eq).
  assert (vs_table st1 = ∅) as Ht1 by (by rewrite <- E1).
  destruct (register_ok laws fixed env st1 p v VFL_TYPE_GRABBER (-1) Hok1) as (ret & st2 & E2 & Hok2 & Hf & Hd & Hcase);
    [intros mn; by rewrite Ht1, lookup_empty | done | done |].
  rewrite E2. cbn [mbind option_bind].
  destruct (negotiate_total cfg pa (dr_dev (vs_drv st2))) as (params & d & -> & _).
  { unfold pallocs_ok, params_size in *. by rewrite Hver. }
  cbn [mbind option_bind fmap option_fmap option_map snd]. eexists. split; [reflexivity|].
  destruct (register_setup env p _ _ st1 v ret st2 Hv E2) as (w & Hw & W1 & W2 & W3 & W4).
  cbn [snd]. split; [split; cbn [um_sys um_probes um_disconnects um_vdev]|split].
  - apply dev_ok_drv; [done|]. destruct (ok_drv _ _ _ _ Hok2) as [I1 I2 I3 I4]. by split.
  - lia.
  - intros Hp. destruct Hp. unfold plugged. cbn. lia.
  - intros _. exists p, w. split; [done|]. split; [done|]. split; [by split|]. cbn [set_drv vs_table].
    intros mn q. destruct Hcase as [[_ Hra]|[_ Htab]]; [|by rewrite Htab, Ht1, lookup_empty].
    rewrite (ra_table _ _ _ _ _ _ _ Hra), Ht1. intros [[_ <-]|[_ Hq]]%lookup_insert_Some; [|done].
    split; [done|]. destruct (ra_device _ _ _ _ _ _ _ Hra) as (w' & Hw' & Hr & _). congruence.
  - split; [cbn; lia|]. split; [done|]. cbn. rewrite Hf, <- E1. done.
  - intros (Ea & Hadd & Hreg). assert (ret = 0) as E0.
    { rewrite (register_result_eq fixed env st1 p v _ _ ret st2 Hv E2). by apply register_result_ok, empty_can_register. }
    destruct Hcase as [[_ Hra]|]; [|lia].
    destruct (registered_placed laws fixed st1 p v _ _ st2 Hok2 Hra) as [w' [P1 P2 P3 _ _ _ _ _ _ _]].
    assert (w' = w) as -> by congruence. exists (v_minor w), p, w. cbn. split; [by rewrite P3, lookup_insert_eq|].
    split; [done|]. split; [done|]. split; [done|]. split; [done|]. split; [done|].
    destruct (ok_table _ _ _ _ Hok2 (v_minor w) p) as (x & Hx & Hi); [by rewrite P3, lookup_insert_eq|].
    pose proof (it_live _ _ _ _ _ _ Hi). assert (x = w) as -> by congruence. lia.
Qed.

Lemma disconnect_ok m : inv m -> allowed m M_disconnect -> exists m', step M_disconnect m = Some m' /\ inv m' /\ moved M_disconnect m m'.
Proof.
  intros [Hok Hc Hout Hin] [Hlt Hno]. cbn [mstep]. unfold myuvc_disconnect.
  destruct (Z.eqb_spec (um_disconnects m + 1) 2) as [E|Hn].
  2: { eexists. split; [reflexivity|]. split; [|done]. split; cbn; [done | lia | |].
       - intros Hp. apply Hout. unfold plugged in *. cbn in Hp. lia.
       - intros Hp. apply Hin. unfold plugged in *. cbn in Hp. lia. }
  destruct Hin as (p & v & -> & Hv & [_ _ Hrel _] & Htab); [unfold plugged; lia|].
  assert (exists st', unregister_and_free p (um_sys m) = Some st' /\ dev_ok laws fixed nobody st' /\ vs_table st' = ∅ /\
    vs_files st' = vs_files (um_sys m)) as (st' & -> & Hok' & Hempty & Hf).
  { destruct (v_registered v) eqn:Hr.
    - pose proof (ok_reg _ _ _ _ Hok p v Hv Hr) as Hp.
      destruct (unplug_closed laws fixed (um_sys m) (v_minor v) p v (fun dr => Some dr)) as (st' & E' & Hok' & Ht' & Hf);
        try done; [apply Hno; lia|].
      exists st'. split_and!; [done | done | | done]. rewrite Ht'. apply map_empty. intros mn. rewrite lookup_delete_None.
      destruct (vs_table (um_sys m) !! mn) as [q|] eqn:Eq; [left | by right]. destruct (Htab mn q Eq) as [-> _].
      by apply (table_inj laws fixed nobody (um_sys m) (v_minor v) mn p).
    - assert (vs_table (um_sys m) = ∅) as Ht.
      { apply map_empty. intros mn. destruct (vs_table (um_sys m) !! mn) as [q|] eqn:Eq; [|done].
        destruct (Htab mn q Eq). congruence. }
      unfold unregister_and_free, video_unregister_device. rewrite Hv. cbn [mbind option_bind]. rewrite Hr. cbn [negb].
      destruct (free_ok laws fixed p (um_sys m) Hok (mk_is_Some _ _ Hv)) as (st' & E' & Hok' & _);
        [intros mn; by rewrite Ht, lookup_empty|].
      exists st'. split; [done|]. split; [done|]. unfold video_device_release in E'. rewrite Hv in E'. by injection E' as <-. }
  cbn [mbind option_bind]. eexists. split; [reflexivity|]. split; [|done]. split; cbn; [done | lia | done |].
  unfold plugged. cbn. lia.
Qed.

Lemma module_step m ev : inv m -> allowed m ev -> exists m', step ev m = Some m' /\ inv m' /\ moved ev m m'.
Proof.
  intros Hi Ha. destruct ev as [env alloc pa vendor b | | ev | ev].
  - destruct (decide (um_probes m + 1 = 2)); [|by apply probe_other].
    destruct (probe_second env alloc pa vendor b m) as (m' & ? & ? & ? & _); eauto.
  - by apply disconnect_ok.
  - destruct Ha as [Hp Ha]. destruct Hi as [Hok Hc Hout Hin]. cbn [mstep].
    destruct (vevent_ok laws fixed (um_sys m) ev Hok Ha) as (st' & E & Hok' & _). rewrite E. cbn [mbind option_bind].
    eexists. split; [reflexivity|]. split; [|done]. destruct (program_steady fixed ev _ _ Hp E) as [Ht Hh]. split; cbn; [done | done | |].
    + intros Hn. rewrite (Hout Hn) in Ht. apply map_empty. intros mn. destruct (vs_table st' !! mn) as [q|] eqn:Eq; [|done].
      by pose proof (lookup_weaken _ _ _ _ Eq Ht).
    + intros Hn. destruct (Hin Hn) as (p & v & Hq & Hv & [U1 U2 U3 U4] & Htab).
      destruct (Hh p v _ Hv U3) as (w & Hw & [S1 S2 S3 S4 S5]). exists p, w. split_and!; [done | done | |].
      * split; congruence.
      * intros mn q Hmn. rewrite S5. apply (Htab mn). by eapply lookup_weaken.
  - destruct Ha as [_ [He Hs]]. destruct Hi as [Hok Hc Hout Hin]. cbn [mstep].
    destruct (uvc_step ev (vs_drv (um_sys m)) (ok_drv _ _ _ _ Hok) He Hs) as (ret & r & dr & -> & Hd).
    cbn [mbind option_bind]. eexists. split; [reflexivity|]. split; [|done]. split; cbn; [by apply dev_ok_drv | done | done | done].
Qed.

Lemma module_reachable vendor d m : mreachable vmalloc_32 pas stack ins fixed (insmod vendor d) m -> inv m.
Proof.
  induction 1 as [|m ev m' _ IH Ha E].
  - split; cbn; [apply initial_dev_ok, initial_inv | done | done | unfold plugged; cbn; lia].
  - destruct (module_step m ev IH Ha) as (m2 & E2 & Hi & _). congruence.
Qed.
End ModuleInv.

(** * Runs *)

Section Runs.
Context {dev : Type} `{UvcStream.UsbLaws dev}.
Context (vmalloc_32 : Z -> option mem) (pas : param_allocs) (stack : mem) (ins : Z -> Z) (fixed : bool).
Context (vendor : Z) (d : dev).

Abbreviation reach := (mreachable vmalloc_32 pas stack ins fixed (insmod vendor d)).

(** Nothing of the negotiation can be allocated. *)
Definition no_allocs : param_allocs := mk_pallocs false None false.
Definition good_env : register_env := mk_renv true 0 0.
Definition two_buffers : request := VIDIOC_REQBUFS (mk_reqbufs 2 1 1).

Lemma next m ev : reach m -> mallowed vmalloc_32 pas stack ins m ev -> exists m', reach m' /\ moved ev m m'.
Proof.
  intros Hr Ha. destruct (module_step vmalloc_32 pas stack ins fixed m ev) as (m' & E & _ & Hm);
    [by eapply module_reachable | done |]. exists m'. split; [by eapply mreach_step|done].
Qed.

(** The two interfaces are probed: the camera can be used. *)
Lemma run_plug : exists m, reach m /\ um_probes m = 2 /\ um_disconnects m = 0 /\ vs_files (um_sys m) = ∅ /\
  available vmalloc_32 pas stack ins m.
Proof.
  destruct (next (insmod vendor d) (M_probe good_env true no_allocs vendor 0)) as (m1 & R1 & P1 & D1 & F1); [constructor | done |].
  cbn in P1, D1, F1. destruct (probe_second vmalloc_32 pas stack ins fixed good_env true no_allocs vendor 1 m1)
    as (m2 & E & _ & (P2 & D2 & F2) & Ha); [by eapply module_reachable | done | lia |].
  exists m2. split; [by eapply (mreach_step _ _ _ _ _ _ m1 (M_probe good_env true no_allocs vendor 1))|].
  split_and!; [lia | lia | congruence | by apply Ha].
Qed.

(** It is unplugged and plugged in again. *)
Lemma run_replug : exists m, reach m /\ um_probes m = 4 /\ um_disconnects m = 2.
Proof.
  destruct run_plug as (m2 & R2 & P2 & D2 & F2 & _).
  destruct (next m2 M_disconnect R2) as (m3 & R3 & P3 & D3 & F3); [cbn; split; lia|].
  destruct (next m3 M_disconnect R3) as (m4 & R4 & P4 & D4 & F4); [cbn; split; [lia|congruence]|].
  destruct (next m4 (M_probe good_env true no_allocs vendor 0) R4) as (m5 & R5 & P5 & D5 & _); [done|].
  destruct (next m5 (M_probe good_env true no_allocs vendor 1) R5) as (m6 & R6 & P6 & D6 & _); [done|].
  exists m6. split; [done|]. lia.
Qed.

(** The first interface goes away: the device is still there. *)
Lemma run_half : exists m, reach m /\ um_probes m = 2 /\ um_disconnects m = 1 /\ vs_files (um_sys m) = ∅ /\
  vs_table (um_sys m) <> ∅.
Proof.
  destruct run_plug as (m & R & P & D & F & minor & Hav).
  exists (mk_module (um_sys m) 2 1 (um_vdev m)). split; [|split_and!; try done].
  - eapply (mreach_step _ _ _ _ _ _ m M_disconnect); [done | cbn; split; lia|].
    cbn. unfold myuvc_disconnect. by rewrite P, D.
  - cbn. intros Ht. destruct Hav as (p & v & Hp & _). by rewrite Ht, lookup_empty in Hp.
Qed.

(** A program has it open while the first interface goes away. *)
Lemma run_in_use : exists m fd minor, reach m /\ um_probes m = 2 /\ um_disconnects m = 1 /\
  vs_files (um_sys m) !! fd = Some minor.
Proof.
  destruct run_plug as (m2 & R2 & P2 & D2 & F2 & minor & Hav).
  destruct (open_sim (myuvc_ioctl_ops vmalloc_32 pas stack) (myuvc_fops ins) plain_memory minor
    (fun _ => 0) (mk_app_sys (um_sys m2) None) (vs_drv (um_sys m2)) some_fd (vs_drv (um_sys m2)))
    as (fd' & s1 & Eo & _ & _ & _ & fd & Hfd & Hfile); [done | done |].
  assert (exists ret, sys_open false minor (um_sys m2) = Some (ret, fd, as_sys s1)) as [ret Es].
  { cbn in Eo. destruct (sys_open false minor (um_sys m2)) as [[[ret f] st]|]; [|done]. cbn [mbind option_bind] in Eo.
    exists ret. destruct (ret =? 0); injection Eo as _ <-; [by injection Hfd as ->|done]. }
  set (m4 := set_um_sys (as_sys s1) m2).
  assert (reach m4) as R4.
  { eapply (mreach_step _ _ _ _ _ _ m2 (M_program (V_open false minor))); [done | done |]. cbn. by rewrite Es. }
  destruct (next m4 M_disconnect R4) as (m5 & R5 & P5 & D5 & F5); [cbn; split; lia|].
  exists m5, fd, minor. split; [done|]. cbn in P5, D5, F5. rewrite F5. split_and!; [lia | lia | done].
Qed.
End Runs.

(** * Properties *)

(** C2. The UVC driver in the kernel. From [insmod] and over any sequence of probes,
    disconnects, system calls of any number of programs, completed URBs and changes
    of mappings that [mallowed] admits, every call comes to its end without a fault;
    the only video device is the one [probe] made, it has the tables of the driver, and
    it is there only while the camera is plugged in. [mallowed] asks the following.
    The video device can be allocated, and allocators give blocks of the size asked
    for. A disconnect is for a probed interface, and the second one comes when no
    program has the camera open. A program names an open file and asks for at most 32
    buffers; indices are unsigned, areas lie in the address space, the stack buffer of
    a control has its two bytes; there are buffers when it calls DQBUF or poll. A
    mapping that is opened or closed is of one of the 32 buffers. The packets of a completed URB lie in its
    transfer buffer; for vendor 0x1B3B the block for the repair is allocated; and
    when the status is 0, a buffer is queued for every packet that needs one (C13 says
    that without it the handler faults). *)
Theorem uvc_module_safe {dev} `{UvcStream.UsbLaws dev} vmalloc_32 pas stack ins fixed vendor (d : dev) m ev :
  mreachable vmalloc_32 pas stack ins fixed (insmod vendor d) m -> mallowed vmalloc_32 pas stack ins m ev ->
  (exists m', mstep vmalloc_32 pas stack ins fixed ev m = Some m') /\ driver_inv (vs_drv (um_sys m)) /\
  (forall minor p, vs_table (um_sys m) !! minor = Some p -> plugged m /\ um_vdev m = Some p /\
     exists v, vs_heap (um_sys m) !! p = Some v /\ uvc_device vmalloc_32 pas stack ins v /\ v_minor v = minor).
Proof.
  intros Hr Ha. pose proof (module_reachable _ _ _ _ _ _ _ _ Hr) as Hi. destruct Hi as [Hok Hc Hout Hin] eqn:Ei. clear Ei.
  destruct (module_step _ _ _ _ _ m ev Hi Ha) as (m' & E & _). split; [by exists m'|].
  split; [apply (ok_drv _ _ _ _ Hok)|]. intros minor p Hp.
  destruct (decide (plugged m)) as [Hpl|Hpl]; [|by rewrite (Hout Hpl), lookup_empty in Hp].
  destruct (Hin Hpl) as (q & v & Hq & Hv & Hud & Htab). destruct (Htab minor p Hp) as [-> _]. split_and!; [done | done |].
  exists v. split_and!; [done | done |]. destruct (ok_table _ _ _ _ Hok minor q Hp) as (w & Hw & Hit).
  assert (w = v) as -> by congruence. apply (it_minor _ _ _ _ _ _ Hit).
Qed.

Lemma uvc_module_safe_witness :
  (exists m m', um_probes m = 2 /\ um_disconnects m = 1 /\ vs_table (um_sys m) <> ∅ /\
     mstep small_vmalloc no_allocs [0; 0] (fun _ => 0) false M_disconnect m = Some m') /\
  (exists m fd minor m', vs_files (um_sys m) !! fd = Some minor /\
     mstep small_vmalloc no_allocs [0; 0] (fun _ => 0) false (M_program (V_ioctl false plain_memory fd two_buffers)) m = Some m').
Proof.
  split.
  - destruct (run_half small_vmalloc no_allocs [0; 0] (fun _ => 0) false 0x046D (sim_idle 20)) as (m & Hr & Hp & Hd & Hf & Ht).
    destruct (uvc_module_safe small_vmalloc no_allocs [0; 0] (fun _ => 0) false 0x046D (sim_idle 20) m M_disconnect Hr)
      as [[m' E] _]; [cbn; split; [lia|done]|]. by exists m, m'.
  - destruct (run_in_use small_vmalloc no_allocs [0; 0] (fun _ => 0) false 0x046D (sim_idle 20)) as (m & fd & minor & Hr & _ & _ & Hf).
    destruct (uvc_module_safe small_vmalloc no_allocs [0; 0] (fun _ => 0) false 0x046D (sim_idle 20) m
      (M_program (V_ioctl false plain_memory fd two_buffers)) Hr) as [[m' E] _]; [|by exists m, fd, minor, m'].
    split; [done|]. split; [by exists minor|]. split; [|done]. split; [apply small_vmalloc_ok|done].
Defined.

(** C38. A camera that is unplugged while a program has it open. In every state that can
    be reached with C2's environment, one interface gone and a file open, the second
    [disconnect] frees the video device although the file still refers to it: [close],
    and each of ioctl, poll, read and mmap for the file, then uses freed memory, and
    so does opening the same minor again. *)
Theorem uvc_unplugged_in_use {dev} `{UvcStream.UsbLaws dev} vmalloc_32 pas stack ins fixed vendor (d : dev) m fd minor :
  mreachable vmalloc_32 pas stack ins fixed (insmod vendor d) m -> um_disconnects m = 1 ->
  vs_files (um_sys m) !! fd = Some minor ->
  exists m', myuvc_disconnect m = Some m' /\ sys_close fd (um_sys m') = None /\
  (forall sig u r, v4l2_ioctl sig u minor r (um_sys m') = None) /\ v4l2_poll minor (um_sys m') = None /\
  (forall sig sz, v4l2_read sig minor sz (um_sys m') = None) /\
  (forall sig vm, v4l2_mmap sig minor vm (um_sys m') = None) /\
  (forall sig, v4l2_open sig minor (um_sys m') = None).
Proof.
  intros Hr Hd Hfd. pose proof (module_reachable _ _ _ _ _ _ _ _ Hr) as [Hok Hc Hout Hin].
  destruct (ok_files _ _ _ _ Hok fd minor Hfd) as [p Hp].
  destruct (decide (plugged m)) as [Hpl|Hpl]; [|by rewrite (Hout Hpl), lookup_empty in Hp].
  destruct (Hin Hpl) as (q & v & Hq & Hv & _ & Htab). destruct (Htab minor p Hp) as [-> _].
  destruct (unplug_open _ fixed (um_sys m) minor q v fd Hok Hp Hv Hfd) as (st' & E & Hrest).
  exists (mk_module st' (um_probes m) 2 (Some q)). split; [|done].
  unfold myuvc_disconnect. rewrite Hd, Hq, E. done.
Qed.

Lemma uvc_unplugged_in_use_witness : exists (m m' : uvc_module sim_usb) fd,
  myuvc_disconnect m = Some m' /\ sys_close fd (um_sys m') = None.
Proof.
  destruct (run_in_use small_vmalloc no_allocs [0; 0] (fun _ => 0) false 0x046D (sim_idle 20))
    as (m & fd & minor & Hr & Hp & Hd & Hf).
  destruct (uvc_unplugged_in_use small_vmalloc no_allocs [0; 0] (fun _ => 0) false 0x046D (sim_idle 20) m fd minor Hr Hd Hf)
    as (m' & E & Ec & _). by exists m, m', fd.
Defined.

(** C39. A camera that is plugged in again. The counters of [probe] and [disconnect] are
    never reset: once the camera has been unplugged no later probe registers a device,
    and opening any minor gives -ENODEV for good. This is with the environment of C2:
    no program had the camera open when its second interface went away, after which
    an open would use freed memory (C38). *)
Theorem uvc_replugged {dev} `{UvcStream.UsbLaws dev} vmalloc_32 pas stack ins fixed vendor (d : dev) m sig minor :
  mreachable vmalloc_32 pas stack ins fixed (insmod vendor d) m -> 2 <= um_disconnects m ->
  vs_table (um_sys m) = ∅ /\ v4l2_open sig minor (um_sys m) = Some (- ENODEV, um_sys m) /\
  forall ev m', mstep vmalloc_32 pas stack ins fixed ev m = Some m' -> mallowed vmalloc_32 pas stack ins m ev ->
    vs_table (um_sys m') = ∅.
Proof.
  intros Hr Hd. pose proof (module_reachable _ _ _ _ _ _ _ _ Hr) as Hi.
  assert (vs_table (um_sys m) = ∅) as Ht by (apply (mi_out _ _ _ _ _ _ Hi); unfold plugged; lia).
  split; [done|]. split; [unfold v4l2_open, video_devdata; by rewrite Ht, lookup_empty|].
  intros ev m' E Ha. destruct (module_step _ _ _ _ _ m ev Hi Ha) as (m2 & E2 & Hi2 & Hm).
  assert (m2 = m') as -> by congruence. apply (mi_out _ _ _ _ _ _ Hi2). unfold plugged, moved in *.
  destruct ev; lia.
Qed.

Lemma uvc_replugged_witness : exists m : uvc_module sim_usb, um_probes m = 4 /\
  v4l2_open false 0 (um_sys m) = Some (- ENODEV, um_sys m).
Proof.
  destruct (run_replug small_vmalloc no_allocs [0; 0] (fun _ => 0) false 0x046D (sim_idle 20)) as (m & Hr & Hp & Hd).
  exists m. split; [done|].
  apply (uvc_replugged small_vmalloc no_allocs [0; 0] (fun _ => 0) false 0x046D (sim_idle 20) m false 0 Hr). lia.
Defined.
