(* ===== verification/AppDrivers.v ===== *)
(** The video2lcd program on the drivers of the repository: the UVC camera driver
    ([src/myuvc/10_th]), the virtual camera ([src/myvivi]) and the CMOS camera
    driver ([src/CMOS/5_th]), each registered with the video core and reached by
    system calls. *)
From S2P Require Import Prelude V4l2 V4l2Ioctl VideoDev PicOps Disp PicFmt Float32 Convert.
From S2P Require Import UvcParams UvcQueue UvcDecode UvcStream UvcDriver.
From S2P Require Import Videobuf Vivi Cmos VideoApp SysNode DriverTables.
Open Scope Z_scope.

(** * The functions of the drivers as nodes *)

Definition uvc_node {dev} `{UvcStream.UsbCore dev} vmalloc_32 pa stack place ins : CaptureSetup (driver dev) :=
  table_node (myuvc_ioctl_ops vmalloc_32 pa stack) (myuvc_fops ins) place.
Definition vivi_node alloc kz vm remap nonblock place : CaptureSetup vivi :=
  table_node (myvivi_ioctl_ops alloc nonblock) (myvivi_fops alloc kz vm remap) place.
Definition cmos_node `{PageOps} ubuf place : CaptureSetup cmos :=
  table_node cmos_ov7740_ioctl_ops (cmos_ov7740_fops ubuf) place.

(** Calls of the nodes as calls of the functions of the drivers. *)
Ltac through_table :=
  cbn [io_s_fmt io_reqbufs io_querybuf io_mmap io_close uvc_node vivi_node cmos_node table_node direct uvc_entry
       myuvc_ioctl_ops myuvc_fops uvc_call myvivi_ioctl_ops myvivi_fops cmos_ov7740_ioctl_ops cmos_ov7740_fops
       vidioc_s_fmt_vid_cap vidioc_reqbufs vidioc_querybuf fo_release fo_mmap UvcDriver.handle fd_pixelformat
       myvivi_format app_area va_flags va_start va_pgoff].

(** * The program does not start *)

(** [V4l2InitDevice] on a device whose first format is known to the program, up to
    the request for buffers. *)
Lemma init_prefix {node} `{CaptureSetup node} fuel malloc lw lh d s s1 s2 caps f f' :
  io_open s = Some (some_fd, s1) -> io_querycap s1 = Some (0, caps, s1) ->
  bit_set caps V4L2_CAP_VIDEO_CAPTURE = true ->
  io_enum_fmt (app_fmtdesc 0) s1 = Some (0, f, s1) -> In (fd_pixelformat f) g_aiSupportedFormats ->
  io_s_fmt (app_format (fd_pixelformat f) (u32 lw) (u32 lh)) s1 = Some (0, f', s2) ->
  let d1 := set_vd_size (s32 (pix_width (fmt_pix f'))) (s32 (pix_height (fmt_pix f')))
              (set_vd_format (fd_pixelformat f) d) in
  V4l2InitDevice (S fuel) malloc lw lh d s =
  ('(iError, req, s) ← io_reqbufs app_reqbufs s2;
   if negb (iError =? 0) then err_exit d1 s
   else setup_buffers malloc caps (set_vd_cnt (s32 (rb_count req)) d1) s).
Proof.
  intros E1 E2 Hcap E3 Hf E4 d1. unfold V4l2InitDevice. rewrite E1. cbn [mbind option_bind].
  change (some_fd <? 0) with false. cbn iota. rewrite E2. cbn [mbind option_bind]. rewrite E2.
  cbn [mbind option_bind negb Z.eqb]. rewrite Hcap. cbn [negb enum_loop]. rewrite E3.
  cbn [mbind option_bind negb Z.eqb].
  assert (isSupportThisFormat (fd_pixelformat f) = 1 /\ (fd_pixelformat f =? 0) = false) as [-> Ez]
    by (destruct Hf as [<- | [<- | [<- | []]]]; done).
  cbn [negb Z.eqb mbind option_bind].
  change (vd_iPixelFormat (set_vd_format (fd_pixelformat f) d)) with (fd_pixelformat f).
  rewrite Ez, E4. done.
Qed.

(** REQBUFS of the UVC driver gives the number of buffers, or an error, and never
    0 for a request of four. *)
Lemma uvc_not_started {dev} `{UvcStream.UsbCore dev} vmalloc_32 pa stack place ins fuel malloc lw lh d
    (dr : driver dev) : driver_inv dr -> vmalloc_ok vmalloc_32 ->
  exists d' dr', @V4l2InitDevice _ (uvc_node vmalloc_32 pa stack place ins) (S fuel) malloc lw lh d dr
                 = Some (-1, d', dr').
Proof.
  intros Hinv Hv.
  assert (exists f', @io_s_fmt _ (uvc_node vmalloc_32 pa stack place ins) (app_format V4L2_PIX_FMT_MJPEG (u32 lw) (u32 lh)) dr
    = Some (0, f', set_dr_format f' dr) /\ pix_sizeimage (fmt_pix f') = frame_size_max) as (f' & E & Hsize).
  { through_table. unfold UvcDriver.handle, myuvc_vidioc_s_fmt_vid_cap, myuvc_vidioc_try_fmt_vid_cap.
    cbn [app_format fmt_type fmt_pix pix_pixelformat]. rewrite !Z.eqb_refl, (di_idx _ Hinv).
    by eexists. }
  rewrite (@init_prefix _ (uvc_node vmalloc_32 pa stack place ins) fuel malloc lw lh d dr dr (set_dr_format f' dr)
    (Z.lor V4L2_CAP_VIDEO_CAPTURE V4L2_CAP_STREAMING)
    (mk_fmtdesc 0 V4L2_BUF_TYPE_VIDEO_CAPTURE 0 "MJPEG" V4L2_PIX_FMT_MJPEG) f');
    [| done | done | done | done | right; left; done | exact E].
  through_table.
  destruct (reqbufs_cases vmalloc_32 f' app_reqbufs (dr_queue dr) Hv (di_queue _ Hinv)) as (r & q & Er & Hr);
    [right; rewrite Hsize; by vm_compute | by vm_compute |].
  change (dr_format (set_dr_format f' dr)) with f'. change (dr_queue (set_dr_format f' dr)) with (dr_queue dr).
  rewrite Er. cbn [mbind option_bind].
  assert (sysret r <> 0) as Hne.
  { unfold sysret. destruct Hr as [[[[? _]|[_ ->]] _]|(n & m & -> & Hn & _)]; [done | done |].
    destruct (Z.ltb_spec (Z.of_nat n) 0); lia. }
  rewrite (proj2 (Z.eqb_neq _ 0) Hne). cbn [negb]. unfold err_exit. through_table.
  unfold uvc_call. cbn [UvcDriver.handle]. destruct (myuvc_close _ _ _) as [[rc qc] dc]. cbn [mbind option_bind].
  by eexists _, _.
Qed.

(** The CMOS driver's REQBUFS fails on every path. *)
Lemma cmos_not_started `{PageLaws} ubuf place fuel malloc lw lh d s :
  length (img_buff s) = 4%nat -> pages s !! 0 = None ->
  exists d' s', @V4l2InitDevice _ (cmos_node ubuf place) (S fuel) malloc lw lh d s = Some (-1, d', s').
Proof.
  intros Hl Hz. destruct (cmos_ov7740_vidioc_s_fmt_vid_cap (app_format V4L2_PIX_FMT_RGB565 (u32 lw) (u32 lh)) s)
    as [[s1 f1] r1] eqn:E.
  assert (r1 = 0 /\ img_buff s1 = img_buff s /\ pages s1 = pages s) as (-> & Ei & Ep).
  { unfold cmos_ov7740_vidioc_s_fmt_vid_cap, cmos_ov7740_vidioc_try_fmt_vid_cap in E.
    cbn [app_format fmt_type fmt_pix pix_pixelformat] in E. rewrite !Z.eqb_refl in E. cbn in E.
    by injection E as <- <- <-. }
  rewrite (@init_prefix _ (cmos_node ubuf place) fuel malloc lw lh d s s s1
    (Z.lor V4L2_CAP_VIDEO_CAPTURE V4L2_CAP_READWRITE)
    (mk_fmtdesc 0 V4L2_BUF_TYPE_VIDEO_CAPTURE 0 "RGB565" V4L2_PIX_FMT_RGB565) f1);
    [| done | done | done | done | do 2 right; left; done | through_table; by rewrite E].
  through_table. destruct (reqbufs_run s1) as (s2 & -> & _); [congruence | congruence |].
  by eexists _, _.
Qed.

(** ** The virtual camera *)

Lemma setup_total alloc bsize memory : forall todo i q, (i + todo <= length (q_bufs q))%nat ->
  exists r, setup_loop todo i alloc bsize memory q = Some r.
Proof.
  induction todo as [|todo IH]; intros i q Hl; [by eexists|]. cbn [setup_loop].
  rewrite decide_True by lia. destruct (alloc i); [|by eexists]. apply IH. rewrite put_buf_length. lia.
Qed.

(** The queue of a file that was just opened, with the buffers [l]. *)
Definition opened_queue (l : list (option videobuf_buffer)) : videobuf_queue :=
  set_bufs l (myvivi_vb_vidqueue (myvivi_open myvivi_init)).

(** Fresh buffers can be freed. *)
Lemma fresh_free l k bsize memory : fresh_bufs k bsize memory (opened_queue l) ->
  exists q, videobuf_free (opened_queue l) = Some (0, q).
Proof.
  intros Hf. unfold videobuf_free. change (q_streaming (opened_queue l) || q_reading (opened_queue l)) with false.
  cbn iota. change (q_bufs (opened_queue l)) with l. destruct (existsb is_mapped l) eqn:E; [|by eexists].
  apply existsb_exists in E as (b & (i & Hi)%list_elem_of_In%list_elem_of_lookup & Hb). destruct b as [b|]; [|done].
  specialize (Hf i). unfold buf_at in Hf. change (q_bufs (opened_queue l)) with l in Hf. rewrite Hi in Hf.
  cbn in Hf. destruct (decide (i < k)%nat); [|done]. by injection Hf as ->.
Qed.

(** Closing the file frees them. *)
Lemma fresh_close f l k bsize memory : fresh_bufs k bsize memory (opened_queue l) ->
  exists s, myvivi_close (mk_vivi f (opened_queue l)) = Some s.
Proof.
  intros Hf. destruct (fresh_free l k bsize memory Hf) as [q E]. unfold myvivi_close.
  change (videobuf_stop (myvivi_vb_vidqueue (mk_vivi f (opened_queue l)))) with (Some (opened_queue l)).
  cbn [mbind option_bind]. unfold videobuf_mmap_free. rewrite E. by eexists.
Qed.

Lemma opened_free : videobuf_free (opened_queue (replicate 32 None)) =
  Some (0, opened_queue (replicate 32 None)).
Proof.
  unfold videobuf_free, free_all, Videobuf.linked. cbn [opened_queue set_bufs q_streaming q_reading orb].
  change (existsb is_mapped _) with false. cbn iota. by rewrite !bool_decide_eq_false_2 by (intros []%Exists_nil).
Qed.

(** REQBUFS just after opening. *)
Lemma fresh_reqbufs alloc f : let ops := myvivi_video_qops f in
  exists r c l k size, videobuf_reqbufs alloc app_reqbufs (opened_queue (replicate 32 None)) =
    Some (r, c, opened_queue l) /\ fresh_bufs k size V4L2_MEMORY_MMAP (opened_queue l) /\
  (r < 0 \/ r = 0 /\ c = Z.of_nat k /\ (0 < k <= 4)%nat).
Proof.
  intros ops. set (size := pix_sizeimage (fmt_pix f)).
  destruct (setup_total alloc size V4L2_MEMORY_MMAP 4 0 (opened_queue (replicate 32 None))) as [[k q] E];
    [cbn; lia|].
  pose proof E as E'. apply setup_loop_spec in E' as (Hk & Hf & _ & l & ->);
    [| cbn; lia | intros i; unfold buf_at; cbn [opened_queue set_bufs q_bufs]].
  2: { destruct (decide (i < 0)%nat); [lia|]. destruct (replicate 32 None !! i) as [[|]|] eqn:Er; try done.
       by apply lookup_replicate in Er as [? _]. }
  assert (videobuf_reqbufs alloc app_reqbufs (opened_queue (replicate 32 None)) =
    ('(i, q) ← setup_loop 4 0 alloc size V4L2_MEMORY_MMAP (opened_queue (replicate 32 None));
     '(retval, q) ← (if decide (i = 0%nat) then Some (- ENOMEM, q) else Some (Z.of_nat i, q));
     if retval <? 0 then Some (retval, 4, q) else Some (0, retval, q))) as ->.
  { change (videobuf_reqbufs alloc app_reqbufs (opened_queue (replicate 32 None))) with
      ('(retval, q) ← videobuf_mmap_setup alloc 4 size V4L2_MEMORY_MMAP (opened_queue (replicate 32 None));
       if retval <? 0 then Some (retval, 4, q) else Some (0, retval, q)).
    unfold videobuf_mmap_setup. rewrite opened_free. cbn [mbind option_bind negb Z.eqb].
    change (Z.to_nat 4) with 4%nat. by destruct (setup_loop _ _ _ _ _ _) as [[]|]. }
  rewrite E. cbn [mbind option_bind]. destruct (decide (k = 0%nat)); cbn [mbind option_bind].
  - eexists _, _, l, k, size. split; [reflexivity|]. split; [done|]. left. done.
  - rewrite (proj2 (Z.ltb_ge _ _)) by lia. eexists _, _, l, k, size. split; [reflexivity|].
    split; [done|]. right. split_and!; [done | done | lia | lia].
Qed.

(** The virtual camera grants buffers, but it maps them only for writing, which
    the program does not ask for. *)
Lemma vivi_not_started alloc kz vm remap nonblock place fuel malloc lw lh d :
  length (pucVideBuf d) = 4%nat ->
  exists d' s', @V4l2InitDevice _ (vivi_node alloc kz vm remap nonblock place) (S fuel) malloc lw lh d myvivi_init
                = Some (-1, d', s').
Proof.
  intros Hl. destruct (myvivi_vidioc_s_fmt_vid_cap (app_format V4L2_PIX_FMT_YUYV (u32 lw) (u32 lh))
    (myvivi_open myvivi_init)) as [[[r f] s1]|] eqn:E; [|done].
  assert (r = 0 /\ s1 = mk_vivi f (myvivi_vb_vidqueue (myvivi_open myvivi_init))) as [-> ->].
  { unfold myvivi_vidioc_s_fmt_vid_cap, myvivi_vidioc_try_fmt_vid_cap in E.
    cbn [app_format fmt_pix pix_pixelformat pix_field] in E. rewrite !Z.eqb_refl in E. cbn [negb andb] in E.
    unfold v4l_bound_align_image in E. change (0 =? 0) with true in E. cbn iota in E.
    cbn [mbind option_bind Z.ltb Z.compare] in E. by injection E as <- <- <-. }
  rewrite (@init_prefix _ (vivi_node alloc kz vm remap nonblock place) fuel malloc lw lh d myvivi_init
    (myvivi_open myvivi_init) (mk_vivi f (myvivi_vb_vidqueue (myvivi_open myvivi_init)))
    (Z.lor V4L2_CAP_VIDEO_CAPTURE V4L2_CAP_STREAMING)
    (mk_fmtdesc 0 V4L2_BUF_TYPE_VIDEO_CAPTURE 0 "4:2:2, packed, YUYV" V4L2_PIX_FMT_YUYV) f);
    [| done | done | done | done | by left | through_table; by rewrite E].
  clear E. through_table.
  change (myvivi_vb_vidqueue (mk_vivi f _)) with (opened_queue (replicate 32 None)).
  destruct (fresh_reqbufs alloc f) as (r & c & l & k & size & -> & Hf & Hr). cbn [mbind option_bind].
  destruct (fresh_close f l k size V4L2_MEMORY_MMAP Hf) as [s' Ec].
  assert (forall d', exists d'' s'', @err_exit _ (vivi_node alloc kz vm remap nonblock place) d'
    (Vivi.set_queue (opened_queue l) (mk_vivi f (myvivi_vb_vidqueue (myvivi_open myvivi_init)))) =
    Some (-1, d'', s'')) as Herr.
  { intros d'. unfold err_exit. through_table. unfold Vivi.set_queue. cbn [myvivi_format].
    rewrite Ec. by eexists _, _. }
  destruct Hr as [Hr | (-> & -> & Hk)].
  { unfold sysret. rewrite (proj2 (Z.ltb_lt _ _)) by done. apply Herr. }
  cbn [negb Z.eqb sysret Z.ltb Z.compare]. unfold setup_buffers. change (bit_set _ V4L2_CAP_STREAMING) with true.
  cbn iota. cbn [set_vd_cnt set_vd_size set_vd_format iVideoBufCnt rb_count]. rewrite s32_small by (split; lia).
  rewrite Nat2Z.id. destruct k as [|k]; [lia|]. cbn [map_loop io_querybuf vivi_node table_node direct myvivi_ioctl_ops myvivi_fops vidioc_s_fmt_vid_cap vidioc_reqbufs vidioc_querybuf fo_release fo_mmap].
  unfold videobuf_querybuf. cbn [vb_type vb_index app_buf myvivi_vb_vidqueue Vivi.set_queue].
  change (q_type (opened_queue l)) with V4L2_BUF_TYPE_VIDEO_CAPTURE. rewrite Z.eqb_refl.
  change (Z.of_nat 0 >=? VIDEO_MAX_FRAME) with false. cbn [negb]. rewrite Nat2Z.id, (Hf 0%nat), decide_True by lia.
  change (sysret 0) with 0. cbn [mbind option_bind negb Z.eqb io_mmap vivi_node table_node direct myvivi_ioctl_ops myvivi_fops vidioc_s_fmt_vid_cap vidioc_reqbufs vidioc_querybuf fo_release fo_mmap]. unfold videobuf_mmap_mapper.
  change (bit_set app_vm_flags VM_WRITE) with false. cbn [negb orb]. change (- EINVAL <? 0) with true.
  cbn iota. cbn [mbind option_bind]. unfold put_vptr.
  cbn [pucVideBuf set_vd_cnt set_vd_size set_vd_format]. rewrite Hl, decide_True by lia.
  cbn [mbind option_bind negb]. apply Herr.
Qed.

(** C37. The program starts on none of the three drivers of the repository, however
    large the screen is, whatever the allocators answer and whatever the device
    structure held. Each driver is registered at a minor, and the program reaches it
    by system calls, through the registrar and the dispatcher of requests. The UVC
    driver's REQBUFS returns the number of buffers, which the program takes for an
    error; the virtual camera's [mmap] refuses a mapping that is not for writing; the
    CMOS driver's REQBUFS always fails. *)
Theorem drivers_not_started {dev} `{UvcStream.UsbCore dev} `{PageLaws} vmalloc_32 pa stack ins alloc kz vm remap
    nonblock ubuf place u minor fuel malloc lw lh d
    (su : videodev (driver dev)) (sv : videodev vivi) (sc : videodev cmos) :
  memory_ok u -> length (pucVideBuf d) = 4%nat ->
  at_minor (myuvc_ioctl_ops vmalloc_32 pa stack) (myuvc_fops ins) minor 1 su ->
  driver_inv (vs_drv su) -> vmalloc_ok vmalloc_32 ->
  at_minor (myvivi_ioctl_ops alloc nonblock) (myvivi_fops alloc kz vm remap) minor 1 sv -> vs_drv sv = myvivi_init ->
  at_minor cmos_ov7740_ioctl_ops (cmos_ov7740_fops ubuf) minor 1 sc ->
  length (img_buff (vs_drv sc)) = 4%nat -> pages (vs_drv sc) !! 0 = None ->
  let starts {D} (st : videodev D) := @V4l2InitDevice _ (sys_node u minor place) (S fuel) malloc lw lh d (mk_app_sys st None) in
  (exists d' s', starts su = Some (-1, d', s')) /\ (exists d' s', starts sv = Some (-1, d', s')) /\
  (exists d' s', starts sc = Some (-1, d', s')).
Proof.
  intros Hu Hd Hsu Hdr Hv Hsv Hvivi Hsc Hc Hp. cbv zeta. split_and!.
  - destruct (uvc_not_started vmalloc_32 pa stack place ins fuel malloc lw lh d (vs_drv su) Hdr Hv) as (d' & dr' & E).
    destruct (init_sim _ _ u minor place (uvc_driver _ _ _ _) Hu (S fuel) malloc lw lh d (mk_app_sys su None) _ _ _ _
      (conj eq_refl Hsu) E) as (s' & E' & _). by exists d', s'.
  - destruct (vivi_not_started alloc kz vm remap nonblock place fuel malloc lw lh d Hd) as (d' & v' & E).
    destruct (init_sim _ _ u minor place (vivi_driver _ _ _ _ _) Hu (S fuel) malloc lw lh d (mk_app_sys sv None) _ _ _ _
      (conj Hvivi Hsv) E) as (s' & E' & _). by exists d', s'.
  - destruct (cmos_not_started ubuf place fuel malloc lw lh d (vs_drv sc) Hc Hp) as (d' & c' & E).
    destruct (init_sim _ _ u minor place (cmos_driver _) Hu (S fuel) malloc lw lh d (mk_app_sys sc None) _ _ _ _
      (conj eq_refl Hsc) E) as (s' & E' & _). by exists d', s'.
Qed.

(** A system in which a driver has registered its device. *)
Definition loaded {D} (ops : v4l2_ioctl_ops D) (fops : v4l2_file_operations D) (rel : release_fn D) (d : D) : videodev D :=
  let '(p, st) := video_device_alloc (new_vdev fops (Some ops) (Some rel) None false) (initial_videodev d) in
  default st (snd <$> __video_register_device false (mk_renv true 0 0) p VFL_TYPE_GRABBER (-1) st).

Lemma loaded_at {D} ops fops rel (d : D) : at_minor ops fops 0 1 (loaded ops fops rel d) /\
  vs_drv (loaded ops fops rel d) = d.
Proof. split; [|by vm_compute]. by eexists _, _; vm_compute. Qed.

Lemma drivers_not_started_witness :
  let starts {D} (st : videodev D) := @V4l2InitDevice _ (sys_node plain_memory 0 (fun _ => 4096)) 1 zero_malloc 480 272
    stack_dev (mk_app_sys st None) in
  let su := loaded (myuvc_ioctl_ops small_vmalloc (mk_pallocs true None true) [0; 0]) (myuvc_fops (fun _ => 0))
              myuvc_release (initial_driver 0x046D (sim_idle 20)) in
  let sv := loaded (myvivi_ioctl_ops (fun _ => true) false) (myvivi_fops (fun _ => true) None None 0) myvivi_release
              myvivi_init in
  let sc := loaded cmos_ov7740_ioctl_ops (cmos_ov7740_fops []) cmos_release (cmos_start (fun _ => 0)) in
  (exists d' s', starts su = Some (-1, d', s')) /\ (exists d' s', starts sv = Some (-1, d', s')) /\
  (exists d' s', starts sc = Some (-1, d', s')).
Proof.
  intros starts su sv sc. apply (drivers_not_started small_vmalloc (mk_pallocs true None true) [0; 0] (fun _ => 0)
    (fun _ => true) None None 0 false [] (fun _ => 4096) plain_memory 0 0 zero_malloc 480 272 stack_dev su sv sc);
    unfold su, sv, sc; try rewrite (proj2 (loaded_at _ _ _ _)); try apply loaded_at; try done.
  - apply initial_inv.
  - apply small_vmalloc_ok.
Defined.
